(* ===== verification/_CoqProject ===== *)
-Q . S2P
Prelude.v
CString.v
AtTok.v
Misc.v
FcpParser.v
Sms3gpp2.v
AtChannel.v
AtThreads.v
AtReader.v
HidIds.v
MtTouch.v
MxcEdid.v
HdmiRegs.v
HdmiTx.v
MxcHdmi.v
HdmiInit.v
HdmiEdid.v
HdmiExamples.v
PnFrame.v
PnQueue.v
PnData.v
PnPoll.v
PnCommand.v
PnDriver.v
PnRequests.v
PnProbe.v
PnExamples.v
Pn544.v
AtSocket.v
RilPort.v
RilCalls.v
RilNetwork.v
RilState.v
RilSim.v
RilSms.v
RilData.v
PppSocket.v
Ril.v
AltPort.v
AltData.v
AltNetwork.v
AltSms.v
AltCalls.v
AltRil.v
AltSteps.v
