(* ===== verification/Prelude.v ===== *)
(** * Verification of the C programs of an Android source patch

    The repository patches an Android tree for one board: it replaces the radio
    interface layer (RIL) with two versions that talk AT commands to a modem, and
    kernel drivers for a touch screen, the display and two NFC readers.
    This development models the parts of these programs that have logic of their
    own, and proves what they do, where they go wrong included.

    ** The program and the files

    The AT channel ([hardware/ril]).  A reader thread takes bytes from the modem,
    cuts them into lines and gives each line to the command in progress or to a
    callback; a command thread writes a command and waits.
    - [CString]: the C library's string functions.
    - [AtTok]: [reference-ril/at_tok.c].  The cursor that the C routines move is
      what remains of the line.
    - [AtChannel]: the command side of [atchannel.c], in both copies
      ([reference-ril], [altair-ril]), which a [variant] selects.
    - [AtThreads]: commands of several threads on this channel, as a step
      relation, with the mutex that the Altair copy adds.
    - [AtReader]: [readline] and [readerLoop] of [atchannel.c], on the array they
      use.
    A command calls the writer, then sleeps; what the reader thread does to it
    while it sleeps is a list of actions, [processLine] among them, and
    [AtReader] shows which lines a stream of bytes gives.

    Codecs and helpers of the RIL.
    - [Misc]: [reference-ril/misc.c], [misc.h]: elements of an XML text,
      hexadecimal TLVs.
    - [FcpParser]: [reference-ril/fcp_parser.c], with [convertSimIoFcp] of
      [reference-ril.c].
    - [Sms3gpp2]: [altair-ril/SMS3GPP2.c].
    - [AtSocket]: [altair-ril/altair_at_socket.c] and its client: a second way to
      the modem, by messages on a socket.

    The RIL's requests ([reference-ril/reference-ril.c]).  Telephony gives
    requests to [onRequest], the reader thread gives lines nobody asked for to
    [onUnsolicited]; a handler sends commands over the channel, reads the answers
    with the tokenizer, and completes the request.
    - [RilPort]: the interface [at_port] to the channel, the variables of the
      file, the monad of the handlers.
    - [RilCalls], [RilNetwork], [RilState], [RilSim], [RilSms], [RilData]: the
      handlers, by subject.
    - [PppSocket]: the thread of [atchannel.c] that hears of the loss of pppd's link.
    - [Ril]: the dispatch of requests and lines, and the program as a transition
      system.

    The second RIL ([altair-ril/altair-ril.c]), for an LTE modem: in the same
    monad, over the same variables and interface.  Functions that are those of the
    reference RIL word for word are taken from its files, under their own names.
    - [AltPort]: the build's options, the system, the commands that are sent again
      until they succeed, the network interfaces.
    - [AltData]: the table of networks, the list of data calls, their start and end.
    - [AltNetwork]: signal, registration, operator, choice of a network, technology.
    - [AltSms]: messages, those of CDMA over [Sms3gpp2].
    - [AltCalls]: calls and the services of VoLTE.
    - [AltRil]: the radio's state, the callbacks, the dispatch of requests and lines.
    - [AltSteps]: what code leaves of the variables; the program as a transition
      system.

    The touch screen ([kernel_imx/drivers/hid]).  [HidIds] has the numbers of
    [hid-ids.h], [MtTouch] models [hid-multitouch.c]: classes, the table of
    devices, the mapping of a report, events, slots, probing.

    The display ([kernel_imx/drivers/video]).  [MxcEdid] models [mxc_edid.c]: the
    table of CEA modes, the search in it, the parser of the extension block and
    the reading of the blocks.  The other files model [mxc_hdmi.c], the driver of
    the transmitter.  A register file and the device behind it, the driver's
    structure and the frame buffer's are its world; a function is code of a state
    monad over it that also tells what it does outside.
    - [HdmiRegs]: the registers, the masks of the headers ([hdmi_h]) and the
      device ([hdmi_core]), which may answer a status register anything at any
      time.
    - [HdmiTx]: the functions that program the transmitter, and a weakest
      precondition with the registers that each of them may write.
    - [MxcHdmi]: the set up of a mode, the choice of one, the events of the frame
      buffer, the EDID by either way, the cable, the attributes.
    - [HdmiInit]: the start and the end, and the driver as a transition system.
    - [HdmiEdid]: the two ways to read an EDID compared, the list of modes.
    - [HdmiExamples]: a frame buffer, a device and displays, and the theorems on
      them.

    The NFC readers ([kernel_imx/drivers/nfc]).  The first is [pn533.c], whose
    functions run in the workqueue, in the NFC core, in a timer and in USB's
    callbacks.
    - [PnFrame]: the two frame formats, what a command and a response are in them.
    - [PnQueue]: the queue of commands as a step relation.
    - [PnData]: responses in several parts.
    - [PnPoll]: the list of modulations, the targets, and the polling as a step
      relation.
    - [PnCommand]: the driver's functions as computations on its state, from the
      allocation of a request to the wait for its answer; the configuration.
    - [PnDriver]: the operations for the NFC core, the works, the timer and the
      callbacks, whole, over the queue of [PnQueue] and the state of [PnPoll]; the
      driver as a transition system.
    - [PnRequests]: what polling and the set up of a link send.
    - [PnProbe]: the devices, the probe and the end.
    - [PnExamples]: a kernel, a chip, and the theorems on them.
    [Pn544] models [pn544.c]: the power and the regulators, messages with their
    CRC, the file operations and the interrupt's thread, probing and removal.

    ** Conventions

    Integers are [Z], cut to their C type where the source converts them
    ([u8], [u16], [u32], [s32]; the target is a 32-bit ARM, whose [char] is
    unsigned).  Buffers and structures are explicit: a buffer is a list, reading
    and writing it is checked ([arr_rd], [arr_wr], [put_block]), and an
    operation has an [outcome]: a result, [Ub] for an access outside an object
    (or another operation that C leaves undefined), [Halt] for a failed assert,
    and [NoFuel] when a loop has used up its fuel.  Operations are executable,
    and the witness of a theorem with hypotheses applies it to a concrete input.

    What is not in the repository is a parameter.  [fb_h], [edid_h], [hdmi_h],
    [nfc_h], [pn544_h] and [hid_usages] stand for kernel headers, [fb_lib] for the
    frame buffer layer's functions on modes, [hdmi_env] for what it does when a
    mode is set ([fb_obedient]: it takes the mode and announces it), [skbuff] with
    [skbuff_laws] for socket buffers, the answers of system calls and of the
    kernel are arguments (scripts of [read] and [write], of I2C transfers,
    results of USB submissions, [data_system] for what the RIL asks of the system
    to set a data call up, [alt_env] for the Altair build and its system, [nfc_env] with its laws for what [pn533.c] asks, and
    [nfc_wait_laws] for what happens while it waits), and what the program tells the
    outside is a list of effects.

    Interfaces inside the program are classes.  [frame_format] stands between the
    NFC command layer and its two frame formats.  [at_port] stands between the
    request handlers and the AT channel: how a command is sent, and how the
    channel is shut.  [at_port_laws m] is what a port promises, in three degrees:
    [Partial], that a command which returns leaves the channel in order; [Safe],
    that it makes no invalid access besides; [Total], that it also returns.  The
    theorems about handlers are proved from the laws, for any port.
    [modem_port] makes a port of the operations of [AtChannel] and of what the
    other side does while a command waits, and keeps the laws of whatever degree
    that other side allows; [scripted] is a modem that answers from a list, with
    which witnesses and examples run.

    ** What the theorems show

    - The AT channel: the answer of a command is the lines of its response
      ([at_send_command_answer]); no command makes an invalid access whatever the
      other threads do, when one command is sent at a time
      ([at_send_command_safe]), which the Altair mutex brings about
      ([altair_commands_serialised]); two at a time break this
      ([concurrent_command_crashes]); the prompt of a message is answered once
      ([sms_prompt_answered_once]); the handshake's result ([handshake_outcome]);
      error codes ([cme_error_code]).
    - The reader: the lines read are those of the stream, however it is cut into
      reads ([readline_stream]); any stream keeps to the buffer
      ([readline_safe]), with a stale byte after a prompt ([prompt_stale_bytes]);
      each unsolicited line goes to its callback ([readerLoop_unsolicited]).
    - Codecs: round trips of the short message codec ([sms_roundtrip]), of the
      tokenizer ([at_tok_response_roundtrip]) and of hexadecimal text
      ([binaryToString_roundtrip]), the refinement of a TLV specification by the
      SIM parser ([fcp_to_ts_51011_refines]), and their failures:
      [cause_codes_sent_as_reply], [long_address_overflows],
      [ack_address_not_dtmf], [fcp_truncated_reads_past_end].
    - The socket: a command of the client and its final response
      ([at_socket_end_to_end]); what an announced length does to the array
      ([announced_length]).
    - The requests, whatever the modem answers: each is completed once, without
      an invalid access, all but four kinds ([requests_completed_once], with
      what the four do); in every reachable state the variables have values of
      their types ([variables_well_typed]), and a closed channel means no radio
      ([closed_channel_no_radio]).
    - The requests, by the modem's answer: [registration_reported],
      [current_calls_reported], [operator_reported], [sim_io_usim] (which
      composes the handler with the SIM parser), [stored_sms_fetched],
      [data_calls_listed], [ppp_call_set_up], and the modem taken for another
      ([one_technology_misread]).  The loss of pppd's link is told
      until the first failure of its socket ([ppp_down_reported]).
    - The Altair RIL, whatever the modem answers: a set of requests makes no invalid
      access and is completed once, any request that returns has been completed, an
      acknowledgement of a message twice ([alt_requests_completed]); in every
      reachable state the radio is off, on or not available, so that the card is
      never polled, and a modem that is on is one of LTE ([sim_never_polled]).  By
      the modem's answer: [network_connected], [network_disconnected],
      [networks_listed] and its loop without end ([shared_context_never_listed]),
      [lte_registration_reported], [networks_in_range], [network_chosen],
      [radio_power_off], [call_fail_cause_reported], [arriving_sms_reported],
      [cdma_sms_delivered] (which composes the handlers with the message format),
      and what becomes of the response of a command that is sent again
      ([reliable_retries]).
    - The touch screen: a frame of contacts is reported as it is
      ([frame_tracks_contacts]), contact ids stay distinct
      ([contacts_distinct]), what happens to a contact that finds no slot
      ([replaced_contact_dropped]), and what probing leaves
      ([mt_probe_ready]).
    - The display: an extension block's modes and settings, with the overflow of
      the mode array ([ext_blk_modes]); the reading of the blocks, with the
      overrun of the block array ([edid_read_blocks]); termination
      ([ext_blk_ends]) and its limit ([ext_blk_hangs]); the numbers of the
      table's modes ([mode_to_vic_table]).
    - The transmitter: from a start on, it is powered only with a display
      connected and a screen to show, and plugs and unplugs are announced in turn
      ([driver_in_order]); a set up programs the screen's mode
      ([setup_programs]); which mode is sent when one is chosen, and the mode
      that leaves it dark ([mode_chosen]); the list of modes for what a display
      answers ([display_list]); the reading through the transmitter, against the
      reading on the bus ([hdcp_read]); what a start holds, whatever fails
      ([start_gives_back]).
    - The first NFC reader: the whole driver goes by the steps of its queue and of
      its polling, so that commands keep their order and no target is active while
      it polls, with the exception that the code allows ([driver_refines], from
      [commands_in_order] and [polling_excludes_target]); a command and its
      response ([command_exchange]), what the checksums catch
      ([corrupted_frame_invalid]) and the wrap of the length byte
      ([std_long_payload_wraps]); the wedge after a refused command
      ([refused_command_wedges]); responses in parts ([exchange_assembles]); the
      set up of a chip ([setup_configures]); what the start of polling
      ([polling_starts], [polls_requested]) and of a link ([link_requested]) send,
      and the misreading of the first modulation ([first_modulation_misread]);
      what the probe holds ([probe_gives_back]) and the end gives back
      ([disconnect_keeps_usb_device]).
    - The second: no call leaves the buffer ([pn544_calls_safe]); what is sent
      is the caller's message, when it is well formed ([pn544_write_message]); a
      waiting read returns after the chip's interrupt ([waiting_read_returns]);
      the regulators are as the chip's state says ([regulators_balanced]), save
      after a switch that failed ([failed_switch_unbalanced]); a failed probe
      gives all back ([probe_unwinds]).

    ** Bounds and fuel

    [MAX_AT_RESPONSE] (8192), the 20-byte address, the 50 modes, the 512 bytes of
    EDID and the 263 bytes of a payload are the program's.  Fuel bounds loops
    that are not structural: [readline] and [readerLoop] by the size of the
    script, the short message by its length, the SIM parser by the text's length
    ([fcp_terminates]), the EDID loops by 256 rounds, enough by [ext_blk_ends]
    for every block that announces its timings inside itself; the audio and
    speaker loops by the 11 rounds that 31 bytes allow, the 3D formats by 32.
    The transmitter's waits look at a register at most 1001 times (5 for the lock
    of its PLL), as the source does; each way to read an EDID gives the parser 256
    rounds.  The loops of the request handlers go over the lines of an answer or count
    to the source's bound, and need none, but for two of the Altair RIL: the search
    for networks passes a character in each round, so that the length of its line is
    enough, and the loop over the data calls has no bound in the source
    ([shared_context_never_listed]); [rounds] says how far it is followed, and the
    length of the table is enough where every context is of one network
    ([networks_listed]).

    ** What is not modelled

    Of [pn533.c], which buffers its error paths free, and the works that the
    end of its workqueue still runs; of [reference-ril.c], the opening of the
    device ([mainLoop], [RIL_Init]) and two functions that nothing calls
    ([getRUIMStatus], [requestCdmaPrlVersion]); of [altair-ril.c], the same opening and its options, the mutex around the
    radio's state, the code that only builds for other boards have
    ([altair_remove], the TI workarounds, [POLL_CALL_STATE]); the registration
    of drivers, logging and debugging output. Java, build files, resources,
    scripts and prebuilt files have no model. Interleaving inside a locked
    region is not considered, except where [AtChannel] and [AtThreads] say
    which lock is missing; an NFC transfer completes after the function that
    submitted it has returned; the HDMI driver's interrupt does not come while
    its work runs, and the frame buffer calls the driver back only while a
    mode is set. *)

From stdpp Require Export prelude strings.
From Stdlib Require Export ZArith Lia.

#[global] Open Scope Z_scope.

(** ** Machine integers

    Every C integer is a [Z]; the conversions below are the C conversions of
    the ARMv7 (ILP32, two's complement, [char] unsigned) target. *)

Definition u8 (x : Z) : Z := x mod 2 ^ 8.
Definition u16 (x : Z) : Z := x mod 2 ^ 16.
Definition u32 (x : Z) : Z := x mod 2 ^ 32.
Definition s32 (x : Z) : Z := (x + 2 ^ 31) mod 2 ^ 32 - 2 ^ 31.

Definition INT_MIN : Z := - 2 ^ 31.
Definition INT_MAX : Z := 2 ^ 31 - 1.

Declare Scope cint_scope.
Delimit Scope cint_scope with cint.
Infix ".&" := Z.land (at level 38, left associativity) : cint_scope.
Infix ".|" := Z.lor (at level 39, left associativity) : cint_scope.
#[global] Open Scope cint_scope.

(** Truth value of a C integer used as a condition. *)
Definition ctrue (x : Z) : bool := negb (x =? 0).
Definition b2z (b : bool) : Z := if b then 1 else 0.

(** A [char]/[u8] object, and a buffer of them. *)
Definition is_byte (x : Z) : Prop := 0 <= x < 256.
Abbreviation bytes := (list Z).
Definition bytes_ok (l : bytes) : Prop := Forall is_byte l.

(** A C string is the list of its characters before the terminator: bytes,
    none of them NUL. *)
Definition is_char (x : Z) : Prop := 0 < x < 256.
Definition cstr_ok (s : bytes) : Prop := Forall is_char s.

(** String literals of the source. *)
Fixpoint s2b (s : string) : bytes :=
  match s with
  | EmptyString => []
  | String c s => Z.of_N (Ascii.N_of_ascii c) :: s2b s
  end.

(** ** Outcomes

    What a C routine does when its caller keeps the routine's contract or not:
    it returns, it performs an access outside an object (or another operation C
    leaves undefined), an [assert] fails and stops the process, or the model ran
    out of fuel in a loop. *)

Inductive outcome (A : Type) :=
| Ret (a : A)
| Ub
| Halt
| NoFuel.
Arguments Ret {A} a.
Arguments Ub {A}.
Arguments Halt {A}.
Arguments NoFuel {A}.

#[export] Instance outcome_ret : MRet outcome := fun A a => Ret a.
#[export] Instance outcome_bind : MBind outcome := fun A B k m =>
  match m with Ret a => k a | Ub => Ub | Halt => Halt | NoFuel => NoFuel end.

Definition c_assert (b : bool) : outcome unit := if b then Ret tt else Halt.

(** An access that the source does not check. *)
Definition checked {A} (o : option A) : outcome A :=
  match o with Some a => Ret a | None => Ub end.

(** Partial correctness: [o] is not undefined and no [assert] fails, and what
    it returns satisfies [P]. *)
Definition safely {A} (P : A -> Prop) (o : outcome A) : Prop :=
  match o with Ret a => P a | NoFuel => True | Ub | Halt => False end.

(** Reading [p[i]] of a C string: its characters, then the terminator. *)
Definition str_rd (s : bytes) (i : Z) : outcome Z :=
  if (0 <=? i) && (i <? Z.of_nat (length s)) then checked (s !! Z.to_nat i)
  else if i =? Z.of_nat (length s) then Ret 0 else Ub.

(** Reading and writing [p[i]] of an array object. *)
Definition arr_rd {A} (l : list A) (i : Z) : outcome A :=
  if 0 <=? i then checked (l !! Z.to_nat i) else Ub.

Definition arr_wr {A} (l : list A) (i : Z) (v : A) : outcome (list A) :=
  if (0 <=? i) && (i <? Z.of_nat (length l)) then Ret (<[Z.to_nat i := v]> l) else Ub.

(** Copying [d] into an array from index [off] on, as [memcpy] does. *)
Definition put_block (edid : bytes) (off : Z) (d : bytes) : outcome bytes :=
  if (0 <=? off) && (off + Z.of_nat (length d) <=? Z.of_nat (length edid))
  then Ret (take (Z.to_nat off) edid ++ d ++ drop (Z.to_nat off + length d) edid) else Ub.

(** [errno] values of the target's C library. *)
Definition EINVAL : Z := 22.
Definition ENOTSUP : Z := 95.

(** ** Tactics *)

(** Split on every boolean comparison that guards an [if] of the goal. *)
Ltac zcase_one :=
  match goal with
  | |- context [if (?a =? ?b)%Z then _ else _] => destruct (Z.eqb_spec a b)
  | |- context [if (?a <? ?b)%Z then _ else _] => destruct (Z.ltb_spec a b)
  | |- context [if (?a <=? ?b)%Z then _ else _] => destruct (Z.leb_spec a b)
  end.
Ltac zcase := repeat (zcase_one; simpl).

(** Turn boolean comparisons in the hypotheses into propositions. *)
Ltac zbool :=
  repeat match goal with
  | H : andb _ _ = true |- _ => apply andb_true_iff in H; destruct H
  | H : orb _ _ = false |- _ => apply orb_false_iff in H; destruct H
  | H : negb _ = true |- _ => apply negb_true_iff in H
  | H : negb _ = false |- _ => apply negb_false_iff in H
  | H : (_ =? _) = true |- _ => apply Z.eqb_eq in H
  | H : (_ =? _) = false |- _ => apply Z.eqb_neq in H
  | H : (_ <? _) = true |- _ => apply Z.ltb_lt in H
  | H : (_ <? _) = false |- _ => apply Z.ltb_ge in H
  | H : (_ <=? _) = true |- _ => apply Z.leb_le in H
  | H : (_ <=? _) = false |- _ => apply Z.leb_gt in H
  end.

(** Introduce and discharge byte side conditions. *)
Create HintDb cbytes.
Create Rewrite HintDb crewrite.

(** ** Machine integer lemmas *)

Lemma u8_range x : 0 <= u8 x < 256.
Proof. unfold u8. apply Z.mod_pos_bound. lia. Qed.

Lemma u8_small x : 0 <= x < 256 -> u8 x = x.
Proof. intros. unfold u8. apply Z.mod_small. lia. Qed.

Lemma u8_idem x : u8 (u8 x) = u8 x.
Proof. apply u8_small, u8_range. Qed.

Lemma u8_add_l x y : u8 (u8 x + y) = u8 (x + y).
Proof. unfold u8. apply Zplus_mod_idemp_l. Qed.

Lemma u8_add_r x y : u8 (x + u8 y) = u8 (x + y).
Proof. unfold u8. apply Zplus_mod_idemp_r. Qed.

Lemma u32_small x : 0 <= x < 2 ^ 32 -> u32 x = x.
Proof. intros. unfold u32. apply Z.mod_small. lia. Qed.

Lemma u32_range x : 0 <= u32 x < 2 ^ 32.
Proof. unfold u32. apply Z.mod_pos_bound. lia. Qed.

Lemma s32_range x : INT_MIN <= s32 x <= INT_MAX.
Proof.
  unfold s32, INT_MIN, INT_MAX.
  pose proof (Z.mod_pos_bound (x + 2 ^ 31) (2 ^ 32)). lia.
Qed.

Lemma s32_small x : INT_MIN <= x <= INT_MAX -> s32 x = x.
Proof.
  unfold s32, INT_MIN, INT_MAX. intros. rewrite Z.mod_small; lia.
Qed.

Lemma is_byte_u8 x : is_byte (u8 x).
Proof. apply u8_range. Qed.

Lemma is_char_byte x : is_char x -> is_byte x.
Proof. unfold is_char, is_byte. lia. Qed.

#[export] Hint Resolve is_byte_u8 is_char_byte : cbytes.
#[export] Hint Rewrite u8_idem u8_add_l u8_add_r : crewrite.

(** Exhaustive checking of a decidable property of all bytes. *)
Lemma byte_forall (P : Z -> bool) :
  forallb P (seqZ 0 256) = true -> forall x, is_byte x -> P x = true.
Proof.
  intros H x Hx. rewrite forallb_forall in H. apply H.
  apply list_elem_of_In, elem_of_seqZ. unfold is_byte in Hx. lia.
Qed.

Lemma byte_forall2 (P : Z -> Z -> bool) :
  forallb (fun x => forallb (P x) (seqZ 0 256)) (seqZ 0 256) = true ->
  forall x y, is_byte x -> is_byte y -> P x y = true.
Proof.
  intros H x y Hx Hy.
  apply byte_forall; [|done].
  by apply (byte_forall (fun x => forallb (P x) (seqZ 0 256))).
Qed.

Lemma zrange_forall (n : Z) (P : Z -> bool) :
  forallb P (seqZ 0 n) = true -> forall x, 0 <= x < n -> P x = true.
Proof.
  intros H x Hx. rewrite forallb_forall in H. apply H.
  apply list_elem_of_In, elem_of_seqZ. lia.
Qed.

(** ** Outcomes: lemmas *)

Lemma safely_bind {A B} (P : A -> Prop) (Q : B -> Prop) (m : outcome A) (k : A -> outcome B) :
  safely P m -> (forall a, P a -> safely Q (k a)) -> safely Q (m ≫= k).
Proof. destruct m; cbn; auto. Qed.

Lemma safely_mono {A} (P Q : A -> Prop) (m : outcome A) :
  safely P m -> (forall a, P a -> Q a) -> safely Q m.
Proof. destruct m; cbn; auto. Qed.

(** ** Lists *)

Lemma drop_app_exact {A} (l1 l2 : list A) n :
  n = length l1 -> drop n (l1 ++ l2) = l2.
Proof. intros ->. by rewrite drop_app_length. Qed.

Lemma take_app_exact {A} (l1 l2 : list A) n :
  n = length l1 -> take n (l1 ++ l2) = l1.
Proof. intros ->. by rewrite take_app_length. Qed.

Lemma lookup_app_exact {A} (l1 l2 : list A) x n :
  n = length l1 -> (l1 ++ x :: l2) !! n = Some x.
Proof. intros ->. by apply list_lookup_middle. Qed.

Lemma cstr_ok_app s t : cstr_ok (s ++ t) <-> cstr_ok s /\ cstr_ok t.
Proof. apply Forall_app. Qed.

Lemma app_cons1 {A} (pre : list A) a r : pre ++ a :: r = (pre ++ [a]) ++ r.
Proof. by rewrite <- app_assoc. Qed.

Lemma app_cons2 {A} (pre : list A) a b r : pre ++ a :: b :: r = (pre ++ [a; b]) ++ r.
Proof. by rewrite <- app_assoc. Qed.

(** Induction two elements at a time. *)
Lemma list_ind2 {A} (P : list A -> Prop) :
  P [] -> (forall x, P [x]) -> (forall x y l, P l -> P (x :: y :: l)) -> forall l, P l.
Proof.
  intros H0 H1 H2 l. enough (P l /\ forall x, P (x :: l)) by tauto.
  induction l as [|x l [IH1 IH2]]; split; auto.
Qed.

(** ** Arrays *)

Lemma arr_rd_middle {A} (pre : list A) x post i :
  i = Z.of_nat (length pre) -> arr_rd (pre ++ x :: post) i = Ret x.
Proof.
  intros ->. unfold arr_rd. destruct (Z.leb_spec 0 (Z.of_nat (length pre))); [|lia].
  by rewrite Nat2Z.id, list_lookup_middle.
Qed.

Lemma arr_rd_nat {A} (l : list A) (n : nat) : arr_rd l (Z.of_nat n) = checked (l !! n).
Proof.
  unfold arr_rd. destruct (Z.leb_spec 0 (Z.of_nat n)); [|lia]. by rewrite Nat2Z.id.
Qed.

Lemma arr_wr_in {A} (l : list A) i v :
  0 <= i < Z.of_nat (length l) -> arr_wr l i v = Ret (<[Z.to_nat i := v]> l).
Proof.
  intros Hi. unfold arr_wr. by replace ((0 <=? i) && (i <? Z.of_nat (length l))) with true by lia.
Qed.

Lemma arr_wr_out {A} (l : list A) i v : Z.of_nat (length l) <= i -> arr_wr l i v = Ub.
Proof.
  intros Hi. unfold arr_wr. by replace ((0 <=? i) && (i <? Z.of_nat (length l))) with false by lia.
Qed.

Lemma arr_wr_middle {A} (pre : list A) x post i v :
  i = Z.of_nat (length pre) -> arr_wr (pre ++ x :: post) i v = Ret (pre ++ v :: post).
Proof.
  intros ->. rewrite arr_wr_in by (rewrite length_app; simpl; lia).
  rewrite Nat2Z.id. f_equal. rewrite insert_app_r_alt by lia.
  by rewrite Nat.sub_diag.
Qed.

Lemma arr_rd_at {A} (pre : list A) x post : arr_rd (pre ++ x :: post) (Z.of_nat (length pre)) = Ret x.
Proof. by apply arr_rd_middle. Qed.

Lemma arr_wr_at {A} (pre : list A) x post v :
  arr_wr (pre ++ x :: post) (Z.of_nat (length pre)) v = Ret (pre ++ v :: post).
Proof. by apply arr_wr_middle. Qed.

Lemma arr_rd_after {A} (pre l : list A) (i k : Z) :
  i = Z.of_nat (length pre) + k -> 0 <= k -> arr_rd (pre ++ l) i = arr_rd l k.
Proof.
  intros -> Hk. unfold arr_rd. rewrite (proj2 (Z.leb_le 0 _)) by lia. rewrite (proj2 (Z.leb_le 0 k)) by lia.
  rewrite Z2Nat.inj_add, Nat2Z.id by lia. by rewrite lookup_app_r, Nat.add_comm, Nat.add_sub by lia.
Qed.

Lemma put_block_mid (pre mid post d : bytes) (off : Z) :
  off = Z.of_nat (length pre) -> length mid = length d ->
  put_block (pre ++ mid ++ post) off d = Ret (pre ++ d ++ post).
Proof.
  intros -> Hl. unfold put_block. rewrite !length_app.
  rewrite (proj2 (Z.leb_le 0 _)), (proj2 (Z.leb_le (_ + _) _)) by lia. cbn [andb]. rewrite Nat2Z.id, take_app_length.
  rewrite <- Hl, (app_assoc pre mid), drop_app_length' by (by rewrite length_app). done.
Qed.

(** ** Outcomes that end *)

(** [o] does not run out of fuel, and what it returns satisfies [P]. *)
Definition ends {A} (P : A -> Prop) (o : outcome A) : Prop :=
  match o with Ret a => P a | NoFuel => False | Ub | Halt => True end.

Lemma ends_bind {A B} (P : A -> Prop) (Q : B -> Prop) (m : outcome A) (k : A -> outcome B) :
  ends P m -> (forall a, P a -> ends Q (k a)) -> ends Q (m ≫= k).
Proof. destruct m; cbn; auto. Qed.

Lemma arr_rd_ends {A} (l : list A) i : ends (fun _ => True) (arr_rd l i).
Proof. unfold arr_rd. case_match; [|done]. by destruct (l !! Z.to_nat i). Qed.

Lemma arr_wr_ends {A} (l : list A) i v : ends (fun _ => True) (arr_wr l i v).
Proof. unfold arr_wr. by case_match. Qed.
