(* ===== verification/CString.v ===== *)
(** * The C string routines the sources call

    [strlen], [strchr], [strsep], [strstr], [strcmp], [strtol], [strtoul] and
    the [ctype] tests, on C strings given as the list of their characters.  A
    [char *] that may be NULL is an [option]: [Some s] points at the first
    character of [s], and advancing it drops characters of [s]. *)

From S2P Require Import Prelude.

(** ** ctype *)

Definition c_isspace (c : Z) : bool := (c =? 32) || ((9 <=? c) && (c <=? 13)).
Definition c_isdigit (c : Z) : bool := (48 <=? c) && (c <=? 57).

(** ** Searching and splitting *)

(** [strchr(s, c)] for a character [c] other than NUL. *)
Fixpoint strchr (s : bytes) (c : Z) : option bytes :=
  match s with
  | [] => None
  | x :: r => if x =? c then Some s else strchr r c
  end.

(** [strsep(&cur, d)] with a single delimiter [d]: the token, and the new
    cursor (NULL when the delimiter does not occur). *)
Fixpoint split_at (d : Z) (s : bytes) : bytes * option bytes :=
  match s with
  | [] => ([], None)
  | x :: r => if x =? d then ([], Some r)
              else let '(t, k) := split_at d r in (x :: t, k)
  end.

Definition strsep (cur : option bytes) (d : Z) : option bytes * option bytes :=
  match cur with
  | None => (None, None)
  | Some s => let '(t, k) := split_at d s in (Some t, k)
  end.

(** [starts p s]: the characters of [p] are the first ones of [s]. *)
Fixpoint starts (p s : bytes) : bool :=
  match p, s with
  | [], _ => true
  | x :: p', y :: s' => (x =? y) && starts p' s'
  | _, _ => false
  end.

(** [strstr(s, p)], as the offset of the first occurrence. *)
Fixpoint strstr_off (s p : bytes) : option nat :=
  if starts p s then Some 0%nat
  else match s with
       | [] => None
       | _ :: r => S <$> strstr_off r p
       end.

Definition strcmp_eq (s t : bytes) : bool := bool_decide (s = t).

(** ** Numbers *)

Definition digit_val (c : Z) : option Z :=
  if (48 <=? c) && (c <=? 57) then Some (c - 48)
  else if (97 <=? c) && (c <=? 122) then Some (c - 97 + 10)
  else if (65 <=? c) && (c <=? 90) then Some (c - 65 + 10)
  else None.

Definition digit_in (base c : Z) : option Z :=
  match digit_val c with
  | Some d => if d <? base then Some d else None
  | None => None
  end.

(** Accumulate the leading digits: value, and how many were read. *)
Fixpoint read_digits (base acc : Z) (s : bytes) : Z * nat :=
  match s with
  | [] => (acc, 0%nat)
  | c :: r =>
    match digit_in base c with
    | Some d => let '(v, n) := read_digits base (acc * base + d) r in (v, S n)
    | None => (acc, 0%nat)
    end
  end.

Fixpoint skip_spaces (s : bytes) : bytes * nat :=
  match s with
  | c :: r => if c_isspace c then let '(t, n) := skip_spaces r in (t, S n) else (s, 0%nat)
  | [] => ([], 0%nat)
  end.

(** The optional sign: whether it is negative, the rest, characters read. *)
Definition read_sign (s : bytes) : bool * bytes * nat :=
  match s with
  | c :: r => if c =? 45 then (true, r, 1%nat)
              else if c =? 43 then (false, r, 1%nat) else (false, s, 0%nat)
  | [] => (false, [], 0%nat)
  end.

(** The optional [0x] of base 16, only when a hexadecimal digit follows. *)
Definition read_0x (base : Z) (s : bytes) : bytes * nat :=
  match s with
  | z :: x :: h :: _ =>
    if (base =? 16) && (z =? 48) && ((x =? 120) || (x =? 88)) &&
       (match digit_in 16 h with Some _ => true | None => false end)
    then (drop 2 s, 2%nat) else (s, 0%nat)
  | _ => (s, 0%nat)
  end.

(** Sign, magnitude and [endptr - nptr] (0 when there is no number). *)
Definition parse_number (s : bytes) (base : Z) : bool * Z * nat :=
  let '(s1, n1) := skip_spaces s in
  let '(neg, s2, n2) := read_sign s1 in
  let '(s3, n3) := read_0x base s2 in
  match read_digits base 0 s3 with
  | (_, O) => (false, 0, 0%nat)
  | (v, n4) => (neg, v, (n1 + n2 + n3 + n4)%nat)
  end.

(** [long] is 32 bits wide on the target. *)
Definition LONG_MIN : Z := INT_MIN.
Definition LONG_MAX : Z := INT_MAX.
Definition ULONG_MAX : Z := 2 ^ 32 - 1.

Definition strtol (s : bytes) (base : Z) : Z * nat :=
  let '(neg, v, n) := parse_number s base in
  (Z.max LONG_MIN (Z.min LONG_MAX (if neg then - v else v)), n).

Definition strtoul (s : bytes) (base : Z) : Z * nat :=
  let '(neg, v, n) := parse_number s base in
  (if ULONG_MAX <? v then ULONG_MAX else u32 (if neg then - v else v), n).

(** ** Lemmas *)

Lemma strchr_app_notin s1 s2 c :
  c ∉ s1 -> strchr (s1 ++ s2) c = strchr s2 c.
Proof.
  induction s1 as [|x s1 IH]; [done|]. rewrite not_elem_of_cons. intros [Hx Hs].
  simpl. destruct (Z.eqb_spec x c); [congruence|auto].
Qed.

Lemma split_at_app_notin d s1 s2 :
  d ∉ s1 -> split_at d (s1 ++ d :: s2) = (s1, Some s2).
Proof.
  induction s1 as [|x s1 IH]; simpl.
  - by rewrite Z.eqb_refl.
  - rewrite not_elem_of_cons. intros [Hx Hs].
    destruct (Z.eqb_spec x d); [congruence|]. by rewrite IH.
Qed.

Lemma split_at_notin d s : d ∉ s -> split_at d s = (s, None).
Proof.
  induction s as [|x s IH]; [done|]. rewrite not_elem_of_cons. intros [Hx Hs].
  simpl. destruct (Z.eqb_spec x d); [congruence|]. by rewrite IH.
Qed.

Lemma split_at_spec d s t k :
  split_at d s = (t, k) ->
  (d ∉ t) /\ s = match k with Some r => t ++ d :: r | None => t end.
Proof.
  revert t k; induction s as [|x s IH]; intros t k; simpl.
  - intros [= <- <-]. split; [set_solver|done].
  - destruct (Z.eqb_spec x d) as [->|Hne].
    + intros [= <- <-]. split; [set_solver|done].
    + destruct (split_at d s) as [t' k'] eqn:E. intros [= <- <-].
      destruct (IH _ _ eq_refl) as [Hd ->]. split; [|by destruct k'].
      rewrite not_elem_of_cons. by split.
Qed.

Lemma starts_spec p s : starts p s = true <-> exists r, s = p ++ r.
Proof.
  revert s; induction p as [|x p IH]; intros s; simpl.
  - split; [by exists s|done].
  - destruct s as [|y s]; simpl.
    + split; [done|by intros (r & ?)].
    + rewrite andb_true_iff, Z.eqb_eq, IH. split.
      * intros [-> (r & ->)]. by exists r.
      * intros (r & [= -> ->]). split; [done|by exists r].
Qed.

Lemma starts_app p r : starts p (p ++ r) = true.
Proof. apply starts_spec. by exists r. Qed.

Lemma strstr_off_spec s p n :
  strstr_off s p = Some n ->
  starts p (drop n s) = true /\
  (forall m, (m < n)%nat -> starts p (drop m s) = false) /\ (n <= length s)%nat.
Proof.
  revert n; induction s as [|x s IH]; intros n; cbn [strstr_off];
    destruct (starts p _) eqn:E.
  1,3: intros [= <-]; repeat split; [done|lia|simpl; lia].
  - done.
  - destruct (strstr_off s p) as [k|]; [|done]. intros [= <-].
    destruct (IH k eq_refl) as (Hk & Hlt & Hle).
    split; [done|]. split; [|simpl; lia]. intros [|m] Hm; [done|]. apply Hlt. lia.
Qed.

Lemma strstr_off_first s p n :
  starts p (drop n s) = true ->
  (forall m, (m < n)%nat -> starts p (drop m s) = false) ->
  (n <= length s)%nat ->
  strstr_off s p = Some n.
Proof.
  revert n; induction s as [|x s IH]; intros n Hn Hlt Hle; cbn [strstr_off].
  - simpl in Hle. assert (n = 0%nat) as -> by lia. simpl in Hn. by rewrite Hn.
  - destruct n as [|n]; [simpl in Hn; by rewrite Hn|].
    pose proof (Hlt 0%nat ltac:(lia)) as H0. simpl in H0. rewrite H0.
    rewrite (IH n); [done|done| |simpl in Hle; lia].
    intros m Hm. apply (Hlt (S m)). lia.
Qed.

Lemma skip_spaces_app ws s :
  Forall (fun c => c_isspace c = true) ws ->
  match s with c :: _ => c_isspace c = false | [] => True end ->
  skip_spaces (ws ++ s) = (s, length ws).
Proof.
  intros Hw Hs. induction Hw as [|c ws Hc Hw IH]; simpl.
  - destruct s as [|c s]; [done|]. simpl. by rewrite Hs.
  - by rewrite Hc, IH.
Qed.

Lemma digit_in_nonspace base c d : digit_in base c = Some d -> c_isspace c = false.
Proof.
  unfold digit_in, digit_val, c_isspace.
  destruct (Z.leb_spec 48 c), (Z.leb_spec c 57), (Z.leb_spec 97 c), (Z.leb_spec c 122),
    (Z.leb_spec 65 c), (Z.leb_spec c 90); simpl; try done; lia.
Qed.

Lemma read_digits_app base acc ds r :
  Forall (fun c => is_Some (digit_in base c)) ds ->
  match r with c :: _ => digit_in base c = None | [] => True end ->
  exists v, read_digits base acc (ds ++ r) = (v, length ds) /\
            read_digits base acc ds = (v, length ds).
Proof.
  intros Hds Hr. revert acc. induction Hds as [|c ds [d Hd] Hds IH]; intros acc; simpl.
  - exists acc. destruct r as [|c r]; [done|]. simpl. by rewrite Hr.
  - rewrite Hd. destruct (IH (acc * base + d)) as (v & E1 & E2).
    exists v. by rewrite E1, E2.
Qed.

Lemma strtol_range s base : INT_MIN <= fst (strtol s base) <= INT_MAX.
Proof.
  unfold strtol, LONG_MIN, LONG_MAX, INT_MIN, INT_MAX.
  destruct (parse_number s base) as [[neg v] n]. simpl. lia.
Qed.
