(* ===== verification/AtTok.v ===== *)
(** * AT response tokenizer: [hardware/ril/reference-ril/at_tok.c]

    A [char **p_cur] is the current cursor, an [option bytes]: NULL, or the
    characters from the cursor to the terminator.  Every routine takes the
    cursor and returns the C result, what it stored through its other output
    pointer ([None] when it stored nothing), and the new cursor.  [strsep]
    overwrites the delimiter it finds with NUL: the token is then the
    characters before it, and nothing reads the overwritten cell again. *)

From S2P Require Import Prelude CString.

Definition COMMA : Z := 44.
Definition QUOTE : Z := 34.
Definition COLON : Z := 58.


(** ** Operations *)

Fixpoint count_char (needle : Z) (s : bytes) : Z :=
  match s with
  | [] => 0
  | c :: r => if c =? needle then count_char needle r + 1 else count_char needle r
  end.

Definition at_tok_charcounter (p_in : option bytes) (needle : Z) : Z * option Z :=
  match p_in with
  | None => (-1, None)
  | Some s => (0, Some (count_char needle s))
  end.

Definition at_tok_start (cur : option bytes) : Z * option bytes :=
  match cur with
  | None => (-1, None)
  | Some s =>
    match strchr s COLON with
    | None => (-1, None)
    | Some r => (0, Some (drop 1 r))
    end
  end.

Fixpoint skipWhiteSpace_s (s : bytes) : bytes :=
  match s with
  | c :: r => if c_isspace c then skipWhiteSpace_s r else s
  | [] => []
  end.

Definition skipWhiteSpace (cur : option bytes) : option bytes :=
  skipWhiteSpace_s <$> cur.

Fixpoint skipNextComma_s (s : bytes) : bytes :=
  match s with
  | c :: r => if c =? COMMA then r else skipNextComma_s r
  | [] => []
  end.

Definition skipNextComma (cur : option bytes) : option bytes :=
  skipNextComma_s <$> cur.

Definition nextTok (cur : option bytes) : option bytes * option bytes :=
  match skipWhiteSpace cur with
  | None => (None, None)
  | Some s =>
    match s with
    | c :: r =>
      if c =? QUOTE then
        let '(ret, cur1) := strsep (Some r) QUOTE in (ret, skipNextComma cur1)
      else strsep (Some s) COMMA
    | [] => strsep (Some s) COMMA
    end
  end.

Definition at_tok_nextint_base (cur : option bytes) (base : Z) (uns : bool)
  : Z * option Z * option bytes :=
  match cur with
  | None => (-1, None, None)
  | Some _ =>
    match nextTok cur with
    | (None, cur1) => (-1, None, cur1)
    | (Some ret, cur1) =>
      let '(l, end_off) := if uns then strtoul ret base else strtol ret base in
      (if (end_off =? 0)%nat then -1 else 0, Some (s32 l), cur1)
    end
  end.

Definition at_tok_nextint (cur : option bytes) : Z * option Z * option bytes :=
  at_tok_nextint_base cur 10 false.

Definition at_tok_nexthexint (cur : option bytes) : Z * option Z * option bytes :=
  at_tok_nextint_base cur 16 true.

(** [p_out] is a [char *] that may be NULL. *)
Definition at_tok_nextbool (cur : option bytes) (p_out_null : bool)
  : Z * option Z * option bytes :=
  match at_tok_nextint cur with
  | (ret, out, cur1) =>
    if ret <? 0 then (-1, None, cur1)
    else match out with
    | None => (-1, None, cur1)
    | Some result =>
      if negb ((result =? 0) || (result =? 1)) then (-1, None, cur1)
      else (ret, if p_out_null then None else Some (u8 result), cur1)
    end
  end.

(** The stored token is itself a [char *], NULL when [nextTok] returns NULL. *)
Definition at_tok_nextstr (cur : option bytes) : Z * option (option bytes) * option bytes :=
  match cur with
  | None => (-1, None, None)
  | Some _ => let '(ret, cur1) := nextTok cur in (0, Some ret, cur1)
  end.

Definition at_tok_hasmore (cur : option bytes) : bool :=
  match cur with
  | None => false
  | Some s => negb (bool_decide (s = []))
  end.

(** ** Specification side: lines as lists of fields *)

(** Reading a whole response with [at_tok_nextint], until one fails. *)
Fixpoint nextints (n : nat) (cur : option bytes) : option (list Z * option bytes) :=
  match n with
  | O => Some ([], cur)
  | S n =>
    match at_tok_nextint cur with
    | (0, Some v, cur1) => '(vs, k) ← nextints n cur1; Some (v :: vs, k)
    | _ => None
    end
  end.

(** Decimal digits of a non-negative number, most significant first. *)
Fixpoint dec_digits (fuel : nat) (n : Z) (acc : bytes) : bytes :=
  match fuel with
  | O => acc
  | S f => if n <? 10 then (48 + n) :: acc
           else dec_digits f (n / 10) ((48 + n mod 10) :: acc)
  end.

(** [%d] of a 32-bit integer: at most ten digits. *)
Definition print_int (z : Z) : bytes :=
  if z <? 0 then 45 :: dec_digits 10 (- z) [] else dec_digits 10 z [].

Definition int_ok (z : Z) : Prop := INT_MIN <= z <= INT_MAX.

(** [f1,f2,...,fn] *)
Fixpoint join_commas (fs : list bytes) : bytes :=
  match fs with
  | [] => []
  | [f] => f
  | f :: fs => f ++ COMMA :: join_commas fs
  end.

(** A token that fits between two quotes. *)
Definition quoted (s : bytes) : bytes := QUOTE :: s ++ [QUOTE].

(** How much of a line is left to read; NULL is past the end. *)
Definition cur_size (cur : option bytes) : nat :=
  match cur with None => 0 | Some s => S (length s) end.

(** ** Lemmas *)

Lemma skipWhiteSpace_length s : (length (skipWhiteSpace_s s) <= length s)%nat.
Proof. induction s as [|c s IH]; simpl; [lia|]. destruct (c_isspace c); simpl; lia. Qed.

Lemma skipNextComma_length s : (length (skipNextComma_s s) <= length s)%nat.
Proof. induction s as [|c s IH]; simpl; [lia|]. destruct (c =? COMMA); simpl; lia. Qed.

Lemma skipWhiteSpace_nonspace c s :
  c_isspace c = false -> skipWhiteSpace_s (c :: s) = c :: s.
Proof. simpl. by intros ->. Qed.

Lemma skipWhiteSpace_app ws s :
  Forall (fun c => c_isspace c = true) ws -> skipWhiteSpace_s (ws ++ s) = skipWhiteSpace_s s.
Proof. induction 1 as [|c ws Hc Hw IH]; simpl; [done|]. by rewrite Hc. Qed.

Lemma strsep_size s d t k :
  strsep (Some s) d = (t, k) -> (cur_size k < cur_size (Some s))%nat.
Proof.
  simpl. destruct (split_at d s) as [t' k'] eqn:E. intros [= <- <-].
  apply split_at_spec in E as [_ ->]. destruct k'; simpl; rewrite ?length_app; simpl; lia.
Qed.

Lemma skipNextComma_size cur : (cur_size (skipNextComma cur) <= cur_size cur)%nat.
Proof. destruct cur as [s|]; simpl; [|lia]. pose proof (skipNextComma_length s). lia. Qed.

(** A token with no comma, quote or leading space, followed by a comma or by
    the end of the line, is read whole. *)
Definition plain_token (f : bytes) : Prop :=
  (COMMA ∉ f) /\ exists c r, f = c :: r /\ c_isspace c = false /\ c <> QUOTE.

Lemma nextTok_plain_strsep ws f q :
  Forall (fun c => c_isspace c = true) ws -> plain_token f ->
  nextTok (Some (ws ++ f ++ q)) = strsep (Some (f ++ q)) COMMA.
Proof.
  intros Hw (_ & c & r & -> & Hs & Hq). unfold nextTok, skipWhiteSpace.
  cbn [fmap option_fmap option_map]. rewrite skipWhiteSpace_app by done.
  rewrite <- app_comm_cons, skipWhiteSpace_nonspace by done.
  by destruct (Z.eqb_spec c QUOTE).
Qed.

Lemma nextTok_plain_comma ws f r :
  Forall (fun c => c_isspace c = true) ws -> plain_token f ->
  nextTok (Some (ws ++ f ++ COMMA :: r)) = (Some f, Some r).
Proof.
  intros Hw Hf. rewrite nextTok_plain_strsep by done. unfold strsep.
  destruct Hf as [Hc _]. by rewrite split_at_app_notin.
Qed.

Lemma nextTok_plain_end ws f :
  Forall (fun c => c_isspace c = true) ws -> plain_token f ->
  nextTok (Some (ws ++ f)) = (Some f, None).
Proof.
  intros Hw Hf. rewrite <- (app_nil_r f) at 1. rewrite nextTok_plain_strsep by done.
  unfold strsep. destruct Hf as [Hc _]. by rewrite app_nil_r, split_at_notin.
Qed.

(** *** Decimal numbers *)

Definition dval (a : Z) (ds : bytes) : Z := foldl (fun a c => a * 10 + (c - 48)) a ds.

Lemma isdigit_digit_in c : c_isdigit c = true -> digit_in 10 c = Some (c - 48).
Proof.
  unfold c_isdigit, digit_in, digit_val. intros H. rewrite H. zbool.
  by destruct (Z.ltb_spec (c - 48) 10); [|lia].
Qed.

Lemma read_digits_dval a ds :
  Forall (fun c => c_isdigit c = true) ds -> read_digits 10 a ds = (dval a ds, length ds).
Proof.
  intros H. revert a. induction H as [|c ds Hc H IH]; intros a; simpl; [done|].
  by rewrite isdigit_digit_in, IH.
Qed.

Lemma dec_digits_isdigit f n acc :
  0 <= n -> Forall (fun c => c_isdigit c = true) acc ->
  Forall (fun c => c_isdigit c = true) (dec_digits f n acc).
Proof.
  revert n acc; induction f as [|f IH]; intros n acc Hn Ha; simpl; [done|].
  destruct (Z.ltb_spec n 10).
  - constructor; [|done]. unfold c_isdigit. apply andb_true_iff. split; lia.
  - apply IH; [apply Z.div_pos; lia|]. constructor; [|done].
    unfold c_isdigit. pose proof (Z.mod_pos_bound n 10).
    apply andb_true_iff. split; lia.
Qed.

Lemma dec_digits_dval f n acc :
  0 <= n < 10 ^ Z.of_nat f -> dval 0 (dec_digits f n acc) = dval n acc.
Proof.
  revert n acc; induction f as [|f IH]; intros n acc Hn.
  - simpl in *. by replace n with 0 by lia.
  - cbn [dec_digits]. destruct (Z.ltb_spec n 10).
    + unfold dval. simpl. f_equal. lia.
    + rewrite Nat2Z.inj_succ, Z.pow_succ_r in Hn by lia. rewrite IH.
      * unfold dval. simpl. f_equal. pose proof (Z.div_mod n 10). lia.
      * split; [apply Z.div_pos; lia|]. apply Z.div_lt_upper_bound; lia.
Qed.

Lemma dec_digits_nonempty f n acc : f <> 0%nat -> dec_digits f n acc <> [].
Proof.
  revert n acc; induction f as [|f IH]; intros n acc Hf; [done|]. simpl.
  destruct (n <? 10); [done|]. destruct f; [done|]. by apply IH.
Qed.

Lemma isdigit_facts c : c_isdigit c = true ->
  c_isspace c = false /\ c <> QUOTE /\ c <> COMMA /\ c <> 45 /\ c <> 43.
Proof.
  unfold c_isdigit, c_isspace, QUOTE, COMMA. intros. zbool.
  repeat split; lia.
Qed.

(** A sign, then digits: what [strtol] makes of it in base 10. *)
Lemma parse_number_digits (neg : bool) ds :
  Forall (fun c => c_isdigit c = true) ds -> ds <> [] ->
  exists n, parse_number ((if neg then [45] else []) ++ ds) 10 = (neg, dval 0 ds, S n).
Proof.
  intros H Hne. unfold parse_number.
  assert (forall s, read_0x 10 s = (s, 0%nat)) as H0 by (by intros [|? [|? [|? ?]]]).
  destruct ds as [|d ds]; [done|]. clear Hne.
  assert (c_isdigit d = true) as Hd by by inversion H.
  apply isdigit_facts in Hd as (Hs & _ & _ & H45 & H43).
  destruct neg.
  - simpl app. cbn [skip_spaces read_sign].
    change (c_isspace 45) with false. cbn match. cbn [read_sign]. change (45 =? 45) with true.
    cbn match. rewrite H0, read_digits_dval by done. cbn [length]. by eexists.
  - simpl app. cbn [skip_spaces]. rewrite Hs. cbn [read_sign].
    destruct (Z.eqb_spec d 45), (Z.eqb_spec d 43); try done.
    rewrite H0, read_digits_dval by done. cbn [length]. by eexists.
Qed.

Lemma print_int_shape z : int_ok z ->
  exists ds, print_int z = (if z <? 0 then [45] else []) ++ ds /\ ds <> [] /\
    Forall (fun c => c_isdigit c = true) ds /\ dval 0 ds = Z.abs z.
Proof.
  unfold int_ok, INT_MIN, INT_MAX, print_int. intros Hz.
  exists (dec_digits 10 (Z.abs z) []).
  assert (0 <= Z.abs z < 10 ^ Z.of_nat 10) by (simpl; lia).
  repeat split.
  - destruct (Z.ltb_spec z 0); simpl app; [rewrite Z.abs_neq by lia|rewrite Z.abs_eq by lia]; done.
  - by apply dec_digits_nonempty.
  - apply dec_digits_isdigit; [lia|constructor].
  - by rewrite dec_digits_dval.
Qed.

Lemma print_int_plain z : int_ok z -> plain_token (print_int z).
Proof.
  intros Hz. destruct (print_int_shape z Hz) as (ds & -> & Hne & Hds & _).
  assert (COMMA ∉ ds) as Hc.
  { intros Hin. rewrite Forall_forall in Hds. by apply Hds, isdigit_facts in Hin as (_ & _ & ? & _). }
  split.
  - destruct (z <? 0); simpl; [|done]. rewrite not_elem_of_cons. by split.
  - destruct (z <? 0); simpl; [by exists 45, ds|]. destruct ds as [|d ds]; [done|].
    exists d, ds. apply Forall_cons in Hds as [Hd _]. apply isdigit_facts in Hd as (? & ? & _).
    by split.
Qed.

Lemma strtol_print_int z : int_ok z -> exists n, strtol (print_int z) 10 = (z, S n).
Proof.
  intros Hz. destruct (print_int_shape z Hz) as (ds & -> & Hne & Hds & Hv).
  destruct (parse_number_digits (z <? 0) ds) as [n E]; [done..|].
  exists n. unfold strtol. rewrite E, Hv. f_equal.
  unfold int_ok, LONG_MIN, LONG_MAX, INT_MIN, INT_MAX in *.
  destruct (Z.ltb_spec z 0); lia.
Qed.

Lemma at_tok_nextint_token cur z k :
  cur <> None -> int_ok z -> nextTok cur = (Some (print_int z), k) ->
  at_tok_nextint cur = (0, Some z, k).
Proof.
  intros Hcur Hz E. unfold at_tok_nextint, at_tok_nextint_base.
  destruct cur as [s|]; [|done]. rewrite E.
  destruct (strtol_print_int z Hz) as [n ->]. simpl. by rewrite s32_small.
Qed.

(** A number between blanks and a comma, or at the end of the line. *)
Lemma at_tok_nextint_comma ws z r :
  Forall (fun c => c_isspace c = true) ws -> int_ok z ->
  at_tok_nextint (Some (ws ++ print_int z ++ COMMA :: r)) = (0, Some z, Some r).
Proof. intros Hw Hz. apply at_tok_nextint_token; [done|done|]. apply nextTok_plain_comma; auto using print_int_plain. Qed.

Lemma at_tok_nextint_last ws z :
  Forall (fun c => c_isspace c = true) ws -> int_ok z ->
  at_tok_nextint (Some (ws ++ print_int z)) = (0, Some z, None).
Proof. intros Hw Hz. apply at_tok_nextint_token; [done|done|]. apply nextTok_plain_end; auto using print_int_plain. Qed.

(** Whatever is stored is an [int]. *)
Lemma nextint_base_int cur base uns ret v k :
  at_tok_nextint_base cur base uns = (ret, Some v, k) -> int_ok v.
Proof.
  unfold at_tok_nextint_base. destruct cur as [s|]; [|done].
  destruct (nextTok (Some s)) as [[t|] k']; [|done].
  destruct (if uns then strtoul t base else strtol t base) as [l n].
  intros [= <- <- <-]. apply s32_range.
Qed.

(** A field: blanks, then the number. *)
Definition render (f : bytes * Z) : bytes := fst f ++ print_int (snd f).
Definition field_ok (f : bytes * Z) : Prop :=
  Forall (fun c => c_isspace c = true) (fst f) /\ int_ok (snd f).

Lemma nextints_join fs :
  fs <> [] -> Forall field_ok fs ->
  nextints (length fs) (Some (join_commas (map render fs))) = Some (map snd fs, None).
Proof.
  intros Hne Hfs. induction Hfs as [|[ws z] fs [Hw Hz] Hfs IH]; [done|]. clear Hne.
  simpl in Hw, Hz. destruct fs as [|f fs].
  - cbn [map join_commas length nextints]. unfold render; cbn [fst snd].
    rewrite (at_tok_nextint_token _ z None); [done..|].
    by rewrite nextTok_plain_end by auto using print_int_plain.
  - specialize (IH ltac:(done)).
    change (nextints (S (length (f :: fs)))
      (Some (render (ws, z) ++ COMMA :: join_commas (map render (f :: fs)))) =
      Some (z :: map snd (f :: fs), None)).
    unfold render at 1; cbn [fst snd]. rewrite <- app_assoc. cbn [nextints].
    rewrite (at_tok_nextint_token _ z (Some (join_commas (map render (f :: fs))))); [|done..|].
    + by rewrite IH.
    + by rewrite nextTok_plain_comma by auto using print_int_plain.
Qed.

(** ** Properties *)

(** a response line [prefix: i1, i2, ..., in], each number preceded by any
    blanks, is read back by [at_tok_start] and [n] calls of [at_tok_nextint]
    as exactly the numbers printed in it, and the line is then exhausted. *)
Theorem at_tok_response_roundtrip (prefix : bytes) (fs : list (bytes * Z)) :
  COLON ∉ prefix -> fs <> [] -> Forall field_ok fs ->
  exists cur,
    at_tok_start (Some (prefix ++ COLON :: join_commas (map render fs))) = (0, cur) /\
    nextints (length fs) cur = Some (map snd fs, None).
Proof.
  intros Hp Hne Hfs. exists (Some (join_commas (map render fs))). split.
  - unfold at_tok_start. rewrite strchr_app_notin by done. simpl. done.
  - by apply nextints_join.
Qed.

Lemma at_tok_response_roundtrip_witness :
  exists cur, at_tok_start (Some (s2b "+CSQ: 18,-99")) = (0, cur) /\
              nextints 2 cur = Some ([18; -99], None).
Proof.
  apply (at_tok_response_roundtrip (s2b "+CSQ") [([32], 18); ([], -99)]).
  - vm_compute. intros H. repeat (apply elem_of_cons in H as [?|H]; [done|]). by apply not_elem_of_nil in H.
  - done.
  - repeat constructor; vm_compute; intros ?; discriminate.
Defined.

(** Whatever the line holds, [at_tok_nextint] returns 0 or -1, what it
    stores is an [int], it stores one whenever it succeeds, and a decimal
    number too large for [long] is saturated, not wrapped. *)
Theorem at_tok_nextint_bounds (cur : option bytes) ret out cur1 :
  at_tok_nextint cur = (ret, out, cur1) ->
  (ret = 0 \/ ret = -1) /\ (ret = 0 -> is_Some out) /\
  (forall v, out = Some v -> INT_MIN <= v <= INT_MAX) /\
  (forall ds k, Forall (fun c => c_isdigit c = true) ds -> ds <> [] -> INT_MAX < dval 0 ds ->
     nextTok cur = (Some ds, k) -> cur <> None -> ret = 0 /\ out = Some INT_MAX).
Proof.
  unfold at_tok_nextint, at_tok_nextint_base. destruct cur as [s|]; [|naive_solver].
  destruct (nextTok (Some s)) as [[t|] k]; [|intros [= <- <- <-]; naive_solver].
  destruct (strtol t 10) as [l n] eqn:E. intros [= <- <- <-].
  pose proof (strtol_range t 10) as Hr. rewrite E in Hr. simpl in Hr.
  rewrite s32_small by done. split; [destruct (n =? 0)%nat; auto|].
  split; [by intros; eexists|]. split; [by intros v [= <-]|].
  intros ds k' Hds Hne Hbig [= -> ->] _.
  destruct (parse_number_digits false ds) as [m Em]; [done..|]. simpl in Em.
  unfold strtol in E. rewrite Em in E. injection E as <- <-. split; [done|].
  unfold LONG_MIN, LONG_MAX, INT_MIN, INT_MAX in *. f_equal. lia.
Qed.

Lemma at_tok_nextint_bounds_witness :
  exists cur1, at_tok_nextint (Some (s2b "99999999999")) = (0, Some INT_MAX, cur1).
Proof.
  exists None.
  destruct (at_tok_nextint_bounds (Some (s2b "99999999999")) 0 (Some INT_MAX) None)
    as (_ & _ & _ & H); [reflexivity|].
  destruct (H (s2b "99999999999") None) as [_ _]; [repeat constructor|done|done|reflexivity|done|].
  reflexivity.
Defined.

(** A quoted field may hold commas, blanks and colons: [at_tok_nextstr]
    returns exactly the characters between the quotes, and leaves the cursor
    on the field after the next comma. *)
Theorem at_tok_nextstr_quoted (ws body junk rest : bytes) :
  Forall (fun c => c_isspace c = true) ws -> QUOTE ∉ body -> COMMA ∉ junk ->
  at_tok_nextstr (Some (ws ++ quoted body ++ junk ++ COMMA :: rest)) =
    (0, Some (Some body), Some rest) /\
  at_tok_nextstr (Some (ws ++ quoted body ++ junk)) = (0, Some (Some body), Some []).
Proof.
  intros Hw Hb Hj.
  assert (forall q, nextTok (Some (ws ++ quoted body ++ q)) =
                    (Some body, skipNextComma (Some q))) as Hn.
  { intros q. unfold nextTok, skipWhiteSpace. cbn [fmap option_fmap option_map].
    rewrite skipWhiteSpace_app by done. unfold quoted. simpl app.
    rewrite skipWhiteSpace_nonspace by done. rewrite Z.eqb_refl. unfold strsep.
    rewrite <- app_assoc. simpl app. by rewrite split_at_app_notin. }
  assert (forall q, skipNextComma_s (junk ++ q) = skipNextComma_s q) as Hs.
  { intros q. induction junk as [|c junk IH]; [done|]. simpl.
    apply not_elem_of_cons in Hj as [Hc Hj]. destruct (Z.eqb_spec c COMMA); [congruence|auto]. }
  unfold at_tok_nextstr. split.
  - rewrite Hn. unfold skipNextComma. cbn [fmap option_fmap option_map]. by rewrite Hs.
  - rewrite Hn. unfold skipNextComma. cbn [fmap option_fmap option_map].
    pose proof (Hs []) as E. rewrite app_nil_r in E. by rewrite E.
Qed.

Lemma at_tok_nextstr_quoted_witness :
  at_tok_nextstr (Some (s2b " " ++ quoted (s2b "T-Mobile, US") ++ [] ++ COMMA :: s2b "2")) =
    (0, Some (Some (s2b "T-Mobile, US")), Some (s2b "2")).
Proof.
  apply (at_tok_nextstr_quoted (s2b " ") (s2b "T-Mobile, US") [] (s2b "2"));
    [repeat constructor| |]; vm_compute; intros H;
    repeat (apply elem_of_cons in H as [?|H]; [done|]); by apply not_elem_of_nil in H.
Defined.

(** Every token read moves the cursor strictly forward, so the loops that
    read fields while [at_tok_hasmore] holds end after at most as many rounds
    as the line has characters; the token is a piece of the line. *)
Theorem nextTok_progress (s : bytes) (t : option bytes) (k : option bytes) :
  nextTok (Some s) = (t, k) ->
  (cur_size k < cur_size (Some s))%nat /\
  exists tok, t = Some tok /\ exists l r, s = l ++ tok ++ r.
Proof.
  assert (exists l, s = l ++ skipWhiteSpace_s s) as [l Hl].
  { induction s as [|c s [l IH]]; [by exists []|]. simpl.
    destruct (c_isspace c); [|by exists []]. exists (c :: l). simpl. by f_equal. }
  pose proof (skipWhiteSpace_length s) as Hlen.
  unfold nextTok, skipWhiteSpace. cbn [fmap option_fmap option_map].
  assert (forall d s' t' k', strsep (Some s') d = (t', k') ->
            exists tok r, t' = Some tok /\ s' = tok ++ r) as Hsep.
  { intros d s' t' k'. unfold strsep. destruct (split_at d s') as [tok k''] eqn:E.
    intros [= <- <-]. apply split_at_spec in E as [_ ->].
    destruct k''; eexists tok, _; split; eauto using app_nil_r, eq_sym. }
  destruct (skipWhiteSpace_s s) as [|c r] eqn:Es.
  - intros E. pose proof (strsep_size _ _ _ _ E). apply Hsep in E as (tok & r & -> & Hr).
    split; [simpl in *; lia|]. exists tok. split; [done|]. exists l, r. by rewrite <- Hr.
  - destruct (Z.eqb_spec c QUOTE) as [->|Hc].
    + destruct (strsep (Some r) QUOTE) as [t1 k1] eqn:E. intros [= <- <-].
      pose proof (strsep_size _ _ _ _ E). pose proof (skipNextComma_size k1).
      apply Hsep in E as (tok & r' & -> & ->).
      split; [simpl in *; lia|]. exists tok. split; [done|]. exists (l ++ [QUOTE]), r'.
      by rewrite <- app_assoc.
    + intros E. pose proof (strsep_size _ _ _ _ E). apply Hsep in E as (tok & r' & -> & Hr).
      split; [simpl in *; lia|]. exists tok. split; [done|]. exists l, r'. by rewrite <- Hr.
Qed.

Lemma nextTok_progress_witness :
  (cur_size (Some (s2b "b")) < cur_size (Some (s2b " a,b")))%nat.
Proof. apply (nextTok_progress (s2b " a,b") (Some (s2b "a")) (Some (s2b "b"))). reflexivity. Defined.

