(* ===== verification/Misc.v ===== *)
(** * RIL helpers: [hardware/ril/reference-ril/misc.c] and [misc.h]

    A [const char *] into a response string is an offset into the string; a
    read past the terminator is [Ub].  [LOGW] has no effect on the state. *)

From S2P Require Import Prelude CString.

(** ** getFirstElementValue

    The document and the tags may be NULL.  The result is the allocated value
    (or NULL) and what was stored through [remainingDocument] (nothing, or the
    rest of the document).  A negative length makes [malloc]/[strncpy] write
    outside the allocation. *)
Definition getFirstElementValue (document elementBeginTag elementEndTag : option bytes)
  (remainingDocument : bool) : outcome (option bytes * option bytes) :=
  match document, elementBeginTag, elementEndTag with
  | Some doc, Some btag, Some etag =>
    match strstr_off doc btag with
    | None => Ret (None, None)
    | Some start =>
      match strstr_off (drop start doc) etag with
      | None => Ret (None, None)
      | Some e =>
        let end_ := (start + e)%nat in
        let n := Z.of_nat (length btag) in
        let m := Z.of_nat end_ - (Z.of_nat start + n) in
        if m <? 0 then Ub
        else Ret (Some (take (Z.to_nat m) (drop (start + length btag) doc)),
                  if remainingDocument then Some (drop (end_ + length etag) doc) else None)
      end
    end
  | _, _, _ => Ret (None, None)
  end.

(** ** strStartsWith *)
Fixpoint strStartsWith (line prefix : bytes) : bool :=
  match line, prefix with
  | l :: line', p :: prefix' => if negb (l =? p) then false else strStartsWith line' prefix'
  | _, [] => true
  | [], _ :: _ => false
  end.

(** ** Hexadecimal *)
Definition char2nib (c : Z) : Z :=
  if (0x30 <=? c) && (c <=? 0x39) then c - 0x30
  else if (0x41 <=? c) && (c <=? 0x46) then c - 0x41 + 0xA
  else if (0x61 <=? c) && (c <=? 0x66) then c - 0x61 + 0xA
  else 0.

Record tlv := mk_tlv { tlv_tag : Z; tlv_data : Z; tlv_end : Z }.

(** [TLV_STREAM_GET]: one byte from two characters, and the advanced stream. *)
Definition TLV_STREAM_GET (buf : bytes) (stream : Z) : outcome (Z * Z) :=
  c0 ← str_rd buf stream;
  c1 ← str_rd buf (stream + 1);
  Ret ((char2nib c0 ≪ 4) .| (char2nib c1 ≪ 0), stream + 2).

(** [end] is only compared with to log a warning. *)
Definition parseTlv (buf : bytes) (stream end_ : Z) : outcome (Z * tlv) :=
  '(tag, stream) ← TLV_STREAM_GET buf stream;
  '(size, stream) ← TLV_STREAM_GET buf stream;
  Ret (0, mk_tlv tag stream (stream + size * 2)).

(** [TLV_DATA(tlv, pos)] *)
Definition TLV_DATA (buf : bytes) (t : tlv) (pos : Z) : outcome Z :=
  c0 ← str_rd buf (tlv_data t + (pos * 2 + 0));
  c1 ← str_rd buf (tlv_data t + (pos * 2 + 1));
  Ret ((char2nib c0 ≪ 4) .| (char2nib c1 ≪ 0)).

Definition nibbles : bytes := s2b "0123456789ABCDEF".

Definition nibble (i : Z) : Z := nth (Z.to_nat i) nibbles 0.

(** The characters the loop stores in [string], before the terminator. *)
Fixpoint hex_text (binary : bytes) : bytes :=
  match binary with
  | [] => []
  | b :: r => nibble (b ≫ 4) :: nibble (b .& 0x0f) :: hex_text r
  end.

(** The result and the stored string; [end < binary] only holds when
    [binary + len] wraps around the address space, which no object does. *)
Definition binaryToString (binary : bytes) : Z * bytes := (0, hex_text binary).

(** ** Lemmas *)

Lemma strStartsWith_spec line prefix :
  strStartsWith line prefix = true <-> exists r, line = prefix ++ r.
Proof.
  revert prefix; induction line as [|l line IH]; intros [|p prefix]; simpl.
  - split; [by exists []|done].
  - split; [done|]. by intros (r & ?).
  - split; [by exists (l :: line)|done].
  - destruct (Z.eqb_spec l p) as [->|Hne]; simpl.
    + rewrite IH. split; intros (r & Hr); exists r; congruence.
    + split; [done|]. intros (r & [= -> _]). done.
Qed.

Lemma strStartsWith_starts line prefix : strStartsWith line prefix = starts prefix line.
Proof.
  apply eq_true_iff_eq. by rewrite strStartsWith_spec, starts_spec.
Qed.

Lemma hex_text_length b : length (hex_text b) = (2 * length b)%nat.
Proof. induction b as [|x b IH]; simpl; lia. Qed.

Lemma hex_text_app a b : hex_text (a ++ b) = hex_text a ++ hex_text b.
Proof. induction a as [|x a IH]; simpl; [done|]. by rewrite IH. Qed.

(** The two characters of a byte decode to it. *)
Definition hex_pair_ok (b : Z) : bool :=
  ((char2nib (nibble (b ≫ 4)) ≪ 4) .| (char2nib (nibble (b .& 0x0f)) ≪ 0)) =? b.

Lemma hex_pair b : is_byte b ->
  (char2nib (nibble (b ≫ 4)) ≪ 4) .| (char2nib (nibble (b .& 0x0f)) ≪ 0) = b.
Proof.
  intros Hb. apply Z.eqb_eq.
  apply (byte_forall hex_pair_ok); [vm_compute; reflexivity|done].
Qed.

Lemma str_rd_in s i : 0 <= i < Z.of_nat (length s) -> str_rd s i = checked (s !! Z.to_nat i).
Proof.
  intros Hi. unfold str_rd.
  by replace ((0 <=? i) && (i <? Z.of_nat (length s))) with true by lia.
Qed.

Lemma str_rd_app s t i :
  0 <= i < Z.of_nat (length s) -> str_rd (s ++ t) i = str_rd s i.
Proof.
  intros Hi. rewrite !str_rd_in by (rewrite ?length_app; lia). by rewrite lookup_app_l by lia.
Qed.

Lemma str_rd_middle pre x post i :
  i = Z.of_nat (length pre) -> str_rd (pre ++ x :: post) i = Ret x.
Proof.
  intros ->. rewrite str_rd_in by (rewrite length_app; simpl; lia).
  by rewrite Nat2Z.id, list_lookup_middle.
Qed.

(** A byte of hexadecimal text, wherever it stands in the buffer. *)
Lemma read_hex_byte pre b post i : is_byte b -> i = Z.of_nat (length pre) ->
  TLV_STREAM_GET (pre ++ hex_text [b] ++ post) i = Ret (b, i + 2).
Proof.
  intros Hb ->. unfold TLV_STREAM_GET. simpl hex_text. simpl app.
  rewrite (str_rd_middle _ _ _ (Z.of_nat (length pre))) by done. cbn [mbind outcome_bind].
  rewrite (cons_middle (nibble (b ≫ 4))), app_assoc.
  rewrite str_rd_middle by (rewrite length_app; simpl; lia). cbn [mbind outcome_bind].
  by rewrite hex_pair.
Qed.

Lemma read_hex_data buf t pos : TLV_DATA buf t pos =
  ('(v, _) ← TLV_STREAM_GET buf (tlv_data t + pos * 2); Ret v).
Proof.
  unfold TLV_DATA, TLV_STREAM_GET.
  replace (tlv_data t + (pos * 2 + 0)) with (tlv_data t + pos * 2) by lia.
  replace (tlv_data t + (pos * 2 + 1)) with (tlv_data t + pos * 2 + 1) by lia.
  destruct (str_rd buf (tlv_data t + pos * 2)); [|done..]. simpl.
  by destruct (str_rd buf (tlv_data t + pos * 2 + 1)).
Qed.

(** One TLV, as bytes. *)
Definition tlv_bytes (tag : Z) (v : bytes) : bytes := tag :: Z.of_nat (length v) :: v.

Lemma parseTlv_hex pre tag size rest i end_ :
  is_byte tag -> is_byte size -> i = Z.of_nat (length pre) ->
  parseTlv (pre ++ hex_text (tag :: size :: []) ++ rest) i end_ =
    Ret (0, mk_tlv tag (i + 4) (i + 4 + size * 2)).
Proof.
  intros Ht Hs ->. unfold parseTlv.
  change (hex_text [tag; size]) with (hex_text [tag] ++ hex_text [size]).
  rewrite <- app_assoc, read_hex_byte by done. cbn [mbind outcome_bind].
  rewrite app_assoc, read_hex_byte.
  - cbn [mbind outcome_bind]. do 2 f_equal. f_equal; lia.
  - done.
  - rewrite length_app, hex_text_length. simpl. lia.
Qed.

Lemma TLV_DATA_hex pre v post tag e pos b :
  bytes_ok v -> v !! pos = Some b ->
  TLV_DATA (pre ++ hex_text v ++ post) (mk_tlv tag (Z.of_nat (length pre)) e)
    (Z.of_nat pos) = Ret b.
Proof.
  intros Hv Hb. apply list_elem_of_split_length in Hb as (v1 & v2 & -> & ->).
  apply Forall_app in Hv as [_ Hv]. apply Forall_cons in Hv as [Hb _].
  rewrite read_hex_data. simpl tlv_data.
  rewrite cons_middle, !hex_text_app, <- !app_assoc, app_assoc.
  rewrite read_hex_byte; [done|done|].
  rewrite length_app, hex_text_length. lia.
Qed.

(** ** Properties *)

(** [getFirstElementValue] on a document that holds the begin tag: with
    [start] its first occurrence and [e] the distance from there to the first
    occurrence of the end tag, the value is the text strictly between the two
    tags and the remaining document starts right after the end tag, provided
    the end tag does not start inside the begin tag. *)
Theorem getFirstElementValue_between (pre btag v etag rest : bytes) (rem : bool) :
  (forall k, (k < length pre)%nat -> starts btag (drop k (pre ++ btag ++ v ++ etag ++ rest)) = false) ->
  (forall k, (k < length btag + length v)%nat -> starts etag (drop k (btag ++ v ++ etag ++ rest)) = false) ->
  getFirstElementValue (Some (pre ++ btag ++ v ++ etag ++ rest)) (Some btag) (Some etag) rem =
    Ret (Some v, if rem then Some rest else None).
Proof.
  intros Hb He. unfold getFirstElementValue.
  rewrite (strstr_off_first _ btag (length pre))
    by (rewrite ?drop_app_length, ?length_app, ?starts_app; first [done | lia]).
  rewrite drop_app_length.
  rewrite (strstr_off_first _ etag (length btag + length v));
    [| |done|rewrite !length_app; lia].
  - replace (Z.of_nat (length pre + (length btag + length v)) - (Z.of_nat (length pre) + Z.of_nat (length btag)))
      with (Z.of_nat (length v)) by lia.
    destruct (Z.ltb_spec (Z.of_nat (length v)) 0); [lia|]. rewrite Nat2Z.id.
    f_equal. f_equal.
    + rewrite app_assoc, (drop_app_exact (pre ++ btag)) by (rewrite length_app; lia).
      by rewrite take_app_length.
    + destruct rem; [|done]. f_equal.
      rewrite !app_assoc. apply drop_app_exact. rewrite !length_app. lia.
  - rewrite app_assoc, drop_app_exact by (rewrite length_app; lia). apply starts_app.
Qed.

Lemma getFirstElementValue_between_witness :
  getFirstElementValue (Some (s2b "+COPS: (2,1),(3)")) (Some (s2b "(")) (Some (s2b ")")) true =
    Ret (Some (s2b "2,1"), Some (s2b ",(3)")).
Proof.
  apply (getFirstElementValue_between (s2b "+COPS: ") (s2b "(") (s2b "2,1") (s2b ")") (s2b ",(3)") true).
  - intros k Hk. simpl in Hk. do 7 (destruct k as [|k]; [reflexivity|]). lia.
  - intros k Hk. simpl in Hk. do 4 (destruct k as [|k]; [reflexivity|]). lia.
Defined.

(** The hexadecimal text [binaryToString] writes for any bytes is two
    characters per byte, and [TLV_DATA]/[char2nib] read every byte of it back,
    wherever the text stands in the response. *)
Theorem binaryToString_roundtrip (pre v post : bytes) (tag e : Z) (pos : nat) (b : Z) :
  bytes_ok v -> v !! pos = Some b ->
  binaryToString v = (0, hex_text v) /\ length (hex_text v) = (2 * length v)%nat /\
  TLV_DATA (pre ++ snd (binaryToString v) ++ post)
    (mk_tlv tag (Z.of_nat (length pre)) e) (Z.of_nat pos) = Ret b.
Proof. intros Hv Hb. split; [done|]. split; [apply hex_text_length|by apply TLV_DATA_hex]. Qed.

Lemma binaryToString_roundtrip_witness :
  binaryToString [0x62; 0xA5] = (0, s2b "62A5") /\
  TLV_DATA (s2b "XY" ++ snd (binaryToString [0x62; 0xA5]) ++ s2b "00") (mk_tlv 0 2 6) 1 = Ret 0xA5.
Proof.
  split; [reflexivity|].
  apply (binaryToString_roundtrip (s2b "XY") [0x62; 0xA5] (s2b "00") 0 6 1 0xA5);
    [repeat constructor; done|reflexivity].
Defined.
