(* ===== verification/FcpParser.v ===== *)
(** * FCP template parser: [hardware/ril/reference-ril/fcp_parser.c]

    Translates the hexadecimal FCP template a SIM returns (ETSI TS 102 221)
    into the fixed response of 3GPP TS 51.011, and renders that response as
    text again ([convertSimIoFcp] of [reference-ril.c]). *)

From S2P Require Import Prelude CString Misc.

(** ** The response structure ([fcp_parser.h]); [be16] fields are the two bytes
    in memory order *)
Record ts_51011_921_resp := mk_resp {
  rfu_1 : Z * Z;
  file_size : Z * Z;
  file_id : Z * Z;
  file_type : Z;
  rfu_2 : Z;
  file_acc : Z * Z * Z;
  file_status : Z;
  data_size : Z;
  file_structure : Z;
  record_size : Z }.

(** [memset(out, 0, sizeof( *out))] *)
Definition resp_zero : ts_51011_921_resp :=
  mk_resp (0, 0) (0, 0) (0, 0) 0 0 (0, 0, 0) 0 0 0 0.

Definition set_file_size v o := mk_resp (rfu_1 o) v (file_id o) (file_type o) (rfu_2 o)
  (file_acc o) (file_status o) (data_size o) (file_structure o) (record_size o).
Definition set_file_id v o := mk_resp (rfu_1 o) (file_size o) v (file_type o) (rfu_2 o)
  (file_acc o) (file_status o) (data_size o) (file_structure o) (record_size o).
Definition set_file_type v o := mk_resp (rfu_1 o) (file_size o) (file_id o) v (rfu_2 o)
  (file_acc o) (file_status o) (data_size o) (file_structure o) (record_size o).
Definition set_file_status v o := mk_resp (rfu_1 o) (file_size o) (file_id o) (file_type o)
  (rfu_2 o) (file_acc o) v (data_size o) (file_structure o) (record_size o).
Definition inc_data_size o := mk_resp (rfu_1 o) (file_size o) (file_id o) (file_type o)
  (rfu_2 o) (file_acc o) (file_status o) (u8 (data_size o + 1)) (file_structure o) (record_size o).
Definition set_file_structure v o := mk_resp (rfu_1 o) (file_size o) (file_id o) (file_type o)
  (rfu_2 o) (file_acc o) (file_status o) (data_size o) v (record_size o).
Definition set_record_size v o := mk_resp (rfu_1 o) (file_size o) (file_id o) (file_type o)
  (rfu_2 o) (file_acc o) (file_status o) (data_size o) (file_structure o) v.

(** The bytes of the packed structure, in memory order. *)
Definition resp_bytes (o : ts_51011_921_resp) : bytes :=
  [fst (rfu_1 o); snd (rfu_1 o); fst (file_size o); snd (file_size o);
   fst (file_id o); snd (file_id o); file_type o; rfu_2 o;
   fst (fst (file_acc o)); snd (fst (file_acc o)); snd (file_acc o);
   file_status o; data_size o; file_structure o; record_size o].

(** ** One property of the template

    The result is the error thrown, if any, and the response as modified so
    far: a throw does not undo the stores made before it. *)

(** The body of [case 0x82], from the file descriptor byte on. *)
Definition fcp_file_descriptor (buf : bytes) (t : tlv) (property_size fdbyte : Z)
  (out : ts_51011_921_resp) : outcome (option Z * ts_51011_921_resp) :=
  if (fdbyte .& 0xBF) =? 0x38 then Ret (None, set_file_type 2 out)
  else if (fdbyte .& 0xB0) =? 0x00 then
    let out := inc_data_size (set_file_status 1 (set_file_type 4 out)) in
    if (fdbyte .& 0x07) =? 0x01 then Ret (None, set_file_structure 0 out)
    else if property_size <? 5 then Ret (Some (- EINVAL), out)
    else
      let out := inc_data_size out in
      r ← TLV_DATA buf t 3;
      let out := set_record_size r out in
      if (fdbyte .& 0x07) =? 0x06 then Ret (None, set_file_structure 3 out)
      else if (fdbyte .& 0x07) =? 0x02 then Ret (None, set_file_structure 1 out)
      else Ret (Some (- EINVAL), out)
  else Ret (None, set_file_type 0 out).

(** [switch (tlv.tag)] *)
Definition fcp_property (buf : bytes) (t : tlv) (out : ts_51011_921_resp)
  : outcome (option Z * ts_51011_921_resp) :=
  let property_size := (tlv_end t - tlv_data t) / 2 in
  if tlv_tag t =? 0x80 then
    if negb (property_size =? 2) then Ret (Some (- ENOTSUP), out)
    else b0 ← TLV_DATA buf t 0; b1 ← TLV_DATA buf t 1;
         Ret (None, set_file_size (b0, b1) out)
  else if tlv_tag t =? 0x83 then
    if negb (property_size =? 2) then Ret (Some (- EINVAL), out)
    else b0 ← TLV_DATA buf t 0; b1 ← TLV_DATA buf t 1;
         Ret (None, set_file_id (b0, b1) out)
  else if tlv_tag t =? 0x82 then
    if property_size <? 2 then Ret (Some (- EINVAL), out)
    else fdbyte ← TLV_DATA buf t 0; fcp_file_descriptor buf t property_size fdbyte out
  else Ret (None, out).

(** [while (fcp.data < fcp.end)]; [ret] is 0 whenever the loop goes on. *)
Fixpoint fcp_loop (fuel : nat) (buf : bytes) (end_ data fcp_end : Z)
  (out : ts_51011_921_resp) : outcome (Z * ts_51011_921_resp) :=
  if data <? fcp_end then
    match fuel with
    | O => NoFuel
    | S fuel =>
      '(ret, t) ← parseTlv buf data end_;
      if ret <? 0 then Ret (ret, out)
      else
        '(thrown, out) ← fcp_property buf t out;
        match thrown with
        | Some e => Ret (e, out)
        | None => fcp_loop fuel buf end_ (tlv_end t) fcp_end out
        end
    end
  else Ret (0, out).

(** A template is at most 255 bytes, and every property takes at least two:
    128 rounds are enough (theorem [fcp_terminates]). *)
Definition FCP_FUEL : nat := 128.

Definition fcp_to_ts_51011 (stream : bytes) (len : Z) (out : ts_51011_921_resp)
  : outcome (Z * ts_51011_921_resp) :=
  '(ret, fcp) ← parseTlv stream 0 len;
  if ret <? 0 then Ret (ret, out)
  else if negb (tlv_tag fcp =? 0x62) then Ret (- EINVAL, out)
  else fcp_loop FCP_FUEL stream len (tlv_data fcp) (tlv_end fcp) resp_zero.

(** [convertSimIoFcp]: the SIM response may be NULL; [malloc] may fail.  The
    result is the returned error and the string stored through [cvt]. *)
Definition convertSimIoFcp (simResponse : option bytes) (resp0 : ts_51011_921_resp)
  (malloc_ok : bool) : outcome (Z * option bytes) :=
  match simResponse with
  | None => Ret (-1, None)
  | Some r =>
    let fcplen := Z.of_nat (length r) in
    if (fcplen =? 0) || ctrue (fcplen .& 1) then Ret (-1, None)
    else
      '(err, resp) ← fcp_to_ts_51011 r fcplen resp0;
      if err <? 0 then Ret (err, None)
      else if negb malloc_ok then Ret (-1, None)
      else
        let '(err, cvt_buf) := binaryToString (resp_bytes resp) in
        if err <? 0 then Ret (err, None) else Ret (err, Some cvt_buf)
  end.

(** ** Abstract specification

    A template as the list of its properties (tag and value), and what each
    contributes to the response, with no buffer and no pointer. *)
Definition prop := (Z * bytes)%type.

Definition prop_ok (p : prop) : Prop :=
  is_byte (fst p) /\ bytes_ok (snd p) /\ is_byte (Z.of_nat (length (snd p))).

Definition template_bytes (ps : list prop) : bytes :=
  concat (map (fun p => tlv_bytes (fst p) (snd p)) ps).

Definition spec_descriptor (fd : Z) (v : bytes) (out : ts_51011_921_resp)
  : option Z * ts_51011_921_resp :=
  if (fd .& 0xBF) =? 0x38 then (None, set_file_type 2 out)
  else if (fd .& 0xB0) =? 0 then
    let ef := inc_data_size (set_file_status 1 (set_file_type 4 out)) in
    match fd .& 7 with
    | 1 => (None, set_file_structure 0 ef)
    | k => match v with
           | _ :: _ :: _ :: r :: _ :: _ =>
             let rec := set_record_size r (inc_data_size ef) in
             match k with
             | 6 => (None, set_file_structure 3 rec)
             | 2 => (None, set_file_structure 1 rec)
             | _ => (Some (- EINVAL), rec)
             end
           | _ => (Some (- EINVAL), ef)
           end
    end
  else (None, set_file_type 0 out).

Definition spec_property (p : prop) (out : ts_51011_921_resp) : option Z * ts_51011_921_resp :=
  match fst p, snd p with
  | 0x80, [b0; b1] => (None, set_file_size (b0, b1) out)
  | 0x80, _ => (Some (- ENOTSUP), out)
  | 0x83, [b0; b1] => (None, set_file_id (b0, b1) out)
  | 0x83, _ => (Some (- EINVAL), out)
  | 0x82, fd :: x :: v => spec_descriptor fd (fd :: x :: v) out
  | 0x82, _ => (Some (- EINVAL), out)
  | _, _ => (None, out)
  end.

Fixpoint spec_template (ps : list prop) (out : ts_51011_921_resp) : Z * ts_51011_921_resp :=
  match ps with
  | [] => (0, out)
  | p :: ps =>
    match spec_property p out with
    | (Some e, out) => (e, out)
    | (None, out) => spec_template ps out
    end
  end.

(** ** Lemmas *)

Lemma TLV_DATA_at pre v post tag e (pos : Z) b :
  bytes_ok v -> 0 <= pos -> v !! Z.to_nat pos = Some b ->
  TLV_DATA (pre ++ hex_text v ++ post) (mk_tlv tag (Z.of_nat (length pre)) e) pos = Ret b.
Proof. intros Hv Hp Hb. rewrite <- (Z2Nat.id pos) by done. by apply TLV_DATA_hex. Qed.

Lemma fcp_descriptor_refines pre v post tag e fd out :
  bytes_ok v -> v !! 0%nat = Some fd ->
  fcp_file_descriptor (pre ++ hex_text v ++ post) (mk_tlv tag (Z.of_nat (length pre)) e)
    (Z.of_nat (length v)) fd out = Ret (spec_descriptor fd v out).
Proof.
  intros Hv Hfd. unfold fcp_file_descriptor, spec_descriptor.
  destruct ((fd .& 0xBF) =? 0x38); [done|]. destruct ((fd .& 0xB0) =? 0); [|done].
  destruct (Z.eqb_spec (fd .& 7) 1) as [->|H1]; [done|].
  destruct (Z.ltb_spec (Z.of_nat (length v)) 5) as [Hl|Hl].
  - destruct v as [|? [|? [|? [|? [|? ?]]]]]; simpl in Hl; try lia;
      repeat case_match; first [done | lia].
  - destruct v as [|a0 [|a1 [|a2 [|a3 [|a4 v]]]]]; simpl in Hl; try lia.
    rewrite (TLV_DATA_at _ _ _ _ _ 3 a3) by done. cbn [mbind outcome_bind].
    destruct (Z.eqb_spec (fd .& 7) 6) as [->|H6]; [done|].
    destruct (Z.eqb_spec (fd .& 7) 2) as [->|H2]; [done|].
    repeat case_match; first [done | lia].
Qed.

Lemma fcp_property_refines pre tag v post out :
  bytes_ok v ->
  let i := Z.of_nat (length pre) in
  fcp_property (pre ++ hex_text v ++ post) (mk_tlv tag i (i + Z.of_nat (length v) * 2)) out =
    Ret (spec_property (tag, v) out).
Proof.
  intros Hv i. unfold fcp_property, spec_property. cbn [tlv_tag tlv_data tlv_end fst snd].
  replace (i + Z.of_nat (length v) * 2 - i) with (Z.of_nat (length v) * 2) by lia.
  rewrite Z.div_mul by lia.
  assert (forall d, v !! 0%nat = Some d ->
    TLV_DATA (pre ++ hex_text v ++ post) (mk_tlv tag i (i + Z.of_nat (length v) * 2)) 0 = Ret d) as H0
    by (intros; apply TLV_DATA_at; auto; lia).
  assert (forall d, v !! 1%nat = Some d ->
    TLV_DATA (pre ++ hex_text v ++ post) (mk_tlv tag i (i + Z.of_nat (length v) * 2)) 1 = Ret d) as H1
    by (intros; apply TLV_DATA_at; auto; lia).
  destruct (Z.eqb_spec tag 0x80) as [->|N0].
  { destruct v as [|b0 [|b1 [|b2 v]]]; try done.
    - rewrite (H0 b0), (H1 b1) by done. done.
    - destruct (Z.eqb_spec (Z.of_nat (length (b0 :: b1 :: b2 :: v))) 2) as [E|]; [simpl in E; lia|done]. }
  destruct (Z.eqb_spec tag 0x83) as [->|N3].
  { destruct v as [|b0 [|b1 [|b2 v]]]; try done.
    - rewrite (H0 b0), (H1 b1) by done. done.
    - destruct (Z.eqb_spec (Z.of_nat (length (b0 :: b1 :: b2 :: v))) 2) as [E|]; [simpl in E; lia|done]. }
  destruct (Z.eqb_spec tag 0x82) as [->|N2].
  { destruct v as [|fd [|x v]]; try done.
    destruct (Z.ltb_spec (Z.of_nat (length (fd :: x :: v))) 2) as [E|]; [simpl in E; lia|].
    rewrite (H0 fd) by done. cbn [mbind outcome_bind]. by apply fcp_descriptor_refines. }
  repeat case_match; done.
Qed.

(** What the buffer holds at the cursor of the loop. *)
Lemma fcp_loop_refines ps fuel pre post end_ out :
  Forall prop_ok ps -> (length ps <= fuel)%nat ->
  let i := Z.of_nat (length pre) in
  fcp_loop fuel (pre ++ hex_text (template_bytes ps) ++ post) end_ i
    (i + 2 * Z.of_nat (length (template_bytes ps))) out = Ret (spec_template ps out).
Proof.
  intros Hps. revert fuel pre out. induction Hps as [|[tag v] ps Hp Hps IH]; intros fuel pre out Hf i.
  - change (template_bytes []) with (@nil Z). simpl length.
    rewrite Z.mul_0_r, Z.add_0_r. destruct fuel; cbn [fcp_loop]; by rewrite Z.ltb_irrefl.
  - destruct fuel as [|fuel]; [simpl in Hf; lia|]. destruct Hp as (Ht & Hv & Hl). simpl in Ht, Hv, Hl.
    set (rest := template_bytes ps).
    change (template_bytes ((tag, v) :: ps)) with ([tag; Z.of_nat (length v)] ++ v ++ rest).
    cbn [fcp_loop].
    destruct (Z.ltb_spec i (i + 2 * Z.of_nat (length ([tag; Z.of_nat (length v)] ++ v ++ rest))))
      as [_|H]; [|simpl in H; lia].
    rewrite hex_text_app, <- app_assoc, parseTlv_hex by done. cbn [mbind outcome_bind].
    change (0 <? 0) with false. cbn match. rewrite hex_text_app, <- app_assoc, app_assoc.
    replace (i + 4) with (Z.of_nat (length (pre ++ hex_text [tag; Z.of_nat (length v)])))
      by (rewrite length_app, hex_text_length; simpl; lia).
    rewrite fcp_property_refines by done. cbn [mbind outcome_bind spec_template].
    destruct (spec_property (tag, v) out) as [[e|] out']; [done|]. cbn [tlv_end].
    specialize (IH fuel ((pre ++ hex_text [tag; Z.of_nat (length v)]) ++ hex_text v) out'
                 ltac:(simpl in Hf; lia)). cbv zeta in IH. rewrite <- IH. clear IH.
    rewrite <- !app_assoc. fold rest. f_equal; rewrite ?length_app, ?hex_text_length; simpl; lia.
Qed.

Lemma char2nib_range c : 0 <= char2nib c < 16.
Proof. unfold char2nib. repeat case_match; lia. Qed.

Lemma str_rd_fuel s i : str_rd s i <> NoFuel.
Proof. unfold str_rd, checked. repeat case_match; done. Qed.

Lemma hex_byte_fuel buf i : TLV_STREAM_GET buf i <> NoFuel.
Proof.
  unfold TLV_STREAM_GET. destruct (str_rd buf i) eqn:E; [|done|done|by apply str_rd_fuel in E].
  cbn. destruct (str_rd buf (i + 1)) eqn:E'; [done..|by apply str_rd_fuel in E'].
Qed.

Lemma hex_byte_range buf i b k : TLV_STREAM_GET buf i = Ret (b, k) -> is_byte b /\ k = i + 2.
Proof.
  unfold TLV_STREAM_GET. destruct (str_rd buf i) as [c0| | |]; [|done..]. cbn.
  destruct (str_rd buf (i + 1)) as [c1| | |]; [|done..]. intros [= <- <-]. split; [|done].
  pose proof (char2nib_range c0). pose proof (char2nib_range c1).
  apply (zrange_forall 16 (fun x => forallb (fun y => (0 <=? (x ≪ 4) .| (y ≪ 0)) && ((x ≪ 4) .| (y ≪ 0) <? 256)) (seqZ 0 16)))
    with (x := char2nib c0) in H; [|by vm_compute].
  apply (zrange_forall 16 _ H) in H0. zbool. unfold is_byte. lia.
Qed.

Lemma parseTlv_result buf i end_ : 
  match parseTlv buf i end_ with
  | Ret (ret, t) => ret = 0 /\ tlv_data t = i + 4 /\ i + 4 <= tlv_end t <= i + 4 + 510
  | Ub | Halt => True
  | NoFuel => False
  end.
Proof.
  unfold parseTlv. destruct (TLV_STREAM_GET buf i) as [[a k]| | |] eqn:E; [|done|done|by apply hex_byte_fuel in E].
  apply hex_byte_range in E as [_ ->]. cbn [mbind outcome_bind].
  destruct (TLV_STREAM_GET buf (i + 2)) as [[b k']| | |] eqn:E; [|done|done|by apply hex_byte_fuel in E].
  apply hex_byte_range in E as [Hb ->]. cbn. unfold is_byte in Hb. lia.
Qed.

Lemma TLV_DATA_fuel buf t pos : TLV_DATA buf t pos <> NoFuel.
Proof.
  rewrite read_hex_data. destruct (TLV_STREAM_GET buf (tlv_data t + pos * 2)) as [[? ?]| | |] eqn:E;
    [done..|by apply hex_byte_fuel in E].
Qed.

Lemma fcp_property_fuel buf t out : fcp_property buf t out <> NoFuel.
Proof.
  unfold fcp_property, fcp_file_descriptor. 
  repeat match goal with
  | |- context [TLV_DATA ?b ?t ?p] =>
    let E := fresh in destruct (TLV_DATA b t p) eqn:E; [| | |by apply TLV_DATA_fuel in E]
  | _ => progress cbn [mbind outcome_bind]
  | |- context [if ?b then _ else _] => destruct b
  end; done.
Qed.

Lemma fcp_loop_fuel fuel buf end_ data fcp_end out :
  fcp_end - data <= 4 * Z.of_nat fuel -> fcp_loop fuel buf end_ data fcp_end out <> NoFuel.
Proof.
  revert data out; induction fuel as [|fuel IH]; intros data out Hf; cbn [fcp_loop];
    (destruct (Z.ltb_spec data fcp_end); [|done]); [lia|].
  pose proof (parseTlv_result buf data end_) as Hp.
  destruct (parseTlv buf data end_) as [[ret t]| | |]; [|done..]. destruct Hp as (-> & _ & Ht).
  cbn [mbind outcome_bind]. change (0 <? 0) with false. cbn match.
  destruct (fcp_property buf t out) as [[[e|] out']| | |] eqn:Ep; cbn [mbind outcome_bind];
    [done| |done|done|by apply fcp_property_fuel in Ep].
  apply IH. lia.
Qed.

(** A whole template in its response. *)
Lemma fcp_template (ps : list prop) (post : bytes) (len : Z)
  (out : ts_51011_921_resp) :
  Forall prop_ok ps -> is_byte (Z.of_nat (length (template_bytes ps))) ->
  fcp_to_ts_51011 (hex_text (tlv_bytes 0x62 (template_bytes ps)) ++ post) len out =
    Ret (spec_template ps resp_zero).
Proof.
  intros Hps Hl. unfold fcp_to_ts_51011, tlv_bytes.
  set (L := Z.of_nat (length (template_bytes ps))) in *.
  assert (forall b r, hex_text (0x62 :: L :: b) ++ r = [] ++ hex_text [0x62; L] ++ (hex_text b ++ r)) as E by done.
  rewrite E, parseTlv_hex by done. cbn [mbind outcome_bind tlv_tag tlv_data tlv_end].
  change (0 <? 0) with false. change (negb (0x62 =? 0x62)) with false. cbn match.
  assert (length ps <= FCP_FUEL)%nat as Hn.
  { assert (2 * length ps <= length (template_bytes ps))%nat.
    { clear. unfold template_bytes. induction ps as [|p ps IH]; simpl; [lia|].
      rewrite length_app. lia. }
    unfold is_byte, FCP_FUEL, L in *. lia. }
  pose proof (fcp_loop_refines ps FCP_FUEL (hex_text [0x62; L]) post len resp_zero Hps Hn) as H.
  cbv zeta in H. rewrite hex_text_length in H. simpl length in H. simpl app.
  replace (0 + 4 + L * 2) with (Z.of_nat (2 * 2) + 2 * L) by lia. exact H.
Qed.

(** ** Properties *)

(** C6: on the text of a well-formed FCP template (tag 0x62, then any list of
    properties whose total length fits its length byte, then whatever follows
    in the response), [fcp_to_ts_51011] computes exactly the abstract fold of
    the properties, error codes and partial stores included: no pointer leaves
    the buffer and the fuel suffices. *)
Theorem fcp_to_ts_51011_refines (ps : list prop) (post : bytes) (len : Z)
  (out : ts_51011_921_resp) :
  Forall prop_ok ps -> is_byte (Z.of_nat (length (template_bytes ps))) ->
  fcp_to_ts_51011 (hex_text (tlv_bytes 0x62 (template_bytes ps)) ++ post) len out =
    Ret (spec_template ps resp_zero).
Proof. apply fcp_template. Qed.

(** An EF of linear fixed structure: size 0x0050, identifier 0x6F3A, record
    length 0x14. *)
Lemma fcp_to_ts_51011_refines_witness :
  fcp_to_ts_51011 (s2b "620F820542210014048002005083026F3A" ++ []) 34 resp_zero =
    Ret (0, mk_resp (0, 0) (0x00, 0x50) (0x6F, 0x3A) 4 0 (0, 0, 0) 1 2 1 0x14).
Proof.
  apply (fcp_to_ts_51011_refines
    [(0x82, [0x42; 0x21; 0x00; 0x14; 0x04]); (0x80, [0x00; 0x50]); (0x83, [0x6F; 0x3A])] [] 34);
    repeat constructor; vm_compute; done.
Defined.

(** C39: [fcp_to_ts_51011] terminates on every response: 128 rounds of its loop
    cover any template, well formed or not, because every property consumes
    at least four characters of at most 510. *)
Theorem fcp_terminates (stream : bytes) (len : Z) (out : ts_51011_921_resp) :
  fcp_to_ts_51011 stream len out <> NoFuel.
Proof.
  unfold fcp_to_ts_51011. pose proof (parseTlv_result stream 0 len) as Hp.
  destruct (parseTlv stream 0 len) as [[ret t]| | |]; [|done..]. destruct Hp as (-> & Hd & Ht).
  cbn [mbind outcome_bind]. change (0 <? 0) with false. cbn match.
  destruct (negb (tlv_tag t =? 0x62)); [done|]. apply fcp_loop_fuel. unfold FCP_FUEL. lia.
Qed.

(** [convertSimIoFcp] hands out text only for a non-empty response of even
    length that parses; the text is then the 30 hexadecimal characters of the
    packed response structure.  In every other case the error is negative and
    no string is stored. *)
Theorem convertSimIoFcp_result (r : option bytes) (resp0 : ts_51011_921_resp) (m : bool) err cvt :
  convertSimIoFcp r resp0 m = Ret (err, cvt) ->
  (err < 0 /\ cvt = None) \/
  (exists s e resp, r = Some s /\ s <> [] /\ Nat.even (length s) = true /\
     fcp_to_ts_51011 s (Z.of_nat (length s)) resp0 = Ret (e, resp) /\ 0 <= e /\ err = 0 /\
     cvt = Some (hex_text (resp_bytes resp)) /\ length (hex_text (resp_bytes resp)) = 30%nat).
Proof.
  unfold convertSimIoFcp. destruct r as [s|]; [|intros [= <- <-]; left; split; [lia|done]].
  destruct ((Z.of_nat (length s) =? 0) || ctrue (Z.of_nat (length s) .& 1)) eqn:Eg;
    [intros [= <- <-]; left; split; [lia|done]|].
  apply orb_false_iff in Eg as [E0 E1].
  destruct (fcp_to_ts_51011 s (Z.of_nat (length s)) resp0) as [[e resp]| | |] eqn:Ef; [|done..].
  cbn [mbind outcome_bind]. destruct (Z.ltb_spec e 0); [intros [= <- <-]; by left|].
  destruct m; [|intros [= <- <-]; left; split; [lia|done]].
  unfold binaryToString. intros [= <- <-]. right. exists s, e, resp.
  repeat split; try done; [by intros ->|].
  unfold ctrue in E1. rewrite (Z.land_ones _ 1) in E1 by lia.
  apply Nat.even_spec. exists (Nat.div2 (length s)).
  pose proof (Nat.div2_odd (length s)) as Ho.
  destruct (Nat.odd (length s)) eqn:Eo; simpl in Ho; [|lia].
  exfalso. apply Nat.odd_spec in Eo as [k Hk]. rewrite Hk in E1.
  replace (Z.of_nat (2 * k + 1)) with (1 + Z.of_nat k * 2) in E1 by lia.
  by rewrite Z.mod_add in E1.
Qed.

Lemma convertSimIoFcp_result_witness :
  exists cvt, convertSimIoFcp (Some (s2b "620480026F3A")) resp_zero true = Ret (0, cvt) /\
    cvt = Some (s2b "00006F3A0000000000000000000000").
Proof.
  eexists. split; [vm_compute; reflexivity|].
  destruct (convertSimIoFcp_result (Some (s2b "620480026F3A")) resp_zero true 0
    (Some (s2b "00006F3A0000000000000000000000"))) as [[? _]|(s & e & r & _ & _ & _ & _ & _ & H & _)];
    [vm_compute; reflexivity|lia|vm_compute; reflexivity].
Defined.

(** A template whose length byte promises more than the response holds is
    not refused: the parser reads past the terminator of the response.  The
    length checks of [TLV_STREAM_GET] and [parseTlv] are there but their
    [goto underflow] is commented out for the sake of some modems. *)
Theorem fcp_truncated_reads_past_end (size : Z) (out : ts_51011_921_resp) :
  is_byte size -> size <> 0 ->
  fcp_to_ts_51011 (hex_text [0x62; size]) 4 out = Ub.
Proof.
  intros Hs Hne. unfold fcp_to_ts_51011.
  rewrite <- (app_nil_r (hex_text [0x62; size])), <- (app_nil_l (_ ++ [])).
  rewrite parseTlv_hex by done. cbn [mbind outcome_bind tlv_tag tlv_data tlv_end].
  change (0 <? 0) with false. change (negb (0x62 =? 0x62)) with false. cbn match.
  unfold FCP_FUEL. cbn [fcp_loop].
  destruct (Z.ltb_spec (0 + 4) (0 + 4 + size * 2)); [|unfold is_byte in Hs; lia]. done.
Qed.

Lemma fcp_truncated_reads_past_end_witness :
  fcp_to_ts_51011 (s2b "6210") 4 resp_zero = Ub.
Proof. apply (fcp_truncated_reads_past_end 16 resp_zero); [split; done|done]. Defined.
