(* ===== verification/Sms3gpp2.v ===== *)
(** * 3GPP2 SMS transport layer: [hardware/ril/altair-ril/SMS3GPP2.c]

    The serializer and deserializer of the CDMA transport message, on byte
    buffers.  A [U8 *data] into a received buffer is the buffer and an offset;
    a store through a growing [U8 *buffer] appends to the bytes written. *)

From S2P Require Import Prelude.

(** ** Data ([SMS3GPP2.h]); enumerations are their C values *)

Definition SMS3GPP2TransMsgType_PointToPoint : Z := 0.
Definition SMS3GPP2TransMsgType_Broadcast : Z := 1.
Definition SMS3GPP2TransMsgType_Acknowledge : Z := 2.

Definition SMS3GPP2TransTag_TeleserviceIdentifier : Z := 0.
Definition SMS3GPP2TransTag_OriginatingAddress : Z := 2.
Definition SMS3GPP2TransTag_DestinationAddress : Z := 4.
Definition SMS3GPP2TransTag_BearerReplyOption : Z := 6.
Definition SMS3GPP2TransTag_CauseCodes : Z := 7.
Definition SMS3GPP2TransTag_BearerData : Z := 8.

Definition SMS3GPP2Address_DigitMode_4BitDTMF : Z := 0.
Definition SMS3GPP2Address_NumberMode_ANSIT1607 : Z := 0.
Definition SMS3GPP2CauseCodes_ErrorClass_no_error : Z := 0.
Definition TeleserviceCDMACellularMessaging : Z := 4098.

Definition MAX_NUM_OF_ADDRESS_FIELDS : Z := 20.

Definition SMS3GPP2TransOpt_BearerReplyOption : Z := 1.
Definition SMS3GPP2TransOpt_BearerDataOption : Z := 2.
Definition SMS3GPP2TransOpt_CauseCodesOption : Z := 4.

Record SMS3GPP2Address_t := mk_addr {
  digitMode : Z;
  numberMode : Z;
  numOfFields : Z;
  address : bytes }.

Record SMS3GPP2TransCauseCodes_t := mk_cause {
  cc_reply_seq : Z;
  error_class : Z;
  cause_code : Z }.

Record SMS3GPP2TransportLayer_t := mk_sms {
  msgType : Z;
  teleserviceIndetifier : Z;
  originatingAddress : SMS3GPP2Address_t;
  destinationAddress : SMS3GPP2Address_t;
  bearerDataLen : Z;
  bearerData : bytes;
  optinalFieldsBitmap : Z;
  reply_seq : Z;
  causeCodes : SMS3GPP2TransCauseCodes_t }.

(** [memset(.., 0, sizeof(SMS3GPP2TransportLayer_t))] *)
Definition addr_zero : SMS3GPP2Address_t := mk_addr 0 0 0 (replicate 20 0).
Definition cause_zero : SMS3GPP2TransCauseCodes_t := mk_cause 0 0 0.
Definition sms_zero : SMS3GPP2TransportLayer_t :=
  mk_sms 0 0 addr_zero addr_zero 0 (replicate 255 0) 0 0 cause_zero.

Definition set_msgType v m := mk_sms v (teleserviceIndetifier m) (originatingAddress m)
  (destinationAddress m) (bearerDataLen m) (bearerData m) (optinalFieldsBitmap m)
  (reply_seq m) (causeCodes m).
Definition set_teleservice v m := mk_sms (msgType m) v (originatingAddress m)
  (destinationAddress m) (bearerDataLen m) (bearerData m) (optinalFieldsBitmap m)
  (reply_seq m) (causeCodes m).
Definition set_originating v m := mk_sms (msgType m) (teleserviceIndetifier m) v
  (destinationAddress m) (bearerDataLen m) (bearerData m) (optinalFieldsBitmap m)
  (reply_seq m) (causeCodes m).
Definition set_destination v m := mk_sms (msgType m) (teleserviceIndetifier m)
  (originatingAddress m) v (bearerDataLen m) (bearerData m) (optinalFieldsBitmap m)
  (reply_seq m) (causeCodes m).
Definition set_bearer n d m := mk_sms (msgType m) (teleserviceIndetifier m)
  (originatingAddress m) (destinationAddress m) n d (optinalFieldsBitmap m)
  (reply_seq m) (causeCodes m).
Definition or_bitmap v m := mk_sms (msgType m) (teleserviceIndetifier m)
  (originatingAddress m) (destinationAddress m) (bearerDataLen m) (bearerData m)
  (optinalFieldsBitmap m .| v) (reply_seq m) (causeCodes m).
Definition set_reply_seq v m := mk_sms (msgType m) (teleserviceIndetifier m)
  (originatingAddress m) (destinationAddress m) (bearerDataLen m) (bearerData m)
  (optinalFieldsBitmap m) v (causeCodes m).
Definition set_causeCodes v m := mk_sms (msgType m) (teleserviceIndetifier m)
  (originatingAddress m) (destinationAddress m) (bearerDataLen m) (bearerData m)
  (optinalFieldsBitmap m) (reply_seq m) v.

(** ** Scalars *)

Definition getNextTLV (buf : bytes) (data : Z) : outcome (Z * Z * Z) :=
  tag ← arr_rd buf data; fieldLen ← arr_rd buf (data + 1); Ret (tag, fieldLen, data + 2).

(** [getDec]: the decoded value and the advanced pointer. *)
Definition getDec (buf : bytes) (data : Z) : outcome (Z * Z) :=
  b ← arr_rd buf data;
  let dec := u8 (((b ≫ 4) .& 0xf) * 10) in
  Ret (u8 (dec + (b .& 0xf)), data + 1).

(** [putDec]: the byte stored, and the new [*bufferLen]. *)
Definition putDec (dec bufferLen : Z) : Z * Z :=
  (u8 ((((dec / 10) .& 0xf) ≪ 8) .| ((dec mod 10) .& 0xf)), u32 (bufferLen - 1)).

Definition putU16 (v bufferLen : Z) : bytes * Z :=
  ([(v ≫ 8) .& 0xff; v .& 0xff], u32 (bufferLen - 2)).

Definition putU32 (v bufferLen : Z) : bytes * Z :=
  ([(v ≫ 24) .& 0xff; (v ≫ 16) .& 0xff; (v ≫ 8) .& 0xff; v .& 0xff], u32 (bufferLen - 4)).

Definition getU16 (buf : bytes) (data : Z) : outcome (Z * Z) :=
  byte1 ← arr_rd buf data; byte2 ← arr_rd buf (data + 1);
  Ret (u16 ((byte1 ≪ 8) .| byte2), data + 2).

Definition getU32 (buf : bytes) (data : Z) : outcome (Z * Z) :=
  byte1 ← arr_rd buf data; byte2 ← arr_rd buf (data + 1);
  byte3 ← arr_rd buf (data + 2); byte4 ← arr_rd buf (data + 3);
  Ret (u32 ((byte1 ≪ 24) .| (byte2 ≪ 16) .| (byte3 ≪ 8) .| byte4), data + 4).

(** ** Deserializer *)

(** [while (numOfFields > 0)]: two digits per round, one when only one is left.
    Returns the digits array, [data] and [digitPos]. *)
Fixpoint addr_digits (n : nat) (buf : bytes) (data digitPos : Z) (addr : bytes)
  : outcome (bytes * Z * Z) :=
  match n with
  | O => Ret (addr, data, digitPos)
  | S n1 =>
    b ← arr_rd buf data;
    let firstDigitIdx := (b ≫ 2) .& 0xf in
    let secondDigitIdx := (b .& 0x3) ≪ 2 in
    addr ← arr_wr addr digitPos firstDigitIdx;
    match n1 with
    | O => Ret (addr, data, digitPos + 1)
    | S n2 =>
      b ← arr_rd buf (data + 1);
      addr ← arr_wr addr (digitPos + 1) (secondDigitIdx .| ((b ≫ 6) .& 0x3));
      addr_digits n2 buf (data + 1) (digitPos + 2) addr
    end
  end.

Definition SMS3GPP2_TransportLayer_Addr_Deserialize (smsAddr : SMS3GPP2Address_t)
  (buf : bytes) (data len : Z) : outcome (SMS3GPP2Address_t * Z) :=
  byte1 ← arr_rd buf data;
  let data := data + 1 in
  byte2 ← arr_rd buf data;
  let dm := (byte1 ≫ 7) .& 0x1 in
  let nm := (byte1 ≫ 6) .& 0x1 in
  let nf := u8 (((byte1 .& 0x3f) ≪ 2) .| ((byte2 ≫ 6) .& 0x3)) in
  _ ← c_assert (dm =? SMS3GPP2Address_DigitMode_4BitDTMF);
  '(addr, data, digitPos) ←
    (if dm =? SMS3GPP2Address_DigitMode_4BitDTMF
     then addr_digits (Z.to_nat nf) buf data 0 (address smsAddr)
     else Ret (address smsAddr, data, 0));
  addr ← arr_wr addr digitPos 0;
  Ret (mk_addr dm nm nf addr, data + 1).

Definition SMS3GPP2_TransportLayer_MsgInd_Deserialize (buf : bytes) (data len : Z)
  : outcome (Z * Z) :=
  _ ← c_assert (len =? 2); getU16 buf data.

(** [memcpy] of [n] bytes from [buf + data] to the start of [dst]. *)
Definition copy_in (dst buf : bytes) (data n : Z) : outcome bytes :=
  if (0 <=? data) && (data + n <=? Z.of_nat (length buf)) && (n <=? Z.of_nat (length dst))
  then Ret (take (Z.to_nat n) (drop (Z.to_nat data) buf) ++ drop (Z.to_nat n) dst)
  else Ub.

(** One round of the loop, from [getNextTLV] on: the [switch (TransTag)]. *)
Definition sms_field (buf : bytes) (data : Z) (m : SMS3GPP2TransportLayer_t)
  : outcome (SMS3GPP2TransportLayer_t * Z) :=
  '(tag, fieldLen, data) ← getNextTLV buf data;
  if tag =? SMS3GPP2TransTag_TeleserviceIdentifier then
    '(v, data) ← SMS3GPP2_TransportLayer_MsgInd_Deserialize buf data fieldLen;
    Ret (set_teleservice v m, data)
  else if tag =? SMS3GPP2TransTag_OriginatingAddress then
    '(a, data) ← SMS3GPP2_TransportLayer_Addr_Deserialize (originatingAddress m) buf data fieldLen;
    Ret (set_originating a m, data)
  else if tag =? SMS3GPP2TransTag_DestinationAddress then
    '(a, data) ← SMS3GPP2_TransportLayer_Addr_Deserialize (destinationAddress m) buf data fieldLen;
    Ret (set_destination a m, data)
  else if tag =? SMS3GPP2TransTag_BearerData then
    let m := or_bitmap SMS3GPP2TransOpt_BearerDataOption m in
    d ← copy_in (bearerData m) buf data fieldLen;
    Ret (set_bearer fieldLen d m, data + fieldLen)
  else if tag =? SMS3GPP2TransTag_CauseCodes then
    b ← arr_rd buf data;
    let rs := (b ≫ 2) .& 0x3f in
    let ec := b .& 0x03 in
    let data := data + 1 in
    if negb (ec =? SMS3GPP2CauseCodes_ErrorClass_no_error) then
      c ← arr_rd buf data; Ret (set_causeCodes (mk_cause rs ec c) m, data + 1)
    else Ret (set_causeCodes (mk_cause rs ec (cause_code (causeCodes m))) m, data)
  else if tag =? SMS3GPP2TransTag_BearerReplyOption then
    let m := or_bitmap SMS3GPP2TransOpt_BearerReplyOption m in
    b ← arr_rd buf data;
    Ret (set_reply_seq ((b ≫ 2) .& 0x3f) m, data + 1)
  else Ret (m, data + fieldLen).

(** [while (data < endPtr)]: every round reads at least the two bytes of
    [getNextTLV], so [len] rounds are enough. *)
Fixpoint sms_loop (fuel : nat) (buf : bytes) (data endPtr : Z) (m : SMS3GPP2TransportLayer_t)
  : outcome SMS3GPP2TransportLayer_t :=
  if data <? endPtr then
    match fuel with
    | O => NoFuel
    | S fuel => '(m, data) ← sms_field buf data m; sms_loop fuel buf data endPtr m
    end
  else Ret m.

(** [buf] is the object [data] points to, of at least [len] bytes; [malloc_ok]
    whether the allocation succeeds. *)
Definition SMS3GPP2_TransportLayer_Deserialize (buf : bytes) (len : Z) (malloc_ok : bool)
  : outcome SMS3GPP2TransportLayer_t :=
  _ ← c_assert (0 <? len);
  _ ← c_assert malloc_ok;
  t ← arr_rd buf 0;
  sms_loop (Z.to_nat len) buf 1 len (set_msgType t sms_zero).

(** ** Serializer *)

Definition SMS3GPP2_char2DTMF4BitIdx (digit : Z) : Z :=
  if (49 <=? digit) && (digit <=? 57) then digit .& 0xf
  else if digit =? 48 then 10
  else if digit =? 42 then 11
  else if digit =? 35 then 12
  else 0.

(** [for (digitPos = 0; digitPos < numOfFields; digitPos++)], [n] rounds left:
    the bytes completed from here on, the last one still at [*buffer]. *)
Fixpoint put_digits (n : nat) (addr : bytes) (digitPos cur : Z) : outcome bytes :=
  match n with
  | O => Ret [cur]
  | S n =>
    digitIdx ← arr_rd addr digitPos;
    if digitPos mod 2 =? 0 then
      put_digits n addr (digitPos + 1) (u8 (cur .| (digitIdx ≪ 2)))
    else
      let cur := u8 (cur .| ((digitIdx ≫ 2) .& 0x3)) in
      rest ← put_digits n addr (digitPos + 1) (u8 ((digitIdx .& 0x3) ≪ 6));
      Ret (cur :: rest)
  end.

Definition SMS3GPP2_TransportLayer_Addr_Serialize (addrTypeTag : Z) (a : SMS3GPP2Address_t)
  (bufferLen : Z) : outcome (bytes * Z) :=
  let mode := u8 ((digitMode a .& 0x1) ≪ 7) in
  let mode := u8 (mode .| ((numberMode a .& 0x1) ≪ 6)) in
  let mode := u8 (mode .| ((numOfFields a ≫ 2) .& 0x3f)) in
  let cur := u8 ((numOfFields a .& 0x3) ≪ 6) in
  _ ← c_assert (digitMode a =? SMS3GPP2Address_DigitMode_4BitDTMF);
  digits ←
    (if digitMode a =? SMS3GPP2Address_DigitMode_4BitDTMF
     then put_digits (Z.to_nat (numOfFields a)) (address a) 0 cur
     else Ret [cur]);
  let v := mode :: digits in
  let l := u8 (Z.of_nat (length v)) in
  let bufferLen := u32 (bufferLen - (l + 2)) in
  _ ← c_assert (0 <=? bufferLen);
  Ret (u8 addrTypeTag :: l :: v, bufferLen).

Definition SMS3GPP2_TransportLayer_MsgInd_Serialize (teleInd bufferLen : Z)
  : outcome (bytes * Z) :=
  let bufferLen := u32 (bufferLen - 3) in
  let '(v, bufferLen) := putU16 teleInd bufferLen in
  _ ← c_assert (0 <=? bufferLen);
  Ret (SMS3GPP2TransTag_TeleserviceIdentifier :: 2 :: v, bufferLen).

(** The three optional parts of [SMS3GPP2_TransportLayer_Serialize]. *)
Definition put_reply (m : SMS3GPP2TransportLayer_t) (bufferLen : Z) : outcome (bytes * Z) :=
  if ctrue (optinalFieldsBitmap m .& SMS3GPP2TransOpt_BearerReplyOption) then
    let bufferLen := u32 (bufferLen - 3) in
    _ ← c_assert (0 <=? bufferLen);
    Ret ([SMS3GPP2TransTag_BearerReplyOption; 1; u8 ((reply_seq m .& 0x3f) ≪ 2)], bufferLen)
  else Ret ([], bufferLen).

Definition put_cause (m : SMS3GPP2TransportLayer_t) (bufferLen : Z) : outcome (bytes * Z) :=
  if ctrue (optinalFieldsBitmap m .& SMS3GPP2TransOpt_CauseCodesOption) then
    let c := causeCodes m in
    let none := error_class c =? SMS3GPP2CauseCodes_ErrorClass_no_error in
    let b := u8 (((cc_reply_seq c .& 0x3f) ≪ 2) .| (error_class c .& 0x3)) in
    let bufferLen := u32 (bufferLen - (if none then 3 else 4)) in
    _ ← c_assert (0 <=? bufferLen);
    Ret ([SMS3GPP2TransTag_BearerReplyOption; if none then 1 else 2; b] ++
         (if none then [] else [cause_code c]), bufferLen)
  else Ret ([], bufferLen).

Definition put_bearer (m : SMS3GPP2TransportLayer_t) (bufferLen : Z) : outcome (bytes * Z) :=
  if ctrue (optinalFieldsBitmap m .& SMS3GPP2TransOpt_BearerDataOption) then
    if Z.of_nat (length (bearerData m)) <? bearerDataLen m then Ub
    else
      let bufferLen := u32 (bufferLen - bearerDataLen m) in
      _ ← c_assert (0 <=? bufferLen);
      Ret ([SMS3GPP2TransTag_BearerData; u8 (bearerDataLen m)] ++
           take (Z.to_nat (bearerDataLen m)) (bearerData m), bufferLen)
  else Ret ([], bufferLen).

(** The bytes written from [buffer] on, and the final [*bufferLen]; the C
    result is always 0.  Nothing compares the writes with [*bufferLen]: the
    caller's buffer must have room for them. *)
Definition SMS3GPP2_TransportLayer_Serialize (m : SMS3GPP2TransportLayer_t) (bufferLen : Z)
  : outcome (bytes * Z) :=
  let bufferLen := u32 (bufferLen - 1) in
  '(tele, bufferLen) ←
    SMS3GPP2_TransportLayer_MsgInd_Serialize (teleserviceIndetifier m) bufferLen;
  '(dest, bufferLen) ←
    SMS3GPP2_TransportLayer_Addr_Serialize SMS3GPP2TransTag_DestinationAddress
      (destinationAddress m) bufferLen;
  '(reply, bufferLen) ← put_reply m bufferLen;
  '(cause, bufferLen) ← put_cause m bufferLen;
  '(bearer, _) ← put_bearer m bufferLen;
  let out := u8 (msgType m) :: tele ++ dest ++ reply ++ cause ++ bearer in
  Ret (out, u32 (Z.of_nat (length out))).

(** ** Construction *)

(** [memcpy] of the whole structure, then of the bearer data over itself. *)
Definition SMS3GPP2_TransportLayer_copy (m : SMS3GPP2TransportLayer_t) (malloc_ok : bool)
  : outcome SMS3GPP2TransportLayer_t :=
  _ ← c_assert malloc_ok;
  if ctrue (optinalFieldsBitmap m .& SMS3GPP2TransOpt_BearerDataOption) then
    d ← copy_in (bearerData m) (bearerData m) 0 (bearerDataLen m);
    Ret (set_bearer (bearerDataLen m) d m)
  else Ret m.

(** [strncpy(dst, s, n)] on an array of [n] bytes. *)
Definition strncpy_array (s : bytes) (n : nat) : bytes :=
  take n s ++ replicate (n - length s) 0.

(** The fields the function does not set keep what the stack held: [junk]. *)
Definition SMS3GPP2_CreateStandardMoAcknowledgeSMS (junk : SMS3GPP2TransportLayer_t)
  (destination : bytes) (replySeq errorClass causeCode : Z) (malloc_ok : bool)
  : outcome SMS3GPP2TransportLayer_t :=
  let dest := mk_addr SMS3GPP2Address_DigitMode_4BitDTMF SMS3GPP2Address_NumberMode_ANSIT1607
                (u8 (Z.of_nat (length destination)))
                (strncpy_array destination (Z.to_nat MAX_NUM_OF_ADDRESS_FIELDS)) in
  let cause := mk_cause replySeq errorClass
    (if negb (errorClass =? SMS3GPP2CauseCodes_ErrorClass_no_error) then causeCode
     else cause_code (causeCodes junk)) in
  SMS3GPP2_TransportLayer_copy
    (mk_sms SMS3GPP2TransMsgType_Acknowledge TeleserviceCDMACellularMessaging
       (originatingAddress junk) dest (bearerDataLen junk) (bearerData junk)
       SMS3GPP2TransOpt_CauseCodesOption (reply_seq junk) cause) malloc_ok.

(** ** Lemmas: packing of the digits *)

Definition digit_ok (d : Z) : Prop := 0 <= d < 16.

(** The bytes that hold the digits [ds] after the two bits [k]. *)
Fixpoint pack (k : Z) (ds : list Z) : bytes :=
  match ds with
  | [] => [u8 (k ≪ 6)]
  | [d] => [u8 (u8 (k ≪ 6) .| (d ≪ 2))]
  | d0 :: d1 :: ds =>
    u8 (u8 (u8 (k ≪ 6) .| (d0 ≪ 2)) .| ((d1 ≫ 2) .& 0x3)) :: pack (d1 .& 0x3) ds
  end.

(** What the bits of the packed bytes say, over all two-bit carries and digits. *)
Definition packed_bits_ok (k d0 d1 : Z) : bool :=
  let b := u8 (u8 (u8 (k ≪ 6) .| (d0 ≪ 2)) .| ((d1 ≫ 2) .& 0x3)) in
  let c := u8 (u8 (k ≪ 6) .| (d0 ≪ 2)) in
  ((b ≫ 2) .& 0xf =? d0) && ((b ≫ 6) .& 0x3 =? k) && ((c ≫ 2) .& 0xf =? d0) &&
  ((c ≫ 6) .& 0x3 =? k) && ((u8 (k ≪ 6) ≫ 6) .& 0x3 =? k) &&
  ((((b .& 0x3) ≪ 2) .| (d1 .& 0x3)) =? d1).

Lemma packed_bits k d0 d1 : 0 <= k < 4 -> digit_ok d0 -> digit_ok d1 -> packed_bits_ok k d0 d1 = true.
Proof.
  intros Hk H0 H1.
  apply (zrange_forall 16 (packed_bits_ok k d0)); [|done].
  apply (zrange_forall 16 (fun d0 => forallb (packed_bits_ok k d0) (seqZ 0 16))); [|done].
  apply (zrange_forall 4 (fun k => forallb (fun d0 => forallb (packed_bits_ok k d0) (seqZ 0 16)) (seqZ 0 16)));
    [vm_compute; reflexivity|done].
Qed.

Lemma low2_range d : 0 <= d .& 0x3 < 4.
Proof. rewrite (Z.land_ones _ 2) by lia. apply Z.mod_pos_bound. lia. Qed.

Lemma pack_length k ds : length (pack k ds) = S (length ds / 2).
Proof.
  revert k. induction ds as [|d|d0 d1 ds IH] using list_ind2; intros k; [done|done|].
  cbn [pack length]. rewrite IH. f_equal.
  replace (S (S (length ds)))%nat with (length ds + 1 * 2)%nat by lia.
  rewrite Nat.div_add by lia. lia.
Qed.

(** The head of the packed bytes carries [k] in its two top bits. *)
Lemma pack_head k ds : 0 <= k < 4 -> Forall digit_ok ds ->
  exists b r, pack k ds = b :: r /\ (b ≫ 6) .& 0x3 = k.
Proof.
  intros Hk Hds. destruct ds as [|d0 [|d1 ds]]; cbn [pack]; eexists _, _; (split; [reflexivity|]).
  - pose proof (packed_bits k 0 0 Hk ltac:(done) ltac:(done)) as H. unfold packed_bits_ok in H. zbool. done.
  - apply Forall_cons in Hds as [H0 _].
    pose proof (packed_bits k d0 0 Hk H0 ltac:(done)) as H. unfold packed_bits_ok in H. zbool. done.
  - apply Forall_cons in Hds as [H0 Hds]. apply Forall_cons in Hds as [H1 _].
    pose proof (packed_bits k d0 d1 Hk H0 H1) as H. unfold packed_bits_ok in H. zbool. done.
Qed.

Lemma put_digits_pack ds : forall pre post k,
  0 <= k < 4 -> Nat.even (length pre) = true ->
  put_digits (length ds) (pre ++ ds ++ post) (Z.of_nat (length pre)) (u8 (k ≪ 6)) =
    Ret (pack k ds).
Proof.
  assert (forall n : nat, Nat.even n = true -> (Z.of_nat n mod 2 =? 0) = true) as Hev.
  { intros n Hn. apply Nat.even_spec in Hn as [m ->]. rewrite Nat2Z.inj_mul, Z.mul_comm.
    by rewrite Z.mod_mul. }
  induction ds as [|d|d0 d1 ds IH] using list_ind2; intros pre post k Hk He; [done|..];
    cbn [length put_digits].
  - cbn [app]. rewrite arr_rd_at. cbn [mbind outcome_bind]. by rewrite Hev.
  - cbn [app]. rewrite arr_rd_at. cbn [mbind outcome_bind]. rewrite Hev by done.
    rewrite (cons_middle d0), app_assoc.
    rewrite (arr_rd_middle (pre ++ [d0]) d1) by (rewrite length_app; simpl; lia). cbn [mbind outcome_bind].
    replace ((Z.of_nat (length pre) + 1) mod 2 =? 0) with false.
    2: { apply Nat.even_spec in He as [m ->]. rewrite Nat2Z.inj_mul, Z.add_comm, Z.mul_comm.
         by rewrite Z.mod_add. }
    rewrite (cons_middle d1), app_assoc.
    replace (Z.of_nat (length pre) + 1 + 1) with (Z.of_nat (length ((pre ++ [d0]) ++ [d1])))
      by (rewrite !length_app; simpl; lia).
    rewrite IH; [done|apply low2_range|].
    rewrite !length_app. simpl. replace (length pre + 1 + 1)%nat with (S (S (length pre))) by lia. done.
Qed.

Lemma addr_digits_pack ds : forall bpre bpost dpre old k,
  0 <= k < 4 -> Forall digit_ok ds -> (length ds <= length old)%nat ->
  addr_digits (length ds) (bpre ++ pack k ds ++ bpost) (Z.of_nat (length bpre))
    (Z.of_nat (length dpre)) (dpre ++ old) =
  Ret (dpre ++ ds ++ drop (length ds) old,
       Z.of_nat (length bpre) + Z.of_nat (length ds / 2),
       Z.of_nat (length dpre + length ds)).
Proof.
  induction ds as [|d|d0 d1 ds IH] using list_ind2; intros bpre bpost dpre old k Hk Hds Hl.
  - cbn [addr_digits length]. simpl. by rewrite Z.add_0_r, Nat.add_0_r.
  - destruct old as [|o old]; [simpl in Hl; lia|]. cbn [addr_digits length pack].
    cbn [app]. rewrite arr_rd_at. cbn [mbind outcome_bind].
    rewrite arr_wr_at. cbn [mbind outcome_bind].
    apply Forall_cons in Hds as [H0 _].
    pose proof (packed_bits k d 0 Hk H0 ltac:(done)) as H. unfold packed_bits_ok in H. zbool.
    do 2 f_equal; [|lia]. f_equal; [|simpl; lia]. simpl. rewrite drop_0. by f_equal; f_equal.
  - destruct old as [|o0 [|o1 old]]; [simpl in Hl; lia..|].
    apply Forall_cons in Hds as [H0 Hds]. apply Forall_cons in Hds as [H1 Hds].
    pose proof (packed_bits k d0 d1 Hk H0 H1) as H. unfold packed_bits_ok in H. zbool.
    cbn [length pack]. cbn [addr_digits].
    set (b := u8 (u8 (u8 (k ≪ 6) .| (d0 ≪ 2)) .| ((d1 ≫ 2) .& 0x3))) in *.
    cbn [app]. rewrite arr_rd_at. cbn [mbind outcome_bind].
    rewrite arr_wr_at. cbn [mbind outcome_bind].
    destruct (pack_head (d1 .& 0x3) ds (low2_range d1) Hds) as (b' & r & Ep & Hb').
    pose proof (IH (bpre ++ [b]) bpost ((dpre ++ [d0]) ++ [d1]) old (d1 .& 0x3)
      (low2_range d1) Hds ltac:(simpl in Hl; lia)) as IH'.
    rewrite Ep in IH' |- *. cbn [app] in IH' |- *.
    rewrite (cons_middle b), app_assoc.
    rewrite (arr_rd_middle (bpre ++ [b]) b') by (rewrite length_app; simpl; lia). cbn [mbind outcome_bind].
    replace ((b ≫ 2) .& 0xf) with d0 by congruence.
    rewrite (cons_middle d0), app_assoc.
    rewrite (arr_wr_middle (dpre ++ [d0]) o1) by (rewrite length_app; simpl; lia). cbn [mbind outcome_bind].
    rewrite Hb'. replace (((b .& 0x3) ≪ 2) .| (d1 .& 0x3)) with d1 by congruence.
    rewrite (cons_middle d1), app_assoc.
    replace (Z.of_nat (length bpre) + 1) with (Z.of_nat (length (bpre ++ [b])))
      by (rewrite length_app; simpl; lia).
    replace (Z.of_nat (length dpre) + 2) with (Z.of_nat (length ((dpre ++ [d0]) ++ [d1])))
      by (rewrite !length_app; simpl; lia).
    rewrite IH'. f_equal. f_equal; [f_equal|].
    + rewrite <- !app_assoc. simpl. by rewrite ?skipn_cons.
    + rewrite length_app. replace (S (S (length ds)))%nat with (length ds + 1 * 2)%nat by lia.
      rewrite Nat.div_add by lia. simpl. lia.
    + rewrite !length_app. simpl. lia.
Qed.

(** ** Lemmas: fields *)

Definition addr_ok (a : SMS3GPP2Address_t) : Prop :=
  digitMode a = SMS3GPP2Address_DigitMode_4BitDTMF /\ 0 <= numberMode a < 2 /\
  0 <= numOfFields a < MAX_NUM_OF_ADDRESS_FIELDS /\
  Z.of_nat (length (address a)) = MAX_NUM_OF_ADDRESS_FIELDS /\
  Forall digit_ok (take (Z.to_nat (numOfFields a)) (address a)).

Definition addr_mode (nm nf : Z) : Z :=
  u8 (u8 (u8 ((0 .& 0x1) ≪ 7) .| ((nm .& 0x1) ≪ 6)) .| ((nf ≫ 2) .& 0x3f)).

Definition addr_mode_ok (nm nf : Z) : bool :=
  ((addr_mode nm nf ≫ 7) .& 0x1 =? 0) && ((addr_mode nm nf ≫ 6) .& 0x1 =? nm) &&
  (u8 (((addr_mode nm nf .& 0x3f) ≪ 2) .| (nf .& 0x3)) =? nf) &&
  (u8 ((nf .& 0x3) ≪ 6) =? u8 ((nf .& 0x3) ≪ 6)).

Lemma addr_mode_bits nm nf : 0 <= nm < 2 -> is_byte nf -> addr_mode_ok nm nf = true.
Proof.
  intros Hm Hf. apply (byte_forall (addr_mode_ok nm)); [|done].
  apply (zrange_forall 2 (fun nm => forallb (addr_mode_ok nm) (seqZ 0 256)));
    [vm_compute; reflexivity|done].
Qed.

Definition addr_digits_of (a : SMS3GPP2Address_t) : list Z :=
  take (Z.to_nat (numOfFields a)) (address a).

Lemma addr_digits_length a : addr_ok a -> length (addr_digits_of a) = Z.to_nat (numOfFields a).
Proof.
  intros (_ & _ & Hn & Hl & _). unfold addr_digits_of. rewrite length_take.
  unfold MAX_NUM_OF_ADDRESS_FIELDS in *. lia.
Qed.

(** The encoded value of an address: the mode byte, then the packed digits. *)
Definition addr_value (a : SMS3GPP2Address_t) : bytes :=
  addr_mode (numberMode a) (numOfFields a) :: pack (numOfFields a .& 0x3) (addr_digits_of a).

Lemma addr_serialize a tag bl : addr_ok a ->
  exists bl', SMS3GPP2_TransportLayer_Addr_Serialize tag a bl =
    Ret (u8 tag :: Z.of_nat (length (addr_value a)) :: addr_value a, bl').
Proof.
  intros Ha. pose proof (addr_digits_length a Ha) as Hlen. pose proof Ha as (Hd & Hm & Hn & Hl & Hds).
  unfold SMS3GPP2_TransportLayer_Addr_Serialize, SMS3GPP2Address_DigitMode_4BitDTMF in *.
  rewrite Hd. change (0 =? 0) with true. cbn [c_assert mbind outcome_bind].
  pose proof (put_digits_pack (addr_digits_of a) [] (drop (Z.to_nat (numOfFields a)) (address a))
    (numOfFields a .& 0x3) (low2_range _) eq_refl) as E.
  rewrite Hlen in E. cbn [app length] in E. change (Z.of_nat 0) with 0 in E.
  unfold addr_digits_of in E at 1. rewrite take_drop in E. rewrite E. cbn [mbind outcome_bind].
  fold (addr_mode (numberMode a) (numOfFields a)). fold (addr_value a). set (v := addr_value a).
  assert (u8 (Z.of_nat (length v)) = Z.of_nat (length v)) as El.
  { apply u8_small. unfold v, addr_value. cbn [length]. rewrite pack_length, Hlen.
    pose proof (Nat.Div0.div_le_upper_bound (Z.to_nat (numOfFields a)) 2 20).
    unfold MAX_NUM_OF_ADDRESS_FIELDS in *. lia. }
  rewrite El.
  replace (0 <=? _) with true by (symmetry; apply Z.leb_le, u32_range).
  cbn [c_assert mbind outcome_bind]. by eexists.
Qed.

Lemma addr_deserialize a dst pre post len : addr_ok a ->
  Z.of_nat (length (address dst)) = MAX_NUM_OF_ADDRESS_FIELDS ->
  SMS3GPP2_TransportLayer_Addr_Deserialize dst (pre ++ addr_value a ++ post)
    (Z.of_nat (length pre)) len =
  Ret (mk_addr 0 (numberMode a) (numOfFields a)
         (addr_digits_of a ++ 0 :: drop (S (Z.to_nat (numOfFields a))) (address dst)),
       Z.of_nat (length pre) + Z.of_nat (length (addr_value a))).
Proof.
  intros Ha Hdst. pose proof (addr_digits_length a Ha) as Hlen. pose proof Ha as (Hd & Hm & Hn & Hl & Hds).
  fold (addr_digits_of a) in Hds.
  unfold MAX_NUM_OF_ADDRESS_FIELDS in *.
  pose proof (addr_mode_bits (numberMode a) (numOfFields a) Hm ltac:(unfold is_byte; lia)) as Hb.
  unfold addr_mode_ok in Hb. zbool.
  unfold SMS3GPP2_TransportLayer_Addr_Deserialize, addr_value.
  destruct (pack_head (numOfFields a .& 0x3) (addr_digits_of a) (low2_range _) Hds) as (b & r & Ep & Eb).
  set (mode := addr_mode (numberMode a) (numOfFields a)) in *.
  cbn [app]. rewrite arr_rd_at. cbn [mbind outcome_bind].
  rewrite (cons_middle mode), app_assoc.
  replace (Z.of_nat (length pre) + 1) with (Z.of_nat (length (pre ++ [mode])))
    by (rewrite length_app; simpl; lia).
  rewrite Ep at 1. cbn [app]. rewrite arr_rd_at. cbn [mbind outcome_bind].
  rewrite Eb. replace ((mode ≫ 7) .& 0x1) with 0 by lia. cbn [Z.eqb c_assert mbind outcome_bind].
  replace (u8 _) with (numOfFields a) by lia.
  pose proof (addr_digits_pack (addr_digits_of a) (pre ++ [mode]) post [] (address dst)
    (numOfFields a .& 0x3) (low2_range _) Hds ltac:(lia)) as E.
  cbn [app length] in E. change (Z.of_nat 0) with 0 in E. rewrite Hlen in E.
  unfold SMS3GPP2Address_DigitMode_4BitDTMF. cbn [Z.eqb c_assert mbind outcome_bind].
  rewrite E. cbn [mbind outcome_bind].
  assert (exists o rest, drop (Z.to_nat (numOfFields a)) (address dst) = o :: rest /\
            rest = drop (S (Z.to_nat (numOfFields a))) (address dst)) as (o & rest & Eo & Er).
  { destruct (drop (Z.to_nat (numOfFields a)) (address dst)) as [|o rest] eqn:Eo.
    - apply (f_equal length) in Eo. rewrite length_drop in Eo. simpl in Eo. lia.
    - exists o, rest. split; [done|]. rewrite <- Nat.add_1_r, <- drop_drop, Eo. done. }
  rewrite Eo, Nat.add_0_l, <- Hlen, arr_wr_at. cbn [mbind outcome_bind]. rewrite Hlen, <- Er.
  do 2 f_equal; [f_equal; lia|]. rewrite length_app. cbn [length]. rewrite pack_length, Hlen. lia.
Qed.

(** A field is decodable when, wherever it stands, one round of the loop
    consumes exactly it and updates the message by [g]. *)
Definition msg_wf (m : SMS3GPP2TransportLayer_t) : Prop :=
  Z.of_nat (length (address (destinationAddress m))) = MAX_NUM_OF_ADDRESS_FIELDS /\
  Z.of_nat (length (bearerData m)) = 255.

Definition decodes (f : bytes) (g : SMS3GPP2TransportLayer_t -> SMS3GPP2TransportLayer_t) : Prop :=
  f <> [] /\ forall pre post m, msg_wf m ->
    msg_wf (g m) /\
    sms_field (pre ++ f ++ post) (Z.of_nat (length pre)) m =
      Ret (g m, Z.of_nat (length pre) + Z.of_nat (length f)).

Lemma sms_loop_prefix fs : forall fuel pre post endPtr m,
  Forall (fun p => decodes (fst p) (snd p)) fs -> msg_wf m ->
  Z.of_nat (length (pre ++ concat (map fst fs))) <= endPtr ->
  sms_loop (length fs + fuel) (pre ++ concat (map fst fs) ++ post) (Z.of_nat (length pre)) endPtr m =
  sms_loop fuel (pre ++ concat (map fst fs) ++ post)
    (Z.of_nat (length (pre ++ concat (map fst fs)))) endPtr (foldl (fun m p => snd p m) m fs).
Proof.
  induction fs as [|[f g] fs IH]; intros fuel pre post endPtr m Hfs Hm He; cbn [map concat].
  - by rewrite app_nil_r.
  - apply Forall_cons in Hfs as [[Hne Hd] Hfs]. cbn [fst snd] in Hne, Hd.
    cbn [length Nat.add sms_loop fst snd]. cbn [map concat fst] in He.
    destruct (Hd pre (concat (map fst fs) ++ post) m Hm) as [Hm' E].
    destruct (Z.ltb_spec (Z.of_nat (length pre)) endPtr)
      as [_|H]; [|destruct f; [done|]; rewrite !length_app in He; simpl in He; lia].
    rewrite <- app_assoc, E. cbn [mbind outcome_bind foldl snd].
    pose proof (IH fuel (pre ++ f) post endPtr (g m) Hfs Hm') as IH'.
    rewrite <- !app_assoc in IH'. rewrite <- IH' by done.
    rewrite length_app, Nat2Z.inj_add. done.
Qed.

Lemma sms_loop_decodes fs fuel pre m :
  Forall (fun p => decodes (fst p) (snd p)) fs -> (length fs <= fuel)%nat -> msg_wf m ->
  sms_loop fuel (pre ++ concat (map fst fs)) (Z.of_nat (length pre))
    (Z.of_nat (length (pre ++ concat (map fst fs)))) m =
  Ret (foldl (fun m p => snd p m) m fs).
Proof.
  intros Hfs Hf Hm. replace fuel with (length fs + (fuel - length fs))%nat by lia.
  pose proof (sms_loop_prefix fs (fuel - length fs) pre []
    (Z.of_nat (length (pre ++ concat (map fst fs)))) m Hfs Hm ltac:(lia)) as E.
  rewrite app_nil_r in E. rewrite E.
  destruct (fuel - length fs)%nat; cbn [sms_loop]; by rewrite Z.ltb_irrefl.
Qed.

(** More digits than cells: the loop stores out of the array. *)
Lemma addr_digits_overflow ds : forall bpre bpost dpre old k,
  0 <= k < 4 -> Forall digit_ok ds -> (length old < length ds)%nat ->
  addr_digits (length ds) (bpre ++ pack k ds ++ bpost) (Z.of_nat (length bpre))
    (Z.of_nat (length dpre)) (dpre ++ old) = Ub.
Proof.
  induction ds as [|d|d0 d1 ds IH] using list_ind2; intros bpre bpost dpre old k Hk Hds Hl.
  - simpl in Hl. lia.
  - destruct old; [|simpl in Hl; lia]. cbn [addr_digits length pack app]. rewrite arr_rd_at.
    cbn [mbind outcome_bind]. by rewrite arr_wr_out by (rewrite length_app; simpl; lia).
  - apply Forall_cons in Hds as [H0 Hds]. apply Forall_cons in Hds as [H1 Hds].
    destruct (pack_head (d1 .& 0x3) ds (low2_range d1) Hds) as (b' & r & Ep & Hb').
    cbn [length pack]. cbn [addr_digits].
    set (b := u8 (u8 (u8 (k ≪ 6) .| (d0 ≪ 2)) .| ((d1 ≫ 2) .& 0x3))) in *.
    cbn [app]. rewrite arr_rd_at. cbn [mbind outcome_bind].
    destruct old as [|o0 old]; [by rewrite arr_wr_out by (rewrite length_app; simpl; lia)|].
    rewrite arr_wr_at. cbn [mbind outcome_bind]. rewrite Ep. cbn [app].
    rewrite (app_cons1 bpre b).
    rewrite (arr_rd_middle (bpre ++ [b]) b') by (rewrite length_app; simpl; lia).
    cbn [mbind outcome_bind].
    destruct old as [|o1 old]; [by rewrite arr_wr_out by (rewrite length_app; simpl; lia)|].
    rewrite (app_cons1 dpre).
    rewrite (arr_wr_middle (dpre ++ [_]) o1) by (rewrite length_app; simpl; lia).
    cbn [mbind outcome_bind]. rewrite (app_cons1 (dpre ++ [_])).
    replace (Z.of_nat (length bpre) + 1) with (Z.of_nat (length (bpre ++ [b])))
      by (rewrite length_app; simpl; lia).
    match goal with |- addr_digits _ _ _ _ (?p ++ old) = _ =>
      replace (Z.of_nat (length dpre) + 2) with (Z.of_nat (length p))
        by (rewrite !length_app; simpl; lia) end.
    change (b' :: r ++ bpost) with ((b' :: r) ++ bpost). rewrite <- Ep.
    apply IH; [apply low2_range|done|simpl in Hl; lia].
Qed.

(** *** The fields the serializer writes *)

Lemma getNextTLV_at pre tag l post :
  getNextTLV (pre ++ tag :: l :: post) (Z.of_nat (length pre)) =
    Ret (tag, l, Z.of_nat (length (pre ++ [tag; l]))).
Proof.
  unfold getNextTLV. rewrite arr_rd_at. cbn [mbind outcome_bind].
  rewrite (cons_middle tag), app_assoc.
  rewrite (arr_rd_middle (pre ++ [tag]) l) by (rewrite length_app; simpl; lia).
  cbn [mbind outcome_bind]. do 2 f_equal. rewrite length_app. simpl. lia.
Qed.

Definition tele_field (v : Z) : bytes := [0; 2; (v ≫ 8) .& 0xff; v .& 0xff].

Lemma u16_bytes v : 0 <= v < 2 ^ 16 -> u16 ((((v ≫ 8) .& 0xff) ≪ 8) .| (v .& 0xff)) = v.
Proof.
  intros Hv. unfold u16. change 0xff with (Z.ones 8). rewrite !Z.land_ones by lia.
  rewrite Z.shiftr_div_pow2 by lia. rewrite (Z.mod_small (v / 2 ^ 8)).
  2: { split; [apply Z.div_pos; lia|apply Z.div_lt_upper_bound; lia]. }
  replace (((v / 2 ^ 8) ≪ 8) .| (v mod 2 ^ 8)) with v; [apply Z.mod_small; lia|].
  apply Z.bits_inj'. intros i Hi. rewrite Z.lor_spec.
  destruct (Z.ltb_spec i 8).
  - rewrite Z.shiftl_spec_low, Z.mod_pow2_bits_low by lia. done.
  - rewrite Z.mod_pow2_bits_high, Z.shiftl_spec by lia. rewrite orb_false_r.
    rewrite Z.div_pow2_bits by lia. f_equal. lia.
Qed.

Lemma tele_decodes v : 0 <= v < 2 ^ 16 -> decodes (tele_field v) (set_teleservice v).
Proof.
  intros Hv. split; [done|]. intros pre post m Hm. split; [done|].
  unfold tele_field, sms_field. cbn [app]. rewrite getNextTLV_at. cbn [mbind outcome_bind].
  change (0 =? SMS3GPP2TransTag_TeleserviceIdentifier) with true. cbn match.
  unfold SMS3GPP2_TransportLayer_MsgInd_Deserialize, getU16. cbn [Z.eqb Pos.eqb c_assert mbind outcome_bind].
  rewrite (app_cons2 _ _ _ (_ :: _)), arr_rd_at. cbn [mbind outcome_bind]. rewrite (app_cons1 _ ((v ≫ 8) .& 0xff)).
  rewrite (arr_rd_middle ((pre ++ [0; 2]) ++ [(v ≫ 8) .& 0xff])) by (rewrite !length_app; simpl; lia).
  cbn [mbind outcome_bind]. rewrite u16_bytes by done. do 2 f_equal. rewrite length_app. simpl. lia.
Qed.

Definition dest_field (a : SMS3GPP2Address_t) : bytes :=
  4 :: Z.of_nat (length (addr_value a)) :: addr_value a.

(** The destination address the receiver ends up with. *)
Definition received_addr (a : SMS3GPP2Address_t) (dst : bytes) : SMS3GPP2Address_t :=
  mk_addr 0 (numberMode a) (numOfFields a)
    (addr_digits_of a ++ 0 :: drop (S (Z.to_nat (numOfFields a))) dst).

Lemma dest_decodes a : addr_ok a ->
  decodes (dest_field a)
    (fun m => set_destination (received_addr a (address (destinationAddress m))) m).
Proof.
  intros Ha. split; [done|]. intros pre post m [Hd Hb]. split.
  - split; [|done]. cbn [destinationAddress set_destination received_addr address].
    pose proof (addr_digits_length a Ha) as Hlen. destruct Ha as (_ & _ & Hn & _ & _).
    rewrite length_app. cbn [length]. rewrite length_drop, Hlen.
    unfold MAX_NUM_OF_ADDRESS_FIELDS in *. lia.
  - unfold dest_field, sms_field. cbn [app]. rewrite getNextTLV_at. cbn [mbind outcome_bind].
    cbn -[addr_value SMS3GPP2_TransportLayer_Addr_Deserialize Z.of_nat length app].
    rewrite (app_cons2 _ _ _ (addr_value a ++ post)), addr_deserialize by done. cbn [mbind outcome_bind].
    unfold received_addr. do 2 f_equal. rewrite length_app. cbn [length]. lia.
Qed.

Definition reply_field (rs : Z) : bytes := [6; 1; u8 ((rs .& 0x3f) ≪ 2)].

Lemma reply_bits rs : (u8 ((rs .& 0x3f) ≪ 2) ≫ 2) .& 0x3f = rs .& 0x3f.
Proof.
  assert (0 <= rs .& 0x3f < 64) as H.
  { change 0x3f with (Z.ones 6). rewrite Z.land_ones by lia. apply Z.mod_pos_bound. lia. }
  apply Z.eqb_eq.
  by apply (zrange_forall 64 (fun x => ((u8 (x ≪ 2) ≫ 2) .& 0x3f) =? x)); [vm_compute|].
Qed.

(** Whatever its length byte says, one byte of value is consumed. *)
Lemma reply_decodes_any l b :
  decodes [6; l; b]
    (fun m => set_reply_seq ((b ≫ 2) .& 0x3f) (or_bitmap SMS3GPP2TransOpt_BearerReplyOption m)).
Proof.
  split; [done|]. intros pre post m Hm. split; [done|].
  unfold sms_field. cbn [app]. rewrite getNextTLV_at. cbn [mbind outcome_bind].
  cbn -[arr_rd Z.of_nat length app Z.land Z.shiftl Z.shiftr].
  rewrite (app_cons2 _ _ _ (_ :: _)), arr_rd_at. cbn [mbind outcome_bind].
  do 2 f_equal. rewrite length_app. simpl. lia.
Qed.

Lemma reply_decodes rs :
  decodes (reply_field rs)
    (fun m => set_reply_seq (rs .& 0x3f) (or_bitmap SMS3GPP2TransOpt_BearerReplyOption m)).
Proof.
  pose proof (reply_decodes_any 1 (u8 ((rs .& 0x3f) ≪ 2))) as H. by rewrite reply_bits in H.
Qed.

Definition bearer_field (n : Z) (d : bytes) : bytes := 8 :: n :: take (Z.to_nat n) d.

Lemma bearer_decodes n d : 0 <= n <= 255 -> Z.of_nat (length d) = 255 ->
  decodes (bearer_field n d)
    (fun m => set_bearer n (take (Z.to_nat n) d ++ drop (Z.to_nat n) (bearerData m))
                (or_bitmap SMS3GPP2TransOpt_BearerDataOption m)).
Proof.
  intros Hn Hd. split; [done|]. intros pre post m [Hm1 Hm2]. split.
  - split; [done|]. cbn [bearerData set_bearer].
    rewrite length_app, length_take, length_drop. lia.
  - unfold bearer_field, sms_field. cbn [app]. rewrite getNextTLV_at. cbn [mbind outcome_bind].
    cbn -[copy_in Z.of_nat length app Z.add].
    rewrite (app_cons2 _ _ _ (_ ++ _)). unfold copy_in. cbn [bearerData or_bitmap].
    assert (length (take (Z.to_nat n) d) = Z.to_nat n) as Hl by (rewrite length_take; lia).
    replace ((0 <=? Z.of_nat (length (pre ++ [8; n]))) && _ && _) with true.
    2: { rewrite !length_app, Hl. simpl. symmetry. rewrite !andb_true_iff, !Z.leb_le. lia. }
    cbn [mbind outcome_bind]. rewrite Nat2Z.id, drop_app_length, take_app_exact by done.
    do 2 f_equal. rewrite length_app. cbn [length]. rewrite Hl. lia.
Qed.

(** ** Lemmas: whole messages *)

Definition has_opt (m : SMS3GPP2TransportLayer_t) (o : Z) : bool :=
  ctrue (optinalFieldsBitmap m .& o).

(** A message the serializer can represent. *)
Definition sms_ok (m : SMS3GPP2TransportLayer_t) : Prop :=
  is_byte (msgType m) /\ 0 <= teleserviceIndetifier m < 2 ^ 16 /\
  addr_ok (destinationAddress m) /\
  0 <= bearerDataLen m <= 255 /\ Z.of_nat (length (bearerData m)) = 255.

(** The fields of a message without cause codes, with what each sets. *)
Definition sms_fields (m : SMS3GPP2TransportLayer_t)
  : list (bytes * (SMS3GPP2TransportLayer_t -> SMS3GPP2TransportLayer_t)) :=
  (tele_field (teleserviceIndetifier m), set_teleservice (teleserviceIndetifier m)) ::
  (dest_field (destinationAddress m),
   fun x => set_destination (received_addr (destinationAddress m) (address (destinationAddress x))) x) ::
  (if has_opt m SMS3GPP2TransOpt_BearerReplyOption
   then [(reply_field (reply_seq m), fun x => set_reply_seq (reply_seq m .& 0x3f)
            (or_bitmap SMS3GPP2TransOpt_BearerReplyOption x))] else []) ++
  (if has_opt m SMS3GPP2TransOpt_BearerDataOption
   then [(bearer_field (bearerDataLen m) (bearerData m),
          fun x => set_bearer (bearerDataLen m)
            (take (Z.to_nat (bearerDataLen m)) (bearerData m) ++
             drop (Z.to_nat (bearerDataLen m)) (bearerData x))
            (or_bitmap SMS3GPP2TransOpt_BearerDataOption x))] else []).

Lemma sms_fields_decode m : sms_ok m ->
  Forall (fun p => decodes (fst p) (snd p)) (sms_fields m).
Proof.
  intros (_ & Ht & Ha & Hn & Hb). unfold sms_fields.
  apply Forall_cons; split; [by apply tele_decodes|].
  apply Forall_cons; split; [by apply dest_decodes|].
  apply Forall_app; split; case_match; try apply Forall_nil_2; apply Forall_singleton.
  - apply reply_decodes.
  - by apply bearer_decodes.
Qed.

Lemma assert_u32 x : c_assert (0 <=? u32 x) = Ret tt.
Proof. pose proof (u32_range x). by replace (0 <=? u32 x) with true by lia. Qed.

Lemma tele_serialize v bl : 0 <= v < 2 ^ 16 ->
  exists bl', SMS3GPP2_TransportLayer_MsgInd_Serialize v bl = Ret (tele_field v, bl').
Proof.
  intros Hv. unfold SMS3GPP2_TransportLayer_MsgInd_Serialize, putU16. cbn zeta.
  rewrite assert_u32. cbn [mbind outcome_bind]. by eexists.
Qed.

Lemma reply_serialize m bl : exists bl', put_reply m bl =
  Ret (if has_opt m SMS3GPP2TransOpt_BearerReplyOption then reply_field (reply_seq m) else [], bl').
Proof.
  unfold put_reply, has_opt. case_match; [|by eexists]. cbn zeta.
  rewrite assert_u32. by eexists.
Qed.

Lemma bearer_serialize m bl : sms_ok m -> exists bl', put_bearer m bl =
  Ret (if has_opt m SMS3GPP2TransOpt_BearerDataOption
       then bearer_field (bearerDataLen m) (bearerData m) else [], bl').
Proof.
  intros (_ & _ & _ & Hn & Hb). unfold put_bearer, has_opt. case_match; [|by eexists].
  replace (Z.of_nat (length (bearerData m)) <? bearerDataLen m) with false by lia. cbn zeta.
  rewrite assert_u32. cbn [mbind outcome_bind]. rewrite u8_small by lia. by eexists.
Qed.

(** What is written, whatever the cause codes part [cause] is. *)
Definition sms_bytes (m : SMS3GPP2TransportLayer_t) (cause : bytes) : bytes :=
  msgType m :: tele_field (teleserviceIndetifier m) ++ dest_field (destinationAddress m) ++
  (if has_opt m SMS3GPP2TransOpt_BearerReplyOption then reply_field (reply_seq m) else []) ++
  cause ++
  (if has_opt m SMS3GPP2TransOpt_BearerDataOption
   then bearer_field (bearerDataLen m) (bearerData m) else []).

Lemma sms_bytes_length m cause : sms_ok m -> (length (sms_bytes m cause) <= 300 + length cause)%nat.
Proof.
  intros (_ & _ & Ha & Hn & Hb). unfold sms_bytes. cbn [length]. rewrite !length_app.
  unfold dest_field, addr_value. cbn [length]. rewrite pack_length, addr_digits_length by done.
  destruct Ha as (_ & _ & Hf & _). unfold MAX_NUM_OF_ADDRESS_FIELDS in Hf.
  assert (Z.to_nat (numOfFields (destinationAddress m)) / 2 <= 10)%nat
    by (apply Nat.Div0.div_le_upper_bound; lia).
  destruct (has_opt m SMS3GPP2TransOpt_BearerReplyOption), (has_opt m SMS3GPP2TransOpt_BearerDataOption);
    unfold tele_field, reply_field, bearer_field; cbn [length]; rewrite ?length_take; lia.
Qed.

Lemma serialize_shape m bl cause : sms_ok m -> (length cause <= 4)%nat ->
  (forall b, exists b', put_cause m b = Ret (cause, b')) ->
  SMS3GPP2_TransportLayer_Serialize m bl =
    Ret (sms_bytes m cause, Z.of_nat (length (sms_bytes m cause))).
Proof.
  intros Hm Hl Hc. pose proof Hm as (Ht & Hte & Ha & _). unfold SMS3GPP2_TransportLayer_Serialize.
  destruct (tele_serialize _ (u32 (bl - 1)) Hte) as [b1 ->]. cbn [mbind outcome_bind].
  destruct (addr_serialize _ SMS3GPP2TransTag_DestinationAddress b1 Ha) as [b2 ->].
  cbn [mbind outcome_bind].
  destruct (reply_serialize m b2) as [b3 ->]. cbn [mbind outcome_bind].
  destruct (Hc b3) as [b4 ->]. cbn [mbind outcome_bind].
  destruct (bearer_serialize m b4 Hm) as [b5 ->]. cbn [mbind outcome_bind].
  rewrite u8_small by done. change (u8 SMS3GPP2TransTag_DestinationAddress) with 4.
  fold (dest_field (destinationAddress m)). fold (sms_bytes m cause).
  pose proof (sms_bytes_length m cause Hm). rewrite u32_small by lia. done.
Qed.

Lemma sms_zero_wf v : msg_wf (set_msgType v sms_zero).
Proof. done. Qed.

(** A buffer made of decodable fields is decoded field by field. *)
Lemma deserialize_fields t fs :
  Forall (fun p => decodes (fst p) (snd p)) fs -> (length fs <= 4)%nat ->
  (4 <= length (concat (map fst fs)))%nat ->
  SMS3GPP2_TransportLayer_Deserialize (t :: concat (map fst fs))
    (Z.of_nat (length (t :: concat (map fst fs)))) true =
  Ret (foldl (fun m p => snd p m) (set_msgType t sms_zero) fs).
Proof.
  intros Hfs Hl Hlen. unfold SMS3GPP2_TransportLayer_Deserialize.
  rewrite (proj2 (Z.ltb_lt 0 (Z.of_nat (length (t :: concat (map fst fs)))))) by (cbn [length]; lia).
  cbn [c_assert mbind outcome_bind].
  change (arr_rd (t :: concat (map fst fs)) 0) with (Ret t). cbn [mbind outcome_bind].
  pose proof (sms_loop_decodes fs (Z.to_nat (Z.of_nat (length (t :: concat (map fst fs))))) [t]
    (set_msgType t sms_zero) Hfs ltac:(cbn [length]; lia) (sms_zero_wf t)) as E.
  exact E.
Qed.

(** The two known option bits of a bitmap, from the tests on it. *)
Lemma option_bits b :
  b .& 3 = (0 .| (if ctrue (b .& 1) then 1 else 0)) .| (if ctrue (b .& 2) then 2 else 0).
Proof.
  rewrite Z.lor_0_l.
  assert (0 <= b .& 3 < 4) as Hb by apply low2_range.
  replace (b .& 1) with ((b .& 3) .& 1) by (by rewrite <- Z.land_assoc).
  replace (b .& 2) with ((b .& 3) .& 2) by (by rewrite <- Z.land_assoc).
  apply Z.eqb_eq. revert Hb. generalize (b .& 3). intros x Hx.
  by apply (zrange_forall 4 (fun x => x =? (if ctrue (x .& 1) then 1 else 0) .| (if ctrue (x .& 2) then 2 else 0))).
Qed.

(** A single byte after the fields is taken for a tag, and its length is read
    past the end. *)
Lemma deserialize_leftover t fs x :
  Forall (fun p => decodes (fst p) (snd p)) fs ->
  let buf := t :: concat (map fst fs) ++ [x] in
  SMS3GPP2_TransportLayer_Deserialize buf (Z.of_nat (length buf)) true = Ub.
Proof.
  intros Hfs buf. assert (length fs <= length (concat (map fst fs)))%nat as Hn.
  { clear buf. induction Hfs as [|p fs [Hp _] _ IH]; [done|]. cbn [map concat length]. rewrite length_app. destruct (fst p); [done|cbn; lia]. }
  unfold SMS3GPP2_TransportLayer_Deserialize.
  rewrite (proj2 (Z.ltb_lt 0 (Z.of_nat (length buf)))) by (unfold buf; cbn [length]; lia).
  cbn [c_assert mbind outcome_bind]. change (arr_rd buf 0) with (Ret t). cbn [mbind outcome_bind].
  assert (length buf = length fs + S (length buf - length fs - 1))%nat as El
    by (unfold buf; cbn [length]; rewrite length_app; cbn [length]; lia).
  assert (Z.of_nat (length buf) = Z.of_nat (length ([t] ++ concat (map fst fs))) + 1) as El'
    by (unfold buf; cbn [length app]; rewrite length_app; cbn [length]; lia).
  pose proof (sms_loop_prefix fs (S (length buf - length fs - 1)) [t] [x]
    (Z.of_nat (length buf)) (set_msgType t sms_zero) Hfs (sms_zero_wf _) ltac:(lia)) as Hl.
  rewrite <- El in Hl. rewrite Nat2Z.id. change (Z.of_nat (length [t])) with 1 in Hl.
  change ([t] ++ concat (map fst fs) ++ [x]) with buf in Hl. rewrite Hl.
  cbn [sms_loop]. rewrite (proj2 (Z.ltb_lt _ (Z.of_nat (length buf)))) by lia.
  unfold sms_field, getNextTLV. change buf with (([t] ++ concat (map fst fs)) ++ [x]).
  rewrite arr_rd_at. cbn [mbind outcome_bind].
  unfold arr_rd. destruct (Z.leb_spec 0 (Z.of_nat (length ([t] ++ concat (map fst fs))) + 1)); [|lia].
  by rewrite lookup_ge_None_2 by (rewrite length_app; simpl; lia).
Qed.

(** ** Properties *)

(** C5: [SMS3GPP2_TransportLayer_Deserialize] inverts
    [SMS3GPP2_TransportLayer_Serialize] on every message without cause codes
    whose destination has at most 19 digits: the reported length is the number
    of bytes written, and the message read back has the same type,
    teleservice, destination digits, options, reply sequence number (six bits)
    and bearer data. *)
Theorem sms_roundtrip (m : SMS3GPP2TransportLayer_t) (bufferLen : Z) :
  sms_ok m -> has_opt m SMS3GPP2TransOpt_CauseCodesOption = false ->
  exists out m',
    SMS3GPP2_TransportLayer_Serialize m bufferLen = Ret (out, Z.of_nat (length out)) /\
    SMS3GPP2_TransportLayer_Deserialize out (Z.of_nat (length out)) true = Ret m' /\
    msgType m' = msgType m /\ teleserviceIndetifier m' = teleserviceIndetifier m /\
    numberMode (destinationAddress m') = numberMode (destinationAddress m) /\
    numOfFields (destinationAddress m') = numOfFields (destinationAddress m) /\
    addr_digits_of (destinationAddress m') = addr_digits_of (destinationAddress m) /\
    optinalFieldsBitmap m' = optinalFieldsBitmap m .& 3 /\
    (has_opt m SMS3GPP2TransOpt_BearerReplyOption = true -> reply_seq m' = reply_seq m .& 0x3f) /\
    (has_opt m SMS3GPP2TransOpt_BearerDataOption = true ->
       bearerDataLen m' = bearerDataLen m /\
       take (Z.to_nat (bearerDataLen m)) (bearerData m') =
       take (Z.to_nat (bearerDataLen m)) (bearerData m)).
Proof.
  intros Hm Hc. exists (sms_bytes m []).
  exists (foldl (fun m p => snd p m) (set_msgType (msgType m) sms_zero) (sms_fields m)).
  split. { apply serialize_shape; [done|simpl; lia|]. intros b. unfold put_cause, has_opt in *. rewrite Hc. by eexists. }
  assert (sms_bytes m [] = msgType m :: concat (map fst (sms_fields m))) as E.
  { unfold sms_bytes, sms_fields. cbn [map concat fst]. rewrite map_app, concat_app.
    by destruct (has_opt m SMS3GPP2TransOpt_BearerReplyOption),
      (has_opt m SMS3GPP2TransOpt_BearerDataOption); cbn [map concat fst app]; rewrite ?app_nil_r. }
  rewrite E. split.
  { apply deserialize_fields; [by apply sms_fields_decode| |].
    - unfold sms_fields. cbn [length]. rewrite length_app. repeat case_match; simpl; lia.
    - unfold sms_fields. cbn [map concat fst]. rewrite length_app. simpl. lia. }
  pose proof Hm as (_ & _ & Ha & Hn & Hb). pose proof (addr_digits_length _ Ha) as Hlen.
  unfold sms_fields. cbn [foldl snd]. rewrite foldl_app.
  pose proof (option_bits (optinalFieldsBitmap m)) as Ho. unfold has_opt.
  unfold SMS3GPP2TransOpt_BearerReplyOption, SMS3GPP2TransOpt_BearerDataOption in *.
  assert (forall d, addr_digits_of (received_addr (destinationAddress m) d) =
                    addr_digits_of (destinationAddress m)) as Hd.
  { intros d. unfold addr_digits_of at 1, received_addr. cbn [address numOfFields].
    by apply take_app_exact. }
  destruct (ctrue (optinalFieldsBitmap m .& 1)), (ctrue (optinalFieldsBitmap m .& 2));
    cbn [foldl snd]; rewrite Ho; repeat split; try done; try apply Hd.
  all: apply take_app_exact; rewrite length_take; lia.
Qed.

(** A point-to-point message to 5551234 with two bytes of bearer data. *)
Definition sms_example : SMS3GPP2TransportLayer_t :=
  mk_sms 0 4098 addr_zero (mk_addr 0 0 7 ([5; 5; 5; 1; 2; 3; 4] ++ replicate 13 0))
    2 ([0xAB; 0xCD] ++ replicate 253 0) 3 9 cause_zero.

Lemma sms_example_ok : sms_ok sms_example.
Proof. repeat split; try done; try lia. repeat constructor; done. Qed.

Lemma sms_roundtrip_witness :
  has_opt sms_example SMS3GPP2TransOpt_CauseCodesOption = false /\
  exists out m', SMS3GPP2_TransportLayer_Serialize sms_example 0 = Ret (out, Z.of_nat (length out)) /\
    SMS3GPP2_TransportLayer_Deserialize out (Z.of_nat (length out)) true = Ret m' /\
    addr_digits_of (destinationAddress m') = [5; 5; 5; 1; 2; 3; 4].
Proof.
  split; [reflexivity|].
  destruct (sms_roundtrip sms_example 0 sms_example_ok eq_refl)
    as (out & m' & H1 & H2 & _ & _ & _ & _ & H3 & _).
  exists out, m'. repeat split; [exact H1|exact H2|exact H3].
Defined.

(** Cause codes do not survive: [SMS3GPP2_TransportLayer_Serialize] writes
    them under the tag of the bearer reply option.  A received acknowledgement
    without error comes back as a bearer reply option with the cause's
    sequence number and no cause codes; with an error class the cause code
    byte is left over, is taken for the tag of one more field, and the
    deserializer reads past the end of the message. *)
Theorem cause_codes_sent_as_reply (m : SMS3GPP2TransportLayer_t) (bufferLen : Z) :
  sms_ok m -> optinalFieldsBitmap m = SMS3GPP2TransOpt_CauseCodesOption ->
  exists out,
    SMS3GPP2_TransportLayer_Serialize m bufferLen = Ret (out, Z.of_nat (length out)) /\
    (error_class (causeCodes m) = SMS3GPP2CauseCodes_ErrorClass_no_error ->
     exists m', SMS3GPP2_TransportLayer_Deserialize out (Z.of_nat (length out)) true = Ret m' /\
       causeCodes m' = cause_zero /\
       optinalFieldsBitmap m' = SMS3GPP2TransOpt_BearerReplyOption /\
       reply_seq m' = cc_reply_seq (causeCodes m) .& 0x3f) /\
    (error_class (causeCodes m) <> SMS3GPP2CauseCodes_ErrorClass_no_error ->
     SMS3GPP2_TransportLayer_Deserialize out (Z.of_nat (length out)) true = Ub).
Proof.
  intros Hm Hb. pose proof Hm as (Ht & Hte & Ha & _).
  set (c := causeCodes m).
  set (b := u8 (((cc_reply_seq c .& 0x3f) ≪ 2) .| (error_class c .& 0x3))).
  set (none := error_class c =? SMS3GPP2CauseCodes_ErrorClass_no_error).
  set (cause := [6; if none then 1 else 2; b] ++ (if none then [] else [cause_code c])).
  assert (forall o, o = 1 \/ o = 2 -> has_opt m o = false) as Hopt
    by (intros o Ho; unfold has_opt; rewrite Hb; destruct Ho as [->| ->]; done).
  exists (sms_bytes m cause). split.
  { apply serialize_shape; [done|unfold cause; destruct none; simpl; lia|].
    intros bl. unfold put_cause. rewrite Hb. change (ctrue _) with true. cbn zeta.
    rewrite assert_u32. by eexists. }
  set (fs := [(tele_field (teleserviceIndetifier m), set_teleservice (teleserviceIndetifier m));
    (dest_field (destinationAddress m), fun x => set_destination
       (received_addr (destinationAddress m) (address (destinationAddress x))) x);
    ([6; if none then 1 else 2; b], fun x => set_reply_seq ((b ≫ 2) .& 0x3f)
       (or_bitmap SMS3GPP2TransOpt_BearerReplyOption x))]).
  assert (Forall (fun p => decodes (fst p) (snd p)) fs) as Hfs.
  { repeat (apply Forall_cons; split); [by apply tele_decodes|by apply dest_decodes| |done].
    apply reply_decodes_any. }
  assert (sms_bytes m cause =
    msgType m :: concat (map fst fs) ++ (if none then [] else [cause_code c])) as E.
  { unfold sms_bytes. rewrite !Hopt by auto. cbn [map concat fst fs].
    rewrite !app_nil_r, !app_nil_l. unfold cause. by rewrite <- !app_assoc. }
  rewrite E. split; intros He.
  - replace none with true by (unfold none; rewrite He; done). rewrite app_nil_r.
    rewrite deserialize_fields; [|done|simpl; lia|simpl; lia].
    eexists. split; [reflexivity|]. cbn [foldl snd fs]. repeat split; [done..|].
    cbn [reply_seq set_reply_seq]. unfold b. rewrite He.
    change (SMS3GPP2CauseCodes_ErrorClass_no_error .& 3) with 0. rewrite Z.lor_0_r. apply reply_bits.
  - replace none with false by (unfold none; by destruct (Z.eqb_spec (error_class c) SMS3GPP2CauseCodes_ErrorClass_no_error)).
    by apply deserialize_leftover.
Qed.

Definition ack_example (e : Z) : SMS3GPP2TransportLayer_t :=
  mk_sms 2 4098 addr_zero (mk_addr 0 0 2 ([1; 2] ++ replicate 18 0))
    0 (replicate 255 0) 4 0 (mk_cause 5 e 33).

Lemma cause_codes_sent_as_reply_witness :
  exists out, SMS3GPP2_TransportLayer_Serialize (ack_example 2) 0 = Ret (out, Z.of_nat (length out)) /\
    SMS3GPP2_TransportLayer_Deserialize out (Z.of_nat (length out)) true = Ub.
Proof.
  destruct (cause_codes_sent_as_reply (ack_example 2) 0) as (out & H1 & _ & H2).
  - repeat split; try done; try lia. repeat constructor; done.
  - reflexivity.
  - exists out. split; [exact H1|apply H2; discriminate].
Defined.

(** Two results that agree but for the remaining length. *)
Definition same_bytes (r1 r2 : outcome (bytes * Z)) : Prop :=
  match r1, r2 with
  | Ret (a, _), Ret (b, _) => a = b
  | Ub, Ub | Halt, Halt | NoFuel, NoFuel => True
  | _, _ => False
  end.

Lemma same_bytes_bind {A} r1 r2 (k : bytes * Z -> outcome A) :
  same_bytes r1 r2 -> (forall o x y, k (o, x) = k (o, y)) ->
  (r1 ≫= k) = (r2 ≫= k).
Proof.
  unfold same_bytes. intros H Hk. destruct r1 as [[a x]| | |], r2 as [[b y]| | |]; try done.
  subst b. apply Hk.
Qed.

(** The length a caller passes in [*bufferLen] plays no part: the bytes
    written and the length reported are the same whatever it is, zero
    included, because every [assert] on it compares an unsigned value with
    zero.  The caller's buffer must have room for the longest message. *)
Theorem serialize_ignores_bufferLen (m : SMS3GPP2TransportLayer_t) (b1 b2 : Z) :
  SMS3GPP2_TransportLayer_Serialize m b1 = SMS3GPP2_TransportLayer_Serialize m b2.
Proof.
  unfold SMS3GPP2_TransportLayer_Serialize. cbn zeta.
  assert (forall v x y, same_bytes (SMS3GPP2_TransportLayer_MsgInd_Serialize v x)
                                   (SMS3GPP2_TransportLayer_MsgInd_Serialize v y)) as Ht.
  { intros. unfold SMS3GPP2_TransportLayer_MsgInd_Serialize, putU16. cbn zeta.
    by rewrite !assert_u32. }
  assert (forall t a x y, same_bytes (SMS3GPP2_TransportLayer_Addr_Serialize t a x)
                                     (SMS3GPP2_TransportLayer_Addr_Serialize t a y)) as Ha.
  { intros. unfold SMS3GPP2_TransportLayer_Addr_Serialize. cbn zeta.
    destruct (c_assert _); [|done..]. cbn [mbind outcome_bind].
    destruct (if digitMode a =? _ then _ else _); [|done..]. cbn [mbind outcome_bind].
    by rewrite !assert_u32. }
  assert (forall x y, same_bytes (put_reply m x) (put_reply m y)) as Hr
    by (intros; unfold put_reply; case_match; cbn zeta; by rewrite ?assert_u32).
  assert (forall x y, same_bytes (put_cause m x) (put_cause m y)) as Hc
    by (intros; unfold put_cause; case_match; cbn zeta; by rewrite ?assert_u32).
  assert (forall x y, same_bytes (put_bearer m x) (put_bearer m y)) as Hb.
  { intros. unfold put_bearer. case_match; [|done]. case_match; [done|]. cbn zeta.
    by rewrite ?assert_u32. }
  apply same_bytes_bind; [apply Ht|]. intros o1 x1 y1.
  apply same_bytes_bind; [apply Ha|]. intros o2 x2 y2.
  apply same_bytes_bind; [apply Hr|]. intros o3 x3 y3.
  apply same_bytes_bind; [apply Hc|]. intros o4 x4 y4.
  apply same_bytes_bind; [apply Hb|]. done.
Qed.

(** [SMS3GPP2_CreateStandardMoAcknowledgeSMS] stores the characters of the
    destination where the address holds four-bit DTMF codes: no digit of a
    non-empty decimal destination is one, and the destination a receiver reads
    is not the DTMF code of the one asked for. *)
Theorem ack_address_not_dtmf (junk : SMS3GPP2TransportLayer_t) (dest : bytes) (rs ec cc : Z) m :
  Forall (fun c => (48 <=? c) && (c <=? 57) = true) dest -> (0 < length dest <= 20)%nat ->
  SMS3GPP2_CreateStandardMoAcknowledgeSMS junk dest rs ec cc true = Ret m ->
  addr_digits_of (destinationAddress m) = dest /\
  Forall (fun d => ~ digit_ok d) (addr_digits_of (destinationAddress m)) /\
  addr_digits_of (destinationAddress m) <> map SMS3GPP2_char2DTMF4BitIdx dest.
Proof.
  intros Hd Hl. unfold SMS3GPP2_CreateStandardMoAcknowledgeSMS, SMS3GPP2_TransportLayer_copy.
  cbn [c_assert mbind outcome_bind optinalFieldsBitmap]. cbn zeta.
  change (ctrue (SMS3GPP2TransOpt_CauseCodesOption .& SMS3GPP2TransOpt_BearerDataOption)) with false.
  intros [= <-].
  cbn [destinationAddress]. unfold addr_digits_of. cbn [numOfFields address].
  assert (take (Z.to_nat (u8 (Z.of_nat (length dest)))) (strncpy_array dest
    (Z.to_nat MAX_NUM_OF_ADDRESS_FIELDS)) = dest) as E.
  { rewrite u8_small, Nat2Z.id by lia. unfold strncpy_array.
    rewrite (take_ge dest) by (unfold MAX_NUM_OF_ADDRESS_FIELDS; lia). apply take_app_length. }
  rewrite E. split; [done|]. split.
  - eapply Forall_impl; [exact Hd|]. intros c Hc. cbv beta in Hc. unfold digit_ok. zbool. lia.
  - destruct dest as [|c dest]; [simpl in Hl; lia|]. apply Forall_cons in Hd as [Hc _].
    cbn [map]. intros [= H _]. unfold SMS3GPP2_char2DTMF4BitIdx in H. zbool.
    assert (c .& 0xf < 16) by (change 0xf with (Z.ones 4); rewrite Z.land_ones by lia; apply Z.mod_pos_bound; lia).
    repeat case_match; lia.
Qed.

Lemma ack_address_not_dtmf_witness :
  exists m, SMS3GPP2_CreateStandardMoAcknowledgeSMS sms_zero [53; 49] 1 0 0 true = Ret m /\
    addr_digits_of (destinationAddress m) <> [5; 1].
Proof.
  eexists. split; [reflexivity|].
  refine (proj2 (proj2 (ack_address_not_dtmf sms_zero [53; 49] 1 0 0 _ _ _ eq_refl)));
    [repeat constructor|simpl; lia].
Defined.

(** A received address with 20 or more digits is stored past the end of
    the 20-byte [address] array: the terminating zero alone needs a 21st cell,
    and the digit count of the message is not checked. *)
Theorem long_address_overflows (dst : SMS3GPP2Address_t) (pre post : bytes) (nm nf len : Z)
  (ds : list Z) :
  Z.of_nat (length (address dst)) = MAX_NUM_OF_ADDRESS_FIELDS -> 0 <= nm < 2 ->
  MAX_NUM_OF_ADDRESS_FIELDS <= nf < 256 -> Forall digit_ok ds -> Z.of_nat (length ds) = nf ->
  SMS3GPP2_TransportLayer_Addr_Deserialize dst
    (pre ++ (addr_mode nm nf :: pack (nf .& 0x3) ds) ++ post) (Z.of_nat (length pre)) len = Ub.
Proof.
  intros Hdst Hm Hn Hds Hl. unfold MAX_NUM_OF_ADDRESS_FIELDS in *.
  pose proof (addr_mode_bits nm nf Hm ltac:(unfold is_byte; lia)) as Hb.
  unfold addr_mode_ok in Hb. zbool.
  unfold SMS3GPP2_TransportLayer_Addr_Deserialize.
  destruct (pack_head (nf .& 0x3) ds (low2_range _) Hds) as (b & r & Ep & Eb).
  set (mode := addr_mode nm nf) in *.
  cbn [app]. rewrite arr_rd_at. cbn [mbind outcome_bind]. rewrite (app_cons1 pre mode).
  replace (Z.of_nat (length pre) + 1) with (Z.of_nat (length (pre ++ [mode])))
    by (rewrite length_app; simpl; lia).
  rewrite Ep at 1. cbn [app]. rewrite arr_rd_at. cbn [mbind outcome_bind].
  rewrite Eb. replace ((mode ≫ 7) .& 0x1) with 0 by lia.
  unfold SMS3GPP2Address_DigitMode_4BitDTMF. cbn [Z.eqb c_assert mbind outcome_bind].
  replace (u8 _) with nf by lia. replace (Z.to_nat nf) with (length ds) by lia.
  destruct (decide (length ds <= length (address dst))%nat) as [Hle|Hgt].
  - pose proof (addr_digits_pack ds (pre ++ [mode]) post [] (address dst) _ (low2_range nf) Hds Hle) as E.
    cbn [app length] in E. change (Z.of_nat 0) with 0 in E. rewrite E. cbn [mbind outcome_bind]. rewrite arr_wr_out; [done|].
    rewrite !length_app, length_drop. simpl. lia.
  - pose proof (addr_digits_overflow ds (pre ++ [mode]) post [] (address dst) _ (low2_range nf) Hds
      ltac:(lia)) as E.
    cbn [app length] in E. change (Z.of_nat 0) with 0 in E. by rewrite E.
Qed.

Lemma long_address_overflows_witness :
  SMS3GPP2_TransportLayer_Deserialize
    ([0; 2; 16] ++ (addr_mode 0 20 :: pack (20 .& 0x3) (replicate 20 1)) ++ []) 15 true = Ub /\
  SMS3GPP2_TransportLayer_Addr_Deserialize addr_zero
    ([0; 2; 16] ++ (addr_mode 0 20 :: pack (20 .& 0x3) (replicate 20 1)) ++ []) 3 0 = Ub.
Proof.
  split; [vm_compute; reflexivity|].
  apply (long_address_overflows addr_zero [0; 2; 16] [] 0 20 0 (replicate 20 1)); try done; try lia.
  repeat constructor; done.
Defined.
