(* ===== verification/AtChannel.v ===== *)
(** * AT command channel: [atchannel.c] of [reference-ril] and of [altair-ril]

    The state the command thread and the reader thread share under
    [s_commandmutex], and the operations on it.  The two copies of the file
    differ in one branch of [processLine], in the handshake timeout and in one
    more mutex; a [variant] selects the copy.

    The mutex is released only inside [pthread_cond_wait]: a command is a
    function of what happens during each of its waits ([action]s of the other
    threads, then a wake-up or a timeout).  [write] answers from a script. *)

From S2P Require Import Prelude CString AtTok Misc.

Inductive variant := Reference | Altair.

(** ** Data ([atchannel.h]) *)

Definition AT_ERROR_GENERIC : Z := -1.
Definition AT_ERROR_COMMAND_PENDING : Z := -2.
Definition AT_ERROR_CHANNEL_CLOSED : Z := -3.
Definition AT_ERROR_TIMEOUT : Z := -4.
Definition AT_ERROR_INVALID_THREAD : Z := -5.
Definition AT_ERROR_INVALID_RESPONSE : Z := -6.

Inductive ATCommandType := NO_RESULT | NUMERIC | SINGLELINE | MULTILINE.

#[export] Instance ATCommandType_eq_dec : EqDecision ATCommandType.
Proof. solve_decision. Defined.

(** [p_intermediates] is the linked list, head first. *)
Record ATResponse := mk_at_response {
  success : Z;
  finalResponse : option bytes;
  p_intermediates : list bytes }.

Definition CME_ERROR_NON_CME : Z := -1.
Definition CME_SUCCESS : Z := 0.

(** What the channel does that others see. *)
Inductive event :=
| EvUnsol (s : bytes) (sms_pdu : option bytes)  (** the unsolicited handler runs *)
| EvWrite (d : bytes)                           (** bytes sent to the radio *)
| EvSignal                                      (** [pthread_cond_signal] *)
| EvCloseFd (fd : Z)
| EvTimeoutCallback
| EvReaderClosedCallback
| EvSleep (msec : Z).

(** The answer of one [write] call. *)
Inductive write_answer := Wrote (n : nat) | WriteEintr | WriteError.

Record at_state := mk_at {
  s_fd : Z;
  s_unsolHandler : bool;
  s_readerClosed : Z;
  s_type : ATCommandType;
  s_responsePrefix : option bytes;
  s_smsPDU : option bytes;
  sp_response : option ATResponse;
  s_onTimeout : bool;
  s_onReaderClosed : bool;
  wq : list write_answer;
  evs : list event }.

Definition set_fd v s := mk_at v (s_unsolHandler s) (s_readerClosed s) (s_type s)
  (s_responsePrefix s) (s_smsPDU s) (sp_response s) (s_onTimeout s) (s_onReaderClosed s) (wq s) (evs s).
Definition set_readerClosed v s := mk_at (s_fd s) (s_unsolHandler s) v (s_type s)
  (s_responsePrefix s) (s_smsPDU s) (sp_response s) (s_onTimeout s) (s_onReaderClosed s) (wq s) (evs s).
Definition set_smsPDU v s := mk_at (s_fd s) (s_unsolHandler s) (s_readerClosed s) (s_type s)
  (s_responsePrefix s) v (sp_response s) (s_onTimeout s) (s_onReaderClosed s) (wq s) (evs s).
Definition set_response v s := mk_at (s_fd s) (s_unsolHandler s) (s_readerClosed s) (s_type s)
  (s_responsePrefix s) (s_smsPDU s) v (s_onTimeout s) (s_onReaderClosed s) (wq s) (evs s).
Definition set_command t p pdu r s := mk_at (s_fd s) (s_unsolHandler s) (s_readerClosed s) t
  p pdu r (s_onTimeout s) (s_onReaderClosed s) (wq s) (evs s).
Definition set_io w e s := mk_at (s_fd s) (s_unsolHandler s) (s_readerClosed s) (s_type s)
  (s_responsePrefix s) (s_smsPDU s) (sp_response s) (s_onTimeout s) (s_onReaderClosed s) w e.
Definition emit (e : event) (s : at_state) : at_state := set_io (wq s) (evs s ++ [e]) s.

(** ** Classification of lines *)

Definition s_finalResponsesError : list bytes :=
  [s2b "ERROR"; s2b "+CMS ERROR:"; s2b "+CME ERROR:"; s2b "NO CARRIER";
   s2b "NO ANSWER"; s2b "NO DIALTONE"].

Definition isFinalResponseError (line : bytes) : bool :=
  existsb (strStartsWith line) s_finalResponsesError.

Definition s_finalResponsesSuccess : list bytes := [s2b "OK"; s2b "CONNECT"].

Definition isFinalResponseSuccess (line : bytes) : bool :=
  existsb (strStartsWith line) s_finalResponsesSuccess.

Definition isFinalResponse (line : bytes) : bool :=
  isFinalResponseSuccess line || isFinalResponseError line.

Definition s_smsUnsoliciteds : list bytes := [s2b "+CMT:"; s2b "+CDS:"; s2b "+CBM:"].

Definition isSMSUnsolicited (line : bytes) : bool :=
  existsb (strStartsWith line) s_smsUnsoliciteds.

(** ** Writing *)

(** [while (cur < len)]: [s] is the rest [s + cur].  Returns whether it failed,
    the answers left and the bytes written. *)
Fixpoint write_all (fuel : nat) (s : bytes) (w : list write_answer)
  : outcome (bool * list write_answer * bytes) :=
  match s with
  | [] => Ret (false, w, [])
  | _ =>
    match fuel with
    | O => NoFuel
    | S fuel =>
      match w with
      | [] => NoFuel
      | WriteEintr :: w => write_all fuel s w
      | WriteError :: w => Ret (true, w, [])
      | Wrote n :: w =>
        '(failed, w, d) ← write_all fuel (drop n s) w;
        Ret (failed, w, take n s ++ d)
      end
    end
  end.

(** [do .. while ((written < 0 && errno == EINTR) || (written == 0))] *)
Fixpoint write_one (c : Z) (w : list write_answer) : outcome (bool * list write_answer * bytes) :=
  match w with
  | [] => NoFuel
  | WriteEintr :: w | Wrote O :: w => write_one c w
  | WriteError :: w => Ret (true, w, [])
  | Wrote (S _) :: w => Ret (false, w, [c])
  end.

(** [writeline] and [writeCtrlZ] differ in the last byte. *)
Definition write_terminated (last : Z) (s : bytes) (st : at_state) : outcome (Z * at_state) :=
  if (s_fd st <? 0) || (0 <? s_readerClosed st) then Ret (AT_ERROR_CHANNEL_CLOSED, st)
  else
    '(failed, w, d) ← write_all (length (wq st)) s (wq st);
    if (failed : bool) then Ret (AT_ERROR_GENERIC, set_io w (evs st ++ [EvWrite d]) st)
    else
      '(failed, w, c) ← write_one last w;
      Ret (if (failed : bool) then AT_ERROR_GENERIC else 0,
           set_io w (evs st ++ [EvWrite (d ++ c)]) st).

Definition writeline : bytes -> at_state -> outcome (Z * at_state) := write_terminated 13.
Definition writeCtrlZ : bytes -> at_state -> outcome (Z * at_state) := write_terminated 26.

(** ** The reader's side *)

Definition addIntermediate (line : bytes) (st : at_state) : outcome at_state :=
  match sp_response st with
  | None => Ub
  | Some r => Ret (set_response
      (Some (mk_at_response (success r) (finalResponse r) (line :: p_intermediates r))) st)
  end.

Definition handleFinalResponse (line : bytes) (st : at_state) : outcome at_state :=
  match sp_response st with
  | None => Ub
  | Some r => Ret (emit EvSignal (set_response
      (Some (mk_at_response (success r) (Some line) (p_intermediates r))) st))
  end.

Definition set_success (v : Z) (st : at_state) : outcome at_state :=
  match sp_response st with
  | None => Ub
  | Some r => Ret (set_response (Some (mk_at_response v (finalResponse r) (p_intermediates r))) st)
  end.

Definition handleUnsolicited (line : bytes) (st : at_state) : at_state :=
  if s_unsolHandler st then emit (EvUnsol line None) st else st.

(** [strStartsWith(line, s_responsePrefix)]: the prefix must not be NULL. *)
Definition has_prefix (line : bytes) (st : at_state) : outcome bool :=
  p ← checked (s_responsePrefix st); Ret (strStartsWith line p).

Definition no_intermediates (r : ATResponse) : bool :=
  match p_intermediates r with [] => true | _ => false end.

Definition first_isdigit (line : bytes) : bool :=
  match line with c :: _ => c_isdigit c | [] => false end.

(** The [MULTILINE] case for a line without the prefix: the reference copy
    keeps the PDU line that follows [+CMGR:]. *)
Definition multiline_other (v : variant) (line : bytes) (r : ATResponse) (st : at_state)
  : outcome at_state :=
  match v with
  | Altair => Ret (handleUnsolicited line st)
  | Reference =>
    p ← checked (s_responsePrefix st);
    if strcmp_eq p (s2b "+CMGR:") && negb (no_intermediates r) then addIntermediate line st
    else Ret (handleUnsolicited line st)
  end.

(** [switch (s_type)] *)
Definition processLine_switch (v : variant) (line : bytes) (r : ATResponse) (st : at_state)
  : outcome at_state :=
  match s_type st with
  | NO_RESULT => Ret (handleUnsolicited line st)
  | NUMERIC =>
    if no_intermediates r && first_isdigit line then addIntermediate line st
    else Ret (handleUnsolicited line st)
  | SINGLELINE =>
    if no_intermediates r then
      b ← has_prefix line st;
      if (b : bool) then addIntermediate line st else Ret (handleUnsolicited line st)
    else Ret (handleUnsolicited line st)
  | MULTILINE =>
    b ← has_prefix line st;
    if (b : bool) then addIntermediate line st else multiline_other v line r st
  end.

Definition processLine (v : variant) (line : bytes) (st : at_state) : outcome at_state :=
  match sp_response st with
  | None => Ret (handleUnsolicited line st)
  | Some r =>
    if isFinalResponseSuccess line then st ← set_success 1 st; handleFinalResponse line st
    else if isFinalResponseError line then st ← set_success 0 st; handleFinalResponse line st
    else
      match s_smsPDU st, strcmp_eq line (s2b "> ") with
      | Some pdu, true => '(_, st) ← writeCtrlZ pdu st; Ret (set_smsPDU None st)
      | _, _ => processLine_switch v line r st
      end
  end.

(** [onReaderClosed], run when the reader loop ends. *)
Definition onReaderClosed (st : at_state) : at_state :=
  if s_onReaderClosed st && (s_readerClosed st =? 0) then
    emit EvReaderClosedCallback (emit EvSignal (set_readerClosed 1 st))
  else st.

(** One round of [readerLoop] on a line already read; [line2] is the next line,
    read only after an SMS header, and [None] when the channel ends there. *)
Definition reader_round (v : variant) (line : bytes) (line2 : option bytes) (st : at_state)
  : outcome (bool * at_state) :=
  if isSMSUnsolicited line then
    match line2 with
    | None => Ret (false, onReaderClosed st)
    | Some l2 =>
      Ret (true, if s_unsolHandler st then emit (EvUnsol line (Some l2)) st else st)
    end
  else st ← processLine v line st; Ret (true, st).

(** ** Opening, closing, callbacks *)

(** [rets] are the results of the [pthread_create] calls. *)
Definition at_open (fd : Z) (h : bool) (rets : list Z) (st : at_state) : Z * at_state :=
  (if existsb (fun r => r <? 0) rets then -1 else 0,
   mk_at fd h 0 (s_type st) None None None (s_onTimeout st) (s_onReaderClosed st) (wq st) (evs st)).

Definition at_close (st : at_state) : at_state :=
  let st := if 0 <=? s_fd st then emit (EvCloseFd (s_fd st)) st else st in
  emit EvSignal (set_readerClosed 1 (set_fd (-1) st)).

Definition at_set_on_timeout (cb : bool) (s : at_state) : at_state :=
  mk_at (s_fd s) (s_unsolHandler s) (s_readerClosed s) (s_type s) (s_responsePrefix s)
    (s_smsPDU s) (sp_response s) cb (s_onReaderClosed s) (wq s) (evs s).

Definition at_set_on_reader_closed (cb : bool) (s : at_state) : at_state :=
  mk_at (s_fd s) (s_unsolHandler s) (s_readerClosed s) (s_type s) (s_responsePrefix s)
    (s_smsPDU s) (sp_response s) (s_onTimeout s) cb (wq s) (evs s).

Definition clearPendingCommand (s : at_state) : at_state :=
  mk_at (s_fd s) (s_unsolHandler s) (s_readerClosed s) (s_type s) None None None
    (s_onTimeout s) (s_onReaderClosed s) (wq s) (evs s).

Definition at_response_new : ATResponse := mk_at_response 0 None [].

(** [while (pcur != NULL)]: each node moves to the front of the result. *)
Fixpoint reverse_onto (pcur acc : list bytes) : list bytes :=
  match pcur with
  | [] => acc
  | x :: pnext => reverse_onto pnext (x :: acc)
  end.

Definition reverseIntermediates (r : ATResponse) : ATResponse :=
  mk_at_response (success r) (finalResponse r) (reverse_onto (p_intermediates r) []).

(** ** Sending a command *)

(** What other threads do while the command thread waits with the mutex
    released: the reader processes a line or ends, some thread closes the
    channel, or some thread issues another command. *)
Inductive action :=
| ALine (line : bytes)
| AReaderClosed
| AClose
| AOther (command : bytes).

(** One wait: the actions, and whether it ends with [ETIMEDOUT]. *)
Definition wait := (list action * bool)%type.

(** The first half: until the command waits for its answer, or the error. *)
Definition send_begin (command : bytes) (type : ATCommandType) (responsePrefix smspdu : option bytes)
  (st : at_state) : outcome (Z * at_state) :=
  match sp_response st with
  | Some _ => Ret (AT_ERROR_COMMAND_PENDING, clearPendingCommand st)
  | None =>
    '(err, st) ← writeline command st;
    if err <? 0 then Ret (err, clearPendingCommand st)
    else Ret (0, set_command type responsePrefix smspdu (Some at_response_new) st)
  end.

(** A thread that issues a command while one is pending. *)
Definition run_action (v : variant) (a : action) (st : at_state) : outcome at_state :=
  match a with
  | ALine line => processLine v line st
  | AReaderClosed => Ret (onReaderClosed st)
  | AClose => Ret (at_close st)
  | AOther command => '(_, st) ← send_begin command NO_RESULT None None st; Ret st
  end.

Fixpoint run_actions (v : variant) (l : list action) (st : at_state) : outcome at_state :=
  match l with
  | [] => Ret st
  | a :: l => st ← run_action v a st; run_actions v l st
  end.

(** [while (sp_response->finalResponse == NULL && s_readerClosed == 0)]; with
    [timeout] false the wait cannot time out.  Returns 0 or the error. *)
Fixpoint wait_loop (v : variant) (timeout : bool) (ws : list wait) (st : at_state)
  : outcome (Z * at_state) :=
  match sp_response st with
  | None => Ub
  | Some r =>
    match finalResponse r, s_readerClosed st =? 0 with
    | None, true =>
      match ws with
      | [] => NoFuel
      | (acts, timed_out) :: ws =>
        st ← run_actions v acts st;
        if timeout && timed_out then Ret (AT_ERROR_TIMEOUT, st) else wait_loop v timeout ws st
      end
    | _, _ => Ret (0, st)
    end
  end.

(** The second half: hand out the response. *)
Definition send_finish (want : bool) (st : at_state) : outcome (Z * option ATResponse * at_state) :=
  out ← (if want then r ← checked (sp_response st); Ret (Some (reverseIntermediates r))
         else Ret None);
  let st := set_response None st in
  let err := if 0 <? s_readerClosed st then AT_ERROR_CHANNEL_CLOSED else 0 in
  Ret (err, out, clearPendingCommand st).

(** The error, what is stored through [pp_outResponse] ([want]: it is not
    NULL; nothing is stored on the early errors), and the state. *)
Definition at_send_command_full_nolock (v : variant) (command : bytes) (type : ATCommandType)
  (responsePrefix smspdu : option bytes) (timeoutMsec : Z) (want : bool) (ws : list wait)
  (st : at_state) : outcome (Z * option ATResponse * at_state) :=
  '(err, st) ← send_begin command type responsePrefix smspdu st;
  if err <? 0 then Ret (err, None, st)
  else
    '(err, st) ← wait_loop v (negb (timeoutMsec =? 0)) ws st;
    if err <? 0 then Ret (err, None, clearPendingCommand st)
    else send_finish want st.

Definition at_send_command_full (v : variant) (in_reader : bool) (command : bytes)
  (type : ATCommandType) (responsePrefix smspdu : option bytes) (timeoutMsec : Z) (want : bool)
  (ws : list wait) (st : at_state) : outcome (Z * option ATResponse * at_state) :=
  if in_reader then Ret (AT_ERROR_INVALID_THREAD, None, st)
  else
    '(err, out, st) ←
      at_send_command_full_nolock v command type responsePrefix smspdu timeoutMsec want ws st;
    Ret (err, out, if (err =? AT_ERROR_TIMEOUT) && s_onTimeout st
                   then emit EvTimeoutCallback st else st).

Definition at_send_command (v : variant) (in_reader : bool) (command : bytes) (want : bool) :=
  at_send_command_full v in_reader command NO_RESULT None None 0 want.

(** A successful command must have an intermediate response. *)
Definition require_intermediate (res : Z * option ATResponse * at_state)
  : Z * option ATResponse * at_state :=
  match res with
  | (err, Some r, st) =>
    if (err =? 0) && (0 <? success r) && no_intermediates r
    then (AT_ERROR_INVALID_RESPONSE, None, st) else res
  | _ => res
  end.

Definition at_send_command_singleline (v : variant) (in_reader : bool)
  (command responsePrefix : bytes) (want : bool) (ws : list wait) (st : at_state) :=
  r ← at_send_command_full v in_reader command SINGLELINE (Some responsePrefix) None 0 want ws st;
  Ret (require_intermediate r).

Definition at_send_command_numeric (v : variant) (in_reader : bool)
  (command : bytes) (want : bool) (ws : list wait) (st : at_state) :=
  r ← at_send_command_full v in_reader command NUMERIC None None 0 want ws st;
  Ret (require_intermediate r).

Definition at_send_command_sms (v : variant) (in_reader : bool)
  (command pdu responsePrefix : bytes) (want : bool) (ws : list wait) (st : at_state) :=
  r ← at_send_command_full v in_reader command SINGLELINE (Some responsePrefix) (Some pdu) 0 want ws st;
  Ret (require_intermediate r).

Definition at_send_command_multiline (v : variant) (in_reader : bool)
  (command responsePrefix : bytes) (want : bool) :=
  at_send_command_full v in_reader command MULTILINE (Some responsePrefix) None 0 want.

(** ** Handshake and errors *)

Definition HANDSHAKE_RETRY_COUNT : nat := 8.
Definition HANDSHAKE_TIMEOUT_MSEC (v : variant) : Z :=
  match v with Reference => 250 | Altair => 500 end.

(** The loop: each try has its own waits. *)
Fixpoint handshake_loop (v : variant) (n : nat) (wss : list (list wait)) (err : Z) (st : at_state)
  : outcome (Z * at_state) :=
  match n with
  | O => Ret (err, st)
  | S n =>
    match wss with
    | [] => NoFuel
    | ws :: wss =>
      '(err, _, st) ← at_send_command_full_nolock v (s2b "ATE0Q0V1") NO_RESULT None None
                        (HANDSHAKE_TIMEOUT_MSEC v) false ws st;
      if err =? 0 then Ret (err, st) else handshake_loop v n wss err st
    end
  end.

Definition at_handshake (v : variant) (in_reader : bool) (wss : list (list wait)) (st : at_state)
  : outcome (Z * at_state) :=
  if in_reader then Ret (AT_ERROR_INVALID_THREAD, st)
  else
    '(err, st) ← handshake_loop v HANDSHAKE_RETRY_COUNT wss 0 st;
    Ret (err, if err =? 0 then emit (EvSleep (HANDSHAKE_TIMEOUT_MSEC v)) st else st).

Definition at_get_cme_error (r : ATResponse) : Z :=
  if 0 <? success r then CME_SUCCESS
  else
    match finalResponse r with
    | None => CME_ERROR_NON_CME
    | Some line =>
      if negb (strStartsWith line (s2b "+CME ERROR:")) then CME_ERROR_NON_CME
      else
        let '(err, p_cur) := at_tok_start (Some line) in
        if err <? 0 then CME_ERROR_NON_CME
        else
          match at_tok_nextint p_cur with
          | (err, Some ret, _) => if err <? 0 then CME_ERROR_NON_CME else ret
          | (_, None, _) => CME_ERROR_NON_CME
          end
    end.

(** [setTimespecRelative]: seconds and nanoseconds, from [gettimeofday]. *)
Definition setTimespecRelative (tv_sec tv_usec msec : Z) : Z * Z :=
  (tv_sec + Z.quot msec 1000, (tv_usec + Z.rem msec 1000 * 1000) * 1000).

(** ** Specification: which lines belong to the response *)

(** The first element that satisfies [f], and the other ones in order. *)
Fixpoint split_first {A} (f : A -> bool) (l : list A) : list A * list A :=
  match l with
  | [] => ([], [])
  | x :: l => if f x then ([x], l) else let '(a, b) := split_first f l in (a, x :: b)
  end.

(** Everything from the first element that satisfies [f] on, and what precedes. *)
Fixpoint split_from {A} (f : A -> bool) (l : list A) : list A * list A :=
  match l with
  | [] => ([], [])
  | x :: l => if f x then (x :: l, []) else let '(a, b) := split_from f l in (a, x :: b)
  end.

Definition split_filter {A} (f : A -> bool) (l : list A) : list A * list A :=
  (List.filter f l, List.filter (fun x => negb (f x)) l).

(** Intermediate and unsolicited lines of a command, in the order received. *)
Definition expected_split (v : variant) (type : ATCommandType) (prefix : bytes) (ls : list bytes)
  : list bytes * list bytes :=
  match type, v with
  | NO_RESULT, _ => ([], ls)
  | NUMERIC, _ => split_first first_isdigit ls
  | SINGLELINE, _ => split_first (fun l => strStartsWith l prefix) ls
  | MULTILINE, Reference =>
    if strcmp_eq prefix (s2b "+CMGR:") then split_from (fun l => strStartsWith l prefix) ls
    else split_filter (fun l => strStartsWith l prefix) ls
  | MULTILINE, Altair => split_filter (fun l => strStartsWith l prefix) ls
  end.

(** ** Lemmas: writing *)

Lemma write_all_spec fuel s w w' d :
  write_all fuel s w = Ret (false, w', d) -> d = s.
Proof.
  revert s w d; induction fuel as [|fuel IH]; intros [|c s] w d; cbn [write_all];
    try (by intros [= <- <-]); try done.
  destruct w as [|[n| |] w]; try done.
  - destruct (write_all fuel (drop n (c :: s)) w) as [[[f w1] d1]| | |] eqn:E; try done.
    cbn [mbind outcome_bind]. intros [= -> -> <-]. apply IH in E as ->. apply take_drop.
  - apply IH.
Qed.

Lemma write_all_not_ub fuel s w : write_all fuel s w <> Ub /\ write_all fuel s w <> Halt.
Proof.
  revert s w; induction fuel as [|fuel IH]; intros [|c s] w; cbn [write_all]; try done.
  destruct w as [|[n| |] w]; try done; try apply IH.
  destruct (IH (drop n (c :: s)) w). by destruct (write_all fuel (drop n (c :: s)) w) as [[[? ?] ?]| | |].
Qed.

Lemma write_one_spec c w w' d : write_one c w = Ret (false, w', d) -> d = [c].
Proof.
  induction w as [|[[|n]| |] w IH]; cbn [write_one]; try done. by intros [= _ <-].
Qed.

Lemma write_one_not_ub c w : write_one c w <> Ub /\ write_one c w <> Halt.
Proof. induction w as [|[[|n]| |] w IH]; cbn [write_one]; try done. Qed.

(** Writing touches only the answers and the log. *)
Lemma write_terminated_frame last s st err st' :
  write_terminated last s st = Ret (err, st') ->
  exists w d, st' = set_io w (evs st ++ d) st /\ Forall (fun e => exists b, e = EvWrite b) d.
Proof.
  unfold write_terminated. case_match.
  - intros [= <- <-]. exists (wq st), []. rewrite app_nil_r. split; [by destruct st|done].
  - destruct (write_all _ s (wq st)) as [[[f w1] d1]| | |]; try done. cbn [mbind outcome_bind].
    destruct f.
    + intros [= <- <-]. exists w1, [EvWrite d1]. split; [done|]. repeat constructor. by eexists.
    + destruct (write_one last w1) as [[[f w2] d2]| | |]; try done. cbn [mbind outcome_bind].
      intros [= <- <-]. exists w2, [EvWrite (d1 ++ d2)]. split; [done|]. repeat constructor. by eexists.
Qed.

Lemma write_terminated_not_ub last s st :
  write_terminated last s st <> Ub /\ write_terminated last s st <> Halt.
Proof.
  unfold write_terminated. case_match; [done|].
  destruct (write_all_not_ub (length (wq st)) s (wq st)).
  destruct (write_all _ s (wq st)) as [[[f w1] d1]| | |]; try done. cbn [mbind outcome_bind].
  destruct f; [done|]. destruct (write_one_not_ub last w1).
  by destruct (write_one last w1) as [[[f w2] d2]| | |].
Qed.

(** ** Lemmas: processing lines *)

Lemma processLine_no_command v line st :
  sp_response st = None -> processLine v line st = Ret (handleUnsolicited line st).
Proof. unfold processLine. by intros ->. Qed.

(** Whether a line that is not final is kept as an intermediate response, [b]
    telling whether the response already has one. *)
Definition keeps (v : variant) (type : ATCommandType) (prefix : bytes) (b : bool) (line : bytes) : bool :=
  match type with
  | NO_RESULT => false
  | NUMERIC => negb b && first_isdigit line
  | SINGLELINE => negb b && strStartsWith line prefix
  | MULTILINE => strStartsWith line prefix ||
      match v with Reference => strcmp_eq prefix (s2b "+CMGR:") && b | Altair => false end
  end.

Fixpoint classify (v : variant) (type : ATCommandType) (prefix : bytes) (b : bool) (ls : list bytes)
  : list bytes * list bytes :=
  match ls with
  | [] => ([], [])
  | l :: ls =>
    if keeps v type prefix b l
    then let '(i, u) := classify v type prefix true ls in (l :: i, u)
    else let '(i, u) := classify v type prefix b ls in (i, l :: u)
  end.

Lemma classify_single v type prefix ls :
  type = NUMERIC \/ type = SINGLELINE -> classify v type prefix true ls = ([], ls).
Proof.
  intros Ht. induction ls as [|l ls IH]; [done|]. cbn [classify].
  assert (keeps v type prefix true l = false) as -> by by destruct Ht as [-> | ->].
  by rewrite IH.
Qed.

Lemma classify_expected v type prefix ls :
  classify v type prefix false ls = expected_split v type prefix ls.
Proof.
  destruct type; cbn [expected_split].
  - induction ls as [|l ls IH]; [done|]. cbn [classify keeps]. by rewrite IH.
  - induction ls as [|l ls IH]; [done|]. cbn [classify keeps split_first negb andb].
    destruct (first_isdigit l); [by rewrite classify_single by auto|by rewrite IH].
  - induction ls as [|l ls IH]; [done|]. cbn [classify keeps split_first negb andb].
    destruct (strStartsWith l prefix); [by rewrite classify_single by auto|by rewrite IH].
  - assert (forall w, (w = Reference -> strcmp_eq prefix (s2b "+CMGR:") = false) -> forall b,
      classify w MULTILINE prefix b ls = split_filter (fun l => strStartsWith l prefix) ls) as Hf.
    { intros w Hw. unfold split_filter. induction ls as [|l ls IH]; intros b; [done|].
      cbn [classify keeps List.filter].
      assert (match w with Reference => strcmp_eq prefix (s2b "+CMGR:") && b | Altair => false end = false)
        as -> by (destruct w; [by rewrite Hw|done]).
      rewrite orb_false_r. by destruct (strStartsWith l prefix); rewrite IH. }
    destruct v; [|by apply Hf]. destruct (strcmp_eq prefix (s2b "+CMGR:")) eqn:E; [|by apply Hf].
    assert (forall ls, classify Reference MULTILINE prefix true ls = (ls, [])) as Ht.
    { clear -E. intros ls. induction ls as [|l ls IH]; [done|]. cbn [classify keeps].
      by rewrite E, orb_true_r, IH. }
    clear Hf. induction ls as [|l ls IH]; [done|]. cbn [classify keeps split_from].
    rewrite E, orb_false_r. destruct (strStartsWith l prefix); [by rewrite Ht|by rewrite IH].
Qed.

(** The state after [u] unsolicited lines and with response [r] pending. *)
Definition unsol_events (u : list bytes) : list event := map (fun l => EvUnsol l None) u.

Definition advance (u : list bytes) (r : ATResponse) (st : at_state) : at_state :=
  set_io (wq st) (evs st ++ unsol_events u) (set_response (Some r) st).

(** A command is pending, with [got] intermediates (latest first). *)
Definition pending_cmd (type : ATCommandType) (prefix pdu : option bytes) (got : list bytes)
  (st : at_state) : Prop :=
  s_unsolHandler st = true /\ s_readerClosed st = 0 /\ s_type st = type /\
  s_responsePrefix st = prefix /\ s_smsPDU st = pdu /\
  sp_response st = Some (mk_at_response 0 None got).

Definition prompt : bytes := s2b "> ".

(** A line that is neither final nor a prompt the channel answers. *)
Definition plain_line (pdu : option bytes) (l : bytes) : Prop :=
  isFinalResponse l = false /\ (pdu = None \/ strcmp_eq l prompt = false).

(** The prefix a command type needs. *)
Definition prefix_ok (type : ATCommandType) (prefix : option bytes) : Prop :=
  match type with NO_RESULT | NUMERIC => True | _ => is_Some prefix end.

Lemma processLine_nonfinal v type prefix pdu got line st :
  pending_cmd type prefix pdu got st -> prefix_ok type prefix -> plain_line pdu line ->
  processLine v line st = Ret (
    if keeps v type (default [] prefix) (negb (bool_decide (got = []))) line
    then advance [] (mk_at_response 0 None (line :: got)) st
    else advance [line] (mk_at_response 0 None got) st).
Proof.
  intros (Hh & _ & Ht & Hp & Hs & Hr) Hok [Hf Hpdu]. unfold processLine. rewrite Hr, Hs.
  unfold isFinalResponse in Hf. apply orb_false_iff in Hf as [-> ->].
  replace (match pdu, strcmp_eq line (s2b "> ") with
    Some pdu, true => _ | _, _ => processLine_switch v line (mk_at_response 0 None got) st end)
    with (processLine_switch v line (mk_at_response 0 None got) st)
    by (destruct pdu; [destruct Hpdu as [|Hpdu]; [done|by unfold prompt in Hpdu; rewrite Hpdu]|done]).
  assert (handleUnsolicited line st = advance [line] (mk_at_response 0 None got) st) as Hu.
  { unfold handleUnsolicited. rewrite Hh. unfold advance, emit, unsol_events, set_io, set_response.
    cbn. by rewrite Hr. }
  assert (addIntermediate line st = Ret (advance [] (mk_at_response 0 None (line :: got)) st)) as Ha.
  { unfold addIntermediate. rewrite Hr. cbn. unfold advance, unsol_events, set_io, set_response. cbn.
    by rewrite app_nil_r. }
  unfold processLine_switch. rewrite Ht.
  assert (forall r, no_intermediates (mk_at_response r None got) = bool_decide (got = [])) as Hn
    by (intros; by destruct got).
  destruct type; cbn [keeps prefix_ok] in *.
  - by rewrite Hu.
  - rewrite Hn, negb_involutive, Hu, Ha. by destruct (bool_decide (got = []) && first_isdigit line).
  - destruct Hok as [p ->]. unfold has_prefix. rewrite Hp, Hn, negb_involutive, Hu, Ha.
    change (default [] (Some p)) with p. cbn [checked mbind outcome_bind]. destruct (bool_decide (got = [])); [|done].
    by destruct (strStartsWith line p).
  - destruct Hok as [p ->]. unfold has_prefix, multiline_other. rewrite Hp, Hn, Hu, Ha.
    change (default [] (Some p)) with p. cbn [checked mbind outcome_bind]. destruct (strStartsWith line p); [done|].
    destruct v; [|done]. cbn [orb].
    by destruct (strcmp_eq p (s2b "+CMGR:") && negb (bool_decide (got = []))).
Qed.

Lemma pending_advance type prefix pdu got got' u st :
  pending_cmd type prefix pdu got st -> pending_cmd type prefix pdu got' (advance u (mk_at_response 0 None got') st).
Proof. by intros (? & ? & ? & ? & ? & ?). Qed.

Lemma advance_advance u u' r r' st : advance u' r' (advance u r st) = advance (u ++ u') r' st.
Proof.
  unfold advance, unsol_events, set_io, set_response. cbn. by rewrite map_app, app_assoc.
Qed.

Lemma run_lines v type prefix pdu ls : forall got st,
  pending_cmd type prefix pdu got st -> prefix_ok type prefix ->
  Forall (plain_line pdu) ls ->
  let c := classify v type (default [] prefix) (negb (bool_decide (got = []))) ls in
  run_actions v (map ALine ls) st = Ret (advance (snd c) (mk_at_response 0 None (rev (fst c) ++ got)) st).
Proof.
  induction ls as [|l ls IH]; intros got st Hp Hok Hls; cbn [map run_actions classify fst snd].
  - destruct Hp as (_ & _ & _ & _ & _ & Hr). destruct st; cbn in *. subst.
    unfold advance, unsol_events, set_io, set_response. cbn. by rewrite app_nil_r.
  - apply Forall_cons in Hls as [Hl Hls]. cbn [run_action].
    rewrite (processLine_nonfinal v type prefix pdu got) by done. cbn [mbind outcome_bind].
    destruct (keeps _ _ _ _ l).
    + rewrite (IH (l :: got)) by eauto using pending_advance.
      change (negb (bool_decide (l :: got = []))) with true.
      destruct (classify v type (default [] prefix) true ls) as [i u]. cbn [fst snd rev].
      by rewrite advance_advance, <- app_assoc.
    + rewrite (IH got) by eauto using pending_advance.
      destruct (classify v type (default [] prefix) _ ls) as [i u]. cbn [fst snd].
      by rewrite advance_advance.
Qed.

Lemma run_actions_app v a b st :
  run_actions v (a ++ b) st = (st1 ← run_actions v a st; run_actions v b st1).
Proof.
  revert st; induction a as [|x a IH]; intros st; cbn [app run_actions]; [done|].
  destruct (run_action v x st); cbn [mbind outcome_bind]; [apply IH|done..].
Qed.

Lemma processLine_final v type prefix pdu got f st :
  pending_cmd type prefix pdu got st -> isFinalResponse f = true ->
  processLine v f st = Ret (emit EvSignal (set_response
    (Some (mk_at_response (b2z (isFinalResponseSuccess f)) (Some f) got)) st)).
Proof.
  intros (_ & _ & _ & _ & _ & Hr) Hf. unfold processLine. rewrite Hr.
  unfold isFinalResponse in Hf. destruct (isFinalResponseSuccess f); cbn in Hf |- *.
  - unfold set_success. rewrite Hr. done.
  - rewrite Hf. unfold set_success. rewrite Hr. done.
Qed.

(** ** Lemmas: waiting *)

Lemma prefix_of_lines acts rest ls (f : bytes) :
  acts ++ rest = map ALine (ls ++ [f]) ->
  (exists k k', acts = map ALine k /\ rest = map ALine (k' ++ [f]) /\ ls = k ++ k') \/
  (acts = map ALine (ls ++ [f]) /\ rest = []).
Proof.
  intros E. symmetry in E. apply map_eq_app in E as (k & k' & E & <- & <-).
  destruct (decide (k' = [])) as [->|Hne].
  - right. rewrite app_nil_r in E. by subst.
  - left. destruct (exists_last Hne) as (k'' & x & ->).
    rewrite app_assoc in E. apply app_inj_tail in E as [-> ->]. by exists k, k''.
Qed.

Lemma writeline_ok command st st1 :
  writeline command st = Ret (0, st1) ->
  exists w, st1 = set_io w (evs st ++ [EvWrite (command ++ [13])]) st /\
            0 <= s_fd st /\ s_readerClosed st <= 0.
Proof.
  unfold writeline, write_terminated. case_match eqn:Hc; [done|]. zbool.
  destruct (write_all _ command (wq st)) as [[[f w1] d1]| | |] eqn:E1; try done.
  cbn [mbind outcome_bind]. destruct f; [done|]. apply write_all_spec in E1 as ->.
  destruct (write_one 13 w1) as [[[f w2] d2]| | |] eqn:E2; try done.
  cbn [mbind outcome_bind]. destruct f; [done|]. apply write_one_spec in E2 as ->.
  intros [= <-]. exists w2. done.
Qed.

Lemma reverse_onto_rev l acc : reverse_onto l acc = rev l ++ acc.
Proof.
  revert acc; induction l as [|x l IH]; intros acc; [done|]. cbn [reverse_onto rev].
  by rewrite IH, <- app_assoc.
Qed.

(** ** Lemmas: no command crashes *)

Lemma write_terminated_safe last s st :
  safely (fun r => exists w d, snd r = set_io w (evs st ++ d) st) (write_terminated last s st).
Proof.
  destruct (write_terminated_not_ub last s st) as [H1 H2].
  destruct (write_terminated last s st) as [[e st1]| | |] eqn:E; try done.
  apply write_terminated_frame in E as (w & d & -> & _). by exists w, d.
Qed.

(** A response is pending and the prefix its type needs is set. *)
Definition awaiting (st : at_state) : Prop :=
  is_Some (sp_response st) /\ prefix_ok (s_type st) (s_responsePrefix st).

Lemma awaiting_emit e st : awaiting (emit e st) <-> awaiting st.
Proof. done. Qed.

Lemma awaiting_unsol line st : awaiting st -> awaiting (handleUnsolicited line st).
Proof. unfold handleUnsolicited. by destruct (s_unsolHandler st). Qed.

Lemma addIntermediate_safe line st : awaiting st -> safely awaiting (addIntermediate line st).
Proof. intros [[r Hr] Hok]. unfold addIntermediate. rewrite Hr. by split; [eexists|]. Qed.

Lemma processLine_switch_safe v line r st :
  awaiting st -> safely awaiting (processLine_switch v line r st).
Proof.
  intros Ha. pose proof (addIntermediate_safe line st Ha) as Hi.
  pose proof (awaiting_unsol line st Ha) as Hu. destruct Ha as [_ Hok].
  unfold processLine_switch, has_prefix. destruct (s_type st) eqn:Ht; cbn [prefix_ok] in Hok.
  - done.
  - by case_match.
  - destruct Hok as [p ->]. cbn. case_match; [|done]. by case_match.
  - destruct Hok as [p Hp]. unfold multiline_other. rewrite Hp. cbn.
    case_match; [done|]. destruct v; cbn; [|done]. by case_match.
Qed.

Lemma processLine_safe v line st : awaiting st -> safely awaiting (processLine v line st).
Proof.
  intros Ha. pose proof (processLine_switch_safe v line) as Hs. pose proof Ha as [[r Hr] Hok].
  unfold processLine, set_success, handleFinalResponse. rewrite Hr.
  case_match; [by split; [eexists|]|]. case_match; [by split; [eexists|]|].
  destruct (s_smsPDU st) as [pdu|]; [|by apply Hs]. case_match; [|by apply Hs].
  eapply safely_bind; [apply write_terminated_safe|].
  intros [e st1] (w & d & E). cbn in E. subst. by split; [eexists|].
Qed.

(** What the reader thread and closing threads do during a wait. *)
Definition no_other_command (a : action) : Prop :=
  match a with AOther _ => False | _ => True end.

Lemma run_actions_safe v acts st :
  Forall no_other_command acts -> awaiting st -> safely awaiting (run_actions v acts st).
Proof.
  intros Hf; revert st; induction Hf as [|a acts Hn Hf IH]; intros st Ha; cbn [run_actions]; [done|].
  eapply safely_bind; [|intros; by apply IH]. destruct a; cbn [run_action].
  - by apply processLine_safe.
  - unfold onReaderClosed. by case_match.
  - unfold at_close. cbn. by case_match.
  - done.
Qed.

Lemma wait_loop_safe v timeout ws st :
  Forall (fun w => Forall no_other_command (fst w)) ws -> awaiting st ->
  safely (fun r => awaiting (snd r)) (wait_loop v timeout ws st).
Proof.
  intros Hf; revert st; induction Hf as [|[acts t] ws Hw Hf IH]; intros st Ha;
    pose proof Ha as [[r Hr] _]; cbn [wait_loop]; rewrite Hr.
  - by repeat case_match.
  - case_match; [done|]. case_match; [|done].
    eapply safely_bind; [by apply run_actions_safe|]. intros st1 H1. cbn beta. case_match; [done|by apply IH].
Qed.

(** The command is still waiting for its final response. *)
Definition waiting (st : at_state) : Prop :=
  awaiting st /\ (finalResponse <$> sp_response st = Some None) /\ s_readerClosed st = 0.

Lemma waiting_unsol line st : waiting st -> waiting (handleUnsolicited line st).
Proof. unfold handleUnsolicited. by destruct (s_unsolHandler st). Qed.

Lemma addIntermediate_waiting line st : waiting st -> safely waiting (addIntermediate line st).
Proof.
  intros ([[r Hr] Hok] & Hf & Hc). unfold addIntermediate. rewrite Hr in *.
  split; [split; [by eexists|done]|]. split; [|done]. cbn in Hf |- *. by injection Hf as ->.
Qed.

Lemma processLine_waiting v line st :
  waiting st -> isFinalResponse line = false -> safely waiting (processLine v line st).
Proof.
  intros Hw Hl. pose proof (addIntermediate_waiting line st Hw) as Hi.
  pose proof (waiting_unsol line st Hw) as Hu. pose proof Hw as ([[r Hr] Hok] & Hf & Hc).
  unfold isFinalResponse in Hl. apply orb_false_iff in Hl as [H1 H2].
  assert (safely waiting (processLine_switch v line r st)) as Hs.
  { unfold processLine_switch, has_prefix, multiline_other. destruct (s_type st); cbn [prefix_ok] in Hok.
    - done.
    - by case_match.
    - destruct Hok as [p ->]. cbn. case_match; [|done]. by case_match.
    - destruct Hok as [p ->]. cbn. case_match; [done|]. destruct v; cbn; [by case_match|done]. }
  unfold processLine. rewrite Hr, H1, H2. destruct (s_smsPDU st); [|done]. case_match; [|done].
  eapply safely_bind; [apply write_terminated_safe|].
  intros [e st1] (w & d & E). cbn in E. by subst.
Qed.

Lemma run_waiting v ls st :
  waiting st -> Forall (fun l => isFinalResponse l = false) ls ->
  safely waiting (run_actions v (map ALine ls) st).
Proof.
  intros Hw Hf; revert st Hw; induction Hf as [|l ls Hl Hf IH]; intros st Hw; cbn; [done|].
  eapply safely_bind; [by apply processLine_waiting|]. auto.
Qed.

(** However the lines fall on the waits, the command wakes up with the state
    that processing them one after the other gives. *)
Lemma wait_split v f ws : forall ls st st1 st2,
  waiting st -> Forall (fun l => isFinalResponse l = false) ls ->
  run_actions v (map ALine ls) st = Ret st1 -> processLine v f st1 = Ret st2 ->
  is_Some (sp_response st2 ≫= finalResponse) ->
  concat (map fst ws) = map ALine (ls ++ [f]) ->
  wait_loop v false ws st = Ret (0, st2).
Proof.
  induction ws as [|[acts t] ws IH]; intros ls st st1 st2 Hw Hls Hrun Hf Hfin E; cbn [map concat fst] in E.
  { by destruct ls. }
  pose proof Hw as ([[r Hr] _] & Hn & Hc). cbn [wait_loop]. rewrite Hr, Hc in *.
  cbn in Hn. injection Hn as ->. change (0 =? 0) with true. cbn match.
  apply prefix_of_lines in E as [(k & k' & -> & E & ->)|[-> E]]; cbn [andb].
  - apply Forall_app in Hls as [Hk Hk']. pose proof (run_waiting v k st Hw Hk) as Hwk.
    rewrite map_app, run_actions_app in Hrun.
    destruct (run_actions v (map ALine k) st) as [stk| | |]; try done.
    cbn [mbind outcome_bind] in *. eauto.
  - rewrite map_app, run_actions_app, Hrun. cbn [mbind outcome_bind map run_actions run_action].
    rewrite Hf. cbn [mbind outcome_bind].
    destruct Hfin as [x Hx]. destruct (sp_response st2) as [r2|] eqn:E2; [|done]. cbn in Hx.
    destruct ws as [|[? ?] ?]; cbn [wait_loop]; by rewrite E2, Hx.
Qed.

Lemma classify_app v type prefix k k' : forall b,
  classify v type prefix b (k ++ k') =
    let c := classify v type prefix b k in
    let c' := classify v type prefix (b || negb (bool_decide (fst c = []))) k' in
    (fst c ++ fst c', snd c ++ snd c').
Proof.
  induction k as [|l k IH]; intros b; cbn [app classify].
  - cbn [fst snd app]. cbv zeta. cbn [fst snd]. rewrite orb_false_r. by destruct (classify _ _ _ b k').
  - destruct (keeps v type prefix b l); rewrite IH; cbv zeta.
    + destruct (classify v type prefix true k) as [i u]. cbn [fst snd]. rewrite orb_true_r. by destruct b.
    + by destruct (classify v type prefix b k) as [i u].
Qed.

(** What is written does not depend on the pending command. *)
Lemma write_terminated_ctx last s st st' e st1 :
  s_fd st = s_fd st' -> s_readerClosed st = s_readerClosed st' -> wq st = wq st' ->
  write_terminated last s st = Ret (e, st1) -> evs st1 = evs st ++ [EvWrite (s ++ [last])] ->
  exists w, write_terminated last s st' = Ret (e, set_io w (evs st' ++ [EvWrite (s ++ [last])]) st').
Proof.
  unfold write_terminated. intros <- <- <-. case_match.
  { intros [= <- <-] Hd. apply (f_equal length) in Hd. rewrite length_app in Hd. cbn in Hd. lia. }
  destruct (write_all _ s (wq st)) as [[[f w1] d1]| | |]; try done. cbn [mbind outcome_bind].
  destruct f; [|destruct (write_one last w1) as [[[f w2] d2]| | |]; try done; cbn [mbind outcome_bind]];
    intros [= <- <-] Hd; cbn in Hd; apply app_inv_head in Hd; injection Hd as ->; by eexists.
Qed.

Lemma plain_nonfinal pdu ls :
  Forall (plain_line pdu) ls -> Forall (fun l => isFinalResponse l = false) ls.
Proof. intros H. eapply Forall_impl; [exact H|]. by intros ? []. Qed.

Lemma nonfinal_plain ls :
  Forall (fun l => isFinalResponse l = false) ls -> Forall (plain_line None) ls.
Proof. intros H. eapply Forall_impl; [exact H|]. cbn. intros; split; auto. Qed.

Lemma writeCtrlZ_ok s st st1 :
  writeCtrlZ s st = Ret (0, st1) -> evs st1 = evs st ++ [EvWrite (s ++ [26])].
Proof.
  unfold writeCtrlZ, write_terminated. case_match; [done|].
  destruct (write_all _ s (wq st)) as [[[f w1] d1]| | |] eqn:E1; try done.
  cbn [mbind outcome_bind]. destruct f; [done|]. apply write_all_spec in E1 as ->.
  destruct (write_one 26 w1) as [[[f w2] d2]| | |] eqn:E2; try done.
  cbn [mbind outcome_bind]. destruct f; [done|]. apply write_one_spec in E2 as ->. by intros [= <-].
Qed.

Lemma processLine_prompt v type prefix pdu got st w :
  pending_cmd type prefix (Some pdu) got st ->
  writeCtrlZ pdu st = Ret (0, set_io w (evs st ++ [EvWrite (pdu ++ [26])]) st) ->
  processLine v prompt st = Ret (set_smsPDU None (set_io w (evs st ++ [EvWrite (pdu ++ [26])]) st)).
Proof.
  intros (_ & _ & _ & _ & Hs & Hr) Hw. unfold processLine. rewrite Hr, Hs.
  change (isFinalResponseSuccess prompt) with false. change (isFinalResponseError prompt) with false.
  change (strcmp_eq prompt (s2b "> ")) with true. cbn match. by rewrite Hw.
Qed.

(** A channel ready for a command: open, with its handler and none pending. *)
Definition idle (st : at_state) : Prop :=
  s_unsolHandler st = true /\ s_readerClosed st = 0 /\ sp_response st = None.

(** ** Lemmas: the handshake *)

Definition handshake_command : bytes := s2b "ATE0Q0V1".

(** A radio that takes what it is given, [n] commands long. *)
Definition willing (n : nat) (st : at_state) : Prop :=
  0 <= s_fd st /\ wq st = concat (repeat [Wrote 8; Wrote 1] n).

Definition try_events (ls : list bytes) : list event :=
  EvWrite (handshake_command ++ [13]) :: unsol_events ls.

Definition ready (n : nat) (st : at_state) : Prop :=
  s_unsolHandler st = true /\ s_readerClosed st = 0 /\ sp_response st = None /\ willing n st.

Lemma send_begin_handshake n st :
  ready (S n) st ->
  exists st1, send_begin handshake_command NO_RESULT None None st = Ret (0, st1) /\
    pending_cmd NO_RESULT None None [] st1 /\ willing n st1 /\
    evs st1 = evs st ++ [EvWrite (handshake_command ++ [13])].
Proof.
  intros (Hh & Hc & Hr & Hfd & Hq). unfold send_begin. rewrite Hr.
  unfold writeline, write_terminated. rewrite Hc, Hq. cbn [repeat concat app].
  replace (s_fd st <? 0) with false by lia. cbn.
  eexists. split; [reflexivity|]. by repeat split.
Qed.

Lemma run_unsol v ls st :
  pending_cmd NO_RESULT None None [] st -> Forall (fun l => isFinalResponse l = false) ls ->
  run_actions v (map ALine ls) st = Ret (advance ls at_response_new st).
Proof.
  intros Hp Hls. pose proof (run_lines v _ _ _ ls [] st Hp I (nonfinal_plain _ Hls)) as H.
  cbv zeta in H. change (negb (bool_decide ([] = []))) with false in H.
  by rewrite classify_expected in H.
Qed.

(** One try without an answer, and one with an answer. *)
Lemma try_timeout v timeoutMsec n ls st :
  ready (S n) st -> timeoutMsec <> 0 -> Forall (fun l => isFinalResponse l = false) ls ->
  exists st1, at_send_command_full_nolock v handshake_command NO_RESULT None None timeoutMsec false
      [(map ALine ls, true)] st = Ret (AT_ERROR_TIMEOUT, None, st1) /\
    ready n st1 /\ evs st1 = evs st ++ try_events ls.
Proof.
  intros Hrd Ht Hls. destruct (send_begin_handshake n st Hrd) as (st1 & Hb & Hp & [Hfd Hq] & He).
  unfold at_send_command_full_nolock. rewrite Hb. cbn [mbind outcome_bind].
  change (0 <? 0) with false. cbn match. pose proof Hp as (Hh & Hc & _ & _ & _ & Hr).
  unfold wait_loop. rewrite Hr, Hc. cbn [finalResponse]. change (0 =? 0) with true. cbn match.
  rewrite run_unsol by done. cbn [mbind outcome_bind].
  replace (timeoutMsec =? 0) with false by lia. cbn.
  eexists. split; [reflexivity|]. split; [done|].
  cbn. rewrite He. by rewrite <- app_assoc.
Qed.

Lemma try_answered v timeoutMsec n ls f st :
  ready (S n) st -> Forall (fun l => isFinalResponse l = false) ls -> isFinalResponse f = true ->
  exists st1, at_send_command_full_nolock v handshake_command NO_RESULT None None timeoutMsec false
      [(map ALine (ls ++ [f]), false)] st = Ret (0, None, st1) /\
    ready n st1 /\ evs st1 = evs st ++ try_events ls ++ [EvSignal].
Proof.
  intros Hrd Hls Hf. destruct (send_begin_handshake n st Hrd) as (st1 & Hb & Hp & [Hfd Hq] & He).
  unfold at_send_command_full_nolock. rewrite Hb. cbn [mbind outcome_bind].
  change (0 <? 0) with false. cbn match. pose proof Hp as (Hh & Hc & _ & _ & _ & Hr).
  unfold wait_loop. rewrite Hr, Hc. cbn [finalResponse]. change (0 =? 0) with true. cbn match.
  rewrite map_app, run_actions_app, run_unsol by done.
  cbn [map run_actions run_action mbind outcome_bind].
  erewrite processLine_final by (exact Hf || by eapply pending_advance).
  cbn [mbind outcome_bind]. rewrite andb_false_r. cbn. unfold send_finish. cbn. rewrite Hc. cbn.
  eexists. split; [reflexivity|]. split; [done|].
  cbn. rewrite He. by rewrite <- !app_assoc.
Qed.

Definition timed_out_try (ls : list bytes) : list wait := [(map ALine ls, true)].

Lemma handshake_tries v tries : forall n wss err st,
  ready (length tries + n) st -> Forall (Forall (fun l => isFinalResponse l = false)) tries ->
  exists st1, ready n st1 /\ evs st1 = evs st ++ concat (map try_events tries) /\
    handshake_loop v (length tries + n) (map timed_out_try tries ++ wss) err st =
    handshake_loop v n wss (match tries with [] => err | _ => AT_ERROR_TIMEOUT end) st1.
Proof.
  induction tries as [|ls tries IH]; intros n wss err st Hrd Ht; cbn [length Nat.add map app].
  - exists st. by rewrite app_nil_r.
  - apply Forall_cons in Ht as [Hl Ht].
    destruct (try_timeout v (HANDSHAKE_TIMEOUT_MSEC v) _ ls st Hrd ltac:(by destruct v) Hl)
      as (st1 & Hs & Hrd1 & He).
    destruct (IH n wss AT_ERROR_TIMEOUT st1 Hrd1 Ht) as (st2 & Hrd2 & He2 & Hl2).
    exists st2. split; [done|]. split; [by rewrite He2, He, <- app_assoc|].
    cbn [handshake_loop]. change (timed_out_try ls) with [(map ALine ls, true)]. unfold handshake_command in Hs. rewrite Hs.
    cbn [mbind outcome_bind]. change (AT_ERROR_TIMEOUT =? 0) with false. cbn match.
    rewrite Hl2. by destruct tries.
Qed.

(** The answer, with the lines as [processLine] sorts them. *)
Lemma send_command_classified (v : variant) (command : bytes) (type : ATCommandType)
  (prefix : option bytes) (ls : list bytes) (f : bytes) (ws : list wait) (st st1 : at_state) :
  idle st -> prefix_ok type prefix -> writeline command st = Ret (0, st1) ->
  Forall (fun l => isFinalResponse l = false) ls -> isFinalResponse f = true ->
  concat (map fst ws) = map ALine (ls ++ [f]) ->
  let '(ints, unsol) := classify v type (default [] prefix) false ls in
  exists st',
    at_send_command_full_nolock v command type prefix None 0 true ws st =
      Ret (0, Some (mk_at_response (b2z (isFinalResponseSuccess f)) (Some f) ints), st') /\
    sp_response st' = None /\ s_smsPDU st' = None /\ s_responsePrefix st' = None /\
    evs st' = evs st ++ EvWrite (command ++ [13]) :: unsol_events unsol ++ [EvSignal].
Proof.
  intros (Hh & Hc & Hr) Hok Hw Hls Hf E.
  pose proof (writeline_ok _ _ _ Hw) as (w & -> & _ & _).
  unfold at_send_command_full_nolock, send_begin. rewrite Hr, Hw. cbn [mbind outcome_bind].
  change (0 <? 0) with false. cbn match. cbn [mbind outcome_bind].
  change (negb (0 =? 0)) with false.
  set (st2 := set_command type prefix None (Some at_response_new) _).
  assert (pending_cmd type prefix None [] st2) as Hpend by done.
  pose proof (run_lines v type prefix None ls [] st2 Hpend Hok) as Hrun. cbv zeta in Hrun.
  change (negb (bool_decide ([] = []))) with false in Hrun.
  erewrite wait_split; [| |exact Hls|apply Hrun|eapply processLine_final; eauto using pending_advance| |exact E];
    [|by repeat (split; [by eexists|])|eapply Forall_impl; [exact Hls|]; cbn; intros; split; auto|by eexists].
  cbn [mbind outcome_bind].
  destruct (classify v type (default [] prefix) false ls) as [ints unsol]. cbn [fst snd].
  unfold send_finish. cbn [sp_response emit set_io advance set_response checked mbind outcome_bind].
  replace (0 <? s_readerClosed _) with false by (cbn; rewrite Hc; done).
  unfold reverseIntermediates. cbn [success finalResponse p_intermediates].
  rewrite reverse_onto_rev, !app_nil_r, rev_involutive.
  eexists. split; [reflexivity|]. do 3 (split; [reflexivity|]). cbn. by rewrite <- !app_assoc.
Qed.

(** ** Properties *)

(** C1: the answer of a command.  Whatever the type of the command and
    however the radio's lines fall on the waits of the command thread, a
    command without an SMS prompt whose answer is the lines [ls] and then the
    final line [f] returns 0 and a response that holds [f], the success flag of
    [f] and exactly the lines of [ls] that belong to the command, in the order
    received; every other line goes to the unsolicited handler, in order; the
    command and a carriage return were sent first and nothing stays pending. *)
Theorem at_send_command_answer (v : variant) (command : bytes) (type : ATCommandType)
  (prefix : option bytes) (ls : list bytes) (f : bytes) (ws : list wait) (st st1 : at_state) :
  idle st -> prefix_ok type prefix -> writeline command st = Ret (0, st1) ->
  Forall (fun l => isFinalResponse l = false) ls -> isFinalResponse f = true ->
  concat (map fst ws) = map ALine (ls ++ [f]) ->
  let '(ints, unsol) := expected_split v type (default [] prefix) ls in
  exists st',
    at_send_command_full_nolock v command type prefix None 0 true ws st =
      Ret (0, Some (mk_at_response (b2z (isFinalResponseSuccess f)) (Some f) ints), st') /\
    sp_response st' = None /\ s_smsPDU st' = None /\ s_responsePrefix st' = None /\
    evs st' = evs st ++ EvWrite (command ++ [13]) :: unsol_events unsol ++ [EvSignal].
Proof.
  intros Hi Hok Hw Hls Hf E. rewrite <- classify_expected. by eapply send_command_classified.
Qed.

Definition idle_state (w : list write_answer) : at_state :=
  mk_at 3 true 0 NO_RESULT None None None true true w [].

(** [AT+CSQ], answered in two waits with an unsolicited line in between; the
    command itself needs three [write] calls. *)
Lemma at_send_command_answer_witness :
  exists st', at_send_command_full_nolock Reference (s2b "AT+CSQ") SINGLELINE (Some (s2b "+CSQ:")) None
      0 true [([ALine (s2b "RING"); ALine (s2b "+CSQ: 18,99")], false); ([ALine (s2b "OK")], true)]
      (idle_state [Wrote 2; WriteEintr; Wrote 4; Wrote 1]) =
    Ret (0, Some (mk_at_response 1 (Some (s2b "OK")) [s2b "+CSQ: 18,99"]), st') /\
    sp_response st' = None /\ s_smsPDU st' = None /\ s_responsePrefix st' = None /\
    evs st' = [] ++ EvWrite (s2b "AT+CSQ" ++ [13]) :: unsol_events [s2b "RING"] ++ [EvSignal].
Proof.
  eapply (at_send_command_answer Reference (s2b "AT+CSQ") SINGLELINE (Some (s2b "+CSQ:"))
    [s2b "RING"; s2b "+CSQ: 18,99"] (s2b "OK"));
    [done|by eexists|vm_compute; reflexivity|repeat constructor|reflexivity|reflexivity].
Defined.

(** C10: a command survives everything the radio and the channel do while it
    waits.  Whatever the lines received, the answers of [write], the channel
    closing or the timeout expiring in any order, no NULL response or prefix is
    dereferenced, and the command leaves no response, PDU or prefix pending. *)
Theorem at_send_command_safe (v : variant) (command : bytes) (type : ATCommandType)
  (prefix smspdu : option bytes) (timeoutMsec : Z) (want : bool) (ws : list wait) (st : at_state) :
  prefix_ok type prefix -> sp_response st = None ->
  Forall (fun w => Forall no_other_command (fst w)) ws ->
  safely (fun r => sp_response (snd r) = None /\ s_smsPDU (snd r) = None /\
                   s_responsePrefix (snd r) = None)
    (at_send_command_full_nolock v command type prefix smspdu timeoutMsec want ws st).
Proof.
  intros Hok Hr Hws. unfold at_send_command_full_nolock, send_begin. rewrite Hr.
  eapply safely_bind with (P := fun r => if fst r <? 0
    then sp_response (snd r) = None /\ s_smsPDU (snd r) = None /\ s_responsePrefix (snd r) = None
    else awaiting (snd r)).
  - eapply safely_bind; [apply write_terminated_safe|]. intros [e st1] _.
    destruct (e <? 0) eqn:E; cbn [safely fst snd]; rewrite ?E; [done|]. by split; [eexists|].
  - intros [e st1] Ha. cbn [fst snd] in Ha. destruct (e <? 0) eqn:E; [done|].
    eapply safely_bind; [apply (wait_loop_safe v _ ws st1 Hws); auto|].
    intros [e2 st2] [[r Hr2] _]. cbn in Hr2. case_match; [done|].
    unfold send_finish. destruct want; cbn; by rewrite ?Hr2.
Qed.

(** A timed command whose channel closes under it. *)
Lemma at_send_command_safe_witness :
  safely (fun r => sp_response (snd r) = None /\ s_smsPDU (snd r) = None /\
                   s_responsePrefix (snd r) = None)
    (at_send_command_full_nolock Altair (s2b "AT+CMGS=2") SINGLELINE (Some (s2b "+CMGS:"))
      (Some (s2b "00")) 100 true [([ALine (s2b "> "); AReaderClosed; AClose], false)]
      (idle_state (repeat (Wrote 20) 4))).
Proof.
  apply (at_send_command_safe Altair (s2b "AT+CMGS=2") SINGLELINE (Some (s2b "+CMGS:"))
    (Some (s2b "00")) 100 true [([ALine (s2b "> "); AReaderClosed; AClose], false)]).
  - by eexists.
  - reflexivity.
  - repeat constructor.
Defined.

(** the SMS prompt.  A command with a PDU answers the first prompt of the
    radio, and only that one, with the PDU and a control-Z: the lines around it
    are classified as if the prompt were not there, and the PDU goes out between
    the unsolicited lines received before and after the prompt. *)
Theorem sms_prompt_answered_once (v : variant) (command pdu : bytes) (type : ATCommandType)
  (prefix : option bytes) (before after : list bytes) (f : bytes) (ws : list wait) (st st1 st2 : at_state) :
  idle st -> prefix_ok type prefix ->
  writeline command st = Ret (0, st1) -> writeCtrlZ pdu st1 = Ret (0, st2) ->
  Forall (plain_line (Some pdu)) before -> Forall (fun l => isFinalResponse l = false) after ->
  isFinalResponse f = true ->
  concat (map fst ws) = map ALine ((before ++ prompt :: after) ++ [f]) ->
  let '(ints, unsol) := expected_split v type (default [] prefix) (before ++ after) in
  let earlier := snd (expected_split v type (default [] prefix) before) in
  exists st' later,
    at_send_command_full_nolock v command type prefix (Some pdu) 0 true ws st =
      Ret (0, Some (mk_at_response (b2z (isFinalResponseSuccess f)) (Some f) ints), st') /\
    sp_response st' = None /\ s_smsPDU st' = None /\ unsol = earlier ++ later /\
    evs st' = evs st ++ EvWrite (command ++ [13]) :: unsol_events earlier ++
      EvWrite (pdu ++ [26]) :: unsol_events later ++ [EvSignal].
Proof.
  intros (Hh & Hc & Hr) Hok Hw Hz Hb Ha Hf E.
  pose proof (writeline_ok _ _ _ Hw) as (w & -> & _ & _).
  pose proof (writeCtrlZ_ok _ _ _ Hz) as Hez.
  unfold at_send_command_full_nolock, send_begin. rewrite Hr, Hw. cbn [mbind outcome_bind].
  change (0 <? 0) with false. cbn match. cbn [mbind outcome_bind].
  change (negb (0 =? 0)) with false.
  set (st3 := set_command type prefix (Some pdu) (Some at_response_new) _).
  assert (pending_cmd type prefix (Some pdu) [] st3) as Hp by done.
  pose proof (run_lines v type prefix _ before [] st3 Hp Hok Hb) as Hrb. cbv zeta in Hrb.
  change (negb (bool_decide ([] = []))) with false in Hrb.
  rewrite <- !classify_expected, classify_app. cbv zeta. cbn [orb].
  destruct (classify v type (default [] prefix) false before) as [ib ub]. cbn [fst snd] in *.
  rewrite app_nil_r in Hrb. set (st4 := advance _ _ _) in Hrb.
  assert (pending_cmd type prefix (Some pdu) (rev ib) st4) as Hp4 by by apply pending_advance with [].
  destruct (fun a b c => write_terminated_ctx 26 pdu _ st4 0 st2 a b c Hz Hez) as [w5 Hw5]; [done..|].
  pose proof (processLine_prompt v _ _ _ _ _ w5 Hp4 Hw5) as Hpr.
  set (st5 := set_smsPDU None _) in Hpr.
  assert (pending_cmd type prefix None (rev ib) st5) as Hp5 by done.
  pose proof (run_lines v type prefix _ after _ st5 Hp5 Hok (nonfinal_plain _ Ha)) as Hra. cbv zeta in Hra.
  replace (negb (bool_decide (rev ib = []))) with (negb (bool_decide (ib = []))) in Hra
    by (destruct ib as [|x ib]; [done|]; cbn [rev]; by destruct (rev ib)).
  destruct (classify v type (default [] prefix) _ after) as [ia ua]. cbn [fst snd] in *.
  erewrite wait_split with (ls := before ++ prompt :: after);
    [| | | |eapply processLine_final; [|exact Hf];
              exact (pending_advance _ _ _ _ (rev ia ++ rev ib) ua _ Hp5)| |exact E].
  - cbn [mbind outcome_bind]. unfold send_finish.
    cbn [sp_response emit set_io advance set_response checked mbind outcome_bind].
    replace (0 <? s_readerClosed _) with false by (cbn; rewrite Hc; done).
    unfold reverseIntermediates. cbn [success finalResponse p_intermediates].
    rewrite reverse_onto_rev, app_nil_r, rev_app_distr, !rev_involutive.
    eexists _, ua. split; [reflexivity|]. do 3 (split; [reflexivity|]). cbn.
    by rewrite <- !app_assoc.
  - by repeat (split; [by eexists|]).
  - apply Forall_app. split; [by eapply plain_nonfinal|]. by constructor.
  - rewrite map_app, run_actions_app, Hrb. cbn [map run_actions run_action mbind outcome_bind].
    rewrite Hpr. cbn [mbind outcome_bind]. exact Hra.
  - by eexists.
Qed.

(** [AT+CMGS=2]: an unsolicited line, the prompt, the reference, then [OK]. *)
Lemma sms_prompt_answered_once_witness :
  exists st' later,
    at_send_command_full_nolock Reference (s2b "AT+CMGS=2") SINGLELINE (Some (s2b "+CMGS:"))
      (Some (s2b "0001")) 0 true
      [([ALine (s2b "+CREG: 1"); ALine prompt], false); ([ALine (s2b "+CMGS: 7"); ALine (s2b "OK")], false)]
      (idle_state [Wrote 9; Wrote 1; Wrote 2; Wrote 2; Wrote 1]) =
    Ret (0, Some (mk_at_response 1 (Some (s2b "OK")) [s2b "+CMGS: 7"]), st') /\
    sp_response st' = None /\ s_smsPDU st' = None /\ [s2b "+CREG: 1"] = [s2b "+CREG: 1"] ++ later /\
    evs st' = [] ++ EvWrite (s2b "AT+CMGS=2" ++ [13]) :: unsol_events [s2b "+CREG: 1"] ++
      EvWrite (s2b "0001" ++ [26]) :: unsol_events later ++ [EvSignal].
Proof.
  eapply (sms_prompt_answered_once Reference (s2b "AT+CMGS=2") (s2b "0001") SINGLELINE
    (Some (s2b "+CMGS:")) [s2b "+CREG: 1"] [s2b "+CMGS: 7"] (s2b "OK"));
    [done|by eexists|vm_compute; reflexivity|vm_compute; reflexivity| |by repeat constructor
    |reflexivity|reflexivity].
  constructor; [|constructor]. split; [reflexivity|by right].
Defined.

(** two commands at once.  When another thread issues a command while one
    waits, the second gets [AT_ERROR_COMMAND_PENDING] as it should, but on that
    error path the routine clears the pending command, which is not its own:
    when the first command's wait ends it dereferences the NULL response. *)
Theorem concurrent_command_crashes (v : variant) (command other : bytes) (type : ATCommandType)
  (prefix smspdu : option bytes) (timeoutMsec : Z) (want : bool) (ws : list wait) (st st1 : at_state) :
  idle st -> writeline command st = Ret (0, st1) ->
  let st2 := set_command type prefix smspdu (Some at_response_new) st1 in
  send_begin other NO_RESULT None None st2 = Ret (AT_ERROR_COMMAND_PENDING, clearPendingCommand st2) /\
  at_send_command_full_nolock v command type prefix smspdu timeoutMsec want
    (([AOther other], false) :: ws) st = Ub.
Proof.
  intros (Hh & Hc & Hr) Hw. split; [done|].
  pose proof (writeline_ok _ _ _ Hw) as (w & -> & _ & _).
  unfold at_send_command_full_nolock, send_begin. rewrite Hr, Hw. cbn [mbind outcome_bind].
  change (0 <? 0) with false. cbn match. cbn [mbind outcome_bind].
  unfold wait_loop. cbn. rewrite Hc. change (0 =? 0) with true. cbn. rewrite andb_false_r.
  by destruct ws.
Qed.

Lemma concurrent_command_crashes_witness :
  send_begin (s2b "ATE0Q0V1") NO_RESULT None None
    (set_command SINGLELINE (Some (s2b "+CSQ:")) None (Some at_response_new)
       (set_io [] [EvWrite (s2b "AT+CSQ" ++ [13])] (idle_state []))) =
    Ret (AT_ERROR_COMMAND_PENDING, clearPendingCommand
      (set_command SINGLELINE (Some (s2b "+CSQ:")) None (Some at_response_new)
         (set_io [] [EvWrite (s2b "AT+CSQ" ++ [13])] (idle_state [])))) /\
  at_send_command_full_nolock Altair (s2b "AT+CSQ") SINGLELINE (Some (s2b "+CSQ:")) None 0 true
    [([AOther (s2b "ATE0Q0V1")], false)] (idle_state [Wrote 6; Wrote 1]) = Ub.
Proof.
  apply (concurrent_command_crashes Altair (s2b "AT+CSQ") (s2b "ATE0Q0V1") SINGLELINE
    (Some (s2b "+CSQ:")) None 0 true [] (idle_state [Wrote 6; Wrote 1])
    (set_io [] [EvWrite (s2b "AT+CSQ" ++ [13])] (idle_state []))); [done|reflexivity].
Defined.

(** The handshake.  It sends [ATE0Q0V1] again after each try that times
    out, at most eight times.  When a try is answered it returns 0 after the
    pause that lets stale answers drain, and when none is it returns
    [AT_ERROR_TIMEOUT] without a pause; the lines of every try are handed to the
    unsolicited handler and no command stays pending. *)
Theorem handshake_outcome (v : variant) (tries : list (list bytes)) (ls : list bytes) (f : bytes)
  (st : at_state) :
  ready HANDSHAKE_RETRY_COUNT st -> Forall (Forall (fun l => isFinalResponse l = false)) tries ->
  Forall (fun l => isFinalResponse l = false) ls -> isFinalResponse f = true ->
  ((length tries < HANDSHAKE_RETRY_COUNT)%nat ->
    exists st', at_handshake v false (map timed_out_try tries ++ [[(map ALine (ls ++ [f]), false)]]) st =
      Ret (0, st') /\ sp_response st' = None /\
      evs st' = evs st ++ concat (map try_events tries) ++ try_events ls ++
        [EvSignal; EvSleep (HANDSHAKE_TIMEOUT_MSEC v)]) /\
  (length tries = HANDSHAKE_RETRY_COUNT ->
    exists st', at_handshake v false (map timed_out_try tries) st = Ret (AT_ERROR_TIMEOUT, st') /\
      sp_response st' = None /\ evs st' = evs st ++ concat (map try_events tries)).
Proof.
  intros Hrd Ht Hls Hf. unfold at_handshake. split; intros Hn.
  - assert (exists n, HANDSHAKE_RETRY_COUNT = (length tries + S n)%nat) as [n En]
      by (exists (HANDSHAKE_RETRY_COUNT - length tries - 1)%nat; unfold HANDSHAKE_RETRY_COUNT in *; lia).
    rewrite En in Hrd |- *.
    destruct (handshake_tries v tries (S n) [[(map ALine (ls ++ [f]), false)]] 0 st Hrd Ht)
      as (st1 & Hrd1 & He & ->).
    destruct (try_answered v (HANDSHAKE_TIMEOUT_MSEC v) n ls f st1 Hrd1 Hls Hf) as (st2 & Hs & Hrd2 & He2).
    cbn [handshake_loop]. unfold handshake_command in Hs. rewrite Hs. cbn [mbind outcome_bind].
    change (0 =? 0) with true. cbn match.
    eexists. split; [reflexivity|]. split; [apply Hrd2|].
    cbn. rewrite He2, He. by rewrite <- !app_assoc.
  - pose proof (handshake_tries v tries 0 [] 0 st) as H. rewrite Nat.add_0_r, Hn, app_nil_r in H.
    destruct (H Hrd Ht) as (st1 & Hrd1 & He & ->). cbn [handshake_loop mbind outcome_bind].
    replace (match tries with [] => 0 | _ => AT_ERROR_TIMEOUT end) with AT_ERROR_TIMEOUT
      by by destruct tries.
    change (AT_ERROR_TIMEOUT =? 0) with false. cbn match.
    exists st1. split; [done|]. split; [apply Hrd1|done].
Qed.

(** Two tries lost, the third answered; then eight tries lost. *)
Lemma handshake_outcome_witness :
  let st := idle_state (concat (repeat [Wrote 8; Wrote 1] 8)) in
  (exists st', at_handshake Altair false
      (map timed_out_try [[]; [s2b "RING"]] ++ [[(map ALine ([] ++ [s2b "OK"]), false)]]) st =
      Ret (0, st') /\ sp_response st' = None /\
      evs st' = evs st ++ concat (map try_events [[]; [s2b "RING"]]) ++ try_events [] ++
        [EvSignal; EvSleep 500]) /\
  (exists st', at_handshake Altair false (map timed_out_try (repeat [] 8)) st =
      Ret (AT_ERROR_TIMEOUT, st') /\ sp_response st' = None /\
      evs st' = evs st ++ concat (map try_events (repeat [] 8))).
Proof.
  intros st. split.
  - eapply (handshake_outcome Altair [[]; [s2b "RING"]] [] (s2b "OK") st);
      [by repeat split|by repeat constructor|constructor|reflexivity|cbn; unfold HANDSHAKE_RETRY_COUNT; lia].
  - eapply (handshake_outcome Altair (repeat [] 8) [] (s2b "OK") st);
      [by repeat split|by repeat constructor|constructor|reflexivity|reflexivity].
Defined.

(** The error code of a failed command.  A response that did not succeed
    and ends in [+CME ERROR: n] gives the number printed, blanks before it
    skipped; a successful one gives [CME_SUCCESS] whatever it holds, and a
    failure with any other final line gives [CME_ERROR_NON_CME]. *)
Theorem cme_error_code (ws line : bytes) (n ok : Z) (ints : list bytes) :
  Forall (fun c => c_isspace c = true) ws -> int_ok n -> ok <= 0 ->
  at_get_cme_error (mk_at_response ok (Some (s2b "+CME ERROR:" ++ ws ++ print_int n)) ints) = n /\
  at_get_cme_error (mk_at_response 1 (Some (s2b "+CME ERROR:" ++ ws ++ print_int n)) ints) = CME_SUCCESS /\
  (strStartsWith line (s2b "+CME ERROR:") = false ->
   at_get_cme_error (mk_at_response ok (Some line) ints) = CME_ERROR_NON_CME).
Proof.
  intros Hw Hn Hok. unfold at_get_cme_error. cbn [success finalResponse].
  replace (0 <? ok) with false by lia. split; [|split; [done|by intros ->]].
  replace (strStartsWith _ _) with true by (by destruct (ws ++ print_int n)). cbn [negb].
  assert (at_tok_start (Some (s2b "+CME ERROR:" ++ ws ++ print_int n)) = (0, Some (ws ++ print_int n)))
    as -> by reflexivity.
  change (0 <? 0) with false. cbn match.
  rewrite (at_tok_nextint_token _ n None);
    [done|done|done|by rewrite nextTok_plain_end by auto using print_int_plain].
Qed.

Lemma cme_error_code_witness :
  at_get_cme_error (mk_at_response 0 (Some (s2b "+CME ERROR:" ++ [32] ++ print_int 16)) []) = 16 /\
  at_get_cme_error (mk_at_response 1 (Some (s2b "+CME ERROR:" ++ [32] ++ print_int 16)) []) = CME_SUCCESS /\
  (strStartsWith (s2b "ERROR") (s2b "+CME ERROR:") = false ->
   at_get_cme_error (mk_at_response 0 (Some (s2b "ERROR")) []) = CME_ERROR_NON_CME).
Proof.
  apply (cme_error_code [32] (s2b "ERROR") 16 0 []);
    [by repeat constructor|unfold int_ok, INT_MIN, INT_MAX; lia|lia].
Defined.
