(* ===== verification/AtThreads.v ===== *)
(** * Threads on the AT channel: the mutexes of [atchannel.c]

    [AtChannel] gives a command as one function of what the other threads do
    while it waits.  Here every thread takes its steps: a command begins, waits
    with [s_commandmutex] released, wakes up; the reader thread handles lines and
    other threads close the channel in between.  In the Altair copy a command
    also holds [s_at_cmd_g_mutex] from its beginning to its end, in the reference
    copy it does not.

    [at_handshake] takes [s_commandmutex] only and is not one of the steps. *)

From stdpp Require Import gmap.
From S2P Require Import Prelude CString AtTok Misc AtChannel.

(** ** State *)

(** The arguments of a call to [at_send_command_full]. *)
Record command_args := mk_args {
  command : bytes;
  ctype : ATCommandType;
  responsePrefix : option bytes;
  smspdu : option bytes;
  timeoutMsec : Z;
  want : bool }.

(** [waiters] are the threads inside [pthread_cond_wait], [results] what the calls
    have returned, in the order in which they did. *)
Record at_threads := mk_threads {
  chan : at_state;
  g_mutex : option nat;
  waiters : gmap nat command_args;
  results : list (nat * (Z * option ATResponse)) }.

Definition set_chan v s := mk_threads v (g_mutex s) (waiters s) (results s).

Section threads.
Context (v : variant).

Definition timed (c : command_args) : bool := negb (timeoutMsec c =? 0).

Definition begin_of (c : command_args) : at_state -> outcome (Z * at_state) :=
  send_begin (command c) (ctype c) (responsePrefix c) (smspdu c).

(** A call returns: the mutexes are free again, then the timeout callback runs. *)
Definition call_returns (t : nat) (r : Z * option ATResponse) (st : at_state) (s : at_threads) : at_threads :=
  mk_threads (if (fst r =? AT_ERROR_TIMEOUT) && s_onTimeout st then emit EvTimeoutCallback st else st)
    None (delete t (waiters s)) (results s ++ [(t, r)]).

(** The call up to its wait. *)
Definition thread_begin (t : nat) (c : command_args) (s : at_threads) : outcome at_threads :=
  '(err, st) ← begin_of c (chan s);
  if err <? 0 then Ret (call_returns t (err, None) st s)
  else Ret (mk_threads st (match v with Altair => Some t | Reference => None end) (<[t := c]> (waiters s)) (results s)).

(** [pthread_cond_wait] or [pthread_cond_timedwait] returns, the condition of the
    loop is looked at again, and the call goes on to its end or waits again. *)
Definition thread_wake (t : nat) (c : command_args) (timed_out : bool) (s : at_threads) : outcome at_threads :=
  if timed c && timed_out
  then Ret (call_returns t (AT_ERROR_TIMEOUT, None) (clearPendingCommand (chan s)) s)
  else
    match sp_response (chan s) with
    | None => Ub
    | Some r =>
      match finalResponse r, s_readerClosed (chan s) =? 0 with
      | None, true => Ret s
      | _, _ => '(err, out, st) ← send_finish (want c) (chan s); Ret (call_returns t (err, out) st s)
      end
    end.

(** The reader thread, or a thread that closes the channel. *)
Definition other_thread (a : action) (s : at_threads) : outcome at_threads :=
  st ← run_action v a (chan s); Ret (set_chan st s).

Inductive thread_step (s : at_threads) : outcome at_threads -> Prop :=
| ts_begin t c :
    waiters s !! t = None -> prefix_ok (ctype c) (responsePrefix c) -> (v = Altair -> g_mutex s = None) ->
    thread_step s (thread_begin t c s)
| ts_wake t c timed_out :
    waiters s !! t = Some c -> thread_step s (thread_wake t c timed_out s)
| ts_other a :
    no_other_command a -> thread_step s (other_thread a s).

Inductive thread_steps : at_threads -> at_threads -> Prop :=
| ts_refl s : thread_steps s s
| ts_next s s1 s2 : thread_steps s s1 -> thread_step s1 (Ret s2) -> thread_steps s s2.
End threads.

(** ** Specification: one command after another *)

Definition full_of (c : command_args) (ws : list wait) (st : at_state) : outcome (Z * option ATResponse * at_state) :=
  at_send_command_full Altair false (command c) (ctype c) (responsePrefix c) (smspdu c) (timeoutMsec c) (want c) ws st.

(** From [st0], calls that return these results one after another, each run as
    one function, with what the other threads do in between. *)
Inductive sequential (st0 : at_state) : list (nat * (Z * option ATResponse)) -> at_state -> Prop :=
| seq_none : sequential st0 [] st0
| seq_other l st a st' :
    sequential st0 l st -> no_other_command a -> run_action Altair a st = Ret st' -> sequential st0 l st'
| seq_call l st t c ws err out st' :
    sequential st0 l st -> Forall (fun w => Forall no_other_command (fst w)) ws ->
    full_of c ws st = Ret (err, out, st') -> sequential st0 (l ++ [(t, (err, out))]) st'.

(** ** Lemmas: what the other threads change *)

Lemma handleUnsolicited_frame line st :
  s_readerClosed (handleUnsolicited line st) = s_readerClosed st /\
  sp_response (handleUnsolicited line st) = sp_response st.
Proof. unfold handleUnsolicited. by destruct (s_unsolHandler st). Qed.

Lemma write_closed last s st e st' :
  write_terminated last s st = Ret (e, st') -> s_readerClosed st' = s_readerClosed st.
Proof. intros (w & d & -> & _)%write_terminated_frame. done. Qed.

Lemma addIntermediate_closed line st st' : addIntermediate line st = Ret st' -> s_readerClosed st' = s_readerClosed st.
Proof. unfold addIntermediate. destruct (sp_response st); [|done]. by intros [= <-]. Qed.

Lemma switch_closed v line r st st' :
  processLine_switch v line r st = Ret st' -> s_readerClosed st' = s_readerClosed st.
Proof.
  pose proof (addIntermediate_closed line st st') as Ha. destruct (handleUnsolicited_frame line st) as [Hu _].
  assert (Ret (handleUnsolicited line st) = Ret st' -> s_readerClosed st' = s_readerClosed st) as Hu'
    by (by intros [= <-]).
  unfold processLine_switch, multiline_other, has_prefix.
  destruct (s_responsePrefix st) as [p|]; cbn [checked mbind outcome_bind]; repeat case_match; done || auto.
Qed.

Lemma processLine_closed v line st st' :
  processLine v line st = Ret st' -> s_readerClosed st' = s_readerClosed st.
Proof.
  destruct (handleUnsolicited_frame line st) as [Hu _]. unfold processLine, set_success, handleFinalResponse.
  destruct (sp_response st) as [r|] eqn:Er; [|by intros [= <-]].
  case_match; [by intros [= <-]|]. case_match; [by intros [= <-]|].
  pose proof (switch_closed v line r st st').
  destruct (s_smsPDU st) as [pdu|]; [|done]. case_match; [|done].
  destruct (writeCtrlZ pdu st) as [[e st1]| | |] eqn:Ew; try done. intros [= <-]. cbn. by eapply write_closed.
Qed.

Lemma run_action_closed v a st st' :
  no_other_command a -> 0 <= s_readerClosed st -> run_action v a st = Ret st' -> 0 <= s_readerClosed st'.
Proof.
  intros Ha Hc. destruct a as [line| | |c]; cbn [run_action]; [| | |done].
  - intros ->%processLine_closed. done.
  - intros [= <-]. unfold onReaderClosed. by case_match.
  - intros [= <-]. done.
Qed.

Lemma run_action_none v a st st' :
  no_other_command a -> sp_response st = None -> run_action v a st = Ret st' -> sp_response st' = None.
Proof.
  intros Ha Hr. destruct a as [line| | |c]; cbn [run_action]; [| | |done].
  - rewrite processLine_no_command by done. intros [= <-]. by rewrite (proj2 (handleUnsolicited_frame line st)).
  - intros [= <-]. unfold onReaderClosed. by case_match.
  - intros [= <-]. unfold at_close. cbn. by case_match.
Qed.

(** What the beginning of a command can give on a channel without a command. *)
Lemma begin_cases c st err st' :
  sp_response st = None -> 0 <= s_readerClosed st -> begin_of c st = Ret (err, st') ->
  err < 0 /\ err <> AT_ERROR_COMMAND_PENDING /\ sp_response st' = None /\ s_readerClosed st' = s_readerClosed st \/
  err = 0 /\ sp_response st' = Some at_response_new /\ s_readerClosed st' = 0 /\
    s_type st' = ctype c /\ s_responsePrefix st' = responsePrefix c.
Proof.
  intros Hr Hc. unfold begin_of, send_begin. rewrite Hr. unfold writeline.
  destruct (write_terminated 13 (command c) st) as [[e st1]| | |] eqn:Ew; try done. cbn [mbind outcome_bind].
  pose proof (write_closed _ _ _ _ _ Ew) as Hcl. unfold write_terminated in Ew.
  destruct (Z.ltb_spec e 0); intros [= <- <-]; [left|right].
  - split_and!; try done. destruct ((s_fd st <? 0) || (0 <? s_readerClosed st)); [by injection Ew as <- <-|].
    destruct (write_all _ _ _) as [[[f w] d]| | |]; try done. cbn [mbind outcome_bind] in Ew.
    destruct f; [by injection Ew as <- <-|]. destruct (write_one _ _) as [[[f w2] d2]| | |]; try done.
    cbn [mbind outcome_bind] in Ew. destruct f; by injection Ew as <- <-.
  - split_and!; try done. cbn. rewrite Hcl.
    destruct ((s_fd st <? 0) || (0 <? s_readerClosed st)) eqn:E; [by injection Ew as <- <-|]. zbool. lia.
Qed.

(** ** Lemmas: the invariant of the Altair copy *)

Section altair.
Context (st0 : at_state).

(** A command [c] waits that began in [st] and has slept through [ws], and in the
    current sleep through [acts]: how its loop goes on depends on the channel as
    it is now. *)
Definition waits_since (c : command_args) (st now : at_state) : Prop :=
  exists st_b ws acts,
    begin_of c st = Ret (0, st_b) /\
    Forall (fun w => Forall no_other_command (fst w)) ws /\ Forall no_other_command acts /\
    forall acts' timed_out ws',
      wait_loop Altair (timed c) (ws ++ (acts ++ acts', timed_out) :: ws') st_b =
      (st ← run_actions Altair acts' now;
       if timed c && timed_out then Ret (AT_ERROR_TIMEOUT, st) else wait_loop Altair (timed c) ws' st).

Definition not_pending (x : nat * (Z * option ATResponse)) : Prop := fst (snd x) <> AT_ERROR_COMMAND_PENDING.

(** With the mutex free nothing is pending, and the calls so far came one after
    another; with the mutex held its owner alone waits. *)
Definition serial (s : at_threads) : Prop :=
  0 <= s_readerClosed (chan s) /\ Forall not_pending (results s) /\
  match g_mutex s with
  | None => waiters s = ∅ /\ sp_response (chan s) = None /\ sequential st0 (results s) (chan s)
  | Some t => exists c st,
      waiters s = {[t := c]} /\ awaiting (chan s) /\ sequential st0 (results s) st /\ waits_since c st (chan s)
  end.

Lemma waits_since_begin c st st_b :
  begin_of c st = Ret (0, st_b) -> sp_response st_b = Some at_response_new -> s_readerClosed st_b = 0 ->
  waits_since c st st_b.
Proof.
  intros Hb Hr Hc. exists st_b, [], []. split_and!; [done|constructor|constructor|].
  intros acts' to ws'. cbn [app wait_loop]. by rewrite Hr, Hc.
Qed.

Lemma waits_since_action c st now a now' :
  no_other_command a -> run_action Altair a now = Ret now' -> waits_since c st now -> waits_since c st now'.
Proof.
  intros Ha Hr (st_b & ws & acts & Hb & Hws & Hacts & Hl). exists st_b, ws, (acts ++ [a]).
  split_and!; [done|done|by apply Forall_app_2; [|constructor]|].
  intros acts' to ws'. rewrite <- app_assoc, Hl. cbn [app run_actions]. by rewrite Hr.
Qed.

(** The waiting command's whole call, when its sleep ends now. *)
Lemma full_of_waits c st now r timed_out :
  waits_since c st now -> sp_response now = Some r ->
  timed c && timed_out = true \/
    match finalResponse r, s_readerClosed now =? 0 with None, true => False | _, _ => True end ->
  exists ws : list wait, Forall (fun w => Forall no_other_command (fst w)) ws /\
    full_of c ws st =
      ('(err, out, st) ← (if timed c && timed_out then Ret (AT_ERROR_TIMEOUT, None, clearPendingCommand now)
                          else send_finish (want c) now);
      Ret (err, out, if (err =? AT_ERROR_TIMEOUT) && s_onTimeout st then emit EvTimeoutCallback st else st)).
Proof.
  intros (st_b & ws & acts & Hb & Hws & Hacts & Hl) Hr Hend.
  exists (ws ++ [(acts, timed_out)]). split; [apply Forall_app_2; [done|by repeat constructor]|].
  specialize (Hl [] timed_out []). rewrite app_nil_r in Hl. cbn [run_actions mbind outcome_bind wait_loop] in Hl.
  unfold full_of, at_send_command_full, at_send_command_full_nolock. unfold begin_of in Hb. rewrite Hb.
  cbn [mbind outcome_bind]. change (0 <? 0) with false. cbn match. fold (timed c). rewrite Hl, Hr.
  destruct (timed c && timed_out); [done|].
  destruct Hend as [?|Hend]; [done|]. by destruct (finalResponse r), (s_readerClosed now =? 0).
Qed.

Lemma emit_fields e st :
  sp_response (emit e st) = sp_response st /\ s_readerClosed (emit e st) = s_readerClosed st.
Proof. done. Qed.

(** A call returns on a channel with nothing pending: the calls are still serial. *)
Lemma serial_returns s t st err out st' ws c :
  Forall not_pending (results s) -> delete t (waiters s) = ∅ ->
  sequential st0 (results s) st -> Forall (fun w => Forall no_other_command (fst w)) ws ->
  full_of c ws st = Ret (err, out, if (err =? AT_ERROR_TIMEOUT) && s_onTimeout st' then emit EvTimeoutCallback st' else st') ->
  err <> AT_ERROR_COMMAND_PENDING -> sp_response st' = None -> 0 <= s_readerClosed st' ->
  serial (call_returns t (err, out) st' s).
Proof.
  intros Hp Hd Hs Hws Hf Hne Hr Hc. unfold serial, call_returns. cbn [chan g_mutex waiters results fst].
  destruct (emit_fields EvTimeoutCallback st') as [He1 He2]. split_and!.
  - case_match; by rewrite ?He2.
  - apply Forall_app_2; [done|]. by constructor.
  - done.
  - case_match; by rewrite ?He1.
  - by eapply seq_call.
Qed.

(** The loop's condition holds: what [send_finish] hands out. *)
Lemma send_finish_eq w st r :
  sp_response st = Some r ->
  exists err out st', send_finish w st = Ret (err, out, st') /\ err <> AT_ERROR_COMMAND_PENDING /\
    sp_response st' = None /\ s_readerClosed st' = s_readerClosed st.
Proof.
  intros Hr. unfold send_finish. rewrite Hr. destruct w; cbn; (eexists _, _, _; split; [reflexivity|]);
    (split; [by case_match|done]).
Qed.

Lemma serial_wake s t c timed_out s' :
  serial s -> waiters s !! t = Some c -> thread_wake t c timed_out s = Ret s' -> serial s'.
Proof.
  intros (Hc & Hp & Hg) Hw. destruct (g_mutex s) as [t'|] eqn:Eg; cycle 1.
  { destruct Hg as (Hw0 & _). rewrite Hw0 in Hw. by apply lookup_empty_Some in Hw. }
  destruct Hg as (c' & st & Hw1 & [[r Hr] Hok] & Hseq & Hws). rewrite Hw1 in Hw.
  apply lookup_singleton_Some in Hw as [-> ->].
  assert (delete t (waiters s) = ∅) as Hd by (rewrite Hw1; apply delete_singleton_eq).
  pose proof (full_of_waits c st (chan s) r timed_out Hws Hr) as Hfull.
  unfold thread_wake. destruct (timed c && timed_out) eqn:Et; [intros [= <-]|rewrite Hr].
  - destruct Hfull as (ws & Hn & Hf); [by left|]. by eapply serial_returns.
  - destruct (send_finish_eq (want c) (chan s) r Hr) as (err & out & st' & Hfin & Hne & Hr' & Hc'). rewrite Hfin in *.
    destruct (match finalResponse r, s_readerClosed (chan s) =? 0 with None, true => true | _, _ => false end) eqn:Ec.
    + assert (serial s) by (split_and!; [done|done|rewrite Eg; exists c, st; by split_and!; [|split; [eexists|]| |]]).
      destruct (finalResponse r), (s_readerClosed (chan s) =? 0); try done. by intros [= <-].
    + destruct Hfull as (ws & Hn & Hf); [right; by destruct (finalResponse r), (s_readerClosed (chan s) =? 0)|].
      cbn [mbind outcome_bind] in Hf.
      assert (serial (call_returns t (err, out) st' s)) by (eapply serial_returns; eauto; by rewrite Hc').
      destruct (finalResponse r), (s_readerClosed (chan s) =? 0); try done; by intros [= <-].
Qed.

Lemma serial_begin s t c s' :
  serial s -> g_mutex s = None -> prefix_ok (ctype c) (responsePrefix c) ->
  thread_begin Altair t c s = Ret s' -> serial s'.
Proof.
  intros (Hc & Hp & Hg) Hm Hok. rewrite Hm in Hg. destruct Hg as (Hw & Hr & Hseq). unfold thread_begin.
  destruct (begin_of c (chan s)) as [[err st]| | |] eqn:Eb; try done. cbn [mbind outcome_bind].
  destruct (begin_cases c (chan s) err st Hr Hc Eb) as [(Hlt & Hne & Hr' & Hc')|(-> & Hr' & Hc' & Ht & Hpr)].
  - rewrite (proj2 (Z.ltb_lt err 0)) by done. intros [= <-].
    apply (serial_returns s t (chan s) err None st [] c); try done.
    + by rewrite Hw, delete_empty.
    + unfold full_of, at_send_command_full, at_send_command_full_nolock. unfold begin_of in Eb. rewrite Eb.
      cbn [mbind outcome_bind]. by rewrite (proj2 (Z.ltb_lt err 0)) by done.
    + by rewrite Hc'.
  - change (0 <? 0) with false. cbn match. intros [= <-]. unfold serial. cbn [chan g_mutex waiters results].
    split_and!; [by rewrite Hc'|done|]. exists c, (chan s). rewrite Hw.
    split_and!; [done| |done|by apply waits_since_begin]. split; [by eexists|]. by rewrite Ht, Hpr.
Qed.

Lemma serial_other s a s' :
  serial s -> no_other_command a -> other_thread Altair a s = Ret s' -> serial s'.
Proof.
  intros (Hc & Hp & Hg) Ha. unfold other_thread.
  destruct (run_action Altair a (chan s)) as [st| | |] eqn:Er; try done. intros [= <-].
  pose proof (run_action_closed _ _ _ _ Ha Hc Er) as Hc'. unfold serial, set_chan. cbn [chan g_mutex waiters results].
  split_and!; [done|done|]. destruct (g_mutex s) as [t|].
  - destruct Hg as (c & st1 & Hw & Haw & Hseq & Hws). exists c, st1. split_and!; [done| |done|by eapply waits_since_action].
    pose proof (run_actions_safe Altair [a] (chan s)) as Hs. cbn [run_actions] in Hs. rewrite Er in Hs.
    apply Hs; [by constructor|done].
  - destruct Hg as (Hw & Hr & Hseq). split_and!; [done|by eapply run_action_none|by eapply seq_other].
Qed.

Lemma serial_step s s' : serial s -> thread_step Altair s (Ret s') -> serial s'.
Proof.
  intros Hs Hst. inversion Hst as [t c Hw Hok Hg E|t c to Hw E|a Ha E].
  - by eapply serial_begin; [|apply Hg| |].
  - by eapply serial_wake.
  - by eapply serial_other.
Qed.

Lemma serial_steps s s' : thread_steps Altair s s' -> serial s -> serial s'.
Proof. induction 1 as [|s s1 s2 _ IH Hs]; [done|]. intros H0. eapply serial_step; [|done]. auto. Qed.

(** No step fails. *)
Lemma serial_safe s o : serial s -> thread_step Altair s o -> safely (fun _ => True) o.
Proof.
  intros (Hc & Hp & Hg) Hst. destruct Hst as [t c Hw Hok Hm|t c to Hw|a Ha].
  - unfold thread_begin, begin_of, send_begin. specialize (Hm eq_refl). rewrite Hm in Hg.
    destruct Hg as (_ & -> & _). eapply safely_bind with (P := fun _ => True); [|intros [e st1] _; by case_match].
    eapply safely_bind; [apply write_terminated_safe|]. intros [e st1] _. by case_match.
  - destruct (g_mutex s) as [t'|]; [|by destruct Hg as (Hw0 & _); rewrite Hw0 in Hw; apply lookup_empty_Some in Hw].
    destruct Hg as (c' & st & Hw1 & [[r Hr] _] & _). unfold thread_wake. rewrite Hr.
    destruct (send_finish_eq (want c) (chan s) r Hr) as (err & out & st' & -> & _). by repeat case_match.
  - unfold other_thread. eapply safely_bind with (P := fun _ => True); [|done].
    destruct (g_mutex s) as [t|].
    + destruct Hg as (c & st & _ & Haw & _). pose proof (run_actions_safe Altair [a] (chan s)) as Hs.
      cbn [run_actions] in Hs. specialize (Hs ltac:(by constructor) Haw).
      by destruct (run_action Altair a (chan s)).
    + destruct Hg as (_ & Hr & _). destruct a; cbn [run_action]; [by rewrite processLine_no_command|done..].
Qed.
End altair.

(** ** Properties *)

(** C7: commands from many threads, in the Altair copy.  However any number of
    threads begin commands, sleep, time out and wake up while lines arrive and
    the channel is closed, no step makes an invalid access, one command waits at
    a time and none is refused as pending; and whenever no command waits, the
    results and the channel are those of the calls run one after another, each
    as the one function [at_send_command_full]. *)
Theorem altair_commands_serialised (st0 : at_state) (s : at_threads) :
  sp_response st0 = None -> 0 <= s_readerClosed st0 ->
  thread_steps Altair (mk_threads st0 None ∅ []) s ->
  (forall o, thread_step Altair s o -> safely (fun _ => True) o) /\
  (forall t1 t2 c1 c2, waiters s !! t1 = Some c1 -> waiters s !! t2 = Some c2 -> t1 = t2) /\
  Forall (fun x => fst (snd x) <> AT_ERROR_COMMAND_PENDING) (results s) /\
  (waiters s = ∅ -> sequential st0 (results s) (chan s)).
Proof.
  intros Hr Hc Hs. assert (serial st0 s) as Hinv.
  { apply (serial_steps st0 _ _ Hs). split_and!; [done|constructor|]. split_and!; [done|done|constructor]. }
  split; [intros o; by apply (serial_safe st0)|]. destruct Hinv as (_ & Hp & Hg). split; [|split; [done|]].
  - intros t1 t2 c1 c2 H1 H2. destruct (g_mutex s).
    + destruct Hg as (c & st & Hw & _). rewrite Hw in H1, H2.
      apply lookup_singleton_Some in H1 as [-> _]. by apply lookup_singleton_Some in H2 as [-> _].
    + destruct Hg as (Hw & _). rewrite Hw in H1. by apply lookup_empty_Some in H1.
  - intros Hw. destruct (g_mutex s); [|by destruct Hg as (_ & _ & ?)].
    destruct Hg as (c & st & Hw1 & _). rewrite Hw in Hw1. symmetry in Hw1. by apply map_non_empty_singleton in Hw1.
Qed.

(** ** Witnesses: two threads, one after the other *)

Definition example_args : command_args := mk_args (s2b "AT") NO_RESULT None None 0 true.
Definition example_idle : at_state := idle_state [Wrote 2; Wrote 1; Wrote 2; Wrote 1].

Definition get (d : at_threads) (o : outcome at_threads) : at_threads := match o with Ret s => s | _ => d end.

Definition example_start : at_threads := mk_threads example_idle None ∅ [].
Definition first_waits : at_threads := get example_start (thread_begin Altair 1 example_args example_start).
Definition first_answered : at_threads := get example_start (other_thread Altair (ALine (s2b "OK")) first_waits).
Definition first_done : at_threads := get example_start (thread_wake 1 example_args false first_answered).

Lemma thread_step_to v s s' o : thread_step v s o -> o = Ret s' -> thread_step v s (Ret s').
Proof. by intros Hs <-. Qed.

Lemma first_done_steps : thread_steps Altair example_start first_done.
Proof.
  eapply ts_next; [eapply ts_next; [eapply ts_next; [apply ts_refl|]|]|].
  - eapply thread_step_to; [by apply (ts_begin Altair example_start 1 example_args)|vm_compute; reflexivity].
  - eapply thread_step_to; [by apply (ts_other Altair first_waits (ALine (s2b "OK")))|vm_compute; reflexivity].
  - eapply thread_step_to; [by apply (ts_wake Altair first_answered 1 example_args false)|vm_compute; reflexivity].
Qed.

Lemma altair_commands_serialised_witness :
  results first_done = [(1%nat, (0, Some (mk_at_response 1 (Some (s2b "OK")) [])))] /\
  sequential example_idle (results first_done) (chan first_done) /\
  safely (fun _ => True) (thread_begin Altair 2 example_args first_done).
Proof.
  destruct (altair_commands_serialised example_idle first_done eq_refl ltac:(done) first_done_steps)
    as (Hsafe & _ & _ & Hseq).
  split; [vm_compute; reflexivity|]. split; [by apply Hseq|]. apply Hsafe. by apply ts_begin.
Defined.

(** In the reference copy the second thread takes the first one's command away. *)
Definition reference_start : at_threads := get example_start (thread_begin Reference 1 example_args example_start).
Definition reference_second : at_threads := get example_start (thread_begin Reference 2 example_args reference_start).

Lemma reference_threads_crash :
  thread_steps Reference example_start reference_second /\ thread_wake 1 example_args false reference_second = Ub.
Proof.
  split; [|vm_compute; reflexivity]. eapply ts_next; [eapply ts_next; [apply ts_refl|]|].
  - eapply thread_step_to; [by apply (ts_begin Reference example_start 1 example_args)|vm_compute; reflexivity].
  - eapply thread_step_to; [by apply (ts_begin Reference reference_start 2 example_args)|vm_compute; reflexivity].
Qed.
