(* ===== verification/AtReader.v ===== *)
(** * Reader thread: [readline] and [readerLoop] of [atchannel.c]

    The line buffer as the array it is, with the offset [s_ATBufferCur] kept
    between calls; [read] answers from a script.  The two copies of the file
    share this code. *)

From S2P Require Import Prelude CString AtTok Misc AtChannel.

(** ** Data *)

Definition MAX_AT_RESPONSE : nat := 8 * 1024.

(** [s_ATBuffer] and the offset of [s_ATBufferCur] in it. *)
Record line_buffer := mk_lb { s_ATBuffer : bytes; s_ATBufferCur : nat }.

Definition line_buffer_init : line_buffer := mk_lb (replicate (S MAX_AT_RESPONSE) 0) 0.

(** The answers of [read]: data that arrives together (a part that does not
    fit the room given stays for the next call), or no data. *)
Inductive read_answer := ReadData (d : bytes) | ReadEintr | ReadEof | ReadError.

(** ** Operations *)

Definition is_newline (c : Z) : bool := (c =? 13) || (c =? 10).

(** [count = read(s_fd, p_read, room)], again on [EINTR]: [Some d] when
    [count > 0]; [None] when there is no answer left. *)
Fixpoint read_fd (room : nat) (script : list read_answer)
  : option (option bytes * list read_answer) :=
  match script with
  | [] => None
  | ReadEintr :: script => read_fd room script
  | ReadEof :: script | ReadError :: script => Some (None, script)
  | ReadData d :: script =>
    match take room d with
    | [] => Some (None, script)
    | t => Some (Some t, match drop room d with [] => script | r => ReadData r :: script end)
    end
  end.

(** Storing at [buf + off]. *)
Definition put (buf : bytes) (off : nat) (d : bytes) : outcome bytes :=
  if (off + length d <=? length buf)%nat
  then Ret (take off buf ++ d ++ drop (off + length d) buf) else Ub.

(** [while ( *cur == '\r' || *cur == '\n') cur++], [s] being the array from
    [cur] on. *)
Fixpoint skip_leading (s : bytes) (cur : nat) : outcome nat :=
  match s with
  | [] => Ub
  | c :: s => if is_newline c then skip_leading s (S cur) else Ret cur
  end.

Fixpoint scan_eol (s : bytes) (cur : nat) : outcome (option nat) :=
  match s with
  | [] => Ub
  | c :: s =>
    if c =? 0 then Ret None else if is_newline c then Ret (Some cur) else scan_eol s (S cur)
  end.

Definition findNextEOL (buf : bytes) (cur : nat) : outcome (option nat) :=
  let s := drop cur buf in
  match s with
  | c0 :: c1 :: c2 :: _ =>
    if (c0 =? 62) && (c1 =? 32) && (c2 =? 0) then Ret (Some (cur + 2)%nat) else scan_eol s cur
  | _ => scan_eol s cur
  end.

Fixpoint strlen (s : bytes) : outcome nat :=
  match s with
  | [] => Ub
  | c :: s => if c =? 0 then Ret 0%nat else n ← strlen s; Ret (S n)
  end.

Definition script_size (script : list read_answer) : nat :=
  list_sum (map (fun a => match a with ReadData d => S (length d) | _ => 1%nat end) script).

(** The end of [readline]: a NUL over the end of line. *)
Definition readline_finish (buf : bytes) (cur eol : nat) (script : list read_answer)
  : outcome (option bytes * line_buffer * list read_answer) :=
  let ret := take (eol - cur) (drop cur buf) in
  buf ← put buf eol [0];
  Ret (Some ret, mk_lb buf (S eol), script).

(** [while (p_eol == NULL)] *)
Fixpoint readline_loop (fuel : nat) (buf : bytes) (cur p_read : nat) (script : list read_answer)
  : outcome (option bytes * line_buffer * list read_answer) :=
  match fuel with
  | O => NoFuel
  | S fuel =>
    '(buf, cur, p_read) ←
      (if (MAX_AT_RESPONSE - p_read =? 0)%nat
       then buf ← put buf 0 [0]; Ret (buf, 0%nat, 0%nat)
       else Ret (buf, cur, p_read));
    match read_fd (MAX_AT_RESPONSE - p_read) script with
    | None => NoFuel
    | Some (None, script) => Ret (None, mk_lb buf cur, script)
    | Some (Some d, script) =>
      buf ← put buf p_read d;
      buf ← put buf (p_read + length d) [0];
      cur ← skip_leading (drop cur buf) cur;
      p_eol ← findNextEOL buf cur;
      match p_eol with
      | Some eol => readline_finish buf cur eol script
      | None => readline_loop fuel buf cur (p_read + length d) script
      end
    end
  end.

(** The line and whether the call succeeded, the buffer and the answers left. *)
Definition readline (lb : line_buffer) (script : list read_answer)
  : outcome (option bytes * line_buffer * list read_answer) :=
  let buf := s_ATBuffer lb in
  let fuel := S (script_size script) in
  c ← checked (buf !! s_ATBufferCur lb);
  if c =? 0 then
    buf ← put buf 0 [0];
    readline_loop fuel buf 0 0 script
  else
    cur ← skip_leading (drop (s_ATBufferCur lb) buf) (s_ATBufferCur lb);
    p_eol ← findNextEOL buf cur;
    match p_eol with
    | Some eol => readline_finish buf cur eol script
    | None =>
      len ← strlen (drop cur buf);
      buf ← put buf 0 (take (S len) (drop cur buf));
      readline_loop fuel buf 0 len script
    end.

(** [readerLoop]: [fuel] bounds the rounds. *)
Fixpoint readerLoop (fuel : nat) (v : variant) (lb : line_buffer) (script : list read_answer)
  (st : at_state) : outcome at_state :=
  match fuel with
  | O => NoFuel
  | S fuel =>
    '(line, lb, script) ← readline lb script;
    match line with
    | None => Ret (onReaderClosed st)
    | Some line =>
      '(line2, lb, script) ←
        (if isSMSUnsolicited line then readline lb script else Ret (None, lb, script));
      '(again, st) ← reader_round v line line2 st;
      if (again : bool) then readerLoop fuel v lb script st else Ret st
    end
  end.

(** ** Specification: a stream of bytes as lines *)

Fixpoint skip_newlines (s : bytes) : bytes :=
  match s with
  | c :: r => if is_newline c then skip_newlines r else s
  | [] => []
  end.

(** What precedes the first newline and what follows it. *)
Fixpoint split_eol (s : bytes) : option (bytes * bytes) :=
  match s with
  | [] => None
  | c :: r =>
    if is_newline c then Some ([], r)
    else match split_eol r with Some (l, t) => Some (c :: l, t) | None => None end
  end.

Definition next_line (s : bytes) : option (bytes * bytes) := split_eol (skip_newlines s).

(** The newlines before a line, the line and its end fit the buffer. *)
Definition next_fits (s : bytes) : Prop :=
  match next_line s with
  | Some (_, rest) => (length s - length rest <= MAX_AT_RESPONSE)%nat
  | None => (length s < MAX_AT_RESPONSE)%nat
  end.

(** The bytes of the stream: no NUL, and no [>], with which a prompt starts. *)
Definition text_ok (s : bytes) : Prop := Forall (fun c => c <> 0 /\ c <> 62) s.

(** The bytes a script delivers. *)
Definition delivered (script : list read_answer) : bytes :=
  concat (map (fun a => match a with ReadData d => d | _ => [] end) script).

Definition no_end (a : read_answer) : Prop :=
  match a with ReadData d => d <> [] | ReadEintr => True | _ => False end.

(** [s] is what the buffer still holds. *)
Definition holds (lb : line_buffer) (s : bytes) : Prop :=
  length (s_ATBuffer lb) = S MAX_AT_RESPONSE /\
  exists junk, drop (s_ATBufferCur lb) (s_ATBuffer lb) = s ++ 0 :: junk.

(** Reading [n] lines. *)
Fixpoint read_lines (n : nat) (lb : line_buffer) (script : list read_answer)
  : outcome (list (option bytes) * line_buffer * list read_answer) :=
  match n with
  | O => Ret ([], lb, script)
  | S n =>
    '(l, lb, script) ← readline lb script;
    '(ls, lb, script) ← read_lines n lb script;
    Ret (l :: ls, lb, script)
  end.

(** The lines of a stream, and the bytes after the last one. *)
Inductive stream_lines : bytes -> list bytes -> bytes -> Prop :=
| lines_end s : stream_lines s [] s
| lines_cons s l rest ls tail :
    next_line s = Some (l, rest) -> next_fits s -> stream_lines rest ls tail ->
    stream_lines s (l :: ls) tail.

(** ** Lemmas: the stream *)

Lemma skip_newlines_length s : (length (skip_newlines s) <= length s)%nat.
Proof. induction s as [|c s IH]; cbn; [done|]. case_match; cbn; lia. Qed.

Lemma skip_newlines_suffix s : exists nl, s = nl ++ skip_newlines s /\ Forall (fun c => is_newline c = true) nl.
Proof.
  induction s as [|c s (nl & E & Hnl)]; cbn; [by exists []|].
  destruct (is_newline c) eqn:Hc; [|by exists []]. exists (c :: nl). split; [cbn; congruence|by constructor].
Qed.

Lemma skip_newlines_app a b :
  skip_newlines (a ++ b) = match skip_newlines a with [] => skip_newlines b | r => r ++ b end.
Proof. induction a as [|c a IH]; cbn; [done|]. by destruct (is_newline c). Qed.

Lemma split_eol_length s l r : split_eol s = Some (l, r) -> length s = (length l + 1 + length r)%nat.
Proof.
  revert l; induction s as [|c s IH]; intros l; cbn; [done|].
  case_match; [by intros [= <- <-]|]. destruct (split_eol s) as [[l' t]|]; [|done].
  intros [= <- <-]. cbn. specialize (IH l' eq_refl). lia.
Qed.

Lemma split_eol_app_some a b l r : split_eol a = Some (l, r) -> split_eol (a ++ b) = Some (l, r ++ b).
Proof.
  revert l; induction a as [|c a IH]; intros l; cbn; [done|].
  case_match; [by intros [= <- <-]|]. destruct (split_eol a) as [[l' t]|]; [|done].
  intros [= <- <-]. by rewrite (IH l').
Qed.

Lemma text_ok_app a b : text_ok (a ++ b) <-> text_ok a /\ text_ok b.
Proof. apply Forall_app. Qed.

Lemma text_ok_skip s : text_ok s -> text_ok (skip_newlines s).
Proof.
  intros H. destruct (skip_newlines_suffix s) as (nl & E & _). rewrite E in H.
  apply text_ok_app in H as [_ H]. exact H.
Qed.

Lemma text_ok_split s l r : text_ok s -> split_eol s = Some (l, r) -> text_ok r.
Proof.
  revert l; induction s as [|c s IH]; intros l Hs; cbn; [done|]. apply Forall_cons in Hs as [_ Hs].
  case_match; [by intros [= <- <-]|]. destruct (split_eol s) as [[l' t]|]; [|done].
  intros [= <- <-]. eauto.
Qed.

Lemma next_line_text s l r : text_ok s -> next_line s = Some (l, r) -> text_ok r.
Proof. intros H E. eapply text_ok_split; [by apply text_ok_skip|exact E]. Qed.

(** ** Lemmas: the loops over the buffer *)

Lemma skip_leading_text s junk cur :
  text_ok s -> skip_leading (s ++ 0 :: junk) cur = Ret (cur + (length s - length (skip_newlines s)))%nat.
Proof.
  revert cur; induction s as [|c s IH]; intros cur Hs; cbn.
  - by rewrite Nat.add_0_r.
  - apply Forall_cons in Hs as [_ Hs]. pose proof (skip_newlines_length s). case_match.
    + rewrite IH by done. f_equal. lia.
    + f_equal. cbn. lia.
Qed.

Lemma scan_eol_text s junk cur :
  text_ok s -> scan_eol (s ++ 0 :: junk) cur =
    Ret (match split_eol s with Some (l, _) => Some (cur + length l)%nat | None => None end).
Proof.
  revert cur; induction s as [|c s IH]; intros cur Hs; cbn; [done|].
  apply Forall_cons in Hs as [[Hc _] Hs]. rewrite (proj2 (Z.eqb_neq c 0) Hc).
  destruct (is_newline c); [cbn; by rewrite Nat.add_0_r|]. rewrite IH by done.
  destruct (split_eol s) as [[l t]|]; [|done]. cbn. do 2 f_equal. lia.
Qed.

Lemma findNextEOL_text buf cur s junk :
  drop cur buf = s ++ 0 :: junk -> text_ok s ->
  findNextEOL buf cur =
    Ret (match split_eol s with Some (l, _) => Some (cur + length l)%nat | None => None end).
Proof.
  intros E Hs. rewrite <- (scan_eol_text s junk cur Hs), <- E. unfold findNextEOL. rewrite E.
  destruct s as [|c s]; [by destruct junk as [|? [|? ?]]|]. apply Forall_cons in Hs as [[_ Hc] _]. cbv zeta.
  cbn [app]. destruct (s ++ 0 :: junk) as [|c1 [|c2 r]]; try done.
  by replace (c =? 62) with false by lia.
Qed.

Lemma strlen_text s junk : text_ok s -> strlen (s ++ 0 :: junk) = Ret (length s).
Proof.
  induction s as [|c s IH]; intros Hs; [done|]. apply Forall_cons in Hs as [[Hc _] Hs].
  cbn. replace (c =? 0) with false by lia. by rewrite IH.
Qed.

Lemma skip_newlines_idem s : skip_newlines (skip_newlines s) = skip_newlines s.
Proof. induction s as [|c s IH]; cbn; [done|]. destruct (is_newline c) eqn:E; [done|]. cbn. by rewrite E. Qed.

Lemma next_line_skip a b : next_line (skip_newlines a ++ b) = next_line (a ++ b).
Proof.
  unfold next_line. rewrite !skip_newlines_app, skip_newlines_idem. done.
Qed.

Lemma split_eol_app_none a b :
  split_eol a = None ->
  split_eol (a ++ b) = match split_eol b with Some (l, r) => Some (a ++ l, r) | None => None end.
Proof.
  induction a as [|c a IH]; cbn; [by destruct (split_eol b) as [[? ?]|]|].
  destruct (is_newline c); [done|]. destruct (split_eol a) as [[? ?]|]; [done|]. intros _. rewrite IH by done.
  by destruct (split_eol b) as [[? ?]|].
Qed.

(** A line the buffer does not hold whole ends in what is still to be read. *)
Lemma next_line_unread p r l rest :
  split_eol (skip_newlines p) = None -> next_line (p ++ r) = Some (l, rest) ->
  (length rest < length r)%nat.
Proof.
  unfold next_line. rewrite skip_newlines_app. intros Hn.
  assert (forall x, split_eol (skip_newlines r) = Some (x, rest) -> (length rest < length r)%nat) as Hr.
  { intros x E. apply split_eol_length in E. pose proof (skip_newlines_length r). lia. }
  destruct (skip_newlines p) as [|c p']; [apply Hr|].
  rewrite split_eol_app_none by done. destruct (split_eol r) as [[x y]|] eqn:E; [|done].
  intros [= _ <-]. apply split_eol_length in E. lia.
Qed.

Lemma script_size_cons a script :
  script_size (a :: script) =
    (match a with ReadData d => S (length d) | _ => 1 end + script_size script)%nat.
Proof. done. Qed.

Lemma script_size_app a b : script_size (a ++ b) = (script_size a + script_size b)%nat.
Proof. unfold script_size. by rewrite map_app, list_sum_app. Qed.

Lemma read_fd_data room script e :
  (0 < room)%nat -> Forall no_end script -> delivered script <> [] ->
  exists d script', read_fd room (script ++ e) = Some (Some d, script' ++ e) /\ d <> [] /\
    (length d <= room)%nat /\
    delivered script = d ++ delivered script' /\ Forall no_end script' /\
    (script_size script' < script_size script)%nat.
Proof.
  intros Hroom. induction 1 as [|a script Ha Hs IH]; [done|]. intros Hd. destruct a as [d| | |]; try done.
  - cbn [app read_fd no_end] in *. destruct (take room d) as [|x t] eqn:Et.
    { destruct room; [lia|]. by destruct d. }
    assert (d = (x :: t) ++ drop room d) as Ed by (by rewrite <- Et, take_drop).
    assert (length (x :: t) <= room)%nat by (rewrite <- Et, length_take; lia).
    pose proof (f_equal length Ed) as El. rewrite length_app in El.
    exists (x :: t), (match drop room d with [] => script | r => ReadData r :: script end).
    split; [by destruct (drop room d)|]. split; [done|]. split; [done|].
    rewrite script_size_cons. unfold delivered. remember (drop room d) as q eqn:Eq. clear Eq.
    destruct q as [|y r]; cbn [map concat length] in *.
    + rewrite app_nil_r in Ed. subst d. repeat split; [done|]. cbn [length]. lia.
    + rewrite app_assoc, <- Ed. repeat split; [by constructor|]. rewrite script_size_cons. cbn [length] in *. lia.
  - destruct (IH Hd) as (d & s' & E & H1 & H2 & H3 & H4 & H5).
    exists d, s'. repeat split; try done. rewrite script_size_cons. lia.
Qed.

Lemma put_spec buf cur off a b d :
  drop cur buf = a ++ b -> off = (cur + length a)%nat -> (length d <= length b)%nat ->
  (0 < length (a ++ b))%nat ->
  exists buf', put buf off d = Ret buf' /\ length buf' = length buf /\
    drop cur buf' = a ++ d ++ drop (length d) b.
Proof.
  intros E -> Hd Hpos. pose proof (f_equal length E) as El. rewrite length_drop, length_app in El.
  rewrite length_app in Hpos. unfold put.
  replace (cur + length a + length d <=? length buf)%nat with true by (symmetry; apply Nat.leb_le; lia).
  eexists. split; [reflexivity|].
  assert (take (cur + length a) buf = take cur buf ++ a) as Et.
  { rewrite <- (take_drop cur buf), E at 1. rewrite take_app_ge, length_take by (rewrite length_take; lia).
    replace (cur + length a - _)%nat with (length a) by lia. by rewrite take_app_length. }
  assert (drop (cur + length a + length d) buf = drop (length d) b) as Ed.
  { rewrite <- !drop_drop, E, drop_app_length. done. }
  rewrite Et, Ed. split.
  - rewrite !length_app, length_take, length_drop. lia.
  - rewrite <- app_assoc, drop_app_ge by (rewrite length_take; lia).
    rewrite length_take. by replace (cur - _)%nat with 0%nat by lia.
Qed.

(** The buffer, from [cur] on, holds the text [p]. *)
Definition buffer_at (buf : bytes) (cur : nat) (p : bytes) : Prop :=
  length buf = S MAX_AT_RESPONSE /\ exists junk, drop cur buf = p ++ 0 :: junk.

Lemma buffer_at_length buf cur p :
  buffer_at buf cur p -> (cur + length p <= MAX_AT_RESPONSE)%nat.
Proof.
  intros (Hl & junk & E). apply (f_equal length) in E.
  rewrite length_drop, length_app, Hl in E. cbn [length] in E. lia.
Qed.

(** A chunk of data lands after the text. *)
Lemma buffer_read buf cur p d :
  buffer_at buf cur p -> (cur + length p + length d <= MAX_AT_RESPONSE)%nat ->
  exists buf', (b ← put buf (cur + length p) d; put b (cur + length p + length d) [0]) = Ret buf' /\
    buffer_at buf' cur (p ++ d).
Proof.
  intros (Hl & junk & E) Hfit. pose proof (f_equal length E) as El.
  rewrite length_drop, length_app, Hl in El. cbn [length] in El.
  destruct (put_spec buf cur _ p (0 :: junk) d E eq_refl) as (b1 & H1 & Hl1 & E1);
    [cbn; lia|rewrite length_app; cbn; lia|].
  rewrite H1. cbn [mbind outcome_bind]. rewrite app_assoc in E1.
  destruct (put_spec b1 cur (cur + length p + length d) (p ++ d) (drop (length d) (0 :: junk)) [0] E1)
    as (b2 & H2 & Hl2 & E2).
  - rewrite length_app. lia.
  - rewrite length_drop. cbn. lia.
  - rewrite !length_app, length_drop. cbn. lia.
  - exists b2. split; [done|]. split; [by rewrite Hl2, Hl1|]. eexists. exact E2.
Qed.

(** Leading newlines are stepped over. *)
Lemma buffer_skip buf cur p :
  buffer_at buf cur p -> text_ok p ->
  exists cur', skip_leading (drop cur buf) cur = Ret cur' /\ buffer_at buf cur' (skip_newlines p) /\
    (cur' + length (skip_newlines p) = cur + length p)%nat.
Proof.
  intros (Hl & junk & E) Hp. rewrite E, skip_leading_text by done.
  pose proof (skip_newlines_length p). eexists. split; [reflexivity|]. split; [|lia]. split; [done|].
  exists junk. rewrite <- drop_drop, E. destruct (skip_newlines_suffix p) as (nl & En & _).
  remember (skip_newlines p) as k eqn:Ek. clear Ek. subst p.
  rewrite length_app, <- app_assoc. by rewrite Nat.add_sub, drop_app_length.
Qed.

Lemma readline_finish_ok buf cur p l r script :
  buffer_at buf cur p -> split_eol p = Some (l, r) ->
  exists lb, readline_finish buf cur (cur + length l) script = Ret (Some l, lb, script) /\ holds lb r.
Proof.
  intros (Hl & junk & E) Hs.
  assert (exists c, p = l ++ c :: r) as [c ->].
  { clear -Hs. revert l Hs. induction p as [|x p IH]; intros l; cbn; [done|].
    case_match; [intros [= <- <-]; by exists x|]. destruct (split_eol p) as [[l' t]|]; [|done].
    intros [= <- <-]. destruct (IH l' eq_refl) as [c ->]. by exists c. }
  rewrite <- app_assoc in E. cbn [app] in E.
  destruct (put_spec buf cur (cur + length l) l _ [0] E eq_refl) as (b & Hb & Hlb & Eb);
    [cbn; lia|rewrite length_app; cbn; lia|].
  unfold readline_finish. rewrite E, Hb. cbn [mbind outcome_bind].
  replace (cur + length l - cur)%nat with (length l) by lia. rewrite take_app_length.
  eexists. split; [reflexivity|]. split; [cbn [s_ATBuffer]; by rewrite Hlb|].
  cbn [s_ATBuffer s_ATBufferCur]. exists junk. replace (S (cur + length l)) with (cur + (length l + 1))%nat by lia.
  rewrite <- drop_drop, Eb, <- drop_drop, drop_app_length. done.
Qed.

Lemma findNextEOL_buffer buf cur p :
  buffer_at buf cur p -> text_ok p ->
  findNextEOL buf cur =
    Ret (match split_eol p with Some (l, _) => Some (cur + length l)%nat | None => None end).
Proof. intros (_ & junk & E) Hp. by eapply findNextEOL_text. Qed.

(** ** Lemmas: [readline] on a stream *)

Lemma readline_loop_next e fuel : forall buf cur p script l rest,
  buffer_at buf cur p -> text_ok (p ++ delivered script) -> Forall no_end script ->
  (script_size script < fuel)%nat -> split_eol (skip_newlines p) = None ->
  next_line (p ++ delivered script) = Some (l, rest) ->
  (cur + (length (p ++ delivered script) - length rest) <= MAX_AT_RESPONSE)%nat ->
  exists lb script' q,
    readline_loop fuel buf cur (cur + length p) (script ++ e) = Ret (Some l, lb, script' ++ e) /\
    holds lb q /\ q ++ delivered script' = rest /\ Forall no_end script'.
Proof.
  induction fuel as [|fuel IH]; intros buf cur p script l rest Hb Ht Hs Hfuel Hn Hl Hfit; [lia|].
  pose proof (next_line_unread _ _ _ _ Hn Hl) as Hun. rewrite length_app in Hfit.
  cbn [readline_loop]. destruct (Nat.eqb_spec (MAX_AT_RESPONSE - (cur + length p)) 0); [lia|].
  cbn [mbind outcome_bind].
  destruct (read_fd_data (MAX_AT_RESPONSE - (cur + length p)) script e)
    as (d & script' & -> & Hd & Hroom & Edel & Hs' & Hsz);
    [lia|done|intros E; rewrite E in Hun; cbn in Hun; lia|].
  rewrite Edel, app_assoc in Ht, Hl. rewrite Edel, length_app in Hfit, Hun.
  pose proof Ht as Ht'. apply text_ok_app in Ht' as [Hpd _].
  destruct (buffer_read buf cur p d Hb) as (buf2 & Hput & Hb2); [lia|].
  destruct (put buf (cur + length p) d) as [b1| | |]; try done. cbn [mbind outcome_bind] in Hput |- *.
  rewrite Hput. cbn [mbind outcome_bind].
  destruct (buffer_skip buf2 cur (p ++ d) Hb2 Hpd) as (cur2 & -> & Hb3 & Ecur). cbn [mbind outcome_bind].
  rewrite length_app in Ecur.
  rewrite (findNextEOL_buffer _ _ _ Hb3) by by apply text_ok_skip. cbn [mbind outcome_bind].
  destruct (split_eol (skip_newlines (p ++ d))) as [[l' r]|] eqn:Es.
  - destruct (readline_finish_ok buf2 cur2 _ l' r (script' ++ e) Hb3 Es) as (lb & -> & Hlb).
    assert (next_line ((p ++ d) ++ delivered script') = Some (l', r ++ delivered script')) as E2.
    { rewrite <- next_line_skip. unfold next_line. rewrite skip_newlines_app, skip_newlines_idem.
      destruct (skip_newlines (p ++ d)); [done|]. by apply split_eol_app_some. }
    rewrite Hl in E2. injection E2 as <- ->. by exists lb, script', r.
  - replace (cur + length p + length d)%nat with (cur2 + length (skip_newlines (p ++ d)))%nat by lia.
    apply IH; try done.
    + apply text_ok_app in Ht as [_ Ht]. apply text_ok_app. split; [by apply text_ok_skip|done].
    + lia.
    + by rewrite skip_newlines_idem.
    + by rewrite next_line_skip.
    + rewrite length_app. lia.
Qed.

Lemma buffer_at_zero buf : length buf = S MAX_AT_RESPONSE ->
  exists buf', put buf 0 [0] = Ret buf' /\ buffer_at buf' 0 [].
Proof.
  intros Hl. destruct (put_spec buf 0 0 [] buf [0]) as (b & E & Hlb & Ed);
    [done|done|cbn [length]; lia|cbn [app]; lia|].
  exists b. split; [done|]. split; [by rewrite Hlb|]. by eexists.
Qed.

(** One call returns the next line of the buffer and the stream. *)
Lemma readline_next lb p script e l rest :
  holds lb p -> text_ok (p ++ delivered script) -> Forall no_end script ->
  next_line (p ++ delivered script) = Some (l, rest) -> next_fits (p ++ delivered script) ->
  exists lb' script' q, readline lb (script ++ e) = Ret (Some l, lb', script' ++ e) /\
    holds lb' q /\ q ++ delivered script' = rest /\ Forall no_end script'.
Proof.
  intros Hh Ht Hs Hl Hfit. unfold next_fits in Hfit. rewrite Hl in Hfit.
  pose proof Hh as (Hlen & junk & E). pose proof Ht as Ht'. apply text_ok_app in Ht' as [Hp Hd].
  assert (s_ATBuffer lb !! s_ATBufferCur lb = Some (default 0 (head p))) as Hc.
  { rewrite <- (Nat.add_0_r (s_ATBufferCur lb)), <- lookup_drop, E. by destruct p. }
  unfold readline. rewrite Hc. cbn [checked mbind outcome_bind]. destruct p as [|c p].
  - destruct (buffer_at_zero (s_ATBuffer lb) Hlen) as (b & Hput & Hb). cbn [head default].
    change (0 =? 0) with true. cbn match. rewrite Hput. cbn [mbind outcome_bind].
    apply (readline_loop_next _ _ b 0 [] script l rest); [done|done|done|rewrite ?script_size_app; lia|done|done|].
    by rewrite Nat.add_0_l.
  - change (default 0 (head (c :: p))) with c. pose proof Hp as Hp'. apply Forall_cons in Hp' as [[Hc0 _] _].
    rewrite (proj2 (Z.eqb_neq c 0) Hc0).
    destruct (buffer_skip (s_ATBuffer lb) (s_ATBufferCur lb) (c :: p) (conj Hlen (ex_intro _ junk E)) Hp)
      as (cur2 & -> & Hb & Ecur). cbn [mbind outcome_bind].
    rewrite (findNextEOL_buffer _ _ _ Hb) by by apply text_ok_skip. cbn [mbind outcome_bind].
    rewrite <- next_line_skip in Hl. set (k := skip_newlines (c :: p)) in *.
    assert (skip_newlines k = k) as Hk by apply skip_newlines_idem.
    destruct (split_eol k) as [[l' r]|] eqn:Es.
    + destruct (readline_finish_ok _ cur2 _ l' r (script ++ e) Hb Es) as (lb' & -> & Hlb).
      assert (next_line (k ++ delivered script) = Some (l', r ++ delivered script)) as E2.
      { unfold next_line. rewrite skip_newlines_app, Hk. destruct k; [done|]. by apply split_eol_app_some. }
      rewrite Hl in E2. injection E2 as <- ->. by exists lb', script, r.
    + destruct Hb as (_ & junk2 & E2). rewrite E2, strlen_text by by apply text_ok_skip.
      cbn [mbind outcome_bind]. rewrite app_cons1, take_app_exact by (rewrite length_app; cbn [length]; lia).
      pose proof (f_equal length E2) as El. rewrite length_drop, length_app in El. cbn [length] in El.
      destruct (put_spec (s_ATBuffer lb) 0 0 [] (s_ATBuffer lb) (k ++ [0])) as (b & -> & Hlb & Ed);
        [done|done|rewrite length_app; cbn [length]; lia|cbn [app]; lia|]. cbn [mbind outcome_bind].
      apply (readline_loop_next _ _ b 0 k script l rest); [|by apply text_ok_app; split; [apply text_ok_skip|]|done|rewrite ?script_size_app; lia|by rewrite Hk|done|].
      * split; [by rewrite Hlb|]. eexists. rewrite Ed. cbn [app]. by rewrite <- app_assoc.
      * rewrite length_app in *. pose proof (skip_newlines_length (c :: p)). unfold k. lia.
Qed.

Lemma read_lines_stream e ls : forall lb p script tail,
  holds lb p -> text_ok (p ++ delivered script) -> Forall no_end script ->
  stream_lines (p ++ delivered script) ls tail ->
  exists lb' script' q, read_lines (length ls) lb (script ++ e) = Ret (map Some ls, lb', script' ++ e) /\
    holds lb' q /\ q ++ delivered script' = tail /\ Forall no_end script'.
Proof.
  induction ls as [|l ls IH]; intros lb p script tail Hh Ht Hs Hl; inversion Hl; subst.
  - by exists lb, script, p.
  - destruct (readline_next lb p script e l rest) as (lb1 & script1 & q & E & Hh1 & Eq & Hs1); [done..|].
    cbn [length read_lines]. rewrite E. cbn [mbind outcome_bind].
    destruct (IH lb1 q script1 tail) as (lb2 & script2 & q2 & E2 & ?); [done| |done|by rewrite Eq|].
    { rewrite Eq. by eapply next_line_text. }
    rewrite E2. by exists lb2, script2, q2.
Qed.

Lemma holds_init : holds line_buffer_init [].
Proof. split; [apply length_replicate|]. by exists (replicate MAX_AT_RESPONSE 0). Qed.

(** ** Lemmas: the end of the stream *)

Definition is_end (a : read_answer) : Prop := a = ReadEof \/ a = ReadError.

Lemma read_fd_end room script a e :
  Forall no_end script -> delivered script = [] -> is_end a ->
  read_fd room (script ++ a :: e) = Some (None, e).
Proof.
  intros Hs Hd Ha. induction Hs as [|x script Hx Hs IH].
  - by destruct Ha as [-> | ->].
  - destruct x as [d| | |]; try done; [|by apply IH].
    destruct d; [done|]. done.
Qed.

Lemma readline_loop_end a e fuel : forall buf cur p script,
  buffer_at buf cur p -> text_ok (p ++ delivered script) -> Forall no_end script -> is_end a ->
  (script_size script < fuel)%nat -> next_line (p ++ delivered script) = None ->
  (cur + length (p ++ delivered script) < MAX_AT_RESPONSE)%nat ->
  exists lb, readline_loop fuel buf cur (cur + length p) (script ++ a :: e) = Ret (None, lb, e).
Proof.
  induction fuel as [|fuel IH]; intros buf cur p script Hb Ht Hs Ha Hfuel Hl Hfit; [lia|].
  rewrite length_app in Hfit. cbn [readline_loop].
  destruct (Nat.eqb_spec (MAX_AT_RESPONSE - (cur + length p)) 0); [lia|]. cbn [mbind outcome_bind].
  destruct (decide (delivered script = [])) as [Hd|Hd].
  { rewrite read_fd_end by done. by eexists. }
  destruct (read_fd_data (MAX_AT_RESPONSE - (cur + length p)) script (a :: e))
    as (d & script' & -> & _ & Hroom & Edel & Hs' & Hsz); [lia|done|done|].
  rewrite Edel, app_assoc in Ht, Hl. rewrite Edel, length_app in Hfit.
  pose proof Ht as Ht'. apply text_ok_app in Ht' as [Hpd _].
  destruct (buffer_read buf cur p d Hb) as (buf2 & Hput & Hb2); [lia|].
  destruct (put buf (cur + length p) d) as [b1| | |]; try done. cbn [mbind outcome_bind] in Hput |- *.
  rewrite Hput. cbn [mbind outcome_bind].
  destruct (buffer_skip buf2 cur (p ++ d) Hb2 Hpd) as (cur2 & -> & Hb3 & Ecur). cbn [mbind outcome_bind].
  rewrite length_app in Ecur.
  rewrite (findNextEOL_buffer _ _ _ Hb3) by by apply text_ok_skip. cbn [mbind outcome_bind].
  destruct (split_eol (skip_newlines (p ++ d))) as [[l' r]|] eqn:Es.
  { exfalso. unfold next_line in Hl. rewrite skip_newlines_app in Hl.
    destruct (skip_newlines (p ++ d)) as [|x k]; [done|].
    by rewrite (split_eol_app_some _ _ _ _ Es) in Hl. }
  replace (cur + length p + length d)%nat with (cur2 + length (skip_newlines (p ++ d)))%nat by lia.
  apply IH; try done.
  - apply text_ok_app in Ht as [_ Ht]. apply text_ok_app. split; [by apply text_ok_skip|done].
  - lia.
  - by rewrite next_line_skip.
  - rewrite length_app. lia.
Qed.

Lemma next_line_none_prefix p r : next_line (p ++ r) = None -> next_line p = None.
Proof.
  unfold next_line. rewrite skip_newlines_app. destruct (skip_newlines p) as [|c k]; [done|].
  intros H. destruct (split_eol (c :: k)) as [[l' t]|] eqn:E; [|done].
  by rewrite (split_eol_app_some _ _ _ _ E) in H.
Qed.

Lemma readline_end lb p script a e :
  holds lb p -> text_ok (p ++ delivered script) -> Forall no_end script -> is_end a ->
  next_line (p ++ delivered script) = None -> (length (p ++ delivered script) < MAX_AT_RESPONSE)%nat ->
  exists lb', readline lb (script ++ a :: e) = Ret (None, lb', e).
Proof.
  intros Hh Ht Hs Ha Hl Hfit. pose proof Hh as (Hlen & junk & E).
  pose proof Ht as Ht'. apply text_ok_app in Ht' as [Hp Hd].
  assert (s_ATBuffer lb !! s_ATBufferCur lb = Some (default 0 (head p))) as Hc.
  { rewrite <- (Nat.add_0_r (s_ATBufferCur lb)), <- lookup_drop, E. by destruct p. }
  unfold readline. rewrite Hc. cbn [checked mbind outcome_bind]. destruct p as [|c p].
  - destruct (buffer_at_zero (s_ATBuffer lb) Hlen) as (b & Hput & Hb). cbn [head default].
    change (0 =? 0) with true. cbn match. rewrite Hput. cbn [mbind outcome_bind].
    apply (readline_loop_end a e _ b 0 [] script);
      [done|done|done|done|rewrite script_size_app; lia|done|by rewrite Nat.add_0_l].
  - change (default 0 (head (c :: p))) with c. pose proof Hp as Hp'. apply Forall_cons in Hp' as [[Hc0 _] _].
    rewrite (proj2 (Z.eqb_neq c 0) Hc0).
    destruct (buffer_skip (s_ATBuffer lb) (s_ATBufferCur lb) (c :: p) (conj Hlen (ex_intro _ junk E)) Hp)
      as (cur2 & -> & Hb & Ecur). cbn [mbind outcome_bind].
    rewrite (findNextEOL_buffer _ _ _ Hb) by by apply text_ok_skip. cbn [mbind outcome_bind].
    pose proof (next_line_none_prefix _ _ Hl) as Hn. unfold next_line in Hn. rewrite Hn.
    rewrite <- next_line_skip in Hl. set (k := skip_newlines (c :: p)) in *.
    destruct Hb as (_ & junk2 & E2). rewrite E2, strlen_text by by apply text_ok_skip.
    cbn [mbind outcome_bind]. rewrite (app_cons1 k 0 junk2), take_app_exact by (rewrite length_app; cbn [length]; lia).
    pose proof (f_equal length E2) as El. rewrite length_drop, length_app in El. cbn [length] in El.
    destruct (put_spec (s_ATBuffer lb) 0 0 [] (s_ATBuffer lb) (k ++ [0])) as (b & -> & Hlb & Ed);
      [done|done|rewrite length_app; cbn [length]; lia|cbn [app]; lia|]. cbn [mbind outcome_bind].
    apply (readline_loop_end a e _ b 0 k script);
      [|by apply text_ok_app; split; [apply text_ok_skip|]|done|done|rewrite script_size_app; lia|done|].
    + split; [by rewrite Hlb|]. eexists. rewrite Ed. cbn [app]. by rewrite <- app_assoc.
    + rewrite length_app in *. pose proof (skip_newlines_length (c :: p)). unfold k. lia.
Qed.

(** What a reader with no command pending tells the unsolicited handler: an SMS
    header together with the line that follows it. *)
Fixpoint unsol_of (ls : list bytes) : list event :=
  match ls with
  | [] => []
  | l :: ls' =>
    if isSMSUnsolicited l
    then match ls' with [] => [] | l2 :: ls2 => EvUnsol l (Some l2) :: unsol_of ls2 end
    else EvUnsol l None :: unsol_of ls'
  end.

Lemma unsol_of_single l ls : isSMSUnsolicited l = false -> unsol_of (l :: ls) = EvUnsol l None :: unsol_of ls.
Proof. cbn. by intros ->. Qed.

Lemma unsol_of_pair l l2 ls :
  isSMSUnsolicited l = true -> unsol_of (l :: l2 :: ls) = EvUnsol l (Some l2) :: unsol_of ls.
Proof. cbn. by intros ->. Qed.

Lemma unsol_of_header l : isSMSUnsolicited l = true -> unsol_of [l] = [].
Proof. cbn. by intros ->. Qed.

Definition after_events (d : list event) (st : at_state) : at_state := set_io (wq st) (evs st ++ d) st.

Lemma after_events_step e d st : after_events d (emit e st) = after_events (e :: d) st.
Proof. unfold after_events, emit, set_io. cbn. by rewrite <- app_assoc. Qed.

Lemma after_events_nil st : after_events [] st = st.
Proof. unfold after_events. rewrite app_nil_r. by destruct st. Qed.

Lemma readerLoop_idle v a fuel : forall ls lb p script tail st,
  holds lb p -> text_ok (p ++ delivered script) -> Forall no_end script -> is_end a ->
  stream_lines (p ++ delivered script) ls tail -> next_line tail = None ->
  (length tail < MAX_AT_RESPONSE)%nat ->
  s_unsolHandler st = true -> sp_response st = None -> (length ls < fuel)%nat ->
  readerLoop fuel v lb (script ++ [a]) st = Ret (onReaderClosed (after_events (unsol_of ls) st)).
Proof.
  induction fuel as [|fuel IH]; intros ls lb p script tail st Hh Ht Hs Ha Hl Hn Hfit Hu Hr Hfuel; [lia|].
  cbn [readerLoop]. inversion Hl as [|s l rest ls' ? Hnext Hf Hl']; subst.
  { destruct (readline_end lb p script a []) as (lb' & ->); [done..|]. cbn [mbind outcome_bind unsol_of].
    by rewrite after_events_nil. }
  destruct (readline_next lb p script [a] l rest) as (lb1 & script1 & q & -> & Hh1 & Eq & Hs1); [done..|].
  cbn [mbind outcome_bind]. assert (text_ok (q ++ delivered script1)) as Ht1 by (rewrite Eq; by eapply next_line_text).
  unfold reader_round. destruct (isSMSUnsolicited l) eqn:Hsms.
  - inversion Hl' as [|s2 l2 rest2 ls2 ? Hnext2 Hf2 Hl2]; subst.
    + destruct (readline_end lb1 q script1 a []) as (lb2 & ->); [done..|].
      cbn [mbind outcome_bind]. by rewrite unsol_of_header, after_events_nil.
    + destruct (readline_next lb1 q script1 [a] l2 rest2)
        as (lb2 & script2 & q2 & -> & Hh2 & Eq2 & Hs2); [done..|].
      cbn [mbind outcome_bind]. rewrite Hu, unsol_of_pair, <- after_events_step by done.
      apply (IH ls2 lb2 q2 script2 tail); try done; [|by rewrite Eq2|cbn [length] in Hfuel; lia].
      rewrite Eq2. by eapply next_line_text.
  - cbn [mbind outcome_bind]. rewrite processLine_no_command by done. cbn [mbind outcome_bind].
    unfold handleUnsolicited. rewrite Hu, unsol_of_single, <- after_events_step by done.
    apply (IH ls' lb1 q script1 tail); try done; [by rewrite Eq|cbn [length] in Hfuel; lia].
Qed.

(** ** Lemmas: any bytes without a prompt *)

(** The buffer ends in a NUL at or after the cursor, and holds no [>]. *)
Definition lb_ok (lb : line_buffer) : Prop :=
  length (s_ATBuffer lb) = S MAX_AT_RESPONSE /\ Forall (fun c => c <> 62) (s_ATBuffer lb) /\
  exists i, (s_ATBufferCur lb <= i)%nat /\ s_ATBuffer lb !! i = Some 0.

Definition no_prompt (a : read_answer) : Prop :=
  match a with ReadData d => Forall (fun c => c <> 62) d | _ => True end.

(** What [readline] hands out: a line, with no newline and no NUL in it. *)
Definition line_ok (l : bytes) : Prop := Forall (fun c => is_newline c = false /\ c <> 0) l.

Lemma first_nul (s : bytes) : 0 ∈ s -> exists s1 s2, s = s1 ++ 0 :: s2 /\ Forall (fun c => c <> 0) s1.
Proof.
  induction s as [|c s IH]; [by intros ?%not_elem_of_nil|]. intros H.
  destruct (decide (c = 0)) as [->|Hc]; [by exists [], s|].
  apply elem_of_cons in H as [|H]; [done|]. destruct (IH H) as (s1 & s2 & -> & Hs).
  exists (c :: s1), s2. split; [done|by constructor].
Qed.

(** Such a buffer, seen from the cursor, holds a text. *)
Lemma buffer_text buf cur i :
  length buf = S MAX_AT_RESPONSE -> Forall (fun c => c <> 62) buf -> (cur <= i)%nat -> buf !! i = Some 0 ->
  exists p, buffer_at buf cur p /\ text_ok p /\ (cur + length p <= i)%nat.
Proof.
  intros Hl Hb Hi Hnul. set (j := (i - cur)%nat).
  assert (drop cur buf !! j = Some 0) as Hj by (rewrite lookup_drop; by replace (cur + j)%nat with i by lia).
  pose proof (take_drop_middle _ _ _ Hj) as E.
  destruct (first_nul (take j (drop cur buf) ++ [0])) as (p & r & Ep & Hp).
  { apply elem_of_app. right. by apply list_elem_of_singleton. }
  assert (drop cur buf = p ++ 0 :: (r ++ drop (S j) (drop cur buf))) as Ed.
  { rewrite <- E at 1. rewrite app_cons1, Ep. by rewrite <- app_assoc. }
  exists p. split; [split; [done|by eexists]|]. split.
  - assert (Forall (fun c => c <> 62) p) as Hp2.
    { assert (Forall (fun c => c <> 62) (drop cur buf)) as H by by apply Forall_drop.
      rewrite Ed in H. by apply Forall_app in H as [H _]. }
    apply Forall_and. split; done.
  - apply (f_equal length) in Ep. rewrite !length_app in Ep. cbn in Ep.
    apply lookup_lt_Some in Hj. rewrite length_take in Ep. lia.
Qed.

Lemma put_safe buf off d :
  (off + length d <= length buf)%nat -> Forall (fun c => c <> 62) buf -> Forall (fun c => c <> 62) d ->
  exists buf', put buf off d = Ret buf' /\ length buf' = length buf /\ Forall (fun c => c <> 62) buf' /\
    (forall i, (i < length d)%nat -> buf' !! (off + i)%nat = d !! i).
Proof.
  intros Hl Hb Hd. unfold put.
  replace (off + length d <=? length buf)%nat with true by (symmetry; apply Nat.leb_le; lia).
  eexists. split; [reflexivity|]. split; [rewrite !length_app, length_take, length_drop; lia|]. split.
  - repeat apply Forall_app_2; [by apply Forall_take|done|by apply Forall_drop].
  - intros i Hi. rewrite lookup_app_r by (rewrite length_take; lia).
    rewrite length_take. replace (off + i - _)%nat with i by lia. by rewrite lookup_app_l.
Qed.

Lemma split_eol_line s l r : text_ok s -> split_eol s = Some (l, r) -> line_ok l.
Proof.
  revert l; induction s as [|c s IH]; intros l Hs; cbn; [done|]. apply Forall_cons in Hs as [[Hc _] Hs].
  destruct (is_newline c) eqn:E; [intros [= <- <-]; constructor|].
  destruct (split_eol s) as [[l' t]|]; [|done]. intros [= <- <-]. constructor; [done|]. by apply (IH l').
Qed.

Lemma readline_finish_safe buf cur i p l r script :
  length buf = S MAX_AT_RESPONSE -> Forall (fun c => c <> 62) buf ->
  buffer_at buf cur p -> text_ok p -> split_eol p = Some (l, r) -> Forall no_prompt script ->
  (cur + length p <= i)%nat -> buf !! i = Some 0 ->
  safely (fun x => let '(line, lb, script) := x in
      lb_ok lb /\ Forall no_prompt script /\ (forall s, line = Some s -> line_ok s))
    (readline_finish buf cur (cur + length l) script).
Proof.
  intros Hl Hb Hat Hp Hs Hscr Hi Hnul. unfold readline_finish.
  pose proof (split_eol_length _ _ _ Hs) as Hlen. apply lookup_lt_Some in Hnul as Hlt.
  destruct (put_safe buf (cur + length l) [0]) as (b & E & Hlb & Hb2 & _);
    [cbn [length]; lia|done|by constructor|].
  assert (b !! i = Some 0) as Hnul2.
  { unfold put in E. replace (_ <=? _)%nat with true in E by (symmetry; apply Nat.leb_le; cbn [length]; lia).
    injection E as <-. rewrite lookup_app_r by (rewrite length_take; lia). rewrite length_take.
    replace (i - _)%nat with (S (i - (cur + length l + 1))) by lia. change ((0 :: drop (cur + length l + 1) buf) !! S (i - (cur + length l + 1))%nat)
      with (drop (cur + length l + 1) buf !! (i - (cur + length l + 1))%nat).
    rewrite lookup_drop. by replace (_ + _)%nat with i by lia. }
  rewrite E. cbn [mbind outcome_bind safely]. split; [|split; [done|]].
  - split; [by rewrite <- Hl|]. split; [done|]. exists i. cbn [s_ATBufferCur s_ATBuffer]. split; [lia|done].
  - intros s [= <-]. destruct Hat as (_ & junk & Ed). rewrite Ed.
    replace (cur + length l - cur)%nat with (length l) by lia.
    apply split_eol_line in Hs as Hline; [|done].
    assert (exists t, p = l ++ t) as [t ->].
    { clear -Hs. revert l Hs. induction p as [|x p IH]; intros l; cbn; [done|].
      case_match; [intros [= <- <-]; by exists (x :: p)|]. destruct (split_eol p) as [[l' t]|]; [|done].
      intros [= <- <-]. destruct (IH l' eq_refl) as [c ->]. by exists c. }
    by rewrite <- app_assoc, take_app_length.
Qed.

(** What a safe call returns. *)
Definition read_result (x : option bytes * line_buffer * list read_answer) : Prop :=
  let '(line, lb, script) := x in
  lb_ok lb /\ Forall no_prompt script /\ (forall s, line = Some s -> line_ok s).

Lemma read_fd_safe room script o script' :
  Forall no_prompt script -> read_fd room script = Some (o, script') ->
  Forall no_prompt script' /\
  (forall d, o = Some d -> (length d <= room)%nat /\ Forall (fun c => c <> 62) d /\
                           (script_size script' < script_size script)%nat).
Proof.
  induction 1 as [|a script Ha Hs IH]; cbn [read_fd]; [done|]. rewrite script_size_cons.
  destruct a as [d| | |]; try (by intros [= <- <-]).
  - destruct (take room d) as [|x t] eqn:Et; [by intros [= <- <-]|]. cbn [no_prompt] in Ha.
    assert (Forall (fun c => c <> 62) (drop room d)) by by apply Forall_drop.
    intros [= <- <-]. split; [by destruct (drop room d); [|constructor]|].
    intros d' [= <-]. rewrite <- Et. split; [rewrite length_take; lia|]. split; [by apply Forall_take|].
    pose proof (f_equal length (take_drop room d)) as El. rewrite length_app, Et in El. cbn [length] in El.
    destruct (drop room d); [lia|]. rewrite script_size_cons. cbn [length] in *. lia.
  - intros E. destruct (IH E) as [H1 H2]. split; [done|]. intros d Hd. destruct (H2 d Hd) as (? & ? & ?).
    repeat split; try done. lia.
Qed.

Lemma readline_loop_safe fuel : forall buf cur p_read script,
  length buf = S MAX_AT_RESPONSE -> Forall (fun c => c <> 62) buf ->
  (cur <= p_read <= MAX_AT_RESPONSE)%nat -> buf !! p_read = Some 0 -> Forall no_prompt script ->
  safely read_result (readline_loop fuel buf cur p_read script).
Proof.
  induction fuel as [|fuel IH]; intros buf cur p_read script Hl Hb Hc Hnul Hs; [done|]. cbn [readline_loop].
  eapply safely_bind with (P := fun x => let '(buf, cur, p_read) := x in
    length buf = S MAX_AT_RESPONSE /\ Forall (fun c => c <> 62) buf /\
    (cur <= p_read < MAX_AT_RESPONSE)%nat /\ buf !! p_read = Some 0).
  { destruct (Nat.eqb_spec (MAX_AT_RESPONSE - p_read) 0) as [Hz|Hz].
    - destruct (put_safe buf 0 [0]) as (b & -> & Hlb & Hb2 & Hi); [cbn [length]; lia|done|by constructor|].
      cbn [mbind outcome_bind safely]. split; [by rewrite Hlb|]. split; [done|].
      split; [unfold MAX_AT_RESPONSE; lia|]. apply (Hi 0%nat); cbn [length]; lia.
    - cbn [safely]. repeat split; try done; lia. }
  intros [[buf1 cur1] pr1] (Hl1 & Hb1 & Hc1 & Hnul1). cbn beta iota.
  destruct (read_fd (MAX_AT_RESPONSE - pr1) script) as [[[d|] script']|] eqn:Er; [| |done].
  2: { destruct (read_fd_safe _ _ _ _ Hs Er) as [Hs' _]. cbn [safely read_result]. split; [|by split].
       split; [done|]. split; [done|]. exists pr1. cbn [s_ATBufferCur s_ATBuffer]. split; [lia|done]. }
  destruct (read_fd_safe _ _ _ _ Hs Er) as [Hs' Hd]. destruct (Hd d eq_refl) as (Hroom & Hdp & _).
  destruct (put_safe buf1 pr1 d) as (b2 & -> & Hl2 & Hb2 & _); [lia|done|done|]. cbn [mbind outcome_bind].
  destruct (put_safe b2 (pr1 + length d) [0]) as (b3 & -> & Hl3 & Hb3 & Hi); [cbn [length]; lia|done|by constructor|].
  cbn [mbind outcome_bind]. rewrite Hl2, Hl1 in Hl3.
  assert (b3 !! (pr1 + length d)%nat = Some 0) as Hnul3
    by (rewrite <- (Nat.add_0_r (pr1 + length d)); by apply Hi; cbn [length]; lia).
  destruct (buffer_text b3 cur1 (pr1 + length d)) as (p & Hat & Hp & Hpl); [done|done|lia|done|].
  destruct (buffer_skip b3 cur1 p Hat Hp) as (cur2 & -> & Hat2 & Ecur). cbn [mbind outcome_bind].
  rewrite (findNextEOL_buffer _ _ _ Hat2) by by apply text_ok_skip. cbn [mbind outcome_bind].
  destruct (split_eol (skip_newlines p)) as [[l r]|] eqn:Es.
  - apply (readline_finish_safe b3 cur2 (pr1 + length d) (skip_newlines p) l r);
      try done; [by apply text_ok_skip|lia].
  - apply IH; try done. lia.
Qed.

Lemma read_fd_chunk room d script :
  d <> [] -> (length d <= room)%nat -> read_fd room (ReadData d :: script) = Some (Some d, script).
Proof. intros Hd Hl. cbn [read_fd]. rewrite take_ge, drop_ge by done. by destruct d. Qed.

Lemma put_over (a b r d : bytes) :
  length b = length d -> put (a ++ b ++ r) (length a) d = Ret (a ++ d ++ r).
Proof.
  intros E. unfold put. rewrite !length_app.
  replace (length a + length d <=? _)%nat with true by (symmetry; apply Nat.leb_le; lia).
  by rewrite take_app_length, <- drop_drop, drop_app_length, <- E, drop_app_length.
Qed.

Lemma put_front (x y : Z) (r : bytes) : put (x :: r) 0 [y] = Ret (y :: r).
Proof. exact (put_over [] [x] r [y] eq_refl). Qed.

Lemma next_line_whole l :
  l <> [] -> Forall (fun c => is_newline c = false) l -> next_line (l ++ [13]) = Some (l, []).
Proof.
  intros Hne Hl. unfold next_line.
  assert (skip_newlines (l ++ [13]) = l ++ [13]) as ->.
  { destruct l as [|c l]; [done|]. apply Forall_cons in Hl as [Hc _]. cbn. by rewrite Hc. }
  clear Hne. induction Hl as [|c l Hc Hl IH]; cbn; [done|]. by rewrite Hc, IH.
Qed.

(** ** Properties *)


Ltac stream_line :=
  match goal with |- stream_lines ?s _ _ =>
    let r := eval vm_compute in (next_line s) in
    assert (next_line s = r) as Hnext by reflexivity;
    eapply lines_cons; [exact Hnext
      |unfold next_fits; rewrite Hnext; clear Hnext; cbn [length]; unfold MAX_AT_RESPONSE;
       apply Nat.leb_le; reflexivity
      |clear Hnext]
  end.


(** the line buffer is safe as long as no prompt is received.  Whatever
    bytes arrive, NUL bytes and lines longer than the buffer included, no byte
    outside the buffer is read or written, the cursor stays at or before a NUL,
    and a line handed out holds no newline and no NUL. *)
Theorem readline_safe (lb : line_buffer) (script : list read_answer) :
  lb_ok lb -> Forall no_prompt script -> safely read_result (readline lb script).
Proof.
  intros (Hl & Hb & i & Hi & Hnul) Hs. unfold readline. apply lookup_lt_Some in Hnul as Hlt.
  destruct (lookup_lt_is_Some_2 (s_ATBuffer lb) (s_ATBufferCur lb)) as [c Hc]; [lia|].
  rewrite Hc. cbn [checked mbind outcome_bind]. destruct (Z.eqb_spec c 0) as [Hc0|Hc0].
  - destruct (put_safe (s_ATBuffer lb) 0 [0]) as (b & -> & Hlb & Hb2 & Hi2);
      [cbn [length]; lia|done|by constructor|]. cbn [mbind outcome_bind].
    apply readline_loop_safe; try done; [by rewrite Hlb|lia|]. by apply (Hi2 0%nat); cbn [length]; lia.
  - destruct (buffer_text _ _ i Hl Hb Hi Hnul) as (p & Hat & Hp & Hpl).
    destruct (buffer_skip _ _ p Hat Hp) as (cur2 & -> & Hat2 & Ecur). cbn [mbind outcome_bind].
    rewrite (findNextEOL_buffer _ _ _ Hat2) by by apply text_ok_skip. cbn [mbind outcome_bind].
    destruct (split_eol (skip_newlines p)) as [[l r]|] eqn:Es.
    + apply (readline_finish_safe _ cur2 i (skip_newlines p) l r); try done; [by apply text_ok_skip|lia].
    + pose proof (buffer_at_length _ _ _ Hat2) as Hmax. destruct Hat2 as (_ & junk & E).
      set (k := skip_newlines p) in *. assert (text_ok k) as Hk by by apply text_ok_skip.
      rewrite E, strlen_text by done. cbn [mbind outcome_bind].
      rewrite (app_cons1 k 0 junk), take_app_exact by (rewrite length_app; cbn [length]; lia).
      destruct (put_safe (s_ATBuffer lb) 0 (k ++ [0])) as (b & -> & Hlb & Hb2 & Hi2);
        [rewrite length_app; cbn [length]; lia|done| |].
      { apply Forall_app_2; [|by constructor]. eapply Forall_impl; [exact Hk|]. by intros ? []. }
      cbn [mbind outcome_bind]. apply readline_loop_safe; try done; [by rewrite Hlb|lia|].
      rewrite <- (Nat.add_0_l (length k)), Hi2 by (rewrite length_app; cbn [length]; lia).
      by apply lookup_app_exact.
Qed.

Lemma lb_ok_init : lb_ok line_buffer_init.
Proof.
  split; [apply length_replicate|]. split; [by apply Forall_replicate|].
  exists 0%nat. split; [done|reflexivity].
Defined.

Lemma readline_safe_witness :
  safely read_result (readline line_buffer_init [ReadData (repeat 65 20); ReadData [66; 0; 13; 67; 13]; ReadError]).
Proof.
  apply (readline_safe line_buffer_init [ReadData (repeat 65 20); ReadData [66; 0; 13; 67; 13]; ReadError]).
  - apply lb_ok_init.
  - repeat constructor; done.
Defined.

(** C31: the reader loop without a command pending.  Until the channel ends,
    every line of the stream goes to the unsolicited handler exactly once and
    in order, an SMS header together with the line that follows it (a header
    that is the last line is dropped); then the channel is marked closed. *)
Theorem readerLoop_unsolicited (v : variant) (script : list read_answer) (a : read_answer)
  (ls : list bytes) (tail : bytes) (st : at_state) (fuel : nat) :
  Forall no_end script -> is_end a -> text_ok (delivered script) ->
  stream_lines (delivered script) ls tail -> next_line tail = None ->
  (length tail < MAX_AT_RESPONSE)%nat -> s_unsolHandler st = true -> sp_response st = None ->
  (length ls < fuel)%nat ->
  readerLoop fuel v line_buffer_init (script ++ [a]) st =
    Ret (onReaderClosed (set_io (wq st) (evs st ++ unsol_of ls) st)).
Proof.
  intros Hs Ha Ht Hl Hn Hlen Hu Hr Hfuel.
  by apply (readerLoop_idle v a fuel ls line_buffer_init [] script tail st holds_init).
Qed.

Lemma readerLoop_unsolicited_witness :
  readerLoop 4 Reference line_buffer_init
    ([ReadData (s2b "+CM"); ReadData (s2b "T: ,3" ++ [13; 10] ++ s2b "0791" ++ [13]);
      ReadData (s2b "RING" ++ [10] ++ s2b "par")] ++ [ReadEof]) (idle_state []) =
    Ret (onReaderClosed (set_io [] ([] ++ unsol_of [s2b "+CMT: ,3"; s2b "0791"; s2b "RING"]) (idle_state []))).
Proof.
  apply (readerLoop_unsolicited Reference [ReadData (s2b "+CM");
      ReadData (s2b "T: ,3" ++ [13; 10] ++ s2b "0791" ++ [13]); ReadData (s2b "RING" ++ [10] ++ s2b "par")]
    ReadEof [s2b "+CMT: ,3"; s2b "0791"; s2b "RING"] (s2b "par") (idle_state []) 4);
    [repeat constructor; done|by left|repeat constructor; done| |reflexivity|cbn; unfold MAX_AT_RESPONSE; lia
    |reflexivity|reflexivity|cbn; lia].
  stream_line. stream_line. stream_line. constructor.
Defined.

(** Stale bytes after a prompt.  A prompt is not ended by a newline, so
    [readline] returns with the cursor one past the NUL at [p_read]: not at most
    [p_read] as the code says.  When an earlier, longer read left bytes there,
    the next call takes them for data still to be read and glues them to the
    front of the next line. *)
Theorem prompt_stale_bytes (a b c : Z) (stale junk line : bytes) (cur : nat) :
  let buf := a :: b :: c :: stale ++ 0 :: junk in
  length buf = S MAX_AT_RESPONSE -> buf !! cur = Some 0 ->
  stale <> [] -> text_ok stale -> Forall (fun x => is_newline x = false) stale ->
  text_ok line -> Forall (fun x => is_newline x = false) line ->
  (length stale + length line < MAX_AT_RESPONSE)%nat ->
  exists lb, readline (mk_lb buf cur) [ReadData prompt; ReadData (line ++ [13])] =
      Ret (Some prompt, lb, [ReadData (line ++ [13])]) /\
    exists lb' script', readline lb [ReadData (line ++ [13])] = Ret (Some (stale ++ line), lb', script').
Proof.
  intros buf Hl Hc Hne Hs Hsn Hline Hln Hfit. unfold readline at 1. cbn [s_ATBuffer s_ATBufferCur].
  rewrite Hc. cbn [checked mbind outcome_bind]. change (0 =? 0) with true. cbn match.
  unfold buf in *. rewrite put_front. cbn [mbind outcome_bind readline_loop].
  change (MAX_AT_RESPONSE - 0 =? 0)%nat with false. cbn match. cbn [mbind outcome_bind].
  rewrite read_fd_chunk by (done || (unfold MAX_AT_RESPONSE; cbn; lia)).
  change (put (0 :: b :: c :: stale ++ 0 :: junk) 0 prompt) with
    (put ([] ++ [0; b] ++ c :: stale ++ 0 :: junk) 0 prompt).
  rewrite put_over by done. cbn [mbind outcome_bind app].
  change (put (prompt ++ c :: stale ++ 0 :: junk) (0 + length prompt) [0]) with
    (put (prompt ++ [c] ++ stale ++ 0 :: junk) (length prompt) [0]).
  rewrite put_over by done. cbn [mbind outcome_bind].
  eexists. split; [reflexivity|].
  set (lb := mk_lb _ _).
  assert (next_line (stale ++ line ++ [13]) = Some (stale ++ line, [])) as Hnext.
  { rewrite app_assoc. apply next_line_whole; [by destruct stale|by apply Forall_app_2]. }
  destruct (readline_next lb stale [ReadData (line ++ [13])] [] (stale ++ line) [])
    as (lb' & s' & q & E & _).
  - split; [cbn in Hl |- *; by rewrite <- Hl|]. by exists junk.
  - cbn. rewrite app_nil_r. apply text_ok_app. split; [done|]. apply text_ok_app. split; [done|].
    by repeat constructor.
  - repeat constructor. cbn. by destruct line.
  - cbn. by rewrite app_nil_r.
  - unfold next_fits. cbn [delivered concat map]. rewrite app_nil_r, Hnext.
    rewrite !length_app. cbn [length]. lia.
  - exists lb', (s' ++ []). exact E.
Qed.

(** After a long line, a prompt and then [OK]: the command sees [G: 1OK]. *)
Lemma prompt_stale_bytes_witness :
  let buf := 13 :: 43 :: 67 :: s2b "G: 1" ++ 0 :: replicate (MAX_AT_RESPONSE - 7) 0 in
  exists lb, readline (mk_lb buf 7) [ReadData prompt; ReadData (s2b "OK" ++ [13])] =
      Ret (Some prompt, lb, [ReadData (s2b "OK" ++ [13])]) /\
    exists lb' script', readline lb [ReadData (s2b "OK" ++ [13])] = Ret (Some (s2b "G: 1" ++ s2b "OK"), lb', script').
Proof.
  apply (prompt_stale_bytes 13 43 67 (s2b "G: 1") (replicate (MAX_AT_RESPONSE - 7) 0) (s2b "OK") 7);
    [vm_compute; reflexivity|reflexivity|done|repeat constructor; done|repeat constructor; done
    |repeat constructor; done|repeat constructor; done|].
  apply Nat.ltb_lt. reflexivity.
Defined.
