(* ===== verification/HidIds.v ===== *)
(** * HID vendor and product numbers: [hid-ids.h]

    The numbers [hid-multitouch.c] names in its device table. *)

From S2P Require Import Prelude.

Definition USB_VENDOR_ID_3M : Z := 0x0596.
Definition USB_DEVICE_ID_3M1968 : Z := 0x0500.
Definition USB_DEVICE_ID_3M2256 : Z := 0x0502.
Definition USB_DEVICE_ID_3M3266 : Z := 0x0506.
Definition USB_VENDOR_ID_ACTIONSTAR : Z := 0x2101.
Definition USB_DEVICE_ID_ACTIONSTAR_1011 : Z := 0x1011.
Definition USB_VENDOR_ID_ATMEL : Z := 0x03eb.
Definition USB_DEVICE_ID_ATMEL_212C : Z := 0x212c.
Definition USB_VENDOR_ID_ASUS : Z := 0x0486.
Definition USB_DEVICE_ID_ASUS_T91MT : Z := 0x0185.
Definition USB_DEVICE_ID_ASUSTEK_MULTITOUCH_YFO : Z := 0x0186.
Definition USB_VENDOR_ID_CANDO : Z := 0x2087.
Definition USB_DEVICE_ID_CANDO_PIXCIR_MULTI_TOUCH : Z := 0x0703.
Definition USB_DEVICE_ID_CANDO_MULTI_TOUCH : Z := 0x0a01.
Definition USB_DEVICE_ID_CANDO_MULTI_TOUCH_10_1 : Z := 0x0a02.
Definition USB_DEVICE_ID_CANDO_MULTI_TOUCH_11_6 : Z := 0x0b03.
Definition USB_DEVICE_ID_CANDO_MULTI_TOUCH_15_6 : Z := 0x0f01.
Definition USB_VENDOR_ID_CHUNGHWAT : Z := 0x2247.
Definition USB_DEVICE_ID_CHUNGHWAT_MULTITOUCH : Z := 0x0001.
Definition USB_VENDOR_ID_CVTOUCH : Z := 0x1ff7.
Definition USB_DEVICE_ID_CVTOUCH_SCREEN : Z := 0x0013.
Definition USB_VENDOR_ID_CYPRESS : Z := 0x04b4.
Definition USB_DEVICE_ID_CYPRESS_TRUETOUCH : Z := 0xc001.
Definition USB_VENDOR_ID_DWAV : Z := 0x0eef.
Definition USB_DEVICE_ID_DWAV_EGALAX_MULTITOUCH_480D : Z := 0x480d.
Definition USB_DEVICE_ID_DWAV_EGALAX_MULTITOUCH_480E : Z := 0x480e.
Definition USB_DEVICE_ID_DWAV_EGALAX_MULTITOUCH_720C : Z := 0x720c.
Definition USB_DEVICE_ID_DWAV_EGALAX_MULTITOUCH_726B : Z := 0x726b.
Definition USB_DEVICE_ID_DWAV_EGALAX_MULTITOUCH_72A1 : Z := 0x72a1.
Definition USB_DEVICE_ID_DWAV_EGALAX_MULTITOUCH_72FA : Z := 0x72fa.
Definition USB_DEVICE_ID_DWAV_EGALAX_MULTITOUCH_7302 : Z := 0x7302.
Definition USB_DEVICE_ID_DWAV_EGALAX_MULTITOUCH_A001 : Z := 0xa001.
Definition USB_DEVICE_ID_DWAV_EGALAX_MULTITOUCH_A107 : Z := 0xa107.
Definition USB_VENDOR_ID_ELO : Z := 0x04E7.
Definition USB_DEVICE_ID_ELO_TS2515 : Z := 0x0022.
Definition USB_VENDOR_ID_GENERAL_TOUCH : Z := 0x0dfc.
Definition USB_DEVICE_ID_GENERAL_TOUCH_WIN7_TWOFINGERS : Z := 0x0003.
Definition USB_VENDOR_ID_GOODIX : Z := 0x27c6.
Definition USB_DEVICE_ID_GOODIX_0002 : Z := 0x0002.
Definition USB_VENDOR_ID_GOODTOUCH : Z := 0x1aad.
Definition USB_DEVICE_ID_GOODTOUCH_000f : Z := 0x000f.
Definition USB_VENDOR_ID_HANVON : Z := 0x20b3.
Definition USB_DEVICE_ID_HANVON_MULTITOUCH : Z := 0x0a18.
Definition USB_VENDOR_ID_ILITEK : Z := 0x222a.
Definition USB_DEVICE_ID_ILITEK_MULTITOUCH : Z := 0x0001.
Definition USB_VENDOR_ID_IRTOUCHSYSTEMS : Z := 0x6615.
Definition USB_DEVICE_ID_IRTOUCH_INFRARED_USB : Z := 0x0070.
Definition USB_VENDOR_ID_LG : Z := 0x1fd2.
Definition USB_DEVICE_ID_LG_MULTITOUCH : Z := 0x0064.
Definition USB_VENDOR_ID_LUMIO : Z := 0x202e.
Definition USB_DEVICE_ID_CRYSTALTOUCH : Z := 0x0006.
Definition USB_DEVICE_ID_CRYSTALTOUCH_DUAL : Z := 0x0007.
Definition USB_VENDOR_ID_MICROCHIP : Z := 0x04d8.
Definition USB_DEVICE_ID_MICROCHIP_F724 : Z := 0xf724.
Definition USB_VENDOR_ID_PENMOUNT : Z := 0x14e1.
Definition USB_DEVICE_ID_PENMOUNT_PCI : Z := 0x3500.
Definition USB_VENDOR_ID_STANTUM : Z := 0x1f87.
Definition USB_DEVICE_ID_MTP : Z := 0x0002.
Definition USB_VENDOR_ID_STANTUM_STM : Z := 0x0483.
Definition USB_DEVICE_ID_MTP_STM : Z := 0x3261.
Definition USB_VENDOR_ID_STANTUM_SITRONIX : Z := 0x1403.
Definition USB_DEVICE_ID_MTP_SITRONIX : Z := 0x5001.
Definition USB_VENDOR_ID_TOUCH_INTL : Z := 0x1e5e.
Definition USB_DEVICE_ID_TOUCH_INTL_MULTI_TOUCH : Z := 0x0313.
Definition USB_VENDOR_ID_TURBOX : Z := 0x062a.
Definition USB_DEVICE_ID_TURBOX_TOUCHSCREEN_MOSART : Z := 0x7100.
Definition USB_VENDOR_ID_UNITEC : Z := 0x227d.
Definition USB_DEVICE_ID_UNITEC_USB_TOUCH_0709 : Z := 0x0709.
Definition USB_DEVICE_ID_UNITEC_USB_TOUCH_0A19 : Z := 0x0a19.
