(* ===== verification/MtTouch.v ===== *)
(** * HID multitouch driver: [hid-multitouch.c]

    The device state, the class table, the mapping of the report descriptor,
    the processing of events into slots, and probing.  The numbers of the HID
    usages ([linux/hid.h]) are an interface; what the input layer, USB and hidraw
    are told is a list of effects. *)

From S2P Require Import Prelude HidIds.

(** ** Interface: the HID usages the driver distinguishes *)

Class hid_usages := {
  HID_USAGE_PAGE : Z;
  HID_UP_GENDESK : Z;
  HID_UP_DIGITIZER : Z;
  HID_DG_TOUCHSCREEN : Z;
  HID_DG_TOUCHPAD : Z;
  HID_GD_X : Z;
  HID_GD_Y : Z;
  HID_DG_INRANGE : Z;
  HID_DG_CONFIDENCE : Z;
  HID_DG_TIPSWITCH : Z;
  HID_DG_CONTACTID : Z;
  HID_DG_WIDTH : Z;
  HID_DG_HEIGHT : Z;
  HID_DG_TIPPRESSURE : Z;
  HID_DG_CONTACTCOUNT : Z;
  HID_DG_CONTACTMAX : Z;
  HID_DG_INPUTMODE : Z;
  (** they are different [case] labels *)
  hid_usages_distinct : NoDup [HID_GD_X; HID_GD_Y; HID_DG_INRANGE; HID_DG_CONFIDENCE; HID_DG_TIPSWITCH;
    HID_DG_CONTACTID; HID_DG_WIDTH; HID_DG_HEIGHT; HID_DG_TIPPRESSURE; HID_DG_CONTACTCOUNT;
    HID_DG_CONTACTMAX; HID_DG_INPUTMODE] }.

(** ** Data *)

Definition MT_QUIRK_NOT_SEEN_MEANS_UP : Z := 1.
Definition MT_QUIRK_SLOT_IS_CONTACTID : Z := 2.
Definition MT_QUIRK_CYPRESS : Z := 4.
Definition MT_QUIRK_SLOT_IS_CONTACTNUMBER : Z := 8.
Definition MT_QUIRK_VALID_IS_INRANGE : Z := 16.
Definition MT_QUIRK_VALID_IS_CONFIDENCE : Z := 32.
Definition MT_QUIRK_EGALAX_XYZ_FIXUP : Z := 64.
Definition MT_QUIRK_SLOT_IS_CONTACTID_MINUS_ONE : Z := 128.

Definition has_quirk (quirks q : Z) : bool := ctrue (quirks .& q).

Record mt_slot := mk_slot {
  slot_x : Z; slot_y : Z; slot_p : Z; slot_w : Z; slot_h : Z;
  contactid : Z;
  touch_state : bool;
  seen_in_this_frame : bool }.

Definition slot_zero : mt_slot := mk_slot 0 0 0 0 0 0 false false.

Definition set_x v s := mk_slot v (slot_y s) (slot_p s) (slot_w s) (slot_h s) (contactid s)
  (touch_state s) (seen_in_this_frame s).
Definition set_y v s := mk_slot (slot_x s) v (slot_p s) (slot_w s) (slot_h s) (contactid s)
  (touch_state s) (seen_in_this_frame s).
Definition set_p v s := mk_slot (slot_x s) (slot_y s) v (slot_w s) (slot_h s) (contactid s)
  (touch_state s) (seen_in_this_frame s).
Definition set_w v s := mk_slot (slot_x s) (slot_y s) (slot_p s) v (slot_h s) (contactid s)
  (touch_state s) (seen_in_this_frame s).
Definition set_h v s := mk_slot (slot_x s) (slot_y s) (slot_p s) (slot_w s) v (contactid s)
  (touch_state s) (seen_in_this_frame s).
Definition set_contactid v s := mk_slot (slot_x s) (slot_y s) (slot_p s) (slot_w s) (slot_h s) v
  (touch_state s) (seen_in_this_frame s).
Definition set_touch v s := mk_slot (slot_x s) (slot_y s) (slot_p s) (slot_w s) (slot_h s)
  (contactid s) v (seen_in_this_frame s).
Definition set_seen v s := mk_slot (slot_x s) (slot_y s) (slot_p s) (slot_w s) (slot_h s)
  (contactid s) (touch_state s) v.

Record mt_class := mk_class {
  cls_name : Z; cls_quirks : Z;
  sn_move : Z; sn_width : Z; sn_height : Z; sn_pressure : Z;
  cls_maxcontacts : Z }.

(** [slots] is NULL until probing has allocated it. *)
Record mt_device := mk_mt {
  curdata : mt_slot;
  mtclass : mt_class;
  last_field_index : Z;
  last_slot_field : Z;
  last_mt_collection : Z;
  inputmode : Z;
  num_received : Z;
  num_expected : Z;
  maxcontacts : Z;
  curvalid : bool;
  slots : option (list mt_slot) }.

Definition set_curdata v d := mk_mt v (mtclass d) (last_field_index d) (last_slot_field d)
  (last_mt_collection d) (inputmode d) (num_received d) (num_expected d) (maxcontacts d) (curvalid d) (slots d).
Definition set_last_field_index v d := mk_mt (curdata d) (mtclass d) v (last_slot_field d)
  (last_mt_collection d) (inputmode d) (num_received d) (num_expected d) (maxcontacts d) (curvalid d) (slots d).
Definition set_last_slot_field v d := mk_mt (curdata d) (mtclass d) (last_field_index d) v
  (last_mt_collection d) (inputmode d) (num_received d) (num_expected d) (maxcontacts d) (curvalid d) (slots d).
Definition set_last_mt_collection v d := mk_mt (curdata d) (mtclass d) (last_field_index d) (last_slot_field d)
  v (inputmode d) (num_received d) (num_expected d) (maxcontacts d) (curvalid d) (slots d).
Definition set_inputmode v d := mk_mt (curdata d) (mtclass d) (last_field_index d) (last_slot_field d)
  (last_mt_collection d) v (num_received d) (num_expected d) (maxcontacts d) (curvalid d) (slots d).
Definition set_num_received v d := mk_mt (curdata d) (mtclass d) (last_field_index d) (last_slot_field d)
  (last_mt_collection d) (inputmode d) v (num_expected d) (maxcontacts d) (curvalid d) (slots d).
Definition set_num_expected v d := mk_mt (curdata d) (mtclass d) (last_field_index d) (last_slot_field d)
  (last_mt_collection d) (inputmode d) (num_received d) v (maxcontacts d) (curvalid d) (slots d).
Definition set_maxcontacts v d := mk_mt (curdata d) (mtclass d) (last_field_index d) (last_slot_field d)
  (last_mt_collection d) (inputmode d) (num_received d) (num_expected d) v (curvalid d) (slots d).
Definition set_curvalid v d := mk_mt (curdata d) (mtclass d) (last_field_index d) (last_slot_field d)
  (last_mt_collection d) (inputmode d) (num_received d) (num_expected d) (maxcontacts d) v (slots d).
Definition set_slots v d := mk_mt (curdata d) (mtclass d) (last_field_index d) (last_slot_field d)
  (last_mt_collection d) (inputmode d) (num_received d) (num_expected d) (maxcontacts d) (curvalid d) v.

(** ** Classes of devices *)

Definition MT_CLS_DEFAULT : Z := 0x0001.
Definition MT_CLS_CONFIDENCE : Z := 0x0002.
Definition MT_CLS_CONFIDENCE_MINUS_ONE : Z := 0x0003.
Definition MT_CLS_DUAL_INRANGE_CONTACTID : Z := 0x0004.
Definition MT_CLS_DUAL_INRANGE_CONTACTNUMBER : Z := 0x0005.
Definition MT_CLS_DUAL_NSMU_CONTACTID : Z := 0x0006.
Definition MT_CLS_3M : Z := 0x0101.
Definition MT_CLS_CYPRESS : Z := 0x0102.
Definition MT_CLS_EGALAX : Z := 0x0103.

Definition MT_DEFAULT_MAXCONTACT : Z := 10.

Definition mt_class_default : mt_class := mk_class MT_CLS_DEFAULT MT_QUIRK_NOT_SEEN_MEANS_UP 0 0 0 0 0.

(** The table, up to its terminator. *)
Definition mt_classes : list mt_class := [
  mt_class_default;
  mk_class MT_CLS_CONFIDENCE MT_QUIRK_VALID_IS_CONFIDENCE 0 0 0 0 0;
  mk_class MT_CLS_CONFIDENCE_MINUS_ONE
    (MT_QUIRK_VALID_IS_CONFIDENCE .| MT_QUIRK_SLOT_IS_CONTACTID_MINUS_ONE) 0 0 0 0 0;
  mk_class MT_CLS_DUAL_INRANGE_CONTACTID
    (MT_QUIRK_VALID_IS_INRANGE .| MT_QUIRK_SLOT_IS_CONTACTID) 0 0 0 0 2;
  mk_class MT_CLS_DUAL_INRANGE_CONTACTNUMBER
    (MT_QUIRK_VALID_IS_INRANGE .| MT_QUIRK_SLOT_IS_CONTACTNUMBER) 0 0 0 0 2;
  mk_class MT_CLS_DUAL_NSMU_CONTACTID
    (MT_QUIRK_NOT_SEEN_MEANS_UP .| MT_QUIRK_SLOT_IS_CONTACTID) 0 0 0 0 2;
  mk_class MT_CLS_3M
    (MT_QUIRK_VALID_IS_CONFIDENCE .| MT_QUIRK_SLOT_IS_CONTACTID) 2048 128 128 0 0;
  mk_class MT_CLS_CYPRESS (MT_QUIRK_NOT_SEEN_MEANS_UP .| MT_QUIRK_CYPRESS) 0 0 0 0 10;
  mk_class MT_CLS_EGALAX
    (MT_QUIRK_SLOT_IS_CONTACTID .| MT_QUIRK_VALID_IS_INRANGE .| MT_QUIRK_EGALAX_XYZ_FIXUP)
    4096 0 0 32 2].

Record hid_device_id := mk_id { driver_data : Z; id_vendor : Z; id_product : Z }.

Definition mt_devices : list hid_device_id := [
  mk_id MT_CLS_3M USB_VENDOR_ID_3M USB_DEVICE_ID_3M1968;
  mk_id MT_CLS_3M USB_VENDOR_ID_3M USB_DEVICE_ID_3M2256;
  mk_id MT_CLS_3M USB_VENDOR_ID_3M USB_DEVICE_ID_3M3266;
  mk_id MT_CLS_DEFAULT USB_VENDOR_ID_ACTIONSTAR USB_DEVICE_ID_ACTIONSTAR_1011;
  mk_id MT_CLS_DEFAULT USB_VENDOR_ID_ATMEL USB_DEVICE_ID_ATMEL_212C;
  mk_id MT_CLS_DUAL_INRANGE_CONTACTNUMBER USB_VENDOR_ID_CANDO USB_DEVICE_ID_CANDO_MULTI_TOUCH;
  mk_id MT_CLS_DUAL_INRANGE_CONTACTNUMBER USB_VENDOR_ID_CANDO USB_DEVICE_ID_CANDO_MULTI_TOUCH_10_1;
  mk_id MT_CLS_DUAL_INRANGE_CONTACTNUMBER USB_VENDOR_ID_CANDO USB_DEVICE_ID_CANDO_MULTI_TOUCH_11_6;
  mk_id MT_CLS_DUAL_INRANGE_CONTACTNUMBER USB_VENDOR_ID_CANDO USB_DEVICE_ID_CANDO_MULTI_TOUCH_15_6;
  mk_id MT_CLS_DEFAULT USB_VENDOR_ID_DWAV USB_DEVICE_ID_DWAV_EGALAX_MULTITOUCH_A107;
  mk_id MT_CLS_DEFAULT USB_VENDOR_ID_CHUNGHWAT USB_DEVICE_ID_CHUNGHWAT_MULTITOUCH;
  mk_id MT_CLS_DEFAULT USB_VENDOR_ID_CVTOUCH USB_DEVICE_ID_CVTOUCH_SCREEN;
  mk_id MT_CLS_CYPRESS USB_VENDOR_ID_CYPRESS USB_DEVICE_ID_CYPRESS_TRUETOUCH;
  mk_id MT_CLS_EGALAX USB_VENDOR_ID_DWAV USB_DEVICE_ID_DWAV_EGALAX_MULTITOUCH_480D;
  mk_id MT_CLS_EGALAX USB_VENDOR_ID_DWAV USB_DEVICE_ID_DWAV_EGALAX_MULTITOUCH_480E;
  mk_id MT_CLS_EGALAX USB_VENDOR_ID_DWAV USB_DEVICE_ID_DWAV_EGALAX_MULTITOUCH_720C;
  mk_id MT_CLS_EGALAX USB_VENDOR_ID_DWAV USB_DEVICE_ID_DWAV_EGALAX_MULTITOUCH_726B;
  mk_id MT_CLS_EGALAX USB_VENDOR_ID_DWAV USB_DEVICE_ID_DWAV_EGALAX_MULTITOUCH_72A1;
  mk_id MT_CLS_EGALAX USB_VENDOR_ID_DWAV USB_DEVICE_ID_DWAV_EGALAX_MULTITOUCH_72FA;
  mk_id MT_CLS_EGALAX USB_VENDOR_ID_DWAV USB_DEVICE_ID_DWAV_EGALAX_MULTITOUCH_7302;
  mk_id MT_CLS_EGALAX USB_VENDOR_ID_DWAV USB_DEVICE_ID_DWAV_EGALAX_MULTITOUCH_A001;
  mk_id MT_CLS_DUAL_NSMU_CONTACTID USB_VENDOR_ID_ELO USB_DEVICE_ID_ELO_TS2515;
  mk_id MT_CLS_DUAL_INRANGE_CONTACTNUMBER USB_VENDOR_ID_GENERAL_TOUCH USB_DEVICE_ID_GENERAL_TOUCH_WIN7_TWOFINGERS;
  mk_id MT_CLS_DEFAULT USB_VENDOR_ID_GOODIX USB_DEVICE_ID_GOODIX_0002;
  mk_id MT_CLS_DEFAULT USB_VENDOR_ID_GOODTOUCH USB_DEVICE_ID_GOODTOUCH_000f;
  mk_id MT_CLS_DEFAULT USB_VENDOR_ID_ILITEK USB_DEVICE_ID_ILITEK_MULTITOUCH;
  mk_id MT_CLS_DUAL_INRANGE_CONTACTID USB_VENDOR_ID_IRTOUCHSYSTEMS USB_DEVICE_ID_IRTOUCH_INFRARED_USB;
  mk_id MT_CLS_DEFAULT USB_VENDOR_ID_LG USB_DEVICE_ID_LG_MULTITOUCH;
  mk_id MT_CLS_CONFIDENCE_MINUS_ONE USB_VENDOR_ID_LUMIO USB_DEVICE_ID_CRYSTALTOUCH;
  mk_id MT_CLS_CONFIDENCE_MINUS_ONE USB_VENDOR_ID_LUMIO USB_DEVICE_ID_CRYSTALTOUCH_DUAL;
  mk_id MT_CLS_DEFAULT USB_VENDOR_ID_MICROCHIP USB_DEVICE_ID_MICROCHIP_F724;
  mk_id MT_CLS_CONFIDENCE_MINUS_ONE USB_VENDOR_ID_ASUS USB_DEVICE_ID_ASUS_T91MT;
  mk_id MT_CLS_CONFIDENCE_MINUS_ONE USB_VENDOR_ID_ASUS USB_DEVICE_ID_ASUSTEK_MULTITOUCH_YFO;
  mk_id MT_CLS_CONFIDENCE_MINUS_ONE USB_VENDOR_ID_TURBOX USB_DEVICE_ID_TURBOX_TOUCHSCREEN_MOSART;
  mk_id MT_CLS_CONFIDENCE USB_VENDOR_ID_PENMOUNT USB_DEVICE_ID_PENMOUNT_PCI;
  mk_id MT_CLS_DUAL_INRANGE_CONTACTID USB_VENDOR_ID_HANVON USB_DEVICE_ID_HANVON_MULTITOUCH;
  mk_id MT_CLS_DUAL_INRANGE_CONTACTID USB_VENDOR_ID_CANDO USB_DEVICE_ID_CANDO_PIXCIR_MULTI_TOUCH;
  mk_id MT_CLS_CONFIDENCE USB_VENDOR_ID_STANTUM USB_DEVICE_ID_MTP;
  mk_id MT_CLS_CONFIDENCE USB_VENDOR_ID_STANTUM_STM USB_DEVICE_ID_MTP_STM;
  mk_id MT_CLS_CONFIDENCE USB_VENDOR_ID_STANTUM_SITRONIX USB_DEVICE_ID_MTP_SITRONIX;
  mk_id MT_CLS_DEFAULT USB_VENDOR_ID_TOUCH_INTL USB_DEVICE_ID_TOUCH_INTL_MULTI_TOUCH;
  mk_id MT_CLS_DEFAULT USB_VENDOR_ID_UNITEC USB_DEVICE_ID_UNITEC_USB_TOUCH_0709;
  mk_id MT_CLS_DEFAULT USB_VENDOR_ID_UNITEC USB_DEVICE_ID_UNITEC_USB_TOUCH_0A19].

(** ** Effects on the input layer and on the device *)

Inductive ev_code :=
| ABS_X | ABS_Y | ABS_PRESSURE
| ABS_MT_POSITION_X | ABS_MT_POSITION_Y | ABS_MT_TOUCH_MAJOR | ABS_MT_TOUCH_MINOR
| ABS_MT_ORIENTATION | ABS_MT_PRESSURE
| BTN_TOUCH.

Inductive ev_type := EV_KEY | EV_ABS | EV_OTHER.

Inductive effect :=
| MtSlot (i : Z)                              (** [input_mt_slot] *)
| MtSlotState (touch : bool)                  (** [input_mt_report_slot_state] *)
| InputEvent (c : ev_code) (v : Z)            (** [input_event(EV_ABS)] *)
| PointerEmulation
| InputSync
| HiddevEvent (hid v : Z)
| PropDirect
| PropPointer
| MapUsage (c : ev_code)                      (** [hid_map_usage] *)
| AbsParams (c : ev_code) (fmin fmax fuzz : Z)
| KeyCapability (c : ev_code)
| EvBit (type : ev_type)                       (** [set_bit] in [evbit] *)
| InitSlots (n : Z)                           (** [input_mt_init_slots] *)
| SubmitFeature (id v : Z)                    (** [usbhid_submit_report] of [value[0]] *)
| HwStop.

(** ** Which slot a contact goes to *)

Definition cypress_compute_slot (td : mt_device) : Z :=
  if negb (contactid (curdata td) =? 0) || (num_received td =? 0) then contactid (curdata td) else -1.

(** [for (i = 0; i < td->maxcontacts; ++i) if (..) return i;] *)
Fixpoint find_slot (n : nat) (i : Z) (p : mt_slot -> bool) (l : list mt_slot) : outcome (option Z) :=
  match n with
  | O => Ret None
  | S n => s ← arr_rd l i; if p s then Ret (Some i) else find_slot n (i + 1) p l
  end.

(** [td->slots]: never NULL where it is used. *)
Definition find_slot_from_contactid (td : mt_device) : outcome Z :=
  l ← checked (slots td);
  let n := Z.to_nat (maxcontacts td) in
  known ← find_slot n 0 (fun s => (contactid s =? contactid (curdata td)) && touch_state s) l;
  match known with
  | Some i => Ret i
  | None =>
    free ← find_slot n 0 (fun s => negb (seen_in_this_frame s) && negb (touch_state s)) l;
    Ret (default (-1) free)
  end.

Definition mt_compute_slot (td : mt_device) : outcome Z :=
  let quirks := cls_quirks (mtclass td) in
  if has_quirk quirks MT_QUIRK_SLOT_IS_CONTACTID then Ret (contactid (curdata td))
  else if has_quirk quirks MT_QUIRK_CYPRESS then Ret (cypress_compute_slot td)
  else if has_quirk quirks MT_QUIRK_SLOT_IS_CONTACTNUMBER then Ret (num_received td)
  else if has_quirk quirks MT_QUIRK_SLOT_IS_CONTACTID_MINUS_ONE
  then Ret (s32 (contactid (curdata td) - 1))
  else find_slot_from_contactid td.

(** ** Events *)

Definition mt_complete_slot (td : mt_device) : outcome mt_device :=
  let td := set_curdata (set_seen true (curdata td)) td in
  td ← (if curvalid td then
          slotnum ← mt_compute_slot td;
          if (0 <=? slotnum) && (slotnum <? maxcontacts td) then
            l ← checked (slots td);
            l ← arr_wr l slotnum (curdata td);
            Ret (set_slots (Some l) td)
          else Ret td
        else Ret td);
  Ret (set_num_received (u8 (num_received td + 1)) td).

(** What is reported of one slot; the widths are halved arithmetically. *)
Definition slot_effects (i : Z) (s : mt_slot) : list effect :=
  MtSlot i :: MtSlotState (touch_state s) ::
  (if touch_state s then
     [InputEvent ABS_MT_POSITION_X (slot_x s);
      InputEvent ABS_MT_POSITION_Y (slot_y s);
      InputEvent ABS_MT_ORIENTATION (b2z (slot_h s <? slot_w s));
      InputEvent ABS_MT_PRESSURE (slot_p s);
      InputEvent ABS_MT_TOUCH_MAJOR (Z.max (slot_w s) (slot_h s) ≫ 1);
      InputEvent ABS_MT_TOUCH_MINOR (Z.min (slot_w s) (slot_h s) ≫ 1)]
   else []).

(** [s->touch_state = false] for a slot not seen, if the class says so. *)
Definition release_unseen (quirks : Z) (s : mt_slot) : mt_slot :=
  if has_quirk quirks MT_QUIRK_NOT_SEEN_MEANS_UP && negb (seen_in_this_frame s)
  then set_touch false s else s.

(** [for (i = 0; i < td->maxcontacts; ++i)], [n] rounds left. *)
Fixpoint emit_slots (n : nat) (i quirks : Z) (l : list mt_slot) : outcome (list mt_slot * list effect) :=
  match n with
  | O => Ret (l, [])
  | S n =>
    s ← arr_rd l i;
    let s := release_unseen quirks s in
    l ← arr_wr l i (set_seen false s);
    '(l, e) ← emit_slots n (i + 1) quirks l;
    Ret (l, slot_effects i s ++ e)
  end.

Definition mt_emit_event (td : mt_device) : outcome (mt_device * list effect) :=
  l ← checked (slots td);
  '(l, e) ← emit_slots (Z.to_nat (maxcontacts td)) 0 (cls_quirks (mtclass td)) l;
  Ret (set_num_received 0 (set_slots (Some l) td), e ++ [PointerEmulation; InputSync]).

(** What claims the device: the input layer; hiddev, with its event hook. *)
Record hid_claims := mk_claims { claimed_input : bool; claimed_hiddev : bool; hiddev_hook : bool }.

Section usages.
Context {U : hid_usages}.

(** The [switch] of [mt_event]; [None]: left to the generic handling. *)
Definition mt_event_switch (hid value : Z) (td : mt_device) : option mt_device :=
  let quirks := cls_quirks (mtclass td) in
  let v := ctrue value in
  let cur f := Some (set_curdata (f (curdata td)) td) in
  if hid =? HID_DG_INRANGE then
    Some (if has_quirk quirks MT_QUIRK_VALID_IS_INRANGE then set_curvalid v td else td)
  else if hid =? HID_DG_TIPSWITCH then
    let td := if has_quirk quirks MT_QUIRK_NOT_SEEN_MEANS_UP then set_curvalid v td else td in
    Some (set_curdata (set_touch v (curdata td)) td)
  else if hid =? HID_DG_CONFIDENCE then
    Some (if has_quirk quirks MT_QUIRK_VALID_IS_CONFIDENCE then set_curvalid v td else td)
  else if hid =? HID_DG_CONTACTID then cur (set_contactid value)
  else if hid =? HID_DG_TIPPRESSURE then cur (set_p value)
  else if hid =? HID_GD_X then cur (set_x value)
  else if hid =? HID_GD_Y then cur (set_y value)
  else if hid =? HID_DG_WIDTH then cur (set_w value)
  else if hid =? HID_DG_HEIGHT then cur (set_h value)
  else if hid =? HID_DG_CONTACTCOUNT then
    Some (if v then set_num_expected (u8 value) td else td)
  else None.

(** The result, the device and what was reported. *)
Definition mt_event (c : hid_claims) (field_index hid value : Z) (td : mt_device)
  : outcome (Z * mt_device * list effect) :=
  let hiddev := if claimed_hiddev c && hiddev_hook c then [HiddevEvent hid value] else [] in
  match claimed_input c, slots td with
  | true, Some _ =>
    match mt_event_switch hid value td with
    | None => Ret (0, td, [])
    | Some td =>
      td ← (if hid =? last_slot_field td then mt_complete_slot td else Ret td);
      '(td, e) ← (if (field_index =? last_field_index td) && (num_expected td <=? num_received td)
                  then mt_emit_event td else Ret (td, []));
      Ret (1, td, e ++ hiddev)
    end
  | _, _ => Ret (1, td, hiddev)
  end.

(** ** Mapping of the report descriptor *)

Record hid_field := mk_field {
  application : Z; field_index : Z; report_id : Z; field_value0 : Z;
  logical_minimum : Z; logical_maximum : Z }.

Definition set_logical_minimum v f := mk_field (application f) (field_index f) (report_id f)
  (field_value0 f) v (logical_maximum f).
Definition set_logical_maximum v f := mk_field (application f) (field_index f) (report_id f)
  (field_value0 f) (logical_minimum f) v.

Definition s8 (x : Z) : Z := (x + 128) mod 256 - 128.

Definition mt_feature_mapping (f : hid_field) (hid : Z) (td : mt_device) : mt_device :=
  if hid =? HID_DG_INPUTMODE then set_inputmode (s8 (report_id f)) td
  else if hid =? HID_DG_CONTACTMAX then
    let td := set_maxcontacts (u8 (field_value0 f)) td in
    if ctrue (cls_maxcontacts (mtclass td)) then set_maxcontacts (cls_maxcontacts (mtclass td)) td else td
  else td.

Definition set_abs (c : ev_code) (f : hid_field) (snratio : Z) : effect :=
  let fmin := logical_minimum f in
  let fmax := logical_maximum f in
  AbsParams c fmin fmax (if ctrue snratio then Z.quot (s32 (fmax - fmin)) snratio else 0).

(** [if (td->last_mt_collection == usage->collection_index)]: this field is now
    the last one of a contact. *)
Definition note_slot_field (hid collection_index : Z) (f : hid_field) (td : mt_device) : mt_device :=
  if last_mt_collection td =? collection_index
  then set_last_field_index (field_index f) (set_last_slot_field hid td) else td.

Definition note_field (collection_index : Z) (f : hid_field) (td : mt_device) : mt_device :=
  if last_mt_collection td =? collection_index then set_last_field_index (field_index f) td else td.

(** The result: the mapping code, the device, the field and the effects. *)
Definition mt_input_mapping (f : hid_field) (hid collection_index : Z) (td : mt_device)
  : Z * mt_device * hid_field * list effect :=
  let cls := mtclass td in
  let egalax := has_quirk (cls_quirks cls) MT_QUIRK_EGALAX_XYZ_FIXUP in
  let slot_field := note_slot_field hid collection_index f td in
  let mapped (prop : effect) :=
    let page := hid .& HID_USAGE_PAGE in
    if page =? HID_UP_GENDESK then
      if hid =? HID_GD_X then
        let f := if egalax then set_logical_maximum 32760 f else f in
        (1, slot_field, f, [prop; MapUsage ABS_MT_POSITION_X; set_abs ABS_MT_POSITION_X f (sn_move cls);
                            set_abs ABS_X f (sn_move cls)])
      else if hid =? HID_GD_Y then
        let f := if egalax then set_logical_maximum 32760 f else f in
        (1, slot_field, f, [prop; MapUsage ABS_MT_POSITION_Y; set_abs ABS_MT_POSITION_Y f (sn_move cls);
                            set_abs ABS_Y f (sn_move cls)])
      else (0, td, f, [prop])
    else if page =? HID_UP_DIGITIZER then
      if (hid =? HID_DG_INRANGE) || (hid =? HID_DG_CONFIDENCE) then (1, slot_field, f, [prop])
      else if hid =? HID_DG_TIPSWITCH then
        (1, slot_field, f, [prop; MapUsage BTN_TOUCH; KeyCapability BTN_TOUCH])
      else if hid =? HID_DG_CONTACTID then
        let td := if ctrue (maxcontacts td) then td else set_maxcontacts MT_DEFAULT_MAXCONTACT td in
        (1, set_last_mt_collection collection_index
              (set_last_field_index (field_index f) (set_last_slot_field hid td)), f,
         [prop; InitSlots (maxcontacts td)])
      else if hid =? HID_DG_WIDTH then
        (1, slot_field, f, [prop; MapUsage ABS_MT_TOUCH_MAJOR; set_abs ABS_MT_TOUCH_MAJOR f (sn_width cls)])
      else if hid =? HID_DG_HEIGHT then
        (1, slot_field, f, [prop; MapUsage ABS_MT_TOUCH_MINOR; set_abs ABS_MT_TOUCH_MINOR f (sn_height cls);
                            AbsParams ABS_MT_ORIENTATION 0 1 0])
      else if hid =? HID_DG_TIPPRESSURE then
        let f := if egalax then set_logical_minimum 0 f else f in
        (1, slot_field, f, [prop; MapUsage ABS_MT_PRESSURE; set_abs ABS_MT_PRESSURE f (sn_pressure cls);
                            set_abs ABS_PRESSURE f (sn_pressure cls)])
      else if hid =? HID_DG_CONTACTCOUNT then (1, note_field collection_index f td, f, [prop])
      else if hid =? HID_DG_CONTACTMAX then (-1, note_field collection_index f td, f, [prop])
      else (0, td, f, [prop])
    else if page =? 0xff000000 then (-1, td, f, [prop])
    else (0, td, f, [prop]) in
  if application f =? HID_DG_TOUCHSCREEN then mapped PropDirect
  else if application f =? HID_DG_TOUCHPAD then mapped PropPointer
  else (0, td, f, []).

(** ** Probing *)

(** The kinds of events the touches need are switched on, and the core's own mapping is
    refused. *)
Definition mt_input_mapped (type : ev_type) : Z * list effect :=
  (-1, match type with EV_KEY | EV_ABS => [EvBit type] | EV_OTHER => [] end).

(** A feature report is registered under its id, if there is one. *)
Definition mt_set_input_mode (report_exists : Z -> bool) (td : mt_device) : list effect :=
  if inputmode td <? 0 then []
  else if report_exists (inputmode td) then [SubmitFeature (inputmode td) 0x02] else [].

(** [for (i = 0; mt_classes[i].name ; i++)] *)
Fixpoint find_class (name : Z) (l : list mt_class) : mt_class :=
  match l with
  | [] => mt_class_default
  | c :: l => if name =? cls_name c then c else find_class name l
  end.

(** What the HID core calls while it starts the device. *)
Inductive callback :=
| Feature (f : hid_field) (hid : Z) | Input (f : hid_field) (hid collection_index : Z) | Mapped (type : ev_type).

Definition run_callback (cb : callback) (st : mt_device * list effect) : mt_device * list effect :=
  let '(td, e) := st in
  match cb with
  | Feature f hid => (mt_feature_mapping f hid td, e)
  | Input f hid ci => let '(_, td, _, e') := mt_input_mapping f hid ci td in (td, e ++ e')
  | Mapped type => (td, e ++ snd (mt_input_mapped type))
  end.

Definition ENOMEM : Z := 12.

Definition mt_new (cls : mt_class) : mt_device :=
  mk_mt slot_zero cls 0 0 (-1) (-1) 0 0 0 false None.

(** The result, the driver data (freed on failure) and the effects.  The two
    allocations may fail; [hid_parse] and [hid_hw_start] are given by their
    results and the callbacks the latter makes. *)
Definition mt_probe (alloc_td alloc_slots : bool) (parse_ret start_ret : Z) (cbs : list callback)
  (report_exists : Z -> bool) (id_driver_data : Z) : Z * option mt_device * list effect :=
  let cls := find_class id_driver_data mt_classes in
  if negb alloc_td then (- ENOMEM, None, [])
  else
    let td := mt_new cls in
    if negb (parse_ret =? 0) then (parse_ret, None, [])
    else
      let '(td, e) := fold_left (fun st cb => run_callback cb st) cbs (td, []) in
      if negb (start_ret =? 0) then (start_ret, None, e)
      else if negb alloc_slots then (- ENOMEM, None, e ++ [HwStop])
      else
        let td := set_slots (Some (replicate (Z.to_nat (maxcontacts td)) slot_zero)) td in
        (0, Some td, e ++ mt_set_input_mode report_exists td).

Definition mt_reset_resume (report_exists : Z -> bool) (td : mt_device) : Z * list effect :=
  (0, mt_set_input_mode report_exists td).

Definition mt_remove (td : mt_device) : list effect := [HwStop].
End usages.

(** ** Specification *)

Fixpoint index_of {A} (p : A -> bool) (l : list A) : option nat :=
  match l with
  | [] => None
  | x :: l => if p x then Some 0%nat else S <$> index_of p l
  end.

Definition holds_contact (id : Z) (s : mt_slot) : bool := (contactid s =? id) && touch_state s.
Definition free_slot (s : mt_slot) : bool := negb (seen_in_this_frame s) && negb (touch_state s).

(** The slot a contact belongs to: the one that holds it, or a free one. *)
Definition slot_for_contact (id : Z) (l : list mt_slot) : option nat :=
  match index_of (holds_contact id) l with
  | Some i => Some i
  | None => index_of free_slot l
  end.

Definition slot_number (quirks received : Z) (c : mt_slot) (l : list mt_slot) : Z :=
  if has_quirk quirks MT_QUIRK_SLOT_IS_CONTACTID then contactid c
  else if has_quirk quirks MT_QUIRK_CYPRESS then
    if negb (contactid c =? 0) || (received =? 0) then contactid c else -1
  else if has_quirk quirks MT_QUIRK_SLOT_IS_CONTACTNUMBER then received
  else if has_quirk quirks MT_QUIRK_SLOT_IS_CONTACTID_MINUS_ONE then s32 (contactid c - 1)
  else match slot_for_contact (contactid c) l with Some i => Z.of_nat i | None => -1 end.

Definition assign (quirks received : Z) (c : mt_slot) (l : list mt_slot) : list mt_slot :=
  let k := slot_number quirks received c l in
  if (0 <=? k) && (k <? Z.of_nat (length l)) then <[Z.to_nat k := c]> l else l.

(** A frame ends: slots as reported, and as kept. *)
Definition reported (quirks : Z) (l : list mt_slot) : list mt_slot := map (release_unseen quirks) l.

Fixpoint report (i : Z) (l : list mt_slot) : list effect :=
  match l with
  | [] => []
  | s :: l => slot_effects i s ++ report (i + 1) l
  end.

Definition mt_wf (td : mt_device) : Prop :=
  0 <= maxcontacts td < 256 /\ forall l, slots td = Some l -> Z.of_nat (length l) = maxcontacts td.

(** Events of one device, in the order received. *)
Section events.
Context {U : hid_usages}.

Fixpoint run_events (c : hid_claims) (evs : list (Z * Z * Z)) (td : mt_device)
  : outcome (mt_device * list effect) :=
  match evs with
  | [] => Ret (td, [])
  | (idx, hid, v) :: evs =>
    '(_, td, e) ← mt_event c idx hid v td;
    '(td, e') ← run_events c evs td;
    Ret (td, e ++ e')
  end.
End events.

(** ** Lemmas: searching *)

Lemma index_of_Some {A} (p : A -> bool) l k :
  index_of p l = Some k <->
  exists x, l !! k = Some x /\ p x = true /\ forall j y, (j < k)%nat -> l !! j = Some y -> p y = false.
Proof.
  revert k; induction l as [|x l IH]; intros k; cbn.
  - split; [done|]. by intros (x & ? & _).
  - destruct (p x) eqn:E.
    + split.
      * intros [= <-]. exists x. repeat split; try done. intros j y Hj. lia.
      * intros (y & Hy & Hp & Hf). destruct k as [|k]; [done|].
        rewrite (Hf 0%nat x ltac:(lia) eq_refl) in E. done.
    + split.
      * intros H. destruct (index_of p l) as [k'|] eqn:Ek; [|done]. injection H as <-.
        destruct (proj1 (IH k') eq_refl) as (y & Hy & Hp & Hf). exists y. repeat split; try done.
        intros [|j] z Hj Hz; [by injection Hz as ->|]. apply (Hf j z); [lia|done].
      * intros (y & Hy & Hp & Hf). destruct k as [|k]; [cbn in Hy; congruence|].
        rewrite (proj2 (IH k)); [done|]. exists y. repeat split; try done.
        intros j z Hj Hz. apply (Hf (S j) z); [lia|done].
Qed.

Lemma index_of_None {A} (p : A -> bool) l : index_of p l = None <-> Forall (fun x => p x = false) l.
Proof.
  induction l as [|x l IH]; cbn; [split; [constructor|done]|]. destruct (p x) eqn:E.
  - split; [done|]. intros H. apply Forall_cons in H as [H _]. congruence.
  - rewrite Forall_cons, <- IH. destruct (index_of p l); cbn; split; try done. by intros [].
Qed.

Lemma find_slot_index p l1 l2 :
  find_slot (length l2) (Z.of_nat (length l1)) p (l1 ++ l2) =
  Ret ((fun k => Z.of_nat (length l1 + k)) <$> index_of p l2).
Proof.
  revert l1; induction l2 as [|s l2 IH]; intros l1; cbn [length find_slot index_of]; [done|].
  rewrite arr_rd_at. cbn [mbind outcome_bind]. destruct (p s); [cbn; do 2 f_equal; lia|].
  rewrite (app_cons1 l1 s l2). replace (Z.of_nat (length l1) + 1) with (Z.of_nat (length (l1 ++ [s])))
    by (rewrite length_app; cbn [length]; lia).
  rewrite IH. f_equal. rewrite length_app. cbn [length].
  destruct (index_of p l2); cbn; [|done]. f_equal. lia.
Qed.

Lemma find_slot_all p l : find_slot (length l) 0 p l = Ret (Z.of_nat <$> index_of p l).
Proof.
  pose proof (find_slot_index p [] l) as H. change (Z.of_nat (length [])) with 0 in H. cbn [app] in H.
  rewrite H. by destruct (index_of p l).
Qed.

Lemma mt_compute_slot_spec td l :
  mt_wf td -> slots td = Some l ->
  mt_compute_slot td = Ret (slot_number (cls_quirks (mtclass td)) (num_received td) (curdata td) l).
Proof.
  intros [Hm Hl] Es. specialize (Hl l Es). unfold mt_compute_slot, slot_number.
  do 4 (destruct (has_quirk _ _); [done|]). unfold find_slot_from_contactid, slot_for_contact. rewrite Es, <- Hl, Nat2Z.id.
  cbn [checked mbind outcome_bind]. rewrite !find_slot_all. cbn [mbind outcome_bind].
  change (fun s => (contactid s =? contactid (curdata td)) && touch_state s)
    with (holds_contact (contactid (curdata td))).
  change (fun s => negb (seen_in_this_frame s) && negb (touch_state s)) with free_slot.
  destruct (index_of (holds_contact _) l); [done|]. by destruct (index_of free_slot l).
Qed.

(** A contact completed: the device, in terms of [assign]. *)
Definition completed (td : mt_device) (l : list mt_slot) : mt_device :=
  let c := set_seen true (curdata td) in
  set_num_received (u8 (num_received td + 1))
    (set_slots (Some (if curvalid td then assign (cls_quirks (mtclass td)) (num_received td) c l else l))
       (set_curdata c td)).

Lemma set_slots_same td l : slots td = Some l -> set_slots (Some l) td = td.
Proof. destruct td; cbn. by intros ->. Qed.

Lemma mt_complete_slot_spec td l :
  mt_wf td -> slots td = Some l -> mt_complete_slot td = Ret (completed td l).
Proof.
  intros Hwf Es. pose proof Hwf as [Hm Hl]. specialize (Hl l Es). unfold mt_complete_slot, completed.
  set (c := set_seen true (curdata td)). set (td1 := set_curdata c td).
  assert (mt_wf td1) as Hwf1 by done. assert (slots td1 = Some l) as Es1 by done.
  change (curvalid td1) with (curvalid td). destruct (curvalid td); [|by rewrite set_slots_same].
  rewrite (mt_compute_slot_spec td1 l Hwf1 Es1). cbn [mbind outcome_bind].
  change (mtclass td1) with (mtclass td). change (num_received td1) with (num_received td).
  change (curdata td1) with c. unfold assign. change (maxcontacts td1) with (maxcontacts td). rewrite Hl.
  set (k := slot_number _ _ _ _). destruct ((0 <=? k) && (k <? maxcontacts td)) eqn:Ek.
  - zbool. rewrite Es1. cbn [checked mbind outcome_bind]. rewrite arr_wr_in by lia. done.
  - cbn [mbind outcome_bind]. by rewrite set_slots_same.
Qed.

Lemma emit_slots_spec q l1 l2 :
  emit_slots (length l2) (Z.of_nat (length l1)) q (l1 ++ l2) =
  Ret (l1 ++ map (set_seen false) (reported q l2), report (Z.of_nat (length l1)) (reported q l2)).
Proof.
  revert l1; induction l2 as [|s l2 IH]; intros l1; cbn [length emit_slots reported map report]; [done|].
  rewrite arr_rd_at. cbn [mbind outcome_bind]. rewrite arr_wr_at. cbn [mbind outcome_bind].
  rewrite (app_cons1 l1 (set_seen false _)).
  replace (Z.of_nat (length l1) + 1) with (Z.of_nat (length (l1 ++ [set_seen false (release_unseen q s)])))
    by (rewrite length_app; cbn [length]; lia).
  rewrite IH. cbn [mbind outcome_bind]. by rewrite <- app_assoc.
Qed.

(** A frame emitted. *)
Definition emitted (td : mt_device) (l : list mt_slot) : mt_device :=
  set_num_received 0
    (set_slots (Some (map (set_seen false) (reported (cls_quirks (mtclass td)) l))) td).

Lemma mt_emit_event_spec td l :
  mt_wf td -> slots td = Some l ->
  mt_emit_event td = Ret (emitted td l,
    report 0 (reported (cls_quirks (mtclass td)) l) ++ [PointerEmulation; InputSync]).
Proof.
  intros [Hm Hl] Es. specialize (Hl l Es). unfold mt_emit_event. rewrite Es, <- Hl, Nat2Z.id.
  cbn [checked mbind outcome_bind]. pose proof (emit_slots_spec (cls_quirks (mtclass td)) [] l) as H.
  cbn [app length] in H. change (Z.of_nat 0) with 0 in H. by rewrite H.
Qed.

Lemma assign_length q r c l : length (assign q r c l) = length l.
Proof. unfold assign. case_match; [apply length_insert|done]. Qed.

Lemma completed_wf td l : mt_wf td -> slots td = Some l -> mt_wf (completed td l).
Proof.
  intros [Hm Hl] Es. split; [done|]. cbn. intros l' [= <-].
  case_match; rewrite ?assign_length; by apply Hl.
Qed.

Lemma emitted_wf td l : mt_wf td -> slots td = Some l -> mt_wf (emitted td l).
Proof.
  intros [Hm Hl] Es. split; [done|]. cbn. intros l' [= <-]. unfold reported.
  rewrite !length_map. by apply Hl.
Qed.

(** ** Lemmas: events *)

(** [td'] differs from [td] only in the incoming contact and the expected count. *)
Definition same_frame (td td' : mt_device) : Prop :=
  slots td' = slots td /\ mtclass td' = mtclass td /\ num_received td' = num_received td /\
  maxcontacts td' = maxcontacts td /\ last_slot_field td' = last_slot_field td /\
  last_field_index td' = last_field_index td.

Lemma same_frame_refl td : same_frame td td.
Proof. done. Qed.

Section event_lemmas.
Context {U : hid_usages}.

Lemma mt_event_switch_frame hid v td td' :
  mt_event_switch hid v td = Some td' -> same_frame td td'.
Proof.
  unfold mt_event_switch. repeat (case_match; [intros [= <-]; by repeat case_match|]). done.
Qed.

Definition hiddev_effects (c : hid_claims) (hid v : Z) : list effect :=
  if claimed_hiddev c && hiddev_hook c then [HiddevEvent hid v] else [].

(** An event the driver handles: the contact, then perhaps the frame, ends. *)
Lemma mt_event_spec c idx hid v td td1 l :
  mt_wf td -> slots td = Some l -> claimed_input c = true -> mt_event_switch hid v td = Some td1 ->
  let ends := hid =? last_slot_field td in
  let td2 := if ends then completed td1 l else td1 in
  exists l2, slots td2 = Some l2 /\ mt_wf td2 /\
    l2 = (if ends && curvalid td1
          then assign (cls_quirks (mtclass td)) (num_received td) (set_seen true (curdata td1)) l else l) /\
    mt_event c idx hid v td =
      if (idx =? last_field_index td) && (num_expected td2 <=? num_received td2)
      then Ret (1, emitted td2 l2, (report 0 (reported (cls_quirks (mtclass td)) l2) ++
                                     [PointerEmulation; InputSync]) ++ hiddev_effects c hid v)
      else Ret (1, td2, hiddev_effects c hid v).
Proof.
  intros Hwf Hl Hc Hs. pose proof (mt_event_switch_frame _ _ _ _ Hs) as (E1 & E2 & E3 & E4 & E5 & E6).
  assert (mt_wf td1) as Hwf1 by (destruct Hwf as [Hm Hw]; split; [by rewrite E4|by rewrite E1, E4]).
  rewrite Hl in E1. cbv zeta. unfold mt_event. rewrite Hc, Hl, Hs, E5.
  set (ends := hid =? last_slot_field td).
  assert (exists l2, (if ends then mt_complete_slot td1 else Ret td1) =
      Ret (if ends then completed td1 l else td1) /\
    slots (if ends then completed td1 l else td1) = Some l2 /\
    mt_wf (if ends then completed td1 l else td1) /\
    l2 = (if ends && curvalid td1
          then assign (cls_quirks (mtclass td)) (num_received td) (set_seen true (curdata td1)) l else l))
    as (l2 & -> & El2 & Hwf2 & Eq2).
  { destruct ends; [|by exists l]. rewrite mt_complete_slot_spec with (l := l) by done.
    eexists. split; [done|]. split; [reflexivity|]. split; [by apply completed_wf|].
    by rewrite E2, E3. }
  exists l2. split; [done|]. split; [done|]. split; [done|]. cbn [mbind outcome_bind].
  set (td2 := if ends then completed td1 l else td1) in *.
  assert (last_field_index td2 = last_field_index td) as -> by (unfold td2; by destruct ends).
  assert (mtclass td2 = mtclass td) as E7 by (unfold td2; by destruct ends).
  destruct ((idx =? last_field_index td) && _); [|done]. rewrite mt_emit_event_spec with (l := l2) by done.
  cbn [mbind outcome_bind]. by rewrite E7.
Qed.

(** ** Lemmas: contacts stay distinct *)

(** A touched slot is where its contact belongs. *)
Definition consistent (q : Z) (l : list mt_slot) : Prop :=
  forall i s, l !! i = Some s -> touch_state s = true ->
  if has_quirk q MT_QUIRK_SLOT_IS_CONTACTID then contactid s = Z.of_nat i
  else if has_quirk q MT_QUIRK_CYPRESS then contactid s = Z.of_nat i
  else if has_quirk q MT_QUIRK_SLOT_IS_CONTACTID_MINUS_ONE then s32 (contactid s - 1) = Z.of_nat i
  else forall j t, l !! j = Some t -> touch_state t = true -> contactid t = contactid s -> j = i.

Definition contacts_apart (l : list mt_slot) : Prop :=
  forall i j s t, l !! i = Some s -> l !! j = Some t -> touch_state s = true -> touch_state t = true ->
  contactid s = contactid t -> i = j.

Lemma consistent_apart q l : consistent q l -> contacts_apart l.
Proof.
  intros H i j s t Hs Ht Hts Htt E. pose proof (H i s Hs Hts) as H1. pose proof (H j t Ht Htt) as H2.
  rewrite E in H1. repeat (case_match; [lia|]). by apply (H2 i s).
Qed.

Lemma consistent_zero q n : consistent q (replicate n slot_zero).
Proof. intros i s Hs. apply lookup_replicate in Hs as [-> _]. done. Qed.

Lemma lookup_insert_cases {A} (l : list A) k c i s :
  <[k := c]> l !! i = Some s -> (i = k /\ s = c) \/ (i <> k /\ l !! i = Some s).
Proof.
  intros H. destruct (decide (i = k)) as [->|Hne].
  - left. apply lookup_lt_Some in H as Hlt. rewrite length_insert in Hlt.
    rewrite list_lookup_insert_eq in H by done. by injection H as ->.
  - right. by rewrite list_lookup_insert_ne in H.
Qed.

Lemma slot_for_contact_spec id l k :
  slot_for_contact id l = Some k ->
  exists s, l !! k = Some s /\
    (holds_contact id s = true \/
     (free_slot s = true /\ Forall (fun t => holds_contact id t = false) l)).
Proof.
  unfold slot_for_contact. destruct (index_of (holds_contact id) l) as [i|] eqn:E.
  - intros [= <-]. apply index_of_Some in E as (s & Hs & Hp & _). exists s. auto.
  - intros H. apply index_of_None in E. apply index_of_Some in H as (s & Hs & Hp & _). exists s. auto.
Qed.

Lemma assign_consistent q r c l :
  has_quirk q MT_QUIRK_SLOT_IS_CONTACTNUMBER = false -> consistent q l -> consistent q (assign q r c l).
Proof.
  intros Hn H. unfold assign. remember (slot_number q r c l) as k eqn:Hk.
  destruct ((0 <=? k) && (k <? Z.of_nat (length l))) eqn:Ek; [|done]. zbool.
  intros i s Hs Ht. pose proof (H i s) as Hold. apply lookup_insert_cases in Hs as Hcase.
  unfold slot_number in Hk. rewrite Hn in Hk.
  destruct (has_quirk q MT_QUIRK_SLOT_IS_CONTACTID) eqn:Q1; [|destruct (has_quirk q MT_QUIRK_CYPRESS) eqn:Q2;
    [|destruct (has_quirk q MT_QUIRK_SLOT_IS_CONTACTID_MINUS_ONE) eqn:Q3]].
  - destruct Hcase as [[-> ->]|[_ Hl]]; [lia|auto].
  - destruct Hcase as [[-> ->]|[_ Hl]]; [|auto]. case_match; lia.
  - destruct Hcase as [[-> ->]|[_ Hl]]; [lia|auto].
  - destruct (slot_for_contact (contactid c) l) as [n|] eqn:Ef; [|lia].
    assert (Z.to_nat k = n) as Ekn by lia. rewrite Ekn in *.
    destruct (slot_for_contact_spec _ _ _ Ef) as (x & Hx & Hcases).
    assert (forall j t, l !! j = Some t -> touch_state t = true -> contactid t = contactid c ->
      j = n) as Hc.
    { intros j t Hj Htt E. destruct Hcases as [Hh|[_ Hnone]].
      - unfold holds_contact in Hh. zbool. pose proof (H j t Hj Htt) as Hu. symmetry.
        rewrite Q1, Q2, Q3 in Hu. apply (Hu n x); congruence.
      - rewrite Forall_lookup in Hnone. specialize (Hnone j t Hj). unfold holds_contact in Hnone.
        rewrite E, Z.eqb_refl, Htt in Hnone. done. }
    intros j t Hj Htt E. apply lookup_insert_cases in Hj as [[-> ->]|[Hj1 Hj2]];
      destruct Hcase as [[-> ->]|[Hi1 Hi2]]; try done.
    + symmetry. by apply (Hc i s).
    + by apply (Hc j t).
    + by apply (Hold Hi2 Ht j t).
Qed.

Lemma emitted_consistent q l : consistent q l -> consistent q (map (set_seen false) (reported q l)).
Proof.
  intros H.
  assert (forall i s, map (set_seen false) (reported q l) !! i = Some s -> touch_state s = true ->
    exists s0, l !! i = Some s0 /\ touch_state s0 = true /\ contactid s = contactid s0) as Hb.
  { intros i s Hs Ht. unfold reported in Hs. rewrite !list_lookup_fmap in Hs.
    destruct (l !! i) as [s0|]; [|done]. cbn in Hs. injection Hs as <-. exists s0. split; [done|].
    unfold release_unseen in *. destruct (_ && _); [done|]. split; done. }
  intros i s Hs Ht. destruct (Hb i s Hs Ht) as (s0 & Hs0 & Ht0 & E). pose proof (H i s0 Hs0 Ht0) as Hi.
  rewrite E. repeat (case_match; [done|]). intros j t Hj Htt Et.
  destruct (Hb j t Hj Htt) as (t0 & Hj0 & Htt0 & Et0). apply (Hi j t0); congruence.
Qed.

(** ** Lemmas: whole frames of a device whose slots follow the contact ids *)

(** No quirk ties the slot to the number sent. *)
Definition slots_by_search (q : Z) : Prop :=
  has_quirk q MT_QUIRK_SLOT_IS_CONTACTID = false /\ has_quirk q MT_QUIRK_CYPRESS = false /\
  has_quirk q MT_QUIRK_SLOT_IS_CONTACTNUMBER = false /\
  has_quirk q MT_QUIRK_SLOT_IS_CONTACTID_MINUS_ONE = false.

Lemma assign_search q r c l :
  slots_by_search q ->
  assign q r c l = match slot_for_contact (contactid c) l with Some i => <[i := c]> l | None => l end.
Proof.
  intros (Q1 & Q2 & Q3 & Q4). unfold assign, slot_number. rewrite Q1, Q2, Q3, Q4.
  destruct (slot_for_contact (contactid c) l) as [i|] eqn:E; [|done].
  destruct (slot_for_contact_spec _ _ _ E) as (s & Hs & _). apply lookup_lt_Some in Hs.
  rewrite Nat2Z.id. by replace (_ && _) with true by lia.
Qed.

Definition countb {A} (p : A -> bool) (l : list A) : nat := length (List.filter p l).

Lemma countb_app {A} (p : A -> bool) l1 l2 : countb p (l1 ++ l2) = (countb p l1 + countb p l2)%nat.
Proof. unfold countb. by rewrite List.filter_app, length_app. Qed.

Lemma countb_cons {A} (p : A -> bool) x l :
  countb p (x :: l) = ((if p x then 1 else 0) + countb p l)%nat.
Proof. unfold countb. cbn. by destruct (p x). Qed.

Lemma countb_insert {A} (p : A -> bool) l i x y :
  l !! i = Some x ->
  (countb p (<[i := y]> l) + (if p x then 1 else 0) = countb p l + (if p y then 1 else 0))%nat.
Proof.
  intros H. pose proof (lookup_lt_Some _ _ _ H) as Hlt. rewrite <- (take_drop_middle _ _ _ H) at 2.
  rewrite insert_take_drop by done. rewrite !countb_app, !countb_cons. lia.
Qed.

Lemma countb_pos {A} (p : A -> bool) l : (0 < countb p l)%nat -> exists k, index_of p l = Some k.
Proof.
  intros H. destruct (index_of p l) as [k|] eqn:E; [by exists k|]. apply index_of_None in E.
  induction E as [|x l Hx _ IH]; [cbn in H; lia|]. rewrite countb_cons, Hx in H. auto.
Qed.

Definition held (l : list mt_slot) (c : mt_slot) : bool := existsb (holds_contact (contactid c)) l.

Lemma held_spec l c :
  held l c = true <-> exists i s, l !! i = Some s /\ contactid s = contactid c /\ touch_state s = true.
Proof.
  unfold held. rewrite existsb_exists. split.
  - intros (s & Hin & Hs). apply list_elem_of_In, list_elem_of_lookup in Hin as [i Hi].
    unfold holds_contact in Hs. zbool. by exists i, s.
  - intros (i & s & Hi & E & Ht). exists s. split; [by eapply list_elem_of_In, list_elem_of_lookup_2|].
    unfold holds_contact. by rewrite E, Z.eqb_refl, Ht.
Qed.

(** What the slots [l] are after the contacts [cs] of a frame that began with
    the slots [l0]. *)
Definition tracks (l0 : list mt_slot) (cs : list mt_slot) (l : list mt_slot) : Prop :=
  length l = length l0 /\
  (forall i s, l !! i = Some s -> (seen_in_this_frame s = false /\ l0 !! i = Some s) \/ s ∈ cs) /\
  (forall c, c ∈ cs -> exists i, l !! i = Some c) /\
  (forall i s0 c, l0 !! i = Some s0 -> touch_state s0 = true -> c ∈ cs -> contactid s0 = contactid c ->
     l !! i = Some c) /\
  (forall i s0, l0 !! i = Some s0 -> touch_state s0 = true ->
     (forall c, c ∈ cs -> contactid c <> contactid s0) -> l !! i = Some s0).

Lemma tracks_nil l0 : Forall (fun s => seen_in_this_frame s = false) l0 -> tracks l0 [] l0.
Proof.
  intros H. rewrite Forall_lookup in H. split; [done|]. split; [intros i s Hs; left; eauto|].
  split; [by intros c ?%not_elem_of_nil|]. split; [by intros i s0 c _ _ ?%not_elem_of_nil|done].
Qed.

(** A complete contact: touched, seen. *)
Definition live (c : mt_slot) : Prop := touch_state c = true /\ seen_in_this_frame c = true.

Lemma tracks_insert l0 cs l c i s :
  contacts_apart l0 -> tracks l0 cs l -> live c -> Forall live cs ->
  (forall c', c' ∈ cs -> contactid c' <> contactid c) ->
  l !! i = Some s -> seen_in_this_frame s = false ->
  (if touch_state s then contactid s = contactid c else held l0 c = false) ->
  tracks l0 (cs ++ [c]) (<[i := c]> l).
Proof.
  intros Hap (Hlen & H2 & H3 & H4 & H5) [Hct Hcs] Hlive Hfresh Hi Hseen Hcase.
  pose proof (lookup_lt_Some _ _ _ Hi) as Hlt. rewrite Forall_forall in Hlive.
  assert (s ∉ cs) as Hnot by (intros H; destruct (Hlive s H); congruence).
  assert (l0 !! i = Some s) as H0 by (destruct (H2 i s Hi) as [[_ ?]|?]; done).
  split; [by rewrite length_insert|]. split; [|split; [|split]].
  - intros j t Hj. apply lookup_insert_cases in Hj as [[-> ->]|[_ Hj]].
    + right. apply elem_of_app. right. by apply list_elem_of_singleton.
    + destruct (H2 j t Hj) as [?|?]; [by left|right; apply elem_of_app; by left].
  - intros c' Hc'. apply elem_of_app in Hc' as [Hc'|Hc'].
    + destruct (H3 c' Hc') as [j Hj]. exists j. rewrite list_lookup_insert_ne; [done|]. intros ->. congruence.
    + apply list_elem_of_singleton in Hc' as ->. exists i. by apply list_lookup_insert_eq.
  - intros j s0 c' Hj Ht Hc' E. apply elem_of_app in Hc' as [Hc'|Hc'].
    + pose proof (H4 j s0 c' Hj Ht Hc' E) as Hl. rewrite list_lookup_insert_ne; [done|]. intros ->. congruence.
    + apply list_elem_of_singleton in Hc' as ->. destruct (touch_state s) eqn:Es.
      * assert (j = i) as -> by (apply (Hap j i s0 s); congruence). by apply list_lookup_insert_eq.
      * exfalso. assert (held l0 c = true) as Hh by (apply held_spec; by exists j, s0). congruence.
  - intros j s0 Hj Ht Hall. rewrite list_lookup_insert_ne.
    + apply (H5 j s0 Hj Ht). intros c' Hc'. apply Hall, elem_of_app. by left.
    + intros ->. rewrite H0 in Hj. injection Hj as ->. rewrite Ht in Hcase.
      apply (Hall c); [apply elem_of_app; right; by apply list_elem_of_singleton|done].
Qed.

(** One contact, and room for the new ones still to come. *)
Lemma tracks_step q r l0 cs rest l c :
  slots_by_search q -> contacts_apart l0 -> tracks l0 cs l -> live c -> Forall live cs ->
  (forall c', c' ∈ cs -> contactid c' <> contactid c) ->
  (countb (fun x => negb (held l0 x)) (c :: rest) <= countb free_slot l)%nat ->
  tracks l0 (cs ++ [c]) (assign q r c l) /\
  (countb (fun x => negb (held l0 x)) rest <= countb free_slot (assign q r c l))%nat.
Proof.
  intros Hq Hap Htr Hc Hlive Hfresh Hroom. rewrite countb_cons in Hroom.
  rewrite assign_search by done. pose proof Htr as (_ & H2 & _ & _ & H5).
  unfold slot_for_contact. destruct (index_of (holds_contact (contactid c)) l) as [i|] eqn:Ek.
  - apply index_of_Some in Ek as (s & Hs & Hh & _). unfold holds_contact in Hh. zbool.
    assert (s ∉ cs) as Hnot by (intros Hin; by apply (Hfresh s Hin)).
    destruct (H2 i s Hs) as [[Hseen Hl0]|]; [|done].
    assert (held l0 c = true) as Hheld by (apply held_spec; by exists i, s).
    rewrite Hheld in Hroom. split.
    + apply (tracks_insert _ _ _ _ i s); try done. by rewrite H0.
    + pose proof (countb_insert free_slot l i s c Hs) as Hcnt. destruct Hc as [Hc1 Hc2].
      unfold free_slot in Hcnt at 2 4. rewrite Hc1, Hc2 in Hcnt. cbn in *.
      rewrite H0, andb_false_r in Hcnt. lia.
  - apply index_of_None in Ek. rewrite Forall_lookup in Ek.
    assert (held l0 c = false) as Hnew.
    { destruct (held l0 c) eqn:Eh; [|done]. apply held_spec in Eh as (i & s0 & Hi & E & Ht).
      pose proof (H5 i s0 Hi Ht) as Hl. rewrite E in Hl. pose proof (Ek i s0 (Hl Hfresh)) as Hk.
      unfold holds_contact in Hk. by rewrite E, Z.eqb_refl, Ht in Hk. }
    rewrite Hnew in Hroom. cbn [negb] in Hroom.
    destruct (countb_pos free_slot l) as [i Ei]; [lia|]. rewrite Ei.
    apply index_of_Some in Ei as (s & Hs & Hfree & _). pose proof Hfree as Hf2. unfold free_slot in Hf2. zbool.
    split.
    + apply (tracks_insert _ _ _ _ i s); try done. by replace (touch_state s) with false.
    + pose proof (countb_insert free_slot l i s c Hs) as Hcnt. rewrite Hfree in Hcnt. lia.
Qed.

(** The events of one contact, and of a frame of contacts: the fields of a
    contact, then the contact count in the last field of the report. *)
Record touch_contact := mk_contact { c_field : Z; c_id : Z; c_x : Z; c_y : Z }.

Definition contact_events (c : touch_contact) : list (Z * Z * Z) :=
  [(c_field c, HID_DG_TIPSWITCH, 1); (c_field c, HID_DG_CONTACTID, c_id c);
   (c_field c, HID_GD_X, c_x c); (c_field c, HID_GD_Y, c_y c)].

Definition frame_events (last : Z) (cs : list touch_contact) : list (Z * Z * Z) :=
  concat (map contact_events cs) ++ [(last, HID_DG_CONTACTCOUNT, Z.of_nat (length cs))].

(** What a contact leaves in its slot; pressure and size are those last sent. *)
Definition contact_slot (cur : mt_slot) (c : touch_contact) : mt_slot :=
  mk_slot (c_x c) (c_y c) (slot_p cur) (slot_w cur) (slot_h cur) (c_id c) true true.

Definition input_only : hid_claims := mk_claims true false false.

Ltac hid_cases :=
  pose proof hid_usages_distinct as Hd; rewrite !NoDup_cons, !not_elem_of_cons in Hd; destruct_and! Hd;
  repeat match goal with
  | |- context [?a =? ?a] => rewrite (Z.eqb_refl a)
  | H : ?a <> ?b |- context [?a =? ?b] => rewrite (proj2 (Z.eqb_neq a b) H)
  | H : ?b <> ?a |- context [?a =? ?b] => rewrite (proj2 (Z.eqb_neq a b) (not_eq_sym H))
  end.

Lemma mt_event_field idx hid v td td1 l :
  mt_wf td -> slots td = Some l -> mt_event_switch hid v td = Some td1 -> idx <> last_field_index td ->
  mt_event input_only idx hid v td =
    Ret (1, if hid =? last_slot_field td then completed td1 l else td1, []).
Proof.
  intros Hwf Hl Hs Hidx.
  destruct (mt_event_spec input_only idx hid v td td1 l Hwf Hl eq_refl Hs) as (l2 & _ & _ & _ & ->).
  by rewrite (proj2 (Z.eqb_neq _ _) Hidx).
Qed.

Lemma mt_wf_frame td td' : mt_wf td -> same_frame td td' -> mt_wf td'.
Proof. intros [Hm Hw] (E1 & _ & _ & E4 & _). split; [by rewrite E4|by rewrite E1, E4]. Qed.

(** A device between two contacts of a frame. *)
Definition in_frame (td : mt_device) (cur : mt_slot) (l : list mt_slot) (q last : Z) : Prop :=
  mt_wf td /\ slots td = Some l /\ last_slot_field td = HID_GD_Y /\ last_field_index td = last /\
  cls_quirks (mtclass td) = q /\ slot_p (curdata td) = slot_p cur /\ slot_w (curdata td) = slot_w cur /\
  slot_h (curdata td) = slot_h cur.

Lemma contact_run td cur l q last c :
  in_frame td cur l q last -> has_quirk q MT_QUIRK_NOT_SEEN_MEANS_UP = true -> c_field c <> last ->
  exists td', run_events input_only (contact_events c) td = Ret (td', []) /\
    in_frame td' cur (assign q (num_received td) (contact_slot cur c) l) q last /\
    num_received td' = u8 (num_received td + 1).
Proof.
  intros (Hwf & Hl & Hy & Hlast & Hq & Hp & Hw & Hh) Hnsmu Hidx. rewrite <- Hlast in Hidx.
  unfold contact_events. cbn [run_events].
  erewrite mt_event_field; [|done|done| |done].
  2: { unfold mt_event_switch. hid_cases. rewrite Hq, Hnsmu. reflexivity. }
  rewrite Hy. assert ((HID_DG_TIPSWITCH =? HID_GD_Y) = false) as -> by by hid_cases.
  cbn [mbind outcome_bind]. set (td1 := set_curdata (set_touch _ _) _).
  erewrite (mt_event_field _ _ _ td1); [|done|done| |done].
  2: { unfold mt_event_switch. hid_cases. reflexivity. }
  change (last_slot_field td1) with (last_slot_field td). rewrite Hy.
  assert ((HID_DG_CONTACTID =? HID_GD_Y) = false) as -> by by hid_cases.
  cbn [mbind outcome_bind]. set (td2 := set_curdata _ td1).
  erewrite (mt_event_field _ _ _ td2); [|done|done| |done].
  2: { unfold mt_event_switch. hid_cases. reflexivity. }
  change (last_slot_field td2) with (last_slot_field td). rewrite Hy.
  assert ((HID_GD_X =? HID_GD_Y) = false) as -> by by hid_cases.
  cbn [mbind outcome_bind]. set (td3 := set_curdata _ td2).
  erewrite (mt_event_field _ _ _ td3); [|done|done| |done].
  2: { unfold mt_event_switch. hid_cases. reflexivity. }
  change (last_slot_field td3) with (last_slot_field td). rewrite Hy, Z.eqb_refl.
  cbn [mbind outcome_bind app]. set (td4 := set_curdata _ td3).
  eexists. split; [reflexivity|].
  assert (set_seen true (curdata td4) = contact_slot cur c) as Ec.
  { unfold contact_slot. rewrite <- Hp, <- Hw, <- Hh. done. }
  split; [|done]. split; [by apply completed_wf|]. unfold completed. rewrite Ec.
  split; [|by repeat split]. cbn. by rewrite Hq.
Qed.

Lemma run_events_app c e1 e2 td td1 o1 :
  run_events c e1 td = Ret (td1, o1) ->
  run_events c (e1 ++ e2) td = ('(td2, o2) ← run_events c e2 td1; Ret (td2, o1 ++ o2)).
Proof.
  revert td o1; induction e1 as [|[[idx hid] v] e1 IH]; intros td o1; cbn [run_events app].
  - intros [= <- <-]. by destruct (run_events c e2 td) as [[? ?]| | |].
  - destruct (mt_event c idx hid v td) as [[[r td'] e]| | |]; try done. cbn [mbind outcome_bind].
    destruct (run_events c e1 td') as [[td'' o]| | |] eqn:E; try done. cbn [mbind outcome_bind].
    intros [= -> <-]. rewrite (IH _ _ E).
    destruct (run_events c e2 td1) as [[? ?]| | |]; try done. cbn [mbind outcome_bind].
    by rewrite app_assoc.
Qed.

Lemma contacts_run q cur last l0 cs : forall before td l,
  slots_by_search q -> has_quirk q MT_QUIRK_NOT_SEEN_MEANS_UP = true -> contacts_apart l0 ->
  in_frame td cur l q last -> tracks l0 (map (contact_slot cur) before) l ->
  Forall (fun c => c_field c <> last) cs -> NoDup (map c_id (before ++ cs)) ->
  (countb (fun x => negb (held l0 x)) (map (contact_slot cur) cs) <= countb free_slot l)%nat ->
  num_received td = Z.of_nat (length before) -> Z.of_nat (length (before ++ cs)) < 256 ->
  exists td' l', run_events input_only (concat (map contact_events cs)) td = Ret (td', []) /\
    in_frame td' cur l' q last /\ tracks l0 (map (contact_slot cur) (before ++ cs)) l' /\
    num_received td' = Z.of_nat (length (before ++ cs)).
Proof.
  induction cs as [|c cs IH]; intros before td l Hq Hn Hap Hin Htr Hf Hnd Hroom Hr Hlen.
  { exists td, l. by rewrite app_nil_r. }
  apply Forall_cons in Hf as [Hfc Hf]. destruct (contact_run _ _ _ _ _ _ Hin Hn Hfc) as (td1 & E1 & Hin1 & Hr1).
  assert (forall c', c' ∈ map (contact_slot cur) before -> contactid c' <> contactid (contact_slot cur c)) as Hfresh.
  { intros c' Hc' E. apply list_elem_of_fmap in Hc' as (b & -> & Hb). cbn in E.
    rewrite map_app in Hnd. apply NoDup_app in Hnd as (_ & Hdis & _).
    apply (Hdis (c_id b)); [by apply list_elem_of_fmap_2|]. cbn [map]. rewrite E. apply elem_of_cons. by left. }
  assert (Forall live (map (contact_slot cur) before)) as Hlive by (apply Forall_fmap, Forall_true; done).
  destruct (tracks_step q (num_received td) l0 _ (map (contact_slot cur) cs) l (contact_slot cur c)
    Hq Hap Htr ltac:(done) Hlive Hfresh Hroom) as [Htr1 Hroom1].
  rewrite (app_cons1 before c cs) in Hnd, Hlen. rewrite length_app, length_app in Hlen. cbn [length] in Hlen.
  destruct (IH (before ++ [c]) td1 _ Hq Hn Hap Hin1) as (td2 & l2 & E2 & Hin2 & Htr2 & Hr2); try done.
  - by rewrite map_app.
  - rewrite Hr1, Hr, u8_small by lia. rewrite length_app. cbn [length]. lia.
  - rewrite !length_app. cbn [length]. lia.
  - exists td2, l2. cbn [map concat]. rewrite (run_events_app _ _ _ _ _ _ E1), E2.
    by rewrite <- app_cons1 in *.
Qed.

Lemma report_seen i l : report i (map (set_seen false) l) = report i l.
Proof. revert i; induction l as [|s l IH]; intros i; cbn; [done|]. by rewrite IH. Qed.

(** The contact count, in the last field, ends the frame. *)
Lemma count_run td cur l q last n :
  in_frame td cur l q last -> 0 < n < 256 -> n <= num_received td ->
  mt_event input_only last HID_DG_CONTACTCOUNT n td =
    Ret (1, emitted (set_num_expected n td) l, report 0 (reported q l) ++ [PointerEmulation; InputSync]).
Proof.
  intros (Hwf & Hl & Hy & Hlast & Hq & _) Hn Hle.
  assert (mt_event_switch HID_DG_CONTACTCOUNT n td = Some (set_num_expected n td)) as Hs.
  { unfold mt_event_switch. hid_cases. unfold ctrue. replace (n =? 0) with false by lia.
    cbn [negb]. by rewrite u8_small by lia. }
  destruct (mt_event_spec input_only last HID_DG_CONTACTCOUNT n td _ l Hwf Hl eq_refl Hs) as (l2 & El & _ & -> & ->).
  rewrite Hy. assert ((HID_DG_CONTACTCOUNT =? HID_GD_Y) = false) as -> by by hid_cases. cbn [andb].
  rewrite Hlast, Z.eqb_refl. cbn [andb num_expected num_received set_num_expected].
  replace (n <=? num_received td) with true by lia. by rewrite Hq, app_nil_r.
Qed.

(** ** Properties *)

(** events never leave the slot array.  Whatever usages, values and field
    indexes arrive, in whatever order, no slot outside the array is read or
    written, the array keeps one slot per contact, and the touched slots hold
    different contact ids (unless the class numbers its slots by arrival). *)
Theorem contacts_distinct (c : hid_claims) (evs : list (Z * Z * Z)) (td : mt_device) (n : nat) :
  mt_wf td -> slots td = Some (replicate n slot_zero) ->
  has_quirk (cls_quirks (mtclass td)) MT_QUIRK_SLOT_IS_CONTACTNUMBER = false ->
  safely (fun r => mt_wf (fst r) /\ exists l, slots (fst r) = Some l /\ contacts_apart l)
    (run_events c evs td).
Proof.
  intros Hwf Hl Hq. pose proof (consistent_zero (cls_quirks (mtclass td)) n) as Hcons. revert Hl Hcons.
  generalize (replicate n slot_zero) as l. remember (cls_quirks (mtclass td)) as q eqn:Eq. symmetry in Eq.
  revert td Hwf Eq. induction evs as [|[[idx hid] v] evs IH]; intros td Hwf Eq l Hl Hcons; cbn [run_events].
  { split; [done|]. exists l. split; [done|by eapply consistent_apart]. }
  assert (exists r td' e l', mt_event c idx hid v td = Ret (r, td', e) /\ mt_wf td' /\
    cls_quirks (mtclass td') = q /\ slots td' = Some l' /\ consistent q l') as Hstep.
  { destruct (claimed_input c) eqn:Hc.
    - destruct (mt_event_switch hid v td) as [td1|] eqn:Hs.
      + destruct (mt_event_spec c idx hid v td td1 l Hwf Hl Hc Hs) as (l2 & El2 & Hwf2 & -> & ->).
        pose proof (mt_event_switch_frame _ _ _ _ Hs) as (_ & E2 & _).
        set (ends := hid =? last_slot_field td) in *. set (l2 := if ends && _ then _ else l) in *.
        assert (consistent q l2) as Hc2 by (unfold l2; destruct (ends && curvalid td1); [rewrite Eq; by apply assign_consistent|done]).
        assert (cls_quirks (mtclass (if ends then completed td1 l else td1)) = q) as Eq2
          by (destruct ends; cbn; by rewrite E2).
        destruct ((idx =? last_field_index td) && _).
        * eexists _, _, _, _. split; [done|]. split; [by apply emitted_wf|]. split; [by rewrite <- Eq2|].
          split; [reflexivity|]. rewrite Eq2. by apply emitted_consistent.
        * by eexists _, _, _, l2.
      + unfold mt_event. rewrite Hc, Hl, Hs. by eexists _, _, _, l.
    - unfold mt_event. rewrite Hc. by eexists _, _, _, l. }
  destruct Hstep as (r & td' & e & l' & -> & Hwf' & Eq' & Hl' & Hc'). cbn [mbind outcome_bind].
  eapply safely_bind; [by apply (IH td' Hwf' Eq' l')|]. by intros [td2 e2].
Qed.


(** Replaced fingers are lost for a frame.  When every slot holds a contact
    and a new one takes the place of an old one, within what the descriptor
    announces, no slot is free before the frame ends: the contact is dropped,
    and the frame reports nothing touched at all. *)
Theorem replaced_contact_dropped (td : mt_device) (l : list mt_slot) (q last : Z) (c : touch_contact) :
  in_frame td (curdata td) l q last -> slots_by_search q -> has_quirk q MT_QUIRK_NOT_SEEN_MEANS_UP = true ->
  num_received td = 0 -> c_field c <> last ->
  Forall (fun s => seen_in_this_frame s = false /\ touch_state s = true /\ contactid s <> c_id c) l ->
  exists td' l',
    run_events input_only (frame_events last [c]) td = Ret (td', report 0 l' ++ [PointerEmulation; InputSync]) /\
    slots td' = Some l' /\ length l' = length l /\ Forall (fun s => touch_state s = false) l'.
Proof.
  intros Hin Hq Hn Hr Hf Hl. destruct (contact_run td _ l q last c Hin Hn Hf) as (td1 & E1 & Hin1 & Hr1).
  rewrite assign_search in Hin1 by done. unfold slot_for_contact in Hin1.
  rewrite !(proj2 (index_of_None _ _)) in Hin1.
  2: { eapply Forall_impl; [exact Hl|]. cbn. intros s (Hs & Ht & _). unfold free_slot. by rewrite Ht, andb_false_r. }
  2: { eapply Forall_impl; [exact Hl|]. cbn. intros s (_ & _ & Hne). unfold holds_contact.
       by rewrite (proj2 (Z.eqb_neq _ _) Hne). }
  unfold frame_events. cbn [map concat]. rewrite app_nil_r, (run_events_app _ _ _ _ _ _ E1).
  cbn [run_events length]. rewrite (count_run td1 _ l q last) by (done || (rewrite Hr1, Hr; done)).
  cbn [mbind outcome_bind app]. destruct Hin1 as (_ & _ & _ & _ & Hq1 & _).
  exists (emitted (set_num_expected (Z.of_nat 1) td1) l), (map (set_seen false) (reported q l)).
  rewrite report_seen, app_nil_r. split; [done|]. split; [cbn; by rewrite Hq1|].
  unfold reported. split; [by rewrite !length_map|]. rewrite !Forall_fmap.
  eapply Forall_impl; [exact Hl|]. cbn. intros s (Hs & _ & _). unfold release_unseen. by rewrite Hn, Hs.
Qed.
End event_lemmas.

(** The HID usages of the USB HID usage tables. *)
Definition hid_tables : hid_usages.
Proof.
  refine (Build_hid_usages 0xffff0000 0x00010000 0x000d0000 0x000d0004 0x000d0005 0x00010030 0x00010031
    0x000d0032 0x000d0047 0x000d0042 0x000d0051 0x000d0048 0x000d0049 0x000d0030 0x000d0054 0x000d0055
    0x000d0052 _).
  apply (bool_decide_unpack _). reflexivity.
Defined.

Definition touch_example (l : list mt_slot) : mt_device :=
  mk_mt slot_zero mt_class_default 9 0x00010031 0 (-1) 0 0 (Z.of_nat (length l)) false (Some l).

Lemma contacts_distinct_witness :
  safely (fun r => mt_wf (fst r) /\ exists l, slots (fst r) = Some l /\ contacts_apart l)
    (run_events (U := hid_tables) input_only
       (frame_events (U := hid_tables) 9 [mk_contact 1 7 10 20; mk_contact 1 7 11 21; mk_contact 2 8 30 40])
       (touch_example (replicate 2 slot_zero))).
Proof.
  apply (contacts_distinct (U := hid_tables) input_only _ (touch_example (replicate 2 slot_zero)) 2);
    [split; [cbn; lia|by intros l [= <-]]|reflexivity|reflexivity].
Defined.


Lemma replaced_contact_dropped_witness :
  let down := mk_slot 1 2 0 0 0 7 true false in
  exists td' l',
    run_events (U := hid_tables) input_only (frame_events (U := hid_tables) 9 [mk_contact 1 8 30 40])
      (touch_example [down]) = Ret (td', report 0 l' ++ [PointerEmulation; InputSync]) /\
    slots td' = Some l' /\ length l' = length [down] /\ Forall (fun s => touch_state s = false) l'.
Proof.
  intros down. apply (replaced_contact_dropped (U := hid_tables) (touch_example [down]) [down] 1 9
    (mk_contact 1 8 30 40)).
  - repeat split; try reflexivity; try (cbn; lia). by intros l [= <-].
  - repeat split; reflexivity.
  - reflexivity.
  - reflexivity.
  - cbn. lia.
  - repeat constructor. cbn. lia.
Defined.

(** ** Lemmas: probing *)

Lemma find_class_in name l : find_class name l = mt_class_default \/ find_class name l ∈ l.
Proof.
  induction l as [|c l IH]; cbn; [by left|]. destruct (name =? cls_name c).
  - right. apply elem_of_cons. by left.
  - destruct IH as [IH|IH]; [by left|right; apply elem_of_cons; by right].
Qed.

Lemma find_class_maxcontacts name : 0 <= cls_maxcontacts (find_class name mt_classes) < 256.
Proof.
  assert (Forall (fun c => 0 <= cls_maxcontacts c < 256) mt_classes) as H by (repeat constructor; cbn; lia).
  rewrite Forall_forall in H. destruct (find_class_in name mt_classes) as [-> | Hin]; [cbn; lia|by apply H].
Qed.

(** The device while the HID core starts it. *)
Definition starting (cls : mt_class) (td : mt_device) : Prop :=
  0 <= maxcontacts td < 256 /\ slots td = None /\ mtclass td = cls.

Section probe.
Context {U : hid_usages}.

Lemma starting_slot_field cls hid ci f td : starting cls td -> starting cls (note_slot_field hid ci f td).
Proof. unfold note_slot_field. by case_match. Qed.

Lemma starting_field cls ci f td : starting cls td -> starting cls (note_field ci f td).
Proof. unfold note_field. by case_match. Qed.

Lemma starting_contactid cls hid ci f td :
  starting cls td ->
  starting cls (set_last_mt_collection ci (set_last_field_index (field_index f) (set_last_slot_field hid
    (if ctrue (maxcontacts td) then td else set_maxcontacts MT_DEFAULT_MAXCONTACT td)))).
Proof. intros H. case_match; [done|]. split; [cbn; unfold MT_DEFAULT_MAXCONTACT; lia|apply H]. Qed.

Lemma mapping_starting cls f hid ci td :
  starting cls td -> starting cls (snd (fst (fst (mt_input_mapping f hid ci td)))).
Proof.
  intros H. pose proof (starting_slot_field cls hid ci f td H). pose proof (starting_field cls ci f td H).
  pose proof (starting_contactid cls hid ci f td H). unfold mt_input_mapping. cbv zeta.
  repeat (match goal with |- context [fst (fst (if ?b then _ else _))] => destruct b end); done.
Qed.

Lemma run_callback_starting cls cb td e :
  0 <= cls_maxcontacts cls < 256 -> starting cls td -> starting cls (fst (run_callback cb (td, e))).
Proof.
  intros Hcls H. destruct cb as [f hid|f hid ci|type]; cbn [run_callback].
  - destruct H as (Hm & Hs & Hc). unfold mt_feature_mapping. case_match; [done|]. case_match; [|done].
    cbn [fst]. case_match; (split; [|done]); cbn; [by rewrite Hc|apply u8_range].
  - pose proof (mapping_starting cls f hid ci td H) as Hm.
    by destruct (mt_input_mapping f hid ci td) as [[[r td'] f'] e'].
  - done.
Qed.

Lemma run_callbacks_starting cls cbs st :
  0 <= cls_maxcontacts cls < 256 -> starting cls (fst st) ->
  starting cls (fst (fold_left (fun st cb => run_callback cb st) cbs st)).
Proof.
  intros Hcls. revert st; induction cbs as [|cb cbs IH]; intros [td e] H; cbn [fold_left]; [done|].
  apply IH. by apply run_callback_starting.
Qed.

(** What probing leaves.  Whatever the HID core maps while it starts the
    device, probing either fails with a non-zero code and no driver data, or
    returns 0 with a device that is ready for events: its class is the one the
    table names, it has one zeroed slot per contact, at most 255, and no contact
    is being received; every device of the table gets the class its entry
    names. *)
Theorem mt_probe_ready (alloc_td alloc_slots : bool) (parse_ret start_ret : Z) (cbs : list callback)
  (report_exists : Z -> bool) (id : Z) (ret : Z) (otd : option mt_device) (e : list effect) :
  mt_probe alloc_td alloc_slots parse_ret start_ret cbs report_exists id = (ret, otd, e) ->
  ((ret <> 0 /\ otd = None) \/
   (exists td, ret = 0 /\ otd = Some td /\ mt_wf td /\
      slots td = Some (replicate (Z.to_nat (maxcontacts td)) slot_zero) /\
      mtclass td = find_class id mt_classes)) /\
  (forall d, d ∈ mt_devices -> driver_data d = id -> cls_name (find_class id mt_classes) = id).
Proof.
  intros Hp. split.
  - unfold mt_probe in Hp. destruct alloc_td; cbn [negb] in Hp; [|injection Hp as <- <- <-; by left].
    destruct (Z.eqb_spec parse_ret 0); cbn [negb] in Hp; [|injection Hp as <- <- <-; by left].
    pose proof (run_callbacks_starting (find_class id mt_classes) cbs (mt_new (find_class id mt_classes), [])
      (find_class_maxcontacts id) ltac:(split; [cbn; lia|done])) as (Hm & _ & Hc).
    destruct (fold_left _ cbs _) as [td ef]. cbn [fst] in *.
    destruct (Z.eqb_spec start_ret 0); cbn [negb] in Hp; [|injection Hp as <- <- <-; by left].
    destruct alloc_slots; cbn [negb] in Hp; [|injection Hp as <- <- <-; by left].
    injection Hp as <- <- <-. right. eexists. split; [done|]. split; [done|]. split; [|done].
    split; [done|]. cbn. intros l [= <-]. rewrite length_replicate. lia.
  - assert (Forall (fun d => cls_name (find_class (driver_data d) mt_classes) = driver_data d) mt_devices) as H
      by (repeat constructor).
    rewrite Forall_forall in H. intros d Hd <-. by apply H.
Qed.
End probe.

(** An eGalax panel that announces five contacts. *)
Lemma mt_probe_ready_witness :
  let f := mk_field 0 0 4 5 0 100 in
  let r := mt_probe (U := hid_tables) true true 0 0 [Feature f 0x000d0055; Feature f 0x000d0052]
             (fun _ => true) MT_CLS_EGALAX in
  ((fst (fst r) <> 0 /\ snd (fst r) = None) \/
   (exists td, fst (fst r) = 0 /\ snd (fst r) = Some td /\ mt_wf td /\
      slots td = Some (replicate (Z.to_nat (maxcontacts td)) slot_zero) /\
      mtclass td = find_class MT_CLS_EGALAX mt_classes)) /\
  (forall d, d ∈ mt_devices -> driver_data d = MT_CLS_EGALAX ->
     cls_name (find_class MT_CLS_EGALAX mt_classes) = MT_CLS_EGALAX).
Proof.
  intros f r. eapply (mt_probe_ready (U := hid_tables) true true 0 0
    [Feature f 0x000d0055; Feature f 0x000d0052] (fun _ => true) MT_CLS_EGALAX). reflexivity.
Defined.
