(* ===== verification/MxcEdid.v ===== *)
(** * EDID parsing: [mxc_edid.c]

    The CEA mode table and the search in it, the CEA extension block, the
    detailed timings, and the reading of the blocks.  What the frame buffer and
    EDID headers define ([linux/fb.h], [edid.h], [mxc_edid.h]) is an interface;
    the I2C transfers are answers from a script. *)

From S2P Require Import Prelude.

(** ** Interfaces *)

(** [linux/fb.h] *)
Class fb_h := {
  FB_SYNC_HOR_HIGH_ACT : Z;
  FB_SYNC_VERT_HIGH_ACT : Z;
  FB_VMODE_NONINTERLACED : Z;
  FB_VMODE_INTERLACED : Z;
  FB_VMODE_ASPECT_4_3 : Z;
  FB_VMODE_ASPECT_16_9 : Z;
  FB_VMODE_ASPECT_MASK : Z;
  FB_MODE_IS_DETAILED : Z;
  FB_MODE_IS_STANDARD : Z;
  KHZ2PICOS : Z -> Z }.

(** The aspect flags are told apart by the mask, and apart from the scan flags. *)
Class fb_h_laws `{fb_h} := {
  aspect_differ scan : scan = FB_VMODE_NONINTERLACED \/ scan = FB_VMODE_INTERLACED ->
    u32 (scan .| FB_VMODE_ASPECT_4_3) <> u32 (scan .| FB_VMODE_ASPECT_16_9);
  aspect_4_3_masked scan : scan = FB_VMODE_NONINTERLACED \/ scan = FB_VMODE_INTERLACED ->
    ctrue ((scan .| FB_VMODE_ASPECT_4_3) .& FB_VMODE_ASPECT_MASK) = true;
  aspect_16_9_masked scan : scan = FB_VMODE_NONINTERLACED \/ scan = FB_VMODE_INTERLACED ->
    ctrue ((scan .| FB_VMODE_ASPECT_16_9) .& FB_VMODE_ASPECT_MASK) = true;
  aspect_masked_out scan : scan = FB_VMODE_NONINTERLACED \/ scan = FB_VMODE_INTERLACED ->
    u32 ((scan .| FB_VMODE_ASPECT_4_3) .& Z.lnot FB_VMODE_ASPECT_MASK) =
    u32 ((scan .| FB_VMODE_ASPECT_16_9) .& Z.lnot FB_VMODE_ASPECT_MASK) }.

(** What the macros of [edid.h] read in a detailed timing block. *)
Record timing_fields := mk_timing {
  H_ACTIVE : Z; V_ACTIVE : Z; PIXEL_CLOCK : Z; H_BLANKING : Z; V_BLANKING : Z;
  H_SYNC_OFFSET : Z; H_SYNC_WIDTH : Z; V_SYNC_OFFSET : Z; V_SYNC_WIDTH : Z;
  H_SIZE : Z; V_SIZE : Z;
  HSYNC_POSITIVE : bool; VSYNC_POSITIVE : bool; INTERLACED : bool }.

(** [edid.h], and the array sizes of [struct mxc_edid_cfg]. *)
Class edid_h := {
  EDID_LENGTH : Z;
  DETAILED_TIMING_DESCRIPTION_SIZE : Z;
  AUDIO_CODING_TYPE_LPCM : Z;
  timing_of : bytes -> timing_fields }.

(** The sizes of a block and of a detailed timing in it. *)
Class edid_h_laws `{edid_h} := {
  edid_length_128 : EDID_LENGTH = 128;
  timing_size_18 : DETAILED_TIMING_DESCRIPTION_SIZE = 18 }.

(** ** Data *)

Record fb_videomode := mk_mode {
  refresh : Z; xres : Z; yres : Z; pixclock : Z;
  left_margin : Z; right_margin : Z; upper_margin : Z; lower_margin : Z;
  hsync_len : Z; vsync_len : Z; sync : Z; vmode : Z; flag : Z }.

Definition mode_zero : fb_videomode := mk_mode 0 0 0 0 0 0 0 0 0 0 0 0 0.

Definition or_flag v m := mk_mode (refresh m) (xres m) (yres m) (pixclock m) (left_margin m)
  (right_margin m) (upper_margin m) (lower_margin m) (hsync_len m) (vsync_len m) (sync m) (vmode m)
  (flag m .| v).

(** Parts of [struct mxc_edid_cfg], grouped by the block that fills them; the
    widths of the fields, in [mxc_edid.h], are taken to hold what is stored. *)
Record cea_flags := mk_cea { cea_underscan : Z; cea_basicaudio : Z; cea_ycbcr444 : Z; cea_ycbcr422 : Z }.

Record audio_caps := mk_audio { max_channels : Z; sample_rates : Z; sample_sizes : Z }.

Record deep_color := mk_deep {
  vsd_support_ai : bool; vsd_dc_48bit : bool; vsd_dc_36bit : bool; vsd_dc_30bit : bool;
  vsd_dc_y444 : bool; vsd_dvi_dual : bool }.

Record latencies := mk_latencies {
  vsd_video_latency : Z; vsd_audio_latency : Z; vsd_I_video_latency : Z; vsd_I_audio_latency : Z }.

Record format_3d := mk_3d { vic_order_2d : Z; struct_3d : Z; detail_3d : Z }.

Record mxc_edid_cfg := mk_cfg {
  cfg_cea : cea_flags;
  cfg_audio : audio_caps;
  speaker_alloc : Z;
  physical_address : Z * Z * Z * Z;
  hdmi_cap : Z;
  cfg_deep : deep_color;
  vsd_max_tmdsclk_rate : Z;
  vsd_cnc : Z * Z * Z * Z;   (** [vsd_cnc3], [vsd_cnc2], [vsd_cnc1], [vsd_cnc0] *)
  cfg_latency : latencies;
  hdmi_vic : list Z;
  hdmi_3d_struct_all : Z;
  hdmi_3d_mask_all : Z;
  hdmi_3d_format : list format_3d }.

Definition set_cea v c := mk_cfg v (cfg_audio c) (speaker_alloc c) (physical_address c) (hdmi_cap c)
  (cfg_deep c) (vsd_max_tmdsclk_rate c) (vsd_cnc c) (cfg_latency c) (hdmi_vic c)
  (hdmi_3d_struct_all c) (hdmi_3d_mask_all c) (hdmi_3d_format c).
Definition set_audio v c := mk_cfg (cfg_cea c) v (speaker_alloc c) (physical_address c) (hdmi_cap c)
  (cfg_deep c) (vsd_max_tmdsclk_rate c) (vsd_cnc c) (cfg_latency c) (hdmi_vic c)
  (hdmi_3d_struct_all c) (hdmi_3d_mask_all c) (hdmi_3d_format c).
Definition set_speaker v c := mk_cfg (cfg_cea c) (cfg_audio c) v (physical_address c) (hdmi_cap c)
  (cfg_deep c) (vsd_max_tmdsclk_rate c) (vsd_cnc c) (cfg_latency c) (hdmi_vic c)
  (hdmi_3d_struct_all c) (hdmi_3d_mask_all c) (hdmi_3d_format c).
Definition set_address v c := mk_cfg (cfg_cea c) (cfg_audio c) (speaker_alloc c) v (hdmi_cap c)
  (cfg_deep c) (vsd_max_tmdsclk_rate c) (vsd_cnc c) (cfg_latency c) (hdmi_vic c)
  (hdmi_3d_struct_all c) (hdmi_3d_mask_all c) (hdmi_3d_format c).
Definition set_hdmi_cap v c := mk_cfg (cfg_cea c) (cfg_audio c) (speaker_alloc c) (physical_address c) v
  (cfg_deep c) (vsd_max_tmdsclk_rate c) (vsd_cnc c) (cfg_latency c) (hdmi_vic c)
  (hdmi_3d_struct_all c) (hdmi_3d_mask_all c) (hdmi_3d_format c).
Definition set_deep v c := mk_cfg (cfg_cea c) (cfg_audio c) (speaker_alloc c) (physical_address c) (hdmi_cap c)
  v (vsd_max_tmdsclk_rate c) (vsd_cnc c) (cfg_latency c) (hdmi_vic c)
  (hdmi_3d_struct_all c) (hdmi_3d_mask_all c) (hdmi_3d_format c).
Definition set_tmds v c := mk_cfg (cfg_cea c) (cfg_audio c) (speaker_alloc c) (physical_address c) (hdmi_cap c)
  (cfg_deep c) v (vsd_cnc c) (cfg_latency c) (hdmi_vic c)
  (hdmi_3d_struct_all c) (hdmi_3d_mask_all c) (hdmi_3d_format c).
Definition set_cnc v c := mk_cfg (cfg_cea c) (cfg_audio c) (speaker_alloc c) (physical_address c) (hdmi_cap c)
  (cfg_deep c) (vsd_max_tmdsclk_rate c) v (cfg_latency c) (hdmi_vic c)
  (hdmi_3d_struct_all c) (hdmi_3d_mask_all c) (hdmi_3d_format c).
Definition set_latency v c := mk_cfg (cfg_cea c) (cfg_audio c) (speaker_alloc c) (physical_address c) (hdmi_cap c)
  (cfg_deep c) (vsd_max_tmdsclk_rate c) (vsd_cnc c) v (hdmi_vic c)
  (hdmi_3d_struct_all c) (hdmi_3d_mask_all c) (hdmi_3d_format c).
Definition set_vic v c := mk_cfg (cfg_cea c) (cfg_audio c) (speaker_alloc c) (physical_address c) (hdmi_cap c)
  (cfg_deep c) (vsd_max_tmdsclk_rate c) (vsd_cnc c) (cfg_latency c) v
  (hdmi_3d_struct_all c) (hdmi_3d_mask_all c) (hdmi_3d_format c).
Definition set_3d_all v c := mk_cfg (cfg_cea c) (cfg_audio c) (speaker_alloc c) (physical_address c) (hdmi_cap c)
  (cfg_deep c) (vsd_max_tmdsclk_rate c) (vsd_cnc c) (cfg_latency c) (hdmi_vic c)
  v (hdmi_3d_mask_all c) (hdmi_3d_format c).
Definition set_3d_mask v c := mk_cfg (cfg_cea c) (cfg_audio c) (speaker_alloc c) (physical_address c) (hdmi_cap c)
  (cfg_deep c) (vsd_max_tmdsclk_rate c) (vsd_cnc c) (cfg_latency c) (hdmi_vic c)
  (hdmi_3d_struct_all c) v (hdmi_3d_format c).
Definition set_3d_format v c := mk_cfg (cfg_cea c) (cfg_audio c) (speaker_alloc c) (physical_address c) (hdmi_cap c)
  (cfg_deep c) (vsd_max_tmdsclk_rate c) (vsd_cnc c) (cfg_latency c) (hdmi_vic c)
  (hdmi_3d_struct_all c) (hdmi_3d_mask_all c) v.

Section parser.
Context {FB : fb_h} {ED : edid_h}.

(** ** The CEA modes *)

(** The designated entries of the table. *)
Definition cea_entries : list (Z * fb_videomode) := [
  (1, mk_mode 60 640 480 39722 48 16 33 10 96 2 0 (FB_VMODE_NONINTERLACED .| FB_VMODE_ASPECT_4_3) 0);
  (2, mk_mode 60 720 480 37037 60 16 30 9 62 6 0 (FB_VMODE_NONINTERLACED .| FB_VMODE_ASPECT_4_3) 0);
  (3, mk_mode 60 720 480 37037 60 16 30 9 62 6 0 (FB_VMODE_NONINTERLACED .| FB_VMODE_ASPECT_16_9) 0);
  (4, mk_mode 60 1280 720 13468 220 110 20 5 40 5 (FB_SYNC_HOR_HIGH_ACT .| FB_SYNC_VERT_HIGH_ACT) (FB_VMODE_NONINTERLACED .| FB_VMODE_ASPECT_16_9) 0);
  (5, mk_mode 60 1920 1080 13763 148 88 15 2 44 5 (FB_SYNC_HOR_HIGH_ACT .| FB_SYNC_VERT_HIGH_ACT) (FB_VMODE_INTERLACED .| FB_VMODE_ASPECT_16_9) 0);
  (6, mk_mode 60 1440 480 18554 114 38 15 4 124 3 0 (FB_VMODE_INTERLACED .| FB_VMODE_ASPECT_4_3) 0);
  (7, mk_mode 60 1440 480 18554 114 38 15 4 124 3 0 (FB_VMODE_INTERLACED .| FB_VMODE_ASPECT_16_9) 0);
  (8, mk_mode 60 1440 240 37108 114 38 15 4 124 3 0 (FB_VMODE_NONINTERLACED .| FB_VMODE_ASPECT_4_3) 0);
  (9, mk_mode 60 1440 240 37108 114 38 15 4 124 3 0 (FB_VMODE_NONINTERLACED .| FB_VMODE_ASPECT_16_9) 0);
  (14, mk_mode 60 1440 480 18500 120 32 30 9 124 6 0 (FB_VMODE_NONINTERLACED .| FB_VMODE_ASPECT_4_3) 0);
  (15, mk_mode 60 1440 480 18500 120 32 30 9 124 6 0 (FB_VMODE_NONINTERLACED .| FB_VMODE_ASPECT_16_9) 0);
  (16, mk_mode 60 1920 1080 6734 148 88 36 4 44 5 (FB_SYNC_HOR_HIGH_ACT .| FB_SYNC_VERT_HIGH_ACT) (FB_VMODE_NONINTERLACED .| FB_VMODE_ASPECT_16_9) 0);
  (17, mk_mode 50 720 576 37037 68 12 39 5 64 5 0 (FB_VMODE_NONINTERLACED .| FB_VMODE_ASPECT_4_3) 0);
  (18, mk_mode 50 720 576 37037 68 12 39 5 64 5 0 (FB_VMODE_NONINTERLACED .| FB_VMODE_ASPECT_16_9) 0);
  (19, mk_mode 50 1280 720 13468 220 440 20 5 40 5 (FB_SYNC_HOR_HIGH_ACT .| FB_SYNC_VERT_HIGH_ACT) (FB_VMODE_NONINTERLACED .| FB_VMODE_ASPECT_16_9) 0);
  (20, mk_mode 50 1920 1080 13480 148 528 15 5 528 5 (FB_SYNC_HOR_HIGH_ACT .| FB_SYNC_VERT_HIGH_ACT) (FB_VMODE_INTERLACED .| FB_VMODE_ASPECT_16_9) 0);
  (23, mk_mode 50 1440 288 37037 138 24 19 2 126 3 0 (FB_VMODE_NONINTERLACED .| FB_VMODE_ASPECT_4_3) 0);
  (24, mk_mode 50 1440 288 37037 138 24 19 2 126 3 0 (FB_VMODE_NONINTERLACED .| FB_VMODE_ASPECT_16_9) 0);
  (29, mk_mode 50 1440 576 18518 136 24 39 5 128 5 0 (FB_VMODE_NONINTERLACED .| FB_VMODE_ASPECT_4_3) 0);
  (30, mk_mode 50 1440 576 18518 136 24 39 5 128 5 0 (FB_VMODE_NONINTERLACED .| FB_VMODE_ASPECT_16_9) 0);
  (31, mk_mode 50 1920 1080 6734 148 528 36 4 44 5 (FB_SYNC_HOR_HIGH_ACT .| FB_SYNC_VERT_HIGH_ACT) (FB_VMODE_NONINTERLACED .| FB_VMODE_ASPECT_16_9) 0);
  (32, mk_mode 24 1920 1080 13468 148 638 36 4 44 5 (FB_SYNC_HOR_HIGH_ACT .| FB_SYNC_VERT_HIGH_ACT) (FB_VMODE_NONINTERLACED .| FB_VMODE_ASPECT_16_9) 0);
  (33, mk_mode 25 1920 1080 13468 148 528 36 4 44 5 (FB_SYNC_HOR_HIGH_ACT .| FB_SYNC_VERT_HIGH_ACT) (FB_VMODE_NONINTERLACED .| FB_VMODE_ASPECT_16_9) 0);
  (34, mk_mode 30 1920 1080 13468 148 88 36 4 44 5 (FB_SYNC_HOR_HIGH_ACT .| FB_SYNC_VERT_HIGH_ACT) (FB_VMODE_NONINTERLACED .| FB_VMODE_ASPECT_16_9) 0);
  (41, mk_mode 100 1280 720 6734 220 440 20 5 40 5 (FB_SYNC_HOR_HIGH_ACT .| FB_SYNC_VERT_HIGH_ACT) (FB_VMODE_NONINTERLACED .| FB_VMODE_ASPECT_16_9) 0);
  (47, mk_mode 120 1280 720 6734 220 110 20 5 40 5 (FB_SYNC_HOR_HIGH_ACT .| FB_SYNC_VERT_HIGH_ACT) (FB_VMODE_NONINTERLACED .| FB_VMODE_ASPECT_16_9) 0);
  (48, mk_mode 60 1280 800 14430 80 48 15 2 32 47 0 FB_VMODE_NONINTERLACED 0)].

(** An entry of the table, zero when it has no initialiser. *)
Fixpoint entry (i : Z) (l : list (Z * fb_videomode)) : fb_videomode :=
  match l with
  | [] => mode_zero
  | (j, m) :: l => if i =? j then m else entry i l
  end.

(** The array of 64, the other entries zero. *)
Definition mxc_cea_mode : list fb_videomode := map (fun i => entry i cea_entries) (seqZ 0 64).

Definition mxc_edid_fb_mode_is_equal (use_aspect : bool) (mode1 mode2 : fb_videomode) : bool :=
  let mask := if use_aspect then Z.lnot 0 else Z.lnot FB_VMODE_ASPECT_MASK in
  (xres mode1 =? xres mode2) && (yres mode1 =? yres mode2) &&
  (hsync_len mode1 =? hsync_len mode2) && (vsync_len mode1 =? vsync_len mode2) &&
  (left_margin mode1 =? left_margin mode2) && (right_margin mode1 =? right_margin mode2) &&
  (upper_margin mode1 =? upper_margin mode2) && (lower_margin mode1 =? lower_margin mode2) &&
  (sync mode1 =? sync mode2) &&
  (Z.abs (s32 (refresh mode1 - refresh mode2)) <=? 1) &&
  (u32 (vmode mode1 .& mask) =? u32 (vmode mode2 .& mask)).

(** [for (i = 0; i < ARRAY_SIZE(mxc_cea_mode); i++)]: the first equal entry, 0
    when there is none. *)
Fixpoint find_vic (use_aspect : bool) (m : fb_videomode) (i : Z) (l : list fb_videomode) : Z :=
  match l with
  | [] => 0
  | c :: l => if mxc_edid_fb_mode_is_equal use_aspect m c then i else find_vic use_aspect m (i + 1) l
  end.

(** [m] is what [fb_var_to_videomode] makes of the screen info. *)
Definition mxc_edid_var_to_vic (m : fb_videomode) : Z := find_vic false m 0 mxc_cea_mode.

Definition mxc_edid_mode_to_vic (mode : fb_videomode) : Z :=
  find_vic (ctrue (vmode mode .& FB_VMODE_ASPECT_MASK)) mode 0 mxc_cea_mode.

(** ** Detailed timings *)

(** The fields computed are unsigned: they wrap.  A zero total makes the refresh
    rate a division by zero. *)
Definition get_detailed_timing (block : bytes) (mode : fb_videomode) : outcome fb_videomode :=
  let t := timing_of block in
  let clock := KHZ2PICOS (u32 (PIXEL_CLOCK t) / 1000) in
  let total := (H_ACTIVE t + H_BLANKING t) * (V_ACTIVE t + V_BLANKING t) in
  let syn := sync mode .| (if HSYNC_POSITIVE t then FB_SYNC_HOR_HIGH_ACT else 0)
                       .| (if VSYNC_POSITIVE t then FB_SYNC_VERT_HIGH_ACT else 0) in
  if total =? 0 then Ub
  else
    let k := if INTERLACED t then 2 else 1 in
    let x := u32 (H_ACTIVE t) in
    let y := u32 (V_ACTIVE t * k) in
    let vm := vmode mode .| (if INTERLACED t then FB_VMODE_INTERLACED else 0) in
    let vm :=
      if Z.quot (H_SIZE t) 16 =? Z.quot (V_SIZE t) 9 then vm .| FB_VMODE_ASPECT_16_9
      else if Z.quot (H_SIZE t) 4 =? Z.quot (V_SIZE t) 3 then vm .| FB_VMODE_ASPECT_4_3
      else if x / 16 =? y / 9 then vm .| FB_VMODE_ASPECT_16_9
      else if x / 4 =? y / 3 then vm .| FB_VMODE_ASPECT_4_3
      else vm in
    Ret (mk_mode (u32 (Z.quot (PIXEL_CLOCK t) total)) x y clock
      (u32 ((H_ACTIVE t + H_BLANKING t) - (H_ACTIVE t + H_SYNC_OFFSET t + H_SYNC_WIDTH t)))
      (u32 (H_SYNC_OFFSET t))
      (u32 ((V_BLANKING t - V_SYNC_OFFSET t - V_SYNC_WIDTH t) * k))
      (u32 (V_SYNC_OFFSET t * k))
      (u32 (H_SYNC_WIDTH t)) (u32 (V_SYNC_WIDTH t * k)) syn vm FB_MODE_IS_DETAILED).

(** ** Data blocks of the extension

    [edid] is the array from the start of the extension on, to the end of the
    object; [index] is an unsigned char. *)

(** The 50 modes allocated: storing one more is past the allocation. *)
Definition MODES_MAX : nat := 50.

Definition store_mode (m : fb_videomode) (modes : list fb_videomode) : outcome (list fb_videomode) :=
  if (length modes <? MODES_MAX)%nat then Ret (modes ++ [m]) else Ub.

(** [while (i < blklen)] of the video data block, [n] rounds left. *)
Fixpoint video_block (n : nat) (edid : bytes) (index : Z) (modes : list fb_videomode)
  : outcome (Z * list fb_videomode) :=
  match n with
  | O => Ret (index, modes)
  | S n =>
    let index := u8 (index + 1) in
    b ← arr_rd edid index;
    let cea_idx := b .& 0x7f in
    modes ←
      (match mxc_cea_mode !! Z.to_nat cea_idx with
       | Some m => if ctrue (xres m) then store_mode (or_flag FB_MODE_IS_STANDARD m) modes else Ret modes
       | None => Ret modes
       end);
    video_block n edid index modes
  end.

(** [while (i < blklen)] of the audio data block: [fuel] bounds the rounds of
    three bytes, at most eleven. *)
Fixpoint audio_block (fuel : nat) (i blklen : Z) (edid : bytes) (index : Z) (a : audio_caps)
  : outcome (Z * audio_caps) :=
  if i <? blklen then
    match fuel with
    | O => NoFuel
    | S fuel =>
      byte1 ← arr_rd edid (index + 1);
      byte2 ← arr_rd edid (index + 2);
      byte3 ← arr_rd edid (index + 3);
      let max_ch := (byte1 .& 0x07) + 1 in
      let a :=
        if byte1 ≫ 3 =? AUDIO_CODING_TYPE_LPCM
        then mk_audio (if max_channels a <? max_ch then max_ch else max_channels a)
               (sample_rates a .| byte2) (sample_sizes a .| (byte3 .& 0x7))
        else a in
      audio_block fuel (i + 3) blklen edid (u8 (index + 3)) a
    end
  else Ret (index, a).

Fixpoint speaker_block (fuel : nat) (i blklen : Z) (edid : bytes) (index : Z) (s : Z) : outcome (Z * Z) :=
  if i <? blklen then
    match fuel with
    | O => NoFuel
    | S fuel => s ← arr_rd edid (index + 1); speaker_block fuel (i + 3) blklen edid (u8 (index + 3)) s
    end
  else Ret (index, s).

(** A byte at the cursor, which moves on. *)
Definition next_byte (edid : bytes) (index : Z) : outcome (Z * Z) :=
  b ← arr_rd edid index; Ret (b, u8 (index + 1)).

(** [for (i = 0; i < hdmi_vic_len; i++)], [n] rounds left. *)
Fixpoint vic_list (n : nat) (i : Z) (edid : bytes) (index : Z) (vics : list Z) : outcome (Z * list Z) :=
  match n with
  | O => Ret (index, vics)
  | S n =>
    '(b, index) ← next_byte edid index;
    vics ← arr_wr vics i b;
    vic_list n (i + 1) edid index vics
  end.

(** [while ((hdmi_3d_len - index_inc) > 0)]. *)
Fixpoint formats_3d (fuel : nat) (i hdmi_3d_len index_inc : Z) (edid : bytes) (index : Z)
  (fs : list format_3d) : outcome (list format_3d) :=
  if 0 <? hdmi_3d_len - index_inc then
    match fuel with
    | O => NoFuel
    | S fuel =>
      b ← arr_rd edid (index + index_inc);
      old ← arr_rd fs i;
      let s3 := b .& 0x0f in
      let index_inc := u8 (index_inc + 1) in
      '(detail, index_inc) ←
        (if s3 =? 8 then
           d ← arr_rd edid (index + index_inc); Ret (d ≫ 4, u8 (index_inc + 1))
         else if 8 <? s3 then Ret (0, u8 (index_inc + 1))
         else Ret (detail_3d old, index_inc));
      fs ← arr_wr fs i (mk_3d (b ≫ 4) s3 detail);
      formats_3d fuel (i + 1) hdmi_3d_len index_inc edid index fs
    end
  else Ret fs.

(** The latencies after the fixed part of the vendor block. *)
Definition vendor_latency (i_present : bool) (edid : bytes) (index : Z) (c : mxc_edid_cfg)
  : outcome (Z * mxc_edid_cfg) :=
  '(v, index) ← next_byte edid index;
  '(a, index) ← next_byte edid index;
  if i_present then
    '(iv, index) ← next_byte edid index;
    '(ia, index) ← next_byte edid index;
    Ret (index, set_latency (mk_latencies v a iv ia) c)
  else Ret (index, set_latency (mk_latencies v a v a) c).

(** The HDMI video part: VICs, then the 3D formats. *)
Definition vendor_video (edid : bytes) (index : Z) (c : mxc_edid_cfg) : outcome mxc_edid_cfg :=
  '(b, index) ← next_byte edid index;
  let present := ctrue (b ≫ 7) in
  let multi := (b .& 0x60) ≫ 5 in
  '(b, index) ← next_byte edid index;
  let hdmi_vic_len := (b .& 0xe0) ≫ 5 in
  let hdmi_3d_len := b .& 0x1f in
  '(index, vics) ← vic_list (Z.to_nat hdmi_vic_len) 0 edid index (hdmi_vic c);
  let c := set_vic vics c in
  if 0 <? hdmi_3d_len then
    '(index_inc, c) ←
      (if present && (multi =? 1) then
         b0 ← arr_rd edid index; b1 ← arr_rd edid (index + 1);
         Ret (2, set_3d_all ((b0 ≪ 8) .| b1) c)
       else if present && (multi =? 2) then
         b0 ← arr_rd edid index; b1 ← arr_rd edid (index + 1);
         b2 ← arr_rd edid (index + 2); b3 ← arr_rd edid (index + 3);
         Ret (4, set_3d_mask ((b2 ≪ 8) .| b3) (set_3d_all ((b0 ≪ 8) .| b1) c))
       else Ret (0, c));
    fs ← formats_3d 32 0 hdmi_3d_len index_inc edid index (hdmi_3d_format c);
    Ret (set_3d_format fs c)
  else Ret c.

Definition vendor_deep_color (b : Z) (d : deep_color) : deep_color :=
  mk_deep (vsd_support_ai d || ctrue (b .& 0x80)) (vsd_dc_48bit d || ctrue (b .& 0x40))
    (vsd_dc_36bit d || ctrue (b .& 0x20)) (vsd_dc_30bit d || ctrue (b .& 0x10))
    (vsd_dc_y444 d || ctrue (b .& 0x08)) (vsd_dvi_dual d || ctrue (b .& 0x01)).

(** [case 0x3]: the configuration and where the block ends. *)
Definition vendor_block (blklen : Z) (edid : bytes) (index : Z) (c : mxc_edid_cfg)
  : outcome (Z * mxc_edid_cfg) :=
  let vsd_end := u8 (index + blklen) in
  r0 ← arr_rd edid (index + 1);
  r1 ← arr_rd edid (index + 2);
  r2 ← arr_rd edid (index + 3);
  a ← arr_rd edid (index + 4);
  b ← arr_rd edid (index + 5);
  let c := set_address ((a .& 0xf0) ≫ 4, a .& 0x0f, (b .& 0xf0) ≫ 4, b .& 0x0f) c in
  let c := if (r0 =? 0x03) && (r1 =? 0x0c) && (r2 =? 0x00) then set_hdmi_cap 1 c else c in
  c ← (if 5 <? blklen then
         d ← arr_rd edid (index + 6); Ret (set_deep (vendor_deep_color d (cfg_deep c)) c)
       else Ret c);
  c ← (if 6 <? blklen then t ← arr_rd edid (index + 7); Ret (set_tmds (t * 5) c) else Ret c);
  if 7 <? blklen then
    l ← arr_rd edid (index + 8);
    let c := set_cnc ((l .& 0x8) ≫ 3, (l .& 0x4) ≫ 2, (l .& 0x2) ≫ 1, l .& 0x1) c in
    let index := u8 (index + 9) in
    '(index, c) ← (if ctrue (l ≫ 7) then vendor_latency (ctrue ((l .& 0x40) ≫ 6)) edid index c
                   else Ret (index, c));
    c ← (if ctrue ((l .& 0x20) ≫ 5) then vendor_video edid index c else Ret c);
    Ret (vsd_end, c)
  else Ret (u8 (index + blklen), c).

(** [switch (tagcode)] *)
Definition data_block (tagcode blklen : Z) (edid : bytes) (index : Z) (c : mxc_edid_cfg)
  (modes : list fb_videomode) : outcome (Z * mxc_edid_cfg * list fb_videomode) :=
  if tagcode =? 0x2 then
    '(index, modes) ← video_block (Z.to_nat blklen) edid index modes; Ret (index, c, modes)
  else if tagcode =? 0x3 then
    '(index, c) ← vendor_block blklen edid index c; Ret (index, c, modes)
  else if tagcode =? 0x1 then
    '(index, a) ← audio_block 11 0 blklen edid index (mk_audio 0 0 0); Ret (index, set_audio a c, modes)
  else if tagcode =? 0x4 then
    '(index, s) ← speaker_block 11 0 blklen edid index (speaker_alloc c); Ret (index, set_speaker s c, modes)
  else Ret (u8 (index + blklen), c, modes).

(** [while (index < detail_timing_desc_offset)]; [char] is unsigned. *)
Fixpoint cea_loop (fuel : nat) (edid : bytes) (index offset : Z) (c : mxc_edid_cfg)
  (modes : list fb_videomode) : outcome (mxc_edid_cfg * list fb_videomode) :=
  if index <? offset then
    match fuel with
    | O => NoFuel
    | S fuel =>
      b ← arr_rd edid index;
      '(index, c, modes) ← data_block ((b ≫ 5) .& 0x7) (b .& 0x1f) edid index c modes;
      cea_loop fuel edid (u8 (index + 1)) offset c modes
    end
  else Ret (c, modes).

(** The detailed timings from [index] on. *)
Fixpoint timing_loop (fuel : nat) (edid : bytes) (index : Z) (modes : list fb_videomode)
  : outcome (list fb_videomode) :=
  if index <? EDID_LENGTH - DETAILED_TIMING_DESCRIPTION_SIZE then
    match fuel with
    | O => NoFuel
    | S fuel =>
      b0 ← arr_rd edid index;
      b1 ← (if b0 =? 0 then arr_rd edid (index + 1) else Ret 1);
      modes ←
        (if (b0 =? 0) && (b1 =? 0) then Ret modes
         else
           m ← get_detailed_timing (drop (Z.to_nat index) edid) mode_zero;
           store_mode m modes);
      timing_loop fuel edid (u8 (index + DETAILED_TIMING_DESCRIPTION_SIZE)) modes
    end
  else Ret modes.

(** The result, the configuration and the mode database; the two allocations
    may fail. *)
Definition mxc_edid_parse_ext_blk (fuel : nat) (alloc_mode alloc_m : bool) (edid : bytes)
  (c : mxc_edid_cfg) (modedb : list fb_videomode) : outcome (Z * mxc_edid_cfg * list fb_videomode) :=
  tag ← arr_rd edid 0;
  if negb (tag =? 0x2) then Ret (-1, c, modedb)
  else
    revision ← arr_rd edid 1;
    if negb alloc_mode then Ret (-1, c, modedb)
    else
      offset ← arr_rd edid 2;
      c ← (if 2 <=? revision then
             b ← arr_rd edid 3;
             Ret (set_cea (mk_cea ((b ≫ 7) .& 0x1) ((b ≫ 6) .& 0x1) ((b ≫ 5) .& 0x1) ((b ≫ 4) .& 0x1)) c)
           else Ret c);
      '(c, modes) ← (if 3 <=? revision then cea_loop fuel edid 4 offset c [] else Ret (c, []));
      modes ← timing_loop 128 edid offset modes;
      if (length modes =? 0)%nat || negb alloc_m then Ret (0, c, modedb)
      else Ret (0, c, modedb ++ modes).

(** ** Reading the blocks *)

Definition EIO : Z := 5.
Definition ENOENT : Z := 2.

(** The answer of one [i2c_transfer]: [EDID_LENGTH] bytes, or a failure. *)
Definition transfer := option bytes.

(** The result is the number of extension blocks or an error. *)
Definition mxc_edid_readblk (edid : bytes) (ts : list transfer) : outcome (Z * bytes * list transfer) :=
  match ts with
  | [] => NoFuel
  | None :: ts => Ret (- EIO, edid, ts)
  | Some d :: ts =>
    edid ← put_block edid 0 d;
    b1 ← arr_rd edid 1;
    if b1 =? 0 then Ret (- ENOENT, edid, ts)
    else
      extblknum ← arr_rd edid 0x7E;
      if extblknum =? 0 then Ret (0, edid, ts)
      else
        match ts with
        | [] => NoFuel
        | None :: ts => Ret (- EIO, edid, ts)
        | Some d :: ts => edid ← put_block edid EDID_LENGTH d; Ret (extblknum, edid, ts)
        end
  end.

(** Reading at [off]: one block, and a second one when [seg_num] is 2. *)
Definition mxc_edid_readsegblk (edid : bytes) (off seg_num : Z) (ts : list transfer)
  : outcome (Z * bytes * list transfer) :=
  match ts with
  | [] => NoFuel
  | None :: ts => Ret (- EIO, edid, ts)
  | Some d :: ts =>
    edid ← put_block edid off d;
    if seg_num =? 2 then
      match ts with
      | [] => NoFuel
      | None :: ts => Ret (- EIO, edid, ts)
      | Some d :: ts => edid ← put_block edid (off + EDID_LENGTH) d; Ret (3, edid, ts)
      end
    else Ret (3, edid, ts)
  end.

(** [for (i = 1; i <= extblknum; i++)], [n] rounds left; the results of the
    parser are not looked at. *)
Fixpoint parse_blocks (n : nat) (i : Z) (fuel : nat) (edid : bytes) (c : mxc_edid_cfg)
  (modedb : list fb_videomode) : outcome (mxc_edid_cfg * list fb_videomode) :=
  match n with
  | O => Ret (c, modedb)
  | S n =>
    '(_, c, modedb) ←
      mxc_edid_parse_ext_blk fuel true true (drop (Z.to_nat (i * EDID_LENGTH)) edid) c modedb;
    parse_blocks n (i + 1) fuel edid c modedb
  end.

(** [memset(cfg, 0, ..)]; [n] and [m] are the sizes of the two arrays. *)
Definition cfg_zero (n m : nat) : mxc_edid_cfg :=
  mk_cfg (mk_cea 0 0 0 0) (mk_audio 0 0 0) 0 (0, 0, 0, 0) 0 (mk_deep false false false false false false)
    0 (0, 0, 0, 0) (mk_latencies 0 0 0 0) (replicate n 0) 0 0 (replicate m (mk_3d 0 0 0)).

(** The result, the array, the configuration and the modes.  The caller's array
    has the 512 bytes asked for; [monspecs] is the mode
    database that [fb_edid_to_monspecs] makes of the first block; all allocations
    succeed. *)
Definition mxc_edid_read (fuel : nat) (pointers_ok : bool) (n m : nat)
  (monspecs : bytes -> list fb_videomode) (edid0 : bytes) (c0 : mxc_edid_cfg) (db0 : list fb_videomode)
  (ts : list transfer) : outcome (Z * bytes * mxc_edid_cfg * list fb_videomode) :=
  if negb pointers_ok then Ret (- EINVAL, edid0, c0, db0)
  else
    let edid := replicate (Z.to_nat (EDID_LENGTH * 4)) 0 in
    let c := cfg_zero n m in
    '(extblknum, edid, ts) ← mxc_edid_readblk edid ts;
    if extblknum <? 0 then Ret (extblknum, edid, c, db0)
    else
      let db := monspecs edid in
      if extblknum =? 0 then Ret (0, edid, c, db)
      else
        '(ret, edid, ts) ←
          (if 1 <? extblknum then mxc_edid_readsegblk edid (EDID_LENGTH * 2) (extblknum - 1) ts
           else Ret (0, edid, ts));
        if ret <? 0 then Ret (ret, edid, c, db)
        else '(c, db) ← parse_blocks (Z.to_nat extblknum) 1 fuel edid c db; Ret (0, edid, c, db).
End parser.

(** ** Lemmas: the mode table *)

Section table.
Context `{FL : fb_h_laws}.

(** The part of the comparison that is about numbers. *)
Definition timing_equal (m1 m2 : fb_videomode) : bool :=
  (xres m1 =? xres m2) && (yres m1 =? yres m2) &&
  (hsync_len m1 =? hsync_len m2) && (vsync_len m1 =? vsync_len m2) &&
  (left_margin m1 =? left_margin m2) && (right_margin m1 =? right_margin m2) &&
  (upper_margin m1 =? upper_margin m2) && (lower_margin m1 =? lower_margin m2) &&
  (Z.abs (s32 (refresh m1 - refresh m2)) <=? 1).

Definition aspect_mask (use_aspect : bool) : Z :=
  if use_aspect then Z.lnot 0 else Z.lnot FB_VMODE_ASPECT_MASK.

Lemma mode_is_equal_split ua m1 m2 :
  mxc_edid_fb_mode_is_equal ua m1 m2 =
    timing_equal m1 m2 && (sync m1 =? sync m2) &&
    (u32 (vmode m1 .& aspect_mask ua) =? u32 (vmode m2 .& aspect_mask ua)).
Proof.
  unfold mxc_edid_fb_mode_is_equal, timing_equal, aspect_mask.
  destruct (_ <=? 1); [|by rewrite !andb_false_r]. rewrite !andb_true_r. by rewrite <- !andb_assoc.
Qed.

Lemma mode_is_equal_refl ua m : mxc_edid_fb_mode_is_equal ua m m = true.
Proof. unfold mxc_edid_fb_mode_is_equal. by rewrite !Z.eqb_refl, Z.sub_diag. Qed.

Lemma find_vic_first ua m l i k c :
  l !! k = Some c -> mxc_edid_fb_mode_is_equal ua m c = true ->
  (forall j d, (j < k)%nat -> l !! j = Some d -> mxc_edid_fb_mode_is_equal ua m d = false) ->
  find_vic ua m i l = i + Z.of_nat k.
Proof.
  revert i k; induction l as [|d l IH]; intros i k Hk He Hf; [done|]. cbn [find_vic]. destruct k as [|k].
  - cbn in Hk. injection Hk as ->. rewrite He. lia.
  - rewrite (Hf 0%nat d) by (done || lia). rewrite (IH (i + 1) k); [lia|done|done|].
    intros j d' Hj Hd. apply (Hf (S j) d'); [lia|done].
Qed.

Lemma cea_lookup k : (k < 64)%nat -> mxc_cea_mode !! k = Some (entry (Z.of_nat k) cea_entries).
Proof.
  intros Hk. unfold mxc_cea_mode. rewrite list_lookup_fmap, lookup_seqZ_lt by lia. done.
Qed.

(** The entries of the table that differ only in their aspect ratio. *)
Definition aspect_pairs : list (Z * Z) := [(2, 3); (6, 7); (8, 9); (14, 15); (17, 18); (23, 24); (29, 30)].

Definition table_pair_ok (i j : Z) : bool :=
  (xres (entry i cea_entries) =? 0) ||
  negb (timing_equal (entry i cea_entries) (entry j cea_entries)) ||
  existsb (fun p => (fst p =? j) && (snd p =? i)) aspect_pairs.

Lemma table_pairs i j :
  0 <= j < i -> i < 64 -> xres (entry i cea_entries) <> 0 ->
  timing_equal (entry i cea_entries) (entry j cea_entries) = true -> (j, i) ∈ aspect_pairs.
Proof.
  intros Hj Hi Hx Ht.
  assert (forallb (fun i => forallb (table_pair_ok i) (seqZ 0 i)) (seqZ 0 64) = true) as Hall
    by (vm_compute; reflexivity).
  pose proof (zrange_forall 64 _ Hall i ltac:(lia)) as Hi'. cbn beta in Hi'.
  pose proof (zrange_forall i _ Hi' j Hj) as Hp. unfold table_pair_ok in Hp.
  rewrite Ht, (proj2 (Z.eqb_neq _ _) Hx) in Hp. cbn [negb orb] in Hp.
  apply existsb_exists in Hp as ([a b] & Hin & Hab). cbn in Hab. zbool. subst. by apply list_elem_of_In.
Qed.

(** What the two entries of a pair are. *)
Lemma aspect_pair_modes j i :
  (j, i) ∈ aspect_pairs ->
  exists scan, (scan = FB_VMODE_NONINTERLACED \/ scan = FB_VMODE_INTERLACED) /\
    vmode (entry j cea_entries) = scan .| FB_VMODE_ASPECT_4_3 /\
    vmode (entry i cea_entries) = scan .| FB_VMODE_ASPECT_16_9 /\
    sync (entry j cea_entries) = sync (entry i cea_entries) /\
    timing_equal (entry i cea_entries) (entry j cea_entries) = true.
Proof.
  intros Hp. unfold aspect_pairs in Hp. rewrite !elem_of_cons in Hp.
  destruct Hp as [[= -> ->]|[[= -> ->]|[[= -> ->]|[[= -> ->]|[[= -> ->]|[[= -> ->]|[[= -> ->]|Hp]]]]]]];
    try (eexists; split; [|split; [reflexivity|split; [reflexivity|split; reflexivity]]]; auto).
  by apply not_elem_of_nil in Hp.
Qed.

(** The first entry with the timing of entry [i]. *)
Definition timing_vic (i : Z) : Z :=
  match List.find (fun p => snd p =? i) aspect_pairs with Some p => fst p | None => i end.

Lemma timing_vic_pair j i : (j, i) ∈ aspect_pairs -> timing_vic i = j.
Proof.
  intros Hp. unfold aspect_pairs in Hp. rewrite !elem_of_cons in Hp.
  destruct Hp as [[= -> ->]|[[= -> ->]|[[= -> ->]|[[= -> ->]|[[= -> ->]|[[= -> ->]|[[= -> ->]|Hp]]]]]]];
    try reflexivity. by apply not_elem_of_nil in Hp.
Qed.

Lemma timing_vic_cases i : (timing_vic i, i) ∈ aspect_pairs \/ (timing_vic i = i /\ forall j, (j, i) ∉ aspect_pairs).
Proof.
  unfold timing_vic. destruct (List.find _ aspect_pairs) as [[a b]|] eqn:E.
  - apply List.find_some in E as [Hin Hb]. cbn in Hb. zbool. subst b. left. by apply list_elem_of_In.
  - right. split; [done|]. intros j Hin. apply list_elem_of_In in Hin.
    pose proof (List.find_none _ _ E _ Hin) as Hn. cbn in Hn. zbool. done.
Qed.

Lemma aspect_pair_order j i : (j, i) ∈ aspect_pairs -> 0 <= j < i.
Proof.
  intros Hp. unfold aspect_pairs in Hp. rewrite !elem_of_cons in Hp.
  destruct Hp as [[= -> ->]|[[= -> ->]|[[= -> ->]|[[= -> ->]|[[= -> ->]|[[= -> ->]|[[= -> ->]|Hp]]]]]]];
    try lia. by apply not_elem_of_nil in Hp.
Qed.

(** Entries before both [i] and its first twin have another timing. *)
Lemma timing_vic_first i j :
  0 <= j < timing_vic i -> i < 64 -> xres (entry i cea_entries) <> 0 ->
  timing_equal (entry i cea_entries) (entry j cea_entries) = false.
Proof.
  intros Hj Hi Hx. destruct (timing_equal _ _) eqn:Et; [|done].
  assert (j < i) as Hji by (destruct (timing_vic_cases i) as [Hp|[Ht _]];
    [apply aspect_pair_order in Hp; lia|lia]).
  pose proof (table_pairs i j ltac:(lia) Hi Hx Et) as Hp. apply timing_vic_pair in Hp. lia.
Qed.
End table.

(** ** Specification: an extension as a list of data blocks *)

Inductive cea_block :=
| VideoBlock (svds : bytes)
| AudioBlock (sads : list (Z * Z * Z))
| SpeakerBlock (b0 b1 b2 : Z)
| VendorBlock (r0 r1 r2 a b : Z) (rest : bytes)
| OtherBlock (tag : Z) (payload : bytes).

Definition sad_bytes (s : Z * Z * Z) : bytes := let '(a, b, c) := s in [a; b; c].

Definition block_tag (b : cea_block) : Z :=
  match b with VideoBlock _ => 2 | AudioBlock _ => 1 | SpeakerBlock _ _ _ => 4
  | VendorBlock _ _ _ _ _ _ => 3 | OtherBlock t _ => t end.

Definition block_payload (b : cea_block) : bytes :=
  match b with
  | VideoBlock s => s
  | AudioBlock s => concat (map sad_bytes s)
  | SpeakerBlock b0 b1 b2 => [b0; b1; b2]
  | VendorBlock r0 r1 r2 a b rest => r0 :: r1 :: r2 :: a :: b :: rest
  | OtherBlock _ p => p
  end.

Definition block_bytes (b : cea_block) : bytes :=
  (block_tag b * 32 + Z.of_nat (length (block_payload b))) :: block_payload b.

Definition block_ok (b : cea_block) : Prop :=
  bytes_ok (block_payload b) /\ (length (block_payload b) < 32)%nat /\
  match b with
  | VendorBlock _ _ _ _ _ rest => (length rest <= 2)%nat
  | OtherBlock t _ => t = 0 \/ t = 5 \/ t = 6 \/ t = 7
  | _ => True
  end.

Definition extension_bytes (bs : list cea_block) : bytes := concat (map block_bytes bs).

Section spec.
Context {FB : fb_h} {ED : edid_h}.

(** The mode a short video descriptor stands for, if the table has it. *)
Definition svd_mode (b : Z) : option fb_videomode :=
  m ← mxc_cea_mode !! Z.to_nat (b .& 0x7f);
  if ctrue (xres m) then Some (or_flag FB_MODE_IS_STANDARD m) else None.

Definition svd_modes (s : bytes) : list fb_videomode := omap svd_mode s.

Definition block_modes (b : cea_block) : list fb_videomode :=
  match b with VideoBlock s => svd_modes s | _ => [] end.

(** Linear PCM only: the most channels, and every rate and size offered. *)
Definition sad_caps (a : audio_caps) (s : Z * Z * Z) : audio_caps :=
  let '(b1, b2, b3) := s in
  if b1 ≫ 3 =? AUDIO_CODING_TYPE_LPCM
  then mk_audio (Z.max (max_channels a) ((b1 .& 0x07) + 1)) (sample_rates a .| b2) (sample_sizes a .| (b3 .& 0x7))
  else a.

Definition is_hdmi_oui (r0 r1 r2 : Z) : bool := (r0 =? 0x03) && (r1 =? 0x0c) && (r2 =? 0x00).

(** The HDMI vendor is told by its registration number, least byte first; the
    capabilities and the clock limit follow the address when the block is long
    enough. *)
Definition vendor_cfg (c : mxc_edid_cfg) (r0 r1 r2 a b : Z) (rest : bytes) : mxc_edid_cfg :=
  let c := set_address ((a .& 0xf0) ≫ 4, a .& 0x0f, (b .& 0xf0) ≫ 4, b .& 0x0f) c in
  let c := if is_hdmi_oui r0 r1 r2 then set_hdmi_cap 1 c else c in
  match rest with
  | [] => c
  | [d] => set_deep (vendor_deep_color d (cfg_deep c)) c
  | d :: t :: _ => set_tmds (t * 5) (set_deep (vendor_deep_color d (cfg_deep c)) c)
  end.

Definition block_cfg (c : mxc_edid_cfg) (b : cea_block) : mxc_edid_cfg :=
  match b with
  | AudioBlock s => set_audio (fold_left sad_caps s (mk_audio 0 0 0)) c
  | SpeakerBlock b0 _ _ => set_speaker b0 c
  | VendorBlock r0 r1 r2 a b rest => vendor_cfg c r0 r1 r2 a b rest
  | _ => c
  end.
End spec.

(** ** Lemmas: data blocks *)

Section blocks.
Context {FB : fb_h} {ED : edid_h}.

Lemma header_bits t n : 0 <= t < 8 -> 0 <= n < 32 ->
  ((t * 32 + n) ≫ 5) .& 0x7 = t /\ (t * 32 + n) .& 0x1f = n.
Proof.
  intros Ht Hn.
  assert (forallb (fun t => forallb (fun n => (((t * 32 + n) ≫ 5) .& 0x7 =? t) && ((t * 32 + n) .& 0x1f =? n))
    (seqZ 0 32)) (seqZ 0 8) = true) as H by (vm_compute; reflexivity).
  pose proof (zrange_forall 8 _ H t Ht) as H1. pose proof (zrange_forall 32 _ H1 n Hn) as H2.
  cbn beta in H2. zbool. done.
Qed.

(** The store of one video mode. *)
Lemma svd_store b modes :
  (length (modes ++ svd_modes [b]) <= MODES_MAX)%nat ->
  match mxc_cea_mode !! Z.to_nat (b .& 0x7f) with
  | Some m => if ctrue (xres m) then store_mode (or_flag FB_MODE_IS_STANDARD m) modes else Ret modes
  | None => Ret modes
  end = Ret (modes ++ svd_modes [b]).
Proof.
  unfold svd_modes, svd_mode. cbn [omap list_omap]. destruct (mxc_cea_mode !! _) as [m|]; cbn [mbind option_bind].
  - destruct (ctrue (xres m)); [|by rewrite app_nil_r]. rewrite length_app. cbn [length]. intros H.
    unfold store_mode. by replace (length modes <? MODES_MAX)%nat with true by (symmetry; apply Nat.ltb_lt; lia).
  - by rewrite app_nil_r.
Qed.

Lemma svd_modes_cons b s : svd_modes (b :: s) = svd_modes [b] ++ svd_modes s.
Proof. unfold svd_modes. cbn. by destruct (svd_mode b). Qed.

Lemma video_block_ok s : forall pre post modes,
  (0 < length pre)%nat -> Z.of_nat (length pre + length s) <= 256 ->
  (length (modes ++ svd_modes s) <= MODES_MAX)%nat ->
  video_block (length s) (pre ++ s ++ post) (Z.of_nat (length pre) - 1) modes =
    Ret (Z.of_nat (length pre + length s) - 1, modes ++ svd_modes s).
Proof.
  induction s as [|b s IH]; intros pre post modes Hp Hl Hm; cbn [length video_block].
  { by rewrite Nat.add_0_r, app_nil_r. }
  cbn [length] in Hl. rewrite u8_small by lia. rewrite Z.sub_add. cbn [app]. rewrite arr_rd_at.
  cbn [mbind outcome_bind]. rewrite svd_modes_cons in Hm |- *. rewrite app_assoc in Hm |- *.
  rewrite svd_store by (rewrite length_app in Hm; lia). cbn [mbind outcome_bind].
  rewrite (app_cons1 pre b). specialize (IH (pre ++ [b]) post (modes ++ svd_modes [b])).
  rewrite length_app in IH. cbn [length] in IH.
  replace (Z.of_nat (length pre)) with (Z.of_nat (length pre + 1) - 1) by lia.
  rewrite IH by (done || lia). do 2 f_equal. lia.
Qed.

Lemma audio_block_ok sads : forall fuel i pre post a,
  (0 < length pre)%nat -> Z.of_nat (length pre + 3 * length sads) <= 256 -> (length sads <= fuel)%nat ->
  audio_block fuel i (i + Z.of_nat (3 * length sads)) (pre ++ concat (map sad_bytes sads) ++ post)
    (Z.of_nat (length pre) - 1) a =
    Ret (Z.of_nat (length pre + 3 * length sads) - 1, fold_left sad_caps sads a).
Proof.
  induction sads as [|[[b1 b2] b3] sads IH]; intros fuel i pre post a Hp Hl Hf.
  { cbn [length]. rewrite Z.add_0_r. destruct fuel; cbn [audio_block];
      (replace (i <? i) with false by lia); cbn; by rewrite Nat.add_0_r. }
  destruct fuel as [|fuel]; [cbn in Hf; lia|]. cbn [length] in *. cbn [audio_block].
  rewrite (proj2 (Z.ltb_lt i (i + Z.of_nat (3 * S (length sads))))) by lia. cbn [map concat sad_bytes app]. rewrite Z.sub_add, arr_rd_at.
  cbn [mbind outcome_bind]. rewrite (app_cons1 pre b1).
  replace (Z.of_nat (length pre) - 1 + 2) with (Z.of_nat (length (pre ++ [b1]))) by (rewrite length_app; cbn; lia).
  rewrite arr_rd_at. cbn [mbind outcome_bind]. rewrite (app_cons1 (pre ++ [b1]) b2).
  replace (Z.of_nat (length pre) - 1 + 3) with (Z.of_nat (length ((pre ++ [b1]) ++ [b2])))
    by (rewrite !length_app; cbn; lia).
  rewrite arr_rd_at. cbn [mbind outcome_bind]. rewrite (app_cons1 ((pre ++ [b1]) ++ [b2]) b3).
  specialize (IH fuel (i + 3) (((pre ++ [b1]) ++ [b2]) ++ [b3]) post).
  rewrite !length_app in *. cbn [length] in *. rewrite u8_small by lia.
  replace (i + Z.of_nat (3 * S (length sads))) with (i + 3 + Z.of_nat (3 * length sads)) by lia.
  replace (Z.of_nat (length pre + 1 + 1)) with (Z.of_nat (length pre + 1 + 1 + 1) - 1) by lia.
  rewrite IH by lia. cbn [fold_left sad_caps]. f_equal. f_equal; [lia|]. f_equal.
  destruct (_ =? _); [|done]. f_equal. case_match; zbool; lia.
Qed.

Lemma sad_bytes_length sads : length (concat (map sad_bytes sads)) = (3 * length sads)%nat.
Proof. induction sads as [|[[? ?] ?] sads IH]; [done|]. cbn [map concat]. rewrite length_app, IH. cbn. lia. Qed.

Lemma vendor_block_ok r0 r1 r2 a b rest pre post c :
  (0 < length pre)%nat -> (length rest <= 2)%nat -> Z.of_nat (length pre + (5 + length rest)) <= 256 ->
  vendor_block (Z.of_nat (5 + length rest)) (pre ++ r0 :: r1 :: r2 :: a :: b :: rest ++ post)
    (Z.of_nat (length pre) - 1) c =
    Ret (Z.of_nat (length pre + (5 + length rest)) - 1, vendor_cfg c r0 r1 r2 a b rest).
Proof.
  intros Hp Hr Hl. unfold vendor_block. remember (Z.of_nat (length pre) - 1) as i eqn:Ei. cbv zeta.
  rewrite (arr_rd_after pre _ (i + 1) 0), (arr_rd_after pre _ (i + 2) 1), (arr_rd_after pre _ (i + 3) 2),
    (arr_rd_after pre _ (i + 4) 3), (arr_rd_after pre _ (i + 5) 4) by lia.
  rewrite (arr_rd_after pre _ (i + 6) 5), (arr_rd_after pre _ (i + 7) 6) by lia.
  rewrite !u8_small by lia. set (l := r0 :: r1 :: r2 :: a :: b :: rest ++ post).
  change (arr_rd l 0) with (@Ret Z r0). change (arr_rd l 1) with (@Ret Z r1).
  change (arr_rd l 2) with (@Ret Z r2). change (arr_rd l 3) with (@Ret Z a).
  change (arr_rd l 4) with (@Ret Z b). cbn [mbind outcome_bind]. unfold vendor_cfg, is_hdmi_oui.
  destruct rest as [|d [|t [|]]]; [..|cbn in Hr; lia]; cbn [length Nat.add];
    [change (Z.of_nat 5) with 5|change (Z.of_nat 6) with 6|change (Z.of_nat 7) with 7];
    try change (arr_rd l 5) with (@Ret Z d); try change (arr_rd l 6) with (@Ret Z t); cbn;
    do 2 f_equal; lia.
Qed.

Lemma data_block_ok b pre post c modes :
  block_ok b -> (0 < length pre)%nat -> Z.of_nat (length pre + length (block_payload b)) <= 256 ->
  (length (modes ++ block_modes b) <= MODES_MAX)%nat ->
  data_block (block_tag b) (Z.of_nat (length (block_payload b))) (pre ++ block_payload b ++ post)
    (Z.of_nat (length pre) - 1) c modes =
    Ret (Z.of_nat (length pre + length (block_payload b)) - 1, block_cfg c b, modes ++ block_modes b).
Proof.
  intros (_ & Hlen & Ht) Hp Hl Hm. unfold data_block. destruct b as [s|sads|b0 b1 b2|r0 r1 r2 a b rest|t p];
    cbn [block_tag block_payload block_cfg block_modes] in *.
  - change (2 =? 2) with true. cbn match. rewrite Nat2Z.id, video_block_ok by done. done.
  - change (1 =? 2) with false. change (1 =? 3) with false. change (1 =? 1) with true. cbn match.
    rewrite sad_bytes_length in *. rewrite app_nil_r.
    pose proof (audio_block_ok sads 11 0 pre post (mk_audio 0 0 0) Hp Hl ltac:(lia)) as E.
    rewrite Z.add_0_l in E. by rewrite E.
  - change (4 =? 2) with false. change (4 =? 3) with false. change (4 =? 1) with false.
    change (4 =? 4) with true. cbn [length] in *. cbn match. cbn [speaker_block app].
    change (0 <? Z.of_nat 3) with true. cbn match. rewrite Z.sub_add, arr_rd_at. cbn [mbind outcome_bind].
    change (0 + 3 <? Z.of_nat 3) with false. cbn match. cbn [mbind outcome_bind].
    rewrite u8_small by lia. rewrite app_nil_r. do 3 f_equal. lia.
  - change (3 =? 2) with false. change (3 =? 3) with true. cbn match. cbn [length app] in *.
    pose proof (vendor_block_ok r0 r1 r2 a b rest pre post c Hp Ht ltac:(lia)) as E.
    cbn [Nat.add] in E. rewrite E. cbn [mbind outcome_bind]. by rewrite app_nil_r.
  - assert (forall v, v = 2 \/ v = 3 \/ v = 1 \/ v = 4 -> (t =? v) = false) as Hf by (intros; lia).
    rewrite !Hf by auto. rewrite u8_small by lia. rewrite app_nil_r. do 3 f_equal. lia.
Qed.

Lemma block_tag_range b : block_ok b -> 0 <= block_tag b < 8.
Proof. intros (_ & _ & Ht). destruct b; cbn in *; lia. Qed.

(** One round of the loop, at the first byte of a block. *)
Lemma cea_loop_round b fuel pre post offset c modes :
  block_ok b -> Z.of_nat (length pre) < offset ->
  cea_loop (S fuel) (pre ++ block_bytes b ++ post) (Z.of_nat (length pre)) offset c modes =
    '(index, c, modes) ← data_block (block_tag b) (Z.of_nat (length (block_payload b)))
       ((pre ++ take 1 (block_bytes b)) ++ block_payload b ++ post)
       (Z.of_nat (length (pre ++ take 1 (block_bytes b))) - 1) c modes;
    cea_loop fuel (((pre ++ take 1 (block_bytes b)) ++ block_payload b) ++ post) (u8 (index + 1)) offset c modes.
Proof.
  intros Hb Hl. cbn [cea_loop]. rewrite (proj2 (Z.ltb_lt _ _)) by done. unfold block_bytes. cbn [take app].
  rewrite arr_rd_at. cbn [mbind outcome_bind].
  destruct (header_bits (block_tag b) (Z.of_nat (length (block_payload b)))) as [-> ->];
    [by apply block_tag_range|destruct Hb as (_ & ? & _); lia|].
  set (h := block_tag b * 32 + _). rewrite take_0, <- !(app_assoc pre), <- (app_assoc [h]). cbn [app].
  rewrite length_app. cbn [length]. by replace (Z.of_nat (length pre + 1) - 1) with (Z.of_nat (length pre)) by lia.
Qed.

Lemma cea_loop_blocks bs : forall fuel pre post c modes,
  Forall block_ok bs -> (length bs <= fuel)%nat ->
  Z.of_nat (length pre + length (extension_bytes bs)) < 256 ->
  (length (modes ++ concat (map block_modes bs)) <= MODES_MAX)%nat ->
  cea_loop fuel (pre ++ extension_bytes bs ++ post) (Z.of_nat (length pre))
    (Z.of_nat (length pre + length (extension_bytes bs))) c modes =
    Ret (fold_left block_cfg bs c, modes ++ concat (map block_modes bs)).
Proof.
  induction bs as [|b bs IH]; intros fuel pre post c modes Hok Hf Hl Hm.
  { cbn. rewrite Nat.add_0_r, app_nil_r. destruct fuel; cbn; by rewrite Z.ltb_irrefl. }
  destruct fuel as [|fuel]; [cbn in Hf; lia|]. apply Forall_cons in Hok as [Hb Hok].
  change (extension_bytes (b :: bs)) with (block_bytes b ++ extension_bytes bs) in *.
  change (concat (map block_modes (b :: bs))) with (block_modes b ++ concat (map block_modes bs)) in *.
  rewrite length_app in Hl |- *. rewrite (app_assoc modes) in Hm |- *.
  assert (length (block_bytes b) = S (length (block_payload b))) as El by done.
  rewrite <- app_assoc, cea_loop_round by (done || lia). set (pre' := pre ++ take 1 (block_bytes b)).
  assert (length pre' = (length pre + 1)%nat) as Ep by (unfold pre'; rewrite length_app; done).
  rewrite data_block_ok; [|done|lia|lia|rewrite length_app in Hm; lia].
  cbn [mbind outcome_bind fold_left]. rewrite u8_small by lia.
  specialize (IH fuel (pre' ++ block_payload b) post (block_cfg c b) (modes ++ block_modes b)).
  rewrite length_app in IH. rewrite Z.sub_add.
  replace (length pre + (length (block_bytes b) + length (extension_bytes bs)))%nat
    with (length pre' + length (block_payload b) + length (extension_bytes bs))%nat by lia.
  apply IH; [done|cbn in Hf; lia|lia|done].
Qed.

(** With more modes than fit, a store is past the allocation. *)
Lemma svd_store_over b modes :
  (length modes <= MODES_MAX < length (modes ++ svd_modes [b]))%nat ->
  match mxc_cea_mode !! Z.to_nat (b .& 0x7f) with
  | Some m => if ctrue (xres m) then store_mode (or_flag FB_MODE_IS_STANDARD m) modes else Ret modes
  | None => Ret modes
  end = Ub.
Proof.
  unfold svd_modes, svd_mode. cbn [omap list_omap]. rewrite length_app.
  destruct (mxc_cea_mode !! _) as [m|]; cbn [mbind option_bind length]; [|lia].
  destruct (ctrue (xres m)); cbn [length]; [|lia]. intros H.
  unfold store_mode. by replace (length modes <? MODES_MAX)%nat with false by (symmetry; apply Nat.ltb_ge; lia).
Qed.

Lemma video_block_over s : forall pre post modes,
  (0 < length pre)%nat -> Z.of_nat (length pre + length s) <= 256 ->
  (length modes <= MODES_MAX < length (modes ++ svd_modes s))%nat ->
  video_block (length s) (pre ++ s ++ post) (Z.of_nat (length pre) - 1) modes = Ub.
Proof.
  induction s as [|b s IH]; intros pre post modes Hp Hl Hm; cbn [length video_block].
  { rewrite app_nil_r in Hm. lia. }
  cbn [length] in Hl. rewrite u8_small by lia. rewrite Z.sub_add. cbn [app]. rewrite arr_rd_at.
  cbn [mbind outcome_bind]. rewrite svd_modes_cons, app_assoc in Hm.
  destruct (decide (length (modes ++ svd_modes [b]) <= MODES_MAX)%nat) as [Hle|Hgt].
  - rewrite svd_store by done. cbn [mbind outcome_bind]. rewrite (app_cons1 pre b).
    replace (Z.of_nat (length pre)) with (Z.of_nat (length (pre ++ [b])) - 1) by (rewrite length_app; cbn; lia).
    apply IH; rewrite ?(length_app pre); cbn [length]; lia.
  - rewrite svd_store_over by lia. done.
Qed.

Lemma data_block_over b pre post c modes :
  (0 < length pre)%nat -> Z.of_nat (length pre + length (block_payload b)) <= 256 ->
  (length modes <= MODES_MAX < length (modes ++ block_modes b))%nat ->
  data_block (block_tag b) (Z.of_nat (length (block_payload b))) (pre ++ block_payload b ++ post)
    (Z.of_nat (length pre) - 1) c modes = Ub.
Proof.
  intros Hp Hl Hm. destruct b; cbn [block_modes] in Hm; try (rewrite app_nil_r in Hm; lia).
  unfold data_block. cbn [block_tag block_payload] in *. change (2 =? 2) with true. cbn match.
  by rewrite Nat2Z.id, video_block_over.
Qed.

Lemma cea_loop_over bs : forall fuel pre post c modes,
  Forall block_ok bs -> (length bs <= fuel)%nat -> (0 < length pre)%nat ->
  Z.of_nat (length pre + length (extension_bytes bs)) < 256 ->
  (length modes <= MODES_MAX < length (modes ++ concat (map block_modes bs)))%nat ->
  cea_loop fuel (pre ++ extension_bytes bs ++ post) (Z.of_nat (length pre))
    (Z.of_nat (length pre + length (extension_bytes bs))) c modes = Ub.
Proof.
  induction bs as [|b bs IH]; intros fuel pre post c modes Hok Hf Hp Hl Hm.
  { cbn in Hm. rewrite app_nil_r in Hm. lia. }
  destruct fuel as [|fuel]; [cbn in Hf; lia|]. apply Forall_cons in Hok as [Hb Hok].
  change (extension_bytes (b :: bs)) with (block_bytes b ++ extension_bytes bs) in *.
  change (concat (map block_modes (b :: bs))) with (block_modes b ++ concat (map block_modes bs)) in *.
  rewrite length_app in Hl |- *. rewrite (app_assoc modes) in Hm.
  assert (length (block_bytes b) = S (length (block_payload b))) as El by done.
  rewrite <- app_assoc, cea_loop_round by (done || lia). set (pre' := pre ++ take 1 (block_bytes b)).
  assert (length pre' = (length pre + 1)%nat) as Ep by (unfold pre'; rewrite length_app; done).
  destruct (decide (length (modes ++ block_modes b) <= MODES_MAX)%nat) as [Hle|Hgt].
  - rewrite data_block_ok by (done || lia). cbn [mbind outcome_bind]. rewrite u8_small by lia.
    specialize (IH fuel (pre' ++ block_payload b) post (block_cfg c b) (modes ++ block_modes b)).
    rewrite length_app in IH. rewrite Z.sub_add.
    replace (length pre + (length (block_bytes b) + length (extension_bytes bs)))%nat
      with (length pre' + length (block_payload b) + length (extension_bytes bs))%nat by lia.
    apply IH; [done|cbn in Hf; lia|lia|lia|lia].
  - rewrite data_block_over by (done || lia). done.
Qed.
End blocks.

(** ** Lemmas: the detailed timings *)

Section timings.
Context {FB : fb_h} `{EL : edid_h_laws}.

(** The region of the timings, from [off] to the end of the block, is zero. *)
Definition zero_region (edid : bytes) (off : Z) : Prop :=
  forall i, off <= i < 128 -> arr_rd edid i = Ret 0.

Lemma timing_loop_zeros fuel : forall edid off index modes,
  zero_region edid off -> 0 <= off <= index -> 110 - index < 18 * Z.of_nat fuel ->
  timing_loop fuel edid index modes = Ret modes.
Proof.
  induction fuel as [|fuel IH]; intros edid off index modes Hz Hi Hf;
    cbn [timing_loop]; rewrite edid_length_128, timing_size_18; change (128 - 18) with 110.
  - by rewrite (proj2 (Z.ltb_ge _ _)) by lia.
  - destruct (Z.ltb_spec index 110); [|done]. rewrite (Hz index) by lia. cbn [mbind outcome_bind].
    change (0 =? 0) with true. cbn [andb mbind outcome_bind].
    rewrite (Hz (index + 1)) by lia. cbn [mbind outcome_bind]. change (0 =? 0) with true.
    cbn [andb mbind outcome_bind]. rewrite u8_small by lia. apply (IH edid off); [done|lia|lia].
Qed.

Lemma timing_loop_enough fuel : forall edid index modes,
  0 <= index -> 110 - index < 18 * Z.of_nat fuel -> ends (fun _ => True) (timing_loop fuel edid index modes).
Proof.
  induction fuel as [|fuel IH]; intros edid index modes Hi Hf;
    cbn [timing_loop]; rewrite edid_length_128, timing_size_18; change (128 - 18) with 110.
  - by rewrite (proj2 (Z.ltb_ge _ _)) by lia.
  - destruct (Z.ltb_spec index 110); [|done]. eapply ends_bind; [apply arr_rd_ends|]. intros b0 _.
    eapply ends_bind with (P := fun _ => True); [case_match; [apply arr_rd_ends|done]|]. intros b1 _.
    rewrite u8_small by lia. eapply ends_bind with (P := fun _ => True); [|intros m _; apply IH; lia].
    case_match; [done|]. eapply ends_bind with (P := fun _ => True).
    + unfold get_detailed_timing. cbv zeta. by case_match.
    + intros m _. unfold store_mode. by case_match.
Qed.
End timings.

(** ** Lemmas: termination of the data block loop *)

Section termination.
Context {FB : fb_h} {ED : edid_h}.

Lemma video_block_ends n : forall edid index modes,
  0 <= index -> index + Z.of_nat n < 256 ->
  ends (fun r => fst r = index + Z.of_nat n) (video_block n edid index modes).
Proof.
  induction n as [|n IH]; intros edid index modes Hi Hn; cbn [video_block]; [cbn; lia|].
  rewrite u8_small by lia. eapply ends_bind; [apply arr_rd_ends|]. intros b _.
  eapply ends_bind with (P := fun _ => True).
  { destruct (_ !! _) as [m|]; [|done]. case_match; [|done]. unfold store_mode. by case_match. }
  intros modes' _. specialize (IH edid (index + 1) modes').
  destruct (video_block n edid (index + 1) modes') as [r| | |]; cbn in *; try done; [|apply IH; lia].
  rewrite IH; lia.
Qed.

Lemma audio_block_ends fuel : forall i blklen edid index a,
  0 <= index -> index + 3 * Z.of_nat fuel < 256 -> blklen - i <= 3 * Z.of_nat fuel ->
  ends (fun r => index <= fst r <= index + 3 * Z.of_nat fuel) (audio_block fuel i blklen edid index a).
Proof.
  induction fuel as [|fuel IH]; intros i blklen edid index a Hi Hn Hb; cbn [audio_block].
  - rewrite (proj2 (Z.ltb_ge _ _)) by lia. cbn. lia.
  - destruct (Z.ltb_spec i blklen); [|cbn; lia].
    do 3 (eapply ends_bind; [apply arr_rd_ends|]; intros ? _). rewrite u8_small by lia. cbv zeta.
    match goal with |- ends _ (audio_block fuel ?i' _ _ ?x ?a') => specialize (IH i' blklen edid x a') end.
    destruct (audio_block fuel _ _ _ _ _); cbn in *; try done; [|apply IH; lia].
    destruct IH; lia.
Qed.

Lemma speaker_block_ends fuel : forall i blklen edid index s,
  0 <= index -> index + 3 * Z.of_nat fuel < 256 -> blklen - i <= 3 * Z.of_nat fuel ->
  ends (fun r => index <= fst r <= index + 3 * Z.of_nat fuel) (speaker_block fuel i blklen edid index s).
Proof.
  induction fuel as [|fuel IH]; intros i blklen edid index s Hi Hn Hb; cbn [speaker_block].
  - rewrite (proj2 (Z.ltb_ge _ _)) by lia. cbn. lia.
  - destruct (Z.ltb_spec i blklen); [|cbn; lia].
    eapply ends_bind; [apply arr_rd_ends|]. intros s' _. rewrite u8_small by lia.
    specialize (IH (i + 3) blklen edid (index + 3) s').
    destruct (speaker_block fuel _ _ _ _ _); cbn in *; try done; [|apply IH; lia].
    destruct IH; lia.
Qed.

Lemma next_byte_ends edid index : ends (fun _ => True) (next_byte edid index).
Proof. unfold next_byte. eapply ends_bind; [apply arr_rd_ends|done]. Qed.

Lemma vic_list_ends n : forall i edid index vics, ends (fun _ => True) (vic_list n i edid index vics).
Proof.
  induction n as [|n IH]; intros i edid index vics; cbn [vic_list]; [done|].
  eapply ends_bind; [apply next_byte_ends|]. intros [b x] _.
  eapply ends_bind; [apply arr_wr_ends|]. intros v _. apply IH.
Qed.

Lemma formats_3d_ends fuel : forall i len inc edid index fs,
  0 <= inc -> len < 32 -> len - inc <= Z.of_nat fuel ->
  ends (fun _ => True) (formats_3d fuel i len inc edid index fs).
Proof.
  induction fuel as [|fuel IH]; intros i len inc edid index fs Hi Hlen Hf; cbn [formats_3d].
  - by rewrite (proj2 (Z.ltb_ge _ _)) by lia.
  - destruct (Z.ltb_spec 0 (len - inc)); [|done].
    eapply ends_bind; [apply arr_rd_ends|]. intros b _.
    eapply ends_bind; [apply arr_rd_ends|]. intros old _. cbv zeta. rewrite (u8_small (inc + 1)) by lia.
    rewrite (u8_small (inc + 1 + 1)) by lia.
    eapply ends_bind with (P := fun r => inc + 1 <= snd r).
    { case_match; [|case_match; cbn; lia]. eapply ends_bind; [apply arr_rd_ends|]. intros d _. cbn. lia. }
    intros [d inc'] Hinc. cbn in Hinc.
    eapply ends_bind; [apply arr_wr_ends|]. intros fs' _. apply IH; lia.
Qed.

Lemma land_below x n : 0 <= n -> 0 <= x .& Z.ones n < 2 ^ n.
Proof. intros Hn. rewrite Z.land_ones by done. apply Z.mod_pos_bound. lia. Qed.

Lemma vendor_video_ends edid index c : ends (fun _ => True) (vendor_video edid index c).
Proof.
  unfold vendor_video. eapply ends_bind; [apply next_byte_ends|]. intros [b x] _. cbv zeta.
  eapply ends_bind; [apply next_byte_ends|]. intros [b2 x2] _.
  eapply ends_bind; [apply vic_list_ends|]. intros [x3 vics] _. case_match; [|done].
  eapply ends_bind with (P := fun r => 0 <= fst r).
  { repeat case_match; repeat (eapply ends_bind; [apply arr_rd_ends|]; intros ? _); cbn; lia. }
  intros [inc c'] Hinc. cbn in Hinc. eapply ends_bind; [apply formats_3d_ends|done]; try done;
    pose proof (land_below b2 5 ltac:(lia)) as Hb; change (Z.ones 5) with 0x1f in Hb; lia.
Qed.

Lemma vendor_block_ends blklen edid index c :
  0 <= index -> 0 <= blklen -> index + blklen < 256 ->
  ends (fun r => fst r = index + blklen) (vendor_block blklen edid index c).
Proof.
  intros Hi Hb Hl. unfold vendor_block. rewrite (u8_small (index + blklen)) by lia. cbv zeta.
  do 5 (eapply ends_bind; [apply arr_rd_ends|]; intros ? _).
  eapply ends_bind with (P := fun _ => True).
  { case_match; [|done]. eapply ends_bind; [apply arr_rd_ends|done]. }
  intros c1 _. eapply ends_bind with (P := fun _ => True).
  { case_match; [|done]. eapply ends_bind; [apply arr_rd_ends|done]. }
  intros c2 _. case_match; [|done]. eapply ends_bind; [apply arr_rd_ends|]. intros l _.
  eapply ends_bind with (P := fun _ => True).
  { case_match; [|done]. unfold vendor_latency.
    repeat (eapply ends_bind; [apply next_byte_ends|]; intros [? ?] _). case_match; [|done].
    repeat (eapply ends_bind; [apply next_byte_ends|]; intros [? ?] _). done. }
  intros [i' c3] _. eapply ends_bind with (P := fun _ => True); [|done].
  case_match; [apply vendor_video_ends|done].
Qed.

(** A data block ends at most 33 bytes further. *)
Lemma data_block_ends tag blklen edid index c modes :
  0 <= index < 222 -> 0 <= blklen < 32 ->
  ends (fun r => index <= fst (fst r) <= index + 33) (data_block tag blklen edid index c modes).
Proof.
  intros Hi Hb. unfold data_block. case_match.
  { eapply ends_bind; [apply video_block_ends; lia|]. intros [x m] E. cbn in *. lia. }
  case_match.
  { eapply ends_bind; [apply vendor_block_ends; lia|]. intros [x m] E. cbn in *. lia. }
  case_match.
  { eapply ends_bind; [apply audio_block_ends; lia|]. intros [x m] E. cbn in *. lia. }
  case_match.
  { eapply ends_bind; [apply speaker_block_ends; lia|]. intros [x m] E. cbn in *. lia. }
  rewrite u8_small by lia. cbn. lia.
Qed.

Lemma cea_loop_ends fuel : forall edid index offset c modes,
  0 <= index -> offset <= 222 -> offset - index <= Z.of_nat fuel ->
  ends (fun _ => True) (cea_loop fuel edid index offset c modes).
Proof.
  induction fuel as [|fuel IH]; intros edid index offset c modes Hi Ho Hf; cbn [cea_loop].
  - by rewrite (proj2 (Z.ltb_ge _ _)) by lia.
  - destruct (Z.ltb_spec index offset); [|done]. eapply ends_bind; [apply arr_rd_ends|]. intros b _.
    pose proof (land_below b 5 ltac:(lia)) as Hb. change (Z.ones 5) with 0x1f in Hb.
    eapply ends_bind; [apply data_block_ends; lia|]. intros [[x c'] modes'] Hx. cbn in Hx.
    rewrite u8_small by lia. apply IH; lia.
Qed.
End termination.

(** ** Lemmas: the parser on an extension *)

Section extension.
Context {FB : fb_h} `{EL : edid_h_laws}.

(** An extension block of the data blocks [bs] and no detailed timing, and what
    the array holds after it. *)
Definition extension (rev flags : Z) (bs : list cea_block) (post : bytes) : bytes :=
  [0x2; rev; 4 + Z.of_nat (length (extension_bytes bs)); flags] ++ extension_bytes bs ++
  replicate (124 - length (extension_bytes bs)) 0 ++ post.

Definition flags_cfg (flags : Z) : mxc_edid_cfg -> mxc_edid_cfg :=
  set_cea (mk_cea ((flags ≫ 7) .& 0x1) ((flags ≫ 6) .& 0x1) ((flags ≫ 5) .& 0x1) ((flags ≫ 4) .& 0x1)).

Lemma extension_zeros rev flags bs post :
  (length (extension_bytes bs) <= 124)%nat ->
  zero_region (extension rev flags bs post) (4 + Z.of_nat (length (extension_bytes bs))).
Proof.
  intros Hl i Hi. unfold extension. rewrite app_assoc.
  rewrite (arr_rd_after _ _ i (i - 4 - Z.of_nat (length (extension_bytes bs))))
    by (rewrite ?length_app; cbn [length]; lia).
  unfold arr_rd. rewrite (proj2 (Z.leb_le _ _)) by lia.
  rewrite lookup_app_l by (rewrite length_replicate; lia). by rewrite lookup_replicate_2 by lia.
Qed.

(** The parser once its header is read. *)
Lemma parse_ext_blk_header fuel edid c db rev off flags :
  arr_rd edid 0 = Ret 2 -> arr_rd edid 1 = Ret rev -> arr_rd edid 2 = Ret off ->
  arr_rd edid 3 = Ret flags -> 3 <= rev ->
  mxc_edid_parse_ext_blk fuel true true edid c db =
    '(c, modes) ← cea_loop fuel edid 4 off (flags_cfg flags c) [];
    modes ← timing_loop 128 edid off modes;
    Ret (0, c, db ++ modes).
Proof.
  intros H0 H1 H2 H3 Hr. unfold mxc_edid_parse_ext_blk. rewrite H0. cbn [mbind outcome_bind].
  change (2 =? 2) with true. cbn [negb]. rewrite H1. cbn [mbind outcome_bind]. rewrite H2. cbn [mbind outcome_bind].
  rewrite (proj2 (Z.leb_le 2 rev)), (proj2 (Z.leb_le 3 rev)) by lia. rewrite H3. cbn [mbind outcome_bind].
  fold (flags_cfg flags). destruct (cea_loop _ _ _ _ _ _) as [[c' modes]| | |]; cbn [mbind outcome_bind]; try done.
  destruct (timing_loop _ _ _ _) as [m| | |]; cbn [mbind outcome_bind]; try done.
  destruct m; cbn; [by rewrite app_nil_r|done].
Qed.

Lemma parse_extension fuel rev flags bs post c db :
  3 <= rev -> Forall block_ok bs -> (length bs <= fuel)%nat -> (length (extension_bytes bs) <= 124)%nat ->
  mxc_edid_parse_ext_blk fuel true true (extension rev flags bs post) c db =
    if (length (concat (map block_modes bs)) <=? MODES_MAX)%nat
    then Ret (0, fold_left block_cfg bs (flags_cfg flags c), db ++ concat (map block_modes bs))
    else Ub.
Proof.
  intros Hr Hok Hf Hl. set (len := length (extension_bytes bs)) in *.
  erewrite parse_ext_blk_header; [|reflexivity..|done]. fold len. unfold extension. fold len.
  set (hd := [2; rev; 4 + Z.of_nat len; flags]). set (tl := replicate _ 0 ++ post).
  replace (4 + Z.of_nat len) with (Z.of_nat (length hd + len)) by (cbn [length hd]; lia).
  change 4 with (Z.of_nat (length hd)) at 1. case_match.
  all: match goal with Hc : (_ <=? _)%nat = _ |- _ => first [apply Nat.leb_le in Hc|apply Nat.leb_gt in Hc] end.
  - unfold len. rewrite cea_loop_blocks by (done || (fold len; cbn [length hd]; lia)). fold len.
    cbn [mbind outcome_bind].
    pose proof (extension_zeros rev flags bs post Hl) as Hz. unfold extension in Hz. fold len hd tl in Hz.
    rewrite (timing_loop_zeros 128 _ (4 + Z.of_nat len)) by (done || (cbn [length hd]; lia)). done.
  - unfold len. rewrite cea_loop_over by (done || (fold len; cbn [length hd app]; lia)). done.
Qed.

(** The walk over reserved blocks that wraps around: the cursor stays on the
    eight positions [4 + 32 k], below [offset]. *)
Definition wraps (edid : bytes) : Prop := forall k, 0 <= k < 8 -> arr_rd edid (4 + 32 * k) = Ret 0x1f.

Lemma cea_loop_wraps fuel : forall edid k offset c modes,
  wraps edid -> 0 <= k < 8 -> 228 < offset -> cea_loop fuel edid (4 + 32 * k) offset c modes = NoFuel.
Proof.
  induction fuel as [|fuel IH]; intros edid k offset c modes Hw Hk Ho; cbn [cea_loop];
    rewrite (proj2 (Z.ltb_lt (4 + 32 * k) offset)) by lia; [done|].
  rewrite (Hw k Hk). cbn [mbind outcome_bind].
  change ((0x1f ≫ 5) .& 0x7) with 0. change (0x1f .& 0x1f) with 31. unfold data_block.
  change (0 =? 2) with false. change (0 =? 3) with false. change (0 =? 1) with false.
  change (0 =? 4) with false. cbn [mbind outcome_bind]. rewrite u8_add_l.
  replace (u8 (4 + 32 * k + 31 + 1)) with (4 + 32 * ((k + 1) mod 8)).
  - apply IH; [done|apply Z.mod_pos_bound; lia|done].
  - assert (k = 0 \/ k = 1 \/ k = 2 \/ k = 3 \/ k = 4 \/ k = 5 \/ k = 6 \/ k = 7) as Hc by lia.
    repeat destruct Hc as [->|Hc]; [reflexivity..|subst k; reflexivity].
Qed.
End extension.

(** ** Lemmas: reading the blocks *)

Section reading.
Context {FB : fb_h} `{EL : edid_h_laws}.

Definition blank (n : nat) : bytes := replicate (128 * n) 0.

(** The array that the transfers fill, for [k] extension blocks. *)
Definition blocks_read (k : Z) (d0 d1 d2 d3 : bytes) : bytes :=
  d0 ++ d1 ++ (if k <=? 1 then blank 2 else if k =? 3 then d2 ++ d3 else d2 ++ blank 1).

Lemma readblk_ok d0 d1 k ts :
  length d0 = 128%nat -> length d1 = 128%nat -> arr_rd d0 0x7E = Ret k -> k <> 0 -> arr_rd d0 1 <> Ret 0 ->
  mxc_edid_readblk (blank 4) (Some d0 :: Some d1 :: ts) = Ret (k, d0 ++ d1 ++ blank 2, ts).
Proof.
  intros L0 L1 Hk Hk0 H1. cbn [mxc_edid_readblk].
  change (blank 4) with ([] ++ blank 1 ++ blank 1 ++ blank 2). rewrite put_block_mid by done.
  cbn [mbind outcome_bind app].
  assert (forall i, 0 <= i < 128 -> arr_rd (d0 ++ blank 1 ++ blank 2) i = arr_rd d0 i) as Hrd.
  { intros i Hi. unfold arr_rd. by rewrite lookup_app_l by lia. }
  rewrite !Hrd, Hk by lia. destruct (arr_rd d0 1) as [b| | |] eqn:E1;
    try (unfold arr_rd in E1; cbn in E1; destruct (d0 !! _) eqn:E; [done|]; apply lookup_ge_None in E; lia).
  cbn [mbind outcome_bind]. rewrite (proj2 (Z.eqb_neq b 0)) by congruence. rewrite (proj2 (Z.eqb_neq k 0)) by done.
  rewrite put_block_mid by (rewrite ?L0, ?edid_length_128; done). done.
Qed.

Lemma readsegblk_ok d0 d1 d2 d3 k ts :
  length d0 = 128%nat -> length d1 = 128%nat -> length d2 = 128%nat -> length d3 = 128%nat -> 1 < k ->
  exists ts', mxc_edid_readsegblk (d0 ++ d1 ++ blank 2) (EDID_LENGTH * 2) (k - 1) (Some d2 :: Some d3 :: ts) =
    Ret (3, blocks_read k d0 d1 d2 d3, ts').
Proof.
  intros L0 L1 L2 L3 Hk. cbn [mxc_edid_readsegblk]. rewrite edid_length_128. change (blank 2) with (blank 1 ++ blank 1).
  rewrite (app_assoc d0), put_block_mid by (rewrite ?length_app, ?L0, ?L1, ?L2; done). cbn [mbind outcome_bind].
  unfold blocks_read. rewrite (proj2 (Z.leb_gt k 1)) by lia. rewrite <- (app_assoc d0).
  destruct (Z.eqb_spec (k - 1) 2), (Z.eqb_spec k 3); try lia; [|by eexists].
  rewrite <- (app_nil_r (blank 1)), !app_assoc, <- (app_assoc _ (blank 1)).
  rewrite put_block_mid by (rewrite ?length_app, ?L0, ?L1, ?L2, ?L3; done). cbn [mbind outcome_bind].
  eexists. by rewrite app_nil_r.
Qed.

(** A block after the third extension is outside the array. *)
Lemma parse_blocks_overrun n : forall i fuel edid c db r,
  (length edid = 512)%nat -> 0 <= i <= 4 -> 4 < i + Z.of_nat n ->
  parse_blocks n i fuel edid c db <> Ret r.
Proof.
  induction n as [|n IH]; intros i fuel edid c db r Hl Hi Hn; [lia|]. cbn [parse_blocks].
  destruct (decide (i = 4)) as [->|Hne].
  - rewrite drop_ge by (rewrite edid_length_128, Hl; lia). done.
  - destruct (mxc_edid_parse_ext_blk _ _ _ _ _ _) as [[[? c'] db']| | |]; cbn [mbind outcome_bind]; try done.
    apply IH; [done|lia|lia].
Qed.

Lemma blocks_read_length k d0 d1 d2 d3 :
  length d0 = 128%nat -> length d1 = 128%nat -> length d2 = 128%nat -> length d3 = 128%nat ->
  length (blocks_read k d0 d1 d2 d3) = 512%nat.
Proof. intros L0 L1 L2 L3. unfold blocks_read. rewrite !length_app. repeat case_match; rewrite ?length_app; cbn; lia. Qed.

Lemma edid_read_parses fuel n m monspecs edid0 c0 db0 d0 d1 d2 d3 k ts :
  length d0 = 128%nat -> length d1 = 128%nat -> length d2 = 128%nat -> length d3 = 128%nat ->
  arr_rd d0 0x7E = Ret k -> 0 < k -> arr_rd d0 1 <> Ret 0 ->
  mxc_edid_read fuel true n m monspecs edid0 c0 db0 (Some d0 :: Some d1 :: Some d2 :: Some d3 :: ts) =
    '(c, db) ← parse_blocks (Z.to_nat k) 1 fuel (blocks_read k d0 d1 d2 d3) (cfg_zero n m)
      (monspecs (d0 ++ d1 ++ blank 2)); Ret (0, blocks_read k d0 d1 d2 d3, c, db).
Proof.
  intros L0 L1 L2 L3 Hk Hk0 H1. unfold mxc_edid_read. cbn [negb]. rewrite edid_length_128.
  change (replicate (Z.to_nat (128 * 4)) 0) with (blank 4).
  rewrite (readblk_ok d0 d1 k) by (done || lia). cbn [mbind outcome_bind].
  rewrite (proj2 (Z.ltb_ge k 0)), (proj2 (Z.eqb_neq k 0)) by lia. destruct (Z.ltb_spec 1 k).
  - pose proof (readsegblk_ok d0 d1 d2 d3 k ts L0 L1 L2 L3 ltac:(lia)) as [ts' E].
    rewrite edid_length_128 in E. rewrite E. done.
  - unfold blocks_read. rewrite (proj2 (Z.leb_le k 1)) by lia. done.
Qed.
End reading.

(** ** Properties *)

Section properties.
Context `{FL : fb_h_laws}.

(** The VIC of a table mode.  [mxc_edid_mode_to_vic] gives every mode of the
    CEA table its own number, telling the two aspect ratios of a timing apart;
    [mxc_edid_var_to_vic], which has no aspect ratio to go by, gives the first
    number with that timing. *)
Theorem mode_to_vic_table (i : Z) :
  0 <= i < 64 -> xres (entry i cea_entries) <> 0 ->
  mxc_edid_mode_to_vic (entry i cea_entries) = i /\
  mxc_edid_var_to_vic (entry i cea_entries) = timing_vic i.
Proof.
  intros Hi Hx. unfold mxc_edid_mode_to_vic, mxc_edid_var_to_vic. set (m := entry i cea_entries) in *. split.
  - rewrite (find_vic_first _ m mxc_cea_mode 0 (Z.to_nat i) m);
      [lia|rewrite cea_lookup by lia; by rewrite Z2Nat.id by lia|apply mode_is_equal_refl|].
    intros j d Hj Hd. rewrite cea_lookup in Hd by lia. apply (inj Some) in Hd. subst d.
    rewrite mode_is_equal_split.
    destruct (timing_equal m (entry (Z.of_nat j) cea_entries)) eqn:Et; [|done].
    pose proof (table_pairs i (Z.of_nat j) ltac:(lia) ltac:(lia) Hx Et) as Hp.
    destruct (aspect_pair_modes _ _ Hp) as (scan & Hscan & E1 & E2 & _). fold m in E2.
    rewrite E1, E2, aspect_16_9_masked by done. unfold aspect_mask. change (Z.lnot 0) with (-1).
    rewrite !Z.land_m1_r. apply andb_false_intro2, Z.eqb_neq. intros E. by apply (aspect_differ scan).
  - set (k := timing_vic i).
    assert (0 <= k <= i) as Hk by (destruct (timing_vic_cases i) as [Hp|[Ht _]];
      [apply aspect_pair_order in Hp; unfold k; lia|unfold k; lia]).
    rewrite (find_vic_first _ m mxc_cea_mode 0 (Z.to_nat k) (entry k cea_entries));
      [lia|rewrite cea_lookup by lia; by rewrite Z2Nat.id by lia| |].
    + destruct (timing_vic_cases i) as [Hp|[Ht _]]; [|unfold k; rewrite Ht; apply mode_is_equal_refl].
      destruct (aspect_pair_modes _ _ Hp) as (scan & Hscan & E1 & E2 & E3 & E4). fold m k in E1, E2, E3, E4.
      rewrite mode_is_equal_split, E4, E1, E2, E3, Z.eqb_refl. cbn [andb aspect_mask]. apply Z.eqb_eq.
      symmetry. by apply aspect_masked_out.
    + intros j d Hj Hd. rewrite cea_lookup in Hd by lia. apply (inj Some) in Hd. subst d.
      rewrite mode_is_equal_split. unfold m. by rewrite (timing_vic_first i (Z.of_nat j)) by (done || lia).
Qed.

Context `{EL : edid_h_laws}.


(** The parser ends.  When the detailed timings are announced inside the
    block (in fact anywhere up to byte 222), 256 rounds are enough for both
    loops, whatever the bytes. *)
Theorem ext_blk_ends (alloc_mode alloc_m : bool) (edid : bytes) (c : mxc_edid_cfg) (db : list fb_videomode) :
  (forall off, arr_rd edid 2 = Ret off -> 0 <= off <= 222) ->
  mxc_edid_parse_ext_blk 256 alloc_mode alloc_m edid c db <> NoFuel.
Proof.
  intros Hoff. assert (forall o : outcome (Z * mxc_edid_cfg * list fb_videomode),
    ends (fun _ => True) o -> o <> NoFuel) as Hends by (by intros [?| | |]).
  apply Hends. unfold mxc_edid_parse_ext_blk.
  eapply ends_bind; [apply arr_rd_ends|]. intros tag _. case_match; [done|].
  eapply ends_bind; [apply arr_rd_ends|]. intros rev _. case_match; [done|].
  destruct (arr_rd edid 2) as [off| | |] eqn:E2; try done.
  2: { pose proof (arr_rd_ends edid 2) as He. by rewrite E2 in He. }
  specialize (Hoff off eq_refl). cbn [mbind outcome_bind].
  eapply ends_bind with (P := fun _ => True).
  { case_match; [|done]. eapply ends_bind; [apply arr_rd_ends|done]. }
  intros c1 _. eapply ends_bind with (P := fun _ => True).
  { case_match; [|done]. apply cea_loop_ends; lia. }
  intros [c2 modes] _. eapply ends_bind; [apply timing_loop_enough; lia|]. intros m _. by case_match.
Qed.

(** The parser can hang.  The cursor is an unsigned char: when the timings
    are announced after byte 228 and a reserved block of 31 bytes stands at each
    of 4, 36, ..., 228, the cursor wraps around to 4 and no amount of rounds is
    enough. *)
Theorem ext_blk_hangs (fuel : nat) (edid : bytes) (c : mxc_edid_cfg) (db : list fb_videomode) (rev off flags : Z) :
  arr_rd edid 0 = Ret 2 -> arr_rd edid 1 = Ret rev -> arr_rd edid 2 = Ret off ->
  arr_rd edid 3 = Ret flags -> 3 <= rev -> 228 < off -> wraps edid ->
  mxc_edid_parse_ext_blk fuel true true edid c db = NoFuel.
Proof.
  intros Htag Hrev Hoff Hflags Hr Ho Hw. rewrite (parse_ext_blk_header fuel edid c db rev off flags) by done.
  change 4 with (4 + 32 * 0). rewrite cea_loop_wraps by (done || lia). done.
Qed.

(** reading a display.  When the transfers succeed and the first block
    announces [k] extensions, the blocks are stored one after the other and each
    extension is parsed with the configuration and the modes of those before it,
    starting from a blank configuration and the modes of the first block.  The
    array has room for three extensions, and [k] is not checked against it: with
    four or more of them the call does not return, unless it fails earlier. *)
Theorem edid_read_blocks (fuel n m : nat) (monspecs : bytes -> list fb_videomode) (edid0 : bytes) (c0 : mxc_edid_cfg)
  (db0 : list fb_videomode) (d0 d1 d2 d3 : bytes) (k : Z) (ts : list transfer) :
  length d0 = 128%nat -> length d1 = 128%nat -> length d2 = 128%nat -> length d3 = 128%nat ->
  arr_rd d0 0x7E = Ret k -> 0 < k -> arr_rd d0 1 <> Ret 0 ->
  let read := mxc_edid_read fuel true n m monspecs edid0 c0 db0 (Some d0 :: Some d1 :: Some d2 :: Some d3 :: ts) in
  read = ('(c, db) ← parse_blocks (Z.to_nat k) 1 fuel (blocks_read k d0 d1 d2 d3) (cfg_zero n m)
      (monspecs (d0 ++ d1 ++ blank 2)); Ret (0, blocks_read k d0 d1 d2 d3, c, db)) /\
  (4 <= k -> forall r, read <> Ret r).
Proof.
  intros L0 L1 L2 L3 Hk Hk0 H1 read. unfold read. rewrite (edid_read_parses fuel n m _ _ _ _ d0 d1 d2 d3 k) by done.
  split; [done|]. intros Hk4 r.
  destruct (parse_blocks _ _ _ _ _ _) as [[c db]| | |] eqn:E; cbn [mbind outcome_bind]; try done.
  by apply parse_blocks_overrun in E; [|by apply blocks_read_length|lia..].
Qed.
End properties.

(** ** Witnesses

    The headers' interfaces instantiated. *)

Section witnesses.

#[local] Instance fb_h_example : fb_h := {|
  FB_SYNC_HOR_HIGH_ACT := 1; FB_SYNC_VERT_HIGH_ACT := 2;
  FB_VMODE_NONINTERLACED := 0; FB_VMODE_INTERLACED := 1;
  FB_VMODE_ASPECT_4_3 := 16; FB_VMODE_ASPECT_16_9 := 32; FB_VMODE_ASPECT_MASK := 48;
  FB_MODE_IS_DETAILED := 1; FB_MODE_IS_STANDARD := 2;
  KHZ2PICOS := fun a => 1000000000 / a |}.

#[local] Instance fb_h_example_laws : fb_h_laws.
Proof. split; intros scan [-> | ->]; vm_compute; (reflexivity || discriminate). Qed.

#[local] Instance edid_h_example : edid_h := {|
  EDID_LENGTH := 128; DETAILED_TIMING_DESCRIPTION_SIZE := 18; AUDIO_CODING_TYPE_LPCM := 1;
  timing_of := fun b => mk_timing (nth 2 b 0) (nth 5 b 0) (nth 0 b 0) (nth 3 b 0) (nth 6 b 0)
    (nth 8 b 0) (nth 9 b 0) (nth 10 b 0) 1 (nth 12 b 0) (nth 13 b 0) true true false |}.

#[local] Instance edid_h_example_laws : edid_h_laws.
Proof. by split. Qed.

(** 720x576p 16:9 is VIC 18, and its timing VIC 17. *)
Lemma mode_to_vic_table_witness :
  mxc_edid_mode_to_vic (entry 18 cea_entries) = 18 /\ mxc_edid_var_to_vic (entry 18 cea_entries) = timing_vic 18.
Proof. apply mode_to_vic_table; [lia|]. vm_compute. discriminate. Defined.

Definition example_blocks : list cea_block :=
  [VideoBlock [0x90; 0x04; 0x01]; AudioBlock [(0x09, 0x07, 0x07)]; SpeakerBlock 0x01 0 0;
   VendorBlock 0x03 0x0c 0x00 0x10 0x00 [0xb8; 0x2d]; OtherBlock 7 [0x05]].


Lemma ext_blk_ends_witness :
  mxc_edid_parse_ext_blk 256 true true (extension 3 0x70 example_blocks []) (cfg_zero 7 16) [] <> NoFuel.
Proof. apply ext_blk_ends. intros off E. vm_compute in E. injection E as <-. lia. Defined.

Definition looping_block : bytes := [2; 3; 255; 0] ++ concat (replicate 8 (0x1f :: replicate 31 0)).

Lemma ext_blk_hangs_witness :
  mxc_edid_parse_ext_blk 1000 true true looping_block (cfg_zero 7 16) [] = NoFuel.
Proof.
  apply (ext_blk_hangs 1000 looping_block _ [] 3 255 0); try reflexivity; [lia..|].
  intros k Hk. assert (k = 0 \/ k = 1 \/ k = 2 \/ k = 3 \/ k = 4 \/ k = 5 \/ k = 6 \/ k = 7) as Hc by lia.
  repeat destruct Hc as [->|Hc]; [reflexivity..|subst k; reflexivity].
Defined.

Definition example_base (k : Z) : bytes := [0; 255] ++ replicate 124 0 ++ [k; 0].
Definition example_ext : bytes := extension 3 0 example_blocks [].

Lemma edid_read_blocks_witness :
  mxc_edid_read 256 true 7 16 (fun _ => []) [] (cfg_zero 7 16) []
    (map Some [example_base 1; example_ext; example_ext; example_ext]) =
    Ret (0, blocks_read 1 (example_base 1) example_ext example_ext example_ext,
      fold_left block_cfg example_blocks (flags_cfg 0 (cfg_zero 7 16)), concat (map block_modes example_blocks)) /\
  (forall r, mxc_edid_read 256 true 7 16 (fun _ => []) [] (cfg_zero 7 16) []
    (map Some [example_base 4; example_ext; example_ext; example_ext]) <> Ret r).
Proof.
  split.
  - pose proof (edid_read_blocks 256 7 16 (fun _ => []) [] (cfg_zero 7 16) [] (example_base 1)
      example_ext example_ext example_ext 1 [] eq_refl eq_refl eq_refl eq_refl eq_refl eq_refl
      ltac:(vm_compute; discriminate)) as [E _].
    etransitivity; [exact E|vm_compute; reflexivity].
  - pose proof (edid_read_blocks 256 7 16 (fun _ => []) [] (cfg_zero 7 16) [] (example_base 4)
      example_ext example_ext example_ext 4 [] eq_refl eq_refl eq_refl eq_refl eq_refl eq_refl
      ltac:(vm_compute; discriminate)) as [_ E].
    apply E. lia.
Defined.
End witnesses.
