(* ===== verification/HdmiRegs.v ===== *)
(** * The HDMI transmitter's registers

    The registers that [mxc_hdmi.c] uses and the fields in them.  Both are defined
    in [mach/mxc_hdmi.h], which is not in the repository: a register is its name
    (different names are different registers), the masks and offsets are an
    interface, with the laws that the proofs rely on. *)

From S2P Require Import Prelude.

(** ** Registers *)

Inductive hreg :=
| HDMI_TX_INVID0 | HDMI_TX_INSTUFFING | HDMI_TX_GYDATA0 | HDMI_TX_GYDATA1 | HDMI_TX_RCRDATA0
| HDMI_TX_RCRDATA1 | HDMI_TX_BCBDATA0 | HDMI_TX_BCBDATA1 | HDMI_CSC_COEF_A1_LSB
| HDMI_CSC_COEF_A1_MSB | HDMI_CSC_COEF_A2_LSB | HDMI_CSC_COEF_A2_MSB | HDMI_CSC_COEF_A3_LSB
| HDMI_CSC_COEF_A3_MSB | HDMI_CSC_COEF_A4_LSB | HDMI_CSC_COEF_A4_MSB | HDMI_CSC_COEF_B1_LSB
| HDMI_CSC_COEF_B1_MSB | HDMI_CSC_COEF_B2_LSB | HDMI_CSC_COEF_B2_MSB | HDMI_CSC_COEF_B3_LSB
| HDMI_CSC_COEF_B3_MSB | HDMI_CSC_COEF_B4_LSB | HDMI_CSC_COEF_B4_MSB | HDMI_CSC_COEF_C1_LSB
| HDMI_CSC_COEF_C1_MSB | HDMI_CSC_COEF_C2_LSB | HDMI_CSC_COEF_C2_MSB | HDMI_CSC_COEF_C3_LSB
| HDMI_CSC_COEF_C3_MSB | HDMI_CSC_COEF_C4_LSB | HDMI_CSC_COEF_C4_MSB | HDMI_CSC_SCALE
| HDMI_CSC_CFG | HDMI_VP_PR_CD | HDMI_VP_STUFF | HDMI_VP_CONF | HDMI_VP_REMAP | HDMI_PHY_TST0
| HDMI_PHY_TST1 | HDMI_PHY_TST2 | HDMI_IH_I2CMPHY_STAT0 | HDMI_PHY_I2CM_ADDRESS_ADDR
| HDMI_PHY_I2CM_DATAO_1_ADDR | HDMI_PHY_I2CM_DATAO_0_ADDR | HDMI_PHY_I2CM_OPERATION_ADDR
| HDMI_IH_I2CM_STAT0 | HDMI_I2CM_ADDRESS | HDMI_I2CM_SEGADDR | HDMI_I2CM_OPERATION
| HDMI_I2CM_DATAI | HDMI_MC_FLOWCTRL | HDMI_MC_PHYRSTZ | HDMI_MC_HEACPHY_RST
| HDMI_PHY_I2CM_SLAVE_ADDR | HDMI_PHY_STAT0 | HDMI_FC_AVICONF0 | HDMI_FC_AVICONF1
| HDMI_FC_AVICONF2 | HDMI_FC_AVIVID | HDMI_FC_PRCONF | HDMI_FC_AVICONF3 | HDMI_FC_AVIETB0
| HDMI_FC_AVIETB1 | HDMI_FC_AVISBB0 | HDMI_FC_AVISBB1 | HDMI_FC_AVIELB0 | HDMI_FC_AVIELB1
| HDMI_FC_AVISRB0 | HDMI_FC_AVISRB1 | HDMI_FC_INVIDCONF | HDMI_FC_INHACTV1 | HDMI_FC_INHACTV0
| HDMI_FC_INVACTV1 | HDMI_FC_INVACTV0 | HDMI_FC_INHBLANK1 | HDMI_FC_INHBLANK0
| HDMI_FC_INVBLANK | HDMI_FC_HSYNCINDELAY1 | HDMI_FC_HSYNCINDELAY0 | HDMI_FC_VSYNCINDELAY
| HDMI_FC_HSYNCINWIDTH1 | HDMI_FC_HSYNCINWIDTH0 | HDMI_FC_VSYNCINWIDTH | HDMI_I2CM_DIV
| HDMI_I2CM_SS_SCL_HCNT_1_ADDR | HDMI_I2CM_SS_SCL_HCNT_0_ADDR | HDMI_I2CM_SS_SCL_LCNT_1_ADDR
| HDMI_I2CM_SS_SCL_LCNT_0_ADDR | HDMI_I2CM_FS_SCL_HCNT_1_ADDR | HDMI_I2CM_FS_SCL_HCNT_0_ADDR
| HDMI_I2CM_FS_SCL_LCNT_1_ADDR | HDMI_I2CM_FS_SCL_LCNT_0_ADDR | HDMI_I2CM_SLAVE | HDMI_I2CM_INT
| HDMI_I2CM_CTLINT | HDMI_MC_CLKDIS | HDMI_FC_CTRLDUR | HDMI_FC_EXCTRLDUR | HDMI_FC_EXCTRLSPAC
| HDMI_FC_CH0PREAM | HDMI_FC_CH1PREAM | HDMI_FC_CH2PREAM | HDMI_MC_SWRSTZ | HDMI_FC_MASK2
| HDMI_IH_MUTE_FC_STAT2 | HDMI_PHY_POL0 | HDMI_PHY_MASK0 | HDMI_IH_MUTE_PHY_STAT0
| HDMI_IH_FC_STAT2 | HDMI_IH_PHY_STAT0 | HDMI_A_APIINTSTAT | HDMI_A_APIINTMSK
| HDMI_PHY_I2CM_INT_ADDR | HDMI_PHY_I2CM_CTLINT_ADDR | HDMI_DESIGN_ID | HDMI_REVISION_ID
| HDMI_PRODUCT_ID0 | HDMI_PRODUCT_ID1 | HDMI_PHY_CONF0.

Definition all_regs : list hreg := [
  HDMI_TX_INVID0; HDMI_TX_INSTUFFING; HDMI_TX_GYDATA0; HDMI_TX_GYDATA1; HDMI_TX_RCRDATA0;
  HDMI_TX_RCRDATA1; HDMI_TX_BCBDATA0; HDMI_TX_BCBDATA1; HDMI_CSC_COEF_A1_LSB;
  HDMI_CSC_COEF_A1_MSB; HDMI_CSC_COEF_A2_LSB; HDMI_CSC_COEF_A2_MSB; HDMI_CSC_COEF_A3_LSB;
  HDMI_CSC_COEF_A3_MSB; HDMI_CSC_COEF_A4_LSB; HDMI_CSC_COEF_A4_MSB; HDMI_CSC_COEF_B1_LSB;
  HDMI_CSC_COEF_B1_MSB; HDMI_CSC_COEF_B2_LSB; HDMI_CSC_COEF_B2_MSB; HDMI_CSC_COEF_B3_LSB;
  HDMI_CSC_COEF_B3_MSB; HDMI_CSC_COEF_B4_LSB; HDMI_CSC_COEF_B4_MSB; HDMI_CSC_COEF_C1_LSB;
  HDMI_CSC_COEF_C1_MSB; HDMI_CSC_COEF_C2_LSB; HDMI_CSC_COEF_C2_MSB; HDMI_CSC_COEF_C3_LSB;
  HDMI_CSC_COEF_C3_MSB; HDMI_CSC_COEF_C4_LSB; HDMI_CSC_COEF_C4_MSB; HDMI_CSC_SCALE;
  HDMI_CSC_CFG; HDMI_VP_PR_CD; HDMI_VP_STUFF; HDMI_VP_CONF; HDMI_VP_REMAP; HDMI_PHY_TST0;
  HDMI_PHY_TST1; HDMI_PHY_TST2; HDMI_IH_I2CMPHY_STAT0; HDMI_PHY_I2CM_ADDRESS_ADDR;
  HDMI_PHY_I2CM_DATAO_1_ADDR; HDMI_PHY_I2CM_DATAO_0_ADDR; HDMI_PHY_I2CM_OPERATION_ADDR;
  HDMI_IH_I2CM_STAT0; HDMI_I2CM_ADDRESS; HDMI_I2CM_SEGADDR; HDMI_I2CM_OPERATION;
  HDMI_I2CM_DATAI; HDMI_MC_FLOWCTRL; HDMI_MC_PHYRSTZ; HDMI_MC_HEACPHY_RST;
  HDMI_PHY_I2CM_SLAVE_ADDR; HDMI_PHY_STAT0; HDMI_FC_AVICONF0; HDMI_FC_AVICONF1;
  HDMI_FC_AVICONF2; HDMI_FC_AVIVID; HDMI_FC_PRCONF; HDMI_FC_AVICONF3; HDMI_FC_AVIETB0;
  HDMI_FC_AVIETB1; HDMI_FC_AVISBB0; HDMI_FC_AVISBB1; HDMI_FC_AVIELB0; HDMI_FC_AVIELB1;
  HDMI_FC_AVISRB0; HDMI_FC_AVISRB1; HDMI_FC_INVIDCONF; HDMI_FC_INHACTV1; HDMI_FC_INHACTV0;
  HDMI_FC_INVACTV1; HDMI_FC_INVACTV0; HDMI_FC_INHBLANK1; HDMI_FC_INHBLANK0; HDMI_FC_INVBLANK;
  HDMI_FC_HSYNCINDELAY1; HDMI_FC_HSYNCINDELAY0; HDMI_FC_VSYNCINDELAY; HDMI_FC_HSYNCINWIDTH1;
  HDMI_FC_HSYNCINWIDTH0; HDMI_FC_VSYNCINWIDTH; HDMI_I2CM_DIV; HDMI_I2CM_SS_SCL_HCNT_1_ADDR;
  HDMI_I2CM_SS_SCL_HCNT_0_ADDR; HDMI_I2CM_SS_SCL_LCNT_1_ADDR; HDMI_I2CM_SS_SCL_LCNT_0_ADDR;
  HDMI_I2CM_FS_SCL_HCNT_1_ADDR; HDMI_I2CM_FS_SCL_HCNT_0_ADDR; HDMI_I2CM_FS_SCL_LCNT_1_ADDR;
  HDMI_I2CM_FS_SCL_LCNT_0_ADDR; HDMI_I2CM_SLAVE; HDMI_I2CM_INT; HDMI_I2CM_CTLINT;
  HDMI_MC_CLKDIS; HDMI_FC_CTRLDUR; HDMI_FC_EXCTRLDUR; HDMI_FC_EXCTRLSPAC; HDMI_FC_CH0PREAM;
  HDMI_FC_CH1PREAM; HDMI_FC_CH2PREAM; HDMI_MC_SWRSTZ; HDMI_FC_MASK2; HDMI_IH_MUTE_FC_STAT2;
  HDMI_PHY_POL0; HDMI_PHY_MASK0; HDMI_IH_MUTE_PHY_STAT0; HDMI_IH_FC_STAT2; HDMI_IH_PHY_STAT0;
  HDMI_A_APIINTSTAT; HDMI_A_APIINTMSK; HDMI_PHY_I2CM_INT_ADDR; HDMI_PHY_I2CM_CTLINT_ADDR;
  HDMI_DESIGN_ID; HDMI_REVISION_ID; HDMI_PRODUCT_ID0; HDMI_PRODUCT_ID1; HDMI_PHY_CONF0].

Definition reg_index (r : hreg) : nat :=
  match r with
  | HDMI_TX_INVID0 => 0 | HDMI_TX_INSTUFFING => 1 | HDMI_TX_GYDATA0 => 2 | HDMI_TX_GYDATA1 => 3
  | HDMI_TX_RCRDATA0 => 4 | HDMI_TX_RCRDATA1 => 5 | HDMI_TX_BCBDATA0 => 6
  | HDMI_TX_BCBDATA1 => 7 | HDMI_CSC_COEF_A1_LSB => 8 | HDMI_CSC_COEF_A1_MSB => 9
  | HDMI_CSC_COEF_A2_LSB => 10 | HDMI_CSC_COEF_A2_MSB => 11 | HDMI_CSC_COEF_A3_LSB => 12
  | HDMI_CSC_COEF_A3_MSB => 13 | HDMI_CSC_COEF_A4_LSB => 14 | HDMI_CSC_COEF_A4_MSB => 15
  | HDMI_CSC_COEF_B1_LSB => 16 | HDMI_CSC_COEF_B1_MSB => 17 | HDMI_CSC_COEF_B2_LSB => 18
  | HDMI_CSC_COEF_B2_MSB => 19 | HDMI_CSC_COEF_B3_LSB => 20 | HDMI_CSC_COEF_B3_MSB => 21
  | HDMI_CSC_COEF_B4_LSB => 22 | HDMI_CSC_COEF_B4_MSB => 23 | HDMI_CSC_COEF_C1_LSB => 24
  | HDMI_CSC_COEF_C1_MSB => 25 | HDMI_CSC_COEF_C2_LSB => 26 | HDMI_CSC_COEF_C2_MSB => 27
  | HDMI_CSC_COEF_C3_LSB => 28 | HDMI_CSC_COEF_C3_MSB => 29 | HDMI_CSC_COEF_C4_LSB => 30
  | HDMI_CSC_COEF_C4_MSB => 31 | HDMI_CSC_SCALE => 32 | HDMI_CSC_CFG => 33
  | HDMI_VP_PR_CD => 34 | HDMI_VP_STUFF => 35 | HDMI_VP_CONF => 36 | HDMI_VP_REMAP => 37
  | HDMI_PHY_TST0 => 38 | HDMI_PHY_TST1 => 39 | HDMI_PHY_TST2 => 40
  | HDMI_IH_I2CMPHY_STAT0 => 41 | HDMI_PHY_I2CM_ADDRESS_ADDR => 42
  | HDMI_PHY_I2CM_DATAO_1_ADDR => 43 | HDMI_PHY_I2CM_DATAO_0_ADDR => 44
  | HDMI_PHY_I2CM_OPERATION_ADDR => 45 | HDMI_IH_I2CM_STAT0 => 46 | HDMI_I2CM_ADDRESS => 47
  | HDMI_I2CM_SEGADDR => 48 | HDMI_I2CM_OPERATION => 49 | HDMI_I2CM_DATAI => 50
  | HDMI_MC_FLOWCTRL => 51 | HDMI_MC_PHYRSTZ => 52 | HDMI_MC_HEACPHY_RST => 53
  | HDMI_PHY_I2CM_SLAVE_ADDR => 54 | HDMI_PHY_STAT0 => 55 | HDMI_FC_AVICONF0 => 56
  | HDMI_FC_AVICONF1 => 57 | HDMI_FC_AVICONF2 => 58 | HDMI_FC_AVIVID => 59
  | HDMI_FC_PRCONF => 60 | HDMI_FC_AVICONF3 => 61 | HDMI_FC_AVIETB0 => 62
  | HDMI_FC_AVIETB1 => 63 | HDMI_FC_AVISBB0 => 64 | HDMI_FC_AVISBB1 => 65
  | HDMI_FC_AVIELB0 => 66 | HDMI_FC_AVIELB1 => 67 | HDMI_FC_AVISRB0 => 68
  | HDMI_FC_AVISRB1 => 69 | HDMI_FC_INVIDCONF => 70 | HDMI_FC_INHACTV1 => 71
  | HDMI_FC_INHACTV0 => 72 | HDMI_FC_INVACTV1 => 73 | HDMI_FC_INVACTV0 => 74
  | HDMI_FC_INHBLANK1 => 75 | HDMI_FC_INHBLANK0 => 76 | HDMI_FC_INVBLANK => 77
  | HDMI_FC_HSYNCINDELAY1 => 78 | HDMI_FC_HSYNCINDELAY0 => 79 | HDMI_FC_VSYNCINDELAY => 80
  | HDMI_FC_HSYNCINWIDTH1 => 81 | HDMI_FC_HSYNCINWIDTH0 => 82 | HDMI_FC_VSYNCINWIDTH => 83
  | HDMI_I2CM_DIV => 84 | HDMI_I2CM_SS_SCL_HCNT_1_ADDR => 85
  | HDMI_I2CM_SS_SCL_HCNT_0_ADDR => 86 | HDMI_I2CM_SS_SCL_LCNT_1_ADDR => 87
  | HDMI_I2CM_SS_SCL_LCNT_0_ADDR => 88 | HDMI_I2CM_FS_SCL_HCNT_1_ADDR => 89
  | HDMI_I2CM_FS_SCL_HCNT_0_ADDR => 90 | HDMI_I2CM_FS_SCL_LCNT_1_ADDR => 91
  | HDMI_I2CM_FS_SCL_LCNT_0_ADDR => 92 | HDMI_I2CM_SLAVE => 93 | HDMI_I2CM_INT => 94
  | HDMI_I2CM_CTLINT => 95 | HDMI_MC_CLKDIS => 96 | HDMI_FC_CTRLDUR => 97
  | HDMI_FC_EXCTRLDUR => 98 | HDMI_FC_EXCTRLSPAC => 99 | HDMI_FC_CH0PREAM => 100
  | HDMI_FC_CH1PREAM => 101 | HDMI_FC_CH2PREAM => 102 | HDMI_MC_SWRSTZ => 103
  | HDMI_FC_MASK2 => 104 | HDMI_IH_MUTE_FC_STAT2 => 105 | HDMI_PHY_POL0 => 106
  | HDMI_PHY_MASK0 => 107 | HDMI_IH_MUTE_PHY_STAT0 => 108 | HDMI_IH_FC_STAT2 => 109
  | HDMI_IH_PHY_STAT0 => 110 | HDMI_A_APIINTSTAT => 111 | HDMI_A_APIINTMSK => 112
  | HDMI_PHY_I2CM_INT_ADDR => 113 | HDMI_PHY_I2CM_CTLINT_ADDR => 114 | HDMI_DESIGN_ID => 115
  | HDMI_REVISION_ID => 116 | HDMI_PRODUCT_ID0 => 117 | HDMI_PRODUCT_ID1 => 118
  | HDMI_PHY_CONF0 => 119
  end%nat.

Lemma all_regs_index r : all_regs !! reg_index r = Some r.
Proof. by destruct r. Qed.

#[export] Instance reg_index_inj : Inj (=) (=) reg_index.
Proof. intros r1 r2 E. apply (inj Some). by rewrite <- !all_regs_index, E. Qed.

#[export] Instance hreg_eq_dec : EqDecision hreg.
Proof.
  intros r1 r2. destruct (Nat.eq_dec (reg_index r1) (reg_index r2)) as [E|E].
  - left. by apply (inj reg_index).
  - right. by intros ->.
Defined.

(** Those that the hardware changes: reading them asks the device. *)
Definition is_status (r : hreg) : bool :=
  match r with
  | HDMI_IH_I2CMPHY_STAT0 | HDMI_IH_I2CM_STAT0 | HDMI_I2CM_DATAI | HDMI_PHY_STAT0 | HDMI_IH_FC_STAT2
  | HDMI_IH_PHY_STAT0 | HDMI_A_APIINTSTAT | HDMI_DESIGN_ID | HDMI_REVISION_ID | HDMI_PRODUCT_ID0
  | HDMI_PRODUCT_ID1 => true
  | _ => false
  end.

(** The values last written to the others. *)
Definition regfile : Type := hreg -> Z.

Definition upd (r : hreg) (v : Z) (f : regfile) : regfile :=
  fun r' => if decide (r' = r) then v else f r'.

Lemma upd_eq r v f : upd r v f r = v.
Proof. unfold upd. by rewrite decide_True. Qed.

Lemma upd_ne r v f r' : r' <> r -> upd r v f r' = f r'.
Proof. intros. unfold upd. by rewrite decide_False. Qed.

(** ** Fields *)

Class hdmi_h := {
  HDMI_TX_INVID0_INTERNAL_DE_GENERATOR_DISABLE : Z; HDMI_TX_INVID0_VIDEO_MAPPING_OFFSET : Z;
  HDMI_TX_INVID0_VIDEO_MAPPING_MASK : Z; HDMI_TX_INSTUFFING_BDBDATA_STUFFING_ENABLE : Z;
  HDMI_TX_INSTUFFING_RCRDATA_STUFFING_ENABLE : Z;
  HDMI_TX_INSTUFFING_GYDATA_STUFFING_ENABLE : Z; HDMI_CSC_SCALE_CSCSCALE_MASK : Z;
  HDMI_CSC_CFG_INTMODE_DISABLE : Z; HDMI_CSC_CFG_INTMODE_CHROMA_INT_FORMULA1 : Z;
  HDMI_CSC_CFG_DECMODE_CHROMA_INT_FORMULA3 : Z; HDMI_CSC_SCALE_CSC_COLORDE_PTH_24BPP : Z;
  HDMI_CSC_SCALE_CSC_COLORDE_PTH_30BPP : Z; HDMI_CSC_SCALE_CSC_COLORDE_PTH_36BPP : Z;
  HDMI_CSC_SCALE_CSC_COLORDE_PTH_48BPP : Z; HDMI_CSC_SCALE_CSC_COLORDE_PTH_MASK : Z;
  HDMI_VP_REMAP_YCC422_16bit : Z; HDMI_VP_CONF_OUTPUT_SELECTOR_PP : Z;
  HDMI_VP_CONF_OUTPUT_SELECTOR_BYPASS : Z; HDMI_VP_REMAP_YCC422_20bit : Z;
  HDMI_VP_REMAP_YCC422_24bit : Z; HDMI_VP_CONF_OUTPUT_SELECTOR_YCC422 : Z;
  HDMI_VP_PR_CD_COLOR_DEPTH_OFFSET : Z; HDMI_VP_PR_CD_COLOR_DEPTH_MASK : Z;
  HDMI_VP_PR_CD_DESIRED_PR_FACTOR_OFFSET : Z; HDMI_VP_PR_CD_DESIRED_PR_FACTOR_MASK : Z;
  HDMI_VP_STUFF_PR_STUFFING_MASK : Z; HDMI_VP_STUFF_PR_STUFFING_STUFFING_MODE : Z;
  HDMI_VP_CONF_PR_EN_MASK : Z; HDMI_VP_CONF_BYPASS_SELECT_MASK : Z;
  HDMI_VP_CONF_PR_EN_ENABLE : Z; HDMI_VP_CONF_BYPASS_SELECT_PIX_REPEATER : Z;
  HDMI_VP_CONF_PR_EN_DISABLE : Z; HDMI_VP_CONF_BYPASS_SELECT_VID_PACKETIZER : Z;
  HDMI_VP_STUFF_IDEFAULT_PHASE_MASK : Z; HDMI_VP_STUFF_IDEFAULT_PHASE_OFFSET : Z;
  HDMI_VP_CONF_BYPASS_EN_MASK : Z; HDMI_VP_CONF_PP_EN_ENMASK : Z;
  HDMI_VP_CONF_YCC422_EN_MASK : Z; HDMI_VP_CONF_BYPASS_EN_DISABLE : Z;
  HDMI_VP_CONF_PP_EN_ENABLE : Z; HDMI_VP_CONF_YCC422_EN_DISABLE : Z;
  HDMI_VP_CONF_PP_EN_DISABLE : Z; HDMI_VP_CONF_YCC422_EN_ENABLE : Z;
  HDMI_VP_CONF_BYPASS_EN_ENABLE : Z; HDMI_VP_STUFF_PP_STUFFING_MASK : Z;
  HDMI_VP_STUFF_YCC422_STUFFING_MASK : Z; HDMI_VP_STUFF_PP_STUFFING_STUFFING_MODE : Z;
  HDMI_VP_STUFF_YCC422_STUFFING_STUFFING_MODE : Z; HDMI_VP_CONF_OUTPUT_SELECTOR_MASK : Z;
  HDMI_PHY_TST0_TSTCLR_MASK : Z; HDMI_PHY_TST0_TSTCLR_OFFSET : Z; HDMI_PHY_TST0_TSTEN_MASK : Z;
  HDMI_PHY_TST0_TSTEN_OFFSET : Z; HDMI_PHY_TST0_TSTCLK_MASK : Z;
  HDMI_PHY_TST0_TSTCLK_OFFSET : Z; HDMI_PHY_I2CM_OPERATION_ADDR_WRITE : Z;
  HDMI_I2CM_OPERATION_READ : Z; HDMI_I2CM_OPERATION_READ_EXT : Z;
  HDMI_PHY_CONF0_PDZ_OFFSET : Z; HDMI_PHY_CONF0_PDZ_MASK : Z; HDMI_PHY_CONF0_ENTMDS_OFFSET : Z;
  HDMI_PHY_CONF0_ENTMDS_MASK : Z; HDMI_PHY_CONF0_GEN2_PDDQ_OFFSET : Z;
  HDMI_PHY_CONF0_GEN2_PDDQ_MASK : Z; HDMI_PHY_CONF0_GEN2_TXPWRON_OFFSET : Z;
  HDMI_PHY_CONF0_GEN2_TXPWRON_MASK : Z; HDMI_PHY_CONF0_SELDATAENPOL_OFFSET : Z;
  HDMI_PHY_CONF0_SELDATAENPOL_MASK : Z; HDMI_PHY_CONF0_SELDIPIF_OFFSET : Z;
  HDMI_PHY_CONF0_SELDIPIF_MASK : Z; HDMI_MC_FLOWCTRL_FEED_THROUGH_OFF_CSC_IN_PATH : Z;
  HDMI_MC_FLOWCTRL_FEED_THROUGH_OFF_CSC_BYPASS : Z; HDMI_MC_PHYRSTZ_DEASSERT : Z;
  HDMI_MC_PHYRSTZ_ASSERT : Z; HDMI_MC_HEACPHY_RST_ASSERT : Z;
  HDMI_PHY_I2CM_SLAVE_ADDR_PHY_GEN2 : Z; HDMI_PHY_TX_PHY_LOCK : Z;
  HDMI_FC_AVICONF0_PIX_FMT_YCBCR444 : Z; HDMI_FC_AVICONF0_PIX_FMT_YCBCR422 : Z;
  HDMI_FC_AVICONF0_PIX_FMT_RGB : Z; HDMI_FC_AVICONF0_SCAN_INFO_UNDERSCAN : Z;
  HDMI_FC_AVICONF0_SCAN_INFO_NODATA : Z; HDMI_FC_AVICONF0_ACTIVE_FMT_INFO_PRESENT : Z;
  HDMI_FC_AVICONF0_BAR_DATA_NO_DATA : Z; HDMI_FC_AVICONF1_ACTIVE_ASPECT_RATIO_16_9 : Z;
  HDMI_FC_AVICONF1_CODED_ASPECT_RATIO_16_9 : Z; HDMI_FC_AVICONF1_ACTIVE_ASPECT_RATIO_4_3 : Z;
  HDMI_FC_AVICONF1_CODED_ASPECT_RATIO_4_3 : Z; HDMI_FC_AVICONF1_COLORIMETRY_EXTENDED_INFO : Z;
  HDMI_FC_AVICONF2_EXT_COLORIMETRY_XVYCC601 : Z; HDMI_FC_AVICONF2_EXT_COLORIMETRY_XVYCC709 : Z;
  HDMI_FC_AVICONF1_COLORIMETRY_SMPTE : Z; HDMI_FC_AVICONF1_COLORIMETRY_ITUR : Z;
  HDMI_FC_AVICONF1_COLORIMETRY_NO_DATA : Z; HDMI_FC_AVICONF2_IT_CONTENT_NO_DATA : Z;
  HDMI_FC_AVICONF2_RGB_QUANT_DEFAULT : Z; HDMI_FC_AVICONF2_SCALING_NONE : Z;
  HDMI_FC_PRCONF_INCOMING_PR_FACTOR_OFFSET : Z; HDMI_FC_PRCONF_INCOMING_PR_FACTOR_MASK : Z;
  HDMI_FC_PRCONF_OUTPUT_PR_FACTOR_OFFSET : Z; HDMI_FC_PRCONF_OUTPUT_PR_FACTOR_MASK : Z;
  HDMI_FC_AVICONF3_IT_CONTENT_TYPE_GRAPHICS : Z; HDMI_FC_AVICONF3_QUANT_RANGE_LIMITED : Z;
  HDMI_FC_INVIDCONF_HDCP_KEEPOUT_ACTIVE : Z; HDMI_FC_INVIDCONF_HDCP_KEEPOUT_INACTIVE : Z;
  HDMI_FC_INVIDCONF_VSYNC_IN_POLARITY_ACTIVE_HIGH : Z;
  HDMI_FC_INVIDCONF_VSYNC_IN_POLARITY_ACTIVE_LOW : Z;
  HDMI_FC_INVIDCONF_HSYNC_IN_POLARITY_ACTIVE_HIGH : Z;
  HDMI_FC_INVIDCONF_HSYNC_IN_POLARITY_ACTIVE_LOW : Z;
  HDMI_FC_INVIDCONF_DE_IN_POLARITY_ACTIVE_HIGH : Z;
  HDMI_FC_INVIDCONF_DE_IN_POLARITY_ACTIVE_LOW : Z;
  HDMI_FC_INVIDCONF_R_V_BLANK_IN_OSC_ACTIVE_HIGH : Z;
  HDMI_FC_INVIDCONF_R_V_BLANK_IN_OSC_ACTIVE_LOW : Z; HDMI_FC_INVIDCONF_IN_I_P_INTERLACED : Z;
  HDMI_FC_INVIDCONF_IN_I_P_PROGRESSIVE : Z; HDMI_FC_INVIDCONF_DVI_MODEZ_DVI_MODE : Z;
  HDMI_FC_INVIDCONF_DVI_MODEZ_HDMI_MODE : Z; HDMI_I2CM_INT_DONE_POL : Z;
  HDMI_I2CM_CTLINT_NAC_POL : Z; HDMI_I2CM_CTLINT_ARBITRATION_POL : Z;
  HDMI_MC_CLKDIS_HDCPCLK_DISABLE : Z; HDMI_MC_CLKDIS_PIXELCLK_DISABLE : Z;
  HDMI_MC_CLKDIS_TMDSCLK_DISABLE : Z; HDMI_MC_CLKDIS_CSCCLK_DISABLE : Z;
  HDMI_MC_CLKDIS_AUDCLK_DISABLE : Z; HDMI_MC_SWRSTZ_TMDSSWRST_REQ : Z;
  HDMI_IH_MUTE_FC_STAT2_OVERFLOW_MASK : Z; HDMI_IH_PHY_STAT0_HPD : Z; HDMI_PHY_HPD : Z;
  HDMI_IH_MUTE_PHY_STAT0_HPD : Z; HDMI_IH_FC_STAT2_OVERFLOW_MASK : Z;
  HDMI_PHY_I2CM_INT_ADDR_DONE_POL : Z; HDMI_PHY_I2CM_CTLINT_ADDR_NAC_POL : Z;
  HDMI_PHY_I2CM_CTLINT_ADDR_ARBITRATION_POL : Z }.

(** The fields of [HDMI_PHY_CONF0] that the driver sets, by offset and mask. *)
Definition phy_conf0_fields `{hdmi_h} : list (Z * Z) := [
  (HDMI_PHY_CONF0_PDZ_OFFSET, HDMI_PHY_CONF0_PDZ_MASK);
  (HDMI_PHY_CONF0_ENTMDS_OFFSET, HDMI_PHY_CONF0_ENTMDS_MASK);
  (HDMI_PHY_CONF0_GEN2_PDDQ_OFFSET, HDMI_PHY_CONF0_GEN2_PDDQ_MASK);
  (HDMI_PHY_CONF0_GEN2_TXPWRON_OFFSET, HDMI_PHY_CONF0_GEN2_TXPWRON_MASK);
  (HDMI_PHY_CONF0_SELDATAENPOL_OFFSET, HDMI_PHY_CONF0_SELDATAENPOL_MASK);
  (HDMI_PHY_CONF0_SELDIPIF_OFFSET, HDMI_PHY_CONF0_SELDIPIF_MASK)].

(** These are six different bits of a byte; the hot plug bit is in a byte. *)
Class hdmi_h_laws `{hdmi_h} := {
  conf0_bits : Forall (fun '(o, m) => 0 <= o < 8 /\ m = 2 ^ o) phy_conf0_fields;
  conf0_distinct : NoDup (map fst phy_conf0_fields);
  hpd_bit : 0 < HDMI_PHY_HPD < 256 }.

(** ** The driver of the registers: [mxc-hdmi-core.c], not in the repository *)

Class hdmi_core := {
  (** what [hdmi_mask_writeb] makes of the data and the register's value, for a
      field given by its shift and mask *)
  masked : Z -> Z -> Z -> Z -> Z;
  (** what a status register reads, at which reading and with which values in the
      other registers *)
  status : nat -> regfile -> hreg -> Z }.

(** The field gets the data, the rest of the register is kept. *)
Class hdmi_core_laws `{hdmi_core} :=
  masked_value data old shift mask :
    masked data old shift mask = (old .& Z.lnot mask) .| (Z.shiftl data shift .& mask).

(** ** An example of the header and of the device

    The device is ready at once, its PHY locks, its display has no EDID. *)

Definition hdmi_h_example : hdmi_h := {|
  HDMI_TX_INVID0_INTERNAL_DE_GENERATOR_DISABLE := 0; HDMI_TX_INVID0_VIDEO_MAPPING_OFFSET := 0;
  HDMI_TX_INVID0_VIDEO_MAPPING_MASK := 0x1F; HDMI_TX_INSTUFFING_BDBDATA_STUFFING_ENABLE := 4;
  HDMI_TX_INSTUFFING_RCRDATA_STUFFING_ENABLE := 2;
  HDMI_TX_INSTUFFING_GYDATA_STUFFING_ENABLE := 1; HDMI_CSC_SCALE_CSCSCALE_MASK := 3;
  HDMI_CSC_CFG_INTMODE_DISABLE := 0; HDMI_CSC_CFG_INTMODE_CHROMA_INT_FORMULA1 := 0x10;
  HDMI_CSC_CFG_DECMODE_CHROMA_INT_FORMULA3 := 3; HDMI_CSC_SCALE_CSC_COLORDE_PTH_24BPP := 0;
  HDMI_CSC_SCALE_CSC_COLORDE_PTH_30BPP := 0x50; HDMI_CSC_SCALE_CSC_COLORDE_PTH_36BPP := 0x60;
  HDMI_CSC_SCALE_CSC_COLORDE_PTH_48BPP := 0x70; HDMI_CSC_SCALE_CSC_COLORDE_PTH_MASK := 0xF0;
  HDMI_VP_REMAP_YCC422_16bit := 0; HDMI_VP_CONF_OUTPUT_SELECTOR_PP := 0;
  HDMI_VP_CONF_OUTPUT_SELECTOR_BYPASS := 3; HDMI_VP_REMAP_YCC422_20bit := 1;
  HDMI_VP_REMAP_YCC422_24bit := 2; HDMI_VP_CONF_OUTPUT_SELECTOR_YCC422 := 1;
  HDMI_VP_PR_CD_COLOR_DEPTH_OFFSET := 4; HDMI_VP_PR_CD_COLOR_DEPTH_MASK := 0xF0;
  HDMI_VP_PR_CD_DESIRED_PR_FACTOR_OFFSET := 0; HDMI_VP_PR_CD_DESIRED_PR_FACTOR_MASK := 0x0F;
  HDMI_VP_STUFF_PR_STUFFING_MASK := 1; HDMI_VP_STUFF_PR_STUFFING_STUFFING_MODE := 1;
  HDMI_VP_CONF_PR_EN_MASK := 0x10; HDMI_VP_CONF_BYPASS_SELECT_MASK := 4;
  HDMI_VP_CONF_PR_EN_ENABLE := 0x10; HDMI_VP_CONF_BYPASS_SELECT_PIX_REPEATER := 0;
  HDMI_VP_CONF_PR_EN_DISABLE := 0; HDMI_VP_CONF_BYPASS_SELECT_VID_PACKETIZER := 4;
  HDMI_VP_STUFF_IDEFAULT_PHASE_MASK := 0x20; HDMI_VP_STUFF_IDEFAULT_PHASE_OFFSET := 5;
  HDMI_VP_CONF_BYPASS_EN_MASK := 0x40; HDMI_VP_CONF_PP_EN_ENMASK := 0x20;
  HDMI_VP_CONF_YCC422_EN_MASK := 8; HDMI_VP_CONF_BYPASS_EN_DISABLE := 0;
  HDMI_VP_CONF_PP_EN_ENABLE := 0x20; HDMI_VP_CONF_YCC422_EN_DISABLE := 0;
  HDMI_VP_CONF_PP_EN_DISABLE := 0; HDMI_VP_CONF_YCC422_EN_ENABLE := 8;
  HDMI_VP_CONF_BYPASS_EN_ENABLE := 0x40; HDMI_VP_STUFF_PP_STUFFING_MASK := 2;
  HDMI_VP_STUFF_YCC422_STUFFING_MASK := 4; HDMI_VP_STUFF_PP_STUFFING_STUFFING_MODE := 2;
  HDMI_VP_STUFF_YCC422_STUFFING_STUFFING_MODE := 4; HDMI_VP_CONF_OUTPUT_SELECTOR_MASK := 3;
  HDMI_PHY_TST0_TSTCLR_MASK := 0x20; HDMI_PHY_TST0_TSTCLR_OFFSET := 5;
  HDMI_PHY_TST0_TSTEN_MASK := 0x10; HDMI_PHY_TST0_TSTEN_OFFSET := 4;
  HDMI_PHY_TST0_TSTCLK_MASK := 1; HDMI_PHY_TST0_TSTCLK_OFFSET := 0;
  HDMI_PHY_I2CM_OPERATION_ADDR_WRITE := 0x10; HDMI_I2CM_OPERATION_READ := 1;
  HDMI_I2CM_OPERATION_READ_EXT := 2; HDMI_PHY_CONF0_PDZ_OFFSET := 7;
  HDMI_PHY_CONF0_PDZ_MASK := 0x80; HDMI_PHY_CONF0_ENTMDS_OFFSET := 6;
  HDMI_PHY_CONF0_ENTMDS_MASK := 0x40; HDMI_PHY_CONF0_GEN2_PDDQ_OFFSET := 4;
  HDMI_PHY_CONF0_GEN2_PDDQ_MASK := 0x10; HDMI_PHY_CONF0_GEN2_TXPWRON_OFFSET := 3;
  HDMI_PHY_CONF0_GEN2_TXPWRON_MASK := 8; HDMI_PHY_CONF0_SELDATAENPOL_OFFSET := 1;
  HDMI_PHY_CONF0_SELDATAENPOL_MASK := 2; HDMI_PHY_CONF0_SELDIPIF_OFFSET := 0;
  HDMI_PHY_CONF0_SELDIPIF_MASK := 1; HDMI_MC_FLOWCTRL_FEED_THROUGH_OFF_CSC_IN_PATH := 1;
  HDMI_MC_FLOWCTRL_FEED_THROUGH_OFF_CSC_BYPASS := 0; HDMI_MC_PHYRSTZ_DEASSERT := 0;
  HDMI_MC_PHYRSTZ_ASSERT := 1; HDMI_MC_HEACPHY_RST_ASSERT := 1;
  HDMI_PHY_I2CM_SLAVE_ADDR_PHY_GEN2 := 0x69; HDMI_PHY_TX_PHY_LOCK := 1;
  HDMI_FC_AVICONF0_PIX_FMT_YCBCR444 := 2; HDMI_FC_AVICONF0_PIX_FMT_YCBCR422 := 1;
  HDMI_FC_AVICONF0_PIX_FMT_RGB := 0; HDMI_FC_AVICONF0_SCAN_INFO_UNDERSCAN := 0x20;
  HDMI_FC_AVICONF0_SCAN_INFO_NODATA := 0; HDMI_FC_AVICONF0_ACTIVE_FMT_INFO_PRESENT := 0x40;
  HDMI_FC_AVICONF0_BAR_DATA_NO_DATA := 0; HDMI_FC_AVICONF1_ACTIVE_ASPECT_RATIO_16_9 := 0x0A;
  HDMI_FC_AVICONF1_CODED_ASPECT_RATIO_16_9 := 0x20;
  HDMI_FC_AVICONF1_ACTIVE_ASPECT_RATIO_4_3 := 9;
  HDMI_FC_AVICONF1_CODED_ASPECT_RATIO_4_3 := 0x10;
  HDMI_FC_AVICONF1_COLORIMETRY_EXTENDED_INFO := 0xC0;
  HDMI_FC_AVICONF2_EXT_COLORIMETRY_XVYCC601 := 0;
  HDMI_FC_AVICONF2_EXT_COLORIMETRY_XVYCC709 := 0x10;
  HDMI_FC_AVICONF1_COLORIMETRY_SMPTE := 0x40; HDMI_FC_AVICONF1_COLORIMETRY_ITUR := 0x80;
  HDMI_FC_AVICONF1_COLORIMETRY_NO_DATA := 0; HDMI_FC_AVICONF2_IT_CONTENT_NO_DATA := 0;
  HDMI_FC_AVICONF2_RGB_QUANT_DEFAULT := 0; HDMI_FC_AVICONF2_SCALING_NONE := 0;
  HDMI_FC_PRCONF_INCOMING_PR_FACTOR_OFFSET := 4;
  HDMI_FC_PRCONF_INCOMING_PR_FACTOR_MASK := 0xF0; HDMI_FC_PRCONF_OUTPUT_PR_FACTOR_OFFSET := 0;
  HDMI_FC_PRCONF_OUTPUT_PR_FACTOR_MASK := 0x0F; HDMI_FC_AVICONF3_IT_CONTENT_TYPE_GRAPHICS := 0;
  HDMI_FC_AVICONF3_QUANT_RANGE_LIMITED := 0; HDMI_FC_INVIDCONF_HDCP_KEEPOUT_ACTIVE := 0x80;
  HDMI_FC_INVIDCONF_HDCP_KEEPOUT_INACTIVE := 0;
  HDMI_FC_INVIDCONF_VSYNC_IN_POLARITY_ACTIVE_HIGH := 0x40;
  HDMI_FC_INVIDCONF_VSYNC_IN_POLARITY_ACTIVE_LOW := 0;
  HDMI_FC_INVIDCONF_HSYNC_IN_POLARITY_ACTIVE_HIGH := 0x20;
  HDMI_FC_INVIDCONF_HSYNC_IN_POLARITY_ACTIVE_LOW := 0;
  HDMI_FC_INVIDCONF_DE_IN_POLARITY_ACTIVE_HIGH := 0x10;
  HDMI_FC_INVIDCONF_DE_IN_POLARITY_ACTIVE_LOW := 0;
  HDMI_FC_INVIDCONF_R_V_BLANK_IN_OSC_ACTIVE_HIGH := 2;
  HDMI_FC_INVIDCONF_R_V_BLANK_IN_OSC_ACTIVE_LOW := 0; HDMI_FC_INVIDCONF_IN_I_P_INTERLACED := 1;
  HDMI_FC_INVIDCONF_IN_I_P_PROGRESSIVE := 0; HDMI_FC_INVIDCONF_DVI_MODEZ_DVI_MODE := 0;
  HDMI_FC_INVIDCONF_DVI_MODEZ_HDMI_MODE := 8; HDMI_I2CM_INT_DONE_POL := 8;
  HDMI_I2CM_CTLINT_NAC_POL := 0x80; HDMI_I2CM_CTLINT_ARBITRATION_POL := 8;
  HDMI_MC_CLKDIS_HDCPCLK_DISABLE := 0x40; HDMI_MC_CLKDIS_PIXELCLK_DISABLE := 1;
  HDMI_MC_CLKDIS_TMDSCLK_DISABLE := 2; HDMI_MC_CLKDIS_CSCCLK_DISABLE := 0x10;
  HDMI_MC_CLKDIS_AUDCLK_DISABLE := 8; HDMI_MC_SWRSTZ_TMDSSWRST_REQ := 2;
  HDMI_IH_MUTE_FC_STAT2_OVERFLOW_MASK := 3; HDMI_IH_PHY_STAT0_HPD := 1; HDMI_PHY_HPD := 2;
  HDMI_IH_MUTE_PHY_STAT0_HPD := 1; HDMI_IH_FC_STAT2_OVERFLOW_MASK := 3;
  HDMI_PHY_I2CM_INT_ADDR_DONE_POL := 8; HDMI_PHY_I2CM_CTLINT_ADDR_NAC_POL := 0x80;
  HDMI_PHY_I2CM_CTLINT_ADDR_ARBITRATION_POL := 8 |}.

Lemma hdmi_h_example_laws : @hdmi_h_laws hdmi_h_example.
Proof.
  split; [|apply (bool_decide_unpack _); by vm_compute|by vm_compute].
  repeat (apply Forall_cons_2; [by vm_compute|]). by apply Forall_nil_2.
Qed.
