(* ===== verification/HdmiTx.v ===== *)
(** * The HDMI transmitter: [mxc_hdmi.c], the functions that program it

    The driver's data, what it uses of the frame buffer layer, code that reads and
    writes registers, and the functions of [mxc_hdmi.c] that set up the video path,
    the PHY and the information frames.  [MxcHdmi] has the rest of the file. *)

From S2P Require Import Prelude MxcEdid HdmiRegs.

(** ** The frame buffer layer *)

(** [linux/fb.h] and its functions on modes; a list of modes is in list order. *)
Class fb_lib := {
  fb_var_screeninfo : Type;
  fb_var_to_videomode : fb_var_screeninfo -> fb_videomode;
  fb_videomode_to_var : fb_var_screeninfo -> fb_videomode -> fb_var_screeninfo;
  var_pixclock : fb_var_screeninfo -> Z;
  var_set_size : Z -> Z -> fb_var_screeninfo -> fb_var_screeninfo;       (** [width], [height] *)
  var_activate_force : fb_var_screeninfo -> fb_var_screeninfo;
  fb_find_mode : fb_var_screeninfo -> bytes -> Z -> fb_var_screeninfo;   (** by name and depth *)
  fb_find_nearest_mode : fb_videomode -> list fb_videomode -> option fb_videomode;
  fb_mode_is_equal : fb_videomode -> fb_videomode -> bool;
  fb_add_videomode : fb_videomode -> list fb_videomode -> list fb_videomode;
  FB_MODE_IS_VESA : Z;
  FB_BLANK_UNBLANK : Z;
  FB_BLANK_POWERDOWN : Z }.

(** A search in a list that is not empty finds one of its modes; a mode added is in
    the list, or one equal to it was; a mode is equal to itself; the two blanking
    levels are different bytes. *)
Class fb_lib_laws `{fb_lib} := {
  nearest_in m l x : fb_find_nearest_mode m l = Some x -> x ∈ l;
  nearest_some m l : l <> [] -> is_Some (fb_find_nearest_mode m l);
  add_some m l : fb_add_videomode m l <> [];
  equal_refl m : fb_mode_is_equal m m = true;
  blank_levels : is_byte FB_BLANK_UNBLANK /\ is_byte FB_BLANK_POWERDOWN /\
    FB_BLANK_UNBLANK <> FB_BLANK_POWERDOWN }.

(** ** Data *)

Definition HDMI_EDID_LEN : Z := 512.

Definition RGB : Z := 0.
Definition YCBCR444 : Z := 1.
Definition YCBCR422_16BITS : Z := 2.
Definition YCBCR422_8BITS : Z := 3.
Definition XVYCC444 : Z := 4.

Inductive hdmi_colorimetry := eITU601 | eITU709.

Definition is_601 (c : hdmi_colorimetry) : bool := match c with eITU601 => true | eITU709 => false end.

Record hdmi_vmode := mk_vmode {
  mDVI : bool; mHSyncPolarity : bool; mVSyncPolarity : bool; mInterlaced : bool; mDataEnablePolarity : bool;
  mPixelClock : Z; mPixelRepetitionInput : Z; mPixelRepetitionOutput : Z }.

Record hdmi_data_info := mk_data {
  enc_in_format : Z; enc_out_format : Z; enc_color_depth : Z; colorimetry : hdmi_colorimetry;
  pix_repet_factor : Z; hdcp_enable : Z; rgb_out_enable : Z; video_mode : hdmi_vmode }.

Definition put_video_mode v d := mk_data (enc_in_format d) (enc_out_format d) (enc_color_depth d)
  (colorimetry d) (pix_repet_factor d) (hdcp_enable d) (rgb_out_enable d) v.

Record hdmi_phy_reg_config := mk_phy_config { reg_vlev : Z; reg_cksymtx : Z }.

(** Parts of [struct mxc_hdmi]: what the display said, whether there is something
    to show and somewhere to show it, the modes set before, interrupts and the works
    they schedule, the setting of the display driver. *)
Record display_data := mk_display { edid_cfg : mxc_edid_cfg; h_edid : bytes }.

Record link_state := mk_link { fb_reg : bool; cable_plugin : bool; h_blank : Z; phy_enabled : bool }.

Record mode_memory := mk_modes {
  dft_mode_set : bool; previous_mode : fb_videomode; previous_non_vga_mode : fb_videomode;
  requesting_vga_for_initialization : bool }.

Record hdmi_irq := mk_irq { latest_intr_stat : Z; hotplug_work : bool; hdcp_hdp_work : bool }.

Record hdmi_setting := mk_setting {
  dft_mode_str : bytes; default_bpp : Z; h_phy_config : hdmi_phy_reg_config }.

Record mxc_hdmi := mk_hdmi {
  hdmi_data : hdmi_data_info; vic : Z; disp : display_data; link : link_state; modes : mode_memory;
  irqs : hdmi_irq; setting : hdmi_setting }.

Definition put_hdmi_data v h := mk_hdmi v (vic h) (disp h) (link h) (modes h) (irqs h) (setting h).
Definition put_vic v h := mk_hdmi (hdmi_data h) v (disp h) (link h) (modes h) (irqs h) (setting h).
Definition put_disp v h := mk_hdmi (hdmi_data h) (vic h) v (link h) (modes h) (irqs h) (setting h).
Definition put_link v h := mk_hdmi (hdmi_data h) (vic h) (disp h) v (modes h) (irqs h) (setting h).
Definition put_modes v h := mk_hdmi (hdmi_data h) (vic h) (disp h) (link h) v (irqs h) (setting h).
Definition put_irqs v h := mk_hdmi (hdmi_data h) (vic h) (disp h) (link h) (modes h) v (setting h).
Definition put_setting v h := mk_hdmi (hdmi_data h) (vic h) (disp h) (link h) (modes h) (irqs h) v.

Definition set_fb_reg v h := put_link (mk_link v (cable_plugin (link h)) (h_blank (link h)) (phy_enabled (link h))) h.
Definition set_cable_plugin v h := put_link (mk_link (fb_reg (link h)) v (h_blank (link h)) (phy_enabled (link h))) h.
Definition set_blank v h := put_link (mk_link (fb_reg (link h)) (cable_plugin (link h)) v (phy_enabled (link h))) h.
Definition set_phy_enabled v h := put_link (mk_link (fb_reg (link h)) (cable_plugin (link h)) (h_blank (link h)) v) h.

(** What the driver takes from the kernel and gives back. *)
Inductive hdmi_resource :=
| RMemory | RPins | RIsfrClk | RIahbClk | RFbClient | RIrq | RChrdev | RClass | RDevice | RCore | RDispdrv | RSwitches.

#[export] Instance hdmi_resource_eq_dec : EqDecision hdmi_resource.
Proof. solve_decision. Defined.

(** What the driver tells the outside. *)
Inductive hdmi_event :=
| Wr (v : Z) (r : hreg)                                   (** [hdmi_writeb] *)
| Pins (on : bool)                                        (** [enable_pins], [disable_pins] *)
| Console (locked : bool)                                 (** [console_lock], [console_unlock] *)
| Uevent (s : bytes)                                      (** [kobject_uevent_env] *)
| SwitchAudio (n : Z)
| SwitchDisplay (n : Z)
| SetCableState (n : Z)
| SetRegistered (n : Z)
| SetBlankState (n : Z)
| SetEdidCfg (c : mxc_edid_cfg)
| AbortStream
| CecHandle (n : Z)
| ClkRegenerator (pixclock : Z)                           (** [hdmi_clk_regenerator_update_pixel_clock] *)
| IahbClk (on : bool)                                     (** [clk_enable], [clk_disable] *)
| IsfrClk (on : bool)
| InitClkRegenerator
| PlatInit
| Take (r : hdmi_resource)
| Drop (r : hdmi_resource).

Section transmitter.
Context {FB : fb_h} {FL : fb_lib} {HH : hdmi_h} {HC : hdmi_core}.

(** The parts of [struct fb_info] that the driver uses: [monspecs] as its modes and
    its size in centimeters. *)
Record fb_info := mk_fb {
  var : fb_var_screeninfo; modelist : list fb_videomode; modedb : list fb_videomode;
  max_x : Z; max_y : Z; fb_mode : option fb_videomode; misc_userevent : bool }.

Definition put_var v f := mk_fb v (modelist f) (modedb f) (max_x f) (max_y f) (fb_mode f) (misc_userevent f).
Definition put_modelist v f := mk_fb (var f) v (modedb f) (max_x f) (max_y f) (fb_mode f) (misc_userevent f).
Definition put_monspecs v x y f := mk_fb (var f) (modelist f) v x y (fb_mode f) (misc_userevent f).
Definition put_fb_mode v f := mk_fb (var f) (modelist f) (modedb f) (max_x f) (max_y f) v (misc_userevent f).
Definition put_userevent v f := mk_fb (var f) (modelist f) (modedb f) (max_x f) (max_y f) (fb_mode f) v.

(** ** Code that reads and writes registers

    [ticks] counts what is asked of the outside. *)

Record world := mk_world {
  regs : regfile; ticks : nat; hdmi : mxc_hdmi; fbi : fb_info; events : list hdmi_event }.

Definition hd (A : Type) : Type := world -> outcome (A * world).

#[export] Instance hd_ret : MRet hd := fun A a w => Ret (a, w).
#[export] Instance hd_bind : MBind hd := fun A B k m w => '(a, w) ← m w; k a w.

Definition hd_lift {A} (o : outcome A) : hd A := fun w => a ← o; Ret (a, w).

Definition get_hdmi : hd mxc_hdmi := fun w => Ret (hdmi w, w).
Definition mod_hdmi (f : mxc_hdmi -> mxc_hdmi) : hd unit := fun w =>
  Ret (tt, mk_world (regs w) (ticks w) (f (hdmi w)) (fbi w) (events w)).
Definition get_fbi : hd fb_info := fun w => Ret (fbi w, w).
Definition mod_fbi (f : fb_info -> fb_info) : hd unit := fun w =>
  Ret (tt, mk_world (regs w) (ticks w) (hdmi w) (f (fbi w)) (events w)).
Definition emit (e : hdmi_event) : hd unit := fun w =>
  Ret (tt, mk_world (regs w) (ticks w) (hdmi w) (fbi w) (events w ++ [e])).
Definition tick : hd nat := fun w => Ret (ticks w, mk_world (regs w) (S (ticks w)) (hdmi w) (fbi w) (events w)).

Definition hdmi_readb (r : hreg) : hd Z := fun w =>
  if is_status r
  then Ret (u8 (status (ticks w) (regs w) r), mk_world (regs w) (S (ticks w)) (hdmi w) (fbi w) (events w))
  else Ret (regs w r, w).

Definition hdmi_writeb (v : Z) (r : hreg) : hd unit := fun w =>
  Ret (tt, mk_world (upd r (u8 v) (regs w)) (ticks w) (hdmi w) (fbi w) (events w ++ [Wr (u8 v) r])).

Definition hdmi_mask_writeb (data : Z) (r : hreg) (shift mask : Z) : hd unit :=
  old ← hdmi_readb r; hdmi_writeb (masked data old shift mask) r.

(** [val = hdmi_readb(r); val &= ~mask; val |= bits; hdmi_writeb(val, r);] *)
Definition change_bits (r : hreg) (mask bits : Z) : hd unit :=
  val ← hdmi_readb r; hdmi_writeb ((val .& Z.lnot mask) .| bits) r.

(** [while (val == 0) { udelay(1000); if (msec-- == 0) return false; val = .. }] on
    the bits of [mask]. *)
Fixpoint wait_bits (r : hreg) (mask : Z) (msec : nat) : hd bool :=
  val ← hdmi_readb r;
  if ctrue (val .& mask) then mret true
  else match msec with O => mret false | S msec => wait_bits r mask msec end.

(** ** The video path *)

(** [color_format]; [None] is the early return. *)
Definition color_format (d : hdmi_data_info) : option Z :=
  let depth := enc_color_depth d in
  if enc_in_format d =? RGB then
    if depth =? 8 then Some 0x01 else if depth =? 10 then Some 0x03
    else if depth =? 12 then Some 0x05 else if depth =? 16 then Some 0x07 else None
  else if enc_in_format d =? YCBCR444 then
    if depth =? 8 then Some 0x09 else if depth =? 10 then Some 0x0B
    else if depth =? 12 then Some 0x0D else if depth =? 16 then Some 0x0F else None
  else if enc_in_format d =? YCBCR422_8BITS then
    if depth =? 8 then Some 0x16 else if depth =? 10 then Some 0x14
    else if depth =? 12 then Some 0x12 else None
  else Some 0.

Definition hdmi_video_sample : hd unit :=
  h ← get_hdmi;
  match color_format (hdmi_data h) with
  | None => mret tt
  | Some color_format =>
    hdmi_writeb (HDMI_TX_INVID0_INTERNAL_DE_GENERATOR_DISABLE .|
      ((color_format ≪ HDMI_TX_INVID0_VIDEO_MAPPING_OFFSET) .& HDMI_TX_INVID0_VIDEO_MAPPING_MASK)) HDMI_TX_INVID0;;
    hdmi_writeb (HDMI_TX_INSTUFFING_BDBDATA_STUFFING_ENABLE .| HDMI_TX_INSTUFFING_RCRDATA_STUFFING_ENABLE
      .| HDMI_TX_INSTUFFING_GYDATA_STUFFING_ENABLE) HDMI_TX_INSTUFFING;;
    hdmi_writeb 0x0 HDMI_TX_GYDATA0;;
    hdmi_writeb 0x0 HDMI_TX_GYDATA1;;
    hdmi_writeb 0x0 HDMI_TX_RCRDATA0;;
    hdmi_writeb 0x0 HDMI_TX_RCRDATA1;;
    hdmi_writeb 0x0 HDMI_TX_BCBDATA0;;
    hdmi_writeb 0x0 HDMI_TX_BCBDATA1
  end.

Definition isColorSpaceConversion (d : hdmi_data_info) : bool := negb (enc_in_format d =? enc_out_format d).

Definition isColorSpaceDecimation (d : hdmi_data_info) : bool :=
  (enc_out_format d =? YCBCR422_8BITS) && ((enc_in_format d =? RGB) || (enc_in_format d =? YCBCR444)).

Definition isColorSpaceInterpolation (d : hdmi_data_info) : bool :=
  (enc_in_format d =? YCBCR422_8BITS) && ((enc_out_format d =? RGB) || (enc_out_format d =? YCBCR444)).

(** The coefficients by rows, and [csc_scale]. *)
Definition csc_selection (d : hdmi_data_info) : list (list Z) * Z :=
  if isColorSpaceConversion d && (enc_out_format d =? RGB) then
    if is_601 (colorimetry d) then
      ([[0x2000; 0x6926; 0x74fd; 0x010e]; [0x2000; 0x2cdd; 0x0000; 0x7e9a]; [0x2000; 0x0000; 0x38b4; 0x7e3b]], 1)
    else
      ([[0x2000; 0x7106; 0x7a02; 0x00a7]; [0x2000; 0x3264; 0x0000; 0x7e6d]; [0x2000; 0x0000; 0x3b61; 0x7e25]], 1)
  else if isColorSpaceConversion d && (enc_in_format d =? RGB) then
    if is_601 (colorimetry d) then
      ([[0x2591; 0x1322; 0x074b; 0x0000]; [0x6535; 0x2000; 0x7acc; 0x0200]; [0x6acd; 0x7534; 0x2000; 0x0200]], 0)
    else
      ([[0x2dc5; 0x0d9b; 0x049e; 0x0000]; [0x62f0; 0x2000; 0x7d11; 0x0200]; [0x6756; 0x78ab; 0x2000; 0x0200]], 0)
  else ([[0x2000; 0x0000; 0x0000; 0x0000]; [0x0000; 0x2000; 0x0000; 0x0000]; [0x0000; 0x0000; 0x2000; 0x0000]], 1).

(** The registers of the coefficients, least byte first, in the order written. *)
Definition csc_registers : list (hreg * hreg) := [
  (HDMI_CSC_COEF_A1_LSB, HDMI_CSC_COEF_A1_MSB); (HDMI_CSC_COEF_A2_LSB, HDMI_CSC_COEF_A2_MSB);
  (HDMI_CSC_COEF_A3_LSB, HDMI_CSC_COEF_A3_MSB); (HDMI_CSC_COEF_A4_LSB, HDMI_CSC_COEF_A4_MSB);
  (HDMI_CSC_COEF_B1_LSB, HDMI_CSC_COEF_B1_MSB); (HDMI_CSC_COEF_B2_LSB, HDMI_CSC_COEF_B2_MSB);
  (HDMI_CSC_COEF_B3_LSB, HDMI_CSC_COEF_B3_MSB); (HDMI_CSC_COEF_B4_LSB, HDMI_CSC_COEF_B4_MSB);
  (HDMI_CSC_COEF_C1_LSB, HDMI_CSC_COEF_C1_MSB); (HDMI_CSC_COEF_C2_LSB, HDMI_CSC_COEF_C2_MSB);
  (HDMI_CSC_COEF_C3_LSB, HDMI_CSC_COEF_C3_MSB); (HDMI_CSC_COEF_C4_LSB, HDMI_CSC_COEF_C4_MSB)].

Fixpoint write_words (rs : list (hreg * hreg)) (cs : list Z) : hd unit :=
  match rs, cs with
  | (lsb, msb) :: rs, c :: cs => hdmi_writeb (c .& 0xFF) lsb;; hdmi_writeb (c ≫ 8) msb;; write_words rs cs
  | _, _ => mret tt
  end.

Definition update_csc_coeffs : hd unit :=
  h ← get_hdmi;
  let '(csc_coeff, csc_scale) := csc_selection (hdmi_data h) in
  write_words csc_registers (concat csc_coeff);;
  change_bits HDMI_CSC_SCALE HDMI_CSC_SCALE_CSCSCALE_MASK (csc_scale .& HDMI_CSC_SCALE_CSCSCALE_MASK).

Definition csc_color_depth (d : hdmi_data_info) : option Z :=
  let depth := enc_color_depth d in
  if depth =? 8 then Some HDMI_CSC_SCALE_CSC_COLORDE_PTH_24BPP
  else if depth =? 10 then Some HDMI_CSC_SCALE_CSC_COLORDE_PTH_30BPP
  else if depth =? 12 then Some HDMI_CSC_SCALE_CSC_COLORDE_PTH_36BPP
  else if depth =? 16 then Some HDMI_CSC_SCALE_CSC_COLORDE_PTH_48BPP
  else None.

Definition hdmi_video_csc : hd unit :=
  h ← get_hdmi;
  let d := hdmi_data h in
  let interpolation :=
    if isColorSpaceInterpolation d then HDMI_CSC_CFG_INTMODE_CHROMA_INT_FORMULA1 else HDMI_CSC_CFG_INTMODE_DISABLE in
  let decimation :=
    if isColorSpaceInterpolation d then 0
    else if isColorSpaceDecimation d then HDMI_CSC_CFG_DECMODE_CHROMA_INT_FORMULA3 else 0 in
  match csc_color_depth d with
  | None => mret tt
  | Some color_depth =>
    hdmi_writeb (interpolation .| decimation) HDMI_CSC_CFG;;
    change_bits HDMI_CSC_SCALE HDMI_CSC_SCALE_CSC_COLORDE_PTH_MASK color_depth;;
    update_csc_coeffs
  end.

(** [remap_size] and [output_select]; [None] is an early return. *)
Definition packetizer_choice (d : hdmi_data_info) : option (Z * Z) :=
  let depth := enc_color_depth d in
  if (enc_out_format d =? RGB) || (enc_out_format d =? YCBCR444) then
    if (depth =? 0) || (depth =? 8) then Some (HDMI_VP_REMAP_YCC422_16bit, HDMI_VP_CONF_OUTPUT_SELECTOR_BYPASS)
    else if (depth =? 10) || (depth =? 12) || (depth =? 16)
    then Some (HDMI_VP_REMAP_YCC422_16bit, HDMI_VP_CONF_OUTPUT_SELECTOR_PP)
    else None
  else if enc_out_format d =? YCBCR422_8BITS then
    if (depth =? 0) || (depth =? 8) then Some (HDMI_VP_REMAP_YCC422_16bit, HDMI_VP_CONF_OUTPUT_SELECTOR_YCC422)
    else if depth =? 10 then Some (HDMI_VP_REMAP_YCC422_20bit, HDMI_VP_CONF_OUTPUT_SELECTOR_YCC422)
    else if depth =? 12 then Some (HDMI_VP_REMAP_YCC422_24bit, HDMI_VP_CONF_OUTPUT_SELECTOR_YCC422)
    else None
  else None.

(** The three enable bits of [HDMI_VP_CONF] for an output; [None]: no such output. *)
Definition output_enables (output_select : Z) : option Z :=
  if output_select =? HDMI_VP_CONF_OUTPUT_SELECTOR_PP then
    Some (HDMI_VP_CONF_BYPASS_EN_DISABLE .| HDMI_VP_CONF_PP_EN_ENABLE .| HDMI_VP_CONF_YCC422_EN_DISABLE)
  else if output_select =? HDMI_VP_CONF_OUTPUT_SELECTOR_YCC422 then
    Some (HDMI_VP_CONF_BYPASS_EN_DISABLE .| HDMI_VP_CONF_PP_EN_DISABLE .| HDMI_VP_CONF_YCC422_EN_ENABLE)
  else if output_select =? HDMI_VP_CONF_OUTPUT_SELECTOR_BYPASS then
    Some (HDMI_VP_CONF_BYPASS_EN_ENABLE .| HDMI_VP_CONF_PP_EN_DISABLE .| HDMI_VP_CONF_YCC422_EN_DISABLE)
  else None.

(** [color_depth] is set to 0 before it is used. *)
Definition hdmi_video_packetize : hd unit :=
  h ← get_hdmi;
  let d := hdmi_data h in
  match packetizer_choice d with
  | None => mret tt
  | Some (remap_size, output_select) =>
    hdmi_writeb (((0 ≪ HDMI_VP_PR_CD_COLOR_DEPTH_OFFSET) .& HDMI_VP_PR_CD_COLOR_DEPTH_MASK) .|
      ((pix_repet_factor d ≪ HDMI_VP_PR_CD_DESIRED_PR_FACTOR_OFFSET) .& HDMI_VP_PR_CD_DESIRED_PR_FACTOR_MASK))
      HDMI_VP_PR_CD;;
    change_bits HDMI_VP_STUFF HDMI_VP_STUFF_PR_STUFFING_MASK HDMI_VP_STUFF_PR_STUFFING_STUFFING_MODE;;
    change_bits HDMI_VP_CONF (HDMI_VP_CONF_PR_EN_MASK .| HDMI_VP_CONF_BYPASS_SELECT_MASK)
      (if 1 <? pix_repet_factor d
       then HDMI_VP_CONF_PR_EN_ENABLE .| HDMI_VP_CONF_BYPASS_SELECT_PIX_REPEATER
       else HDMI_VP_CONF_PR_EN_DISABLE .| HDMI_VP_CONF_BYPASS_SELECT_VID_PACKETIZER);;
    change_bits HDMI_VP_STUFF HDMI_VP_STUFF_IDEFAULT_PHASE_MASK (1 ≪ HDMI_VP_STUFF_IDEFAULT_PHASE_OFFSET);;
    hdmi_writeb remap_size HDMI_VP_REMAP;;
    match output_enables output_select with
    | None => mret tt
    | Some enables =>
      change_bits HDMI_VP_CONF
        (HDMI_VP_CONF_BYPASS_EN_MASK .| HDMI_VP_CONF_PP_EN_ENMASK .| HDMI_VP_CONF_YCC422_EN_MASK) enables;;
      change_bits HDMI_VP_STUFF (HDMI_VP_STUFF_PP_STUFFING_MASK .| HDMI_VP_STUFF_YCC422_STUFFING_MASK)
        (HDMI_VP_STUFF_PP_STUFFING_STUFFING_MODE .| HDMI_VP_STUFF_YCC422_STUFFING_STUFFING_MODE);;
      change_bits HDMI_VP_CONF HDMI_VP_CONF_OUTPUT_SELECTOR_MASK output_select
    end
  end.

(** ** The PHY *)

Definition hdmi_phy_test_clear (bit : Z) : hd unit :=
  change_bits HDMI_PHY_TST0 HDMI_PHY_TST0_TSTCLR_MASK
    ((bit ≪ HDMI_PHY_TST0_TSTCLR_OFFSET) .& HDMI_PHY_TST0_TSTCLR_MASK).

Definition hdmi_phy_test_enable (bit : Z) : hd unit :=
  change_bits HDMI_PHY_TST0 HDMI_PHY_TST0_TSTEN_MASK
    ((bit ≪ HDMI_PHY_TST0_TSTEN_OFFSET) .& HDMI_PHY_TST0_TSTEN_MASK).

Definition hdmi_phy_test_clock (bit : Z) : hd unit :=
  change_bits HDMI_PHY_TST0 HDMI_PHY_TST0_TSTCLK_MASK
    ((bit ≪ HDMI_PHY_TST0_TSTCLK_OFFSET) .& HDMI_PHY_TST0_TSTCLK_MASK).

Definition hdmi_phy_test_din (bit : Z) : hd unit := hdmi_writeb bit HDMI_PHY_TST1.
Definition hdmi_phy_test_dout (bit : Z) : hd unit := hdmi_writeb bit HDMI_PHY_TST2.

Definition hdmi_phy_wait_i2c_done (msec : nat) : hd bool := wait_bits HDMI_IH_I2CMPHY_STAT0 0x3 msec.

Definition hdmi_phy_i2c_write (data addr : Z) : hd unit :=
  hdmi_writeb 0xFF HDMI_IH_I2CMPHY_STAT0;;
  hdmi_writeb addr HDMI_PHY_I2CM_ADDRESS_ADDR;;
  hdmi_writeb (data ≫ 8) HDMI_PHY_I2CM_DATAO_1_ADDR;;
  hdmi_writeb (data ≫ 0) HDMI_PHY_I2CM_DATAO_0_ADDR;;
  hdmi_writeb HDMI_PHY_I2CM_OPERATION_ADDR_WRITE HDMI_PHY_I2CM_OPERATION_ADDR;;
  _ ← hdmi_phy_wait_i2c_done 1000;
  mret tt.

Definition mxc_hdmi_phy_enable_power (enable : Z) : hd unit :=
  hdmi_mask_writeb enable HDMI_PHY_CONF0 HDMI_PHY_CONF0_PDZ_OFFSET HDMI_PHY_CONF0_PDZ_MASK.
Definition mxc_hdmi_phy_enable_tmds (enable : Z) : hd unit :=
  hdmi_mask_writeb enable HDMI_PHY_CONF0 HDMI_PHY_CONF0_ENTMDS_OFFSET HDMI_PHY_CONF0_ENTMDS_MASK.
Definition mxc_hdmi_phy_gen2_pddq (enable : Z) : hd unit :=
  hdmi_mask_writeb enable HDMI_PHY_CONF0 HDMI_PHY_CONF0_GEN2_PDDQ_OFFSET HDMI_PHY_CONF0_GEN2_PDDQ_MASK.
Definition mxc_hdmi_phy_gen2_txpwron (enable : Z) : hd unit :=
  hdmi_mask_writeb enable HDMI_PHY_CONF0 HDMI_PHY_CONF0_GEN2_TXPWRON_OFFSET HDMI_PHY_CONF0_GEN2_TXPWRON_MASK.
Definition mxc_hdmi_phy_sel_data_en_pol (enable : Z) : hd unit :=
  hdmi_mask_writeb enable HDMI_PHY_CONF0 HDMI_PHY_CONF0_SELDATAENPOL_OFFSET HDMI_PHY_CONF0_SELDATAENPOL_MASK.
Definition mxc_hdmi_phy_sel_interface_control (enable : Z) : hd unit :=
  hdmi_mask_writeb enable HDMI_PHY_CONF0 HDMI_PHY_CONF0_SELDIPIF_OFFSET HDMI_PHY_CONF0_SELDIPIF_MASK.

(** [switch (cRes)] of the PLL, for one range of clocks: the values of registers 6
    and 0x15, and whether [case 12] ends in [break] or falls into [default]. *)
Definition phy_mpll_case (v8 w8 v10 w10 v12 w12 : Z) (break12 : bool) (cRes : Z) : hd bool :=
  if cRes =? 8 then hdmi_phy_i2c_write v8 0x06;; hdmi_phy_i2c_write w8 0x15;; mret true
  else if cRes =? 10 then hdmi_phy_i2c_write v10 0x06;; hdmi_phy_i2c_write w10 0x15;; mret true
  else if cRes =? 12 then hdmi_phy_i2c_write v12 0x06;; hdmi_phy_i2c_write w12 0x15;; mret break12
  else mret false.

(** [false] is an early return. *)
Definition phy_mpll (clock cRes : Z) : hd bool :=
  if clock <=? 45250000 then phy_mpll_case 0x01e0 0x0000 0x21e1 0x0000 0x41e2 0x0000 true cRes
  else if clock <=? 92500000 then phy_mpll_case 0x0140 0x0005 0x2141 0x0005 0x4142 0x0005 false cRes
  else if clock <=? 148500000 then phy_mpll_case 0x00a0 0x000a 0x20a1 0x000a 0x40a2 0x000a false cRes
  else phy_mpll_case 0x00a0 0x000a 0x2001 0x000f 0x4002 0x000f false cRes.

(** [switch (cRes)] of the current, register 0x10. *)
Definition phy_current_case (v8 v10 v12 cRes : Z) : hd bool :=
  if cRes =? 8 then hdmi_phy_i2c_write v8 0x10;; mret true
  else if cRes =? 10 then hdmi_phy_i2c_write v10 0x10;; mret true
  else if cRes =? 12 then hdmi_phy_i2c_write v12 0x10;; mret true
  else mret false.

Definition phy_current (clock cRes : Z) : hd bool :=
  if clock <=? 54000000 then phy_current_case 0x091c 0x091c 0x06dc cRes
  else if clock <=? 58400000 then phy_current_case 0x091c 0x06dc 0x06dc cRes
  else if clock <=? 72000000 then phy_current_case 0x06dc 0x06dc 0x091c cRes
  else if clock <=? 74250000 then phy_current_case 0x06dc 0x0b5c 0x091c cRes
  else if clock <=? 118800000 then phy_current_case 0x091c 0x091c 0x06dc cRes
  else if clock <=? 216000000 then phy_current_case 0x06dc 0x0b5c 0x091c cRes
  else mret false.

(** The registers that do not depend on the colour resolution, from
    [PLLPHBYCTRL] on. *)
Definition phy_common (clock : Z) (cfg : hdmi_phy_reg_config) : hd unit :=
  hdmi_phy_i2c_write 0x0000 0x13;;
  hdmi_phy_i2c_write 0x0006 0x17;;
  hdmi_phy_i2c_write 0x0005 0x19;;
  hdmi_phy_i2c_write 0x800d 0x09;;
  hdmi_phy_i2c_write 0x01ad 0x0E;;
  (if ctrue (reg_cksymtx cfg) then hdmi_phy_i2c_write (reg_cksymtx cfg) 0x09 else mret tt);;
  (if ctrue (reg_vlev cfg) then hdmi_phy_i2c_write (reg_vlev cfg) 0x0E else mret tt);;
  hdmi_phy_i2c_write 0x8000 0x05;;
  (if 148500000 <? clock then hdmi_phy_i2c_write 0x800b 0x09;; hdmi_phy_i2c_write 0x0129 0x0E else mret tt).

(** Power on, then the wait for the PLL: [msec] is 4. *)
Definition phy_power_up : hd bool :=
  mxc_hdmi_phy_enable_power 1;;
  mxc_hdmi_phy_enable_tmds 0;;
  mxc_hdmi_phy_enable_tmds 1;;
  mxc_hdmi_phy_gen2_txpwron 1;;
  mxc_hdmi_phy_gen2_pddq 0;;
  wait_bits HDMI_PHY_STAT0 HDMI_PHY_TX_PHY_LOCK 4.

(** Power off and reset, at the beginning. *)
Definition phy_reset (cscOn : bool) : hd unit :=
  hdmi_writeb (if cscOn then HDMI_MC_FLOWCTRL_FEED_THROUGH_OFF_CSC_IN_PATH
               else HDMI_MC_FLOWCTRL_FEED_THROUGH_OFF_CSC_BYPASS) HDMI_MC_FLOWCTRL;;
  mxc_hdmi_phy_gen2_txpwron 0;;
  mxc_hdmi_phy_gen2_pddq 1;;
  hdmi_writeb HDMI_MC_PHYRSTZ_DEASSERT HDMI_MC_PHYRSTZ;;
  hdmi_writeb HDMI_MC_PHYRSTZ_ASSERT HDMI_MC_PHYRSTZ;;
  hdmi_writeb HDMI_MC_HEACPHY_RST_ASSERT HDMI_MC_HEACPHY_RST;;
  hdmi_phy_test_clear 1;;
  hdmi_writeb HDMI_PHY_I2CM_SLAVE_ADDR_PHY_GEN2 HDMI_PHY_I2CM_SLAVE_ADDR;;
  hdmi_phy_test_clear 0.

(** The pixel clock is unsigned: the test for a negative one never holds. *)
Definition hdmi_phy_configure (pRep cRes : Z) (cscOn : bool) : hd bool :=
  let cRes := if cRes =? 0 then 8 else cRes in
  if negb (pRep =? 0) then mret false
  else if negb (cRes =? 8) && negb (cRes =? 12) then mret false
  else
    h ← get_hdmi;
    let clock := mPixelClock (video_mode (hdmi_data h)) in
    phy_reset cscOn;;
    ok ← phy_mpll clock cRes;
    if negb ok then mret false
    else
      ok ← phy_current clock cRes;
      if negb ok then mret false
      else phy_common clock (h_phy_config (setting h));; phy_power_up.

Definition phy_round (cscon : bool) : hd unit :=
  mxc_hdmi_phy_sel_data_en_pol 1;;
  mxc_hdmi_phy_sel_interface_control 0;;
  mxc_hdmi_phy_enable_tmds 0;;
  mxc_hdmi_phy_enable_power 0;;
  _ ← hdmi_phy_configure 0 8 cscon;
  mret tt.

(** Whether there is something to show, and somewhere to show it. *)
Definition can_show (l : link_state) : bool := fb_reg l && cable_plugin l && (h_blank l =? FB_BLANK_UNBLANK).

(** The sequence is done twice. *)
Definition mxc_hdmi_phy_init : hd unit :=
  h ← get_hdmi;
  if negb (can_show (link h)) then mret tt
  else
    let cscon := isColorSpaceConversion (hdmi_data h) && negb (mDVI (video_mode (hdmi_data h))) in
    phy_round cscon;;
    phy_round cscon;;
    mod_hdmi (set_phy_enabled true).

Definition mxc_hdmi_phy_disable : hd unit :=
  h ← get_hdmi;
  if negb (phy_enabled (link h)) then mret tt
  else
    hdmi_writeb HDMI_MC_PHYRSTZ_DEASSERT HDMI_MC_PHYRSTZ;;
    mxc_hdmi_phy_enable_tmds 0;;
    mxc_hdmi_phy_enable_power 0;;
    mxc_hdmi_phy_gen2_txpwron 0;;
    mxc_hdmi_phy_gen2_pddq 1;;
    mod_hdmi (set_phy_enabled false).

(** The platform has both functions. *)
Definition hdmi_tx_hdcp_config : hd unit :=
  h ← get_hdmi; emit (Pins (ctrue (hdcp_enable (hdmi_data h)))).

(** ** Frames *)

(** [edid_mode] is the mode of the list nearest to the screen's; a list that is not
    empty has one, else NULL is dereferenced. *)
Definition aspect_16_9 (f : fb_info) : outcome bool :=
  match modelist f with
  | [] => Ret false
  | _ => edid_mode ← checked (fb_find_nearest_mode (fb_var_to_videomode (var f)) (modelist f));
         Ret (ctrue (vmode edid_mode .& FB_VMODE_ASPECT_16_9))
  end.

(** [colorimetry] and [ext_colorimetry] of the frame. *)
Definition avi_colorimetry (d : hdmi_data_info) : Z * Z :=
  if enc_out_format d =? XVYCC444 then
    (HDMI_FC_AVICONF1_COLORIMETRY_EXTENDED_INFO,
     if is_601 (colorimetry d) then HDMI_FC_AVICONF2_EXT_COLORIMETRY_XVYCC601
     else HDMI_FC_AVICONF2_EXT_COLORIMETRY_XVYCC709)
  else if negb (enc_out_format d =? RGB) then
    ((if is_601 (colorimetry d) then HDMI_FC_AVICONF1_COLORIMETRY_SMPTE else HDMI_FC_AVICONF1_COLORIMETRY_ITUR),
     HDMI_FC_AVICONF2_EXT_COLORIMETRY_XVYCC601)
  else (HDMI_FC_AVICONF1_COLORIMETRY_NO_DATA, HDMI_FC_AVICONF2_EXT_COLORIMETRY_XVYCC601).

Definition hdmi_config_AVI : hd unit :=
  h ← get_hdmi;
  f ← get_fbi;
  wide ← hd_lift (aspect_16_9 f);
  let d := hdmi_data h in
  let pix_fmt :=
    if enc_out_format d =? YCBCR444 then HDMI_FC_AVICONF0_PIX_FMT_YCBCR444
    else if enc_out_format d =? YCBCR422_8BITS then HDMI_FC_AVICONF0_PIX_FMT_YCBCR422
    else HDMI_FC_AVICONF0_PIX_FMT_RGB in
  let under_scan :=
    if ctrue (cea_underscan (cfg_cea (edid_cfg (disp h)))) then HDMI_FC_AVICONF0_SCAN_INFO_UNDERSCAN
    else HDMI_FC_AVICONF0_SCAN_INFO_NODATA in
  hdmi_writeb (pix_fmt .| under_scan .| HDMI_FC_AVICONF0_ACTIVE_FMT_INFO_PRESENT
    .| HDMI_FC_AVICONF0_BAR_DATA_NO_DATA) HDMI_FC_AVICONF0;;
  let act_ratio := if wide : bool then HDMI_FC_AVICONF1_ACTIVE_ASPECT_RATIO_16_9
                   else HDMI_FC_AVICONF1_ACTIVE_ASPECT_RATIO_4_3 in
  let coded_ratio := if wide : bool then HDMI_FC_AVICONF1_CODED_ASPECT_RATIO_16_9
                     else HDMI_FC_AVICONF1_CODED_ASPECT_RATIO_4_3 in
  let '(colorimetry, ext_colorimetry) := avi_colorimetry d in
  hdmi_writeb (colorimetry .| coded_ratio .| act_ratio) HDMI_FC_AVICONF1;;
  hdmi_writeb (HDMI_FC_AVICONF2_IT_CONTENT_NO_DATA .| ext_colorimetry .| HDMI_FC_AVICONF2_RGB_QUANT_DEFAULT
    .| HDMI_FC_AVICONF2_SCALING_NONE) HDMI_FC_AVICONF2;;
  hdmi_writeb (vic h) HDMI_FC_AVIVID;;
  hdmi_writeb
    (((u32 (mPixelRepetitionInput (video_mode d) + 1) ≪ HDMI_FC_PRCONF_INCOMING_PR_FACTOR_OFFSET)
        .& HDMI_FC_PRCONF_INCOMING_PR_FACTOR_MASK) .|
     ((mPixelRepetitionOutput (video_mode d) ≪ HDMI_FC_PRCONF_OUTPUT_PR_FACTOR_OFFSET)
        .& HDMI_FC_PRCONF_OUTPUT_PR_FACTOR_MASK)) HDMI_FC_PRCONF;;
  hdmi_writeb (HDMI_FC_AVICONF3_IT_CONTENT_TYPE_GRAPHICS .| HDMI_FC_AVICONF3_QUANT_RANGE_LIMITED) HDMI_FC_AVICONF3;;
  hdmi_writeb 0 HDMI_FC_AVIETB0;;
  hdmi_writeb 0 HDMI_FC_AVIETB1;;
  hdmi_writeb 0 HDMI_FC_AVISBB0;;
  hdmi_writeb 0 HDMI_FC_AVISBB1;;
  hdmi_writeb 0 HDMI_FC_AVIELB0;;
  hdmi_writeb 0 HDMI_FC_AVIELB1;;
  hdmi_writeb 0 HDMI_FC_AVISRB0;;
  hdmi_writeb 0 HDMI_FC_AVISRB1.

(** What the composer makes of the screen's mode. *)
Definition composed_vmode (m : fb_videomode) (v : hdmi_vmode) : hdmi_vmode :=
  mk_vmode (mDVI v)
    (ctrue (sync m .& FB_SYNC_HOR_HIGH_ACT)) (ctrue (sync m .& FB_SYNC_VERT_HIGH_ACT))
    (ctrue (vmode m .& FB_VMODE_INTERLACED)) (mDataEnablePolarity v)
    (u32 ((xres m + left_margin m + right_margin m + hsync_len m) *
          (yres m + upper_margin m + lower_margin m + vsync_len m) * refresh m))
    (mPixelRepetitionInput v) (mPixelRepetitionOutput v).

(** [inv_val] *)
Definition invidconf (d : hdmi_data_info) (vic : Z) : Z :=
  let v := video_mode d in
  (if ctrue (hdcp_enable d) then HDMI_FC_INVIDCONF_HDCP_KEEPOUT_ACTIVE else HDMI_FC_INVIDCONF_HDCP_KEEPOUT_INACTIVE)
  .| (if mVSyncPolarity v then HDMI_FC_INVIDCONF_VSYNC_IN_POLARITY_ACTIVE_HIGH
      else HDMI_FC_INVIDCONF_VSYNC_IN_POLARITY_ACTIVE_LOW)
  .| (if mHSyncPolarity v then HDMI_FC_INVIDCONF_HSYNC_IN_POLARITY_ACTIVE_HIGH
      else HDMI_FC_INVIDCONF_HSYNC_IN_POLARITY_ACTIVE_LOW)
  .| (if mDataEnablePolarity v then HDMI_FC_INVIDCONF_DE_IN_POLARITY_ACTIVE_HIGH
      else HDMI_FC_INVIDCONF_DE_IN_POLARITY_ACTIVE_LOW)
  .| (if vic =? 39 then HDMI_FC_INVIDCONF_R_V_BLANK_IN_OSC_ACTIVE_HIGH
      else if mInterlaced v then HDMI_FC_INVIDCONF_R_V_BLANK_IN_OSC_ACTIVE_HIGH
      else HDMI_FC_INVIDCONF_R_V_BLANK_IN_OSC_ACTIVE_LOW)
  .| (if mInterlaced v then HDMI_FC_INVIDCONF_IN_I_P_INTERLACED else HDMI_FC_INVIDCONF_IN_I_P_PROGRESSIVE)
  .| (if mDVI v then HDMI_FC_INVIDCONF_DVI_MODEZ_DVI_MODE else HDMI_FC_INVIDCONF_DVI_MODEZ_HDMI_MODE).

(** The timing of a mode, register by register. *)
Definition write_timing (m : fb_videomode) : hd unit :=
  hdmi_writeb (xres m ≫ 8) HDMI_FC_INHACTV1;;
  hdmi_writeb (xres m) HDMI_FC_INHACTV0;;
  hdmi_writeb (yres m ≫ 8) HDMI_FC_INVACTV1;;
  hdmi_writeb (yres m) HDMI_FC_INVACTV0;;
  let hblank := s32 (left_margin m + right_margin m + hsync_len m) in
  hdmi_writeb (hblank ≫ 8) HDMI_FC_INHBLANK1;;
  hdmi_writeb hblank HDMI_FC_INHBLANK0;;
  let vblank := s32 (upper_margin m + lower_margin m + vsync_len m) in
  hdmi_writeb vblank HDMI_FC_INVBLANK;;
  hdmi_writeb (right_margin m ≫ 8) HDMI_FC_HSYNCINDELAY1;;
  hdmi_writeb (right_margin m) HDMI_FC_HSYNCINDELAY0;;
  hdmi_writeb (lower_margin m) HDMI_FC_VSYNCINDELAY;;
  hdmi_writeb (hsync_len m ≫ 8) HDMI_FC_HSYNCINWIDTH1;;
  hdmi_writeb (hsync_len m) HDMI_FC_HSYNCINWIDTH0;;
  hdmi_writeb (vsync_len m) HDMI_FC_VSYNCINWIDTH.

Definition hdmi_av_composer : hd unit :=
  f ← get_fbi;
  let m := fb_var_to_videomode (var f) in
  mod_hdmi (fun h => put_hdmi_data (put_video_mode (composed_vmode m (video_mode (hdmi_data h))) (hdmi_data h)) h);;
  h ← get_hdmi;
  hdmi_writeb (invidconf (hdmi_data h) (vic h)) HDMI_FC_INVIDCONF;;
  write_timing m.

(** ** Paths, clocks and interrupts *)

Definition mxc_hdmi_enable_video_path : hd unit :=
  h ← get_hdmi;
  hdmi_writeb 12 HDMI_FC_CTRLDUR;;
  hdmi_writeb 32 HDMI_FC_EXCTRLDUR;;
  hdmi_writeb 1 HDMI_FC_EXCTRLSPAC;;
  hdmi_writeb 0x0B HDMI_FC_CH0PREAM;;
  hdmi_writeb 0x16 HDMI_FC_CH1PREAM;;
  hdmi_writeb 0x21 HDMI_FC_CH2PREAM;;
  let clkdis := u8 (0x7F .& Z.lnot HDMI_MC_CLKDIS_PIXELCLK_DISABLE) in
  hdmi_writeb clkdis HDMI_MC_CLKDIS;;
  let clkdis := u8 (clkdis .& Z.lnot HDMI_MC_CLKDIS_TMDSCLK_DISABLE) in
  hdmi_writeb clkdis HDMI_MC_CLKDIS;;
  if isColorSpaceConversion (hdmi_data h)
  then hdmi_writeb (clkdis .& Z.lnot HDMI_MC_CLKDIS_CSCCLK_DISABLE) HDMI_MC_CLKDIS
  else mret tt.

Definition hdmi_enable_audio_clk : hd unit := change_bits HDMI_MC_CLKDIS HDMI_MC_CLKDIS_AUDCLK_DISABLE 0.

(** [count] writes of the same value. *)
Fixpoint write_again (count : nat) (val : Z) (r : hreg) : hd unit :=
  match count with O => mret tt | S count => hdmi_writeb val r;; write_again count val r end.

Definition mxc_hdmi_clear_overflow (cpu_is_mx6dl : bool) : hd unit :=
  hdmi_writeb (Z.lnot HDMI_MC_SWRSTZ_TMDSSWRST_REQ) HDMI_MC_SWRSTZ;;
  val ← hdmi_readb HDMI_FC_INVIDCONF;
  if cpu_is_mx6dl then hdmi_writeb val HDMI_FC_INVIDCONF else write_again 5 val HDMI_FC_INVIDCONF.

Definition hdmi_enable_overflow_interrupts : hd unit :=
  hdmi_writeb 0 HDMI_FC_MASK2;; hdmi_writeb 0 HDMI_IH_MUTE_FC_STAT2.

Definition hdmi_disable_overflow_interrupts : hd unit :=
  hdmi_writeb HDMI_IH_MUTE_FC_STAT2_OVERFLOW_MASK HDMI_IH_MUTE_FC_STAT2;; hdmi_writeb 0xff HDMI_FC_MASK2.
End transmitter.

(** ** What an operation changes

    [wp m Q w]: [m] returns from [w], with a result and a world that satisfy [Q]. *)

Section reasoning.
Context {FB : fb_h} {FL : fb_lib} {HH : hdmi_h} {HC : hdmi_core}.

Definition wp {A} (m : hd A) (Q : A -> world -> Prop) (w : world) : Prop :=
  match m w with Ret (a, w') => Q a w' | _ => False end.

Lemma hwp_ret {A} (a : A) Q w : Q a w -> wp (mret a) Q w.
Proof. done. Qed.

Lemma hwp_bind {A B} (m : hd A) (k : A -> hd B) Q w : wp m (fun a => wp (k a) Q) w -> wp (m ≫= k) Q w.
Proof. unfold wp, mbind, hd_bind, outcome_bind. by destruct (m w) as [[a w']| | |]. Qed.

Lemma hwp_mono {A} (m : hd A) (P Q : A -> world -> Prop) w : wp m P w -> (forall a w', P a w' -> Q a w') -> wp m Q w.
Proof. unfold wp. destruct (m w) as [[a w']| | |]; auto. Qed.

Lemma wp_ret_inv {A} (m : hd A) Q w a w' : wp m Q w -> m w = Ret (a, w') -> Q a w'.
Proof. unfold wp. by intros H E; rewrite E in H. Qed.

(** After a write. *)
Definition written (v : Z) (r : hreg) (w : world) : world :=
  mk_world (upd r (u8 v) (regs w)) (ticks w) (hdmi w) (fbi w) (events w ++ [Wr (u8 v) r]).

Lemma wp_writeb v r (Q : unit -> world -> Prop) w : Q tt (written v r w) -> wp (hdmi_writeb v r) Q w.
Proof. done. Qed.

(** Not an event for the user, nor a resource. *)
Definition is_quiet (e : hdmi_event) : bool :=
  match e with Uevent _ | Take _ | Drop _ => false | _ => true end.

(** From [w] to [w'], only registers of [K] and the count of readings change, with
    quiet events. *)
Definition frame (K : hreg -> bool) (w w' : world) : Prop :=
  hdmi w' = hdmi w /\ fbi w' = fbi w /\ (forall r, K r = false -> regs w' r = regs w r) /\
  exists l, events w' = events w ++ l /\ Forall (fun e => is_quiet e = true) l.

#[export] Instance frame_refl K : Reflexive (frame K).
Proof. intros w. split_and!; [done..|]. exists []. by rewrite app_nil_r. Qed.

#[export] Instance frame_trans K : Transitive (frame K).
Proof.
  intros w1 w2 w3 (H1 & F1 & R1 & l1 & E1 & W1) (H2 & F2 & R2 & l2 & E2 & W2). split_and!.
  - by rewrite H2. - by rewrite F2. - intros r Hr. by rewrite R2, R1.
  - exists (l1 ++ l2). rewrite E2, E1, app_assoc. split; [done|by apply Forall_app].
Qed.

Lemma frame_mono K K' w w' : (forall r, K r = true -> K' r = true) -> frame K w w' -> frame K' w w'.
Proof.
  intros HK (H & F & R & E). split_and!; [done..| |done]. intros r Hr. apply R.
  destruct (K r) eqn:Ek; [|done]. by rewrite (HK r Ek) in Hr.
Qed.

(** [m] returns and stays in the frame. *)
Definition framed {A} (K : hreg -> bool) (m : hd A) : Prop := forall w, wp m (fun _ w' => frame K w w') w.

Lemma framed_mono {A} K K' (m : hd A) : (forall r, K r = true -> K' r = true) -> framed K m -> framed K' m.
Proof. intros HK Hm w. eapply hwp_mono; [apply Hm|]. intros a w'. by apply frame_mono. Qed.

Lemma framed_ret {A} K (a : A) : framed K (mret a).
Proof. intros w. apply hwp_ret. reflexivity. Qed.

Lemma framed_bind {A B} K (m : hd A) (k : A -> hd B) :
  framed K m -> (forall a, framed K (k a)) -> framed K (m ≫= k).
Proof.
  intros Hm Hk w. apply hwp_bind. eapply hwp_mono; [apply Hm|]. cbn. intros a w1 H1.
  eapply hwp_mono; [apply Hk|]. cbn. intros b w2 H2. by etransitivity.
Qed.

Lemma framed_get_hdmi K : framed K get_hdmi.
Proof. intros w. unfold wp. cbn. reflexivity. Qed.

Lemma framed_get_fbi K : framed K get_fbi.
Proof. intros w. unfold wp. cbn. reflexivity. Qed.

Lemma framed_readb K r : framed K (hdmi_readb r).
Proof.
  intros w. unfold wp, hdmi_readb. destruct (is_status r); [|reflexivity].
  split_and!; [done..|]. exists []. by rewrite app_nil_r.
Qed.

Lemma framed_writeb (K : hreg -> bool) v r : K r = true -> framed K (hdmi_writeb v r).
Proof.
  intros Hk w. unfold wp, hdmi_writeb. split_and!; [done..| |].
  - intros r' Hr. cbn. apply upd_ne. intros ->. congruence.
  - exists [Wr (u8 v) r]. split; [done|by constructor].
Qed.

Lemma framed_emit K e : is_quiet e = true -> framed K (emit e).
Proof. intros He w. unfold wp, emit. split_and!; [done..|]. exists [e]. split; [done|by constructor]. Qed.

Lemma framed_change_bits (K : hreg -> bool) r m b : K r = true -> framed K (change_bits r m b).
Proof. intros Hk. apply framed_bind; [apply framed_readb|]. intros. by apply framed_writeb. Qed.

Lemma framed_mask_writeb (K : hreg -> bool) d r s m : K r = true -> framed K (hdmi_mask_writeb d r s m).
Proof. intros Hk. apply framed_bind; [apply framed_readb|]. intros. by apply framed_writeb. Qed.

(** The wait ends, whatever the device answers. *)
Lemma framed_wait_bits K r m n : framed K (wait_bits r m n).
Proof.
  induction n as [|n IH]; cbn [wait_bits]; (apply framed_bind; [apply framed_readb|]); intros v;
    destruct (ctrue _); try apply framed_ret. apply IH.
Qed.

Lemma framed_write_again (K : hreg -> bool) n v r : K r = true -> framed K (write_again n v r).
Proof.
  intros Hk. induction n as [|n IH]; cbn [write_again]; [apply framed_ret|].
  apply framed_bind; [by apply framed_writeb|done].
Qed.
End reasoning.

Create HintDb framed discriminated.
#[export] Hint Resolve framed_ret framed_get_hdmi framed_get_fbi framed_readb framed_wait_bits : framed.

(** Follow the code, one operation at a time. *)
Ltac framed_step :=
  match goal with
  | |- framed _ (_ ≫= _) => apply framed_bind; [|intros ?]
  | |- framed _ (hdmi_writeb _ _) => apply framed_writeb; reflexivity
  | |- framed _ (emit _) => apply framed_emit; reflexivity
  | |- framed _ (change_bits _ _ _) => apply framed_change_bits; reflexivity
  | |- framed _ (hdmi_mask_writeb _ _ _ _) => apply framed_mask_writeb; reflexivity
  | |- framed _ (write_again _ _ _) => apply framed_write_again; reflexivity
  | |- framed _ (if ?b then _ else _) => destruct b
  | |- framed _ (match ?x with _ => _ end) => destruct x
  | |- _ => solve [eauto with framed]
  end.
Ltac framed := repeat (cbv beta zeta; framed_step).

(** ** The registers of each part *)

Definition sample_regs (r : hreg) : bool :=
  match r with
  | HDMI_TX_INVID0 | HDMI_TX_INSTUFFING | HDMI_TX_GYDATA0 | HDMI_TX_GYDATA1 | HDMI_TX_RCRDATA0
  | HDMI_TX_RCRDATA1 | HDMI_TX_BCBDATA0 | HDMI_TX_BCBDATA1 => true
  | _ => false
  end.

Definition csc_regs (r : hreg) : bool :=
  match r with
  | HDMI_CSC_CFG | HDMI_CSC_SCALE => true
  | _ => existsb (fun '(lsb, msb) => bool_decide (r = lsb) || bool_decide (r = msb)) csc_registers
  end.

Definition packet_regs (r : hreg) : bool :=
  match r with HDMI_VP_PR_CD | HDMI_VP_STUFF | HDMI_VP_CONF | HDMI_VP_REMAP => true | _ => false end.

Definition phy_regs (r : hreg) : bool :=
  match r with
  | HDMI_MC_FLOWCTRL | HDMI_MC_PHYRSTZ | HDMI_MC_HEACPHY_RST | HDMI_PHY_TST0 | HDMI_PHY_I2CM_SLAVE_ADDR
  | HDMI_IH_I2CMPHY_STAT0 | HDMI_PHY_I2CM_ADDRESS_ADDR | HDMI_PHY_I2CM_DATAO_1_ADDR
  | HDMI_PHY_I2CM_DATAO_0_ADDR | HDMI_PHY_I2CM_OPERATION_ADDR | HDMI_PHY_CONF0 => true
  | _ => false
  end.

(** Those, the power bits apart. *)
Definition phy_setup_regs (r : hreg) : bool :=
  match r with HDMI_PHY_CONF0 => false | _ => phy_regs r end.

Definition avi_regs (r : hreg) : bool :=
  match r with
  | HDMI_FC_AVICONF0 | HDMI_FC_AVICONF1 | HDMI_FC_AVICONF2 | HDMI_FC_AVIVID | HDMI_FC_PRCONF
  | HDMI_FC_AVICONF3 | HDMI_FC_AVIETB0 | HDMI_FC_AVIETB1 | HDMI_FC_AVISBB0 | HDMI_FC_AVISBB1
  | HDMI_FC_AVIELB0 | HDMI_FC_AVIELB1 | HDMI_FC_AVISRB0 | HDMI_FC_AVISRB1 => true
  | _ => false
  end.

Definition timing_regs (r : hreg) : bool :=
  match r with
  | HDMI_FC_INVIDCONF | HDMI_FC_INHACTV1 | HDMI_FC_INHACTV0 | HDMI_FC_INVACTV1 | HDMI_FC_INVACTV0
  | HDMI_FC_INHBLANK1 | HDMI_FC_INHBLANK0 | HDMI_FC_INVBLANK | HDMI_FC_HSYNCINDELAY1
  | HDMI_FC_HSYNCINDELAY0 | HDMI_FC_VSYNCINDELAY | HDMI_FC_HSYNCINWIDTH1 | HDMI_FC_HSYNCINWIDTH0
  | HDMI_FC_VSYNCINWIDTH => true
  | _ => false
  end.

Definition path_regs (r : hreg) : bool :=
  match r with
  | HDMI_FC_CTRLDUR | HDMI_FC_EXCTRLDUR | HDMI_FC_EXCTRLSPAC | HDMI_FC_CH0PREAM | HDMI_FC_CH1PREAM
  | HDMI_FC_CH2PREAM | HDMI_MC_CLKDIS => true
  | _ => false
  end.

Definition overflow_regs (r : hreg) : bool :=
  match r with HDMI_FC_MASK2 | HDMI_IH_MUTE_FC_STAT2 => true | _ => false end.

(** ** Lemmas: frames *)

Section frames.
Context {FB : fb_h} {FL : fb_lib} {HH : hdmi_h} {HC : hdmi_core}.

Lemma hdmi_video_sample_framed : framed sample_regs hdmi_video_sample.
Proof. unfold hdmi_video_sample. framed. Qed.

Lemma update_csc_coeffs_framed : framed csc_regs update_csc_coeffs.
Proof.
  unfold update_csc_coeffs. framed.
  assert (forall rs cs, forallb (fun '(lsb, msb) => csc_regs lsb && csc_regs msb) rs = true ->
    framed csc_regs (write_words rs cs)) as Hw.
  { induction rs as [|[lsb msb] rs IH]; intros cs Hr; cbn [write_words]; [apply framed_ret|].
    destruct cs as [|c cs]; [apply framed_ret|]. cbn in Hr. zbool.
    apply framed_bind; [by apply framed_writeb|intros _]. apply framed_bind; [by apply framed_writeb|intros _].
    by apply IH. }
  by apply Hw.
Qed.

Lemma hdmi_video_csc_framed : framed csc_regs hdmi_video_csc.
Proof. pose proof update_csc_coeffs_framed. unfold hdmi_video_csc. framed. Qed.

Lemma hdmi_video_packetize_framed : framed packet_regs hdmi_video_packetize.
Proof. unfold hdmi_video_packetize. framed. Qed.

Lemma hdmi_phy_i2c_write_framed d a : framed phy_setup_regs (hdmi_phy_i2c_write d a).
Proof. unfold hdmi_phy_i2c_write, hdmi_phy_wait_i2c_done. framed. Qed.

Lemma phy_mpll_framed c r : framed phy_setup_regs (phy_mpll c r).
Proof. pose proof hdmi_phy_i2c_write_framed. unfold phy_mpll, phy_mpll_case. framed. Qed.

Lemma phy_current_framed c r : framed phy_setup_regs (phy_current c r).
Proof. pose proof hdmi_phy_i2c_write_framed. unfold phy_current, phy_current_case. framed. Qed.

Lemma phy_common_framed c cfg : framed phy_setup_regs (phy_common c cfg).
Proof. pose proof hdmi_phy_i2c_write_framed. unfold phy_common. framed. Qed.

Lemma phy_setup_sub r : phy_setup_regs r = true -> phy_regs r = true.
Proof. by destruct r. Qed.

Lemma phy_reset_framed b : framed phy_regs (phy_reset b).
Proof. unfold phy_reset, hdmi_phy_test_clear, mxc_hdmi_phy_gen2_txpwron, mxc_hdmi_phy_gen2_pddq. framed. Qed.

Lemma phy_power_up_framed : framed phy_regs phy_power_up.
Proof.
  unfold phy_power_up, mxc_hdmi_phy_enable_power, mxc_hdmi_phy_enable_tmds, mxc_hdmi_phy_gen2_txpwron,
    mxc_hdmi_phy_gen2_pddq. framed.
Qed.

Lemma hdmi_phy_configure_framed p c b : framed phy_regs (hdmi_phy_configure p c b).
Proof.
  assert (forall c r, framed phy_regs (phy_mpll c r)) by
    (intros; eapply framed_mono; [apply phy_setup_sub|apply phy_mpll_framed]).
  assert (forall c r, framed phy_regs (phy_current c r)) by
    (intros; eapply framed_mono; [apply phy_setup_sub|apply phy_current_framed]).
  assert (forall c cfg, framed phy_regs (phy_common c cfg)) by
    (intros; eapply framed_mono; [apply phy_setup_sub|apply phy_common_framed]).
  pose proof phy_reset_framed. pose proof phy_power_up_framed. unfold hdmi_phy_configure. framed.
Qed.

Lemma phy_round_framed b : framed phy_regs (phy_round b).
Proof.
  pose proof hdmi_phy_configure_framed. unfold phy_round, mxc_hdmi_phy_sel_data_en_pol,
    mxc_hdmi_phy_sel_interface_control, mxc_hdmi_phy_enable_tmds, mxc_hdmi_phy_enable_power. framed.
Qed.

Lemma mxc_hdmi_enable_video_path_framed : framed path_regs mxc_hdmi_enable_video_path.
Proof. unfold mxc_hdmi_enable_video_path. framed. Qed.

Lemma hdmi_enable_audio_clk_framed : framed path_regs hdmi_enable_audio_clk.
Proof. unfold hdmi_enable_audio_clk. framed. Qed.

Lemma hdmi_tx_hdcp_config_framed K : framed K hdmi_tx_hdcp_config.
Proof. unfold hdmi_tx_hdcp_config. framed. Qed.

Lemma hdmi_enable_overflow_interrupts_framed : framed overflow_regs hdmi_enable_overflow_interrupts.
Proof. unfold hdmi_enable_overflow_interrupts. framed. Qed.

Lemma hdmi_disable_overflow_interrupts_framed : framed overflow_regs hdmi_disable_overflow_interrupts.
Proof. unfold hdmi_disable_overflow_interrupts. framed. Qed.

(** The list of modes is searched when it is not empty. *)
Lemma aspect_16_9_framed `{!fb_lib_laws} K f : framed K (hd_lift (aspect_16_9 f)).
Proof.
  intros w. unfold wp, hd_lift, aspect_16_9. destruct (modelist f) as [|m l]; [cbn; reflexivity|].
  destruct (nearest_some (fb_var_to_videomode (var f)) (m :: l)) as [x Ex]; [done|]. rewrite Ex.
  unfold mbind, outcome_bind. cbn. reflexivity.
Qed.

Lemma hdmi_config_AVI_framed `{!fb_lib_laws} : framed avi_regs hdmi_config_AVI.
Proof. pose proof aspect_16_9_framed. unfold hdmi_config_AVI. framed. Qed.
End frames.

(** ** Lemmas: the power of the PHY *)

Section power.
Context {FB : fb_h} {FL : fb_lib} `{HL : hdmi_h_laws} `{CL : hdmi_core_laws}.

Definition conf0_bit (offset : Z) (f : regfile) : bool := Z.testbit (f HDMI_PHY_CONF0) offset.

(** Powered down, nothing on the lines. *)
Definition phy_off (f : regfile) : Prop :=
  conf0_bit HDMI_PHY_CONF0_ENTMDS_OFFSET f = false /\ conf0_bit HDMI_PHY_CONF0_PDZ_OFFSET f = false /\
  conf0_bit HDMI_PHY_CONF0_GEN2_TXPWRON_OFFSET f = false /\ conf0_bit HDMI_PHY_CONF0_GEN2_PDDQ_OFFSET f = true.

Definition phy_on (f : regfile) : Prop :=
  conf0_bit HDMI_PHY_CONF0_ENTMDS_OFFSET f = true /\ conf0_bit HDMI_PHY_CONF0_PDZ_OFFSET f = true /\
  conf0_bit HDMI_PHY_CONF0_GEN2_TXPWRON_OFFSET f = true /\ conf0_bit HDMI_PHY_CONF0_GEN2_PDDQ_OFFSET f = false.

Lemma u8_testbit x i : 0 <= i < 8 -> Z.testbit (u8 x) i = Z.testbit x i.
Proof. intros Hi. unfold u8. by rewrite Z.mod_pow2_bits_low by lia. Qed.

(** The bit at [o'] after the field at [o] was written. *)
Lemma masked_bit (d old o o' : Z) :
  d = 0 \/ d = 1 -> 0 <= o < 8 -> 0 <= o' < 8 ->
  Z.testbit (u8 (masked d old o (2 ^ o))) o' = if decide (o' = o) then d =? 1 else Z.testbit old o'.
Proof.
  intros Hd Ho Ho'. rewrite u8_testbit by done. rewrite masked_value.
  rewrite Z.lor_spec, !Z.land_spec, Z.lnot_spec, Z.shiftl_spec, Z.pow2_bits_eqb by lia.
  destruct (decide (o' = o)) as [->|Hne].
  - rewrite Z.eqb_refl, Z.sub_diag, andb_false_r. destruct Hd as [-> | ->]; reflexivity.
  - rewrite (proj2 (Z.eqb_neq o o')) by done. by rewrite andb_true_r, andb_false_r, orb_false_r.
Qed.

(** A field of [HDMI_PHY_CONF0]. *)
Lemma conf0_field o m : (o, m) ∈ phy_conf0_fields -> 0 <= o < 8 /\ m = 2 ^ o.
Proof. intros Hin. exact (proj1 (Forall_forall _ _) conf0_bits _ Hin). Qed.

(** Setting one: its bit is the data, the bits of other fields are kept, and nothing
    else changes. *)
Lemma wp_conf0 d o m w :
  d = 0 \/ d = 1 -> (o, m) ∈ phy_conf0_fields ->
  wp (hdmi_mask_writeb d HDMI_PHY_CONF0 o m) (fun _ w' =>
    frame phy_regs w w' /\
    forall o' m', (o', m') ∈ phy_conf0_fields ->
      conf0_bit o' (regs w') = if decide (o' = o) then d =? 1 else conf0_bit o' (regs w)) w.
Proof.
  intros Hd Hin. destruct (conf0_field o m Hin) as [Ho ->].
  assert (framed phy_regs (hdmi_mask_writeb d HDMI_PHY_CONF0 o (2 ^ o))) as Hf by (by apply framed_mask_writeb).
  specialize (Hf w). unfold wp in *. cbn in *. split; [exact Hf|].
  intros o' m' Hin'. destruct (conf0_field o' m' Hin') as [Ho' _]. unfold conf0_bit. cbn.
  rewrite upd_eq. by apply masked_bit.
Qed.

(** Two fields are the same when their offsets are: the offsets are distinct. *)
Lemma conf0_offsets (i j : nat) oi oj mi mj :
  phy_conf0_fields !! i = Some (oi, mi) -> phy_conf0_fields !! j = Some (oj, mj) -> i <> j -> oi <> oj.
Proof.
  intros Hi Hj Hne ->. apply Hne. apply (NoDup_lookup _ _ _ oj conf0_distinct); rewrite list_lookup_fmap.
  - by rewrite Hi. - by rewrite Hj.
Qed.

(** The four power bits: power, lines, sleep, transmitter. *)
Definition power_bits (f : regfile) : bool * bool * bool * bool :=
  (conf0_bit HDMI_PHY_CONF0_PDZ_OFFSET f, conf0_bit HDMI_PHY_CONF0_ENTMDS_OFFSET f,
   conf0_bit HDMI_PHY_CONF0_GEN2_PDDQ_OFFSET f, conf0_bit HDMI_PHY_CONF0_GEN2_TXPWRON_OFFSET f).

Lemma phy_off_bits f : phy_off f <-> power_bits f = (false, false, true, false).
Proof. unfold phy_off, power_bits. split; [by intros (-> & -> & -> & ->)|by intros [= -> -> -> ->]]. Qed.

Lemma phy_on_bits f : phy_on f <-> power_bits f = (true, true, false, true).
Proof. unfold phy_on, power_bits. split; [by intros (-> & -> & -> & ->)|by intros [= -> -> -> ->]]. Qed.

(** What one write to a field makes of the power bits; [i] is the field's place in the
    list. *)
Definition write_bit (i : nat) (b : bool) (p : bool * bool * bool * bool) : bool * bool * bool * bool :=
  let '(pdz, tmds, pddq, tx) := p in
  match i with
  | 0%nat => (b, tmds, pddq, tx) | 1%nat => (pdz, b, pddq, tx) | 2%nat => (pdz, tmds, b, tx)
  | 3%nat => (pdz, tmds, pddq, b) | _ => p
  end.

Lemma wp_power_bit (i : nat) d o m w :
  d = 0 \/ d = 1 -> phy_conf0_fields !! i = Some (o, m) ->
  wp (hdmi_mask_writeb d HDMI_PHY_CONF0 o m) (fun _ w' =>
    frame phy_regs w w' /\ power_bits (regs w') = write_bit i (d =? 1) (power_bits (regs w))) w.
Proof.
  intros Hd Hi. eapply hwp_mono; [apply wp_conf0; [done|by eapply list_elem_of_lookup_2]|].
  cbn beta. intros _ w' [Hf Hb]. split; [done|].
  assert (forall j oj mj, phy_conf0_fields !! j = Some (oj, mj) ->
    conf0_bit oj (regs w') = if decide (i = j) then d =? 1 else conf0_bit oj (regs w)) as Hj.
  { intros j oj mj Ej. rewrite (Hb oj mj) by (by eapply list_elem_of_lookup_2).
    destruct (decide (i = j)) as [<-|Hne].
    - rewrite Hi in Ej. injection Ej as -> ->. by rewrite decide_True.
    - rewrite decide_False; [done|]. intros ->. by eapply (conf0_offsets i j). }
  unfold power_bits. rewrite (Hj 0%nat _ _ eq_refl), (Hj 1%nat _ _ eq_refl), (Hj 2%nat _ _ eq_refl),
    (Hj 3%nat _ _ eq_refl).
  destruct i as [|[|[|[|i]]]]; reflexivity.
Qed.

(** The power bits are untouched outside [HDMI_PHY_CONF0]. *)
Lemma frame_power_bits K w w' : K HDMI_PHY_CONF0 = false -> frame K w w' -> power_bits (regs w') = power_bits (regs w).
Proof. intros Hk (_ & _ & R & _). unfold power_bits, conf0_bit. by rewrite R. Qed.

Lemma wp_framed {A} K (m : hd A) Q w : framed K m -> (forall a w', frame K w w' -> Q a w') -> wp m Q w.
Proof. intros Hm HQ. eapply hwp_mono; [apply Hm|]. cbn beta. auto. Qed.

(** Follow the bits through a sequence of operations. *)
Definition bits_to {A} (p q : bool * bool * bool * bool) (m : hd A) : Prop :=
  forall w, power_bits (regs w) = p -> wp m (fun _ w' => power_bits (regs w') = q) w.

Lemma bits_bind {A B} p q r (m : hd A) (k : A -> hd B) :
  bits_to p q m -> (forall a, bits_to q r (k a)) -> bits_to p r (m ≫= k).
Proof.
  intros Hm Hk w Hw. apply hwp_bind. eapply hwp_mono; [by apply Hm|]. cbn beta. intros a w' Hw'. by apply Hk.
Qed.

Lemma bits_ret {A} p (a : A) : bits_to p p (mret a).
Proof. intros w Hw. by apply hwp_ret. Qed.

Lemma bits_framed {A} K p (m : hd A) : K HDMI_PHY_CONF0 = false -> framed K m -> bits_to p p m.
Proof.
  intros Hk Hm w Hw. eapply wp_framed; [done|]. intros a w' Hf. by rewrite (frame_power_bits K w w').
Qed.

Lemma bits_write (i : nat) d o m p :
  d = 0 \/ d = 1 -> phy_conf0_fields !! i = Some (o, m) ->
  bits_to p (write_bit i (d =? 1) p) (hdmi_mask_writeb d HDMI_PHY_CONF0 o m).
Proof.
  intros Hd Hi w Hw. eapply hwp_mono; [by apply (wp_power_bit i)|]. cbn beta. intros _ w' [_ ->]. by rewrite Hw.
Qed.

(** The clock that the transmitter is asked for. *)
Definition clock_of (h : mxc_hdmi) : Z := mPixelClock (video_mode (hdmi_data h)).

(** The highest that it can make. *)
Definition MAX_CLOCK : Z := 216000000.

Lemma bits_phy_reset b pdz tmds pddq tx : bits_to (pdz, tmds, pddq, tx) (pdz, tmds, true, false) (phy_reset b).
Proof.
  unfold phy_reset.
  eapply bits_bind; [by apply (bits_framed phy_setup_regs); [|framed]|intros _].
  eapply bits_bind; [apply (bits_write 3); auto|intros _].
  eapply bits_bind; [apply (bits_write 2); auto|intros _].
  apply (bits_framed phy_setup_regs); [done|]. unfold hdmi_phy_test_clear. framed.
Qed.

Lemma bits_phy_power_up pdz tmds pddq tx :
  bits_to (pdz, tmds, pddq, tx) (true, true, false, true) phy_power_up.
Proof.
  unfold phy_power_up.
  eapply bits_bind; [apply (bits_write 0); auto|intros _].
  eapply bits_bind; [apply (bits_write 1); auto|intros _].
  eapply bits_bind; [apply (bits_write 1); auto|intros _].
  eapply bits_bind; [apply (bits_write 3); auto|intros _].
  eapply bits_bind; [apply (bits_write 2); auto|intros _].
  apply (bits_framed phy_setup_regs); [done|]. framed.
Qed.

(** [m] gives [b], whatever the device answers. *)
Definition yields {A} (K : hreg -> bool) (m : hd A) (b : A) : Prop :=
  forall w, wp m (fun a w' => a = b /\ frame K w w') w.

Lemma yields_after {A B} K (m : hd A) (k : A -> hd B) b :
  framed K m -> (forall a, yields K (k a) b) -> yields K (m ≫= k) b.
Proof.
  intros Hm Hk w. apply hwp_bind. eapply wp_framed; [done|]. intros a w1 H1.
  eapply hwp_mono; [apply Hk|]. cbn beta. intros x w2 [-> H2]. split; [done|by etransitivity].
Qed.

Lemma yields_ret {A} K (a : A) : yields K (mret a) a.
Proof. intros w. apply hwp_ret. split; [done|reflexivity]. Qed.

Lemma yields_writes K d1 a1 d2 a2 (b : bool) :
  (forall d a, framed K (hdmi_phy_i2c_write d a)) ->
  yields K (hdmi_phy_i2c_write d1 a1;; hdmi_phy_i2c_write d2 a2;; mret b) b.
Proof. intros Hw. do 2 (apply yields_after; [apply Hw|intros _]). apply yields_ret. Qed.

(** The resolutions that the function gets past its first test with. *)
Definition resolution_ok (cRes : Z) : Prop := cRes = 8 \/ cRes = 12.

(** What the tables support. *)
Definition mpll_supports (clock cRes : Z) : bool := (cRes =? 8) || (clock <=? 45250000).

Lemma phy_mpll_yields clock cRes :
  resolution_ok cRes -> yields phy_setup_regs (phy_mpll clock cRes) (mpll_supports clock cRes).
Proof.
  pose proof hdmi_phy_i2c_write_framed as Hw. unfold phy_mpll, phy_mpll_case, mpll_supports.
  intros [-> | ->]; cbn [Z.eqb Pos.eqb orb]; repeat case_match; apply yields_writes; done.
Qed.

Lemma phy_current_yields clock cRes :
  resolution_ok cRes -> yields phy_setup_regs (phy_current clock cRes) (clock <=? MAX_CLOCK).
Proof.
  pose proof hdmi_phy_i2c_write_framed as Hw. unfold phy_current, phy_current_case, MAX_CLOCK.
  intros [-> | ->]; cbn [Z.eqb Pos.eqb]; repeat case_match; zbool; try lia;
    first [replace (clock <=? 216000000) with true by lia|replace (clock <=? 216000000) with false by lia];
    try (apply yields_after; [apply Hw|intros _]); apply yields_ret.
Qed.

(** What the wait finds, with a device that is always ready and with one that never is. *)
Lemma wp_wait_bits r m n (b : bool) w :
  is_status r = true -> (forall k f, ctrue (u8 (status k f r) .& m) = b) ->
  wp (wait_bits r m n) (fun x _ => x = b) w.
Proof.
  intros Hr Hd. revert w. induction n as [|n IH]; intros w; cbn [wait_bits]; apply hwp_bind;
    unfold wp at 1, hdmi_readb; rewrite Hr, Hd; destruct b; by apply hwp_ret.
Qed.

Lemma wp_conj {A} (m : hd A) P Q w : wp m P w -> wp m Q w -> wp m (fun a w' => P a w' /\ Q a w') w.
Proof. unfold wp. destruct (m w) as [[a w']| | |]; auto. Qed.

(** Starting the PHY. *)
Definition phy_supports (clock cRes : Z) : bool := mpll_supports clock cRes && (clock <=? MAX_CLOCK).

Definition locks (r : bool) : Prop :=
  forall x, (forall k f, ctrue (u8 (status k f HDMI_PHY_STAT0) .& HDMI_PHY_TX_PHY_LOCK) = x) -> r = x.

Lemma wp_all {A X} (m : hd A) (P : X -> Prop) (Q : X -> A -> world -> Prop) w :
  wp m (fun _ _ => True) w -> (forall x, P x -> wp m (Q x) w) -> wp m (fun a w' => forall x, P x -> Q x a w') w.
Proof. unfold wp. destruct (m w) as [[a w']| | |]; auto. Qed.

Lemma wp_skip {A B} K (m : hd A) (k : A -> hd B) (Q : B -> world -> Prop) w :
  framed K m -> (forall a w', wp (k a) Q w') -> wp (m ≫= k) Q w.
Proof. intros Hm Hk. apply hwp_bind. eapply wp_framed; [done|]. auto. Qed.

Lemma wp_phy_power_up w :
  wp phy_power_up (fun r w' => power_bits (regs w') = (true, true, false, true) /\ locks r) w.
Proof.
  apply wp_conj.
  - destruct (power_bits (regs w)) as [[[pdz tmds] pddq] tx] eqn:E. by apply (bits_phy_power_up pdz tmds pddq tx).
  - unfold phy_power_up, locks. do 5 (apply (wp_skip phy_regs); [by apply framed_mask_writeb|]; intros _ ?w).
    apply (wp_all _ _ (fun (x r : bool) _ => r = x)).
    + eapply hwp_mono; [apply (framed_wait_bits phy_regs)|done].
    + intros x Hx. by apply wp_wait_bits.
Qed.

Lemma wp_configure cRes b w :
  resolution_ok cRes ->
  wp (hdmi_phy_configure 0 cRes b) (fun r w' =>
    frame phy_regs w w' /\
    if phy_supports (clock_of (hdmi w)) cRes
    then power_bits (regs w') = (true, true, false, true) /\ locks r
    else let '(pdz, tmds, _, _) := power_bits (regs w) in
         power_bits (regs w') = (pdz, tmds, true, false) /\ r = false) w.
Proof.
  intros Hr. apply wp_conj; [apply hdmi_phy_configure_framed|].
  destruct (power_bits (regs w)) as [[[pdz tmds] pddq] tx] eqn:E.
  assert ((if cRes =? 0 then 8 else cRes) = cRes) as Hc by (by destruct Hr as [-> | ->]).
  assert (negb (cRes =? 8) && negb (cRes =? 12) = false) as Hc' by (by destruct Hr as [-> | ->]).
  unfold hdmi_phy_configure. rewrite Hc, Hc'. cbn [Z.eqb negb]. apply hwp_bind. unfold wp at 1. cbn [get_hdmi].
  fold (clock_of (hdmi w)). set (clock := clock_of (hdmi w)). set (cfg := h_phy_config (setting (hdmi w))).
  apply hwp_bind. eapply hwp_mono; [by apply (bits_phy_reset b pdz tmds pddq tx)|]. cbn beta. intros _ w1 E1.
  apply hwp_bind. eapply hwp_mono; [by apply phy_mpll_yields|]. cbn beta. intros x w2 [-> F2].
  assert (power_bits (regs w2) = (pdz, tmds, true, false)) as E2 by (by rewrite (frame_power_bits phy_setup_regs w1 w2)).
  unfold phy_supports. destruct (mpll_supports clock cRes); cbn [negb andb]; [|by apply hwp_ret].
  apply hwp_bind. eapply hwp_mono; [by apply phy_current_yields|]. cbn beta. intros x w3 [-> F3].
  assert (power_bits (regs w3) = (pdz, tmds, true, false)) as E3 by (by rewrite (frame_power_bits phy_setup_regs w2 w3)).
  destruct (clock <=? MAX_CLOCK); cbn [negb]; [|by apply hwp_ret].
  apply (wp_skip phy_setup_regs); [apply phy_common_framed|]. intros _ w4. apply wp_phy_power_up.
Qed.

(** What the PHY is left in by a round. *)
Definition power_for (clock : Z) : bool * bool * bool * bool :=
  if clock <=? MAX_CLOCK then (true, true, false, true) else (false, false, true, false).

Lemma wp_phy_round b w :
  wp (phy_round b) (fun _ w' => frame phy_regs w w' /\ power_bits (regs w') = power_for (clock_of (hdmi w))) w.
Proof.
  apply wp_conj; [apply phy_round_framed|]. unfold phy_round.
  assert (forall i d o m p (k : unit -> hd unit) w0, phy_conf0_fields !! i = Some (o, m) -> d = 0 \/ d = 1 ->
    hdmi w0 = hdmi w -> power_bits (regs w0) = p ->
    (forall w1, hdmi w1 = hdmi w -> power_bits (regs w1) = write_bit i (d =? 1) p ->
      wp (k tt) (fun _ w' => power_bits (regs w') = power_for (clock_of (hdmi w))) w1) ->
    wp (hdmi_mask_writeb d HDMI_PHY_CONF0 o m ≫= k)
      (fun _ w' => power_bits (regs w') = power_for (clock_of (hdmi w))) w0) as Hstep.
  { intros i d o m p k w0 Hi Hd Hh Hp Hk. apply hwp_bind.
    eapply hwp_mono; [by apply (wp_power_bit i)|]. cbn beta. intros [] w1 [(H1 & _) B1].
    apply Hk; congruence. }
  destruct (power_bits (regs w)) as [[[pdz tmds] pddq] tx] eqn:E.
  eapply (Hstep 4%nat); [done|auto|done|exact E|intros w1 H1 B1].
  eapply (Hstep 5%nat); [done|auto|done|exact B1|intros w2 H2 B2].
  eapply (Hstep 1%nat); [done|auto|done|exact B2|intros w3 H3 B3].
  eapply (Hstep 0%nat); [done|auto|done|exact B3|intros w4 H4 B4]. cbn [write_bit Z.eqb] in B4.
  apply hwp_bind. eapply hwp_mono; [apply wp_configure; by left|]. cbn beta. intros r w5 [_ R5].
  apply hwp_ret. revert R5. rewrite B4, H4. unfold phy_supports, power_for, mpll_supports. cbn [Z.eqb Pos.eqb orb andb].
  by destruct (_ <=? MAX_CLOCK); intros [-> _].
Qed.

(** The PHY is started when there is something to show: powered when its clock is
    in range. *)
Lemma wp_phy_init w :
  wp mxc_hdmi_phy_init (fun _ w' =>
    if can_show (link (hdmi w))
    then frame phy_regs (mk_world (regs w) (ticks w) (set_phy_enabled true (hdmi w)) (fbi w) (events w)) w' /\
         power_bits (regs w') = power_for (clock_of (hdmi w))
    else w' = w) w.
Proof.
  unfold mxc_hdmi_phy_init. apply hwp_bind. unfold wp at 1. cbn [get_hdmi].
  destruct (can_show (link (hdmi w))); cbn [negb]; [|by apply hwp_ret].
  apply hwp_bind. eapply hwp_mono; [apply wp_phy_round|]. cbn beta. intros _ w1 [F1 _].
  apply hwp_bind. eapply hwp_mono; [apply wp_phy_round|]. cbn beta. intros _ w2 [F2 B2].
  unfold wp. cbn. assert (frame phy_regs w w2) as (H2 & Fb & R2 & E2) by (by etransitivity).
  destruct F1 as [H1 _]. rewrite H1 in B2. split; [|done]. rewrite H2. by split_and!.
Qed.

(** It is stopped when it was started. *)
Lemma wp_phy_disable w :
  wp mxc_hdmi_phy_disable (fun _ w' =>
    if phy_enabled (link (hdmi w))
    then frame phy_regs (mk_world (regs w) (ticks w) (set_phy_enabled false (hdmi w)) (fbi w) (events w)) w' /\
         power_bits (regs w') = (false, false, true, false)
    else w' = w) w.
Proof.
  unfold mxc_hdmi_phy_disable. apply hwp_bind. unfold wp at 1. cbn [get_hdmi].
  destruct (phy_enabled (link (hdmi w))); cbn [negb]; [|by apply hwp_ret].
  apply hwp_bind. eapply wp_framed; [by apply (framed_writeb phy_regs)|]. intros _ w0 F0.
  destruct (power_bits (regs w0)) as [[[pdz tmds] pddq] tx] eqn:E0.
  apply hwp_bind. eapply hwp_mono; [by apply (wp_power_bit 1); auto|]. cbn beta. intros _ w1 [F1 B1].
  apply hwp_bind. eapply hwp_mono; [by apply (wp_power_bit 0); auto|]. cbn beta. intros _ w2 [F2 B2].
  apply hwp_bind. eapply hwp_mono; [by apply (wp_power_bit 3); auto|]. cbn beta. intros _ w3 [F3 B3].
  apply hwp_bind. eapply hwp_mono; [by apply (wp_power_bit 2); auto|]. cbn beta. intros _ w4 [F4 B4].
  unfold wp. cbn.
  assert (frame phy_regs w w4) as (H4 & Fb & R4 & E4) by (by repeat (etransitivity; [eassumption|])).
  rewrite H4. split; [by split_and!|]. by rewrite B4, B3, B2, B1, E0.
Qed.
End power.

(** ** Lemmas: what the display is sent *)

Section sent.
Context {FB : fb_h} {FL : fb_lib} {HH : hdmi_h} {HC : hdmi_core}.

(** A number in two registers. *)
Definition word (lsb msb : hreg) (f : regfile) : Z := f msb * 256 + f lsb.

Lemma word_split x : 0 <= x < 65536 -> u8 (x ≫ 8) * 256 + u8 x = x.
Proof.
  intros Hx. rewrite Z.shiftr_div_pow2 by lia. change (2 ^ 8) with 256.
  rewrite u8_small by (split; [apply Z.div_pos; lia|apply Z.div_lt_upper_bound; lia]).
  unfold u8. change (2 ^ 8) with 256. pose proof (Z.div_mod x 256). lia.
Qed.

(** The timing of a picture, in the registers and of a mode. *)
Record av_timing := mk_av {
  av_width : Z; av_height : Z; av_hblank : Z; av_vblank : Z;
  av_hdelay : Z; av_vdelay : Z; av_hpulse : Z; av_vpulse : Z }.

Definition sent_timing (f : regfile) : av_timing :=
  mk_av (word HDMI_FC_INHACTV0 HDMI_FC_INHACTV1 f) (word HDMI_FC_INVACTV0 HDMI_FC_INVACTV1 f)
    (word HDMI_FC_INHBLANK0 HDMI_FC_INHBLANK1 f) (f HDMI_FC_INVBLANK)
    (word HDMI_FC_HSYNCINDELAY0 HDMI_FC_HSYNCINDELAY1 f) (f HDMI_FC_VSYNCINDELAY)
    (word HDMI_FC_HSYNCINWIDTH0 HDMI_FC_HSYNCINWIDTH1 f) (f HDMI_FC_VSYNCINWIDTH).

Definition mode_timing (m : fb_videomode) : av_timing :=
  mk_av (xres m) (yres m) (left_margin m + right_margin m + hsync_len m)
    (upper_margin m + lower_margin m + vsync_len m) (right_margin m) (lower_margin m) (hsync_len m) (vsync_len m).

(** Sixteen bits for a number of pixels, eight for a number of lines that are not
    shown. *)
Definition below (n x : Z) : bool := (0 <=? x) && (x <? n).

Definition timing_fits (t : av_timing) : bool :=
  below 65536 (av_width t) && below 65536 (av_height t) && below 65536 (av_hblank t) &&
  below 256 (av_vblank t) && below 65536 (av_hdelay t) && below 256 (av_vdelay t) &&
  below 65536 (av_hpulse t) && below 256 (av_vpulse t).

Lemma below_range n x : below n x = true -> 0 <= x < n.
Proof. unfold below. intros. zbool. lia. Qed.

Lemma timing_fits_range t : timing_fits t = true ->
  0 <= av_width t < 65536 /\ 0 <= av_height t < 65536 /\ 0 <= av_hblank t < 65536 /\ 0 <= av_vblank t < 256 /\
  0 <= av_hdelay t < 65536 /\ 0 <= av_vdelay t < 256 /\ 0 <= av_hpulse t < 65536 /\ 0 <= av_vpulse t < 256.
Proof. unfold timing_fits. rewrite !andb_true_iff. intros. destruct_and!. by repeat (split; [by apply below_range|]); apply below_range. Qed.

(** The data that the composer leaves. *)
Definition composed (f : fb_info) (h : mxc_hdmi) : mxc_hdmi :=
  put_hdmi_data (put_video_mode (composed_vmode (fb_var_to_videomode (var f)) (video_mode (hdmi_data h))) (hdmi_data h)) h.

Lemma write_timing_framed m : framed timing_regs (write_timing m).
Proof. unfold write_timing. framed. Qed.

Lemma wp_write_timing m w :
  wp (write_timing m) (fun _ w' =>
    regs w' HDMI_FC_INVIDCONF = regs w HDMI_FC_INVIDCONF /\
    (timing_fits (mode_timing m) = true -> sent_timing (regs w') = mode_timing m)) w.
Proof.
  unfold write_timing. cbv zeta. repeat (apply hwp_bind, wp_writeb). apply wp_writeb. cbn [regs written].
  split; [by do 13 (rewrite upd_ne by done)|].
  intros Hf. apply timing_fits_range in Hf. unfold mode_timing in Hf. cbn in Hf. destruct_and!.
  unfold sent_timing, mode_timing, word.
  repeat (rewrite upd_eq || rewrite upd_ne by done).
  rewrite !s32_small by (unfold INT_MIN, INT_MAX; lia). rewrite !word_split, !u8_small by lia. done.
Qed.

Lemma wp_av_composer w :
  wp hdmi_av_composer (fun _ w' =>
    frame timing_regs (mk_world (regs w) (ticks w) (composed (fbi w) (hdmi w)) (fbi w) (events w)) w' /\
    regs w' HDMI_FC_INVIDCONF = u8 (invidconf (hdmi_data (composed (fbi w) (hdmi w))) (vic (hdmi w))) /\
    (timing_fits (mode_timing (fb_var_to_videomode (var (fbi w)))) = true ->
     sent_timing (regs w') = mode_timing (fb_var_to_videomode (var (fbi w))))) w.
Proof.
  unfold hdmi_av_composer. apply hwp_bind. unfold wp at 1. cbn [get_fbi].
  apply hwp_bind. unfold wp at 1. cbn [mod_hdmi]. fold (composed (fbi w) (hdmi w)).
  apply hwp_bind. unfold wp at 1. cbn [get_hdmi hdmi]. set (w0 := mk_world _ _ _ _ _).
  pose proof (framed_writeb timing_regs (invidconf (hdmi_data (hdmi w0)) (vic (hdmi w0))) HDMI_FC_INVIDCONF eq_refl w0) as F1.
  apply hwp_bind, wp_writeb. change (frame timing_regs w0 (written (invidconf (hdmi_data (hdmi w0)) (vic (hdmi w0)))
    HDMI_FC_INVIDCONF w0)) in F1. cbn [hdmi w0] in *. set (w1 := written _ _ _) in *.
  eapply hwp_mono; [apply wp_conj; [apply write_timing_framed|apply wp_write_timing]|].
  cbn beta. intros _ w2 (F2 & E2 & T2). split_and!; [by etransitivity| |done].
  rewrite E2. apply upd_eq.
Qed.

(** The conversion matrix in the registers, by rows. *)
Definition sent_matrix (f : regfile) : list Z := map (fun '(lsb, msb) => word lsb msb f) csc_registers.

Definition flat_pairs (rs : list (hreg * hreg)) : list hreg := concat (map (fun '(lsb, msb) => [lsb; msb]) rs).

Lemma word_bytes c : 0 <= c < 65536 -> u8 (c ≫ 8) * 256 + u8 (c .& 0xFF) = c.
Proof.
  intros Hc. rewrite <- (word_split c) at 3 by done. f_equal. change 0xFF with (Z.ones 8).
  rewrite Z.land_ones by lia. apply u8_idem.
Qed.

Lemma wp_write_words rs : NoDup (flat_pairs rs) -> forall cs w,
  length cs = length rs -> Forall (fun c => 0 <= c < 65536) cs ->
  wp (write_words rs cs) (fun _ w' =>
    map (fun '(lsb, msb) => word lsb msb (regs w')) rs = cs /\
    forall r, r ∉ flat_pairs rs -> regs w' r = regs w r) w.
Proof.
  induction rs as [|[lsb msb] rs IH]; intros Hnd [|c cs] w Hl Hc; try done; cbn [write_words].
  cbn in Hnd. rewrite !NoDup_cons in Hnd. rewrite not_elem_of_cons in Hnd. destruct Hnd as ([Hlm Hlr] & Hmr & Hnd).
  inversion Hc as [|? ? Hc1 Hc2]; subst.
  apply hwp_bind, wp_writeb, hwp_bind, wp_writeb. eapply hwp_mono; [by apply IH; [|cbn in Hl; lia|]|].
  cbn beta. intros _ w' [Hw Hr]. split.
  - cbn [map]. rewrite Hw. f_equal. unfold word. rewrite !Hr by done. cbn [regs written].
    rewrite upd_eq, upd_ne, upd_eq by done. by apply word_bytes.
  - intros r Hin. cbn in Hin. rewrite !not_elem_of_cons in Hin. destruct Hin as (H1 & H2 & H3).
    rewrite Hr by done. cbn [regs written]. by rewrite !upd_ne.
Qed.

Lemma csc_registers_nodup : NoDup (flat_pairs csc_registers).
Proof. by apply (bool_decide_unpack _). Qed.

Lemma csc_selection_words d :
  length (concat (fst (csc_selection d))) = length csc_registers /\
  Forall (fun c => 0 <= c < 65536) (concat (fst (csc_selection d))).
Proof.
  unfold csc_selection. repeat case_match; (split; [done|]); cbn; repeat (apply Forall_cons_2; [lia|]); by apply Forall_nil_2.
Qed.

Lemma sent_matrix_same (K : hreg -> bool) (f g : regfile) :
  forallb (fun r => negb (K r)) (flat_pairs csc_registers) = true -> (forall r, K r = false -> g r = f r) ->
  sent_matrix g = sent_matrix f.
Proof.
  intros HK Hr. rewrite forallb_forall in HK. unfold sent_matrix. apply map_ext_in. intros [lsb msb] Hin.
  assert (forall r, In r [lsb; msb] -> g r = f r) as Hk.
  { intros r Hi. apply Hr. apply negb_true_iff, HK, in_concat. exists [lsb; msb]. split; [|done].
    apply in_map_iff. by exists (lsb, msb). }
  unfold word. by rewrite !Hk by (cbn; auto).
Qed.

Lemma wp_csc w :
  wp hdmi_video_csc (fun _ w' =>
    frame csc_regs w w' /\
    (is_Some (csc_color_depth (hdmi_data (hdmi w))) ->
     sent_matrix (regs w') = concat (fst (csc_selection (hdmi_data (hdmi w)))))) w.
Proof.
  apply wp_conj; [apply hdmi_video_csc_framed|].
  unfold hdmi_video_csc. apply hwp_bind. unfold wp at 1. cbn [get_hdmi].
  destruct (csc_color_depth _) as [depth|]; [|apply hwp_ret; by intros [? ?]].
  apply hwp_bind. eapply wp_framed; [by apply (framed_writeb csc_regs)|]. intros _ w1 F1.
  apply hwp_bind. eapply wp_framed; [by apply (framed_change_bits csc_regs)|]. intros _ w2 F2.
  assert (hdmi w2 = hdmi w) as <- by (destruct F1, F2; congruence). clear F1 F2.
  unfold update_csc_coeffs. apply hwp_bind. unfold wp at 1. cbn [get_hdmi].
  pose proof (csc_selection_words (hdmi_data (hdmi w2))) as [Hl Hc].
  destruct (csc_selection (hdmi_data (hdmi w2))) as [coeff scale]. cbn [fst] in *.
  apply hwp_bind. eapply hwp_mono; [by apply (wp_write_words _ csc_registers_nodup)|]. cbn beta. intros _ w3 [Hw _].
  eapply wp_framed; [by apply (framed_change_bits (fun r => bool_decide (r = HDMI_CSC_SCALE)))|].
  intros _ w4 (_ & _ & R4 & _) _. rewrite <- Hw.
  apply (sent_matrix_same (fun r => bool_decide (r = HDMI_CSC_SCALE))); [reflexivity|done].
Qed.
End sent.

(** ** Lemmas: the number in the frame, the overflow condition *)

Section frames_sent.
Context {FB : fb_h} {FL : fb_lib} {HH : hdmi_h} {HC : hdmi_core}.

Lemma wp_get_hdmi Q w : Q (hdmi w) w -> wp get_hdmi Q w.
Proof. done. Qed.

Lemma wp_get_fbi Q w : Q (fbi w) w -> wp get_fbi Q w.
Proof. done. Qed.

Lemma wp_mod_hdmi f (Q : unit -> world -> Prop) w :
  Q tt (mk_world (regs w) (ticks w) (f (hdmi w)) (fbi w) (events w)) -> wp (mod_hdmi f) Q w.
Proof. done. Qed.

Lemma wp_mod_fbi f (Q : unit -> world -> Prop) w :
  Q tt (mk_world (regs w) (ticks w) (hdmi w) (f (fbi w)) (events w)) -> wp (mod_fbi f) Q w.
Proof. done. Qed.

Lemma wp_tick (Q : nat -> world -> Prop) w :
  Q (ticks w) (mk_world (regs w) (S (ticks w)) (hdmi w) (fbi w) (events w)) -> wp tick Q w.
Proof. done. Qed.

Lemma hwp_emit e (Q : unit -> world -> Prop) w :
  Q tt (mk_world (regs w) (ticks w) (hdmi w) (fbi w) (events w ++ [e])) -> wp (emit e) Q w.
Proof. done. Qed.

Lemma wp_config_AVI `{!fb_lib_laws} w :
  wp hdmi_config_AVI (fun _ w' => frame avi_regs w w' /\ regs w' HDMI_FC_AVIVID = u8 (vic (hdmi w))) w.
Proof.
  apply wp_conj; [apply hdmi_config_AVI_framed|]. unfold hdmi_config_AVI.
  apply hwp_bind, wp_get_hdmi, hwp_bind, wp_get_fbi, hwp_bind.
  eapply hwp_mono; [apply (aspect_16_9_framed (fun _ => false))|]. cbn beta zeta. intros wide w1 F1.
  destruct (avi_colorimetry (hdmi_data (hdmi w))) as [c e].
  repeat (apply hwp_bind, wp_writeb). apply wp_writeb. cbn [regs written].
  by repeat (rewrite upd_eq || rewrite upd_ne by done).
Qed.

Lemma frame_reg K w w' r : frame K w w' -> K r = false -> regs w' r = regs w r.
Proof. intros (_ & _ & R & _). auto. Qed.

Lemma frame_hdmi K w w' : frame K w w' -> hdmi w' = hdmi w.
Proof. by intros [-> _]. Qed.

Lemma frame_matrix K w w' : frame K w w' -> forallb (fun r => negb (K r)) (flat_pairs csc_registers) = true ->
  sent_matrix (regs w') = sent_matrix (regs w).
Proof. intros (_ & _ & R & _) HK. by apply (sent_matrix_same K). Qed.

Lemma frame_timing K w w' : frame K w w' ->
  (forall r, timing_regs r = true -> r <> HDMI_FC_INVIDCONF -> K r = false) ->
  sent_timing (regs w') = sent_timing (regs w).
Proof.
  intros (_ & _ & R & _) HK. unfold sent_timing, word. by rewrite !R by (by apply HK).
Qed.

Definition clear_regs (r : hreg) : bool := match r with HDMI_MC_SWRSTZ | HDMI_FC_INVIDCONF => true | _ => false end.

Lemma mxc_hdmi_clear_overflow_framed b : framed clear_regs (mxc_hdmi_clear_overflow b).
Proof. unfold mxc_hdmi_clear_overflow. framed. Qed.

Lemma write_again_value n v r w : wp (write_again (S n) v r) (fun _ w' => regs w' r = u8 v) w.
Proof.
  revert w. induction n as [|n IH]; intros w.
  - apply hwp_bind, wp_writeb, hwp_ret. apply upd_eq.
  - apply hwp_bind, wp_writeb. apply IH.
Qed.

(** The input configuration is written again, as it is. *)
Lemma wp_clear_overflow b w :
  wp (mxc_hdmi_clear_overflow b) (fun _ w' =>
    frame clear_regs w w' /\ regs w' HDMI_FC_INVIDCONF = u8 (regs w HDMI_FC_INVIDCONF)) w.
Proof.
  apply wp_conj; [apply mxc_hdmi_clear_overflow_framed|]. unfold mxc_hdmi_clear_overflow.
  apply hwp_bind, wp_writeb, hwp_bind. unfold wp at 1. cbn [hdmi_readb is_status regs written].
  rewrite upd_ne by done. destruct b; [apply wp_writeb; apply upd_eq|apply write_again_value].
Qed.
End frames_sent.

(** Follow the code when its state is known. *)
Ltac hd_step :=
  match goal with
  | |- wp (_ ≫= _) _ _ => apply hwp_bind
  | |- wp (emit _) _ _ => apply hwp_emit
  | |- wp (mod_hdmi _) _ _ => apply wp_mod_hdmi
  | |- wp (mod_fbi _) _ _ => apply wp_mod_fbi
  | |- wp get_hdmi _ _ => apply wp_get_hdmi
  | |- wp get_fbi _ _ => apply wp_get_fbi
  | |- wp tick _ _ => apply wp_tick
  | |- wp (hdmi_writeb _ _) _ _ => apply wp_writeb
  | |- wp (mret _) _ _ => apply hwp_ret
  end; cbn [regs ticks hdmi fbi events written].
