(* ===== verification/MxcHdmi.v ===== *)
(** * The HDMI driver: [mxc_hdmi.c]

    Most of the file, over the functions of [HdmiTx]: reading the display's EDID,
    setting up a mode, choosing one, hot plugging, the events of the frame buffer,
    the attributes.  Lemmas: what a set up programs, what every operation keeps, how a
    plug or an unplug changes the driver, what the frame buffer's notifications do.
    [HdmiInit] has the start and the end, [HdmiEdid] the lemmas on the two ways to
    read an EDID, [HdmiExamples] applies the theorems. *)

From S2P Require Import Prelude MxcEdid HdmiRegs HdmiTx.

(** ** The outside *)

(** What the frame buffer notifies. *)
Inductive fb_notice :=
| FB_EVENT_FB_REGISTERED
| FB_EVENT_FB_UNREGISTERED
| FB_EVENT_MODE_CHANGE (mode : option fb_videomode)
| FB_EVENT_BLANK (level : Z)
| FB_EVENT_SUSPEND
| FB_EVENT_RESUME.

(** Calls of the driver by the frame buffer: a notification, for this frame buffer or
    for another one, [enable] and [disable] of [mxc_hdmi_drv]. *)
Inductive fb_callback :=
| Notify (same_id : bool) (e : fb_notice)
| PowerOn
| PowerOff.

(** The kernel's part: [fb_edid_to_monspecs], by its modes and its size; the answers
    of the display on the I2C bus; what [fb_set_var] makes of the screen and whom it
    calls while it runs; the sizes of the arrays of [struct mxc_edid_cfg]; what a
    variable that is not initialised holds; the configuration. *)
Class hdmi_env `{fb_lib} := {
  monspecs : bytes -> list fb_videomode;
  monspecs_size : bytes -> Z * Z;
  edid_transfers : nat -> list transfer;
  fb_set_var : nat -> fb_info -> fb_info * list fb_callback;
  vic_max : nat;
  format_max : nat;
  stack_var : fb_var_screeninfo;
  stack_edid : bytes;
  cpu_is_mx6dl : bool;
  CONFIG_MXC_HDMI_CEC : bool }.

Section driver.
Context {FB : fb_h} {ED : edid_h} {FL : fb_lib} {HH : hdmi_h} {HC : hdmi_core} {HE : hdmi_env}.

(** ** Modes of the driver's own *)

Definition vga_mode : fb_videomode :=
  mk_mode 60 1280 800 14430 80 48 15 2 32 47 0 FB_VMODE_NONINTERLACED FB_MODE_IS_DETAILED.
Definition xga_mode : fb_videomode :=
  mk_mode 60 1024 768 15384 160 24 29 3 136 6 0 FB_VMODE_NONINTERLACED FB_MODE_IS_VESA.
Definition sxga_mode : fb_videomode :=
  mk_mode 60 1280 1024 9259 248 48 38 1 112 3 (FB_SYNC_HOR_HIGH_ACT .| FB_SYNC_VERT_HIGH_ACT)
    FB_VMODE_NONINTERLACED FB_MODE_IS_VESA.

(** ** Setting up a mode *)

(** [hdmi->vic]: the number of the mode of the list nearest to the screen's. *)
Definition setup_vic (requesting_vga : bool) (m : fb_videomode) (l : list fb_videomode) : outcome Z :=
  if requesting_vga then Ret 0
  else match l with
       | [] => Ret 0
       | _ => edid_mode ← checked (fb_find_nearest_mode m l); Ret (mxc_edid_mode_to_vic edid_mode)
       end.

Definition vic_colorimetry (vic : Z) : hdmi_colorimetry :=
  if existsb (Z.eqb vic) [6; 7; 21; 22; 2; 3; 17; 18] then eITU601 else eITU709.

Definition vic_repetition (vic : Z) : Z :=
  if existsb (Z.eqb vic) [10; 11; 12; 13; 14; 15; 25; 26; 27; 28; 29; 30; 35; 36; 37; 38] then 1 else 0.

(** The data of the transmitter for a number and a configuration. *)
Definition setup_data (vic : Z) (cfg : mxc_edid_cfg) (d : hdmi_data_info) : hdmi_data_info :=
  let v := video_mode d in
  let dvi := negb (ctrue (hdmi_cap cfg)) in
  let out :=
    if negb dvi && negb (ctrue (rgb_out_enable d)) then
      if ctrue (cea_ycbcr444 (cfg_cea cfg)) then YCBCR444
      else if ctrue (cea_ycbcr422 (cfg_cea cfg)) then YCBCR422_8BITS
      else RGB
    else RGB in
  mk_data RGB out 8 (vic_colorimetry vic) 0 (hdcp_enable d) (rgb_out_enable d)
    (mk_vmode dvi (mHSyncPolarity v) (mVSyncPolarity v) (mInterlaced v) true (mPixelClock v) 0 (vic_repetition vic)).

(** From step B.3 on. *)
Definition setup_output (pixclock : Z) : hd unit :=
  mxc_hdmi_enable_video_path;;
  h ← get_hdmi;
  let dvi := mDVI (video_mode (hdmi_data h)) in
  (if dvi then mret tt
   else emit (ClkRegenerator pixclock);; hdmi_enable_audio_clk;; hdmi_config_AVI);;
  hdmi_video_packetize;;
  hdmi_video_csc;;
  hdmi_video_sample;;
  hdmi_tx_hdcp_config;;
  mxc_hdmi_clear_overflow cpu_is_mx6dl;;
  if dvi then mret tt else hdmi_enable_overflow_interrupts.

(** The modes remembered: not the one asked for to initialise. *)
Definition remember (m : fb_videomode) (h : mxc_hdmi) : mxc_hdmi :=
  let rv := requesting_vga_for_initialization (modes h) in
  put_modes (mk_modes (dft_mode_set (modes h)) m (if rv then previous_non_vga_mode (modes h) else m) rv) h.

Definition mxc_hdmi_setup : hd unit :=
  f ← get_fbi;
  let m := fb_var_to_videomode (var f) in
  h ← get_hdmi;
  mod_hdmi (remember m);;
  vic ← hd_lift (setup_vic (requesting_vga_for_initialization (modes h)) m (modelist f));
  mod_hdmi (put_vic vic);;
  hdmi_disable_overflow_interrupts;;
  mod_hdmi (fun h => put_hdmi_data (setup_data vic (edid_cfg (disp h)) (hdmi_data h)) h);;
  hdmi_av_composer;;
  mxc_hdmi_phy_init;;
  setup_output (var_pixclock (var f)).

(** ** The events of the frame buffer *)

(** With the interrupt lock held. *)
Definition mxc_hdmi_fb_registered : hd unit :=
  h ← get_hdmi;
  if fb_reg (link h) then mret tt
  else
    hdmi_writeb HDMI_PHY_I2CM_INT_ADDR_DONE_POL HDMI_PHY_I2CM_INT_ADDR;;
    hdmi_writeb (HDMI_PHY_I2CM_CTLINT_ADDR_NAC_POL .| HDMI_PHY_I2CM_CTLINT_ADDR_ARBITRATION_POL)
      HDMI_PHY_I2CM_CTLINT_ADDR;;
    hdmi_writeb (Z.lnot HDMI_PHY_HPD) HDMI_PHY_MASK0;;
    hdmi_writeb HDMI_IH_PHY_STAT0_HPD HDMI_IH_PHY_STAT0;;
    hdmi_writeb (Z.lnot HDMI_IH_MUTE_PHY_STAT0_HPD) HDMI_IH_MUTE_PHY_STAT0;;
    mod_hdmi (set_fb_reg true).

(** [blank] is a byte; the level is an [int]. *)
Definition fb_blank_event (level : Z) : hd unit :=
  h ← get_hdmi;
  if (level =? FB_BLANK_UNBLANK) && negb (level =? h_blank (link h)) then
    mod_hdmi (set_blank (u8 level));;
    (if fb_reg (link h) && cable_plugin (link h) then mxc_hdmi_setup else mret tt);;
    emit (SetBlankState 1)
  else if negb (level =? h_blank (link h)) then
    emit (SetBlankState 0);;
    emit AbortStream;;
    mxc_hdmi_phy_disable;;
    mod_hdmi (set_blank (u8 level))
  else mret tt.

Definition mxc_hdmi_fb_event (same_id : bool) (e : fb_notice) : hd unit :=
  if negb same_id then mret tt
  else
    match e with
    | FB_EVENT_FB_REGISTERED => mxc_hdmi_fb_registered;; emit (SetRegistered 1)
    | FB_EVENT_FB_UNREGISTERED => mod_hdmi (set_fb_reg false);; emit (SetRegistered 0)
    | FB_EVENT_MODE_CHANGE mode =>
      h ← get_hdmi;
      match mode with
      | Some mode => if fb_reg (link h) && negb (fb_mode_is_equal (previous_mode (modes h)) mode)
                     then mxc_hdmi_setup else mret tt
      | None => mret tt
      end
    | FB_EVENT_BLANK level => fb_blank_event level
    | FB_EVENT_SUSPEND =>
      h ← get_hdmi;
      if h_blank (link h) =? FB_BLANK_UNBLANK
      then mxc_hdmi_phy_disable;; emit (IahbClk false);; emit (IsfrClk false)
      else mret tt
    | FB_EVENT_RESUME =>
      h ← get_hdmi;
      if h_blank (link h) =? FB_BLANK_UNBLANK
      then emit (IahbClk true);; emit (IsfrClk true);; mxc_hdmi_phy_init
      else mret tt
    end.

Definition mxc_hdmi_power_on : hd unit := mxc_hdmi_phy_init.
Definition mxc_hdmi_power_off : hd unit := mxc_hdmi_phy_disable.

Definition run_fb_callback (c : fb_callback) : hd unit :=
  match c with
  | Notify same_id e => mxc_hdmi_fb_event same_id e
  | PowerOn => mxc_hdmi_power_on
  | PowerOff => mxc_hdmi_power_off
  end.

Fixpoint run_fb_callbacks (l : list fb_callback) : hd unit :=
  match l with [] => mret tt | c :: l => run_fb_callback c;; run_fb_callbacks l end.

(** ** Modes *)

Definition mxc_hdmi_notify_fb : hd unit :=
  mxc_hdmi_phy_disable;;
  mod_fbi (fun f => put_var (var_activate_force (var f)) f);;
  emit (Console true);;
  mod_fbi (put_userevent true);;
  t ← tick;
  f ← get_fbi;
  let '(f, callbacks) := fb_set_var t f in
  mod_fbi (fun _ => f);;
  run_fb_callbacks callbacks;;
  mod_fbi (put_userevent false);;
  emit (Console false).

(** The modes of the display that are kept, and the driver's own first. *)
Definition rebuilt_modelist (db : list fb_videomode) : list fb_videomode :=
  fold_left (fun l mode =>
    if negb (ctrue (vmode mode .& FB_VMODE_INTERLACED)) && negb (mxc_edid_mode_to_vic mode =? 0)
    then fb_add_videomode mode l else l) db (fb_add_videomode vga_mode []).

Definition mxc_hdmi_edid_rebuild_modelist : hd unit :=
  emit (Console true);;
  mod_fbi (fun f => put_modelist (rebuilt_modelist (modedb f)) f);;
  emit (Console false).

Definition mxc_hdmi_default_edid_cfg : hd unit :=
  mod_hdmi (fun h => put_disp (mk_display (set_hdmi_cap 1 (edid_cfg (disp h))) (h_edid (disp h))) h).

(** The progressive modes of the table, added to a list. *)
Definition add_cea_modes (l : list fb_videomode) : list fb_videomode :=
  fold_left (fun l mode =>
    if negb (ctrue (vmode mode .& FB_VMODE_INTERLACED)) && negb (xres mode =? 0)
    then fb_add_videomode mode l else l) mxc_cea_mode l.

Definition default_modelist : list fb_videomode :=
  add_cea_modes (fb_add_videomode sxga_mode (fb_add_videomode xga_mode (fb_add_videomode vga_mode []))).

Definition mxc_hdmi_default_modelist : hd unit :=
  emit (Console true);;
  mod_fbi (put_modelist default_modelist);;
  emit (Console false).

Definition set_requesting_vga (b : bool) : hd unit :=
  mod_hdmi (fun h => put_modes (mk_modes (dft_mode_set (modes h)) (previous_mode (modes h))
    (previous_non_vga_mode (modes h)) b) h).

Definition mxc_hdmi_set_mode_to_vga_dvi : hd unit :=
  hdmi_disable_overflow_interrupts;;
  mod_fbi (fun f => put_var (fb_videomode_to_var (var f) vga_mode) f);;
  set_requesting_vga true;;
  mxc_hdmi_notify_fb;;
  set_requesting_vga false.

(** The screen asked for: by name the first time, then as before. *)
Definition wanted_var (h : mxc_hdmi) : fb_var_screeninfo :=
  if dft_mode_set (modes h) then fb_videomode_to_var stack_var (previous_non_vga_mode (modes h))
  else fb_find_mode stack_var (dft_mode_str (setting h)) (default_bpp (setting h)).

Definition mxc_hdmi_set_mode : hd unit :=
  h ← get_hdmi;
  mod_hdmi (fun h => put_modes (mk_modes true (previous_mode (modes h)) (previous_non_vga_mode (modes h))
    (requesting_vga_for_initialization (modes h))) h);;
  f ← get_fbi;
  match fb_find_nearest_mode (fb_var_to_videomode (wanted_var h)) (modelist f) with
  | None => mret tt
  | Some mode =>
    if fb_mode_is_equal (previous_non_vga_mode (modes h)) mode then
      mod_fbi (put_fb_mode (Some mode));;
      mxc_hdmi_setup
    else
      mxc_hdmi_set_mode_to_vga_dvi;;
      mod_fbi (fun f => put_var (fb_videomode_to_var (var f) mode) f);;
      mxc_hdmi_notify_fb
  end.

(** ** Reading the EDID *)

Definition HDMI_EDID_SUCCESS : Z := 0.
Definition HDMI_EDID_FAIL : Z := -1.
Definition HDMI_EDID_SAME : Z := -2.
Definition HDMI_EDID_NO_MODES : Z := -3.

(** The rounds of the parser's loops. *)
Definition parse_rounds : nat := 256.

Definition hdmi_edid_wait_i2c_done (msec : nat) : hd bool := wait_bits HDMI_IH_I2CM_STAT0 0x2 msec.

(** [addr] and [blockno] are bytes. *)
Definition hdmi_edid_i2c_read (addr blockno : Z) : hd Z :=
  let spointer := u8 (blockno / 2) in
  let edidaddress := u8 (blockno mod 2 * 0x80 + addr) in
  hdmi_writeb 0xFF HDMI_IH_I2CM_STAT0;;
  hdmi_writeb edidaddress HDMI_I2CM_ADDRESS;;
  hdmi_writeb spointer HDMI_I2CM_SEGADDR;;
  hdmi_writeb (if spointer =? 0 then HDMI_I2CM_OPERATION_READ else HDMI_I2CM_OPERATION_READ_EXT)
    HDMI_I2CM_OPERATION;;
  _ ← hdmi_edid_wait_i2c_done 1000;
  data ← hdmi_readb HDMI_I2CM_DATAI;
  hdmi_writeb 0xFF HDMI_IH_I2CM_STAT0;;
  mret data.

(** [n] bytes of a block, from address [i] on. *)
Fixpoint read_block (n : nat) (i blockno : Z) : hd bytes :=
  match n with
  | O => mret []
  | S n => b ← hdmi_edid_i2c_read i (u8 blockno); bs ← read_block n (i + 1) blockno; mret (b :: bs)
  end.

Definition init_i2cm : hd unit :=
  hdmi_writeb 0x0 HDMI_I2CM_DIV;;
  hdmi_writeb 0x00 HDMI_I2CM_SS_SCL_HCNT_1_ADDR;;
  hdmi_writeb 0x79 HDMI_I2CM_SS_SCL_HCNT_0_ADDR;;
  hdmi_writeb 0x00 HDMI_I2CM_SS_SCL_LCNT_1_ADDR;;
  hdmi_writeb 0x91 HDMI_I2CM_SS_SCL_LCNT_0_ADDR;;
  hdmi_writeb 0x00 HDMI_I2CM_FS_SCL_HCNT_1_ADDR;;
  hdmi_writeb 0x0F HDMI_I2CM_FS_SCL_HCNT_0_ADDR;;
  hdmi_writeb 0x00 HDMI_I2CM_FS_SCL_LCNT_1_ADDR;;
  hdmi_writeb 0x21 HDMI_I2CM_FS_SCL_LCNT_0_ADDR;;
  hdmi_writeb 0x50 HDMI_I2CM_SLAVE;;
  hdmi_writeb 0x30 HDMI_I2CM_SEGADDR;;
  hdmi_writeb HDMI_I2CM_INT_DONE_POL HDMI_I2CM_INT;;
  hdmi_writeb (HDMI_I2CM_CTLINT_NAC_POL .| HDMI_I2CM_CTLINT_ARBITRATION_POL) HDMI_I2CM_CTLINT.

(** [!(.. == 0x00) || !(.. == 0xFF) || !(.. == 0xFF)], negated. *)
Definition edid_head_ok : hd bool :=
  b ← hdmi_edid_i2c_read 0 0;
  if negb (b =? 0x00) then mret false
  else
    b ← hdmi_edid_i2c_read 1 0;
    if negb (b =? 0xFF) then mret false
    else b ← hdmi_edid_i2c_read 2 0; mret (b =? 0xFF).

Definition store_edid (edid : bytes) (cfg : mxc_edid_cfg) : hd unit := mod_hdmi (put_disp (mk_display cfg edid)).

(** [size] of the first block. *)
Definition store_monspecs (db : list fb_videomode) (edid : bytes) : hd unit :=
  let '(x, y) := monspecs_size (take 128 edid) in mod_fbi (put_monspecs db x y).

(** [for (j = 1; j <= extblknum; j++)], [n] rounds left: every byte of a block is
    stored at [tmpedid + 1], and what is parsed begins at [tmpedid + EDID_LENGTH]. *)
Fixpoint read_segments (n : nat) (j : Z) (tmpedid : bytes) (cfg : mxc_edid_cfg) (db : list fb_videomode)
  : hd (Z * mxc_edid_cfg * list fb_videomode) :=
  match n with
  | O => mret (0, cfg, db)
  | S n =>
    bs ← read_block 128 0 j;
    tmpedid ← hd_lift (arr_wr tmpedid 1 (List.last bs 0));
    '(ret, cfg, db) ← hd_lift (mxc_edid_parse_ext_blk parse_rounds true true
      (drop (Z.to_nat EDID_LENGTH) tmpedid) cfg db);
    if ret <? 0 then mret (- ENOENT, cfg, db) else read_segments n (j + 1) tmpedid cfg db
  end.

(** The blocks in [edid], with the modes of the first: the extensions. *)
Definition internal_extensions (edid : bytes) (extblknum : Z) (cfg : mxc_edid_cfg) (db : list fb_videomode) : hd Z :=
  '(ret, cfg, db) ← hd_lift (mxc_edid_parse_ext_blk parse_rounds true true
    (drop (Z.to_nat EDID_LENGTH) edid) cfg db);
  store_edid edid cfg;;
  store_monspecs db edid;;
  if ret <? 0 then mret (- ENOENT)
  else if 1 <? extblknum then
    '(ret, cfg, db) ← read_segments (Z.to_nat extblknum) 1 stack_edid cfg db;
    store_edid edid cfg;;
    store_monspecs db edid;;
    mret ret
  else mret 0.

(** The first block and, when it announces any, the one after it. *)
Definition internal_blocks (edid : bytes) (cfg : mxc_edid_cfg) : hd (bytes * Z) :=
  b0 ← read_block 128 0 0;
  edid ← hd_lift (put_block edid 0 b0);
  store_edid edid cfg;;
  extblknum ← hd_lift (arr_rd edid 0x7E);
  edid ← (if ctrue extblknum
          then b1 ← read_block 128 0 1; hd_lift (put_block edid EDID_LENGTH b1)
          else mret edid);
  store_edid edid cfg;;
  mret (edid, extblknum).

(** The pointers are those of [struct mxc_hdmi]: they are not NULL.  Allocations
    succeed. *)
Definition mxc_edid_read_internal : hd Z :=
  init_i2cm;;
  let cfg := cfg_zero vic_max format_max in
  let edid := replicate (Z.to_nat (EDID_LENGTH * 4)) 0 in
  store_edid edid cfg;;
  ok ← edid_head_ok;
  if negb ok then mret (- ENOENT)
  else
    '(edid, extblknum) ← internal_blocks edid cfg;
    store_monspecs (monspecs edid) edid;;
    internal_extensions edid extblknum cfg (monspecs edid).

(** [mxc_edid_read] over the bus of [hdmi_i2c]; the size is looked at only when it
    succeeds. *)
Definition read_by_i2c : hd Z :=
  t ← tick;
  h ← get_hdmi;
  f ← get_fbi;
  '(ret, edid, cfg, db) ← hd_lift (mxc_edid_read parse_rounds true vic_max format_max monspecs
    (h_edid (disp h)) (edid_cfg (disp h)) (modedb f) (edid_transfers t));
  store_edid edid cfg;;
  (if ret <? 0 then mod_fbi (put_monspecs db (max_x f) (max_y f)) else store_monspecs db edid);;
  mret ret.

Definition mxc_hdmi_read_edid : hd Z :=
  h ← get_hdmi;
  let edid_old := h_edid (disp h) in
  ret ← (if negb (ctrue (hdcp_enable (hdmi_data h))) then read_by_i2c
         else
           change_bits HDMI_MC_CLKDIS 0 HDMI_MC_CLKDIS_HDCPCLK_DISABLE;;
           ret ← mxc_edid_read_internal;
           change_bits HDMI_MC_CLKDIS HDMI_MC_CLKDIS_HDCPCLK_DISABLE 0;;
           mret ret);
  if ret <? 0 then mret HDMI_EDID_FAIL
  else
    h ← get_hdmi;
    emit (SetEdidCfg (edid_cfg (disp h)));;
    f ← get_fbi;
    if bool_decide (edid_old = h_edid (disp h)) then mret HDMI_EDID_SAME
    else if (length (modedb f) =? 0)%nat then mret HDMI_EDID_NO_MODES
    else mret HDMI_EDID_SUCCESS.

(** ** The cable *)

(** The status decides what becomes of the list of modes. *)
Definition update_list (edid_status : Z) : hd unit :=
  if edid_status =? HDMI_EDID_SUCCESS then
    mod_fbi (fun f => put_var (var_set_size (u32 (max_x f * 10)) (u32 (max_y f * 10)) (var f)) f);;
    mxc_hdmi_edid_rebuild_modelist
  else if edid_status =? HDMI_EDID_SAME then mret tt
  else
    (if edid_status =? HDMI_EDID_FAIL then mxc_hdmi_default_edid_cfg else mret tt);;
    mxc_hdmi_default_modelist.

Definition mxc_hdmi_cable_connected : hd unit :=
  mod_hdmi (set_cable_plugin true);;
  edid_status ← mxc_hdmi_read_edid;
  edid_status ← (if (edid_status =? HDMI_EDID_NO_MODES) || (edid_status =? HDMI_EDID_FAIL)
                 then mxc_hdmi_read_edid else mret edid_status);
  update_list edid_status;;
  mxc_hdmi_set_mode.

Definition mxc_hdmi_cable_disconnected : hd unit :=
  hdmi_writeb 0xff HDMI_MC_CLKDIS;;
  mxc_hdmi_phy_disable;;
  hdmi_disable_overflow_interrupts;;
  mod_hdmi (set_cable_plugin false).

Definition EVENT_plugin : bytes := s2b "EVENT=plugin".
Definition EVENT_plugout : bytes := s2b "EVENT=plugout".

(** The work that an interrupt scheduled; [CecHandle] when the option is set. *)
Definition plug_work : hd unit :=
  h ← get_hdmi;
  let phy_int_stat := latest_intr_stat (irqs h) in
  phy_int_pol ← hdmi_readb HDMI_PHY_POL0;
  if ctrue (phy_int_stat .& HDMI_IH_PHY_STAT0_HPD) then
    if ctrue (phy_int_pol .& HDMI_PHY_HPD) then
      mxc_hdmi_cable_connected;;
      change_bits HDMI_PHY_POL0 HDMI_PHY_HPD 0;;
      emit (Uevent EVENT_plugin);;
      (if CONFIG_MXC_HDMI_CEC then emit (CecHandle 0x80) else mret tt);;
      emit (SetCableState 1);;
      emit (SwitchAudio 1);;
      emit (SwitchDisplay 1)
    else
      emit (SwitchAudio 0);;
      emit (SwitchDisplay 0);;
      emit (SetCableState 0);;
      emit AbortStream;;
      mxc_hdmi_cable_disconnected;;
      change_bits HDMI_PHY_POL0 0 HDMI_PHY_HPD;;
      emit (Uevent EVENT_plugout);;
      (if CONFIG_MXC_HDMI_CEC then emit (CecHandle 0x100) else mret tt)
  else mret tt.

(** The overflow condition, when its interrupt is up. *)
Definition check_overflow (clear_irq : bool) : hd unit :=
  val ← hdmi_readb HDMI_IH_FC_STAT2;
  if ctrue (val .& HDMI_IH_FC_STAT2_OVERFLOW_MASK) then
    mxc_hdmi_clear_overflow cpu_is_mx6dl;;
    if clear_irq then hdmi_writeb HDMI_IH_FC_STAT2_OVERFLOW_MASK HDMI_IH_FC_STAT2 else mret tt
  else mret tt.

Definition hotplug_worker : hd unit :=
  plug_work;;
  change_bits HDMI_PHY_MASK0 HDMI_PHY_HPD 0;;
  hdmi_writeb (Z.lnot HDMI_IH_MUTE_PHY_STAT0_HPD) HDMI_IH_MUTE_PHY_STAT0;;
  check_overflow false.

Definition hdcp_hdp_worker : hd unit := emit (Uevent (s2b "EVENT=hdcpint")).

(** The interrupt. *)
Definition mxc_hdmi_hotplug : hd unit :=
  check_overflow true;;
  intr_stat ← hdmi_readb HDMI_IH_PHY_STAT0;
  (if ctrue (intr_stat .& HDMI_IH_PHY_STAT0_HPD) then
     mod_hdmi (fun h => put_irqs (mk_irq intr_stat (hotplug_work (irqs h)) (hdcp_hdp_work (irqs h))) h);;
     change_bits HDMI_IH_MUTE_PHY_STAT0 0 HDMI_IH_MUTE_PHY_STAT0_HPD;;
     change_bits HDMI_PHY_MASK0 0 HDMI_PHY_HPD;;
     hdmi_writeb HDMI_IH_PHY_STAT0_HPD HDMI_IH_PHY_STAT0;;
     mod_hdmi (fun h => put_irqs (mk_irq (latest_intr_stat (irqs h)) true (hdcp_hdp_work (irqs h))) h)
   else mret tt);;
  h ← get_hdmi;
  if ctrue (hdcp_enable (hdmi_data h)) then
    val ← hdmi_readb HDMI_A_APIINTSTAT;
    if ctrue val then
      hdmi_writeb 0xFF HDMI_A_APIINTMSK;;
      mod_hdmi (fun h => put_irqs (mk_irq (latest_intr_stat (irqs h)) (hotplug_work (irqs h)) true) h)
    else mret tt
  else mret tt.

(** ** Attributes

    [value] is what [strict_strtoul] reads, an error when it is negative. *)

Definition put_rgb_out_enable v d := mk_data (enc_in_format d) (enc_out_format d) (enc_color_depth d)
  (colorimetry d) (pix_repet_factor d) (hdcp_enable d) v (video_mode d).
Definition put_hdcp_enable v d := mk_data (enc_in_format d) (enc_out_format d) (enc_color_depth d)
  (colorimetry d) (pix_repet_factor d) v (rgb_out_enable d) (video_mode d).

Definition mxc_hdmi_store_rgb_out_enable (value count : Z) : hd Z :=
  if value <? 0 then mret value
  else
    mod_hdmi (fun h => put_hdmi_data (put_rgb_out_enable value (hdmi_data h)) h);;
    mxc_hdmi_setup;;
    mret count.

Definition mxc_hdmi_store_hdcp_enable (value count : Z) : hd Z :=
  if value <? 0 then mret value
  else
    mod_hdmi (fun h => put_hdmi_data (put_hdcp_enable value (hdmi_data h)) h);;
    mxc_hdmi_setup;;
    h ← get_hdmi;
    emit (Uevent (if ctrue (hdcp_enable (hdmi_data h)) then s2b "EVENT=hdcpenable" else s2b "EVENT=hdcpdisable"));;
    mret count.

Definition NEWLINE : Z := 10.

(** [fix.id] of the frame buffer. *)
Definition mxc_hdmi_show_name (id : bytes) : bytes := id ++ [NEWLINE].
Definition mxc_hdmi_show_state (h : mxc_hdmi) : bytes :=
  (if cable_plugin (link h) then s2b "plugin" else s2b "plugout") ++ [NEWLINE].
Definition mxc_hdmi_show_rgb_out_enable (h : mxc_hdmi) : bytes :=
  (if rgb_out_enable (hdmi_data h) =? 1 then s2b "RGB out" else s2b "YCbCr out") ++ [NEWLINE].
Definition mxc_hdmi_show_hdcp_enable (h : mxc_hdmi) : bytes :=
  (if hdcp_enable (hdmi_data h) =? 0 then s2b "hdcp disable" else s2b "hdcp enable") ++ [NEWLINE].

(** [%02X] of a byte. *)
Definition upper_hex (d : Z) : Z := if d <? 10 then 48 + d else 55 + d.
Definition show_byte (b : Z) : bytes := s2b "0x" ++ [upper_hex (b / 16); upper_hex (b mod 16)] ++ s2b " ".

(** Sixteen bytes a line. *)
Definition mxc_hdmi_show_edid (h : mxc_hdmi) : bytes :=
  concat (map (fun j => concat (map (fun i => show_byte (nth (j * 16 + i) (h_edid (disp h)) 0)) (seq 0 16))
    ++ [NEWLINE]) (seq 0 32)).
End driver.

(** ** Lemmas: setting up a mode *)

Section setting_up.
Context {FB : fb_h} {ED : edid_h} {FL : fb_lib} {FLL : @fb_lib_laws FL} {HH : hdmi_h} {HL : @hdmi_h_laws HH}
  {HC : hdmi_core} {CL : @hdmi_core_laws HC} {HE : hdmi_env}.

Definition with_hdmi (h : mxc_hdmi) (w : world) : world := mk_world (regs w) (ticks w) h (fbi w) (events w).

(** The registers that a set up may write. *)
Definition output_regs (r : hreg) : bool :=
  path_regs r || avi_regs r || packet_regs r || csc_regs r || sample_regs r || clear_regs r || overflow_regs r.

Definition setup_regs (r : hreg) : bool := output_regs r || timing_regs r || phy_regs r.

Lemma framed_sub {A} K K' (m : hd A) : framed K m -> (forall r, K r = true -> K' r = true) -> framed K' m.
Proof. intros Hm HK. by apply (framed_mono K). Qed.

(** What the outputs of a set up say. *)
Record output_set (h : mxc_hdmi) (f : regfile) : Prop := mk_output {
  out_matrix : sent_matrix f = concat (fst (csc_selection (hdmi_data h)));
  out_vic : mDVI (video_mode (hdmi_data h)) = false -> f HDMI_FC_AVIVID = u8 (vic h) }.

Lemma setup_output_framed c : framed output_regs (setup_output c).
Proof.
  assert (framed output_regs mxc_hdmi_enable_video_path) by (eapply framed_sub; [apply mxc_hdmi_enable_video_path_framed|by intros []]).
  assert (framed output_regs hdmi_enable_audio_clk) by (eapply framed_sub; [apply hdmi_enable_audio_clk_framed|by intros []]).
  assert (framed output_regs hdmi_config_AVI) by (eapply framed_sub; [apply hdmi_config_AVI_framed|by intros []]).
  assert (framed output_regs hdmi_video_packetize) by (eapply framed_sub; [apply hdmi_video_packetize_framed|by intros []]).
  assert (framed output_regs hdmi_video_csc) by (eapply framed_sub; [apply hdmi_video_csc_framed|by intros []]).
  assert (framed output_regs hdmi_video_sample) by (eapply framed_sub; [apply hdmi_video_sample_framed|by intros []]).
  assert (framed output_regs (mxc_hdmi_clear_overflow cpu_is_mx6dl)) by (eapply framed_sub; [apply mxc_hdmi_clear_overflow_framed|by intros []]).
  assert (framed output_regs hdmi_enable_overflow_interrupts) by (eapply framed_sub; [apply hdmi_enable_overflow_interrupts_framed|by intros []]).
  pose proof (hdmi_tx_hdcp_config_framed output_regs). unfold setup_output. framed.
Qed.

Lemma wp_setup_output c w :
  enc_color_depth (hdmi_data (hdmi w)) = 8 ->
  wp (setup_output c) (fun _ w' => frame output_regs w w' /\ output_set (hdmi w) (regs w') /\
    regs w' HDMI_FC_INVIDCONF = u8 (regs w HDMI_FC_INVIDCONF)) w.
Proof.
  intros Hdepth. apply wp_conj; [apply setup_output_framed|]. unfold setup_output.
  apply hwp_bind. eapply wp_framed; [apply mxc_hdmi_enable_video_path_framed|]. intros _ w1 F1.
  apply hwp_bind, wp_get_hdmi. rewrite (frame_hdmi _ _ _ F1). set (dvi := mDVI (video_mode (hdmi_data (hdmi w)))).
  pose (Ka := fun r => path_regs r || avi_regs r). apply hwp_bind.
  assert (wp (if dvi then mret tt
    else emit (ClkRegenerator c);; hdmi_enable_audio_clk;; hdmi_config_AVI)
    (fun _ w2 => frame Ka w1 w2 /\ (dvi = false -> regs w2 HDMI_FC_AVIVID = u8 (vic (hdmi w)))) w1) as Ha.
  { destruct dvi; [apply hwp_ret; split; [reflexivity|done]|].
    apply hwp_bind. eapply wp_framed; [by apply (framed_emit Ka)|]. intros _ v1 G1.
    apply hwp_bind. eapply wp_framed; [eapply (framed_sub _ Ka); [apply hdmi_enable_audio_clk_framed|by intros []]|].
    intros _ v2 G2. eapply hwp_mono; [apply wp_config_AVI|]. cbn beta. intros _ v3 [G3 E3].
    split; [|by rewrite E3, (frame_hdmi _ _ _ G2), (frame_hdmi _ _ _ G1), (frame_hdmi _ _ _ F1)].
    etransitivity; [exact G1|]. etransitivity; [exact G2|]. eapply frame_mono; [|exact G3]. by intros []. }
  eapply hwp_mono; [exact Ha|]. cbn beta. clear Ha. intros _ w2 [F2 Ev].
  apply hwp_bind. eapply wp_framed; [apply hdmi_video_packetize_framed|]. intros _ w3 F3.
  assert (hdmi w3 = hdmi w) as H3
    by (by rewrite (frame_hdmi _ _ _ F3), (frame_hdmi _ _ _ F2), (frame_hdmi _ _ _ F1)).
  apply hwp_bind. eapply hwp_mono; [apply wp_csc|]. cbn beta. rewrite H3. intros _ w4 [F4 Em].
  apply hwp_bind. eapply wp_framed; [apply hdmi_video_sample_framed|]. intros _ w5 F5.
  apply hwp_bind. eapply wp_framed; [apply (hdmi_tx_hdcp_config_framed (fun _ => false))|]. intros _ w6 F6.
  apply hwp_bind. eapply hwp_mono; [apply wp_clear_overflow|]. cbn beta. intros _ w7 [F7 Ec].
  eapply (wp_framed overflow_regs).
  { destruct dvi; [apply framed_ret|apply hdmi_enable_overflow_interrupts_framed]. }
  intros _ w8 F8. split; [split|].
  - rewrite (frame_matrix _ _ _ F8), (frame_matrix _ _ _ F7), (frame_matrix _ _ _ F6), (frame_matrix _ _ _ F5) by done.
    apply Em. unfold csc_color_depth. rewrite Hdepth. by eexists.
  - intros Hd. rewrite (frame_reg _ _ _ _ F8), (frame_reg _ _ _ _ F7), (frame_reg _ _ _ _ F6),
      (frame_reg _ _ _ _ F5), (frame_reg _ _ _ _ F4), (frame_reg _ _ _ _ F3) by done. by apply Ev.
  - rewrite (frame_reg _ _ _ _ F8) by done. rewrite Ec. f_equal.
    by rewrite (frame_reg _ _ _ _ F6), (frame_reg _ _ _ _ F5), (frame_reg _ _ _ _ F4), (frame_reg _ _ _ _ F3),
      (frame_reg _ _ _ _ F2), (frame_reg _ _ _ _ F1) by done.
Qed.

(** [struct mxc_hdmi] after a set up. *)
Definition hdmi_set_up (f : fb_info) (vic : Z) (h : mxc_hdmi) : mxc_hdmi :=
  let h := put_vic vic (remember (fb_var_to_videomode (var f)) h) in
  let h := composed f (put_hdmi_data (setup_data vic (edid_cfg (disp h)) (hdmi_data h)) h) in
  if can_show (link h) then set_phy_enabled true h else h.

(** What the transmitter is programmed for: timing, input, conversion, number, power. *)
Record programmed (f : fb_info) (vic : Z) (w w' : world) : Prop := mk_programmed {
  pr_frame : frame setup_regs (with_hdmi (hdmi_set_up f vic (hdmi w)) w) w';
  pr_timing : timing_fits (mode_timing (fb_var_to_videomode (var f))) = true ->
    sent_timing (regs w') = mode_timing (fb_var_to_videomode (var f));
  pr_input : regs w' HDMI_FC_INVIDCONF = u8 (invidconf (hdmi_data (hdmi w')) vic);
  pr_output : output_set (hdmi w') (regs w');
  pr_power : power_bits (regs w') =
    if can_show (link (hdmi w)) then power_for (clock_of (hdmi w')) else power_bits (regs w) }.

Lemma setup_vic_some rv m l : exists vic, setup_vic rv m l = Ret vic.
Proof.
  unfold setup_vic. destruct rv; [by eexists|]. destruct l as [|x l]; [by eexists|].
  destruct (nearest_some m (x :: l)) as [y Ey]; [done|]. rewrite Ey. by eexists.
Qed.

Lemma hwp_lift {A} (o : outcome A) (a : A) Q w : o = Ret a -> Q a w -> wp (hd_lift o) Q w.
Proof. by intros ->. Qed.

Lemma frame_sub K K' w w' : frame K w w' -> (forall r, K r = true -> K' r = true) -> frame K' w w'.
Proof. intros Hf HK. by apply (frame_mono K). Qed.

Lemma frame_with K h w w' : frame K w w' -> frame K (with_hdmi h w) (with_hdmi h w').
Proof. intros (_ & F & R & E). by split_and!. Qed.

Lemma wp_setup vic w :
  setup_vic (requesting_vga_for_initialization (modes (hdmi w))) (fb_var_to_videomode (var (fbi w)))
    (modelist (fbi w)) = Ret vic ->
  wp mxc_hdmi_setup (fun _ w' => programmed (fbi w) vic w w') w.
Proof.
  intros Hv. unfold mxc_hdmi_setup. apply hwp_bind, wp_get_fbi, hwp_bind, wp_get_hdmi, hwp_bind, wp_mod_hdmi.
  apply hwp_bind, (hwp_lift _ vic); [exact Hv|]. apply hwp_bind, wp_mod_hdmi. cbn [regs ticks hdmi fbi events].
  set (h1 := put_vic vic (remember (fb_var_to_videomode (var (fbi w))) (hdmi w))).
  apply hwp_bind. eapply wp_framed; [apply hdmi_disable_overflow_interrupts_framed|]. intros _ w1 F1.
  pose proof (frame_hdmi _ _ _ F1) as H1. cbn [hdmi] in H1.
  apply hwp_bind, wp_mod_hdmi. rewrite H1. set (h2 := put_hdmi_data (setup_data vic (edid_cfg (disp h1)) (hdmi_data h1)) h1).
  fold (with_hdmi h2 w1). apply hwp_bind. eapply hwp_mono; [apply wp_av_composer|]. cbn beta.
  intros _ w2 (F2 & E2 & T2). cbn [regs ticks hdmi fbi events with_hdmi] in *.
  assert (fbi w1 = fbi w) as Hf by (by destruct F1 as (_ & -> & _)). rewrite Hf in *.
  set (h3 := composed (fbi w) h2) in *. fold (with_hdmi h3 w1) in F2.
  pose proof (frame_hdmi _ _ _ F2) as H2. cbn [hdmi with_hdmi] in H2.
  apply hwp_bind. eapply hwp_mono; [apply wp_phy_init|]. cbn beta. rewrite H2. intros _ w3 P3.
  set (h4 := if can_show (link h3) then set_phy_enabled true h3 else h3).
  assert (hdmi_set_up (fbi w) vic (hdmi w) = h4) as Hh by done.
  assert (frame phy_regs (with_hdmi h4 w2) w3) as F3.
  { unfold h4. destruct (can_show (link h3)); [by destruct P3|]. subst w3. rewrite <- H2. by destruct w2. }
  pose proof (frame_hdmi _ _ _ F3) as H3. cbn [hdmi with_hdmi] in H3.
  assert (enc_color_depth (hdmi_data h4) = 8) as Hd by (unfold h4; by destruct (can_show _)).
  eapply hwp_mono; [apply wp_setup_output; by rewrite H3|]. cbn beta. rewrite H3. intros _ w4 (F4 & O4 & I4).
  pose proof (frame_hdmi _ _ _ F4) as H4. rewrite H3 in H4.
  assert (hdmi_data h4 = hdmi_data h3 /\ HdmiTx.vic h4 = vic) as [Hdata Hvic] by (unfold h4; by destruct (can_show _)).
  split.
  - rewrite Hh. apply (frame_with _ h4) in F1, F2. unfold with_hdmi in F1, F2. cbn [regs ticks fbi events] in F1, F2.
    etransitivity; [eapply frame_sub; [exact F1|by intros []]|].
    etransitivity; [rewrite Hf; eapply frame_sub; [exact F2|by intros []]|].
    etransitivity; [eapply frame_sub; [exact F3|by intros []]|]. eapply frame_sub; [exact F4|by intros []].
  - intros Hfit. rewrite (frame_timing _ _ _ F4), (frame_timing _ _ _ F3) by (by intros []). by apply T2.
  - rewrite I4, (frame_reg _ _ _ _ F3) by done. cbn [regs with_hdmi]. by rewrite E2, H4, u8_idem, Hdata.
  - by rewrite H4.
  - rewrite (frame_power_bits _ _ _ eq_refl F4). rewrite H4. change (link (hdmi w)) with (link h3).
    unfold clock_of. rewrite Hdata. destruct (can_show (link h3)); [by destruct P3|]. subst w3.
    rewrite (frame_power_bits _ _ _ eq_refl F2). cbn [regs]. by rewrite (frame_power_bits _ _ _ eq_refl F1).
Qed.
End setting_up.

(** ** Lemmas: what every operation keeps *)

Section keeping.
Context {FB : fb_h} {ED : edid_h} {FL : fb_lib} {FLL : @fb_lib_laws FL} {HH : hdmi_h} {HL : @hdmi_h_laws HH}
  {HC : hdmi_core} {CL : @hdmi_core_laws HC} {HE : hdmi_env}.

(** The transmitter is started only with a cable and something to show; stopped, it
    is powered down. *)
Definition coherent (w : world) : Prop :=
  if phy_enabled (link (hdmi w))
  then cable_plugin (link (hdmi w)) = true /\ h_blank (link (hdmi w)) = FB_BLANK_UNBLANK
  else phy_off (regs w).

Lemma coherent_bits w : coherent w <->
  if phy_enabled (link (hdmi w))
  then cable_plugin (link (hdmi w)) = true /\ h_blank (link (hdmi w)) = FB_BLANK_UNBLANK
  else power_bits (regs w) = (false, false, true, false).
Proof. unfold coherent. destruct (phy_enabled _); [done|apply phy_off_bits]. Qed.

(** Plugging and unplugging as told to the user: [true] is a plug. *)
Definition plug_event (e : hdmi_event) : option bool :=
  match e with
  | Uevent s => if decide (s = EVENT_plugin) then Some true
                else if decide (s = EVENT_plugout) then Some false else None
  | _ => None
  end.
Definition plug_events (l : list hdmi_event) : list bool := omap plug_event l.

Definition keeps (w w' : world) : Prop :=
  cable_plugin (link (hdmi w')) = cable_plugin (link (hdmi w)) /\
  regs w' HDMI_PHY_POL0 = regs w HDMI_PHY_POL0 /\
  plug_events (events w') = plug_events (events w) /\
  (coherent w -> coherent w').

#[export] Instance keeps_refl : Reflexive keeps.
Proof. by intros w. Qed.

#[export] Instance keeps_trans : Transitive keeps.
Proof.
  intros w1 w2 w3 (C1 & R1 & E1 & I1) (C2 & R2 & E2 & I2).
  split_and!; [by rewrite C2|by rewrite R2|by rewrite E2|auto].
Qed.

(** If [m] returns, it keeps these. *)
Definition kept {A} (m : hd A) : Prop := forall w a w', m w = Ret (a, w') -> keeps w w'.

Lemma kept_ret {A} (a : A) : kept (mret a).
Proof. by intros w a' w' [= <- <-]. Qed.

Lemma kept_lift {A} (o : outcome A) : kept (hd_lift o).
Proof. intros w a w' E. unfold hd_lift in E. destruct o; [|done..]. by injection E as <- <-. Qed.

Lemma bind_inv {A B} (m : hd A) (k : A -> hd B) w b w' :
  (m ≫= k) w = Ret (b, w') -> exists a w1, m w = Ret (a, w1) /\ k a w1 = Ret (b, w').
Proof.
  unfold mbind, hd_bind, outcome_bind. destruct (m w) as [[a w1]| | |]; [|done..]. intros E. by exists a, w1.
Qed.

Lemma kept_bind {A B} (m : hd A) (k : A -> hd B) : kept m -> (forall a, kept (k a)) -> kept (m ≫= k).
Proof.
  intros Hm Hk w b w' E. apply bind_inv in E as (a & w1 & E1 & E2).
  etransitivity; [by eapply Hm|by eapply Hk].
Qed.

Lemma kept_get_hdmi : kept get_hdmi.
Proof. by intros w a w' [= <- <-]. Qed.

Lemma kept_get_fbi : kept get_fbi.
Proof. by intros w a w' [= <- <-]. Qed.

Lemma kept_mod_fbi f : kept (mod_fbi f).
Proof. by intros w a w' [= <- <-]. Qed.

Lemma kept_tick : kept tick.
Proof. by intros w a w' [= <- <-]. Qed.

Lemma kept_mod_hdmi f : (forall h, link (f h) = link h) -> kept (mod_hdmi f).
Proof. intros Hf w a w' [= <- <-]. unfold keeps, coherent. cbn [hdmi regs events]. by rewrite Hf. Qed.

Lemma plug_events_app l1 l2 : plug_events (l1 ++ l2) = plug_events l1 ++ plug_events l2.
Proof. apply omap_app. Qed.

Lemma kept_emit e : plug_event e = None -> kept (emit e).
Proof.
  intros He w a w' [= <- <-]. split_and!; [done..| |done]. cbn [events]. rewrite plug_events_app. cbn.
  by rewrite He, app_nil_r.
Qed.

Lemma quiet_plugs l : Forall (fun e => is_quiet e = true) l -> plug_events l = [].
Proof. induction 1 as [|e l He Hl IH]; [done|]. by destruct e. Qed.

(** Registers other than those of the cable and the power of the PHY. *)
Lemma kept_framed {A} K (m : hd A) : framed K m -> K HDMI_PHY_POL0 = false -> K HDMI_PHY_CONF0 = false -> kept m.
Proof.
  intros Hm K1 K2 w a w' E. pose proof (wp_ret_inv _ _ _ _ _ (Hm w) E) as Hf. cbn beta in Hf.
  pose proof (frame_power_bits _ _ _ K2 Hf) as Hb. pose proof (frame_reg _ _ _ _ Hf K1) as Hp.
  destruct Hf as (Hh & _ & _ & l & El & Hl).
  split_and!; [by rewrite Hh|done| |].
  - by rewrite El, plug_events_app, (quiet_plugs l), app_nil_r.
  - rewrite !coherent_bits, Hh, Hb. done.
Qed.

Lemma frame_plugs K w w' : frame K w w' -> plug_events (events w') = plug_events (events w).
Proof. intros (_ & _ & _ & l & -> & Hl). by rewrite plug_events_app, (quiet_plugs l), app_nil_r. Qed.

Lemma kept_phy_init : kept mxc_hdmi_phy_init.
Proof.
  intros w a w' E. pose proof (wp_ret_inv _ _ _ _ _ (wp_phy_init w) E) as Hp. cbn beta in Hp.
  destruct (can_show (link (hdmi w))) eqn:Es; [|by subst w'].
  destruct Hp as [Hf Hb]. pose proof (frame_hdmi _ _ _ Hf) as Hh. cbn [hdmi] in Hh.
  unfold can_show in Es. zbool. split_and!; [by rewrite Hh|by apply (frame_reg _ _ _ _ Hf)|by apply (frame_plugs _ _ _ Hf)|].
  intros _. unfold coherent. by rewrite Hh.
Qed.

Lemma kept_phy_disable : kept mxc_hdmi_phy_disable.
Proof.
  intros w a w' E. pose proof (wp_ret_inv _ _ _ _ _ (wp_phy_disable w) E) as Hp. cbn beta in Hp.
  destruct (phy_enabled (link (hdmi w))) eqn:Es; [|by subst w'].
  destruct Hp as [Hf Hb]. pose proof (frame_hdmi _ _ _ Hf) as Hh. cbn [hdmi] in Hh.
  split_and!; [by rewrite Hh|by apply (frame_reg _ _ _ _ Hf)|by apply (frame_plugs _ _ _ Hf)|].
  intros _. unfold coherent. rewrite Hh. cbn. by apply phy_off_bits.
Qed.

(** After that the transmitter is off. *)
Lemma phy_disable_off w a w' : mxc_hdmi_phy_disable w = Ret (a, w') -> phy_enabled (link (hdmi w')) = false.
Proof.
  intros E. pose proof (wp_ret_inv _ _ _ _ _ (wp_phy_disable w) E) as Hp. cbn beta in Hp.
  destruct (phy_enabled (link (hdmi w))) eqn:Es; [|by subst w'].
  destruct Hp as [Hf _]. by rewrite (frame_hdmi _ _ _ Hf).
Qed.

Lemma hdmi_set_up_link f vic h :
  link (hdmi_set_up f vic h) =
    if can_show (link h) then mk_link (fb_reg (link h)) (cable_plugin (link h)) (h_blank (link h)) true else link h.
Proof. unfold hdmi_set_up. cbv zeta. change (link (composed _ _)) with (link h). by destruct (can_show _). Qed.

Lemma kept_setup : kept mxc_hdmi_setup.
Proof.
  intros w a w' E. destruct (setup_vic_some (requesting_vga_for_initialization (modes (hdmi w)))
    (fb_var_to_videomode (var (fbi w))) (modelist (fbi w))) as [vic Hv].
  pose proof (wp_ret_inv _ _ _ _ _ (wp_setup vic w Hv) E) as [Hf _ _ _ Hp].
  pose proof (frame_hdmi _ _ _ Hf) as Hh. cbn [hdmi with_hdmi] in Hh.
  split_and!; [|by apply (frame_reg _ _ _ _ Hf)|by apply (frame_plugs _ _ _ Hf)|].
  - rewrite Hh. unfold hdmi_set_up. by destruct (can_show _).
  - rewrite !coherent_bits, Hp, Hh, hdmi_set_up_link. unfold can_show.
    destruct (fb_reg (link (hdmi w))); [|done]. destruct (cable_plugin (link (hdmi w))) eqn:Ec; [|cbn [andb]; by rewrite Ec].
    destruct (Z.eqb_spec (h_blank (link (hdmi w))) FB_BLANK_UNBLANK); cbn [andb]; [done|by rewrite Ec].
Qed.

Lemma kept_registered : kept mxc_hdmi_fb_registered.
Proof.
  assert (forall b, kept (mod_hdmi (set_fb_reg b))) as Hr by (by intros b w a w' [= <- <-]).
  unfold mxc_hdmi_fb_registered. apply kept_bind; [apply kept_get_hdmi|intros h]. destruct (fb_reg (link h)); [apply kept_ret|].
  repeat (apply kept_bind; [|intros _]); [..|apply Hr];
    (eapply (kept_framed (fun r => bool_decide (r <> HDMI_PHY_POL0) && bool_decide (r <> HDMI_PHY_CONF0)));
      [by apply framed_writeb|done|done]).
Qed.
End keeping.

Create HintDb kept discriminated.
#[export] Hint Resolve kept_ret kept_lift kept_get_hdmi kept_get_fbi kept_mod_fbi kept_tick kept_phy_init
  kept_phy_disable kept_setup kept_registered : kept.

(** Registers that are neither the polarity of the plug nor the power of the PHY. *)
Definition other_regs (r : hreg) : bool := match r with HDMI_PHY_POL0 | HDMI_PHY_CONF0 => false | _ => true end.

(** Follow the code, one operation at a time. *)
Ltac kept_step :=
  match goal with
  | |- kept (_ ≫= _) => apply kept_bind; [|intros ?]
  | |- kept (emit _) => apply kept_emit; reflexivity
  | |- kept (mod_hdmi _) => apply kept_mod_hdmi; intros ?; reflexivity
  | |- kept (hdmi_writeb _ _) => apply (kept_framed other_regs); [apply framed_writeb; reflexivity|reflexivity..]
  | |- kept (change_bits _ _ _) => apply (kept_framed other_regs); [apply framed_change_bits; reflexivity|reflexivity..]
  | |- kept (hdmi_readb _) => apply (kept_framed other_regs); [apply framed_readb|reflexivity..]
  | |- kept (wait_bits _ _ _) => apply (kept_framed other_regs); [apply framed_wait_bits|reflexivity..]
  | |- kept (if ?b then _ else _) => destruct b
  | |- kept (match ?x with _ => _ end) => destruct x
  | |- _ => solve [eauto with kept]
  end.
Ltac kept := repeat (cbv beta zeta; kept_step).

Section kept_operations.
Context {FB : fb_h} {ED : edid_h} {FL : fb_lib} {FLL : @fb_lib_laws FL} {HH : hdmi_h} {HL : @hdmi_h_laws HH}
  {HC : hdmi_core} {CL : @hdmi_core_laws HC} {HE : hdmi_env}.

(** Blanking: the transmitter is off when the level changes to something else, and
    starts only with the level that shows. *)
Lemma kept_blank level : kept (fb_blank_event level).
Proof.
  intros w a w' E. unfold fb_blank_event in E. apply bind_inv in E as (h & w0 & [= <- <-] & E).
  destruct blank_levels as (Hu & _ & _).
  destruct (Z.eqb_spec level FB_BLANK_UNBLANK) as [->|Hl]; cbn [andb] in E.
  - destruct (Z.eqb_spec FB_BLANK_UNBLANK (h_blank (link (hdmi w)))) as [He|Hne]; cbn [negb] in E;
      [by injection E as <- <-|].
    apply bind_inv in E as ([] & w1 & [= <-] & E).
    etransitivity; [|eapply kept_bind; [| |exact E]; [kept|intros ?; kept]].
    split_and!; [done..|]. unfold coherent. cbn [link hdmi regs set_blank put_link]. cbn.
    destruct (phy_enabled (link (hdmi w))); [|done]. intros [Hc Hb]. by rewrite Hb in Hne.
  - destruct (negb (level =? h_blank (link (hdmi w)))); [|by injection E as <- <-].
    apply bind_inv in E as ([] & w1 & E1 & E). apply bind_inv in E as ([] & w2 & E2 & E).
    apply bind_inv in E as ([] & w3 & E3 & E). injection E as <- <-.
    assert (keeps w w3) as Hk.
    { etransitivity; [by eapply (kept_emit (SetBlankState 0))|]. etransitivity; [by eapply (kept_emit AbortStream)|].
      by eapply kept_phy_disable. }
    apply phy_disable_off in E3. etransitivity; [exact Hk|]. split_and!; [done..|].
    unfold coherent. cbn. by rewrite E3.
Qed.

Lemma kept_callback c : kept (run_fb_callback c).
Proof.
  pose proof kept_blank. destruct c as [same e| |]; cbn [run_fb_callback].
  - unfold mxc_hdmi_fb_event. destruct same; cbn [negb]; [|kept]. destruct e; try solve [kept].
    apply kept_bind; [|intros ?; kept]. by intros w a w' [= <- <-].
  - apply kept_phy_init.
  - apply kept_phy_disable.
Qed.

Lemma kept_callbacks l : kept (run_fb_callbacks l).
Proof. pose proof kept_callback. induction l as [|c l IH]; cbn [run_fb_callbacks]; kept. Qed.

Lemma kept_notify_fb : kept mxc_hdmi_notify_fb.
Proof. pose proof kept_callbacks. unfold mxc_hdmi_notify_fb. kept. Qed.

Lemma kept_disable_overflow : kept hdmi_disable_overflow_interrupts.
Proof. by apply (kept_framed overflow_regs); [apply hdmi_disable_overflow_interrupts_framed|..]. Qed.

Lemma kept_set_mode : kept mxc_hdmi_set_mode.
Proof.
  pose proof kept_notify_fb. pose proof kept_disable_overflow.
  unfold mxc_hdmi_set_mode, mxc_hdmi_set_mode_to_vga_dvi, set_requesting_vga. kept.
Qed.

(** Reading a display, by either way. *)
Lemma kept_read_block n : forall i b, kept (read_block n i b).
Proof.
  induction n as [|n IH]; intros i b; cbn [read_block]; unfold hdmi_edid_i2c_read, hdmi_edid_wait_i2c_done; kept.
Qed.

Lemma kept_read_segments n : forall j t c db, kept (read_segments n j t c db).
Proof.
  pose proof kept_read_block. induction n as [|n IH]; intros j t c db; cbn [read_segments]; kept.
Qed.

Lemma kept_read_edid : kept mxc_hdmi_read_edid.
Proof.
  pose proof kept_read_block. pose proof kept_read_segments.
  unfold mxc_hdmi_read_edid, read_by_i2c, mxc_edid_read_internal, internal_blocks, internal_extensions, init_i2cm, edid_head_ok, hdmi_edid_i2c_read,
    hdmi_edid_wait_i2c_done, store_edid, store_monspecs. kept.
Qed.

Lemma kept_check_overflow b : kept (check_overflow b).
Proof.
  assert (kept (mxc_hdmi_clear_overflow cpu_is_mx6dl)) by
    (by apply (kept_framed clear_regs); [apply mxc_hdmi_clear_overflow_framed|..]).
  unfold check_overflow. kept.
Qed.

Lemma kept_hotplug : kept mxc_hdmi_hotplug.
Proof. pose proof kept_check_overflow. unfold mxc_hdmi_hotplug. kept. Qed.

Lemma kept_store_rgb v n : kept (mxc_hdmi_store_rgb_out_enable v n).
Proof. unfold mxc_hdmi_store_rgb_out_enable. kept. Qed.

Lemma kept_store_hdcp v n : kept (mxc_hdmi_store_hdcp_enable v n).
Proof.
  unfold mxc_hdmi_store_hdcp_enable. destruct (v <? 0); [kept|]. do 3 (apply kept_bind; [kept|intros ?]).
  apply kept_bind; [|intros ?; kept]. destruct (ctrue _); kept.
Qed.
End kept_operations.

(** ** Lemmas: the cable *)

Section cable.
Context {FB : fb_h} {ED : edid_h} {FL : fb_lib} {FLL : @fb_lib_laws FL} {HH : hdmi_h} {HL : @hdmi_h_laws HH}
  {HC : hdmi_core} {CL : @hdmi_core_laws HC} {HE : hdmi_env}.

(** The state of the cable after a list of announcements, none of which repeats it. *)
Fixpoint plug_run (b : bool) (l : list bool) : option bool :=
  match l with
  | [] => Some b
  | e :: l => if bool_decide (e = b) then None else plug_run e l
  end.

Lemma plug_run_app b l1 l2 : plug_run b (l1 ++ l2) = plug_run b l1 ≫= fun b => plug_run b l2.
Proof. revert b. induction l1 as [|e l1 IH]; intros b; cbn; [done|]. by case_bool_decide. Qed.

(** The interrupt waits for a plug, not for an unplug. *)
Definition awaits_plug (w : world) : bool := ctrue (regs w HDMI_PHY_POL0 .& HDMI_PHY_HPD).

Definition cable_in (w : world) : bool := cable_plugin (link (hdmi w)).

(** What holds whenever no function of the driver runs. *)
Record hdmi_ok (w : world) : Prop := mk_hdmi_ok {
  ok_power : coherent w;
  ok_polarity : awaits_plug w = negb (cable_in w);
  ok_plugs : plug_run false (plug_events (events w)) = Some (cable_in w) }.

Lemma hdmi_ok_keeps w w' : keeps w w' -> hdmi_ok w -> hdmi_ok w'.
Proof.
  intros (C & R & E & I) [H1 H2 H3]. split; [by apply I| |].
  - unfold awaits_plug, cable_in in *. by rewrite R, C.
  - unfold cable_in in *. by rewrite E, C.
Qed.

(** One announcement, with its polarity: nothing else changes. *)
Definition plugged (b : bool) (w w' : world) : Prop :=
  cable_in w' = b /\ awaits_plug w' = negb b /\
  plug_events (events w') = plug_events (events w) ++ [b] /\ coherent w'.

Lemma plugged_keeps b w w1 w2 : plugged b w w1 -> keeps w1 w2 -> plugged b w w2.
Proof.
  intros (C1 & A1 & E1 & I1) (C & R & E & I). unfold plugged, cable_in, awaits_plug in *.
  rewrite C, R, E. auto.
Qed.

Lemma plugged_ok b w w' : cable_in w = negb b -> plugged b w w' -> hdmi_ok w -> hdmi_ok w'.
Proof.
  intros Hb (C & A & E & I) [H1 H2 H3]. split; [done|by rewrite C|].
  rewrite E, plug_run_app, H3, Hb, C. cbn. by rewrite bool_decide_false by (by destruct b).
Qed.

Lemma land_u8 x m : 0 <= m < 256 -> u8 x .& m = x .& m.
Proof.
  intros Hm. unfold u8. apply Z.bits_inj'. intros i Hi. rewrite !Z.land_spec. destruct (Z.lt_ge_cases i 8).
  - by rewrite Z.mod_pow2_bits_low by lia.
  - replace (Z.testbit m i) with false; [by rewrite !andb_false_r|].
    symmetry. destruct (Z.eq_dec m 0) as [->|]; [apply Z.bits_0|]. apply Z.bits_above_log2; [lia|].
    pose proof (Z.log2_lt_pow2 m 8). lia.
Qed.

(** The polarity bit, set and cleared. *)
Lemma polarity_set x : ctrue (u8 ((x .& Z.lnot 0) .| HDMI_PHY_HPD) .& HDMI_PHY_HPD) = true.
Proof.
  pose proof hpd_bit as Hb. rewrite land_u8 by lia. unfold ctrue. apply negb_true_iff, Z.eqb_neq.
  rewrite Z.land_comm, Z.lor_comm, Z.land_lor_distr_r, Z.land_diag. intros E. apply Z.lor_eq_0_iff in E. lia.
Qed.

Lemma polarity_cleared x : ctrue (u8 ((x .& Z.lnot HDMI_PHY_HPD) .| 0) .& HDMI_PHY_HPD) = false.
Proof.
  pose proof hpd_bit as Hb. rewrite land_u8 by lia. unfold ctrue. apply negb_false_iff, Z.eqb_eq.
  by rewrite Z.lor_0_r, <- Z.land_assoc, (Z.land_comm (Z.lnot _)), Z.land_lnot_diag, Z.land_0_r.
Qed.

(** Setting the polarity and announcing. *)
Lemma announce (b : bool) m v s w x w1 y w2 :
  (if b then m = HDMI_PHY_HPD /\ v = 0 /\ s = EVENT_plugin else m = 0 /\ v = HDMI_PHY_HPD /\ s = EVENT_plugout) ->
  cable_in w = b -> coherent w ->
  change_bits HDMI_PHY_POL0 m v w = Ret (x, w1) -> emit (Uevent s) w1 = Ret (y, w2) -> plugged b w w2.
Proof.
  intros Hb Hc Hi [= <- <-] [= <- <-]. unfold plugged, cable_in, awaits_plug, coherent, phy_off, conf0_bit in *.
  cbn [regs hdmi events]. rewrite upd_eq, plug_events_app, plug_events_app.
  rewrite !(upd_ne HDMI_PHY_POL0 _ _ HDMI_PHY_CONF0) by done.
  destruct b; destruct Hb as (-> & -> & ->).
  - rewrite polarity_cleared. by rewrite app_nil_r.
  - rewrite polarity_set. by rewrite app_nil_r.
Qed.

Lemma kept_rest {A} (m : hd A) w a w' b w0 : kept m -> m w = Ret (a, w') -> plugged b w0 w -> plugged b w0 w'.
Proof. intros Hk E Hp. eapply plugged_keeps; [exact Hp|by eapply Hk]. Qed.

Lemma kept_modelist : kept mxc_hdmi_edid_rebuild_modelist /\ kept mxc_hdmi_default_modelist /\ kept mxc_hdmi_default_edid_cfg.
Proof.
  unfold mxc_hdmi_edid_rebuild_modelist, mxc_hdmi_default_modelist, mxc_hdmi_default_edid_cfg. split_and!; kept.
Qed.

(** Connecting: the cable is in, and nothing is announced yet. *)
Lemma connected w a w' :
  mxc_hdmi_cable_connected w = Ret (a, w') -> coherent w ->
  cable_in w' = true /\ coherent w' /\ plug_events (events w') = plug_events (events w).
Proof.
  intros E Hi. unfold mxc_hdmi_cable_connected in E. apply bind_inv in E as ([] & w1 & [= <-] & E).
  set (w1 := mk_world _ _ _ _ _) in E.
  assert (coherent w1) as Hi1.
  { unfold coherent in *. cbn. destruct (phy_enabled (link (hdmi w))); [by destruct Hi|done]. }
  pose proof kept_read_edid as Hr. pose proof kept_set_mode as Hs. pose proof kept_modelist as (H1 & H2 & H3).
  assert (keeps w1 w') as (C & _ & Ep & I).
  { eapply kept_bind; [exact Hr| |exact E]. intros st. unfold update_list. cbv beta. kept. }
  split; [by unfold cable_in; rewrite C|]. split; [by apply I|by rewrite Ep].
Qed.

Lemma disconnected w a w' :
  mxc_hdmi_cable_disconnected w = Ret (a, w') -> coherent w ->
  cable_in w' = false /\ coherent w' /\ plug_events (events w') = plug_events (events w).
Proof.
  intros E Hi. unfold mxc_hdmi_cable_disconnected in E.
  apply bind_inv in E as ([] & w1 & E1 & E). apply bind_inv in E as ([] & w2 & E2 & E).
  apply bind_inv in E as ([] & w3 & E3 & E). injection E as <- <-.
  assert (kept (hdmi_writeb 0xff HDMI_MC_CLKDIS)) as Hw by kept.
  pose proof (Hw _ _ _ E1) as K1. pose proof (kept_phy_disable _ _ _ E2) as K2.
  pose proof (kept_disable_overflow _ _ _ E3) as K3.
  assert (keeps w w3) as (_ & _ & Ep & I) by (etransitivity; [exact K1|]; by etransitivity).
  apply phy_disable_off in E2.
  pose proof (wp_ret_inv _ _ _ _ _ (hdmi_disable_overflow_interrupts_framed w2) E3) as F3. cbn beta in F3.
  pose proof (frame_hdmi _ _ _ F3) as H3. specialize (I Hi). unfold cable_in, coherent in *. cbn.
  rewrite H3, E2 in *. split_and!; [done|exact I|exact Ep].
Qed.

(** The work: a plug or an unplug, or nothing. *)
Lemma plug_work_ok w a w' : plug_work w = Ret (a, w') -> hdmi_ok w -> hdmi_ok w'.
Proof.
  intros E Hok. unfold plug_work in E. apply bind_inv in E as (h & w0 & [= <- <-] & E).
  apply bind_inv in E as (pol & w0 & [= <- <-] & E).
  destruct (ctrue (latest_intr_stat (irqs (hdmi w)) .& HDMI_IH_PHY_STAT0_HPD)); [|by injection E as <- <-].
  pose proof (ok_polarity w Hok) as Hpol. unfold awaits_plug in Hpol. rewrite Hpol in E.
  destruct (cable_in w) eqn:Ec; cbn [negb] in E.
  - apply bind_inv in E as ([] & v1 & E1 & E). apply bind_inv in E as ([] & v2 & E2 & E).
    apply bind_inv in E as ([] & v3 & E3 & E). apply bind_inv in E as ([] & v4 & E4 & E).
    assert (keeps w v4) as Kv.
    { do 3 (etransitivity; [eapply kept_emit; [|eassumption]; reflexivity|]).
      eapply kept_emit; [|eassumption]. reflexivity. }
    apply bind_inv in E as ([] & w1 & E5 & E). apply bind_inv in E as ([] & w2 & E6 & E).
    apply bind_inv in E as ([] & w3 & E7 & E).
    apply disconnected in E5 as (C5 & I5 & P5); [|by apply Kv, (ok_power w)].
    assert (plugged false w1 w3) as Hp by (eapply (announce false); [by split_and!|done|done|exact E6|exact E7]).
    apply (plugged_ok false v4 w'); [by destruct Kv as (C & _); unfold cable_in; rewrite C| |by eapply hdmi_ok_keeps].
    eapply kept_rest in Hp; [|..|exact E]; [|kept]. destruct Hp as (? & ? & P & ?). rewrite P5 in P. by split_and!.
  - apply bind_inv in E as ([] & w1 & E5 & E). apply bind_inv in E as ([] & w2 & E6 & E).
    apply bind_inv in E as ([] & w3 & E7 & E).
    apply connected in E5 as (C5 & I5 & P5); [|by apply (ok_power w)].
    assert (plugged true w1 w3) as Hp by (eapply (announce true); [by split_and!|done|done|exact E6|exact E7]).
    apply (plugged_ok true w w'); [done| |done].
    eapply kept_rest in Hp; [|..|exact E]; [|kept]. destruct Hp as (? & ? & P & ?). rewrite P5 in P. by split_and!.
Qed.

Lemma hotplug_worker_ok w a w' : hotplug_worker w = Ret (a, w') -> hdmi_ok w -> hdmi_ok w'.
Proof.
  intros E Hok. pose proof kept_check_overflow. unfold hotplug_worker in E.
  apply bind_inv in E as ([] & w1 & E1 & E). apply plug_work_ok in E1; [|done].
  eapply hdmi_ok_keeps; [|exact E1]. revert E. apply kept_bind; [kept|intros ?; kept].
Qed.
End cable.

(** ** Lemmas: a frame buffer that does as it is told *)

(** It takes the screen it is given and says so; the mode of a screen set to a mode has
    that mode's timing. *)
Class fb_obedient `{fb_h} `{HE : hdmi_env} := {
  settled : fb_videomode -> fb_videomode;
  settled_mode v m : fb_var_to_videomode (fb_videomode_to_var v m) = settled m;
  settled_timing m : mode_timing (settled m) = mode_timing m;
  force_mode v : fb_var_to_videomode (var_activate_force v) = fb_var_to_videomode v;
  set_var_obeyed t f :
    fb_set_var t f = (f, [Notify true (FB_EVENT_MODE_CHANGE (Some (fb_var_to_videomode (var f))))]) }.

Section choosing.
Context {FB : fb_h} {ED : edid_h} {FL : fb_lib} {FLL : @fb_lib_laws FL} {HH : hdmi_h} {HL : @hdmi_h_laws HH}
  {HC : hdmi_core} {CL : @hdmi_core_laws HC} {HE : hdmi_env} {FO : @fb_obedient FB FL HE}.

(** The pixel clock of a mode. *)
Definition mode_clock (m : fb_videomode) : Z :=
  u32 ((xres m + left_margin m + right_margin m + hsync_len m) *
       (yres m + upper_margin m + lower_margin m + vsync_len m) * refresh m).

(** Whether a notification of the mode sets it up. *)
Definition is_news (w : world) (m : fb_videomode) : bool :=
  fb_reg (link (hdmi w)) && negb (fb_mode_is_equal (previous_mode (modes (hdmi w))) m).

(** After a notification. *)
Record notified (w w' : world) (m : fb_videomode) : Prop := mk_notified {
  no_list : modelist (fbi w') = modelist (fbi w);
  no_link : link (hdmi w') = mk_link (fb_reg (link (hdmi w))) (cable_plugin (link (hdmi w)))
    (h_blank (link (hdmi w))) (is_news w m && can_show (link (hdmi w)));
  no_modes : modes (hdmi w') = if is_news w m then modes (remember m (hdmi w)) else modes (hdmi w);
  no_power : power_bits (regs w') =
    if is_news w m && can_show (link (hdmi w)) then power_for (mode_clock m) else (false, false, true, false);
  no_timing : is_news w m = true -> timing_fits (mode_timing m) = true -> sent_timing (regs w') = mode_timing m;
  no_clock : is_news w m = true -> clock_of (hdmi w') = mode_clock m }.

Lemma wp_phy_off w :
  coherent w -> wp mxc_hdmi_phy_disable (fun _ w' =>
    fbi w' = fbi w /\ modes (hdmi w') = modes (hdmi w) /\ power_bits (regs w') = (false, false, true, false) /\
    link (hdmi w') = mk_link (fb_reg (link (hdmi w))) (cable_plugin (link (hdmi w))) (h_blank (link (hdmi w))) false) w.
Proof.
  intros Hi. eapply hwp_mono; [apply wp_phy_disable|]. cbn beta. intros _ w'. rewrite coherent_bits in Hi.
  destruct (phy_enabled (link (hdmi w))) eqn:Ep; [|intros ->].
  - intros [(Hh & Hf & _) Hb]. cbn in Hh, Hf. rewrite Hh, Hf. by split_and!.
  - split_and!; [done..|]. destruct (link (hdmi w)); cbn in *; by subst.
Qed.

Lemma hdmi_set_up_modes f vic h : modes (hdmi_set_up f vic h) = modes (remember (fb_var_to_videomode (var f)) h).
Proof. unfold hdmi_set_up. cbv zeta. by destruct (can_show _). Qed.

Lemma hdmi_set_up_clock f vic h : clock_of (hdmi_set_up f vic h) = mode_clock (fb_var_to_videomode (var f)).
Proof. unfold hdmi_set_up. cbv zeta. by destruct (can_show _). Qed.

Lemma wp_notify_fb m w :
  coherent w -> fb_var_to_videomode (var (fbi w)) = m ->
  wp mxc_hdmi_notify_fb (fun _ w' => notified w w' m) w.
Proof.
  intros Hi Hm. unfold mxc_hdmi_notify_fb. hd_step. eapply hwp_mono; [by apply wp_phy_off|]. cbn beta.
  intros _ w1 (Hf1 & Hm1 & Hp1 & Hl1). repeat hd_step. rewrite set_var_obeyed. repeat hd_step. cbn [run_fb_callbacks run_fb_callback mxc_hdmi_fb_event negb].
  cbn [var put_var put_userevent]. rewrite Hf1, force_mode, Hm. repeat hd_step.
  set (w2 := mk_world _ _ _ _ _).
  assert (is_news w m = fb_reg (link (hdmi w1)) && negb (fb_mode_is_equal (previous_mode (modes (hdmi w1))) m)) as Hn
    by (by rewrite Hl1, Hm1).
  rewrite <- Hn. assert (fb_var_to_videomode (var (fbi w2)) = m) as Hm2 by (cbn; by rewrite force_mode).
  destruct (is_news w m) eqn:En.
  - destruct (setup_vic_some (requesting_vga_for_initialization (modes (hdmi w2)))
      (fb_var_to_videomode (var (fbi w2))) (modelist (fbi w2))) as [vic Hv].
    eapply hwp_mono; [by apply (wp_setup vic)|]. cbn beta. intros _ w3 [Hf Ht _ _ Hp].
    pose proof (frame_hdmi _ _ _ Hf) as Hh. destruct Hf as (_ & Hfb & _). cbn [hdmi fbi with_hdmi w2] in Hh, Hfb.
    assert (clock_of (hdmi w3) = mode_clock m) as Hc by (by rewrite Hh, hdmi_set_up_clock, <- Hm2).
    rewrite Hm2 in Ht. rewrite Hc in Hp. cbn [hdmi regs w2] in Hp. rewrite Hl1, Hp1 in Hp.
    repeat hd_step. split; cbn [fbi hdmi regs modelist put_userevent]; rewrite ?En.
    + by rewrite Hfb.
    + rewrite Hh, hdmi_set_up_link, Hl1. unfold can_show. cbn [fb_reg cable_plugin h_blank phy_enabled andb].
      by destruct (fb_reg _ && _ && _).
    + rewrite Hh, hdmi_set_up_modes. unfold remember. cbn. by rewrite Hm1, force_mode, Hm.
    + exact Hp.
    + intros _. exact Ht.
    + intros _. exact Hc.
  - repeat hd_step. split; cbn [fbi hdmi regs modelist put_userevent w2]; rewrite ?En; try done.
Qed.

Lemma wp_kept {A} (m : hd A) Q w : kept m -> wp m Q w -> wp m (fun a w' => Q a w' /\ keeps w w') w.
Proof. unfold wp. intros Hk. destruct (m w) as [[a w']| | |] eqn:E; [|done..]. intros HQ. split; [done|by eapply Hk]. Qed.

(** The mode that is current when the chosen one is announced: the driver's own, set
    up before, or one equal to it. *)
Definition mode_before (h : mxc_hdmi) : fb_videomode :=
  if fb_mode_is_equal (previous_mode (modes h)) (settled vga_mode) then previous_mode (modes h) else settled vga_mode.

(** A change to a mode of the list: up to the announcement of the driver's own mode. *)
Lemma wp_to_vga w :
  coherent w -> fb_reg (link (hdmi w)) = true ->
  wp mxc_hdmi_set_mode_to_vga_dvi (fun _ w' =>
    modelist (fbi w') = modelist (fbi w) /\ coherent w' /\
    fb_reg (link (hdmi w')) = true /\ cable_plugin (link (hdmi w')) = cable_plugin (link (hdmi w)) /\
    h_blank (link (hdmi w')) = h_blank (link (hdmi w)) /\
    modes (hdmi w') = mk_modes (dft_mode_set (modes (hdmi w))) (mode_before (hdmi w))
      (previous_non_vga_mode (modes (hdmi w))) false) w.
Proof.
  intros Hi Hr. unfold mxc_hdmi_set_mode_to_vga_dvi. hd_step.
  eapply hwp_mono; [apply wp_kept; [apply kept_disable_overflow|apply hdmi_disable_overflow_interrupts_framed]|].
  cbn beta. intros _ w1 [F1 K1]. pose proof (frame_hdmi _ _ _ F1) as H1. destruct F1 as (_ & Hf1 & _).
  unfold set_requesting_vga. repeat hd_step. set (w2 := mk_world _ _ _ _ _).
  assert (coherent w2) as Hi2 by (destruct K1 as (_ & _ & _ & K1); exact (K1 Hi)).
  eapply hwp_mono; [apply wp_kept; [apply kept_notify_fb|apply (wp_notify_fb (settled vga_mode)); [done|cbn; apply settled_mode]]|].
  cbn beta. intros _ w3 [[Hl Hk Hm _ _ _] K3]. repeat hd_step.
  assert (coherent w3) as Hi3 by (by apply K3).
  unfold is_news in *. cbn [modelist put_var put_modes modes link w2 hdmi fbi previous_mode] in *. rewrite H1, Hr in *.
  split_and!; [by rewrite Hl, Hf1|exact Hi3|by rewrite Hk|by rewrite Hk|by rewrite Hk|].
  rewrite Hm. unfold mode_before. by destruct (fb_mode_is_equal _ _).
Qed.
End choosing.

(** ** Properties *)

Section properties.
Context {FB : fb_h} {ED : edid_h} {FL : fb_lib} {FLL : @fb_lib_laws FL} {HH : hdmi_h} {HL : @hdmi_h_laws HH}
  {HC : hdmi_core} {CL : @hdmi_core_laws HC} {HE : hdmi_env}.

(** C19: Setting up a mode.  It always returns.  The transmitter is then programmed for
    the screen's mode: the registers of the timing give the mode's numbers back, when
    they fit, the input configuration has its polarities, the conversion matrix is the
    one of the formats and the colorimetry, the frame has the number of the nearest
    mode of the list, and the PHY is powered when there is something to show and the
    clock is in range, else as it was.  No other register changes. *)
Theorem setup_programs (w : world) :
  exists vic w',
    setup_vic (requesting_vga_for_initialization (modes (hdmi w))) (fb_var_to_videomode (var (fbi w)))
      (modelist (fbi w)) = Ret vic /\
    mxc_hdmi_setup w = Ret (tt, w') /\ programmed (fbi w) vic w w'.
Proof.
  destruct (setup_vic_some (requesting_vga_for_initialization (modes (hdmi w)))
    (fb_var_to_videomode (var (fbi w))) (modelist (fbi w))) as [vic Hv].
  pose proof (wp_setup vic w Hv) as Hw. unfold wp in Hw. exists vic.
  destruct (mxc_hdmi_setup w) as [[[] w']| | |]; [|done..]. by exists w'.
Qed.

(** C36: Choosing a mode, on a frame buffer that does as it is told, with something to show
    and a mode that is not the one before.  The driver first announces a mode of its
    own, 1280x800, then the mode chosen.  The transmitter then sends the chosen mode,
    powered when the clock is in range; unless the chosen mode equals the driver's
    own: then the second announcement stops the PHY and nothing starts it again. *)
Theorem mode_chosen {FO : @fb_obedient FB FL HE} (w : world) (mode : fb_videomode) :
  coherent w -> can_show (link (hdmi w)) = true ->
  fb_find_nearest_mode (fb_var_to_videomode (wanted_var (hdmi w))) (modelist (fbi w)) = Some mode ->
  fb_mode_is_equal (previous_non_vga_mode (modes (hdmi w))) mode = false ->
  exists w', mxc_hdmi_set_mode w = Ret (tt, w') /\
    if fb_mode_is_equal (mode_before (hdmi w)) (settled mode)
    then phy_enabled (link (hdmi w')) = false /\ phy_off (regs w') /\
         previous_non_vga_mode (modes (hdmi w')) = previous_non_vga_mode (modes (hdmi w))
    else phy_enabled (link (hdmi w')) = true /\
         (mode_clock (settled mode) <= MAX_CLOCK -> phy_on (regs w')) /\
         (timing_fits (mode_timing mode) = true -> sent_timing (regs w') = mode_timing mode) /\
         previous_non_vga_mode (modes (hdmi w')) = settled mode.
Proof.
  intros Hi Hs Hn He. enough (wp mxc_hdmi_set_mode (fun _ w' => if fb_mode_is_equal (mode_before (hdmi w)) (settled mode)
    then phy_enabled (link (hdmi w')) = false /\ phy_off (regs w') /\
         previous_non_vga_mode (modes (hdmi w')) = previous_non_vga_mode (modes (hdmi w))
    else phy_enabled (link (hdmi w')) = true /\
         (mode_clock (settled mode) <= MAX_CLOCK -> phy_on (regs w')) /\
         (timing_fits (mode_timing mode) = true -> sent_timing (regs w') = mode_timing mode) /\
         previous_non_vga_mode (modes (hdmi w')) = settled mode) w) as Hw.
  { unfold wp in Hw. destruct (mxc_hdmi_set_mode w) as [[[] w']| | |]; [|done..]. by exists w'. }
  pose proof Hs as Hs'. unfold can_show in Hs'. zbool.
  unfold mxc_hdmi_set_mode. repeat hd_step. cbv beta. rewrite Hn, He. repeat hd_step. set (w1 := mk_world _ _ _ _ _).
  eapply hwp_mono; [by apply (wp_to_vga w1)|]. cbn beta. intros _ w2 (Hl2 & Hi2 & Hr2 & Hc2 & Hb2 & Hm2).
  repeat hd_step. set (w3 := mk_world _ _ _ _ _). change (modes (hdmi w2)) with (modes (hdmi w3)) in Hm2.
  change (link (hdmi w2)) with (link (hdmi w3)) in *.
  eapply hwp_mono; [by apply (wp_notify_fb (settled mode)); [|apply settled_mode]|]. cbn beta.
  intros _ w4 [_ Hk4 Hm4 Hp4 Ht4 _].
  change (link (hdmi w1)) with (link (hdmi w)) in *.
  assert (can_show (link (hdmi w3)) = true) as Hs3.
  { unfold can_show. rewrite Hr2, Hc2, Hb2. cbn [andb]. apply andb_true_iff. split; [done|by apply Z.eqb_eq]. }
  assert (is_news w3 (settled mode) = negb (fb_mode_is_equal (mode_before (hdmi w)) (settled mode))) as Hw
    by (unfold is_news; by rewrite Hr2, Hm2).
  rewrite Hw, ?Hs3 in *. destruct (fb_mode_is_equal _ (settled mode)); cbn [negb andb] in *.
  - rewrite Hk4, Hm4, Hm2. cbn. by rewrite phy_off_bits.
  - rewrite Hk4, Hm4. unfold remember. rewrite Hm2. cbn. split_and!; [done| |..|done].
    + intros Hle. apply phy_on_bits. rewrite Hp4. unfold power_for. apply Z.leb_le in Hle. by rewrite Hle.
    + intros Hf. rewrite settled_timing in Ht4. by apply Ht4.
Qed.
End properties.
