(* ===== verification/HdmiInit.v ===== *)
(** * Starting and ending the HDMI driver: [mxc_hdmi.c]

    The functions that take the driver's resources and give them back, and the driver
    as a transition system: from a successful start, whatever interrupts, works,
    notifications and attributes follow. *)

From S2P Require Import Prelude MxcEdid HdmiRegs HdmiTx MxcHdmi.

(** ** What the start is given *)

(** The platform data, the answers of the kernel (an error is negative), the display
    driver's setting. *)
Record init_env `{fb_lib} := mk_init {
  has_plat : bool;
  platform_irq : Z;
  plat_get_pins : option bool;      (** [None]: there is no such function *)
  plat_has_init : bool;
  plat_has_put_pins : bool;
  plat_phy_config : hdmi_phy_reg_config;
  isfr_get : Z; isfr_enable : Z; iahb_get : Z; iahb_enable : Z;
  fb_register_client : Z;
  request_irq : Z;
  sys_nodes : Z;                    (** the last of the five [device_create_file] *)
  drv_dft_mode_str : bytes;
  drv_default_bpp : Z;
  drv_fbi : fb_info }.

Definition EACCES : Z := 13.
Definition EFAULT : Z := 14.
Definition ENODEV : Z := 19.
Definition ENOMEM : Z := 12.
Definition EBUSY : Z := 16.

Section start.
Context {FB : fb_h} {ED : edid_h} {FL : fb_lib} {HH : hdmi_h} {HC : hdmi_core} {HE : hdmi_env}.

(** ** [mxc_hdmi_disp_init] *)

(** The labels of its end, from the last one up; [plat->put_pins()] is called
    whether it exists or not. *)
Definition egetclk1 (e : init_env) : hd unit := if plat_has_put_pins e then emit (Drop RPins) else hd_lift Ub.
Definition erate1 (e : init_env) : hd unit := emit (Drop RIsfrClk);; egetclk1 e.
Definition egetclk2 (e : init_env) : hd unit := emit (IsfrClk false);; erate1 e.
Definition erate2 (e : init_env) : hd unit := emit (Drop RIahbClk);; egetclk2 e.
Definition ereqirq (e : init_env) : hd unit := emit (IahbClk false);; erate2 e.
Definition efbclient (e : init_env) : hd unit := emit (Drop RIrq);; ereqirq e.

(** The data before anything is taken. *)
Definition put_start (e : init_env) (h : mxc_hdmi) : mxc_hdmi :=
  let m := modes h in
  set_blank FB_BLANK_POWERDOWN
    (put_setting (mk_setting (drv_dft_mode_str e) (drv_default_bpp e) (h_phy_config (setting h)))
      (put_modes (mk_modes false (previous_mode m) (previous_non_vga_mode m)
        (requesting_vga_for_initialization m)) h)).

Definition put_phy_config (c : hdmi_phy_reg_config) (h : mxc_hdmi) : mxc_hdmi :=
  put_setting (mk_setting (dft_mode_str (setting h)) (default_bpp (setting h)) c) h.

(** [memset(&hdmi->hdmi_data, 0, ..)], then [rgb_out_enable = true]. *)
Definition first_hdmi_data : hdmi_data_info :=
  mk_data 0 0 0 eITU601 0 0 1 (mk_vmode false false false false false 0 0 0).

(** The modes of the start: the table's, then two of the driver's own. *)
Definition first_modelist : list fb_videomode :=
  fb_add_videomode sxga_mode (fb_add_videomode xga_mode (add_cea_modes [])).

(** From [fb_register_client] on. *)
Definition init_interrupts (e : init_env) : hd (Z * bool) :=
  if fb_register_client e <? 0 then efbclient e;; mret (fb_register_client e, false)
  else
    emit (Take RFbClient);;
    mod_hdmi (put_hdmi_data first_hdmi_data);;
    if request_irq e <? 0 then ereqirq e;; mret (request_irq e, false)
    else emit (Take RIrq);; mret (sys_nodes e, true).

(** The interrupt is set to wait for a plug. *)
Definition arm_hotplug (e : init_env) : hd (Z * bool) :=
  hdmi_writeb HDMI_PHY_HPD HDMI_PHY_POL0;;
  hdmi_writeb HDMI_IH_PHY_STAT0_HPD HDMI_IH_PHY_STAT0;;
  init_interrupts e.

(** With the clocks running. *)
Definition init_screen (e : init_env) : hd (Z * bool) :=
  _ ← hdmi_readb HDMI_DESIGN_ID;
  _ ← hdmi_readb HDMI_REVISION_ID;
  _ ← hdmi_readb HDMI_PRODUCT_ID0;
  _ ← hdmi_readb HDMI_PRODUCT_ID1;
  emit InitClkRegenerator;;
  mod_fbi (put_modelist []);;
  mod_fbi (fun f => put_var (fb_find_mode (var f) (drv_dft_mode_str e) (drv_default_bpp e)) f);;
  emit (Console true);;
  mod_fbi (put_modelist first_modelist);;
  emit (Console false);;
  f ← get_fbi;
  match fb_find_nearest_mode (fb_var_to_videomode (var f)) (modelist f) with
  | None => mret (-1, false)
  | Some mode =>
    mod_fbi (fun f => put_var (fb_videomode_to_var (var f) mode) f);;
    mod_hdmi (fun h => put_disp (mk_display (set_hdmi_cap 1 (edid_cfg (disp h))) (h_edid (disp h))) h);;
    mod_hdmi (fun h => put_irqs (mk_irq (latest_intr_stat (irqs h)) false false) h);;
    arm_hotplug e
  end.

(** The clocks, one after the other. *)
Definition init_clocks (e : init_env) : hd (Z * bool) :=
  if isfr_get e <? 0 then egetclk1 e;; mret (isfr_get e, false)
  else
    emit (Take RIsfrClk);;
    if isfr_enable e <? 0 then erate1 e;; mret (isfr_enable e, false)
    else
      emit (IsfrClk true);;
      if iahb_get e <? 0 then egetclk2 e;; mret (iahb_get e, false)
      else
        emit (Take RIahbClk);;
        if iahb_enable e <? 0 then erate2 e;; mret (iahb_enable e, false)
        else emit (IahbClk true);; init_screen e.

(** The result, and what [hdmi_inited] is then. *)
Definition mxc_hdmi_disp_init (e : init_env) (hdmi_inited : bool) : hd (Z * bool) :=
  if hdmi_inited then mret (-1, true)
  else if negb (has_plat e) || (platform_irq e <? 0) then mret (- ENODEV, false)
  else
    mod_hdmi (put_start e);;
    mod_fbi (fun _ => drv_fbi e);;
    match plat_get_pins e with
    | Some false => mret (- EACCES, false)
    | pins =>
      (if bool_decide (pins = Some true) then emit (Take RPins) else mret tt);;
      (if plat_has_init e then emit PlatInit else mret tt);;
      mod_hdmi (put_phy_config (plat_phy_config e));;
      init_clocks e
    end.

(** ** The end *)

(** Unbinding the device, when it is bound, calls [mxc_hdmi_remove]. *)
Definition mxc_hdmi_remove : hd unit :=
  emit (Drop RFbClient);;
  emit (Drop RSwitches);;
  emit (Drop RDispdrv);;
  emit (Drop RIrq);;
  emit (Drop RMemory).

Definition mxc_hdmi_disp_deinit (has_put_pins bound : bool) : hd unit :=
  emit (Drop RFbClient);;
  emit (IsfrClk false);;
  emit (Drop RIsfrClk);;
  emit (IahbClk false);;
  emit (Drop RIahbClk);;
  (if has_put_pins then emit (Drop RPins) else mret tt);;
  (if bound then mxc_hdmi_remove else mret tt);;
  emit (Drop RMemory).

(** ** [mxc_hdmi_probe] *)

(** What the kernel answers; [true] is success. *)
Record hdmi_probe_env := mk_probe {
  hdmi_i2c : bool; kzalloc_ok : bool; chrdev_major : Z; class_ret : Z; device_ret : Z;
  core_alloc_ok : bool; dispdrv_ret : Z }.

(** Its labels, and the result with what [g_hdmi] is: set, or NULL as before. *)
Definition err_out_chrdev (ret : Z) : hd (Z * bool) := emit (Drop RChrdev);; mret (ret, true).
Definition err_out_class (ret : Z) : hd (Z * bool) := emit (Drop RDevice);; emit (Drop RClass);; err_out_chrdev ret.
Definition ecore (ret : Z) : hd (Z * bool) := emit (Drop RMemory);; err_out_class ret.
Definition edispdrv (ret : Z) : hd (Z * bool) := emit (Drop RCore);; ecore ret.

Definition mxc_hdmi_probe (p : hdmi_probe_env) : hd (Z * bool) :=
  if negb (hdmi_i2c p) then mret (- ENODEV, false)
  else if negb (kzalloc_ok p) then mret (- ENOMEM, false)
  else
    emit (Take RMemory);;
    if chrdev_major p <? 0 then mret (- EBUSY, true)
    else
      emit (Take RChrdev);;
      if class_ret p <? 0 then err_out_chrdev (class_ret p)
      else
        emit (Take RClass);;
        if device_ret p <? 0 then err_out_class (device_ret p)
        else
          emit (Take RDevice);;
          if negb (core_alloc_ok p) then ecore (- ENOMEM)
          else
            emit (Take RCore);;
            if dispdrv_ret p <? 0 then edispdrv (dispdrv_ret p)
            else
              emit (Take RDispdrv);;
              emit (Take RSwitches);;
              mret (0, true).

(** [mxc_hdmi_exit], with a major number: the device, the class and the number that
    the probe took, then the driver is unregistered. *)
Definition mxc_hdmi_exit (major_positive bound : bool) : hd unit :=
  (if major_positive then emit (Drop RDevice);; emit (Drop RClass);; emit (Drop RChrdev) else mret tt);;
  if bound then mxc_hdmi_remove else mret tt.

(** The driver of the bus: whether there is a client in [hdmi_i2c]. *)
Definition mxc_hdmi_i2c_probe (functionality client : bool) : Z * bool :=
  if negb functionality then (- ENODEV, client) else (0, true).
Definition mxc_hdmi_i2c_remove : Z * bool := (0, false).

(** ** [mxc_hdmi_ioctl]

    What is copied out: the data of [g_hdmi], which is dereferenced, or the type of
    the processor, stored without a check of the address. *)
Inductive hdmi_ioctl := HDMI_IOC_GET_RESOURCE | HDMI_IOC_GET_CPU_TYPE | OtherIoctl.
Inductive ioctl_out := OutNothing | OutData (d : hdmi_data_info) | OutCpuType (n : Z).

Definition mxc_hdmi_ioctl (g_hdmi : option mxc_hdmi) (mxc_cpu_type : Z) (copy_ok address_ok : bool) (cmd : hdmi_ioctl)
  : outcome (Z * ioctl_out) :=
  match cmd with
  | HDMI_IOC_GET_RESOURCE =>
    h ← checked g_hdmi; Ret (if copy_ok then (0, OutData (hdmi_data h)) else (- EFAULT, OutNothing))
  | HDMI_IOC_GET_CPU_TYPE => if address_ok then Ret (0, OutCpuType mxc_cpu_type) else Ub
  | OtherIoctl => Ret (0, OutNothing)
  end.

(** ** The driver as a transition system *)

(** One call into the driver. *)
Inductive hdmi_step : world -> world -> Prop :=
| step_hotplug_irq a w w' : mxc_hdmi_hotplug w = Ret (a, w') -> hdmi_step w w'
| step_hotplug_work a w w' :
    hotplug_work (irqs (hdmi w)) = true ->
    hotplug_worker (with_hdmi (put_irqs (mk_irq (latest_intr_stat (irqs (hdmi w))) false
      (hdcp_hdp_work (irqs (hdmi w)))) (hdmi w)) w) = Ret (a, w') -> hdmi_step w w'
| step_hdcp_work a w w' :
    hdcp_hdp_work (irqs (hdmi w)) = true ->
    hdcp_hdp_worker (with_hdmi (put_irqs (mk_irq (latest_intr_stat (irqs (hdmi w)))
      (hotplug_work (irqs (hdmi w))) false) (hdmi w)) w) = Ret (a, w') -> hdmi_step w w'
| step_callback c a w w' : run_fb_callback c w = Ret (a, w') -> hdmi_step w w'
| step_store_rgb v n a w w' : mxc_hdmi_store_rgb_out_enable v n w = Ret (a, w') -> hdmi_step w w'
| step_store_hdcp v n a w w' : mxc_hdmi_store_hdcp_enable v n w = Ret (a, w') -> hdmi_step w w'.

(** A structure fresh from [kzalloc]. *)
Definition mode_zero_memory : mode_memory := mk_modes false mode_zero mode_zero false.
Definition hdmi_zero : mxc_hdmi :=
  mk_hdmi (mk_data 0 0 0 eITU601 0 0 0 (mk_vmode false false false false false 0 0 0)) 0
    (mk_display (cfg_zero vic_max format_max) (replicate (Z.to_nat HDMI_EDID_LEN) 0))
    (mk_link false false 0 false) mode_zero_memory (mk_irq 0 false false)
    (mk_setting [] 0 (mk_phy_config 0 0)).
End start.

(** ** Lemmas: the start *)

Section started.
Context {FB : fb_h} {ED : edid_h} {FL : fb_lib} {FLL : @fb_lib_laws FL} {HH : hdmi_h} {HL : @hdmi_h_laws HH}
  {HC : hdmi_core} {CL : @hdmi_core_laws HC} {HE : hdmi_env}.

(** The driver's structure is fresh, the PHY powered down, and nothing is announced. *)
Definition fresh (w : world) : Prop := hdmi w = hdmi_zero /\ phy_off (regs w) /\ plug_events (events w) = [].

Lemma kept_labels e :
  kept (egetclk1 e) /\ kept (erate1 e) /\ kept (egetclk2 e) /\ kept (erate2 e) /\ kept (ereqirq e) /\ kept (efbclient e).
Proof. unfold efbclient, ereqirq, erate2, egetclk2, erate1, egetclk1. split_and!; kept. Qed.

(** No cable yet, and the interrupt not set. *)
Definition idle (w : world) : Prop := coherent w /\ cable_in w = false /\ plug_events (events w) = [].

Lemma idle_keeps w w' : keeps w w' -> idle w -> idle w'.
Proof. intros (C & _ & E & I) (H1 & H2 & H3). unfold idle, cable_in in *. rewrite C, E. auto. Qed.

(** When [m] succeeds, the driver is in order. *)
Definition starts (m : hd (Z * bool)) : Prop := forall w r w', m w = Ret (r, true, w') -> idle w -> hdmi_ok w'.

Lemma starts_bind {A} (m : hd A) (k : A -> hd (Z * bool)) : kept m -> (forall a, starts (k a)) -> starts (m ≫= k).
Proof.
  intros Hm Hk w r w' E Hi. apply bind_inv in E as (a & w1 & E1 & E). eapply Hk; [exact E|].
  eapply idle_keeps; [by eapply Hm|done].
Qed.

Lemma starts_fail r : starts (mret (r, false)).
Proof. by intros w r' w' [=]. Qed.

Lemma starts_arm e : starts (arm_hotplug e).
Proof.
  assert (kept (init_interrupts e)) as Hint.
  { pose proof (kept_labels e) as (_ & _ & _ & _ & ? & ?). unfold init_interrupts. kept. }
  intros w r w' E (Hi & Hc & Hp). unfold arm_hotplug in E. apply bind_inv in E as ([] & w1 & [= <-] & E).
  set (w1 := mk_world _ _ _ _ _) in E.
  assert (hdmi_ok w1) as Hok.
  { split.
    - unfold coherent, phy_off, conf0_bit in *. cbn [regs hdmi w1]. rewrite upd_ne by done. exact Hi.
    - unfold awaits_plug, cable_in in *. cbn [regs hdmi w1]. rewrite upd_eq, Hc. pose proof hpd_bit.
      rewrite land_u8, Z.land_diag by lia. unfold ctrue. by rewrite (proj2 (Z.eqb_neq _ 0)) by lia.
    - cbn [events w1]. rewrite plug_events_app, Hp. cbn. by rewrite <- Hc. }
  eapply hdmi_ok_keeps; [|exact Hok]. revert E. apply kept_bind; [kept|done].
Qed.
End started.

(** Follow the start. *)
Ltac starts_step :=
  match goal with
  | |- starts (_ ≫= _) => apply starts_bind; [solve [kept]|intros ?]
  | |- starts (mret (_, false)) => apply starts_fail
  | |- starts (arm_hotplug _) => apply starts_arm
  | |- starts (if ?b then _ else _) => destruct b
  | |- starts (match ?x with _ => _ end) => destruct x
  end.
Ltac starts := repeat (cbv beta zeta; starts_step).

Section reachable.
Context {FB : fb_h} {ED : edid_h} {FL : fb_lib} {FLL : @fb_lib_laws FL} {HH : hdmi_h} {HL : @hdmi_h_laws HH}
  {HC : hdmi_core} {CL : @hdmi_core_laws HC} {HE : hdmi_env}.

Lemma starts_clocks e : starts (init_clocks e).
Proof.
  pose proof (kept_labels e) as (? & ? & ? & ? & ? & ?). unfold init_clocks, init_screen. starts.
Qed.

(** A successful start leaves the driver in order. *)
Lemma started_ok e w r w' : fresh w -> mxc_hdmi_disp_init e false w = Ret (r, true, w') -> hdmi_ok w'.
Proof.
  intros (Hh & Hoff & Hp) E. unfold mxc_hdmi_disp_init in E. destruct (_ || _); [done|].
  apply bind_inv in E as ([] & w1 & [= <-] & E). set (w1 := mk_world _ _ _ _ _) in E.
  assert (idle w1) as Hi.
  { unfold idle, coherent, cable_in. cbn [hdmi w1 regs events]. rewrite Hh. by split_and!. }
  revert E Hi. pose proof starts_clocks as Hs.
  enough (starts (mod_fbi (fun _ => drv_fbi e);;
    match plat_get_pins e with
    | Some false => mret (- EACCES, false)
    | pins => (if bool_decide (pins = Some true) then emit (Take RPins) else mret tt);;
      (if plat_has_init e then emit PlatInit else mret tt);;
      mod_hdmi (put_phy_config (plat_phy_config e));; init_clocks e
    end)) as H by (intros E Hi; by eapply H).
  apply starts_bind; [kept|intros _].
  destruct (plat_get_pins e) as [[]|]; [|apply starts_fail|]; repeat (apply starts_bind; [kept|intros _]); apply Hs.
Qed.

(** Every step keeps it so. *)
Lemma hdmi_step_ok w w' : hdmi_step w w' -> hdmi_ok w -> hdmi_ok w'.
Proof.
  assert (forall v h, link h = link (hdmi v) -> hdmi_ok v -> hdmi_ok (with_hdmi h v)) as Hw.
  { intros v h Hl [H1 H2 H3]. unfold coherent, awaits_plug, cable_in in *. split; unfold coherent, awaits_plug, cable_in;
      cbn [regs hdmi events with_hdmi]; by rewrite Hl. }
  intros [a v v' E|a v v' _ E|a v v' _ E|c a v v' E|x n a v v' E|x n a v v' E] Hok.
  - eapply hdmi_ok_keeps; [by eapply kept_hotplug|done].
  - eapply hotplug_worker_ok; [exact E|]. by apply Hw.
  - eapply hdmi_ok_keeps; [eapply (kept_emit (Uevent (s2b "EVENT=hdcpint"))); [reflexivity|exact E]|by apply Hw].
  - eapply hdmi_ok_keeps; [by eapply kept_callback|done].
  - eapply hdmi_ok_keeps; [by eapply kept_store_rgb|done].
  - eapply hdmi_ok_keeps; [by eapply kept_store_hdcp|done].
Qed.

Lemma reachable_ok w w' : rtc hdmi_step w w' -> hdmi_ok w -> hdmi_ok w'.
Proof. induction 1; eauto using hdmi_step_ok. Qed.
End reachable.

(** ** Lemmas: resources *)

Section resources.
Context {FB : fb_h} {ED : edid_h} {FL : fb_lib} {FLL : @fb_lib_laws FL} {HH : hdmi_h} {HL : @hdmi_h_laws HH}
  {HC : hdmi_core} {CL : @hdmi_core_laws HC} {HE : hdmi_env}.

(** How often a resource was taken, less how often it was given back. *)
Definition held_by (r : hdmi_resource) (e : hdmi_event) : Z :=
  match e with
  | Take r' => if decide (r' = r) then 1 else 0
  | Drop r' => if decide (r' = r) then -1 else 0
  | _ => 0
  end.
Definition held (r : hdmi_resource) (l : list hdmi_event) : Z := foldr (fun e n => held_by r e + n) 0 l.

(** The same of the clocks. *)
Definition clock_by (e : hdmi_event) : Z * Z :=
  match e with
  | IsfrClk b => ((if b then 1 else -1), 0)
  | IahbClk b => (0, (if b then 1 else -1))
  | _ => (0, 0)
  end.
Definition clocks (l : list hdmi_event) : Z * Z :=
  foldr (fun e n => (fst (clock_by e) + fst n, snd (clock_by e) + snd n)) (0, 0) l.

(** What a start takes: pins, clocks, the notifications, the interrupt; and the
    clocks that run. *)
Definition start_held (l : list hdmi_event) : list Z * (Z * Z) :=
  (map (fun r => held r l) [RPins; RIsfrClk; RIahbClk; RFbClient; RIrq], clocks l).

(** [m] adds these events. *)
Definition adds {A} (m : hd A) (P : A -> list hdmi_event -> Prop) (w : world) : Prop :=
  wp m (fun a w' => exists l, events w' = events w ++ l /\ P a l) w.

(** What the failures of a start leave. *)
Definition start_result (e : init_env) (r : Z * bool) (l : list hdmi_event) : Prop :=
  let '(ret, inited) := r in
  if (isfr_get e <? 0) || (isfr_enable e <? 0) || (iahb_get e <? 0) || (iahb_enable e <? 0)
  then ret < 0 /\ inited = false /\ start_held l = ([0; 0; 0; 0; 0], (0, 0))
  else if fb_register_client e <? 0
  then ret < 0 /\ inited = false /\ start_held l = ([0; 0; 0; 0; -1], (0, 0))
  else if request_irq e <? 0
  then ret < 0 /\ inited = false /\ start_held l = ([0; 0; 0; 1; 0], (0, 0))
  else ret = sys_nodes e /\ inited = true /\ start_held l = ([1; 1; 1; 1; 1], (1, 1)).

Lemma wp_readb_any r (Q : Z -> world -> Prop) w :
  (forall v k, Q v (mk_world (regs w) k (hdmi w) (fbi w) (events w))) -> wp (hdmi_readb r) Q w.
Proof. intros HQ. unfold wp, hdmi_readb. destruct (is_status r); [apply HQ|]. destruct w. apply HQ. Qed.

(** The end of a start: the events added. *)
Ltac settle Hev :=
  repeat hd_step; eexists; rewrite <- ?app_assoc; (split; [reflexivity|]); cbn [orb];
  destruct Hev as [-> | ->]; split; [lia|split; reflexivity|lia|split; reflexivity].

Lemma wp_disp_init e w :
  has_plat e = true -> 0 <= platform_irq e -> plat_get_pins e = Some true -> plat_has_put_pins e = true ->
  adds (mxc_hdmi_disp_init e false) (start_result e) w.
Proof.
  intros Hp Hi Hg Hpp. unfold adds, mxc_hdmi_disp_init. rewrite Hp, (proj2 (Z.ltb_ge _ 0) Hi), Hg. cbn [negb orb].
  repeat hd_step. rewrite bool_decide_true by done. repeat hd_step.
  assert (forall (Q : unit -> world -> Prop) w0,
    (forall ev, ev = [] \/ ev = [PlatInit] -> Q tt (mk_world (regs w0) (ticks w0) (hdmi w0) (fbi w0) (events w0 ++ ev))) ->
    wp (if plat_has_init e then emit PlatInit else mret tt) Q w0) as Hinit.
  { intros Q w0 HQ. destruct (plat_has_init e); [apply hwp_emit; apply HQ; auto|].
    apply hwp_ret. specialize (HQ [] (or_introl eq_refl)). rewrite app_nil_r in HQ. by destruct w0. }
  apply Hinit. clear Hinit. intros ev Hev. repeat hd_step.
  unfold init_clocks, start_result, efbclient, ereqirq, erate2, egetclk2, erate1, egetclk1. rewrite Hpp.
  destruct (Z.ltb_spec (isfr_get e) 0); [settle Hev|repeat hd_step].
  destruct (Z.ltb_spec (isfr_enable e) 0); [settle Hev|repeat hd_step].
  destruct (Z.ltb_spec (iahb_get e) 0); [settle Hev|repeat hd_step].
  destruct (Z.ltb_spec (iahb_enable e) 0); [settle Hev|repeat hd_step].
  unfold init_screen. do 4 (apply hwp_bind, wp_readb_any; intros ? ?; cbn [regs ticks hdmi fbi events]).
  repeat hd_step.
  destruct (nearest_some (fb_var_to_videomode (fb_find_mode (var (drv_fbi e)) (drv_dft_mode_str e) (drv_default_bpp e)))
    first_modelist) as [m Em]; [apply add_some|]. cbn [var modelist put_var put_modelist]. rewrite Em.
  unfold arm_hotplug, init_interrupts, ereqirq, efbclient, ereqirq, erate2, egetclk2, erate1, egetclk1. rewrite Hpp.
  repeat hd_step.
  destruct (Z.ltb_spec (fb_register_client e) 0); [settle Hev|repeat hd_step].
  destruct (Z.ltb_spec (request_irq e) 0); settle Hev.
Qed.
End resources.

(** ** Properties *)

Section properties.
Context {FB : fb_h} {ED : edid_h} {FL : fb_lib} {FLL : @fb_lib_laws FL} {HH : hdmi_h} {HL : @hdmi_h_laws HH}
  {HC : hdmi_core} {CL : @hdmi_core_laws HC} {HE : hdmi_env}.

(** C18: The driver between its calls.  From a successful start on, whatever interrupts,
    works, notifications and attributes follow: the PHY is started only with a
    display connected and the screen not blank, and is powered down when it is not
    started; the interrupt waits for a plug exactly when no display is connected; and
    the plugs and unplugs announced alternate, the last one telling the cable. *)
Theorem driver_in_order (e : init_env) (w w1 w2 : world) (r : Z) :
  fresh w -> mxc_hdmi_disp_init e false w = Ret (r, true, w1) -> rtc hdmi_step w1 w2 ->
  (if phy_enabled (link (hdmi w2))
   then cable_in w2 = true /\ h_blank (link (hdmi w2)) = FB_BLANK_UNBLANK else phy_off (regs w2)) /\
  awaits_plug w2 = negb (cable_in w2) /\
  plug_run false (plug_events (events w2)) = Some (cable_in w2).
Proof. intros Hw E Hs. apply started_ok in E; [|done]. by destruct (reachable_ok _ _ Hs E). Qed.

(** C37: A start, on a platform with both functions for the pins.  It returns, whatever
    fails.  A failure of a clock leaves nothing taken and no clock running.  When the
    notifications are refused, an interrupt is given back that was not taken; when
    the interrupt is refused, the notifications stay registered.  Else the start
    holds the pins, the clocks, the notifications and the interrupt, and returns what
    the last attribute's creation does. *)
Theorem start_gives_back (e : init_env) (w : world) :
  has_plat e = true -> 0 <= platform_irq e -> plat_get_pins e = Some true -> plat_has_put_pins e = true ->
  exists ret inited w' l, mxc_hdmi_disp_init e false w = Ret (ret, inited, w') /\ events w' = events w ++ l /\
    let held_clocks := start_held l in
    if (isfr_get e <? 0) || (isfr_enable e <? 0) || (iahb_get e <? 0) || (iahb_enable e <? 0)
    then ret < 0 /\ inited = false /\ held_clocks = ([0; 0; 0; 0; 0], (0, 0))
    else if fb_register_client e <? 0
    then ret < 0 /\ inited = false /\ held_clocks = ([0; 0; 0; 0; -1], (0, 0))
    else if request_irq e <? 0
    then ret < 0 /\ inited = false /\ held_clocks = ([0; 0; 0; 1; 0], (0, 0))
    else ret = sys_nodes e /\ inited = true /\ held_clocks = ([1; 1; 1; 1; 1], (1, 1)).
Proof.
  intros Hp Hi Hg Hpp. pose proof (wp_disp_init e w Hp Hi Hg Hpp) as H. unfold adds, wp in H.
  destruct (mxc_hdmi_disp_init e false w) as [[[ret inited] w']| | |]; [|done..].
  destruct H as (l & El & Hl). by exists ret, inited, w', l.
Qed.
End properties.
