(* ===== verification/HdmiEdid.v ===== *)
(** * Reading a display's EDID: [mxc_hdmi.c]

    What the two ways to read an EDID do: over the I2C bus, with [mxc_edid_read] of
    [MxcEdid], and, when the content protection is on, through the transmitter, byte
    by byte, with [mxc_edid_read_internal]. *)

From S2P Require Import Prelude MxcEdid HdmiRegs HdmiTx MxcHdmi.

Section internal.
Context {FB : fb_h} {ED : edid_h} {EL : @edid_h_laws ED} {FL : fb_lib} {HH : hdmi_h} {HC : hdmi_core} {HE : hdmi_env}.

(** A display: the byte at an address of a segment of two blocks. *)
Class display := {
  edid_byte : Z -> Z -> Z;
  edid_byte_ok s a : is_byte (edid_byte s a);
  display_answers n f : status n f HDMI_I2CM_DATAI = edid_byte (f HDMI_I2CM_SEGADDR) (f HDMI_I2CM_ADDRESS) }.

Context {DP : display}.

Definition display_block (k : Z) : bytes := map (fun i => edid_byte (k / 2) (k mod 2 * 0x80 + i)) (seqZ 0 128).

(** The registers of the I2C master. *)
Definition i2cm_regs (r : hreg) : bool :=
  match r with
  | HDMI_IH_I2CM_STAT0 | HDMI_I2CM_ADDRESS | HDMI_I2CM_SEGADDR | HDMI_I2CM_OPERATION | HDMI_I2CM_DIV
  | HDMI_I2CM_SS_SCL_HCNT_1_ADDR | HDMI_I2CM_SS_SCL_HCNT_0_ADDR | HDMI_I2CM_SS_SCL_LCNT_1_ADDR
  | HDMI_I2CM_SS_SCL_LCNT_0_ADDR | HDMI_I2CM_FS_SCL_HCNT_1_ADDR | HDMI_I2CM_FS_SCL_HCNT_0_ADDR
  | HDMI_I2CM_FS_SCL_LCNT_1_ADDR | HDMI_I2CM_FS_SCL_LCNT_0_ADDR | HDMI_I2CM_SLAVE | HDMI_I2CM_INT
  | HDMI_I2CM_CTLINT => true
  | _ => false
  end.

(** [m] returns [b] and leaves the other registers alone. *)
Definition fetches {A} (m : hd A) (b : A) : Prop := forall w, wp m (fun a w' => a = b /\ frame i2cm_regs w w') w.

Lemma fetches_ret {A} (b : A) : fetches (mret b) b.
Proof. intros w. by split. Qed.

Lemma fetches_bind {A B} (m : hd A) (k : A -> hd B) a b : fetches m a -> fetches (k a) b -> fetches (m ≫= k) b.
Proof.
  intros Hm Hk w. apply hwp_bind. eapply hwp_mono; [apply Hm|]. cbn beta. intros a' w1 [-> F].
  eapply hwp_mono; [apply Hk|]. cbn beta. intros b' w2 [-> F2]. split; [done|by etransitivity].
Qed.

Lemma fetches_framed (m : hd unit) : framed i2cm_regs m -> fetches m tt.
Proof. intros Hm w. eapply hwp_mono; [apply Hm|]. by intros [] w' F. Qed.

Lemma i2c_read_framed i k : framed i2cm_regs (hdmi_edid_i2c_read i k).
Proof. unfold hdmi_edid_i2c_read, hdmi_edid_wait_i2c_done. framed. Qed.

Lemma init_i2cm_framed : framed i2cm_regs init_i2cm.
Proof. unfold init_i2cm. framed. Qed.

(** A byte of the display. *)
Lemma i2c_read_fetches i k :
  0 <= i < 128 -> is_byte k -> fetches (hdmi_edid_i2c_read i k) (edid_byte (k / 2) (k mod 2 * 0x80 + i)).
Proof.
  intros Hi Hk w. unfold is_byte in Hk. assert (0 <= k / 2 < 256) by (split; [apply Z.div_pos|apply Z.div_lt_upper_bound]; lia).
  assert (0 <= k mod 2 < 2) by (apply Z.mod_pos_bound; lia). assert (k mod 2 * 128 + i < 256) by lia.
  apply wp_conj; [|apply i2c_read_framed]. unfold hdmi_edid_i2c_read. rewrite !u8_small by lia.
  do 4 (apply hwp_bind, wp_writeb). set (w1 := written _ _ _). unfold hdmi_edid_wait_i2c_done.
  apply hwp_bind. eapply wp_framed; [apply (framed_wait_bits (fun _ => false))|]. intros _ w2 F2. apply hwp_bind.
  assert (status (ticks w2) (regs w2) HDMI_I2CM_DATAI = edid_byte (k / 2) (k mod 2 * 0x80 + i)) as Hb.
  { rewrite display_answers, !(frame_reg _ _ _ _ F2) by done. unfold w1, written. cbn [regs].
    rewrite (upd_ne HDMI_I2CM_OPERATION), upd_eq by done.
    rewrite !(upd_ne HDMI_I2CM_OPERATION), (upd_ne HDMI_I2CM_SEGADDR), upd_eq, !u8_small by (done || lia). done. }
  unfold wp at 1. unfold hdmi_readb. cbn [is_status]. rewrite Hb.
  pose proof (edid_byte_ok (k / 2) (k mod 2 * 0x80 + i)) as Hok. unfold is_byte in Hok. rewrite u8_small by lia.
  apply hwp_bind, wp_writeb, hwp_ret. done.
Qed.

Lemma read_block_fetches n : forall i k,
  0 <= i -> i + Z.of_nat n <= 128 -> is_byte k ->
  fetches (read_block n i k) (map (fun i => edid_byte (k / 2) (k mod 2 * 0x80 + i)) (seqZ i (Z.of_nat n))).
Proof.
  induction n as [|n IH]; intros i k Hi Hn Hk; cbn [read_block]; [apply fetches_ret|].
  rewrite u8_small by done. eapply fetches_bind; [apply i2c_read_fetches; [lia|done]|].
  eapply fetches_bind; [apply IH; [lia..|done]|].
  rewrite (seqZ_cons i) by lia. replace (Z.pred (Z.of_nat (S n))) with (Z.of_nat n) by lia. apply fetches_ret.
Qed.

Lemma read_block_u8 n : forall i k, read_block n i (u8 k) = read_block n i k.
Proof. induction n as [|n IH]; intros i k; cbn [read_block]; [done|]. by rewrite u8_idem, IH. Qed.

Lemma block_fetches k : is_byte k -> fetches (read_block 128 0 k) (display_block k).
Proof. intros Hk. by apply (read_block_fetches 128 0). Qed.

Lemma display_block_length k : length (display_block k) = 128%nat.
Proof. unfold display_block. by rewrite length_map, length_seqZ. Qed.

Lemma display_block_byte k i : 0 <= i < 128 -> arr_rd (display_block k) i = Ret (edid_byte (k / 2) (k mod 2 * 0x80 + i)).
Proof.
  intros Hi. unfold arr_rd, display_block. rewrite (proj2 (Z.leb_le 0 i)) by lia.
  rewrite list_lookup_fmap, lookup_seqZ_lt by lia. cbn. by rewrite Z2Nat.id by lia.
Qed.

(** The block begins like an EDID. *)
Definition edid_head (d : bytes) : Prop := arr_rd d 0 = Ret 0x00 /\ arr_rd d 1 = Ret 0xFF /\ arr_rd d 2 = Ret 0xFF.

Lemma head_fetches : edid_head (display_block 0) -> fetches edid_head_ok true.
Proof.
  unfold edid_head. rewrite !display_block_byte by lia. intros ([= H0] & [= H1] & [= H2]).
  unfold edid_head_ok. assert (is_byte 0) by done.
  eapply fetches_bind; [apply i2c_read_fetches; [lia|done]|].
  rewrite H0. change (negb (0 =? 0)) with false. cbv iota.
  eapply fetches_bind; [apply i2c_read_fetches; [lia|done]|].
  rewrite H1. change (negb (0xFF =? 0xFF)) with false. cbv iota.
  eapply fetches_bind; [apply i2c_read_fetches; [lia|done]|]. rewrite H2. apply fetches_ret.
Qed.

(** A phase of the reading: everything but the I2C master, the configuration, the
    array and the modes of the display is kept. *)
Record reading (w w' : world) (edid : bytes) (cfg : mxc_edid_cfg) (db : list fb_videomode) : Prop := mk_reading {
  rd_hdmi : hdmi w' = put_disp (mk_display cfg edid) (hdmi w);
  rd_modes : modedb (fbi w') = db;
  rd_list : modelist (fbi w') = modelist (fbi w) }.

Lemma wp_step {A B} (m : hd A) (k : A -> hd B) P w (R : outcome (B * world) -> Prop) :
  wp m P w -> (forall a w', P a w' -> R (k a w')) -> R ((m ≫= k) w).
Proof. unfold wp, mbind, hd_bind, outcome_bind. destruct (m w) as [[a w']| | |]; [|done..]. intros HP HR. by apply HR. Qed.

Lemma ret_step {A B} (a : A) (k : A -> hd B) w (R : outcome (B * world) -> Prop) : R (k a w) -> R ((mret a ≫= k) w).
Proof. done. Qed.

Lemma store_step {B} e c (k : unit -> hd B) w (R : outcome (B * world) -> Prop) :
  R (k tt (mk_world (regs w) (ticks w) (put_disp (mk_display c e) (hdmi w)) (fbi w) (events w))) ->
  R ((store_edid e c ≫= k) w).
Proof. done. Qed.

Lemma monspecs_step {B} db e (k : unit -> hd B) w (R : outcome (B * world) -> Prop) :
  (forall f, modelist f = modelist (fbi w) -> modedb f = db ->
    R (k tt (mk_world (regs w) (ticks w) (hdmi w) f (events w)))) ->
  R ((store_monspecs db e ≫= k) w).
Proof. unfold store_monspecs. destruct (monspecs_size _). intros H. by apply H. Qed.

(** The array after the transfers, when [k] extensions are announced. *)
Definition internal_array (k : Z) : bytes :=
  display_block 0 ++ (if k =? 0 then blank 1 else display_block 1) ++ blank 2.

Definition no_cfg : mxc_edid_cfg := cfg_zero vic_max format_max.

Lemma internal_array_drop k :
  drop (Z.to_nat EDID_LENGTH) (internal_array k) = (if k =? 0 then blank 1 else display_block 1) ++ blank 2.
Proof. unfold internal_array. rewrite edid_length_128. by rewrite drop_app_length' by (by rewrite display_block_length). Qed.

Lemma wp_fetch {A} (m : hd A) b (Q : A -> world -> Prop) w :
  fetches m b -> (forall w', frame i2cm_regs w w' -> Q b w') -> wp m Q w.
Proof. intros Hm HQ. eapply hwp_mono; [apply Hm|]. cbn beta. intros a w' [-> F]. auto. Qed.

Lemma wp_store_edid e c Q w :
  Q tt (mk_world (regs w) (ticks w) (put_disp (mk_display c e) (hdmi w)) (fbi w) (events w)) -> wp (store_edid e c) Q w.
Proof. done. Qed.

Lemma wp_blocks k w :
  arr_rd (display_block 0) 0x7E = Ret k -> edid_head (display_block 0) ->
  wp (internal_blocks (blank 4) no_cfg) (fun r w' => r = (internal_array k, k) /\
    reading w w' (internal_array k) no_cfg (modedb (fbi w))) w.
Proof.
  intros Hk Hh. unfold internal_blocks.
  apply hwp_bind, (wp_fetch _ _ _ _ (block_fetches 0 ltac:(done))). intros w1 F1.
  change (blank 4) with ([] ++ blank 1 ++ blank 3).
  apply hwp_bind. eapply hwp_lift; [apply put_block_mid; [done|by rewrite display_block_length]|]. cbn [app].
  apply hwp_bind, wp_store_edid. set (w2 := mk_world _ _ _ _ _).
  apply hwp_bind. eapply hwp_lift; [unfold arr_rd; rewrite lookup_app_l by (rewrite display_block_length; lia); exact Hk|].
  apply hwp_bind. change (blank 3) with (blank 1 ++ blank 2).
  assert (wp (if ctrue k then b1 ← read_block 128 0 1;
      hd_lift (put_block (display_block 0 ++ blank 1 ++ blank 2) EDID_LENGTH b1)
    else mret (display_block 0 ++ blank 1 ++ blank 2)) (fun e w' => e = internal_array k /\ frame i2cm_regs w2 w') w2) as Hb.
  { unfold ctrue, internal_array. destruct (k =? 0); cbn [negb]; [by apply hwp_ret|].
    apply hwp_bind, (wp_fetch _ _ _ _ (block_fetches 1 ltac:(done))). intros w3 F3.
    eapply hwp_lift; [apply put_block_mid; rewrite ?edid_length_128, display_block_length; done|done]. }
  eapply hwp_mono; [exact Hb|]. cbn beta. intros e w3 [-> F3]. apply hwp_bind, wp_store_edid, hwp_ret. split; [done|].
  destruct F1 as (H1 & E1 & _), F3 as (H3 & E3 & _). split; cbn [hdmi fbi]; [by rewrite H3; cbn; rewrite H1| |].
  - by rewrite E3; cbn; rewrite E1.
  - by rewrite E3; cbn; rewrite E1.
Qed.

(** Up to the extensions. *)
Lemma internal_read k w :
  arr_rd (display_block 0) 0x7E = Ret k -> edid_head (display_block 0) ->
  exists w1, reading w w1 (internal_array k) no_cfg (monspecs (internal_array k)) /\
    mxc_edid_read_internal w = internal_extensions (internal_array k) k no_cfg (monspecs (internal_array k)) w1.
Proof.
  intros Hk Hh. unfold mxc_edid_read_internal. cbv zeta. rewrite edid_length_128.
  change (replicate (Z.to_nat (128 * 4)) 0) with (blank 4). fold no_cfg.
  set (R := fun o => exists w1, reading w w1 (internal_array k) no_cfg (monspecs (internal_array k)) /\
    o = internal_extensions (internal_array k) k no_cfg (monspecs (internal_array k)) w1).
  match goal with |- exists w1, _ /\ ?m = _ => change (R m) end.
  eapply wp_step; [apply init_i2cm_framed|]. cbn beta. intros _ w1 F1.
  apply store_step.
  eapply wp_step; [by apply (head_fetches Hh)|]. cbn beta. intros ok w3 [-> F3]. cbn [negb].
  eapply wp_step; [by apply (wp_blocks k)|]. intros ? w4 [-> [H4 _ L4]]. cbv beta iota.
  apply monspecs_step. intros f Lf Df. eexists. split; [|reflexivity].
  destruct F1 as (H1 & E1 & _), F3 as (H3 & E3 & _). split; cbn [hdmi fbi]; [|done|].
  - rewrite H4, H3. cbn. by rewrite H1.
  - by rewrite Lf, L4, E3; cbn; rewrite E1.
Qed.

(** The result of the parser tells the tag of the block. *)
Definition tag_result (tag : Z) : Z := if tag =? 0x2 then 0 else -1.

Lemma parse_result fuel edid tag c db ret c' db' :
  arr_rd edid 0 = Ret tag -> mxc_edid_parse_ext_blk fuel true true edid c db = Ret (ret, c', db') ->
  ret = tag_result tag.
Proof.
  intros Ht. unfold mxc_edid_parse_ext_blk. rewrite Ht. cbn [mbind outcome_bind]. unfold tag_result.
  destruct (tag =? 0x2); cbn [negb]; [|by intros [=]].
  destruct (arr_rd edid 1) as [rev| | |]; cbn [mbind outcome_bind]; [|done..].
  destruct (arr_rd edid 2) as [off| | |]; cbn [mbind outcome_bind]; [|done..].
  match goal with |- context [@mbind outcome _ _ _ ?k ?m] => destruct m as [c1| | |]; cbn [mbind outcome_bind]; [|done..] end.
  match goal with |- context [@mbind outcome _ _ _ ?k ?m] => destruct m as [[c2 m2]| | |]; cbn [mbind outcome_bind]; [|done..] end.
  destruct (timing_loop _ _ _ _) as [m3| | |]; cbn [mbind outcome_bind]; [|done..].
  by destruct (_ || _); intros [=].
Qed.

Lemma array_tag k : k <> 0 ->
  arr_rd (drop (Z.to_nat EDID_LENGTH) (internal_array k)) 0 = arr_rd (display_block 1) 0.
Proof.
  intros Hk. rewrite internal_array_drop, (proj2 (Z.eqb_neq k 0)) by done. unfold arr_rd.
  by rewrite lookup_app_l by (rewrite display_block_length; lia).
Qed.

(** The extensions when the first of them has been parsed. *)
Lemma extensions_run edid k w ret cfg db c0 db0 :
  mxc_edid_parse_ext_blk parse_rounds true true (drop (Z.to_nat EDID_LENGTH) edid) c0 db0 = Ret (ret, cfg, db) ->
  (0 <= ret -> k <= 1) ->
  exists w', internal_extensions edid k c0 db0 w = Ret (if ret <? 0 then - ENOENT else 0, w') /\
    reading w w' edid cfg db.
Proof.
  intros E Hk. unfold internal_extensions.
  set (R := fun o => exists w', o = Ret (if ret <? 0 then - ENOENT else 0, w') /\ reading w w' edid cfg db).
  match goal with |- exists w', ?m = _ /\ _ => change (R m) end.
  eapply wp_step; [by apply (hwp_lift _ _ (fun a w' => a = (ret, cfg, db) /\ w' = w) _ E)|]. cbn beta.
  intros ? ? [-> ->]. cbv beta iota. apply store_step, monspecs_step. intros f Lf Df. unfold R.
  destruct (Z.ltb_spec ret 0); [|rewrite (proj2 (Z.ltb_ge 1 k)) by auto].
  all: eexists; split; [reflexivity|]; by split.
Qed.

(** An announced second extension is read into one byte of an array on the stack, and
    parsed past its end. *)
Lemma segments_overrun n j tmp cfg db w r :
  length tmp = Z.to_nat EDID_LENGTH -> read_segments (S n) j tmp cfg db w <> Ret r.
Proof.
  intros Ht. cbn [read_segments].
  rewrite <- read_block_u8. set (R := fun o : outcome (Z * mxc_edid_cfg * list fb_videomode * world) => o <> Ret r).
  match goal with |- ?m w <> Ret r => change (R (m w)) end.
  eapply wp_step; [exact (block_fetches (u8 j) (is_byte_u8 j) w)|]. cbn beta. intros bs w1 [-> _].
  set (b := List.last _ _). unfold arr_wr. rewrite Ht, edid_length_128.
  change ((0 <=? 1) && (1 <? Z.of_nat (Z.to_nat 128))) with true. cbv iota.
  unfold R, mbind, hd_bind, hd_lift. cbn [mbind outcome_bind].
  rewrite drop_ge by (rewrite length_insert, Ht, edid_length_128; done). done.
Qed.

(** A display with more than one extension, the first of which is one. *)
Lemma extensions_overrun edid k c0 db0 w r :
  1 < k -> length stack_edid = Z.to_nat EDID_LENGTH ->
  arr_rd (drop (Z.to_nat EDID_LENGTH) edid) 0 = Ret 0x2 -> internal_extensions edid k c0 db0 w <> Ret r.
Proof.
  intros Hk Hs Ht. unfold internal_extensions. set (R := fun o : outcome (Z * world) => o <> Ret r).
  match goal with |- ?m w <> Ret r => change (R (m w)) end.
  destruct (mxc_edid_parse_ext_blk _ _ _ _ _ _) as [[[ret cfg] db]| | |] eqn:E; [|done..].
  apply (parse_result _ _ _ _ _ _ _ _ Ht) in E as ->.
  eapply wp_step; [by apply (hwp_lift _ (0, cfg, db) (fun a w' => a = (0, cfg, db) /\ w' = w) w)|]. cbn beta.
  intros ? ? [-> ->]. cbv beta iota. apply store_step, monspecs_step. intros f _ _.
  change (0 <? 0) with false. rewrite (proj2 (Z.ltb_lt 1 k)) by done. cbv iota.
  set (w1 := mk_world _ _ _ _ _). destruct (Z.to_nat k) as [|n] eqn:En; [lia|]. unfold R.
  unfold mbind at 1, hd_bind at 1. destruct (read_segments _ _ _ _ _ w1) as [[[[? ?] ?] w2]| | |] eqn:Es; [|done..].
  by apply segments_overrun in Es.
Qed.

(** The same display through [mxc_edid_read]. *)
Lemma one_extension e0 c0 db0 ret edid cfg db :
  arr_rd (display_block 0) 0x7E = Ret 1 -> edid_head (display_block 0) ->
  mxc_edid_read parse_rounds true vic_max format_max monspecs e0 c0 db0 [Some (display_block 0); Some (display_block 1)] =
    Ret (ret, edid, cfg, db) ->
  exists r', ret = 0 /\ edid = internal_array 1 /\
    mxc_edid_parse_ext_blk parse_rounds true true (drop (Z.to_nat EDID_LENGTH) edid) no_cfg (monspecs edid) =
      Ret (r', cfg, db).
Proof.
  intros Hk (_ & H1 & _). unfold mxc_edid_read. cbn [negb]. rewrite edid_length_128.
  change (replicate (Z.to_nat (128 * 4)) 0) with (blank 4).
  rewrite (readblk_ok _ _ 1) by (rewrite ?H1, ?display_block_length; done). cbn [mbind outcome_bind].
  change (1 <? 0) with false. change (1 =? 0) with false. change (1 <? 1) with false. cbv iota.
  cbn [mbind outcome_bind]. change (0 <? 0) with false. cbv iota. change (Z.to_nat 1) with 1%nat.
  cbn [parse_blocks]. rewrite edid_length_128. change (1 * 128) with 128. change (internal_array 1) with (display_block 0 ++ display_block 1 ++ blank 2).
  fold no_cfg. destruct (mxc_edid_parse_ext_blk _ _ _ _ _ _) as [[[r' c'] db']| | |] eqn:E; cbn [mbind outcome_bind]; [|done..].
  intros [= <- <- <- <-]. by exists r'.
Qed.
End internal.

(** ** Lemmas: the list of modes of a display *)

Section lists.
Context {FB : fb_h} {ED : edid_h} {FL : fb_lib} {HH : hdmi_h} {HC : hdmi_core} {HE : hdmi_env}.

(** What a display says over the bus, whenever it is read: an array, a configuration
    and modes, or a failure. *)
Definition display_answer : Type := option (bytes * mxc_edid_cfg * list fb_videomode).

Definition steady (a : display_answer) : Prop :=
  forall t e c db0,
    let read := mxc_edid_read parse_rounds true vic_max format_max monspecs e c db0 (edid_transfers t) in
    match a with
    | Some (edid, cfg, db) => read = Ret (0, edid, cfg, db)
    | None => exists r e' c' db', read = Ret (r, e', c', db') /\ r < 0
    end.

(** What [mxc_hdmi_read_edid] makes of it. *)
Definition read_status (a : display_answer) (old : bytes) : Z :=
  match a with
  | Some (edid, _, db) =>
    if bool_decide (old = edid) then HDMI_EDID_SAME
    else if (length db =? 0)%nat then HDMI_EDID_NO_MODES else HDMI_EDID_SUCCESS
  | None => HDMI_EDID_FAIL
  end.

(** A read keeps the list of modes, the link and the modes remembered. *)
Record after_read (a : display_answer) (w w' : world) : Prop := mk_after_read {
  ar_list : modelist (fbi w') = modelist (fbi w);
  ar_link : link (hdmi w') = link (hdmi w);
  ar_data : hdmi_data (hdmi w') = hdmi_data (hdmi w);
  ar_disp : match a with
            | Some (edid, cfg, db) => disp (hdmi w') = mk_display cfg edid /\ modedb (fbi w') = db
            | None => True
            end }.

Lemma wp_read_edid a w :
  steady a -> hdcp_enable (hdmi_data (hdmi w)) = 0 ->
  wp mxc_hdmi_read_edid (fun s w' => s = read_status a (h_edid (disp (hdmi w))) /\ after_read a w w') w.
Proof.
  intros Hs Hh. specialize (Hs (ticks w) (h_edid (disp (hdmi w))) (edid_cfg (disp (hdmi w))) (modedb (fbi w))).
  cbv zeta in Hs. unfold mxc_hdmi_read_edid, read_by_i2c, store_edid, store_monspecs. hd_step. hd_step. rewrite Hh. change (negb (ctrue 0)) with true. cbv iota.
  repeat hd_step. destruct a as [[[edid cfg] db]|].
  - eapply hwp_lift; [exact Hs|]. cbv beta iota. destruct (monspecs_size _) as [x y]. change (0 <? 0) with false. cbv iota.
    repeat hd_step. change (0 <? 0) with false. cbv iota. repeat hd_step.
    cbn [disp put_disp h_edid modedb put_monspecs]. unfold read_status.
    destruct (bool_decide _); [apply hwp_ret; by split|]. destruct (_ =? 0)%nat; apply hwp_ret; by split.
  - destruct Hs as (r & e' & c' & db' & Hs & Hr). eapply hwp_lift; [exact Hs|]. cbv beta iota.
    rewrite (proj2 (Z.ltb_lt r 0)) by done. repeat hd_step. rewrite (proj2 (Z.ltb_lt r 0)) by done. repeat hd_step. by split.
Qed.

(** The list of modes for a display. *)
Definition list_for (a : display_answer) (w : world) : list fb_videomode :=
  match a with
  | Some (edid, _, db) =>
    if bool_decide (h_edid (disp (hdmi w)) = edid) || (length db =? 0)%nat then modelist (fbi w)
    else rebuilt_modelist db
  | None => default_modelist
  end.

Lemma same_status edid cfg db : read_status (Some (edid, cfg, db)) edid = HDMI_EDID_SAME.
Proof. unfold read_status. by rewrite bool_decide_true. Qed.

(** The configuration for a display: its own, or that of an HDMI display. *)
Definition cfg_for (a : display_answer) (h : mxc_hdmi) : Prop :=
  match a with
  | Some (edid, cfg, _) => disp h = mk_display cfg edid
  | None => hdmi_cap (edid_cfg (disp h)) = 1
  end.

(** Ready for the choice of a mode. *)
Definition listed (a : display_answer) (w w' : world) : Prop :=
  modelist (fbi w') = list_for a w /\ cfg_for a (hdmi w') /\
  link (hdmi w') = mk_link (fb_reg (link (hdmi w))) true (h_blank (link (hdmi w))) (phy_enabled (link (hdmi w))).

Lemma wp_update_success w :
  wp (update_list HDMI_EDID_SUCCESS) (fun _ w' => modelist (fbi w') = rebuilt_modelist (modedb (fbi w)) /\ hdmi w' = hdmi w) w.
Proof. unfold update_list. change (HDMI_EDID_SUCCESS =? HDMI_EDID_SUCCESS) with true. cbv iota. unfold mxc_hdmi_edid_rebuild_modelist. by repeat hd_step. Qed.

Lemma wp_update_fail w :
  wp (update_list HDMI_EDID_FAIL) (fun _ w' => modelist (fbi w') = default_modelist /\
    link (hdmi w') = link (hdmi w) /\ hdmi_cap (edid_cfg (disp (hdmi w'))) = 1) w.
Proof.
  unfold update_list. change (HDMI_EDID_FAIL =? HDMI_EDID_SUCCESS) with false. change (HDMI_EDID_FAIL =? HDMI_EDID_SAME) with false.
  change (HDMI_EDID_FAIL =? HDMI_EDID_FAIL) with true. cbv iota.
  unfold mxc_hdmi_default_edid_cfg, mxc_hdmi_default_modelist. by repeat hd_step.
Qed.

Lemma connected_lists a w :
  steady a -> hdcp_enable (hdmi_data (hdmi w)) = 0 ->
  exists w1, listed a w w1 /\ mxc_hdmi_cable_connected w = mxc_hdmi_set_mode w1.
Proof.
  intros Hs Hh. set (R := fun o => exists w1, listed a w w1 /\ o = mxc_hdmi_set_mode w1).
  change (R (mxc_hdmi_cable_connected w)). unfold mxc_hdmi_cable_connected.
  set (w0 := mk_world (regs w) (ticks w) (set_cable_plugin true (hdmi w)) (fbi w) (events w)).
  match goal with |- R ((mod_hdmi _;; ?m) w) => change (R (m w0)) end.
  eapply wp_step; [exact (wp_read_edid a w0 Hs Hh)|]. cbn beta. intros ? w1 [-> [L1 K1 D1 A1]].
  assert (hdcp_enable (hdmi_data (hdmi w1)) = 0) as Hh1 by (by rewrite D1).
  pose proof (wp_read_edid a w1 Hs Hh1) as Hagain. destruct a as [[[edid cfg] db]|].
  - destruct A1 as [A1 M1]. rewrite A1 in Hagain. cbn [h_edid] in Hagain. rewrite same_status in Hagain.
    unfold read_status. change (h_edid (disp (hdmi w0))) with (h_edid (disp (hdmi w))).
    destruct (bool_decide (h_edid (disp (hdmi w)) = edid)) eqn:Eb; [|destruct (length db =? 0)%nat eqn:El].
    + exists w1. split; [|done]. unfold listed, list_for. rewrite Eb. split_and!; [exact L1|exact A1|by rewrite K1].
    + change (orb _ _) with true. cbv iota. eapply wp_step; [exact Hagain|]. cbn beta. intros ? w2 [-> [L2 K2 _ [A2 _]]].
      exists w2. split; [|done]. unfold listed, list_for. rewrite Eb, El. split_and!; [by rewrite L2|exact A2|by rewrite K2, K1].
    + change (orb _ _) with false. cbv iota. apply ret_step. eapply wp_step; [apply wp_update_success|].
      cbn beta. intros ? w2 [L2 H2]. exists w2. split; [|done]. unfold listed, list_for. rewrite Eb, El.
      split_and!; [by rewrite L2, M1|unfold cfg_for; by rewrite H2|by rewrite H2, K1].
  - unfold read_status in *. change (orb _ _) with true. cbv iota. eapply wp_step; [exact Hagain|]. cbn beta.
    intros ? w2 [-> [L2 K2 _ _]]. eapply wp_step; [apply wp_update_fail|]. cbn beta. intros ? w3 (L3 & K3 & C3).
    exists w3. split; [|done]. split_and!; [exact L3|exact C3|by rewrite K3, K2, K1].
Qed.
End lists.

(** ** Properties *)

Section properties.
Context {FB : fb_h} {ED : edid_h} {FL : fb_lib} {FLL : @fb_lib_laws FL} {HH : hdmi_h} {HL : @hdmi_h_laws HH}
  {HC : hdmi_core} {CL : @hdmi_core_laws HC} {HE : hdmi_env}.

(** The list of modes when a display is connected that answers the same whenever it
    is read, without content protection.  A display with an EDID that is not the one
    stored and with modes gets the driver's mode and those of its modes that the
    table knows; one that cannot be read, the driver's list, as an HDMI display.  One
    whose new EDID has no modes keeps the list of the display before it: the second
    read finds the EDID stored by the first.  The mode is chosen from that list. *)
Theorem display_list (a : display_answer) (w : world) :
  steady a -> hdcp_enable (hdmi_data (hdmi w)) = 0 ->
  exists w1, mxc_hdmi_cable_connected w = mxc_hdmi_set_mode w1 /\
    modelist (fbi w1) = list_for a w /\ cfg_for a (hdmi w1) /\ cable_in w1 = true.
Proof.
  intros Hs Hh. destruct (connected_lists a w Hs Hh) as (w1 & (L & C & K) & E). exists w1.
  split_and!; [done..|unfold cable_in; by rewrite K].
Qed.

(** Reading an EDID through the transmitter, as with content protection, against
    [mxc_edid_read].  With one extension, the array, the configuration and the modes
    are those of [mxc_edid_read]; the call fails when the extension has another tag,
    where [mxc_edid_read] does not.  With no extension, where [mxc_edid_read]
    succeeds, it fails, as it parses the zeros after the first block.  With more, it
    never returns: it parses what follows an array on its stack. *)
Theorem hdcp_read {EL : @edid_h_laws ED} {DP : display} (w : world) (k tag : Z) :
  edid_head (display_block 0) -> arr_rd (display_block 0) 0x7E = Ret k -> arr_rd (display_block 1) 0 = Ret tag ->
  length stack_edid = Z.to_nat EDID_LENGTH ->
  (k = 0 -> exists w', mxc_edid_read_internal w = Ret (- ENOENT, w')) /\
  (k = 1 -> forall e0 c0 db0 ret edid cfg db,
    mxc_edid_read parse_rounds true vic_max format_max monspecs e0 c0 db0
      [Some (display_block 0); Some (display_block 1)] = Ret (ret, edid, cfg, db) ->
    ret = 0 /\ exists w', mxc_edid_read_internal w = Ret (if tag =? 0x2 then 0 else - ENOENT, w') /\
      disp (hdmi w') = mk_display cfg edid /\ modedb (fbi w') = db) /\
  (1 < k -> tag = 0x2 -> forall r, mxc_edid_read_internal w <> Ret r).
Proof.
  intros Hh Hk Ht Hs. destruct (internal_read k w Hk Hh) as (w1 & [H1 M1 _] & E). rewrite E. split_and!.
  - intros ->. destruct (extensions_run (internal_array 0) 0 w1 (-1) no_cfg (monspecs (internal_array 0)) no_cfg
      (monspecs (internal_array 0))) as (w' & E' & _); [by rewrite internal_array_drop|lia|]. by exists w'.
  - intros -> e0 c0 db0 ret edid cfg db Er. destruct (one_extension _ _ _ _ _ _ _ Hk Hh Er) as (r' & -> & -> & Ep).
    pose proof Ep as Hr. apply (parse_result _ _ tag) in Hr; [|by rewrite array_tag]. split; [done|].
    destruct (extensions_run _ 1 w1 _ _ _ _ _ Ep ltac:(lia)) as (w' & E' & [H2 M2 _]). exists w'.
    rewrite E', Hr. unfold tag_result. split_and!; [by destruct (tag =? 2)|by rewrite H2|done].
  - intros Hk1 -> r. apply extensions_overrun; [done..|]. rewrite array_tag by lia. done.
Qed.
End properties.
