(* ===== verification/HdmiExamples.v ===== *)
(** * The HDMI driver on examples: [mxc_hdmi.c]

    The interfaces of the HDMI files instantiated: a frame buffer, a device with a
    display, displays on the bus; and the theorems of [MxcHdmi], [HdmiInit] and
    [HdmiEdid] applied to them. *)

From S2P Require Import Prelude MxcEdid HdmiRegs HdmiTx MxcHdmi HdmiInit HdmiEdid.

(** ** An example of the outside *)

Section example.
#[local] Existing Instance fb_h_example.
#[local] Existing Instance edid_h_example.

(** A frame buffer whose variables are a mode. *)
Definition same_mode (m1 m2 : fb_videomode) : bool :=
  (xres m1 =? xres m2) && (yres m1 =? yres m2) && (refresh m1 =? refresh m2) && (pixclock m1 =? pixclock m2) &&
  (vmode m1 =? vmode m2).

#[local] Instance fb_lib_example : fb_lib := {|
  fb_var_screeninfo := fb_videomode;
  fb_var_to_videomode := fun v => v;
  fb_videomode_to_var := fun _ m => m;
  var_pixclock := pixclock;
  var_set_size := fun _ _ v => v;
  var_activate_force := fun v => v;
  fb_find_mode := fun _ _ _ => entry 16 cea_entries;
  fb_find_nearest_mode := fun m l => match find (same_mode m) l with Some x => Some x | None => head l end;
  fb_mode_is_equal := same_mode;
  fb_add_videomode := fun m l => if existsb (same_mode m) l then l else l ++ [m];
  FB_MODE_IS_VESA := 4;
  FB_BLANK_UNBLANK := 0;
  FB_BLANK_POWERDOWN := 4 |}.

Lemma fb_lib_example_laws : @fb_lib_laws fb_lib_example.
Proof.
  split; cbn.
  - intros m l x. destruct (find _ l) as [y|] eqn:E.
    + intros [= <-]. apply find_some in E as [E _]. by apply list_elem_of_In.
    + destruct l as [|y l]; [done|]. intros [= <-]. left.
  - intros m [|y l]; [done|]. intros _. destruct (find _ _); [by eexists|by eexists].
  - intros m l. destruct (existsb _ l) eqn:E; [by destruct l|by destruct l].
  - intros m. unfold same_mode. by rewrite !Z.eqb_refl.
  - by split_and!.
Qed.

(** A display that announces [k] extensions, its blocks, and a device it is at. *)
Definition display_base (k : Z) : bytes := [0; 255; 255] ++ replicate 123 0 ++ [k; 0].
Definition display_memory (k s : Z) : bytes :=
  if s =? 0 then display_base k ++ example_ext else example_ext ++ example_ext.
Definition display_byte (k s a : Z) : Z := u8 (nth (Z.to_nat a) (display_memory k s) 0).

Definition device (k : Z) : hdmi_core := {|
  masked := fun data old shift mask => (old .& Z.lnot mask) .| (Z.shiftl data shift .& mask);
  status := fun _ f r =>
    match r with
    | HDMI_I2CM_DATAI => display_byte k (f HDMI_I2CM_SEGADDR) (f HDMI_I2CM_ADDRESS)
    | _ => 0xff
    end |}.

Lemma device_laws k : @hdmi_core_laws (device k).
Proof. by intros data old shift mask. Qed.

Definition device_display (k : Z) : @display (device k).
Proof.
  refine {| edid_byte := display_byte k; edid_byte_ok := fun s a => is_byte_u8 _ |}. intros n f. reflexivity.
Defined.

(** The display at the bus, and the frame buffer's notifications. *)
Definition env_for (db : list fb_videomode) (ts : list transfer) : @hdmi_env fb_lib_example := {|
  monspecs := fun _ => db;
  monspecs_size := fun _ => (52, 32);
  edid_transfers := fun _ => ts;
  fb_set_var := fun _ f => (f, [Notify true (FB_EVENT_MODE_CHANGE (Some (fb_var_to_videomode (var f))))]);
  vic_max := 7;
  format_max := 16;
  stack_var := mode_zero;
  stack_edid := replicate 128 0;
  cpu_is_mx6dl := false;
  CONFIG_MXC_HDMI_CEC := false |}.

Lemma env_obedient db ts : @fb_obedient fb_h_example fb_lib_example (env_for db ts).
Proof. by refine (@Build_fb_obedient _ _ _ (fun m => m) _ _ _ _). Defined.

Definition screen : fb_info := @mk_fb fb_lib_example (entry 16 cea_entries) [] [] 0 0 None false.

(** Registers after a reset: the PHY is powered down. *)
Definition reset_regs : regfile := upd HDMI_PHY_CONF0 (Z.shiftl 1 4) (fun _ => 0).
End example.

(** ** Witnesses *)

Section witnesses.
#[local] Existing Instances fb_h_example edid_h_example edid_h_example_laws.
#[local] Existing Instances fb_lib_example fb_lib_example_laws hdmi_h_example hdmi_h_example_laws.

Definition mode_720p : fb_videomode := entry 4 cea_entries.
Definition mode_1080p : fb_videomode := entry 16 cea_entries.

(** A frame buffer with a list of modes, a display connected to it. *)
Definition screen_of (l : list fb_videomode) : fb_info := @mk_fb fb_lib_example mode_1080p l [] 0 0 None false.

(** No extension, and a frame buffer that does as it is told. *)
Definition plain_device : hdmi_core := device 0.
#[local] Existing Instance plain_device.
#[local] Instance plain_device_laws : @hdmi_core_laws plain_device := device_laws 0.
Definition plain_env : hdmi_env := env_for [] [Some (display_base 0)].
#[local] Existing Instance plain_env.
#[local] Instance plain_obedient : @fb_obedient _ _ plain_env := env_obedient [] [Some (display_base 0)].

Definition connected_world (l : list fb_videomode) : world :=
  mk_world reset_regs 0 (put_disp (mk_display (set_hdmi_cap 1 (cfg_zero 7 16)) [])
    (put_link (mk_link true true 0 false) hdmi_zero)) (screen_of l) [].

Lemma setup_programs_witness :
  exists w', mxc_hdmi_setup (connected_world [mode_720p; mode_1080p]) = Ret (tt, w') /\
    sent_timing (regs w') = mode_timing mode_1080p /\ phy_on (regs w').
Proof.
  destruct (setup_programs (connected_world [mode_720p; mode_1080p])) as (vic & w' & Hv & E & [Hf Ht _ _ Hp]).
  exists w'. split; [exact E|]. split; [apply Ht; vm_compute; reflexivity|].
  apply phy_on_bits. rewrite Hp, (frame_hdmi _ _ _ Hf). vm_compute. reflexivity.
Defined.

(** 1920x1080 is shown; the driver's own mode, the only one of the list, is not. *)
Lemma mode_chosen_witness :
  (exists w', mxc_hdmi_set_mode (connected_world [vga_mode; mode_1080p]) = Ret (tt, w') /\ phy_on (regs w') /\
    sent_timing (regs w') = mode_timing mode_1080p) /\
  (exists w', mxc_hdmi_set_mode (connected_world [vga_mode]) = Ret (tt, w') /\ phy_off (regs w')).
Proof.
  assert (forall l, coherent (connected_world l)) as Hc by (intros l; apply coherent_bits; vm_compute; reflexivity).
  split.
  - destruct (mode_chosen (connected_world [vga_mode; mode_1080p]) mode_1080p) as (w' & E & Hw);
      [apply Hc|vm_compute; reflexivity..|]. exists w'. split; [exact E|].
    destruct Hw as (_ & Hon & Ht & _). split; [apply Hon; vm_compute; discriminate|apply Ht; vm_compute; reflexivity].
  - destruct (mode_chosen (connected_world [vga_mode]) vga_mode) as (w' & E & Hw);
      [apply Hc|vm_compute; reflexivity..|]. exists w'. split; [exact E|]. by destruct Hw as (_ & Hoff & _).
Defined.

(** A platform; the last answers of its start. *)
Definition platform (client irq : Z) : init_env := {|
  has_plat := true; platform_irq := 147; plat_get_pins := Some true; plat_has_init := true; plat_has_put_pins := true;
  plat_phy_config := mk_phy_config 0x294 0x800d; isfr_get := 0; isfr_enable := 0; iahb_get := 0; iahb_enable := 0;
  fb_register_client := client; request_irq := irq; sys_nodes := 0; drv_dft_mode_str := s2b "1920x1080M@60";
  drv_default_bpp := 32; drv_fbi := screen |}.

Definition fresh_world : world := mk_world reset_regs 0 hdmi_zero screen [].

(** The interrupt is refused. *)
Lemma start_gives_back_witness :
  exists ret w' l, mxc_hdmi_disp_init (platform 0 (-16)) false fresh_world = Ret (ret, false, w') /\ ret < 0 /\
    events w' = l /\ start_held l = ([0; 0; 0; 1; 0], (0, 0)).
Proof.
  destruct (start_gives_back (platform 0 (-16)) fresh_world) as (ret & i & w' & l & E & El & Hl); [done..|].
  destruct Hl as (Hr & -> & Hl). exists ret, w', l. by split_and!.
Defined.

(** The world that a call leaves. *)
Definition after {A} (w : world) (o : outcome (A * world)) : world := match o with Ret (_, w') => w' | _ => w end.

Lemma after_ret {A} (a : A) (o : outcome (A * world)) w :
  match o with Ret (a', _) => a' = a | _ => False end -> o = Ret (a, after w o).
Proof. destruct o as [[a' w']| | |]; [|done..]. by intros ->. Qed.

Definition called {A} (m : hd A) (w : world) : world := after w (m w).
Definition returns {A} (o : outcome (A * world)) : bool := match o with Ret _ => true | _ => false end.

Lemma called_step {A} (m : hd A) w0 w :
  (forall a w', m w = Ret (a, w') -> hdmi_step w0 w') -> returns (m w) = true -> hdmi_step w0 (called m w).
Proof. unfold called, after. destruct (m w) as [[a w']| | |]; [|done..]. intros H _. by eapply H. Qed.

(** A start; the frame buffer is registered and its screen lit; a display is plugged
    in, then unplugged. *)
Definition world_started : world := after fresh_world (mxc_hdmi_disp_init (platform 0 0) false fresh_world).
Definition world_registered : world := called (run_fb_callback (Notify true FB_EVENT_FB_REGISTERED)) world_started.
Definition world_lit : world := called (run_fb_callback (Notify true (FB_EVENT_BLANK 0))) world_registered.

Definition work_taken (w : world) : world :=
  with_hdmi (put_irqs (mk_irq (latest_intr_stat (irqs (hdmi w))) false (hdcp_hdp_work (irqs (hdmi w)))) (hdmi w)) w.
Definition world_interrupted : world := called mxc_hdmi_hotplug world_lit.
Definition world_plugged : world := called hotplug_worker (work_taken world_interrupted).
Definition world_interrupted2 : world := called mxc_hdmi_hotplug world_plugged.
Definition world_unplugged : world := called hotplug_worker (work_taken world_interrupted2).

Lemma callback_step c w : returns (run_fb_callback c w) = true -> hdmi_step w (called (run_fb_callback c) w).
Proof. apply called_step. intros a w'. apply step_callback. Qed.

Lemma interrupt_step w : returns (mxc_hdmi_hotplug w) = true -> hdmi_step w (called mxc_hdmi_hotplug w).
Proof. apply called_step. intros a w'. apply step_hotplug_irq. Qed.

Lemma work_step w :
  hotplug_work (irqs (hdmi w)) = true -> returns (hotplug_worker (work_taken w)) = true ->
  hdmi_step w (called hotplug_worker (work_taken w)).
Proof. intros Hw. apply called_step. intros a w'. by apply step_hotplug_work. Qed.

Lemma steps_plugged : rtc hdmi_step world_started world_plugged.
Proof.
  apply (rtc_l _ _ world_registered); [apply callback_step; vm_compute; reflexivity|].
  apply (rtc_l _ _ world_lit); [apply callback_step; vm_compute; reflexivity|].
  apply (rtc_l _ _ world_interrupted); [apply interrupt_step; vm_compute; reflexivity|].
  apply rtc_once, work_step; vm_compute; reflexivity.
Qed.

Lemma steps_unplugged : rtc hdmi_step world_started world_unplugged.
Proof.
  transitivity world_plugged; [apply steps_plugged|].
  apply (rtc_l _ _ world_interrupted2); [apply interrupt_step; vm_compute; reflexivity|].
  apply rtc_once, work_step; vm_compute; reflexivity.
Qed.

Lemma driver_in_order_witness :
  (phy_enabled (link (hdmi world_plugged)) = true /\ awaits_plug world_plugged = false) /\
  (phy_off (regs world_unplugged) /\ awaits_plug world_unplugged = true /\
    plug_events (events world_unplugged) = [true; false]).
Proof.
  assert (fresh fresh_world) as Hf by (split_and!; [done|apply phy_off_bits; vm_compute; reflexivity|done]).
  assert (mxc_hdmi_disp_init (platform 0 0) false fresh_world = Ret (0, true, world_started)) as Es
    by (apply after_ret; vm_compute; reflexivity).
  split.
  - destruct (driver_in_order _ _ _ _ _ Hf Es steps_plugged) as (_ & Ha & _).
    split; [vm_compute; reflexivity|rewrite Ha; vm_compute; reflexivity].
  - destruct (driver_in_order _ _ _ _ _ Hf Es steps_unplugged) as (Hp & Ha & _).
    assert (phy_enabled (link (hdmi world_unplugged)) = false) as Ep by (vm_compute; reflexivity).
    rewrite Ep in Hp. split_and!; [exact Hp|rewrite Ha; vm_compute; reflexivity|vm_compute; reflexivity].
Defined.

(** A display that is read with the modes [db] of its first block. *)
Definition answer_of (db : list fb_videomode) (ts : list transfer) : display_answer :=
  match mxc_edid_read parse_rounds true 7 16 (fun _ => db) [] (cfg_zero 7 16) [] ts with
  | Ret (0, edid, cfg, db) => Some (edid, cfg, db)
  | _ => None
  end.

Definition transfers_of (k : Z) : list transfer := [Some (display_base k); Some example_ext].

(** A display with modes; one without; none at the bus. *)
Lemma display_list_witness :
  (let HE := env_for [mode_720p] (transfers_of 1) in
   exists w1, mxc_hdmi_cable_connected (connected_world []) = mxc_hdmi_set_mode w1 /\
     modelist (fbi w1) = rebuilt_modelist [mode_720p; or_flag 2 mode_1080p; or_flag 2 mode_720p; or_flag 2 (entry 1 cea_entries)]) /\
  (let HE := env_for [] (transfers_of 0) in
   exists w1, mxc_hdmi_cable_connected (connected_world [mode_1080p]) = mxc_hdmi_set_mode w1 /\
     modelist (fbi w1) = [mode_1080p]) /\
  (let HE := env_for [] [None] in
   exists w1, mxc_hdmi_cable_connected (connected_world []) = mxc_hdmi_set_mode w1 /\
     modelist (fbi w1) = default_modelist).
Proof.
  split_and!; intros HE.
  - destruct (display_list (answer_of [mode_720p] (transfers_of 1)) (connected_world [])) as (w1 & E & Hl & _);
      [intros t e c d; vm_compute; reflexivity|done|]. exists w1. split; [exact E|]. rewrite Hl. vm_compute. reflexivity.
  - destruct (display_list (answer_of [] (transfers_of 0)) (connected_world [mode_1080p])) as (w1 & E & Hl & _);
      [intros t e c d; vm_compute; reflexivity|done|]. exists w1. split; [exact E|]. rewrite Hl. vm_compute. reflexivity.
  - destruct (display_list None (connected_world [])) as (w1 & E & Hl & _);
      [intros t e c d; do 4 eexists; split; [vm_compute; reflexivity|done]|done|]. exists w1. by split.
Defined.

Lemma device_head k : @edid_head (@display_block (device k) (device_display k) 0).
Proof. unfold edid_head. rewrite !display_block_byte by lia. split; [|split]; vm_compute; reflexivity. Qed.

(** One extension: both ways agree; none: refused; two: the stack. *)
Lemma hdcp_read_witness :
  (let HC := device 1 in let DP := device_display 1 in
   exists w', mxc_edid_read_internal (connected_world []) = Ret (0, w') /\
     h_edid (disp (hdmi w')) = display_base 1 ++ example_ext ++ blank 2) /\
  (let HC := device 0 in let DP := device_display 0 in
   exists w', mxc_edid_read_internal (connected_world []) = Ret (- ENOENT, w')) /\
  (let HC := device 2 in let DP := device_display 2 in
   forall r, mxc_edid_read_internal (connected_world []) <> Ret r).
Proof.
  split_and!; intros HC DP.
  - destruct (hdcp_read (connected_world []) 1 2) as (_ & H1 & _); [apply device_head|vm_compute; reflexivity..|].
    destruct (H1 eq_refl [] (cfg_zero 7 16) [] 0 (display_base 1 ++ example_ext ++ blank 2)
      (fold_left block_cfg example_blocks (flags_cfg 0 (cfg_zero 7 16))) (concat (map block_modes example_blocks)))
      as (_ & w' & E & Hd & _); [vm_compute; reflexivity|]. exists w'. split; [exact E|]. rewrite Hd. reflexivity.
  - destruct (hdcp_read (connected_world []) 0 2) as (H0 & _); [apply device_head|vm_compute; reflexivity..|]. exact (H0 eq_refl).
  - destruct (hdcp_read (connected_world []) 2 2) as (_ & _ & H2); [apply device_head|vm_compute; reflexivity..|]. exact (H2 eq_refl eq_refl).
Defined.
End witnesses.
