(* ===== verification/PnFrame.v ===== *)
(** * PN533 frames: [pn533.c]

    The two frame formats of the NFC chip's driver, the building of a command
    frame in a socket buffer and the reading of a response.  A format is a record
    of operations, as in the source; [frame_format] is what a format promises to
    the command layer, and the two instances are the standard format and the one
    of the ACR122 reader.  Socket buffers are an interface. *)

From S2P Require Import Prelude.

(** ** Socket buffers

    [skb_mem] is the memory from [skb->data] to the end of the buffer, [skb_len]
    how much of it is data. *)

Class skbuff := {
  sk_buff : Type;
  skb_mem : sk_buff -> bytes;
  skb_len : sk_buff -> Z;
  skb_headroom : sk_buff -> Z;
  skb_store : sk_buff -> bytes -> sk_buff;
  skb_push : sk_buff -> Z -> outcome sk_buff;
  skb_put : sk_buff -> Z -> outcome sk_buff;
  skb_pull : sk_buff -> Z -> outcome sk_buff;
  skb_trim : sk_buff -> Z -> outcome sk_buff }.

Class skbuff_laws `{skbuff} := {
  skb_len_range s : 0 <= skb_len s <= Z.of_nat (length (skb_mem s));
  skb_store_law s f : length f = length (skb_mem s) ->
    skb_mem (skb_store s f) = f /\ skb_len (skb_store s f) = skb_len s;
  skb_push_law s n : 0 <= n <= skb_headroom s ->
    exists s' h, skb_push s n = Ret s' /\ Z.of_nat (length h) = n /\
      skb_mem s' = h ++ skb_mem s /\ skb_len s' = skb_len s + n;
  skb_put_law s n : 0 <= n <= Z.of_nat (length (skb_mem s)) - skb_len s ->
    exists s', skb_put s n = Ret s' /\ skb_mem s' = skb_mem s /\ skb_len s' = skb_len s + n;
  skb_pull_law s n : 0 <= n <= skb_len s ->
    exists s', skb_pull s n = Ret s' /\ skb_mem s' = drop (Z.to_nat n) (skb_mem s) /\
      skb_len s' = skb_len s - n;
  skb_trim_law s n : 0 <= n <= skb_len s ->
    exists s', skb_trim s n = Ret s' /\ skb_mem s' = skb_mem s /\ skb_len s' = n }.

(** What the buffer holds. *)
Definition skb_data `{skbuff} (s : sk_buff) : bytes := take (Z.to_nat (skb_len s)) (skb_mem s).

(** ** Data *)

Definition EIO : Z := 5.

Definition PN533_STD_FRAME_MAX_PAYLOAD_LEN : Z := 263.
Definition PN533_STD_FRAME_DIR_OUT : Z := 0xD4.

(** A frame is the buffer it stands in, from its first byte on. *)
Record pn533_frame_ops := mk_frame_ops {
  tx_frame_init : bytes -> Z -> outcome bytes;
  tx_frame_finish : bytes -> outcome bytes;
  tx_update_payload_len : bytes -> Z -> outcome bytes;
  tx_header_len : Z;
  tx_tail_len : Z;
  rx_is_frame_valid : bytes -> outcome bool;
  rx_frame_size : bytes -> outcome Z;
  rx_header_len : Z;
  rx_tail_len : Z;
  max_payload_len : Z;
  get_cmd_code : bytes -> outcome Z }.

(** Stores of bytes at offsets. *)
Fixpoint store_at (l : list (Z * Z)) (f : bytes) : outcome bytes :=
  match l with
  | [] => Ret f
  | (i, v) :: l => f ← arr_wr f i v; store_at l f
  end.

(** ** The standard frame

    [preamble] is byte 0, [start_frame] bytes 1 and 2 (big endian), [datalen]
    byte 3, [datalen_checksum] byte 4, [data] starts at byte 5. *)

Definition pn533_std_checksum (value : Z) : Z := u8 (Z.lnot value + 1).

(** [for (i = 0; i < datalen; i++)], [n] rounds left. *)
Fixpoint std_data_sum (n : nat) (i sum : Z) (data : bytes) : outcome Z :=
  match n with
  | O => Ret sum
  | S n => b ← arr_rd data i; std_data_sum n (i + 1) (u8 (sum + b)) data
  end.

Definition pn533_std_data_checksum (data : bytes) (datalen : Z) : outcome Z :=
  sum ← std_data_sum (Z.to_nat datalen) 0 0 data; Ret (pn533_std_checksum sum).

Definition pn533_std_tx_frame_init (frame : bytes) (cmd_code : Z) : outcome bytes :=
  store_at [(0, 0); (1, 0x00); (2, 0xFF); (5, PN533_STD_FRAME_DIR_OUT); (6, cmd_code); (3, 2)] frame.

Definition pn533_std_tx_frame_finish (frame : bytes) : outcome bytes :=
  datalen ← arr_rd frame 3;
  frame ← arr_wr frame 4 (pn533_std_checksum datalen);
  dcs ← pn533_std_data_checksum (drop 5 frame) datalen;
  frame ← arr_wr frame (5 + datalen) dcs;
  arr_wr frame (5 + datalen + 1) 0.

Definition pn533_std_tx_update_payload_len (frame : bytes) (len : Z) : outcome bytes :=
  datalen ← arr_rd frame 3; arr_wr frame 3 (u8 (datalen + len)).

(** [frame->start_frame == cpu_to_be16(PN533_STD_FRAME_SOF)] *)
Definition std_start_frame (frame : bytes) : outcome bool :=
  a ← arr_rd frame 1; b ← arr_rd frame 2; Ret ((a =? 0x00) && (b =? 0xFF)).

Definition pn533_std_rx_frame_is_valid (frame : bytes) : outcome bool :=
  sof ← std_start_frame frame;
  if negb sof then Ret false
  else
    datalen ← arr_rd frame 3;
    dlcs ← arr_rd frame 4;
    if negb (pn533_std_checksum datalen =? dlcs) then Ret false
    else
      checksum ← pn533_std_data_checksum (drop 5 frame) datalen;
      dcs ← arr_rd frame (5 + datalen);
      if negb (checksum =? dcs) then Ret false else Ret true.

Definition pn533_std_rx_frame_is_ack (frame : bytes) : outcome bool :=
  sof ← std_start_frame frame;
  if negb sof then Ret false
  else
    datalen ← arr_rd frame 3;
    dlcs ← arr_rd frame 4;
    if negb (datalen =? 0) || negb (dlcs =? 0xFF) then Ret false else Ret true.

Definition pn533_std_rx_frame_size (frame : bytes) : outcome Z :=
  datalen ← arr_rd frame 3; Ret (5 + datalen + 2).

Definition pn533_std_get_cmd_code (frame : bytes) : outcome Z := arr_rd frame 6.

Definition pn533_std_frame_ops : pn533_frame_ops :=
  mk_frame_ops pn533_std_tx_frame_init pn533_std_tx_frame_finish pn533_std_tx_update_payload_len
    (5 + 2) 2 pn533_std_rx_frame_is_valid pn533_std_rx_frame_size (5 + 2) 2
    PN533_STD_FRAME_MAX_PAYLOAD_LEN pn533_std_get_cmd_code.

(** ** The frame of the ACR122 reader

    The CCID header is [type] (byte 0), [datalen] (bytes 1 to 4, in the order of
    the ARM), [slot], [seq] and three parameters; the chip's data follows it at
    byte 10 of a response.  In a command the APDU header (bytes 10 to 13) and a
    length (byte 14) come first, and the data is at byte 15. *)

Definition le32 (x : Z) : bytes := [u8 x; u8 (x ≫ 8); u8 (x ≫ 16); u8 (x ≫ 24)].

Definition ccid_datalen (frame : bytes) : outcome Z :=
  a ← arr_rd frame 1; b ← arr_rd frame 2; c ← arr_rd frame 3; d ← arr_rd frame 4;
  Ret (a + b * 2 ^ 8 + c * 2 ^ 16 + d * 2 ^ 24).

Definition set_ccid_datalen (frame : bytes) (v : Z) : outcome bytes :=
  store_at [(1, u8 v); (2, u8 (v ≫ 8)); (3, u8 (v ≫ 16)); (4, u8 (v ≫ 24))] frame.

Definition pn533_acr122_tx_frame_init (frame : bytes) (cmd_code : Z) : outcome bytes :=
  frame ← arr_wr frame 0 0x6B;
  frame ← set_ccid_datalen frame (4 + 1);
  store_at [(5, 0); (6, 0); (7, 0); (8, 0); (9, 0); (15, PN533_STD_FRAME_DIR_OUT); (16, cmd_code);
    (14, 2); (10, 0xFF); (11, 0); (12, 0); (13, 0)] frame.

Definition pn533_acr122_tx_frame_finish (frame : bytes) : outcome bytes :=
  ccid ← ccid_datalen frame;
  datalen ← arr_rd frame 14;
  set_ccid_datalen frame (u32 (ccid + datalen)).

Definition pn533_acr122_tx_update_payload_len (frame : bytes) (len : Z) : outcome bytes :=
  datalen ← arr_rd frame 14; arr_wr frame 14 (u8 (datalen + len)).

(** The index is an unsigned number from the device. *)
Definition pn533_acr122_is_rx_frame_valid (frame : bytes) : outcome bool :=
  type ← arr_rd frame 0;
  if negb (type =? 0x83) then Ret false
  else
    datalen ← ccid_datalen frame;
    b ← arr_rd frame (10 + u32 (datalen - 2));
    if b =? 0x63 then Ret false else Ret true.

Definition pn533_acr122_rx_frame_size (frame : bytes) : outcome Z :=
  datalen ← ccid_datalen frame; Ret (s32 (u32 (10 + datalen))).

Definition pn533_acr122_get_cmd_code (frame : bytes) : outcome Z := arr_rd frame 11.

Definition pn533_acr122_frame_ops : pn533_frame_ops :=
  mk_frame_ops pn533_acr122_tx_frame_init pn533_acr122_tx_frame_finish pn533_acr122_tx_update_payload_len
    (15 + 2) 0 pn533_acr122_is_rx_frame_valid pn533_acr122_rx_frame_size (10 + 2) 2
    PN533_STD_FRAME_MAX_PAYLOAD_LEN pn533_acr122_get_cmd_code.

(** ** Commands and responses *)

(** [pn533_rx_frame_is_cmd_response]; the sum is an [int]. *)
Definition pn533_rx_frame_is_cmd_response (ops : pn533_frame_ops) (code : Z) (frame : bytes) : outcome bool :=
  c ← get_cmd_code ops frame; Ret (c =? code + 1).

(** [pn533_recv_response]: the status of the command with [code], from the
    status of the transfer and what it stored. *)
Definition pn533_recv_response (ops : pn533_frame_ops) (code : Z) (status : Z) (in_frame : bytes) : outcome Z :=
  if negb (status =? 0) then Ret status
  else
    valid ← rx_is_frame_valid ops in_frame;
    if negb valid then Ret (- EIO)
    else
      response ← pn533_rx_frame_is_cmd_response ops code in_frame;
      if negb response then Ret (- EIO) else Ret 0.

(** [pn533_recv_ack] up to the request for the response. *)
Definition pn533_recv_ack_status (status : Z) (in_frame : bytes) : outcome Z :=
  if negb (status =? 0) then Ret status
  else
    ack ← pn533_std_rx_frame_is_ack in_frame;
    if negb ack then Ret (- EIO) else Ret 0.

(** [ack] of [pn533_send_ack] *)
Definition ack_frame : bytes := [0x00; 0x00; 0xff; 0x00; 0xff; 0x00].

Section commands.
Context `{SK : skbuff}.

Definition pn533_build_cmd_frame (ops : pn533_frame_ops) (cmd_code : Z) (skb : sk_buff) : outcome sk_buff :=
  let payload_len := skb_len skb in
  skb ← skb_push skb (tx_header_len ops);
  skb ← skb_put skb (tx_tail_len ops);
  frame ← tx_frame_init ops (skb_mem skb) cmd_code;
  frame ← tx_update_payload_len ops frame payload_len;
  frame ← tx_frame_finish ops frame;
  Ret (skb_store skb frame).

(** What [pn533_send_async_complete] hands to the callback of the command. *)
Definition response_skb (ops : pn533_frame_ops) (resp : sk_buff) : outcome sk_buff :=
  size ← rx_frame_size ops (skb_mem resp);
  resp ← skb_put resp size;
  resp ← skb_pull resp (rx_header_len ops);
  skb_trim resp (u32 (skb_len resp - rx_tail_len ops)).
End commands.

(** ** Specification *)

(** The longest payload whose length, with the direction and the command, is a
    byte. *)
Definition PAYLOAD_MAX : nat := 253.

Definition sumZ (l : bytes) : Z := foldr Z.add 0 l.

(** What a format promises: the frame it makes of a command, and that it takes
    every response apart that has its form. *)
Class frame_format (ops : pn533_frame_ops) := {
  command_frame : Z -> bytes -> bytes;
  response_frame : Z -> bytes -> bytes -> Prop;
  tx_lens : 0 <= tx_header_len ops /\ 0 <= tx_tail_len ops;
  rx_lens : 0 <= rx_header_len ops /\ 0 <= rx_tail_len ops;
  command_frame_length cmd p :
    Z.of_nat (length (command_frame cmd p)) = tx_header_len ops + Z.of_nat (length p) + tx_tail_len ops;
  command_built cmd h p t rest :
    (length p <= PAYLOAD_MAX)%nat ->
    Z.of_nat (length h) = tx_header_len ops -> Z.of_nat (length t) = tx_tail_len ops ->
    (f ← tx_frame_init ops (h ++ p ++ t ++ rest) cmd;
     f ← tx_update_payload_len ops f (Z.of_nat (length p));
     tx_frame_finish ops f) = Ret (command_frame cmd p ++ rest);
  response_parts code p f :
    response_frame code p f ->
    exists h t, f = h ++ p ++ t /\ Z.of_nat (length h) = rx_header_len ops /\
      Z.of_nat (length t) = rx_tail_len ops /\ Z.of_nat (length f) < 2 ^ 31;
  response_valid code p f rest : response_frame code p f -> rx_is_frame_valid ops (f ++ rest) = Ret true;
  response_size code p f rest :
    response_frame code p f -> rx_frame_size ops (f ++ rest) = Ret (Z.of_nat (length f));
  response_code code p f rest : response_frame code p f -> get_cmd_code ops (f ++ rest) = Ret code }.
Arguments command_frame ops {_}.
Arguments response_frame ops {_}.

(** ** Lemmas: stores in the front of a frame *)

Lemma arr_wr_front (a tl a' : bytes) i v : arr_wr a i v = Ret a' -> arr_wr (a ++ tl) i v = Ret (a' ++ tl).
Proof.
  unfold arr_wr at 1. destruct ((0 <=? i) && (i <? Z.of_nat (length a))) eqn:E; [|done]. intros [= <-]. zbool.
  rewrite arr_wr_in by (rewrite length_app; lia). by rewrite insert_app_l by lia.
Qed.

Lemma store_at_front l : forall a tl a', store_at l a = Ret a' -> store_at l (a ++ tl) = Ret (a' ++ tl).
Proof.
  induction l as [|[i v] l IH]; intros a tl a' E; cbn [store_at] in *; [by injection E as <-|].
  destruct (arr_wr a i v) as [b| | |] eqn:Eb; try done. rewrite (arr_wr_front a tl b) by done.
  cbn [mbind outcome_bind] in *. by apply IH.
Qed.

(** ** Lemmas: the checksums *)

Lemma u8_opp_u8 x : u8 (- u8 x) = u8 (- x).
Proof.
  replace (- u8 x) with (-1 * u8 x) by lia. unfold u8. rewrite Z.mul_mod_idemp_r by lia. f_equal.
Qed.

Lemma u8_near a b : u8 a = u8 b -> -256 < a - b < 256 -> a = b.
Proof.
  unfold u8. intros E Hd. pose proof (Z.div_mod a (2 ^ 8) ltac:(lia)). pose proof (Z.div_mod b (2 ^ 8) ltac:(lia)).
  lia.
Qed.

Lemma std_checksum_opp v : pn533_std_checksum v = u8 (- v).
Proof. unfold pn533_std_checksum. pose proof (Z.add_lnot_diag v). f_equal; lia. Qed.

Lemma sumZ_app l1 l2 : sumZ (l1 ++ l2) = sumZ l1 + sumZ l2.
Proof. unfold sumZ. induction l1 as [|x l1 IH]; cbn; [done|]. cbn in IH. lia. Qed.

Lemma std_data_sum_ok n : forall i sum data,
  (i + n <= length data)%nat ->
  std_data_sum n (Z.of_nat i) (u8 sum) data = Ret (u8 (sum + sumZ (take n (drop i data)))).
Proof.
  induction n as [|n IH]; intros i sum data Hl; cbn [std_data_sum].
  { rewrite take_0. cbn. by rewrite Z.add_0_r. }
  destruct (lookup_lt_is_Some_2 data i ltac:(lia)) as [b Hb]. rewrite arr_rd_nat, Hb. cbn [checked mbind outcome_bind].
  rewrite u8_add_l. replace (Z.of_nat i + 1) with (Z.of_nat (S i)) by lia. rewrite IH by lia.
  rewrite (drop_S data b i Hb). cbn [take]. unfold sumZ. cbn [foldr]. do 2 f_equal. lia.
Qed.

Lemma std_data_checksum_ok data n :
  (n <= length data)%nat ->
  pn533_std_data_checksum data (Z.of_nat n) = Ret (u8 (- sumZ (take n data))).
Proof.
  intros Hl. unfold pn533_std_data_checksum. rewrite Nat2Z.id.
  pose proof (std_data_sum_ok n 0 0 data Hl) as E. change (Z.of_nat 0) with 0 in E. change (u8 0) with 0 in E.
  rewrite E. cbn [mbind outcome_bind]. by rewrite drop_0, std_checksum_opp, u8_opp_u8.
Qed.

(** ** The standard format *)

(** The header and the trailer around the data of a frame. *)
Definition std_frame (preamble postamble : Z) (data : bytes) : bytes :=
  [preamble; 0x00; 0xFF; Z.of_nat (length data); u8 (- Z.of_nat (length data))] ++ data ++
  [u8 (- sumZ data); postamble].

Definition std_response (code : Z) (p f : bytes) : Prop :=
  exists preamble postamble tfi,
    f = std_frame preamble postamble (tfi :: code :: p) /\ (length p <= PAYLOAD_MAX)%nat.

(** Storing the checksums in a frame whose data is in place. *)
Lemma std_finish_ok a b c e data x y rest :
  (length data <= 255)%nat ->
  pn533_std_tx_frame_finish ([a; b; c; Z.of_nat (length data); e] ++ data ++ [x; y] ++ rest) =
    Ret ([a; b; c; Z.of_nat (length data); u8 (- Z.of_nat (length data))] ++ data ++ [u8 (- sumZ data); 0] ++ rest).
Proof.
  intros Hl. unfold pn533_std_tx_frame_finish. remember (length data) as n eqn:En.
  set (tl := data ++ [x; y] ++ rest). change (arr_rd ([a; b; c; Z.of_nat n; e] ++ tl) 3) with (@Ret Z (Z.of_nat n)).
  cbn [mbind outcome_bind]. change ([a; b; c; Z.of_nat n; e] ++ tl) with ([a; b; c; Z.of_nat n] ++ e :: tl).
  rewrite arr_wr_middle by done. cbn [mbind outcome_bind]. rewrite std_checksum_opp.
  change (drop 5 ([a; b; c; Z.of_nat n] ++ ?u :: tl)) with tl. unfold tl.
  rewrite std_data_checksum_ok by (rewrite length_app; lia). rewrite take_app_exact by done.
  cbn [mbind outcome_bind]. set (h := [a; b; c; Z.of_nat n; u8 (- Z.of_nat n)]).
  change ([a; b; c; Z.of_nat n] ++ u8 (- Z.of_nat n) :: data ++ [x; y] ++ rest) with (h ++ data ++ x :: y :: rest).
  assert (length h = 5%nat) as Eh by done.
  rewrite (app_assoc h data), (arr_wr_middle (h ++ data) x) by (rewrite length_app, Eh; lia). cbn [mbind outcome_bind].
  rewrite (app_cons1 (h ++ data) _ (y :: rest)), (arr_wr_middle _ y) by (rewrite !length_app, Eh; cbn [length]; lia).
  by rewrite <- !app_assoc.
Qed.

(** Reading the parts of a frame. *)
Lemma std_frame_data pre post data rest :
  drop 5 (std_frame pre post data ++ rest) = data ++ [u8 (- sumZ data); post] ++ rest.
Proof. unfold std_frame. cbn [app drop]. by rewrite <- app_assoc. Qed.

Lemma std_frame_length pre post data : length (std_frame pre post data) = (7 + length data)%nat.
Proof. unfold std_frame. rewrite !length_app. cbn. lia. Qed.

Lemma std_frame_valid pre post data rest :
  (length data <= 255)%nat -> pn533_std_rx_frame_is_valid (std_frame pre post data ++ rest) = Ret true.
Proof.
  intros Hl. unfold pn533_std_rx_frame_is_valid. set (f := std_frame pre post data ++ rest).
  change (std_start_frame f) with (Ret true). change (arr_rd f 3) with (@Ret Z (Z.of_nat (length data))).
  change (arr_rd f 4) with (@Ret Z (u8 (- Z.of_nat (length data)))). cbn [mbind outcome_bind negb].
  rewrite std_checksum_opp, Z.eqb_refl. cbn [negb]. unfold f. rewrite std_frame_data.
  rewrite std_data_checksum_ok by (rewrite length_app; lia). rewrite take_app_exact by done.
  cbn [mbind outcome_bind].
  assert (arr_rd (std_frame pre post data ++ rest) (5 + Z.of_nat (length data)) = Ret (u8 (- sumZ data))) as ->.
  { rewrite (arr_rd_after [pre; 0; 255; Z.of_nat (length data); u8 (- Z.of_nat (length data))]
      (data ++ [u8 (- sumZ data); post] ++ rest) _ (Z.of_nat (length data))) || idtac.
    unfold std_frame. rewrite <- !app_assoc.
    rewrite (arr_rd_after _ _ _ (Z.of_nat (length data))) by (cbn [length]; lia). apply arr_rd_at. }
  cbn [mbind outcome_bind]. by rewrite Z.eqb_refl.
Qed.

Definition std_command_frame (cmd : Z) (p : bytes) : bytes :=
  std_frame 0 0 (PN533_STD_FRAME_DIR_OUT :: cmd :: p).

Lemma std_command_built cmd h p t rest :
  (length p <= PAYLOAD_MAX)%nat -> length h = 7%nat -> length t = 2%nat ->
  (f ← pn533_std_tx_frame_init (h ++ p ++ t ++ rest) cmd;
   f ← pn533_std_tx_update_payload_len f (Z.of_nat (length p));
   pn533_std_tx_frame_finish f) = Ret (std_command_frame cmd p ++ rest).
Proof.
  intros Hp Hh Ht. unfold PAYLOAD_MAX in Hp.
  destruct h as [|h0 [|h1 [|h2 [|h3 [|h4 [|h5 [|h6 [|]]]]]]]]; try (cbn in Hh; lia).
  destruct t as [|x [|y [|]]]; try (cbn in Ht; lia). set (tl := p ++ [x; y] ++ rest).
  unfold pn533_std_tx_frame_init. erewrite store_at_front by reflexivity. cbn [mbind outcome_bind].
  unfold pn533_std_tx_update_payload_len. change (arr_rd (_ ++ tl) 3) with (@Ret Z 2). cbn [mbind outcome_bind].
  erewrite arr_wr_front by reflexivity. cbn [mbind outcome_bind]. rewrite u8_small by lia. unfold std_command_frame.
  set (data := PN533_STD_FRAME_DIR_OUT :: cmd :: p).
  replace (2 + Z.of_nat (length p)) with (Z.of_nat (length data)) by (cbn [length data]; lia).
  match goal with |- pn533_std_tx_frame_finish ?f = _ => change f
    with ([0; 0; 255; Z.of_nat (length data); h4] ++ data ++ [x; y] ++ rest) end.
  rewrite std_finish_ok by (cbn [length data]; lia). unfold std_frame. by rewrite <- !app_assoc.
Qed.

#[export] Instance std_format : frame_format pn533_std_frame_ops.
Proof.
  refine {| command_frame := std_command_frame; response_frame := std_response |};
    cbn [tx_header_len tx_tail_len rx_header_len rx_tail_len pn533_std_frame_ops].
  - lia.
  - lia.
  - intros cmd p. unfold std_command_frame. rewrite std_frame_length. cbn [length]. lia.
  - intros cmd h p t rest Hp Hh Ht. apply std_command_built; [done|lia|lia].
  - intros code p f (pre & post & tfi & -> & Hp). unfold PAYLOAD_MAX in Hp. unfold std_frame.
    set (data := tfi :: code :: p).
    exists [pre; 0; 255; Z.of_nat (length data); u8 (- Z.of_nat (length data)); tfi; code], [u8 (- sumZ data); post].
    split; [done|]. rewrite !length_app. cbn [length data]. lia.
  - intros code p f rest (pre & post & tfi & -> & Hp). apply std_frame_valid. unfold PAYLOAD_MAX in Hp. cbn. lia.
  - intros code p f rest (pre & post & tfi & -> & Hp). rewrite std_frame_length. cbn [length].
    change (rx_frame_size _ _) with (@Ret Z (5 + Z.of_nat (S (S (length p))) + 2)). f_equal. lia.
  - by intros code p f rest (pre & post & tfi & -> & Hp).
Defined.

(** ** The ACR122 format *)

Lemma le32_value v :
  0 <= v < 2 ^ 32 -> u8 v + u8 (v ≫ 8) * 2 ^ 8 + u8 (v ≫ 16) * 2 ^ 16 + u8 (v ≫ 24) * 2 ^ 24 = v.
Proof.
  intros Hv. rewrite !Z.shiftr_div_pow2 by lia. unfold u8. change (2 ^ 16) with (2 ^ 8 * 2 ^ 8).
  change (2 ^ 24) with (2 ^ 8 * 2 ^ 8 * 2 ^ 8). rewrite <- !Z.div_div by lia.
  set (a := v / 2 ^ 8). set (b := a / 2 ^ 8). set (c := b / 2 ^ 8).
  pose proof (Z.div_mod v (2 ^ 8) ltac:(lia)) as E1. fold a in E1.
  pose proof (Z.div_mod a (2 ^ 8) ltac:(lia)) as E2. fold b in E2.
  pose proof (Z.div_mod b (2 ^ 8) ltac:(lia)) as E3. fold c in E3.
  assert (0 <= c < 2 ^ 8) as Hc.
  { unfold c, b, a. rewrite !Z.div_div by lia. split; [apply Z.div_pos; lia|apply Z.div_lt_upper_bound; lia]. }
  rewrite (Z.mod_small c) by done. lia.
Qed.

(** The CCID header with its five last bytes, and what follows it. *)
Definition ccid_frame (type v : Z) (params data : bytes) : bytes := type :: le32 v ++ params ++ data.

Definition acr122_command_frame (cmd : Z) (p : bytes) : bytes :=
  ccid_frame 0x6B (4 + 1 + (2 + Z.of_nat (length p))) [0; 0; 0; 0; 0]
    ([0xFF; 0; 0; 0; 2 + Z.of_nat (length p); PN533_STD_FRAME_DIR_OUT; cmd] ++ p).

Definition acr122_response (code : Z) (p f : bytes) : Prop :=
  exists params tfi sw1 sw2,
    f = ccid_frame 0x83 (Z.of_nat (length p) + 4) params (tfi :: code :: p ++ [sw1; sw2]) /\
    length params = 5%nat /\ sw1 <> 0x63 /\ (length p <= PAYLOAD_MAX)%nat.

Lemma ccid_datalen_ok type v params data :
  0 <= v < 2 ^ 32 -> ccid_datalen (ccid_frame type v params data) = Ret v.
Proof. intros Hv. rewrite <- (le32_value v) at 2 by done. reflexivity. Qed.

Lemma ccid_frame_app type v params data rest :
  ccid_frame type v params data ++ rest = ccid_frame type v params (data ++ rest).
Proof. unfold ccid_frame. cbn [app le32]. by rewrite <- app_assoc. Qed.

Lemma ccid_frame_length type v params data :
  length (ccid_frame type v params data) = (5 + length params + length data)%nat.
Proof. unfold ccid_frame. cbn [length app le32]. rewrite length_app. lia. Qed.

Lemma set_ccid_datalen_ok type a b c d v tl :
  set_ccid_datalen (type :: a :: b :: c :: d :: tl) v = Ret (type :: le32 v ++ tl).
Proof.
  unfold set_ccid_datalen. change (type :: a :: b :: c :: d :: tl) with ([type; a; b; c; d] ++ tl).
  erewrite store_at_front by reflexivity. done.
Qed.

Lemma acr122_command_built cmd h p rest :
  (length p <= PAYLOAD_MAX)%nat -> length h = 17%nat ->
  (f ← pn533_acr122_tx_frame_init (h ++ p ++ rest) cmd;
   f ← pn533_acr122_tx_update_payload_len f (Z.of_nat (length p));
   pn533_acr122_tx_frame_finish f) = Ret (acr122_command_frame cmd p ++ rest).
Proof.
  intros Hp Hh. unfold PAYLOAD_MAX in Hp.
  destruct h as [|h0 [|h1 [|h2 [|h3 [|h4 [|h5 [|h6 [|h7 [|h8 [|h9 [|h10 [|h11 [|h12 [|h13 [|h14 [|h15 [|h16
    [|]]]]]]]]]]]]]]]]]]; try (cbn in Hh; lia).
  unfold pn533_acr122_tx_frame_init. erewrite arr_wr_front by reflexivity. cbn [mbind outcome_bind].
  match goal with |- context [set_ccid_datalen (?l ++ ?tl) _] => change (l ++ tl) with
    (0x6B :: h1 :: h2 :: h3 :: h4 :: [h5; h6; h7; h8; h9; h10; h11; h12; h13; h14; h15; h16] ++ tl) end.
  rewrite set_ccid_datalen_ok. cbn [mbind outcome_bind].
  match goal with |- context [store_at ?o (?t :: ?l ++ ?l' ++ ?tl)] =>
    change (t :: l ++ l' ++ tl) with ((t :: l ++ l') ++ tl) end.
  erewrite store_at_front by reflexivity. cbn [mbind outcome_bind].
  unfold pn533_acr122_tx_update_payload_len. change (arr_rd (_ ++ p ++ rest) 14) with (@Ret Z 2). cbn [mbind outcome_bind].
  erewrite arr_wr_front by reflexivity. cbn [mbind outcome_bind]. rewrite u8_small by lia.
  unfold pn533_acr122_tx_frame_finish. set (n := 2 + Z.of_nat (length p)).
  change (arr_rd (_ ++ p ++ rest) 14) with (@Ret Z n). change (ccid_datalen (_ ++ p ++ rest)) with (@Ret Z 5).
  cbn [mbind outcome_bind]. rewrite u32_small by lia.
  change (set_ccid_datalen _ ?v) with (set_ccid_datalen (0x6B :: 5 :: 0 :: 0 :: 0 ::
    [0; 0; 0; 0; 0; 0xFF; 0; 0; 0; n; PN533_STD_FRAME_DIR_OUT; cmd] ++ p ++ rest) v).
  rewrite set_ccid_datalen_ok. done.
Qed.

#[export] Instance acr122_format : frame_format pn533_acr122_frame_ops.
Proof.
  refine {| command_frame := acr122_command_frame; response_frame := acr122_response |};
    cbn [tx_header_len tx_tail_len rx_header_len rx_tail_len rx_is_frame_valid rx_frame_size get_cmd_code
      pn533_acr122_frame_ops].
  - lia.
  - lia.
  - intros cmd p. unfold acr122_command_frame. rewrite ccid_frame_length, length_app. cbn [length]. lia.
  - intros cmd h p t rest Hp Hh Ht. assert (t = []) as -> by (apply length_zero_iff_nil; lia).
    apply acr122_command_built; [done|lia].
  - intros code p f (params & tfi & sw1 & sw2 & -> & Hl & Hsw & Hp). unfold PAYLOAD_MAX in Hp.
    exists (0x83 :: le32 (Z.of_nat (length p) + 4) ++ params ++ [tfi; code]), [sw1; sw2].
    rewrite ccid_frame_length. split; [|cbn [length]; rewrite !length_app; cbn; rewrite ?length_app; cbn; lia].
    unfold ccid_frame. cbn [app le32]. by rewrite <- !app_assoc.
  - intros code p f rest (params & tfi & sw1 & sw2 & -> & Hl & Hsw & Hp). unfold PAYLOAD_MAX in Hp.
    unfold pn533_acr122_is_rx_frame_valid. rewrite ccid_frame_app, ccid_datalen_ok by lia.
    change (arr_rd (ccid_frame 131 _ _ _) 0) with (@Ret Z 0x83). cbn [mbind outcome_bind].
    change (131 =? 131) with true. cbn [negb]. rewrite u32_small by lia.
    assert (ccid_frame 131 (Z.of_nat (length p) + 4) params ((tfi :: code :: p ++ [sw1; sw2]) ++ rest) =
      (0x83 :: le32 (Z.of_nat (length p) + 4) ++ params ++ tfi :: code :: p) ++ sw1 :: sw2 :: rest) as ->.
    { unfold ccid_frame. cbn [app le32]. rewrite <- !app_assoc. cbn [app]. done. }
    rewrite arr_rd_middle by (cbn [length app le32]; rewrite length_app; cbn [length]; lia).
    cbn [mbind outcome_bind]. by rewrite (proj2 (Z.eqb_neq sw1 0x63)).
  - intros code p f rest (params & tfi & sw1 & sw2 & -> & Hl & Hsw & Hp). unfold PAYLOAD_MAX in Hp.
    unfold pn533_acr122_rx_frame_size. rewrite ccid_frame_length. rewrite ccid_frame_app, ccid_datalen_ok by lia.
    cbn [mbind outcome_bind length]. rewrite length_app. rewrite u32_small, s32_small by (unfold INT_MIN, INT_MAX; lia).
    cbn [length]. f_equal. lia.
  - intros code p f rest (params & tfi & sw1 & sw2 & -> & Hl & Hsw & Hp).
    destruct params as [|p0 [|p1 [|p2 [|p3 [|p4 [|]]]]]]; by try (cbn in Hl; lia).
Defined.

(** ** Lemmas: a corrupted frame *)

Lemma sumZ_insert (l : bytes) i old b : l !! i = Some old -> sumZ (<[i:=b]> l) = sumZ l - old + b.
Proof.
  intros Hl. rewrite insert_take_drop by (by eapply lookup_lt_Some).
  rewrite <- (take_drop_middle l i old) at 3 by done. rewrite !sumZ_app. unfold sumZ. cbn [foldr]. lia.
Qed.

Lemma arr_rd_insert_ne (f : bytes) i j b :
  i <> Z.of_nat j -> arr_rd (<[j:=b]> f) i = arr_rd f i.
Proof.
  intros Hne. unfold arr_rd. destruct (Z.leb_spec 0 i); [|done]. rewrite list_lookup_insert_ne; [done|].
  intros ->. lia.
Qed.

Lemma arr_rd_insert (f : bytes) j b : (j < length f)%nat -> arr_rd (<[j:=b]> f) (Z.of_nat j) = Ret b.
Proof. intros Hj. rewrite arr_rd_nat. by rewrite list_lookup_insert_eq. Qed.

Lemma arr_rd_byte (f : bytes) i b : bytes_ok f -> arr_rd f i = Ret b -> is_byte b.
Proof.
  unfold arr_rd. intros Hf. case_match; [|done]. destruct (f !! Z.to_nat i) as [x|] eqn:E; [|done]. intros [= <-].
  by eapply (proj1 (Forall_lookup _ _)) in Hf.
Qed.

(** When the validity check succeeds. *)
Lemma std_valid_inv f :
  pn533_std_rx_frame_is_valid f = Ret true ->
  exists dl, arr_rd f 1 = Ret 0x00 /\ arr_rd f 2 = Ret 0xFF /\ arr_rd f 3 = Ret dl /\
    arr_rd f 4 = Ret (u8 (- dl)) /\
    exists cs, pn533_std_data_checksum (drop 5 f) dl = Ret cs /\ arr_rd f (5 + dl) = Ret cs.
Proof.
  unfold pn533_std_rx_frame_is_valid, std_start_frame. intros E.
  destruct (arr_rd f 1) as [a| | |] eqn:E1; try done. destruct (arr_rd f 2) as [b| | |] eqn:E2; try done.
  cbn [mbind outcome_bind] in E. destruct ((a =? 0) && (b =? 255)) eqn:Esof; [|done]. cbn [negb] in E. zbool. subst.
  destruct (arr_rd f 3) as [dl| | |] eqn:E3; try done. cbn [mbind outcome_bind] in E.
  destruct (arr_rd f 4) as [cs| | |] eqn:E4; try done. cbn [mbind outcome_bind] in E.
  destruct (pn533_std_checksum dl =? cs) eqn:Ecs; [|done]. zbool. subst. cbn [negb] in E.
  destruct (pn533_std_data_checksum _ _) as [k| | |] eqn:E5; try done. cbn [mbind outcome_bind] in E.
  destruct (arr_rd f (5 + dl)) as [d| | |] eqn:E6; try done. cbn [mbind outcome_bind] in E.
  destruct (k =? d) eqn:Ed; [|done]. zbool. subst. exists dl. rewrite std_checksum_opp. by eauto 10.
Qed.

(** The check of a header that a frame's length does not agree with. *)
Lemma std_invalid_header f a b dl cs :
  arr_rd f 1 = Ret a -> arr_rd f 2 = Ret b -> arr_rd f 3 = Ret dl -> arr_rd f 4 = Ret cs ->
  a <> 0x00 \/ b <> 0xFF \/ cs <> u8 (- dl) -> pn533_std_rx_frame_is_valid f = Ret false.
Proof.
  intros E1 E2 E3 E4 Hne. unfold pn533_std_rx_frame_is_valid, std_start_frame. rewrite E1, E2. cbn [mbind outcome_bind].
  destruct ((a =? 0) && (b =? 255)) eqn:Esof; [|done]. zbool. subst. cbn [negb]. rewrite E3, E4. cbn [mbind outcome_bind].
  rewrite std_checksum_opp, (proj2 (Z.eqb_neq _ _)); [done|]. destruct Hne as [?|[?|?]]; congruence.
Qed.

(** The check of data that does not agree with its checksum. *)
Lemma std_invalid_data f n d :
  arr_rd f 1 = Ret 0x00 -> arr_rd f 2 = Ret 0xFF -> arr_rd f 3 = Ret (Z.of_nat n) ->
  arr_rd f 4 = Ret (u8 (- Z.of_nat n)) -> (5 + n < length f)%nat -> arr_rd f (5 + Z.of_nat n) = Ret d ->
  d <> u8 (- sumZ (take n (drop 5 f))) -> pn533_std_rx_frame_is_valid f = Ret false.
Proof.
  intros E1 E2 E3 E4 Hl E5 Hd. unfold pn533_std_rx_frame_is_valid, std_start_frame. rewrite E1, E2.
  cbn [mbind outcome_bind]. change ((0 =? 0) && (255 =? 255)) with true. cbn [negb]. rewrite E3, E4.
  cbn [mbind outcome_bind]. rewrite std_checksum_opp, Z.eqb_refl. cbn [negb].
  rewrite std_data_checksum_ok by (rewrite length_drop; lia). cbn [mbind outcome_bind]. rewrite E5.
  cbn [mbind outcome_bind]. by rewrite (proj2 (Z.eqb_neq _ _)) by done.
Qed.

(** A byte of the header is another one. *)
Lemma corrupted_header (f : bytes) (n i : nat) (old b : Z) :
  (n < 256)%nat -> is_byte old -> is_byte b -> b <> old -> (5 < length f)%nat ->
  arr_rd f 1 = Ret 0x00 -> arr_rd f 2 = Ret 0xFF -> arr_rd f 3 = Ret (Z.of_nat n) ->
  arr_rd f 4 = Ret (u8 (- Z.of_nat n)) -> (1 <= i <= 4)%nat -> arr_rd f (Z.of_nat i) = Ret old ->
  pn533_std_rx_frame_is_valid (<[i:=b]> f) = Ret false.
Proof.
  unfold is_byte. intros Hn Holdb Hb Hne Hl E1 E2 E3 E4 Hi Hrd.
  assert (forall j, j <> Z.of_nat i -> arr_rd (<[i:=b]> f) j = arr_rd f j) as Hother by (intros; by apply arr_rd_insert_ne).
  assert (arr_rd (<[i:=b]> f) (Z.of_nat i) = Ret b) as Hnew by (apply arr_rd_insert; lia).
  assert (i = 1 \/ i = 2 \/ i = 3 \/ i = 4)%nat as [-> |[-> |[-> | ->]]] by lia;
    change (Z.of_nat 1) with 1 in *; change (Z.of_nat 2) with 2 in *; change (Z.of_nat 3) with 3 in *;
    change (Z.of_nat 4) with 4 in *;
    eapply std_invalid_header; try exact Hnew; try (rewrite Hother by lia; eassumption).
  - left. congruence.
  - right. left. congruence.
  - right. right. intros E. apply u8_near in E; [|lia]. assert (Z.of_nat n = old) by congruence. lia.
  - right. right. congruence.
Qed.

(** A byte of the data, or the checksum, is another one. *)
Lemma corrupted_data (f : bytes) (n i : nat) (old b : Z) :
  is_byte old -> is_byte b -> b <> old -> (5 + n < length f)%nat ->
  arr_rd f 1 = Ret 0x00 -> arr_rd f 2 = Ret 0xFF -> arr_rd f 3 = Ret (Z.of_nat n) ->
  arr_rd f 4 = Ret (u8 (- Z.of_nat n)) -> arr_rd f (5 + Z.of_nat n) = Ret (u8 (- sumZ (take n (drop 5 f)))) ->
  (5 <= i <= 5 + n)%nat -> f !! i = Some old ->
  pn533_std_rx_frame_is_valid (<[i:=b]> f) = Ret false.
Proof.
  unfold is_byte. intros Holdb Hb Hne Hl E1 E2 E3 E4 E5 Hi Hold.
  assert (forall j, j <> Z.of_nat i -> arr_rd (<[i:=b]> f) j = arr_rd f j) as Hother by (intros; by apply arr_rd_insert_ne).
  destruct (decide (i = 5 + n)%nat) as [->|Hin].
  - apply (std_invalid_data _ n b); try (rewrite Hother by lia; done); [rewrite length_insert; lia| |].
    + replace (5 + Z.of_nat n) with (Z.of_nat (5 + n)) by lia. apply arr_rd_insert. lia.
    + rewrite drop_insert_ge, take_insert_ge by lia. intros ->.
      replace (5 + Z.of_nat n) with (Z.of_nat (5 + n)) in E5 by lia. rewrite arr_rd_nat, Hold in E5. by injection E5.
  - eapply (std_invalid_data _ n); try (rewrite Hother by lia; eassumption); [rewrite length_insert; lia|].
    rewrite drop_insert_ge, take_insert_lt by lia. rewrite (sumZ_insert _ _ old)
      by (rewrite lookup_take_lt, lookup_drop by lia; by replace (5 + (i - 5))%nat with i by lia).
    intros E. apply u8_near in E; lia.
Qed.

(** ** Lemmas: socket buffers *)

Section buffers.
Context `{SL : skbuff_laws}.

(** The buffer that the format's operations work on. *)
Lemma build_cmd_frame_mem (ops : pn533_frame_ops) `{FF : !frame_format ops} (cmd : Z) (req : sk_buff) :
  tx_header_len ops <= skb_headroom req ->
  tx_tail_len ops <= Z.of_nat (length (skb_mem req)) - skb_len req ->
  exists s h, Z.of_nat (length h) = tx_header_len ops /\ skb_mem s = h ++ skb_mem req /\
    skb_len s = skb_len req + tx_header_len ops + tx_tail_len ops /\
    pn533_build_cmd_frame ops cmd req =
      (f ← tx_frame_init ops (h ++ skb_mem req) cmd;
       f ← tx_update_payload_len ops f (skb_len req);
       f ← tx_frame_finish ops f; Ret (skb_store s f)).
Proof.
  intros Hhead Htail. destruct tx_lens as [Ht0 Ht1]. unfold pn533_build_cmd_frame.
  destruct (skb_push_law req (tx_header_len ops)) as (s1 & h & -> & Hh & Hm1 & Hl1); [lia|]. cbn [mbind outcome_bind].
  pose proof (skb_len_range req) as Hr.
  destruct (skb_put_law s1 (tx_tail_len ops)) as (s2 & -> & Hm2 & Hl2); [rewrite Hm1, length_app; lia|].
  cbn [mbind outcome_bind]. rewrite Hm2, Hm1. exists s2, h. rewrite Hm2, Hm1. by split_and!; try lia.
Qed.

Lemma command_sent (ops : pn533_frame_ops) `{FF : !frame_format ops} (cmd : Z) (p : bytes) (req : sk_buff) :
  (length p <= PAYLOAD_MAX)%nat -> skb_data req = p ->
  tx_header_len ops <= skb_headroom req ->
  tx_tail_len ops <= Z.of_nat (length (skb_mem req)) - skb_len req ->
  exists req', pn533_build_cmd_frame ops cmd req = Ret req' /\ skb_data req' = command_frame ops cmd p.
Proof.
  intros Hp Hdata Hhead Htail. destruct tx_lens as [Ht0 Ht1]. pose proof (skb_len_range req) as Hr.
  destruct (build_cmd_frame_mem ops cmd req Hhead Htail) as (s & h & Hh & Hm & Hl & ->). unfold skb_data in Hdata.
  set (d := drop (Z.to_nat (skb_len req)) (skb_mem req)).
  assert (skb_mem req = p ++ d) as Hmem by (rewrite <- Hdata; symmetry; apply take_drop).
  assert (Z.of_nat (length p) = skb_len req) as Hpl by (rewrite <- Hdata, length_take; lia).
  assert (length (skb_mem req) = length p + length d)%nat as Hd by (by rewrite Hmem, length_app).
  set (t := take (Z.to_nat (tx_tail_len ops)) d). set (r := drop (Z.to_nat (tx_tail_len ops)) d).
  assert (d = t ++ r) as Hdtr by (symmetry; apply take_drop).
  assert (Z.of_nat (length t) = tx_tail_len ops) as Htl by (unfold t; rewrite length_take; lia).
  pose proof (command_built cmd h p t r Hp Hh Htl) as E. rewrite Hmem, Hdtr, <- Hpl.
  destruct (tx_frame_init ops (h ++ p ++ t ++ r) cmd) as [f1| | |]; try done. cbn [mbind outcome_bind] in *.
  destruct (tx_update_payload_len ops f1 _) as [f2| | |]; try done. cbn [mbind outcome_bind] in *. rewrite E.
  cbn [mbind outcome_bind]. eexists. split; [done|]. unfold skb_data.
  pose proof (command_frame_length cmd p) as Hcl.
  destruct (skb_store_law s (command_frame ops cmd p ++ r)) as [-> ->].
  { rewrite Hm, Hmem, Hdtr, !length_app. lia. }
  apply take_app_exact. lia.
Qed.

(** The standard format's operations on a payload whose length wraps around. *)
Lemma std_long_frame cmd h p rest :
  (PAYLOAD_MAX < length p <= Z.to_nat PN533_STD_FRAME_MAX_PAYLOAD_LEN)%nat -> length h = 7%nat ->
  exists f, (f ← pn533_std_tx_frame_init (h ++ p ++ rest) cmd;
    f ← pn533_std_tx_update_payload_len f (Z.of_nat (length p));
    pn533_std_tx_frame_finish f) = Ret f /\
  length f = length (h ++ p ++ rest) /\ arr_rd f 3 = Ret (Z.of_nat (length p) - 254).
Proof.
  unfold PAYLOAD_MAX, PN533_STD_FRAME_MAX_PAYLOAD_LEN. intros Hp Hh.
  destruct h as [|h0 [|h1 [|h2 [|h3 [|h4 [|h5 [|h6 [|]]]]]]]]; try (cbn in Hh; lia). set (tl := p ++ rest).
  assert (length p <= length tl)%nat as Htl by (unfold tl; rewrite length_app; lia).
  unfold pn533_std_tx_frame_init. erewrite store_at_front by reflexivity. cbn [mbind outcome_bind].
  unfold pn533_std_tx_update_payload_len. change (arr_rd (_ ++ tl) 3) with (@Ret Z 2). cbn [mbind outcome_bind].
  erewrite arr_wr_front by reflexivity. cbn [mbind outcome_bind].
  replace (u8 (2 + Z.of_nat (length p))) with (Z.of_nat (length p - 254)).
  2: { unfold u8. rewrite <- (Z.mod_add _ (-1)), Z.mod_small by lia. lia. }
  set (k := (length p - 254)%nat). unfold pn533_std_tx_frame_finish.
  change (arr_rd (_ ++ tl) 3) with (@Ret Z (Z.of_nat k)). cbn [mbind outcome_bind].
  erewrite arr_wr_front by reflexivity. cbn [mbind outcome_bind].
  match goal with |- context [drop 5 ?l] => set (g := l) end.
  assert (length g = (7 + length tl)%nat) as Hg by done.
  assert (arr_rd g 3 = Ret (Z.of_nat k)) as Hg3 by done.
  rewrite std_data_checksum_ok by (rewrite length_drop; lia). cbn [mbind outcome_bind].
  rewrite arr_wr_in by lia. cbn [mbind outcome_bind]. rewrite arr_wr_in by (rewrite length_insert; lia).
  eexists. split; [done|]. rewrite !length_insert. split; [rewrite Hg; done|].
  rewrite !arr_rd_insert_ne by lia. rewrite Hg3. f_equal. lia.
Qed.

Lemma response_accepted (ops : pn533_frame_ops) `{FF : !frame_format ops} (cmd : Z) (q f rest : bytes) :
  response_frame ops (cmd + 1) q f -> pn533_recv_response ops cmd 0 (f ++ rest) = Ret 0.
Proof.
  intros Hresp. unfold pn533_recv_response, pn533_rx_frame_is_cmd_response. change (0 =? 0) with true. cbn [negb].
  rewrite (response_valid _ _ _ _ Hresp). cbn [mbind outcome_bind negb].
  rewrite (response_code _ _ _ _ Hresp). cbn [mbind outcome_bind]. by rewrite Z.eqb_refl.
Qed.

Lemma response_delivered (ops : pn533_frame_ops) `{FF : !frame_format ops} (code : Z) (q f rest : bytes)
  (resp : sk_buff) :
  response_frame ops code q f -> skb_len resp = 0 -> skb_mem resp = f ++ rest ->
  exists resp', response_skb ops resp = Ret resp' /\ skb_data resp' = q.
Proof.
  intros Hresp Hlen Hmem. destruct rx_lens as [Hr0 Hr1]. unfold response_skb.
  rewrite Hmem, (response_size _ _ _ _ Hresp). cbn [mbind outcome_bind].
  destruct (response_parts _ _ _ Hresp) as (h & t & Hf & Hh & Ht & Hbig).
  assert (length f = length h + length q + length t)%nat as Hfl by (rewrite Hf, !length_app; lia).
  destruct (skb_put_law resp (Z.of_nat (length f))) as (s1 & -> & Hm1 & Hl1); [rewrite Hmem, length_app; lia|].
  cbn [mbind outcome_bind].
  destruct (skb_pull_law s1 (rx_header_len ops)) as (s2 & -> & Hm2 & Hl2); [lia|]. cbn [mbind outcome_bind].
  rewrite u32_small by lia.
  destruct (skb_trim_law s2 (skb_len s2 - rx_tail_len ops)) as (s3 & -> & Hm3 & Hl3); [lia|].
  eexists. split; [done|]. unfold skb_data. rewrite Hm3, Hm2, Hm1, Hmem, Hf, <- !app_assoc.
  rewrite drop_app_exact by lia. apply take_app_exact. lia.
Qed.
End buffers.

(** ** Properties *)

Section properties.
Context `{SL : skbuff_laws}.


(** A payload of 254 to 263 bytes, which the driver accepts (its longest is
    263), does not fit the length byte of the standard frame.  The command is
    sent all the same, and its length byte is the length modulo 256: the frame
    announces at most 9 of its bytes. *)
Theorem std_long_payload_wraps (cmd : Z) (p : bytes) (req : sk_buff) :
  (PAYLOAD_MAX < length p <= Z.to_nat (max_payload_len pn533_std_frame_ops))%nat -> skb_data req = p ->
  tx_header_len pn533_std_frame_ops <= skb_headroom req ->
  tx_tail_len pn533_std_frame_ops <= Z.of_nat (length (skb_mem req)) - skb_len req ->
  exists req', pn533_build_cmd_frame pn533_std_frame_ops cmd req = Ret req' /\
    Z.of_nat (length (skb_data req')) = 7 + Z.of_nat (length p) + 2 /\
    arr_rd (skb_data req') 3 = Ret (Z.of_nat (length p) + 2 - 256).
Proof.
  intros Hp Hdata Hhead Htail. pose proof (skb_len_range req) as Hr.
  destruct (build_cmd_frame_mem pn533_std_frame_ops cmd req Hhead Htail) as (s & h & Hh & Hm & Hl & ->).
  cbn [tx_header_len tx_tail_len pn533_std_frame_ops] in *. unfold skb_data in Hdata.
  set (d := drop (Z.to_nat (skb_len req)) (skb_mem req)).
  assert (skb_mem req = p ++ d) as Hmem by (rewrite <- Hdata; symmetry; apply take_drop).
  assert (Z.of_nat (length p) = skb_len req) as Hpl by (rewrite <- Hdata, length_take; lia).
  destruct (std_long_frame cmd h p d Hp ltac:(lia)) as (f & E & Hlf & H3). rewrite Hmem, <- Hpl.
  cbn [tx_frame_init tx_update_payload_len tx_frame_finish pn533_std_frame_ops].
  destruct (pn533_std_tx_frame_init _ _) as [f1| | |]; try done. cbn [mbind outcome_bind] in *.
  destruct (pn533_std_tx_update_payload_len _ _) as [f2| | |]; try done. cbn [mbind outcome_bind] in *. rewrite E.
  cbn [mbind outcome_bind]. eexists. split; [done|]. unfold skb_data.
  destruct (skb_store_law s f) as [-> ->]; [by rewrite Hm, Hmem|].
  assert (length f = length h + length (skb_mem req))%nat as Hfl by (by rewrite Hlf, Hmem, length_app).
  rewrite length_take. split; [lia|]. unfold arr_rd in *. rewrite lookup_take_lt by lia.
  rewrite H3. f_equal. lia.
Qed.
End properties.

(** what the checksums detect.  In the memory for a response (272 bytes), a
    frame that is valid is invalid once any one of the bytes from the start code
    to the data checksum is another byte. *)
Theorem corrupted_frame_invalid (f : bytes) (n : nat) (i : nat) (old b : Z) :
  length f = 272%nat -> bytes_ok f -> pn533_std_rx_frame_is_valid f = Ret true ->
  f !! 3%nat = Some (Z.of_nat n) -> (1 <= i <= 5 + n)%nat -> f !! i = Some old -> is_byte b -> b <> old ->
  pn533_std_rx_frame_is_valid (<[i:=b]> f) = Ret false.
Proof.
  intros Hl Hf Hv Hn Hi Hold Hb Hne.
  assert (forall j x, f !! j = Some x -> is_byte x) as Hbytes
    by (intros j x Hj; by eapply (proj1 (Forall_lookup _ _)) in Hf).
  pose proof (Hbytes _ _ Hn) as Hnb. pose proof (Hbytes _ _ Hold) as Holdb. unfold is_byte in Hnb.
  apply std_valid_inv in Hv as (dl & E1 & E2 & E3 & E4 & cs & Ecs & E5).
  assert (arr_rd f 3 = Ret (Z.of_nat n)) as E by (change 3 with (Z.of_nat 3); by rewrite arr_rd_nat, Hn).
  rewrite E in E3. injection E3 as <-.
  rewrite std_data_checksum_ok in Ecs by (rewrite length_drop; lia). injection Ecs as <-.
  destruct (decide (i <= 4)%nat).
  - apply (corrupted_header f n i old b); try done; [lia..|]. by rewrite arr_rd_nat, Hold.
  - apply (corrupted_data f n i old b); done || lia.
Qed.

(** ** Witnesses

    A socket buffer as three lists: the headroom, the data and the tailroom. *)

Section witnesses.

Record plain_skb := mk_skb { before : bytes; inside : bytes; after : bytes }.

Definition zlen (l : bytes) : Z := Z.of_nat (length l).

#[local] Instance plain_skbuff : skbuff := {|
  sk_buff := plain_skb;
  skb_mem s := inside s ++ after s;
  skb_len s := zlen (inside s);
  skb_headroom s := zlen (before s);
  skb_store s f := mk_skb (before s) (take (length (inside s)) f) (drop (length (inside s)) f);
  skb_push s n :=
    if n <=? zlen (before s)
    then Ret (mk_skb (take (Z.to_nat (zlen (before s) - n)) (before s))
           (drop (Z.to_nat (zlen (before s) - n)) (before s) ++ inside s) (after s))
    else Halt;
  skb_put s n :=
    if n <=? zlen (after s)
    then Ret (mk_skb (before s) (inside s ++ take (Z.to_nat n) (after s)) (drop (Z.to_nat n) (after s)))
    else Halt;
  skb_pull s n :=
    if n <=? zlen (inside s)
    then Ret (mk_skb (before s ++ take (Z.to_nat n) (inside s)) (drop (Z.to_nat n) (inside s)) (after s))
    else Ret s;
  skb_trim s n :=
    if n <? zlen (inside s)
    then Ret (mk_skb (before s) (take (Z.to_nat n) (inside s)) (drop (Z.to_nat n) (inside s) ++ after s))
    else Ret s |}.

#[local] Instance plain_skbuff_laws : skbuff_laws.
Proof.
  split; cbn; unfold zlen.
  - intros s. rewrite length_app. lia.
  - intros s f Hf. rewrite length_app in Hf. rewrite take_drop, length_take. split; [done|lia].
  - intros s n Hn. rewrite (proj2 (Z.leb_le _ _)) by lia. eexists _, _. split; [done|]. cbn. split; cycle 1.
    + rewrite app_assoc. split; [done|]. rewrite length_app, length_drop. lia.
    + rewrite length_drop. lia.
  - intros s n Hn. rewrite length_app in Hn. rewrite (proj2 (Z.leb_le _ _)) by lia. eexists. split; [done|]. cbn.
    rewrite <- app_assoc, take_drop, length_app, length_take. split; [done|lia].
  - intros s n Hn. rewrite (proj2 (Z.leb_le _ _)) by lia. eexists. split; [done|]. cbn.
    rewrite length_drop, drop_app_le by lia. split; [done|lia].
  - intros s n Hn. destruct (Z.ltb_spec n (Z.of_nat (length (inside s)))).
    + eexists. split; [done|]. cbn. rewrite app_assoc, take_drop, length_take. split; [done|lia].
    + eexists. split; [done|]. split; [done|lia].
Qed.

Definition example_req : sk_buff := mk_skb (replicate 20 0xEE) [1; 2; 3] [0xEE; 0xEE].
Definition example_resp (f : bytes) : sk_buff := mk_skb [] [] (f ++ replicate 200 0).


(** 262 bytes of data and the target number. *)
Lemma std_long_payload_wraps_witness :
  exists req', pn533_build_cmd_frame pn533_std_frame_ops 0x40
    (mk_skb (replicate 20 0) (replicate 263 1) (replicate 2 0)) = Ret req' /\
    Z.of_nat (length (skb_data req')) = 7 + Z.of_nat (length (replicate 263 1)) + 2 /\
    arr_rd (skb_data req') 3 = Ret (Z.of_nat (length (replicate 263 1)) + 2 - 256).
Proof.
  apply std_long_payload_wraps; try reflexivity.
  - split; [apply Nat.leb_le; reflexivity|apply Nat.leb_le; reflexivity].
  - vm_compute. discriminate.
Defined.
End witnesses.

Definition received_frame : bytes := std_frame 0 0 [0xD5; 0x41; 0; 7] ++ replicate 261 0.

Lemma corrupted_frame_invalid_witness :
  pn533_std_rx_frame_is_valid (<[8%nat := 6]> received_frame) = Ret false.
Proof.
  apply (corrupted_frame_invalid received_frame 4 8 7 6); try reflexivity; try lia.
  - unfold bytes_ok, received_frame, std_frame. repeat apply Forall_app_2; repeat apply Forall_cons_2;
      try apply Forall_nil_2; try (apply Forall_replicate); vm_compute; intuition congruence.
  - unfold is_byte. lia.
Defined.
