(* ===== verification/PnQueue.v ===== *)
(** * PN533 commands: [pn533.c]

    The command queue of the driver as a state machine: sending, the two
    completions of the incoming transfer, the three works that the queue uses,
    and the collection of a response that comes in several parts.

    A step runs to its end before the next one (the driver's lock, and its
    ordered workqueue); in particular a transfer completes after the function
    that submitted it has returned. *)

From S2P Require Import Prelude PnFrame.

Definition ENOMEM : Z := 12.
Definition EINPROGRESS : Z := 115.
Definition PN533_CMD_RET_MASK : Z := 0x3F.
Definition PN533_CMD_MI_MASK : Z := 0x40.
Definition PN533_CMD_RET_SUCCESS : Z := 0x00.

Section queue.
Context `{SK : skbuff}.

(** ** Data *)

Inductive pn533_protocol_type := PN533_PROTO_REQ_ACK_RESP | PN533_PROTO_REQ_RESP.

(** A callback gets an error or the response; it returns its result, and
    whether it has queued [mi_work]. *)
Record pn533_cmd := mk_cmd {
  cmd_id : nat;   (** the address of the object *)
  code : Z;
  status : Z;
  req : sk_buff;
  resp : sk_buff;
  complete_cb : Z + sk_buff -> Z * bool }.

Definition set_status (v : Z) (c : pn533_cmd) : pn533_cmd :=
  mk_cmd (cmd_id c) (code c) v (req c) (resp c) (complete_cb c).
Definition set_resp (v : sk_buff) (c : pn533_cmd) : pn533_cmd :=
  mk_cmd (cmd_id c) (code c) (status c) (req c) v (complete_cb c).
Definition set_req (v : sk_buff) (c : pn533_cmd) : pn533_cmd :=
  mk_cmd (cmd_id c) (code c) (status c) v (resp c) (complete_cb c).

(** [complete] of the incoming transfer. *)
Inductive urb_handler := RecvAck | RecvResponse.

(** What happened to commands: accepted from a caller, given to the device
    ([direct] past the queue), dropped from the queue because the device could
    not be given it, called back. *)
Inductive logent :=
| Accepted (c : pn533_cmd)
| Submitted (direct : bool) (c : pn533_cmd)
| Dropped (c : pn533_cmd)
| Delivered (c : pn533_cmd) (r : Z + sk_buff).

Record pn533 := mk_pn533 {
  cmd_queue : list pn533_cmd;
  cmd : option pn533_cmd;
  cmd_pending : bool;
  in_urb : option urb_handler;      (** the incoming transfer, in flight *)
  cmd_work : bool;                  (** the works on the workqueue *)
  cmd_complete_work : bool;
  mi_work : bool;
  log : list logent }.

Definition set_queue v d := mk_pn533 v (cmd d) (cmd_pending d) (in_urb d) (cmd_work d) (cmd_complete_work d) (mi_work d) (log d).
Definition set_cmd v d := mk_pn533 (cmd_queue d) v (cmd_pending d) (in_urb d) (cmd_work d) (cmd_complete_work d) (mi_work d) (log d).
Definition set_pending v d := mk_pn533 (cmd_queue d) (cmd d) v (in_urb d) (cmd_work d) (cmd_complete_work d) (mi_work d) (log d).
Definition set_in_urb v d := mk_pn533 (cmd_queue d) (cmd d) (cmd_pending d) v (cmd_work d) (cmd_complete_work d) (mi_work d) (log d).
Definition set_cmd_work v d := mk_pn533 (cmd_queue d) (cmd d) (cmd_pending d) (in_urb d) v (cmd_complete_work d) (mi_work d) (log d).
Definition set_complete_work v d := mk_pn533 (cmd_queue d) (cmd d) (cmd_pending d) (in_urb d) (cmd_work d) v (mi_work d) (log d).
Definition set_mi_work v d := mk_pn533 (cmd_queue d) (cmd d) (cmd_pending d) (in_urb d) (cmd_work d) (cmd_complete_work d) v (log d).
Definition add_log e d := mk_pn533 (cmd_queue d) (cmd d) (cmd_pending d) (in_urb d) (cmd_work d) (cmd_complete_work d) (mi_work d) (log d ++ [e]).

(** [kzalloc] of the device. *)
Definition pn533_init : pn533 := mk_pn533 [] None false None false false false [].

(** ** Operations

    [rc_out] and [rc_in] are what [usb_submit_urb] answers for the two
    transfers. *)

Section operations.
Context (ops : pn533_frame_ops) (protocol_type : pn533_protocol_type).

Definition __pn533_send_frame_async (rc_out rc_in : Z) (d : pn533) : Z * pn533 :=
  if negb (rc_out =? 0) then (rc_out, d)
  else
    let complete := match protocol_type with
      | PN533_PROTO_REQ_RESP => RecvResponse
      | PN533_PROTO_REQ_ACK_RESP => RecvAck end in
    if negb (rc_in =? 0) then (rc_in, d) else (0, set_in_urb (Some complete) d).

(** [alloc_cmd] is whether the command can be allocated. *)
Definition __pn533_send_async (alloc_cmd : bool) (c : pn533_cmd) (rc_out rc_in : Z) (d : pn533)
  : outcome (Z * pn533) :=
  if negb alloc_cmd then Ret (- ENOMEM, d)
  else
    skb ← pn533_build_cmd_frame ops (code c) (req c);
    let c := set_req skb c in
    if negb (cmd_pending d) then
      let '(rc, d) := __pn533_send_frame_async rc_out rc_in d in
      if negb (rc =? 0) then Ret (rc, d)
      else Ret (rc, add_log (Submitted false c) (add_log (Accepted c) (set_cmd (Some c) (set_pending true d))))
    else Ret (0, add_log (Accepted c) (set_queue (cmd_queue d ++ [c]) d)).

(** [pn533_send_cmd_async] and [pn533_send_data_async] *)
Definition pn533_send_cmd_async (alloc_resp alloc_cmd : bool) (c : pn533_cmd) (rc_out rc_in : Z) (d : pn533)
  : outcome (Z * pn533) :=
  if negb alloc_resp then Ret (- ENOMEM, d) else __pn533_send_async alloc_cmd c rc_out rc_in d.

Definition pn533_send_cmd_direct_async (alloc_resp alloc_cmd : bool) (c : pn533_cmd) (rc_out rc_in : Z) (d : pn533)
  : outcome (Z * pn533) :=
  if negb alloc_resp then Ret (- ENOMEM, d)
  else if negb alloc_cmd then Ret (- ENOMEM, d)
  else
    skb ← pn533_build_cmd_frame ops (code c) (req c);
    let c := set_req skb c in
    let '(rc, d) := __pn533_send_frame_async rc_out rc_in d in
    if rc <? 0 then Ret (rc, d) else Ret (rc, add_log (Submitted true c) (set_cmd (Some c) d)).

(** The incoming transfer completes with [urb_status]; [mem] is the memory of
    the response. *)
Definition pn533_recv_ack (urb_status : Z) (mem : bytes) (rc_in : Z) (d : pn533) : outcome pn533 :=
  c ← checked (cmd d);
  st ← pn533_recv_ack_status urb_status mem;
  if negb (st =? 0) then Ret (set_complete_work true (set_cmd (Some (set_status st c)) (set_in_urb None d)))
  else if negb (rc_in =? 0)
  then Ret (set_complete_work true (set_cmd (Some (set_status rc_in c)) (set_in_urb None d)))
  else Ret (set_cmd (Some (set_status st c)) (set_in_urb (Some RecvResponse) d)).

Definition recv_response (urb_status : Z) (mem : bytes) (d : pn533) : outcome pn533 :=
  c ← checked (cmd d);
  st ← pn533_recv_response ops (code c) urb_status mem;
  Ret (set_complete_work true
    (set_cmd (Some (set_resp (skb_store (resp c) mem) (set_status st c))) (set_in_urb None d))).

Definition pn533_send_async_complete (d : pn533) : outcome (Z * pn533) :=
  c ← checked (cmd d);
  r ← (if status c <? 0 then Ret (inl (status c))
       else s ← response_skb ops (resp c); Ret (inr s));
  let '(rc, mi) := complete_cb c r in
  let d := if mi then set_mi_work true d else d in
  Ret (rc, set_cmd None (add_log (Delivered c r) d)).

Definition pn533_wq_cmd_complete (d : pn533) : outcome pn533 :=
  '(rc, d) ← pn533_send_async_complete d;
  if negb (rc =? - EINPROGRESS) then Ret (set_cmd_work true d) else Ret d.

Definition pn533_wq_cmd (rc_out rc_in : Z) (d : pn533) : pn533 :=
  match cmd_queue d with
  | [] => set_pending false d
  | c :: q =>
    let d := set_queue q d in
    let '(rc, d) := __pn533_send_frame_async rc_out rc_in d in
    if rc <? 0 then add_log (Dropped c) d
    else add_log (Submitted false c) (set_cmd (Some c) d)
  end.

(** [c] is the request for the next part, if its buffer could be allocated; the
    acknowledge of the error path does not change the state. *)
Definition pn533_wq_mi_recv (alloc_resp alloc_cmd : bool) (c : option pn533_cmd) (rc_out rc_in : Z) (d : pn533)
  : outcome pn533 :=
  match c with
  | None => Ret (set_cmd_work true d)
  | Some c =>
    '(rc, d) ← pn533_send_cmd_direct_async alloc_resp alloc_cmd c rc_out rc_in d;
    if rc =? 0 then Ret d else Ret (set_cmd_work true d)
  end.

(** ** Steps *)

(** What the driver's callbacks keep to. *)
Definition cb_ok (c : pn533_cmd) : Prop :=
  forall r, snd (complete_cb c r) = (fst (complete_cb c r) =? - EINPROGRESS).

Inductive step (d : pn533) : outcome pn533 -> Prop :=
| step_send alloc_resp alloc_cmd c rc_out rc_in :
    cb_ok c -> step d ('(rc, d') ← pn533_send_cmd_async alloc_resp alloc_cmd c rc_out rc_in d; Ret d')
| step_ack urb_status mem rc_in :
    in_urb d = Some RecvAck -> step d (pn533_recv_ack urb_status mem rc_in d)
| step_response urb_status mem :
    in_urb d = Some RecvResponse -> step d (recv_response urb_status mem d)
| step_complete :
    cmd_complete_work d = true -> step d (pn533_wq_cmd_complete (set_complete_work false d))
| step_cmd rc_out rc_in :
    cmd_work d = true -> rc_out <= 0 -> rc_in <= 0 ->
    step d (Ret (pn533_wq_cmd rc_out rc_in (set_cmd_work false d)))
| step_mi alloc_resp alloc_cmd c rc_out rc_in :
    (if c is Some c then cb_ok c else True) -> mi_work d = true -> rc_out <= 0 -> rc_in <= 0 ->
    step d (pn533_wq_mi_recv alloc_resp alloc_cmd c rc_out rc_in (set_mi_work false d)).

Inductive steps : pn533 -> pn533 -> Prop :=
| steps_refl d : steps d d
| steps_next d d1 d2 : steps d d1 -> step d1 (Ret d2) -> steps d d2.
End operations.

(** ** Specification *)

(** The phases of the driver: idle, waiting for the device, a completion to be
    handled, the next command to be taken, the next part of a response to be
    asked for, and the last case, where nothing is going to happen. *)
Definition phase_ok (d : pn533) : Prop :=
  Forall cb_ok (cmd_queue d) /\
  match cmd_pending d, cmd d, in_urb d with
  | false, None, None =>
    cmd_queue d = [] /\ (cmd_work d, cmd_complete_work d, mi_work d) = (false, false, false)
  | true, Some c, Some _ => cb_ok c /\ (cmd_work d, cmd_complete_work d, mi_work d) = (false, false, false)
  | true, Some c, None => cb_ok c /\ (cmd_work d, cmd_complete_work d, mi_work d) = (false, true, false)
  | true, None, None =>
    (cmd_work d, cmd_complete_work d, mi_work d) ∈
      [(true, false, false); (false, false, true); (false, false, false)]
  | _, _, _ => False
  end.

(** Nothing is in flight and no work is queued, but a command is pending. *)
Definition wedged (d : pn533) : Prop :=
  cmd_pending d = true /\ cmd d = None /\ in_urb d = None /\
  cmd_work d = false /\ cmd_complete_work d = false /\ mi_work d = false.

Definition accepted (l : list logent) : list pn533_cmd :=
  omap (fun e => match e with Accepted c => Some c | _ => None end) l.

(** The commands taken from the callers, in the order the device saw them. *)
Definition taken (l : list logent) : list pn533_cmd :=
  omap (fun e => match e with Submitted false c => Some c | Dropped c => Some c | _ => None end) l.

(** The command that the device has after the history [l], when it never has two
    and only a command that it has is called back. *)
Fixpoint outstanding (l : list logent) (o : option nat) : option (option nat) :=
  match l with
  | [] => Some o
  | Submitted _ c :: l => match o with None => outstanding l (Some (cmd_id c)) | Some _ => None end
  | Delivered c _ :: l => if decide (o = Some (cmd_id c)) then outstanding l None else None
  | _ :: l => outstanding l o
  end.

Definition in_order (d : pn533) : Prop := accepted (log d) = taken (log d) ++ cmd_queue d.
Definition one_at_a_time (d : pn533) : Prop := outstanding (log d) None = Some (cmd_id <$> cmd d).

(** ** Lemmas *)

Section invariants.
Context (ops : pn533_frame_ops) (protocol_type : pn533_protocol_type).

Lemma outstanding_app l1 l2 o : outstanding (l1 ++ l2) o = (o' ← outstanding l1 o; outstanding l2 o').
Proof.
  revert o; induction l1 as [|e l1 IH]; intros o; [done|]. cbn [outstanding app].
  destruct e; [apply IH| |apply IH|]; case_match; done || apply IH.
Qed.

Lemma accepted_app l1 l2 : accepted (l1 ++ l2) = accepted l1 ++ accepted l2.
Proof. apply omap_app. Qed.
Lemma taken_app l1 l2 : taken (l1 ++ l2) = taken l1 ++ taken l2.
Proof. apply omap_app. Qed.

(** The three invariants together. *)
Definition inv (d : pn533) : Prop := phase_ok d /\ in_order d /\ one_at_a_time d.

Lemma inv_init : inv pn533_init.
Proof. split; [|done]. by split. Qed.

(** What a submission changes. *)
Lemma send_frame_inv rc_out rc_in d rc d' :
  __pn533_send_frame_async protocol_type rc_out rc_in d = (rc, d') ->
  (rc = 0 /\ exists h, d' = set_in_urb (Some h) d) \/
  (rc <> 0 /\ d' = d /\ (rc = rc_out \/ rc = rc_in)).
Proof.
  unfold __pn533_send_frame_async. destruct (Z.eqb_spec rc_out 0); cbn [negb]; [|intros [= <- <-]; by auto].
  destruct (Z.eqb_spec rc_in 0); cbn [negb]; intros [= <- <-]; [left|right]; eauto.
Qed.

Ltac open_inv Hinv :=
  destruct Hinv as ((Hq & Hph) & Hord & Hone);
  unfold inv, phase_ok, in_order, one_at_a_time in *; cbn -[accepted taken outstanding] in *.

Lemma send_async_inv alloc_cmd c rc_out rc_in d rc d' :
  inv d -> cb_ok c -> __pn533_send_async ops protocol_type alloc_cmd c rc_out rc_in d = Ret (rc, d') -> inv d'.
Proof.
  intros Hinv Hcb. unfold __pn533_send_async. destruct alloc_cmd; cbn [negb]; [|by intros [= <- <-]].
  destruct (pn533_build_cmd_frame _ _ _) as [skb| | |]; try done. cbn [mbind outcome_bind].
  assert (cb_ok (set_req skb c)) as Hcb' by done. destruct d as [q oc p iu w1 w2 w3 l]. cbn [cmd_pending].
  destruct p; cbn [negb].
  - intros [= <- <-]. open_inv Hinv. rewrite accepted_app, taken_app, outstanding_app, Hord, Hone. cbn.
    rewrite <- app_assoc, app_nil_r. split_and!; try done. apply Forall_app_2; [done|]. by apply Forall_singleton.
  - destruct (__pn533_send_frame_async _ _ _ _) as [rc1 d1] eqn:Es.
    apply send_frame_inv in Es as [(-> & h & ->)|(Hne & -> & _)].
    + intros [= <- <-]. open_inv Hinv. destruct oc; [done|]. destruct iu; [done|]. destruct Hph as [-> Hw].
      injection Hw as -> -> ->. rewrite !accepted_app, !taken_app, !outstanding_app, Hord, Hone. cbn.
      rewrite !app_nil_r. by split_and!.
    + rewrite (proj2 (Z.eqb_neq _ _)) by done. by intros [= <- <-].
Qed.

Lemma recv_ack_inv urb_status mem rc_in d d' :
  inv d -> in_urb d = Some RecvAck -> pn533_recv_ack urb_status mem rc_in d = Ret d' -> inv d'.
Proof.
  intros Hinv Hu. destruct d as [q oc p iu w1 w2 w3 l]. unfold pn533_recv_ack. cbn in Hu. subst iu.
  open_inv Hinv. destruct p; [|by destruct oc]. destruct oc as [c|]; [|done]. destruct Hph as [Hc Hw].
  injection Hw as -> -> ->. cbn [checked mbind outcome_bind].
  destruct (pn533_recv_ack_status urb_status mem) as [st| | |]; try done. cbn [mbind outcome_bind].
  destruct (negb (st =? 0)); [|destruct (negb (rc_in =? 0))]; intros [= <-]; by split_and!.
Qed.

Lemma recv_response_inv urb_status mem d d' :
  inv d -> in_urb d = Some RecvResponse -> recv_response ops urb_status mem d = Ret d' -> inv d'.
Proof.
  intros Hinv Hu. destruct d as [q oc p iu w1 w2 w3 l]. unfold recv_response. cbn in Hu. subst iu.
  open_inv Hinv. destruct p; [|by destruct oc]. destruct oc as [c|]; [|done]. destruct Hph as [Hc Hw].
  injection Hw as -> -> ->. cbn [checked mbind outcome_bind].
  destruct (pn533_recv_response _ _ _ _) as [st| | |]; try done. cbn [mbind outcome_bind].
  intros [= <-]; by split_and!.
Qed.

Lemma cmd_complete_inv d d' :
  inv d -> cmd_complete_work d = true -> pn533_wq_cmd_complete ops (set_complete_work false d) = Ret d' -> inv d'.
Proof.
  intros Hinv Hw. destruct d as [q oc p iu w1 w2 w3 l]. unfold pn533_wq_cmd_complete, pn533_send_async_complete.
  cbn in Hw. subst w2. open_inv Hinv. destruct p; [|by destruct oc, iu; try destruct Hph as [_ ?]].
  destruct oc as [c|]; [|by destruct iu; [|rewrite !elem_of_cons in Hph; destruct Hph as [?|[?|[?|?%elem_of_nil]]]]].
  destruct iu; [by destruct Hph|]. destruct Hph as [Hc Hw]. injection Hw as -> ->. cbn [checked mbind outcome_bind].
  destruct (if status c <? 0 then _ else _) as [r| | |]; try done. cbn [mbind outcome_bind].
  specialize (Hc r). destruct (complete_cb c r) as [rc mi]. cbn in Hc. subst mi. cbn [mbind outcome_bind].
  destruct (Z.eqb_spec rc (- EINPROGRESS)); cbn [negb]; intros [= <-]; cbn;
    rewrite accepted_app, taken_app, outstanding_app, Hord, Hone; cbn; rewrite decide_True by done;
    rewrite !app_nil_r; split_and!; try done; rewrite !elem_of_cons; auto.
Qed.

(** With [cmd_work] or [mi_work] queued nothing is in flight. *)
Lemma phase_work d :
  phase_ok d -> cmd_work d = true \/ mi_work d = true ->
  cmd_pending d = true /\ cmd d = None /\ in_urb d = None /\
  (cmd_work d, cmd_complete_work d, mi_work d) ∈ [(true, false, false); (false, false, true)].
Proof.
  intros [_ Hph] Hw. destruct d as [q oc p iu w1 w2 w3 l]. cbn in *.
  destruct p, oc, iu; try done;
    try (destruct Hph as [_ Hph]; injection Hph as -> -> ->; by destruct Hw as [?|?]).
  split_and!; try done. rewrite !elem_of_cons. rewrite !elem_of_cons in Hph.
  destruct Hph as [?|[?|[Hph|Hph]]]; [by auto..| |by apply elem_of_nil in Hph].
  injection Hph as -> -> ->. by destruct Hw as [?|?].
Qed.

Lemma wq_cmd_inv rc_out rc_in d :
  rc_out <= 0 -> rc_in <= 0 ->
  inv d -> cmd_work d = true -> inv (pn533_wq_cmd protocol_type rc_out rc_in (set_cmd_work false d)).
Proof.
  intros Ho Hi Hinv Hw. destruct (phase_work d (proj1 Hinv) (or_introl Hw)) as (Hp & Hc & Hu & Hws).
  destruct d as [q oc p iu w1 w2 w3 l]. cbn in Hw, Hp, Hc, Hu, Hws. subst. open_inv Hinv. clear Hph.
  assert (w2 = false /\ w3 = false) as [-> ->].
  { rewrite !elem_of_cons in Hws. destruct Hws as [[= -> ->]|[[=]|Hws]]; [done|by apply elem_of_nil in Hws]. }
  unfold pn533_wq_cmd. cbn [cmd_queue set_cmd_work]. destruct q as [|c q]; [by split_and!|].
  apply Forall_cons in Hq as [Hc Hq]. cbn [cmd_queue]. destruct (__pn533_send_frame_async _ _ _ _) as [rc d1] eqn:Es.
  apply send_frame_inv in Es as [(-> & h & ->)|(Hne & -> & Hrc)]; cbn -[accepted taken outstanding].
  - rewrite accepted_app, taken_app, outstanding_app, Hord, Hone. cbn. rewrite app_nil_r, <- app_assoc. by split_and!.
  - rewrite (proj2 (Z.ltb_lt rc 0)) by lia. cbn -[accepted taken outstanding].
    rewrite accepted_app, taken_app, outstanding_app, Hord, Hone. cbn. rewrite app_nil_r, <- app_assoc.
    split_and!; try done. rewrite !elem_of_cons; auto.
Qed.

Lemma mi_recv_inv alloc_resp alloc_cmd c rc_out rc_in d d' :
  rc_out <= 0 -> rc_in <= 0 -> (if c is Some c then cb_ok c else True) -> inv d -> mi_work d = true ->
  pn533_wq_mi_recv ops protocol_type alloc_resp alloc_cmd c rc_out rc_in (set_mi_work false d) = Ret d' ->
  inv d'.
Proof.
  intros Ho Hi Hcb Hinv Hw. destruct (phase_work d (proj1 Hinv) (or_intror Hw)) as (Hp & Hc & Hu & Hws).
  destruct d as [q oc p iu w1 w2 w3 l]. cbn in Hw, Hp, Hc, Hu, Hws. subst. open_inv Hinv. clear Hph.
  assert (w1 = false /\ w2 = false) as [-> ->].
  { rewrite !elem_of_cons in Hws. destruct Hws as [[=]|[[= -> ->]|Hws]]; [done|by apply elem_of_nil in Hws]. }
  assert (inv (mk_pn533 q None true None true false false l)) as Hnext.
  { split_and!; [split; [done|cbn; rewrite !elem_of_cons; auto]|done|done]. }
  unfold pn533_wq_mi_recv, pn533_send_cmd_direct_async, set_mi_work. cbn -[inv].
  destruct c as [c|]; cbn -[inv]; [|by intros [= <-]]. destruct alloc_resp; cbn -[inv]; [|by intros [= <-]].
  destruct alloc_cmd; cbn -[inv]; [|by intros [= <-]].
  destruct (pn533_build_cmd_frame _ _ _) as [skb| | |]; try done. cbn -[inv].
  destruct (__pn533_send_frame_async _ _ _ _) as [rc d1] eqn:Es.
  apply send_frame_inv in Es as [(-> & h & ->)|(Hne & -> & Hrc)].
  - cbn -[inv]. intros [= <-]. unfold inv, phase_ok, in_order, one_at_a_time. cbn -[accepted taken outstanding].
    rewrite accepted_app, taken_app, outstanding_app, Hord, Hone. cbn. rewrite !app_nil_r. by split_and!.
  - rewrite (proj2 (Z.ltb_lt rc 0)) by lia. cbn -[inv]. rewrite (proj2 (Z.eqb_neq rc 0)) by done. by intros [= <-].
Qed.

Lemma step_inv d d' : inv d -> step ops protocol_type d (Ret d') -> inv d'.
Proof.
  intros Hinv Hs. inversion Hs as [ar ac c ro ri Hcb E|st m ri Hu E|st m Hu E|Hw E|ro ri Hw Ho Hi E|ar ac c ro ri Hcb Hw Ho Hi E].
  - unfold pn533_send_cmd_async in E. destruct ar; cbn [negb] in E; [|by injection E as <-].
    destruct (__pn533_send_async _ _ _ _ _ _ _) as [[rc d1]| | |] eqn:Es; try done. injection E as <-.
    by eapply send_async_inv.
  - by eapply recv_ack_inv.
  - by eapply recv_response_inv.
  - by eapply cmd_complete_inv.
  - subst d'. by apply wq_cmd_inv.
  - exact (mi_recv_inv ar ac c ro ri d d' Ho Hi Hcb Hinv Hw E).
Qed.

Lemma steps_inv d d' : steps ops protocol_type d d' -> inv d -> inv d'.
Proof. induction 1; [done|]. intros Hinv. eapply step_inv; [|done]. auto. Qed.

(** ** Lemmas: the log only grows *)

Lemma send_frame_log rc_out rc_in d : log (snd (__pn533_send_frame_async protocol_type rc_out rc_in d)) = log d.
Proof. unfold __pn533_send_frame_async. by repeat case_match. Qed.

(** Follow an operation to its result. *)
Ltac log_step :=
  match goal with
  | H : context [__pn533_send_frame_async protocol_type ?a ?b ?d] |- _ =>
    let E := fresh "E" in
    pose proof (send_frame_log a b d) as E; destruct (__pn533_send_frame_async protocol_type a b d) as [? ?];
    cbn [fst snd] in E, H
  | H : (_ ← ?o; _) = Ret _ |- _ =>
    let E := fresh "E" in destruct o as [?| | |] eqn:E; cbn [mbind outcome_bind] in H; try discriminate H
  | H : (let '(_, _) := ?p in _) = Ret _ |- _ => destruct p
  | H : match ?c with Some _ => _ | None => _ end = Ret _ |- _ => destruct c
  | H : (if ?b then _ else _) = Ret _ |- _ => destruct b
  | H : Ret _ = Ret _ |- _ => injection H as H
  end.

Lemma wq_cmd_log ro ri d : exists l, log (pn533_wq_cmd protocol_type ro ri d) = log d ++ l.
Proof.
  unfold pn533_wq_cmd. destruct (cmd_queue d) as [|c q]; [exists []; by rewrite app_nil_r|].
  pose proof (send_frame_log ro ri (set_queue q d)) as E. destruct (__pn533_send_frame_async _ _ _ _) as [rc d1].
  cbn in E. rewrite <- E. destruct (rc <? 0); by eexists.
Qed.

Lemma step_log d d' : step ops protocol_type d (Ret d') -> exists l, log d' = log d ++ l.
Proof.
  intros Hs. inversion Hs as [ar ac c ro ri Hcb E|st m ri Hu E|st m Hu E|Hw E|ro ri Hw Ho Hi E|ar ac c ro ri Hcb Hw Ho Hi E];
    unfold pn533_send_cmd_async, __pn533_send_async, pn533_recv_ack, recv_response, pn533_wq_cmd_complete,
      pn533_send_async_complete, pn533_wq_mi_recv, pn533_send_cmd_direct_async in E;
    try (subst; exact (wq_cmd_log ro ri (set_cmd_work false d))); repeat (log_step; simplify_eq); cbn in *; simplify_eq;
    repeat case_match; cbn in *; rewrite <- ?app_assoc; try (exists []; by rewrite app_nil_r); eexists; by f_equal.
Qed.

Lemma steps_log d d' : steps ops protocol_type d d' -> exists l, log d' = log d ++ l.
Proof.
  induction 1 as [d|d d1 d2 _ [l1 IH] Hs]; [exists []; by rewrite app_nil_r|].
  apply step_log in Hs as [l2 ->]. exists (l1 ++ l2). by rewrite IH, app_assoc.
Qed.

(** ** Lemmas: the last phase *)

Lemma wedged_step d d' :
  wedged d -> step ops protocol_type d (Ret d') ->
  wedged d' /\ exists cs, log d' = log d ++ map Accepted cs /\ cmd_queue d' = cmd_queue d ++ cs.
Proof.
  intros (Hp & Hc & Hu & Hw1 & Hw2 & Hw3) Hs.
  assert (wedged d) as Hd by (by split_and!).
  inversion Hs as [ar ac c ro ri Hcb E|? ? ? Hu' E|? ? Hu' E|Hw E|? ? Hw ? ? E|? ? ? ? ? ? Hw ? ? E]; try congruence.
  unfold pn533_send_cmd_async, __pn533_send_async in E.
  destruct ar; cbn [negb] in E; [|injection E as <-; split; [done|exists []; by rewrite !app_nil_r]].
  destruct ac; cbn [negb] in E; [|injection E as <-; split; [done|exists []; by rewrite !app_nil_r]].
  destruct (pn533_build_cmd_frame _ _ _) as [skb| | |]; try done. cbn [mbind outcome_bind] in E. rewrite Hp in E.
  cbn [negb] in E. injection E as <-. split; [by split_and!|]. by exists [set_req skb c].
Qed.

Lemma wedged_steps d d' :
  steps ops protocol_type d d' -> wedged d ->
  wedged d' /\ exists cs, log d' = log d ++ map Accepted cs /\ cmd_queue d' = cmd_queue d ++ cs.
Proof.
  induction 1 as [d|d d1 d2 _ IH Hs]; intros Hd; [split; [done|]; exists []; by rewrite !app_nil_r|].
  destruct (IH Hd) as [Hd1 (cs & Hl & Hq)]. destruct (wedged_step d1 d2 Hd1 Hs) as [Hd2 (cs' & Hl' & Hq')].
  split; [done|]. exists (cs ++ cs'). by rewrite Hl', Hl, Hq', Hq, map_app, !app_assoc.
Qed.
End invariants.

(** ** Properties *)

Section properties.
Context (ops : pn533_frame_ops) (protocol_type : pn533_protocol_type).

(** the queue of commands.  In every state that the driver reaches, the
    device has at most one command, and the ones it got and their callbacks
    alternate; the commands accepted from callers are, in their order, those the
    device has been given (or that were dropped) followed by the queue; and a
    driver with no pending command is idle with an empty queue. *)
Theorem commands_in_order (d : pn533) :
  steps ops protocol_type pn533_init d ->
  one_at_a_time d /\ in_order d /\ phase_ok d /\
  (cmd_pending d = false -> cmd_queue d = [] /\ accepted (log d) = taken (log d)).
Proof.
  intros Hs. destruct (steps_inv _ _ _ d Hs inv_init) as (Hph & Hord & Hone). split_and!; try done.
  intros Hp. destruct Hph as [_ Hph]. rewrite Hp in Hph. destruct (cmd d), (in_urb d); try done.
  destruct Hph as [Hq _]. split; [done|]. unfold in_order in Hord. by rewrite Hord, Hq, app_nil_r.
Qed.

(** A command that cannot be given to the device.  When the queue's next
    command is refused by USB, it is dropped, its callback is never called, and
    the driver stays pending for good: later commands are still accepted, but
    nothing is submitted or delivered any more, whatever happens. *)
Theorem refused_command_wedges (d d' : pn533) (c : pn533_cmd) (q : list pn533_cmd) (rc_out rc_in : Z) :
  steps ops protocol_type pn533_init d -> cmd_work d = true -> cmd_queue d = c :: q -> rc_out < 0 ->
  let d1 := pn533_wq_cmd protocol_type rc_out rc_in (set_cmd_work false d) in
  steps ops protocol_type d1 d' ->
  exists cs, log d' = log d ++ [Dropped c] ++ map Accepted cs /\ cmd_queue d' = q ++ cs /\ cmd_pending d' = true.
Proof.
  intros Hs Hw Hq Ho d1 Hs1. destruct (steps_inv _ _ _ d Hs inv_init) as (Hph & _).
  destruct (phase_work d Hph (or_introl Hw)) as (Hp & Hc & Hu & Hws).
  assert (d1 = add_log (Dropped c) (set_queue q (set_cmd_work false d))) as E.
  { unfold d1, pn533_wq_cmd, __pn533_send_frame_async. cbn [cmd_queue set_cmd_work]. rewrite Hq.
    rewrite (proj2 (Z.eqb_neq rc_out 0)) by lia. cbn [negb]. by rewrite (proj2 (Z.ltb_lt rc_out 0)) by lia. }
  assert (wedged d1) as Hd1.
  { rewrite E. unfold wedged. cbn. split_and!; try done;
      rewrite Hw, !elem_of_cons in Hws; destruct Hws as [[= ? ?]|[[=]|Hws]]; try done; by apply elem_of_nil in Hws. }
  destruct (wedged_steps _ _ _ _ Hs1 Hd1) as [Hd' (cs & Hl & Hq')]. exists cs.
  rewrite Hl, Hq', E. cbn. rewrite <- app_assoc. split_and!; try done. by destruct Hd'.
Qed.
End properties.
End queue.

(** ** Witnesses: two commands, the first one answered *)

Section queue_witnesses.
#[local] Existing Instance plain_skbuff.
#[local] Existing Instance plain_skbuff_laws.

Lemma step_to `{SK : skbuff} ops p (d d' : pn533) (o : outcome pn533) :
  step ops p d o -> o = Ret d' -> step ops p d (Ret d').
Proof. by intros Hs <-. Qed.

Definition result (o : outcome pn533) : pn533 := match o with Ret d => d | _ => pn533_init end.

Definition example_cmd (id : nat) : pn533_cmd :=
  mk_cmd id 0x40 0 example_req (mk_skb [] [] (replicate 272 0)) (fun _ => (0, false)).

Abbreviation std := pn533_std_frame_ops.
Abbreviation acked := PN533_PROTO_REQ_ACK_RESP.

Definition sent (id : nat) (d : pn533) : pn533 :=
  result ('(rc, d') ← pn533_send_cmd_async std acked true true (example_cmd id) 0 0 d; Ret d').
Definition two_sent : pn533 := sent 2 (sent 1 pn533_init).
Definition ack_received : pn533 := result (pn533_recv_ack 0 ack_frame 0 two_sent).
Definition response_received : pn533 :=
  result (recv_response std 0 (std_frame 0 0 [0xD5; 0x41; 0; 7] ++ replicate 261 0) ack_received).
Definition first_completed : pn533 := result (pn533_wq_cmd_complete std (set_complete_work false response_received)).

Lemma example_cb_ok id : cb_ok (example_cmd id).
Proof. by intros r. Qed.

Lemma two_sent_steps : steps std acked pn533_init two_sent.
Proof.
  eapply steps_next; [eapply steps_next; [apply steps_refl|]|].
  - eapply step_to; [apply (step_send _ _ _ true true (example_cmd 1) 0 0), example_cb_ok|vm_compute; reflexivity].
  - eapply step_to; [apply (step_send _ _ _ true true (example_cmd 2) 0 0), example_cb_ok|vm_compute; reflexivity].
Qed.

Lemma first_completed_steps : steps std acked pn533_init first_completed.
Proof.
  eapply steps_next; [eapply steps_next; [eapply steps_next; [apply two_sent_steps|]|]|].
  - eapply step_to; [by apply (step_ack _ _ _ 0 ack_frame 0)|vm_compute; reflexivity].
  - eapply step_to; [by apply (step_response _ _ _ 0 (std_frame 0 0 [0xD5; 0x41; 0; 7] ++ replicate 261 0))|
      vm_compute; reflexivity].
  - eapply step_to; [by apply step_complete|vm_compute; reflexivity].
Qed.

Lemma commands_in_order_witness :
  map cmd_id (cmd_queue two_sent) = [2%nat] /\ one_at_a_time two_sent /\ in_order two_sent /\ phase_ok two_sent.
Proof.
  split; [vm_compute; reflexivity|].
  destruct (commands_in_order std acked two_sent two_sent_steps) as (H1 & H2 & H3 & _). by split_and!.
Defined.

Lemma refused_command_wedges_witness :
  exists c q cs, cmd_queue first_completed = c :: q /\ cmd_id c = 2%nat /\
    log (pn533_wq_cmd acked (-19) 0 (set_cmd_work false first_completed)) =
      log first_completed ++ [Dropped c] ++ map Accepted cs.
Proof.
  eexists _, _. edestruct (refused_command_wedges std acked first_completed) as (cs & Hlog & _);
    [apply first_completed_steps|reflexivity|vm_compute; reflexivity| |apply steps_refl|].
  2: { exists cs. split; [vm_compute; reflexivity|]. split; [|exact Hlog]. vm_compute. reflexivity. }
  lia.
Defined.
End queue_witnesses.
