(* ===== verification/PnData.v ===== *)
(** * PN533 data exchange: [pn533.c]

    The callback of a data exchange: a response may come in several parts, each
    announcing that more follow; the parts wait in [resp_q], and the last one has
    them put together for the NFC core's callback. *)

From S2P Require Import Prelude PnFrame PnQueue.

Section data.
Context `{SK : skbuff}.

(** ** State

    [called] is what the core's callback has been given. *)
Record exchange := mk_exchange {
  resp_q : list sk_buff;
  mi_queued : bool;
  called : list (option sk_buff * Z) }.

(** ** Operations *)

(** The second [skb_queue_walk_safe] of [pn533_build_response]. *)
Fixpoint copy_parts (mem : bytes) (tmp_len : Z) (q : list sk_buff) : outcome bytes :=
  match q with
  | [] => Ret mem
  | tmp :: q => mem ← put_block mem tmp_len (skb_data tmp); copy_parts mem (tmp_len + skb_len tmp) q
  end.

Definition parts_len (q : list sk_buff) : Z := foldr (fun s n => skb_len s + n) 0 q.

(** [alloc] answers [alloc_skb]; the queue is always purged. *)
Definition pn533_build_response (alloc : option sk_buff) (q : list sk_buff) : outcome (option sk_buff) :=
  match q with
  | [] => Ret None
  | [skb] => Ret (Some skb)
  | _ =>
    match alloc with
    | None => Ret None
    | Some skb =>
      skb ← skb_put skb (parts_len q);
      mem ← copy_parts (skb_mem skb) 0 q;
      Ret (Some (skb_store skb mem))
    end
  end.

(** Without a response built, [resp] is freed although the purge of the queue has
    freed it. *)
Definition pn533_data_exchange_complete (alloc : option sk_buff) (resp : Z + sk_buff) (st : exchange)
  : outcome (Z * exchange) :=
  match resp with
  | inl rc => Ret (rc, mk_exchange [] (mi_queued st) (called st ++ [(None, rc)]))
  | inr resp =>
    status ← arr_rd (skb_mem resp) 0;
    resp ← skb_pull resp 1;
    if negb (status .& PN533_CMD_RET_MASK =? PN533_CMD_RET_SUCCESS)
    then Ret (- EIO, mk_exchange [] (mi_queued st) (called st ++ [(None, - EIO)]))
    else
      let q := resp_q st ++ [resp] in
      if ctrue (status .& PN533_CMD_MI_MASK) then Ret (- EINPROGRESS, mk_exchange q true (called st))
      else
        skb ← pn533_build_response alloc q;
        match skb with
        | None => Ub
        | Some skb => Ret (0, mk_exchange [] (mi_queued st) (called st ++ [(Some skb, 0)]))
        end
  end.

(** The responses of an exchange one after the other; [mi_work] runs between
    them. *)
Fixpoint exchange_run (alloc : option sk_buff) (l : list sk_buff) (st : exchange) : outcome (list Z * exchange) :=
  match l with
  | [] => Ret ([], st)
  | r :: l =>
    '(rc, st) ← pn533_data_exchange_complete alloc (inr r) st;
    '(rcs, st) ← exchange_run alloc l (mk_exchange (resp_q st) false (called st));
    Ret (rc :: rcs, st)
  end.

(** ** Specification *)

(** A part: its status byte, with more to follow or not, and its payload. *)
Definition is_part (more : bool) (p : bytes) (r : sk_buff) : Prop :=
  exists status, skb_data r = status :: p /\ status .& PN533_CMD_RET_MASK = PN533_CMD_RET_SUCCESS /\
    ctrue (status .& PN533_CMD_MI_MASK) = more.
End data.

(** ** Lemmas *)

Section lemmas.
Context `{SL : skbuff_laws}.

Lemma skb_data_length s : Z.of_nat (length (skb_data s)) = skb_len s.
Proof. pose proof (skb_len_range s). unfold skb_data. rewrite length_take. lia. Qed.

Lemma skb_data_cons s b p :
  skb_data s = b :: p -> arr_rd (skb_mem s) 0 = Ret b /\ 1 <= skb_len s.
Proof.
  intros E. pose proof (skb_data_length s) as Hl. rewrite E in Hl. cbn [length] in Hl. split; [|lia].
  unfold skb_data in E. change 0 with (Z.of_nat 0). rewrite arr_rd_nat.
  rewrite <- (lookup_take_lt _ (Z.to_nat (skb_len s))) by lia. by rewrite E.
Qed.

(** Taking the status byte off. *)
Lemma pull_status s b p :
  skb_data s = b :: p -> exists s', skb_pull s 1 = Ret s' /\ skb_data s' = p.
Proof.
  intros E. destruct (skb_data_cons s b p E) as [_ Hl].
  destruct (skb_pull_law s 1) as (s' & -> & Hm & Hl'); [lia|]. exists s'. split; [done|].
  unfold skb_data in *. rewrite Hm, Hl', take_drop_commute, <- Z2Nat.inj_add by lia.
  rewrite Z.add_sub_assoc, Z.add_simpl_l. by rewrite E.
Qed.

Definition parts_data (q : list sk_buff) : bytes := concat (map skb_data q).

Lemma parts_data_length q : Z.of_nat (length (parts_data q)) = parts_len q.
Proof.
  unfold parts_data. induction q as [|s q IH]; [done|]. cbn [map concat parts_len foldr]. rewrite length_app.
  pose proof (skb_data_length s). unfold parts_len in IH. lia.
Qed.

Lemma copy_parts_ok q : forall pre mid,
  Z.of_nat (length mid) >= parts_len q ->
  copy_parts (pre ++ mid) (Z.of_nat (length pre)) q =
    Ret (pre ++ parts_data q ++ drop (Z.to_nat (parts_len q)) mid).
Proof.
  induction q as [|s q IH]; intros pre mid Hl; [done|]. cbn [copy_parts].
  assert (0 <= parts_len q) as Hq by (rewrite <- parts_data_length; lia).
  pose proof (skb_data_length s) as Hs. change (parts_len (s :: q)) with (skb_len s + parts_len q) in *.
  rewrite <- (take_drop (Z.to_nat (skb_len s)) mid), put_block_mid by (rewrite ?length_take; lia).
  cbn [mbind outcome_bind]. rewrite app_assoc.
  replace (Z.of_nat (length pre) + skb_len s) with (Z.of_nat (length (pre ++ skb_data s))) by (rewrite length_app; lia).
  rewrite IH by (rewrite length_drop; lia). rewrite <- app_assoc. do 2 f_equal.
  change (parts_data (s :: q)) with (skb_data s ++ parts_data q). rewrite <- app_assoc. do 2 f_equal.
  rewrite drop_drop, take_drop. f_equal. lia.
Qed.

Lemma build_response_ok alloc q :
  q <> [] ->
  (forall a, alloc = Some a -> skb_len a = 0 /\ parts_len q <= Z.of_nat (length (skb_mem a))) ->
  match alloc, q with
  | None, _ :: _ :: _ => pn533_build_response alloc q = Ret None
  | _, _ => exists s, pn533_build_response alloc q = Ret (Some s) /\ skb_data s = parts_data q
  end.
Proof.
  intros Hne Ha. assert (0 <= parts_len q) as Hq by (rewrite <- parts_data_length; lia).
  destruct q as [|s1 [|s2 q]]; [done| |].
  - destruct alloc; exists s1; (split; [done|]); unfold parts_data; cbn; by rewrite app_nil_r.
  - destruct alloc as [a|]; [|done]. destruct (Ha a eq_refl) as [Hl Hm]. unfold pn533_build_response.
    destruct (skb_put_law a (parts_len (s1 :: s2 :: q))) as (a' & -> & Hm' & Hl'); [lia|].
    cbn [mbind outcome_bind]. rewrite Hm'. pose proof (copy_parts_ok (s1 :: s2 :: q) [] (skb_mem a)) as E.
    change (Z.of_nat (length [])) with 0 in E. cbn [app] in E. rewrite E by lia. cbn [mbind outcome_bind]. eexists. split; [done|].
    set (l := s1 :: s2 :: q) in *. unfold skb_data at 1. pose proof (parts_data_length l) as Hpl.
    destruct (skb_store_law a' (parts_data l ++ drop (Z.to_nat (parts_len l)) (skb_mem a))) as [-> ->].
    { rewrite Hm', length_app, length_drop. lia. }
    apply take_app_exact. lia.
Qed.

(** A part that is not the last. *)
Lemma exchange_more alloc p r st :
  is_part true p r ->
  exists r', pn533_data_exchange_complete alloc (inr r) st =
    Ret (- EINPROGRESS, mk_exchange (resp_q st ++ [r']) true (called st)) /\ skb_data r' = p.
Proof.
  intros (status & E & Hret & Hmi). destruct (skb_data_cons r status p E) as [Hrd _].
  destruct (pull_status r status p E) as (r' & Hpull & Hr'). exists r'. split; [|done].
  unfold pn533_data_exchange_complete. rewrite Hrd. cbn [mbind outcome_bind]. rewrite Hpull. cbn [mbind outcome_bind].
  rewrite Hret, Z.eqb_refl. cbn [negb]. by rewrite Hmi.
Qed.

(** The last part. *)
Lemma exchange_last alloc p r st :
  is_part false p r ->
  exists r', skb_data r' = p /\
    pn533_data_exchange_complete alloc (inr r) st =
      (skb ← pn533_build_response alloc (resp_q st ++ [r']);
       match skb with
       | None => Ub
       | Some skb => Ret (0, mk_exchange [] (mi_queued st) (called st ++ [(Some skb, 0)]))
       end).
Proof.
  intros (status & E & Hret & Hmi). destruct (skb_data_cons r status p E) as [Hrd _].
  destruct (pull_status r status p E) as (r' & Hpull & Hr'). exists r'. split; [done|].
  unfold pn533_data_exchange_complete. rewrite Hrd. cbn [mbind outcome_bind]. rewrite Hpull. cbn [mbind outcome_bind].
  rewrite Hret, Z.eqb_refl. cbn [negb]. by rewrite Hmi.
Qed.

(** The queue after the parts before the last one. *)
Lemma exchange_run_more alloc ps rs : forall st,
  Forall2 (is_part true) ps rs -> mi_queued st = false ->
  forall l, exists q, map skb_data q = ps /\
    exchange_run alloc (rs ++ l) st =
      ('(rcs, st) ← exchange_run alloc l (mk_exchange (resp_q st ++ q) false (called st));
       Ret (replicate (length ps) (- EINPROGRESS) ++ rcs, st)).
Proof.
  intros st Hf. revert st. induction Hf as [|p r ps rs Hp Hf IH]; intros st Hst l.
  { exists []. split; [done|]. destruct st as [q mi cl]. cbn in Hst. subst mi. cbn [resp_q called length replicate].
    rewrite app_nil_r. cbn [app]. by destruct (exchange_run alloc l (mk_exchange q false cl)) as [[rcs st']| | |]. }
  destruct (exchange_more alloc p r st Hp) as (r' & E & Hr').
  destruct (IH (mk_exchange (resp_q st ++ [r']) false (called st)) eq_refl l) as (q & Hq & Eq).
  exists (r' :: q). split; [cbn; by rewrite Hr', Hq|]. cbn [app exchange_run]. rewrite E. cbn [mbind outcome_bind resp_q called].
  rewrite Eq. cbn [resp_q called length replicate app]. rewrite <- app_assoc. cbn [app].
  match goal with |- (?x ≫= _) ≫= _ = _ => destruct x as [[rcs st']| | |] end; done.
Qed.
End lemmas.

(** ** Properties *)

Section properties.
Context `{SL : skbuff_laws}.

(** C38: a response in parts.  When the parts of an exchange arrive, each but the
    last saying that more follow, every part but the last asks for the next one,
    and the core's callback is called once, at the end, with the payloads of the
    parts one after the other and result 0; nothing is left in the queue.  With
    several parts this needs a new buffer: when it cannot be allocated, the last
    part is freed twice. *)
Theorem exchange_assembles (alloc : option sk_buff) (ps : list bytes) (p : bytes) (rs : list sk_buff) (r : sk_buff)
  (earlier : list (option sk_buff * Z)) :
  Forall2 (is_part true) ps rs -> is_part false p r ->
  (forall a, alloc = Some a ->
     skb_len a = 0 /\ Z.of_nat (length (concat ps ++ p)) <= Z.of_nat (length (skb_mem a))) ->
  let run := exchange_run alloc (rs ++ [r]) (mk_exchange [] false earlier) in
  if bool_decide (alloc = None) && (1 <=? length rs)%nat
  then run = Ub
  else exists s, run = Ret (replicate (length ps) (- EINPROGRESS) ++ [0],
                            mk_exchange [] false (earlier ++ [(Some s, 0)])) /\
       skb_data s = concat ps ++ p.
Proof.
  intros Hf Hp Ha run.
  destruct (exchange_run_more alloc ps rs (mk_exchange [] false earlier) Hf eq_refl [r]) as (q & Hq & E).
  cbn [resp_q called app] in E. unfold run. rewrite E. cbn [exchange_run].
  destruct (exchange_last alloc p r (mk_exchange q false earlier) Hp) as (r' & Hr' & ->). cbn [resp_q mi_queued called].
  assert (parts_data (q ++ [r']) = concat ps ++ p) as Hd.
  { unfold parts_data. rewrite map_app, Hq, concat_app. cbn. by rewrite Hr', app_nil_r. }
  assert (length q = length rs) as Hlen by (rewrite <- (length_map skb_data q), Hq; by eapply Forall2_length).
  pose proof (build_response_ok alloc (q ++ [r'])) as Hb. rewrite <- parts_data_length, Hd in Hb.
  specialize (Hb ltac:(by destruct q) Ha). destruct rs as [|r1 rs], q as [|q1 q]; try (cbn in Hlen; lia).
  - cbn [app] in *. rewrite andb_false_r. assert (exists s, pn533_build_response alloc [r'] = Ret (Some s) /\
      skb_data s = concat ps ++ p) as (s & -> & Hs) by (by destruct alloc).
    cbn [mbind outcome_bind resp_q called]. by exists s.
  - rewrite andb_true_r. destruct alloc as [a|]; cbn [app] in *.
    + rewrite bool_decide_false by done. destruct Hb as (s & -> & Hs). cbn [mbind outcome_bind resp_q called].
      by exists s.
    + rewrite bool_decide_true by done. destruct q; cbn [app] in Hb |- *; by rewrite Hb.
Qed.
End properties.

(** ** Witness: three parts *)

Section data_witness.
#[local] Existing Instance plain_skbuff.
#[local] Existing Instance plain_skbuff_laws.

Definition part (status : Z) (p : bytes) : sk_buff := mk_skb [] (status :: p) [].

Definition room (n : nat) : sk_buff := mk_skb [] [] (replicate n 0).

Lemma exchange_assembles_witness :
  (exists s, exchange_run (Some (room 5)) [part 0x40 [1; 2]; part 0x40 [3]; part 0 [4; 5]]
       (mk_exchange [] false []) = Ret ([-115; -115; 0], mk_exchange [] false [(Some s, 0)]) /\
     skb_data s = [1; 2; 3; 4; 5]) /\
  exchange_run None [part 0x40 [1; 2]; part 0 [3]] (mk_exchange [] false []) = Ub.
Proof.
  split.
  - apply (exchange_assembles (Some (room 5)) [[1; 2]; [3]] [4; 5]
      [part 0x40 [1; 2]; part 0x40 [3]] (part 0 [4; 5]) []).
    + repeat constructor; by eexists.
    + by eexists.
    + intros a [= <-]. split; [done|]. vm_compute. discriminate.
  - apply (exchange_assembles None [[1; 2]] [3] [part 0x40 [1; 2]] (part 0 [3]) []).
    + repeat constructor; by eexists.
    + by eexists.
    + done.
Defined.
End data_witness.
