(* ===== verification/PnPoll.v ===== *)
(** * PN533 polling and targets: [pn533.c]

    The modulations polled one after the other, the start and the end of
    polling, and what the driver makes of a target's answer.  The NFC core's
    numbers and array sizes ([linux/nfc.h]) are an interface; what the core is
    told is a list. *)

From S2P Require Import Prelude PnFrame.

(** ** Interface: [linux/nfc.h] and the core's target *)

Class nfc_h := {
  NFC_PROTO_JEWEL_MASK : Z;
  NFC_PROTO_MIFARE_MASK : Z;
  NFC_PROTO_FELICA_MASK : Z;
  NFC_PROTO_ISO14443_MASK : Z;
  NFC_PROTO_NFC_DEP_MASK : Z;
  NFC_PROTO_ISO14443_B_MASK : Z;
  NFC_PROTO_NFC_DEP : Z;
  NFC_PROTO_FELICA : Z;
  NFC_COMM_ACTIVE : Z;
  NFC_COMM_PASSIVE : Z;
  NFC_NFCID1_MAXSIZE : nat;
  NFC_SENSF_RES_MAXSIZE : nat }.

Definition EPROTO : Z := 71.
Definition EAGAIN : Z := 11.
Definition EBUSY : Z := 16.
Definition ENOENT : Z := 2.
Definition EOPNOTSUPP : Z := 95.

(** ** Modulations *)

Definition PN533_POLL_MOD_106KBPS_A : Z := 0.
Definition PN533_POLL_MOD_212KBPS_FELICA : Z := 1.
Definition PN533_POLL_MOD_424KBPS_FELICA : Z := 2.
Definition PN533_POLL_MOD_106KBPS_JEWEL : Z := 3.
Definition PN533_POLL_MOD_847KBPS_B : Z := 4.
Definition PN533_LISTEN_MOD : Z := 5.
Definition PN533_POLL_MOD_MAX : Z := 5.

(** The bytes of [poll_mod[m].data], as many as its [len]. *)
Definition poll_mod (m : Z) : bytes :=
  if m =? PN533_POLL_MOD_106KBPS_A then [1; 0]
  else if m =? PN533_POLL_MOD_212KBPS_FELICA then [1; 1; 0; 0xFF; 0xFF; 0; 0]
  else if m =? PN533_POLL_MOD_424KBPS_FELICA then [1; 2; 0; 0xFF; 0xFF; 0; 0]
  else if m =? PN533_POLL_MOD_106KBPS_JEWEL then [1; 4]
  else if m =? PN533_POLL_MOD_847KBPS_B then [1; 8; 0]
  else [].

(** ** State *)

Record nfc_target := mk_target {
  supported_protocols : Z;
  sens_res : Z;
  sel_res : Z;
  nfcid1_len : Z;
  nfcid1 : bytes;
  sensf_res_len : Z;
  sensf_res : bytes }.

(** [poll_mod_active] holds pointers into [poll_mod]: indices, -1 for one that
    was never set.  [targets] is what the core has been told. *)
Record poll_state := mk_poll {
  poll_mod_active : list Z;
  poll_mod_count : Z;
  poll_mod_curr : Z;
  poll_protocols : Z;
  listen_protocols : Z;
  tgt_available_prots : Z;
  tgt_active_prot : Z;
  tgt_mode : bool;
  listen_timer : bool;   (** armed *)
  cancel_listen : bool;
  targets : list nfc_target }.

Definition set_mods a n d := mk_poll a n (poll_mod_curr d) (poll_protocols d) (listen_protocols d)
  (tgt_available_prots d) (tgt_active_prot d) (tgt_mode d) (listen_timer d) (cancel_listen d) (targets d).
Definition set_curr v d := mk_poll (poll_mod_active d) (poll_mod_count d) v (poll_protocols d) (listen_protocols d)
  (tgt_available_prots d) (tgt_active_prot d) (tgt_mode d) (listen_timer d) (cancel_listen d) (targets d).
Definition set_protocols im tm d := mk_poll (poll_mod_active d) (poll_mod_count d) (poll_mod_curr d) im tm
  (tgt_available_prots d) (tgt_active_prot d) (tgt_mode d) (listen_timer d) (cancel_listen d) (targets d).
Definition set_active av ac mode d := mk_poll (poll_mod_active d) (poll_mod_count d) (poll_mod_curr d)
  (poll_protocols d) (listen_protocols d) av ac mode (listen_timer d) (cancel_listen d) (targets d).
Definition set_timer t c d := mk_poll (poll_mod_active d) (poll_mod_count d) (poll_mod_curr d)
  (poll_protocols d) (listen_protocols d) (tgt_available_prots d) (tgt_active_prot d) (tgt_mode d) t c (targets d).
Definition found t d := mk_poll (poll_mod_active d) (poll_mod_count d) (poll_mod_curr d) (poll_protocols d)
  (listen_protocols d) (u8 (supported_protocols t)) (tgt_active_prot d) (tgt_mode d) (listen_timer d)
  (cancel_listen d) (targets d ++ [t]).

Definition poll_init : poll_state :=
  mk_poll (replicate (Z.to_nat (PN533_POLL_MOD_MAX + 1)) (-1)) 0 0 0 0 0 0 false false false [].

(** ** The list of modulations *)

Section polling.
Context `{NF : nfc_h}.

Definition pn533_poll_next_mod (d : poll_state) : outcome poll_state :=
  if poll_mod_count d =? 0 then Ub
  else Ret (set_curr ((poll_mod_curr d + 1) mod poll_mod_count d) d).

Definition pn533_poll_reset_mod_list (d : poll_state) : poll_state := set_mods (poll_mod_active d) 0 d.

Definition pn533_poll_add_mod (m : Z) (d : poll_state) : outcome poll_state :=
  a ← arr_wr (poll_mod_active d) (poll_mod_count d) m;
  Ret (set_mods a (u8 (poll_mod_count d + 1)) d).

Definition pn533_poll_create_mod_list (im_protocols tm_protocols : Z) (d : poll_state) : outcome poll_state :=
  let d := pn533_poll_reset_mod_list d in
  d ← (if ctrue (im_protocols .& NFC_PROTO_MIFARE_MASK) || ctrue (im_protocols .& NFC_PROTO_ISO14443_MASK) ||
          ctrue (im_protocols .& NFC_PROTO_NFC_DEP_MASK)
       then pn533_poll_add_mod PN533_POLL_MOD_106KBPS_A d else Ret d);
  d ← (if ctrue (im_protocols .& NFC_PROTO_FELICA_MASK) || ctrue (im_protocols .& NFC_PROTO_NFC_DEP_MASK)
       then d ← pn533_poll_add_mod PN533_POLL_MOD_212KBPS_FELICA d;
            pn533_poll_add_mod PN533_POLL_MOD_424KBPS_FELICA d
       else Ret d);
  d ← (if ctrue (im_protocols .& NFC_PROTO_JEWEL_MASK)
       then pn533_poll_add_mod PN533_POLL_MOD_106KBPS_JEWEL d else Ret d);
  d ← (if ctrue (im_protocols .& NFC_PROTO_ISO14443_B_MASK)
       then pn533_poll_add_mod PN533_POLL_MOD_847KBPS_B d else Ret d);
  if ctrue tm_protocols then pn533_poll_add_mod PN533_LISTEN_MOD d else Ret d.

(** [poll_mod_active[poll_mod_curr]] *)
Definition current_mod (d : poll_state) : outcome Z :=
  m ← arr_rd (poll_mod_active d) (poll_mod_curr d); if m =? -1 then Ub else Ret m.

(** [gb] is whether the core has general bytes, [sent] what sending the command of
    the first modulation answers. *)
Definition pn533_start_poll (gb : bool) (sent : Z) (im_protocols tm_protocols : Z) (d : poll_state)
  : outcome (Z * poll_state) :=
  if ctrue (tgt_active_prot d) then Ret (- EBUSY, d)
  else if tgt_mode d then Ret (- EBUSY, d)
  else
    let tm_protocols := if ctrue tm_protocols && negb gb then 0 else tm_protocols in
    d ← pn533_poll_create_mod_list im_protocols tm_protocols (set_curr 0 d);
    let d := set_protocols im_protocols tm_protocols d in
    _ ← current_mod d;
    Ret (sent, d).

(** ** Targets

    [data] is the memory from the target's data on, [len] the number of bytes
    received, an [int] that is compared as an unsigned number. *)

Definition read_bytes (data : bytes) (off n : nat) : outcome bytes :=
  if (off + n <=? length data)%nat then Ret (take n (drop off data)) else Ub.

Definition target_zero : nfc_target :=
  mk_target 0 0 0 0 (replicate NFC_NFCID1_MAXSIZE 0) 0 (replicate NFC_SENSF_RES_MAXSIZE 0).

Definition be16 (data : bytes) (off : Z) : outcome Z :=
  a ← arr_rd data off; b ← arr_rd data (off + 1); Ret (a * 2 ^ 8 + b).

(** The two consistency rules that type A and Jewel share. *)
Definition sens_res_ok (sens_res : Z) : bool :=
  let ssd := u8 (sens_res .& 0x001F) in
  let platconf := u8 ((sens_res .& 0x0F00) ≫ 8) in
  negb (((ssd =? 0) && negb (platconf =? 0x0C)) || (negb (ssd =? 0) && (platconf =? 0x0C))).

Definition pn533_target_type_a_is_valid (data : bytes) (len : Z) : outcome bool :=
  if u32 len <? 4 then Ret false
  else
    s ← be16 data 0;
    if negb (sens_res_ok s) then Ret false
    else
      sel ← arr_rd data 2;
      if negb ((sel .& 0x04) ≫ 2 =? 0) then Ret false else Ret true.

Definition type_a_protocols (sel_res : Z) : Z :=
  let prot := (sel_res .& 0x60) ≫ 5 in
  if prot =? 0 then NFC_PROTO_MIFARE_MASK
  else if prot =? 1 then NFC_PROTO_ISO14443_MASK
  else if prot =? 2 then NFC_PROTO_NFC_DEP_MASK
  else NFC_PROTO_ISO14443_MASK .| NFC_PROTO_NFC_DEP_MASK.

Definition pn533_target_found_type_a (t : nfc_target) (data : bytes) (len : Z) : outcome (Z * nfc_target) :=
  valid ← pn533_target_type_a_is_valid data len;
  if negb valid then Ret (- EPROTO, t)
  else
    s ← be16 data 0;
    sel ← arr_rd data 2;
    n ← arr_rd data 3;
    id ← read_bytes data 4 (Z.to_nat n);
    nfcid1 ← put_block (nfcid1 t) 0 id;
    Ret (0, mk_target (type_a_protocols sel) s sel n nfcid1 (sensf_res_len t) (sensf_res t)).

Definition pn533_target_felica_is_valid (data : bytes) (len : Z) : outcome bool :=
  if u32 len <? 18 then Ret false
  else opcode ← arr_rd data 1; if negb (opcode =? 1) then Ret false else Ret true.

Definition pn533_target_found_felica (t : nfc_target) (data : bytes) (len : Z) : outcome (Z * nfc_target) :=
  valid ← pn533_target_felica_is_valid data len;
  if negb valid then Ret (- EPROTO, t)
  else
    b1 ← arr_rd data 2;
    b2 ← arr_rd data 3;
    let prot := if (b1 =? 0x01) && (b2 =? 0xFE) then NFC_PROTO_NFC_DEP_MASK else NFC_PROTO_FELICA_MASK in
    r ← read_bytes data 1 9;
    sensf ← put_block (sensf_res t) 0 r;
    Ret (0, mk_target prot (sens_res t) (sel_res t) (nfcid1_len t) (nfcid1 t) 9 sensf).

Definition pn533_target_jewel_is_valid (data : bytes) (len : Z) : outcome bool :=
  if u32 len <? 6 then Ret false else s ← be16 data 0; Ret (sens_res_ok s).

Definition pn533_target_found_jewel (t : nfc_target) (data : bytes) (len : Z) : outcome (Z * nfc_target) :=
  valid ← pn533_target_jewel_is_valid data len;
  if negb valid then Ret (- EPROTO, t)
  else
    s ← be16 data 0;
    id ← read_bytes data 2 4;
    nfcid1 ← put_block (nfcid1 t) 0 id;
    Ret (0, mk_target NFC_PROTO_JEWEL_MASK s (sel_res t) 4 nfcid1 (sensf_res_len t) (sensf_res t)).

Definition pn533_target_type_b_is_valid (data : bytes) (len : Z) : outcome bool :=
  if u32 len <? 13 then Ret false
  else
    opcode ← arr_rd data 0;
    if negb (opcode =? 0x50) then Ret false
    else fsci ← arr_rd data 10; if ctrue ((fsci .& 0x0F) .& 0x8) then Ret false else Ret true.

Definition pn533_target_found_type_b (t : nfc_target) (data : bytes) (len : Z) : outcome (Z * nfc_target) :=
  valid ← pn533_target_type_b_is_valid data len;
  if negb valid then Ret (- EPROTO, t)
  else Ret (0, mk_target NFC_PROTO_ISO14443_B_MASK (sens_res t) (sel_res t) (nfcid1_len t) (nfcid1 t)
    (sensf_res_len t) (sensf_res t)).

(** [switch (dev->poll_mod_curr)] of [pn533_target_found] *)
Definition target_parser (m : Z) : option (nfc_target -> bytes -> Z -> outcome (Z * nfc_target)) :=
  if m =? PN533_POLL_MOD_106KBPS_A then Some pn533_target_found_type_a
  else if (m =? PN533_POLL_MOD_212KBPS_FELICA) || (m =? PN533_POLL_MOD_424KBPS_FELICA)
  then Some pn533_target_found_felica
  else if m =? PN533_POLL_MOD_106KBPS_JEWEL then Some pn533_target_found_jewel
  else if m =? PN533_POLL_MOD_847KBPS_B then Some pn533_target_found_type_b
  else None.

Definition pn533_target_found (tg : Z) (data : bytes) (len : Z) (d : poll_state) : outcome (Z * poll_state) :=
  if negb (tg =? 1) then Ret (- EPROTO, d)
  else
    match target_parser (poll_mod_curr d) with
    | None => Ret (- EPROTO, d)
    | Some parse =>
      '(rc, t) ← parse target_zero data len;
      if negb (rc =? 0) then Ret (rc, d)
      else if negb (ctrue (supported_protocols t .& poll_protocols d)) then Ret (- EAGAIN, d)
      else Ret (0, found t d)
    end.

(** [resp] is the memory of the response, [len] how much of it was received. *)
Definition pn533_start_poll_complete (resp : bytes) (len : Z) (d : poll_state) : outcome (Z * poll_state) :=
  nbtg ← arr_rd resp 0;
  tg ← arr_rd resp 1;
  if ctrue nbtg then
    '(rc, d) ← pn533_target_found tg (drop 2 resp) (len - 2) d;
    if rc =? 0 then Ret (0, pn533_poll_reset_mod_list d) else Ret (- EAGAIN, d)
  else Ret (- EAGAIN, d).

(** The works that a function queues. *)
Inductive poll_work := PollWork | TgWork.

(** [tm_activated] answers [nfc_tm_activated]. *)
Definition pn533_init_target_complete (tm_activated : Z) (resp : bytes) (len : Z) (d : poll_state)
  : outcome (Z * list poll_work * poll_state) :=
  if len <? 17 + 1 then Ret (- EINVAL, [], d)
  else
    mode ← arr_rd resp 0;
    if mode .& 0x4 =? 0 then Ret (- EOPNOTSUPP, [], d)
    else if tm_activated <? 0 then Ret (tm_activated, [], d)
    else Ret (0, [TgWork], set_active (tgt_available_prots d) (tgt_active_prot d) true d).

(** The callback gets an error, which is negative, or a response. *)
Definition pn533_poll_complete (tm_activated : Z) (resp : Z + bytes * Z) (d : poll_state)
  : outcome (Z * list poll_work * poll_state) :=
  match resp with
  | inl rc =>
    if (rc =? - ENOENT) && negb (poll_mod_count d =? 0) then Ret (rc, [], d)
    else Ret (rc, [], set_protocols 0 (listen_protocols d) (pn533_poll_reset_mod_list d))
  | inr (resp, len) =>
    m ← current_mod d;
    if (length (poll_mod m) =? 0)%nat
    then pn533_init_target_complete tm_activated resp len (set_timer false (cancel_listen d) d)
    else
      '(rc, d) ← pn533_start_poll_complete resp len d;
      if rc =? 0 then Ret (rc, [], d)
      else if poll_mod_count d =? 0 then Ret (rc, [], d)
      else d ← pn533_poll_next_mod d; Ret (rc, [PollWork], d)
  end.

(** ** Polling *)

(** [sent] answers [pn533_send_poll_frame]; the result is whether the command in
    progress is aborted. *)
Definition pn533_wq_poll (sent : Z) (d : poll_state) : outcome (bool * poll_state) :=
  m ← current_mod d;
  let abort := cancel_listen d in
  let d := set_timer (listen_timer d) false d in
  if negb (sent =? 0) then Ret (abort, d)
  else if (length (poll_mod m) =? 0)%nat && (1 <? poll_mod_count d)
  then Ret (abort, set_timer true (cancel_listen d) d)
  else Ret (abort, d).

Definition pn533_listen_mode_timer (d : poll_state) : outcome (list poll_work * poll_state) :=
  d ← pn533_poll_next_mod (set_timer false true d); Ret ([PollWork], d).

(** Whether a command is aborted. *)
Definition pn533_stop_poll (d : poll_state) : bool * poll_state :=
  let d := set_timer false (cancel_listen d) d in
  if poll_mod_count d =? 0 then (false, d) else (true, pn533_poll_reset_mod_list d).

(** ** Links *)

(** What a link that comes up changes: its target is told to the core when none was
    known, and it is active. *)
Definition told (t : nfc_target) (d : poll_state) : poll_state :=
  mk_poll (poll_mod_active d) (poll_mod_count d) (poll_mod_curr d) (poll_protocols d) (listen_protocols d)
    (tgt_available_prots d) (tgt_active_prot d) (tgt_mode d) (listen_timer d) (cancel_listen d) (targets d ++ [t]).
Definition link_up (d : poll_state) : poll_state :=
  set_active (tgt_available_prots d) (u8 NFC_PROTO_NFC_DEP) (tgt_mode d) d.

Definition pn533_mod_to_baud (d : poll_state) : Z :=
  if poll_mod_curr d =? PN533_POLL_MOD_106KBPS_A then 0
  else if poll_mod_curr d =? PN533_POLL_MOD_212KBPS_FELICA then 1
  else if poll_mod_curr d =? PN533_POLL_MOD_424KBPS_FELICA then 2
  else - EINVAL.
End polling.

(** ** Specification *)

Section spec.
Context `{NF : nfc_h}.

Definition wants_type_a (im : Z) : bool :=
  ctrue (im .& NFC_PROTO_MIFARE_MASK) || ctrue (im .& NFC_PROTO_ISO14443_MASK) || ctrue (im .& NFC_PROTO_NFC_DEP_MASK).
Definition wants_felica (im : Z) : bool :=
  ctrue (im .& NFC_PROTO_FELICA_MASK) || ctrue (im .& NFC_PROTO_NFC_DEP_MASK).

(** The modulations that serve the requested protocols, in the order polled. *)
Definition requested (im tm : Z) : list Z :=
  (if wants_type_a im then [PN533_POLL_MOD_106KBPS_A] else []) ++
  (if wants_felica im then [PN533_POLL_MOD_212KBPS_FELICA; PN533_POLL_MOD_424KBPS_FELICA] else []) ++
  (if ctrue (im .& NFC_PROTO_JEWEL_MASK) then [PN533_POLL_MOD_106KBPS_JEWEL] else []) ++
  (if ctrue (im .& NFC_PROTO_ISO14443_B_MASK) then [PN533_POLL_MOD_847KBPS_B] else []) ++
  (if ctrue tm then [PN533_LISTEN_MOD] else []).

(** [n] changes of modulation. *)
Fixpoint rotate (n : nat) (d : poll_state) : outcome poll_state :=
  match n with O => Ret d | S n => d ← pn533_poll_next_mod d; rotate n d end.

(** The first entries of the array are the modulations polled, the current one
    is among them, and while there are any no target is active, if no link was
    brought up meanwhile. *)
Definition poll_ok (overlap : bool) (d : poll_state) : Prop :=
  length (poll_mod_active d) = 6%nat /\ 0 <= poll_mod_count d <= 6 /\
  Forall (fun m => 0 <= m <= 5) (take (Z.to_nat (poll_mod_count d)) (poll_mod_active d)) /\
  (poll_mod_count d <> 0 ->
   0 <= poll_mod_curr d < poll_mod_count d /\ (overlap = false -> tgt_active_prot d = 0)).

(** What USB and the timer do to the driver.  [overlap] is whether the answer to
    a request for a link may come while the driver polls: nothing in the driver
    keeps the NFC core from starting to poll before it. *)
Inductive work_step (overlap : bool) (d : poll_state) : poll_state -> Prop :=
| step_poll_complete tm_activated resp rc ws d' :
    pn533_poll_complete tm_activated resp d = Ret (rc, ws, d') -> work_step overlap d d'
| step_wq_poll sent abort d' : pn533_wq_poll sent d = Ret (abort, d') -> work_step overlap d d'
| step_timer ws d' : listen_timer d = true -> pn533_listen_mode_timer d = Ret (ws, d') -> work_step overlap d d'
| step_link_up : overlap = true \/ poll_mod_count d = 0 -> work_step overlap d (link_up d)
| step_target_told t : work_step overlap d (told t d)
| step_tm_off : work_step overlap d (set_active (tgt_available_prots d) (tgt_active_prot d) false d).

(** With what the core does. *)
Inductive poll_step (overlap : bool) (d : poll_state) : poll_state -> Prop :=
| step_work d' : work_step overlap d d' -> poll_step overlap d d'
| step_start_poll gb sent im tm rc d' : pn533_start_poll gb sent im tm d = Ret (rc, d') -> poll_step overlap d d'
| step_stop_poll : poll_step overlap d (snd (pn533_stop_poll d))
| step_activated protocol :
    poll_mod_count d = 0 -> poll_step overlap d (set_active 0 (u8 protocol) (tgt_mode d) d)
| step_deactivated : poll_step overlap d (set_active (tgt_available_prots d) 0 (tgt_mode d) d)
| step_link_down :
    poll_step overlap d (set_active (tgt_available_prots d) 0 false (pn533_poll_reset_mod_list d)).

Inductive poll_reachable (overlap : bool) : poll_state -> Prop :=
| reachable_init : poll_reachable overlap poll_init
| reachable_step d d' : poll_reachable overlap d -> poll_step overlap d d' -> poll_reachable overlap d'.

(** ** Lemmas: the list of modulations *)

(** What the list made is. *)
Lemma create_mod_list_ok im tm d :
  length (poll_mod_active d) = 6%nat ->
  exists a, pn533_poll_create_mod_list im tm d = Ret (set_mods a (Z.of_nat (length (requested im tm))) d) /\
    length a = 6%nat /\ take (length (requested im tm)) a = requested im tm.
Proof.
  destruct d as [a n c p l av ac md t cl ts]. cbn [poll_mod_active]. intros Hl.
  destruct a as [|a0 [|a1 [|a2 [|a3 [|a4 [|a5 [|]]]]]]]; try done.
  unfold pn533_poll_create_mod_list, requested. fold (wants_type_a im) (wants_felica im).
  destruct (wants_type_a im), (wants_felica im), (ctrue (im .& NFC_PROTO_JEWEL_MASK)),
    (ctrue (im .& NFC_PROTO_ISO14443_B_MASK)), (ctrue tm); eexists; (split; [reflexivity|split; reflexivity]).
Qed.

Lemma requested_range im tm : Forall (fun m => 0 <= m <= 5) (requested im tm) /\ (length (requested im tm) <= 6)%nat.
Proof.
  unfold requested. split; [|repeat case_match; cbn; lia].
  repeat apply Forall_app_2; case_match; repeat apply Forall_cons_2; try apply Forall_nil_2;
    unfold PN533_POLL_MOD_106KBPS_A, PN533_POLL_MOD_212KBPS_FELICA, PN533_POLL_MOD_424KBPS_FELICA,
      PN533_POLL_MOD_106KBPS_JEWEL, PN533_POLL_MOD_847KBPS_B, PN533_LISTEN_MOD; lia.
Qed.

Lemma start_poll_made gb sent im tm d rc d' :
  length (poll_mod_active d) = 6%nat -> pn533_start_poll gb sent im tm d = Ret (rc, d') ->
  (d' = d /\ rc = - EBUSY) \/
  (tgt_active_prot d = 0 /\ poll_mod_curr d' = 0 /\ poll_protocols d' = im /\
   tgt_active_prot d' = 0 /\ length (poll_mod_active d') = 6%nat /\
   exists tm', poll_mod_count d' = Z.of_nat (length (requested im tm')) /\
     take (length (requested im tm')) (poll_mod_active d') = requested im tm').
Proof.
  intros Hl. unfold pn533_start_poll. destruct (ctrue (tgt_active_prot d)) eqn:Ea; [intros [= <- <-]; by left|].
  destruct (tgt_mode d); [intros [= <- <-]; by left|].
  set (tm' := if ctrue tm && negb gb then 0 else tm).
  destruct (create_mod_list_ok im tm' (set_curr 0 d) Hl) as (a & -> & Hla & Ht). cbn [mbind outcome_bind].
  destruct (current_mod _); try done. cbn [mbind outcome_bind]. intros [= <- <-]. right. cbn.
  assert (tgt_active_prot d = 0) as E0 by (unfold ctrue in Ea; by zbool). rewrite E0.
  split_and!; try done. by exists tm'.
Qed.

(** The index after some changes of modulation. *)
Lemma rotate_ok n : forall d,
  0 < poll_mod_count d -> 0 <= poll_mod_curr d < poll_mod_count d ->
  rotate n d = Ret (set_curr ((poll_mod_curr d + Z.of_nat n) mod poll_mod_count d) d).
Proof.
  induction n as [|n IH]; intros d Hc Hr; cbn [rotate].
  - rewrite Z.add_0_r, Z.mod_small by done. by destruct d.
  - unfold pn533_poll_next_mod. rewrite (proj2 (Z.eqb_neq _ 0)) by lia. cbn [mbind outcome_bind].
    rewrite IH; [|done|apply Z.mod_pos_bound; done]. cbn. rewrite Zplus_mod_idemp_l.
    replace (poll_mod_curr d + 1 + Z.of_nat n) with (poll_mod_curr d + Z.of_nat (S n)) by lia. by destruct d.
Qed.

(** ** Lemmas: targets *)

Lemma target_found_result tg data len d rc d' :
  pn533_target_found tg data len d = Ret (rc, d') ->
  (rc = 0 /\ exists t parse, d' = found t d /\ target_parser (poll_mod_curr d) = Some parse /\
     parse target_zero data len = Ret (0, t) /\ supported_protocols t .& poll_protocols d <> 0) \/
  (rc <> 0 /\ d' = d).
Proof.
  unfold pn533_target_found. case_match; [intros [= <- <-]; auto|].
  destruct (target_parser _) as [parse|]; [|intros [= <- <-]; auto].
  destruct (parse target_zero data len) as [[rc1 t]| | |] eqn:Ep; try done. cbn [mbind outcome_bind].
  destruct (Z.eqb_spec rc1 0) as [->|]; cbn [negb]; [|intros [= <- <-]; auto].
  destruct (ctrue (supported_protocols t .& poll_protocols d)) eqn:Es; cbn [negb]; [|intros [= <- <-]; auto].
  intros [= <- <-]. left. split; [done|]. exists t, parse. unfold ctrue in Es. zbool. done.
Qed.

Lemma start_poll_complete_result resp len d rc d' :
  pn533_start_poll_complete resp len d = Ret (rc, d') ->
  (rc = 0 /\ exists t parse, d' = pn533_poll_reset_mod_list (found t d) /\
     target_parser (poll_mod_curr d) = Some parse /\
     parse target_zero (drop 2 resp) (len - 2) = Ret (0, t) /\ supported_protocols t .& poll_protocols d <> 0) \/
  (rc = - EAGAIN /\ d' = d).
Proof.
  unfold pn533_start_poll_complete. destruct (arr_rd resp 0) as [nbtg| | |]; try done. cbn [mbind outcome_bind].
  destruct (arr_rd resp 1) as [tg| | |]; try done. cbn [mbind outcome_bind].
  destruct (ctrue nbtg); [|intros [= <- <-]; auto].
  destruct (pn533_target_found _ _ _ _) as [[rc1 d1]| | |] eqn:E; try done. cbn [mbind outcome_bind].
  apply target_found_result in E as [(-> & t & parse & -> & H1 & H2 & H3)|(Hne & ->)].
  - change (0 =? 0) with true. intros [= <- <-]. left. eauto 10.
  - rewrite (proj2 (Z.eqb_neq _ _)) by done. intros [= <- <-]. auto.
Qed.

(** What the type A parser says of a target. *)
Lemma found_type_a_protocols t data len t' :
  pn533_target_found_type_a t data len = Ret (0, t') -> exists sel, supported_protocols t' = type_a_protocols sel.
Proof.
  unfold pn533_target_found_type_a. destruct (pn533_target_type_a_is_valid data len) as [v| | |]; try done.
  cbn [mbind outcome_bind]. destruct v; cbn [negb]; [|done].
  destruct (be16 data 0) as [s| | |]; try done. destruct (arr_rd data 2) as [sel| | |]; try done.
  destruct (arr_rd data 3) as [n| | |]; try done. cbn [mbind outcome_bind].
  destruct (read_bytes _ _ _) as [id| | |]; try done. cbn [mbind outcome_bind].
  destruct (put_block _ _ _) as [b| | |]; try done. intros [= <-]. by exists sel.
Qed.

Lemma type_a_protocols_disjoint sel im :
  wants_type_a im = false -> type_a_protocols sel .& im = 0.
Proof.
  unfold wants_type_a, ctrue. rewrite !orb_false_iff, !negb_false_iff, !Z.eqb_eq. intros [[Hm Hi] Hd].
  unfold type_a_protocols. repeat case_match; rewrite Z.land_comm; try done.
  by rewrite Z.land_lor_distr_r, Hi, Hd.
Qed.

(** ** Lemmas: the invariant *)

Lemma poll_ok_count0 o d : length (poll_mod_active d) = 6%nat -> poll_mod_count d = 0 -> poll_ok o d.
Proof. intros Hl Hc. unfold poll_ok. rewrite Hc. split_and!; try lia. constructor. Qed.

Lemma next_mod_ok o d d' : poll_ok o d -> pn533_poll_next_mod d = Ret d' -> poll_ok o d'.
Proof.
  intros (Hl & Hc & Hm & Ha). unfold pn533_poll_next_mod. destruct (Z.eqb_spec (poll_mod_count d) 0); [done|].
  intros [= <-]. split_and!; cbn; try done; try lia. intros _. split; [apply Z.mod_pos_bound; lia|by apply Ha].
Qed.

(** A change of the other fields. *)
Lemma poll_ok_same o d d' :
  poll_ok o d -> poll_mod_active d' = poll_mod_active d -> poll_mod_count d' = poll_mod_count d ->
  poll_mod_curr d' = poll_mod_curr d ->
  (poll_mod_count d <> 0 -> o = false -> tgt_active_prot d = 0 -> tgt_active_prot d' = 0) ->
  poll_ok o d'.
Proof.
  unfold poll_ok. intros (Hl & Hc & Hm & Ha) -> -> -> Ht. split; [done|]. split; [done|]. split; [done|]. intros Hne.
  destruct (Ha Hne) as [H1 H2]. split; [done|]. intros Ho. by apply Ht, H2.
Qed.

Lemma poll_complete_ok o tm_activated resp d rc ws d' :
  poll_ok o d -> pn533_poll_complete tm_activated resp d = Ret (rc, ws, d') -> poll_ok o d'.
Proof.
  intros Hd. pose proof Hd as (Hl & _). destruct resp as [e|[resp len]]; unfold pn533_poll_complete.
  - case_match; intros [= <- <- <-]; [done|]. by apply poll_ok_count0.
  - destruct (current_mod d) as [m| | |]; try done. cbn [mbind outcome_bind]. case_match.
    + unfold pn533_init_target_complete. case_match; [intros [= <- <- <-]; by apply (poll_ok_same o d)|].
      destruct (arr_rd resp 0) as [b| | |]; try done. cbn [mbind outcome_bind].
      repeat case_match; intros [= <- <- <-]; by apply (poll_ok_same o d).
    + destruct (pn533_start_poll_complete _ _ _) as [[rc1 d1]| | |] eqn:E; try done. cbn [mbind outcome_bind].
      apply start_poll_complete_result in E as [(-> & t & parse & -> & _)|(-> & ->)].
      * intros [= <- <- <-]. by apply poll_ok_count0.
      * change (- EAGAIN =? 0) with false. cbn match. case_match; [intros [= <- <- <-]; done|].
        destruct (pn533_poll_next_mod d) as [d2| | |] eqn:En; try done. intros [= <- <- <-]. by eapply next_mod_ok.
Qed.

Lemma work_step_ok o d d' : poll_ok o d -> work_step o d d' -> poll_ok o d'.
Proof.
  intros Hd Hs. destruct Hs as [ta resp rc ws d' E|sent abort d' E|ws d' Ht E|Ho|t|].
  - by eapply poll_complete_ok.
  - unfold pn533_wq_poll in E. destruct (current_mod d); try done. cbn [mbind outcome_bind] in E.
    repeat case_match; injection E as <- <-; by apply (poll_ok_same o d).
  - unfold pn533_listen_mode_timer in E. destruct (pn533_poll_next_mod _) as [d1| | |] eqn:En; try done.
    injection E as <- <-. eapply next_mod_ok; [|exact En]. by apply (poll_ok_same o d).
  - apply (poll_ok_same o d); try done. intros Hne Hof. by destruct Ho; [subst o|].
  - by apply (poll_ok_same o d).
  - by apply (poll_ok_same o d).
Qed.

Lemma poll_step_ok o d d' : poll_ok o d -> poll_step o d d' -> poll_ok o d'.
Proof.
  intros Hd Hs. pose proof Hd as (Hl & _).
  destruct Hs as [d' Hs|gb sent im tm rc d' E| |protocol Hc| |].
  - by eapply work_step_ok.
  - destruct (start_poll_made gb sent im tm d rc d' Hl E) as
      [[-> _]|(_ & Hcur & _ & Hact & Hla & tm' & Hc & Htk)]; [done|].
    destruct (requested_range im tm') as [Hr Hlr]. unfold poll_ok. rewrite Hc, Nat2Z.id, Htk.
    split_and!; try done; lia.
  - unfold pn533_stop_poll. case_match; [by apply (poll_ok_same o d)|by apply poll_ok_count0].
  - by apply poll_ok_count0.
  - by apply (poll_ok_same o d).
  - by apply poll_ok_count0.
Qed.

(** The modulation at an index of the list. *)
Lemma current_mod_at d req k :
  take (Z.to_nat (poll_mod_count d)) (poll_mod_active d) = req -> Forall (fun m => 0 <= m <= 5) req ->
  poll_mod_curr d = Z.of_nat k -> (k < length req)%nat -> current_mod d = checked (req !! k).
Proof.
  intros Ht Hr Hk Hlt. destruct (lookup_lt_is_Some_2 req k Hlt) as [m Hm]. rewrite Hm.
  pose proof (proj1 (Forall_lookup _ _) Hr k m Hm) as Hrange. cbn beta in Hrange.
  unfold current_mod. rewrite Hk, arr_rd_nat. rewrite <- Ht in Hm, Hlt. rewrite length_take in Hlt.
  rewrite lookup_take_lt in Hm by lia. rewrite Hm. cbn [checked mbind outcome_bind].
  by rewrite (proj2 (Z.eqb_neq m (-1))) by lia.
Qed.

Lemma reachable_poll_ok o d : poll_reachable o d -> poll_ok o d.
Proof. induction 1 as [|d d' _ IH Hs]; [by apply poll_ok_count0|]. by eapply poll_step_ok. Qed.

(** No answer is a target of type A when no such protocol is requested. *)
Lemma index_zero_not_found resp len d d2 :
  poll_mod_curr d = 0 -> wants_type_a (poll_protocols d) = false ->
  pn533_start_poll_complete resp len d <> Ret (0, d2).
Proof.
  intros Hc Hw E. apply start_poll_complete_result in E as [(_ & t & parse & _ & Hp & Ht & Hs)|(H0 & _)]; [|done].
  rewrite Hc in Hp. injection Hp as <-. apply found_type_a_protocols in Ht as [sel Hsel].
  rewrite Hsel in Hs. by apply Hs, type_a_protocols_disjoint.
Qed.

(** While the driver polls, the current modulation is one of the list. *)
Lemma polled_while (overlap : bool) (d : poll_state) :
  poll_reachable overlap d -> poll_mod_count d <> 0 ->
  0 <= poll_mod_curr d < poll_mod_count d /\ (exists m, 0 <= m <= 5 /\ current_mod d = Ret m) /\
  (overlap = false -> tgt_active_prot d = 0).
Proof.
  intros Hd Hne. pose proof (reachable_poll_ok overlap d Hd) as (Hl & Hc & Hm & Ha). destruct (Ha Hne) as [Hcur Hact].
  split; [done|]. split; [|done]. set (req := take (Z.to_nat (poll_mod_count d)) (poll_mod_active d)) in *.
  assert (Z.to_nat (poll_mod_curr d) < length req)%nat as Hlt by (unfold req; rewrite length_take; lia).
  rewrite (current_mod_at d req (Z.to_nat (poll_mod_curr d)) eq_refl Hm) by lia.
  destruct (lookup_lt_is_Some_2 req _ Hlt) as [m Hm']. rewrite Hm'. exists m. split; [|done].
  by eapply (proj1 (Forall_lookup _ _)) in Hm.
Qed.

(** ** Properties *)

(** The list of modulations.  A driver that starts polling polls exactly the
    modulations that serve the requested protocols, in the order of the table;
    after [n] changes of modulation it is at number [n] modulo their count, so
    that each has its turn. *)
Theorem polls_requested (gb : bool) (sent im tm : Z) (d : poll_state) (n : nat) :
  length (poll_mod_active d) = 6%nat -> tgt_active_prot d = 0 -> tgt_mode d = false ->
  let req := requested im (if ctrue tm && negb gb then 0 else tm) in
  req <> [] ->
  exists d1 d2, pn533_start_poll gb sent im tm d = Ret (sent, d1) /\
    take (Z.to_nat (poll_mod_count d1)) (poll_mod_active d1) = req /\
    rotate n d1 = Ret d2 /\ current_mod d2 = checked (req !! (n mod length req)%nat).
Proof.
  intros Hl Ha Hm req Hne. unfold pn533_start_poll. rewrite Ha, Hm. change (ctrue 0) with false. cbn match.
  destruct (create_mod_list_ok im (if ctrue tm && negb gb then 0 else tm) (set_curr 0 d) Hl) as (a & -> & Hla & Ht).
  fold req in Ht |- *. destruct (requested_range im (if ctrue tm && negb gb then 0 else tm)) as [Hr Hlr].
  fold req in Hr, Hlr. assert (0 < length req)%nat as Hpos by (destruct req; [done|cbn; lia]).
  cbn [mbind outcome_bind]. set (d1 := set_protocols _ _ _).
  assert (take (Z.to_nat (poll_mod_count d1)) (poll_mod_active d1) = req) as Htk by (cbn; by rewrite Nat2Z.id).
  rewrite (current_mod_at d1 req 0 Htk Hr eq_refl Hpos).
  destruct (lookup_lt_is_Some_2 req 0 Hpos) as [m0 ->]. cbn [checked mbind outcome_bind].
  eexists d1, _. split; [done|]. split; [done|]. split; [apply rotate_ok; cbn; lia|].
  apply current_mod_at; [done|done| |apply Nat.mod_upper_bound; lia]. cbn. by rewrite Nat2Z.inj_mod.
Qed.

(** polling and activation exclude each other.  In every state that the
    driver reaches, the modulation it is at is one of those it polls, and as
    long as it polls no target is active, unless the answer to a request for a
    link came while it polled. *)
Theorem polling_excludes_target (overlap : bool) (d : poll_state) :
  poll_reachable overlap d -> poll_mod_count d <> 0 ->
  0 <= poll_mod_curr d < poll_mod_count d /\ (exists m, 0 <= m <= 5 /\ current_mod d = Ret m) /\
  (overlap = false -> tgt_active_prot d = 0).
Proof. apply polled_while. Qed.

(** The answer of the first modulation polled is read as a type A answer,
    whatever that modulation is: the driver takes its number in the list for its
    number in the table.  So when no type A protocol is requested, no answer to
    the first modulation is ever a target, and with a single modulation (Jewel
    alone, or type B alone) nothing is found at all. *)
Theorem first_modulation_misread (gb : bool) (sent im tm rc : Z) (d d1 d2 : poll_state) (resp : bytes) (len : Z) :
  length (poll_mod_active d) = 6%nat -> wants_type_a im = false ->
  pn533_start_poll gb sent im tm d = Ret (rc, d1) -> rc <> - EBUSY ->
  pn533_start_poll_complete resp len d1 <> Ret (0, d2) /\
  (poll_mod_count d1 = 1 -> forall n d3, rotate n d1 = Ret d3 -> pn533_start_poll_complete resp len d3 <> Ret (0, d2)).
Proof.
  intros Hl Hw E Hrc. destruct (start_poll_made _ _ _ _ _ _ _ Hl E) as [[_ ?]|(_ & Hc & Hp & _)]; [done|].
  rewrite <- Hp in Hw. split; [by apply index_zero_not_found|]. intros Hone n d3 Hrot.
  rewrite rotate_ok in Hrot by lia. injection Hrot as <-. apply index_zero_not_found; [|done].
  cbn. rewrite Hone. apply Z.mod_1_r.
Qed.

(** A polling that fails while the listen timer runs stops without the timer,
    which then divides by the number of modulations, zero. *)
Lemma failed_listen_divides_by_zero (rc tm_activated : Z) (d : poll_state) :
  listen_timer d = true -> rc <> - ENOENT ->
  exists d', pn533_poll_complete tm_activated (inl rc) d = Ret (rc, [], d') /\ listen_timer d' = true /\
    pn533_listen_mode_timer d' = Ub.
Proof.
  intros Ht Hrc. unfold pn533_poll_complete. rewrite (proj2 (Z.eqb_neq rc _)) by done. cbn [andb].
  eexists. split; [done|]. split; [done|]. done.
Qed.
End spec.

(** ** Witnesses *)

Section poll_witnesses.

Definition nfc_h_example : nfc_h := {|
  NFC_PROTO_JEWEL_MASK := 0x02; NFC_PROTO_MIFARE_MASK := 0x04; NFC_PROTO_FELICA_MASK := 0x08;
  NFC_PROTO_ISO14443_MASK := 0x10; NFC_PROTO_NFC_DEP_MASK := 0x20; NFC_PROTO_ISO14443_B_MASK := 0x40;
  NFC_PROTO_NFC_DEP := 5; NFC_PROTO_FELICA := 3; NFC_COMM_ACTIVE := 0; NFC_COMM_PASSIVE := 1; NFC_NFCID1_MAXSIZE := 10; NFC_SENSF_RES_MAXSIZE := 18 |}.
#[local] Existing Instance nfc_h_example.

(** FeliCa and Jewel: three modulations; the fifth change is at the third one. *)
Lemma polls_requested_witness :
  exists d1 d2, pn533_start_poll false 0 0x0A 0 poll_init = Ret (0, d1) /\
    take 3 (poll_mod_active d1) = [1; 2; 3] /\ rotate 5 d1 = Ret d2 /\ current_mod d2 = Ret 3.
Proof.
  destruct (polls_requested false 0 0x0A 0 poll_init 5) as (d1 & d2 & H1 & H2 & H3 & H4);
    [done|done|done|done|]. exists d1, d2. split; [exact H1|]. split; [|split; [exact H3|exact H4]].
  injection H1 as <-. reflexivity.
Defined.

Definition jewel_polling : poll_state :=
  match pn533_start_poll false 0 0x02 0 poll_init with Ret (_, d) => d | _ => poll_init end.

Lemma polling_excludes_target_witness :
  poll_mod_count jewel_polling = 1 /\ tgt_active_prot jewel_polling = 0.
Proof.
  split; [reflexivity|]. apply (polling_excludes_target false jewel_polling); [|done|done].
  eapply reachable_step; [apply reachable_init|]. apply (step_start_poll _ _ false 0 0x02 0 0). reflexivity.
Defined.

(** A link that comes up while the driver polls. *)
Example link_up_while_polling :
  poll_reachable true (link_up jewel_polling) /\ poll_mod_count (link_up jewel_polling) = 1 /\
  tgt_active_prot (link_up jewel_polling) = 5.
Proof.
  split; [|by split]. eapply reachable_step; [|apply step_work, step_link_up; by left].
  eapply reachable_step; [apply reachable_init|]. apply (step_start_poll _ _ false 0 0x02 0 0). reflexivity.
Qed.

(** A Jewel answer to Jewel polling. *)
Lemma first_modulation_misread_witness :
  wants_type_a 0x02 = false /\
  forall d2, pn533_start_poll_complete [1; 1; 0x0C; 0x00; 0x20; 0x05; 0x33; 0x44; 0; 0; 0; 0] 8 jewel_polling <> Ret (0, d2).
Proof.
  split; [reflexivity|]. intros d2.
  apply (first_modulation_misread false 0 0x02 0 0 poll_init jewel_polling d2); [done|done|done|done].
Defined.
End poll_witnesses.
