(* ===== verification/PnCommand.v ===== *)
(** * PN533 commands of the driver: [pn533.c]

    What the driver's own functions are built from: the allocation and the filling of
    a request, its sending through the queue of [PnQueue], the wait for an answer, the
    abort of a command; and the configuration of the chip, which waits for each
    answer.  A function is a computation on the driver's state that asks the kernel,
    USB and the NFC core. *)

From S2P Require Import Prelude PnFrame PnQueue PnData PnPoll.

(** ** The device *)

Definition PN533_DEVICE_STD : Z := 0x1.
Definition PN533_DEVICE_PASORI : Z := 0x2.
Definition PN533_DEVICE_ACR122U : Z := 0x3.

Definition PN533_CMD_GET_FIRMWARE_VERSION : Z := 0x02.
Definition PN533_CMD_RF_CONFIGURATION : Z := 0x32.
Definition PN533_CMD_IN_DATA_EXCHANGE : Z := 0x40.
Definition PN533_CMD_IN_COMM_THRU : Z := 0x42.
Definition PN533_CMD_IN_LIST_PASSIVE_TARGET : Z := 0x4A.
Definition PN533_CMD_IN_ATR : Z := 0x50.
Definition PN533_CMD_IN_RELEASE : Z := 0x52.
Definition PN533_CMD_IN_JUMP_FOR_DEP : Z := 0x56.
Definition PN533_CMD_TG_INIT_AS_TARGET : Z := 0x8c.
Definition PN533_CMD_TG_GET_DATA : Z := 0x86.
Definition PN533_CMD_TG_SET_DATA : Z := 0x8e.

(** What the probe chooses by the device found. *)
Record pn533_type := mk_type {
  device_type : Z;
  dev_ops : pn533_frame_ops;
  dev_protocol_type : pn533_protocol_type }.

(** ** State *)

Inductive nfc_callback :=
| SendSyncComplete
| PollComplete
| InDepLinkUpComplete (active : Z)
| DataExchangeComplete
| TmGetDataComplete
| TmSendComplete.

(** What the probe takes. *)
Inductive nfc_resource := RDevice | RUsbDev | RInUrb | ROutUrb | RWorkqueue | RNfcDev | RRegistered.

#[export] Instance nfc_resource_eq_dec : EqDecision nfc_resource.
Proof. solve_decision. Defined.

(** A request that the queue has taken, with its command's number, and what else the
    outside sees. *)
Inductive nfc_effect :=
| Request (id : nat) (cb : nfc_callback) (cmd_code : Z) (payload : bytes)
| AckSent
| RawFrame (f : bytes)
| InContext (own : bool)          (** the incoming transfer has the driver's context *)
| QueueWork (w : poll_work)
| RemoteGeneralBytes (len : Z) (mem : bytes)   (** the memory, and how much of it *)
| LinkIsUp (comm_mode : Z)
| TmActivated (comm_mode : Z) (g : bytes)
| TmDeactivated
| TmDataReceived (d : bytes)
| Take (r : nfc_resource)
| Give (r : nfc_resource).

Section world.
Context `{SK : skbuff}.

(** [ticks] counts the questions to the outside. *)
Record world := mk_world {
  ticks : nat;
  queue : pn533;
  poll : poll_state;
  data : exchange;
  gb : bytes;                (** [gb] and [gb_len] *)
  effects : list nfc_effect }.

Definition with_queue q w := mk_world (ticks w) q (poll w) (data w) (gb w) (effects w).
Definition with_poll p w := mk_world (ticks w) (queue w) p (data w) (gb w) (effects w).
Definition with_data x w := mk_world (ticks w) (queue w) (poll w) x (gb w) (effects w).
Definition with_gb g w := mk_world (ticks w) (queue w) (poll w) (data w) g (effects w).
Definition with_effect e w := mk_world (ticks w) (queue w) (poll w) (data w) (gb w) (effects w ++ [e]).
Definition tick w := mk_world (S (ticks w)) (queue w) (poll w) (data w) (gb w) (effects w).

(** ** The outside: the kernel, USB and the NFC core

    An answer may depend on how many were given before.  [answer] is what the
    callback of a command returns, and [wait_for_completion] the answer to the
    command with a number, with the state then; without it, none comes. *)
Class nfc_env := {
  alloc_skb : nat -> Z -> option sk_buff;
  nfc_alloc_recv_skb : nat -> Z -> option sk_buff;
  skb_reserve : sk_buff -> Z -> outcome sk_buff;
  kmalloc : nat -> bool;
  usb_submit_urb : nat -> Z;
  in_urb_memory : nat -> bytes;
  answer : nat -> Z + sk_buff -> Z * bool;
  wait_for_completion : nat -> nat -> world -> option ((Z + sk_buff) * world);
  poweron_status : nat -> option Z;
  get_random_bytes : nat -> bytes;
  nfc_get_local_general_bytes : nat -> option bytes;
  nfc_set_remote_general_bytes : nat -> Z;
  nfc_targets_found : nat -> Z;
  nfc_dep_link_is_up : nat -> Z;
  nfc_tm_activated : nat -> Z;
  nfc_tm_data_received : nat -> Z;
  stack_target : nat -> nfc_target }.

(** What is documented of them: an allocated buffer is empty and as long as asked
    for, [skb_reserve] makes headroom, filling a buffer leaves it; an error of USB is
    negative; the callbacks of the driver return [-EINPROGRESS] when they have queued
    [mi_work], and only then. *)
Class nfc_env_laws `{nfc_env} := {
  alloc_skb_law n size s : alloc_skb n size = Some s -> skb_len s = 0 /\ size <= Z.of_nat (length (skb_mem s));
  skb_reserve_law s n : skb_len s = 0 -> 0 <= n <= Z.of_nat (length (skb_mem s)) ->
    exists s', skb_reserve s n = Ret s' /\ skb_mem s' = drop (Z.to_nat n) (skb_mem s) /\ skb_len s' = 0 /\
      n <= skb_headroom s';
  skb_put_headroom s n s' : skb_put s n = Ret s' -> skb_headroom s' = skb_headroom s;
  skb_store_headroom s f : skb_headroom (skb_store s f) = skb_headroom s;
  get_random_bytes_law n : length (get_random_bytes n) = 6%nat;
  usb_submit_urb_law n : usb_submit_urb n <= 0;
  answer_law n r : snd (answer n r) = (fst (answer n r) =? - EINPROGRESS) }.

(** What happens while a function of the driver waits: steps of the queue, and of the
    polling those that USB and the timer make; no other function waits for a request of
    its own, or takes what the probe takes. *)
Class nfc_wait_laws `{NF : nfc_h} `{nfc_env} (overlap : bool) (dv : pn533_type) :=
  wait_law n id w r w' : wait_for_completion n id w = Some (r, w') ->
    steps (dev_ops dv) (dev_protocol_type dv) (queue w) (queue w') /\
    rtc (work_step overlap) (poll w) (poll w') /\
    exists l, effects w' = effects w ++ l /\
      Forall (fun e => match e with Request _ SendSyncComplete _ _ | RawFrame _ | Take _ | Give _ => False | _ => True end) l.

(** ** Computations *)

Definition nfc (A : Type) : Type := world -> outcome (A * world).

#[export] Instance nfc_ret : MRet nfc := fun A a w => Ret (a, w).
#[export] Instance nfc_bind : MBind nfc := fun A B k m w => '(a, w) ← m w; k a w.

Definition nfc_lift {A} (o : outcome A) : nfc A := fun w => a ← o; Ret (a, w).
Definition get {A} (f : world -> A) : nfc A := fun w => Ret (f w, w).
Definition modify (f : world -> world) : nfc unit := fun w => Ret (tt, f w).
Definition emit (e : nfc_effect) : nfc unit := modify (with_effect e).
(** A question to the outside. *)
Definition ask {A} (f : nat -> A) : nfc A := fun w => Ret (f (ticks w), tick w).
(** An operation on the queue or on the polling. *)
Definition on_queue {A} (f : pn533 -> outcome (A * pn533)) : nfc A :=
  fun w => '(a, q) ← f (queue w); Ret (a, with_queue q w).
Definition on_poll {A} (f : poll_state -> outcome (A * poll_state)) : nfc A :=
  fun w => '(a, p) ← f (poll w); Ret (a, with_poll p w).
Definition set_poll (f : poll_state -> poll_state) : nfc unit := modify (fun w => with_poll (f (poll w)) w).
End world.

Section commands.
Context `{NF : nfc_h} `{SK : skbuff} `{NE : !nfc_env}.
Context (dv : pn533_type).
Abbreviation ops := (dev_ops dv).

(** ** Requests *)

(** [memcpy(skb_put(skb, n), b, n)]; a byte is stored with [*skb_put(skb, 1) = v]. *)
Definition put_bytes (skb : sk_buff) (b : bytes) : outcome sk_buff :=
  skb' ← skb_put skb (Z.of_nat (length b));
  mem ← put_block (skb_mem skb') (skb_len skb) b;
  Ret (skb_store skb' mem).
Definition put_byte (skb : sk_buff) (v : Z) : outcome sk_buff := put_bytes skb [u8 v].

(** [unsigned int] arithmetic for the size. *)
Definition pn533_alloc_skb (size : Z) : nfc (option sk_buff) :=
  skb ← ask (fun n => alloc_skb n (u32 (tx_header_len ops + size + tx_tail_len ops)));
  match skb with
  | None => mret None
  | Some skb => skb ← nfc_lift (skb_reserve skb (tx_header_len ops)); mret (Some skb)
  end.

(** [pn533_send_cmd_async] and [pn533_send_data_async], which differ in the
    allocation of the buffer for the response.  The command's number comes with the
    result. *)
Definition send_async (alloc : nat -> Z -> option sk_buff) (cb : nfc_callback) (cmd_code : Z) (req : sk_buff)
  : nfc (Z * nat) :=
  id ← get ticks;
  resp ← ask (fun n => alloc n (rx_header_len ops + max_payload_len ops + rx_tail_len ops));
  match resp with
  | None => mret (- ENOMEM, id)
  | Some resp =>
    alloc_cmd ← ask kmalloc;
    rc_out ← ask usb_submit_urb;
    rc_in ← ask usb_submit_urb;
    let c := mk_cmd id cmd_code 0 req resp
      (match cb with SendSyncComplete => fun _ => (0, false) | _ => answer id end) in
    rc ← on_queue (PnQueue.pn533_send_cmd_async ops (dev_protocol_type dv) true alloc_cmd c rc_out rc_in);
    (if rc =? 0 then emit (Request id cb cmd_code (skb_data req)) else mret tt);;
    mret (rc, id)
  end.

Definition pn533_send_cmd_async (cb : nfc_callback) (cmd_code : Z) (req : sk_buff) : nfc Z :=
  '(rc, _) ← send_async alloc_skb cb cmd_code req; mret rc.
Definition pn533_send_data_async (cb : nfc_callback) (cmd_code : Z) (req : sk_buff) : nfc Z :=
  '(rc, _) ← send_async nfc_alloc_recv_skb cb cmd_code req; mret rc.

(** [wait_for_completion] of a command's answer. *)
Definition await (id : nat) : nfc (Z + sk_buff) :=
  fun w => match wait_for_completion (ticks w) id w with None => NoFuel | Some rw => Ret rw end.

(** An error, or the response: [pn533_send_sync_complete] hands over what it gets. *)
Definition pn533_send_cmd_sync (cmd_code : Z) (req : sk_buff) : nfc (Z + sk_buff) :=
  '(rc, id) ← send_async alloc_skb SendSyncComplete cmd_code req;
  if negb (rc =? 0) then mret (inl rc) else await id.

(** ** Aborting a command *)

Definition pn533_send_ack : nfc Z :=
  rc ← ask usb_submit_urb; (if rc =? 0 then emit AckSent else mret tt);; mret rc.

(** [usb_kill_urb(dev->in_urb)]: a transfer in flight completes, cancelled. *)
Definition kill_in_urb : nfc unit :=
  mem ← ask in_urb_memory;
  on_queue (fun q =>
    match in_urb q with
    | None => Ret (tt, q)
    | Some RecvAck => q ← pn533_recv_ack (- ENOENT) mem 0 q; Ret (tt, q)
    | Some RecvResponse => q ← recv_response ops (- ENOENT) mem q; Ret (tt, q)
    end).

Definition pn533_abort_cmd : nfc unit :=
  if device_type dv =? PN533_DEVICE_ACR122U then mret tt else pn533_send_ack;; kill_in_urb.

(** ** Configuration *)

Definition PN533_CFGITEM_RF_FIELD : Z := 0x01.
Definition PN533_CFGITEM_TIMING : Z := 0x02.
Definition PN533_CFGITEM_MAX_RETRIES : Z := 0x05.
Definition PN533_CFGITEM_PASORI : Z := 0x82.

Definition PN533_CONFIG_TIMING_102 : Z := 0xb.
Definition PN533_CONFIG_TIMING_204 : Z := 0xc.
Definition PN533_CONFIG_TIMING_409 : Z := 0xd.

Definition PN533_CONFIG_MAX_RETRIES_NO_RETRY : Z := 0x00.
Definition PN533_CONFIG_MAX_RETRIES_ENDLESS : Z := 0xFF.

Definition pn533_set_configuration (cfgitem : Z) (cfgdata : bytes) : nfc Z :=
  skb ← pn533_alloc_skb (1 + Z.of_nat (length cfgdata));
  match skb with
  | None => mret (- ENOMEM)
  | Some skb =>
    skb ← nfc_lift (put_byte skb cfgitem);
    skb ← nfc_lift (put_bytes skb cfgdata);
    resp ← pn533_send_cmd_sync PN533_CMD_RF_CONFIGURATION skb;
    match resp with inl rc => mret rc | inr _ => mret 0 end
  end.

(** [struct pn533_fw_version]; the four bytes are read whatever the length. *)
Record pn533_fw_version := mk_fw { fw_ic : Z; fw_ver : Z; fw_rev : Z; fw_support : Z }.

Definition pn533_get_firmware_version (fv : pn533_fw_version) : nfc (Z * pn533_fw_version) :=
  skb ← pn533_alloc_skb 0;
  match skb with
  | None => mret (- ENOMEM, fv)
  | Some skb =>
    resp ← pn533_send_cmd_sync PN533_CMD_GET_FIRMWARE_VERSION skb;
    match resp with
    | inl rc => mret (rc, fv)
    | inr resp =>
      ic ← nfc_lift (arr_rd (skb_mem resp) 0);
      ver ← nfc_lift (arr_rd (skb_mem resp) 1);
      rev ← nfc_lift (arr_rd (skb_mem resp) 2);
      support ← nfc_lift (arr_rd (skb_mem resp) 3);
      mret (0, mk_fw ic ver rev support)
    end
  end.

Definition pn533_pasori_fw_reset : nfc Z :=
  skb ← pn533_alloc_skb 1;
  match skb with
  | None => mret (- ENOMEM)
  | Some skb =>
    skb ← nfc_lift (put_byte skb 0x1);
    resp ← pn533_send_cmd_sync 0x18 skb;
    match resp with inl rc => mret rc | inr _ => mret 0 end
  end.

(** The command and the transfer for its answer go past the queue. *)
Definition poweron_cmd : bytes := [0x62; 0; 0; 0; 0; 0; 0; 3; 0; 0].

Definition pn533_acr122_poweron_rdr : nfc Z :=
  emit (InContext false);;
  rc ← ask usb_submit_urb;
  if negb (rc =? 0) then mret rc
  else
    emit (RawFrame poweron_cmd);;
    rc ← ask usb_submit_urb;
    if negb (rc =? 0) then mret rc
    else
      st ← ask poweron_status;
      match st with
      | None => nfc_lift NoFuel
      | Some st => emit (InContext true);; mret st
      end.

Definition pn533_rf_field (rf : Z) : nfc Z := pn533_set_configuration PN533_CFGITEM_RF_FIELD [b2z (ctrue rf)].
Definition pn533_dev_up : nfc Z := pn533_rf_field 1.
Definition pn533_dev_down : nfc Z := pn533_rf_field 0.

(** The retries and the timing of a device: [struct pn533_config_max_retries],
    [struct pn533_config_timing]. *)
Definition setup_config : option (bytes * bytes) :=
  if device_type dv =? PN533_DEVICE_STD
  then Some ([PN533_CONFIG_MAX_RETRIES_ENDLESS; 2; PN533_CONFIG_MAX_RETRIES_NO_RETRY],
             [PN533_CONFIG_TIMING_102; PN533_CONFIG_TIMING_204; PN533_CONFIG_TIMING_409])
  else if (device_type dv =? PN533_DEVICE_PASORI) || (device_type dv =? PN533_DEVICE_ACR122U)
  then Some ([0x2; 0x1; PN533_CONFIG_MAX_RETRIES_NO_RETRY],
             [PN533_CONFIG_TIMING_102; PN533_CONFIG_TIMING_102; PN533_CONFIG_TIMING_204])
  else None.

Definition pn533_setup : nfc Z :=
  match setup_config with
  | None => mret (- EINVAL)
  | Some (max_retries, timing) =>
    rc ← pn533_set_configuration PN533_CFGITEM_MAX_RETRIES max_retries;
    if negb (rc =? 0) then mret rc
    else
      rc ← pn533_set_configuration PN533_CFGITEM_TIMING timing;
      if negb (rc =? 0) then mret rc
      else if device_type dv =? PN533_DEVICE_PASORI then
        pn533_pasori_fw_reset;;
        rc ← pn533_set_configuration PN533_CFGITEM_PASORI [0x08; 0x01; 0x08];
        if negb (rc =? 0) then mret rc
        else pn533_pasori_fw_reset;; mret 0
      else mret 0
  end.
End commands.

(** ** Specification *)

(** The requests made while waiting for the answer, with their payloads. *)
Definition sync_requests (l : list nfc_effect) : list (Z * bytes) :=
  omap (fun e => match e with Request _ SendSyncComplete cmd_code p => Some (cmd_code, p) | _ => None end) l.

(** The items of the configuration among them. *)
Definition config_requests (l : list (Z * bytes)) : list bytes :=
  omap (fun '(cmd_code, p) => if cmd_code =? PN533_CMD_RF_CONFIGURATION then Some p else None) l.

(** The items that a device is set up with: number of retries, timing, and one of the
    Pasori's own. *)
Definition setup_items (dev : Z) : option (list bytes) :=
  if dev =? PN533_DEVICE_STD then Some [[0x05; 0xFF; 2; 0]; [0x02; 0x0B; 0x0C; 0x0D]]
  else if dev =? PN533_DEVICE_PASORI then Some [[0x05; 2; 1; 0]; [0x02; 0x0B; 0x0B; 0x0C]; [0x82; 8; 1; 8]]
  else if dev =? PN533_DEVICE_ACR122U then Some [[0x05; 2; 1; 0]; [0x02; 0x0B; 0x0B; 0x0C]]
  else None.

Section lemmas.
Context {NF : nfc_h} {SK : skbuff} {SL : skbuff_laws} {NE : nfc_env} {NL : nfc_env_laws}.
Context (overlap : bool) (dv : pn533_type) {FF : frame_format (dev_ops dv)} {WL : nfc_wait_laws overlap dv}.
Abbreviation ops := (dev_ops dv).

(** ** Lemmas: buffers *)

(** A buffer with a payload, headroom for the header and room for more bytes. *)
Definition ready (t : Z) (p : bytes) (s : sk_buff) : Prop :=
  skb_data s = p /\ tx_header_len ops <= skb_headroom s /\ 0 <= t <= Z.of_nat (length (skb_mem s)) - skb_len s.

Lemma put_bytes_ready t p b s :
  0 <= t -> ready (Z.of_nat (length b) + t) p s -> exists s', put_bytes s b = Ret s' /\ ready t (p ++ b) s'.
Proof.
  intros Ht (Hp & Hh & Hr). pose proof (skb_len_range s) as Hlen. pose proof (skb_data_length s) as Hdl.
  rewrite Hp in Hdl. set (n := Z.to_nat (skb_len s)). unfold put_bytes.
  destruct (skb_put_law s (Z.of_nat (length b))) as (s1 & E1 & Hm1 & Hl1); [lia|]. rewrite E1. cbn [mbind outcome_bind]. rewrite Hm1.
  set (m' := p ++ b ++ drop (length b) (drop n (skb_mem s))).
  assert (put_block (skb_mem s) (skb_len s) b = Ret m') as ->.
  { assert (skb_mem s = p ++ take (length b) (drop n (skb_mem s)) ++ drop (length b) (drop n (skb_mem s))) as Em
      by (rewrite take_drop, <- Hp; unfold skb_data, n; by rewrite take_drop).
    rewrite Em at 1. apply put_block_mid; [lia|]. rewrite length_take, length_drop. lia. }
  cbn [mbind outcome_bind]. eexists. split; [done|].
  assert (length m' = length (skb_mem s1)) as Hlm
    by (unfold m'; rewrite !length_app, !length_drop, Hm1; lia).
  destruct (skb_store_law s1 m' Hlm) as [Hms Hls]. split; [|split].
  - unfold skb_data. rewrite Hms, Hls, Hl1. unfold m'. rewrite app_assoc.
    apply take_app_exact. rewrite length_app. lia.
  - rewrite skb_store_headroom, (skb_put_headroom _ _ _ E1). done.
  - rewrite Hms, Hls, Hlm, Hm1, Hl1. lia.
Qed.

Lemma put_byte_ready t p v s :
  0 <= t -> ready (1 + t) p s -> exists s', put_byte s v = Ret s' /\ ready t (p ++ [u8 v]) s'.
Proof. intros Ht Hr. by apply put_bytes_ready. Qed.

(** ** Lemmas: computations *)

(** [m] returns, with a result and a state that satisfy [Q]. *)
Definition wp {A} (m : nfc A) (Q : A -> world -> Prop) (w : world) : Prop :=
  match m w with Ret (a, w') => Q a w' | _ => False end.

Lemma nwp_bind {A B} (m : nfc A) (k : A -> nfc B) Q w : wp m (fun a => wp (k a) Q) w -> wp (m ≫= k) Q w.
Proof. unfold wp, mbind, nfc_bind. by destruct (m w) as [[a w']| | |]. Qed.

Lemma nwp_ret {A} (a : A) (Q : A -> world -> Prop) w : Q a w -> wp (mret a) Q w.
Proof. done. Qed.

Lemma nwp_mono {A} (m : nfc A) (P Q : A -> world -> Prop) w : wp m P w -> (forall a w', P a w' -> Q a w') -> wp m Q w.
Proof. unfold wp. destruct (m w) as [[a w']| | |]; auto. Qed.

Lemma nwp_lift {A} (o : outcome A) a (Q : A -> world -> Prop) w : o = Ret a -> Q a w -> wp (nfc_lift o) Q w.
Proof. by intros ->. Qed.

Lemma nwp_get {A} (f : world -> A) (Q : A -> world -> Prop) w : Q (f w) w -> wp (get f) Q w.
Proof. done. Qed.

Lemma nwp_ask {A} (f : nat -> A) (Q : A -> world -> Prop) w : Q (f (ticks w)) (tick w) -> wp (ask f) Q w.
Proof. done. Qed.

Lemma nwp_emit e (Q : unit -> world -> Prop) w : Q tt (with_effect e w) -> wp (emit e) Q w.
Proof. done. Qed.

(** ** Lemmas: requests *)

(** A request is with the queue, as the frame of its payload. *)
Definition framed (q : pn533) (r : Z * bytes) : Prop :=
  exists c, Accepted c ∈ log q /\ code c = r.1 /\ skb_data (req c) = command_frame ops r.1 r.2.

(** The parts of the state that sending leaves. *)
Definition same_device (w w' : world) : Prop := poll w' = poll w /\ data w' = data w /\ gb w' = gb w.

Lemma nwp_alloc_skb size (Q : option sk_buff -> world -> Prop) w :
  0 <= size -> tx_header_len ops + size + tx_tail_len ops < 2 ^ 32 ->
  (forall w', same_device w w' -> effects w' = effects w -> queue w' = queue w -> ticks w' = S (ticks w) ->
    Q None w' /\ forall s, ready (size + tx_tail_len ops) [] s -> Q (Some s) w') ->
  wp (pn533_alloc_skb dv size) Q w.
Proof.
  intros Hs Hb HQ. destruct (tx_lens (ops := ops)) as [Hh Ht]. unfold pn533_alloc_skb. apply nwp_bind, nwp_ask. rewrite u32_small by lia.
  destruct (HQ (tick w)) as [Hnone Hsome]; [done..|].
  destruct (alloc_skb (ticks w) _) as [s|] eqn:Ea; [|done]. apply alloc_skb_law in Ea as [Hl Hm].
  destruct (skb_reserve_law s (tx_header_len ops)) as (s' & Er & Hm' & Hl' & Hh'); [done|lia|].
  apply nwp_bind. eapply nwp_lift; [exact Er|]. apply nwp_ret, Hsome. split; [|split; [lia|]].
  - unfold skb_data. by rewrite Hl'.
  - rewrite Hm', Hl', length_drop. lia.
Qed.

Lemma nwp_send_async alloc cb cmd_code p s w :
  (length p <= PAYLOAD_MAX)%nat -> ready (tx_tail_len ops) p s ->
  wp (send_async dv alloc cb cmd_code s) (fun r w' =>
    same_device w w' /\ (exists l, log (queue w') = log (queue w) ++ l) /\
    (r.1 = 0 /\ effects w' = effects w ++ [Request r.2 cb cmd_code p] /\ framed (queue w') (cmd_code, p) \/
     r.1 <> 0 /\ effects w' = effects w)) w.
Proof.
  intros Hp (Hd & Hh & Hr). unfold send_async. apply nwp_bind, nwp_get, nwp_bind, nwp_ask.
  destruct (alloc _ _) as [resp|].
  2: { apply nwp_ret. split; [done|]. split; [exists []; by rewrite app_nil_r|]. by right. }
  do 3 apply nwp_bind, nwp_ask.
  destruct (command_sent ops cmd_code p s Hp Hd Hh) as (s' & Eb & Hs'); [lia|].
  apply nwp_bind. unfold wp at 1, on_queue, PnQueue.pn533_send_cmd_async, __pn533_send_async. cbn [negb].
  set (c := mk_cmd _ _ _ _ _ _). change (req c) with s. change (code c) with cmd_code. rewrite Eb.
  destruct (kmalloc _); cbn [negb mbind outcome_bind queue tick].
  2: { split; [done|]. split; [exists []; by rewrite app_nil_r|]. by right. }
  pose proof (send_frame_log (dev_protocol_type dv) (usb_submit_urb (ticks (tick (tick w))))
    (usb_submit_urb (ticks (tick (tick (tick w))))) (queue w)) as El.
  destruct (cmd_pending _) eqn:Ep; cbn [negb mbind outcome_bind].
  { rewrite Z.eqb_refl. split; [done|]. split; [by eexists|]. left. split; [done|]. cbn. rewrite Hd. split; [done|].
    exists (set_req s' c). split; [|done]. apply elem_of_app. right. by apply list_elem_of_singleton. }
  destruct (__pn533_send_frame_async _ _ _ _) as [rc q]. cbn [snd] in El.
  destruct (Z.eqb_spec rc 0) as [->|Hne]; cbn [negb mbind outcome_bind].
  - split; [done|]. cbn. rewrite Hd, El, <- app_assoc. split; [by eexists|]. left. split; [done|]. split; [done|].
    exists (set_req s' c). split; [|done]. cbn [log add_log set_cmd set_pending].
    rewrite !elem_of_app. left. right. by apply list_elem_of_singleton.
  - rewrite (proj2 (Z.eqb_neq rc 0)) by done. split; [done|]. split; [exists []; cbn; by rewrite El, app_nil_r|]. by right.
Qed.

Lemma framed_app q q' r : (exists l, log q' = log q ++ l) -> framed q r -> framed q' r.
Proof. intros [l E] (c & Hc & H). exists c. split; [|done]. rewrite E. apply elem_of_app. by left. Qed.

(** What a function that waits has done: these requests were made, in this order. *)
Definition asked (w w' : world) (r : list (Z * bytes)) : Prop :=
  (exists l, log (queue w') = log (queue w) ++ l) /\
  (exists l, effects w' = effects w ++ l /\ sync_requests l = r) /\ Forall (framed (queue w')) r.

Lemma asked_nil w w' :
  effects w' = effects w -> (exists l, log (queue w') = log (queue w) ++ l) -> asked w w' [].
Proof. intros E Hl. split; [done|]. split; [|done]. exists []. by rewrite app_nil_r. Qed.

Lemma asked_trans w1 w2 w3 r1 r2 : asked w1 w2 r1 -> asked w2 w3 r2 -> asked w1 w3 (r1 ++ r2).
Proof.
  intros ((l1 & E1) & (e1 & Ee1 & <-) & F1) (Hl2 & (e2 & Ee2 & <-) & F2). split; [|split].
  - destruct Hl2 as [l2 E2]. exists (l1 ++ l2). by rewrite E2, E1, app_assoc.
  - exists (e1 ++ e2). split; [by rewrite Ee2, Ee1, app_assoc|]. unfold sync_requests. by rewrite omap_app.
  - apply Forall_app_2; [|done]. eapply Forall_impl; [exact F1|]. intros r. by apply framed_app.
Qed.

(** Every wait ends. *)
Definition answered : Prop := forall n id w, wait_for_completion n id w <> None.

Lemma nwp_send_cmd_sync cmd_code p s w :
  answered -> (length p <= PAYLOAD_MAX)%nat -> ready (tx_tail_len ops) p s ->
  wp (pn533_send_cmd_sync dv cmd_code s) (fun r w' =>
    asked w w' [(cmd_code, p)] \/ (exists rc, r = inl rc /\ rc <> 0) /\ asked w w' []) w.
Proof.
  intros Hans Hp Hs. unfold pn533_send_cmd_sync. apply nwp_bind.
  eapply nwp_mono; [by apply nwp_send_async|]. intros [rc id] w1 (_ & Hl1 & Hr). cbn [fst snd] in Hr.
  destruct Hr as [(-> & He & Hf)|(Hne & He)].
  2: { rewrite (proj2 (Z.eqb_neq rc 0)) by done. cbn [negb]. apply nwp_ret. right. split; [by eexists|]. by apply asked_nil. }
  cbn [Z.eqb negb]. unfold wp, await. destruct (wait_for_completion (ticks w1) id w1) as [[r w2]|] eqn:Ew.
  2: { exfalso. by eapply Hans. }
  destruct (wait_law (nfc_wait_laws := WL) _ _ _ _ _ Ew) as (Hst & _ & l & He2 & Hnone). apply steps_log in Hst.
  left. apply (asked_trans w w1 w2 [_] []).
  - split; [done|]. split; [|by apply Forall_singleton]. exists [Request id SendSyncComplete cmd_code p]. by rewrite He.
  - split; [done|]. split; [|done]. exists l. split; [done|]. clear -Hnone.
    induction Hnone as [|e l He _ IH]; [done|]. unfold sync_requests in *. cbn. destruct e as [i [] ? ?| | | | | | | | | | |]; done.
Qed.

(** The functions that make one request. *)
Lemma nwp_set_configuration cfgitem cfgdata w :
  answered -> is_byte cfgitem -> (1 + length cfgdata <= PAYLOAD_MAX)%nat ->
  tx_header_len ops + tx_tail_len ops < 2 ^ 16 ->
  wp (pn533_set_configuration dv cfgitem cfgdata) (fun rc w' =>
    asked w w' [(PN533_CMD_RF_CONFIGURATION, cfgitem :: cfgdata)] \/ rc <> 0 /\ asked w w' []) w.
Proof.
  intros Hans Hi Hl Hb. unfold PAYLOAD_MAX in Hl. unfold pn533_set_configuration. apply nwp_bind.
  destruct (tx_lens (ops := ops)) as [Hh Ht].
  apply nwp_alloc_skb; [lia|lia|]. intros w1 _ He Hq _. split.
  { apply nwp_ret. right. split; [done|]. apply asked_nil; [done|]. exists []. by rewrite Hq, app_nil_r. }
  intros s0 Hs0. rewrite <- Z.add_assoc in Hs0. apply (put_byte_ready _ _ cfgitem) in Hs0 as (s1 & E1 & Hs1); [|lia].
  apply nwp_bind. eapply nwp_lift; [exact E1|]. apply (put_bytes_ready _ _ cfgdata) in Hs1 as (s2 & E2 & Hs2); [|lia].
  apply nwp_bind. eapply nwp_lift; [exact E2|]. rewrite (u8_small _ Hi) in Hs2.
  apply nwp_bind. eapply nwp_mono; [apply (nwp_send_cmd_sync _ (cfgitem :: cfgdata)); [done|unfold PAYLOAD_MAX; cbn; lia|exact Hs2]|].
  assert (asked w w1 []) as H1 by (apply asked_nil; [done|]; exists []; by rewrite Hq, app_nil_r).
  intros r w2 [Ha|[(rc & -> & Hne) Ha]]; (apply (asked_trans _ _ _ _ _ H1) in Ha).
  - destruct r; apply nwp_ret; by left.
  - apply nwp_ret. by right.
Qed.

Lemma nwp_pasori_fw_reset w :
  answered -> tx_header_len ops + tx_tail_len ops < 2 ^ 16 ->
  wp (pn533_pasori_fw_reset dv) (fun _ w' => asked w w' [(0x18, [1])] \/ asked w w' []) w.
Proof.
  intros Hans Hb. unfold pn533_pasori_fw_reset. apply nwp_bind. destruct (tx_lens (ops := ops)) as [Hh Ht].
  apply nwp_alloc_skb; [lia|lia|]. intros w1 _ He Hq _.
  assert (asked w w1 []) as H1 by (apply asked_nil; [done|]; exists []; by rewrite Hq, app_nil_r).
  split; [apply nwp_ret; by right|]. intros s0 Hs0.
  apply (put_byte_ready _ _ 1) in Hs0 as (s1 & E1 & Hs1); [|lia]. apply nwp_bind. eapply nwp_lift; [exact E1|].
  apply nwp_bind. eapply nwp_mono; [apply (nwp_send_cmd_sync _ [1]); [done|unfold PAYLOAD_MAX; cbn; lia|exact Hs1]|].
  intros r w2 Ha. destruct r; apply nwp_ret; destruct Ha as [Ha|[_ Ha]]; apply (asked_trans _ _ _ _ _ H1) in Ha; auto.
Qed.

(** ** Lemmas: the set up *)

(** Since [w] the chip was sent these items of its configuration. *)
Definition configured (w : world) (items : list bytes) (w' : world) : Prop :=
  exists r, asked w w' r /\ config_requests r = items.

Lemma configured_asked w items w1 w2 r :
  configured w items w1 -> asked w1 w2 r -> configured w (items ++ config_requests r) w2.
Proof.
  intros (r0 & Ha & <-) Ha2. exists (r0 ++ r). split; [by eapply asked_trans|]. unfold config_requests. by rewrite omap_app.
Qed.

Lemma configured_set w items w1 cfgitem cfgdata (Q : Z -> world -> Prop) :
  answered -> tx_header_len ops + tx_tail_len ops < 2 ^ 16 -> is_byte cfgitem -> (1 + length cfgdata <= PAYLOAD_MAX)%nat ->
  configured w items w1 ->
  (forall rc w2, configured w (items ++ [cfgitem :: cfgdata]) w2 -> Q rc w2) ->
  (forall rc w2, rc <> 0 -> configured w items w2 -> Q rc w2) ->
  wp (pn533_set_configuration dv cfgitem cfgdata) Q w1.
Proof.
  intros Hans Hb Hi Hl Hc Hok Hfail. eapply nwp_mono; [by apply nwp_set_configuration|].
  intros rc w2 [Ha|[Hne Ha]]; (eapply configured_asked in Ha; [|exact Hc]).
  - by apply Hok.
  - apply Hfail; [done|]. by rewrite app_nil_r in Ha.
Qed.

Lemma configured_reset w items w1 (Q : Z -> world -> Prop) :
  answered -> tx_header_len ops + tx_tail_len ops < 2 ^ 16 -> configured w items w1 ->
  (forall rc w2, configured w items w2 -> Q rc w2) -> wp (pn533_pasori_fw_reset dv) Q w1.
Proof.
  intros Hans Hb Hc HQ. eapply nwp_mono; [by apply nwp_pasori_fw_reset|].
  intros rc w2 [Ha|Ha]; (eapply configured_asked in Ha; [|exact Hc]); apply HQ; by rewrite app_nil_r in Ha.
Qed.

End lemmas.

(** The end of the set up, and one of its requests: it fails, or the next follows. *)
Ltac setup_end := apply nwp_ret; eexists; split; [eassumption|]; split; [by eexists|done].
Ltac setup_item o :=
  apply nwp_bind; eapply (configured_set o);
  [exact _|done|done|by unfold is_byte|by apply Nat.leb_le|eassumption|intros ? ? ?|intros ? ? ? ?];
  [match goal with |- context [negb (?r =? 0)] => destruct (Z.eqb_spec r 0); cbn [negb] end|rewrite (proj2 (Z.eqb_neq _ 0)) by done; cbn [negb]; setup_end];
  [|setup_end].

Section setup.
Context {NF : nfc_h} {SK : skbuff} {SL : skbuff_laws} {NE : nfc_env} {NL : nfc_env_laws}.
Context (overlap : bool) (dv : pn533_type) {FF : frame_format (dev_ops dv)} {WL : nfc_wait_laws overlap dv}.
Abbreviation ops := (dev_ops dv).

Lemma nwp_pn533_setup items w :
  answered -> setup_items (device_type dv) = Some items -> tx_header_len ops + tx_tail_len ops < 2 ^ 16 ->
  wp (pn533_setup dv) (fun rc w' => exists k, configured dv w k w' /\ k `prefix_of` items /\ (rc = 0 -> k = items)) w.
Proof.
  intros Hans Hi Hb.
  assert (configured dv w [] w) as H0.
  { exists []. split; [|done]. apply asked_nil; [done|]. exists []. by rewrite app_nil_r. }
  unfold pn533_setup, setup_config, setup_items in *.
  destruct (Z.eqb_spec (device_type dv) PN533_DEVICE_STD) as [->|].
  { injection Hi as <-. setup_item overlap. setup_item overlap. setup_end. }
  destruct (Z.eqb_spec (device_type dv) PN533_DEVICE_PASORI) as [->|].
  - injection Hi as <-. setup_item overlap. setup_item overlap. cbn [Z.eqb Pos.eqb PN533_DEVICE_PASORI].
    apply nwp_bind. eapply (configured_reset overlap); [exact _|done|done|eassumption|intros ? ? ?]. setup_item overlap.
    apply nwp_bind. eapply (configured_reset overlap); [exact _|done|done|eassumption|intros ? ? ?]. setup_end.
  - destruct (Z.eqb_spec (device_type dv) PN533_DEVICE_ACR122U); [|done]. injection Hi as <-.
    cbn [orb]. setup_item overlap. setup_item overlap. setup_end.
Qed.
End setup.

(** ** Properties *)

Section properties.
Context {NF : nfc_h} {SK : skbuff} {SL : skbuff_laws} {NE : nfc_env} {NL : nfc_env_laws}.
Context (overlap : bool) (dv : pn533_type) {FF : frame_format (dev_ops dv)} {WL : nfc_wait_laws overlap dv}.
Abbreviation ops := (dev_ops dv).

(** C30: The set up of a device.  When every answer comes, [pn533_setup] returns, whatever
    the answers and whatever cannot be allocated or sent; the chip is sent the items
    of its kind's configuration in order, each as the command frame of its payload
    through the queue, up to the first that fails; and when the result is 0 all
    of them. *)
Theorem setup_configures (items : list bytes) (w : world) :
  answered -> setup_items (device_type dv) = Some items -> tx_header_len ops + tx_tail_len ops < 2 ^ 16 ->
  exists rc w' r, pn533_setup dv w = Ret (rc, w') /\
    (exists l, effects w' = effects w ++ l /\ sync_requests l = r) /\
    Forall (framed dv (queue w')) r /\
    config_requests r `prefix_of` items /\ (rc = 0 -> config_requests r = items).
Proof.
  intros Hans Hi Hb.
  pose proof (nwp_pn533_setup overlap dv items w Hans Hi Hb) as H. unfold wp in H.
  destruct (pn533_setup dv w) as [[rc w']| | |]; try done.
  destruct H as (k & (r & (_ & He & Hf) & <-) & Hp & H0). by exists rc, w', r.
Qed.
End properties.
