(* ===== verification/PnDriver.v ===== *)
(** * The PN533 driver between USB and the NFC core: [pn533.c]

    The operations that the driver offers to the NFC core, its works, its timer and
    the callbacks of its requests, whole: with the frames they send and what they
    tell the core; and the driver as a transition system, which moves the command
    queue of [PnQueue] and the polling of [PnPoll] by steps of theirs. *)

From S2P Require Import Prelude PnFrame PnQueue PnData PnPoll PnCommand.

Definition ENOSYS : Z := 38.

Section driver.
Context `{NF : nfc_h} `{SK : skbuff} `{NE : !nfc_env}.
Context (dv : pn533_type).

(** ** Frames for polling *)

Definition PN533_INIT_TARGET_PASSIVE : Z := 0x1.
Definition PN533_INIT_TARGET_DEP : Z := 0x2.
Definition PN533_INIT_TARGET_RESP_FRAME_MASK : Z := 0x3.
Definition PN533_INIT_TARGET_RESP_ACTIVE : Z := 0x1.
Definition PN533_INIT_TARGET_RESP_DEP : Z := 0x4.

Definition mifare_params : bytes := [0x1; 0x1; 0x0; 0x0; 0x0; 0x40].
(** [felica_params], with the random bytes in place. *)
Definition felica_params (random : bytes) : bytes := [0x1; 0xfe] ++ random ++ replicate 8 0x0 ++ [0xff; 0xff].

Definition pn533_alloc_poll_tg_frame : nfc (option sk_buff) :=
  gbytes ← get gb;
  let gbytes_len := Z.of_nat (length gbytes) in
  skb ← pn533_alloc_skb dv (36 + gbytes_len + 1);
  match skb with
  | None => mret None
  | Some skb =>
    skb ← nfc_lift (put_byte skb PN533_INIT_TARGET_DEP);
    skb ← nfc_lift (put_bytes skb mifare_params);
    random ← ask get_random_bytes;
    let felica := felica_params random in
    skb ← nfc_lift (put_bytes skb felica);
    skb ← nfc_lift (put_bytes skb (take 8 felica ++ [0; 0]));
    skb ← nfc_lift (put_byte skb gbytes_len);
    skb ← nfc_lift (put_bytes skb gbytes);
    skb ← nfc_lift (put_byte skb 0);
    mret (Some skb)
  end.

Definition pn533_alloc_poll_in_frame (m : Z) : nfc (option sk_buff) :=
  skb ← pn533_alloc_skb dv (Z.of_nat (length (poll_mod m)));
  match skb with
  | None => mret None
  | Some skb => skb ← nfc_lift (put_bytes skb (poll_mod m)); mret (Some skb)
  end.

(** [dev->poll_mod_active[dev->poll_mod_curr]] *)
Definition cur_mod : nfc Z := on_poll (fun d => m ← current_mod d; Ret (m, d)).

Definition pn533_send_poll_frame : nfc Z :=
  m ← cur_mod;
  '(cmd_code, skb) ← (if (length (poll_mod m) =? 0)%nat
    then skb ← pn533_alloc_poll_tg_frame; mret (PN533_CMD_TG_INIT_AS_TARGET, skb)
    else skb ← pn533_alloc_poll_in_frame m; mret (PN533_CMD_IN_LIST_PASSIVE_TARGET, skb));
  match skb with
  | None => mret (- ENOMEM)
  | Some skb => pn533_send_cmd_async dv PollComplete cmd_code skb
  end.

(** ** Polling *)

Definition pn533_wq_poll : nfc unit :=
  m ← cur_mod;
  d ← get poll;
  (if cancel_listen d
   then set_poll (fun d => set_timer (listen_timer d) false d);; pn533_abort_cmd dv else mret tt);;
  rc ← pn533_send_poll_frame;
  if negb (rc =? 0) then mret tt
  else
    d ← get poll;
    if (length (poll_mod m) =? 0)%nat && (1 <? poll_mod_count d)
    then set_poll (fun d => set_timer true (cancel_listen d) d) else mret tt.

Definition pn533_listen_mode_timer : nfc unit :=
  set_poll (set_timer false true);;
  on_poll (fun d => d ← pn533_poll_next_mod d; Ret (tt, d));;
  emit (QueueWork PollWork).

Definition pn533_start_poll (im_protocols tm_protocols : Z) : nfc Z :=
  d ← get poll;
  if ctrue (tgt_active_prot d) then mret (- EBUSY)
  else if tgt_mode d then mret (- EBUSY)
  else
    tm_protocols ← (if ctrue tm_protocols
      then g ← ask nfc_get_local_general_bytes;
           modify (with_gb (default [] g));;
           mret (match g with None => 0 | Some _ => tm_protocols end)
      else mret tm_protocols);
    set_poll (set_curr 0);;
    on_poll (fun d => d ← pn533_poll_create_mod_list im_protocols tm_protocols d; Ret (tt, d));;
    set_poll (set_protocols im_protocols tm_protocols);;
    pn533_send_poll_frame.

Definition pn533_stop_poll : nfc unit :=
  set_poll (fun d => set_timer false (cancel_listen d) d);;
  d ← get poll;
  if poll_mod_count d =? 0 then mret tt
  else pn533_abort_cmd dv;; set_poll pn533_poll_reset_mod_list.

(** The general bytes start at byte 18 of the response. *)
Definition pn533_init_target_complete (resp : sk_buff) : nfc Z :=
  if skb_len resp <? 17 + 1 then mret (- EINVAL)
  else
    mode ← nfc_lift (arr_rd (skb_mem resp) 0);
    let comm_mode := if mode .& PN533_INIT_TARGET_RESP_FRAME_MASK =? PN533_INIT_TARGET_RESP_ACTIVE
                     then NFC_COMM_ACTIVE else NFC_COMM_PASSIVE in
    if mode .& PN533_INIT_TARGET_RESP_DEP =? 0 then mret (- EOPNOTSUPP)
    else
      emit (TmActivated comm_mode (drop 18 (skb_data resp)));;
      rc ← ask nfc_tm_activated;
      if rc <? 0 then mret rc
      else
        set_poll (fun d => set_active (tgt_available_prots d) (tgt_active_prot d) true d);;
        emit (QueueWork TgWork);;
        mret 0.

Definition pn533_poll_complete (resp : Z + sk_buff) : nfc Z :=
  match resp with
  | inl rc =>
    d ← get poll;
    if (rc =? - ENOENT) && negb (poll_mod_count d =? 0) then mret rc
    else set_poll (fun d => set_protocols 0 (listen_protocols d) (pn533_poll_reset_mod_list d));; mret rc
  | inr resp =>
    m ← cur_mod;
    if (length (poll_mod m) =? 0)%nat
    then set_poll (fun d => set_timer false (cancel_listen d) d);; pn533_init_target_complete resp
    else
      rc ← on_poll (pn533_start_poll_complete (skb_mem resp) (skb_len resp));
      if rc =? 0 then mret rc
      else
        d ← get poll;
        if poll_mod_count d =? 0 then mret rc
        else
          on_poll (fun d => d ← pn533_poll_next_mod d; Ret (tt, d));;
          emit (QueueWork PollWork);;
          mret rc
  end.

(** ** Target mode *)

Definition PN533_CMD_DATAEXCH_HEAD_LEN : Z := 1.
Definition PN533_CMD_DATAEXCH_DATA_MAXLEN : Z := 262.

Definition tm_off : nfc unit := set_poll (fun d => set_active (tgt_available_prots d) (tgt_active_prot d) false d).

Definition pn533_tm_get_data_complete (resp : Z + sk_buff) : nfc Z :=
  match resp with
  | inl rc => mret rc
  | inr resp =>
    status ← nfc_lift (arr_rd (skb_mem resp) 0);
    resp ← nfc_lift (skb_pull resp 1);
    if negb (status =? 0) then emit TmDeactivated;; tm_off;; mret 0
    else emit (TmDataReceived (skb_data resp));; ask nfc_tm_data_received
  end.

Definition pn533_wq_tg_get_data : nfc unit :=
  skb ← pn533_alloc_skb dv 0;
  match skb with
  | None => mret tt
  | Some skb => pn533_send_data_async dv TmGetDataComplete PN533_CMD_TG_GET_DATA skb;; mret tt
  end.

Definition pn533_tm_send_complete (resp : Z + sk_buff) : nfc Z :=
  match resp with
  | inl rc => mret rc
  | inr resp =>
    status ← nfc_lift (arr_rd (skb_mem resp) 0);
    if negb (status =? 0) then emit TmDeactivated;; tm_off;; mret 0
    else emit (QueueWork TgWork);; mret 0
  end.

Definition pn533_tm_send (skb : sk_buff) : nfc Z :=
  if PN533_CMD_DATAEXCH_DATA_MAXLEN <? skb_len skb then mret (- ENOSYS)
  else pn533_send_data_async dv TmSendComplete PN533_CMD_TG_SET_DATA skb.

(** ** Targets *)

(** The general bytes start at byte 16, their number is the [u16] of the difference. *)
Definition pn533_activate_target_nfcdep : nfc Z :=
  skb ← pn533_alloc_skb dv 2;
  match skb with
  | None => mret (- ENOMEM)
  | Some skb =>
    skb ← nfc_lift (put_byte skb 1);
    skb ← nfc_lift (put_byte skb 0);
    resp ← pn533_send_cmd_sync dv PN533_CMD_IN_ATR skb;
    match resp with
    | inl rc => mret rc
    | inr resp =>
      status ← nfc_lift (arr_rd (skb_mem resp) 0);
      if negb (status .& PN533_CMD_RET_MASK =? PN533_CMD_RET_SUCCESS) then mret (- EIO)
      else
        emit (RemoteGeneralBytes (u16 (skb_len resp - 16)) (drop 16 (skb_mem resp)));;
        ask nfc_set_remote_general_bytes
    end
  end.

Definition pn533_activate_target (protocol : Z) : nfc Z :=
  d ← get poll;
  if negb (poll_mod_count d =? 0) then mret (- EBUSY)
  else if ctrue (tgt_active_prot d) then mret (- EBUSY)
  else if negb (ctrue (tgt_available_prots d)) then mret (- EINVAL)
  else if negb (ctrue (tgt_available_prots d .& (1 ≪ protocol))) then mret (- EINVAL)
  else
    rc ← (if protocol =? NFC_PROTO_NFC_DEP then pn533_activate_target_nfcdep else mret 0);
    if negb (rc =? 0) then mret rc
    else set_poll (fun d => set_active 0 (u8 protocol) (tgt_mode d) d);; mret 0.

Definition purge_resp_q : nfc unit := modify (fun w => with_data (mk_exchange [] (mi_queued (data w)) (called (data w))) w).

Definition pn533_deactivate_target : nfc unit :=
  d ← get poll;
  if negb (ctrue (tgt_active_prot d)) then mret tt
  else
    set_poll (fun d => set_active (tgt_available_prots d) 0 (tgt_mode d) d);;
    purge_resp_q;;
    skb ← pn533_alloc_skb dv 1;
    match skb with
    | None => mret tt
    | Some skb =>
      skb ← nfc_lift (put_byte skb 1);
      resp ← pn533_send_cmd_sync dv PN533_CMD_IN_RELEASE skb;
      match resp with
      | inl _ => mret tt
      | inr resp => _ ← nfc_lift (arr_rd (skb_mem resp) 0); mret tt
      end
    end.

(** ** Links *)

(** [struct pn533_cmd_jump_dep_response]: the status, the target, its identifier at
    byte 2, the general bytes at byte 17, their number in a [u8]. *)
Definition pn533_in_dep_link_up_complete (active : Z) (resp : Z + sk_buff) : nfc Z :=
  match resp with
  | inl rc => mret rc
  | inr resp =>
    d ← get poll;
    let available := tgt_available_prots d in
    if ctrue available && negb (ctrue (available .& (1 ≪ NFC_PROTO_NFC_DEP))) then mret (- EINVAL)
    else
      status ← nfc_lift (arr_rd (skb_mem resp) 0);
      let rc := status .& PN533_CMD_RET_MASK in
      if negb (rc =? PN533_CMD_RET_SUCCESS) then mret rc
      else
        rc ← (if negb (ctrue available) then
          t ← ask stack_target;
          id ← nfc_lift (read_bytes (skb_mem resp) 2 10);
          nfcid1 ← nfc_lift (put_block (nfcid1 t) 0 id);
          set_poll (told (mk_target NFC_PROTO_NFC_DEP_MASK (sens_res t) (sel_res t) 10 nfcid1
            (sensf_res_len t) (sensf_res t)));;
          ask nfc_targets_found
        else mret 0);
        if negb (rc =? 0) then mret rc
        else
          set_poll link_up;;
          emit (RemoteGeneralBytes (u8 (skb_len resp - 17)) (drop 17 (skb_mem resp)));;
          rc ← ask nfc_set_remote_general_bytes;
          if rc =? 0 then emit (LinkIsUp (b2z (negb (ctrue active))));; ask nfc_dep_link_is_up
          else mret rc
  end.

Definition PASSIVE_DATA_LEN : Z := 5.
Definition passive_data : bytes := [0x00; 0xff; 0xff; 0x00; 0x3].

(** [*next |= v] and [*next = v]; [next] points to byte 2. *)
Definition set_next (skb : sk_buff) (f : Z -> Z) : outcome sk_buff :=
  b ← arr_rd (skb_mem skb) 2; mem ← arr_wr (skb_mem skb) 2 (f b); Ret (skb_store skb mem).

(** The request of [pn533_dep_link_up], after its allocation; without general bytes
    [gb] is NULL or empty. *)
Definition dep_link_up_request (comm_mode baud : Z) (g : option bytes) (skb : sk_buff) : outcome sk_buff :=
  skb ← put_byte skb (b2z (negb (ctrue comm_mode)));
  skb ← put_byte skb baud;
  skb ← put_byte skb 0;
  skb ← (if (comm_mode =? NFC_COMM_PASSIVE) && (0 <? baud)
    then skb ← put_bytes skb passive_data; set_next skb (fun b => b .| 1)
    else Ret skb);
  match g with
  | Some ((_ :: _) as g) => skb ← put_bytes skb g; set_next skb (fun b => b .| 4)
  | _ => set_next skb (fun _ => 0)
  end.

Definition pn533_dep_link_up (comm_mode : Z) (g : option bytes) : nfc Z :=
  d ← get poll;
  if negb (poll_mod_count d =? 0) then mret (- EBUSY)
  else if ctrue (tgt_active_prot d) then mret (- EBUSY)
  else
    let baud := pn533_mod_to_baud d in
    if baud <? 0 then mret baud
    else
      let gb_len := Z.of_nat (length (default [] g)) in
      let len := 3 + gb_len + (if comm_mode =? NFC_COMM_PASSIVE then PASSIVE_DATA_LEN else 0) in
      skb ← pn533_alloc_skb dv len;
      match skb with
      | None => mret (- ENOMEM)
      | Some skb =>
        skb ← nfc_lift (dep_link_up_request comm_mode baud g skb);
        arg ← ask kmalloc;
        if negb arg then mret (- ENOMEM)
        else pn533_send_cmd_async dv (InDepLinkUpComplete (b2z (negb (ctrue comm_mode)))) PN533_CMD_IN_JUMP_FOR_DEP skb
      end.

Definition pn533_dep_link_down : nfc Z :=
  set_poll pn533_poll_reset_mod_list;;
  d ← get poll;
  (if tgt_mode d || ctrue (tgt_active_prot d) then pn533_abort_cmd dv else mret tt);;
  set_poll (fun d => set_active (tgt_available_prots d) 0 false d);;
  purge_resp_q;;
  mret 0.

(** ** Data *)

(** [*skb_push(skb, sizeof(u8)) = 1] *)
Definition push_tg (skb : sk_buff) : outcome sk_buff :=
  skb ← skb_push skb 1; mem ← arr_wr (skb_mem skb) 0 1; Ret (skb_store skb mem).

(** Whether the data of a FeliCa target goes past the chip's own protocol. *)
Definition comm_thru (d : poll_state) : bool :=
  (device_type dv =? PN533_DEVICE_PASORI) && (tgt_active_prot d =? NFC_PROTO_FELICA).

Definition pn533_transceive (skb : sk_buff) : nfc Z :=
  if PN533_CMD_DATAEXCH_DATA_MAXLEN <? skb_len skb then mret (- ENOSYS)
  else
    d ← get poll;
    if negb (ctrue (tgt_active_prot d)) then mret (- EINVAL)
    else
      arg ← ask kmalloc;
      if negb arg then mret (- ENOMEM)
      else
        rc ← (if comm_thru d
          then pn533_send_data_async dv DataExchangeComplete PN533_CMD_IN_COMM_THRU skb
          else skb ← nfc_lift (push_tg skb);
               pn533_send_data_async dv DataExchangeComplete PN533_CMD_IN_DATA_EXCHANGE skb);
        if rc <? 0 then mret rc else mret 0.

(** The buffer for the whole response is asked for with the lengths of its parts. *)
Definition data_exchange_complete (resp : Z + sk_buff) : nfc Z :=
  x ← get data;
  a ← ask (fun n => alloc_skb n (parts_len (resp_q x) + match resp with inl _ => 0 | inr s => skb_len s - 1 end));
  '(rc, x) ← nfc_lift (pn533_data_exchange_complete a resp x);
  modify (with_data x);; mret rc.

(** The request for the next part of a response, past the queue. *)
Definition pn533_wq_mi_recv : nfc unit :=
  d ← get poll;
  skb ← pn533_alloc_skb dv PN533_CMD_DATAEXCH_HEAD_LEN;
  rc ← match skb with
  | None => mret (- ENOMEM)
  | Some skb =>
    '(cmd_code, skb) ← (if comm_thru d then mret (PN533_CMD_IN_COMM_THRU, skb)
      else skb ← nfc_lift (put_byte skb 1); mret (PN533_CMD_IN_DATA_EXCHANGE, skb));
    id ← get ticks;
    resp ← ask (fun n => alloc_skb n (rx_header_len (dev_ops dv) + max_payload_len (dev_ops dv) + rx_tail_len (dev_ops dv)));
    match resp with
    | None => mret (- ENOMEM)
    | Some resp =>
      alloc_cmd ← ask kmalloc;
      rc_out ← ask usb_submit_urb;
      rc_in ← ask usb_submit_urb;
      rc ← on_queue (pn533_send_cmd_direct_async (dev_ops dv) (dev_protocol_type dv) true alloc_cmd
        (mk_cmd id cmd_code 0 skb resp (answer id)) rc_out rc_in);
      (if rc =? 0 then emit (Request id DataExchangeComplete cmd_code (skb_data skb)) else mret tt);;
      mret rc
    end
  end;
  if rc =? 0 then mret tt
  else pn533_send_ack;; on_queue (fun q => Ret (tt, set_cmd_work true q)).

(** ** The driver as a transition system *)

(** [pn533_nfc_ops]; 0 for those without a result. *)
Inductive nfc_op :=
| DevUp | DevDown
| DepLinkUp (comm_mode : Z) (g : option bytes) | DepLinkDown
| StartPoll (im_protocols tm_protocols : Z) | StopPoll
| ActivateTarget (protocol : Z) | DeactivateTarget
| ImTransceive (skb : sk_buff) | TmSend (skb : sk_buff).

Definition pn533_nfc_ops (o : nfc_op) : nfc Z :=
  match o with
  | DevUp => pn533_dev_up dv
  | DevDown => pn533_dev_down dv
  | DepLinkUp comm_mode g => pn533_dep_link_up comm_mode g
  | DepLinkDown => pn533_dep_link_down
  | StartPoll im tm => pn533_start_poll im tm
  | StopPoll => pn533_stop_poll;; mret 0
  | ActivateTarget protocol => pn533_activate_target protocol
  | DeactivateTarget => pn533_deactivate_target;; mret 0
  | ImTransceive skb => pn533_transceive skb
  | TmSend skb => pn533_tm_send skb
  end.

(** The callback of a request. *)
Definition complete_cb (cb : nfc_callback) (resp : Z + sk_buff) : nfc Z :=
  match cb with
  | SendSyncComplete => mret 0
  | PollComplete => pn533_poll_complete resp
  | InDepLinkUpComplete active => pn533_in_dep_link_up_complete active resp
  | DataExchangeComplete => data_exchange_complete resp
  | TmGetDataComplete => pn533_tm_get_data_complete resp
  | TmSendComplete => pn533_tm_send_complete resp
  end.

(** One call into the driver: by the core; by the workqueue; by the timer; by USB, when
    the incoming transfer completes.  The work of a completed command runs the
    callback of the request that it was sent for, which returns what the queue was
    promised. *)
Inductive driver_step (overlap : bool) (w : world) : world -> Prop :=
| step_op o a w' : pn533_nfc_ops o w = Ret (a, w') -> driver_step overlap w w'
| step_poll_work a w' : pn533_wq_poll w = Ret (a, w') -> driver_step overlap w w'
| step_tg_work a w' : pn533_wq_tg_get_data w = Ret (a, w') -> driver_step overlap w w'
| step_listen_timer a w' :
    listen_timer (poll w) = true -> pn533_listen_mode_timer w = Ret (a, w') -> driver_step overlap w w'
| step_mi_work a w' :
    mi_work (queue w) = true -> pn533_wq_mi_recv (with_queue (set_mi_work false (queue w)) w) = Ret (a, w') ->
    driver_step overlap w w'
| step_cmd_work rc_out rc_in :
    cmd_work (queue w) = true -> rc_out <= 0 -> rc_in <= 0 ->
    driver_step overlap w
      (with_queue (pn533_wq_cmd (dev_protocol_type dv) rc_out rc_in (set_cmd_work false (queue w))) w)
| step_recv_ack urb_status mem rc_in q :
    in_urb (queue w) = Some RecvAck -> pn533_recv_ack urb_status mem rc_in (queue w) = Ret q ->
    driver_step overlap w (with_queue q w)
| step_recv_response urb_status mem q :
    in_urb (queue w) = Some RecvResponse -> recv_response (dev_ops dv) urb_status mem (queue w) = Ret q ->
    driver_step overlap w (with_queue q w)
| step_cmd_complete q c r cb cmd_code p a w' :
    cmd_complete_work (queue w) = true ->
    pn533_wq_cmd_complete (dev_ops dv) (set_complete_work false (queue w)) = Ret q ->
    last (log q) = Some (Delivered c r) -> Request (cmd_id c) cb cmd_code p ∈ effects w ->
    (if cb is InDepLinkUpComplete _ then overlap = true \/ poll_mod_count (poll w) = 0 else True) ->
    complete_cb cb r (with_queue q w) = Ret (a, w') -> (PnQueue.complete_cb c r).1 = a ->
    driver_step overlap w w'.
End driver.

(** The state after the probe, whatever it has asked of the outside. *)
Definition driver_init `{SK : skbuff} (n : nat) (l : list nfc_effect) : world :=
  mk_world n pn533_init poll_init (mk_exchange [] false []) [] l.

(** ** Lemmas: the moves of a computation *)

Section moves.
Context {NF : nfc_h} {SK : skbuff} {NE : nfc_env} {NL : nfc_env_laws}.
Context (overlap : bool) (dv : pn533_type) {WL : nfc_wait_laws overlap dv}.

Abbreviation qsteps := (steps (dev_ops dv) (dev_protocol_type dv)).

(** [m] moves the queue by its steps and the polling by steps [R]: those of the works,
    or all. *)
Definition moves (R : poll_state -> poll_state -> Prop) {A} (m : nfc A) : Prop :=
  forall w a w', m w = Ret (a, w') -> qsteps (queue w) (queue w') /\ rtc R (poll w) (poll w').

(** [m] leaves the polling. *)
Definition quiet {A} (m : nfc A) : Prop :=
  forall w a w', m w = Ret (a, w') -> qsteps (queue w) (queue w') /\ poll w' = poll w.

Lemma steps_trans d1 d2 d3 : qsteps d1 d2 -> qsteps d2 d3 -> qsteps d1 d3.
Proof. intros H1 H2. induction H2 as [|d d2 d3 H2 IH Hs]; [done|]. eapply steps_next; [by apply IH|done]. Qed.

Lemma steps_one d d' : step (dev_ops dv) (dev_protocol_type dv) d (Ret d') -> qsteps d d'.
Proof. intros H. eapply steps_next; [apply steps_refl|done]. Qed.

Lemma nfc_bind_inv {A B} (m : nfc A) (k : A -> nfc B) w b w' :
  (m ≫= k) w = Ret (b, w') -> exists a w1, m w = Ret (a, w1) /\ k a w1 = Ret (b, w').
Proof. unfold mbind, nfc_bind. destruct (m w) as [[a w1]| | |]; try done. intros E. by exists a, w1. Qed.

Lemma quiet_moves R {A} (m : nfc A) : quiet m -> moves R m.
Proof. intros Hm w a w' E. destruct (Hm w a w' E) as [H ->]. by split. Qed.

Lemma moves_bind R {A B} (m : nfc A) (k : A -> nfc B) : moves R m -> (forall a, moves R (k a)) -> moves R (m ≫= k).
Proof.
  intros Hm Hk w b w' E. apply nfc_bind_inv in E as (a & w1 & E1 & E2).
  destruct (Hm _ _ _ E1) as [Hq1 Hp1]. destruct (Hk _ _ _ _ E2) as [Hq2 Hp2].
  split; [by eapply steps_trans|by etrans].
Qed.

Lemma quiet_bind {A B} (m : nfc A) (k : A -> nfc B) : quiet m -> (forall a, quiet (k a)) -> quiet (m ≫= k).
Proof.
  intros Hm Hk w b w' E. apply nfc_bind_inv in E as (a & w1 & E1 & E2).
  destruct (Hm _ _ _ E1) as [Hq1 Hp1]. destruct (Hk _ _ _ _ E2) as [Hq2 Hp2].
  split; [by eapply steps_trans|congruence].
Qed.

Lemma quiet_ret {A} (a : A) : quiet (mret a).
Proof. intros w b w' [= <- <-]. split; [apply steps_refl|done]. Qed.
Lemma quiet_get {A} (f : world -> A) : quiet (get f).
Proof. intros w b w' [= <- <-]. split; [apply steps_refl|done]. Qed.
Lemma quiet_ask {A} (f : nat -> A) : quiet (ask f).
Proof. intros w b w' [= <- <-]. split; [apply steps_refl|done]. Qed.
Lemma quiet_emit e : quiet (emit e).
Proof. intros w b w' [= <- <-]. split; [apply steps_refl|done]. Qed.
Lemma quiet_modify f : (forall w, queue (f w) = queue w) -> (forall w, poll (f w) = poll w) -> quiet (modify f).
Proof. intros Hq Hp w b w' [= <- <-]. rewrite Hq. split; [apply steps_refl|done]. Qed.
Lemma quiet_lift {A} (o : outcome A) : quiet (nfc_lift o).
Proof. intros w b w' E. unfold nfc_lift in E. destruct o; [|done..]. injection E as <- <-. split; [apply steps_refl|done]. Qed.

Lemma quiet_cur_mod : quiet cur_mod.
Proof.
  intros w b w' E. unfold cur_mod, on_poll in E. destruct (current_mod _); [|done..]. injection E as <- <-.
  split; [apply steps_refl|done].
Qed.

(** An operation on the queue that is a step of it. *)
Lemma quiet_on_queue {A} (f : pn533 -> outcome (A * pn533)) :
  (forall q a q', f q = Ret (a, q') -> qsteps q q') -> quiet (on_queue f).
Proof.
  intros Hf w b w' E. unfold on_queue in E. destruct (f (queue w)) as [[a q]| | |] eqn:Ef; [|done..].
  injection E as <- <-. split; [by eapply Hf|done].
Qed.

Lemma quiet_alloc_skb size : quiet (pn533_alloc_skb dv size).
Proof.
  unfold pn533_alloc_skb. apply quiet_bind; [apply quiet_ask|]. intros [s|]; [|apply quiet_ret].
  apply quiet_bind; [apply quiet_lift|]. intros s'. apply quiet_ret.
Qed.

Lemma quiet_send_async alloc cb cmd_code s : quiet (send_async dv alloc cb cmd_code s).
Proof.
  unfold send_async. apply quiet_bind; [apply quiet_get|intros id]. apply quiet_bind; [apply quiet_ask|intros [resp|]];
    [|apply quiet_ret].
  do 3 (apply quiet_bind; [apply quiet_ask|intros ?]). apply quiet_bind.
  - apply quiet_on_queue. intros q rc q' E. apply steps_one.
    eapply step_to; [apply (step_send _ _ _ true)|rewrite E; reflexivity].
    intros r. destruct cb; cbn [PnQueue.complete_cb]; [done|apply answer_law..].
  - intros rc. apply quiet_bind; [destruct (rc =? 0); [apply quiet_emit|apply quiet_ret]|intros _; apply quiet_ret].
Qed.

Lemma quiet_send_cmd_async cb cmd_code s : quiet (pn533_send_cmd_async dv cb cmd_code s).
Proof. apply quiet_bind; [apply quiet_send_async|]. intros [rc id]. apply quiet_ret. Qed.
Lemma quiet_send_data_async cb cmd_code s : quiet (pn533_send_data_async dv cb cmd_code s).
Proof. apply quiet_bind; [apply quiet_send_async|]. intros [rc id]. apply quiet_ret. Qed.

Lemma quiet_send_ack : quiet pn533_send_ack.
Proof.
  apply quiet_bind; [apply quiet_ask|intros rc]. apply quiet_bind; [|intros _; apply quiet_ret].
  destruct (rc =? 0); [apply quiet_emit|apply quiet_ret].
Qed.

Lemma quiet_abort_cmd : quiet (pn533_abort_cmd dv).
Proof.
  unfold pn533_abort_cmd. destruct (_ =? _); [apply quiet_ret|]. apply quiet_bind; [apply quiet_send_ack|intros _].
  apply quiet_bind; [apply quiet_ask|intros mem]. apply quiet_on_queue. intros q [] q'.
  destruct (in_urb q) as [[]|] eqn:Eu; [| |intros [= <-]; apply steps_refl];
    match goal with |- (_ ← ?o; _) = _ -> _ => destruct o as [q1| | |] eqn:E; try done end;
    intros [= <-]; apply steps_one; rewrite <- E; [by apply step_ack|by apply step_response].
Qed.

(** While a function waits, the polling moves by the steps of the works. *)
Lemma await_moves id w r w' :
  await id w = Ret (r, w') -> qsteps (queue w) (queue w') /\ rtc (work_step overlap) (poll w) (poll w').
Proof.
  unfold await. destruct (wait_for_completion _ _ _) as [[r1 w1]|] eqn:E; [|done]. intros [= <- <-].
  by destruct (wait_law (nfc_wait_laws := WL) _ _ _ _ _ E) as (H1 & H2 & _).
Qed.

Lemma works_are_steps d d' : rtc (work_step overlap) d d' -> rtc (poll_step overlap) d d'.
Proof. induction 1; [done|]. by eapply rtc_l; [apply step_work|]. Qed.

Lemma moves_send_cmd_sync cmd_code s : moves (work_step overlap) (pn533_send_cmd_sync dv cmd_code s).
Proof.
  apply moves_bind; [apply quiet_moves, quiet_send_async|]. intros [rc id].
  destruct (negb (rc =? 0)); [apply quiet_moves, quiet_ret|]. intros w r w'. apply await_moves.
Qed.

Lemma moves_of_works {A} (m : nfc A) : moves (work_step overlap) m -> moves (poll_step overlap) m.
Proof. intros Hm w a w' E. apply Hm in E as [H1 H2]. split; [done|]. by apply works_are_steps. Qed.
End moves.

(** Follow a computation that does not touch the polling, or that moves it. *)
Ltac quiet_step :=
  match goal with
  | |- quiet _ (_ ≫= _) => apply quiet_bind; [|intros ?]
  | |- quiet _ (mret _) => apply quiet_ret
  | |- quiet _ (get _) => apply quiet_get
  | |- quiet _ (ask _) => apply quiet_ask
  | |- quiet _ (emit _) => apply quiet_emit
  | |- quiet _ (nfc_lift _) => apply quiet_lift
  | |- quiet _ cur_mod => apply quiet_cur_mod
  | |- quiet _ purge_resp_q => apply quiet_modify; done
  | |- quiet _ (modify _) => apply quiet_modify; done
  | |- quiet _ (pn533_alloc_skb _ _) => apply quiet_alloc_skb
  | |- quiet _ (pn533_send_cmd_async _ _ _ _) => apply quiet_send_cmd_async
  | |- quiet _ (pn533_send_data_async _ _ _ _) => apply quiet_send_data_async
  | |- quiet _ (pn533_abort_cmd _) => apply quiet_abort_cmd
  | |- quiet _ pn533_send_ack => apply quiet_send_ack
  | |- quiet _ (if ?b then _ else _) => destruct b
  | |- quiet _ (match ?x with _ => _ end) => destruct x
  end.
Ltac quiet := repeat (cbv beta zeta; quiet_step).

Ltac moves_step :=
  match goal with
  | |- moves _ _ (_ ≫= _) => apply moves_bind; [|intros ?]
  | |- moves _ (work_step _) (pn533_send_cmd_sync _ _ _) => apply moves_send_cmd_sync; assumption
  | |- moves _ (poll_step _) (pn533_send_cmd_sync _ _ _) => apply moves_of_works, moves_send_cmd_sync; assumption
  | |- moves _ _ (if ?b then _ else _) => destruct b
  | |- moves _ _ (match ?x with _ => _ end) => destruct x
  | |- moves _ _ _ => apply quiet_moves; solve [quiet]
  end.
Ltac moves := repeat (cbv beta zeta; moves_step).

(** ** Lemmas: each function of the driver moves the two machines *)

Section refines.
Context {NF : nfc_h} {SK : skbuff} {NE : nfc_env} {NL : nfc_env_laws}.
Context (overlap : bool) (dv : pn533_type) {WL : nfc_wait_laws overlap dv}.

Abbreviation qsteps := (steps (dev_ops dv) (dev_protocol_type dv)).
Abbreviation moved w w' := (qsteps (queue w) (queue w') /\ rtc (poll_step overlap) (poll w) (poll w')).

Lemma moves_set_poll f : (forall d, poll_step overlap d (f d)) -> moves dv (poll_step overlap) (set_poll f).
Proof. intros Hf w a w' [= <- <-]. split; [apply steps_refl|]. by apply rtc_once. Qed.

Lemma cur_mod_inv w m w' : cur_mod w = Ret (m, w') -> current_mod (poll w) = Ret m /\ queue w' = queue w /\ poll w' = poll w.
Proof. unfold cur_mod, on_poll. destruct (current_mod _); [|done..]. by intros [= <- <-]. Qed.

Lemma on_poll_inv {A} (f : poll_state -> outcome (A * poll_state)) w a w' :
  on_poll f w = Ret (a, w') -> f (poll w) = Ret (a, poll w') /\ queue w' = queue w.
Proof. unfold on_poll. destruct (f (poll w)) as [[b d]| | |]; [|done..]. by intros [= <- <-]. Qed.

Lemma quiet_send_poll_frame : quiet dv (pn533_send_poll_frame dv).
Proof.
  unfold pn533_send_poll_frame, pn533_alloc_poll_tg_frame, pn533_alloc_poll_in_frame, put_byte. quiet.
Qed.

Lemma moves_set_configuration cfgitem cfgdata : moves dv (poll_step overlap) (pn533_set_configuration dv cfgitem cfgdata).
Proof. unfold pn533_set_configuration, put_byte. moves. Qed.

Lemma moves_wq_poll : moves dv (poll_step overlap) (pn533_wq_poll dv).
Proof.
  intros w a w' E. unfold pn533_wq_poll in E. apply nfc_bind_inv in E as (m & w1 & E1 & E).
  apply cur_mod_inv in E1 as (Em & Eq1 & Ep1). apply nfc_bind_inv in E as (d & w2 & [= <- <-] & E).
  apply nfc_bind_inv in E as ([] & w3 & E3 & E). rewrite Ep1 in E3.
  assert (qsteps (queue w1) (queue w3) /\ poll w3 = set_timer (listen_timer (poll w)) false (poll w)) as [Hq3 Hp3].
  { destruct (cancel_listen (poll w)) eqn:Ec.
    - apply nfc_bind_inv in E3 as ([] & w4 & [= <-] & E3). apply quiet_abort_cmd in E3 as [H1 H2].
      cbn in H1, H2. split; [done|]. by rewrite H2, Ep1.
    - injection E3 as <-. split; [apply steps_refl|]. rewrite Ep1. destruct (poll w). cbn in Ec. by subst. }
  apply nfc_bind_inv in E as (rc & w4 & E4 & E). apply quiet_send_poll_frame in E4 as [Hq4 Hp4].
  assert (qsteps (queue w) (queue w4)) as Hq by (rewrite <- Eq1; by eapply steps_trans).
  assert (queue w' = queue w4 /\ PnPoll.pn533_wq_poll rc (poll w) = Ret (cancel_listen (poll w), poll w')) as [-> Hp].
  { unfold PnPoll.pn533_wq_poll. rewrite Em. cbn [mbind outcome_bind]. destruct (negb (rc =? 0)).
    - injection E as <- <-. by rewrite Hp4, Hp3.
    - apply nfc_bind_inv in E as (d & w5 & [= <- <-] & E). rewrite Hp4, Hp3 in E. cbn [poll_mod_count set_timer] in E |- *.
      destruct ((length (poll_mod m) =? 0)%nat && _); injection E as <- <-; cbn; by rewrite Hp4, Hp3. }
  split; [done|]. apply rtc_once, step_work. by eapply step_wq_poll.
Qed.

Lemma listen_timer_moved w a w' :
  listen_timer (poll w) = true -> pn533_listen_mode_timer w = Ret (a, w') -> moved w w'.
Proof.
  intros Ht E. unfold pn533_listen_mode_timer in E. apply nfc_bind_inv in E as ([] & w1 & [= <-] & E).
  apply nfc_bind_inv in E as ([] & w2 & E2 & E). apply on_poll_inv in E2 as [E2 Eq2]. injection E as <- <-. cbn in *.
  rewrite Eq2. split; [apply steps_refl|]. apply rtc_once, step_work.
  apply (step_timer _ _ [PollWork]); [done|]. unfold PnPoll.pn533_listen_mode_timer.
  destruct (pn533_poll_next_mod _); [|done..]. by injection E2 as ->.
Qed.

Lemma moves_start_poll im tm : moves dv (poll_step overlap) (pn533_start_poll dv im tm).
Proof.
  intros w a w' E. unfold pn533_start_poll in E. apply nfc_bind_inv in E as (d & w1 & [= <- <-] & E).
  destruct (ctrue (tgt_active_prot (poll w))) eqn:Ea; [injection E as <- <-; split; [apply steps_refl|done]|].
  destruct (tgt_mode (poll w)) eqn:Em; [injection E as <- <-; split; [apply steps_refl|done]|].
  apply nfc_bind_inv in E as (tm' & w1 & E1 & E).
  assert (queue w1 = queue w /\ poll w1 = poll w /\ exists g, tm' = if ctrue tm && negb g then 0 else tm)
    as (Eq1 & Ep1 & g & ->).
  { destruct (ctrue tm).
    - apply nfc_bind_inv in E1 as (g & w2 & [= <- <-] & E1). apply nfc_bind_inv in E1 as ([] & w3 & [= <-] & E1).
      injection E1 as <- <-. split; [done|]. split; [done|]. by destruct (nfc_get_local_general_bytes _); [exists true|exists false].
    - injection E1 as <- <-. split; [done|]. split; [done|]. by exists true. }
  apply nfc_bind_inv in E as ([] & w2 & [= <-] & E). apply nfc_bind_inv in E as ([] & w3 & E3 & E).
  apply on_poll_inv in E3 as [E3 Eq3]. cbn in E3, Eq3. apply nfc_bind_inv in E as ([] & w4 & [= <-] & E).
  destruct (pn533_poll_create_mod_list _ _ _) as [d| | |] eqn:Ec; try done. injection E3 as ->.
  assert (exists m, current_mod (set_protocols im (if ctrue tm && negb g then 0 else tm) (poll w3)) = Ret m) as [m Hm].
  { unfold pn533_send_poll_frame in E. apply nfc_bind_inv in E as (m & w4 & E4 & _). apply cur_mod_inv in E4 as (H & _).
    by exists m. }
  apply quiet_send_poll_frame in E as [Hq Hp]. cbn in Hq, Hp. split; [rewrite <- Eq1, <- Eq3; exact Hq|].
  apply rtc_once, (step_start_poll _ _ g a im tm a). unfold PnPoll.pn533_start_poll. rewrite Ea, Em, <- Ep1, Ec.
  cbn [mbind outcome_bind]. rewrite Hm. cbn [mbind outcome_bind]. by rewrite Hp.
Qed.

Lemma moves_stop_poll : moves dv (poll_step overlap) (pn533_stop_poll dv).
Proof.
  intros w a w' E. unfold pn533_stop_poll in E. apply nfc_bind_inv in E as ([] & w1 & [= <-] & E).
  apply nfc_bind_inv in E as (d & w1 & [= <- <-] & E). cbn [poll with_poll poll_mod_count set_timer] in E.
  assert (qsteps (queue w) (queue w') /\ poll w' = snd (PnPoll.pn533_stop_poll (poll w))) as [Hq ->].
  { unfold PnPoll.pn533_stop_poll. cbn [poll_mod_count set_timer]. destruct (poll_mod_count (poll w) =? 0).
    - injection E as <- <-. split; [apply steps_refl|done].
    - apply nfc_bind_inv in E as ([] & w1 & E1 & E). apply quiet_abort_cmd in E1 as [Hq Hp]. injection E as <- <-.
      split; [exact Hq|]. cbn. by rewrite Hp. }
  split; [done|]. apply rtc_once, step_stop_poll.
Qed.

(** The part of target mode, with what the core is told and answers. *)
Lemma init_target_acts resp w a w' :
  pn533_init_target_complete resp w = Ret (a, w') ->
  queue w' = queue w /\
  exists ta ws, PnPoll.pn533_init_target_complete ta (skb_mem resp) (skb_len resp) (poll w) = Ret (a, ws, poll w').
Proof.
  intros E. unfold pn533_init_target_complete, PnPoll.pn533_init_target_complete in *.
  destruct (skb_len resp <? 17 + 1); [injection E as <- <-; split; [done|]; by exists 0, []|].
  apply nfc_bind_inv in E as (mode & w1 & E1 & E). unfold nfc_lift in E1.
  destruct (arr_rd (skb_mem resp) 0) as [b| | |]; [|done..]. injection E1 as <- <-. cbn [mbind outcome_bind].
  unfold PN533_INIT_TARGET_RESP_DEP in E.
  destruct (b .& 0x4 =? 0); [injection E as <- <-; split; [done|]; by exists 0, []|].
  apply nfc_bind_inv in E as ([] & w2 & [= <-] & E). apply nfc_bind_inv in E as (rc & w3 & [= <- <-] & E).
  set (ta := nfc_tm_activated _) in E. destruct (ta <? 0) eqn:Et.
  - injection E as <- <-. split; [done|]. exists ta, []. by rewrite Et.
  - apply nfc_bind_inv in E as ([] & w4 & [= <-] & E). apply nfc_bind_inv in E as ([] & w5 & [= <-] & E).
    injection E as <- <-. split; [done|]. exists ta, [TgWork]. by rewrite Et.
Qed.

Lemma moves_poll_complete r : moves dv (poll_step overlap) (pn533_poll_complete r).
Proof.
  intros w a w' E. enough (queue w' = queue w /\ exists ta resp ws, PnPoll.pn533_poll_complete ta resp (poll w) = Ret (a, ws, poll w'))
    as (-> & ta & resp & ws & Ep).
  { split; [apply steps_refl|]. apply rtc_once, step_work. by eapply step_poll_complete. }
  destruct r as [rc|resp]; unfold pn533_poll_complete in E.
  - apply nfc_bind_inv in E as (d & w1 & [= <- <-] & E). unfold PnPoll.pn533_poll_complete.
    destruct (_ && _) eqn:Eb in E.
    + injection E as <- <-. split; [done|]. exists 0, (inl rc), []. by rewrite Eb.
    + apply nfc_bind_inv in E as ([] & w2 & [= <-] & E). injection E as <- <-. split; [done|].
      exists 0, (inl rc), []. by rewrite Eb.
  - apply nfc_bind_inv in E as (m & w1 & E1 & E). apply cur_mod_inv in E1 as (Em & Eq1 & Ep1). unfold PnPoll.pn533_poll_complete.
    destruct (length (poll_mod m) =? 0)%nat eqn:El.
    + apply nfc_bind_inv in E as ([] & w2 & [= <-] & E). apply init_target_acts in E as (Hq & ta & ws & Ei).
      cbn in Hq, Ei. rewrite Ep1 in Ei. split; [congruence|]. exists ta, (inr (skb_mem resp, skb_len resp)), ws.
      rewrite Em. cbn [mbind outcome_bind]. by rewrite El.
    + apply nfc_bind_inv in E as (rc & w2 & E2 & E). apply on_poll_inv in E2 as [E2 Eq2]. rewrite Ep1 in E2.
      enough (queue w' = queue w2 /\ exists ws, (if rc =? 0 then Ret (rc, [], poll w2)
        else if poll_mod_count (poll w2) =? 0 then Ret (rc, [], poll w2)
        else d ← pn533_poll_next_mod (poll w2); Ret (rc, [PollWork], d)) = Ret (a, ws, poll w')) as (Hq & ws & Ew).
      { split; [congruence|]. exists 0, (inr (skb_mem resp, skb_len resp)), ws. rewrite Em. cbn [mbind outcome_bind].
        rewrite El, E2. exact Ew. }
      destruct (rc =? 0); [injection E as <- <-; split; [done|by eexists]|].
      apply nfc_bind_inv in E as (d & w3 & [= <- <-] & E).
      destruct (poll_mod_count (poll w2) =? 0); [injection E as <- <-; split; [done|by eexists]|].
      apply nfc_bind_inv in E as ([] & w4 & E4 & E). apply on_poll_inv in E4 as [E4 Eq4].
      apply nfc_bind_inv in E as ([] & w5 & [= <-] & E). injection E as <- <-. cbn. split; [done|].
      destruct (pn533_poll_next_mod (poll w2)); [|done..]. injection E4 as ->. by eexists.
Qed.

Lemma moves_tm_off : moves dv (poll_step overlap) tm_off.
Proof. apply moves_set_poll. intros d. apply step_work, step_tm_off. Qed.

Lemma moves_tm_callbacks r :
  moves dv (poll_step overlap) (pn533_tm_get_data_complete r) /\ moves dv (poll_step overlap) (pn533_tm_send_complete r).
Proof.
  split; unfold pn533_tm_get_data_complete, pn533_tm_send_complete; moves; apply moves_tm_off.
Qed.

(** While no modulation is polled, none comes from the works. *)
Lemma works_keep_idle d d' : rtc (work_step overlap) d d' -> poll_mod_count d = 0 -> poll_mod_count d' = 0.
Proof.
  induction 1 as [d|d d1 d2 Hs _ IH]; [done|]. intros Hc. apply IH. clear IH.
  destruct Hs as [ta resp rc ws d' E|sent abort d' E|ws d' Ht E| |t|]; try done.
  - destruct resp as [e|[resp len]]; unfold PnPoll.pn533_poll_complete in E.
    + rewrite Hc in E. change (negb (0 =? 0)) with false in E. rewrite andb_false_r in E. by injection E as <- <- <-.
    + destruct (current_mod d); [|done..]. cbn [mbind outcome_bind] in E. destruct (_ =? 0)%nat.
      * unfold PnPoll.pn533_init_target_complete in E. destruct (_ <? _); [by injection E as <- <- <-|].
        destruct (arr_rd resp 0); [|done..]. cbn [mbind outcome_bind] in E.
        repeat (case_match; [by injection E as <- <- <-|]). by injection E as <- <- <-.
      * destruct (pn533_start_poll_complete _ _ _) as [[rc1 d1]| | |] eqn:Es; [|done..]. cbn [mbind outcome_bind] in E.
        apply start_poll_complete_result in Es as [(-> & t & parse & -> & _)|(-> & ->)].
        -- by injection E as <- <- <-.
        -- rewrite Hc in E. by injection E as <- <- <-.
  - unfold PnPoll.pn533_wq_poll in E. destruct (current_mod d); [|done..]. cbn [mbind outcome_bind] in E.
    repeat case_match; by injection E as <- <-.
  - unfold PnPoll.pn533_listen_mode_timer, pn533_poll_next_mod in E. cbn [poll_mod_count set_timer] in E.
    by rewrite Hc in E.
Qed.

Lemma moves_activate_nfcdep : moves dv (work_step overlap) (pn533_activate_target_nfcdep dv).
Proof. unfold pn533_activate_target_nfcdep, put_byte. moves. Qed.

Lemma moves_activate_target protocol : moves dv (poll_step overlap) (pn533_activate_target dv protocol).
Proof.
  intros w a w' E. unfold pn533_activate_target in E. apply nfc_bind_inv in E as (d & w1 & [= <- <-] & E).
  destruct (Z.eqb_spec (poll_mod_count (poll w)) 0) as [Hc|]; cbn [negb] in E;
    [|injection E as <- <-; split; [apply steps_refl|done]].
  do 3 (match type of E with (if ?b then _ else _) _ = _ => destruct b;
    [injection E as <- <-; split; [apply steps_refl|done]|] end).
  apply nfc_bind_inv in E as (rc & w1 & E1 & E).
  assert (qsteps (queue w) (queue w1) /\ rtc (work_step overlap) (poll w) (poll w1)) as [Hq1 Hp1].
  { destruct (protocol =? NFC_PROTO_NFC_DEP); [by apply moves_activate_nfcdep in E1|].
    injection E1 as <- <-. split; [apply steps_refl|done]. }
  pose proof (works_keep_idle _ _ Hp1 Hc) as Hc1. apply works_are_steps in Hp1.
  destruct (negb (rc =? 0)); [injection E as <- <-; done|].
  apply nfc_bind_inv in E as ([] & w2 & [= <-] & E). injection E as <- <-. cbn. split; [done|].
  eapply rtc_r; [exact Hp1|]. by apply step_activated.
Qed.

Lemma moves_deactivate_target : moves dv (poll_step overlap) (pn533_deactivate_target dv).
Proof.
  unfold pn533_deactivate_target, put_byte. moves. apply moves_set_poll. intros d. apply step_deactivated.
Qed.

Lemma moves_dep_link_down : moves dv (poll_step overlap) (pn533_dep_link_down dv).
Proof.
  intros w a w' E. unfold pn533_dep_link_down in E. apply nfc_bind_inv in E as ([] & w1 & [= <-] & E).
  apply nfc_bind_inv in E as (d & w2 & [= <- <-] & E). apply nfc_bind_inv in E as ([] & w3 & E3 & E).
  assert (quiet dv (if tgt_mode (poll (with_poll (pn533_poll_reset_mod_list (poll w)) w)) ||
      ctrue (tgt_active_prot (poll (with_poll (pn533_poll_reset_mod_list (poll w)) w)))
    then pn533_abort_cmd dv else mret tt)) as Hk by quiet.
  apply Hk in E3 as [Hq Hp]. cbn in Hq, Hp. apply nfc_bind_inv in E as ([] & w4 & [= <-] & E).
  apply nfc_bind_inv in E as ([] & w5 & [= <-] & E). injection E as <- <-. cbn. rewrite Hp. split; [done|].
  apply rtc_once. exact (step_link_down overlap (poll w)).
Qed.

(** The answer to a request for a link, with the polling as it is when it comes. *)
Lemma link_up_complete_moved active r w a w' :
  overlap = true \/ poll_mod_count (poll w) = 0 ->
  pn533_in_dep_link_up_complete active r w = Ret (a, w') -> moved w w'.
Proof.
  intros Ho E. destruct r as [rc|resp]; [injection E as <- <-; split; [apply steps_refl|done]|].
  unfold pn533_in_dep_link_up_complete in E. apply nfc_bind_inv in E as (d & w1 & [= <- <-] & E).
  destruct (_ && _); [injection E as <- <-; split; [apply steps_refl|done]|].
  apply nfc_bind_inv in E as (st & w1 & E1 & E). apply (quiet_lift dv) in E1 as [Hq1 Hp1].
  destruct (negb (st .& _ =? _)); [injection E as <- <-; by rewrite Hp1|].
  apply nfc_bind_inv in E as (rc & w2 & E2 & E).
  assert (queue w2 = queue w1 /\ poll_mod_count (poll w2) = poll_mod_count (poll w) /\
    rtc (poll_step overlap) (poll w) (poll w2)) as (Hq2 & Hc2 & Hp2).
  { destruct (negb (ctrue _)).
    - apply nfc_bind_inv in E2 as (t & w3 & [= <- <-] & E2).
      apply nfc_bind_inv in E2 as (id & w3 & E3 & E2). unfold nfc_lift in E3.
      destruct (read_bytes _ _ _); [|done..]. injection E3 as <- <-.
      apply nfc_bind_inv in E2 as (b & w3 & E3 & E2). unfold nfc_lift in E3.
      destruct (put_block _ _ _); [|done..]. injection E3 as <- <-.
      apply nfc_bind_inv in E2 as ([] & w3 & [= <-] & E2). injection E2 as <- <-. cbn. rewrite Hp1.
      split; [done|]. split; [done|]. apply rtc_once, step_work, step_target_told.
    - injection E2 as <- <-. by rewrite Hp1. }
  assert (moves dv (poll_step overlap) (emit (RemoteGeneralBytes (u8 (skb_len resp - 17)) (drop 17 (skb_mem resp)));;
    rc ← ask nfc_set_remote_general_bytes;
    if rc =? 0 then emit (LinkIsUp (b2z (negb (ctrue active))));; ask nfc_dep_link_is_up else mret rc)) as Hk by moves.
  destruct (negb (rc =? 0)); [injection E as <- <-; by rewrite Hq2|].
  apply nfc_bind_inv in E as ([] & w3 & [= <-] & E). apply Hk in E as [Hq Hp]. cbn in Hq, Hp.
  split; [rewrite Hq2 in Hq; by eapply steps_trans|]. etrans; [exact Hp2|]. eapply rtc_l; [|exact Hp].
  apply step_work, step_link_up. by rewrite Hc2.
Qed.

Lemma moves_dep_link_up comm_mode g : moves dv (poll_step overlap) (pn533_dep_link_up dv comm_mode g).
Proof. unfold pn533_dep_link_up. moves. Qed.

Lemma moves_transceive skb : moves dv (poll_step overlap) (pn533_transceive dv skb).
Proof. unfold pn533_transceive. moves. Qed.

Lemma moves_ops o : moves dv (poll_step overlap) (pn533_nfc_ops dv o).
Proof.
  destruct o; cbn [pn533_nfc_ops].
  - apply moves_set_configuration.
  - apply moves_set_configuration.
  - apply moves_dep_link_up.
  - apply moves_dep_link_down.
  - apply moves_start_poll.
  - apply moves_bind; [apply moves_stop_poll|intros _; moves].
  - apply moves_activate_target.
  - apply moves_bind; [apply moves_deactivate_target|intros _; moves].
  - apply moves_transceive.
  - unfold pn533_tm_send. moves.
Qed.

(** The failure of the request for the next part. *)
Lemma mi_recv_fails c ar ac ro ri q w w' a :
  (if c is Some c then cb_ok c else True) -> ro <= 0 -> ri <= 0 -> mi_work q = true ->
  PnQueue.pn533_wq_mi_recv (dev_ops dv) (dev_protocol_type dv) ar ac c ro ri (set_mi_work false q) =
    Ret (set_cmd_work true (queue w)) ->
  (pn533_send_ack;; on_queue (fun q => Ret (tt, set_cmd_work true q))) w = Ret (a, w') ->
  qsteps q (queue w') /\ poll w' = poll w.
Proof.
  intros Hcb Ho Hi Hmi E Ea. apply nfc_bind_inv in Ea as (rc & w1 & E1 & Ea). unfold pn533_send_ack in E1.
  apply nfc_bind_inv in E1 as (rc1 & w2 & [= <- <-] & E1). apply nfc_bind_inv in E1 as ([] & w3 & E3 & E1).
  assert (queue w3 = queue w /\ poll w3 = poll w) as [Hq3 Hp3] by (destruct (_ =? 0) in E3; by injection E3 as <-).
  injection E1 as <- <-. injection Ea as <- <-. cbn. rewrite Hq3, Hp3. split; [|done].
  apply steps_one. rewrite <- E. by apply step_mi.
Qed.

Lemma alloc_skb_still size w o w' :
  pn533_alloc_skb dv size w = Ret (o, w') -> queue w' = queue w /\ poll w' = poll w.
Proof.
  intros E. unfold pn533_alloc_skb in E. apply nfc_bind_inv in E as (s & w1 & [= <- <-] & E).
  destruct (alloc_skb _ _) as [s|]; [|by injection E as <- <-]. apply nfc_bind_inv in E as (s' & w2 & E2 & E).
  unfold nfc_lift in E2. destruct (skb_reserve _ _); [|done..]. injection E2 as <- <-. by injection E as <- <-.
Qed.

(** The command for the next part, with what sending it past the queue does. *)
Lemma mi_recv_moved w a w' :
  mi_work (queue w) = true -> pn533_wq_mi_recv dv (with_queue (set_mi_work false (queue w)) w) = Ret (a, w') ->
  qsteps (queue w) (queue w') /\ poll w' = poll w.
Proof.
  intros Hmi E. unfold pn533_wq_mi_recv in E. apply nfc_bind_inv in E as (d & w1 & [= <- <-] & E).
  apply nfc_bind_inv in E as (o & w2 & E2 & E). apply alloc_skb_still in E2 as [Hq2 Hp2]. cbn in Hq2, Hp2.
  apply nfc_bind_inv in E as (rc & w3 & E3 & E). rewrite <- Hp2. destruct o as [s|].
  2: { injection E3 as <- <-. cbn [Z.eqb ENOMEM Z.opp] in E.
       eapply (mi_recv_fails None true true 0 0); try done. cbn. by rewrite Hq2. }
  apply nfc_bind_inv in E3 as ([cc s1] & w4 & E4 & E3).
  assert (queue w4 = queue w2 /\ poll w4 = poll w2) as [Hq4 Hp4].
  { destruct (comm_thru dv _); [by injection E4 as <- <- <-|]. apply nfc_bind_inv in E4 as (s2 & w5 & E5 & E4).
    injection E4 as <- <- <-. unfold nfc_lift in E5. destruct (put_byte _ _); [|done..]. by injection E5 as <- <-. }
  apply nfc_bind_inv in E3 as (id & w5 & [= <- <-] & E3). apply nfc_bind_inv in E3 as (resp & w5 & [= <- <-] & E3).
  rewrite <- Hp4. rewrite Hq2 in Hq4. destruct (alloc_skb _ _) as [resp|].
  2: { injection E3 as <- <-. cbn [Z.eqb ENOMEM Z.opp] in E.
       eapply (mi_recv_fails (Some (mk_cmd 0 0 0 s s (fun _ => (0, false)))) false true 0 0) in E; try done.
       cbn. by rewrite Hq4. }
  apply nfc_bind_inv in E3 as (ac & w5 & [= <- <-] & E3). apply nfc_bind_inv in E3 as (ro & w5 & [= <- <-] & E3).
  apply nfc_bind_inv in E3 as (ri & w5 & [= <- <-] & E3). apply nfc_bind_inv in E3 as (rc1 & w5 & E5 & E3).
  unfold on_queue in E5. cbn [queue tick] in E5. rewrite Hq4 in E5.
  match type of E5 with context [PnQueue.pn533_send_cmd_direct_async ?o ?p true ?ac0 ?c0 ?ro0 ?ri0 _] =>
    set (c := c0) in E5; set (ac := ac0) in E5; set (ro := ro0) in E5; set (ri := ri0) in E5 end.
  assert (cb_ok c) as Hcb by (intros r; apply answer_law).
  assert (ro <= 0 /\ ri <= 0) as [Ho Hi] by (split; apply usb_submit_urb_law).
  destruct (PnQueue.pn533_send_cmd_direct_async _ _ _ _ _ _ _ _) as [[rc2 q2]| | |] eqn:Ed; [|done..].
  injection E5 as <- <-. apply nfc_bind_inv in E3 as ([] & w6 & E6 & E3). injection E3 as <- <-.
  assert (queue w6 = q2 /\ poll w6 = poll w4) as [Hq6 Hp6] by (destruct (rc2 =? 0) in E6; by injection E6 as <-).
  rewrite <- Hp6. destruct (rc2 =? 0) eqn:Er.
  - injection E as <- <-. split; [|done]. rewrite Hq6. apply steps_one.
    eapply step_to; [by apply (step_mi _ _ _ true ac (Some c) ro ri)|]. unfold PnQueue.pn533_wq_mi_recv. rewrite Ed.
    cbn [mbind outcome_bind]. by rewrite Er.
  - apply (mi_recv_fails (Some c) true ac ro ri) with (a := a); try done. unfold PnQueue.pn533_wq_mi_recv. rewrite Ed.
    cbn [mbind outcome_bind]. by rewrite Er, Hq6.
Qed.

Lemma callback_moved cb r w a w' :
  (if cb is InDepLinkUpComplete _ then overlap = true \/ poll_mod_count (poll w) = 0 else True) ->
  complete_cb cb r w = Ret (a, w') -> moved w w'.
Proof.
  intros Ho E. destruct cb; cbn [complete_cb] in E.
  - by apply (quiet_moves dv (poll_step overlap) (mret 0)) in E; [|apply quiet_ret].
  - by apply moves_poll_complete in E.
  - by eapply link_up_complete_moved.
  - assert (moves dv (poll_step overlap) (data_exchange_complete r)) as Hk by (unfold data_exchange_complete; moves).
    by apply Hk in E.
  - by apply (proj1 (moves_tm_callbacks r)) in E.
  - by apply (proj2 (moves_tm_callbacks r)) in E.
Qed.

Lemma driver_step_moved w w' : driver_step dv overlap w w' -> moved w w'.
Proof.
  intros [o a v E|a v E|a v E|a v Ht E|a v Hmi E|ro ri Hw Ho Hi|st mem ri q Hu E|st mem q Hu E|q c r cb cc p a v Hw E _ _ Ho Ecb _].
  - by apply moves_ops in E.
  - by apply moves_wq_poll in E.
  - assert (moves dv (poll_step overlap) (pn533_wq_tg_get_data dv)) as Hk by (unfold pn533_wq_tg_get_data; moves).
    by apply Hk in E.
  - by eapply listen_timer_moved.
  - apply mi_recv_moved in E as [H1 ->]; [by split|done].
  - split; [|done]. apply steps_one. by apply step_cmd.
  - split; [|done]. apply steps_one. cbn [queue with_queue]. rewrite <- E. by apply step_ack.
  - split; [|done]. apply steps_one. cbn [queue with_queue]. rewrite <- E. by apply step_response.
  - apply callback_moved in Ecb as [Hq Hp]; [|done]. cbn in Hq, Hp. split; [|done].
    eapply steps_trans; [|exact Hq]. apply steps_one. rewrite <- E. by apply step_complete.
Qed.

Lemma driver_reaches n l w :
  rtc (driver_step dv overlap) (driver_init n l) w -> qsteps pn533_init (queue w) /\ poll_reachable overlap (poll w).
Proof.
  intros Hr. enough (forall w0, rtc (driver_step dv overlap) w0 w -> moved w0 w) as Hk.
  { apply Hk in Hr as [Hq Hp]. split; [done|]. cbn in Hp.
    assert (forall d d', rtc (poll_step overlap) d d' -> poll_reachable overlap d -> poll_reachable overlap d') as Hpr.
    { induction 1; [done|]. intros Hd. eauto using reachable_step. }
    by eapply Hpr; [|apply reachable_init]. }
  clear Hr. induction 1 as [w1|w1 w2 w3 Hs _ [Hq Hp]]; [split; [apply steps_refl|done]|].
  apply driver_step_moved in Hs as [Hq1 Hp1]. split; [by eapply steps_trans|by etrans].
Qed.
End refines.

(** ** Properties *)

Section properties.
Context {NF : nfc_h} {SK : skbuff} {NE : nfc_env} {NL : nfc_env_laws}.
Context (overlap : bool) (dv : pn533_type) {WL : nfc_wait_laws overlap dv}.

(** C32: The whole driver refines its two machines.  From the probe on, whatever the core,
    USB, the timer and the workqueue do: the queue has gone by the steps of the
    command queue, so that the chip has at most one command, the commands go to it
    in the order they were accepted, and none waits when none is pending; the polling
    has gone by its own, so that while it goes on the current modulation is one of
    those polled, and no target is active, unless the answer to a request for a link
    came meanwhile. *)
Theorem driver_refines (n : nat) (l : list nfc_effect) (w : world) :
  rtc (driver_step dv overlap) (driver_init n l) w ->
  (steps (dev_ops dv) (dev_protocol_type dv) pn533_init (queue w) /\ poll_reachable overlap (poll w)) /\
  (one_at_a_time (queue w) /\ in_order (queue w) /\ (cmd_pending (queue w) = false -> cmd_queue (queue w) = [])) /\
  (poll_mod_count (poll w) <> 0 ->
   0 <= poll_mod_curr (poll w) < poll_mod_count (poll w) /\
   (exists m, 0 <= m <= 5 /\ current_mod (poll w) = Ret m) /\ (overlap = false -> tgt_active_prot (poll w) = 0)).
Proof.
  intros Hr. destruct (driver_reaches overlap dv n l w Hr) as [Hq Hp]. split; [done|]. split.
  - destruct (steps_inv _ _ _ _ Hq inv_init) as (Hph & Hord & Hone). split; [done|]. split; [done|].
    intros Hn. destruct Hph as [_ Hph]. rewrite Hn in Hph. destruct (cmd (queue w)), (in_urb (queue w)); try done.
    by destruct Hph.
  - by apply polled_while.
Qed.
End properties.
