(* ===== verification/PnRequests.v ===== *)
(** * What the PN533 driver asks of the chip: [pn533.c]

    The requests of [PnDriver], as payloads: the polling of a modulation, the listening
    as a target, the set up of a link. *)

From S2P Require Import Prelude PnFrame PnQueue PnData PnPoll PnCommand PnDriver.

(** ** Specification *)

(** InListPassiveTarget with the bytes of a modulation; TgInitAsTarget, for the modulation
    without any: DEP only, the parameters of MIFARE, of FeliCa with its random identifier,
    the identifier again, the general bytes with their number, and no historical ones. *)
Definition listen_payload (random g : bytes) : bytes :=
  [2] ++ [1; 1; 0; 0; 0; 0x40] ++
  ([0x01; 0xFE] ++ random ++ [0; 0; 0; 0; 0; 0; 0; 0; 0xFF; 0xFF]) ++
  ([0x01; 0xFE] ++ random ++ [0; 0]) ++
  [Z.of_nat (length g)] ++ g ++ [0].

Definition poll_request (m : Z) (random g : bytes) : Z * bytes :=
  if m =? PN533_LISTEN_MOD then (PN533_CMD_TG_INIT_AS_TARGET, listen_payload random g)
  else (PN533_CMD_IN_LIST_PASSIVE_TARGET, poll_mod m).

(** InJumpForDEP: active or passive, the baud rate, what follows ([Next]), the passive
    initiator data, the general bytes.  The passive data is announced only with
    general bytes after it. *)
Definition link_payload `{nfc_h} (comm_mode baud : Z) (g : bytes) : bytes :=
  let passive := (comm_mode =? NFC_COMM_PASSIVE) && (0 <? baud) in
  [b2z (comm_mode =? 0); baud; if (length g =? 0)%nat then 0 else if passive then 5 else 4] ++
  (if passive then [0x00; 0xFF; 0xFF; 0x00; 0x03] else []) ++ g.

Section requests.
Context {NF : nfc_h} {SK : skbuff} {SL : skbuff_laws} {NE : nfc_env} {NL : nfc_env_laws}.
Context (dv : pn533_type) {FF : frame_format (dev_ops dv)}.
Abbreviation ops := (dev_ops dv).

(** ** Lemmas: filling a request *)

Lemma ready_is t t' p p' s : ready dv t p s -> t = t' -> p = p' -> ready dv t' p' s.
Proof. by intros ? <- <-. Qed.

Lemma put_more t0 t p b s :
  ready dv t0 p s -> 0 <= t -> t0 = Z.of_nat (length b) + t ->
  exists s', put_bytes s b = Ret s' /\ ready dv t (p ++ b) s'.
Proof. intros Hs Ht ->. by apply put_bytes_ready. Qed.

Lemma nwp_put {A} b t p s (k : sk_buff -> nfc A) Q w :
  0 <= t -> ready dv (Z.of_nat (length b) + t) p s ->
  (forall s', ready dv t (p ++ b) s' -> wp (k s') Q w) -> wp (s' ← nfc_lift (put_bytes s b); k s') Q w.
Proof.
  intros Ht Hs Hk. destruct (put_bytes_ready dv t p b s Ht Hs) as (s' & E & Hs').
  apply nwp_bind. eapply nwp_lift; [exact E|]. by apply Hk.
Qed.

(** Nothing is sent and nothing changes but the number of questions. *)
Definition unmoved (w w' : world) : Prop := same_device w w' /\ effects w' = effects w /\ queue w' = queue w.

Lemma nwp_alloc size (Q : option sk_buff -> world -> Prop) w :
  0 <= size < 2 ^ 16 -> tx_header_len ops + tx_tail_len ops < 2 ^ 16 ->
  (forall w', unmoved w w' -> Q None w') ->
  (forall s w', unmoved w w' -> ready dv (size + tx_tail_len ops) [] s -> Q (Some s) w') ->
  wp (pn533_alloc_skb dv size) Q w.
Proof.
  intros Hs Hb Hn Hk. destruct (tx_lens (ops := ops)). apply (nwp_alloc_skb dv); [lia|lia|].
  intros w' H1 H2 H3 _. split; [by apply Hn|]. intros s Hr. by apply Hk.
Qed.

Lemma nwp_poll_in_frame m w :
  tx_header_len ops + tx_tail_len ops < 2 ^ 16 ->
  wp (pn533_alloc_poll_in_frame dv m) (fun o w' =>
    unmoved w w' /\ (forall s, o = Some s -> ready dv (tx_tail_len ops) (poll_mod m) s)) w.
Proof.
  intros Hb. destruct (tx_lens (ops := ops)). unfold pn533_alloc_poll_in_frame.
  assert ((length (poll_mod m) <= 7)%nat) by (unfold poll_mod; repeat case_match; cbn; lia).
  apply nwp_bind, nwp_alloc; [lia|done|intros ? ?; apply nwp_ret; split; [done|by intros ? [=]]|]. intros s w1 Hu Hs.
  eapply nwp_put; [|exact Hs|]; [lia|]. intros s' Hs'. apply nwp_ret. split; [done|]. by intros ? [= <-].
Qed.

Lemma listen_payload_split random g :
  listen_payload random g =
    (((((([] ++ [u8 PN533_INIT_TARGET_DEP]) ++ mifare_params) ++ felica_params random) ++
       ([0x01; 0xFE] ++ random ++ [0; 0])) ++ [Z.of_nat (length g)]) ++ g) ++ [u8 0].
Proof. unfold listen_payload, felica_params. by rewrite <- !app_assoc. Qed.

Lemma nwp_poll_tg_frame w :
  tx_header_len ops + tx_tail_len ops < 2 ^ 16 -> (length (gb w) <= 200)%nat ->
  wp (pn533_alloc_poll_tg_frame dv) (fun o w' =>
    unmoved w w' /\ (forall s, o = Some s -> exists random, length random = 6%nat /\
      ready dv (tx_tail_len ops) (listen_payload random (gb w)) s)) w.
Proof.
  intros Hb Hg. destruct (tx_lens (ops := ops)). unfold pn533_alloc_poll_tg_frame, put_byte.
  apply nwp_bind, nwp_get. set (g := gb w) in *. apply nwp_bind, nwp_alloc; [lia|done|intros ? ?; apply nwp_ret; split; [done|by intros ? [=]]|].
  intros s0 w1 Hu Hs0.
  set (t := tx_tail_len ops) in *. set (n := Z.of_nat (length g)) in *.
  eapply (nwp_put _ (36 + n + t)); [lia|eapply ready_is; [exact Hs0|cbn [length]; lia|done]|]. intros s1 Hs1.
  eapply (nwp_put _ (30 + n + t)); [lia|eapply ready_is; [exact Hs1|cbn; lia|done]|]. intros s2 Hs2.
  apply nwp_bind, nwp_ask. set (r := get_random_bytes _). assert (length r = 6%nat) as Hr by apply get_random_bytes_law.
  eapply (nwp_put _ (12 + n + t)); [lia|eapply ready_is; [exact Hs2| |done]|].
  { unfold felica_params. rewrite !length_app, Hr. cbn [length replicate]. lia. }
  intros s3 Hs3. assert (take 8 (felica_params r) ++ [0; 0] = [0x01; 0xFE] ++ r ++ [0; 0]) as ->.
  { unfold felica_params. rewrite app_assoc, take_app_exact by (rewrite length_app, Hr; done). by rewrite <- app_assoc. }
  eapply (nwp_put _ (2 + n + t)); [lia|eapply ready_is; [exact Hs3| |done]|].
  { rewrite !length_app, Hr. cbn [length]. lia. }
  intros s4 Hs4. rewrite (u8_small n) by lia.
  eapply (nwp_put _ (1 + n + t)); [lia|eapply ready_is; [exact Hs4|cbn [length]; lia|done]|]. intros s5 Hs5.
  eapply (nwp_put _ (1 + t)); [lia|eapply ready_is; [exact Hs5|lia|done]|]. intros s6 Hs6.
  eapply (nwp_put _ t); [lia|eapply ready_is; [exact Hs6|cbn [length]; lia|done]|]. intros s7 Hs7.
  apply nwp_ret. split; [done|]. intros ? [= <-]. exists r. split; [done|]. by rewrite listen_payload_split.
Qed.

(** A request of a callback that was made, or nothing. *)
Definition requested_once (cb : nfc_callback) (r : Z * bytes) (rc : Z) (w w' : world) : Prop :=
  rc = 0 /\ (exists id, effects w' = effects w ++ [Request id cb r.1 r.2]) /\ framed dv (queue w') r \/
  rc <> 0 /\ effects w' = effects w.

Lemma nwp_send_cmd_async cb cmd_code p s w :
  (length p <= PAYLOAD_MAX)%nat -> ready dv (tx_tail_len ops) p s ->
  wp (pn533_send_cmd_async dv cb cmd_code s) (fun rc w' =>
    same_device w w' /\ requested_once cb (cmd_code, p) rc w w') w.
Proof.
  intros Hp Hs. apply nwp_bind. eapply nwp_mono; [by apply (nwp_send_async dv)|].
  intros [rc id] w1 (Hd & _ & Hr). apply nwp_ret. split; [done|]. cbn [fst snd] in Hr.
  destruct Hr as [(-> & He & Hf)|[Hne He]]; [left|by right]. split; [done|]. split; [by exists id|done].
Qed.

(** [pn533_send_poll_frame], at a modulation of the list. *)
Lemma nwp_send_poll_frame m w :
  tx_header_len ops + tx_tail_len ops < 2 ^ 16 -> (length (gb w) <= 200)%nat ->
  current_mod (poll w) = Ret m -> 0 <= m <= 5 ->
  wp (pn533_send_poll_frame dv) (fun rc w' =>
    same_device w w' /\
    exists random, length random = 6%nat /\ requested_once PollComplete (poll_request m random (gb w)) rc w w') w.
Proof.
  intros Hb Hg Hm Hr. unfold pn533_send_poll_frame. apply nwp_bind.
  unfold wp at 1, cur_mod, on_poll. rewrite Hm. cbn [mbind outcome_bind].
  replace (with_poll (poll w) w) with w by by destruct w.
  assert ((length (poll_mod m) =? 0)%nat = (m =? PN533_LISTEN_MOD)) as ->.
  { unfold PN533_LISTEN_MOD. unfold poll_mod. assert (m = 0 \/ m = 1 \/ m = 2 \/ m = 3 \/ m = 4 \/ m = 5) as H by lia.
    by repeat destruct H as [->|H]; [..|subst]. }
  unfold poll_request. destruct (m =? PN533_LISTEN_MOD).
  - apply nwp_bind, nwp_bind. eapply nwp_mono; [by apply nwp_poll_tg_frame|]. intros o w1 [(Hd1 & He1 & Hq1) Ho].
    apply nwp_ret. destruct o as [s|].
    2: { apply nwp_ret. split; [done|]. exists (replicate 6 0). split; [done|]. by right. }
    destruct (Ho s eq_refl) as (random & Hl & Hs).
    eapply nwp_mono; [apply (nwp_send_cmd_async _ _ (listen_payload random (gb w))); [|exact Hs]|].
    { unfold listen_payload, PAYLOAD_MAX. rewrite !length_app, Hl. cbn [length]. lia. }
    intros rc w2 [Hd2 Hr2]. destruct Hd1 as (P1 & D1 & G1), Hd2 as (P2 & D2 & G2).
    split; [split; [congruence|split; congruence]|]. exists random. split; [done|].
    unfold requested_once in *. by rewrite He1 in Hr2.
  - apply nwp_bind, nwp_bind. eapply nwp_mono; [by apply nwp_poll_in_frame|]. intros o w1 [(Hd1 & He1 & Hq1) Ho].
    apply nwp_ret. destruct o as [s|].
    2: { apply nwp_ret. split; [done|]. exists (replicate 6 0). split; [done|]. by right. }
    eapply nwp_mono; [apply (nwp_send_cmd_async _ _ (poll_mod m)); [|exact (Ho s eq_refl)]|].
    { unfold poll_mod, PAYLOAD_MAX. repeat case_match; cbn; lia. }
    intros rc w2 [Hd2 Hr2]. destruct Hd1 as (P1 & D1 & G1), Hd2 as (P2 & D2 & G2).
    split; [split; [congruence|split; congruence]|]. exists (replicate 6 0). split; [done|].
    unfold requested_once in *. by rewrite He1 in Hr2.
Qed.

(** ** Lemmas: the set up of a link *)

Lemma set_next_ready t a b c l s f :
  ready dv t (a :: b :: c :: l) s -> exists s', set_next s f = Ret s' /\ ready dv t (a :: b :: f c :: l) s'.
Proof.
  intros (Hd & Hh & Ht). pose proof (skb_len_range s) as Hr. pose proof (skb_data_length s) as Hl. rewrite Hd in Hl.
  assert (skb_mem s = (a :: b :: c :: l) ++ drop (Z.to_nat (skb_len s)) (skb_mem s)) as Em
    by (rewrite <- Hd; unfold skb_data; by rewrite take_drop).
  unfold set_next. set (rest := drop _ _) in Em. rewrite Em. cbn [app].
  change (arr_rd (a :: b :: c :: l ++ rest) 2) with (Ret c). cbn [mbind outcome_bind].
  rewrite arr_wr_in by (cbn [length]; lia). cbn [mbind outcome_bind]. eexists. split; [done|].
  change (<[Z.to_nat 2:=f c]> (a :: b :: c :: l ++ rest)) with (a :: b :: f c :: (l ++ rest)).
  destruct (skb_store_law s (a :: b :: f c :: (l ++ rest))) as [Hm' Hl']; [by rewrite Em|].
  split; [|split].
  - unfold skb_data. rewrite Hm', Hl'. change (a :: b :: f c :: l ++ rest) with ((a :: b :: f c :: l) ++ rest).
    apply take_app_exact. cbn [length] in *. lia.
  - by rewrite skb_store_headroom.
  - rewrite Hm', Hl'. rewrite Em in Ht. cbn [length app] in *. done.
Qed.

Lemma link_request_ready t comm_mode baud g s :
  0 <= baud <= 2 -> 0 <= t ->
  ready dv (3 + (if (comm_mode =? NFC_COMM_PASSIVE) && (0 <? baud) then 5 else 0) + Z.of_nat (length (default [] g)) + t) [] s ->
  exists s', dep_link_up_request comm_mode baud g s = Ret s' /\
    ready dv t (link_payload comm_mode baud (default [] g)) s'.
Proof.
  intros Hb Ht Hs. unfold dep_link_up_request, link_payload, put_byte.
  set (passive := (comm_mode =? NFC_COMM_PASSIVE) && (0 <? baud)) in *.
  set (n := Z.of_nat (length (default [] g))) in *. set (k := if passive then 5 else 0) in *.
  assert (0 <= k) as Hk by (unfold k; destruct passive; lia).
  destruct (put_more _ (2 + k + n + t) _ [u8 (b2z (negb (ctrue comm_mode)))] _ Hs) as (s1 & -> & H1); [lia|cbn [length]; lia|]. cbn [mbind outcome_bind].
  destruct (put_more _ (1 + k + n + t) _ [u8 baud] _ H1) as (s2 & -> & H2); [lia|cbn [length]; lia|]. cbn [mbind outcome_bind].
  destruct (put_more _ (k + n + t) _ [u8 0] _ H2) as (s3 & -> & H3); [lia|cbn [length]; lia|]. cbn [mbind outcome_bind app] in H3 |- *.
  rewrite (u8_small baud) in H3 by lia. replace (u8 (b2z (negb (ctrue comm_mode)))) with (b2z (comm_mode =? 0)) in H3
    by (unfold ctrue; rewrite negb_involutive; by destruct (comm_mode =? 0)).
  set (a := b2z (comm_mode =? 0)) in *.
  set (next := if passive then 1 else 0). set (mid := if passive then passive_data else []).
  assert (exists s4, (if passive then skb ← put_bytes s3 passive_data; set_next skb (fun b => b .| 1) else Ret s3) = Ret s4 /\
    ready dv (n + t) (a :: baud :: next :: mid) s4) as (s4 & -> & H4).
  { unfold next, mid, k in *. destruct passive; [|by exists s3].
    destruct (put_more _ (n + t) _ passive_data _ H3) as (s4 & -> & H4); [lia|cbn [length passive_data]; lia|]. cbn [mbind outcome_bind].
    by apply (set_next_ready _ _ _ _ _ _ (fun b => b .| 1)) in H4. }
  cbn [mbind outcome_bind].
  assert (g = None \/ g = Some [] \/ exists x l, g = Some (x :: l)) as [->|[->|(x & l & ->)]]
    by (destruct g as [[|x l]|]; [auto|right; right; eauto|auto]); cbn [default length Nat.eqb] in *.
  - apply (set_next_ready _ _ _ _ _ _ (fun _ => 0)) in H4 as (s5 & -> & H5). exists s5. split; [done|].
    eapply ready_is; [exact H5|done|]. unfold mid. destruct passive; done.
  - apply (set_next_ready _ _ _ _ _ _ (fun _ => 0)) in H4 as (s5 & -> & H5). exists s5. split; [done|].
    eapply ready_is; [exact H5|done|]. unfold mid. destruct passive; done.
  - cbv match beta. destruct (put_more _ t _ (x :: l) _ H4) as (s5 & -> & H5); [lia|done|]. cbn [mbind outcome_bind app] in H5 |- *.
    apply (set_next_ready _ _ _ _ _ _ (fun b => b .| 4)) in H5 as (s6 & -> & H6). exists s6. split; [done|].
    eapply ready_is; [exact H6|done|]. unfold next, mid. destruct passive; done.
Qed.
End requests.

(** ** Properties *)

Section properties.
Context {NF : nfc_h} {SK : skbuff} {SL : skbuff_laws} {NE : nfc_env} {NL : nfc_env_laws}.
Context (dv : pn533_type) {FF : frame_format (dev_ops dv)}.
Abbreviation ops := (dev_ops dv).

(** The start of polling on an idle driver, with general bytes of at most 200 bytes.
    The list made is the modulations that serve the requested protocols, the
    listening only when the core has general bytes; the driver is at the first and
    has made one request, that of this modulation, as its command frame; or the
    result is an error and no request was made, the list being made all the same. *)
Theorem polling_starts (im tm m : Z) (rest : list Z) (w : world) :
  tx_header_len ops + tx_tail_len ops < 2 ^ 16 -> (length (gb w) <= 200)%nat ->
  (forall n g, nfc_get_local_general_bytes n = Some g -> (length g <= 200)%nat) ->
  length (poll_mod_active (poll w)) = 6%nat -> tgt_active_prot (poll w) = 0 -> tgt_mode (poll w) = false ->
  let listens := match nfc_get_local_general_bytes (ticks w) with Some _ => tm | None => 0 end in
  requested im (if ctrue tm then listens else tm) = m :: rest ->
  exists rc w', pn533_start_poll dv im tm w = Ret (rc, w') /\
    take (Z.to_nat (poll_mod_count (poll w'))) (poll_mod_active (poll w')) = m :: rest /\
    poll_mod_curr (poll w') = 0 /\
    exists random, length random = 6%nat /\
      requested_once dv PollComplete (poll_request m random (gb w')) rc w w'.
Proof.
  intros Hb Hg Hlg Hl Ha Hm listens Hreq.
  enough (wp (pn533_start_poll dv im tm) (fun rc w' =>
    take (Z.to_nat (poll_mod_count (poll w'))) (poll_mod_active (poll w')) = m :: rest /\
    poll_mod_curr (poll w') = 0 /\
    exists random, length random = 6%nat /\ requested_once dv PollComplete (poll_request m random (gb w')) rc w w') w) as H.
  { unfold wp in H. destruct (pn533_start_poll dv im tm w) as [[rc w']| | |]; try done. by exists rc, w'. }
  unfold pn533_start_poll. apply nwp_bind, nwp_get. rewrite Ha, Hm. change (ctrue 0) with false. cbn match.
  set (tm' := if ctrue tm then listens else tm) in *. apply nwp_bind.
  enough (forall w1, poll w1 = poll w -> effects w1 = effects w -> (length (gb w1) <= 200)%nat ->
    wp (set_poll (set_curr 0);; on_poll (fun d => d ← pn533_poll_create_mod_list im tm' d; Ret (tt, d));;
        set_poll (set_protocols im tm');; pn533_send_poll_frame dv) (fun rc w' =>
    take (Z.to_nat (poll_mod_count (poll w'))) (poll_mod_active (poll w')) = m :: rest /\
    poll_mod_curr (poll w') = 0 /\
    exists random, length random = 6%nat /\ requested_once dv PollComplete (poll_request m random (gb w')) rc w w') w1) as Hk.
  { unfold tm', listens in *. destruct (ctrue tm); [|apply nwp_ret; by apply Hk].
    apply nwp_bind, nwp_ask, nwp_bind. unfold wp at 1, modify. apply nwp_ret.
    destruct (nfc_get_local_general_bytes (ticks w)) as [g|] eqn:Eg; apply Hk; try done; cbn; [by eapply Hlg|lia]. }
  intros w1 Hp1 He1 Hg1. apply nwp_bind. unfold wp at 1, set_poll, modify. cbn [poll with_poll]. rewrite Hp1.
  destruct (create_mod_list_ok im tm' (set_curr 0 (poll w)) Hl) as (a & Ec & Hla & Ht).
  apply nwp_bind. unfold wp at 1, on_poll. cbn [poll with_poll]. rewrite Ec. cbn [mbind outcome_bind].
  apply nwp_bind. unfold wp at 1, set_poll, modify. cbn [poll with_poll].
  destruct (requested_range im tm') as [Hr Hlr]. rewrite Hreq in *.
  set (d := set_protocols im tm' _). set (w2 := with_poll d _).
  assert (take (Z.to_nat (poll_mod_count d)) (poll_mod_active d) = m :: rest) as Htk by (cbn -[take]; by rewrite Nat2Z.id).
  eapply nwp_mono; [apply (nwp_send_poll_frame dv m w2); [done|done| |by apply Forall_cons in Hr as [? _]]|].
  { change (poll w2) with d. rewrite (current_mod_at d _ 0 Htk Hr eq_refl); [done|cbn; lia]. }
  intros rc w' ((Hpw & _ & Hgw) & random & Hrl & Hro). rewrite Hpw. change (poll w2) with d.
  split; [done|]. split; [done|]. exists random. split; [done|]. rewrite Hgw. unfold requested_once in *.
  change (effects w2) with (effects w1) in Hro. by rewrite He1 in Hro.
Qed.

(** The set up of a link on an idle driver whose last modulation has a baud rate, with
    at most 200 general bytes.  One request is made, with the payload of
    [link_payload], as its command frame; or the result is an error and no request was
    made.  Nothing else of the driver changes. *)
Theorem link_requested (comm_mode : Z) (g : option bytes) (w : world) :
  tx_header_len ops + tx_tail_len ops < 2 ^ 16 -> (length (default [] g) <= 200)%nat ->
  poll_mod_count (poll w) = 0 -> tgt_active_prot (poll w) = 0 -> 0 <= poll_mod_curr (poll w) <= 2 ->
  exists rc w', pn533_dep_link_up dv comm_mode g w = Ret (rc, w') /\
    poll w' = poll w /\
    requested_once dv (InDepLinkUpComplete (b2z (comm_mode =? 0)))
      (PN533_CMD_IN_JUMP_FOR_DEP, link_payload comm_mode (poll_mod_curr (poll w)) (default [] g)) rc w w'.
Proof.
  intros Hb Hg Hc Ha Hm. destruct (tx_lens (ops := ops)) as [Hh Ht].
  enough (wp (pn533_dep_link_up dv comm_mode g) (fun rc w' => poll w' = poll w /\
    requested_once dv (InDepLinkUpComplete (b2z (comm_mode =? 0)))
      (PN533_CMD_IN_JUMP_FOR_DEP, link_payload comm_mode (poll_mod_curr (poll w)) (default [] g)) rc w w') w) as H.
  { unfold wp in H. destruct (pn533_dep_link_up dv comm_mode g w) as [[rc w']| | |]; try done. by exists rc, w'. }
  unfold pn533_dep_link_up. apply nwp_bind, nwp_get. rewrite Hc, Ha. change (ctrue 0) with false. cbn [Z.eqb negb].
  assert (pn533_mod_to_baud (poll w) = poll_mod_curr (poll w)) as ->.
  { unfold pn533_mod_to_baud. assert (poll_mod_curr (poll w) = 0 \/ poll_mod_curr (poll w) = 1 \/ poll_mod_curr (poll w) = 2)
      as [->|[->| ->]] by lia; done. }
  set (baud := poll_mod_curr (poll w)) in *. rewrite (proj2 (Z.ltb_ge baud 0)) by lia.
  set (len := 3 + _ + _). apply nwp_bind, (nwp_alloc dv); [unfold len; case_match; unfold PASSIVE_DATA_LEN; lia|done| |].
  { intros w1 ((Hp1 & _) & He1 & _). apply nwp_ret. split; [done|]. by right. }
  intros s w1 ((Hp1 & _) & He1 & _) Hs.
  destruct (link_request_ready dv (len + tx_tail_len ops - 3 - Z.of_nat (length (default [] g)) -
      (if (comm_mode =? NFC_COMM_PASSIVE) && (0 <? baud) then 5 else 0)) comm_mode baud g s) as (s' & Es & Hs').
  { done. }
  { unfold len, PASSIVE_DATA_LEN. destruct (comm_mode =? NFC_COMM_PASSIVE), (0 <? baud); cbn [andb]; lia. }
  { eapply ready_is; [exact Hs|lia|done]. }
  apply nwp_bind. eapply nwp_lift; [exact Es|]. apply nwp_bind, nwp_ask. destruct (kmalloc _); cbn [negb].
  2: { apply nwp_ret. split; [done|]. by right. }
  assert (ready dv (tx_tail_len ops) (link_payload comm_mode baud (default [] g)) s') as Hs2.
  { destruct Hs' as (H1 & H2 & H3). split; [done|]. split; [done|]. split; [done|].
    etrans; [|exact (proj2 H3)]. unfold len, PASSIVE_DATA_LEN.
    destruct (comm_mode =? NFC_COMM_PASSIVE), (0 <? baud); cbn [andb]; lia. }
  eapply nwp_mono; [apply (nwp_send_cmd_async dv _ _ (link_payload comm_mode baud (default [] g))); [|exact Hs2]|].
  { unfold link_payload, PAYLOAD_MAX. rewrite !length_app. cbn [length]. destruct (_ && _); cbn [length]; lia. }
  intros rc w2 [(Hp2 & _) Hro]. split; [by rewrite Hp2|]. unfold ctrue in Hro. rewrite negb_involutive in Hro.
  unfold requested_once in *. by rewrite <- He1.
Qed.
End properties.
