(* ===== verification/PnProbe.v ===== *)
(** * Starting and ending the PN533 driver: [pn533.c]

    The table of devices, the probe, which takes the driver's resources, asks the chip
    for its firmware and sets it up, and the end. *)

From S2P Require Import Prelude PnFrame PnQueue PnData PnPoll PnCommand PnDriver.

Definition ENODEV : Z := 19.

(** ** Devices *)

Record usb_device_id := mk_id { idVendor : Z; idProduct : Z; driver_info : Z }.

Definition PN533_VENDOR_ID : Z := 0x4CC.
Definition PN533_PRODUCT_ID : Z := 0x2533.
Definition SCM_VENDOR_ID : Z := 0x4E6.
Definition SCL3711_PRODUCT_ID : Z := 0x5591.
Definition SONY_VENDOR_ID : Z := 0x054c.
Definition PASORI_PRODUCT_ID : Z := 0x02e1.
Definition ACS_VENDOR_ID : Z := 0x072f.
Definition ACR122U_PRODUCT_ID : Z := 0x2200.

Definition pn533_table : list usb_device_id :=
  [mk_id PN533_VENDOR_ID PN533_PRODUCT_ID PN533_DEVICE_STD;
   mk_id SCM_VENDOR_ID SCL3711_PRODUCT_ID PN533_DEVICE_STD;
   mk_id SONY_VENDOR_ID PASORI_PRODUCT_ID PN533_DEVICE_PASORI;
   mk_id ACS_VENDOR_ID ACR122U_PRODUCT_ID PN533_DEVICE_ACR122U].

Section probe.
Context `{NF : nfc_h} `{SK : skbuff} `{NE : !nfc_env}.

Definition PN533_NO_TYPE_B_PROTOCOLS : Z :=
  NFC_PROTO_JEWEL_MASK .| NFC_PROTO_MIFARE_MASK .| NFC_PROTO_FELICA_MASK .| NFC_PROTO_ISO14443_MASK .|
  NFC_PROTO_NFC_DEP_MASK.
Definition PN533_ALL_PROTOCOLS : Z := PN533_NO_TYPE_B_PROTOCOLS .| NFC_PROTO_ISO14443_B_MASK.

(** [switch (dev->device_type)] of the probe: what the device is, and the protocols it is
    registered with. *)
Definition probe_type (info : Z) : option (pn533_type * Z) :=
  if info =? PN533_DEVICE_STD
  then Some (mk_type info pn533_std_frame_ops PN533_PROTO_REQ_ACK_RESP, PN533_ALL_PROTOCOLS)
  else if info =? PN533_DEVICE_PASORI
  then Some (mk_type info pn533_std_frame_ops PN533_PROTO_REQ_ACK_RESP, PN533_NO_TYPE_B_PROTOCOLS)
  else if info =? PN533_DEVICE_ACR122U
  then Some (mk_type info pn533_acr122_frame_ops PN533_PROTO_REQ_RESP, PN533_NO_TYPE_B_PROTOCOLS)
  else None.

(** An endpoint of the interface. *)
Record endpoint := mk_endpoint { is_bulk_in : bool; is_bulk_out : bool; bEndpointAddress : Z }.

(** The loop over the endpoints. *)
Fixpoint find_endpoints (l : list endpoint) (in_endpoint out_endpoint : Z) : Z * Z :=
  match l with
  | [] => (in_endpoint, out_endpoint)
  | e :: l =>
    let in_endpoint := if (in_endpoint =? 0) && is_bulk_in e then bEndpointAddress e else in_endpoint in
    let out_endpoint := if (out_endpoint =? 0) && is_bulk_out e then bEndpointAddress e else out_endpoint in
    find_endpoints l in_endpoint out_endpoint
  end.

(** What the kernel gives. *)
Record probe_env := mk_probe {
  kzalloc_dev : bool;
  endpoints : list endpoint;
  alloc_in_urb : bool;
  alloc_out_urb : bool;
  alloc_wq : bool;
  id_info : Z;
  nfc_allocate_device : Z -> bool;     (** with these protocols *)
  nfc_register_device : Z }.

(** The labels of the probe, from the last one up; a transfer that was not allocated is
    NULL, and nothing is freed for it. *)
Definition error (has_in_urb has_out_urb : bool) (rc : Z) : nfc Z :=
  (if has_in_urb then emit (Give RInUrb) else mret tt);;
  (if has_out_urb then emit (Give ROutUrb) else mret tt);;
  emit (Give RUsbDev);; emit (Give RDevice);; mret rc.
Definition destroy_wq (rc : Z) : nfc Z := emit (Give RWorkqueue);; error true true rc.
Definition free_nfc_dev (rc : Z) : nfc Z := emit (Give RNfcDev);; destroy_wq rc.
Definition unregister_nfc_dev (rc : Z) : nfc Z := emit (Give RRegistered);; free_nfc_dev rc.

(** From the firmware on; a device that the core cannot allocate leaves the result as the
    firmware's, which is not an error. *)
Definition probe_chip (e : probe_env) (dv : pn533_type) (protocols : Z) : nfc Z :=
  '(rc, _) ← pn533_get_firmware_version dv (mk_fw 0 0 0 0);
  if rc <? 0 then destroy_wq rc
  else if negb (nfc_allocate_device e protocols) then destroy_wq rc
  else
    emit (Take RNfcDev);;
    let rc := nfc_register_device e in
    if negb (rc =? 0) then free_nfc_dev rc
    else
      emit (Take RRegistered);;
      rc ← pn533_setup dv;
      if negb (rc =? 0) then unregister_nfc_dev rc else mret 0.

(** With the transfers and the workqueue; the queue and the polling are fresh. *)
Definition probe_device (e : probe_env) : nfc Z :=
  modify (fun w => mk_world (ticks w) pn533_init poll_init (mk_exchange [] false []) [] (effects w));;
  match probe_type (id_info e) with
  | None => destroy_wq (- EINVAL)
  | Some (dv, protocols) =>
    rc ← (if device_type dv =? PN533_DEVICE_ACR122U then pn533_acr122_poweron_rdr else mret 0);
    if rc <? 0 then destroy_wq rc else probe_chip e dv protocols
  end.

Definition pn533_probe (e : probe_env) : nfc Z :=
  if negb (kzalloc_dev e) then mret (- ENOMEM)
  else
    emit (Take RDevice);;
    emit (Take RUsbDev);;
    let '(in_endpoint, out_endpoint) := find_endpoints (endpoints e) 0 0 in
    if (in_endpoint =? 0) || (out_endpoint =? 0) then error false false (- ENODEV)
    else
      (if alloc_in_urb e then emit (Take RInUrb) else mret tt);;
      (if alloc_out_urb e then emit (Take ROutUrb) else mret tt);;
      if negb (alloc_in_urb e) || negb (alloc_out_urb e) then error (alloc_in_urb e) (alloc_out_urb e) (- ENOMEM)
      else if negb (alloc_wq e) then error true true (- ENOMEM)
      else emit (Take RWorkqueue);; probe_device e.

(** The works that the end of the workqueue runs are not followed; the reference to the
    USB device is kept. *)
Definition pn533_disconnect (dv : pn533_type) : nfc unit :=
  emit (Give RRegistered);;
  emit (Give RNfcDev);;
  kill_in_urb dv;;
  emit (Give RWorkqueue);;
  purge_resp_q;;
  set_poll (fun d => set_timer false (cancel_listen d) d);;
  on_queue (fun q => Ret (tt, set_queue [] q));;
  emit (Give RInUrb);;
  emit (Give ROutUrb);;
  emit (Give RDevice).
End probe.

(** ** Specification *)

(** How often a resource was taken, less how often it was given back. *)
Definition held (r : nfc_resource) (l : list nfc_effect) : Z :=
  foldr (fun e n => n + match e with
    | Take r' => if decide (r' = r) then 1 else 0
    | Give r' => if decide (r' = r) then -1 else 0
    | _ => 0 end) 0 l.

Definition all_held (l : list nfc_effect) : list Z :=
  map (fun r => held r l) [RDevice; RUsbDev; RInUrb; ROutUrb; RWorkqueue; RNfcDev; RRegistered].

(** The memory of an answer is that of a response. *)
Definition long_answers `{NE : nfc_env} : Prop :=
  forall n id w s w', wait_for_completion n id w = Some (inr s, w') -> (4 <= length (skb_mem s))%nat.

(** ** Lemmas: resources *)

Section resources.
Context {NF : nfc_h} {SK : skbuff} {SL : skbuff_laws} {NE : nfc_env} {NL : nfc_env_laws}.

Lemma held_app r l1 l2 : held r (l1 ++ l2) = held r l1 + held r l2.
Proof. unfold held. induction l1 as [|e l1 IH]; [done|]. cbn [app foldr]. rewrite IH. lia. Qed.

(** Since [w0] as much was taken and given back as [k] says. *)
Definition has (w0 : world) (k : list nfc_effect) (w : world) : Prop :=
  exists l, effects w = effects w0 ++ l /\ forall r, held r l = held r k.

Lemma has_refl w : has w [] w.
Proof. exists []. by rewrite app_nil_r. Qed.

Lemma has_emit w0 k w e : has w0 k w -> has w0 (k ++ [e]) (with_effect e w).
Proof.
  intros (l & E & H). exists (l ++ [e]). cbn. rewrite E, app_assoc. split; [done|]. intros r. by rewrite !held_app, H.
Qed.

(** [m] takes nothing and gives nothing back. *)
Definition calm {A} (m : nfc A) : Prop :=
  forall w a w', m w = Ret (a, w') -> exists l, effects w' = effects w ++ l /\ forall r, held r l = 0.

Lemma calm_keeps {A} (m : nfc A) : calm m -> forall w a w', m w = Ret (a, w') -> forall w0 k, has w0 k w -> has w0 k w'.
Proof.
  intros Hm w a w' E w0 k (l & El & H). apply Hm in E as (l' & E & H'). exists (l ++ l').
  rewrite E, El, app_assoc. split; [done|]. intros r. rewrite held_app, H', H. lia.
Qed.

Lemma calm_bind {A B} (m : nfc A) (k : A -> nfc B) : calm m -> (forall a, calm (k a)) -> calm (m ≫= k).
Proof.
  intros Hm Hk w b w' E. apply nfc_bind_inv in E as (a & w1 & E1 & E2). apply Hm in E1 as (l1 & E1 & H1).
  apply Hk in E2 as (l2 & E2 & H2). exists (l1 ++ l2). rewrite E2, E1, app_assoc. split; [done|].
  intros r. by rewrite held_app, H1, H2.
Qed.

Lemma calm_same {A} (m : nfc A) : (forall w a w', m w = Ret (a, w') -> effects w' = effects w) -> calm m.
Proof. intros Hm w a w' E. apply Hm in E. exists []. by rewrite app_nil_r. Qed.

Lemma calm_ret {A} (a : A) : calm (mret a).
Proof. apply calm_same. by intros w b w' [= _ <-]. Qed.
Lemma calm_ask {A} (f : nat -> A) : calm (ask f).
Proof. apply calm_same. by intros w b w' [= _ <-]. Qed.
Lemma calm_get {A} (f : world -> A) : calm (get f).
Proof. apply calm_same. by intros w b w' [= _ <-]. Qed.
Lemma calm_lift {A} (o : outcome A) : calm (nfc_lift o).
Proof. apply calm_same. intros w b w' E. unfold nfc_lift in E. destruct o; [|done..]. by injection E as _ <-. Qed.
Lemma calm_on_queue {A} (f : pn533 -> outcome (A * pn533)) : calm (on_queue f).
Proof. apply calm_same. intros w b w' E. unfold on_queue in E. destruct (f _) as [[]| | |]; [|done..]. by injection E as _ <-. Qed.
Lemma calm_emit e : (forall r, held r [e] = 0) -> calm (emit e).
Proof. intros He w a w' [= _ <-]. by exists [e]. Qed.
End resources.

Ltac calm_step :=
  match goal with
  | |- calm (_ ≫= _) => apply calm_bind; [|intros ?]
  | |- calm (mret _) => apply calm_ret
  | |- calm (ask _) => apply calm_ask
  | |- calm (get _) => apply calm_get
  | |- calm (nfc_lift _) => apply calm_lift
  | |- calm (on_queue _) => apply calm_on_queue
  | |- calm (emit _) => apply calm_emit; intros ?; reflexivity
  | |- calm (if ?b then _ else _) => destruct b
  | |- calm (match ?x with _ => _ end) => destruct x
  end.
Ltac calm := repeat (cbv beta zeta; calm_step).

Section probing.
Context {NF : nfc_h} {SK : skbuff} {SL : skbuff_laws} {NE : nfc_env} {NL : nfc_env_laws}.
Context (overlap : bool) (dv : pn533_type) {FF : frame_format (dev_ops dv)} {WL : nfc_wait_laws overlap dv}.
Abbreviation ops := (dev_ops dv).

Lemma calm_await id : calm (await id).
Proof.
  intros w r w' E. unfold await in E. destruct (wait_for_completion _ _ _) as [[r1 w1]|] eqn:Ew; [|done].
  injection E as <- <-. destruct (wait_law (nfc_wait_laws := WL) _ _ _ _ _ Ew) as (_ & _ & l & E & Hl).
  exists l. split; [done|]. clear E Ew. intros r. induction Hl as [|e l He _ IH]; [done|].
  unfold held in *. cbn [foldr]. rewrite IH. by destruct e.
Qed.

Lemma calm_send_cmd_sync cmd_code s : calm (pn533_send_cmd_sync dv cmd_code s).
Proof. unfold pn533_send_cmd_sync, send_async. calm. apply calm_await. Qed.

Lemma calm_firmware fv : calm (pn533_get_firmware_version dv fv).
Proof. unfold pn533_get_firmware_version, pn533_alloc_skb. calm. apply calm_send_cmd_sync. Qed.

Lemma calm_setup : calm (pn533_setup dv).
Proof.
  unfold pn533_setup, pn533_set_configuration, pn533_pasori_fw_reset, pn533_alloc_skb. calm; apply calm_send_cmd_sync.
Qed.

Lemma calm_poweron : calm pn533_acr122_poweron_rdr.
Proof. unfold pn533_acr122_poweron_rdr. calm. Qed.

(** ** Lemmas: the functions of the probe return *)

Lemma nwp_firmware fv w :
  answered -> long_answers -> tx_header_len ops + tx_tail_len ops < 2 ^ 16 ->
  wp (pn533_get_firmware_version dv fv) (fun _ _ => True) w.
Proof.
  intros Hans Hlong Hb. destruct (tx_lens (ops := ops)). unfold pn533_get_firmware_version. apply nwp_bind.
  apply (nwp_alloc_skb dv); [lia|lia|]. intros w1 _ _ _ _. split; [by apply nwp_ret|]. intros s Hs. apply nwp_bind.
  unfold pn533_send_cmd_sync. apply nwp_bind. eapply nwp_mono; [apply (nwp_send_async dv _ _ _ []); [cbn; unfold PAYLOAD_MAX; lia|]|].
  { rewrite Z.add_0_l in Hs. exact Hs. }
  intros [rc id] w2 _. destruct (negb (rc =? 0)); [by apply nwp_ret, nwp_ret|].
  unfold wp at 1, await. destruct (wait_for_completion (ticks w2) id w2) as [[[e|s'] w3]|] eqn:Ew;
    [by apply nwp_ret| |by apply Hans in Ew]. apply Hlong in Ew.
  destruct (skb_mem s') as [|a [|b [|c [|d l]]]] eqn:Em; try (cbn in Ew; lia).
  do 4 (apply nwp_bind; eapply nwp_lift; [reflexivity|]). by apply nwp_ret.
Qed.

Lemma nwp_setup w items :
  answered -> setup_items (device_type dv) = Some items -> tx_header_len ops + tx_tail_len ops < 2 ^ 16 ->
  wp (pn533_setup dv) (fun _ _ => True) w.
Proof.
  intros Hans Hi Hb. eapply nwp_mono; [by apply (nwp_pn533_setup overlap dv)|done].
Qed.

Lemma nwp_calm {A} (m : nfc A) w0 k w (Q : A -> world -> Prop) :
  calm m -> wp m (fun _ _ => True) w -> has w0 k w -> (forall a w', has w0 k w' -> Q a w') -> wp m Q w.
Proof.
  unfold wp. intros Hc Hw Hk HQ. destruct (m w) as [[a w']| | |] eqn:E; try done.
  apply HQ. by eapply calm_keeps.
Qed.
End probing.

(** ** Lemmas: the probe *)

Definition taken_all : list Z := [1; 1; 1; 1; 1; 1; 1].
Definition taken_none : list Z := [0; 0; 0; 0; 0; 0; 0].

(** Since [w0], this is held. *)
Definition holds `{SK : skbuff} (w0 : world) (h : list Z) (w : world) : Prop :=
  exists l, effects w = effects w0 ++ l /\ all_held l = h.

Lemma has_holds `{SK : skbuff} w0 k w h : has w0 k w -> all_held k = h -> holds w0 h w.
Proof. intros (l & E & H) <-. exists l. split; [done|]. unfold all_held. cbn [map]. by rewrite !H. Qed.

(** The end of a label: what was taken and given back, in order. *)
Ltac label_step :=
  match goal with
  | |- wp (_ ≫= _) _ _ => apply nwp_bind
  | |- wp (emit _) _ _ => apply nwp_emit
  | |- wp (mret _) _ _ => apply nwp_ret
  end.
Ltac labels :=
  unfold unregister_nfc_dev, free_nfc_dev, destroy_wq, error; cbv match beta; repeat label_step.
Ltac has_all := repeat first [eassumption | apply has_emit].

Section probed.
Context {NF : nfc_h} {SK : skbuff} {SL : skbuff_laws} {NE : nfc_env} {NL : nfc_env_laws}.
Context (overlap : bool).

Definition before_chip : list nfc_effect := [Take RDevice; Take RUsbDev; Take RInUrb; Take ROutUrb; Take RWorkqueue].

Definition chip_result (e : probe_env) (protocols rc : Z) : list Z :=
  if (rc =? 0) && nfc_allocate_device e protocols then taken_all else taken_none.

Lemma nwp_probe_chip e dv protocols items w0 w `{FF : !frame_format (dev_ops dv)} `{WL : !nfc_wait_laws overlap dv} :
  answered -> long_answers -> setup_items (device_type dv) = Some items ->
  tx_header_len (dev_ops dv) + tx_tail_len (dev_ops dv) < 2 ^ 16 -> has w0 before_chip w ->
  wp (probe_chip e dv protocols) (fun rc w' => holds w0 (chip_result e protocols rc) w') w.
Proof.
  intros Hans Hlong Hi Hb Hw. unfold probe_chip, chip_result. apply nwp_bind.
  eapply nwp_calm; [by apply (calm_firmware overlap dv)|by apply (nwp_firmware dv)|exact Hw|].
  clear Hw w. intros [rc fv] w Hw. destruct (Z.ltb_spec rc 0).
  { labels. eapply has_holds; [has_all|]. by rewrite (proj2 (Z.eqb_neq rc 0)) by lia. }
  destruct (nfc_allocate_device e protocols) eqn:Ea; cbn [negb].
  2: { labels. rewrite andb_false_r. eapply has_holds; [has_all|done]. }
  clear rc H. apply nwp_bind, nwp_emit. destruct (Z.eqb_spec (nfc_register_device e) 0) as [|Hne]; cbn [negb].
  2: { labels. eapply has_holds; [has_all|]. by rewrite (proj2 (Z.eqb_neq _ 0)). }
  apply nwp_bind, nwp_emit, nwp_bind.
  eapply nwp_calm; [by apply (calm_setup overlap dv)|by eapply (nwp_setup overlap dv)|has_all|].
  intros rc w' Hw'. destruct (Z.eqb_spec rc 0) as [->|Hne]; cbn [negb].
  - apply nwp_ret. eapply has_holds; [exact Hw'|done].
  - labels. eapply has_holds; [has_all|]. by rewrite (proj2 (Z.eqb_neq _ 0)).
Qed.

(** Every power-on of an ACR122 ends. *)
Definition powered_on : Prop := forall n, poweron_status n <> None.

Lemma nwp_poweron w : powered_on -> wp pn533_acr122_poweron_rdr (fun _ _ => True) w.
Proof.
  intros Hp. unfold pn533_acr122_poweron_rdr. apply nwp_bind, nwp_emit, nwp_bind, nwp_ask.
  destruct (negb _); [by apply nwp_ret|]. apply nwp_bind, nwp_emit, nwp_bind, nwp_ask.
  destruct (negb _); [by apply nwp_ret|]. apply nwp_bind, nwp_ask.
  destruct (poweron_status _) eqn:E; [by apply nwp_bind, nwp_emit, nwp_ret|by apply Hp in E].
Qed.

(** What holds of every kind of device. *)
Lemma probe_type_ok info dv protocols :
  probe_type info = Some (dv, protocols) ->
  (exists items, setup_items (device_type dv) = Some items) /\
  tx_header_len (dev_ops dv) + tx_tail_len (dev_ops dv) < 2 ^ 16.
Proof.
  unfold probe_type, setup_items. intros E.
  destruct (Z.eqb_spec info PN533_DEVICE_STD) as [->|]; [injection E as <- _; split; [by eexists|done]|].
  destruct (Z.eqb_spec info PN533_DEVICE_PASORI) as [->|]; [injection E as <- _; split; [by eexists|done]|].
  destruct (Z.eqb_spec info PN533_DEVICE_ACR122U) as [->|]; [injection E as <- _; split; [by eexists|done]|done].
Qed.

Lemma probe_type_format info dv protocols : probe_type info = Some (dv, protocols) -> frame_format (dev_ops dv).
Proof.
  unfold probe_type. intros E. destruct (info =? _); [injection E as <- _; apply std_format|].
  destruct (info =? _); [injection E as <- _; apply std_format|].
  destruct (info =? _); [injection E as <- _; apply acr122_format|done].
Qed.

(** What the probe leaves. *)
Definition probe_result (e : probe_env) (rc : Z) : list Z :=
  match probe_type (id_info e) with
  | None => taken_none
  | Some (_, protocols) => chip_result e protocols rc
  end.

Lemma probe_failed e rc : rc <> 0 -> probe_result e rc = taken_none.
Proof.
  intros Hrc. unfold probe_result, chip_result. destruct (probe_type _) as [[dv p]|]; [|done].
  by rewrite (proj2 (Z.eqb_neq rc 0)).
Qed.

Lemma nwp_probe_device e w0 w :
  answered -> long_answers -> powered_on ->
  (forall dv protocols, probe_type (id_info e) = Some (dv, protocols) -> nfc_wait_laws overlap dv) ->
  has w0 before_chip w ->
  wp (probe_device e) (fun rc w' => holds w0 (probe_result e rc) w') w.
Proof.
  intros Hans Hlong Hpow Hwait Hw. unfold probe_device. apply nwp_bind. unfold wp at 1, modify.
  set (w1 := mk_world _ _ _ _ _ _). assert (has w0 before_chip w1) as Hw1 by exact Hw.
  destruct (probe_type (id_info e)) as [[dv protocols]|] eqn:Et.
  2: { labels. eapply has_holds; [has_all|]. by rewrite probe_failed. }
  pose proof (Hwait dv protocols eq_refl) as WL. apply nwp_bind.
  destruct (probe_type_ok _ _ _ Et) as [(items & Hi) Hb].
  pose proof (probe_type_format _ _ _ Et) as FF.
  assert (wp (if device_type dv =? PN533_DEVICE_ACR122U then pn533_acr122_poweron_rdr else mret 0) (fun _ _ => True) w1)
    as Hwp by (destruct (_ =? _); [by apply nwp_poweron|by apply nwp_ret]).
  eapply nwp_calm; [|exact Hwp|exact Hw1|].
  { destruct (_ =? _); [apply calm_poweron|apply calm_ret]. }
  intros rc w2 Hw2. destruct (Z.ltb_spec rc 0).
  { labels. eapply has_holds; [has_all|]. rewrite probe_failed by lia. done. }
  unfold probe_result. rewrite Et. by eapply nwp_probe_chip.
Qed.
End probed.

(** ** Properties *)

Section properties.
Context {NF : nfc_h} {SK : skbuff} {SL : skbuff_laws} {NE : nfc_env} {NL : nfc_env_laws}.
Context (overlap : bool).

(** The probe, when every wait ends.  It returns, whatever fails.  A result other than 0
    leaves nothing taken; with the result 0 the driver holds its memory, the reference
    to the USB device, both transfers, the workqueue and the registered NFC device, once
    each; except that when the NFC core cannot allocate its device everything has been
    given back, although the result may be 0. *)
Theorem probe_gives_back (e : probe_env) (w : world) :
  answered -> long_answers -> powered_on ->
  (forall dv protocols, probe_type (id_info e) = Some (dv, protocols) -> nfc_wait_laws overlap dv) ->
  exists rc w' l, pn533_probe e w = Ret (rc, w') /\ effects w' = effects w ++ l /\
    all_held l =
      match probe_type (id_info e) with
      | Some (_, protocols) => if (rc =? 0) && nfc_allocate_device e protocols then [1; 1; 1; 1; 1; 1; 1] else [0; 0; 0; 0; 0; 0; 0]
      | None => [0; 0; 0; 0; 0; 0; 0]
      end.
Proof.
  intros Hans Hlong Hpow Hwait.
  enough (wp (pn533_probe e) (fun rc w' => holds w (probe_result e rc) w') w) as H.
  { unfold wp in H. destruct (pn533_probe e w) as [[rc w']| | |]; try done. destruct H as (l & El & Hl).
    exists rc, w', l. split; [done|]. split; [done|]. rewrite Hl. unfold probe_result. by destruct (probe_type _) as [[]|]. }
  pose proof (has_refl w) as H0. unfold pn533_probe. destruct (kzalloc_dev e); cbn [negb].
  2: { apply nwp_ret. eapply has_holds; [exact H0|]. by rewrite probe_failed. }
  do 2 apply nwp_bind, nwp_emit. destruct (find_endpoints _ _ _) as [i o].
  destruct (_ || _). { labels. eapply has_holds; [has_all|]. by rewrite probe_failed. }
  destruct (alloc_in_urb e), (alloc_out_urb e); cbn [negb orb]; do 2 (apply nwp_bind; label_step);
    try (labels; eapply has_holds; [has_all|]; by rewrite probe_failed).
  destruct (alloc_wq e); cbn [negb].
  - apply nwp_bind, nwp_emit. eapply nwp_probe_device; try done. unfold before_chip.
    change [Take RDevice; Take RUsbDev; Take RInUrb; Take ROutUrb; Take RWorkqueue]
      with ((((([] ++ [Take RDevice]) ++ [Take RUsbDev]) ++ [Take RInUrb]) ++ [Take ROutUrb]) ++ [Take RWorkqueue]). has_all.
  - labels. eapply has_holds; [has_all|]. by rewrite probe_failed.
Qed.

(** The end of a driver whose queue is in order: nothing is queued, the timer is off, and
    what the probe took is given back, but the reference to the USB device. *)
Theorem disconnect_keeps_usb_device (dv : pn533_type) (w : world) :
  inv (queue w) ->
  exists w' l, pn533_disconnect dv w = Ret (tt, w') /\ effects w' = effects w ++ l /\
    all_held l = [-1; 0; -1; -1; -1; -1; -1] /\ cmd_queue (queue w') = [] /\ listen_timer (poll w') = false /\
    resp_q (data w') = [].
Proof.
  intros ((_ & Hph) & _). unfold pn533_disconnect.
  set (w1 := with_effect (Give RNfcDev) (with_effect (Give RRegistered) w)).
  assert (exists w2, kill_in_urb dv w1 = Ret (tt, w2) /\ effects w2 = effects w1) as (w2 & Ek & He).
  { unfold kill_in_urb, mbind, nfc_bind, ask, on_queue. cbn [mbind outcome_bind queue tick w1 with_effect].
    destruct (in_urb (queue w)) as [h|] eqn:Eu; [|by eexists].
    destruct (cmd_pending (queue w)), (cmd (queue w)) as [c|] eqn:Ec; try done.
    destruct h; unfold pn533_recv_ack, recv_response, pn533_recv_ack_status, pn533_recv_response;
      rewrite Ec; cbn [checked mbind outcome_bind]; by eexists. }
  unfold mbind at 1, nfc_bind at 1. cbn [emit modify mbind outcome_bind]. 
  enough (exists w' l, (kill_in_urb dv;; emit (Give RWorkqueue);; purge_resp_q;;
    set_poll (fun d => set_timer false (cancel_listen d) d);; on_queue (fun q => Ret (tt, set_queue [] q));;
    emit (Give RInUrb);; emit (Give ROutUrb);; emit (Give RDevice)) w1 = Ret (tt, w') /\ effects w' = effects w1 ++ l /\
    l = [Give RWorkqueue; Give RInUrb; Give ROutUrb; Give RDevice] /\ cmd_queue (queue w') = [] /\
    listen_timer (poll w') = false /\ resp_q (data w') = []) as (w' & l & E & El & -> & H).
  { exists w', ([Give RRegistered; Give RNfcDev] ++ [Give RWorkqueue; Give RInUrb; Give ROutUrb; Give RDevice]).
    split; [exact E|]. split; [rewrite El; cbn [effects with_effect w1]; by rewrite <- !app_assoc|]. by split. }
  unfold mbind at 1, nfc_bind at 1. rewrite Ek. cbn.
  eexists _, [Give RWorkqueue; Give RInUrb; Give ROutUrb; Give RDevice]. split; [reflexivity|]. split; [|by split].
  cbn [effects with_effect with_queue with_poll with_data]. rewrite He. unfold w1.
  cbn [effects with_effect]. by rewrite <- !app_assoc.
Qed.
End properties.
