(* ===== verification/PnExamples.v ===== *)
(** * The PN533 driver on an example

    A kernel that gives what is asked for and a chip that answers every command with
    success; the properties of the driver at concrete states of theirs. *)

From S2P Require Import Prelude PnFrame PnQueue PnData PnPoll PnCommand PnDriver PnRequests PnProbe.

#[local] Existing Instance plain_skbuff.
#[local] Existing Instance plain_skbuff_laws.
#[local] Existing Instance nfc_h_example.

(** ** The chip *)

(** The response to a command: status 0 and three more bytes. *)
Definition example_answer (cmd_code : Z) : bytes := std_frame 0 0 [0xD5; cmd_code + 1; 0; 1; 2; 3] ++ replicate 259 0.

(** A command goes through: acknowledge, response, callback, next command. *)
Definition chip_run (q : pn533) : option pn533 :=
  match in_urb q, pn533_recv_ack 0 (ack_frame ++ replicate 266 0) 0 q with
  | Some RecvAck, Ret q =>
    match in_urb q, cmd q with
    | Some RecvResponse, Some c =>
      match recv_response pn533_std_frame_ops 0 (example_answer (code c)) q with
      | Ret q =>
        if cmd_complete_work q then
          match pn533_wq_cmd_complete pn533_std_frame_ops (set_complete_work false q) with
          | Ret q => if cmd_work q then Some (pn533_wq_cmd PN533_PROTO_REQ_ACK_RESP 0 0 (set_cmd_work false q)) else None
          | _ => None
          end
        else None
      | _ => None
      end
    | _, _ => None
    end
  | _, _ => None
  end.

Lemma chip_run_steps q q' :
  chip_run q = Some q' -> steps pn533_std_frame_ops PN533_PROTO_REQ_ACK_RESP q q'.
Proof.
  unfold chip_run. destruct (in_urb q) as [[]|] eqn:E1; try done.
  destruct (pn533_recv_ack _ _ _ _) as [q1| | |] eqn:E2; try done.
  destruct (in_urb q1) as [[]|] eqn:E3; try done. destruct (cmd q1) as [c|]; try done.
  destruct (recv_response _ _ _ _) as [q2| | |] eqn:E4; try done. destruct (cmd_complete_work q2) eqn:E5; try done.
  destruct (pn533_wq_cmd_complete _ _) as [q3| | |] eqn:E6; try done. destruct (cmd_work q3) eqn:E7; try done.
  intros [= <-]. eapply steps_next; [eapply steps_next; [eapply steps_next; [eapply steps_next; [apply steps_refl|]|]|]|].
  - rewrite <- E2. by apply step_ack.
  - rewrite <- E4. by apply step_response.
  - rewrite <- E6. by apply step_complete.
  - by apply step_cmd.
Qed.

(** The last answer delivered. *)
Definition delivered (q : pn533) : Z + sk_buff :=
  match last (omap (fun e => match e with Delivered _ r => Some r | _ => None end) (log q)) with
  | Some r => r
  | None => inr (mk_skb [] [] (replicate 4 0))
  end.

(** ** The outside *)

#[local] Instance example_env : nfc_env := {|
  alloc_skb n size := Some (mk_skb [] [] (replicate (Z.to_nat size) 0));
  nfc_alloc_recv_skb n size := Some (mk_skb [] [] (replicate (Z.to_nat size) 0));
  skb_reserve s n := Ret (mk_skb (before s ++ take (Z.to_nat n) (after s)) (inside s) (drop (Z.to_nat n) (after s)));
  kmalloc n := true;
  usb_submit_urb n := 0;
  in_urb_memory n := replicate 272 0;
  answer n r := (0, false);
  wait_for_completion n id w :=
    match chip_run (queue w) with
    | Some q => Some (inr (mk_skb [] [0; 1; 2; 3] []), with_queue q w)
    | None => Some (inr (mk_skb [] [0; 1; 2; 3] []), w)
    end;
  poweron_status n := Some 0;
  get_random_bytes n := [1; 2; 3; 4; 5; 6];
  nfc_get_local_general_bytes n := Some [0x46; 0x66; 0x6D];
  nfc_set_remote_general_bytes n := 0;
  nfc_targets_found n := 0;
  nfc_dep_link_is_up n := 0;
  nfc_tm_activated n := 0;
  nfc_tm_data_received n := 0;
  stack_target n := target_zero |}.

#[local] Instance example_env_laws : nfc_env_laws.
Proof.
  split; cbn; unfold zlen.
  - intros n size s [= <-]. cbn. rewrite length_replicate. lia.
  - intros [b i a] n Hl Hn. cbn in *. destruct i; [|cbn in Hl; lia]. eexists. split; [done|]. cbn in *.
    split; [done|]. split; [done|]. rewrite length_app, length_take. lia.
  - intros [b i a] n s' E. cbn in *. destruct (n <=? _); [|done]. by injection E as <-.
  - done.
  - done.
  - done.
  - done.
Qed.

Definition pasori : pn533_type := mk_type PN533_DEVICE_PASORI pn533_std_frame_ops PN533_PROTO_REQ_ACK_RESP.

#[local] Instance example_wait_laws (dev : Z) :
  nfc_wait_laws false (mk_type dev pn533_std_frame_ops PN533_PROTO_REQ_ACK_RESP).
Proof.
  intros n id w r w'. cbn. destruct (chip_run (queue w)) as [q|] eqn:E; intros [= <- <-]; cbn.
  - split; [by apply chip_run_steps|]. split; [done|]. exists []. by rewrite app_nil_r.
  - split; [apply steps_refl|]. split; [done|]. exists []. by rewrite app_nil_r.
Qed.

Lemma chip_answered : answered.
Proof. intros n id w. cbn. by destruct (chip_run (queue w)). Qed.

Lemma example_long : long_answers.
Proof. intros n id w s w'. cbn. destruct (chip_run (queue w)); intros [= <- <-]; cbn; lia. Qed.

Definition example_world : world := driver_init 0 [].

(** ** Witnesses *)

(** The set up of a Pasori. *)
Lemma setup_configures_witness :
  exists w' r, pn533_setup pasori example_world = Ret (0, w') /\ Forall (framed pasori (queue w')) r /\
    config_requests r = [[0x05; 2; 1; 0]; [0x02; 0x0B; 0x0B; 0x0C]; [0x82; 8; 1; 8]].
Proof.
  destruct (setup_configures false pasori [[0x05; 2; 1; 0]; [0x02; 0x0B; 0x0B; 0x0C]; [0x82; 8; 1; 8]] example_world
    chip_answered) as (rc & w' & r & E & _ & Hf & _ & Hr); [reflexivity|reflexivity|].
  assert (exists w1, pn533_setup pasori example_world = Ret (0, w1)) as [w1 E1] by (eexists; vm_compute; reflexivity).
  rewrite E1 in E. injection E as <- <-. exists w1, r. split; [exact E1|]. split; [exact Hf|by apply Hr].
Defined.

(** FeliCa and Jewel, and listening: the first request polls FeliCa. *)
Lemma polling_starts_witness :
  exists w', pn533_start_poll pasori 0x0A 0x20 example_world = Ret (0, w') /\
    take (Z.to_nat (poll_mod_count (poll w'))) (poll_mod_active (poll w')) = [1; 2; 3; 5] /\
    exists id, effects w' = [Request id PollComplete 0x4A [1; 1; 0; 0xFF; 0xFF; 0; 0]].
Proof.
  destruct (polling_starts pasori 0x0A 0x20 1 [2; 3; 5] example_world) as (rc & w' & E & Hm & _ & random & _ & Hr);
    [reflexivity|apply Nat.le_0_l|intros n g [= <-]; apply Nat.leb_le; reflexivity|reflexivity|reflexivity|reflexivity|reflexivity|].
  assert (exists w1, pn533_start_poll pasori 0x0A 0x20 example_world = Ret (0, w1)) as [w1 E1] by (eexists; vm_compute; reflexivity).
  rewrite E1 in E. injection E as <- <-. exists w1. split; [exact E1|]. split; [exact Hm|].
  destruct Hr as [(_ & Hr & _)|[Hr _]]; [exact Hr|by destruct Hr].
Defined.

(** A passive link at 212 kbps with three general bytes, and one without: the passive data
    is there and [Next] is 0. *)
Definition felica_world : world := with_poll (set_curr 1 poll_init) example_world.

Lemma link_requested_witness :
  (exists w' id, pn533_dep_link_up pasori 1 (Some [0x46; 0x66; 0x6D]) felica_world = Ret (0, w') /\
     effects w' = [Request id (InDepLinkUpComplete 0) 0x56 [0; 1; 5; 0; 0xFF; 0xFF; 0; 3; 0x46; 0x66; 0x6D]]) /\
  (exists w' id, pn533_dep_link_up pasori 1 None felica_world = Ret (0, w') /\
     effects w' = [Request id (InDepLinkUpComplete 0) 0x56 [0; 1; 0; 0; 0xFF; 0xFF; 0; 3]]).
Proof.
  split.
  - destruct (link_requested pasori 1 (Some [0x46; 0x66; 0x6D]) felica_world) as (rc & w' & E & _ & Hr);
      [reflexivity|apply Nat.leb_le; reflexivity|reflexivity|reflexivity|split; apply Z.leb_le; reflexivity|].
    assert (exists w1, pn533_dep_link_up pasori 1 (Some [0x46; 0x66; 0x6D]) felica_world = Ret (0, w1)) as [w1 E1]
      by (eexists; vm_compute; reflexivity).
    rewrite E1 in E. injection E as <- <-. destruct Hr as [(_ & [id Hr] & _)|[Hr _]]; [|by destruct Hr].
    exists w1, id. split; [exact E1|exact Hr].
  - destruct (link_requested pasori 1 None felica_world) as (rc & w' & E & _ & Hr);
      [reflexivity|apply Nat.le_0_l|reflexivity|reflexivity|split; apply Z.leb_le; reflexivity|].
    assert (exists w1, pn533_dep_link_up pasori 1 None felica_world = Ret (0, w1)) as [w1 E1]
      by (eexists; vm_compute; reflexivity).
    rewrite E1 in E. injection E as <- <-. destruct Hr as [(_ & [id Hr] & _)|[Hr _]]; [|by destruct Hr].
    exists w1, id. split; [exact E1|exact Hr].
Defined.

(** The state of a computation that has returned. *)
Definition after_run {A} (m : nfc A) (w : world) : world := match m w with Ret (_, w') => w' | _ => w end.

Lemma after_run_ret {A} (m : nfc A) w : (exists a w', m w = Ret (a, w')) -> exists a, m w = Ret (a, after_run m w).
Proof. intros (a & w' & E). unfold after_run. rewrite E. by exists a. Qed.

Definition polling_world : world := after_run (pn533_nfc_ops pasori (StartPoll 0x0A 0x20)) example_world.

(** Polling, with the first command on its way. *)
Lemma driver_refines_witness :
  poll_mod_count (poll polling_world) = 4 /\ tgt_active_prot (poll polling_world) = 0 /\
  one_at_a_time (queue polling_world).
Proof.
  assert (rtc (driver_step pasori false) (driver_init 0 []) polling_world) as Hr.
  { apply rtc_once. destruct (after_run_ret (pn533_nfc_ops pasori (StartPoll 0x0A 0x20)) example_world) as [a E];
      [by eexists _, _; vm_compute; reflexivity|]. by eapply step_op. }
  destruct (driver_refines false pasori 0 [] polling_world Hr) as (_ & (Hone & _) & Hp).
  split; [reflexivity|]. split; [|exact Hone]. apply Hp; [|reflexivity]. vm_compute. discriminate.
Defined.

(** ** Probing *)

Definition two_endpoints : list endpoint := [mk_endpoint true false 0x84; mk_endpoint false true 0x04].

(** A reader for which everything is given, and one for which the core has no device. *)
Definition given : probe_env := mk_probe true two_endpoints true true true PN533_DEVICE_STD (fun _ => true) 0.
Definition refused : probe_env := mk_probe true two_endpoints true true true PN533_DEVICE_STD (fun _ => false) 0.

Lemma std_waits e dv protocols :
  id_info e = PN533_DEVICE_STD -> probe_type (id_info e) = Some (dv, protocols) -> nfc_wait_laws false dv.
Proof. intros ->. intros [= <- _]. exact (example_wait_laws _). Qed.

Lemma example_powered : powered_on.
Proof. by intros n. Qed.

Lemma probe_gives_back_witness :
  (exists w' l, pn533_probe given example_world = Ret (0, w') /\ effects w' = l /\ all_held l = [1; 1; 1; 1; 1; 1; 1]) /\
  (exists w' l, pn533_probe refused example_world = Ret (0, w') /\ effects w' = l /\ all_held l = [0; 0; 0; 0; 0; 0; 0]).
Proof.
  split.
  - destruct (probe_gives_back false given example_world chip_answered example_long example_powered)
      as (rc & w' & l & E & El & Hl); [exact (fun dv protocols => std_waits given dv protocols eq_refl)|].
    assert (exists w1, pn533_probe given example_world = Ret (0, w1)) as [w1 E1] by (eexists; vm_compute; reflexivity).
    rewrite E1 in E. injection E as <- <-. exists w1, l. split; [exact E1|]. split; [exact El|exact Hl].
  - destruct (probe_gives_back false refused example_world chip_answered example_long example_powered)
      as (rc & w' & l & E & El & Hl); [exact (fun dv protocols => std_waits refused dv protocols eq_refl)|].
    assert (exists w1, pn533_probe refused example_world = Ret (0, w1)) as [w1 E1] by (eexists; vm_compute; reflexivity).
    rewrite E1 in E. injection E as <- <-. exists w1, l. split; [exact E1|]. split; [exact El|exact Hl].
Defined.

Lemma disconnect_keeps_usb_device_witness :
  exists w' l, pn533_disconnect pasori example_world = Ret (tt, w') /\ effects w' = l /\
    all_held l = [-1; 0; -1; -1; -1; -1; -1].
Proof.
  destruct (disconnect_keeps_usb_device pasori example_world inv_init) as (w' & l & E & El & Hl & _).
  exists w', l. split; [exact E|]. split; [exact El|exact Hl].
Defined.
