(* ===== verification/Pn544.v ===== *)
(** * PN544 driver: [pn544.c]

    A character device over I2C.  The state of the chip (off, normal operation,
    firmware upload), the messages read and written in each, the interrupt that
    announces a message, and the probing and removal of the device.  A call runs
    under the driver's mutex; a [read] that waits for the interrupt keeps it, so
    a waiting [read] is a state of the driver.

    [linux/nfc/pn544.h], the CRC library and the platform's data are interfaces;
    I2C transfers answer from scripts, and what the driver does to the bus, to
    the platform and to the caller's memory is a list. *)

From S2P Require Import Prelude.

(** ** Interfaces *)

Class pn544_h := {
  PN544_MSG_MAX_SIZE : Z;
  PN544_MAX_I2C_TRANSFER : Z;
  PN544_LLC_HCI_OVERHEAD : Z;
  PN544_LLC_MIN_SIZE : Z;
  PN544_FW_HEADER_SIZE : Z;
  PN544_GET_FW_MODE : Z;
  PN544_SET_FW_MODE : Z;
  POLLIN : Z;
  POLLRDNORM : Z;
  crc_ccitt : Z -> bytes -> Z }.

(** A message's length byte counts itself out; header and CRC are three bytes. *)
Class pn544_h_laws `{pn544_h} := {
  msg_max_range : PN544_LLC_HCI_OVERHEAD < PN544_MSG_MAX_SIZE <= 256;
  llc_overhead_law : 3 <= PN544_LLC_HCI_OVERHEAD;
  llc_min_law : PN544_LLC_MIN_SIZE = 1 + PN544_LLC_HCI_OVERHEAD;
  fw_header_law : PN544_FW_HEADER_SIZE = 3;
  crc_range c l : 0 <= crc_ccitt c l < 2 ^ 16 }.

(** What the source uses of [struct pn544_nfc_platform_data]: which of its
    functions are given. *)
Record pn544_nfc_platform_data := mk_pdata {
  pd_request_resources : bool;
  pd_free_resources : bool;
  pd_enable : bool;
  pd_disable : bool;
  pd_test : bool }.

Definition EPERM : Z := 1.
Definition EAGAIN : Z := 11.
Definition ENOMEM : Z := 12.
Definition EFAULT : Z := 14.
Definition EBUSY : Z := 16.
Definition ENODEV : Z := 19.
Definition EMSGSIZE : Z := 90.
Definition EREMOTEIO : Z := 121.
Definition ERESTARTSYS : Z := 512.
Definition ENOIOCTLCMD : Z := 515.

(** ** State *)

Definition HCI_MODE : Z := 0.
Definition FW_MODE : Z := 1.

Inductive pn544_state := PN544_ST_COLD | PN544_ST_FW_READY | PN544_ST_READY.
Inductive pn544_irq := PN544_NONE | PN544_INT.

#[export] Instance pn544_state_eq_dec : EqDecision pn544_state.
Proof. solve_decision. Defined.
#[export] Instance pn544_irq_eq_dec : EqDecision pn544_irq.
Proof. solve_decision. Defined.

Inductive event :=
| EvSend (d : bytes)       (** on the I2C bus *)
| EvToUser (d : bytes)     (** stored in the caller's buffer *)
| EvEnable (mode : Z)      (** the platform's functions *)
| EvDisable
| EvWake.                  (** readers are woken *)

(** [buf] is the whole buffer, [buflen] its length.  [regs] is the use count of
    the regulators, [f_pos] the position of the open file; [rx] and [tx] are the
    answers of [i2c_master_recv] and [i2c_master_send]. *)
Record pn544_info := mk_info {
  state : pn544_state;
  read_irq : pn544_irq;
  read_offset : Z;
  buf : bytes;
  regs : Z;
  f_pos : Z;
  rx : list (Z + bytes);
  tx : list Z;
  evs : list event }.

Definition set_state v i := mk_info v (read_irq i) (read_offset i) (buf i) (regs i) (f_pos i) (rx i) (tx i) (evs i).
Definition set_irq v i := mk_info (state i) v (read_offset i) (buf i) (regs i) (f_pos i) (rx i) (tx i) (evs i).
Definition set_buf v i := mk_info (state i) (read_irq i) (read_offset i) v (regs i) (f_pos i) (rx i) (tx i) (evs i).
Definition add_regs v i := mk_info (state i) (read_irq i) (read_offset i) (buf i) (regs i + v) (f_pos i) (rx i) (tx i) (evs i).
Definition set_f_pos v i := mk_info (state i) (read_irq i) (read_offset i) (buf i) (regs i) v (rx i) (tx i) (evs i).
Definition set_rx v i := mk_info (state i) (read_irq i) (read_offset i) (buf i) (regs i) (f_pos i) v (tx i) (evs i).
Definition set_tx v i := mk_info (state i) (read_irq i) (read_offset i) (buf i) (regs i) (f_pos i) (rx i) v (evs i).
Definition emit e i := mk_info (state i) (read_irq i) (read_offset i) (buf i) (regs i) (f_pos i) (rx i) (tx i) (evs i ++ [e]).
Definition buflen (i : pn544_info) : Z := Z.of_nat (length (buf i)).

Section driver.
Context `{H : pn544_h} (pdata : pn544_nfc_platform_data).

(** ** Power *)

(** [rc] is what [regulator_bulk_enable] answers. *)
Definition pn544_enable (rc mode : Z) (i : pn544_info) : Z * pn544_info :=
  if rc <? 0 then (rc, i)
  else
    let i := set_irq PN544_NONE (add_regs 1 i) in
    let i := if pd_enable pdata then emit (EvEnable mode) i else i in
    (0, set_state (if ctrue mode then PN544_ST_FW_READY else PN544_ST_READY) i).

Definition pn544_disable (i : pn544_info) : pn544_info :=
  let i := if pd_disable pdata then emit EvDisable i else i in
  add_regs (-1) (set_irq PN544_NONE (set_state PN544_ST_COLD i)).

(** ** Transfers *)

Definition i2c_master_send (d : bytes) (i : pn544_info) : outcome (Z * pn544_info) :=
  match tx i with
  | [] => NoFuel
  | r :: q => Ret (r, emit (EvSend d) (set_tx q i))
  end.

(** [count] bytes are asked for; at most that many are stored, from [off] on. *)
Definition i2c_master_recv (off count : Z) (i : pn544_info) : outcome (Z * pn544_info) :=
  match rx i with
  | [] => NoFuel
  | inl e :: q => Ret (e, set_rx q i)
  | inr d :: q =>
    let d := take (Z.to_nat count) d in
    if buflen i <? off + count then Ub else
    b ← put_block (buf i) off d; Ret (Z.of_nat (length d), set_rx q (set_buf b i))
  end.

(** The same into a variable of one byte, unset when nothing is received. *)
Definition i2c_master_recv_byte (i : pn544_info) : outcome (Z * option Z * pn544_info) :=
  match rx i with
  | [] => NoFuel
  | inl e :: q => Ret (e, None, set_rx q i)
  | inr [] :: q => Ret (0, None, set_rx q i)
  | inr (b :: _) :: q => Ret (1, Some b, set_rx q i)
  end.

Definition check_crc (b : bytes) (len0 : Z) : outcome Z :=
  b0 ← arr_rd b 0;
  let len := u8 (b0 + 1) in
  if (len <? 4) || negb (len =? len0) || (PN544_MSG_MAX_SIZE <? len) then Ret (- EPERM)
  else
    let crc := u16 (Z.lnot (crc_ccitt 0xffff (take (Z.to_nat (len - 2)) b))) in
    lo ← arr_rd b (len - 2);
    if negb (lo =? Z.land crc 0xff) then Ret (- EPERM)
    else
      hi ← arr_rd b (len - 1);
      if negb (hi =? Z.shiftr crc 8) then Ret (- EPERM) else Ret 0.

(** The send that is tried once more when the chip was in standby. *)
Definition send_retried (len : Z) (i : pn544_info) : outcome (Z * pn544_info) :=
  let d := take (Z.to_nat len) (buf i) in
  if buflen i <? len then Ub else
  '(r, i) ← i2c_master_send d i;
  '(r, i) ← (if r =? - EREMOTEIO then i2c_master_send d i else Ret (r, i));
  if negb (r =? len) then Ret (- EREMOTEIO, i) else Ret (r, i).

Definition pn544_i2c_write (len : Z) (i : pn544_info) : outcome (Z * pn544_info) :=
  if len <? 4 then Ret (- EINVAL, i)
  else
    b0 ← arr_rd (buf i) 0;
    if negb (len =? b0 + 1) then Ret (- EINVAL, i)
    else
      c ← check_crc (buf i) len;
      if ctrue c then Ret (- EINVAL, i) else send_retried len i.

Definition pn544_i2c_read (len0 : Z) (i : pn544_info) : outcome (Z * pn544_info) :=
  '(r, ob, i) ← i2c_master_recv_byte i;
  if negb (r =? 1) then Ret (- EREMOTEIO, i)
  else
    len ← checked ob;
    let len := if len <? PN544_LLC_HCI_OVERHEAD then u8 PN544_LLC_HCI_OVERHEAD
      else if PN544_MSG_MAX_SIZE - 1 <? len then u8 (PN544_MSG_MAX_SIZE - 1) else len in
    if len0 <? 1 + len then Ret (- EMSGSIZE, i)
    else
      b ← arr_wr (buf i) 0 len;
      '(r, i) ← i2c_master_recv 1 len (set_buf b i);
      if negb (r =? len) then Ret (- EREMOTEIO, i) else Ret (r + 1, i).

(** The length that a firmware message announces. *)
Definition fw_len (b : bytes) : outcome Z :=
  b1 ← arr_rd b 1; b2 ← arr_rd b 2; Ret (Z.shiftl b1 8 + b2).

Definition pn544_fw_write (len : Z) (i : pn544_info) : outcome (Z * pn544_info) :=
  if len <? PN544_FW_HEADER_SIZE then Ret (- EINVAL, i)
  else
    n ← fw_len (buf i);
    if negb (PN544_FW_HEADER_SIZE + n =? len) then Ret (- EINVAL, i) else send_retried len i.

Definition pn544_fw_read (len0 : Z) (i : pn544_info) : outcome (Z * pn544_info) :=
  if len0 <? PN544_FW_HEADER_SIZE then Ret (- EINVAL, i)
  else
    '(r, i) ← i2c_master_recv 0 PN544_FW_HEADER_SIZE i;
    if r <? 0 then Ret (r, i)
    else if r <? PN544_FW_HEADER_SIZE then Ret (- EINVAL, i)
    else
      len ← fw_len (buf i);
      if len =? 0 then Ret (r, i)
      else if len0 - PN544_FW_HEADER_SIZE <? len then Ret (- EMSGSIZE, i)
      else
        '(r, i) ← i2c_master_recv PN544_FW_HEADER_SIZE len i;
        if negb (r =? len) then Ret (- EINVAL, i) else Ret (r + PN544_FW_HEADER_SIZE, i).

(** ** File operations *)

Definition pn544_irq_thread_fn (i : pn544_info) : pn544_info := emit EvWake (set_irq PN544_INT i).

(** [pn544_read] up to its wait: a result, or the wait. *)
Definition pn544_read_begin (nonblock : bool) (i : pn544_info) : option Z :=
  match state i, read_irq i with
  | PN544_ST_COLD, _ => Some (- ENODEV)
  | _, PN544_NONE => if nonblock then Some (- EAGAIN) else None
  | _, PN544_INT => None
  end.

(** The rest, once an interrupt has been seen; [fault] is how many bytes
    [copy_to_user] stores when it fails. *)
Definition pn544_read_finish (count : Z) (fault : option nat) (i : pn544_info) : outcome (Z * pn544_info) :=
  let len := Z.min count (buflen i) in
  '(r, i) ← (match state i with PN544_ST_FW_READY => pn544_fw_read len i | _ => pn544_i2c_read len i end);
  let i := set_irq PN544_NONE i in
  if r <? 0 then Ret (r, i)
  else
    let i := set_f_pos (f_pos i + r) i in
    if buflen i <? r then Ub
    else match fault with
    | Some n => Ret (- EFAULT, emit (EvToUser (take (Nat.min n (Z.to_nat r)) (buf i))) i)
    | None => Ret (r, emit (EvToUser (take (Z.to_nat r) (buf i))) i)
    end.

Definition pn544_poll (i : pn544_info) : Z :=
  match state i, read_irq i with
  | PN544_ST_COLD, _ => u32 (- ENODEV)
  | _, PN544_INT => Z.lor POLLIN POLLRDNORM
  | _, PN544_NONE => 0
  end.

(** [user] is what the caller's buffer holds.  When [copy_from_user] fails,
    [fault] is what it has put into the driver's buffer. *)
Definition copy_from_user (len : Z) (user : bytes) (fault : option bytes) (i : pn544_info)
  : outcome (bool * pn544_info) :=
  b ← put_block (buf i) 0 (take (Z.to_nat len) (default user fault));
  Ret (match fault with None => true | Some _ => false end, set_buf b i).

Definition pn544_write (user : bytes) (fault : option bytes) (i : pn544_info) : outcome (Z * pn544_info) :=
  let count := Z.of_nat (length user) in
  let len := Z.min count (buflen i) in
  match state i with
  | PN544_ST_COLD => Ret (- ENODEV, i)
  | PN544_ST_FW_READY =>
    if count <? PN544_FW_HEADER_SIZE then Ret (- EINVAL, i)
    else
      '(ok, i) ← copy_from_user len user fault i;
      if negb ok then Ret (- EFAULT, i)
      else
        n ← fw_len (buf i);
        let fw_len := PN544_FW_HEADER_SIZE + n in
        pn544_fw_write (if fw_len <? len then fw_len else len) i
  | PN544_ST_READY =>
    if count <? PN544_LLC_MIN_SIZE then Ret (- EINVAL, i)
    else
      '(ok, i) ← copy_from_user len user fault i;
      if negb ok then Ret (- EFAULT, i)
      else
        b0 ← arr_rd (buf i) 0;
        pn544_i2c_write (if b0 + 1 <? len then b0 + 1 else len) i
  end.

(** [val] is the caller's variable; the result gives what is stored in it. *)
Definition pn544_ioctl (cmd val : Z) (fault : bool) (rc : Z) (i : pn544_info) : Z * option Z * pn544_info :=
  let switch mode :=
    let '(r, i) := pn544_enable rc mode (pn544_disable i) in
    if r <? 0 then (r, None, i) else (r, None, set_f_pos (read_offset i) i) in
  if decide (state i = PN544_ST_COLD) then (- ENODEV, None, i)
  else if cmd =? PN544_GET_FW_MODE then
    if fault then (- EFAULT, None, i)
    else (0, Some (b2z (bool_decide (state i = PN544_ST_FW_READY))), i)
  else if cmd =? PN544_SET_FW_MODE then
    if fault then (- EFAULT, None, i)
    else if ctrue val then
      if decide (state i = PN544_ST_FW_READY) then (0, None, i) else switch FW_MODE
    else
      if decide (state i = PN544_ST_READY) then (0, None, i) else switch HCI_MODE
  else (- ENOIOCTLCMD, None, i).

Definition pn544_open (rc : Z) (i : pn544_info) : Z * pn544_info :=
  if decide (state i <> PN544_ST_COLD) then (- EBUSY, i)
  else pn544_enable rc HCI_MODE (set_f_pos (read_offset i) i).

Definition pn544_close (i : pn544_info) : Z * pn544_info := (0, pn544_disable i).

Definition pn544_suspend (i : pn544_info) : Z :=
  match state i with PN544_ST_FW_READY => - EPERM | _ => 0 end.
Definition pn544_resume (i : pn544_info) : Z := 0.

(** ** The driver and its callers *)

(** A call, with what its environment answers. *)
Inductive request :=
| Open (rc : Z)
| Close
| Read (count : Z) (nonblock : bool) (fault : option nat)
| Write (user : bytes) (fault : option bytes)
| Poll
| Ioctl (cmd val : Z) (fault : bool) (rc : Z)
| Suspend
| Resume.

(** [opened] counts the files that are open, [blocked] is the read that waits
    with the mutex held, [done] what the calls have returned. *)
Record pn544_sys := mk_sys {
  dev : pn544_info;
  opened : nat;
  blocked : option (Z * option nat);
  done : list Z }.

Definition return_ (n : nat) (r : Z * pn544_info) (s : pn544_sys) : pn544_sys :=
  mk_sys (snd r) n None (done s ++ [fst r]).

(** A whole call, when it does not block. *)
Definition call (q : request) (s : pn544_sys) : outcome pn544_sys :=
  let i := dev s in
  let n := opened s in
  match q with
  | Open rc => let r := pn544_open rc i in Ret (return_ (if fst r <? 0 then n else S n) r s)
  | Close => Ret (return_ (pred n) (pn544_close i) s)
  | Read count nonblock fault =>
    match pn544_read_begin nonblock i with
    | Some r => Ret (return_ n (r, i) s)
    | None =>
      match read_irq i with
      | PN544_INT => r ← pn544_read_finish count fault i; Ret (return_ n r s)
      | PN544_NONE => Ret (mk_sys i n (Some (count, fault)) (done s))
      end
    end
  | Write user fault => r ← pn544_write user fault i; Ret (return_ n r s)
  | Poll => Ret (return_ n (pn544_poll i, i) s)
  | Ioctl cmd val fault rc => let '(r, _, i) := pn544_ioctl cmd val fault rc i in Ret (return_ n (r, i) s)
  | Suspend => Ret (return_ n (pn544_suspend i, i) s)
  | Resume => Ret (return_ n (pn544_resume i, i) s)
  end.

Definition needs_file (q : request) : bool :=
  match q with Open _ | Suspend | Resume => false | _ => true end.

(** A caller's [count] and bytes. *)
Definition request_ok (q : request) : Prop :=
  match q with
  | Read count _ _ => 0 <= count
  | Write user fault => bytes_ok user /\ length (default user fault) = length user /\ bytes_ok (default user fault)
  | _ => True
  end.

(** A call takes the mutex, so none begins while a read waits; only an open file
    is read, written, polled, controlled and closed.  The interrupt's thread
    does not take the mutex.  A waiting read goes on when an interrupt has come,
    or ends when a signal does.  [P] restricts the calls. *)
Inductive pn544_step (P : request -> Prop) (s : pn544_sys) : outcome pn544_sys -> Prop :=
| step_call q :
    blocked s = None -> request_ok q -> P q -> (needs_file q = true -> (0 < opened s)%nat) ->
    pn544_step P s (call q s)
| step_irq :
    pn544_step P s (Ret (mk_sys (pn544_irq_thread_fn (dev s)) (opened s) (blocked s) (done s)))
| step_wake count fault :
    blocked s = Some (count, fault) -> read_irq (dev s) = PN544_INT ->
    pn544_step P s (r ← pn544_read_finish count fault (dev s); Ret (return_ (opened s) r s))
| step_signal b :
    blocked s = Some b -> pn544_step P s (Ret (return_ (opened s) (- ERESTARTSYS, dev s) s)).

Inductive pn544_steps (P : request -> Prop) : pn544_sys -> pn544_sys -> Prop :=
| pn544_steps_refl s : pn544_steps P s s
| pn544_steps_next s s1 s2 : pn544_steps P s s1 -> pn544_step P s1 (Ret s2) -> pn544_steps P s s2.

(** ** Probing and removal *)

Inductive resource := RInfo | RBuf | RRegs | RPlatform | RIrq | RSysfs | RMisc.

#[export] Instance resource_eq_dec : EqDecision resource.
Proof. solve_decision. Defined.

(** What the kernel answers to [pn544_probe]. *)
Record probe_env := mk_probe_env {
  info_allocated : bool;
  buf_allocated : bool;
  bulk_get_rc : Z;
  has_pdata : bool;
  request_resources_rc : Z;
  request_irq_rc : Z;
  create_file_rc : Z;
  misc_register_rc : Z }.

(** Giving up what is not held is an error. *)
Definition release (r : resource) (held : list resource) : outcome (list resource) :=
  if decide (r ∈ held) then Ret (list_difference held [r]) else Ub.

Definition err_info_alloc (held : list resource) : outcome (list resource) := Ret held.
Definition err_buf_alloc held := held ← release RInfo held; err_info_alloc held.
Definition err_kmalloc held := held ← release RBuf held; err_buf_alloc held.
Definition err_reg held := held ← release RRegs held; err_kmalloc held.
Definition err_res held :=
  held ← (if pd_free_resources pdata then release RPlatform held else Ret held); err_reg held.
Definition err_irq held := held ← release RIrq held; err_res held.
Definition err_sysfs held := held ← (if pd_test pdata then release RSysfs held else Ret held); err_irq held.

(** Returns the result, what is held and the device. *)
Definition pn544_probe (e : probe_env) (rx : list (Z + bytes)) (tx : list Z)
  : outcome (Z * list resource * option pn544_info) :=
  let fail (r : Z) (l : outcome (list resource)) := held ← l; Ret (r, held, None) in
  if negb (info_allocated e) then fail (- ENOMEM) (err_info_alloc [])
  else
    let buflen := Z.max PN544_MSG_MAX_SIZE PN544_MAX_I2C_TRANSFER in
    let held := [RInfo] in
    if negb (buf_allocated e) then fail (- ENOMEM) (err_buf_alloc held)
    else
      let held := RBuf :: held in
      if bulk_get_rc e <? 0 then fail (bulk_get_rc e) (err_kmalloc held)
      else
        let held := RRegs :: held in
        if negb (has_pdata e) then fail (- EINVAL) (err_reg held)
        else if negb (pd_request_resources pdata) then fail (- EINVAL) (err_reg held)
        else if ctrue (request_resources_rc e) then fail (request_resources_rc e) (err_reg held)
        else
          let held := if pd_free_resources pdata then RPlatform :: held else held in
          if request_irq_rc e <? 0 then fail (request_irq_rc e) (err_res held)
          else
            let held := RIrq :: held in
            let r := if pd_test pdata then create_file_rc e else 0 in
            if ctrue r then fail r (err_irq held)
            else
              let held := if pd_test pdata then RSysfs :: held else held in
              if misc_register_rc e <? 0 then fail (misc_register_rc e) (err_sysfs held)
              else Ret (0, RMisc :: held, Some (mk_info PN544_ST_COLD PN544_NONE 0
                (replicate (Z.to_nat buflen) 0) 0 0 rx tx [])).

(** The regulators are given back, but their use is not ended. *)
Definition pn544_remove (held : list resource) (i : pn544_info) : outcome (list resource * pn544_info) :=
  held ← release RMisc held;
  held ← (if pd_test pdata then release RSysfs held else Ret held);
  let i := if decide (state i <> PN544_ST_COLD)
    then set_irq PN544_NONE (if pd_disable pdata then emit EvDisable i else i) else i in
  held ← release RIrq held;
  held ← (if pd_free_resources pdata then release RPlatform held else Ret held);
  held ← release RRegs held;
  held ← release RBuf held;
  held ← release RInfo held;
  Ret (held, i).
End driver.

(** ** Lemmas: transfers keep the device *)

Section transfers.
Context `{HL : pn544_h_laws} (pdata : pn544_nfc_platform_data).

(** A receive gives bytes or a negative error. *)
Definition answer_ok (a : Z + bytes) : Prop := match a with inl e => e < 0 | inr d => bytes_ok d end.

(** The buffer holds bytes, and one message of either kind fits in it. *)
Definition info_ok (i : pn544_info) : Prop :=
  bytes_ok (buf i) /\ PN544_MSG_MAX_SIZE <= buflen i /\ 3 <= buflen i /\ Forall answer_ok (rx i).

(** A transfer changes the buffer's contents, the scripts and the events. *)
Definition transferred (i i' : pn544_info) : Prop :=
  info_ok i' /\ buflen i' = buflen i /\ state i' = state i /\ read_irq i' = read_irq i /\
  regs i' = regs i /\ f_pos i' = f_pos i.

Lemma transferred_refl i : info_ok i -> transferred i i.
Proof. by split. Qed.

Lemma transferred_trans i1 i2 i3 : transferred i1 i2 -> transferred i2 i3 -> transferred i1 i3.
Proof. intros (_&?&?&?&?&?) (?&?&?&?&?&?). split; [done|]. split_and!; congruence. Qed.

Lemma put_block_ok b off d :
  bytes_ok b -> bytes_ok d -> 0 <= off -> off + Z.of_nat (length d) <= Z.of_nat (length b) ->
  exists b', put_block b off d = Ret b' /\ bytes_ok b' /\ length b' = length b.
Proof.
  intros Hb Hd Ho Hl. unfold put_block. rewrite (proj2 (Z.leb_le 0 off)), (proj2 (Z.leb_le _ _)) by lia. cbn [andb].
  eexists. split; [done|]. split.
  - apply Forall_app_2; [by apply Forall_take|]. apply Forall_app_2; [done|by apply Forall_drop].
  - rewrite !length_app, length_take, length_drop. lia.
Qed.

Lemma arr_rd_ok b i : bytes_ok b -> 0 <= i < Z.of_nat (length b) -> exists x, arr_rd b i = Ret x /\ is_byte x.
Proof.
  intros Hb Hi. destruct (lookup_lt_is_Some_2 b (Z.to_nat i)) as [x Hx]; [lia|]. exists x.
  unfold arr_rd. rewrite (proj2 (Z.leb_le 0 i)), Hx by lia. split; [done|]. by eapply Forall_lookup_1 in Hx.
Qed.

Lemma set_buf_ok i b : info_ok i -> bytes_ok b -> length b = length (buf i) -> transferred i (set_buf b i).
Proof.
  intros (_&?&?&?) Hb Hl. unfold transferred, info_ok, buflen in *. cbn. rewrite Hl. by split_and!.
Qed.

Lemma recv_safe off count i :
  info_ok i -> 0 <= off -> 0 <= count -> off + count <= buflen i ->
  safely (fun p => transferred i (snd p) /\ fst p <= count) (i2c_master_recv off count i).
Proof.
  intros Hi Ho Hc Hl. unfold i2c_master_recv. destruct (rx i) as [|[e|d] q] eqn:Erx; [done|..].
  all: pose proof Hi as (Hb & Hm & H3 & Hr); rewrite Erx in Hr; apply Forall_cons in Hr as [Ha Hr].
  - cbn in *. split; [|lia]. unfold transferred, info_ok. by split_and!.
  - rewrite (proj2 (Z.ltb_ge _ _)) by lia. unfold buflen in *.
    destruct (put_block_ok (buf i) off (take (Z.to_nat count) d)) as (b & -> & Hbb & Hbl); try done.
    { by apply Forall_take. }
    { rewrite length_take. lia. }
    cbn. rewrite length_take. split; [|lia]. unfold transferred, info_ok, buflen. cbn. rewrite Hbl. by split_and!.
Qed.

Lemma recv_byte_safe i :
  info_ok i ->
  safely (fun p => transferred i (snd p) /\ (fst (fst p) = 1 -> exists b, snd (fst p) = Some b /\ is_byte b))
    (i2c_master_recv_byte i).
Proof.
  intros Hi. unfold i2c_master_recv_byte. destruct (rx i) as [|[e|[|b d]] q] eqn:Erx; [done|..]; cbn.
  all: pose proof Hi as (Hb & Hm & H3 & Hr); rewrite Erx in Hr; apply Forall_cons in Hr as [Ha Hr].
  all: (split; [unfold transferred, info_ok; by split_and!|]).
  - cbn in Ha. lia.
  - done.
  - apply Forall_cons in Ha as [? ?]. eauto.
Qed.

Lemma send_retried_safe len i :
  info_ok i -> len <= buflen i ->
  safely (fun p => transferred i (snd p) /\ rx (snd p) = rx i /\ buf (snd p) = buf i) (send_retried len i).
Proof.
  intros Hi Hl. unfold send_retried, i2c_master_send. rewrite (proj2 (Z.ltb_ge _ _)) by lia.
  destruct (tx i) as [|r [|r2 q]] eqn:Etx; cbn; [done|..].
  all: (destruct (r =? - EREMOTEIO); cbn; try done).
  all: (case_match; cbn; split_and!; try done; unfold transferred, info_ok in *; by split_and!).
Qed.

Lemma check_crc_safe b len :
  bytes_ok b -> 0 <= len <= Z.of_nat (length b) -> 0 < Z.of_nat (length b) -> safely (fun _ => True) (check_crc b len).
Proof.
  intros Hb Hl H0. unfold check_crc. destruct (arr_rd_ok b 0 Hb) as (b0 & -> & Hb0); [lia|]. cbn [mbind outcome_bind].
  destruct (Z.ltb_spec (u8 (b0 + 1)) 4); [done|]. destruct (Z.eqb_spec (u8 (b0 + 1)) len); [|done].
  destruct (Z.ltb_spec PN544_MSG_MAX_SIZE (u8 (b0 + 1))); [done|]. cbn [negb orb].
  destruct (arr_rd_ok b (u8 (b0 + 1) - 2) Hb) as (lo & -> & _); [lia|].
  destruct (arr_rd_ok b (u8 (b0 + 1) - 1) Hb) as (hi & -> & _); [lia|]. cbn. by repeat case_match.
Qed.

Lemma i2c_write_safe len i :
  info_ok i -> len <= buflen i -> safely (fun p => transferred i (snd p)) (pn544_i2c_write len i).
Proof.
  intros Hi Hl. pose proof (transferred_refl i Hi). unfold pn544_i2c_write.
  destruct (Z.ltb_spec len 4); [done|]. pose proof Hi as (Hb & Hm & H3 & _). unfold buflen in *.
  destruct (arr_rd_ok (buf i) 0 Hb) as (b0 & -> & Hb0); [lia|]. cbn [mbind outcome_bind].
  destruct (negb (len =? b0 + 1)); [done|].
  eapply safely_bind; [apply check_crc_safe; [done|lia|lia]|]. intros c _. destruct (ctrue c); [done|].
  eapply safely_mono; [by apply send_retried_safe|]. by intros p [? _].
Qed.

Lemma fw_len_safe i : info_ok i -> safely (fun n => 0 <= n) (fw_len (buf i)).
Proof.
  intros (Hb & Hm & H3 & _). unfold fw_len, buflen in *.
  destruct (arr_rd_ok (buf i) 1 Hb) as (b1 & -> & Hb1); [lia|].
  destruct (arr_rd_ok (buf i) 2 Hb) as (b2 & -> & Hb2); [lia|]. cbn. unfold is_byte in *.
  rewrite Z.shiftl_mul_pow2 by lia. lia.
Qed.

Lemma fw_write_safe len i :
  info_ok i -> len <= buflen i -> safely (fun p => transferred i (snd p)) (pn544_fw_write len i).
Proof.
  intros Hi Hl. pose proof (transferred_refl i Hi). unfold pn544_fw_write. case_match; [done|].
  eapply safely_bind; [by apply fw_len_safe|]. intros n _. case_match; [done|].
  eapply safely_mono; [by apply send_retried_safe|]. by intros p [? _].
Qed.

(** A read fits in the [len] bytes that the caller has. *)
Lemma i2c_read_safe len i :
  info_ok i -> len <= buflen i ->
  safely (fun p => transferred i (snd p) /\ (fst p < 0 \/ 0 <= fst p <= len)) (pn544_i2c_read len i).
Proof.
  intros Hi Hl. unfold pn544_i2c_read. eapply safely_bind; [by apply recv_byte_safe|].
  intros [[r ob] i1] [Ht Hob]. cbn [fst snd] in *.
  assert (- EREMOTEIO < 0 /\ - EMSGSIZE < 0) as [Hneg1 Hneg2] by done.
  destruct (Z.eqb_spec r 1) as [->|]; cbn [negb]; [|split; [done|by left]].
  destruct (Hob eq_refl) as (b & -> & Hb). cbn [checked mbind outcome_bind].
  pose proof msg_max_range. pose proof llc_overhead_law. unfold is_byte in Hb.
  set (n := if b <? _ then _ else _).
  assert (0 <= n < 256) as Hn by (unfold n; repeat case_match; try apply u8_range; lia). clearbody n.
  destruct (Z.ltb_spec len (1 + n)); [split; [done|by left]|].
  pose proof Ht as (Hi1 & Hl1 & _). pose proof Hi1 as (Hb1 & _). unfold buflen in *.
  rewrite arr_wr_in by lia. cbn [mbind outcome_bind].
  assert (transferred i1 (set_buf (<[Z.to_nat 0:=n]> (buf i1)) i1)) as Ht2.
  { apply set_buf_ok; [done|apply Forall_insert; [done|unfold is_byte; lia]|by rewrite length_insert]. }
  eapply safely_bind; [apply (recv_safe 1 n); [apply Ht2|lia|lia|unfold buflen; cbn; rewrite length_insert; lia]|].
  intros [r2 i2] [Ht3 Hr2]. cbn [fst snd] in *.
  pose proof (transferred_trans _ _ _ Ht (transferred_trans _ _ _ Ht2 Ht3)).
  destruct (Z.eqb_spec r2 n); cbn; (split; [done|]); [right; lia|by left].
Qed.

Lemma fw_read_safe len i :
  info_ok i -> len <= buflen i ->
  safely (fun p => transferred i (snd p) /\ (fst p < 0 \/ 0 <= fst p <= len)) (pn544_fw_read len i).
Proof.
  intros Hi Hl. pose proof (transferred_refl i Hi). unfold pn544_fw_read. rewrite fw_header_law.
  assert (- EINVAL < 0 /\ - EMSGSIZE < 0) as [Hneg1 Hneg2] by done.
  destruct (Z.ltb_spec len 3); [split; [done|by left]|].
  eapply safely_bind; [apply (recv_safe 0 3); [done|lia..]|]. intros [r i1] [Ht Hr]. cbn [fst snd] in *.
  destruct (Z.ltb_spec r 0); [split; [done|by left]|]. destruct (Z.ltb_spec r 3); [split; [done|by left]|].
  pose proof Ht as (Hi1 & Hl1 & _). eapply safely_bind; [by apply fw_len_safe|]. cbn beta. intros n Hn.
  destruct (Z.eqb_spec n 0); [split; [done|right; cbn; lia]|].
  destruct (Z.ltb_spec (len - 3) n); [split; [done|by left]|].
  eapply safely_bind; [apply (recv_safe 3 n); [done|lia|lia|lia]|]. intros [r2 i2] [Ht2 Hr2]. cbn [fst snd] in *.
  pose proof (transferred_trans _ _ _ Ht Ht2).
  destruct (Z.eqb_spec r2 n); cbn; (split; [done|]); [right; lia|by left].
Qed.

(** ** Lemmas: calls keep the device *)

Lemma read_finish_safe count fault i :
  info_ok i -> 0 <= count ->
  safely (fun p => info_ok (snd p) /\ fst p <= Z.min count (buflen i) /\ state (snd p) = state i /\ regs (snd p) = regs i)
    (pn544_read_finish count fault i).
Proof.
  intros Hi Hc. unfold pn544_read_finish.
  assert (0 <= Z.min count (buflen i) <= buflen i) as Hmin by (unfold buflen; lia).
  assert (- EFAULT < 0) as Hneg by done.
  eapply safely_bind with (P := fun p =>
    transferred i (snd p) /\ (fst p < 0 \/ 0 <= fst p <= Z.min count (buflen i))).
  - case_match; [apply i2c_read_safe|apply fw_read_safe|apply i2c_read_safe]; done || lia.
  - intros [r i1] [(Hi1 & Hl1 & Hs & _ & Hg & _) Hr]. cbn [fst snd] in *.
    destruct (Z.ltb_spec r 0); [split_and!; cbn; done || lia|].
    rewrite (proj2 (Z.ltb_ge _ _)) by (unfold buflen in *; cbn; lia).
    destruct fault; cbn; split_and!; try done; lia.
Qed.

Lemma copy_from_user_safe len user fault i :
  info_ok i -> bytes_ok (default user fault) -> 0 <= len <= buflen i ->
  safely (fun p => transferred i (snd p)) (copy_from_user len user fault i).
Proof.
  intros Hi Hu Hl. unfold copy_from_user, buflen in *.
  destruct (put_block_ok (buf i) 0 (take (Z.to_nat len) (default user fault))) as (b & -> & Hb & Hbl).
  { apply Hi. }
  { by apply Forall_take. }
  { done. }
  { rewrite length_take. lia. }
  cbn. by apply set_buf_ok.
Qed.

Lemma write_safe user fault i :
  info_ok i -> request_ok (Write user fault) ->
  safely (fun p => transferred i (snd p)) (pn544_write user fault i).
Proof.
  intros Hi (_ & _ & Hu). pose proof (transferred_refl i Hi). unfold pn544_write.
  assert (0 <= Z.min (Z.of_nat (length user)) (buflen i) <= buflen i) as Hmin by (unfold buflen; lia).
  set (len := Z.min _ _) in *. clearbody len.
  destruct (state i); [done|..]; (case_match; [done|]);
    (eapply safely_bind; [by apply copy_from_user_safe|]); intros [ok i1] Ht; cbn [snd] in Ht;
    (destruct (negb ok); [done|]); pose proof Ht as (Hi1 & Hl1 & _).
  - eapply safely_bind; [by apply fw_len_safe|]. cbn beta. intros n Hn.
    eapply safely_mono; [apply fw_write_safe; [done|]; case_match; zbool; lia|].
    intros p Hp. exact (transferred_trans _ _ _ Ht Hp).
  - pose proof Hi1 as (Hb1 & _ & H3 & _). unfold buflen in *.
    destruct (arr_rd_ok (buf i1) 0 Hb1) as (b0 & -> & _); [lia|]. cbn [mbind outcome_bind].
    eapply safely_mono; [apply i2c_write_safe; [done|]; unfold buflen; case_match; zbool; lia|].
    intros p Hp. exact (transferred_trans _ _ _ Ht Hp).
Qed.

(** The power operations and the ioctl keep the buffer and the scripts. *)
Lemma same_io_ok i i' : buf i' = buf i -> rx i' = rx i -> info_ok i -> info_ok i'.
Proof. unfold info_ok, buflen. by intros -> ->. Qed.

Lemma enable_io rc mode i :
  buf (snd (pn544_enable pdata rc mode i)) = buf i /\ rx (snd (pn544_enable pdata rc mode i)) = rx i.
Proof. unfold pn544_enable. case_match; [done|]. by destruct (pd_enable pdata). Qed.

Lemma disable_io i : buf (pn544_disable pdata i) = buf i /\ rx (pn544_disable pdata i) = rx i.
Proof. unfold pn544_disable. by destruct (pd_disable pdata). Qed.

Lemma ioctl_io cmd val fault rc i :
  let p := snd (pn544_ioctl pdata cmd val fault rc i) in buf p = buf i /\ rx p = rx i.
Proof.
  unfold pn544_ioctl. pose proof (disable_io i) as [Hb Hr].
  pose proof (enable_io rc FW_MODE (pn544_disable pdata i)) as [Hb1 Hr1].
  pose proof (enable_io rc HCI_MODE (pn544_disable pdata i)) as [Hb2 Hr2].
  destruct (pn544_enable pdata rc FW_MODE _) as [r1 i1]. destruct (pn544_enable pdata rc HCI_MODE _) as [r2 i2].
  cbn [snd] in *. repeat case_match; cbn; split; congruence.
Qed.

Lemma call_safe q s :
  info_ok (dev s) -> request_ok q ->
  safely (fun s' => info_ok (dev s') /\ forall c, blocked s' = Some c -> 0 <= fst c) (call pdata q s).
Proof.
  intros Hi Hq. destruct q as [rc| |count nb fault|user fault| |cmd val fault rc| |]; cbn [call].
  - split; [|done]. cbn. unfold pn544_open. case_match; [done|].
    destruct (enable_io rc HCI_MODE (set_f_pos (read_offset (dev s)) (dev s))). by apply (same_io_ok (dev s)).
  - split; [|done]. cbn. apply (same_io_ok (dev s)); [apply disable_io..|done].
  - case_match; [by split|]. case_match; [split; [done|]; cbn; by intros c [= <-]|].
    eapply safely_bind; [by apply read_finish_safe|]. intros [r i'] (? & _). by split.
  - eapply safely_bind; [by apply write_safe|]. intros [r i'] (? & _). by split.
  - by split.
  - pose proof (ioctl_io cmd val fault rc (dev s)) as [Hb Hr].
    destruct (pn544_ioctl pdata cmd val fault rc (dev s)) as [[r o] i']. cbn in *. split; [|done].
    by apply (same_io_ok (dev s)).
  - by split.
  - by split.
Qed.

Definition sys_ok (s : pn544_sys) : Prop :=
  info_ok (dev s) /\ forall c, blocked s = Some c -> 0 <= fst c.

Lemma step_safe P s o : sys_ok s -> pn544_step pdata P s o -> safely sys_ok o.
Proof.
  intros [Hi Hbl] Hs. destruct Hs as [q Hn Hq _ _| |count fault Hb Hirq|b Hb].
  - eapply safely_mono; [by apply call_safe|]. by intros s' [? ?].
  - by split.
  - eapply safely_bind; [apply read_finish_safe; [done|]; exact (Hbl _ Hb)|]. intros [r i'] (? & _). by split.
  - by split.
Qed.

Lemma steps_safe P s s' : pn544_steps pdata P s s' -> sys_ok s -> sys_ok s'.
Proof. induction 1 as [|s s1 s2 _ IH Hs]; [done|]. intros H0. exact (step_safe _ _ _ (IH H0) Hs). Qed.
End transfers.

(** ** Specification: messages *)

Section messages.
Context `{HL : pn544_h_laws} (pdata : pn544_nfc_platform_data).

(** A message of normal operation: the length of what follows, the payload and
    the complement of the CRC of both, low byte first. *)
Definition pn544_msg (p : bytes) : bytes :=
  let f := (Z.of_nat (length p) + 2) :: p in
  let crc := u16 (Z.lnot (crc_ccitt 0xffff f)) in
  f ++ [Z.land crc 0xff; Z.shiftr crc 8].

Definition msg_size (p : bytes) : Z := Z.of_nat (length p) + 3.
Definition msg_fits (p : bytes) : Prop := 4 <= msg_size p <= PN544_MSG_MAX_SIZE /\ msg_size p < 256.

(** The length byte of a read, cut to what the driver takes. *)
Definition read_size (l : Z) : Z :=
  Z.max PN544_LLC_HCI_OVERHEAD (Z.min l (PN544_MSG_MAX_SIZE - 1)).

Lemma length_pn544_msg p : Z.of_nat (length (pn544_msg p)) = msg_size p.
Proof. unfold pn544_msg, msg_size. cbn. rewrite length_app. cbn. lia. Qed.

(** The CRC that a frame of this length byte and payload must carry. *)
Definition crc_of (f : bytes) : Z := u16 (Z.lnot (crc_ccitt 0xffff f)).

Lemma pn544_msg_eq p :
  let f := (msg_size p - 1) :: p in
  pn544_msg p = f ++ [Z.land (crc_of f) 0xff; Z.shiftr (crc_of f) 8].
Proof. unfold pn544_msg, msg_size, crc_of. by replace (Z.of_nat (length p) + 3 - 1) with (Z.of_nat (length p) + 2) by lia. Qed.

(** [check_crc] on a buffer that starts with [len - 1], payload and two bytes. *)
Lemma check_crc_eq (len : Z) (p : bytes) (lo hi : Z) (rest : bytes) :
  4 <= len <= PN544_MSG_MAX_SIZE -> len < 256 -> Z.of_nat (length p) = len - 3 ->
  let f := (len - 1) :: p in
  check_crc (f ++ lo :: hi :: rest) len =
    Ret (if (lo =? Z.land (crc_of f) 0xff) && (hi =? Z.shiftr (crc_of f) 8) then 0 else - EPERM).
Proof.
  intros Hm H256 Hl f. unfold check_crc. change (arr_rd (f ++ _) 0) with (Ret (len - 1)).
  cbn [mbind outcome_bind]. rewrite Z.sub_add, (u8_small len) by lia.
  rewrite (proj2 (Z.ltb_ge len 4)), Z.eqb_refl, (proj2 (Z.ltb_ge _ len)) by lia. cbn [orb negb].
  assert (Z.of_nat (length f) = len - 2) as Hf by (unfold f; cbn; lia). clearbody f.
  rewrite take_app_exact by lia. fold (crc_of f).
  rewrite (arr_rd_middle f lo (hi :: rest) (len - 2)) by lia. cbn [mbind outcome_bind].
  destruct (lo =? _); cbn [negb andb]; [|done].
  rewrite (app_cons1 f lo), (arr_rd_middle (f ++ [lo])) by (rewrite length_app; cbn; lia). cbn [mbind outcome_bind].
  by destruct (hi =? _).
Qed.

Lemma check_crc_msg p rest : msg_fits p -> check_crc (pn544_msg p ++ rest) (msg_size p) = Ret 0.
Proof.
  intros [Hf H256]. rewrite pn544_msg_eq, <- app_assoc. cbn [app].
  pose proof (check_crc_eq (msg_size p) p) as E. cbn zeta in E. cbn [app] in E.
  rewrite E by (unfold msg_size in *; lia). by rewrite !Z.eqb_refl.
Qed.

(** A buffer that [check_crc] accepts starts with a message. *)
Lemma check_crc_sound b len :
  bytes_ok b -> len <= Z.of_nat (length b) -> arr_rd b 0 = Ret (len - 1) -> check_crc b len = Ret 0 ->
  exists p rest, b = pn544_msg p ++ rest /\ msg_size p = len /\ msg_fits p.
Proof.
  intros Hb Hl Hb0 Hc. assert (0 <= len - 1 < 256) as Hr.
  { destruct b as [|x b]; [done|]. cbn in Hb0. injection Hb0 as <-. by apply Forall_cons in Hb as [? _]. }
  assert (4 <= len <= PN544_MSG_MAX_SIZE /\ len < 256) as [Hm H256].
  { unfold check_crc in Hc. rewrite Hb0 in Hc. cbn [mbind outcome_bind] in Hc. rewrite Z.sub_add in Hc.
    destruct (Z.ltb_spec (u8 len) 4) as [|H4]; [done|].
    assert (len <> 256) by (intros ->; by change (u8 256) with 0 in H4). rewrite u8_small in * by lia.
    rewrite Z.eqb_refl in Hc. destruct (Z.ltb_spec PN544_MSG_MAX_SIZE len); [done|]. lia. }
  destruct b as [|x b]; [done|]. cbn in Hb0. injection Hb0 as ->. cbn [length] in Hl.
  remember (take (Z.to_nat (len - 3)) b) as p eqn:Ep. remember (drop (Z.to_nat (len - 3)) b) as t eqn:Et.
  assert (b = p ++ t) as -> by (by rewrite Ep, Et, take_drop).
  assert (Z.of_nat (length p) = len - 3) as Hp by (rewrite Ep, length_take; lia).
  rewrite length_app in Hl. destruct t as [|lo [|hi rest]]; [cbn in Hl; lia..|].
  change ((len - 1) :: p ++ lo :: hi :: rest) with (((len - 1) :: p) ++ lo :: hi :: rest) in *.
  pose proof (check_crc_eq len p lo hi rest Hm H256 Hp) as E. cbn zeta in E. rewrite E in Hc.
  destruct (_ && _) eqn:Eb; [|done]. zbool. exists p, rest.
  assert (msg_size p = len) as Hs by (unfold msg_size; lia). rewrite pn544_msg_eq, Hs. cbn zeta.
  split; [|by split; [|split; rewrite Hs]]. rewrite <- app_assoc. cbn. by subst lo hi.
Qed.
End messages.

(** ** Lemmas: reading and writing messages *)

Section message_transfers.
Context `{HL : pn544_h_laws} (pdata : pn544_nfc_platform_data).

(** What [send_retried] does with [d] at the front of the buffer: one send, and
    a second one when the first was refused by a chip in standby. *)
Definition send_result (d : bytes) (i : pn544_info) : outcome (Z * pn544_info) :=
  let res r := if r =? Z.of_nat (length d) then r else - EREMOTEIO in
  match tx i with
  | [] => NoFuel
  | r :: q =>
    if r =? - EREMOTEIO then
      match q with
      | [] => NoFuel
      | r2 :: q2 => Ret (res r2, emit (EvSend d) (emit (EvSend d) (set_tx q2 i)))
      end
    else Ret (res r, emit (EvSend d) (set_tx q i))
  end.

Lemma send_retried_eq d rest i :
  buf i = d ++ rest -> send_retried (Z.of_nat (length d)) i = send_result d i.
Proof.
  intros Hb. unfold send_retried, send_result, i2c_master_send, buflen.
  rewrite (proj2 (Z.ltb_ge _ _)) by (rewrite Hb, length_app; lia).
  rewrite Nat2Z.id, Hb, take_app_length. destruct (tx i) as [|r [|r2 q]] eqn:Etx; [done|..]; cbn.
  - case_match; [done|]. cbn. by destruct (r =? Z.of_nat (length d)).
  - case_match; cbn; [by destruct (r2 =? Z.of_nat (length d))|by destruct (r =? Z.of_nat (length d))].
Qed.

(** The driver's buffer after [copy_from_user] of [user]. *)
Definition copied (user : bytes) (i : pn544_info) : bytes :=
  let len := Nat.min (length user) (length (buf i)) in
  take len user ++ drop len (buf i).

Lemma copy_from_user_eq user i :
  copy_from_user (Z.min (Z.of_nat (length user)) (buflen i)) user None i = Ret (true, set_buf (copied user i) i).
Proof.
  unfold copy_from_user, put_block, buflen, copied.
  replace (Z.to_nat (Z.min (Z.of_nat (length user)) (Z.of_nat (length (buf i)))))
    with (Nat.min (length user) (length (buf i))) by lia.
  set (n := Nat.min _ _). rewrite length_take. replace (Nat.min n (length user)) with n by (unfold n; lia).
  cbn [default from_option]. rewrite (proj2 (Z.leb_le (0 + _) _)) by (unfold n; lia).
  cbn -[Nat.min]. by replace (Nat.min n (length user)) with n by (unfold n; lia).
Qed.

Lemma arr_rd_fuel (l : bytes) i : arr_rd l i <> NoFuel.
Proof. unfold arr_rd. case_match; [|done]. by destruct (l !! Z.to_nat i). Qed.

Lemma check_crc_fuel b len : check_crc b len <> NoFuel.
Proof.
  unfold check_crc. pose proof (arr_rd_fuel b 0). destruct (arr_rd b 0) as [b0| | |]; try done.
  cbn [mbind outcome_bind]. case_match; [done|].
  pose proof (arr_rd_fuel b (u8 (b0 + 1) - 2)). destruct (arr_rd b (u8 (b0 + 1) - 2)); try done.
  cbn [mbind outcome_bind]. case_match; [done|].
  pose proof (arr_rd_fuel b (u8 (b0 + 1) - 1)). destruct (arr_rd b (u8 (b0 + 1) - 1)); try done.
  cbn [mbind outcome_bind]. by case_match.
Qed.

Lemma i2c_write_eq len i :
  info_ok i -> len <= buflen i ->
  pn544_i2c_write len i = send_retried len i /\
    (exists p rest, buf i = pn544_msg p ++ rest /\ msg_size p = len /\ msg_fits p) \/
  pn544_i2c_write len i = Ret (- EINVAL, i) /\
    (forall p rest, msg_fits p -> msg_size p = len -> buf i <> pn544_msg p ++ rest).
Proof.
  intros Hi Hl. pose proof Hi as (Hb & _ & H3 & _). unfold pn544_i2c_write, buflen in *.
  destruct (Z.ltb_spec len 4) as [|H4]; [right; split; [done|]; intros p rest [? _] ?; lia|].
  destruct (arr_rd_ok (buf i) 0 Hb) as (b0 & Eb0 & Hb0); [lia|]. rewrite Eb0. cbn [mbind outcome_bind].
  destruct (Z.eqb_spec len (b0 + 1)) as [->|Hne]; cbn [negb].
  - pose proof (check_crc_safe (buf i) (b0 + 1) Hb) as Hs.
    destruct (check_crc (buf i) (b0 + 1)) as [c| | |] eqn:Ec; cbn in Hs; try (exfalso; apply Hs; lia).
    + cbn [mbind outcome_bind]. unfold ctrue. destruct (Z.eqb_spec c 0) as [->|Hc]; cbn [negb]; [left|right].
      * split; [done|]. apply check_crc_sound; [done|lia| |done]. rewrite Eb0. f_equal. lia.
      * split; [done|]. intros p rest Hf Hsz E. rewrite E, <- Hsz, check_crc_msg in Ec by done. congruence.
    + exfalso. by eapply check_crc_fuel.
  - right. split; [done|]. intros p rest Hf Hsz E. apply Hne. rewrite E, pn544_msg_eq in Eb0. cbn in Eb0.
    injection Eb0 as <-. lia.
Qed.

Lemma take_copied n user i :
  (n <= Nat.min (length user) (length (buf i)))%nat -> take n (copied user i) = take n user.
Proof. intros Hn. unfold copied. rewrite take_app_le by (rewrite length_take; lia). by rewrite take_take, Nat.min_l. Qed.

Lemma length_copied user i : length (copied user i) = length (buf i).
Proof. unfold copied. rewrite length_app, length_take, length_drop. lia. Qed.

Lemma copied_ok user i : bytes_ok user -> info_ok i -> info_ok (set_buf (copied user i) i).
Proof.
  intros Hu Hi. apply set_buf_ok; [done| |apply length_copied]. apply Forall_app_2; [by apply Forall_take|].
  apply Forall_drop, Hi.
Qed.

Lemma prefix_take (d user : bytes) :
  (exists rest, user = d ++ rest) <-> (length d <= length user)%nat /\ take (length d) user = d.
Proof.
  split.
  - intros [rest ->]. rewrite length_app, take_app_length. split; [lia|done].
  - intros [_ E]. exists (drop (length d) user). pose proof (take_drop (length d) user) as T. by rewrite E in T.
Qed.

(** The message part of what is written: [user]'s first byte gives its length. *)
Lemma write_eq user i :
  state i = PN544_ST_READY -> info_ok i -> bytes_ok user -> PN544_LLC_MIN_SIZE <= Z.of_nat (length user) ->
  exists b0 l, user = b0 :: l /\ is_byte b0 /\
    pn544_write user None i =
      pn544_i2c_write (Z.min (b0 + 1) (Z.min (Z.of_nat (length user)) (buflen i))) (set_buf (copied user i) i).
Proof.
  intros Hs Hi Hu Hl. pose proof llc_min_law. pose proof llc_overhead_law. pose proof Hi as (_ & _ & H3 & _).
  destruct user as [|b0 l]; [cbn in Hl; lia|]. exists b0, l. apply Forall_cons in Hu as [Hb0 _].
  split; [done|]. split; [done|]. unfold pn544_write. rewrite Hs, (proj2 (Z.ltb_ge _ _)) by lia.
  rewrite copy_from_user_eq. cbn [mbind outcome_bind negb].
  assert (arr_rd (buf (set_buf (copied (b0 :: l) i) i)) 0 = Ret b0) as ->.
  { unfold copied, buflen in *. destruct (buf i); [cbn in H3; lia|done]. }
  cbn [mbind outcome_bind]. f_equal. case_match; zbool; lia.
Qed.
End message_transfers.

(** ** Lemmas: power *)

Section power.
Context `{HL : pn544_h_laws} (pdata : pn544_nfc_platform_data).

(** The regulators are in use, once, when the chip is on, and it is on while the
    one file is open. *)
Definition balanced (s : pn544_sys) : Prop :=
  match state (dev s) with
  | PN544_ST_COLD => regs (dev s) = 0 /\ opened s = 0%nat /\ blocked s = None
  | _ => regs (dev s) = 1 /\ opened s = 1%nat
  end.

(** The regulators can be enabled again when the mode is switched. *)
Definition switch_works (q : request) : Prop :=
  match q with Ioctl _ _ _ rc => 0 <= rc | _ => True end.

Lemma enable_on rc mode i :
  0 <= rc -> exists i', pn544_enable pdata rc mode i = (0, i') /\ state i' <> PN544_ST_COLD /\ regs i' = regs i + 1.
Proof.
  intros Hrc. unfold pn544_enable. rewrite (proj2 (Z.ltb_ge rc 0)) by lia. eexists. split; [done|].
  split; [by destruct (ctrue mode)|by destruct (pd_enable pdata)].
Qed.

Lemma disable_off i : state (pn544_disable pdata i) = PN544_ST_COLD /\ regs (pn544_disable pdata i) = regs i - 1.
Proof. unfold pn544_disable. by destruct (pd_disable pdata). Qed.

(** What holds of a state and is not changed by a transfer. *)
Lemma balanced_same s i r :
  blocked s = None \/ state (dev s) <> PN544_ST_COLD ->
  state i = state (dev s) -> regs i = regs (dev s) -> balanced s -> balanced (return_ (opened s) (r, i) s).
Proof. unfold balanced. cbn. intros Hb -> ->. destruct (state (dev s)); [|done..]. by intros (?&?&?). Qed.

Lemma open_balanced rc s : blocked s = None -> balanced s ->
  let r := pn544_open pdata rc (dev s) in balanced (return_ (if fst r <? 0 then opened s else S (opened s)) r s).
Proof.
  intros Hn Hb. unfold pn544_open. destruct (decide (state (dev s) <> PN544_ST_COLD)) as [Hs|Hs].
  { apply balanced_same; auto. }
  apply dec_stable in Hs. unfold balanced in Hb. rewrite Hs in Hb. destruct Hb as (Hr & Ho & _).
  set (i := set_f_pos _ _). assert (state i = PN544_ST_COLD /\ regs i = 0) as [Hsi Hri] by done. clearbody i.
  destruct (Z.ltb_spec rc 0).
  - unfold pn544_enable. rewrite (proj2 (Z.ltb_lt rc 0)) by lia. cbn [fst]. rewrite (proj2 (Z.ltb_lt rc 0)) by lia.
    unfold balanced. cbn. rewrite Hsi. by split_and!.
  - destruct (enable_on rc HCI_MODE i) as (i' & -> & Hs' & Hr'); [lia|]. unfold balanced. cbn.
    destruct (state i'); [done|split; [lia|by rewrite Ho]..].
Qed.

Lemma ioctl_balanced cmd val fault rc s : 0 <= rc -> blocked s = None -> balanced s ->
  let '(r, _, i) := pn544_ioctl pdata cmd val fault rc (dev s) in balanced (return_ (opened s) (r, i) s).
Proof.
  intros Hrc Hn Hb. pose proof (fun i r => balanced_same s i r (or_introl Hn)) as Hsame.
  unfold pn544_ioctl. destruct (decide (state (dev s) = PN544_ST_COLD)) as [|Hs]; [auto|].
  assert (regs (dev s) = 1 /\ opened s = 1%nat) as [Hr Ho] by (unfold balanced in Hb; by destruct (state (dev s))).
  assert (forall mode, exists i', pn544_enable pdata rc mode (pn544_disable pdata (dev s)) = (0, i') /\
    balanced (return_ (opened s) (0, set_f_pos (read_offset i') i') s)) as Hsw.
  { intros mode. destruct (disable_off (dev s)) as [_ Hd].
    destruct (enable_on rc mode (pn544_disable pdata (dev s)) Hrc) as (i' & -> & Hs' & Hr'). exists i'. split; [done|].
    unfold balanced. cbn. destruct (state i'); [done|split; [lia|done]..]. }
  destruct (Hsw FW_MODE) as (i1 & E1 & Hb1). destruct (Hsw HCI_MODE) as (i2 & E2 & Hb2). rewrite E1, E2.
  repeat case_match; simplify_eq; auto.
Qed.

Lemma call_balanced q s s' :
  info_ok (dev s) -> blocked s = None -> request_ok q -> switch_works q ->
  (needs_file q = true -> (0 < opened s)%nat) -> balanced s -> call pdata q s = Ret s' -> balanced s'.
Proof.
  intros Hi Hn Hq Hw Hf Hb. pose proof (fun i r => balanced_same s i r (or_introl Hn)) as Hsame.
  destruct q as [rc| |count nb fault|user fault| |cmd val fault rc| |]; cbn [call].
  - intros [= <-]. by apply open_balanced.
  - intros [= <-]. destruct (disable_off (dev s)) as [Hd Hr]. specialize (Hf eq_refl).
    unfold balanced, return_, pn544_close in *. cbn [dev opened blocked snd].
    rewrite Hd, Hr. destruct (state (dev s)); destruct Hb as [-> Hb]; [lia|by rewrite Hb..].
  - destruct (pn544_read_begin nb (dev s)) eqn:Eb; [intros [= <-]; by apply Hsame|].
    case_match; [intros [= <-]|].
    + unfold balanced, pn544_read_begin in *. cbn. by destruct (state (dev s)).
    + pose proof (read_finish_safe count fault (dev s) Hi Hq) as Hsafe.
      destruct (pn544_read_finish count fault (dev s)) as [[r i]| | |]; try done. intros [= <-].
      destruct Hsafe as (_ & _ & Hs & Hg). by apply Hsame.
  - pose proof (write_safe user fault (dev s) Hi Hq) as Hsafe.
    destruct (pn544_write user fault (dev s)) as [[r i]| | |]; try done. intros [= <-].
    destruct Hsafe as (_ & _ & Hs & _ & Hg & _). by apply Hsame.
  - intros [= <-]. by apply Hsame.
  - pose proof (ioctl_balanced cmd val fault rc s Hw Hn Hb).
    destruct (pn544_ioctl pdata cmd val fault rc (dev s)) as [[r o] i]. by intros [= <-].
  - intros [= <-]. by apply Hsame.
  - intros [= <-]. by apply Hsame.
Qed.

Lemma step_balanced s s' : sys_ok s -> balanced s -> pn544_step pdata switch_works s (Ret s') -> balanced s'.
Proof.
  intros [Hi Hbl] Hb Hs. inversion Hs as [q Hn Hq Hw Hf E|E|count fault Hbk Hirq E|b Hbk E].
  - by eapply call_balanced.
  - done.
  - pose proof (read_finish_safe count fault (dev s) Hi (Hbl _ Hbk)) as Hsafe.
    destruct (pn544_read_finish count fault (dev s)) as [[r i]| | |]; try done. injection E as <-.
    destruct Hsafe as (_ & _ & Hst & Hg). apply balanced_same; auto. right.
    unfold balanced in Hb. intros Hc. rewrite Hc, Hbk in Hb. by destruct Hb as (_ & _ & ?).
  - apply balanced_same; auto. right.
    unfold balanced in Hb. intros Hc. rewrite Hc, Hbk in Hb. by destruct Hb as (_ & _ & ?).
Qed.

Lemma steps_balanced s s' : pn544_steps pdata switch_works s s' -> sys_ok s -> balanced s -> sys_ok s' /\ balanced s'.
Proof.
  induction 1 as [|s s1 s2 _ IH Hs]; [done|]. intros Hok Hb. destruct (IH Hok Hb) as [Hok1 Hb1].
  split; [exact (step_safe _ _ _ _ Hok1 Hs)|by eapply step_balanced].
Qed.

End power.

(** ** Lemmas: a waiting read *)

Section waiting.
Context (pdata : pn544_nfc_platform_data) `{HL : pn544_h_laws}.

(** An endless run of the driver, which may pause. *)
Definition run (P : request -> Prop) (f : nat -> pn544_sys) : Prop :=
  forall n, f (S n) = f n \/ pn544_step pdata P (f n) (Ret (f (S n))).

(** The waiting read can go on. *)
Definition woken (s : pn544_sys) : Prop := blocked s <> None /\ read_irq (dev s) = PN544_INT.

(** The scheduler does not leave a read that can go on waiting for ever. *)
Definition fair (f : nat -> pn544_sys) : Prop :=
  forall n, exists m, (n <= m)%nat /\
    (~ woken (f m) \/ exists c b r, blocked (f m) = Some (c, b) /\
       pn544_read_finish c b (dev (f m)) = Ret r /\ f (S m) = return_ (opened (f m)) r (f m)).

(** The read that waits in [s] waits still in [s'], and nothing has returned. *)
Definition still (s s' : pn544_sys) : Prop := blocked s' = blocked s /\ done s' = done s.
(** It has returned, and nothing else has. *)
Definition returned (s s' : pn544_sys) : Prop := blocked s' = None /\ exists r, done s' = done s ++ [r].

Lemma waiting_step P s s' :
  blocked s <> None -> pn544_step pdata P s (Ret s') ->
  still s s' /\ (read_irq (dev s) = PN544_INT -> read_irq (dev s') = PN544_INT) \/ returned s s'.
Proof.
  intros Hb Hs. inversion Hs as [q Hn Hq Hw Hf E|E|count fault Hbk Hirq E|b Hbk E].
  - done.
  - by left.
  - destruct (pn544_read_finish count fault (dev s)) as [[r i]| | |]; try done. injection E as <-.
    right. split; [done|]. by eexists.
  - right. split; [done|]. by eexists.
Qed.

(** While a read waits, nothing returns before it. *)
Lemma waiting_run P f n k :
  run P f -> blocked (f n) <> None ->
  ((forall i, (i <= k)%nat -> still (f n) (f (n + i)%nat)) /\
   (read_irq (dev (f n)) = PN544_INT -> read_irq (dev (f (n + k)%nat)) = PN544_INT)) \/
  exists j, (j < k)%nat /\ (forall i, (i <= j)%nat -> still (f n) (f (n + i)%nat)) /\ returned (f n) (f (n + S j)%nat).
Proof.
  intros Hr Hb. induction k as [|k IH].
  - left. split; [|by rewrite Nat.add_0_r]. intros i Hi. by replace (n + i)%nat with n by lia.
  - destruct IH as [[IH Hirq]|(j & Hj & H1 & H2)]; [|right; exists j; split; [lia|done]].
    pose proof (IH k (Nat.le_refl k)) as [Hbk Hdk]. rewrite <- plus_n_Sm.
    destruct (Hr (n + k)%nat) as [E|Hs].
    + left. rewrite E. split; [|done]. intros i Hi. destruct (decide (i = S k)) as [->|]; [|apply IH; lia].
      rewrite <- plus_n_Sm, E. by split.
    + apply waiting_step in Hs as [[Hst Hi]|[Hn [r Hd]]]; [| |congruence].
      * left. split; [|auto]. intros i Hik. destruct (decide (i = S k)) as [->|]; [|apply IH; lia].
        rewrite <- plus_n_Sm. destruct Hst. split; congruence.
      * right. exists k. split; [lia|]. split; [done|]. rewrite <- plus_n_Sm. split; [done|]. exists r. congruence.
Qed.
End waiting.

Section probing.
Context `{HL : pn544_h_laws} (pdata : pn544_nfc_platform_data).

(** The device that probing leaves. *)
Lemma probe_ok e rxs txs held i :
  Forall answer_ok rxs -> pn544_probe pdata e rxs txs = Ret (0, held, Some i) ->
  sys_ok (mk_sys i 0 None []) /\ balanced (mk_sys i 0 None []).
Proof.
  intros Hr Hp.
  assert (i = mk_info PN544_ST_COLD PN544_NONE 0
    (replicate (Z.to_nat (Z.max PN544_MSG_MAX_SIZE PN544_MAX_I2C_TRANSFER)) 0) 0 0 rxs txs []) as ->.
  { unfold pn544_probe in Hp. repeat (case_match; cbn [mbind outcome_bind] in Hp;
      [match type of Hp with (?l ≫= _) = _ => by destruct l | _ => done end|]). by injection Hp as _ <-. }
  pose proof msg_max_range. pose proof llc_overhead_law. unfold sys_ok, info_ok, buflen. cbn [dev buf rx].
  rewrite length_replicate. split_and!; try done; try lia.
  apply Forall_replicate. unfold is_byte. lia.
Qed.

(** Each error label gives back what is held where the source jumps to it. *)
Lemma err_kmalloc_all : err_kmalloc [RBuf; RInfo] = Ret [].
Proof. reflexivity. Qed.
Lemma err_reg_all : err_reg [RRegs; RBuf; RInfo] = Ret [].
Proof. reflexivity. Qed.

Let held_res : list resource :=
  if pd_free_resources pdata then [RPlatform; RRegs; RBuf; RInfo] else [RRegs; RBuf; RInfo].
Let held_sysfs : list resource := if pd_test pdata then RSysfs :: RIrq :: held_res else RIrq :: held_res.

Lemma err_res_all : err_res pdata held_res = Ret [].
Proof. unfold err_res, held_res. by destruct (pd_free_resources pdata). Qed.
Lemma err_irq_all : err_irq pdata (RIrq :: held_res) = Ret [].
Proof. unfold err_irq, err_res, held_res. by destruct (pd_free_resources pdata). Qed.
Lemma err_sysfs_all : err_sysfs pdata held_sysfs = Ret [].
Proof.
  unfold err_sysfs, err_irq, err_res, held_sysfs, held_res.
  by destruct (pd_free_resources pdata), (pd_test pdata).
Qed.

Lemma remove_all (i : pn544_info) :
  exists i', pn544_remove pdata (RMisc :: held_sysfs) i = Ret ([], i') /\ regs i' = regs i.
Proof.
  unfold pn544_remove, held_sysfs, held_res. set (j := if decide _ then _ else i).
  assert (regs j = regs i) by (unfold j; case_match; [by destruct (pd_disable pdata)|done]). clearbody j.
  exists j. by destruct (pd_free_resources pdata), (pd_test pdata).
Qed.

Lemma unwound (r : Z) (l : outcome (list resource)) (Q : list resource -> option pn544_info -> Prop) :
  r <> 0 -> l = Ret [] ->
  safely (fun '(r, held, d) => if r =? 0 then Q held d else held = [] /\ d = None)
    (held ← l; Ret (r, held, @None pn544_info)).
Proof. intros Hr ->. cbn. by rewrite (proj2 (Z.eqb_neq r 0)). Qed.
End probing.

(** ** Properties *)

Section properties.
Context `{HL : pn544_h_laws} (pdata : pn544_nfc_platform_data).

(** writing to the chip.  In normal operation, what the caller writes is sent
    when, and only when, it starts with a message whose length and CRC are
    right: the message alone goes to the bus, a second time when the chip was in
    standby, and what follows it is left; anything else is refused with
    [EINVAL] and nothing is sent. *)
Theorem pn544_write_message (user : bytes) (i : pn544_info) :
  state i = PN544_ST_READY -> info_ok i -> bytes_ok user -> PN544_LLC_MIN_SIZE <= Z.of_nat (length user) ->
  let i' := set_buf (copied user i) i in
  (forall p rest, msg_fits p -> user = pn544_msg p ++ rest ->
     pn544_write user None i = send_result (pn544_msg p) i') /\
  ((forall p rest, msg_fits p -> user <> pn544_msg p ++ rest) ->
     pn544_write user None i = Ret (- EINVAL, i')).
Proof.
  intros Hs Hi Hu Hl i'. destruct (write_eq user i Hs Hi Hu Hl) as (b0 & l & El & Hb0 & ->). fold i'.
  pose proof (copied_ok user i Hu Hi) as Hi'. fold i' in Hi'. pose proof (proj1 (proj2 Hi)) as Hmax.
  assert (buflen i' = buflen i) as Hbl by (unfold buflen; cbn; by rewrite length_copied).
  set (n := Z.min (b0 + 1) _).
  assert (n <= Z.of_nat (length user) /\ n <= buflen i) as [Hn1 Hn2] by (unfold n; lia).
  pose proof (i2c_write_eq n i' Hi') as Hw. rewrite Hbl in Hw. specialize (Hw Hn2).
  split; [intros p rest [Hf1 Hf2] Eu|intros Hno].
  - pose proof (length_pn544_msg p) as Hm.
    assert (n = msg_size p) as En.
    { rewrite Eu, pn544_msg_eq in El. cbn in El. injection El as <- _.
      unfold n. rewrite Eu, length_app. lia. }
    assert (exists r, buf i' = pn544_msg p ++ r) as [r Er].
    { apply prefix_take. cbn [i' set_buf buf]. rewrite length_copied. unfold buflen in *. split; [lia|].
      rewrite take_copied by lia. by rewrite Eu, take_app_length. }
    destruct Hw as [[-> _]|[_ Hw]]; [|by destruct (Hw p r)].
    rewrite En, <- Hm. by apply send_retried_eq with r.
  - destruct Hw as [[_ (p & rest & Eb & Hsz & Hf)]|[-> _]]; [exfalso|done].
    pose proof (length_pn544_msg p) as Hm. unfold buflen in *.
    destruct (proj2 (prefix_take (pn544_msg p) user)) as [r Er]; [|by apply (Hno p r)]. split; [lia|].
    rewrite <- (take_copied _ user i) by lia. change (copied user i) with (buf i'). by rewrite Eb, take_app_length.
Qed.

(** Reading from the chip.  The first transfer gives the length, cut to the
    sizes of a message, the second one that many bytes; the caller gets both and
    the interrupt is taken back.  When the caller's buffer is too small it gets
    [EMSGSIZE] and the interrupt is taken back all the same: the message stays
    in the chip without its length byte, and is not announced any more. *)
Theorem pn544_read_message (count l : Z) (d : bytes) (q : list (Z + bytes)) (i : pn544_info) :
  state i = PN544_ST_READY -> info_ok i -> rx i = inr [l] :: inr d :: q ->
  Z.of_nat (length d) = read_size l ->
  exists i', read_irq i' = PN544_NONE /\ state i' = state i /\
  if read_size l + 1 <=? Z.min count (buflen i)
  then pn544_read_finish count None i = Ret (read_size l + 1, i') /\
       evs i' = evs i ++ [EvToUser (read_size l :: d)] /\ rx i' = q
  else pn544_read_finish count None i = Ret (- EMSGSIZE, i') /\ evs i' = evs i /\ rx i' = inr d :: q.
Proof.
  intros Hs Hi Hrx Hd. pose proof msg_max_range. pose proof llc_overhead_law. pose proof Hi as (Hb & Hm & H3 & _).
  unfold pn544_read_finish, pn544_i2c_read, i2c_master_recv_byte. rewrite Hs, Hrx.
  cbn [mbind outcome_bind]. change (negb (1 =? 1)) with false. cbn [mbind outcome_bind checked].
  replace (if l <? _ then _ else _) with (read_size l)
    by (unfold read_size; repeat case_match; zbool; rewrite ?u8_small; lia).
  assert (0 <= read_size l) by (unfold read_size; lia). set (n := read_size l) in *. clearbody n.
  destruct (Z.leb_spec (n + 1) (Z.min count (buflen i))).
  - rewrite (proj2 (Z.ltb_ge _ (1 + n))) by lia. cbn [set_rx buf]. unfold buflen in *.
    destruct (buf i) as [|b0 b] eqn:Eb; [cbn in H3; lia|]. cbn [length] in *.
    rewrite (arr_wr_middle [] b0 b) by done. cbn [mbind outcome_bind app]. unfold i2c_master_recv. cbn [rx set_buf set_rx].
    unfold buflen. cbn [buf set_buf length]. rewrite (proj2 (Z.ltb_ge _ (1 + n))) by lia.
    rewrite (take_ge d) by lia.
    remember (take (length d) b) as mid eqn:Emid. pose proof (take_drop (length d) b) as Eb2. rewrite <- Emid in Eb2.
    assert (length mid = length d) by (rewrite Emid, length_take; lia).
    assert (put_block (n :: b) 1 d = Ret ([n] ++ d ++ drop (length d) b)) as ->
      by (rewrite <- Eb2 at 1; by apply (put_block_mid [n])). cbn [mbind outcome_bind]. rewrite Hd, Z.eqb_refl. cbn [negb mbind outcome_bind].
    rewrite (proj2 (Z.ltb_ge _ 0)) by lia. unfold buflen. cbn -[Z.add Z.ltb Z.of_nat].
    rewrite (proj2 (Z.ltb_ge _ (n + 1))) by (rewrite length_app, length_drop; lia).
    eexists. split; [|split; [|split; [reflexivity|]]]; [done|done|].
    split; [|done]. cbn -[Z.add]. f_equal. f_equal. f_equal.
    replace (Z.to_nat (n + 1)) with (S (length d)) by lia. cbn. by rewrite take_app_length.
  - rewrite (proj2 (Z.ltb_lt _ (1 + n))) by lia. eexists. split; [|split; [|split; [reflexivity|]]]; done.
Qed.


(** C17: the regulators.  From probing on, as long as the regulators can be
    enabled again whenever the mode is switched, they are in use exactly when the
    chip is on, once; the chip is on exactly while a file is open, and one file
    is open at most; and no read waits for a chip that is off. *)
Theorem regulators_balanced (e : probe_env) (rxs : list (Z + bytes)) (txs : list Z) (held : list resource)
  (i : pn544_info) (s : pn544_sys) :
  Forall answer_ok rxs -> pn544_probe pdata e rxs txs = Ret (0, held, Some i) ->
  pn544_steps pdata switch_works (mk_sys i 0 None []) s ->
  match state (dev s) with
  | PN544_ST_COLD => regs (dev s) = 0 /\ opened s = 0%nat /\ blocked s = None
  | _ => regs (dev s) = 1 /\ opened s = 1%nat
  end.
Proof.
  intros Hr Hp Hs. apply probe_ok in Hp as [Hok Hb]; [|done]. by apply (steps_balanced _ _ _ Hs).
Qed.

(** a mode switch that fails.  When the regulators cannot be enabled again,
    the open file's chip is off.  Closing the file then ends a use of the
    regulators that there is not; and if another file is opened first, which the
    driver allows, closing the first one switches the second one's chip off. *)
Theorem failed_switch_unbalanced (s : pn544_sys) (val rc rc2 : Z) :
  state (dev s) = PN544_ST_READY -> balanced s -> PN544_GET_FW_MODE <> PN544_SET_FW_MODE -> val <> 0 ->
  rc < 0 -> 0 <= rc2 ->
  exists s1, call pdata (Ioctl PN544_SET_FW_MODE val false rc) s = Ret s1 /\
    state (dev s1) = PN544_ST_COLD /\ opened s1 = 1%nat /\
    (exists s2, call pdata Close s1 = Ret s2 /\ regs (dev s2) = -1) /\
    (exists s3 s4, call pdata (Open rc2) s1 = Ret s3 /\ opened s3 = 2%nat /\ state (dev s3) = PN544_ST_READY /\
       call pdata Close s3 = Ret s4 /\ opened s4 = 1%nat /\ state (dev s4) = PN544_ST_COLD).
Proof.
  intros Hs Hb Hg Hv Hrc Hrc2. unfold balanced in Hb. rewrite Hs in Hb. destruct Hb as [Hr Ho].
  destruct (disable_off pdata (dev s)) as [Hd Hdr].
  cbn [call]. unfold pn544_ioctl. rewrite decide_False by congruence.
  rewrite (proj2 (Z.eqb_neq _ _)) by congruence. rewrite Z.eqb_refl. unfold ctrue.
  rewrite (proj2 (Z.eqb_neq val 0)) by done. cbn [negb]. rewrite decide_False by congruence.
  unfold pn544_enable at 1. rewrite (proj2 (Z.ltb_lt rc 0)) by done. rewrite (proj2 (Z.ltb_lt rc 0)) by done.
  set (i := pn544_disable pdata (dev s)) in *. clearbody i. eexists. split; [reflexivity|].
  split; [done|]. split; [done|]. split.
  - eexists. split; [reflexivity|]. cbn [return_ pn544_close snd dev].
    destruct (disable_off pdata i) as [_ ->]. lia.
  - cbn [return_ dev opened snd]. unfold pn544_open. rewrite decide_False by (rewrite Hd; auto).
    destruct (enable_on pdata rc2 HCI_MODE (set_f_pos (read_offset i) i) Hrc2) as (i2 & E & _ & _).
    assert (state i2 = PN544_ST_READY) as Hs2.
    { unfold pn544_enable in E. rewrite (proj2 (Z.ltb_ge rc2 0)) in E by lia. by injection E as <-. }
    rewrite E. eexists _, _. split; [reflexivity|]. split; [cbn; congruence|]. split; [done|].
    split; [reflexivity|]. split; [cbn; congruence|]. cbn [return_ pn544_close snd dev]. apply disable_off.
Qed.

(** the driver's memory.  In every state reached from probing, with any calls
    in any order, no call and no waiting read accesses memory outside the
    driver's buffer; and a read stores at most as many bytes as its caller asked
    for. *)
Theorem pn544_calls_safe (P : request -> Prop) (e : probe_env) (rxs : list (Z + bytes)) (txs : list Z)
  (held : list resource) (i : pn544_info) (s : pn544_sys) :
  Forall answer_ok rxs -> pn544_probe pdata e rxs txs = Ret (0, held, Some i) ->
  pn544_steps pdata P (mk_sys i 0 None []) s ->
  (forall o, pn544_step pdata P s o -> safely (fun _ => True) o) /\
  (forall count fault, 0 <= count ->
     safely (fun p => fst p <= count /\ fst p <= buflen (dev s)) (pn544_read_finish count fault (dev s))).
Proof.
  intros Hr Hp Hs. apply probe_ok in Hp as [Hok Hb]; [|done]. pose proof (steps_safe _ _ _ _ Hs Hok) as Hoks.
  split.
  - intros o Ho. eapply safely_mono; [exact (step_safe _ _ _ _ Hoks Ho)|done].
  - intros count fault Hc. eapply safely_mono; [apply read_finish_safe; [apply Hoks|done]|].
    intros p (_ & Hl & _). lia.
Qed.

(** probing and removal.  Whatever the kernel and the platform answer, a probe
    that fails has given back all that it took, each thing once, and a probe that
    succeeds holds what removal gives back, whatever state the device is in by
    then.  Removal of a device that is on leaves its regulators in use. *)
Theorem probe_unwinds (e : probe_env) (rxs : list (Z + bytes)) (txs : list Z) :
  safely (fun '(r, held, d) =>
    if r =? 0
    then exists i, d = Some i /\ state i = PN544_ST_COLD /\
           forall i2, exists i3, pn544_remove pdata held i2 = Ret ([], i3) /\ regs i3 = regs i2
    else held = [] /\ d = None) (pn544_probe pdata e rxs txs).
Proof.
  pose proof err_kmalloc_all. pose proof err_reg_all. pose proof (err_res_all pdata) as Hres.
  pose proof (err_irq_all pdata) as Hirq. pose proof (err_sysfs_all pdata) as Hsys. pose proof (remove_all pdata) as Hrem.
  unfold pn544_probe, ctrue. set (h1 := [RRegs; RBuf; RInfo]) in *.
  set (h2 := if pd_free_resources pdata then _ else h1) in *. set (h3 := if pd_test pdata then _ else RIrq :: h2) in *.
  destruct (negb (info_allocated e)); [done|]. destruct (negb (buf_allocated e)); [done|].
  destruct (Z.ltb_spec (bulk_get_rc e) 0); [by apply unwound; [lia|]|].
  destruct (negb (has_pdata e)); [by apply unwound|]. destruct (negb (pd_request_resources pdata)); [by apply unwound|].
  destruct (Z.eqb_spec (request_resources_rc e) 0); cbn [negb]; [|by apply unwound].
  destruct (Z.ltb_spec (request_irq_rc e) 0); [by apply unwound; [lia|]|].
  destruct (Z.eqb_spec (if pd_test pdata then create_file_rc e else 0) 0); cbn [negb]; [|by apply unwound].
  destruct (Z.ltb_spec (misc_register_rc e) 0); [by apply unwound; [lia|]|].
  cbn [safely Z.eqb]. eexists. split; [done|]. split; [done|]. apply Hrem.
Qed.
End properties.

(** ** Witnesses

    The chip's sizes are those of a normal message (33 bytes); the CRC is the
    kernel's, one bit at a time. *)

Section witnesses.

Definition crc_bit (c : Z) : Z := if Z.odd c then Z.lxor (Z.shiftr c 1) 0x8408 else Z.shiftr c 1.
Definition crc_byte (c b : Z) : Z := Nat.iter 8 crc_bit (Z.lxor c b).

#[local] Instance pn544_h_example : pn544_h := {|
  PN544_MSG_MAX_SIZE := 0x21; PN544_MAX_I2C_TRANSFER := 40;
  PN544_LLC_HCI_OVERHEAD := 3; PN544_LLC_MIN_SIZE := 4; PN544_FW_HEADER_SIZE := 3;
  PN544_GET_FW_MODE := 0x8004E901; PN544_SET_FW_MODE := 0x4004E901;
  POLLIN := 1; POLLRDNORM := 64; crc_ccitt c l := u16 (foldl crc_byte c l) |}.

#[local] Instance pn544_h_example_laws : pn544_h_laws.
Proof. split; cbn; try lia. intros c l. unfold u16. apply Z.mod_pos_bound. lia. Qed.

Definition all_given : pn544_nfc_platform_data := mk_pdata true true true true true.
Definition probed_with (rxs : list (Z + bytes)) (txs : list Z) : pn544_info :=
  mk_info PN544_ST_COLD PN544_NONE 0 (replicate 40 0) 0 0 rxs txs [].
Definition probe_ok_env : probe_env := mk_probe_env true true 0 true 0 0 0 0.
Definition powered (rxs : list (Z + bytes)) (txs : list Z) : pn544_info :=
  snd (pn544_open all_given 0 (probed_with rxs txs)).

Lemma powered_ok rxs txs : Forall answer_ok rxs -> info_ok (powered rxs txs).
Proof.
  intros Hr. unfold info_ok, buflen. change (buf (powered rxs txs)) with (replicate 40 0).
  rewrite length_replicate. split_and!; [|done|done|done].
  apply Forall_replicate. unfold is_byte. lia.
Qed.

(** The message that a host sends first, and what follows it. *)
Lemma pn544_write_message_witness :
  (exists i, pn544_write (pn544_msg [0xF9; 0x04; 0x00] ++ [7; 7]) None (powered [] [- EREMOTEIO; 6]) = Ret (6, i) /\
     evs i = [EvEnable 0; EvSend (pn544_msg [0xF9; 0x04; 0x00]); EvSend (pn544_msg [0xF9; 0x04; 0x00])]) /\
  pn544_msg [0xF9; 0x04; 0x00] = [5; 0xF9; 0x04; 0x00; 0xC3; 0xE5].
Proof.
  split; [|vm_compute; reflexivity].
  destruct (pn544_write_message (pn544_msg [0xF9; 0x04; 0x00] ++ [7; 7]) (powered [] [- EREMOTEIO; 6])) as [H _].
  - reflexivity.
  - by apply powered_ok.
  - vm_compute. repeat constructor; intuition congruence.
  - vm_compute. discriminate.
  - rewrite (H [0xF9; 0x04; 0x00] [7; 7]); [|vm_compute; intuition congruence|reflexivity].
    eexists. split; [vm_compute; reflexivity|vm_compute; reflexivity].
Defined.

(** An answer of five bytes; a caller with room for three. *)
Definition answered : pn544_info := powered [inr [5]; inr [0xF9; 0x04; 0x00; 0xC3; 0xE5]] [].

Lemma answered_ok : info_ok answered.
Proof. apply powered_ok. repeat constructor; vm_compute; intuition congruence. Qed.

Lemma pn544_read_message_witness :
  (exists i, pn544_read_finish 100 None answered = Ret (6, i) /\
     evs i = [EvEnable 0; EvToUser [5; 0xF9; 0x04; 0x00; 0xC3; 0xE5]]) /\
  (exists i, pn544_read_finish 3 None answered = Ret (- EMSGSIZE, i) /\
     read_irq i = PN544_NONE /\ rx i = [inr [0xF9; 0x04; 0x00; 0xC3; 0xE5]]).
Proof.
  pose proof (fun count => pn544_read_message count 5 [0xF9; 0x04; 0x00; 0xC3; 0xE5] [] answered
    eq_refl answered_ok eq_refl eq_refl) as Hf.
  split.
  - destruct (Hf 100) as (i & _ & _ & E & Ev & _). by exists i.
  - destruct (Hf 3) as (i & Hi & _ & E & _ & Er). by exists i.
Defined.

Lemma pn544_step_to P (s s' : pn544_sys) (o : outcome pn544_sys) :
  pn544_step all_given P s o -> o = Ret s' -> pn544_step all_given P s (Ret s').
Proof. by intros Hs <-. Qed.

(** A read waits, the chip interrupts, the read goes on; nothing more happens. *)
Definition waiting : pn544_sys := mk_sys answered 1 (Some (100, None)) [0].
Definition interrupted : pn544_sys := mk_sys (pn544_irq_thread_fn answered) 1 (Some (100, None)) [0].
Definition read_done : pn544_sys :=
  match pn544_read_finish 100 None (dev interrupted) with
  | Ret r => return_ 1 r interrupted
  | _ => interrupted
  end.
Definition example_run (n : nat) : pn544_sys :=
  match n with O => waiting | 1%nat => interrupted | _ => read_done end.


(** Probing, then the first file. *)
Definition fresh : pn544_info := probed_with [inr [5]; inr [0xF9; 0x04; 0x00; 0xC3; 0xE5]] [].
Definition example_held : list resource := [RMisc; RSysfs; RIrq; RPlatform; RRegs; RBuf; RInfo].
Definition first_open : pn544_sys := mk_sys answered 1 None [0].

Lemma fresh_probed : pn544_probe all_given probe_ok_env (rx fresh) [] = Ret (0, example_held, Some fresh).
Proof. reflexivity. Qed.

Lemma fresh_answers : Forall answer_ok (rx fresh).
Proof. repeat constructor; vm_compute; intuition congruence. Qed.

Lemma first_open_steps P : P (Open 0) -> pn544_steps all_given P (mk_sys fresh 0 None []) first_open.
Proof.
  intros HP. eapply pn544_steps_next; [apply pn544_steps_refl|].
  by apply (step_call all_given P (mk_sys fresh 0 None []) (Open 0)).
Qed.

Lemma regulators_balanced_witness : regs (dev first_open) = 1 /\ opened first_open = 1%nat.
Proof.
  exact (regulators_balanced all_given probe_ok_env (rx fresh) [] example_held fresh first_open fresh_answers
    fresh_probed (first_open_steps switch_works I)).
Defined.

Lemma failed_switch_unbalanced_witness :
  exists s1, call all_given (Ioctl PN544_SET_FW_MODE 1 false (-5)) first_open = Ret s1 /\
    (exists s2, call all_given Close s1 = Ret s2 /\ regs (dev s2) = -1).
Proof.
  destruct (failed_switch_unbalanced all_given first_open 1 (-5) 0) as (s1 & E & _ & _ & H2 & _);
    [done|by vm_compute|by vm_compute|lia|lia|lia|]. by exists s1.
Defined.

Lemma pn544_calls_safe_witness :
  safely (fun p => fst p <= 100 /\ fst p <= buflen answered) (pn544_read_finish 100 None answered).
Proof.
  destruct (pn544_calls_safe all_given (fun _ => True) probe_ok_env (rx fresh) [] example_held fresh first_open
    fresh_answers fresh_probed (first_open_steps _ I)) as [_ H]. apply (H 100 None). lia.
Defined.
End witnesses.
