(* ===== verification/AtSocket.v ===== *)
(** * The AT socket: [altair_at_socket.c] and its client [atSocketTest.c]

    A server thread that takes AT commands from a local socket, passes them to
    the AT channel ([AtChannel], the Altair copy) and sends the answer back, and
    the client that comes with it.  Both use messages with a header that has the
    length; the server's answers have a type too.

    A socket is the list of the pieces that its other end has sent: one [read]
    takes from the first piece.  The arrays are lists of bytes. *)

From S2P Require Import Prelude CString AtTok Misc AtChannel.

(** ** Data *)

Definition MAX_SIZE : Z := 65535.

Definition ALT_AT_SOCKET_RES_ERROR : Z := 0.
Definition ALT_AT_SOCKET_RES_OK : Z := 1.
Definition ALT_AT_SOCKET_RES_UNSOLICITED : Z := 3.

Definition AT_SOCKET_PROCESS_NAME : bytes := s2b "radio".

(** [read(sock, p, n)]: what it stores, and the rest of the socket. *)
Definition sock_read (n : Z) (s : list bytes) : bytes * list bytes :=
  match s with
  | [] => ([], [])
  | c :: cs =>
    (take (Z.to_nat n) c, match drop (Z.to_nat n) c with [] => cs | r => r :: cs end)
  end.

(** [read(sock, &c, 1) > 0]: the byte, if there is one. *)
Definition read1 (s : list bytes) : option Z * list bytes :=
  let '(d, s) := sock_read 1 s in (head d, s).

(** [read(sock, &c, 1) > 0 && c == v] *)
Definition read_is (v : Z) (s : list bytes) : bool * list bytes :=
  let '(c, s) := read1 s in (match c with Some c => c =? v | None => false end, s).

(** The C string that an array holds from its start. *)
Fixpoint c_str (b : bytes) : outcome bytes :=
  match b with
  | [] => Ub
  | x :: r => if x =? 0 then Ret [] else s ← c_str r; Ret (x :: s)
  end.

(** ** The server's side of a message *)

(** [None] is the NULL result; on success the size is stored. *)
Definition readFromATSocket (s : list bytes) (buffer : bytes) : outcome (option Z * bytes * list bytes) :=
  let fail s := Ret (None, buffer, s) in
  let '(ok, s) := read_is 0x03 s in
  if negb ok then fail s else
  let '(ok, s) := read_is 0x00 s in
  if negb ok then fail s else
  let '(l1, s) := read1 s in
  match l1 with
  | None => fail s
  | Some l1 =>
    let '(l2, s) := read1 s in
    match l2 with
    | None => fail s
    | Some l2 =>
      let buffer_size := u32 (l1 * 256 + l2 - 4) in
      if buffer_size <? 4 then fail s
      else
        let '(d, s) := sock_read buffer_size s in
        buffer ← put_block buffer 0 d;
        if Z.of_nat (length d) =? buffer_size then Ret (Some buffer_size, buffer, s)
        else Ret (None, buffer, s)
    end
  end.

(** [n1] and [n2] are what the two [send] calls take.  The pieces sent, and the
    result. *)
Definition writeToAtSocket (type : Z) (buffer : bytes) (n1 n2 : nat) : list bytes * Z :=
  let size := Z.of_nat (length buffer) in
  let prefix := [0x03; 0x00; u8 ((size + 5) / 256); u8 (size + 5); u8 type] in
  if negb (Nat.eqb n1 5) then ([take n1 prefix], 0)
  else if negb (Nat.eqb n2 (length buffer)) then ([prefix; take n2 buffer], 0)
  else ([prefix; buffer], 1).

Definition altairAtSocketOnUnsolicited (s : bytes) (n1 n2 : nat) : list bytes :=
  fst (writeToAtSocket ALT_AT_SOCKET_RES_UNSOLICITED (s ++ [0]) n1 n2).

(** ** A command *)

(** [do .. while (err == AT_ERROR_COMMAND_PENDING)]: each try has its waits. *)
Fixpoint send_message (message : bytes) (prefix : option bytes) (wss : list (list wait)) (st : at_state)
  : outcome (Z * option ATResponse * at_state) :=
  match wss with
  | [] => NoFuel
  | ws :: wss =>
    '(err, p_response, st) ←
      match prefix with
      | Some prefix => at_send_command_multiline Altair false message prefix true ws st
      | None => at_send_command Altair false message true ws st
      end;
    if err =? AT_ERROR_COMMAND_PENDING then send_message message prefix wss st
    else Ret (err, p_response, st)
  end.

(** [for (p_cur = p_response->p_intermediates; ...)]: a line that does not fit
    with what follows it is left out. *)
Fixpoint add_lines (lines : list bytes) (len : Z) (buff : bytes) : outcome (Z * bytes) :=
  match lines with
  | [] => Ret (len, buff)
  | line :: lines =>
    let line_len := Z.of_nat (length line) in
    if len + line_len + 3 <=? Z.of_nat (length buff) then
      buff ← put_block buff len line;
      buff ← put_block buff (len + line_len) [10; 13];
      add_lines lines (len + line_len + 2) buff
    else add_lines lines len buff
  end.

(** The type, the array and the channel. *)
Definition processMessage (message : bytes) (prefix : option bytes) (wss : list (list wait)) (buff : bytes)
  (st : at_state) : outcome (Z * bytes * at_state) :=
  '(err, p_response, st) ← send_message message prefix wss st;
  if err =? 0 then
    p_response ← checked p_response;
    let type := if negb (success p_response =? 0) then ALT_AT_SOCKET_RES_OK else ALT_AT_SOCKET_RES_ERROR in
    '(len, buff) ← add_lines (p_intermediates p_response) 0 buff;
    f ← checked (finalResponse p_response);
    buff ← put_block buff len (f ++ [0]);
    buff ← arr_wr buff (len + Z.of_nat (length f)) 0;
    Ret (type, buff, st)
  else Ret (ALT_AT_SOCKET_RES_ERROR, buff, st).

(** ** The server's thread *)

(** [SO_PEERCRED] and the name of the peer's user. *)
Definition checkSocketCred (err szCreds : Z) (pw_name : option bytes) : Z :=
  if (err =? 0) && (0 <? szCreds) then
    match pw_name with
    | Some name => if negb (strcmp_eq name AT_SOCKET_PROCESS_NAME) then 0 else 1
    | None => 0
    end
  else 0.

(** The server: the two arrays of [atSocketMainLoop] and the AT channel. *)
Record server := mk_server { buff : bytes; resultBuff : bytes; channel : at_state }.

(** What happens to one command: the waits of its tries, and the sends. *)
Record round := mk_round { r_waits : list (list wait); r_n1 : nat; r_n2 : nat }.

(** One round on a connection: the pieces sent, or [None] when the connection
    ends. *)
Definition serve_one (r : round) (s : list bytes) (v : server) : outcome (option (list bytes) * list bytes * server) :=
  '(len, b, s) ← readFromATSocket s (buff v);
  match len with
  | None => Ret (None, s, mk_server b (resultBuff v) (channel v))
  | Some len =>
    message ← c_str b;
    let n := Z.of_nat (length message) + 1 in
    prefix ← (if n <? len then p ← c_str (drop (Z.to_nat n) b); Ret (Some p) else Ret None);
    '(type, rb, st) ← processMessage message prefix (r_waits r) (resultBuff v) (channel v);
    result ← c_str rb;
    Ret (Some (fst (writeToAtSocket type (result ++ [0]) (r_n1 r) (r_n2 r))), s, mk_server b rb st)
  end.

(** The inner loop: all that one connection is sent. *)
Fixpoint serve (rs : list round) (s : list bytes) (v : server) : outcome (list bytes * server) :=
  match rs with
  | [] => NoFuel
  | r :: rs =>
    '(out, s, v) ← serve_one r s v;
    match out with
    | None => Ret ([], v)
    | Some out => '(outs, v) ← serve rs s v; Ret (out ++ outs, v)
    end
  end.

(** A connection: its peer, what it sends, its rounds. *)
Record connection := mk_connection {
  c_err : Z; c_szCreds : Z; c_pw_name : option bytes; c_input : list bytes; c_rounds : list round }.

(** [atSocketMainLoop], until [accept] fails: what each connection is sent. *)
Fixpoint atSocketMainLoop (cs : list connection) (v : server) : outcome (list (list bytes) * server) :=
  match cs with
  | [] => Ret ([], v)
  | c :: cs =>
    '(out, v) ←
      (if ctrue (checkSocketCred (c_err c) (c_szCreds c) (c_pw_name c)) then serve (c_rounds c) (c_input c) v
       else Ret ([], v));
    '(outs, v) ← atSocketMainLoop cs v; Ret (out :: outs, v)
  end.

(** ** The client: [atSocketTest.c] *)

(** [buffer] is the static array; the result is the piece written. *)
Definition writeToATSocket (atCmd : bytes) (atCmdPrefix : option bytes) (buffer : bytes) : outcome bytes :=
  let buffer_size := 4 + Z.of_nat (length atCmd) + 1 +
    match atCmdPrefix with Some p => Z.of_nat (length p) + 1 | None => 0 end in
  let l1 := u8 (buffer_size / 256) in
  let l2 := u8 buffer_size in
  buffer ← put_block buffer 0 [0x03; 0x00; l1; l2];
  buffer ← put_block buffer 4 (atCmd ++ [0]);
  buffer ← match atCmdPrefix with
           | Some p => put_block buffer (5 + Z.of_nat (length atCmd)) (p ++ [0])
           | None => Ret buffer
           end;
  if Z.of_nat (length buffer) <? buffer_size then Ub else Ret (take (Z.to_nat buffer_size) buffer).

(** The type and the array with the answer. *)
Definition readFromAtSocket (s : list bytes) (buffer : bytes) : outcome (option (Z * Z) * bytes * list bytes) :=
  let fail s := Ret (None, buffer, s) in
  let '(ok, s) := read_is 0x03 s in
  if negb ok then fail s else
  let '(ok, s) := read_is 0x00 s in
  if negb ok then fail s else
  let '(l1, s) := read1 s in
  match l1 with
  | None => fail s
  | Some l1 =>
    let '(l2, s) := read1 s in
    match l2 with
    | None => fail s
    | Some l2 =>
      let '(type, s) := read1 s in
      match type with
      | None => fail s
      | Some type =>
        let rcv_b_size := u32 (l1 * 256 + l2 - 5) in
        if Z.of_nat (length buffer) <? rcv_b_size then fail s
        else
          let '(d, s) := sock_read rcv_b_size s in
          buffer ← put_block buffer 0 d;
          if Z.of_nat (length d) =? rcv_b_size then Ret (Some (type, rcv_b_size), buffer, s)
          else Ret (None, buffer, s)
      end
    end
  end.

(** ** Lemmas: the socket *)

Lemma sock_read_all c cs n : n = Z.of_nat (length c) -> sock_read n (c :: cs) = (c, cs).
Proof. intros ->. unfold sock_read. by rewrite Nat2Z.id, firstn_all, skipn_all. Qed.

Lemma read1_cons b c x cs : read1 ((b :: x :: c) :: cs) = (Some b, (x :: c) :: cs).
Proof. done. Qed.

Lemma read_is_cons v c x cs : read_is v ((v :: x :: c) :: cs) = (true, (x :: c) :: cs).
Proof. unfold read_is. rewrite read1_cons. by rewrite Z.eqb_refl. Qed.

Lemma c_str_app (s r : bytes) : cstr_ok s -> c_str (s ++ 0 :: r) = Ret s.
Proof.
  induction 1 as [|x s Hx Hs IH]; [done|]. cbn [app c_str].
  rewrite (proj2 (Z.eqb_neq x 0)) by (unfold is_char in Hx; lia). by rewrite IH.
Qed.

Lemma put_block_front (b d : bytes) :
  (length d <= length b)%nat -> put_block b 0 d = Ret (d ++ drop (length d) b).
Proof.
  intros Hl. unfold put_block. rewrite (proj2 (Z.leb_le 0 0)), (proj2 (Z.leb_le (0 + _) _)) by lia. done.
Qed.

Lemma put_block_tail (pre rest d : bytes) (off : Z) :
  off = Z.of_nat (length pre) ->
  put_block (pre ++ rest) off d =
    if Nat.leb (length d) (length rest) then Ret (pre ++ d ++ drop (length d) rest) else Ub.
Proof.
  intros ->. unfold put_block. rewrite length_app, (proj2 (Z.leb_le 0 _)) by lia. cbn [andb].
  destruct (Nat.leb_spec (length d) (length rest)).
  - rewrite (proj2 (Z.leb_le _ _)), Nat2Z.id, take_app_length by lia.
    by rewrite drop_app_ge, Nat.add_comm, Nat.add_sub by lia.
  - by rewrite (proj2 (Z.leb_gt _ _)) by lia.
Qed.

(** The length bytes give the length back. *)
Lemma length_bytes n : 0 <= n < 65536 -> u8 (n / 256) * 256 + u8 n = n.
Proof.
  intros Hn. rewrite (u8_small (n / 256)) by (split; [apply Z.div_pos|apply Z.div_lt_upper_bound]; lia).
  unfold u8. change (2 ^ 8) with 256. pose proof (Z.div_mod n 256 ltac:(lia)). lia.
Qed.

Lemma readFromATSocket_ok (l1 l2 : Z) (d buffer : bytes) (cs : list bytes) :
  Z.of_nat (length d) = u32 (l1 * 256 + l2 - 4) -> 4 <= Z.of_nat (length d) -> (length d <= length buffer)%nat ->
  readFromATSocket ((0x03 :: 0x00 :: l1 :: l2 :: d) :: cs) buffer =
    Ret (Some (Z.of_nat (length d)), d ++ drop (length d) buffer, cs).
Proof.
  intros Hd H4 Hb. unfold readFromATSocket. rewrite !read_is_cons. cbn [negb]. rewrite read1_cons.
  destruct d as [|x d']; [cbn in H4; lia|]. rewrite read1_cons. set (d := x :: d') in *. clearbody d.
  rewrite <- Hd, (proj2 (Z.ltb_ge _ 4)) by lia.
  rewrite sock_read_all by done. rewrite put_block_front by done. cbn [mbind outcome_bind]. by rewrite Z.eqb_refl.
Qed.

(** ** Specification: the text of an answer *)

(** The lines that fit into an array of [size] bytes, each with its end. *)
Fixpoint kept (size len : Z) (lines : list bytes) : list bytes :=
  match lines with
  | [] => []
  | line :: lines =>
    if len + Z.of_nat (length line) + 3 <=? size
    then line :: kept size (len + Z.of_nat (length line) + 2) lines else kept size len lines
  end.

Definition joined (lines : list bytes) : bytes := concat (map (fun l => l ++ [10; 13]) lines).

Definition answer_text (size : Z) (lines : list bytes) (f : bytes) : bytes := joined (kept size 0 lines) ++ f.

(** When all fits, nothing is left out. *)
Lemma kept_all size lines : forall len,
  len + Z.of_nat (length (joined lines)) + 1 <= size -> kept size len lines = lines.
Proof.
  induction lines as [|l lines IH]; intros len Hl; [done|]. cbn [kept]. unfold joined in *. cbn in Hl.
  rewrite !length_app in Hl. cbn in Hl. rewrite (proj2 (Z.leb_le _ _)) by lia. rewrite IH; [done|lia].
Qed.

Lemma add_lines_eq lines : forall pre rest,
  let ks := kept (Z.of_nat (length (pre ++ rest))) (Z.of_nat (length pre)) lines in
  add_lines lines (Z.of_nat (length pre)) (pre ++ rest) =
    Ret (Z.of_nat (length (pre ++ joined ks)), (pre ++ joined ks) ++ drop (length (joined ks)) rest) /\
  (rest <> [] -> (length (joined ks) < length rest)%nat).
Proof.
  induction lines as [|l lines IH]; intros pre rest ks.
  { cbn. rewrite app_nil_r. split; [done|]. destruct rest; [done|cbn; lia]. }
  subst ks. cbn [add_lines kept]. destruct (Z.leb_spec (Z.of_nat (length pre) + Z.of_nat (length l) + 3)
    (Z.of_nat (length (pre ++ rest)))) as [Hfit|]; [|apply IH].
  rewrite length_app in Hfit.
  rewrite (put_block_tail pre rest l) by done. rewrite (proj2 (Nat.leb_le _ _)) by lia. cbn [mbind outcome_bind].
  rewrite app_assoc, (put_block_tail (pre ++ l)) by (rewrite length_app; lia).
  rewrite (proj2 (Nat.leb_le _ _)) by (rewrite length_drop; cbn; lia). cbn [mbind outcome_bind length].
  rewrite drop_drop, app_assoc.
  specialize (IH ((pre ++ l) ++ [10; 13]) (drop (length l + 2) rest)). cbv zeta in IH.
  replace (Z.of_nat (length (((pre ++ l) ++ [10; 13]) ++ drop (length l + 2) rest)))
    with (Z.of_nat (length (pre ++ rest))) in IH by (rewrite !length_app, length_drop; cbn; lia).
  replace (Z.of_nat (length ((pre ++ l) ++ [10; 13]))) with (Z.of_nat (length pre) + Z.of_nat (length l) + 2) in IH
    by (rewrite !length_app; cbn; lia).
  destruct IH as [-> IH]. set (ks := kept _ _ lines) in *. clearbody ks.
  change (joined (l :: ks)) with ((l ++ [10; 13]) ++ joined ks).
  rewrite drop_drop, !length_app, <- !app_assoc. cbn [length]. split; [do 2 f_equal; lia|]. intros Hr.
  rewrite length_drop in IH. destruct (drop (length l + 2) rest) eqn:Ed.
  - apply (f_equal length) in Ed. rewrite length_drop in Ed. cbn in Ed. lia.
  - specialize (IH ltac:(done)). lia.
Qed.

(** [strcpy] of the final response, and the terminator once more. *)
Lemma put_final (pre rest f : bytes) :
  (b ← put_block (pre ++ rest) (Z.of_nat (length pre)) (f ++ [0]);
   arr_wr b (Z.of_nat (length pre) + Z.of_nat (length f)) 0) =
  if Nat.ltb (length f) (length rest) then Ret ((pre ++ f) ++ 0 :: drop (S (length f)) rest) else Ub.
Proof.
  rewrite put_block_tail by done. rewrite length_app, Nat.add_1_r. cbn [length].
  destruct (Nat.ltb_spec (length f) (length rest)).
  - rewrite (proj2 (Nat.leb_le _ _)) by lia. cbn [mbind outcome_bind].
    rewrite <- (app_assoc f). rewrite (app_assoc pre). cbn [app].
    apply arr_wr_middle. rewrite length_app. lia.
  - by rewrite (proj2 (Nat.leb_gt _ _)) by lia.
Qed.

(** ** Lemmas: a command *)

Definition message_type (prefix : option bytes) : ATCommandType :=
  match prefix with Some _ => MULTILINE | None => NO_RESULT end.

(** The lines of the answer that the socket's client gets. *)
Definition wanted (prefix : option bytes) (ls : list bytes) : list bytes :=
  match prefix with Some p => List.filter (fun l => strStartsWith l p) ls | None => [] end.

(** An idle channel, a command that can be written, and the radio's answer to
    it. *)
Record answered (st : at_state) (command : bytes) (ls : list bytes) (f : bytes) (ws : list wait) : Prop := {
  ans_idle : idle st;
  ans_written : exists st1, writeline command st = Ret (0, st1);
  ans_lines : Forall (fun l => isFinalResponse l = false) ls;
  ans_final : isFinalResponse f = true;
  ans_waits : concat (map fst ws) = map ALine (ls ++ [f]) }.

Lemma send_message_answer command prefix ls f ws wss st :
  answered st command ls f ws ->
  exists st', send_message command prefix (ws :: wss) st =
      Ret (0, Some (mk_at_response (b2z (isFinalResponseSuccess f)) (Some f) (wanted prefix ls)), st') /\
    sp_response st' = None /\ exists es, evs st' = evs st ++ EvWrite (command ++ [13]) :: es.
Proof.
  intros [Hi [st1 Hw] Hls Hf E].
  assert (prefix_ok (message_type prefix) prefix) as Hok by (destruct prefix; [by eexists|done]).
  pose proof (send_command_classified Altair command (message_type prefix) prefix ls f ws st st1 Hi Hok Hw Hls Hf E)
    as Hs.
  rewrite classify_expected in Hs.
  assert (expected_split Altair (message_type prefix) (default [] prefix) ls =
    (wanted prefix ls, snd (expected_split Altair (message_type prefix) (default [] prefix) ls))) as Ee
    by (by destruct prefix).
  rewrite Ee in Hs. destruct Hs as (st' & Hs & Hr & _ & _ & He). exists st'.
  split; [|split; [done|by eexists]]. cbn [send_message].
  destruct prefix as [p|]; cbn [message_type] in Hs;
    unfold at_send_command_multiline, at_send_command, at_send_command_full; rewrite Hs; done.
Qed.

(** The array after an answer. *)
Lemma processMessage_eq message prefix ls f ws wss buff st :
  answered st message ls f ws -> buff <> [] ->
  exists st', sp_response st' = None /\ (exists es, evs st' = evs st ++ EvWrite (message ++ [13]) :: es) /\
    let text := answer_text (Z.of_nat (length buff)) (wanted prefix ls) f in
    processMessage message prefix (ws :: wss) buff st =
      if Nat.ltb (length text) (length buff)
      then Ret (b2z (isFinalResponseSuccess f), text ++ 0 :: drop (S (length text)) buff, st') else Ub.
Proof.
  intros Ha Hb. destruct (send_message_answer message prefix ls f ws wss st Ha) as (st' & Hs & Hr & He).
  exists st'. split; [done|]. split; [done|]. unfold processMessage, answer_text. rewrite Hs.
  cbn [mbind outcome_bind]. change (0 =? 0) with true. cbn [checked mbind outcome_bind success p_intermediates finalResponse].
  pose proof (add_lines_eq (wanted prefix ls) [] buff) as Hadd. cbn [app length] in Hadd. cbv zeta in Hadd.
  change (Z.of_nat 0) with 0 in Hadd. destruct Hadd as [-> Hlt]. specialize (Hlt Hb).
  set (ks := joined _) in *. cbn [mbind outcome_bind]. rewrite length_app.
  pose proof (put_final ks (drop (length ks) buff) f) as Hp. rewrite length_drop in Hp.
  replace (Nat.ltb (length f) (length buff - length ks)) with (Nat.ltb (length ks + length f) (length buff)) in Hp
    by (destruct (Nat.ltb_spec (length ks + length f) (length buff)), (Nat.ltb_spec (length f) (length buff - length ks));
        done || lia).
  destruct (put_block _ _ (f ++ [0])) as [b| | |]; cbn [mbind outcome_bind] in *.
  - rewrite Hp. destruct (Nat.ltb _ _); [|done]. cbn [mbind outcome_bind]. rewrite drop_drop, <- plus_n_Sm.
    by destruct (isFinalResponseSuccess f).
  - by destruct (Nat.ltb _ _).
  - by destruct (Nat.ltb _ _).
  - by destruct (Nat.ltb _ _).
Qed.

Lemma writeToAtSocket_ok type d :
  writeToAtSocket type d 5 (length d) =
    ([[0x03; 0x00; u8 ((Z.of_nat (length d) + 5) / 256); u8 (Z.of_nat (length d) + 5); u8 type]; d], 1).
Proof. unfold writeToAtSocket. by rewrite !Nat.eqb_refl. Qed.

(** The client's message: its header, the command and the prefix. *)
Definition message_body (cmd : bytes) (prefix : option bytes) : bytes :=
  cmd ++ 0 :: match prefix with Some p => p ++ [0] | None => [] end.

Lemma writeToATSocket_ok cmd prefix buffer :
  let d := message_body cmd prefix in
  let n := Z.of_nat (length d) + 4 in
  (length d + 4 <= length buffer)%nat ->
  writeToATSocket cmd prefix buffer = Ret (0x03 :: 0x00 :: u8 (n / 256) :: u8 n :: d).
Proof.
  intros d n Hb. unfold writeToATSocket. subst n. unfold message_body in d.
  assert (4 + Z.of_nat (length cmd) + 1 + match prefix with Some p => Z.of_nat (length p) + 1 | None => 0 end =
    Z.of_nat (length d) + 4) as ->.
  { unfold d. rewrite length_app. destruct prefix; cbn; rewrite ?length_app; cbn; lia. }
  set (n := Z.of_nat (length d) + 4). set (hd := [3; 0; u8 (n / 256); u8 n]).
  assert (length cmd + 1 + match prefix with Some p => length p + 1 | None => 0 end = length d)%nat as Hd.
  { unfold d. rewrite length_app. destruct prefix; cbn; rewrite ?length_app; cbn; lia. }
  rewrite put_block_front by (cbn; lia). cbn [mbind outcome_bind length].
  rewrite (put_block_tail hd) by done.
  rewrite (proj2 (Nat.leb_le _ _)) by (rewrite length_drop, length_app; cbn; lia). cbn [mbind outcome_bind].
  rewrite (app_assoc hd).
  set (t := drop (length (cmd ++ [0])) _).
  assert (length t + length cmd + 5 = length buffer)%nat as Ht
    by (unfold t; rewrite !length_drop, length_app; cbn; lia). clearbody t.
  assert (exists r, (match prefix with
    | Some p => put_block ((hd ++ cmd ++ [0]) ++ t) (5 + Z.of_nat (length cmd)) (p ++ [0])
    | None => Ret ((hd ++ cmd ++ [0]) ++ t) end) = Ret ((hd ++ d) ++ r)) as [r ->].
  { unfold d. destruct prefix as [p|].
    - rewrite put_block_tail by (rewrite !length_app; cbn; lia).
      rewrite (proj2 (Nat.leb_le _ _)) by (rewrite !length_app; cbn; lia).
      eexists. f_equal. rewrite <- !app_assoc. cbn [app]. rewrite <- app_assoc. reflexivity.
    - exists t. by rewrite <- !app_assoc. }
  cbn [mbind outcome_bind].
  rewrite (proj2 (Z.ltb_ge _ _)) by (rewrite !length_app; unfold n; cbn; lia).
  by rewrite take_app_exact by (rewrite length_app; unfold n; cbn; lia).
Qed.

Lemma readFromAtSocket_ok l1 l2 type d buffer :
  u32 (l1 * 256 + l2 - 5) = Z.of_nat (length d) -> (length d <= length buffer)%nat ->
  readFromAtSocket [[0x03; 0x00; l1; l2; type]; d] buffer =
    Ret (Some (type, Z.of_nat (length d)), d ++ drop (length d) buffer, []).
Proof.
  intros Hn Hl. unfold readFromAtSocket. rewrite !read_is_cons. cbn [negb]. rewrite !read1_cons.
  change (read1 ([type] :: ?c)) with (Some type, c). cbn [negb]. rewrite Hn, (proj2 (Z.ltb_ge _ _)) by lia.
  rewrite sock_read_all, put_block_front by done. cbn [mbind outcome_bind]. by rewrite Z.eqb_refl.
Qed.

(** The strings that the server finds in its array. *)
Lemma server_strings cmd prefix rest :
  cstr_ok cmd -> (forall p, prefix = Some p -> cstr_ok p) ->
  let b := message_body cmd prefix ++ rest in
  let n := Z.of_nat (length cmd) + 1 in
  c_str b = Ret cmd /\
  (if n <? Z.of_nat (length (message_body cmd prefix))
   then p ← c_str (drop (Z.to_nat n) b); Ret (Some p) else Ret None) = Ret prefix.
Proof.
  intros Hc Hp b n. unfold b, message_body. rewrite <- app_assoc. cbn [app]. split; [by apply c_str_app|].
  rewrite length_app. cbn [length]. rewrite app_cons1.
  rewrite drop_app_exact by (rewrite length_app; unfold n; cbn; lia).
  destruct prefix as [p|].
  - rewrite (proj2 (Z.ltb_lt _ _)) by (rewrite length_app; unfold n; cbn; lia).
    rewrite <- app_assoc. cbn [app]. rewrite c_str_app by auto. done.
  - by rewrite (proj2 (Z.ltb_ge _ _)) by (unfold n; cbn; lia).
Qed.

Lemma text_ok prefix ls f : Forall cstr_ok ls -> cstr_ok f -> cstr_ok (joined (wanted prefix ls) ++ f).
Proof.
  intros Hl Hf. apply cstr_ok_app. split; [|done]. apply Forall_concat, Forall_map.
  assert (Forall cstr_ok (wanted prefix ls)) as Hw.
  { destruct prefix; [|constructor]. apply List.Forall_forall. intros x [Hx _]%filter_In.
    by apply (proj1 (List.Forall_forall _ _) Hl). }
  eapply Forall_impl; [exact Hw|]. intros l Hlo. apply cstr_ok_app. split; [done|].
  repeat constructor; unfold is_char; lia.
Qed.

(** The server on a client's message: what it sends. *)
Definition reply (f text : bytes) : list bytes :=
  fst (writeToAtSocket (b2z (isFinalResponseSuccess f)) (text ++ [0]) 5 (S (length text))).

Lemma serve_one_answer cmd prefix ls f ws wss v :
  cstr_ok cmd -> (forall p, prefix = Some p -> cstr_ok p) -> Forall cstr_ok ls -> cstr_ok f ->
  answered (channel v) cmd ls f ws ->
  let d := message_body cmd prefix in
  let n := Z.of_nat (length d) + 4 in
  let text := joined (wanted prefix ls) ++ f in
  8 <= n <= MAX_SIZE -> Z.of_nat (length text) + 1 <= MAX_SIZE ->
  Z.of_nat (length (buff v)) = MAX_SIZE -> Z.of_nat (length (resultBuff v)) = MAX_SIZE ->
  exists v', serve_one (mk_round (ws :: wss) 5 (S (length text))) [0x03 :: 0x00 :: u8 (n / 256) :: u8 n :: d] v =
      Ret (Some (reply f text), [], v') /\
    sp_response (channel v') = None /\
    exists es, evs (channel v') = evs (channel v) ++ EvWrite (cmd ++ [13]) :: es.
Proof.
  intros Hc Hp Hl Hf Ha d n text Hsz Ht Hb1 Hb2. unfold MAX_SIZE in *. unfold serve_one. cbn [r_waits r_n1 r_n2].
  rewrite readFromATSocket_ok;
    [|rewrite length_bytes by lia; unfold n; rewrite Z.add_simpl_r; by rewrite u32_small by lia|lia|lia].
  cbn [mbind outcome_bind].
  destruct (server_strings cmd prefix (drop (length d) (buff v)) Hc Hp) as [E1 E2]. fold d in E1, E2.
  rewrite E1. cbn [mbind outcome_bind]. rewrite E2. cbn [mbind outcome_bind].
  assert (resultBuff v <> []) as Hne by (destruct (resultBuff v); [cbn in Hb2; lia|done]).
  destruct (processMessage_eq cmd prefix ls f ws wss (resultBuff v) (channel v) Ha Hne) as (st' & Hr & He & Hpm).
  assert (answer_text (Z.of_nat (length (resultBuff v))) (wanted prefix ls) f = text) as Et.
  { unfold answer_text, text. rewrite kept_all; [done|]. unfold text in Ht. rewrite length_app in Ht. lia. }
  cbv zeta in Hpm. rewrite Et in Hpm. rewrite (proj2 (Nat.ltb_lt _ _)) in Hpm by lia. rewrite Hpm.
  cbn [mbind outcome_bind]. rewrite c_str_app by by apply text_ok. cbn [mbind outcome_bind].
  eexists. split; [reflexivity|]. by split.
Qed.

(** ** Properties *)


(** The array of an answer.  The lines that do not fit are left out, but the
    final response is copied without regard to what is left: it is stored past
    the end of the array when it does not fit.  When the command fails, the
    array is left as the command before it left it, and that is the answer. *)
Theorem answer_array (message : bytes) (prefix : option bytes) (ls : list bytes) (f buff : bytes)
  (ws : list wait) (wss : list (list wait)) (st : at_state) :
  buff <> [] ->
  (answered st message ls f ws ->
   let text := answer_text (Z.of_nat (length buff)) (wanted prefix ls) f in
   exists st', processMessage message prefix (ws :: wss) buff st =
     if Nat.ltb (length text) (length buff)
     then Ret (b2z (isFinalResponseSuccess f), text ++ 0 :: drop (S (length text)) buff, st') else Ub) /\
  (sp_response st = None -> s_fd st < 0 \/ 0 < s_readerClosed st ->
   processMessage message prefix (ws :: wss) buff st =
     Ret (ALT_AT_SOCKET_RES_ERROR, buff, clearPendingCommand st)).
Proof.
  intros Hb. split.
  - intros Ha text. destruct (processMessage_eq message prefix ls f ws wss buff st Ha Hb) as (st' & _ & _ & E).
    by exists st'.
  - intros Hr Hc. assert (writeline message st = Ret (AT_ERROR_CHANNEL_CLOSED, st)) as Hw.
    { unfold writeline, write_terminated.
      destruct (Z.ltb_spec (s_fd st) 0), (Z.ltb_spec 0 (s_readerClosed st)); done || lia. }
    unfold processMessage, send_message, at_send_command_multiline, at_send_command, at_send_command_full,
      at_send_command_full_nolock, send_begin. rewrite Hr, Hw. by destruct prefix.
Qed.


(** ** Witnesses *)

Definition array : bytes := replicate (Z.to_nat MAX_SIZE) 0.

Lemma array_length : Z.of_nat (length array) = MAX_SIZE.
Proof. unfold array. rewrite length_replicate, Z2Nat.id; done. Qed.

Lemma letters_ok (s : bytes) : forallb (fun c => (0 <? c) && (c <? 256)) s = true -> cstr_ok s.
Proof.
  intros H. apply List.Forall_forall. intros c Hc.
  rewrite forallb_forall in H. specialize (H c Hc). zbool. unfold is_char. lia.
Qed.

(** [AT+CLCC] and its prefix, with a call and an unsolicited line. *)
Definition example_waits : list wait :=
  [([ALine (s2b "+CLCC: 1,0"); ALine (s2b "+CREG: 1")], false); ([ALine (s2b "OK")], false)].
Definition example_channel : at_state := idle_state [Wrote 7; Wrote 1].

Lemma example_answered :
  answered example_channel (s2b "AT+CLCC") [s2b "+CLCC: 1,0"; s2b "+CREG: 1"] (s2b "OK") example_waits.
Proof.
  split; [done| |by repeat constructor|done|done]. eexists. vm_compute. reflexivity.
Qed.


(** An array of ten bytes takes the answer without its line, and one of two does
    not take it; a closed channel leaves what was there. *)
Lemma answer_array_witness :
  (exists st', processMessage (s2b "AT+CLCC") (Some (s2b "+CLCC:")) [example_waits] (replicate 10 1) example_channel =
     Ret (1, s2b "OK" ++ 0 :: replicate 7 1, st')) /\
  processMessage (s2b "AT+CLCC") (Some (s2b "+CLCC:")) [example_waits] (replicate 2 1) example_channel = Ub /\
  processMessage (s2b "AT+CLCC") (Some (s2b "+CLCC:")) [example_waits] (s2b "OK") (at_close example_channel) =
    Ret (ALT_AT_SOCKET_RES_ERROR, s2b "OK", clearPendingCommand (at_close example_channel)).
Proof.
  pose proof (fun b Hb st => answer_array (s2b "AT+CLCC") (Some (s2b "+CLCC:"))
    [s2b "+CLCC: 1,0"; s2b "+CREG: 1"] (s2b "OK") b example_waits [] st Hb) as H.
  split_and!.
  - destruct (H (replicate 10 1) ltac:(done) example_channel) as [Ha _]. exact (Ha example_answered).
  - destruct (H (replicate 2 1) ltac:(done) example_channel) as [Ha _]. destruct (Ha example_answered) as (st' & E).
    exact E.
  - destruct (H (s2b "OK") ltac:(done) (at_close example_channel)) as [_ Hc]. apply Hc; [done|]. left. done.
Defined.

