(* ===== verification/RilPort.v ===== *)
(** * The RIL's request handlers: commands, state and effects

    What the handlers of [reference-ril.c] stand on: an interface for sending AT
    commands, with the promises the handlers rely on, in three degrees
    ([Partial]: what a command that returns leaves; [Safe]: no invalid access
    besides; [Total]: it returns); the AT channel with a modem behind it as an
    implementation, and a modem that answers from a script; the variables that
    handlers keep; and a monad for code that sends commands, answers requests and
    may make an invalid access.

    Responses are not freed in the model: a handler that frees one twice, or
    uses one that is freed, does not fail here. *)

From S2P Require Import Prelude CString AtTok Misc AtChannel.

(** ** Interface: sending AT commands *)

Inductive at_request :=
| AT (cmd : bytes)
| AT_singleline (cmd prefix : bytes)
| AT_numeric (cmd : bytes)
| AT_sms (cmd pdu prefix : bytes)
| AT_multiline (cmd prefix : bytes).

(** The calls that turn an [OK] without a line into an error. *)
Definition needs_line (q : at_request) : bool :=
  match q with AT_singleline _ _ | AT_numeric _ | AT_sms _ _ _ => true | _ => false end.

(** [at_send q want p]: the returned error, the response stored when [want], and
    the channel afterwards; [at_shake p]: the handshake's result; [at_shut p]: the
    channel closed. *)
Class at_port := {
  port : Type;
  port_ok : port -> Prop;
  at_send : at_request -> bool -> port -> outcome (Z * option ATResponse * port);
  at_shake : port -> outcome (Z * port);
  at_shut : port -> port }.

(** What a call with [want] may return: errors are negative; a call without an
    error has stored a response; and one that needs a line has stored at least one
    line with a success. *)
Definition send_result (q : at_request) (want : bool) (err : Z) (r : option ATResponse) : Prop :=
  err <= 0 /\
  (err = 0 -> want = true -> exists resp, r = Some resp /\ 0 <= success resp /\
     (needs_line q = true -> success resp <> 0 -> p_intermediates resp <> [])).

(** How much is asked of a computation: that what it returns is right; that it makes
    no invalid access and no assertion fails either; that it returns too. *)
Inductive mode := Partial | Safe | Total.

Definition holds {A} (t : mode) (P : A -> Prop) (o : outcome A) : Prop :=
  match o with Ret a => P a | NoFuel => t <> Total | Ub | Halt => t = Partial end.

(** What the handlers rely on; with [Total], that every command comes back. *)
Class at_port_laws `{at_port} (t : mode) := {
  at_send_promise q want p : port_ok p ->
    holds t (fun '(err, r, p') => port_ok p' /\ send_result q want err r) (at_send q want p);
  at_shake_promise p : port_ok p -> holds t (fun '(_, p') => port_ok p') (at_shake p);
  at_shut_promise p : port_ok p -> port_ok (at_shut p) }.

Lemma holds_bind {A B} (t : mode) (P : A -> Prop) (Q : B -> Prop) (m : outcome A) (k : A -> outcome B) :
  holds t P m -> (forall a, P a -> holds t Q (k a)) -> holds t Q (a ← m; k a).
Proof. destruct m; cbn; auto; done. Qed.

Lemma holds_mono {A} (t : mode) (P Q : A -> Prop) (m : outcome A) :
  holds t P m -> (forall a, P a -> Q a) -> holds t Q m.
Proof. destruct m; cbn; auto. Qed.

Lemma holds_partial {A} (t : mode) (P : A -> Prop) (m : outcome A) : holds t P m -> holds Partial P m.
Proof. by destruct m. Qed.

Lemma holds_safely {A} (P : A -> Prop) (m : outcome A) : safely P m -> holds Safe P m.
Proof. by destruct m. Qed.

(** Whatever holds of the port holds partially. *)
Lemma port_laws_partial `{at_port} (t : mode) : at_port_laws t -> at_port_laws Partial.
Proof.
  intros L. split.
  - intros q want p Hp. by apply (holds_partial t), at_send_promise.
  - intros p Hp. by apply (holds_partial t), at_shake_promise.
  - apply at_shut_promise.
Qed.

(** ** The AT channel as such a port

    A port is a channel and the waits of the commands to come. *)

Section channel_port.
Context (v : variant).

Definition channel_send (q : at_request) (want : bool) (p : at_state * list (list wait))
  : outcome (Z * option ATResponse * (at_state * list (list wait))) :=
  match snd p with
  | [] => NoFuel
  | ws :: wss =>
    '(err, r, st) ←
      match q with
      | AT cmd => at_send_command v false cmd want ws (fst p)
      | AT_singleline cmd prefix => at_send_command_singleline v false cmd prefix want ws (fst p)
      | AT_numeric cmd => at_send_command_numeric v false cmd want ws (fst p)
      | AT_sms cmd pdu prefix => at_send_command_sms v false cmd pdu prefix want ws (fst p)
      | AT_multiline cmd prefix => at_send_command_multiline v false cmd prefix want ws (fst p)
      end;
    Ret (err, r, (st, wss))
  end.

(** No command is pending, and while one waits no other begins. *)
Definition channel_ok (p : at_state * list (list wait)) : Prop :=
  sp_response (fst p) = None /\ 0 <= s_readerClosed (fst p) /\
  Forall (Forall (fun w => Forall no_other_command (fst w))) (snd p).

Definition channel_shake (p : at_state * list (list wait)) : outcome (Z * (at_state * list (list wait))) :=
  '(err, st) ← at_handshake v false (take HANDSHAKE_RETRY_COUNT (snd p)) (fst p);
  Ret (err, (st, drop HANDSHAKE_RETRY_COUNT (snd p))).

#[export] Instance channel_port : at_port := {|
  port := at_state * list (list wait); port_ok := channel_ok; at_send := channel_send; at_shake := channel_shake;
  at_shut p := (at_close (fst p), snd p) |}.

(** ** Lemmas: a waiting command *)

(** A response is pending, its success flag is no error, and the channel was not
    closed a negative number of times. *)
Definition pending_ok (st : at_state) : Prop :=
  awaiting st /\ (forall r, sp_response st = Some r -> 0 <= success r) /\ 0 <= s_readerClosed st.

Lemma pending_unsol line st : pending_ok st -> pending_ok (handleUnsolicited line st).
Proof. unfold handleUnsolicited. by destruct (s_unsolHandler st). Qed.

Lemma addIntermediate_ok line st : pending_ok st -> safely pending_ok (addIntermediate line st).
Proof.
  intros ([[r Hr] Hok] & Hs & Hc). unfold addIntermediate. rewrite Hr. cbn. split_and!; [by split; [eexists|]| |done].
  intros r' [= <-]. cbn. by apply Hs.
Qed.

Lemma switch_ok line r st : pending_ok st -> safely pending_ok (processLine_switch v line r st).
Proof.
  intros Hp. pose proof (addIntermediate_ok line st Hp) as Hi. pose proof (pending_unsol line st Hp) as Hu.
  pose proof (processLine_switch_safe v line r st (proj1 Hp)) as Hsafe.
  unfold processLine_switch, has_prefix, multiline_other in *.
  destruct (s_responsePrefix st) as [p|]; cbn [checked mbind outcome_bind] in *;
    repeat case_match; done.
Qed.

Lemma processLine_ok line st : pending_ok st -> safely pending_ok (processLine v line st).
Proof.
  intros Hp. pose proof (switch_ok line) as Hsw. pose proof Hp as ([[r Hr] Hok] & Hs & Hc).
  assert (forall z, 0 <= z -> pending_ok (emit EvSignal (set_response
    (Some (mk_at_response z (Some line) (p_intermediates r))) st))) as Hf.
  { intros z Hz. split_and!; [by split; [eexists|]| |done]. by intros r' [= <-]. }
  unfold processLine, set_success, handleFinalResponse. rewrite Hr.
  case_match; [by apply Hf|]. case_match; [by apply Hf|].
  destruct (s_smsPDU st) as [pdu|]; [|by apply Hsw]. case_match; [|by apply Hsw].
  eapply safely_bind; [apply write_terminated_safe|].
  intros [e st1] (w & d & E). cbn in E. subst. cbn. split_and!; [by split; [eexists|]|done|done].
Qed.

Lemma run_actions_ok acts st :
  Forall no_other_command acts -> pending_ok st -> safely pending_ok (run_actions v acts st).
Proof.
  intros Hf; revert st; induction Hf as [|a acts Hn Hf IH]; intros st Hp; cbn [run_actions]; [done|].
  eapply safely_bind; [|intros; by apply IH]. destruct a; cbn [run_action].
  - by apply processLine_ok.
  - unfold onReaderClosed. case_match; [|done]. by destruct Hp as (? & ? & ?).
  - unfold at_close. destruct Hp as (? & ? & ?). cbn. by case_match.
  - done.
Qed.

(** The wait ends with a timeout, a closed channel or the final response. *)
Lemma wait_loop_ok timeout ws st :
  Forall (fun w => Forall no_other_command (fst w)) ws -> pending_ok st ->
  safely (fun p => pending_ok (snd p) /\ fst p <= 0) (wait_loop v timeout ws st).
Proof.
  intros Hf; revert st; induction Hf as [|[acts t] ws Hw Hf IH]; intros st Hp;
    pose proof Hp as ([[r Hr] _] & _); cbn [wait_loop]; rewrite Hr.
  - by repeat case_match.
  - case_match; [done|]. case_match; [|done].
    eapply safely_bind; [by apply run_actions_ok|]. intros st1 H1. cbn beta. case_match; [done|by apply IH].
Qed.

(** A whole command. *)
Lemma nolock_ok cmd type prefix pdu timeoutMsec want ws st :
  prefix_ok type prefix -> sp_response st = None -> 0 <= s_readerClosed st ->
  Forall (fun w => Forall no_other_command (fst w)) ws ->
  safely (fun p => sp_response (snd p) = None /\ 0 <= s_readerClosed (snd p) /\ fst (fst p) <= 0 /\
    (fst (fst p) = 0 -> want = true -> exists resp, snd (fst p) = Some resp /\ 0 <= success resp))
    (at_send_command_full_nolock v cmd type prefix pdu timeoutMsec want ws st).
Proof.
  intros Hok Hr Hc Hws. unfold at_send_command_full_nolock, send_begin. rewrite Hr.
  pose proof (write_terminated_safe 13 cmd st) as Hw. unfold writeline.
  destruct (write_terminated 13 cmd st) as [[e st1]| | |] eqn:Ew; try done.
  cbn [mbind outcome_bind safely] in *. destruct Hw as (w & d & E). cbn in E. subst st1.
  destruct (Z.ltb_spec e 0) as [Hlt|Hge]; cbn [mbind outcome_bind].
  { rewrite (proj2 (Z.ltb_lt e 0)) by done. cbn. split_and!; try done; lia. }
  change (0 <? 0) with false. cbn match.
  eapply safely_bind; [apply wait_loop_ok; [exact Hws|]|].
  { split_and!; [by split; [eexists|]| |done]. by intros r [= <-]. }
  intros [e2 st2] [([[r Hr2] _] & Hs2 & Hc2) He2]. cbn [fst snd] in *.
  destruct (Z.ltb_spec e2 0) as [Hlt|Hge2]; [split_and!; cbn; try done; lia|].
  unfold send_finish. rewrite Hr2. destruct want; cbn; split_and!; try done; try (by case_match).
  intros _ _. eexists. split; [done|]. cbn. by apply Hs2.
Qed.

Lemma full_ok cmd type prefix pdu timeoutMsec want ws st :
  prefix_ok type prefix -> sp_response st = None -> 0 <= s_readerClosed st ->
  Forall (fun w => Forall no_other_command (fst w)) ws ->
  safely (fun p => sp_response (snd p) = None /\ 0 <= s_readerClosed (snd p) /\ fst (fst p) <= 0 /\
    (fst (fst p) = 0 -> want = true -> exists resp, snd (fst p) = Some resp /\ 0 <= success resp))
    (at_send_command_full v false cmd type prefix pdu timeoutMsec want ws st).
Proof.
  intros Hok Hr Hc Hws. unfold at_send_command_full.
  eapply safely_bind; [by apply nolock_ok|]. intros [[err out] st'] (H1 & H2 & H3 & H4). cbn in *.
  split_and!; try done; by case_match.
Qed.

Lemma require_ok want (o : outcome (Z * option ATResponse * at_state)) :
  safely (fun p => sp_response (snd p) = None /\ 0 <= s_readerClosed (snd p) /\ fst (fst p) <= 0 /\
    (fst (fst p) = 0 -> want = true -> exists resp, snd (fst p) = Some resp /\ 0 <= success resp)) o ->
  safely (fun p => sp_response (snd p) = None /\ 0 <= s_readerClosed (snd p) /\ fst (fst p) <= 0 /\
    (fst (fst p) = 0 -> want = true -> exists resp, snd (fst p) = Some resp /\ 0 <= success resp /\
       (success resp <> 0 -> p_intermediates resp <> []))) (r ← o; Ret (require_intermediate r)).
Proof.
  intros Ho. eapply safely_bind; [exact Ho|]. intros [[err [r|]] st] (H1 & H2 & H3 & H4); cbn in *; cycle 1.
  { split_and!; try done. intros He Hw. destruct (H4 He Hw) as (resp & [=] & _). }
  destruct ((err =? 0) && (0 <? success r) && no_intermediates r) eqn:E; cbn; [done|].
  split_and!; try done. intros He Hw. destruct (H4 He Hw) as (resp & [= <-] & Hs). exists r. split_and!; [done|done|].
  intros Hne Hi. unfold no_intermediates in E. rewrite Hi in E. subst err. cbn in E. rewrite andb_true_r in E.
  zbool. lia.
Qed.

(** Every kind of command keeps the promises of the interface. *)
Lemma channel_send_ok (q : at_request) (want : bool) (p : at_state * list (list wait)) :
  channel_ok p ->
  safely (fun res => channel_ok (snd res) /\ fst (fst res) <= 0 /\
    (fst (fst res) = 0 -> want = true -> exists resp, snd (fst res) = Some resp /\ 0 <= success resp /\
       (needs_line q = true -> success resp <> 0 -> p_intermediates resp <> []))) (channel_send q want p).
Proof.
  destruct p as [st [|ws wss]]; [done|]. intros (Hr & Hc & Hws). cbn [fst snd] in *.
  apply Forall_cons in Hws as [Hw Hws]. unfold channel_send. cbn [fst snd].
  assert (forall t pr, prefix_ok t pr -> forall cmd pdu,
    safely _ (at_send_command_full v false cmd t pr pdu 0 want ws st)) as Hfull
    by (intros t pr Hok cmd pdu; exact (full_ok cmd t pr pdu 0 want ws st Hok Hr Hc Hw)).
  assert (prefix_ok NO_RESULT None /\ prefix_ok NUMERIC None) as [Hn1 Hn2] by done.
  assert (forall pr, prefix_ok SINGLELINE (Some pr) /\ prefix_ok MULTILINE (Some pr)) as Hp by (by intros pr; split; eexists).
  eapply safely_bind with (P := fun p => sp_response (snd p) = None /\ 0 <= s_readerClosed (snd p) /\ fst (fst p) <= 0 /\
    (fst (fst p) = 0 -> want = true -> exists resp, snd (fst p) = Some resp /\ 0 <= success resp /\
       (needs_line q = true -> success resp <> 0 -> p_intermediates resp <> []))).
  - destruct q as [cmd|cmd pr|cmd|cmd pdu pr|cmd pr]; cbn [needs_line].
    + eapply safely_mono; [by apply (Hfull NO_RESULT None)|]. intros p (?&?&?&H4). split_and!; try done.
      intros He Ht. destruct (H4 He Ht) as (resp & ? & ?). by exists resp.
    + eapply safely_mono; [apply require_ok, (Hfull SINGLELINE (Some pr)), Hp|]. intros p (?&?&?&H4). split_and!; try done.
      intros He Ht. destruct (H4 He Ht) as (resp & ? & ? & ?). by exists resp.
    + eapply safely_mono; [by apply require_ok, (Hfull NUMERIC None)|]. intros p (?&?&?&H4). split_and!; try done.
      intros He Ht. destruct (H4 He Ht) as (resp & ? & ? & ?). by exists resp.
    + eapply safely_mono; [apply require_ok, (Hfull SINGLELINE (Some pr)), Hp|]. intros p (?&?&?&H4). split_and!; try done.
      intros He Ht. destruct (H4 He Ht) as (resp & ? & ? & ?). by exists resp.
    + eapply safely_mono; [apply (Hfull MULTILINE (Some pr)), Hp|]. intros p (?&?&?&H4). split_and!; try done.
      intros He Ht. destruct (H4 He Ht) as (resp & ? & ?). by exists resp.
  - intros [[err r] st'] (H1 & H2 & H3 & H4). cbn in *. by split_and!.
Qed.

Lemma handshake_loop_ok n wss err st :
  Forall (Forall (fun w => Forall no_other_command (fst w))) wss -> sp_response st = None -> 0 <= s_readerClosed st ->
  safely (fun p => sp_response (snd p) = None /\ 0 <= s_readerClosed (snd p)) (handshake_loop v n wss err st).
Proof.
  revert wss err st. induction n as [|n IH]; intros [|ws wss] err st Hws Hr Hc; cbn [handshake_loop]; try done.
  apply Forall_cons in Hws as [Hw Hws].
  eapply safely_bind; [by apply nolock_ok|]. intros [[e r] st1] (H1 & H2 & _). cbn in *.
  case_match; [done|]. by apply IH.
Qed.

Lemma channel_shake_ok (p : at_state * list (list wait)) :
  channel_ok p -> safely (fun res => channel_ok (snd res)) (channel_shake p).
Proof.
  intros (Hr & Hc & Hw). unfold channel_shake, at_handshake.
  eapply safely_bind with (P := fun r => sp_response (snd r) = None /\ 0 <= s_readerClosed (snd r)).
  - eapply safely_bind; [apply handshake_loop_ok; [|exact Hr|exact Hc]; by apply Forall_take|].
    intros [e st] [H1 H2]. cbn in *. by case_match.
  - intros [e st] [H1 H2]. cbn in *. split_and!; [done|done|]. by apply Forall_drop.
Qed.

#[export] Instance channel_port_laws : at_port_laws Safe.
Proof.
  split.
  - intros q want p Hp. eapply holds_mono; [apply holds_safely; by apply channel_send_ok|].
    by intros [[err r] p'] (H1 & H2 & H3).
  - intros p Hp. eapply holds_mono; [apply holds_safely; by apply channel_shake_ok|]. by intros [].
  - intros [st wss] (Hr & Hc & Hw). cbn. unfold at_close. split_and!; cbn; [|lia|done]. by case_match.
Qed.
End channel_port.

(** ** A scripted modem as such a port: it answers every command *)

(** The response to the [n]th command, and the commands so far. *)
Section modem_port.
Context (modem : nat -> at_request -> Z * option ATResponse).

Definition modem_send (q : at_request) (want : bool) (sent : list at_request)
  : outcome (Z * option ATResponse * list at_request) :=
  let '(err, r) := modem (length sent) q in Ret (err, if want then r else None, sent ++ [q]).

#[local] Instance modem_port : at_port := {|
  port := list at_request; port_ok := fun _ => True; at_send := modem_send;
  at_shake sent := Ret (0, sent); at_shut sent := sent |}.

Lemma modem_port_laws :
  (forall n q, send_result q true (fst (modem n q)) (snd (modem n q))) -> at_port_laws Total.
Proof.
  intros Hm. split; [|done..]. intros q want sent _. cbn. unfold modem_send.
  pose proof (Hm (length sent) q) as H. destruct (modem (length sent) q) as [err r]. cbn in *.
  split; [done|]. destruct H as [He Hr]. split; [done|]. intros E W. destruct (Hr E eq_refl) as (resp & -> & H).
  exists resp. by rewrite W.
Qed.
End modem_port.

(** ** The RIL's data

    What the source uses of [telephony/ril.h], which is not part of the
    repository. *)

Inductive RIL_Errno :=
| RIL_E_SUCCESS
| RIL_E_RADIO_NOT_AVAILABLE
| RIL_E_GENERIC_FAILURE
| RIL_E_PASSWORD_INCORRECT
| RIL_E_SIM_PUK2
| RIL_E_REQUEST_NOT_SUPPORTED
| RIL_E_SMS_SEND_FAIL_RETRY
| RIL_E_MODE_NOT_SUPPORTED
| RIL_E_SUBSCRIPTION_NOT_AVAILABLE.

Inductive RIL_CallState :=
| RIL_CALL_ACTIVE | RIL_CALL_HOLDING | RIL_CALL_DIALING | RIL_CALL_ALERTING | RIL_CALL_INCOMING | RIL_CALL_WAITING.

#[export] Instance RIL_CallState_eq_dec : EqDecision RIL_CallState.
Proof. solve_decision. Defined.

Record RIL_Call := mk_call {
  call_state : RIL_CallState;
  call_index : Z;
  call_toa : Z;
  isMpty : Z;
  isMT : Z;
  isVoice : Z;
  call_number : option bytes }.

(** [RIL_AppStatus]: type, state, personalization state and the state of PIN 1. *)
Inductive RIL_AppType := RIL_APPTYPE_UNKNOWN | RIL_APPTYPE_SIM | RIL_APPTYPE_RUIM.
Inductive RIL_AppState :=
| RIL_APPSTATE_UNKNOWN | RIL_APPSTATE_DETECTED | RIL_APPSTATE_PIN | RIL_APPSTATE_PUK
| RIL_APPSTATE_SUBSCRIPTION_PERSO | RIL_APPSTATE_READY.
Inductive RIL_PersoSubstate := RIL_PERSOSUBSTATE_UNKNOWN | RIL_PERSOSUBSTATE_READY | RIL_PERSOSUBSTATE_SIM_NETWORK.
Inductive RIL_PinState := RIL_PINSTATE_UNKNOWN | RIL_PINSTATE_ENABLED_NOT_VERIFIED | RIL_PINSTATE_ENABLED_BLOCKED.

Record RIL_AppStatus := mk_app {
  app_type : RIL_AppType;
  app_state : RIL_AppState;
  perso_substate : RIL_PersoSubstate;
  pin1 : RIL_PinState }.

(** [RIL_CardStatus_v6]: what [getCardStatus] sets; the applications past the
    second are those of an absent card. *)
Record RIL_CardStatus := mk_card {
  card_present : bool;
  num_applications : Z;
  gsm_umts_subscription_app_index : Z;
  cdma_subscription_app_index : Z;
  applications : list RIL_AppStatus }.

Inductive RIL_Unsol :=
| RIL_UNSOL_RESPONSE_RADIO_STATE_CHANGED
| RIL_UNSOL_RESPONSE_CALL_STATE_CHANGED
| RIL_UNSOL_RESPONSE_VOICE_NETWORK_STATE_CHANGED
| RIL_UNSOL_RESPONSE_NEW_SMS
| RIL_UNSOL_RESPONSE_NEW_SMS_STATUS_REPORT
| RIL_UNSOL_NITZ_TIME_RECEIVED
| RIL_UNSOL_RESPONSE_SIM_STATUS_CHANGED
| RIL_UNSOL_CDMA_SUBSCRIPTION_SOURCE_CHANGED
| RIL_UNSOL_VOICE_RADIO_TECH_CHANGED
| RIL_UNSOL_ENTER_EMERGENCY_CALLBACK_MODE
| RIL_UNSOL_EXIT_EMERGENCY_CALLBACK_MODE
| RIL_UNSOL_CDMA_PRL_CHANGED
| RIL_UNSOL_DATA_CALL_LIST_CHANGED
| RIL_UNSOL_RESPONSE_CDMA_NEW_SMS
| RIL_UNSOL_RESPONSE_IMS_NETWORK_STATE_CHANGED.

(** [RIL_CDMA_SMS_Message]: the fields the source uses.  The digits and the data are
    arrays of 36 and 255 bytes. *)
Record RIL_CDMA_SMS_Message := mk_cdma_sms {
  uTeleserviceID : Z;
  cdma_digit_mode : Z;
  cdma_number_mode : Z;
  number_of_digits : Z;
  cdma_digits : bytes;
  uBearerDataLen : Z;
  aBearerData : bytes }.

Definition RIL_CDMA_SMS_ADDRESS_MAX : nat := 36.
Definition RIL_CDMA_SMS_BEARER_DATA_MAX : nat := 255.

(** The data of a request: what [data] points to; its length in bytes follows. *)
Record RIL_Dial := mk_dial { address : bytes; clir : Z }.
Record RIL_SIM_IO := mk_sim_io {
  sim_command : Z; sim_fileid : Z; sim_p1 : Z; sim_p2 : Z; sim_p3 : Z; sim_data : option bytes }.

Inductive ril_request_data :=
| RNone                                              (** NULL, 0 *)
| RInts (l : list Z)
| RString (s : bytes)                                (** characters *)
| RStrings (l : list (option bytes))                 (** pointers *)
| RDial (d : RIL_Dial)
| RSimIo (d : RIL_SIM_IO)
| RSmsWrite (status : Z) (pdu : bytes)
| RCdmaSms
| RImsGsm (retry : Z) (message : list (option bytes))
| RImsCdma (retry : Z)
| RImsOther (retry : Z)
| RCdmaMessage (m : RIL_CDMA_SMS_Message)
| RImsMessage (tech : Z) (m : RIL_CDMA_SMS_Message)
| RCdmaAck (uErrorClass : Z).

(** A text of a data call: the characters, or a pointer to an array whose block has
    been left. *)
Inductive call_text := Text (s : bytes) | Dangling.

(** [RIL_Data_Call_Response_v6], without the time to retry, which stays -1. *)
Record RIL_Data_Call := mk_data_call {
  dc_status : Z; dc_cid : Z; dc_active : Z;
  dc_type : call_text; dc_ifname : call_text; dc_addresses : call_text; dc_dnses : call_text; dc_gateways : call_text }.

(** [RIL_Data_Call_Response_v4] *)
Record RIL_Data_Call_v4 := mk_data_call_v4 { v4_cid : Z; v4_active : Z; v4_type : bytes; v4_apn : bytes; v4_address : bytes }.

Inductive ril_data :=
| DNone
| DInts (l : list Z)
| DString (s : bytes)
| DStrings (l : list (option bytes))
| DCalls (l : list RIL_Call)
| DSms (messageRef : Z)                                        (** no acknowledgement *)
| DSmsSent (messageRef : Z) (ackPDU : bytes) (errorCode : Z)
| DSimIo (sw1 sw2 : Z) (simResponse : option bytes)
| DCard (c : RIL_CardStatus)
| DCell (mcc mnc lac cid : Z)
| DDataCalls (l : list RIL_Data_Call)
| DDataCallsV4 (l : list RIL_Data_Call_v4)
| DLteSignal (signalStrength rsrp rsrq rssnr cqi : option Z)   (** [None]: not set *)
| DCdmaMessage (m : RIL_CDMA_SMS_Message)
| DEcho (d : ril_request_data).

Inductive timed_callback :=
| sendCallStateChanged_cb | onDataCallListChanged_cb | onNewSmsArrived_cb | onNewSmsReportArrived_cb | pollSIMState_cb.

(** What the RIL's environment sees: a request completed, an event, a callback
    asked for, a system property set, a command run, a network interface brought up
    or down, a line given to the AT socket. *)
Inductive ril_event :=
| Complete (e : RIL_Errno) (d : ril_data)
| Unsolicited (u : RIL_Unsol) (d : ril_data)
| Timed (cb : timed_callback) (msec : Z)
| Property (name value : bytes)
| System (cmd : bytes)
| Interface (name : bytes) (up : bool)
| ToSocket (line : bytes).

(** The modems of [runtime_3g_port_type] that the source names. *)
Inductive modem_type := HUAWEI_MODEM | AMAZON_MODEM | UNKNOWN_MODEM.

#[export] Instance modem_type_eq_dec : EqDecision modem_type.
Proof. solve_decision. Defined.

(** ** State *)

Record ModemInfo := mk_mdm {
  supportedTechs : Z;
  currentTech : Z;
  isMultimode : Z;
  preferredNetworkMode : Z;
  subscription_source : Z }.

Inductive RIL_RadioState :=
| RADIO_STATE_OFF | RADIO_STATE_UNAVAILABLE | RADIO_STATE_SIM_LOCKED_OR_ABSENT | RADIO_STATE_ON | RADIO_STATE_SIM_NOT_READY.

#[export] Instance RIL_RadioState_eq_dec : EqDecision RIL_RadioState.
Proof. solve_decision. Defined.

Inductive UICC_Type := UICC_TYPE_UNKNOWN | UICC_TYPE_SIM | UICC_TYPE_USIM.

#[export] Instance UICC_Type_eq_dec : EqDecision UICC_Type.
Proof. solve_decision. Defined.

(** The IMS variables: nothing in the source assigns them. *)
Record ims_vars := mk_ims {
  s_ims_registered : Z;
  s_ims_format : Z;
  s_ims_cause_retry : Z;
  s_ims_cause_perm_failure : Z;
  s_ims_gsm_retry : Z;
  s_ims_gsm_fail : Z }.

Definition SMS_BUFFER : nat := 400.

(** The static variables of [reference-ril.c] that the handlers use, that of
    [getUICCType] and the object [sMdmInfo] points to included; and the buffer of
    [notifynewCdmaSMS] in [altair-ril.c]. *)
Record ril_vars := mk_vars {
  sState : RIL_RadioState;
  s_closed : Z;
  sUnsolictedCREG_failed : Z;
  sUnsolictedCGREG_failed : Z;
  s_lac : Z;
  s_cid : Z;
  s_mcc : Z;
  s_mnc : Z;
  sNetworkType : Z;
  sLastNetworkType : Z;
  sMdmInfo : ModemInfo;
  UiccType : UICC_Type;
  smsStorageIndex : Z;
  smsReadStorage : bytes;
  s_cell_info_rate_ms : Z;
  s_ims : ims_vars;
  pppd : Z;
  sms_buffer : bytes }.

(** Their initial values; [RIL_Init] allocates the modem information. *)
Definition vars_init : ril_vars :=
  mk_vars RADIO_STATE_UNAVAILABLE 0 0 0 0 0 0 0 0 (-1) (mk_mdm 0 0 0 0 0) UICC_TYPE_UNKNOWN 0 [] INT_MAX
    (mk_ims 0 1 0 0 0 0) 0 (replicate SMS_BUFFER 0).

Definition set_state v s := mk_vars v (s_closed s) (sUnsolictedCREG_failed s) (sUnsolictedCGREG_failed s) (s_lac s) (s_cid s)
  (s_mcc s) (s_mnc s) (sNetworkType s) (sLastNetworkType s) (sMdmInfo s) (UiccType s) (smsStorageIndex s) (smsReadStorage s)
  (s_cell_info_rate_ms s) (s_ims s) (pppd s) (sms_buffer s).
Definition set_closed v s := mk_vars (sState s) v (sUnsolictedCREG_failed s) (sUnsolictedCGREG_failed s) (s_lac s) (s_cid s)
  (s_mcc s) (s_mnc s) (sNetworkType s) (sLastNetworkType s) (sMdmInfo s) (UiccType s) (smsStorageIndex s) (smsReadStorage s)
  (s_cell_info_rate_ms s) (s_ims s) (pppd s) (sms_buffer s).
Definition set_reg_failed v w s := mk_vars (sState s) (s_closed s) v w (s_lac s) (s_cid s)
  (s_mcc s) (s_mnc s) (sNetworkType s) (sLastNetworkType s) (sMdmInfo s) (UiccType s) (smsStorageIndex s) (smsReadStorage s)
  (s_cell_info_rate_ms s) (s_ims s) (pppd s) (sms_buffer s).
Definition set_cell l c s := mk_vars (sState s) (s_closed s) (sUnsolictedCREG_failed s) (sUnsolictedCGREG_failed s) l c
  (s_mcc s) (s_mnc s) (sNetworkType s) (sLastNetworkType s) (sMdmInfo s) (UiccType s) (smsStorageIndex s) (smsReadStorage s)
  (s_cell_info_rate_ms s) (s_ims s) (pppd s) (sms_buffer s).
Definition set_mccmnc m n s := mk_vars (sState s) (s_closed s) (sUnsolictedCREG_failed s) (sUnsolictedCGREG_failed s) (s_lac s) (s_cid s)
  m n (sNetworkType s) (sLastNetworkType s) (sMdmInfo s) (UiccType s) (smsStorageIndex s) (smsReadStorage s)
  (s_cell_info_rate_ms s) (s_ims s) (pppd s) (sms_buffer s).
Definition set_network t l s := mk_vars (sState s) (s_closed s) (sUnsolictedCREG_failed s) (sUnsolictedCGREG_failed s) (s_lac s) (s_cid s)
  (s_mcc s) (s_mnc s) t l (sMdmInfo s) (UiccType s) (smsStorageIndex s) (smsReadStorage s)
  (s_cell_info_rate_ms s) (s_ims s) (pppd s) (sms_buffer s).
Definition set_mdm m s := mk_vars (sState s) (s_closed s) (sUnsolictedCREG_failed s) (sUnsolictedCGREG_failed s) (s_lac s) (s_cid s)
  (s_mcc s) (s_mnc s) (sNetworkType s) (sLastNetworkType s) m (UiccType s) (smsStorageIndex s) (smsReadStorage s)
  (s_cell_info_rate_ms s) (s_ims s) (pppd s) (sms_buffer s).
Definition set_uicc u s := mk_vars (sState s) (s_closed s) (sUnsolictedCREG_failed s) (sUnsolictedCGREG_failed s) (s_lac s) (s_cid s)
  (s_mcc s) (s_mnc s) (sNetworkType s) (sLastNetworkType s) (sMdmInfo s) u (smsStorageIndex s) (smsReadStorage s)
  (s_cell_info_rate_ms s) (s_ims s) (pppd s) (sms_buffer s).
Definition set_storage i b s := mk_vars (sState s) (s_closed s) (sUnsolictedCREG_failed s) (sUnsolictedCGREG_failed s) (s_lac s) (s_cid s)
  (s_mcc s) (s_mnc s) (sNetworkType s) (sLastNetworkType s) (sMdmInfo s) (UiccType s) i b
  (s_cell_info_rate_ms s) (s_ims s) (pppd s) (sms_buffer s).
Definition set_cell_rate r s := mk_vars (sState s) (s_closed s) (sUnsolictedCREG_failed s) (sUnsolictedCGREG_failed s) (s_lac s) (s_cid s)
  (s_mcc s) (s_mnc s) (sNetworkType s) (sLastNetworkType s) (sMdmInfo s) (UiccType s) (smsStorageIndex s) (smsReadStorage s)
  r (s_ims s) (pppd s) (sms_buffer s).
Definition set_pppd d s := mk_vars (sState s) (s_closed s) (sUnsolictedCREG_failed s) (sUnsolictedCGREG_failed s) (s_lac s) (s_cid s)
  (s_mcc s) (s_mnc s) (sNetworkType s) (sLastNetworkType s) (sMdmInfo s) (UiccType s) (smsStorageIndex s) (smsReadStorage s)
  (s_cell_info_rate_ms s) (s_ims s) d (sms_buffer s).
Definition set_sms_buffer b s := mk_vars (sState s) (s_closed s) (sUnsolictedCREG_failed s) (sUnsolictedCGREG_failed s) (s_lac s) (s_cid s)
  (s_mcc s) (s_mnc s) (sNetworkType s) (sLastNetworkType s) (sMdmInfo s) (UiccType s) (smsStorageIndex s) (smsReadStorage s)
  (s_cell_info_rate_ms s) (s_ims s) (pppd s) b.

(** ** Reading a line: [None] is a negative result *)

Definition read_start (cur : option bytes) : option (option bytes) :=
  let '(err, cur) := at_tok_start cur in if err <? 0 then None else Some cur.
Definition read_int (cur : option bytes) : option (Z * option bytes) :=
  match at_tok_nextint cur with (err, Some v, cur) => if err <? 0 then None else Some (v, cur) | _ => None end.
Definition read_hex (cur : option bytes) : option (Z * option bytes) :=
  match at_tok_nexthexint cur with (err, Some v, cur) => if err <? 0 then None else Some (v, cur) | _ => None end.
Definition read_bool (cur : option bytes) : option (Z * option bytes) :=
  match at_tok_nextbool cur false with (err, Some v, cur) => if err <? 0 then None else Some (v, cur) | _ => None end.
Definition read_str (cur : option bytes) : option (option bytes * option bytes) :=
  match at_tok_nextstr cur with (err, Some v, cur) => if err <? 0 then None else Some (v, cur) | _ => None end.

Lemma read_int_ok cur v k : read_int cur = Some (v, k) -> int_ok v.
Proof.
  unfold read_int. destruct (at_tok_nextint cur) as [[err [o|]] c] eqn:E; [|done].
  case_match; [done|]. intros [= <- <-]. by eapply nextint_base_int.
Qed.

Lemma read_hex_ok cur v k : read_hex cur = Some (v, k) -> int_ok v.
Proof.
  unfold read_hex. destruct (at_tok_nexthexint cur) as [[err [o|]] c] eqn:E; [|done].
  case_match; [done|]. intros [= <- <-]. by eapply nextint_base_int.
Qed.

Lemma read_int_comma ws z r :
  Forall (fun c => c_isspace c = true) ws -> int_ok z ->
  read_int (Some (ws ++ print_int z ++ COMMA :: r)) = Some (z, Some r).
Proof. intros Hw Hz. unfold read_int. by rewrite at_tok_nextint_comma. Qed.

Lemma read_int_last ws z :
  Forall (fun c => c_isspace c = true) ws -> int_ok z -> read_int (Some (ws ++ print_int z)) = Some (z, None).
Proof. intros Hw Hz. unfold read_int. by rewrite at_tok_nextint_last. Qed.

(** The same without blanks. *)
Lemma nextint_comma z r : int_ok z -> at_tok_nextint (Some (print_int z ++ COMMA :: r)) = (0, Some z, Some r).
Proof. exact (at_tok_nextint_comma [] z r (Forall_nil_2 _)). Qed.

Lemma nextint_last z : int_ok z -> at_tok_nextint (Some (print_int z)) = (0, Some z, None).
Proof. exact (at_tok_nextint_last [] z (Forall_nil_2 _)). Qed.

Lemma read_comma z r : int_ok z -> read_int (Some (print_int z ++ COMMA :: r)) = Some (z, Some r).
Proof. exact (read_int_comma [] z r (Forall_nil_2 _)). Qed.

Lemma read_last z : int_ok z -> read_int (Some (print_int z)) = Some (z, None).
Proof. exact (read_int_last [] z (Forall_nil_2 _)). Qed.

(** [%x] of a 32-bit integer. *)
Fixpoint hex_digits (fuel : nat) (n : Z) (acc : bytes) : bytes :=
  match fuel with
  | O => acc
  | S f =>
    let d := n mod 16 in
    let acc := (if d <? 10 then 48 + d else 87 + d) :: acc in
    if n <? 16 then acc else hex_digits f (n / 16) acc
  end.
Definition print_hex (z : Z) : bytes := hex_digits 8 (u32 z) [].

(** [%s]: bionic prints a NULL pointer as [(null)]. *)
Definition print_str (s : option bytes) : bytes := match s with Some s => s | None => s2b "(null)" end.

(** A string in double quotes. *)
Definition dquote (s : bytes) : bytes := [QUOTE] ++ s ++ [QUOTE].

(** ** Code that sends commands *)

Section monad.
Context `{AP : at_port}.

Record rild := mk_rild { chan : port; vars : ril_vars; events : list ril_event }.

Definition ril (A : Type) : Type := rild -> outcome (A * rild).

#[export] Instance ril_ret : MRet ril := fun A a s => Ret (a, s).
#[export] Instance ril_bind : MBind ril := fun A B k m s => '(a, s) ← m s; k a s.

(** An access that may be invalid. *)
Definition lift {A} (o : outcome A) : ril A := fun s => a ← o; Ret (a, s).

Definition get_vars : ril ril_vars := fun s => Ret (vars s, s).
Definition set_vars (f : ril_vars -> ril_vars) : ril unit := fun s => Ret (tt, mk_rild (chan s) (f (vars s)) (events s)).
Definition emit (e : ril_event) : ril unit := fun s => Ret (tt, mk_rild (chan s) (vars s) (events s ++ [e])).

(** A command whose response is stored through [&p_response]. *)
Definition command (q : at_request) : ril (Z * option ATResponse) := fun s =>
  '(err, r, p) ← at_send q true (chan s); Ret (err, r, mk_rild p (vars s) (events s)).

(** A command with NULL for the response. *)
Definition command_null (q : at_request) : ril Z := fun s =>
  '(err, _, p) ← at_send q false (chan s); Ret (err, mk_rild p (vars s) (events s)).

Definition handshake : ril Z := fun s =>
  '(err, p) ← at_shake (chan s); Ret (err, mk_rild p (vars s) (events s)).

Definition shut : ril unit := fun s => Ret (tt, mk_rild (at_shut (chan s)) (vars s) (events s)).

Definition complete (e : RIL_Errno) (d : ril_data) : ril unit := emit (Complete e d).
Definition unsolicited (u : RIL_Unsol) (d : ril_data) : ril unit := emit (Unsolicited u d).

(** [p_response->p_intermediates->line] *)
Definition first_line (r : ATResponse) : outcome bytes := checked (head (p_intermediates r)).

(** [err < 0 || p_response->success == 0]: [None] is the error branch. *)
Definition succeeded (res : Z * option ATResponse) : outcome (option ATResponse) :=
  let '(err, r) := res in
  if err <? 0 then Ret None else r ← checked r; Ret (if success r =? 0 then None else Some r).

(** [err != 0 || p_response->success == 0] *)
Definition succeeded_ne (res : Z * option ATResponse) : outcome (option ATResponse) :=
  let '(err, r) := res in
  if negb (err =? 0) then Ret None else r ← checked r; Ret (if success r =? 0 then None else Some r).

(** A command and its error branch. *)
Definition ask (q : at_request) : ril (option ATResponse) := res ← command q; lift (succeeded res).
Definition ask_ne (q : at_request) : ril (option ATResponse) := res ← command q; lift (succeeded_ne res).

(** Then the first line of its response. *)
Definition with_line (r : option ATResponse) : ril (option bytes) :=
  match r with None => mret None | Some r => line ← lift (first_line r); mret (Some line) end.
Definition ask_line (q : at_request) : ril (option bytes) := r ← ask q; with_line r.
Definition ask_line_ne (q : at_request) : ril (option bytes) := r ← ask_ne q; with_line r.

(** A command without a response, whatever its result. *)
Definition send (q : at_request) : ril unit := _ ← command_null q; mret tt.
End monad.

Arguments ril {AP} A%_type.

(** ** A modem that follows a script *)

(** The [n]th command is answered by the [n]th element: the lines of a success, or a
    failure. *)
Definition scripted (script : list (option (list bytes))) (n : nat) (q : at_request) : Z * option ATResponse :=
  (0, Some (match nth n script None with
            | Some lines => mk_at_response 1 (Some (s2b "OK")) lines
            | None => mk_at_response 0 (Some (s2b "ERROR")) []
            end)).

(** A handler on such a modem, from given variables: what it sends, what it leaves
    in the variables, and its events. *)
Definition on_modem {A} (script : list (option (list bytes))) (m : forall AP : at_port, ril A) (v : ril_vars)
  : outcome (list at_request * ril_vars * list ril_event) :=
  let AP := modem_port (scripted script) in
  '(_, s) ← m AP (mk_rild (AP := AP) [] v []); Ret (chan s, vars s, events s).

(** ** What every operation keeps *)

Definition mdm_ok (m : ModemInfo) : Prop :=
  int_ok (supportedTechs m) /\ int_ok (currentTech m) /\ int_ok (preferredNetworkMode m) /\ int_ok (subscription_source m).

(** The variables hold values of their C types, a storage name fits its array,
    and a channel that is closed leaves no radio. *)
Record vars_ok (v : ril_vars) : Prop := mk_vars_ok {
  ok_closed : s_closed v = 0 \/ s_closed v = 1;
  ok_unavailable : s_closed v = 1 -> sState v = RADIO_STATE_UNAVAILABLE;
  ok_cell : int_ok (s_lac v) /\ int_ok (s_cid v);
  ok_operator : int_ok (s_mcc v) /\ int_ok (s_mnc v);
  ok_network : int_ok (sNetworkType v) /\ int_ok (sLastNetworkType v);
  ok_mdm : mdm_ok (sMdmInfo v);
  ok_storage : int_ok (smsStorageIndex v) /\ (length (smsReadStorage v) <= 2)%nat;
  ok_rate : int_ok (s_cell_info_rate_ms v);
  ok_pppd : pppd v = 0 \/ pppd v = 1 }.

Section reasoning.
Context `{AP : at_port} (t : mode) `{AL : !at_port_laws t}.

Definition is_complete (e : ril_event) : bool := match e with Complete _ _ => true | _ => false end.

(** How many requests have been completed. *)
Definition completions (s : rild) : nat := length (filter (fun e => is_complete e = true) (events s)).

(** The channel can be used, the variables are well typed, [n] completions. *)
Definition good (n : nat) (s : rild) : Prop := port_ok (chan s) /\ vars_ok (vars s) /\ completions s = n.

Lemma good_vars n s : good n s -> vars_ok (vars s).
Proof. by intros (_ & H & _). Qed.

Definition wp {A} (m : ril A) (Q : A -> rild -> Prop) (s : rild) : Prop := holds t (fun '(a, s') => Q a s') (m s).

Lemma wp_mono {A} (m : ril A) (P Q : A -> rild -> Prop) s :
  wp m P s -> (forall a s', P a s' -> Q a s') -> wp m Q s.
Proof. intros H HPQ. eapply holds_mono; [exact H|]. intros [a s']. apply HPQ. Qed.

(** An operation that keeps the invariant. *)
Lemma wp_keep {A} (m : ril A) Q n s :
  wp m (fun _ => good n) s -> (forall a s', good n s' -> Q a s') -> wp m Q s.
Proof. intros H HQ. eapply wp_mono; [exact H|]. intros a s'. apply HQ. Qed.

Lemma wp_ret {A} (a : A) Q s : Q a s -> wp (mret a) Q s.
Proof. done. Qed.

Lemma wp_bind {A B} (m : ril A) (k : A -> ril B) Q s :
  wp m (fun a s' => wp (k a) Q s') s -> wp (a ← m; k a) Q s.
Proof. intros H. eapply holds_bind; [exact H|]. by intros [a s']. Qed.

Lemma wp_lift {A} (o : outcome A) Q s : holds t (fun a => Q a s) o -> wp (lift o) Q s.
Proof. intros H. eapply holds_bind; [exact H|]. done. Qed.

Lemma wp_lift_ret {A} (o : outcome A) (a : A) Q s : o = Ret a -> Q a s -> wp (lift o) Q s.
Proof. by intros ->. Qed.

Lemma wp_get (Q : ril_vars -> rild -> Prop) s : Q (vars s) s -> wp get_vars Q s.
Proof. done. Qed.

Lemma wp_set f (Q : unit -> rild -> Prop) n s :
  good n s -> vars_ok (f (vars s)) -> (forall s', good n s' -> vars s' = f (vars s) -> Q tt s') -> wp (set_vars f) Q s.
Proof. intros (Hp & Hv & Hn) Hf HQ. apply HQ; [|done]. by split_and!. Qed.

Lemma wp_emit e (Q : unit -> rild -> Prop) n s :
  good n s -> (forall s', good (n + if is_complete e then 1 else 0) s' -> vars s' = vars s -> Q tt s') -> wp (emit e) Q s.
Proof.
  intros (Hp & Hv & Hn) HQ. apply HQ; [|done]. split_and!; [done|done|]. unfold completions. cbn.
  rewrite filter_app, length_app. fold (completions s). rewrite Hn. f_equal. by destruct e.
Qed.

Lemma wp_complete e d (Q : unit -> rild -> Prop) n s :
  good n s -> (forall s', good (S n) s' -> vars s' = vars s -> Q tt s') -> wp (complete e d) Q s.
Proof. intros H HQ. eapply wp_emit; [exact H|]. intros s' Hs. apply HQ. cbn in Hs. by rewrite Nat.add_1_r in Hs. Qed.

Lemma wp_event e (Q : unit -> rild -> Prop) n s :
  is_complete e = false ->
  good n s -> (forall s', good n s' -> vars s' = vars s -> Q tt s') -> wp (emit e) Q s.
Proof. intros He H HQ. eapply wp_emit; [exact H|]. intros s' Hs. apply HQ. rewrite He in Hs. by rewrite Nat.add_0_r in Hs. Qed.

Lemma wp_unsolicited u d (Q : unit -> rild -> Prop) n s :
  good n s -> (forall s', good n s' -> vars s' = vars s -> Q tt s') -> wp (unsolicited u d) Q s.
Proof. by apply wp_event. Qed.

Lemma wp_command q (Q : Z * option ATResponse -> rild -> Prop) n s :
  good n s -> (forall err r s', good n s' -> vars s' = vars s -> send_result q true err r -> Q (err, r) s') ->
  wp (command q) Q s.
Proof.
  intros (Hp & Hv & Hn) HQ. eapply holds_bind; [by apply at_send_promise|].
  intros [[err r] p'] [Hp' Hr]. by apply HQ.
Qed.

Lemma wp_command_null q (Q : Z -> rild -> Prop) n s :
  good n s -> (forall err s', good n s' -> vars s' = vars s -> Q err s') -> wp (command_null q) Q s.
Proof.
  intros (Hp & Hv & Hn) HQ. eapply holds_bind; [by apply at_send_promise|].
  intros [[err r] p'] [Hp' Hr]. by apply HQ.
Qed.

Lemma wp_send q (Q : unit -> rild -> Prop) n s :
  good n s -> (forall s', good n s' -> vars s' = vars s -> Q tt s') -> wp (send q) Q s.
Proof. intros H HQ. apply wp_bind. eapply wp_command_null; [exact H|]. intros err s'. apply HQ. Qed.

Lemma wp_handshake (Q : Z -> rild -> Prop) n s :
  good n s -> (forall err s', good n s' -> vars s' = vars s -> Q err s') -> wp handshake Q s.
Proof.
  intros (Hp & Hv & Hn) HQ. eapply holds_bind; [by apply at_shake_promise|].
  intros [err p'] Hp'. by apply HQ.
Qed.

Lemma wp_shut (Q : unit -> rild -> Prop) n s :
  good n s -> (forall s', good n s' -> vars s' = vars s -> Q tt s') -> wp shut Q s.
Proof. intros (Hp & Hv & Hn) HQ. apply HQ; [|done]. split_and!; [|done|done]. by apply at_shut_promise. Qed.

Lemma wp_error {A} (Q : A -> rild -> Prop) s : t = Partial -> wp (lift Ub) Q s.
Proof. done. Qed.

Definition answer_ok (q : at_request) (r : option ATResponse) : Prop :=
  match r with
  | None => True
  | Some r => success r <> 0 /\ (needs_line q = true -> p_intermediates r <> [])
  end.

Lemma succeeded_ok q err r :
  send_result q true err r -> holds t (answer_ok q) (succeeded (err, r)) /\ holds t (answer_ok q) (succeeded_ne (err, r)).
Proof.
  intros [He Hr]. unfold succeeded, succeeded_ne.
  destruct (Z.ltb_spec err 0); destruct (Z.eqb_spec err 0) as [E|E]; cbn; try done; try lia.
  destruct (Hr E eq_refl) as (resp & -> & Hs & Hl). cbn.
  destruct (Z.eqb_spec (success resp) 0); cbn; [done|]. split; (split; [done|]; intros; by apply Hl).
Qed.

Lemma wp_ask q (Q : option ATResponse -> rild -> Prop) n s :
  good n s -> (forall r s', good n s' -> vars s' = vars s -> answer_ok q r -> Q r s') -> wp (ask q) Q s.
Proof.
  intros H HQ. apply wp_bind. eapply wp_command; [exact H|]. intros err r s' Hg Hv Hr.
  apply wp_lift. eapply holds_mono; [by apply (succeeded_ok q err r)|]. auto.
Qed.

Lemma wp_ask_ne q (Q : option ATResponse -> rild -> Prop) n s :
  good n s -> (forall r s', good n s' -> vars s' = vars s -> answer_ok q r -> Q r s') -> wp (ask_ne q) Q s.
Proof.
  intros H HQ. apply wp_bind. eapply wp_command; [exact H|]. intros err r s' Hg Hv Hr.
  apply wp_lift. eapply holds_mono; [by apply (succeeded_ok q err r)|]. auto.
Qed.

Lemma wp_with_line q r (Q : option bytes -> rild -> Prop) s :
  needs_line q = true -> answer_ok q r -> (forall line, Q line s) -> wp (with_line r) Q s.
Proof.
  intros Hn Hr HQ. destruct r as [r|]; [|apply HQ]. destruct Hr as [_ Hl]. specialize (Hl Hn). unfold with_line.
  apply wp_bind, wp_lift. unfold first_line. destruct (p_intermediates r); [done|]. apply HQ.
Qed.

Lemma wp_ask_line q (Q : option bytes -> rild -> Prop) n s :
  needs_line q = true -> good n s -> (forall line s', good n s' -> vars s' = vars s -> Q line s') -> wp (ask_line q) Q s.
Proof.
  intros Hn H HQ. apply wp_bind. eapply wp_ask; [exact H|]. intros r s' Hg Hv Hr.
  eapply wp_with_line; [exact Hn|exact Hr|auto].
Qed.

Lemma wp_ask_line_ne q (Q : option bytes -> rild -> Prop) n s :
  needs_line q = true -> good n s -> (forall line s', good n s' -> vars s' = vars s -> Q line s') -> wp (ask_line_ne q) Q s.
Proof.
  intros Hn H HQ. apply wp_bind. eapply wp_ask_ne; [exact H|]. intros r s' Hg Hv Hr.
  eapply wp_with_line; [exact Hn|exact Hr|auto].
Qed.
End reasoning.

(** ** Running a handler on given answers *)

Section running.
Context `{AP : at_port}.

Lemma run_bind {A B} (m : ril A) (k : A -> ril B) s a s' : m s = Ret (a, s') -> (a ← m; k a) s = k a s'.
Proof. intros E. change ((a ← m; k a) s) with ('(a, s') ← m s; k a s'). by rewrite E. Qed.

Lemma run_get {B} (k : ril_vars -> ril B) s : (v ← get_vars; k v) s = k (vars s) s.
Proof. done. Qed.

Lemma run_complete {B} e d (k : unit -> ril B) s :
  (x ← complete e d; k x) s = k tt (mk_rild (chan s) (vars s) (events s ++ [Complete e d])).
Proof. done. Qed.

Lemma run_emit {B} e (k : unit -> ril B) s :
  (x ← emit e; k x) s = k tt (mk_rild (chan s) (vars s) (events s ++ [e])).
Proof. done. Qed.

Lemma run_set {B} f (k : unit -> ril B) s : (x ← set_vars f; k x) s = k tt (mk_rild (chan s) (f (vars s)) (events s)).
Proof. done. Qed.

Lemma run_ask q s resp p :
  at_send q true (chan s) = Ret (0, Some resp, p) -> success resp <> 0 ->
  ask q s = Ret (Some resp, mk_rild p (vars s) (events s)) /\
  ask_ne q s = Ret (Some resp, mk_rild p (vars s) (events s)).
Proof.
  intros E Hs. unfold ask, ask_ne.
  assert (command q s = Ret (0, Some resp, mk_rild p (vars s) (events s))) as Ec by (unfold command; by rewrite E).
  split; (rewrite (run_bind _ _ _ _ _ Ec)); unfold lift, succeeded, succeeded_ne; cbn;
    by destruct (Z.eqb_spec (success resp) 0).
Qed.

Lemma run_ask_line q s resp line lines p :
  at_send q true (chan s) = Ret (0, Some resp, p) -> success resp <> 0 -> p_intermediates resp = line :: lines ->
  ask_line q s = Ret (Some line, mk_rild p (vars s) (events s)) /\
  ask_line_ne q s = Ret (Some line, mk_rild p (vars s) (events s)).
Proof.
  intros E Hs Hl. destruct (run_ask q s resp p E Hs) as [E1 E2].
  unfold ask_line, ask_line_ne. rewrite (run_bind _ _ _ _ _ E1), (run_bind _ _ _ _ _ E2).
  unfold with_line. split; unfold first_line; by rewrite Hl.
Qed.

(** An error final response, or no response at all. *)
Definition refused (res : outcome (Z * option ATResponse * port)) (p : port) : Prop :=
  exists err r, res = Ret (err, r, p) /\ (err < 0 \/ err = 0 /\ exists resp, r = Some resp /\ success resp = 0).

Lemma run_ask_refused q s p :
  refused (at_send q true (chan s)) p ->
  ask q s = Ret (None, mk_rild p (vars s) (events s)) /\ ask_ne q s = Ret (None, mk_rild p (vars s) (events s)).
Proof.
  intros (err & r & E & Hr). unfold ask, ask_ne.
  assert (command q s = Ret (err, r, mk_rild p (vars s) (events s))) as Ec by (unfold command; by rewrite E).
  split; (rewrite (run_bind _ _ _ _ _ Ec)); unfold lift, succeeded, succeeded_ne;
    destruct Hr as [Hr|(-> & resp & -> & H0)].
  - by rewrite (proj2 (Z.ltb_lt err 0)).
  - cbn. by rewrite H0.
  - destruct (Z.eqb_spec err 0); [lia|]. done.
  - cbn. by rewrite H0.
Qed.

Lemma run_ask_line_refused q s p :
  refused (at_send q true (chan s)) p ->
  ask_line q s = Ret (None, mk_rild p (vars s) (events s)) /\ ask_line_ne q s = Ret (None, mk_rild p (vars s) (events s)).
Proof.
  intros Hr. destruct (run_ask_refused q s p Hr) as [E1 E2]. unfold ask_line, ask_line_ne.
  by rewrite (run_bind _ _ _ _ _ E1), (run_bind _ _ _ _ _ E2).
Qed.
End running.

(** On a modem that answers, a command without a response adds to what was sent. *)
Lemma run_command_null modem {B} q (k : Z -> @ril (modem_port modem) B) (s : @rild (modem_port modem)) :
  (err ← command_null q; k err) s =
    k (fst (modem (length (chan s)) q)) (@mk_rild (modem_port modem) (chan s ++ [q]) (vars s) (events s)).
Proof. unfold command_null, mbind, ril_bind. cbn. unfold modem_send. by destruct (modem (length (chan s)) q). Qed.

Lemma run_send modem {B} q (k : unit -> @ril (modem_port modem) B) (s : @rild (modem_port modem)) :
  (x ← send q; k x) s = k tt (@mk_rild (modem_port modem) (chan s ++ [q]) (vars s) (events s)).
Proof. unfold send, command_null, mbind, ril_bind. cbn. unfold modem_send. by destruct (modem (length (chan s)) q). Qed.

(** With partial correctness, an access either succeeds or does not matter. *)
Lemma wp_partial `{at_port} {A} (o : outcome A) Q s : (forall a, o = Ret a -> Q a s) -> wp Partial (lift o) Q s.
Proof. intros HQ. by destruct o; cbn; auto. Qed.

(** One step of a handler: the invariant goes along, and later cases hold for
    every answer of the channel. *)
Ltac ril_intros := intros; repeat match goal with x : unit |- _ => destruct x end.
Tactic Notation "ril_use" uconstr(H) :=
  first [eapply H; [exact _|eassumption|ril_intros] | eapply H; [eassumption|ril_intros]].
Tactic Notation "ril_use_line" uconstr(H) :=
  first [eapply H; [exact _|reflexivity|eassumption|ril_intros] | eapply H; [reflexivity|eassumption|ril_intros]].
Ltac ril_step :=
  match goal with
  | |- wp _ (mret _) _ _ => apply wp_ret
  | |- wp _ (_ ≫= _) _ _ => apply wp_bind
  | |- wp _ get_vars _ _ => apply wp_get
  | |- wp _ (complete _ _) _ _ => eapply wp_complete; [eassumption|ril_intros]
  | |- wp _ (unsolicited _ _) _ _ => eapply wp_unsolicited; [eassumption|ril_intros]
  | |- wp _ (emit _) _ _ => eapply wp_event; [reflexivity|eassumption|ril_intros]
  | |- wp _ (send _) _ _ => ril_use wp_send
  | |- wp _ (command_null _) _ _ => ril_use wp_command_null
  | |- wp _ shut _ _ => ril_use wp_shut
  | |- wp _ handshake _ _ => ril_use wp_handshake
  | |- wp _ (ask _) _ _ => ril_use wp_ask
  | |- wp _ (ask_ne _) _ _ => ril_use wp_ask_ne
  | |- wp _ (ask_line _) _ _ => ril_use_line wp_ask_line
  | |- wp _ (ask_line_ne _) _ _ => ril_use_line wp_ask_line_ne
  | |- wp _ (match ?x with _ => _ end) _ _ => destruct x
  | |- wp _ (let '_ := ?x in _) _ _ => destruct x
  | |- good _ _ => eassumption
  end.
Ltac ril_auto := repeat ril_step.

(** The modem information of the current state is well typed. *)
Ltac ril_mdm :=
  match goal with H : good _ ?s |- wp _ _ _ ?s => pose proof (ok_mdm _ (good_vars _ _ H)) as (? & ? & ? & ?) end.
