(* ===== verification/RilCalls.v ===== *)
(** * Calls: the call list, dialling and call control of [reference-ril.c]

    The handlers of the voice call requests.  [RIL_Call] objects live in an
    array cleared beforehand; a line that does not parse leaves what it stored in
    the object the next line is read into, so the object is threaded through. *)

From S2P Require Import Prelude CString AtTok Misc AtChannel RilPort.

(** ** Reading the request's data *)

Definition ints (d : ril_request_data) : outcome (list Z) := match d with RInts l => Ret l | _ => Ub end.
Definition int_at (d : ril_request_data) (i : Z) : outcome Z := l ← ints d; arr_rd l i.

(** ** One line of the call list *)

Definition clccStateToRILState (state : Z) : option RIL_CallState :=
  if state =? 0 then Some RIL_CALL_ACTIVE
  else if state =? 1 then Some RIL_CALL_HOLDING
  else if state =? 2 then Some RIL_CALL_DIALING
  else if state =? 3 then Some RIL_CALL_ALERTING
  else if state =? 4 then Some RIL_CALL_INCOMING
  else if state =? 5 then Some RIL_CALL_WAITING
  else None.

Definition set_call_state v c := mk_call v (call_index c) (call_toa c) (isMpty c) (isMT c) (isVoice c) (call_number c).
Definition set_call_index v c := mk_call (call_state c) v (call_toa c) (isMpty c) (isMT c) (isVoice c) (call_number c).
Definition set_call_toa v c := mk_call (call_state c) (call_index c) v (isMpty c) (isMT c) (isVoice c) (call_number c).
Definition set_isMpty v c := mk_call (call_state c) (call_index c) (call_toa c) v (isMT c) (isVoice c) (call_number c).
Definition set_isMT v c := mk_call (call_state c) (call_index c) (call_toa c) (isMpty c) v (isVoice c) (call_number c).
Definition set_isVoice v c := mk_call (call_state c) (call_index c) (call_toa c) (isMpty c) (isMT c) v (call_number c).
Definition set_call_number v c := mk_call (call_state c) (call_index c) (call_toa c) (isMpty c) (isMT c) (isVoice c) v.

(** A tokenizer stores through its output pointer, or does not. *)
Definition store {A B} (set : A -> B -> B) (o : option A) (c : B) : B :=
  match o with Some v => set v c | None => c end.

Fixpoint strspn (s accept : bytes) : nat :=
  match s with
  | c :: r => if bool_decide (c ∈ accept) then S (strspn r accept) else O
  | [] => O
  end.

Definition dial_chars : bytes := s2b "+0123456789".

(** The number of a line with more after the flags, and its type. *)
Definition clcc_number (cur : option bytes) (c : RIL_Call) : Z * RIL_Call :=
  let '(err, o, cur) := at_tok_nextstr cur in
  let c := store set_call_number o c in
  if err <? 0 then (0, c)
  else
    let c := match call_number c with
             | Some n => if (strspn n dial_chars =? 0)%nat then set_call_number None c else c
             | None => c
             end in
    let '(err, o, cur) := at_tok_nextint cur in
    let c := store set_call_toa o c in
    if err <? 0 then (-1, c) else (0, c).

Definition callFromCLCCLine (line : bytes) (c : RIL_Call) : Z * RIL_Call :=
  let '(err, cur) := at_tok_start (Some line) in
  if err <? 0 then (-1, c) else
  let '(err, o, cur) := at_tok_nextint cur in
  let c := store set_call_index o c in
  if err <? 0 then (-1, c) else
  let '(err, o, cur) := at_tok_nextbool cur false in
  let c := store set_isMT o c in
  if err <? 0 then (-1, c) else
  match read_int cur with
  | None => (-1, c)
  | Some (state, cur) =>
    match clccStateToRILState state with
    | None => (-1, c)
    | Some st =>
      let c := set_call_state st c in
      match read_int cur with
      | None => (-1, c)
      | Some (mode, cur) =>
        let c := set_isVoice (b2z (mode =? 0)) c in
        let '(err, o, cur) := at_tok_nextbool cur false in
        let c := store set_isMpty o c in
        if err <? 0 then (-1, c)
        else if at_tok_hasmore cur then clcc_number cur c
        else (0, c)
      end
    end
  end.

(** A cleared [RIL_Call]: the state 0 is [RIL_CALL_ACTIVE]. *)
Definition call_zero : RIL_Call := mk_call RIL_CALL_ACTIVE 0 0 0 0 0 None.

Definition transient (c : RIL_Call) : bool :=
  negb (bool_decide (call_state c = RIL_CALL_ACTIVE) || bool_decide (call_state c = RIL_CALL_HOLDING)).

(** The loop over the lines: the valid calls, and [needRepoll]. *)
Fixpoint calls_loop (lines : list bytes) (slot : RIL_Call) : list RIL_Call * bool :=
  match lines with
  | [] => ([], false)
  | line :: rest =>
    let '(err, c) := callFromCLCCLine line slot in
    if negb (err =? 0) then calls_loop rest c
    else let '(cs, rp) := calls_loop rest call_zero in (c :: cs, transient c || rp)
  end.

(** ** Lemmas: lines as the modem prints them *)

Definition state_code (st : RIL_CallState) : Z :=
  match st with
  | RIL_CALL_ACTIVE => 0 | RIL_CALL_HOLDING => 1 | RIL_CALL_DIALING => 2 | RIL_CALL_ALERTING => 3
  | RIL_CALL_INCOMING => 4 | RIL_CALL_WAITING => 5
  end.

(** The fields every line has; then the number, if any, and its type. *)
Definition render_flags (index mt state mode mpty : Z) (tail : bytes) : bytes :=
  s2b "+CLCC:" ++ [32] ++ print_int index ++ COMMA :: print_int mt ++ COMMA :: print_int state ++
  COMMA :: print_int mode ++ COMMA :: print_int mpty ++ tail.

Definition render_call (c : RIL_Call) : bytes :=
  render_flags (call_index c) (isMT c) (state_code (call_state c)) (1 - isVoice c) (isMpty c)
  match call_number c with
  | None => []
  | Some n => COMMA :: quoted n ++ COMMA :: print_int (call_toa c)
  end.

Definition flag (z : Z) : Prop := z = 0 \/ z = 1.

(** What a line can say of a call. *)
Definition call_ok (c : RIL_Call) : Prop :=
  int_ok (call_index c) /\ flag (isMT c) /\ flag (isMpty c) /\ flag (isVoice c) /\
  match call_number c with
  | None => call_toa c = 0
  | Some n => int_ok (call_toa c) /\ (QUOTE ∉ n) /\ strspn n dial_chars <> 0%nat
  end.

(** A line that is passed over, and leaves no number behind. *)
Definition clcc_skipped (line : bytes) : Prop :=
  forall c, exists c', callFromCLCCLine line c = (-1, c') /\ call_number c' = call_number c /\ call_toa c' = call_toa c.

(** A call list, with lines that are passed over in between. *)
Inductive clcc : list bytes -> list RIL_Call -> Prop :=
| clcc_nil : clcc [] []
| clcc_call c ls cs : call_ok c -> clcc ls cs -> clcc (render_call c :: ls) (c :: cs)
| clcc_skip l ls cs : clcc_skipped l -> clcc ls cs -> clcc (l :: ls) cs.

Lemma flag_int z : flag z -> int_ok z.
Proof. unfold flag, int_ok, INT_MIN, INT_MAX. lia. Qed.

Lemma state_code_int st : int_ok (state_code st).
Proof. unfold int_ok, INT_MIN, INT_MAX. destruct st; cbn; lia. Qed.

Lemma clccState_code st : clccStateToRILState (state_code st) = Some st.
Proof. by destruct st. Qed.

Lemma u8_flag z : flag z -> u8 z = z.
Proof. unfold flag. intros [->| ->]; done. Qed.

Lemma nextbool_comma z r : flag z ->
  at_tok_nextbool (Some (print_int z ++ COMMA :: r)) false = (0, Some z, Some r).
Proof.
  intros Hz. unfold at_tok_nextbool. rewrite nextint_comma by auto using flag_int.
  cbn. rewrite u8_flag by done. destruct Hz as [->| ->]; done.
Qed.

Lemma nextbool_last z : flag z -> at_tok_nextbool (Some (print_int z)) false = (0, Some z, None).
Proof.
  intros Hz. unfold at_tok_nextbool. rewrite nextint_last by auto using flag_int.
  cbn. rewrite u8_flag by done. destruct Hz as [->| ->]; done.
Qed.

(** What the fields before the number store. *)
Definition flags_call (index mt : Z) (st : RIL_CallState) (mode mpty : Z) (slot : RIL_Call) : RIL_Call :=
  mk_call st index (call_toa slot) mpty mt (b2z (mode =? 0)) (call_number slot).

Lemma start_flags index rest :
  at_tok_start (Some (s2b "+CLCC:" ++ [32] ++ print_int index ++ COMMA :: rest)) =
  (0, Some ([32] ++ print_int index ++ COMMA :: rest)).
Proof. done. Qed.

Lemma callFrom_flags index mt st mode mpty tail slot :
  int_ok index -> flag mt -> int_ok mode -> flag mpty -> (tail = [] \/ exists d r, tail = COMMA :: d :: r) ->
  callFromCLCCLine (render_flags index mt (state_code st) mode mpty tail) slot =
  let c := flags_call index mt st mode mpty slot in
  match tail with [] => (0, c) | _ :: r => clcc_number (Some r) c end.
Proof.
  intros Hi Hm Hmo Hp Ht. pose proof (state_code_int st) as Hs.
  unfold render_flags, callFromCLCCLine. rewrite start_flags. cbn beta iota delta [Z.ltb Z.compare].
  rewrite at_tok_nextint_comma by (done || by repeat constructor). cbn beta iota delta [Z.ltb Z.compare].
  rewrite nextbool_comma by done. cbn beta iota delta [Z.ltb Z.compare].
  rewrite read_comma, clccState_code by done. rewrite read_comma by done.
  destruct Ht as [->|(d & r & ->)].
  - rewrite app_nil_r, nextbool_last by done. by destruct slot.
  - rewrite nextbool_comma by done. by destruct slot.
Qed.

Lemma quoted_not_nil n r : exists d q, quoted n ++ r = d :: q.
Proof. by eexists _, _. Qed.

(** The number and its type. *)
Lemma clcc_number_type n toa c :
  int_ok toa -> QUOTE ∉ n -> strspn n dial_chars <> 0%nat ->
  clcc_number (Some (quoted n ++ COMMA :: print_int toa)) c = (0, set_call_toa toa (set_call_number (Some n) c)).
Proof.
  intros Ht Hq Hn. unfold clcc_number.
  destruct (at_tok_nextstr_quoted [] n [] (print_int toa)) as [E _]; [done|done|by apply not_elem_of_nil|].
  cbn [app] in E. rewrite E. cbn [store set_call_number call_number].
  cbn beta iota delta [Z.ltb Z.compare]. destruct (Nat.eqb_spec (strspn n dial_chars) 0); [done|].
  by rewrite nextint_last.
Qed.

(** A number without a type. *)
Lemma clcc_number_only n c :
  QUOTE ∉ n -> strspn n dial_chars <> 0%nat ->
  clcc_number (Some (quoted n)) c = (-1, set_call_toa 0 (set_call_number (Some n) c)).
Proof.
  intros Hq Hn. unfold clcc_number.
  destruct (at_tok_nextstr_quoted [] n [] []) as [_ E]; [done|done|by apply not_elem_of_nil|].
  rewrite app_nil_r in E. cbn [app] in E. rewrite E. cbn [store set_call_number call_number].
  cbn beta iota delta [Z.ltb Z.compare]. destruct (Nat.eqb_spec (strspn n dial_chars) 0); [done|].
  by replace (at_tok_nextint (Some [])) with (-1, Some 0, None : option bytes) by reflexivity.
Qed.

Lemma mode_flag v : flag v -> int_ok (1 - v) /\ b2z (1 - v =? 0) = v.
Proof. unfold flag, int_ok, INT_MIN, INT_MAX. intros [->| ->]; split; done || lia. Qed.

Lemma callFrom_render c slot :
  call_ok c -> call_number slot = None -> call_toa slot = 0 -> callFromCLCCLine (render_call c) slot = (0, c).
Proof.
  intros (Hi & Hm & Hp & Hv & Hn) Hs Ht. destruct (mode_flag _ Hv) as [Hmo Em]. unfold render_call.
  rewrite callFrom_flags; [|done..|].
  - cbn zeta. unfold flags_call. rewrite Em, Hs, Ht. destruct (call_number c) as [n|] eqn:En.
    + destruct Hn as (Hto & Hq & Hsp). rewrite clcc_number_type by done. destruct c; cbn in *. by rewrite En.
    + destruct c; cbn in *. by subst.
  - destruct (call_number c) as [n|]; [right|by left]. destruct (quoted_not_nil n (COMMA :: print_int (call_toa c))) as (d & q & E).
    exists d, q. by rewrite E.
Qed.

Lemma calls_loop_clcc lines calls slot :
  clcc lines calls -> call_number slot = None -> call_toa slot = 0 ->
  calls_loop lines slot = (calls, existsb transient calls).
Proof.
  intros H; revert slot; induction H as [|c ls cs Hc H IH|l ls cs Hl H IH]; intros slot Hn Ht; cbn [calls_loop existsb]; [done| |].
  - rewrite callFrom_render by done. cbn. by rewrite IH.
  - destruct (Hl slot) as (c' & -> & Hn' & Ht'). cbn. apply IH; congruence.
Qed.

(** A state that has no name is passed over. *)
Lemma unknown_state_skipped index mt state mode mpty :
  int_ok index -> flag mt -> int_ok state -> ~ (0 <= state <= 5) -> clcc_skipped (render_flags index mt state mode mpty []).
Proof.
  intros Hi Hm Hs Hne c. unfold render_flags, callFromCLCCLine. rewrite start_flags. cbn beta iota delta [Z.ltb Z.compare].
  rewrite at_tok_nextint_comma by (done || by repeat constructor). cbn beta iota delta [Z.ltb Z.compare].
  rewrite nextbool_comma by done. cbn beta iota delta [Z.ltb Z.compare]. rewrite read_comma by done.
  unfold clccStateToRILState. repeat (zcase_one; [lia|]). by eexists.
Qed.

(** ** Handlers *)

Section handlers.
Context `{AP : at_port}.

(** [TIMEVAL_CALLSTATEPOLL], in milliseconds. *)
Definition CALLSTATEPOLL : Z := 500.

Definition sendCallStateChanged : ril unit := unsolicited RIL_UNSOL_RESPONSE_CALL_STATE_CHANGED DNone.

Definition requestGetCurrentCalls : ril unit :=
  r ← ask_ne (AT_multiline (s2b "AT+CLCC") (s2b "+CLCC:"));
  match r with
  | None => complete RIL_E_GENERIC_FAILURE DNone
  | Some r =>
    let '(calls, needRepoll) := calls_loop (p_intermediates r) call_zero in
    _ ← complete RIL_E_SUCCESS (DCalls calls);
    if needRepoll : bool then emit (Timed sendCallStateChanged_cb CALLSTATEPOLL) else mret tt
  end.

Definition dial_data (d : ril_request_data) : outcome RIL_Dial := match d with RDial d => Ret d | _ => Ub end.

Definition clir_suffix (clir : Z) : bytes :=
  if clir =? 1 then s2b "I" else if clir =? 2 then s2b "i" else [].

Definition requestDial (data : ril_request_data) : ril unit :=
  p_dial ← lift (dial_data data);
  _ ← send (AT (s2b "ATD" ++ address p_dial ++ clir_suffix (clir p_dial) ++ s2b ";"));
  complete RIL_E_SUCCESS DNone.

Definition requestHangup (data : ril_request_data) : ril unit :=
  line ← lift (int_at data 0);
  _ ← send (AT (s2b "AT+CHLD=1" ++ print_int line));
  complete RIL_E_SUCCESS DNone.

(** The requests whose command is fixed and whose result is ignored. *)
Definition requestCallControl (cmd : bytes) : ril unit :=
  _ ← send (AT cmd);
  complete RIL_E_SUCCESS DNone.

Definition requestSeparateConnection (data : ril_request_data) : ril unit :=
  party ← lift (int_at data 0);
  if (0 <? party) && (party <? 10) then
    _ ← send (AT (s2b "AT+CHLD=2" ++ print_int party));
    complete RIL_E_SUCCESS DNone
  else complete RIL_E_GENERIC_FAILURE DNone.

Definition first_char (d : ril_request_data) : outcome Z := match d with RString s => str_rd s 0 | _ => Ub end.

(** [%c] of the terminator ends the command. *)
Definition print_char (c : Z) : bytes := if c =? 0 then [] else [c].

Definition requestDtmf (data : ril_request_data) : ril unit :=
  c ← lift (first_char data);
  _ ← send (AT (s2b "AT+VTS=" ++ print_char c));
  complete RIL_E_SUCCESS DNone.

(** ** Every handler completes its request once *)

Section laws.
Context (t : mode) `{AL : !at_port_laws t}.

Lemma wp_first_int v l (Q : Z -> rild -> Prop) s : Q v s -> wp t (lift (int_at (RInts (v :: l)) 0)) Q s.
Proof. done. Qed.

Lemma requestGetCurrentCalls_once n s : good n s -> wp t requestGetCurrentCalls (fun _ => good (S n)) s.
Proof. intros H. unfold requestGetCurrentCalls. ril_auto. Qed.

Lemma requestDial_once n s d : good n s -> wp t (requestDial (RDial d)) (fun _ => good (S n)) s.
Proof. intros H. unfold requestDial. ril_step. eapply wp_lift_ret; [reflexivity|]. ril_auto. Qed.

Lemma requestHangup_once n s line l : good n s -> wp t (requestHangup (RInts (line :: l))) (fun _ => good (S n)) s.
Proof. intros H. unfold requestHangup. ril_step. apply wp_first_int. ril_auto. Qed.

Lemma requestCallControl_once n s cmd : good n s -> wp t (requestCallControl cmd) (fun _ => good (S n)) s.
Proof. intros H. unfold requestCallControl. ril_auto. Qed.

Lemma requestSeparateConnection_once n s party l :
  good n s -> wp t (requestSeparateConnection (RInts (party :: l))) (fun _ => good (S n)) s.
Proof. intros H. unfold requestSeparateConnection. ril_step. apply wp_first_int. ril_auto. Qed.

Lemma requestDtmf_once n s str : good n s -> wp t (requestDtmf (RString str)) (fun _ => good (S n)) s.
Proof.
  intros H. unfold requestDtmf. ril_step.
  destruct str as [|c str]; (eapply wp_lift_ret; [reflexivity|]); ril_auto.
Qed.
End laws.
End handlers.

(** ** Properties *)


(** A modem that answers every command with the same lines. *)
Definition answering (lines : list bytes) (n : nat) (q : at_request) : Z * option ATResponse :=
  (0, Some (mk_at_response 1 (Some (s2b "OK")) lines)).

Definition incoming : RIL_Call := mk_call RIL_CALL_INCOMING 1 145 0 1 1 (Some (s2b "+18005551212")).
Definition held : RIL_Call := mk_call RIL_CALL_HOLDING 2 0 1 0 1 None.


(** A line that carries a number without its type is passed over, but the number
    it stored stays in the object the next line is read into: a following call
    that has no number is reported with the number of the call that was passed
    over. *)
Theorem stale_call_number `{AP : at_port} (s : rild) (resp : ATResponse) (p : port) (c c' : RIL_Call) (n : bytes) :
  at_send (AT_multiline (s2b "AT+CLCC") (s2b "+CLCC:")) true (chan s) = Ret (0, Some resp, p) ->
  success resp <> 0 ->
  call_ok c -> call_ok c' -> QUOTE ∉ n -> strspn n dial_chars <> 0%nat -> call_number c' = None ->
  p_intermediates resp =
    [render_flags (call_index c) (isMT c) (state_code (call_state c)) (1 - isVoice c) (isMpty c) (COMMA :: quoted n);
     render_call c'] ->
  exists s', requestGetCurrentCalls s = Ret (tt, s') /\
    Complete RIL_E_SUCCESS (DCalls [set_call_number (Some n) c']) ∈ events s'.
Proof.
  intros Hs Hok (Hi & Hm & Hp & Hv & _) Hc' Hq Hn Hnone El.
  destruct (mode_flag _ Hv) as [Hmo _]. destruct (quoted_not_nil n []) as (d & q & Ed). rewrite app_nil_r in Ed.
  assert (calls_loop (p_intermediates resp) call_zero = ([set_call_number (Some n) c'], transient c')) as E.
  { rewrite El. cbn [calls_loop]. rewrite callFrom_flags by (done || (right; exists d, q; by rewrite Ed)).
    cbn zeta. rewrite clcc_number_only by done. cbn [Z.eqb negb calls_loop].
    destruct Hc' as (Hi' & Hm' & Hp' & Hv' & Hn'). destruct (mode_flag _ Hv') as [Hmo' Em'].
    unfold render_call. rewrite Hnone in *. rewrite callFrom_flags by (done || by left).
    cbn zeta. unfold flags_call. rewrite Em'. destruct c'; cbn in *. subst. cbn. by rewrite orb_false_r. }
  unfold requestGetCurrentCalls. destruct (run_ask _ _ _ _ Hs Hok) as [_ Ea]. rewrite (run_bind _ _ _ _ _ Ea). rewrite E, run_complete.
  destruct (transient c'); eexists; (split; [reflexivity|]); cbn; set_solver.
Qed.

Lemma stale_call_number_witness :
  let lines := [render_flags 1 1 4 0 0 (COMMA :: quoted (s2b "123")); render_call held] in
  exists s', @requestGetCurrentCalls (modem_port (answering lines)) (@mk_rild (modem_port (answering lines)) [] vars_init []) =
    Ret (tt, s') /\
    Complete RIL_E_SUCCESS (DCalls [set_call_number (Some (s2b "123")) held]) ∈ events s'.
Proof.
  intros lines.
  refine (@stale_call_number (modem_port (answering lines)) (@mk_rild (modem_port (answering lines)) [] vars_init [])
    (mk_at_response 1 (Some (s2b "OK")) lines) _ incoming held (s2b "123") eq_refl ltac:(done) _ _ _ ltac:(done) eq_refl eq_refl).
  - split_and!; cbn [incoming call_index isMT isMpty isVoice call_number call_toa]; unfold flag, int_ok, INT_MIN, INT_MAX;
      [lia..|]. split_and!; [lia|lia| |done]. by apply (bool_decide_unpack (QUOTE ∉ _)).
  - split_and!; cbn [held call_index isMT isMpty isVoice call_number call_toa]; unfold flag, int_ok, INT_MIN, INT_MAX; lia.
  - by apply (bool_decide_unpack (QUOTE ∉ _)).
Defined.
