(* ===== verification/RilNetwork.v ===== *)
(** * Radio technology, registration and operator: [reference-ril.c]

    The tables of network modes, what the modem says of its technologies
    ([+CTEC], [+WNAM]), registration ([+CREG], [+CGREG]), operator ([+COPS]) and
    signal ([+CSQ]).  The values of [RADIO_TECH_...] are those of
    [RIL_RadioTechnology]. *)

From S2P Require Import Prelude CString AtTok Misc AtChannel RilPort RilCalls.

(** ** Technologies *)

Definition MDM_GSM : Z := 0x01.
Definition MDM_WCDMA : Z := 0x02.
Definition MDM_CDMA : Z := 0x04.
Definition MDM_EVDO : Z := 0x08.
Definition MDM_LTE : Z := 0x10.

Definition RADIO_TECH_UNKNOWN : Z := 0.
Definition RADIO_TECH_GPRS : Z := 1.
Definition RADIO_TECH_EDGE : Z := 2.
Definition RADIO_TECH_UMTS : Z := 3.
Definition RADIO_TECH_IS95A : Z := 4.
Definition RADIO_TECH_IS95B : Z := 5.
Definition RADIO_TECH_1xRTT : Z := 6.
Definition RADIO_TECH_EVDO_0 : Z := 7.
Definition RADIO_TECH_EVDO_A : Z := 8.
Definition RADIO_TECH_HSDPA : Z := 9.
Definition RADIO_TECH_HSUPA : Z := 10.
Definition RADIO_TECH_HSPA : Z := 11.
Definition RADIO_TECH_EVDO_B : Z := 12.
Definition RADIO_TECH_EHRPD : Z := 13.
Definition RADIO_TECH_LTE : Z := 14.
Definition RADIO_TECH_GSM : Z := 16.

(** [1 << n].  C leaves it undefined outside 0..31; an ARM core shifts by the low
    byte, and by 32 or more gives 0. *)
Definition shl1 (n : Z) : Z := if n mod 256 <? 32 then s32 (2 ^ (n mod 256)) else 0.

Definition TECH_BIT (m : ModemInfo) : Z := shl1 (currentTech m).

Definition net2modem : list Z := [
  MDM_GSM .| MDM_WCDMA; MDM_GSM; MDM_WCDMA; MDM_GSM .| MDM_WCDMA;
  MDM_CDMA .| MDM_EVDO; MDM_CDMA; MDM_EVDO;
  MDM_GSM .| MDM_WCDMA .| MDM_CDMA .| MDM_EVDO;
  MDM_LTE .| MDM_CDMA .| MDM_EVDO; MDM_LTE .| MDM_GSM .| MDM_WCDMA;
  MDM_LTE .| MDM_CDMA .| MDM_EVDO .| MDM_GSM .| MDM_WCDMA; MDM_LTE].

Definition net2pmask : list Z := [
  MDM_GSM .| (MDM_WCDMA ≪ 8); MDM_GSM; MDM_WCDMA; MDM_GSM .| MDM_WCDMA;
  MDM_CDMA .| MDM_EVDO; MDM_CDMA; MDM_EVDO;
  MDM_GSM .| MDM_WCDMA .| MDM_CDMA .| MDM_EVDO;
  MDM_LTE .| MDM_CDMA .| MDM_EVDO; MDM_LTE .| MDM_GSM .| MDM_WCDMA;
  MDM_LTE .| MDM_CDMA .| MDM_EVDO .| MDM_GSM .| MDM_WCDMA; MDM_LTE].

Definition is3gpp2 (radioTech : Z) : Z :=
  b2z (bool_decide (radioTech ∈ [RADIO_TECH_IS95A; RADIO_TECH_IS95B; RADIO_TECH_1xRTT; RADIO_TECH_EVDO_0;
                                 RADIO_TECH_EVDO_A; RADIO_TECH_EVDO_B; RADIO_TECH_EHRPD])).

Definition techFromModemType (mdmtype : Z) : Z :=
  let bit := shl1 mdmtype in
  if bit =? MDM_CDMA then RADIO_TECH_1xRTT
  else if bit =? MDM_EVDO then RADIO_TECH_EVDO_A
  else if bit =? MDM_GSM then RADIO_TECH_GPRS
  else if bit =? MDM_WCDMA then RADIO_TECH_HSPA
  else if bit =? MDM_LTE then RADIO_TECH_LTE
  else -1.

Definition convertRILRadioTechnology (subsys_mode : Z) (modem : modem_type) : Z :=
  match modem with
  | HUAWEI_MODEM =>
    if subsys_mode =? 0 then RADIO_TECH_UNKNOWN
    else if subsys_mode =? 1 then RADIO_TECH_GSM
    else if subsys_mode =? 2 then RADIO_TECH_GPRS
    else if subsys_mode =? 3 then RADIO_TECH_EDGE
    else if subsys_mode =? 4 then RADIO_TECH_UMTS
    else if subsys_mode =? 5 then RADIO_TECH_HSDPA
    else if subsys_mode =? 6 then RADIO_TECH_HSUPA
    else if subsys_mode =? 7 then RADIO_TECH_HSPA
    else RADIO_TECH_UNKNOWN
  | AMAZON_MODEM => RADIO_TECH_UNKNOWN
  | UNKNOWN_MODEM => subsys_mode
  end.

(** The result, and what is stored of the current technology and of the preferred
    mode. *)
Definition parse_technology_response (response : bytes) : Z * option Z * option Z :=
  let '(err, p) := at_tok_start (Some response) in
  if negb (err =? 0) || negb (at_tok_hasmore p) then (-1, None, None)
  else
    match at_tok_nextint p with
    | (0, Some ct, p) =>
      match at_tok_nexthexint p with
      | (0, Some pt, _) => (0, Some ct, Some pt)
      | _ => (1, Some ct, None)
      end
    | _ => (-1, None, None)
    end.

(** ** Registration *)

Definition COMMAS_MAX : Z := 4.

(** Reading the fields after the count of commas: [resp], which starts cleared. *)
Definition registration_fields (commas : Z) (line : option bytes) : option (list Z) :=
  if commas =? 0 then
    '(r0, _) ← read_int line; Some [r0; -1; -1; 0; 0]
  else if commas =? 1 then
    '(_, line) ← read_int line; '(r0, _) ← read_int line; Some [r0; -1; -1; 0; 0]
  else if commas =? 2 then
    '(r0, line) ← read_int line; '(r1, line) ← read_hex line; '(r2, _) ← read_hex line; Some [r0; r1; r2; 0; 0]
  else if commas =? 3 then
    '(_, line) ← read_int line; '(r0, line) ← read_int line; '(r1, line) ← read_hex line;
    '(r2, _) ← read_hex line; Some [r0; r1; r2; 0; 0]
  else if commas =? 4 then
    '(_, line) ← read_int line; '(r0, line) ← read_int line; '(r1, line) ← read_hex line;
    '(r2, line) ← read_hex line; '(r3, _) ← read_hex line; Some [r0; r1; r2; r3; 0]
  else None.

(** The number of items and [resp]. *)
Definition parse_registration (str : bytes) : option (Z * list Z) :=
  line ← read_start (Some str);
  let commas := match line with Some l => count_char COMMA l | None => 0 end in
  resp ← registration_fields commas line;
  Some (commas + 1, resp).

(** [asprintf(..., "%d")] and ["%x"] *)
Definition str_d (z : Z) : option bytes := Some (print_int z).
Definition str_x (z : Z) : option bytes := Some (print_hex z).
Definition str_s (s : String.string) : option bytes := Some (s2b s).

Definition REG_STATE_LEN : nat := 15.
Definition REG_DATA_STATE_LEN : nat := 6.

(** [responseStr] of a CDMA technology. *)
Definition registration_3gpp2 (voice : bool) (resp : list Z) : list (option bytes) :=
  let r0 := str_d (nth 0 resp 0) in
  if voice then
    [r0; None; None; str_s "8"; str_s "1"; str_s "123"; str_s "222"; str_s "0"; str_s "4"; str_s "65535"; str_s "0";
     str_s "1"; str_s "0"; str_s "0"; str_s "0"]
  else [r0; None; None; str_s "8"; None; None].

(** [responseStr] otherwise; [r3]: the network type. *)
Definition registration_3gpp (voice : bool) (resp : list Z) (r3 : Z) : list (option bytes) :=
  [str_d (nth 0 resp 0); str_x (nth 1 resp 0); str_x (nth 2 resp 0); str_d r3] ++
  replicate ((if voice then REG_STATE_LEN else REG_DATA_STATE_LEN) - 4) None.

(** The final check: [i] is 0 all along, whatever [j]. *)
Definition registration_check (startfrom : nat) (responseStr : list (option bytes)) : bool :=
  forallb (fun _ => match responseStr !! 0%nat with Some (Some _) => true | _ => false end)
    (seq startfrom (length responseStr - startfrom)).

(** ** Operator *)

(** [sscanf(s, "%3d%3d")]: the number of conversions and what they store. *)
Definition scan_3d (s : bytes) : option (Z * bytes) :=
  let '(s, _) := skip_spaces s in
  let '(v, n) := strtol (take 3 s) 10 in
  if (n =? 0)%nat then None else Some (v, drop n s).

Definition scan_mccmnc (s : bytes) (mcc mnc : Z) : Z * Z :=
  match scan_3d s with
  | None => (mcc, mnc)
  | Some (m, s) => match scan_3d s with None => (m, mnc) | Some (n, _) => (m, n) end
  end.

(** One line: [None] is [goto error]; otherwise what is stored in [response[i]]. *)
Definition operator_line (line : bytes) : option (option bytes) :=
  cur ← read_start (Some line);
  '(_, cur) ← read_int cur;
  if negb (at_tok_hasmore cur) then Some None
  else
    '(_, cur) ← read_int cur;
    if negb (at_tok_hasmore cur) then Some None
    else '(name, _) ← read_str cur; Some name.

(** The loop: the index after it and [response], which has three elements. *)
Fixpoint operator_loop (lines : list bytes) (i : Z) (response : list (option bytes)) (mcc mnc : Z)
  : outcome (option (Z * list (option bytes)) * (Z * Z)) :=
  match lines with
  | [] => Ret (Some (i, response), (mcc, mnc))
  | line :: rest =>
    match operator_line line with
    | None => Ret (None, (mcc, mnc))
    | Some name =>
      response ← arr_wr response i name;
      let '(mcc, mnc) :=
        match name with
        | Some name => if (length name =? 6)%nat then scan_mccmnc name mcc mnc else (mcc, mnc)
        | None => (mcc, mnc)
        end in
      operator_loop rest (i + 1) response mcc mnc
    end
  end.

Definition invalid_operator : bytes := s2b "FFFFFFFFFFFFFFFF".

(** [strcpy] over a string: it must fit. *)
Definition strcpy_over (old new : bytes) : outcome bytes := if (length new <=? length old)%nat then Ret new else Ub.

(** The names of two networks, by number, when the modem gives none. *)
Definition operator_rename (name numeric : option bytes) (unicom mobile : bytes) : outcome (option bytes) :=
  match name, numeric with
  | Some n, Some num =>
    if strStartsWith n invalid_operator then
      n ← (if strStartsWith num (s2b "46001") then strcpy_over n unicom else Ret n);
      n ← (if strStartsWith num (s2b "46000") || strStartsWith num (s2b "46002") || strStartsWith num (s2b "46007")
           then strcpy_over n mobile else Ret n);
      Ret (Some n)
    else Ret name
  | _, _ => Ret name
  end.

(** ** Available networks *)

Definition statusTable : list bytes := [s2b "unknown"; s2b "available"; s2b "current"; s2b "forbidden"].

(** One network of the list: status and names. *)
Definition network_fields (line : bytes) : option (Z * option bytes * option bytes * option bytes) :=
  '(status, cur) ← read_int (Some line);
  '(longAlphaNumeric, cur) ← read_str cur;
  '(shortAlphaNumeric, cur) ← read_str cur;
  '(numeric, _) ← read_str cur;
  Some (status, longAlphaNumeric, shortAlphaNumeric, numeric).

(** The loop of [n] rounds: [None] is [goto error].  The two lists after a network
    are looked for from the same place, and not passed. *)
Fixpoint networks_loop (n : nat) (p : option bytes) (stored : list (list bytes)) : outcome (option (list (list bytes))) :=
  match n with
  | O => Ret (Some stored)
  | S n =>
    '(line, p) ← getFirstElementValue p (Some (s2b "(")) (Some (s2b ")")) true;
    match line with
    | None => Ret None
    | Some line =>
      match network_fields line with
      | None => Ret None
      | Some (status, la, sa, num) =>
        la ← checked la; sa ← checked sa; num ← checked num;
        if existsb (fun w => bool_decide (w !! 2%nat = Some num)) stored then networks_loop n p stored
        else
          st ← arr_rd statusTable status;
          let stored := stored ++ [[la; sa; num; st]] in
          '(line, _) ← getFirstElementValue p (Some (s2b "(")) (Some (s2b ")")) true;
          match line with
          | None => Ret (Some stored)
          | Some _ =>
            '(line, _) ← getFirstElementValue p (Some (s2b "(")) (Some (s2b ")")) true;
            match line with None => Ret (Some stored) | Some _ => networks_loop n p stored end
          end
      end
    end
  end.

(** ** Lemmas: hexadecimal fields *)

Definition is_hex (c : Z) : Prop := 48 <= c <= 57 \/ 97 <= c <= 102.
Definition hex_val (c : Z) : Z := if c <? 58 then c - 48 else c - 87.
Definition hval (a : Z) (ds : bytes) : Z := foldl (fun a c => a * 16 + hex_val c) a ds.

Lemma is_hex_digit c : is_hex c -> digit_in 16 c = Some (hex_val c).
Proof.
  unfold is_hex, digit_in, digit_val, hex_val. intros H.
  destruct (Z.leb_spec 48 c), (Z.leb_spec c 57); cbn [andb]; try lia.
  - rewrite (proj2 (Z.ltb_lt c 58)) by lia. by rewrite (proj2 (Z.ltb_lt _ _)) by lia.
  - destruct (Z.leb_spec 97 c), (Z.leb_spec c 122); cbn [andb]; try lia.
    destruct (Z.ltb_spec c 58); [lia|]. rewrite (proj2 (Z.ltb_lt _ _)) by lia. f_equal. lia.
Qed.

Lemma read_digits_hval a ds : Forall is_hex ds -> read_digits 16 a ds = (hval a ds, length ds).
Proof. intros H. revert a. induction H as [|c ds Hc H IH]; intros a; simpl; [done|]. by rewrite is_hex_digit, IH. Qed.

Lemma hex_digits_hex f n acc : Forall is_hex acc -> Forall is_hex (hex_digits f n acc).
Proof.
  revert n acc; induction f as [|f IH]; intros n acc Ha; cbn [hex_digits]; [done|].
  pose proof (Z.mod_pos_bound n 16 ltac:(lia)).
  assert (Forall is_hex ((if n mod 16 <? 10 then 48 + n mod 16 else 87 + n mod 16) :: acc)) as Hacc.
  { constructor; [|done]. unfold is_hex. destruct (Z.ltb_spec (n mod 16) 10); lia. }
  destruct (n <? 16); [done|]. by apply IH.
Qed.

Lemma hex_digits_hval f n acc : 0 <= n < 16 ^ Z.of_nat f -> hval 0 (hex_digits f n acc) = hval n acc.
Proof.
  revert n acc; induction f as [|f IH]; intros n acc Hn.
  - simpl in *. by replace n with 0 by lia.
  - cbn [hex_digits]. pose proof (Z.mod_pos_bound n 16 ltac:(lia)). pose proof (Z.div_mod n 16 ltac:(lia)).
    assert (hex_val (if n mod 16 <? 10 then 48 + n mod 16 else 87 + n mod 16) = n mod 16) as Hv.
    { unfold hex_val. destruct (Z.ltb_spec (n mod 16) 10).
      - destruct (Z.ltb_spec (48 + n mod 16) 58); lia.
      - destruct (Z.ltb_spec (87 + n mod 16) 58); lia. }
    rewrite Nat2Z.inj_succ, Z.pow_succ_r in Hn by lia.
    destruct (Z.ltb_spec n 16).
    + unfold hval. cbn [foldl]. rewrite Hv. f_equal. rewrite Z.mod_small by lia. lia.
    + rewrite IH by (split; [apply Z.div_pos; lia|apply Z.div_lt_upper_bound; lia]).
      unfold hval. cbn [foldl]. rewrite Hv. f_equal. lia.
Qed.

Lemma hex_digits_cons f n acc : exists c r, hex_digits (S f) n acc = c :: r.
Proof.
  revert n acc; induction f as [|f IH]; intros n acc; cbn [hex_digits].
  - by destruct (n <? 16); eexists _, _.
  - destruct (n <? 16); [by eexists _, _|]. apply IH.
Qed.

(** [strtoul] and the tokenizer read back what [%x] prints. *)
Lemma print_hex_shape v : int_ok v ->
  exists c r, print_hex v = c :: r /\ Forall is_hex (c :: r) /\ hval 0 (c :: r) = u32 v.
Proof.
  intros Hv. unfold print_hex. destruct (hex_digits_cons 7 (u32 v) []) as (c & r & E). exists c, r. split; [done|].
  rewrite <- E. split; [by apply hex_digits_hex|].
  rewrite hex_digits_hval; [done|]. pose proof (u32_range v). cbn in *. lia.
Qed.

Lemma print_hex_plain v : int_ok v -> plain_token (print_hex v).
Proof.
  intros Hv. destruct (print_hex_shape v Hv) as (c & r & -> & Hf & _). split.
  - intros Hin. rewrite Forall_forall in Hf. apply Hf in Hin. unfold is_hex, COMMA in *. lia.
  - exists c, r. apply Forall_cons in Hf as [Hc _]. unfold is_hex, c_isspace, QUOTE in *.
    split; [done|]. split; [|lia]. destruct (Z.eqb_spec c 32), (Z.leb_spec 9 c), (Z.leb_spec c 13); cbn; try done; lia.
Qed.

Lemma strtoul_print_hex v : int_ok v -> exists n, strtoul (print_hex v) 16 = (u32 v, S n).
Proof.
  intros Hv. destruct (print_hex_shape v Hv) as (c & r & -> & Hf & Hval). apply Forall_cons in Hf as Hc. destruct Hc as [Hc _].
  assert (c_isspace c = false /\ (c =? 45) = false /\ (c =? 43) = false) as (Hs & H45 & H43).
  { unfold is_hex, c_isspace in *. split_and!; [|by apply Z.eqb_neq; lia..].
    destruct (Z.eqb_spec c 32), (Z.leb_spec 9 c), (Z.leb_spec c 13); cbn; try done; lia. }
  assert (read_0x 16 (c :: r) = (c :: r, 0%nat)) as H0.
  { unfold read_0x. destruct r as [|x [|h r]]; [done..|]. apply Forall_cons in Hf as [_ Hf]. apply Forall_cons in Hf as [Hx _].
    unfold is_hex in Hx. rewrite (proj2 (Z.eqb_neq x 120)), (proj2 (Z.eqb_neq x 88)) by lia. by rewrite andb_false_r. }
  unfold strtoul, parse_number. cbn [skip_spaces]. rewrite Hs. cbn [read_sign]. rewrite H45, H43, H0.
  rewrite read_digits_hval, Hval by done. cbn [length]. pose proof (u32_range v).
  destruct (Z.ltb_spec ULONG_MAX (u32 v)); [unfold ULONG_MAX in *; lia|].
  rewrite u32_small by done. by eexists.
Qed.

Lemma s32_u32 v : int_ok v -> s32 (u32 v) = v.
Proof.
  unfold int_ok, INT_MIN, INT_MAX, s32, u32. intros Hv. rewrite Zplus_mod_idemp_l. rewrite Z.mod_small by lia. lia.
Qed.

Lemma read_hex_comma v r : int_ok v -> read_hex (Some (print_hex v ++ COMMA :: r)) = Some (v, Some r).
Proof.
  intros Hv. unfold read_hex, at_tok_nexthexint, at_tok_nextint_base.
  pose proof (nextTok_plain_comma [] (print_hex v) r (Forall_nil_2 _) (print_hex_plain v Hv)) as E. cbn [app] in E. rewrite E.
  destruct (strtoul_print_hex v Hv) as [n ->]. cbn. by rewrite s32_u32.
Qed.

Lemma read_hex_last v : int_ok v -> read_hex (Some (print_hex v)) = Some (v, None).
Proof.
  intros Hv. unfold read_hex, at_tok_nexthexint, at_tok_nextint_base.
  pose proof (nextTok_plain_end [] (print_hex v) (Forall_nil_2 _) (print_hex_plain v Hv)) as E. cbn [app] in E. rewrite E.
  destruct (strtoul_print_hex v Hv) as [n ->]. cbn. by rewrite s32_u32.
Qed.

(** ** Lemmas: the forms of a registration line *)

(** The unsolicited and the solicited form, with or without the cell, and with the
    network type: the number of items, and state, area, cell and type. *)
Inductive registration_form : list bytes -> Z -> Z -> Z -> Z -> Z -> Prop :=
| form_stat stat : int_ok stat -> registration_form [print_int stat] 1 stat (-1) (-1) 0
| form_n_stat n stat : int_ok n -> int_ok stat -> registration_form [print_int n; print_int stat] 2 stat (-1) (-1) 0
| form_cell stat lac cid : int_ok stat -> int_ok lac -> int_ok cid ->
    registration_form [print_int stat; print_hex lac; print_hex cid] 3 stat lac cid 0
| form_n_cell n stat lac cid : int_ok n -> int_ok stat -> int_ok lac -> int_ok cid ->
    registration_form [print_int n; print_int stat; print_hex lac; print_hex cid] 4 stat lac cid 0
| form_type n stat lac cid ty : int_ok n -> int_ok stat -> int_ok lac -> int_ok cid -> int_ok ty ->
    registration_form [print_int n; print_int stat; print_hex lac; print_hex cid; print_hex ty] 5 stat lac cid ty.

Lemma count_char_app c a b : count_char c (a ++ b) = count_char c a + count_char c b.
Proof. induction a as [|x a IH]; cbn [app count_char]; [done|]. case_match; lia. Qed.

Lemma count_char_notin c s : c ∉ s -> count_char c s = 0.
Proof.
  induction s as [|x s IH]; intros H; cbn [count_char]; [done|]. apply not_elem_of_cons in H as [Hx H].
  rewrite (proj2 (Z.eqb_neq x c)) by congruence. by apply IH.
Qed.

Lemma join_commas_count fs : Forall (fun f => COMMA ∉ f) fs -> fs <> [] ->
  count_char COMMA (join_commas fs) + 1 = Z.of_nat (length fs).
Proof.
  intros H Hne. induction H as [|f fs Hf H IH]; [done|]. destruct fs as [|g fs].
  - cbn [join_commas length]. by rewrite count_char_notin.
  - change (join_commas (f :: g :: fs)) with (f ++ COMMA :: join_commas (g :: fs)).
    rewrite count_char_app, count_char_notin by done. cbn [count_char]. rewrite Z.eqb_refl.
    specialize (IH ltac:(done)). cbn [length] in *. lia.
Qed.

Lemma form_commas fs items stat lac cid ty : registration_form fs items stat lac cid ty ->
  items = Z.of_nat (length fs) /\ Forall (fun f => COMMA ∉ f) fs /\ fs <> [].
Proof.
  intros H. destruct H; (split; [done|]); (split; [|done]);
    repeat (apply Forall_cons; split; [first [by apply print_int_plain | by apply print_hex_plain]|]); by apply Forall_nil.
Qed.

Lemma parse_registration_form (prefix : bytes) fs items stat lac cid ty :
  COLON ∉ prefix -> registration_form fs items stat lac cid ty ->
  parse_registration (prefix ++ COLON :: join_commas fs) = Some (items, [stat; lac; cid; ty; 0]).
Proof.
  intros Hp Hf. pose proof (form_commas _ _ _ _ _ _ Hf) as (Hi & Hc & Hne). pose proof (join_commas_count fs Hc Hne) as Hn.
  unfold parse_registration, read_start, at_tok_start. rewrite strchr_app_notin by done. cbn [strchr].
  rewrite Z.eqb_refl. cbn [mbind option_bind Z.ltb Z.compare]. cbn [drop]. rewrite ?drop_0.
  rewrite (ltac:(lia) : count_char COMMA (join_commas fs) = items - 1).
  destruct Hf as [st H1|n st H1 H2|st lac cid H1 H2 H3|n st lac cid H1 H2 H3 H4|n st lac cid ty H1 H2 H3 H4 H5];
    cbn [join_commas]; clear - H1 H2 H3 H4 H5 || clear - H1 H2 H3 H4 || clear - H1 H2 H3 || clear - H1 H2 || clear - H1;
    unfold registration_fields;
    repeat match goal with |- context [?a =? ?b] => let r := eval vm_compute in (a =? b) in change (a =? b) with r end; cbn match.
  - rewrite (read_last _ H1). reflexivity.
  - rewrite (read_comma _ _ H1). cbn [mbind option_bind]. rewrite (read_last _ H2). reflexivity.
  - rewrite (read_comma _ _ H1). cbn [mbind option_bind]. rewrite (read_hex_comma _ _ H2). cbn [mbind option_bind].
    rewrite (read_hex_last _ H3). reflexivity.
  - rewrite (read_comma _ _ H1). cbn [mbind option_bind]. rewrite (read_comma _ _ H2). cbn [mbind option_bind].
    rewrite (read_hex_comma _ _ H3). cbn [mbind option_bind]. rewrite (read_hex_last _ H4). reflexivity.
  - rewrite (read_comma _ _ H1). cbn [mbind option_bind]. rewrite (read_comma _ _ H2). cbn [mbind option_bind].
    rewrite (read_hex_comma _ _ H3). cbn [mbind option_bind]. rewrite (read_hex_comma _ _ H4). cbn [mbind option_bind].
    rewrite (read_hex_last _ H5). reflexivity.
Qed.

(** ** Handlers *)

Section handlers.
Context `{AP : at_port} (runtime_3g_port_type current_modem_type : modem_type).

(** [HUAWEI_MODEM == modem_type || AMAZON_MODEM == modem_type] *)
Definition known_modem (m : modem_type) : bool := bool_decide (m = HUAWEI_MODEM) || bool_decide (m = AMAZON_MODEM).

Definition setRadioTechnology (newtech : Z) : ril unit :=
  v ← get_vars;
  let m := sMdmInfo v in
  let oldtech := currentTech m in
  if newtech =? oldtech then mret tt
  else
    _ ← set_vars (set_mdm (mk_mdm (supportedTechs m) newtech (isMultimode m) (preferredNetworkMode m) (subscription_source m)));
    if negb (techFromModemType newtech =? techFromModemType oldtech) then
      let tech := techFromModemType newtech in
      if 0 <? tech then unsolicited RIL_UNSOL_VOICE_RADIO_TECH_CHANGED (DInts [tech]) else mret tt
    else mret tt.

Definition query_ctec : ril (Z * option Z * option Z) :=
  if known_modem runtime_3g_port_type then mret (-1, None, None)
  else
    line ← ask_line_ne (AT_singleline (s2b "AT+CTEC?") (s2b "+CTEC:"));
    match line with
    | None => mret (-1, None, None)
    | Some line => mret (parse_technology_response line)
    end.

(** The loop over the technologies; each round reads past a character, so their
    number bounds the rounds. *)
Fixpoint techs_loop (fuel : nat) (line : option bytes) (techs : Z) : Z :=
  match fuel with
  | O => techs
  | S fuel =>
    match at_tok_nextint line with
    | (0, Some val, line) => techs_loop fuel line (s32 (techs .| shl1 val))
    | _ => techs
    end
  end.

(** [None]: -1. *)
Definition query_supported_techs : ril (option Z) :=
  line ← ask_line_ne (AT_singleline (s2b "AT+CTEC=?") (s2b "+CTEC:"));
  match line with
  | None => mret None
  | Some line =>
    match at_tok_start (Some line) with
    | (0, cur) => if at_tok_hasmore cur then mret (Some (techs_loop (S (length line)) cur 0)) else mret None
    | _ => mret None
    end
  end.

Definition is_multimode_modem : ril bool :=
  '(res, tech, preferred) ← query_ctec;
  if negb (res =? 0) then mret false
  else
    tech ← lift (checked tech);
    preferred ← lift (checked preferred);
    v ← get_vars;
    let m := sMdmInfo v in
    _ ← set_vars (set_mdm (mk_mdm (supportedTechs m) tech (isMultimode m) preferred (subscription_source m)));
    supported ← query_supported_techs;
    match supported with
    | None => mret false
    | Some techs =>
      v ← get_vars;
      let m := sMdmInfo v in
      _ ← set_vars (set_mdm (mk_mdm techs (currentTech m) (isMultimode m) (preferredNetworkMode m) (subscription_source m)));
      mret true
    end.

Definition gsm_modem : ril unit :=
  v ← get_vars;
  let m := sMdmInfo v in
  set_vars (set_mdm (mk_mdm (MDM_GSM .| MDM_WCDMA .| MDM_LTE) MDM_GSM (isMultimode m) (preferredNetworkMode m) (subscription_source m))).

Definition probeForModemMode : ril unit :=
  if known_modem runtime_3g_port_type then
    v ← get_vars;
    let m := sMdmInfo v in
    _ ← set_vars (set_mdm (mk_mdm (supportedTechs m) (currentTech m) (isMultimode m) (MDM_GSM .| MDM_WCDMA) (subscription_source m)));
    gsm_modem
  else
    multimode ← is_multimode_modem;
    if multimode : bool then mret tt
    else
      v ← get_vars;
      let m := sMdmInfo v in
      _ ← set_vars (set_mdm (mk_mdm (supportedTechs m) (currentTech m) 0 (preferredNetworkMode m) (subscription_source m)));
      r ← ask_ne (AT_singleline (s2b "AT+WNAM") (s2b "+WNAM:"));
      match r with
      | Some _ =>
        v ← get_vars;
        let m := sMdmInfo v in
        set_vars (set_mdm (mk_mdm (MDM_CDMA .| MDM_EVDO) MDM_CDMA (isMultimode m) (preferredNetworkMode m) (subscription_source m)))
      | None => gsm_modem
      end.

(** *** Preferred network *)

Definition networkModePossible (m : ModemInfo) (nm : Z) : outcome bool :=
  bits ← arr_rd net2modem nm;
  Ret ((bits .& supportedTechs m) =? bits).

Definition requestSetPreferredNetworkType (data : ril_request_data) : ril unit :=
  value ← lift (int_at data 0);
  preferred ← lift (arr_rd net2pmask value);
  v ← get_vars;
  possible ← lift (networkModePossible (sMdmInfo v) value);
  if negb possible then complete RIL_E_MODE_NOT_SUPPORTED DNone
  else
    '(res, current, _) ← query_ctec;
    if res <? 0 then complete RIL_E_GENERIC_FAILURE DNone
    else
      current ← lift (checked current);
      v ← get_vars;
      if preferredNetworkMode (sMdmInfo v) =? preferred then complete RIL_E_SUCCESS DNone
      else
        line ← ask_line_ne (AT_singleline (s2b "AT+CTEC=" ++ print_int current ++ [COMMA] ++ dquote (print_hex preferred))
                                          (s2b "+CTEC:"));
        match line with
        | None => complete RIL_E_GENERIC_FAILURE DNone
        | Some line =>
          v ← get_vars;
          let m := sMdmInfo v in
          _ ← set_vars (set_mdm (mk_mdm (supportedTechs m) (currentTech m) (isMultimode m) value (subscription_source m)));
          _ ← match strstr_off line (s2b "DONE") with
              | Some _ => mret tt
              | None =>
                match parse_technology_response line with
                | (_, Some current, _) => setRadioTechnology current
                | _ => mret tt
                end
              end;
          complete RIL_E_SUCCESS DNone
        end.

Fixpoint index_of (x : Z) (l : list Z) (i : Z) : option Z :=
  match l with [] => None | y :: r => if x =? y then Some i else index_of x r (i + 1) end.

Definition requestGetPreferredNetworkType : ril unit :=
  '(res, _, preferred) ← query_ctec;
  if negb (res =? 0) then complete RIL_E_GENERIC_FAILURE DNone
  else
    preferred ← lift (checked preferred);
    match index_of preferred net2pmask 0 with
    | Some i => complete RIL_E_SUCCESS (DInts [i])
    | None => complete RIL_E_GENERIC_FAILURE DNone
    end.

(** *** Signal *)

(** The integers of [RIL_GW_SignalStrength] and of [RIL_SignalStrength_v6]. *)
Definition signal_elements : nat := if known_modem runtime_3g_port_type then 2%nat else 12%nat.

Fixpoint read_ints (n : nat) (cur : option bytes) : option (list Z) :=
  match n with
  | O => Some []
  | S n => '(v, cur) ← read_int cur; vs ← read_ints n cur; Some (v :: vs)
  end.

Definition signal_line (line : bytes) : option (list Z) :=
  cur ← read_start (Some line); read_ints signal_elements cur.

(** The retries of the event reports. *)
Definition retry_creg : ril unit :=
  r ← ask (AT (s2b "AT+CREG=2"));
  r ← match r with Some _ => mret r | None => ask (AT (s2b "AT+CREG=1")) end;
  v ← get_vars;
  set_vars (set_reg_failed (match r with Some _ => 0 | None => 1 end) (sUnsolictedCGREG_failed v)).

Definition retry_cgreg : ril unit :=
  r ← ask (AT (s2b "AT+CGREG=1"));
  v ← get_vars;
  set_vars (set_reg_failed (sUnsolictedCREG_failed v) (match r with Some _ => 0 | None => 1 end)).

(** The completion passes the size of a pointer: one integer.  A failed command is
    completed before the error branch completes it again. *)
Definition requestSignalStrength : ril unit :=
  v ← get_vars;
  _ ← (if ctrue (sUnsolictedCREG_failed v) then retry_creg else mret tt);
  v ← get_vars;
  _ ← (if ctrue (sUnsolictedCGREG_failed v) then retry_cgreg else mret tt);
  line ← ask_line (AT_singleline (s2b "AT+CSQ") (s2b "+CSQ:"));
  match line with
  | None => _ ← complete RIL_E_GENERIC_FAILURE DNone; complete RIL_E_GENERIC_FAILURE DNone
  | Some line =>
    match signal_line line with
    | None => complete RIL_E_GENERIC_FAILURE DNone
    | Some response => complete RIL_E_SUCCESS (DInts (take 1 response))
    end
  end.

(** *** Registration *)

(** The type, the number of items and the integers. *)
Definition parseRegistrationState (str : bytes) : ril (option (Z * Z * list Z)) :=
  match parse_registration str with
  | None => mret None
  | Some (items, resp) =>
    _ ← set_vars (set_cell (nth 1 resp 0) (nth 2 resp 0));
    v ← get_vars;
    mret (Some (techFromModemType (currentTech (sMdmInfo v)), items, resp))
  end.

Definition requestRegistrationState (voice : bool) : ril unit :=
  line ← ask_line_ne (if voice then AT_singleline (s2b "AT+CREG?") (s2b "+CREG:")
                      else AT_singleline (s2b "AT+CGREG?") (s2b "+CGREG:"));
  match line with
  | None => complete RIL_E_GENERIC_FAILURE DNone
  | Some line =>
    res ← parseRegistrationState line;
    match res with
    | None => complete RIL_E_GENERIC_FAILURE DNone
    | Some (type, count, registration) =>
      v ← get_vars;
      let '(startfrom, responseStr) :=
        if is3gpp2 type =? 1 then (3%nat, registration_3gpp2 voice registration)
        else
          let r3 := if 3 <? count then convertRILRadioTechnology (nth 3 registration 0) runtime_3g_port_type
                    else sNetworkType v in
          (0%nat, registration_3gpp voice registration r3) in
      if registration_check startfrom responseStr then complete RIL_E_SUCCESS (DStrings responseStr)
      else complete RIL_E_GENERIC_FAILURE DNone
    end
  end.

(** *** Operator and networks *)

Definition requestOperator : ril unit :=
  '(err, r) ← command (AT_multiline (s2b "AT+COPS=3,0;+COPS?;+COPS=3,1;+COPS?;+COPS=3,2;+COPS?") (s2b "+COPS:"));
  if negb (err =? 0) then complete RIL_E_GENERIC_FAILURE DNone
  else
    r ← lift (checked r);
    v ← get_vars;
    '(res, (mcc, mnc)) ← lift (operator_loop (p_intermediates r) 0 [None; None; None] (s_mcc v) (s_mnc v));
    _ ← set_vars (set_mccmnc mcc mnc);
    match res with
    | None => complete RIL_E_GENERIC_FAILURE DNone
    | Some (i, response) =>
      if negb (i =? 3) then complete RIL_E_GENERIC_FAILURE DNone
      else
        r2 ← lift (arr_rd response 2);
        r0 ← lift (arr_rd response 0);
        r0 ← lift (operator_rename r0 r2 (s2b "China Unicom") (s2b "China Mobile Com"));
        r1 ← lift (arr_rd response 1);
        r1 ← lift (operator_rename r1 r2 (s2b "UNICOM") (s2b "CMCC"));
        complete RIL_E_SUCCESS (DStrings [r0; r1; r2])
    end.

Definition requestQueryNetworkSelectionMode : ril unit :=
  line ← ask_line (AT_singleline (s2b "AT+COPS?") (s2b "+COPS:"));
  match line with
  | None => complete RIL_E_GENERIC_FAILURE DNone
  | Some line =>
    match (cur ← read_start (Some line); read_int cur) with
    | None => complete RIL_E_GENERIC_FAILURE DNone
    | Some (response, _) => complete RIL_E_SUCCESS (DInts [response])
    end
  end.

Definition requestSetNetworkSelectionAutomatic : ril unit :=
  err ← command_null (AT (s2b "AT+COPS=0"));
  if err <? 0 then complete RIL_E_GENERIC_FAILURE DNone else complete RIL_E_SUCCESS DNone.

(** [mccMnc] may be NULL. *)
Definition requestSetNetworkSelectionManual (data : ril_request_data) : ril unit :=
  match data with
  | RString mccMnc =>
    r ← ask (AT (s2b "AT+COPS=1,2," ++ dquote mccMnc));
    match r with
    | None => complete RIL_E_GENERIC_FAILURE DNone
    | Some _ => complete RIL_E_SUCCESS DNone
    end
  | RNone => complete RIL_E_GENERIC_FAILURE DNone
  | _ => lift Ub
  end.

Definition requestQueryAvailableNetworks : ril unit :=
  r ← ask (AT_multiline (s2b "AT+COPS=?") (s2b "+COPS:"));
  match r with
  | None => complete RIL_E_GENERIC_FAILURE DNone
  | Some r =>
    match p_intermediates r with
    | [] => complete RIL_E_GENERIC_FAILURE DNone
    | p :: _ =>
      let n := count_char 40 p / 3 in
      res ← lift (networks_loop (Z.to_nat n) (Some p) []);
      match res with
      | None => complete RIL_E_GENERIC_FAILURE DNone
      | Some stored => complete RIL_E_SUCCESS (DStrings (Some <$> concat stored))
      end
    end
  end.

Definition requestGetCellInfoList : ril unit :=
  v ← get_vars;
  complete RIL_E_SUCCESS (DCell (s_mcc v) (s_mnc v) (s_lac v) (s_cid v)).

(** [assert(datalen == sizeof(int))] *)
Definition requestSetCellInfoListRate (data : ril_request_data) : ril unit :=
  l ← lift (ints data);
  _ ← lift (c_assert (length l =? 1)%nat);
  rate ← lift (arr_rd l 0);
  _ ← set_vars (set_cell_rate rate);
  complete RIL_E_SUCCESS DNone.

(** *** CDMA *)

Definition requestCdmaBaseBandVersion : ril unit := complete RIL_E_SUCCESS (DString (s2b "1.0.0.0")).

Definition requestCdmaDeviceIdentity : ril unit :=
  line ← ask_line (AT_numeric (s2b "AT+CGSN"));
  match line with
  | None => complete RIL_E_GENERIC_FAILURE DNone
  | Some line => complete RIL_E_SUCCESS (DStrings [str_s "----"; str_s "----"; str_s "77777777"; Some line])
  end.

Definition requestCdmaSubscription : ril unit :=
  complete RIL_E_SUCCESS (DStrings [str_s "8587777777"; str_s "1"; str_s "1"; str_s "8587777777"; str_s "1"]).

(** What [at_tok_nextint] stores is sent whether it succeeds or not. *)
Definition requestCdmaGetSubscriptionSource : ril unit :=
  line ← ask_line (AT_singleline (s2b "AT+CCSS?") (s2b "+CCSS:"));
  match line with
  | None => complete RIL_E_GENERIC_FAILURE DNone
  | Some line =>
    match read_start (Some line) with
    | None => complete RIL_E_GENERIC_FAILURE DNone
    | Some cur =>
      let '(_, o, _) := at_tok_nextint cur in
      response ← lift (checked o);
      complete RIL_E_SUCCESS (DInts [response])
    end
  end.

Definition requestCdmaSetSubscriptionSource (data : ril_request_data) : ril unit :=
  match data with
  | RNone | RInts [] => complete RIL_E_GENERIC_FAILURE DNone
  | _ =>
    ss ← lift (int_at data 0);
    r ← ask (AT (s2b "AT+CCSS=" ++ print_int ss));
    match r with
    | None => complete RIL_E_GENERIC_FAILURE DNone
    | Some _ =>
      _ ← complete RIL_E_SUCCESS DNone;
      unsolicited RIL_UNSOL_CDMA_SUBSCRIPTION_SOURCE_CHANGED (DInts [ss])
    end
  end.

Definition requestCdmaGetRoamingPreference : ril unit :=
  line ← ask_line (AT_singleline (s2b "AT+WRMP?") (s2b "+WRMP:"));
  match line with
  | None => complete RIL_E_GENERIC_FAILURE DNone
  | Some line =>
    match (cur ← read_start (Some line); read_int cur) with
    | None => complete RIL_E_GENERIC_FAILURE DNone
    | Some (roaming_pref, _) => complete RIL_E_SUCCESS (DInts [roaming_pref])
    end
  end.

Definition requestCdmaSetRoamingPreference (data : ril_request_data) : ril unit :=
  pref ← lift (int_at data 0);
  r ← ask (AT (s2b "AT+WRMP=" ++ print_int pref));
  match r with
  | None => complete RIL_E_GENERIC_FAILURE DNone
  | Some _ => complete RIL_E_SUCCESS DNone
  end.

Definition requestExitEmergencyMode : ril unit :=
  r ← ask (AT (s2b "AT+WSOS=0"));
  match r with
  | None => complete RIL_E_GENERIC_FAILURE DNone
  | Some _ => complete RIL_E_SUCCESS DNone
  end.

Definition requestBasebandVersion : ril unit :=
  line ← ask_line (AT_numeric (s2b "AT+CGMR"));
  match line with
  | None => complete RIL_E_GENERIC_FAILURE DNone
  | Some line => complete RIL_E_SUCCESS (DString line)
  end.

Definition requestVoiceRadioTech : ril unit :=
  v ← get_vars;
  let tech := techFromModemType (currentTech (sMdmInfo v)) in
  if tech <? 0 then complete RIL_E_GENERIC_FAILURE DNone else complete RIL_E_SUCCESS (DInts [tech]).

(** ** Every handler completes its request once *)

Section laws.
Context (t : mode) `{AL : !at_port_laws t}.

Lemma good_mdm n s m :
  good n s -> mdm_ok m -> vars_ok (set_mdm m (vars s)).
Proof. intros (_ & [] & _) H. by split. Qed.

Lemma shl1_int n : int_ok (shl1 n).
Proof. unfold shl1. case_match; [apply s32_range|]. unfold int_ok, INT_MIN, INT_MAX. lia. Qed.

Lemma techs_loop_int fuel line techs : int_ok techs -> int_ok (techs_loop fuel line techs).
Proof.
  revert line techs. induction fuel as [|fuel IH]; intros line techs H; cbn [techs_loop]; [done|].
  repeat case_match; try done. apply IH, s32_range.
Qed.

Lemma parse_technology_ok line res c p :
  parse_technology_response line = (res, c, p) ->
  (forall v, c = Some v -> int_ok v) /\ (forall v, p = Some v -> int_ok v) /\
  (0 <= res -> is_Some c) /\ (res = 0 -> is_Some p).
Proof.
  unfold parse_technology_response. destruct (at_tok_start (Some line)) as [err cur].
  case_match; [intros [= <- <- <-]; split_and!; intros; done || lia|].
  destruct (at_tok_nextint cur) as [[e [ct|]] k] eqn:E1; [|intros; repeat case_match; simplify_eq; split_and!; intros; done || lia].
  pose proof (nextint_base_int _ _ _ _ _ _ E1) as H1.
  destruct (at_tok_nexthexint k) as [[e' [pt|]] k'] eqn:E2; cycle 1.
  { intros; repeat case_match; simplify_eq; split_and!; intros; simplify_eq; eauto; lia. }
  pose proof (nextint_base_int _ _ _ _ _ _ E2) as H2.
  intros; repeat case_match; simplify_eq; split_and!; intros; simplify_eq; eauto; lia.
Qed.

Lemma setRadioTechnology_ok n s tech :
  good n s -> int_ok tech -> wp t (setRadioTechnology tech) (fun _ => good n) s.
Proof.
  intros H Ht. pose proof H as (_ & Hv & _). unfold setRadioTechnology. do 2 ril_step. case_match; [by apply wp_ret|].
  apply wp_bind. eapply wp_set; [exact H| |].
  { destruct (ok_mdm _ Hv) as (H1 & H2 & H3 & H4). by apply (good_mdm n). }
  intros s' Hs _. ril_auto.
Qed.

Lemma wp_query_ctec n s (Q : Z * option Z * option Z -> rild -> Prop) :
  good n s ->
  (forall res c p s', good n s' -> vars s' = vars s -> (forall v, c = Some v -> int_ok v) ->
     (forall v, p = Some v -> int_ok v) -> (0 <= res -> is_Some c) -> (res = 0 -> is_Some p) -> Q (res, c, p) s') ->
  wp t query_ctec Q s.
Proof.
  intros H HQ. unfold query_ctec. case_match; [apply wp_ret, HQ; intros; done || lia|].
  ril_step. ril_step. destruct line as [line|]; ril_step; [|apply HQ; intros; done || lia].
  destruct (parse_technology_response line) as [[res c] p] eqn:E. apply parse_technology_ok in E as (? & ? & ? & ?).
  by apply HQ.
Qed.

Lemma query_supported_techs_ok n s :
  good n s -> wp t query_supported_techs (fun r s' => good n s' /\ vars s' = vars s /\ forall v, r = Some v -> int_ok v) s.
Proof.
  intros H. unfold query_supported_techs. ril_step. ril_step. destruct line as [line|]; [|by apply wp_ret].
  destruct (at_tok_start (Some line)) as [[] cur]; try by apply wp_ret.
  case_match; apply wp_ret; [|done]. split_and!; [done|done|].
  intros v Hv. apply (inj Some) in Hv as <-. by apply techs_loop_int.
Qed.

Lemma is_multimode_modem_ok n s : good n s -> wp t is_multimode_modem (fun _ => good n) s.
Proof.
  intros H. unfold is_multimode_modem. ril_step. eapply wp_query_ctec; [exact H|].
  intros res c p s1 H1 Hv1 Hc Hp Hrc Hrp. destruct (Z.eqb_spec res 0) as [->|]; cbn [negb]; [|by apply wp_ret].
  destruct (Hrc ltac:(done)) as [ct ->]. destruct (Hrp eq_refl) as [pt ->].
  do 2 (ril_step; eapply wp_lift_ret; [reflexivity|]). ril_step. ril_step.
  pose proof H1 as (_ & Hv & _). destruct (ok_mdm _ Hv) as (M1 & M2 & M3 & M4).
  ril_step. eapply wp_set; [exact H1|apply (good_mdm n); [done|split_and!; cbn; auto]|]. intros s2 H2 Hv2.
  ril_step. eapply wp_mono; [by apply query_supported_techs_ok|]. intros [techs|] s3 (H3 & Hv3 & Ht); [|by apply wp_ret].
  do 3 ril_step. pose proof H3 as (_ & Hv' & _). destruct (ok_mdm _ Hv') as (M1' & M2' & M3' & M4').
  eapply wp_set; [exact H3|apply (good_mdm n); [done|split_and!; cbn; auto]|]. intros s4 H4 Hv4. ril_auto.
Qed.

Lemma mdm_step n s m (Q : unit -> rild -> Prop) :
  good n s -> mdm_ok m -> (forall s', good n s' -> vars s' = set_mdm m (vars s) -> Q tt s') -> wp t (set_vars (set_mdm m)) Q s.
Proof. intros H Hm HQ. eapply wp_set; [exact H|by apply (good_mdm n)|done]. Qed.

Lemma techs_const : int_ok (MDM_GSM .| MDM_WCDMA .| MDM_LTE) /\ int_ok MDM_GSM /\ int_ok (MDM_GSM .| MDM_WCDMA) /\
  int_ok (MDM_CDMA .| MDM_EVDO) /\ int_ok MDM_CDMA.
Proof. by repeat split. Qed.

Lemma gsm_modem_ok n s : good n s -> wp t gsm_modem (fun _ => good n) s.
Proof.
  intros H. pose proof (ok_mdm _ (good_vars _ _ H)) as (M1 & M2 & M3 & M4). pose proof techs_const as (T1 & T2 & _).
  unfold gsm_modem. ril_step. ril_step. eapply mdm_step; [exact H|by split_and!|]. intros. ril_auto.
Qed.

Lemma probeForModemMode_ok n s : good n s -> wp t probeForModemMode (fun _ => good n) s.
Proof.
  intros H. pose proof techs_const as (T1 & T2 & T3 & T4 & T5). unfold probeForModemMode. case_match.
  - do 3 ril_step. ril_mdm.
    eapply mdm_step; [exact H|by split_and!|]. intros s1 G1 _. by apply gsm_modem_ok.
  - ril_step. eapply wp_mono; [by apply is_multimode_modem_ok|]. intros multi s1 G1. destruct multi; [by apply wp_ret|].
    do 3 ril_step. ril_mdm. eapply mdm_step; [exact G1|by split_and!|]. intros s2 G2 _. do 2 ril_step. destruct r as [r|]; [|by apply gsm_modem_ok].
    do 2 ril_step. ril_mdm. eapply mdm_step; [eassumption|by split_and!|]. by intros.
Qed.

(** A table of network modes has twelve entries. *)
Definition network_mode_ok (value : Z) : Prop := 0 <= value < 12.

Lemma table_rd (l : list Z) value : length l = 12%nat -> network_mode_ok value -> exists x, arr_rd l value = Ret x.
Proof.
  intros Hl Hv. unfold arr_rd, network_mode_ok in *. rewrite (proj2 (Z.leb_le 0 value)) by lia.
  destruct (l !! Z.to_nat value) as [x|] eqn:E; [by eexists|]. apply lookup_ge_None in E. lia.
Qed.

Lemma requestSetPreferredNetworkType_once n s value l :
  good n s -> network_mode_ok value -> wp t (requestSetPreferredNetworkType (RInts (value :: l))) (fun _ => good (S n)) s.
Proof.
  intros H Hv. unfold requestSetPreferredNetworkType. ril_step. apply wp_first_int.
  destruct (table_rd net2pmask value eq_refl Hv) as [preferred Ep]. destruct (table_rd net2modem value eq_refl Hv) as [bits Eb].
  ril_step. eapply wp_lift_ret; [exact Ep|]. do 3 ril_step.
  eapply wp_lift_ret; [unfold networkModePossible; rewrite Eb; reflexivity|].
  case_match; [by ril_auto|]. ril_step. eapply wp_query_ctec; [exact H|]. intros res c p s1 H1 _ Hc _ Hr _.
  destruct (Z.ltb_spec res 0); [by ril_auto|]. destruct (Hr ltac:(done)) as [ct ->].
  ril_step. eapply wp_lift_ret; [reflexivity|]. do 2 ril_step. case_match; [by ril_auto|].
  do 2 ril_step. destruct line as [line|]; [|by ril_auto]. do 3 ril_step.
  ril_mdm. eapply mdm_step; [eassumption|split_and!; try done; unfold network_mode_ok, int_ok, INT_MIN, INT_MAX in *; cbn; lia|].
  intros s2 G2 _. ril_step. destruct (strstr_off line (s2b "DONE")); [by ril_auto|].
  destruct (parse_technology_response line) as [[r [ct'|]] p'] eqn:E; [|by ril_auto].
  apply parse_technology_ok in E as (Hct & _). eapply wp_mono; [apply setRadioTechnology_ok; [exact G2|by apply Hct]|].
  intros [] s3 G3. ril_auto.
Qed.

Lemma requestGetPreferredNetworkType_once n s : good n s -> wp t requestGetPreferredNetworkType (fun _ => good (S n)) s.
Proof.
  intros H. unfold requestGetPreferredNetworkType. ril_step. eapply wp_query_ctec; [exact H|].
  intros res c p s1 H1 _ _ _ _ Hp. destruct (Z.eqb_spec res 0) as [->|]; cbn [negb]; [|by ril_auto].
  destruct (Hp eq_refl) as [pt ->]. ril_step. eapply wp_lift_ret; [reflexivity|]. ril_auto.
Qed.

Lemma retry_creg_ok n s : good n s -> wp t retry_creg (fun _ => good n) s.
Proof.
  intros H. unfold retry_creg. do 3 ril_step.
  assert (wp t (match r with Some _ => mret r | None => ask (AT (s2b "AT+CREG=1")) end) (fun _ => good n) s') as Hr.
  { destruct r; ril_auto. }
  eapply wp_mono; [exact Hr|]. intros r' s1 G1. do 2 ril_step. eapply wp_set; [exact G1| |by intros].
  by destruct (good_vars _ _ G1).
Qed.

Lemma retry_cgreg_ok n s : good n s -> wp t retry_cgreg (fun _ => good n) s.
Proof.
  intros H. unfold retry_cgreg. do 4 ril_step. eapply wp_set; [eassumption| |by intros].
  match goal with G : good n ?s |- vars_ok (_ (vars ?s)) => by destruct (good_vars _ _ G) end.
Qed.

(** The signal is completed once when the command succeeds, twice when it fails. *)
Lemma requestSignalStrength_ok n s :
  good n s -> wp t requestSignalStrength (fun _ s' => good (S n) s' \/ good (S (S n)) s') s.
Proof.
  intros H. unfold requestSignalStrength. do 3 ril_step.
  eapply (wp_mono t _ (fun _ => good n)); [case_match; [by apply retry_creg_ok|by apply wp_ret]|]. intros _ s1 H1.
  do 3 ril_step.
  eapply (wp_mono t _ (fun _ => good n)); [case_match; [by apply retry_cgreg_ok|by apply wp_ret]|]. intros _ s2 H2.
  do 2 ril_step. destruct line as [line|]; [destruct (signal_line line)|].
  - ril_step. by left.
  - ril_step. by left.
  - do 2 ril_step. ril_step. by right.
Qed.

Lemma registration_cells str items resp :
  parse_registration str = Some (items, resp) -> int_ok (nth 1 resp 0) /\ int_ok (nth 2 resp 0).
Proof.
  assert (int_ok (-1)) as Hm by (unfold int_ok, INT_MIN, INT_MAX; lia).
  unfold parse_registration. destruct (read_start (Some str)) as [cur|]; [|done]. cbn [mbind option_bind].
  destruct (registration_fields _ cur) as [r|] eqn:E; [|done]. intros [= <- <-].
  unfold registration_fields in E. repeat case_match; try done;
    repeat match goal with p : _ * _ |- _ => destruct p | _ => progress simplify_option_eq end;
    cbn; split; eauto using read_hex_ok.
Qed.

Lemma parseRegistrationState_ok n s str : good n s -> wp t (parseRegistrationState str) (fun _ => good n) s.
Proof.
  intros H. unfold parseRegistrationState. destruct (parse_registration str) as [[items resp]|] eqn:E; [|by apply wp_ret].
  apply registration_cells in E. ril_step. eapply wp_set; [exact H| |intros; ril_auto].
  by destruct (good_vars _ _ H).
Qed.

Lemma requestRegistrationState_once n s voice : good n s -> wp t (requestRegistrationState voice) (fun _ => good (S n)) s.
Proof.
  intros H. unfold requestRegistrationState. ril_step.
  eapply (wp_mono t _ (fun _ => good n)); [destruct voice; ril_auto|]. intros line s1 H1.
  destruct line as [line|]; [|by ril_auto]. ril_step.
  eapply wp_mono; [by apply parseRegistrationState_ok|]. intros res s2 H2. destruct res as [[[type count] reg]|]; [|by ril_auto].
  do 2 ril_step. case_match. case_match; ril_auto.
Qed.

Lemma requestQueryNetworkSelectionMode_once n s : good n s -> wp t requestQueryNetworkSelectionMode (fun _ => good (S n)) s.
Proof. intros H. unfold requestQueryNetworkSelectionMode. ril_auto. Qed.

Lemma requestSetNetworkSelectionAutomatic_once n s : good n s -> wp t requestSetNetworkSelectionAutomatic (fun _ => good (S n)) s.
Proof. intros H. unfold requestSetNetworkSelectionAutomatic. ril_auto. Qed.

Lemma requestSetNetworkSelectionManual_once n s data :
  good n s -> (data = RNone \/ exists m, data = RString m) -> wp t (requestSetNetworkSelectionManual data) (fun _ => good (S n)) s.
Proof. intros H [->|[m ->]]; unfold requestSetNetworkSelectionManual; ril_auto. Qed.

Lemma requestGetCellInfoList_once n s : good n s -> wp t requestGetCellInfoList (fun _ => good (S n)) s.
Proof. intros H. unfold requestGetCellInfoList. ril_auto. Qed.

Lemma requestSetCellInfoListRate_once n s rate :
  good n s -> int_ok rate -> wp t (requestSetCellInfoListRate (RInts [rate])) (fun _ => good (S n)) s.
Proof.
  intros H Hr. unfold requestSetCellInfoListRate. do 3 (ril_step; eapply wp_lift_ret; [reflexivity|]).
  ril_step. eapply wp_set; [exact H| |intros; ril_auto]. by destruct (good_vars _ _ H).
Qed.

Lemma requestCdmaDeviceIdentity_once n s : good n s -> wp t requestCdmaDeviceIdentity (fun _ => good (S n)) s.
Proof. intros H. unfold requestCdmaDeviceIdentity. ril_auto. Qed.

Lemma start_nextint str cur : read_start (Some str) = Some cur -> exists e v k, at_tok_nextint cur = (e, Some v, k).
Proof.
  unfold read_start, at_tok_start. destruct (strchr str COLON) as [r|]; [|done]. intros [= <-].
  unfold at_tok_nextint, at_tok_nextint_base. destruct (nextTok (Some (drop 1 r))) as [tk k] eqn:E.
  apply nextTok_progress in E as (_ & tok & -> & _). destruct (strtol tok 10). by eexists _, _, _.
Qed.

Lemma requestCdmaGetSubscriptionSource_once n s : good n s -> wp t requestCdmaGetSubscriptionSource (fun _ => good (S n)) s.
Proof.
  intros H. unfold requestCdmaGetSubscriptionSource. do 2 ril_step. destruct line as [line|]; [|by ril_auto].
  destruct (read_start (Some line)) as [cur|] eqn:E; [|by ril_auto]. apply start_nextint in E as (e & v & k & E).
  rewrite E. ril_step. eapply wp_lift_ret; [reflexivity|]. ril_auto.
Qed.

Lemma requestCdmaSetSubscriptionSource_once n s data :
  good n s -> (data = RNone \/ exists l, data = RInts l) ->
  wp t (requestCdmaSetSubscriptionSource data) (fun _ => good (S n)) s.
Proof.
  intros H [->|[[|x l] ->]]; unfold requestCdmaSetSubscriptionSource; [by ril_auto..|].
  ril_step. apply wp_first_int. ril_auto.
Qed.

Lemma requestCdmaGetRoamingPreference_once n s : good n s -> wp t requestCdmaGetRoamingPreference (fun _ => good (S n)) s.
Proof. intros H. unfold requestCdmaGetRoamingPreference. ril_auto. Qed.

Lemma requestCdmaSetRoamingPreference_once n s p l :
  good n s -> wp t (requestCdmaSetRoamingPreference (RInts (p :: l))) (fun _ => good (S n)) s.
Proof. intros H. unfold requestCdmaSetRoamingPreference. ril_step. apply wp_first_int. ril_auto. Qed.

Lemma requestExitEmergencyMode_once n s : good n s -> wp t requestExitEmergencyMode (fun _ => good (S n)) s.
Proof. intros H. unfold requestExitEmergencyMode. ril_auto. Qed.

Lemma requestBasebandVersion_once n s : good n s -> wp t requestBasebandVersion (fun _ => good (S n)) s.
Proof. intros H. unfold requestBasebandVersion. ril_auto. Qed.

Lemma requestVoiceRadioTech_once n s : good n s -> wp t requestVoiceRadioTech (fun _ => good (S n)) s.
Proof. intros H. unfold requestVoiceRadioTech. ril_auto. Qed.
End laws.

(** The operator and the list of networks keep the invariant when they come back. *)
Section partial.
Context `{AL : !at_port_laws Partial}.

Lemma scan_3d_int s v r : scan_3d s = Some (v, r) -> int_ok v.
Proof.
  unfold scan_3d. destruct (skip_spaces s) as [s' k]. destruct (strtol (take 3 s') 10) as [x n] eqn:E.
  case_match; [done|]. intros [= <- _]. pose proof (strtol_range (take 3 s') 10) as Hr. by rewrite E in Hr.
Qed.

Lemma scan_mccmnc_int s m n : int_ok m -> int_ok n -> int_ok (fst (scan_mccmnc s m n)) /\ int_ok (snd (scan_mccmnc s m n)).
Proof.
  intros Hm Hn. unfold scan_mccmnc. destruct (scan_3d s) as [[m' r]|] eqn:E; [|done]. apply scan_3d_int in E.
  destruct (scan_3d r) as [[n' r']|] eqn:E'; [|done]. by apply scan_3d_int in E'.
Qed.

Lemma operator_loop_int lines i resp m n res m' n' :
  int_ok m -> int_ok n -> operator_loop lines i resp m n = Ret (res, (m', n')) -> int_ok m' /\ int_ok n'.
Proof.
  revert i resp m n. induction lines as [|line lines IH]; intros i resp m n Hm Hn; cbn [operator_loop]; [by intros [= <- <- <-]|].
  destruct (operator_line line) as [name|]; [|by intros [= <- <- <-]].
  destruct (arr_wr resp i name) as [resp'| | |]; [|done..]. cbn [mbind outcome_bind].
  destruct name as [name|]; [|by apply IH]. destruct (length name =? 6)%nat; [|by apply IH].
  pose proof (scan_mccmnc_int name m n Hm Hn) as [H1 H2]. destruct (scan_mccmnc name m n). by apply IH.
Qed.

Lemma requestOperator_keeps n s : good n s -> wp Partial requestOperator (fun _ => good (S n)) s.
Proof.
  intros H. unfold requestOperator. ril_step. eapply wp_command; [exact _|exact H|]. intros err r s1 G1 _ _.
  case_match; [by ril_auto|]. ril_step. apply wp_partial. intros resp _. do 2 ril_step. ril_step. apply wp_partial.
  intros [res [mcc mnc]] E. pose proof (ok_operator _ (good_vars _ _ G1)) as [Hm Hn].
  apply operator_loop_int in E as [Hm' Hn']; [|done..]. ril_step. eapply wp_set; [exact G1| |].
  { by destruct (good_vars _ _ G1). }
  intros s2 G2 _. destruct res as [[i response]|]; [|by ril_auto]. case_match; [by ril_auto|].
  do 5 (ril_step; apply wp_partial; intros ? _). ril_auto.
Qed.

Lemma requestQueryAvailableNetworks_keeps n s : good n s -> wp Partial requestQueryAvailableNetworks (fun _ => good (S n)) s.
Proof.
  intros H. unfold requestQueryAvailableNetworks. do 2 ril_step. destruct r as [r|]; [|by ril_auto].
  destruct (p_intermediates r) as [|p ls]; [by ril_auto|]. ril_step. apply wp_partial. intros res _. destruct res; ril_auto.
Qed.
End partial.
End handlers.

(** ** Properties *)



(** A line of [+COPS] in a given format. *)
Definition render_cops (mode format : Z) (name rest : bytes) : bytes :=
  s2b "+COPS:" ++ [32] ++ print_int mode ++ COMMA :: print_int format ++ COMMA :: quoted name ++ rest.

Lemma operator_line_name mode format name rest :
  int_ok mode -> int_ok format -> QUOTE ∉ name -> rest = [] \/ (exists r, rest = COMMA :: r) ->
  operator_line (render_cops mode format name rest) = Some (Some name).
Proof.
  intros Hm Hf Hq Hr. unfold operator_line, render_cops.
  assert (read_start (Some (s2b "+COPS:" ++ [32] ++ print_int mode ++ COMMA :: print_int format ++ COMMA :: quoted name ++ rest)) =
    Some (Some ([32] ++ print_int mode ++ COMMA :: print_int format ++ COMMA :: quoted name ++ rest))) as -> by done.
  cbn [mbind option_bind]. rewrite read_int_comma by (done || by repeat constructor). cbn [mbind option_bind].
  assert (at_tok_hasmore (Some (print_int format ++ COMMA :: quoted name ++ rest)) = true) as ->.
  { unfold at_tok_hasmore. by destruct (print_int format). }
  cbn [negb]. rewrite read_comma by done. cbn [mbind option_bind].
  assert (at_tok_hasmore (Some (quoted name ++ rest)) = true) as -> by done. cbn [negb]. unfold read_str.
  destruct Hr as [->|[r ->]].
  - destruct (at_tok_nextstr_quoted [] name [] []) as [_ E]; [done|done|by apply not_elem_of_nil|].
    cbn [app] in E. by rewrite E.
  - destruct (at_tok_nextstr_quoted [] name [] r) as [E _]; [done|done|by apply not_elem_of_nil|].
    cbn [app] in E. by rewrite E.
Qed.

Definition cops : at_request := AT_multiline (s2b "AT+COPS=3,0;+COPS?;+COPS=3,1;+COPS?;+COPS=3,2;+COPS?") (s2b "+COPS:").

(** the modem answers the three queries for the operator with its long name, its
    short name and its number; when the names are its own, the request is
    completed with exactly these, and a number of six characters also sets the
    country and network codes.  A fourth line of the same kind is stored past the
    end of the array of three. *)
Theorem operator_reported `{AP : at_port} (s : rild) (resp : ATResponse) (p : port) (m f0 f1 f2 : Z) (long short number rest : bytes) :
  at_send cops true (chan s) = Ret (0, Some resp, p) ->
  int_ok m -> int_ok f0 -> int_ok f1 -> int_ok f2 -> QUOTE ∉ long -> QUOTE ∉ short -> QUOTE ∉ number ->
  length long <> 6%nat -> length short <> 6%nat -> length number = 6%nat -> rest = [] \/ (exists r, rest = COMMA :: r) ->
  strStartsWith long invalid_operator = false -> strStartsWith short invalid_operator = false ->
  let three := [render_cops m f0 long rest; render_cops m f1 short rest; render_cops m f2 number rest] in
  (p_intermediates resp = three ->
   requestOperator s =
     Ret (tt, mk_rild p (let '(mcc, mnc) := scan_mccmnc number (s_mcc (vars s)) (s_mnc (vars s)) in set_mccmnc mcc mnc (vars s))
       (events s ++ [Complete RIL_E_SUCCESS (DStrings [Some long; Some short; Some number])]))) /\
  (forall f3 name more, int_ok f3 -> QUOTE ∉ name ->
   p_intermediates resp = three ++ render_cops m f3 name rest :: more -> requestOperator s = Ub).
Proof.
  intros Hs Hm H0 H1 H2 Q0 Q1 Q2 L0 L1 L2 Hr I0 I1 three.
  assert (command cops s = Ret (0, Some resp, mk_rild p (vars s) (events s))) as E by (unfold command; by rewrite Hs).
  assert (forall tail, operator_loop (three ++ tail) 0 [None; None; None] (s_mcc (vars s)) (s_mnc (vars s)) =
    let '(mcc, mnc) := scan_mccmnc number (s_mcc (vars s)) (s_mnc (vars s)) in
    operator_loop tail 3 [Some long; Some short; Some number] mcc mnc) as El.
  { intros tail. subst three. cbn [app operator_loop]. rewrite !operator_line_name by done.
    cbn [mbind outcome_bind arr_wr]. unfold arr_wr. cbn [Z.leb Z.ltb Z.compare length Z.of_nat andb Pos.of_succ_nat Pos.succ
      Pos.compare Pos.compare_cont Z.to_nat Z.add Pos.add insert list_insert Pos.to_nat Pos.iter_op Nat.add mbind outcome_bind].
    apply Nat.eqb_neq in L0, L1. apply Nat.eqb_eq in L2. rewrite L0, L1, L2. by destruct (scan_mccmnc _ _ _). }
  unfold requestOperator. fold cops. rewrite (run_bind _ _ _ _ _ E). cbn [Z.eqb negb].
  rewrite (run_bind (lift (checked (Some resp))) _ _ resp (mk_rild p (vars s) (events s)) eq_refl), run_get. split.
  - intros Hl. rewrite Hl, <- (app_nil_r three). cbn [vars]. rewrite El. destruct (scan_mccmnc _ _ _) as [mcc mnc].
    assert (forall a b, operator_rename (Some long) (Some number) a b = Ret (Some long)) as R0
      by (intros; unfold operator_rename; by rewrite I0).
    assert (forall a b, operator_rename (Some short) (Some number) a b = Ret (Some short)) as R1
      by (intros; unfold operator_rename; by rewrite I1).
    set (s1 := mk_rild p (set_mccmnc mcc mnc (vars s)) (events s)).
    assert (forall a b, lift (operator_rename (Some long) (Some number) a b) s1 = Ret (Some long, s1)) as R0'
      by (intros; unfold lift; by rewrite R0).
    assert (forall a b, lift (operator_rename (Some short) (Some number) a b) s1 = Ret (Some short, s1)) as R1'
      by (intros; unfold lift; by rewrite R1).
    set (r3 := [Some long; Some short; Some number]). cbn [operator_loop].
    rewrite (run_bind (lift (Ret _)) _ _ _ _ eq_refl). cbn [vars chan events].
    rewrite (run_bind (set_vars (set_mccmnc mcc mnc)) _ (mk_rild p (vars s) (events s)) tt s1 eq_refl). cbn [Z.eqb Pos.eqb negb].
    rewrite (run_bind (lift (arr_rd r3 2)) _ s1 (Some number) s1 eq_refl), (run_bind (lift (arr_rd r3 0)) _ s1 (Some long) s1 eq_refl).
    rewrite (run_bind _ _ _ _ _ (R0' _ _)), (run_bind (lift (arr_rd r3 1)) _ s1 (Some short) s1 eq_refl).
    rewrite (run_bind _ _ _ _ _ (R1' _ _)).
    reflexivity.
  - intros f3 name more H3 Q3 Hl. rewrite Hl. cbn [vars]. rewrite El. destruct (scan_mccmnc _ _ _) as [mcc mnc].
    cbn [operator_loop]. rewrite operator_line_name by done. reflexivity.
Qed.

Lemma operator_reported_witness :
  let lines := [render_cops 0 0 (s2b "T - Mobile") []; render_cops 0 1 (s2b "TMO") []; render_cops 0 2 (s2b "310170") []] in
  let AP := modem_port (scripted [Some lines]) in
  requestOperator (@mk_rild AP [] vars_init []) =
    Ret (tt, @mk_rild AP [cops] (set_mccmnc 310 170 vars_init)
      [Complete RIL_E_SUCCESS (DStrings [str_s "T - Mobile"; str_s "TMO"; str_s "310170"])]).
Proof.
  intros lines AP.
  refine (proj1 (@operator_reported AP (@mk_rild AP [] vars_init []) (mk_at_response 1 (Some (s2b "OK")) lines) [cops]
    0 0 1 2 (s2b "T - Mobile") (s2b "TMO") (s2b "310170") [] eq_refl _ _ _ _ _ _ _ _ _ _ _ _ _) eq_refl);
    try (unfold int_ok, INT_MIN, INT_MAX; lia); try (by apply (bool_decide_unpack (QUOTE ∉ _))); try done; by left.
Defined.
