(* ===== verification/RilState.v ===== *)
(** * The radio's state and the card: [reference-ril.c]

    [setRadioState] and what follows from it, the status of the card ([+CPIN]),
    switching the radio, and the two callbacks that close the channel.  The mutex
    around the state is not modelled: an operation runs to its end. *)

From S2P Require Import Prelude CString AtTok Misc AtChannel RilPort RilCalls RilNetwork.

(** ** Card status *)

(** [SIM_Status] *)
Definition SIM_ABSENT : Z := 0.
Definition SIM_NOT_READY : Z := 1.
Definition SIM_READY : Z := 2.
Definition SIM_PIN : Z := 3.
Definition SIM_PUK : Z := 4.
Definition SIM_NETWORK_PERSONALIZATION : Z := 5.
Definition RUIM_ABSENT : Z := 6.
Definition SIM_PIN2 : Z := 12.
Definition SIM_PUK2 : Z := 13.

Definition CME_SIM_NOT_INSERTED : Z := 10.

Definition app_status_array : list RIL_AppStatus := [
  mk_app RIL_APPTYPE_UNKNOWN RIL_APPSTATE_UNKNOWN RIL_PERSOSUBSTATE_UNKNOWN RIL_PINSTATE_UNKNOWN;
  mk_app RIL_APPTYPE_SIM RIL_APPSTATE_DETECTED RIL_PERSOSUBSTATE_UNKNOWN RIL_PINSTATE_UNKNOWN;
  mk_app RIL_APPTYPE_SIM RIL_APPSTATE_READY RIL_PERSOSUBSTATE_READY RIL_PINSTATE_UNKNOWN;
  mk_app RIL_APPTYPE_SIM RIL_APPSTATE_PIN RIL_PERSOSUBSTATE_UNKNOWN RIL_PINSTATE_ENABLED_NOT_VERIFIED;
  mk_app RIL_APPTYPE_SIM RIL_APPSTATE_PUK RIL_PERSOSUBSTATE_UNKNOWN RIL_PINSTATE_ENABLED_BLOCKED;
  mk_app RIL_APPTYPE_SIM RIL_APPSTATE_SUBSCRIPTION_PERSO RIL_PERSOSUBSTATE_SIM_NETWORK RIL_PINSTATE_ENABLED_NOT_VERIFIED;
  mk_app RIL_APPTYPE_UNKNOWN RIL_APPSTATE_UNKNOWN RIL_PERSOSUBSTATE_UNKNOWN RIL_PINSTATE_UNKNOWN;
  mk_app RIL_APPTYPE_RUIM RIL_APPSTATE_DETECTED RIL_PERSOSUBSTATE_UNKNOWN RIL_PINSTATE_UNKNOWN;
  mk_app RIL_APPTYPE_RUIM RIL_APPSTATE_READY RIL_PERSOSUBSTATE_READY RIL_PINSTATE_UNKNOWN;
  mk_app RIL_APPTYPE_RUIM RIL_APPSTATE_PIN RIL_PERSOSUBSTATE_UNKNOWN RIL_PINSTATE_ENABLED_NOT_VERIFIED;
  mk_app RIL_APPTYPE_RUIM RIL_APPSTATE_PUK RIL_PERSOSUBSTATE_UNKNOWN RIL_PINSTATE_ENABLED_BLOCKED;
  mk_app RIL_APPTYPE_RUIM RIL_APPSTATE_SUBSCRIPTION_PERSO RIL_PERSOSUBSTATE_SIM_NETWORK RIL_PINSTATE_ENABLED_NOT_VERIFIED].

Definition RIL_CARD_MAX_APPS : nat := 8.

(** The names [+CPIN] gives. *)
Definition cpin_status (cpinResult : bytes) : Z :=
  if strcmp_eq cpinResult (s2b "SIM PIN") then SIM_PIN
  else if strcmp_eq cpinResult (s2b "SIM PUK") then SIM_PUK
  else if strcmp_eq cpinResult (s2b "PH-NET PIN") then SIM_NETWORK_PERSONALIZATION
  else if negb (strcmp_eq cpinResult (s2b "READY")) then SIM_ABSENT
  else SIM_READY.

(** The line of a successful [AT+CPIN?]. *)
Definition cpin_line (line : bytes) : outcome Z :=
  match (cur ← read_start (Some line); read_str cur) with
  | None => Ret SIM_NOT_READY
  | Some (cpinResult, _) => r ← checked cpinResult; Ret (cpin_status r)
  end.

(** The card of a status: an application for the SIM and one for the RUIM. *)
Definition card_of (sim_status : Z) : outcome RIL_CardStatus :=
  absent ← arr_rd app_status_array SIM_ABSENT;
  if sim_status =? SIM_ABSENT then
    Ret (mk_card false 0 (Z.of_nat RIL_CARD_MAX_APPS) (Z.of_nat RIL_CARD_MAX_APPS) (replicate RIL_CARD_MAX_APPS absent))
  else
    sim ← arr_rd app_status_array sim_status;
    ruim ← arr_rd app_status_array (sim_status + RUIM_ABSENT);
    Ret (mk_card true 2 0 1 (sim :: ruim :: replicate (RIL_CARD_MAX_APPS - 2) absent)).

(** ** Operations *)

Section operations.
Context `{AP : at_port} (runtime_3g_port_type current_modem_type : modem_type).

Definition cpin : at_request := AT_singleline (s2b "AT+CPIN?") (s2b "+CPIN:").

Definition getSIMStatus : ril Z :=
  v ← get_vars;
  if bool_decide (sState v = RADIO_STATE_OFF) || bool_decide (sState v = RADIO_STATE_UNAVAILABLE) then mret SIM_NOT_READY
  else
    '(err, p_response) ← command cpin;
    if negb (err =? 0) then mret SIM_NOT_READY
    else
      r ← lift (checked p_response);
      let cme := at_get_cme_error r in
      if cme =? CME_SUCCESS then
        line ← lift (first_line r);
        lift (cpin_line line)
      else if cme =? CME_SIM_NOT_INSERTED then mret SIM_ABSENT
      else mret SIM_NOT_READY.

Definition getCardStatus : ril RIL_CardStatus :=
  sim_status ← getSIMStatus;
  lift (card_of sim_status).

Definition onSIMReady : ril unit :=
  _ ← send (AT_singleline (s2b "AT+CSMS=1") (s2b "+CSMS:"));
  _ ← send (if negb (bool_decide (current_modem_type = HUAWEI_MODEM)) then AT (s2b "AT+CNMI=1,2,2,1,1")
            else AT (s2b "AT+CNMI=2,1,2,2,0"));
  _ ← send (AT (s2b "AT+CPMS=" ++ dquote (s2b "ME") ++ [COMMA] ++ dquote (s2b "ME") ++ [COMMA] ++ dquote (s2b "ME")));
  send (AT (s2b "AT+CMGD=1,4")).

(** [TIMEVAL_SIMPOLL], in milliseconds. *)
Definition SIMPOLL : Z := 1000.

Definition pollSIMState : ril unit :=
  v ← get_vars;
  if negb (bool_decide (sState v = RADIO_STATE_ON)) && negb (bool_decide (sState v = RADIO_STATE_SIM_LOCKED_OR_ABSENT))
  then mret tt
  else
    status ← getSIMStatus;
    if status =? SIM_NOT_READY then emit (Timed pollSIMState_cb SIMPOLL)
    else if status =? SIM_READY then
      _ ← onSIMReady;
      unsolicited RIL_UNSOL_RESPONSE_SIM_STATUS_CHANGED DNone
    else unsolicited RIL_UNSOL_RESPONSE_SIM_STATUS_CHANGED DNone.

Definition onRadioPowerOn : ril unit := pollSIMState.

Definition setRadioState (newState : RIL_RadioState) : ril unit :=
  v ← get_vars;
  let oldState := sState v in
  let newState := if 0 <? s_closed v then RADIO_STATE_UNAVAILABLE else newState in
  _ ← (if negb (bool_decide (sState v = newState)) || (0 <? s_closed v) then set_vars (set_state newState) else mret tt);
  v ← get_vars;
  if bool_decide (sState v = oldState) then mret tt
  else
    _ ← unsolicited RIL_UNSOL_RESPONSE_RADIO_STATE_CHANGED DNone;
    if bool_decide (sState v = RADIO_STATE_ON) then onRadioPowerOn else mret tt.

(** 1, 0, or -1 on an error. *)
Definition isRadioOn : ril Z :=
  line ← ask_line (AT_singleline (s2b "AT+CFUN?") (s2b "+CFUN:"));
  match line with
  | None => mret (-1)
  | Some line =>
    match (cur ← read_start (Some line); read_bool cur) with
    | None => mret (-1)
    | Some (ret, _) => mret ret
    end
  end.

(** [assert (datalen >= sizeof(int * ))] *)
Definition requestRadioPower (data : ril_request_data) : ril unit :=
  l ← lift (ints data);
  _ ← lift (c_assert (1 <=? length l)%nat);
  onOff ← lift (arr_rd l 0);
  v ← get_vars;
  if (onOff =? 0) && negb (bool_decide (sState v = RADIO_STATE_OFF)) then
    r ← ask (if bool_decide (current_modem_type = AMAZON_MODEM) then AT (s2b "AT+CFUN=4") else AT (s2b "AT+CFUN=0"));
    match r with
    | None => complete RIL_E_GENERIC_FAILURE DNone
    | Some _ => _ ← setRadioState RADIO_STATE_OFF; complete RIL_E_SUCCESS DNone
    end
  else if (0 <? onOff) && bool_decide (sState v = RADIO_STATE_OFF) then
    r ← ask (AT (s2b "AT+CFUN=1"));
    on ← match r with Some _ => mret true | None => r ← isRadioOn; mret (r =? 1) end;
    if on : bool then _ ← setRadioState RADIO_STATE_ON; complete RIL_E_SUCCESS DNone
    else complete RIL_E_GENERIC_FAILURE DNone
  else complete RIL_E_SUCCESS DNone.

Definition initializeCallback : ril unit :=
  _ ← setRadioState RADIO_STATE_OFF;
  _ ← handshake;
  _ ← probeForModemMode runtime_3g_port_type;
  _ ← send (AT (s2b "ATE0Q0V1"));
  _ ← send (AT (s2b "ATS0=0"));
  _ ← send (AT (s2b "AT+CMEE=1"));
  _ ← retry_creg;
  _ ← retry_cgreg;
  _ ← send (AT (s2b "AT+CCWA=1"));
  _ ← send (AT (s2b "AT+CMOD=0"));
  _ ← send (AT (s2b "AT+CMUT=0"));
  _ ← send (AT (s2b "AT+CSSN=0,1"));
  _ ← send (AT (s2b "AT+COLP=0"));
  _ ← send (AT (s2b "AT+CSCS=" ++ dquote (s2b "HEX")));
  _ ← send (AT (s2b "AT+CUSD=1"));
  _ ← send (AT (s2b "AT+CGEREP=1,0"));
  _ ← send (AT (s2b "AT+CMGF=0"));
  on ← isRadioOn;
  if 0 <? on then setRadioState RADIO_STATE_ON else mret tt.

(** Both callbacks of the channel do the same. *)
Definition onATReaderClosed : ril unit :=
  _ ← shut;
  _ ← set_vars (set_closed 1);
  setRadioState RADIO_STATE_UNAVAILABLE.

Definition onATTimeout : ril unit :=
  _ ← shut;
  _ ← set_vars (set_closed 1);
  setRadioState RADIO_STATE_UNAVAILABLE.

(** [mainLoop] opens the channel again: what it does to the variables. *)
Definition reopen : ril unit := set_vars (set_closed 0).

Definition requestGetSimStatus : ril unit :=
  card ← getCardStatus;
  complete RIL_E_SUCCESS (DCard card).
End operations.

(** ** Laws *)

(** The modem does not answer [AT+CPIN?] with [+CME ERROR: 0], where more than
    partial correctness is asked. *)
Class cpin_laws `{at_port} (t : mode) := cpin_answer p err r p' :
  port_ok p -> at_send cpin true p = Ret (err, Some r, p') -> success r = 0 -> t = Partial \/ at_get_cme_error r <> 0.

#[export] Instance cpin_laws_partial `{at_port} : cpin_laws Partial.
Proof. intros p err r p' _ _ _. by left. Qed.

Section laws.
Context `{AP : at_port} (runtime_3g_port_type current_modem_type : modem_type).
Context (t : mode) `{AL : !at_port_laws t} `{CP : !cpin_laws t}.

(** A status that [getSIMStatus] returns. *)
Definition sim_status_ok (z : Z) : Prop := SIM_ABSENT <= z <= SIM_NETWORK_PERSONALIZATION.

Ltac sim_status :=
  unfold sim_status_ok, SIM_ABSENT, SIM_NOT_READY, SIM_READY, SIM_PIN, SIM_PUK, SIM_NETWORK_PERSONALIZATION in *; lia.

Lemma cpin_status_ok r : sim_status_ok (cpin_status r).
Proof. unfold cpin_status. repeat case_match; sim_status. Qed.

Lemma cpin_line_ok line : holds t sim_status_ok (cpin_line line).
Proof.
  unfold cpin_line. destruct (read_start (Some line)) as [cur|] eqn:E; cbn [mbind option_bind]; [|cbn; sim_status].
  unfold read_start, at_tok_start in E. destruct (strchr line COLON) as [r|]; [|done]. injection E as <-.
  unfold read_str, at_tok_nextstr. destruct (nextTok (Some (drop 1 r))) as [tk k] eqn:Et.
  apply nextTok_progress in Et as (_ & tok & -> & _). apply cpin_status_ok.
Qed.

Lemma wp_getSIMStatus n s (Q : Z -> rild -> Prop) :
  good n s -> (forall z s', good n s' -> vars s' = vars s -> sim_status_ok z -> Q z s') -> wp t getSIMStatus Q s.
Proof.
  intros (Hp & Hv & Hn) HQ. assert (forall z, sim_status_ok z -> Q z s) as HQs by (intros; by apply HQ).
  unfold getSIMStatus. do 2 ril_step. case_match; [apply wp_ret, HQs; sim_status|].
  ril_step. eapply holds_bind.
  { instantiate (1 := fun '(err, r, p') => port_ok p' /\ send_result cpin true err r /\
      forall resp, r = Some resp -> success resp = 0 -> t = Partial \/ at_get_cme_error resp <> 0).
    pose proof (at_send_promise cpin true (chan s) Hp) as Ho.
    destruct (at_send cpin true (chan s)) as [[[err r] p']| | |] eqn:E; try done.
    destruct Ho as [H1 H2]. split_and!; [exact H1|apply H2..|]. intros resp -> Hs. exact (cpin_answer _ _ _ _ Hp E Hs). }
  intros [[err r] p'] (Hp' & [He Hr] & Hc). cbn [mbind outcome_bind mret outcome_ret holds].
  set (s' := mk_rild p' (vars s) (events s)). assert (good n s') as Hg by (by split_and!).
  change (wp t (if negb (err =? 0) then mret SIM_NOT_READY else
    r ← lift (checked r); let cme := at_get_cme_error r in
    if cme =? CME_SUCCESS then line ← lift (first_line r); lift (cpin_line line)
    else if cme =? CME_SIM_NOT_INSERTED then mret SIM_ABSENT else mret SIM_NOT_READY) Q s').
  destruct (Z.eqb_spec err 0) as [Ee|]; cbn [negb]; [|apply wp_ret, HQ; try done; sim_status].
  destruct (Hr Ee eq_refl) as (resp & -> & Hsu & Hl). ril_step. eapply wp_lift_ret; [reflexivity|]. cbn zeta.
  case_match eqn:Ec; [|case_match; apply wp_ret, HQ; try done; sim_status].
  assert (t = Partial \/ success resp <> 0) as Hne.
  { destruct (decide (success resp = 0)) as [H0|]; [|by right]. destruct (Hc resp eq_refl H0) as [|[]]; [by left|].
    by apply Z.eqb_eq in Ec. }
  ril_step. apply wp_lift. unfold first_line. destruct (p_intermediates resp) as [|line ls] eqn:El.
  { destruct Hne as [|Hne]; [done|]. by destruct (Hl eq_refl Hne). }
  apply wp_lift. eapply holds_mono; [apply cpin_line_ok|]. intros z Hz. by apply HQ.
Qed.

Lemma card_of_ok z : sim_status_ok z -> exists c, card_of z = Ret c.
Proof.
  unfold sim_status_ok, SIM_ABSENT, SIM_NETWORK_PERSONALIZATION. intros Hz.
  assert (z = 0 \/ z = 1 \/ z = 2 \/ z = 3 \/ z = 4 \/ z = 5) as H by lia.
  repeat destruct H as [->|H]; [..|subst]; by eexists.
Qed.

Lemma requestGetSimStatus_once n s : good n s -> wp t requestGetSimStatus (fun _ => good (S n)) s.
Proof.
  intros H. unfold requestGetSimStatus, getCardStatus. do 2 ril_step. eapply wp_getSIMStatus; [exact H|].
  intros z s' Hs _ Hz. destruct (card_of_ok z Hz) as [c Ec]. eapply wp_lift_ret; [exact Ec|]. ril_auto.
Qed.

Lemma onSIMReady_ok n s : good n s -> wp t (onSIMReady current_modem_type) (fun _ => good n) s.
Proof. intros H. unfold onSIMReady. ril_auto. Qed.

Lemma pollSIMState_ok n s : good n s -> wp t (pollSIMState current_modem_type) (fun _ => good n) s.
Proof.
  intros H. unfold pollSIMState. do 2 ril_step. case_match; [by apply wp_ret|]. ril_step.
  eapply wp_getSIMStatus; [exact H|]. intros z s' Hs _ _. case_match; [by ril_auto|]. case_match; [|by ril_auto].
  ril_step. eapply wp_keep; [by apply onSIMReady_ok|]. intros ? s1 G1. ril_auto.
Qed.

(** The state after [setRadioState]; a closed channel leaves none but unavailable. *)
Lemma setRadioState_ok n s st :
  good n s -> wp t (setRadioState current_modem_type st) (fun _ => good n) s.
Proof.
  intros H. pose proof (good_vars _ _ H) as Hv. unfold setRadioState. do 3 ril_step.
  set (st' := if 0 <? s_closed (vars s) then RADIO_STATE_UNAVAILABLE else st).
  eapply (wp_keep t _ _ n).
  - case_match; [|by apply wp_ret]. eapply wp_set; [exact H| |by intros]. destruct Hv. split; cbn; try done.
    intros E. unfold st'. by rewrite E.
  - intros ? s1 G1. do 2 ril_step. case_match; [by apply wp_ret|]. do 2 ril_step. case_match; [|by ril_auto].
    by apply pollSIMState_ok.
Qed.

Lemma isRadioOn_ok n s : good n s -> wp t isRadioOn (fun _ => good n) s.
Proof. intros H. unfold isRadioOn. ril_auto. Qed.

Lemma requestRadioPower_once n s onOff l :
  good n s -> wp t (requestRadioPower current_modem_type (RInts (onOff :: l))) (fun _ => good (S n)) s.
Proof.
  intros H. unfold requestRadioPower. do 3 (ril_step; eapply wp_lift_ret; [reflexivity|]). do 2 ril_step. case_match.
  - do 2 ril_step. destruct r as [r|]; [|by ril_auto]. ril_step.
    eapply wp_keep; [apply setRadioState_ok; eassumption|]. intros ? s2 G2. ril_auto.
  - case_match; [|by ril_auto]. do 3 ril_step.
    eapply (wp_keep t _ _ n).
    { destruct r; [by ril_auto|]. ril_step. eapply wp_keep; [apply isRadioOn_ok; eassumption|]. intros; by apply wp_ret. }
    intros on s2 G2. destruct on; [|by ril_auto]. ril_step.
    eapply wp_keep; [apply setRadioState_ok; eassumption|]. intros ? s3 G3. ril_auto.
Qed.

Lemma initializeCallback_ok n s :
  good n s -> wp t (initializeCallback runtime_3g_port_type current_modem_type) (fun _ => good n) s.
Proof.
  intros H. unfold initializeCallback. ril_step. eapply wp_keep; [by apply setRadioState_ok|]. intros ? s1 G1.
  do 3 ril_step. eapply wp_keep; [by apply probeForModemMode_ok|]. intros ? s2 G2.
  do 7 ril_step. eapply wp_keep; [by apply retry_creg_ok|]. intros ? s3 G3.
  ril_step. eapply wp_keep; [by apply retry_cgreg_ok|]. intros ? s4 G4.
  do 18 ril_step. ril_step. eapply wp_keep; [by apply isRadioOn_ok|]. intros on s5 G5.
  case_match; [|by apply wp_ret]. by apply setRadioState_ok.
Qed.
End laws.
