(* ===== verification/RilSim.v ===== *)
(** * The card's files, passwords and locks: [reference-ril.c]

    The kind of card, [+CRSM] with the conversion of file control parameters, and
    the requests that enter or change a password or a lock.  [malloc] of the
    conversion's buffer may fail; what the response structure holds before the
    conversion is arbitrary. *)

From S2P Require Import Prelude CString AtTok Misc FcpParser AtChannel RilPort RilCalls RilNetwork RilState.

(** ** Pure parts *)

Definition CME_SIM_PIN_REQUIRED : Z := 11.
Definition CME_SIM_PUK_REQUIRED : Z := 12.
Definition CME_SIM_FAILURE : Z := 13.
Definition CME_INCORRECT_PASSWORD : Z := 16.
Definition CME_SIM_PIN2_REQUIRED : Z := 17.
Definition CME_SIM_PUK2_REQUIRED : Z := 18.

Definition getNumRetries : Z := 1.

(** [atoi] *)
Definition atoi (s : bytes) : Z := fst (strtol s 10).

(** The two status words of a [+CRSM] line, and the data when there is some. *)
Definition crsm_line (line : bytes) : option (Z * Z * option bytes) :=
  cur ← read_start (Some line);
  '(sw1, cur) ← read_int cur;
  '(sw2, cur) ← read_int cur;
  if at_tok_hasmore cur then '(s, _) ← read_str cur; Some (sw1, sw2, s) else Some (sw1, sw2, None).

(** [strstr(dir, "62") == dir] *)
Definition tag_62 (dir : option bytes) : outcome bool := d ← checked dir; Ret (strStartsWith d (s2b "62")).

Definition crsm_command (a : RIL_SIM_IO) : bytes :=
  s2b "AT+CRSM=" ++ print_int (sim_command a) ++ [COMMA] ++ print_int (sim_fileid a) ++ [COMMA] ++ print_int (sim_p1 a) ++
  [COMMA] ++ print_int (sim_p2 a) ++ [COMMA] ++ print_int (sim_p3 a) ++
  match sim_data a with None => [] | Some d => [COMMA] ++ d end.

(** The pointers of the data; [None] when they are not pointers. *)
Definition strings (d : ril_request_data) : outcome (list (option bytes)) :=
  match d with RStrings l => Ret l | _ => Ub end.

(** A trailing NULL pointer is not counted. *)
Definition drop_null (n : nat) (l : list (option bytes)) : list (option bytes) :=
  if (length l =? n)%nat && bool_decide (l !! (n - 1)%nat = Some None) then take (n - 1) l else l.

(** What [requestChangePassword] finds in [data]: old and new password; an invalid
    access when two integers stand where the pointers should. *)
Definition passwords (d : ril_request_data) : outcome (option (option bytes * option bytes)) :=
  match d with
  | RNone => Ret None
  | RStrings l => match drop_null 3 l with [old; new] => Ret (Some (old, new)) | _ => Ret None end
  | RInts [_; _] => Ub
  | RInts [_; _; z] => if z =? 0 then Ub else Ret None
  | RInts _ => Ret None
  | RString _ => Ret None
  | _ => Ub
  end.

Definition barring_lock : list bytes :=
  [s2b "AO"; s2b "OI"; s2b "AI"; s2b "IR"; s2b "OX"; s2b "AB"; s2b "AG"; s2b "AC"].
Definition barring_query : list bytes := [s2b "AO"; s2b "OI"; s2b "AI"; s2b "IR"; s2b "OX"].

Definition in_facilities (facility : bytes) (l : list bytes) : bool := existsb (strStartsWith facility) l.

(** The lines of a lock's status: [None] is the error branch. *)
Fixpoint lock_loop (barring : bool) (lines : list bytes) (response : Z) : option Z :=
  match lines with
  | [] => Some response
  | line :: rest =>
    cur ← read_start (Some line);
    '(status, cur) ← read_int cur;
    if barring then
      '(classx, _) ← read_int cur;
      lock_loop barring rest (if status =? 1 then s32 (response + classx) else response)
    else Some (if status =? 1 then 7 else 0)
  end.

Inductive pin_request := ENTER_SIM_PIN | ENTER_SIM_PUK | ENTER_SIM_PIN2 | ENTER_SIM_PUK2.

(** The error and the retries for a refused password, and for a refused lock. *)
Definition password_error (cme : Z) : RIL_Errno * Z :=
  if cme =? CME_INCORRECT_PASSWORD then (RIL_E_PASSWORD_INCORRECT, getNumRetries)
  else if cme =? CME_SIM_PUK2_REQUIRED then (RIL_E_SIM_PUK2, 0)
  else (RIL_E_GENERIC_FAILURE, getNumRetries).

Definition lock_error (cme : Z) : RIL_Errno * Z :=
  if cme =? CME_SIM_PIN_REQUIRED then (RIL_E_PASSWORD_INCORRECT, getNumRetries)
  else if cme =? CME_SIM_PUK_REQUIRED then (RIL_E_PASSWORD_INCORRECT, 0)
  else if cme =? CME_INCORRECT_PASSWORD then (RIL_E_PASSWORD_INCORRECT, -1)
  else if cme =? CME_SIM_PIN2_REQUIRED then (RIL_E_PASSWORD_INCORRECT, getNumRetries)
  else if cme =? CME_SIM_PUK2_REQUIRED then (RIL_E_SIM_PUK2, 0)
  else (RIL_E_GENERIC_FAILURE, -1).

Definition pin_refused (cme : Z) : bool :=
  bool_decide (cme ∈ [CME_SIM_PIN_REQUIRED; CME_SIM_PUK_REQUIRED; CME_INCORRECT_PASSWORD; CME_SIM_PIN2_REQUIRED;
                      CME_SIM_PUK2_REQUIRED; CME_SIM_FAILURE]).

(** ** Handlers *)

Section handlers.
Context `{AP : at_port} (runtime_3g_port_type current_modem_type : modem_type).

(** [ask] that also tells a refused command from one without an answer: the
    command's error, or its response. *)
Definition reply (q : at_request) : ril (option ATResponse) :=
  '(err, r) ← command q;
  if err <? 0 then mret None else r ← lift (checked r); mret (Some r).

Definition uicc_query : at_request := AT_singleline (s2b "AT+CRSM=192,28480,0,0,15") (s2b "+CRSM:").

Definition getUICCType : ril UICC_Type :=
  v ← get_vars;
  if bool_decide (sState v = RADIO_STATE_OFF) || bool_decide (sState v = RADIO_STATE_UNAVAILABLE) then
    _ ← set_vars (set_uicc UICC_TYPE_UNKNOWN);
    mret UICC_TYPE_UNKNOWN
  else if negb (bool_decide (UiccType v = UICC_TYPE_UNKNOWN)) then mret (UiccType v)
  else
    r ← ask_ne uicc_query;
    match r with
    | None => _ ← set_vars (set_uicc UICC_TYPE_UNKNOWN); mret UICC_TYPE_UNKNOWN
    | Some r =>
      match p_intermediates r with
      | [] => _ ← set_vars (set_uicc UICC_TYPE_SIM); mret UICC_TYPE_SIM
      | line :: _ =>
        match crsm_line line with
        | None => _ ← set_vars (set_uicc UICC_TYPE_UNKNOWN); mret UICC_TYPE_UNKNOWN
        | Some (_, _, dir) =>
          usim ← lift (tag_62 dir);
          let ty := if usim : bool then UICC_TYPE_USIM else UICC_TYPE_SIM in
          _ ← set_vars (set_uicc ty);
          mret ty
        end
      end
    end.

Definition sim_io_data (d : ril_request_data) : outcome RIL_SIM_IO := match d with RSimIo a => Ret a | _ => Ub end.

Definition GET_RESPONSE : Z := 0xC0.

Definition requestSIM_IO (resp0 : ts_51011_921_resp) (malloc_ok : bool) (data : ril_request_data) : ril unit :=
  p_args ← lift (sim_io_data data);
  line ← ask_line (AT_singleline (crsm_command p_args) (s2b "+CRSM:"));
  match line with
  | None => complete RIL_E_GENERIC_FAILURE DNone
  | Some line =>
    match crsm_line line with
    | None => complete RIL_E_GENERIC_FAILURE DNone
    | Some (sw1, sw2, simResponse) =>
      usim ← (if sim_command p_args =? GET_RESPONSE then ty ← getUICCType; mret (bool_decide (ty = UICC_TYPE_USIM))
              else mret false);
      if usim : bool then
        '(err, cvt) ← lift (convertSimIoFcp simResponse resp0 malloc_ok);
        if err <? 0 then complete RIL_E_GENERIC_FAILURE DNone
        else complete RIL_E_SUCCESS (DSimIo sw1 sw2 cvt)
      else complete RIL_E_SUCCESS (DSimIo sw1 sw2 simResponse)
    end
  end.

(** *** Entering a PIN or PUK *)

Definition cpwd (facility : bytes) (old new : option bytes) : at_request :=
  AT (s2b "AT+CPWD=" ++ dquote facility ++ [COMMA] ++ dquote (print_str old) ++ [COMMA] ++ dquote (print_str new)).

(** [None]: the data has another length. *)
Definition enter_command (request : pin_request) (l : list (option bytes)) : ril (option at_request) :=
  match l with
  | [pin] =>
    match request with
    | ENTER_SIM_PIN =>
      st ← getSIMStatus;
      mret (Some (if negb (st =? SIM_PIN) then cpwd (s2b "SC") pin pin else AT (s2b "AT+CPIN=" ++ dquote (print_str pin))))
    | ENTER_SIM_PIN2 =>
      st ← getSIMStatus;
      mret (Some (if negb (st =? SIM_PIN2) then cpwd (s2b "P2") pin pin else AT (s2b "AT+CPIN=" ++ dquote (print_str pin))))
    | _ => mret (Some (AT (s2b "AT+CPIN=" ++ dquote (print_str pin))))
    end
  | [puk; pin] =>
    let cpin2 := AT (s2b "AT+CPIN=" ++ dquote (print_str puk) ++ [COMMA] ++ dquote (print_str pin)) in
    let unblock code := AT (s2b "ATD**" ++ code ++ s2b "*" ++ print_str puk ++ s2b "*" ++ print_str pin ++ s2b "*" ++
                            print_str pin ++ s2b "#;") in
    match request with
    | ENTER_SIM_PUK =>
      st ← getSIMStatus;
      mret (Some (if negb (st =? SIM_PUK) then unblock (s2b "05") else cpin2))
    | ENTER_SIM_PUK2 =>
      st ← getSIMStatus;
      mret (Some (if negb (st =? SIM_PUK2) then unblock (s2b "052") else cpin2))
    | _ => mret (Some cpin2)
    end
  | _ => mret None
  end.

(** What follows when the command did not fail, whatever the modem answered. *)
Definition enter_finally : ril unit :=
  _ ← initializeCallback runtime_3g_port_type current_modem_type;
  _ ← pollSIMState current_modem_type;
  _ ← command (AT_multiline (s2b "AT+COPS=3,0;+COPS?;+COPS=3,1;+COPS?;+COPS=3,2;+COPS?") (s2b "+COPS:"));
  unsolicited RIL_UNSOL_RESPONSE_SIM_STATUS_CHANGED DNone.

(** Data of another length is refused, and then [err], which nothing has assigned,
    is read. *)
Definition requestEnterSimPin (request : pin_request) (data : ril_request_data) : ril unit :=
  l ← lift (strings data);
  cmd ← enter_command request (drop_null 3 (drop_null 2 l));
  match cmd with
  | None => _ ← complete RIL_E_GENERIC_FAILURE DNone; lift Ub
  | Some cmd =>
    r ← reply cmd;
    match r with
    | None => complete RIL_E_GENERIC_FAILURE DNone
    | Some r =>
      _ ← (if success r =? 0 then
             if pin_refused (at_get_cme_error r) then complete RIL_E_PASSWORD_INCORRECT (DInts [getNumRetries])
             else complete RIL_E_GENERIC_FAILURE DNone
           else complete RIL_E_SUCCESS (DInts [getNumRetries]));
      enter_finally
    end
  end.

(** *** Passwords and locks *)

Definition requestChangePassword (facility : bytes) (data : ril_request_data) : ril unit :=
  pw ← lift (passwords data);
  match pw with
  | None => complete RIL_E_GENERIC_FAILURE (DInts [-1])
  | Some (old, new) =>
    r ← reply (cpwd facility old new);
    match r with
    | None => complete RIL_E_GENERIC_FAILURE (DInts [getNumRetries])
    | Some r =>
      if success r =? 0 then
        let '(e, num_retries) := password_error (at_get_cme_error r) in complete e (DInts [num_retries])
      else complete RIL_E_SUCCESS (DInts [getNumRetries])
    end
  end.

Definition requestChangeSimPin : ril_request_data -> ril unit := requestChangePassword (s2b "SC").
Definition requestChangeSimPin2 : ril_request_data -> ril unit := requestChangePassword (s2b "P2").

(** A string among the pointers. *)
Definition string_at (l : list (option bytes)) (i : Z) : outcome bytes := s ← arr_rd l i; checked s.

Definition lock_class (facility : bytes) (classx : Z) (facilities : list bytes) : Z :=
  if in_facilities facility facilities && (classx =? 0) then 255 else classx.

Definition requestSetFacilityLock (data : ril_request_data) : ril unit :=
  l ← lift (strings data);
  _ ← lift (c_assert (4 <=? length l)%nat);
  facility ← lift (string_at l 0);
  mode ← lift (string_at l 1);
  password ← lift (arr_rd l 2);
  facility_class ← lift (string_at l 3);
  m0 ← lift (str_rd mode 0);
  _ ← lift (c_assert ((m0 =? 48) || (m0 =? 49)));
  let classx := lock_class facility (atoi facility_class) barring_lock in
  r ← reply (AT (s2b "AT+CLCK=" ++ dquote facility ++ [COMMA] ++ print_int (atoi mode) ++ [COMMA] ++
                 dquote (match password with Some p => p | None => [] end) ++ [COMMA] ++ print_int classx));
  match r with
  | None => complete RIL_E_GENERIC_FAILURE (DInts [-1])
  | Some r =>
    let '(e, num_retries) :=
      if success r =? 0 then
        let cme := at_get_cme_error r in
        if cme =? 0 then (RIL_E_GENERIC_FAILURE, -1) else lock_error cme
      else (RIL_E_SUCCESS, -1) in
    let num_retries := if (num_retries =? -1) && strStartsWith facility (s2b "SC") then getNumRetries else num_retries in
    complete e (DInts [num_retries])
  end.

Definition requestQueryFacilityLock (data : ril_request_data) : ril unit :=
  l ← lift (strings data);
  _ ← lift (c_assert (3 <=? length l)%nat);
  facility ← lift (string_at l 0);
  facility_class ← lift (string_at l 2);
  let classx := if atoi facility_class =? 0 then 255 else atoi facility_class in
  r ← ask (AT_multiline (s2b "AT+CLCK=" ++ dquote facility ++ s2b ",2,," ++ print_int classx) (s2b "+CLCK:"));
  match r with
  | None => complete RIL_E_GENERIC_FAILURE DNone
  | Some r =>
    match lock_loop (in_facilities facility barring_query) (p_intermediates r) 0 with
    | None => complete RIL_E_GENERIC_FAILURE DNone
    | Some response => complete RIL_E_SUCCESS (DInts [response])
    end
  end.
End handlers.

(** ** Every handler completes its request once *)

Section laws.
Context `{AP : at_port} (runtime_3g_port_type current_modem_type : modem_type).
Context (t : mode) `{AL : !at_port_laws t}.

Lemma wp_reply q (Q : option ATResponse -> rild -> Prop) n s :
  good n s -> (forall r s', good n s' -> vars s' = vars s -> Q r s') -> wp t (reply q) Q s.
Proof.
  intros H HQ. unfold reply. ril_step. eapply wp_command; [exact _|exact H|]. intros err r s' Hg Hv [He Hr].
  destruct (Z.ltb_spec err 0); [by apply wp_ret, HQ|]. destruct (Hr ltac:(lia) eq_refl) as (resp & -> & _).
  ril_step. eapply wp_lift_ret; [reflexivity|]. by apply wp_ret, HQ.
Qed.

Lemma requestSIM_IO_once n s resp0 m a :
  good n s -> sim_command a <> GET_RESPONSE -> wp t (requestSIM_IO resp0 m (RSimIo a)) (fun _ => good (S n)) s.
Proof.
  intros H Hc. unfold requestSIM_IO. ril_step. eapply wp_lift_ret; [reflexivity|]. do 2 ril_step.
  destruct line as [line|]; [|by ril_auto]. destruct (crsm_line line) as [[[sw1 sw2] d]|]; [|by ril_auto].
  rewrite (proj2 (Z.eqb_neq _ _) Hc). ril_auto.
Qed.

Lemma requestChangePassword_once n s facility data pw :
  good n s -> passwords data = Ret pw -> wp t (requestChangePassword facility data) (fun _ => good (S n)) s.
Proof.
  intros H Hp. unfold requestChangePassword. ril_step. eapply wp_lift_ret; [exact Hp|].
  destruct pw as [[old new]|]; [|by ril_auto]. ril_step. eapply wp_reply; [exact H|]. intros r s' Hs _.
  destruct r as [r|]; [|by ril_auto]. case_match; [|by ril_auto]. destruct (password_error _). ril_auto.
Qed.

Lemma requestSetFacilityLock_once n s facility mode password cls l :
  good n s -> (exists r, mode = 48 :: r \/ mode = 49 :: r) ->
  wp t (requestSetFacilityLock (RStrings (Some facility :: Some mode :: password :: Some cls :: l))) (fun _ => good (S n)) s.
Proof.
  intros H Hm. unfold requestSetFacilityLock. do 6 (ril_step; eapply wp_lift_ret; [reflexivity|]).
  ril_step. eapply (wp_lift_ret _ _ (if match mode with c :: _ => c =? 48 | [] => false end then 48 else 49)).
  { destruct Hm as (r & [->| ->]); reflexivity. }
  ril_step. eapply wp_lift_ret; [by case_match|]. cbn zeta. ril_step. eapply wp_reply; [exact H|]. intros r s' Hs _.
  destruct r as [r|]; [|by ril_auto]. destruct (if success r =? 0 then _ else _) as [e retries]. ril_auto.
Qed.

Lemma requestQueryFacilityLock_once n s facility x cls l :
  good n s ->
  wp t (requestQueryFacilityLock (RStrings (Some facility :: x :: Some cls :: l))) (fun _ => good (S n)) s.
Proof.
  intros H. unfold requestQueryFacilityLock. do 4 (ril_step; eapply wp_lift_ret; [reflexivity|]).
  cbn zeta. ril_step. ril_step. destruct r as [r|]; [|by ril_auto]. destruct (lock_loop _ _ _); ril_auto.
Qed.

Context `{CP : !cpin_laws t}.

Lemma enter_finally_ok n s :
  good n s -> wp t (enter_finally runtime_3g_port_type current_modem_type) (fun _ => good n) s.
Proof.
  intros H. unfold enter_finally. ril_step. eapply wp_keep; [by apply initializeCallback_ok|]. intros ? s1 G1.
  ril_step. eapply wp_keep; [by apply pollSIMState_ok|]. intros ? s2 G2.
  ril_step. eapply wp_command; [exact _|exact G2|]. intros err r s3 G3 _ _. ril_auto.
Qed.

Lemma enter_command_ok n s request l :
  good n s -> (length l = 1 \/ length l = 2)%nat ->
  wp t (enter_command request l) (fun c s' => good n s' /\ is_Some c) s.
Proof.
  intros H Hl. destruct l as [|a [|b [|c l]]]; cbn in Hl; [lia| | |lia]; unfold enter_command; destruct request;
    try (apply wp_ret; split; [done|by eexists]); (ril_step; eapply wp_getSIMStatus; [exact _|exact _|exact H|]);
    intros z s' Hs _ _; apply wp_ret; (split; [done|by eexists]).
Qed.

Lemma requestEnterSimPin_once n s request l :
  good n s -> (length (drop_null 3 (drop_null 2 l)) = 1 \/ length (drop_null 3 (drop_null 2 l)) = 2)%nat ->
  wp t (requestEnterSimPin runtime_3g_port_type current_modem_type request (RStrings l)) (fun _ => good (S n)) s.
Proof.
  intros H Hl. unfold requestEnterSimPin. ril_step. eapply wp_lift_ret; [reflexivity|]. ril_step.
  eapply wp_mono; [by apply (enter_command_ok n)|]. intros ? s1 [G1 [cmd ->]]. ril_step.
  eapply wp_reply; [exact G1|]. intros [r|] s2 G2 _; [|by ril_auto]. ril_step.
  eapply (wp_keep t _ _ (S n)).
  { case_match; [|by ril_auto]. case_match; ril_auto. }
  intros ? s3 G3. by apply enter_finally_ok.
Qed.
End laws.

(** Any file request keeps the invariant when it comes back. *)
Section partial.
Context `{AP : at_port} `{AL : !at_port_laws Partial}.

Lemma getUICCType_keeps n s : good n s -> wp Partial getUICCType (fun _ => good n) s.
Proof.
  intros H. assert (forall u s1 n1, good n1 s1 -> wp Partial (set_vars (set_uicc u)) (fun _ => good n1) s1) as Hu.
  { intros u s1 n1 H1. eapply wp_set; [exact H1| |by intros]. by destruct (good_vars _ _ H1). }
  unfold getUICCType. do 2 ril_step. case_match; [ril_step; eapply wp_keep; [by apply Hu|]; intros; ril_auto|].
  case_match; [by ril_auto|]. do 2 ril_step. destruct r as [r|]; [|ril_step; eapply wp_keep; [by apply Hu|]; intros; ril_auto].
  destruct (p_intermediates r) as [|line ls]; [ril_step; eapply wp_keep; [by apply Hu|]; intros; ril_auto|].
  destruct (crsm_line line) as [[[sw1 sw2] dir]|]; [|ril_step; eapply wp_keep; [by apply Hu|]; intros; ril_auto].
  ril_step. apply wp_partial. intros usim _. ril_step. eapply wp_keep; [by apply Hu|]. intros; ril_auto.
Qed.

Lemma requestSIM_IO_keeps n s resp0 m data : good n s -> wp Partial (requestSIM_IO resp0 m data) (fun _ => good (S n)) s.
Proof.
  intros H. unfold requestSIM_IO. ril_step. apply wp_partial. intros a _. do 2 ril_step.
  destruct line as [line|]; [|by ril_auto]. destruct (crsm_line line) as [[[sw1 sw2] d]|]; [|by ril_auto]. ril_step.
  eapply (wp_keep Partial _ _ n).
  { case_match; [|by ril_auto]. ril_step. eapply wp_keep; [by apply getUICCType_keeps|]. intros; ril_auto. }
  intros usim s1 G1. destruct usim; [|by ril_auto]. ril_step. apply wp_partial. intros [err cvt] _. ril_auto.
Qed.
End partial.

(** ** Lemmas: reading a [+CRSM] line *)

Definition render_crsm (sw1 sw2 : Z) (data : bytes) : bytes :=
  s2b "+CRSM:" ++ [32] ++ print_int sw1 ++ COMMA :: print_int sw2 ++ data.

Lemma start_crsm sw1 rest :
  read_start (Some (s2b "+CRSM:" ++ [32] ++ print_int sw1 ++ COMMA :: rest)) = Some (Some ([32] ++ print_int sw1 ++ COMMA :: rest)).
Proof. done. Qed.

Lemma crsm_line_data sw1 sw2 d :
  int_ok sw1 -> int_ok sw2 -> QUOTE ∉ d -> crsm_line (render_crsm sw1 sw2 (COMMA :: quoted d)) = Some (sw1, sw2, Some d).
Proof.
  intros H1 H2 Hd. unfold crsm_line, render_crsm. rewrite start_crsm. cbn [mbind option_bind].
  rewrite read_int_comma by (done || by repeat constructor). cbn [mbind option_bind]. rewrite read_comma by done.
  cbn [mbind option_bind]. unfold read_str.
  destruct (at_tok_nextstr_quoted [] d [] []) as [_ E]; [done|done|by apply not_elem_of_nil|].
  rewrite app_nil_r in E. cbn [app] in E. by rewrite E.
Qed.

Lemma crsm_line_status sw1 sw2 : int_ok sw1 -> int_ok sw2 -> crsm_line (render_crsm sw1 sw2 []) = Some (sw1, sw2, None).
Proof.
  intros H1 H2. unfold crsm_line, render_crsm. rewrite start_crsm. cbn [mbind option_bind].
  rewrite read_int_comma by (done || by repeat constructor). cbn [mbind option_bind]. rewrite app_nil_r, read_last by done.
  done.
Qed.

Lemma nibble_not_quote i : QUOTE <> nibble i.
Proof.
  unfold nibble. intros H. destruct (nth_in_or_default (Z.to_nat i) nibbles 0) as [Hin|E]; [|rewrite E in H; done].
  rewrite <- H in Hin. vm_compute in Hin. repeat destruct Hin as [Hin|Hin]; done.
Qed.

Lemma hex_text_quote b : QUOTE ∉ hex_text b.
Proof.
  induction b as [|x b IH]; cbn [hex_text]; [by apply not_elem_of_nil|].
  repeat (apply not_elem_of_cons; split; [apply nibble_not_quote|]). done.
Qed.

(** The conversion of a template's text is the abstract fold's response. *)
Lemma convert_template ps resp0 :
  Forall prop_ok ps -> is_byte (Z.of_nat (length (template_bytes ps))) ->
  convertSimIoFcp (Some (hex_text (tlv_bytes 0x62 (template_bytes ps)))) resp0 true =
  let '(e, resp) := spec_template ps resp_zero in
  Ret (if e <? 0 then (e, None) else (0, Some (hex_text (resp_bytes resp)))).
Proof.
  intros Hps Hl. unfold convertSimIoFcp.
  assert (Hlen : Z.of_nat (length (hex_text (tlv_bytes 0x62 (template_bytes ps)))) =
    2 * Z.of_nat (length (tlv_bytes 0x62 (template_bytes ps)))) by (rewrite hex_text_length; lia).
  assert (0 < Z.of_nat (length (tlv_bytes 0x62 (template_bytes ps)))) as Hp by (unfold tlv_bytes; cbn [length]; lia).
  cbn zeta. rewrite Hlen. destruct (Z.eqb_spec (2 * Z.of_nat (length (tlv_bytes 0x62 (template_bytes ps)))) 0); [lia|].
  change 1 with (Z.ones 1). rewrite Z.land_ones by done. rewrite Z.mul_comm, Z_mod_mult. cbn [ctrue Z.eqb negb orb].
  pose proof (fcp_template ps [] (Z.of_nat (length (tlv_bytes 0x62 (template_bytes ps))) * 2) resp0 Hps Hl) as E.
  rewrite app_nil_r in E. rewrite E. cbn [mbind outcome_bind]. destruct (spec_template ps resp_zero) as [e resp].
  by destruct (e <? 0).
Qed.

(** ** Properties *)

Section properties.
Context `{AP : at_port}.

(** C27: reading the description of a file on a USIM card.  The modem answers
    [GET RESPONSE] with two status words and, quoted, the text of a well-formed
    FCP template; then the request is completed with the same status words and
    the text of the TS 51.011 response that the template describes, or with a
    failure when a property of the template has no equivalent. *)
Theorem sim_io_usim (s s2 : rild) (a : RIL_SIM_IO) (r : ATResponse) (p : port) (sw1 sw2 : Z) (ps : list prop)
  (lines : list bytes) (resp0 : ts_51011_921_resp) :
  sim_command a = GET_RESPONSE ->
  at_send (AT_singleline (crsm_command a) (s2b "+CRSM:")) true (chan s) = Ret (0, Some r, p) -> success r <> 0 ->
  p_intermediates r = render_crsm sw1 sw2 (COMMA :: quoted (hex_text (tlv_bytes 0x62 (template_bytes ps)))) :: lines ->
  int_ok sw1 -> int_ok sw2 -> Forall prop_ok ps -> is_byte (Z.of_nat (length (template_bytes ps))) ->
  getUICCType (mk_rild p (vars s) (events s)) = Ret (UICC_TYPE_USIM, s2) ->
  requestSIM_IO resp0 true (RSimIo a) s =
    Ret (tt, mk_rild (chan s2) (vars s2) (events s2 ++
      [let '(e, resp) := spec_template ps resp_zero in
       if e <? 0 then Complete RIL_E_GENERIC_FAILURE DNone
       else Complete RIL_E_SUCCESS (DSimIo sw1 sw2 (Some (hex_text (resp_bytes resp))))])).
Proof.
  intros Hg Hs Hok Hl H1 H2 Hps Hb Hu. unfold requestSIM_IO. rewrite (run_bind _ _ _ a s eq_refl).
  destruct (run_ask_line _ _ _ _ _ _ Hs Hok Hl) as [E _]. rewrite (run_bind _ _ _ _ _ E).
  rewrite crsm_line_data by (done || apply hex_text_quote). rewrite Hg, Z.eqb_refl.
  assert ((ty ← getUICCType; mret (bool_decide (ty = UICC_TYPE_USIM))) (mk_rild p (vars s) (events s)) = Ret (true, s2)) as Eu
    by by rewrite (run_bind _ _ _ _ _ Hu).
  rewrite (run_bind _ _ _ _ _ Eu). pose proof (convert_template ps resp0 Hps Hb) as Ec.
  destruct (spec_template ps resp_zero) as [e resp].
  assert (lift (convertSimIoFcp (Some (hex_text (tlv_bytes 98 (template_bytes ps)))) resp0 true) s2 =
    Ret (if e <? 0 then (e, None) else (0, Some (hex_text (resp_bytes resp))), s2)) as Ecl by (unfold lift; by rewrite Ec).
  rewrite (run_bind _ _ _ _ _ Ecl). destruct (e <? 0) eqn:Ee; cbn; rewrite ?Ee; done.
Qed.

(** Asking what kind of card is present, the first time with the radio on, takes
    the data of the modem's answer without looking whether there is any: an
    answer of status words alone - the file does not exist - makes [GET RESPONSE]
    read through a null pointer. *)
Theorem uicc_query_status_only (s : rild) (a : RIL_SIM_IO) (r r2 : ATResponse) (p p2 : port) (sw1 sw2 sw3 sw4 : Z) (data : bytes)
  (lines lines2 : list bytes) (resp0 : ts_51011_921_resp) (m : bool) :
  sState (vars s) = RADIO_STATE_ON -> UiccType (vars s) = UICC_TYPE_UNKNOWN -> sim_command a = GET_RESPONSE ->
  at_send (AT_singleline (crsm_command a) (s2b "+CRSM:")) true (chan s) = Ret (0, Some r, p) -> success r <> 0 ->
  p_intermediates r = render_crsm sw1 sw2 (COMMA :: quoted data) :: lines ->
  int_ok sw1 -> int_ok sw2 -> QUOTE ∉ data ->
  at_send uicc_query true p = Ret (0, Some r2, p2) -> success r2 <> 0 ->
  p_intermediates r2 = render_crsm sw3 sw4 [] :: lines2 -> int_ok sw3 -> int_ok sw4 ->
  requestSIM_IO resp0 m (RSimIo a) s = Ub.
Proof.
  intros Hst Hun Hg Hs Hok Hl H1 H2 Hq Hs2 Hok2 Hl2 H3 H4. unfold requestSIM_IO. rewrite (run_bind _ _ _ a s eq_refl).
  destruct (run_ask_line _ _ _ _ _ _ Hs Hok Hl) as [E _]. rewrite (run_bind _ _ _ _ _ E).
  rewrite crsm_line_data by done. rewrite Hg, Z.eqb_refl.
  assert (getUICCType (mk_rild p (vars s) (events s)) = Ub) as Eu; [|cbn; unfold mbind, ril_bind; cbn; by rewrite Eu].
  unfold getUICCType. rewrite run_get. cbn [vars]. rewrite Hst, Hun.
  destruct (run_ask uicc_query (mk_rild p (vars s) (events s)) r2 p2 Hs2 Hok2) as [_ Ea].
  change (bool_decide (RADIO_STATE_ON = RADIO_STATE_OFF)) with false.
  change (bool_decide (RADIO_STATE_ON = RADIO_STATE_UNAVAILABLE)) with false.
  change (bool_decide (UICC_TYPE_UNKNOWN = UICC_TYPE_UNKNOWN)) with true. cbn [orb negb].
  rewrite (run_bind _ _ _ _ _ Ea), Hl2, crsm_line_status by done. done.
Qed.
End properties.

Definition vars_on : ril_vars := set_state RADIO_STATE_ON vars_init.

Definition ef_template : list prop := [(0x82, [0x42; 0x21; 0x00; 0x14; 0x04]); (0x80, [0x00; 0x50]); (0x83, [0x6F; 0x3A])].
Definition get_response : RIL_SIM_IO := mk_sim_io GET_RESPONSE 0x6F3A 0 0 15 None.
Definition ef_lines : list bytes := [render_crsm 144 0 (COMMA :: quoted (hex_text (tlv_bytes 0x62 (template_bytes ef_template))))].

Lemma sim_io_usim_witness :
  let AP := modem_port (scripted [Some ef_lines; Some ef_lines]) in
  requestSIM_IO resp_zero true (RSimIo get_response) (@mk_rild AP [] vars_on []) =
    Ret (tt, @mk_rild AP [AT_singleline (s2b "AT+CRSM=192,28474,0,0,15") (s2b "+CRSM:"); uicc_query] (set_uicc UICC_TYPE_USIM vars_on)
      [Complete RIL_E_SUCCESS (DSimIo 144 0 (Some (s2b "000000506F3A040000000001020114")))]).
Proof.
  intros AP.
  refine (@sim_io_usim AP (@mk_rild AP [] vars_on [])
    (@mk_rild AP [AT_singleline (s2b "AT+CRSM=192,28474,0,0,15") (s2b "+CRSM:"); uicc_query] (set_uicc UICC_TYPE_USIM vars_on) [])
    get_response (mk_at_response 1 (Some (s2b "OK")) ef_lines) _ 144 0 ef_template [] resp_zero eq_refl eq_refl _ eq_refl _ _ _ _ _);
    [done|by split|by split| |done|by vm_compute].
  repeat constructor; vm_compute; done.
Defined.

Lemma uicc_query_status_only_witness :
  let AP := modem_port (scripted [Some ef_lines; Some [render_crsm 106 130 []]]) in
  requestSIM_IO resp_zero true (RSimIo get_response) (@mk_rild AP [] vars_on []) = Ub.
Proof.
  intros AP.
  refine (@uicc_query_status_only AP (@mk_rild AP [] vars_on []) get_response (mk_at_response 1 (Some (s2b "OK")) ef_lines)
    (mk_at_response 1 (Some (s2b "OK")) [render_crsm 106 130 []])
    _ _ 144 0 106 130 (hex_text (tlv_bytes 0x62 (template_bytes ef_template))) [] [] resp_zero true
    eq_refl eq_refl eq_refl eq_refl _ eq_refl _ _ _ eq_refl _ eq_refl _ _);
    [done|by split|by split|apply hex_text_quote|done|by split|by split].
Defined.
