(* ===== verification/RilSms.v ===== *)
(** * Short messages: the handlers of [reference-ril.c]

    Sending and acknowledging messages, those kept on the card, and fetching one
    the modem has stored. *)

From S2P Require Import Prelude CString AtTok Misc AtChannel RilPort RilCalls RilNetwork RilState RilSim.

Section handlers.
Context `{AP : at_port}.

(** ** Sending *)

Definition requestCdmaSendSMS (data : ril_request_data) : ril unit :=
  match data with
  | RCdmaSms => complete RIL_E_SMS_SEND_FAIL_RETRY (DSms (-1))
  | _ => lift Ub
  end.

Definition sms_command (smsc : option bytes) (pdu : bytes) : at_request :=
  AT_sms (s2b "AT+CMGS=" ++ print_int (Z.of_nat (length pdu) / 2))
         (match smsc with Some s => s | None => s2b "00" end ++ pdu) (s2b "+CMGS:").

Definition requestSendSMS (data : ril_request_data) : ril unit :=
  v ← get_vars;
  if negb (s_ims_gsm_fail (s_ims v) =? 0) then complete RIL_E_GENERIC_FAILURE (DSms (-2))
  else if negb (s_ims_gsm_retry (s_ims v) =? 0) then complete RIL_E_SMS_SEND_FAIL_RETRY (DSms (-1))
  else
    l ← lift (strings data);
    smsc ← lift (arr_rd l 0);
    pdu ← lift (string_at l 1);
    r ← ask_ne (sms_command smsc pdu);
    match r with
    | None => complete RIL_E_GENERIC_FAILURE (DSms (-2))
    | Some _ => complete RIL_E_SUCCESS (DSms 1)
    end.

(** The retry count, and what to do with the message. *)
Definition ims_retry (data : ril_request_data) : outcome Z :=
  match data with RImsGsm retry _ | RImsCdma retry | RImsOther retry => Ret retry | _ => Ub end.

Definition requestImsSendSMS (data : ril_request_data) : ril unit :=
  v ← get_vars;
  if negb (0 =? s_ims_cause_perm_failure (s_ims v)) then complete RIL_E_GENERIC_FAILURE (DSms (-2))
  else
    retry ← lift (ims_retry data);
    if negb (0 =? s_ims_cause_retry (s_ims v)) && (0 =? retry) then complete RIL_E_SMS_SEND_FAIL_RETRY (DSms (-1))
    else
      match data with
      | RImsGsm _ message => requestSendSMS (RStrings message)
      | RImsCdma _ => requestCdmaSendSMS RCdmaSms
      | _ => complete RIL_E_GENERIC_FAILURE (DSms (-2))
      end.

(** ** Acknowledging: a success falls into the error branch *)

Definition requestSMSAcknowledge (data : ril_request_data) : ril unit :=
  ackSuccess ← lift (int_at data 0);
  if ackSuccess =? 1 then
    _ ← send (AT (s2b "AT+CNMA=1"));
    _ ← complete RIL_E_SUCCESS DNone;
    complete RIL_E_GENERIC_FAILURE DNone
  else if ackSuccess =? 0 then
    _ ← send (AT (s2b "AT+CNMA=2"));
    _ ← complete RIL_E_SUCCESS DNone;
    complete RIL_E_GENERIC_FAILURE DNone
  else complete RIL_E_GENERIC_FAILURE DNone.

(** ** Messages on the card *)

Definition requestWriteSmsToSim (data : ril_request_data) : ril unit :=
  '(status, pdu) ← lift (match data with RSmsWrite status pdu => Ret (status, pdu) | _ => Ub end);
  r ← ask_ne (AT_sms (s2b "AT+CMGW=" ++ print_int (Z.of_nat (length pdu) / 2) ++ [COMMA] ++ print_int status) pdu (s2b "+CMGW:"));
  match r with
  | None => complete RIL_E_GENERIC_FAILURE DNone
  | Some _ => complete RIL_E_SUCCESS DNone
  end.

Definition requestDeleteSmsOnSim (data : ril_request_data) : ril unit :=
  i ← lift (int_at data 0);
  r ← ask (AT (s2b "AT+CMGD=" ++ print_int i));
  match r with
  | None => complete RIL_E_GENERIC_FAILURE DNone
  | Some _ => complete RIL_E_SUCCESS DNone
  end.

(** ** Fetching a stored message *)

(** The storage named by [+CPMS]: two bytes are copied of it, which an empty name at
    the end of the line does not have. *)
Definition cpms_storage (line : bytes) : outcome (option bytes) :=
  match (cur ← read_start (Some line); read_str cur) with
  | None => Ret None
  | Some (storage, cur) =>
    s ← checked storage;
    match s, cur with
    | [], None => Ub
    | _, _ => Ret (Some (take 2 s))
    end
  end.

Definition cpms_set (storage : bytes) : at_request := AT (s2b "AT+CPMS=" ++ dquote storage).
Definition cmgr (index : Z) : at_request := AT_multiline (s2b "AT+CMGR=" ++ print_int index) (s2b "+CMGR:").
Definition cmgd (index : Z) : at_request := AT (s2b "AT+CMGD=" ++ print_int index).
Definition cpms_query : at_request := AT_singleline (s2b "AT+CPMS?") (s2b "+CPMS:").

(** The header of the message can be read. *)
Definition cmgr_header (line : bytes) : bool :=
  match (cur ← read_start (Some line); read_int cur) with Some _ => true | None => false end.

(** When the message cannot be read the storage chosen before is not restored. *)
Definition readNewSms (response_index : RIL_Unsol) : ril unit :=
  v ← get_vars;
  let index := smsStorageIndex v in
  line ← ask_line_ne cpms_query;
  match line with
  | None => mret tt
  | Some line =>
    old ← lift (cpms_storage line);
    match old with
    | None => mret tt
    | Some oldReadStorage =>
      v ← get_vars;
      _ ← send (cpms_set (smsReadStorage v));
      r ← ask_ne (cmgr index);
      match r with
      | None => mret tt
      | Some r =>
        match p_intermediates r with
        | line :: rest =>
          if cmgr_header line then
            _ ← match rest with
                | sms_pdu :: _ => unsolicited response_index (DString sms_pdu)
                | [] => mret tt
                end;
            _ ← send (cmgd index);
            send (cpms_set oldReadStorage)
          else send (cpms_set oldReadStorage)
        | [] =>
          _ ← send (cmgd index);
          send (cpms_set oldReadStorage)
        end
      end
    end
  end.

Definition onNewSmsArrived : ril unit := readNewSms RIL_UNSOL_RESPONSE_NEW_SMS.
Definition onNewSmsReportArrived : ril unit := readNewSms RIL_UNSOL_RESPONSE_NEW_SMS_STATUS_REPORT.

(** ** Completions *)

Section laws.
Context (t : mode) `{AL : !at_port_laws t}.

Lemma requestSendSMS_once n s smsc pdu l :
  good n s -> wp t (requestSendSMS (RStrings (smsc :: Some pdu :: l))) (fun _ => good (S n)) s.
Proof.
  intros H. unfold requestSendSMS. do 2 ril_step. case_match; [by ril_auto|]. case_match; [by ril_auto|].
  do 3 (ril_step; eapply wp_lift_ret; [reflexivity|]). ril_auto.
Qed.

(** What [libril] passes for an IMS message. *)
Definition ims_data_ok (d : ril_request_data) : Prop :=
  match d with
  | RImsGsm _ l => exists smsc pdu r, l = smsc :: Some pdu :: r
  | RImsCdma _ | RImsOther _ => True
  | _ => False
  end.

Lemma requestImsSendSMS_once n s d : good n s -> ims_data_ok d -> wp t (requestImsSendSMS d) (fun _ => good (S n)) s.
Proof.
  intros H Hd. unfold requestImsSendSMS. do 2 ril_step. case_match; [by ril_auto|]. ril_step.
  assert (exists retry, ims_retry d = Ret retry) as [retry Er] by (destruct d; try done; by eexists).
  eapply wp_lift_ret; [exact Er|]. case_match; [by ril_auto|]. destruct d; try done.
  - destruct Hd as (smsc & pdu & r & ->). by apply requestSendSMS_once.
  - unfold requestCdmaSendSMS. ril_auto.
  - ril_auto.
Qed.

(** The acknowledgement of a message is completed twice. *)
Lemma requestSMSAcknowledge_twice n s v l :
  good n s ->
  wp t (requestSMSAcknowledge (RInts (v :: l)))
    (fun _ => good (if (v =? 0) || (v =? 1) then S (S n) else S n)) s.
Proof.
  intros H. unfold requestSMSAcknowledge. ril_step. apply wp_first_int.
  rewrite orb_comm. destruct (v =? 1); [by ril_auto|]. destruct (v =? 0); ril_auto.
Qed.

Lemma readNewSms_ok_partial n s u : t = Partial -> good n s -> wp t (readNewSms u) (fun _ => good n) s.
Proof.
  intros -> H. unfold readNewSms. do 4 ril_step. destruct line as [line|]; [|by ril_auto].
  ril_step. apply wp_partial. intros old _. destruct old as [old|]; [|by ril_auto].
  do 6 ril_step. destruct r as [r|]; [|by ril_auto]. destruct (p_intermediates r) as [|hd rest]; [by ril_auto|].
  case_match; [|by ril_auto]. ril_step. destruct rest; ril_auto.
Qed.

Lemma requestWriteSmsToSim_once n s status pdu :
  good n s -> wp t (requestWriteSmsToSim (RSmsWrite status pdu)) (fun _ => good (S n)) s.
Proof. intros H. unfold requestWriteSmsToSim. ril_step. eapply wp_lift_ret; [reflexivity|]. ril_auto. Qed.

Lemma requestDeleteSmsOnSim_once n s i l :
  good n s -> wp t (requestDeleteSmsOnSim (RInts (i :: l))) (fun _ => good (S n)) s.
Proof. intros H. unfold requestDeleteSmsOnSim. ril_step. apply wp_first_int. ril_auto. Qed.
End laws.
End handlers.

(** ** Properties *)

Definition render_cpms (storage rest : bytes) : bytes := s2b "+CPMS:" ++ [32] ++ quoted storage ++ rest.

Lemma cpms_storage_quoted storage rest :
  QUOTE ∉ storage -> cpms_storage (render_cpms storage (COMMA :: rest)) = Ret (Some (take 2 storage)).
Proof.
  intros Hq. unfold cpms_storage.
  assert (read_start (Some (render_cpms storage (COMMA :: rest))) = Some (Some ([32] ++ quoted storage ++ [] ++ COMMA :: rest))) as -> by done.
  cbn [mbind option_bind]. unfold read_str.
  destruct (at_tok_nextstr_quoted [32] storage [] rest) as [E _]; [by repeat constructor|done|by apply not_elem_of_nil|].
  rewrite E. cbn. by destruct storage.
Qed.

Lemma cmgr_header_int st rest : int_ok st -> cmgr_header (s2b "+CMGR:" ++ [32] ++ print_int st ++ COMMA :: rest) = true.
Proof.
  intros H. unfold cmgr_header.
  assert (read_start (Some (s2b "+CMGR:" ++ [32] ++ print_int st ++ COMMA :: rest)) = Some (Some ([32] ++ print_int st ++ COMMA :: rest))) as -> by done.
  cbn [mbind option_bind]. by rewrite read_int_comma by (done || by repeat constructor).
Qed.

(** C28: fetching a stored message, on a modem that keeps [old] as its reading storage.
    When the message can be read, the storage of the announcement is chosen, the
    message is read, handed up whole, and deleted, and the modem's storage is put
    back; when it cannot be read, the command to put the storage back is never
    sent. *)
Theorem stored_sms_fetched (v : ril_vars) (old rest hdr pdu : bytes) (st : Z) (more : list bytes) (a b c : option (list bytes)) (u : RIL_Unsol) :
  QUOTE ∉ old -> (length old = 2)%nat -> int_ok st ->
  let cpms := render_cpms old (COMMA :: rest) in
  let index := smsStorageIndex v in
  on_modem [Some [cpms]; a; Some ((s2b "+CMGR:" ++ [32] ++ print_int st ++ COMMA :: hdr) :: pdu :: more); b; c]
    (fun AP => readNewSms u) v =
    Ret ([cpms_query; cpms_set (smsReadStorage v); cmgr index; cmgd index; cpms_set old], v, [Unsolicited u (DString pdu)]) /\
  on_modem [Some [cpms]; a; None] (fun AP => readNewSms u) v =
    Ret ([cpms_query; cpms_set (smsReadStorage v); cmgr index], v, []).
Proof.
  intros Hq Hl Hst cpms index.
  assert (cpms_storage cpms = Ret (Some old)) as Ec.
  { unfold cpms. rewrite cpms_storage_quoted by done. by rewrite take_ge by lia. }
  set (hd := s2b "+CMGR:" ++ [32] ++ print_int st ++ COMMA :: hdr).
  pose proof (cmgr_header_int st hdr Hst) as Eh. fold hd in Eh. clearbody hd. clearbody cpms.
  subst index. split; cbv -[cpms_storage cmgr_header cpms_query cpms_set cmgr cmgd smsStorageIndex smsReadStorage];
    rewrite Ec, ?Eh; cbv -[cpms_storage cmgr_header cpms_query cpms_set cmgr cmgd smsStorageIndex smsReadStorage];
    by rewrite ?Eh.
Qed.

Lemma stored_sms_fetched_witness :
  let v := set_storage 3 (s2b "ME") vars_on in
  on_modem [Some [render_cpms (s2b "SM") (COMMA :: s2b "1,20")]; Some []; Some [s2b "+CMGR: 1,,24"; s2b "07918146"]; Some []; Some []]
    (fun AP => readNewSms RIL_UNSOL_RESPONSE_NEW_SMS) v =
    Ret ([cpms_query; cpms_set (s2b "ME"); cmgr 3; cmgd 3; cpms_set (s2b "SM")], v,
         [Unsolicited RIL_UNSOL_RESPONSE_NEW_SMS (DString (s2b "07918146"))]) /\
  on_modem [Some [render_cpms (s2b "SM") (COMMA :: s2b "1,20")]; Some []; None] (fun AP => readNewSms RIL_UNSOL_RESPONSE_NEW_SMS) v =
    Ret ([cpms_query; cpms_set (s2b "ME"); cmgr 3], v, []).
Proof.
  intros v.
  refine (stored_sms_fetched v (s2b "SM") (s2b "1,20") (s2b ",24") (s2b "07918146") 1 [] (Some []) (Some []) (Some [])
    RIL_UNSOL_RESPONSE_NEW_SMS _ eq_refl _).
  - by apply (bool_decide_unpack (QUOTE ∉ _)).
  - by split.
Defined.
