(* ===== verification/RilData.v ===== *)
(** * The RIL's data calls

    The list of data connections, setting one up - over the qmi device, or by
    dialling and starting pppd - and ending one.  What the system does meanwhile
    (the properties, the device, pppd and its interface) is an argument. *)

From S2P Require Import Prelude CString AtTok Misc AtChannel RilPort RilSim.

(** ** What the handlers see of the system *)

(** One look at pppd: its exit code, [PPP_OPERSTATE_PATH] ([None]: it cannot be
    opened) and the local address.  The state ends in a newline, so that what the
    buffer holds after it is not compared. *)
Record ppp_look := mk_ppp_look { exit_code : bytes; operstate : option bytes; local_ip : bytes }.

(** The result of a [write] or [read]: so many bytes, interrupted, an error. *)
Inductive written := Wrote (n : nat) | WriteInterrupted | WriteFailed.
Inductive was_read := Read (s : bytes) | ReadInterrupted | ReadFailed.

(** The qmi device: the results of its [write]s and [read]s in turn - after the last
    one the call does not return - and that of [system]. *)
Record qmi_device := mk_qmi { qmi_writes : list written; qmi_reads : list was_read; netcfg : Z }.

(** [property]: the empty text when not set. *)
Record data_env := mk_data_env {
  property : bytes -> bytes;
  qmi : option qmi_device;
  ppp_start : Z;
  ppp_looks : nat -> ppp_look }.

Definition PPP_TTY_PATH : bytes := s2b "ppp0".
Definition SERVICE_PPPD_GPRS : bytes := s2b "pppd_gprs".
Definition PROPERTY_PPPD_EXIT_CODE : bytes := s2b "net.gprs.ppp-exit".
Definition POLL_PPP_SYSFS_RETRY : nat := 10.

(** [property_get] *)
Definition property_get (env : data_env) (name : bytes) (default : bytes) : bytes :=
  match property env name with [] => default | v => v end.

(** ** The list *)

Definition DNSLIST_SZ : nat := 128.

(** [strlcat(dst, src, dnslist_sz)] *)
Definition strlcat (dst src : bytes) : bytes := take (DNSLIST_SZ - 1) (dst ++ src).

(** The emulator's name servers. *)
Fixpoint emulator_dns (env : data_env) (ns : list Z) (dnslist separator : bytes) : bytes :=
  match ns with
  | [] => dnslist
  | n :: ns =>
    match property env (s2b "net.eth0.dns" ++ print_int n) with
    | [] => emulator_dns env ns dnslist separator
    | v => emulator_dns env ns (strlcat (strlcat dnslist separator) v) [32]
    end
  end.

Definition ppp_dns (env : data_env) : bytes :=
  strlcat (strlcat (strlcat [] (property_get env (s2b "net.ppp0.dns1") (s2b "8.8.8.8"))) [32])
    (property_get env (s2b "net.ppp0.dns2") (s2b "8.8.4.4")).

Definition call_initial : RIL_Data_Call :=
  mk_data_call (-1) (-1) (-1) (Text []) (Text []) (Text []) (Text []) (Text []).

(** A line of [+CGACT]: a context and whether it is active. *)
Definition cgact_line (line : bytes) : option RIL_Data_Call :=
  cur ← read_start (Some line);
  '(cid, cur) ← read_int cur;
  '(active, _) ← read_int cur;
  Some (mk_data_call (-1) cid active (Text []) (Text []) (Text []) (Text []) (Text [])).

(** The first loop: [None] is [goto error]. *)
Fixpoint cgact_loop (lines : list bytes) : option (list RIL_Data_Call) :=
  match lines with
  | [] => Some []
  | line :: rest => r ← cgact_line line; rs ← cgact_loop rest; Some (r :: rs)
  end.

(** The index of the first response of a context. *)
Fixpoint find_cid (cid : Z) (rs : list RIL_Data_Call) (i : nat) : option nat :=
  match rs with
  | [] => None
  | r :: rs => if dc_cid r =? cid then Some i else find_cid cid rs (S i)
  end.

(** What is known of the addresses: of the emulator, its properties; otherwise the
    gateways and the addresses point to [propName], whose block ends here. *)
Definition fill (env : data_env) (type out : bytes) (r : RIL_Data_Call) : RIL_Data_Call :=
  if bool_decide (property env (s2b "ro.kernel.qemu") <> []) then
    mk_data_call 0 (dc_cid r) (dc_active r) (Text type) (Text PPP_TTY_PATH) (Text out)
      (Text (emulator_dns env [1; 2; 3; 4] [] [])) (Text (s2b "10.0.2.2"))
  else
    mk_data_call 0 (dc_cid r) (dc_active r) (Text type) (Text PPP_TTY_PATH) Dangling (Text (ppp_dns env)) Dangling.

(** A line of [+CGDCONT]. *)
Definition cgdcont_line (env : data_env) (line : bytes) (rs : list RIL_Data_Call) : outcome (option (list RIL_Data_Call)) :=
  match (cur ← read_start (Some line); read_int cur) with
  | None => Ret None
  | Some (cid, cur) =>
    match find_cid cid rs 0 with
    | None => Ret (Some rs)
    | Some i =>
      match ('(type, cur) ← read_str cur; '(_, cur) ← read_str cur; '(out, _) ← read_str cur; Some (type, out)) with
      | None => Ret None
      | Some (type, out) => type ← checked type; out ← checked out; Ret (Some (alter (fill env type out) i rs))
      end
    end
  end.

Fixpoint cgdcont_loop (env : data_env) (lines : list bytes) (rs : list RIL_Data_Call) : outcome (option (list RIL_Data_Call)) :=
  match lines with
  | [] => Ret (Some rs)
  | line :: rest => o ← cgdcont_line env line rs; match o with None => Ret None | Some rs => cgdcont_loop env rest rs end
  end.

(** ** The qmi device *)

(** Writing [len] bytes. *)
Fixpoint qmi_write (ws : list written) (cur len : nat) : outcome bool :=
  if (len <=? cur)%nat then Ret true
  else
    match ws with
    | [] => NoFuel
    | WriteInterrupted :: ws => qmi_write ws cur len
    | WriteFailed :: _ => Ret false
    | Wrote n :: ws => qmi_write ws (cur + n) len
    end.

(** The characters before a NUL. *)
Fixpoint before_nul (s : bytes) : bytes :=
  match s with [] => [] | c :: s => if c =? 0 then [] else c :: before_nul s end.

(** Whether a status, of at most 31 bytes, says that the interface is up. *)
Definition qmi_online (s : bytes) : bool :=
  let status := before_nul (take 31 s) in strStartsWith status (s2b "STATE=up") || bool_decide (status = s2b "online").

(** Reading the status until it is up, [retry] times at most. *)
Fixpoint qmi_wait (rs : list was_read) (retry : nat) : outcome bool :=
  match rs with
  | [] => NoFuel
  | ReadInterrupted :: rs => qmi_wait rs retry
  | ReadFailed :: _ => Ret false
  | Read s :: rs =>
    if qmi_online s then Ret true
    else match retry with S (S n) => qmi_wait rs (S n) | _ => Ret false end
  end.

(** The connection over the device, up to the result of [system]. *)
Definition qmi_connect (q : qmi_device) (cmd : bytes) : outcome bool :=
  ok ← qmi_write (qmi_writes q) 0 (length cmd);
  if ok : bool then qmi_wait (qmi_reads q) 10 else Ret false.

(** ** pppd *)

Definition link_up (look : ppp_look) : bool :=
  match operstate look with
  | Some s => (strStartsWith s (s2b "up") || strStartsWith s (s2b "unknown")) && negb (bool_decide (local_ip look = []))
  | None => false
  end.

(** The [i]th look and, when it is not the last, the following ones. *)
Fixpoint ppp_wait (looks : nat -> ppp_look) (i retry : nat) : bool :=
  match retry with
  | O => false
  | S retry =>
    if negb (bool_decide (exit_code (looks i) = [])) then false
    else if link_up (looks i) then true
    else ppp_wait looks (S i) retry
  end.

Section handlers.
Context `{AP : at_port} (current_modem_type : modem_type).

Definition cgact : at_request := AT_multiline (s2b "AT+CGACT?") (s2b "+CGACT:").
Definition cgdcont : at_request := AT_multiline (s2b "AT+CGDCONT?") (s2b "+CGDCONT:").

(** [request]: whether there is a request to complete. *)
Definition answer_list (request : bool) (e : RIL_Errno) (d : ril_data) : ril unit :=
  if request then complete e d else unsolicited RIL_UNSOL_DATA_CALL_LIST_CHANGED d.

Definition requestOrSendDataCallList (env : data_env) (request : bool) : ril unit :=
  r ← ask_ne cgact;
  match r with
  | None => answer_list request RIL_E_GENERIC_FAILURE DNone
  | Some r =>
    match cgact_loop (p_intermediates r) with
    | None => answer_list request RIL_E_GENERIC_FAILURE DNone
    | Some responses =>
      r ← ask_ne cgdcont;
      match r with
      | None => answer_list request RIL_E_GENERIC_FAILURE DNone
      | Some r =>
        o ← lift (cgdcont_loop env (p_intermediates r) responses);
        match o with
        | None => answer_list request RIL_E_GENERIC_FAILURE DNone
        | Some responses => answer_list request RIL_E_SUCCESS (DDataCalls responses)
        end
      end
    end
  end.

Definition onDataCallListChanged (env : data_env) : ril unit := requestOrSendDataCallList env false.
(** The link of pppd is gone: context 1, whatever contexts there are. *)
Definition onDeactiveDataCallList : ril unit :=
  unsolicited RIL_UNSOL_DATA_CALL_LIST_CHANGED (DDataCallsV4 [mk_data_call_v4 1 0 [] [] []]).
Definition requestDataCallList (env : data_env) : ril unit := requestOrSendDataCallList env true.

Definition property_set (name value : bytes) : ril unit := emit (Property name value).

(** The commands before dialling. *)
Definition pdp_context (pdp_type : bytes) (apn : option bytes) : at_request :=
  AT (s2b "AT+CGDCONT=1," ++ dquote pdp_type ++ s2b "," ++ dquote (print_str apn) ++ s2b ",,0,0").

Definition dial_up : ril bool :=
  r ← ask (AT (s2b "ATD*99***1#"));
  mret (match r with Some _ => true | None => false end).

(** Over the qmi device. *)
Definition qmi_setup (q : qmi_device) (apn : option bytes) : ril bool :=
  ok ← lift (qmi_connect q (s2b "up:" ++ print_str apn));
  if ok : bool then
    _ ← emit (System (s2b "netcfg rmnet0 dhcp"));
    mret (negb (netcfg q <? 0))
  else mret false.

(** By dialling, on a modem of no known type. *)
Definition plain_setup (l : list (option bytes)) (apn : option bytes) : ril bool :=
  pdp_type ← (if (6 <? length l)%nat then s ← lift (arr_rd l 6); mret (print_str s) else mret (s2b "IP"));
  _ ← send (pdp_context pdp_type apn);
  _ ← send (AT (s2b "AT+CGQREQ=1"));
  _ ← send (AT (s2b "AT+CGQMIN=1"));
  _ ← send (AT (s2b "AT+CGEREP=1,0"));
  _ ← send (AT (s2b "AT+CGACT=1,0"));
  dial_up.

(** By dialling, on the others: the context for pppd. *)
Definition ppp_activate (apn : option bytes) : ril bool :=
  _ ← send (pdp_context (s2b "IP") apn);
  _ ← send (AT (s2b "AT+CGQREQ=1"));
  _ ← send (AT (s2b "AT+CGQMIN=1"));
  err ← command_null (AT (s2b "AT+CGEREP=1,0"));
  if negb (bool_decide (current_modem_type = AMAZON_MODEM)) then
    _ ← send (AT (s2b "AT+CGACT=0,1"));
    dial_up
  else mret (negb (err <? 0)).

Definition ppp_stop : ril unit :=
  v ← get_vars;
  if ctrue (pppd v) then
    _ ← property_set (s2b "ctl.stop") SERVICE_PPPD_GPRS;
    set_vars (set_pppd 0)
  else mret tt.

Definition ppp_launch (env : data_env) : ril bool :=
  _ ← property_set PROPERTY_PPPD_EXIT_CODE [];
  _ ← property_set (s2b "net.ppp0.local-ip") [];
  _ ← property_set (s2b "ctl.start") SERVICE_PPPD_GPRS;
  _ ← set_vars (set_pppd 1);
  mret (negb (ppp_start env <? 0) && ppp_wait (ppp_looks env) 0 POLL_PPP_SYSFS_RETRY).

Definition ppp_error : ril unit :=
  _ ← send (AT (s2b "AT+CGACT=0,1"));
  _ ← ppp_stop;
  complete RIL_E_GENERIC_FAILURE DNone.

Definition requestSetupDataCall (env : data_env) (data : ril_request_data) : ril unit :=
  l ← lift (strings data);
  apn ← lift (arr_rd l 2);
  if bool_decide (current_modem_type = UNKNOWN_MODEM) then
    ok ← match qmi env with Some q => qmi_setup q apn | None => plain_setup l apn end;
    if ok : bool then requestOrSendDataCallList env true else complete RIL_E_GENERIC_FAILURE DNone
  else
    _ ← ppp_stop;
    ok ← ppp_activate apn;
    if ok : bool then
      up ← ppp_launch env;
      if up : bool then requestOrSendDataCallList env true else ppp_error
    else complete RIL_E_GENERIC_FAILURE DNone.

Definition requestDeactivateDataCall (data : ril_request_data) : ril unit :=
  l ← lift (strings data);
  cid ← lift (arr_rd l 0);
  _ ← property_set (s2b "ctl.stop") SERVICE_PPPD_GPRS;
  _ ← send (AT (s2b "AT+CGACT=0," ++ print_str cid));
  complete RIL_E_SUCCESS DNone.
End handlers.

(** ** Each request is completed once *)

Lemma read_str_text cur o k : read_str cur = Some (o, k) -> exists s, o = Some s.
Proof.
  unfold read_str, at_tok_nextstr. destruct cur as [s|]; [|done].
  unfold nextTok, skipWhiteSpace, strsep. cbn [fmap option_fmap option_map].
  destruct (skipWhiteSpace_s s) as [|c r]; [|destruct (c =? QUOTE)];
    repeat case_match; intros E; simplify_eq/=; by eexists.
Qed.

Lemma cgdcont_line_safe env line rs : holds Total (fun _ => True) (cgdcont_line env line rs).
Proof.
  unfold cgdcont_line. case_match; [|done]. case_match; subst. case_match; [|done].
  destruct (read_str o) as [[ty c1]|] eqn:E1; [|done]. destruct (read_str_text _ _ _ E1) as [? ->].
  cbn [mbind option_bind]. destruct (read_str c1) as [[ap c2]|]; [|done]. cbn [mbind option_bind].
  destruct (read_str c2) as [[out c3]|] eqn:E3; [|done]. by destruct (read_str_text _ _ _ E3) as [? ->].
Qed.

Lemma cgdcont_loop_safe env lines : forall rs, holds Total (fun _ => True) (cgdcont_loop env lines rs).
Proof.
  induction lines as [|line lines IH]; intros rs; [done|]. cbn [cgdcont_loop].
  eapply holds_bind; [apply cgdcont_line_safe|]. intros [rs'|] _; [apply IH|done].
Qed.

(** The device answers within what is given of it. *)
Definition qmi_answers (env : data_env) : Prop :=
  match qmi env with
  | None => True
  | Some q => forall apn, exists ok, qmi_connect q (s2b "up:" ++ print_str apn) = Ret ok
  end.

Section laws.
Context `{AP : at_port} (t : mode) `{AL : !at_port_laws t} (current_modem_type : modem_type).

Lemma holds_total {A} (P : A -> Prop) (o : outcome A) : holds Total P o -> holds t P o.
Proof. by destruct o; cbn. Qed.

Lemma requestOrSendDataCallList_keeps n s env (request : bool) :
  good n s -> wp t (requestOrSendDataCallList env request) (fun _ => good (if request then S n else n)) s.
Proof.
  intros H. unfold requestOrSendDataCallList. ril_step.
  assert (forall e d n s, good n s -> wp t (answer_list request e d) (fun _ => good (if request then S n else n)) s) as Ha.
  { intros e d m s1 H1. unfold answer_list. destruct request; ril_auto. }
  ril_use wp_ask_ne. destruct r as [r|]; [|by apply Ha].
  destruct (cgact_loop (p_intermediates r)) as [rs|]; [|by apply Ha].
  ril_step. ril_use wp_ask_ne. destruct r0 as [r0|]; [|by apply Ha].
  ril_step. apply wp_lift. eapply holds_mono; [apply holds_total, cgdcont_loop_safe|].
  intros [rs'|] _; by apply Ha.
Qed.

Lemma wp_dial_up n s (Q : bool -> rild -> Prop) :
  good n s -> (forall b s', good n s' -> vars s' = vars s -> Q b s') -> wp t dial_up Q s.
Proof. intros H HQ. unfold dial_up. ril_auto; by apply HQ. Qed.

Lemma wp_plain_setup n s l apn (Q : bool -> rild -> Prop) :
  good n s -> (forall b s', good n s' -> Q b s') -> wp t (plain_setup l apn) Q s.
Proof.
  intros H HQ. unfold plain_setup. ril_step.
  assert (forall ty s, good n s -> wp t (_ ← send (pdp_context ty apn); _ ← send (AT (s2b "AT+CGQREQ=1"));
    _ ← send (AT (s2b "AT+CGQMIN=1")); _ ← send (AT (s2b "AT+CGEREP=1,0")); _ ← send (AT (s2b "AT+CGACT=1,0")); dial_up) Q s) as Hc.
  { intros ty s1 H1. ril_auto. eapply wp_dial_up; [eassumption|]. intros; by apply HQ. }
  destruct (Nat.ltb_spec 6 (length l)).
  - destruct (lookup_lt_is_Some_2 l 6) as [x Hx]; [lia|]. ril_step.
    assert (lift (AP := AP) (arr_rd l 6) = lift (Ret x)) as -> by (f_equal; etransitivity; [exact (arr_rd_nat l 6)|by rewrite Hx]).
    by apply Hc.
  - by apply Hc.
Qed.

Lemma vars_pppd n s d : good n s -> d = 0 \/ d = 1 -> vars_ok (set_pppd d (vars s)).
Proof. intros H Hd. destruct (good_vars _ _ H). by split. Qed.

Lemma wp_ppp_stop n s (Q : unit -> rild -> Prop) :
  good n s -> (forall s', good n s' -> Q tt s') -> wp t ppp_stop Q s.
Proof.
  intros H HQ. unfold ppp_stop, property_set. do 2 ril_step. case_match; [|by apply HQ].
  do 2 ril_step. eapply wp_set; [eassumption|eapply vars_pppd; [eassumption|by left]|by auto].
Qed.

Lemma wp_ppp_activate n s apn (Q : bool -> rild -> Prop) :
  good n s -> (forall b s', good n s' -> Q b s') -> wp t (ppp_activate current_modem_type apn) Q s.
Proof.
  intros H HQ. unfold ppp_activate. ril_auto; [|by apply HQ].
  eapply wp_dial_up; [eassumption|]. intros; by apply HQ.
Qed.

Lemma wp_ppp_launch n s env (Q : bool -> rild -> Prop) :
  good n s -> (forall b s', good n s' -> Q b s') -> wp t (ppp_launch env) Q s.
Proof.
  intros H HQ. unfold ppp_launch, property_set. do 7 ril_step.
  eapply wp_set; [eassumption|eapply vars_pppd; [eassumption|by right]|]. intros; by apply HQ.
Qed.

Lemma requestSetupDataCall_once n s env a b apn l :
  good n s -> qmi_answers env ->
  wp t (requestSetupDataCall current_modem_type env (RStrings (a :: b :: apn :: l))) (fun _ => good (S n)) s.
Proof.
  intros H Hq. unfold requestSetupDataCall. do 2 (ril_step; eapply wp_lift_ret; [reflexivity|]).
  assert (forall (b : bool) s, good n s ->
    wp t (if b then requestOrSendDataCallList env true else complete RIL_E_GENERIC_FAILURE DNone) (fun _ => good (S n)) s) as Hl.
  { intros [] s1 H1; [by apply (requestOrSendDataCallList_keeps n s1 env true)|by ril_auto]. }
  case_match; ril_step.
  - unfold qmi_answers in Hq. destruct (qmi env) as [q|]; [|by eapply wp_plain_setup; [eassumption|auto]].
    destruct (Hq apn) as [ok E]. unfold qmi_setup. ril_step. rewrite E. eapply wp_lift_ret; [reflexivity|].
    destruct ok; [|by apply (Hl false)]. do 3 ril_step. by apply Hl.
  - eapply wp_ppp_stop; [eassumption|]. intros s1 H1. ril_step.
    eapply wp_ppp_activate; [eassumption|]. intros [] s2 H2; [|by apply (Hl false)].
    ril_step. eapply wp_ppp_launch; [eassumption|]. intros [] s3 H3; [by apply (Hl true)|].
    unfold ppp_error. do 3 ril_step. eapply wp_ppp_stop; [eassumption|]. intros; by ril_auto.
Qed.

Lemma requestDeactivateDataCall_once n s cid l :
  good n s -> wp t (requestDeactivateDataCall (RStrings (cid :: l))) (fun _ => good (S n)) s.
Proof.
  intros H. unfold requestDeactivateDataCall. do 2 (ril_step; eapply wp_lift_ret; [reflexivity|]). unfold property_set. by ril_auto.
Qed.
End laws.

(** ** The list as the modem describes it *)

(** A line of each list. *)
Definition render_context (c : Z * Z) : bytes :=
  s2b "+CGACT:" ++ [32] ++ print_int (fst c) ++ COMMA :: print_int (snd c).

Record definition := mk_definition { pdp_cid : Z; pdp_type : bytes; pdp_apn : bytes; pdp_addr : bytes; pdp_rest : bytes }.

Definition render_definition (d : definition) : bytes :=
  s2b "+CGDCONT:" ++ [32] ++ print_int (pdp_cid d) ++ COMMA :: quoted (pdp_type d) ++ COMMA :: quoted (pdp_apn d) ++
  COMMA :: quoted (pdp_addr d) ++ COMMA :: pdp_rest d.

Definition definition_ok (d : definition) : Prop :=
  int_ok (pdp_cid d) /\ (QUOTE ∉ pdp_type d) /\ (QUOTE ∉ pdp_apn d) /\ (QUOTE ∉ pdp_addr d).

(** What is reported of a context, looked at on its own: the last of its definitions
    is the one that counts. *)
Definition reported (env : data_env) (defs : list definition) (r : RIL_Data_Call) : RIL_Data_Call :=
  match list_find (fun d => pdp_cid d = dc_cid r) (rev defs) with
  | Some (_, d) => fill env (pdp_type d) (pdp_addr d) r
  | None => r
  end.

Definition context_call (c : Z * Z) : RIL_Data_Call :=
  mk_data_call (-1) (fst c) (snd c) (Text []) (Text []) (Text []) (Text []) (Text []).

Lemma cgact_loop_contexts ctxs :
  Forall (fun c => int_ok (fst c) /\ int_ok (snd c)) ctxs -> cgact_loop (map render_context ctxs) = Some (map context_call ctxs).
Proof.
  induction 1 as [|c ctxs [Hc Ha] _ IH]; [done|]. cbn [map cgact_loop]. rewrite IH. unfold cgact_line, render_context.
  replace (read_start _) with (Some (Some ([32] ++ print_int (fst c) ++ COMMA :: print_int (snd c)))) by done.
  cbn [mbind option_bind]. rewrite read_int_comma by (done || by repeat constructor).
  cbn [mbind option_bind]. by rewrite read_last by done.
Qed.

Lemma fill_cid env ty out r : dc_cid (fill env ty out r) = dc_cid r.
Proof. unfold fill. by case_match. Qed.

Lemma fill_fill env ty out ty' out' r : fill env ty out (fill env ty' out' r) = fill env ty out r.
Proof. unfold fill. by case_match. Qed.

(** One definition changes the response of its context, if there is one. *)
Definition define (env : data_env) (d : definition) (r : RIL_Data_Call) : RIL_Data_Call :=
  if pdp_cid d =? dc_cid r then fill env (pdp_type d) (pdp_addr d) r else r.

Lemma define_other env d rs : pdp_cid d ∉ map dc_cid rs -> map (define env d) rs = rs.
Proof.
  induction rs as [|r rs IH]; intros H; [done|]. cbn [map] in *. apply not_elem_of_cons in H as [Hr Hrs].
  rewrite IH by done. unfold define. by destruct (Z.eqb_spec (pdp_cid d) (dc_cid r)).
Qed.

(** The search finds the one response of the context, which is then filled in. *)
Lemma find_cid_define env d rs : forall k,
  NoDup (map dc_cid rs) ->
  match find_cid (pdp_cid d) rs k with
  | None => map (define env d) rs = rs
  | Some i => (k <= i)%nat /\ alter (fill env (pdp_type d) (pdp_addr d)) (i - k)%nat rs = map (define env d) rs
  end.
Proof.
  induction rs as [|r rs IH]; intros k Hn; [done|]. cbn [map] in Hn. apply NoDup_cons in Hn as [Hr Hn]. cbn [find_cid map].
  destruct (Z.eqb_spec (dc_cid r) (pdp_cid d)) as [E|E].
  - split; [lia|]. rewrite Nat.sub_diag. cbn. rewrite define_other by congruence. unfold define. by rewrite E, Z.eqb_refl.
  - specialize (IH (S k) Hn). unfold define at 1 3. destruct (Z.eqb_spec (pdp_cid d) (dc_cid r)); [congruence|].
    destruct (find_cid (pdp_cid d) rs (S k)) as [i|]; [|by f_equal].
    destruct IH as [Hk IH]. split; [lia|]. replace (i - k)%nat with (S (i - S k))%nat by lia. cbn. by f_equal.
Qed.

Lemma read_quoted s r : QUOTE ∉ s -> read_str (Some (quoted s ++ COMMA :: r)) = Some (Some s, Some r).
Proof.
  intros H. unfold read_str. destruct (at_tok_nextstr_quoted [] s [] r) as [E _]; [done|done|by apply not_elem_of_nil|].
  cbn [app] in E. by rewrite E.
Qed.

Lemma cgdcont_line_define env d rs :
  definition_ok d -> NoDup (map dc_cid rs) -> cgdcont_line env (render_definition d) rs = Ret (Some (map (define env d) rs)).
Proof.
  intros (Hc & Ht & Ha & Ho) Hn. unfold cgdcont_line, render_definition.
  replace (read_start _) with (Some (Some ([32] ++ print_int (pdp_cid d) ++ COMMA :: quoted (pdp_type d) ++
    COMMA :: quoted (pdp_apn d) ++ COMMA :: quoted (pdp_addr d) ++ COMMA :: pdp_rest d))) by done.
  cbn [mbind option_bind]. rewrite read_int_comma by (done || by repeat constructor).
  pose proof (find_cid_define env d rs 0 Hn) as Hf. destruct (find_cid (pdp_cid d) rs 0) as [i|]; [|by rewrite Hf].
  rewrite read_quoted by done. cbn [mbind option_bind]. rewrite read_quoted by done. cbn [mbind option_bind].
  rewrite read_quoted by done. cbn. destruct Hf as [_ <-]. by rewrite Nat.sub_0_r.
Qed.

Lemma define_cids env d rs : map dc_cid (map (define env d) rs) = map dc_cid rs.
Proof. rewrite map_map. apply map_ext. intros r. unfold define. case_match; [apply fill_cid|done]. Qed.

Lemma cgdcont_loop_define env defs : forall rs,
  Forall definition_ok defs -> NoDup (map dc_cid rs) ->
  cgdcont_loop env (map render_definition defs) rs = Ret (Some (map (fun r => foldl (fun r d => define env d r) r defs) rs)).
Proof.
  induction defs as [|d defs IH]; intros rs Hd Hn; cbn [map cgdcont_loop foldl]; [by rewrite map_id|].
  apply Forall_cons in Hd as [Hd Hds]. rewrite cgdcont_line_define by done. cbn [mbind outcome_bind].
  rewrite IH by (done || by rewrite define_cids). by rewrite map_map.
Qed.

(** Of several definitions of a context the last one remains. *)
Lemma define_all env defs : forall r, foldl (fun r d => define env d r) r defs = reported env defs r.
Proof.
  induction defs as [|d defs IH] using rev_ind; intros r; [done|]. rewrite foldl_app. cbn [foldl].
  unfold reported in *. rewrite rev_app_distr. cbn [rev app list_find]. rewrite IH. unfold define at 1.
  assert (dc_cid (match list_find (fun d => pdp_cid d = dc_cid r) (rev defs) with
                  | Some (_, d) => fill env (pdp_type d) (pdp_addr d) r | None => r end) = dc_cid r) as ->.
  { destruct (list_find _ (rev defs)) as [[i d']|]; [apply fill_cid|done]. }
  destruct (Z.eqb_spec (pdp_cid d) (dc_cid r)) as [E|E].
  - rewrite decide_True by done. destruct (list_find _ (rev defs)) as [[i d']|]; [apply fill_fill|done].
  - rewrite decide_False by done. by destruct (list_find _ (rev defs)) as [[i d']|].
Qed.

(** ** pppd is up *)

(** Within ten looks, none of which finds an exit code, the link is up. *)
Definition ppp_up (env : data_env) : Prop :=
  exists k, (k < POLL_PPP_SYSFS_RETRY)%nat /\ link_up (ppp_looks env k) = true /\
    forall j, (j <= k)%nat -> exit_code (ppp_looks env j) = [].

Lemma ppp_wait_up looks retry : forall i,
  ppp_wait looks i retry = true <->
  exists k, (i <= k < i + retry)%nat /\ link_up (looks k) = true /\ forall j, (i <= j <= k)%nat -> exit_code (looks j) = [].
Proof.
  induction retry as [|retry IH]; intros i; cbn [ppp_wait].
  { split; [done|]. intros (k & Hk & _). lia. }
  destruct (bool_decide_reflect (exit_code (looks i) = [])) as [E|E]; cbn [negb].
  - destruct (link_up (looks i)) eqn:U.
    + split; [intros _|done]. exists i. split_and!; [lia|lia|done|]. intros j Hj. by replace j with i by lia.
    + rewrite IH. split; intros (k & Hk & Hu & He); exists k.
      * split_and!; [lia|lia|done|]. intros j Hj. destruct (decide (j = i)) as [->|]; [done|]. apply He. lia.
      * assert (k <> i) by congruence. split_and!; [lia|lia|done|]. intros j Hj. apply He. lia.
  - split; [done|]. intros (k & Hk & _ & He). exfalso. apply E, He. lia.
Qed.

Lemma ppp_launched env :
  negb (ppp_start env <? 0) && ppp_wait (ppp_looks env) 0 POLL_PPP_SYSFS_RETRY = true <-> 0 <= ppp_start env /\ ppp_up env.
Proof.
  rewrite andb_true_iff, negb_true_iff, Z.ltb_ge. apply and_iff_compat_l. rewrite ppp_wait_up. unfold ppp_up.
  split; intros (k & Hk & Hu & He); exists k; (split_and!; try done; try lia; intros; apply He; lia).
Qed.

(** ** Properties *)

(** C26: the list of data calls, asked for or announced.  When the modem lists its
    contexts and then the definitions of contexts, in any order and number, one
    response is given for each context, in the modem's order, each as if it were
    looked up by itself: its own number and whether it is active, and, when some
    definition names it, the type and the address of the last such definition.
    On the emulator its name servers and gateway are those of the emulator; on a
    device the addresses and the gateways point into a block that has been
    left. *)
Theorem data_calls_listed `{AP : at_port} (s : rild) (env : data_env) (request : bool) (r1 r2 : ATResponse) (p1 p2 : port)
  (contexts : list (Z * Z)) (defs : list definition) :
  at_send cgact true (chan s) = Ret (0, Some r1, p1) -> success r1 <> 0 ->
  p_intermediates r1 = map render_context contexts ->
  at_send cgdcont true p1 = Ret (0, Some r2, p2) -> success r2 <> 0 ->
  p_intermediates r2 = map render_definition defs ->
  Forall (fun c => int_ok (fst c) /\ int_ok (snd c)) contexts -> NoDup (map fst contexts) -> Forall definition_ok defs ->
  let calls := DDataCalls (map (reported env defs) (map context_call contexts)) in
  requestOrSendDataCallList env request s =
    Ret (tt, mk_rild p2 (vars s) (events s ++
      [if request then Complete RIL_E_SUCCESS calls else Unsolicited RIL_UNSOL_DATA_CALL_LIST_CHANGED calls])).
Proof.
  intros E1 S1 L1 E2 S2 L2 Hc Hn Hd calls. unfold requestOrSendDataCallList.
  destruct (run_ask _ _ _ _ E1 S1) as [_ R1]. rewrite (run_bind _ _ _ _ _ R1). rewrite L1, cgact_loop_contexts by done.
  destruct (run_ask cgdcont (mk_rild p1 (vars s) (events s)) _ _ E2 S2) as [_ R2]. rewrite (run_bind _ _ _ _ _ R2).
  rewrite L2. assert (NoDup (map dc_cid (map context_call contexts))) as Hcid by (by rewrite map_map).
  pose proof (cgdcont_loop_define env defs _ Hd Hcid) as El.
  rewrite (map_ext _ _ (define_all env defs)) in El.
  rewrite (run_bind (lift _) _ _ (Some (map (reported env defs) (map context_call contexts))) (mk_rild p2 (vars s) (events s)));
    [by destruct request|unfold lift; by rewrite El].
Qed.

(** A device with one context that is active, one that is not, and one definition. *)
Definition device : data_env := mk_data_env (fun _ => []) None 0 (fun _ => mk_ppp_look [] None []).
Definition one_definition : definition := mk_definition 1 (s2b "IP") (s2b "internet") (s2b "0.0.0.0") (s2b "0,0").
Definition list_answers (n : nat) (q : at_request) : Z * option ATResponse :=
  scripted [Some (map render_context [(1, 1); (2, 0)]); Some (map render_definition [one_definition])] n q.

Lemma data_calls_listed_witness :
  @requestOrSendDataCallList (modem_port list_answers) device true (@mk_rild (modem_port list_answers) [] vars_init []) =
    Ret (tt, @mk_rild (modem_port list_answers) [cgact; cgdcont] vars_init
      [Complete RIL_E_SUCCESS (DDataCalls
        [mk_data_call 0 1 1 (Text (s2b "IP")) (Text (s2b "ppp0")) Dangling (Text (s2b "8.8.8.8 8.8.4.4")) Dangling;
         context_call (2, 0)])]).
Proof.
  etransitivity; [refine (@data_calls_listed (modem_port list_answers) (@mk_rild (modem_port list_answers) [] vars_init [])
    device true _ _ _ _ [(1, 1); (2, 0)] [one_definition] eq_refl ltac:(done) eq_refl eq_refl ltac:(done) eq_refl _ _ _)|].
  - repeat constructor; done.
  - by apply (bool_decide_unpack (NoDup [1; 2])).
  - repeat constructor; try done; by apply (bool_decide_unpack (QUOTE ∉ _)).
  - reflexivity.
Defined.

(** The commands that open the context for pppd. *)
Definition ppp_commands (apn : option bytes) : list at_request :=
  [pdp_context (s2b "IP") apn; AT (s2b "AT+CGQREQ=1"); AT (s2b "AT+CGQMIN=1"); AT (s2b "AT+CGEREP=1,0");
   AT (s2b "AT+CGACT=0,1"); AT (s2b "ATD*99***1#")].

Section running.
Context (modem : nat -> at_request -> Z * option ATResponse).

Lemma run_ppp_stop (s : @rild (modem_port modem)) :
  @ppp_stop (modem_port modem) s = Ret (tt, @mk_rild (modem_port modem) (chan s) (if ctrue (pppd (vars s)) then set_pppd 0 (vars s) else vars s)
    (events s ++ if ctrue (pppd (vars s)) then [Property (s2b "ctl.stop") SERVICE_PPPD_GPRS] else [])).
Proof.
  unfold ppp_stop, property_set. rewrite run_get. destruct (ctrue (pppd (vars s))).
  - by rewrite run_emit.
  - rewrite app_nil_r. by destruct s.
Qed.

Lemma run_ppp_activate apn (s : @rild (modem_port modem)) r :
  modem (length (chan s) + 5)%nat (AT (s2b "ATD*99***1#")) = (0, Some r) -> success r <> 0 ->
  @ppp_activate (modem_port modem) HUAWEI_MODEM apn s = Ret (true, @mk_rild (modem_port modem) (chan s ++ ppp_commands apn) (vars s) (events s)).
Proof.
  intros Hd Hr. unfold ppp_activate. rewrite !run_send, run_command_null. cbn [bool_decide negb chan vars events].
  change (bool_decide (HUAWEI_MODEM = AMAZON_MODEM)) with false. cbn [negb]. rewrite run_send. cbn [chan vars events].
  unfold dial_up. rewrite <- !app_assoc. cbn [app].
  match goal with |- (_ ← ask ?q; _) ?s1 = _ =>
    destruct (@run_ask (modem_port modem) q s1 r (chan s ++ ppp_commands apn)) as [E _] end.
  - cbn [at_send modem_port chan]. unfold modem_send. rewrite length_app. cbn [length]. rewrite Hd.
    by rewrite <- app_assoc.
  - done.
  - by rewrite (run_bind _ _ _ _ _ E).
Qed.

Lemma run_ppp_launch env (s : @rild (modem_port modem)) :
  @ppp_launch (modem_port modem) env s = Ret (negb (ppp_start env <? 0) && ppp_wait (ppp_looks env) 0 POLL_PPP_SYSFS_RETRY,
    @mk_rild (modem_port modem) (chan s) (set_pppd 1 (vars s)) (events s ++
      [Property PROPERTY_PPPD_EXIT_CODE []; Property (s2b "net.ppp0.local-ip") []; Property (s2b "ctl.start") SERVICE_PPPD_GPRS])).
Proof. unfold ppp_launch, property_set. rewrite !run_emit, run_set. cbn [events chan vars]. by rewrite <- !app_assoc. Qed.

(** Up to the start of pppd. *)
Lemma run_setup (s : @rild (modem_port modem)) env a b apn l r :
  modem (length (chan s) + 5)%nat (AT (s2b "ATD*99***1#")) = (0, Some r) -> success r <> 0 ->
  @requestSetupDataCall (modem_port modem) HUAWEI_MODEM env (RStrings (a :: b :: apn :: l)) s =
  (up ← ppp_launch env; if up : bool then requestOrSendDataCallList env true else ppp_error)
    (@mk_rild (modem_port modem) (chan s ++ ppp_commands apn) (if ctrue (pppd (vars s)) then set_pppd 0 (vars s) else vars s)
      (events s ++ (if ctrue (pppd (vars s)) then [Property (s2b "ctl.stop") SERVICE_PPPD_GPRS] else []))).
Proof.
  intros Hd Hr. unfold requestSetupDataCall. rewrite (run_bind (lift (strings (RStrings (a :: b :: apn :: l)))) _ s _ s eq_refl).
  rewrite (run_bind (lift (arr_rd (a :: b :: apn :: l) 2)) _ s _ s eq_refl).
  change (bool_decide (HUAWEI_MODEM = UNKNOWN_MODEM)) with false. cbn iota.
  rewrite (run_bind _ _ _ _ _ (run_ppp_stop s)).
  match goal with |- (_ ← ppp_activate _ _; _) ?s1 = _ => pose proof (run_ppp_activate apn s1 r Hd Hr) as E end.
  by rewrite (run_bind _ _ _ _ _ E).
Qed.
End running.


(** A modem that accepts every command, and a system whose pppd is up at the third
    look; then one whose pppd exits. *)
Definition slow_pppd : data_env := mk_data_env (fun _ => []) None 0
  (fun i => mk_ppp_look [] (if (i <? 2)%nat then None else Some (s2b "unknown")) (if (i <? 2)%nat then [] else s2b "10.0.0.7")).
Definition no_pppd : data_env := mk_data_env (fun _ => []) None 0
  (fun i => mk_ppp_look (if (i <? 2)%nat then [] else s2b "16") (Some (s2b "down")) []).
Definition accepting (n : nat) (q : at_request) : Z * option ATResponse := (0, Some (mk_at_response 1 (Some (s2b "OK")) [])).

Lemma slow_pppd_up : 0 <= ppp_start slow_pppd /\ ppp_up slow_pppd.
Proof. split; [done|]. exists 2%nat. split_and!; [unfold POLL_PPP_SYSFS_RETRY; lia|by vm_compute|done]. Qed.

Lemma no_pppd_down : ~ (0 <= ppp_start no_pppd /\ ppp_up no_pppd).
Proof.
  intros (_ & k & _ & Hu & He). destruct (decide (k < 2)%nat) as [Hk|Hk].
  - by vm_compute in Hu.
  - specialize (He 2%nat ltac:(lia)). by vm_compute in He.
Qed.

