(* ===== verification/PppSocket.v ===== *)
(** * The socket of pppd: [pppcheckLoop] of [reference-ril/atchannel.c]

    A thread of the reference RIL's AT channel waits on a control socket for the scripts
    that pppd runs when its link goes down, and has the framework told, with the
    channel's mutex held.  What the system answers in each round of its loop is an
    argument; the descriptors that are closed are the result. *)

From S2P Require Import Prelude CString RilPort RilData.

Definition MAX_PPPD_MSG_LEN : nat := 32.
Definition PPPD_MSG_PPP_DOWN : bytes := s2b "ppp-down".

(** By the number of the round: the results of [listen] and [accept], and what [recv]
    gives: an error, or the bytes, of which there are none at the end of the stream. *)
Record ppp_system := mk_ppp_system { ppp_listen : nat -> Z; ppp_accept : nat -> Z; ppp_recv : nat -> option bytes }.

(** [buf] after [memset] and [recv]. *)
Definition ppp_buffer (l : bytes) : bytes := take MAX_PPPD_MSG_LEN l ++ replicate (MAX_PPPD_MSG_LEN - length l) 0.

(** [strcmp(buf, PPPD_MSG_PPP_DOWN) == 0]; the comparison ends within the buffer. *)
Definition ppp_is_down (l : bytes) : bool := strcmp_eq (fst (split_at 0 (ppp_buffer l))) PPPD_MSG_PPP_DOWN.

Section loop.
Context `{AP : at_port} (sys : ppp_system) (s_fdPPP : Z).

(** A round: whether another one follows, and the descriptors closed, in order. *)
Definition ppp_round (k : nat) : ril (bool * list Z) :=
  if ppp_listen sys k <? 0 then mret (false, [s_fdPPP])
  else
    let acceptFD := ppp_accept sys k in
    if acceptFD <? 0 then mret (false, [acceptFD; s_fdPPP])
    else
      match ppp_recv sys k with
      | None | Some [] => mret (false, [acceptFD; s_fdPPP])
      | Some l =>
        _ ← (if ppp_is_down l then onDeactiveDataCallList else mret tt);
        mret (true, [acceptFD])
      end.

Fixpoint ppp_rounds (fuel k : nat) : ril (list Z) :=
  match fuel with
  | O => lift NoFuel
  | S fuel =>
    '(on, closed) ← ppp_round k;
    if on : bool then closed' ← ppp_rounds fuel (S k); mret (closed ++ closed') else mret closed
  end.

(** Without the socket the process exits. *)
Definition pppcheckLoop (fuel : nat) : ril (list Z) := if s_fdPPP <? 0 then lift Halt else ppp_rounds fuel 0.
End loop.

(** ** Lemmas *)

Lemma split_at_nul (s r : bytes) : 0 ∉ s -> fst (split_at 0 (s ++ 0 :: r)) = s.
Proof.
  induction s as [|c s IH]; intros H; cbn [app split_at]; [done|]. apply not_elem_of_cons in H as [Hc Hs].
  specialize (IH Hs). destruct (Z.eqb_spec c 0); [congruence|]. destruct (split_at 0 (s ++ 0 :: r)). cbn [fst] in *. by rewrite IH.
Qed.

(** Its text read back. *)
Lemma split_at_text (s t : bytes) : fst (split_at 0 s) = t -> s = t \/ exists r, s = t ++ 0 :: r.
Proof.
  revert t; induction s as [|c s IH]; intros t E; cbn [split_at] in E; [by left|].
  destruct (Z.eqb_spec c 0) as [->|Hc]; [right; exists s; cbn in E; by subst|].
  specialize (IH _ eq_refl). destruct (split_at 0 s) as [a b]. cbn [fst] in *. subst t.
  destruct IH as [->|[r ->]]; [by left|right; by exists r].
Qed.

(** The message alone, or ended by a NUL. *)
Lemma ppp_is_down_spec l : (length l <= MAX_PPPD_MSG_LEN)%nat ->
  ppp_is_down l = true <-> l = PPPD_MSG_PPP_DOWN \/ exists r, l = PPPD_MSG_PPP_DOWN ++ 0 :: r.
Proof.
  intros Hl. unfold ppp_is_down, strcmp_eq, ppp_buffer. rewrite bool_decide_eq_true, take_ge by done.
  assert (0 ∉ PPPD_MSG_PPP_DOWN) as Hn by (by apply (bool_decide_unpack (0 ∉ PPPD_MSG_PPP_DOWN))). split.
  - intros E. apply split_at_text in E. destruct (MAX_PPPD_MSG_LEN - length l)%nat as [|n] eqn:En; cbn [replicate] in E.
    + rewrite app_nil_r in E. done.
    + destruct E as [E|[r E]].
      * exfalso. apply Hn. rewrite <- E. apply elem_of_app. right. constructor.
      * assert (length PPPD_MSG_PPP_DOWN = 8)%nat as H8 by done. destruct (decide (length l <= 8)%nat) as [Hs|Hs].
        -- left. destruct (decide (length l = 8)%nat) as [H|H].
           ++ by apply app_inj_1 in E as [-> _]; [|lia].
           ++ exfalso. apply (f_equal (fun x => x !! length l)) in E. rewrite lookup_app_r, Nat.sub_diag in E by lia.
              rewrite lookup_app_l in E by lia. symmetry in E. apply list_elem_of_lookup_2 in E. done.
        -- right. apply (f_equal (take (length l))) in E. rewrite take_app_length, take_app_ge in E by lia. rewrite H8 in E.
           destruct (length l - 8)%nat as [|k] eqn:Ek; [lia|]. rewrite E. by exists (take k r).
  - intros [->|[r ->]]; [apply (split_at_nul _ (replicate 23 0) Hn)|]. rewrite <- app_assoc. by apply split_at_nul.
Qed.

(** ** Property *)

Section rounds.
Context `{AP : at_port} (sys : ppp_system) (s_fdPPP : Z).

(** Someone connects and says something. *)
Definition ppp_served (k : nat) : Prop :=
  0 <= ppp_listen sys k /\ 0 <= ppp_accept sys k /\ exists c l, ppp_recv sys k = Some (c :: l).

(** What the framework is told of a round. *)
Definition ppp_told (k : nat) : list ril_event :=
  match ppp_recv sys k with
  | Some l => if ppp_is_down l then [Unsolicited RIL_UNSOL_DATA_CALL_LIST_CHANGED (DDataCallsV4 [mk_data_call_v4 1 0 [] [] []])] else []
  | None => []
  end.

Lemma run_ppp_served k (s : rild) : ppp_served k ->
  ppp_round sys s_fdPPP k s = Ret ((true, [ppp_accept sys k]), mk_rild (chan s) (vars s) (events s ++ ppp_told k)).
Proof.
  intros (Hl & Ha & c & l & Er). unfold ppp_round, ppp_told. rewrite (proj2 (Z.ltb_ge _ _) Hl). cbn zeta.
  rewrite (proj2 (Z.ltb_ge _ _) Ha), Er. destruct (ppp_is_down (c :: l)); [done|]. rewrite app_nil_r. by destruct s.
Qed.

Lemma run_ppp_rounds n : forall fuel k (s : rild), (forall i, (k <= i < k + n)%nat -> ppp_served i) ->
  ppp_rounds sys s_fdPPP (n + fuel) k s =
    (closed ← ppp_rounds sys s_fdPPP fuel (k + n); mret (map (ppp_accept sys) (seq k n) ++ closed))
      (mk_rild (chan s) (vars s) (events s ++ flat_map ppp_told (seq k n))).
Proof.
  induction n as [|n IH]; intros fuel k s H; cbn [Nat.add ppp_rounds seq map flat_map].
  - rewrite app_nil_r, Nat.add_0_r. destruct s as [p v e]. unfold mbind, ril_bind. cbn [chan vars events]. by destruct (ppp_rounds _ _ _ _ _) as [[? ?]| | |].
  - rewrite (run_bind _ _ _ _ _ (run_ppp_served k s ltac:(apply H; lia))). cbn match.
    unfold mbind at 1, ril_bind at 1. rewrite IH by (intros; apply H; lia). cbn [chan vars events].
    rewrite <- app_assoc, <- Nat.add_succ_comm. unfold mbind, ril_bind. by destruct (ppp_rounds _ _ _ _ _) as [[? ?]| | |].
Qed.
End rounds.

(** the thread behind pppd's socket, from a descriptor that there is.  As long as someone
    connects and says something, the framework is told, once and in order, of each message
    that is [ppp-down] - alone or with a NUL after it - and of nothing else, every
    connection is closed, and the thread does not return.  The first round in which
    listening, accepting or receiving fails ends it for good: with the connections the
    socket itself is closed, and a message after that is never heard.  Without the
    descriptor the process exits. *)
Theorem ppp_down_reported `{AP : at_port} (sys : ppp_system) (s_fdPPP : Z) (n : nat) (s : rild) :
  (forall k, (k < n)%nat -> ppp_served sys k) ->
  let told := mk_rild (chan s) (vars s) (events s ++ flat_map (ppp_told sys) (seq 0 n)) in
  let served := map (ppp_accept sys) (seq 0 n) in
  (forall k l, ppp_recv sys k = Some l -> (length l <= MAX_PPPD_MSG_LEN)%nat ->
     ppp_told sys k <> [] <-> l = PPPD_MSG_PPP_DOWN \/ exists r, l = PPPD_MSG_PPP_DOWN ++ 0 :: r) /\
  (0 <= s_fdPPP -> pppcheckLoop sys s_fdPPP n s = NoFuel) /\
  (0 <= s_fdPPP -> ~ ppp_served sys n -> forall fuel, (n < fuel)%nat ->
     pppcheckLoop sys s_fdPPP fuel s =
       Ret (served ++ (if ppp_listen sys n <? 0 then [] else [ppp_accept sys n]) ++ [s_fdPPP], told)) /\
  (s_fdPPP < 0 -> forall fuel, pppcheckLoop sys s_fdPPP fuel s = Halt).
Proof.
  intros Hs told served. unfold pppcheckLoop. split_and!.
  - intros k l Er Hl. rewrite <- (ppp_is_down_spec l Hl). unfold ppp_told. rewrite Er. by destruct (ppp_is_down l).
  - intros Hf. rewrite (proj2 (Z.ltb_ge _ _) Hf). pose proof (run_ppp_rounds sys s_fdPPP n 0 0 s (fun i Hi => Hs i (proj2 Hi))) as E.
    rewrite Nat.add_0_r in E. exact E.
  - intros Hf Hn fuel Hfuel. rewrite (proj2 (Z.ltb_ge _ _) Hf). replace fuel with (n + S (fuel - n - 1))%nat by lia.
    rewrite (run_ppp_rounds sys s_fdPPP n _ 0 s (fun i Hi => Hs i (proj2 Hi))). fold told. fold served. cbn [Nat.add].
    assert (ppp_round sys s_fdPPP n told = Ret ((false, (if ppp_listen sys n <? 0 then [] else [ppp_accept sys n]) ++ [s_fdPPP]), told)) as E.
    { unfold ppp_round, ppp_served in *. destruct (Z.ltb_spec (ppp_listen sys n) 0) as [Hl|Hl]; [done|]. cbn zeta.
      destruct (Z.ltb_spec (ppp_accept sys n) 0) as [Ha|Ha]; [done|].
      destruct (ppp_recv sys n) as [[|c l]|]; [done| |done]. exfalso. apply Hn. by eauto 6. }
    rewrite (run_bind _ _ told ((if ppp_listen sys n <? 0 then [] else [ppp_accept sys n]) ++ [s_fdPPP]) told); [done|].
    cbn [ppp_rounds]. by rewrite (run_bind _ _ _ _ _ E).
  - intros Hf fuel. by rewrite (proj2 (Z.ltb_lt _ _) Hf).
Qed.

(** Two scripts: one that says what is meant, one that says something else; and then an
    end. *)
Definition ppp_example : ppp_system :=
  mk_ppp_system (fun _ => 0) (fun k => 40 + Z.of_nat k) (fun k => nth k [Some (s2b "ppp-down"); Some (s2b "ppp-downwards")] None).

Lemma ppp_down_reported_witness :
  let AP := modem_port (fun _ _ => (0, None)) in
  pppcheckLoop ppp_example 7 3 (@mk_rild AP [] vars_init []) =
    Ret ([40; 41; 42; 7], @mk_rild AP [] vars_init [Unsolicited RIL_UNSOL_DATA_CALL_LIST_CHANGED (DDataCallsV4 [mk_data_call_v4 1 0 [] [] []])]).
Proof.
  intros AP. destruct (ppp_down_reported ppp_example 7 2 (@mk_rild AP [] vars_init [])) as (_ & _ & H & _).
  - intros [|[|k]] Hk; [| |lia]; (split; [done|]; split; [done|]; by do 2 eexists).
  - apply H; [lia| |lia]. by intros (_ & _ & c & l & [=]).
Defined.
