(* ===== verification/Ril.v ===== *)
(** * The RIL: requests, events and what they keep

    [onRequest] and [onUnsolicited] of [reference-ril.c], and the steps of the RIL
    between them.  [OTHER_REQUEST] stands for the codes that the switch has no case
    for. *)

From S2P Require Import Prelude CString AtTok Misc FcpParser AtChannel RilPort RilCalls RilNetwork RilState RilSim RilSms RilData.

Inductive ril_request :=
| GET_SIM_STATUS
| GET_CURRENT_CALLS | DIAL | HANGUP
| HANGUP_WAITING_OR_BACKGROUND | HANGUP_FOREGROUND_RESUME_BACKGROUND | SWITCH_WAITING_OR_HOLDING_AND_ACTIVE
| ANSWER | CONFERENCE | UDUB | SEPARATE_CONNECTION
| SIGNAL_STRENGTH | VOICE_REGISTRATION_STATE | DATA_REGISTRATION_STATE | OPERATOR
| RADIO_POWER | DTMF
| SEND_SMS | CDMA_SEND_SMS | IMS_SEND_SMS | SMS_ACKNOWLEDGE
| SETUP_DATA_CALL | DEACTIVATE_DATA_CALL | DATA_CALL_LIST
| GET_IMSI | GET_IMEI | SIM_IO | SEND_USSD | CANCEL_USSD
| QUERY_NETWORK_SELECTION_MODE | OEM_HOOK_RAW | OEM_HOOK_STRINGS
| WRITE_SMS_TO_SIM | DELETE_SMS_ON_SIM
| ENTER (r : pin_request)
| IMS_REGISTRATION_STATE | VOICE_RADIO_TECH
| SET_PREFERRED_NETWORK_TYPE | GET_PREFERRED_NETWORK_TYPE
| BASEBAND_VERSION | DEVICE_IDENTITY | CDMA_SUBSCRIPTION
| CDMA_SET_SUBSCRIPTION_SOURCE | CDMA_GET_SUBSCRIPTION_SOURCE
| CDMA_QUERY_ROAMING_PREFERENCE | CDMA_SET_ROAMING_PREFERENCE | EXIT_EMERGENCY_CALLBACK_MODE
| CHANGE_SIM_PIN | CHANGE_SIM_PIN2 | SET_FACILITY_LOCK | QUERY_FACILITY_LOCK
| GET_CELL_INFO_LIST | SET_UNSOL_CELL_INFO_LIST_RATE
| SET_NETWORK_SELECTION_MANUAL | SET_NETWORK_SELECTION_AUTOMATIC | QUERY_AVAILABLE_NETWORKS
| OTHER_REQUEST.

#[export] Instance pin_request_eq_dec : EqDecision pin_request.
Proof. solve_decision. Defined.
#[export] Instance ril_request_eq_dec : EqDecision ril_request.
Proof. solve_decision. Defined.

Section ril.
Context `{AP : at_port} (runtime_3g_port_type current_modem_type : modem_type).

(** ** Requests *)

(** [RIL_REQUEST_GET_IMSI] and its like: the line of a numeric answer. *)
Definition requestNumeric (cmd : bytes) : ril unit :=
  line ← ask_line (AT_numeric cmd);
  match line with
  | None => complete RIL_E_GENERIC_FAILURE DNone
  | Some line => complete RIL_E_SUCCESS (DString line)
  end.

Definition requestImsRegistrationState : ril unit :=
  v ← get_vars;
  let reply0 := s_ims_registered (s_ims v) in
  let reply1 := s_ims_format (s_ims v) in
  if negb (reply1 =? -1) then complete RIL_E_SUCCESS (DInts [reply0; reply1])
  else complete RIL_E_GENERIC_FAILURE DNone.

(** The cases from [CDMA_SET_SUBSCRIPTION_SOURCE] on: when the technology is not
    CDMA, each falls into the next, down to the change of the SIM's PIN. *)
Definition cdma_request (cdma : ril unit) (data : ril_request_data) : ril unit :=
  v ← get_vars;
  if TECH_BIT (sMdmInfo v) =? MDM_CDMA then cdma else requestChangeSimPin data.

Definition cdma_subscription : ril unit :=
  v ← get_vars;
  if TECH_BIT (sMdmInfo v) =? MDM_CDMA then requestCdmaSubscription else complete RIL_E_GENERIC_FAILURE DNone.

Definition baseband_version : ril unit :=
  v ← get_vars;
  if TECH_BIT (sMdmInfo v) =? MDM_CDMA then requestCdmaBaseBandVersion
  else if bool_decide (current_modem_type = HUAWEI_MODEM) then requestBasebandVersion
  else complete RIL_E_REQUEST_NOT_SUPPORTED DNone.

Definition device_identity : ril unit :=
  v ← get_vars;
  if TECH_BIT (sMdmInfo v) =? MDM_CDMA then requestCdmaDeviceIdentity else cdma_subscription.

(** What a request meets besides the modem: the conversion of a file's description
    starts in memory of any content, which may run out, and a data call depends on
    the system. *)
Record request_env := mk_request_env { fcp_scratch : ts_51011_921_resp; fcp_memory : bool; data_system : data_env }.

(** The switch. *)
Definition handle (env : request_env) (request : ril_request) (data : ril_request_data) : ril unit :=
  match request with
  | GET_SIM_STATUS => requestGetSimStatus
  | GET_CURRENT_CALLS => requestGetCurrentCalls
  | DIAL => requestDial data
  | HANGUP => requestHangup data
  | HANGUP_WAITING_OR_BACKGROUND => requestCallControl (s2b "AT+CHLD=0")
  | HANGUP_FOREGROUND_RESUME_BACKGROUND => requestCallControl (s2b "AT+CHLD=1")
  | SWITCH_WAITING_OR_HOLDING_AND_ACTIVE => requestCallControl (s2b "AT+CHLD=2")
  | ANSWER => requestCallControl (s2b "ATA")
  | CONFERENCE => requestCallControl (s2b "AT+CHLD=3")
  | UDUB => requestCallControl (s2b "ATH")
  | SEPARATE_CONNECTION => requestSeparateConnection data
  | SIGNAL_STRENGTH => requestSignalStrength runtime_3g_port_type
  | VOICE_REGISTRATION_STATE => requestRegistrationState runtime_3g_port_type true
  | DATA_REGISTRATION_STATE => requestRegistrationState runtime_3g_port_type false
  | OPERATOR => requestOperator
  | RADIO_POWER => requestRadioPower current_modem_type data
  | DTMF => requestDtmf data
  | SEND_SMS => requestSendSMS data
  | CDMA_SEND_SMS => requestCdmaSendSMS data
  | IMS_SEND_SMS => requestImsSendSMS data
  | SMS_ACKNOWLEDGE => requestSMSAcknowledge data
  | SETUP_DATA_CALL => requestSetupDataCall current_modem_type (data_system env) data
  | DEACTIVATE_DATA_CALL => requestDeactivateDataCall data
  | DATA_CALL_LIST => requestDataCallList (data_system env)
  | GET_IMSI => requestNumeric (s2b "AT+CIMI")
  | GET_IMEI => requestNumeric (s2b "AT+CGSN")
  | SIM_IO => requestSIM_IO (fcp_scratch env) (fcp_memory env) data
  | SEND_USSD => complete RIL_E_REQUEST_NOT_SUPPORTED DNone
  | CANCEL_USSD => requestNumeric (s2b "AT+CUSD=2")
  | QUERY_NETWORK_SELECTION_MODE => requestQueryNetworkSelectionMode
  | OEM_HOOK_RAW | OEM_HOOK_STRINGS => complete RIL_E_SUCCESS (DEcho data)
  | WRITE_SMS_TO_SIM => requestWriteSmsToSim data
  | DELETE_SMS_ON_SIM => requestDeleteSmsOnSim data
  | ENTER r => requestEnterSimPin runtime_3g_port_type current_modem_type r data
  | IMS_REGISTRATION_STATE => requestImsRegistrationState
  | VOICE_RADIO_TECH => requestVoiceRadioTech
  | SET_PREFERRED_NETWORK_TYPE => requestSetPreferredNetworkType runtime_3g_port_type data
  | GET_PREFERRED_NETWORK_TYPE => requestGetPreferredNetworkType runtime_3g_port_type
  | BASEBAND_VERSION => baseband_version
  | DEVICE_IDENTITY => device_identity
  | CDMA_SUBSCRIPTION => cdma_subscription
  | CDMA_SET_SUBSCRIPTION_SOURCE => cdma_request (requestCdmaSetSubscriptionSource data) data
  | CDMA_GET_SUBSCRIPTION_SOURCE => cdma_request requestCdmaGetSubscriptionSource data
  | CDMA_QUERY_ROAMING_PREFERENCE => cdma_request requestCdmaGetRoamingPreference data
  | CDMA_SET_ROAMING_PREFERENCE => cdma_request (requestCdmaSetRoamingPreference data) data
  | EXIT_EMERGENCY_CALLBACK_MODE => cdma_request requestExitEmergencyMode data
  | CHANGE_SIM_PIN => requestChangeSimPin data
  | CHANGE_SIM_PIN2 => requestChangeSimPin2 data
  | SET_FACILITY_LOCK => requestSetFacilityLock data
  | QUERY_FACILITY_LOCK => requestQueryFacilityLock data
  | GET_CELL_INFO_LIST => requestGetCellInfoList
  | SET_UNSOL_CELL_INFO_LIST_RATE => requestSetCellInfoListRate data
  | SET_NETWORK_SELECTION_MANUAL => requestSetNetworkSelectionManual data
  | SET_NETWORK_SELECTION_AUTOMATIC => requestSetNetworkSelectionAutomatic
  | QUERY_AVAILABLE_NETWORKS => requestQueryAvailableNetworks
  | OTHER_REQUEST => complete RIL_E_REQUEST_NOT_SUPPORTED DNone
  end.

Definition onRequest (env : request_env) (request : ril_request) (data : ril_request_data) : ril unit :=
  v ← get_vars;
  if bool_decide (sState v = RADIO_STATE_UNAVAILABLE) && negb (bool_decide (request = GET_SIM_STATUS)) then
    complete RIL_E_RADIO_NOT_AVAILABLE DNone
  else if bool_decide (sState v = RADIO_STATE_OFF) &&
          negb (bool_decide (request = RADIO_POWER) || bool_decide (request = GET_SIM_STATUS)) then
    complete RIL_E_RADIO_NOT_AVAILABLE DNone
  else handle env request data.

(** ** Unsolicited lines *)

(** [+CMTI] and [+CDSI]: a failed read of the index has stored it all the same. *)
Definition sms_announced (s : bytes) (cb : timed_callback) : ril unit :=
  let '(_, line) := at_tok_start (Some s) in
  match read_str line with
  | None => mret tt
  | Some (storage, line) =>
    v ← get_vars;
    let '(err, o, _) := at_tok_nextint line in
    _ ← match o with Some i => set_vars (set_storage i (smsReadStorage v)) | None => mret tt end;
    if err <? 0 then mret tt
    else
      storage ← lift (checked storage);
      v ← get_vars;
      _ ← set_vars (set_storage (smsStorageIndex v) (take 2 storage));
      emit (Timed cb 0)
  end.

(** [^MODE]: the mode is what follows the first field; there may be nothing. *)
Definition mode_changed (s : bytes) : ril unit :=
  let '(_, line) := at_tok_start (Some s) in
  match at_tok_nextstr line with
  | (0, Some response, line) =>
    _ ← lift (checked response);
    rest ← lift (checked line);
    v ← get_vars;
    let mode := u8 (atoi rest) in
    let t := convertRILRadioTechnology mode runtime_3g_port_type in
    if negb (sLastNetworkType v =? t) then
      _ ← set_vars (set_network t t);
      unsolicited RIL_UNSOL_RESPONSE_VOICE_NETWORK_STATE_CHANGED DNone
    else set_vars (set_network t (sLastNetworkType v))
  | _ => mret tt
  end.

Definition pdu_event (u : RIL_Unsol) (sms_pdu : option bytes) : ril unit :=
  pdu ← lift (checked sms_pdu);
  unsolicited u (DString pdu).

(** The line is freed before the time it holds is handed up. *)
Definition nitz_event (s : bytes) : ril unit :=
  let '(_, p) := at_tok_start (Some s) in
  match read_str p with
  | None => mret tt
  | Some _ => lift Ub
  end.

Definition onUnsolicited (s : bytes) (sms_pdu : option bytes) : ril unit :=
  v ← get_vars;
  let begins p := strStartsWith s (s2b p) in
  if bool_decide (sState v = RADIO_STATE_UNAVAILABLE) then mret tt
  else if begins "%CTZV:" then nitz_event s
  else if begins "+CRING:" || begins "RING" || begins "NO CARRIER" || begins "+CCWA" then
    unsolicited RIL_UNSOL_RESPONSE_CALL_STATE_CHANGED DNone
  else if begins "+CREG:" || begins "+CGREG:" then unsolicited RIL_UNSOL_RESPONSE_VOICE_NETWORK_STATE_CHANGED DNone
  else if begins "+CMT:" then pdu_event RIL_UNSOL_RESPONSE_NEW_SMS sms_pdu
  else if begins "+CMTI:" then sms_announced s onNewSmsArrived_cb
  else if begins "+CDS:" then pdu_event RIL_UNSOL_RESPONSE_NEW_SMS_STATUS_REPORT sms_pdu
  else if begins "+CDSI:" then sms_announced s onNewSmsReportArrived_cb
  else if begins "+CGEV:" then emit (Timed onDataCallListChanged_cb 0)
  else if begins "+CTEC: " then
    match parse_technology_response s with
    | (_, Some tech, _) =>
      let mask := shl1 tech in
      if bool_decide (mask ∈ [MDM_GSM; MDM_CDMA; MDM_WCDMA; MDM_LTE]) then setRadioTechnology tech else mret tt
    | _ => mret tt
    end
  else if begins "+CCSS: " then
    match (p ← read_start (Some s); read_int p) with
    | None => mret tt
    | Some (source, _) =>
      let m := sMdmInfo v in
      _ ← set_vars (set_mdm (mk_mdm (supportedTechs m) (currentTech m) (isMultimode m) (preferredNetworkMode m) source));
      unsolicited RIL_UNSOL_CDMA_SUBSCRIPTION_SOURCE_CHANGED (DInts [source])
    end
  else if begins "+WSOS: " then
    match (p ← read_start (Some s); read_bool p) with
    | None => mret tt
    | Some (state, _) =>
      unsolicited (if ctrue state then RIL_UNSOL_ENTER_EMERGENCY_CALLBACK_MODE else RIL_UNSOL_EXIT_EMERGENCY_CALLBACK_MODE) DNone
    end
  else if begins "+WPRL: " then
    match (p ← read_start (Some s); read_int p) with
    | None => mret tt
    | Some (version, _) => unsolicited RIL_UNSOL_CDMA_PRL_CHANGED (DInts [version])
    end
  else if begins "+CFUN: 0" then setRadioState current_modem_type RADIO_STATE_OFF
  else if begins "^MODE" then mode_changed s
  else mret tt.

(** ** Completions *)

(** The requests that are completed once on every answer of the modem, with the
    data [libril] passes for them. *)
Definition answered_once (env : request_env) (request : ril_request) (data : ril_request_data) : Prop :=
  match request with
  | DIAL => exists d, data = RDial d
  | HANGUP | SEPARATE_CONNECTION | DELETE_SMS_ON_SIM | RADIO_POWER => exists v l, data = RInts (v :: l)
  | DTMF => exists s, data = RString s
  | SEND_SMS => exists smsc pdu l, data = RStrings (smsc :: Some pdu :: l)
  | CDMA_SEND_SMS => data = RCdmaSms
  | IMS_SEND_SMS => ims_data_ok data
  | SETUP_DATA_CALL => exists a b apn l, data = RStrings (a :: b :: apn :: l) /\ qmi_answers (data_system env)
  | DEACTIVATE_DATA_CALL => exists cid l, data = RStrings (cid :: l)
  | SIM_IO => exists a, data = RSimIo a /\ sim_command a <> GET_RESPONSE
  | WRITE_SMS_TO_SIM => exists st pdu, data = RSmsWrite st pdu
  | ENTER _ => exists l, data = RStrings l /\ (length (drop_null 3 (drop_null 2 l)) = 1 \/ length (drop_null 3 (drop_null 2 l)) = 2)%nat
  | SET_PREFERRED_NETWORK_TYPE => exists v l, data = RInts (v :: l) /\ network_mode_ok v
  | CDMA_SET_SUBSCRIPTION_SOURCE | CDMA_SET_ROAMING_PREFERENCE => exists v, data = RInts [v]
  | CDMA_GET_SUBSCRIPTION_SOURCE | CDMA_QUERY_ROAMING_PREFERENCE | EXIT_EMERGENCY_CALLBACK_MODE => data = RNone
  | CHANGE_SIM_PIN | CHANGE_SIM_PIN2 => exists l, data = RStrings l
  | SET_FACILITY_LOCK => exists f m p c l r, data = RStrings (Some f :: Some m :: p :: Some c :: l) /\ (m = 48 :: r \/ m = 49 :: r)
  | QUERY_FACILITY_LOCK => exists f x c l, data = RStrings (Some f :: x :: Some c :: l)
  | SET_UNSOL_CELL_INFO_LIST_RATE => exists r, data = RInts [r] /\ int_ok r
  | SET_NETWORK_SELECTION_MANUAL => data = RNone \/ exists m, data = RString m
  | SIGNAL_STRENGTH | OPERATOR | QUERY_AVAILABLE_NETWORKS | SMS_ACKNOWLEDGE => False
  | _ => True
  end.

Create HintDb ril.

Section laws.
Context (t : mode) `{AL : !at_port_laws t} `{CP : !cpin_laws t}.

Lemma passwords_of_strings l : exists pw, passwords (RStrings l) = Ret pw.
Proof. unfold passwords. repeat case_match; by eexists. Qed.

Lemma cdma_request_once n s cdma data pw :
  good n s -> passwords data = Ret pw -> (forall s, good n s -> wp t cdma (fun _ => good (S n)) s) ->
  wp t (cdma_request cdma data) (fun _ => good (S n)) s.
Proof.
  intros H Hp Hc. unfold cdma_request. do 2 ril_step. case_match; [by apply Hc|]. by eapply requestChangePassword_once.
Qed.

Lemma requestNumeric_once n s cmd : good n s -> wp t (requestNumeric cmd) (fun _ => good (S n)) s.
Proof. intros H. unfold requestNumeric. ril_auto. Qed.

Lemma device_identity_once n s : good n s -> wp t device_identity (fun _ => good (S n)) s.
Proof.
  intros H. unfold device_identity. do 2 ril_step. case_match; [by apply requestCdmaDeviceIdentity_once|].
  unfold cdma_subscription, requestCdmaSubscription. ril_auto.
Qed.

Lemma baseband_version_once n s : good n s -> wp t baseband_version (fun _ => good (S n)) s.
Proof.
  intros H. unfold baseband_version, requestCdmaBaseBandVersion. do 2 ril_step. case_match; [by ril_auto|].
  case_match; [by apply requestBasebandVersion_once|by ril_auto].
Qed.

Hint Resolve requestGetSimStatus_once requestGetCurrentCalls_once requestDial_once requestHangup_once
  requestCallControl_once requestSeparateConnection_once requestDtmf_once requestRegistrationState_once
  requestRadioPower_once requestSendSMS_once requestImsSendSMS_once requestNumeric_once requestSIM_IO_once
  requestQueryNetworkSelectionMode_once requestWriteSmsToSim_once requestDeleteSmsOnSim_once requestEnterSimPin_once
  requestVoiceRadioTech_once requestSetPreferredNetworkType_once requestGetPreferredNetworkType_once
  baseband_version_once device_identity_once requestSetFacilityLock_once requestQueryFacilityLock_once
  requestGetCellInfoList_once requestSetCellInfoListRate_once requestSetNetworkSelectionManual_once
  requestSetNetworkSelectionAutomatic_once requestCdmaSetSubscriptionSource_once requestCdmaGetSubscriptionSource_once
  requestCdmaGetRoamingPreference_once requestCdmaSetRoamingPreference_once requestExitEmergencyMode_once
  requestSetupDataCall_once requestDeactivateDataCall_once : ril.

Lemma handle_once n s env request data :
  good n s -> answered_once env request data -> wp t (handle env request data) (fun _ => good (S n)) s.
Proof.
  intros H Hd. destruct request; cbn [handle answered_once] in *;
    repeat match goal with D : exists _, _ |- _ => destruct D | D : _ /\ _ |- _ => destruct D end; subst;
    unfold cdma_subscription, requestCdmaSubscription, requestImsRegistrationState, requestCdmaSendSMS;
    try (by ril_auto); try (by eauto 3 with ril);
    try (eapply cdma_request_once; [exact H|reflexivity|intros; by eauto 6 with ril]).
  - exact (requestOrSendDataCallList_keeps t n s (data_system env) true H).
  - destruct (passwords_of_strings x) as [pw Hp]. by eapply requestChangePassword_once.
  - destruct (passwords_of_strings x) as [pw Hp]. by eapply requestChangePassword_once.
Qed.

Lemma onRequest_once n s env request data :
  good n s -> answered_once env request data -> wp t (onRequest env request data) (fun _ => good (S n)) s.
Proof.
  intros H Hd. unfold onRequest. do 2 ril_step. case_match; [by ril_auto|]. case_match; [by ril_auto|]. by apply handle_once.
Qed.
End laws.

(** ** Steps of the RIL *)

(** The data [libril] passes, whatever the request. *)
Definition request_ok (env : request_env) (request : ril_request) (data : ril_request_data) : Prop :=
  match request with
  | SIGNAL_STRENGTH | OPERATOR | QUERY_AVAILABLE_NETWORKS => True
  | SMS_ACKNOWLEDGE => exists v l, data = RInts (v :: l)
  | SIM_IO => True
  | _ => answered_once env request data
  end.

(** One step: a request, a line nobody asked for, a callback, the channel opened
    again, or the reader's own work on the channel. *)
Inductive ril_trans : rild -> rild -> Prop :=
| trans_request env request data s s' :
    request_ok env request data -> onRequest env request data s = Ret (tt, s') -> ril_trans s s'
| trans_unsolicited line sms_pdu s s' : onUnsolicited line sms_pdu s = Ret (tt, s') -> ril_trans s s'
| trans_initialize s s' : initializeCallback runtime_3g_port_type current_modem_type s = Ret (tt, s') -> ril_trans s s'
| trans_data_calls env s s' : onDataCallListChanged env s = Ret (tt, s') -> ril_trans s s'
| trans_poll s s' : pollSIMState current_modem_type s = Ret (tt, s') -> ril_trans s s'
| trans_calls s s' : sendCallStateChanged s = Ret (tt, s') -> ril_trans s s'
| trans_sms s s' : onNewSmsArrived s = Ret (tt, s') -> ril_trans s s'
| trans_report s s' : onNewSmsReportArrived s = Ret (tt, s') -> ril_trans s s'
| trans_closed s s' : onATReaderClosed current_modem_type s = Ret (tt, s') -> ril_trans s s'
| trans_timeout s s' : onATTimeout current_modem_type s = Ret (tt, s') -> ril_trans s s'
| trans_ppp_down s s' : onDeactiveDataCallList s = Ret (tt, s') -> ril_trans s s'
| trans_reopen s s' : reopen s = Ret (tt, s') -> ril_trans s s'
| trans_channel p s : port_ok p -> ril_trans s (mk_rild p (vars s) (events s)).

Section steps.
Context `{AL : !at_port_laws Partial}.

Definition sound (s : rild) : Prop := port_ok (chan s) /\ vars_ok (vars s).

Lemma sound_good s : sound s -> good (completions s) s.
Proof. by intros [H1 H2]. Qed.

Lemma good_sound n s : good n s -> sound s.
Proof. by intros (H1 & H2 & _). Qed.

Lemma wp_sound {A} (m : ril A) (P : A -> rild -> Prop) s a s' :
  wp Partial m P s -> m s = Ret (a, s') -> P a s'.
Proof. intros H E. unfold wp in H. by rewrite E in H. Qed.

Lemma handle_keeps n s env request data :
  good n s -> request_ok env request data -> wp Partial (handle env request data) (fun _ => sound) s.
Proof.
  intros H Hd.
  assert (answered_once env request data -> wp Partial (handle env request data) (fun _ => sound) s) as Honce.
  { intros Ho. eapply wp_keep; [by apply (handle_once Partial)|]. intros; by eapply good_sound. }
  destruct request; try by apply Honce.
  - eapply wp_mono; [by apply requestSignalStrength_ok|]. cbn beta. intros ? ? [?|?]; by eapply good_sound.
  - eapply wp_keep; [by apply requestOperator_keeps|]. intros; by eapply good_sound.
  - destruct Hd as (v & l & ->). eapply wp_keep; [by apply requestSMSAcknowledge_twice|]. intros; by eapply good_sound.
  - eapply wp_keep; [by apply requestSIM_IO_keeps|]. intros; by eapply good_sound.
  - eapply wp_keep; [by apply requestQueryAvailableNetworks_keeps|]. intros; by eapply good_sound.
Qed.

Lemma onRequest_keeps s env request data :
  sound s -> request_ok env request data -> wp Partial (onRequest env request data) (fun _ => sound) s.
Proof.
  intros H Hd. apply sound_good in H. unfold onRequest. do 2 ril_step.
  case_match; [ril_step; by eapply good_sound|]. case_match; [ril_step; by eapply good_sound|]. by eapply handle_keeps.
Qed.

Lemma take_length_2 (s : bytes) : (length (take 2 s) <= 2)%nat.
Proof. rewrite length_take. lia. Qed.

Lemma sms_announced_keeps n s line cb : good n s -> wp Partial (sms_announced line cb) (fun _ => good n) s.
Proof.
  intros H. unfold sms_announced. destruct (at_tok_start (Some line)) as [e cur].
  destruct (read_str cur) as [[storage cur']|]; [|by ril_auto]. do 2 ril_step.
  destruct (at_tok_nextint cur') as [[err o] k] eqn:E. ril_step.
  eapply (wp_keep Partial _ _ n).
  { destruct o as [i|]; [|by ril_auto]. eapply wp_set; [exact H| |by intros].
    apply nextint_base_int in E. destruct (good_vars _ _ H) as [? ? ? ? ? ? [_ Hl] ?]. by split. }
  intros ? s1 G1. case_match; [by ril_auto|]. ril_step. apply wp_partial. intros st _. do 3 ril_step.
  eapply wp_set; [exact G1| |intros; ril_auto].
  destruct (good_vars _ _ G1) as [? ? ? ? ? ? [Hi _] ?]. split; try done. split; [done|]. apply take_length_2.
Qed.

Lemma convert_int z m : 0 <= z < 256 -> int_ok (convertRILRadioTechnology z m).
Proof. intros Hz. unfold convertRILRadioTechnology, int_ok, INT_MIN, INT_MAX. destruct m; repeat case_match; cbv -[Z.le]; lia. Qed.

Lemma mode_changed_keeps n s line : good n s -> wp Partial (mode_changed line) (fun _ => good n) s.
Proof.
  intros H. unfold mode_changed. destruct (at_tok_start (Some line)) as [e cur].
  destruct (at_tok_nextstr cur) as [[[| |] [r|]] k]; try by ril_auto. do 2 (ril_step; apply wp_partial; intros ? _).
  do 2 ril_step. cbn zeta.
  pose proof (convert_int (u8 (atoi a0)) runtime_3g_port_type (u8_range _)) as Hc.
  case_match.
  - ril_step. eapply wp_set; [exact H| |intros; ril_auto]. by destruct (good_vars _ _ H).
  - eapply wp_set; [exact H| |by intros]. destruct (good_vars _ _ H) as [? ? ? ? [_ Hl] ? ? ?]. by split.
Qed.

Lemma onUnsolicited_keeps n s line pdu : good n s -> wp Partial (onUnsolicited line pdu) (fun _ => good n) s.
Proof.
  intros H. unfold onUnsolicited. do 2 ril_step. cbn zeta.
  repeat (case_match; [first [by ril_auto | idtac]|]); try by ril_auto.
  - unfold nitz_event. destruct (at_tok_start (Some line)). destruct (read_str _); [done|by ril_auto].
  - unfold pdu_event. ril_step. apply wp_partial. intros ? _. ril_auto.
  - by apply sms_announced_keeps.
  - unfold pdu_event. ril_step. apply wp_partial. intros ? _. ril_auto.
  - by apply sms_announced_keeps.
  - destruct (parse_technology_response line) as [[res [tech|]] pt] eqn:E; [|by ril_auto].
    apply parse_technology_ok in E as (Ht & _). case_match; [|by ril_auto]. apply setRadioTechnology_ok; [done|by apply Ht].
  - match goal with E : _ = Some ?q |- _ => destruct q as [source k]; apply bind_Some in E as (cur & _ & E) end.
    match goal with E : read_int _ = Some _ |- _ => apply read_int_ok in E end.
    ril_mdm. ril_step. eapply mdm_step; [exact H|by split_and!|]. intros. ril_auto.
  - apply setRadioState_ok; [exact _|exact _|exact H].
  - by apply mode_changed_keeps.
Qed.

(** Both callbacks of a closed channel: whatever the state was, no radio is left. *)
Lemma closed_keeps n s :
  good n s -> wp Partial (onATReaderClosed current_modem_type) (fun _ => good n) s.
Proof.
  intros (Hp & Hv & Hn). unfold onATReaderClosed. ril_step. apply at_shut_promise in Hp.
  set (s1 := mk_rild (at_shut (chan s)) (set_state RADIO_STATE_UNAVAILABLE (set_closed 1 (vars s))) (events s)).
  assert (good n s1) as H1 by (split_and!; [done| |done]; destruct Hv; split; try done; by right).
  assert (wp Partial (setRadioState current_modem_type RADIO_STATE_UNAVAILABLE) (fun _ => good n)
    (mk_rild (at_shut (chan s)) (set_closed 1 (vars s)) (events s))) as Hs; [|exact Hs].
  unfold setRadioState. do 2 ril_step. cbn [vars set_closed s_closed sState]. change (0 <? 1) with true. rewrite orb_true_r.
  cbn match. ril_step.
  assert (forall Q : unit -> rild -> Prop, Q tt s1 ->
    wp Partial (set_vars (set_state RADIO_STATE_UNAVAILABLE)) Q (mk_rild (at_shut (chan s)) (set_closed 1 (vars s)) (events s))) as Hset by done.
  apply Hset. do 2 ril_step. cbn [s1 vars set_state set_closed sState]. case_match; [by ril_auto|].
  do 2 ril_step. change (bool_decide (RADIO_STATE_UNAVAILABLE = RADIO_STATE_ON)) with false. cbn match. ril_auto.
Qed.

Lemma reopen_keeps n s : good n s -> wp Partial reopen (fun _ => good n) s.
Proof.
  intros H. eapply wp_set; [exact H| |by intros]. destruct (good_vars _ _ H). split; cbn; try done; by left.
Qed.

(** Every step keeps the variables well typed and the channel usable. *)
Lemma trans_keeps s s' : ril_trans s s' -> sound s -> sound s'.
Proof.
  intros Ht Hs. pose proof (sound_good _ Hs) as Hg. set (n := completions s) in *. clearbody n.
  destruct Ht as [env request data s s' Hd E|line pdu s s' E|s s' E|env s s' E|s s' E|s s' E|s s' E|s s' E|s s' E|s s' E|s s' E|s s' E|p s Hp].
  - exact (wp_sound _ _ _ _ _ (onRequest_keeps _ _ _ _ Hs Hd) E).
  - eapply good_sound. exact (wp_sound _ _ _ _ _ (onUnsolicited_keeps _ _ _ _ Hg) E).
  - eapply good_sound. exact (wp_sound _ _ _ _ _ (initializeCallback_ok _ _ Partial _ _ Hg) E).
  - eapply good_sound. exact (wp_sound _ _ _ _ _ (requestOrSendDataCallList_keeps Partial _ _ _ false Hg) E).
  - eapply good_sound. exact (wp_sound _ _ _ _ _ (pollSIMState_ok _ Partial _ _ Hg) E).
  - eapply (good_sound n). eapply (wp_sound sendCallStateChanged (fun _ => good n)); [|exact E]. unfold sendCallStateChanged. ril_auto.
  - eapply good_sound. exact (wp_sound _ _ _ _ _ (readNewSms_ok_partial Partial _ _ _ eq_refl Hg) E).
  - eapply good_sound. exact (wp_sound _ _ _ _ _ (readNewSms_ok_partial Partial _ _ _ eq_refl Hg) E).
  - eapply good_sound. exact (wp_sound _ _ _ _ _ (closed_keeps _ _ Hg) E).
  - eapply good_sound. exact (wp_sound _ _ _ _ _ (closed_keeps _ _ Hg) E).
  - eapply (good_sound n). eapply (wp_sound onDeactiveDataCallList (fun _ => good n)); [|exact E]. unfold onDeactiveDataCallList. ril_auto.
  - eapply good_sound. exact (wp_sound _ _ _ _ _ (reopen_keeps _ _ Hg) E).
  - by destruct Hs.
Qed.

Lemma reachable_sound s s' : rtc ril_trans s s' -> sound s -> sound s'.
Proof. induction 1; eauto using trans_keeps. Qed.
End steps.
End ril.

(** ** Properties *)


(** A modem whose every answer has a line answers as the handlers expect. *)
Lemma scripted_laws script :
  Forall (fun a => match a with Some [] => False | _ => True end) script ->
  @at_port_laws (modem_port (scripted script)) Total /\ @cpin_laws (modem_port (scripted script)) Total.
Proof.
  intros Hf. split.
  - apply modem_port_laws. intros n q. split; [done|]. intros _ _. eexists. split; [done|].
    destruct (nth_in_or_default n script None) as [Hin|E]; [|rewrite E; by split].
    rewrite Forall_forall in Hf. specialize (Hf _ (proj2 (list_elem_of_In _ _) Hin)).
    destruct (nth n script None) as [[|l ls]|]; cbn; split; try done; lia.
  - intros p err r p' _ E Hr. right. cbn in E. injection E as <- <- <-. by destruct (nth (length p) script None).
Qed.

Lemma vars_init_ok : vars_ok vars_init.
Proof. split; cbn; unfold mdm_ok, int_ok, INT_MIN, INT_MAX; cbn; lia. Qed.

Lemma vars_on_ok : vars_ok vars_on.
Proof. split; cbn; unfold mdm_ok, int_ok, INT_MIN, INT_MAX; cbn; lia. Qed.

(** Memory that is cleared and does not run out, and a device without pppd. *)
Definition quiet_env : request_env := mk_request_env resp_zero true device.


(** C21: from the initial values of the variables, every sequence of requests, lines
    nobody asked for, callbacks, closings and re-openings of the channel keeps them
    well typed: every number is an [int], the name of a message storage fits its
    array of three, the channel is marked open or closed, and a closed channel
    leaves the radio unavailable. *)
Theorem variables_well_typed `{AP : at_port} `{AL : !at_port_laws Partial} (port_type modem : modem_type) (p : port) (s : rild) :
  port_ok p -> rtc (ril_trans port_type modem) (mk_rild p vars_init []) s -> vars_ok (vars s).
Proof. intros Hp Hr. eapply reachable_sound; [exact _|exact Hr|]. split; [done|exact vars_init_ok]. Qed.

(** The channel of a dead modem: a port from which nothing comes back. *)
Definition dead_modem : at_port := modem_port (scripted []).

Lemma dead_modem_laws : @at_port_laws dead_modem Partial.
Proof. eapply port_laws_partial, (scripted_laws []). by constructor. Qed.

Lemma variables_well_typed_witness :
  exists s, rtc (@ril_trans dead_modem UNKNOWN_MODEM UNKNOWN_MODEM) (@mk_rild dead_modem [] vars_init []) s /\
    s_closed (@vars dead_modem s) = 1 /\ vars_ok (@vars dead_modem s).
Proof.
  exists (@mk_rild dead_modem [] (set_closed 1 vars_init) []).
  assert (rtc (@ril_trans dead_modem UNKNOWN_MODEM UNKNOWN_MODEM) (@mk_rild dead_modem [] vars_init [])
    (@mk_rild dead_modem [] (set_closed 1 vars_init) [])) as Hr.
  { apply rtc_once, trans_closed. reflexivity. }
  split; [exact Hr|]. split; [done|].
  exact (@variables_well_typed dead_modem dead_modem_laws UNKNOWN_MODEM UNKNOWN_MODEM [] _ I Hr).
Defined.

(** C20: once the channel is closed there is no radio: in every state that can be
    reached with a closed channel, each request is refused as not available and
    sends no command - that for the card's status is answered, without a command
    too, with a card that is not ready - and lines from the modem do nothing. *)
Theorem closed_channel_no_radio `{AP : at_port} `{AL : !at_port_laws Partial} (port_type modem : modem_type) (p : port) (s : rild)
  (env : request_env) (request : ril_request) (data : ril_request_data) (line : bytes) (pdu : option bytes) :
  port_ok p -> rtc (ril_trans port_type modem) (mk_rild p vars_init []) s -> s_closed (vars s) = 1 ->
  (request <> GET_SIM_STATUS ->
   onRequest port_type modem env request data s =
     Ret (tt, mk_rild (chan s) (vars s) (events s ++ [Complete RIL_E_RADIO_NOT_AVAILABLE DNone]))) /\
  (exists card, card_of SIM_NOT_READY = Ret card /\
   onRequest port_type modem env GET_SIM_STATUS data s =
     Ret (tt, mk_rild (chan s) (vars s) (events s ++ [Complete RIL_E_SUCCESS (DCard card)]))) /\
  onUnsolicited port_type modem line pdu s = Ret (tt, s).
Proof.
  intros Hp Hr Hc. assert (sState (vars s) = RADIO_STATE_UNAVAILABLE) as Hst.
  { eapply ok_unavailable; [|exact Hc]. eapply reachable_sound; [exact _|exact Hr|]. split; [done|exact vars_init_ok]. }
  assert (forall k : ril_vars -> ril unit, (v ← get_vars; k v) s = k (vars s) s) as Hget by done.
  split; [|split].
  - intros Hne. unfold onRequest. rewrite Hget, Hst. by rewrite (bool_decide_false (request = GET_SIM_STATUS)).
  - destruct (card_of SIM_NOT_READY) as [card| | |] eqn:E; [|done..]. exists card. split; [done|].
    unfold onRequest. rewrite Hget, Hst. change (bool_decide (RADIO_STATE_UNAVAILABLE = RADIO_STATE_UNAVAILABLE)) with true.
    change (bool_decide (RADIO_STATE_UNAVAILABLE = RADIO_STATE_OFF)) with false.
    change (negb (bool_decide (GET_SIM_STATUS = GET_SIM_STATUS))) with false. cbn [andb handle].
    assert (getSIMStatus s = Ret (SIM_NOT_READY, s)) as Es.
    { unfold getSIMStatus. rewrite run_get, Hst. reflexivity. }
    assert (getCardStatus s = Ret (card, s)) as Ec.
    { unfold getCardStatus. rewrite (run_bind _ _ _ _ _ Es). unfold lift. by rewrite E. }
    unfold requestGetSimStatus. by rewrite (run_bind _ _ _ _ _ Ec).
  - unfold onUnsolicited. by rewrite Hget, Hst.
Qed.

Lemma closed_channel_no_radio_witness :
  @onRequest dead_modem UNKNOWN_MODEM UNKNOWN_MODEM quiet_env DIAL (RDial (mk_dial (s2b "112") 0))
    (@mk_rild dead_modem [] (set_closed 1 vars_init) []) =
  Ret (tt, @mk_rild dead_modem [] (set_closed 1 vars_init) [Complete RIL_E_RADIO_NOT_AVAILABLE DNone]).
Proof.
  destruct (@closed_channel_no_radio dead_modem dead_modem_laws UNKNOWN_MODEM UNKNOWN_MODEM []
    (@mk_rild dead_modem [] (set_closed 1 vars_init) []) quiet_env DIAL (RDial (mk_dial (s2b "112") 0)) [] None) as [H _];
    [done|apply rtc_once, trans_closed; reflexivity|done|]. by apply H.
Defined.

Definition wnam : at_request := AT_singleline (s2b "AT+WNAM") (s2b "+WNAM:").
Definition ctec : at_request := AT_singleline (s2b "AT+CTEC?") (s2b "+CTEC:").

(** A handler run with the radio on is the one of its request. *)
Lemma onRequest_on `{AP : at_port} port_type modem env request data s :
  sState (vars s) = RADIO_STATE_ON -> onRequest port_type modem env request data s = handle port_type modem env request data s.
Proof. intros Hs. unfold onRequest. rewrite run_get, Hs. reflexivity. Qed.

Definition not_multimode (v : ril_vars) : ril_vars :=
  set_mdm (mk_mdm (supportedTechs (sMdmInfo v)) (currentTech (sMdmInfo v)) 0 (preferredNetworkMode (sMdmInfo v))
    (subscription_source (sMdmInfo v))) v.

(** The probe when the modem does not know [+CTEC]. *)
Lemma probe_single `{AP : at_port} s p1 :
  refused (at_send ctec true (chan s)) p1 ->
  probeForModemMode UNKNOWN_MODEM s =
    (r ← ask_ne wnam;
     match r with
     | Some _ =>
       v ← get_vars;
       let m := sMdmInfo v in
       set_vars (set_mdm (mk_mdm (MDM_CDMA .| MDM_EVDO) MDM_CDMA (isMultimode m) (preferredNetworkMode m) (subscription_source m)))
     | None => gsm_modem
     end)
    (mk_rild p1 (not_multimode (vars s)) (events s)).
Proof.
  intros Hr. destruct (run_ask_line_refused _ _ _ Hr) as [_ E]. unfold probeForModemMode.
  change (known_modem UNKNOWN_MODEM) with false. cbn match.
  assert (query_ctec UNKNOWN_MODEM s = Ret ((-1, None, None), mk_rild p1 (vars s) (events s))) as Eq.
  { unfold query_ctec. change (known_modem UNKNOWN_MODEM) with false. cbn match. by rewrite (run_bind _ _ _ _ _ E). }
  assert (is_multimode_modem UNKNOWN_MODEM s = Ret (false, mk_rild p1 (vars s) (events s))) as Em.
  { unfold is_multimode_modem. by rewrite (run_bind _ _ _ _ _ Eq). }
  by rewrite (run_bind _ _ _ _ _ Em).
Qed.

(** a modem of one technology is remembered by its mask where the index of its bit
    is meant: after the probe a CDMA modem passes for LTE, its CDMA subscription
    is refused, and the way back from emergency mode ends in a refused change of
    PIN; a GSM modem passes for HSPA. *)
Theorem one_technology_misread `{AP : at_port} (s : rild) (p1 p2 : port) (env : request_env) :
  sState (vars s) = RADIO_STATE_ON -> refused (at_send ctec true (chan s)) p1 ->
  let run request s := onRequest UNKNOWN_MODEM UNKNOWN_MODEM env request RNone s in
  let completed s e d := Ret (tt, mk_rild (chan s) (vars s) (events s ++ [Complete e d])) in
  ((exists resp, at_send wnam true p1 = Ret (0, Some resp, p2) /\ success resp <> 0) ->
   exists s', probeForModemMode UNKNOWN_MODEM s = Ret (tt, s') /\
     run VOICE_RADIO_TECH s' = completed s' RIL_E_SUCCESS (DInts [RADIO_TECH_LTE]) /\
     run CDMA_SUBSCRIPTION s' = completed s' RIL_E_GENERIC_FAILURE DNone /\
     run EXIT_EMERGENCY_CALLBACK_MODE s' = completed s' RIL_E_GENERIC_FAILURE (DInts [-1])) /\
  (refused (at_send wnam true p1) p2 ->
   exists s', probeForModemMode UNKNOWN_MODEM s = Ret (tt, s') /\
     run VOICE_RADIO_TECH s' = completed s' RIL_E_SUCCESS (DInts [RADIO_TECH_HSPA])).
Proof.
  intros Hs Hr run completed. rewrite (probe_single s p1 Hr). split.
  - intros (resp & Hw & Hok). destruct (run_ask wnam (mk_rild p1 (not_multimode (vars s)) (events s)) resp p2 Hw Hok) as [_ E].
    rewrite (run_bind _ _ _ _ _ E). cbn match. rewrite run_get. eexists. split; [reflexivity|]. subst run. cbn beta.
    rewrite !onRequest_on by exact Hs. by split_and!.
  - intros Hw. destruct (run_ask_refused wnam (mk_rild p1 (not_multimode (vars s)) (events s)) p2 Hw) as [_ E].
    rewrite (run_bind _ _ _ _ _ E). unfold gsm_modem. rewrite run_get. eexists. split; [reflexivity|]. subst run. cbn beta.
    by rewrite onRequest_on by exact Hs.
Qed.

Lemma one_technology_misread_witness :
  let AP := modem_port (scripted [None; Some [s2b "+WNAM: 1"]]) in
  exists s', probeForModemMode UNKNOWN_MODEM (@mk_rild AP [] vars_on []) = Ret (tt, s') /\
    onRequest UNKNOWN_MODEM UNKNOWN_MODEM quiet_env VOICE_RADIO_TECH RNone s' =
      Ret (tt, @mk_rild AP (chan s') (vars s') (events s' ++ [Complete RIL_E_SUCCESS (DInts [RADIO_TECH_LTE])])).
Proof.
  intros AP.
  destruct (@one_technology_misread AP (@mk_rild AP [] vars_on []) [ctec] [ctec; wnam] quiet_env eq_refl) as [H _].
  { eexists _, _. split; [reflexivity|]. right. split; [done|]. eexists. split; [reflexivity|done]. }
  destruct H as (s' & E & Hv & _). { eexists. split; [reflexivity|done]. }
  exists s'. by split.
Defined.

(** The acknowledgement of a received message is sent to the modem and then
    completed twice, as a success and as a failure. *)
Theorem acknowledgement_completed_twice `{AP : at_port} (port_type modem : modem_type) (s : rild) (env : request_env)
  (ok : bool) (err : Z) (r : option ATResponse) (p : port) :
  sState (vars s) = RADIO_STATE_ON ->
  at_send (AT (if ok then s2b "AT+CNMA=1" else s2b "AT+CNMA=2")) false (chan s) = Ret (err, r, p) ->
  onRequest port_type modem env SMS_ACKNOWLEDGE (RInts [b2z ok]) s =
    Ret (tt, mk_rild p (vars s) (events s ++ [Complete RIL_E_SUCCESS DNone; Complete RIL_E_GENERIC_FAILURE DNone])).
Proof.
  intros Hs Hc. assert (forall k : ril_vars -> ril unit, (v ← get_vars; k v) s = k (vars s) s) as Hget by done.
  unfold onRequest. rewrite Hget, Hs.
  change (bool_decide (RADIO_STATE_ON = RADIO_STATE_UNAVAILABLE)) with false.
  change (bool_decide (RADIO_STATE_ON = RADIO_STATE_OFF)) with false. cbn [andb handle].
  assert (send (AT (if ok then s2b "AT+CNMA=1" else s2b "AT+CNMA=2")) s = Ret (tt, mk_rild p (vars s) (events s))) as E.
  { unfold send, command_null. cbn [mbind ril_bind outcome_bind]. unfold mbind, ril_bind. by rewrite Hc. }
  unfold requestSMSAcknowledge. destruct ok; cbn [b2z] in *;
    rewrite (run_bind _ _ _ _ s eq_refl); cbn [Z.eqb Pos.eqb]; rewrite (run_bind _ _ _ _ _ E), run_complete;
    unfold complete, emit; cbn; by rewrite <- app_assoc.
Qed.

Lemma acknowledgement_completed_twice_witness :
  let AP := modem_port (scripted [Some []]) in
  onRequest UNKNOWN_MODEM UNKNOWN_MODEM quiet_env SMS_ACKNOWLEDGE (RInts [1]) (@mk_rild AP [] vars_on []) =
    Ret (tt, @mk_rild AP [AT (s2b "AT+CNMA=1")] vars_on [Complete RIL_E_SUCCESS DNone; Complete RIL_E_GENERIC_FAILURE DNone]).
Proof.
  intros AP. exact (@acknowledgement_completed_twice AP UNKNOWN_MODEM UNKNOWN_MODEM (@mk_rild AP [] vars_on []) quiet_env true 0 None
    [AT (s2b "AT+CNMA=1")] eq_refl eq_refl).
Defined.

(** [+CME ERROR: 0], a phone failure, is taken for the absence of an error: asking
    for the card's status when the modem answers so reads a line that is not
    there. *)
Theorem phone_failure_crashes `{AP : at_port} (port_type modem : modem_type) (s : rild) (env : request_env)
  (data : ril_request_data) (p : port) :
  sState (vars s) = RADIO_STATE_ON ->
  at_send cpin true (chan s) = Ret (0, Some (mk_at_response 0 (Some (s2b "+CME ERROR: 0")) []), p) ->
  onRequest port_type modem env GET_SIM_STATUS data s = Ub.
Proof.
  intros Hs Hc. assert (forall k : ril_vars -> ril unit, (v ← get_vars; k v) s = k (vars s) s) as Hget by done.
  unfold onRequest. rewrite Hget, Hs.
  change (bool_decide (RADIO_STATE_ON = RADIO_STATE_UNAVAILABLE)) with false.
  change (bool_decide (RADIO_STATE_ON = RADIO_STATE_OFF)) with false. cbn [andb handle].
  assert (getSIMStatus s = Ub) as E.
  { unfold getSIMStatus. rewrite run_get, Hs.
    assert (command cpin s = Ret (0, Some (mk_at_response 0 (Some (s2b "+CME ERROR: 0")) []), mk_rild p (vars s) (events s))) as Ec
      by (unfold command; by rewrite Hc).
    change (bool_decide (RADIO_STATE_ON = RADIO_STATE_OFF)) with false.
    change (bool_decide (RADIO_STATE_ON = RADIO_STATE_UNAVAILABLE)) with false. cbn [orb].
    rewrite (run_bind _ _ _ _ _ Ec). reflexivity. }
  unfold requestGetSimStatus, getCardStatus. unfold mbind, ril_bind. by rewrite E.
Qed.

(** A modem that answers everything with a phone failure. *)
Definition failing_modem : at_port := modem_port (fun _ _ => (0, Some (mk_at_response 0 (Some (s2b "+CME ERROR: 0")) []))).

Lemma phone_failure_crashes_witness :
  @onRequest failing_modem UNKNOWN_MODEM UNKNOWN_MODEM quiet_env GET_SIM_STATUS RNone (@mk_rild failing_modem [] vars_on []) = Ub.
Proof. apply (@phone_failure_crashes failing_modem _ _ _ _ _ [cpin]); reflexivity. Defined.
