(* ===== verification/AltPort.v ===== *)
(** * The Altair RIL: what its handlers share

    [altair-ril.c] serves an LTE modem, over its own copy of the AT channel.  Its
    handlers are written in the monad of [RilPort] and use the same variables.  This
    file has what they share: the build's options and what the system answers, the
    commands that are sent again until they succeed, and the network interfaces.

    The responses of these commands are freed while their pointers are kept, so that
    a pointer to a response is [Null], [Live] or [Freed]; the other handlers of the
    file free a response once, after its last use. *)

From S2P Require Import Prelude CString AtTok Misc AtChannel RilPort.

(** ** Build and system *)

(** [PLATFORM_SDK_VERSION] of [Android.mk]. *)
Inductive sdk_version := SDK_17 | SDK_18 | SDK_19.

Definition RIL_VERSION_4_3_AND_ABOVE (v : sdk_version) : bool := match v with SDK_17 => false | _ => true end.
Definition RIL_VERSION_4_4_AND_ABOVE (v : sdk_version) : bool := match v with SDK_19 => true | _ => false end.

(** A line of [/proc/net/if_inet6]: its six words. *)
Record inet6_line := mk_inet6 { in6_addr : bytes; in6_index : bytes; in6_plen : bytes; in6_scope : bytes; in6_flags : bytes; in6_name : bytes }.

(** The options of the build and the answers of the system.  [system_property]:
    [None] when not set; [ifc_init]: by the number of events so far; [if_inet6]: the
    file at the [k]th try, [None] when it cannot be opened; [rounds]: how many rounds of
    the loop over the data calls are followed; [at_socket]: whether a client of the AT
    socket is there, by the number of events so far. *)
Record alt_env := mk_alt_env {
  sdk : sdk_version;
  volte : bool;
  system_property : bytes -> option bytes;
  ifc_init : nat -> Z;
  if_inet6 : nat -> option (list inet6_line);
  rounds : nat;
  at_socket : nat -> bool }.

(** The first character of a property is ['1']; the buffer of an empty one holds NUL. *)
Definition property_is_1 (env : alt_env) (name : bytes) : bool :=
  match system_property env name with Some (c :: _) => c =? 49 | _ => false end.

Definition isDelayAtChannel (env : alt_env) : bool := property_is_1 env (s2b "ril.delayAtChannel").

(** [RADIO_TECH_IS95A] to [RADIO_TECH_EHRPD]; the property decides when it is set. *)
Definition is3gpp2 (env : alt_env) (radioTech : Z) : Z :=
  match system_property env (s2b "telephony.lteOnCdmaDevice") with
  | Some (_ :: _) => b2z (property_is_1 env (s2b "telephony.lteOnCdmaDevice"))
  | _ => b2z (bool_decide (radioTech ∈ [4; 5; 6; 7; 8; 12; 13]))
  end.

(** ** Pointers to responses *)

Inductive held := Null | Live (r : ATResponse) | Freed.

(** [at_response_free] *)
Definition held_free (h : held) : outcome held :=
  match h with Null => Ret Null | Live _ => Ret Freed | Freed => Ub end.

(** [p_response->...] *)
Definition held_get (h : held) : outcome ATResponse := match h with Live r => Ret r | _ => Ub end.

(** What a command stores: a response; NULL when the line it needs is missing;
    otherwise, with an error, nothing. *)
Definition held_store (h : held) (err : Z) (r : option ATResponse) : held :=
  match r with
  | Some r => Live r
  | None => if err =? AT_ERROR_INVALID_RESPONSE then Null else h
  end.

Definition NUM_OF_RETRANSMIT : nat := 5.

Section operations.
Context `{AP : at_port}.

(** ** Commands sent again *)

(** The loop, with so many attempts left; [out]: the caller wants the response.  Before
    another attempt it sleeps for a second. *)
Fixpoint reliable_loop (q : at_request) (out : bool) (attempts : nat) (err : Z) (p_response : held) : ril (Z * held) :=
  match attempts with
  | O => mret (err, p_response)
  | S attempts =>
    '(err, r) ← command q;
    let p_response := held_store p_response err r in
    ok ← (if 0 <=? err then r ← lift (held_get p_response); mret (negb (success r =? 0)) else mret false);
    if ok : bool then
      if out then mret (err, p_response) else p_response ← lift (held_free p_response); mret (err, p_response)
    else
      p_response ← lift (held_free p_response);
      reliable_loop q out attempts err p_response
  end.

(** The error and [*pp_outResponse]: it is stored through the pointer without asking
    whether there is one. *)
Definition at_send_command_reliable_interenal (q : at_request) (out : bool) (numOfRetransmit : nat) : ril (Z * held) :=
  res ← reliable_loop q out (S numOfRetransmit) (-1) Null;
  if out then mret res else lift Ub.

Definition at_send_command_singleline_reliable (cmd prefix : bytes) : bool -> nat -> ril (Z * held) :=
  at_send_command_reliable_interenal (AT_singleline cmd prefix).

Definition at_send_command_reliable (cmd : bytes) : bool -> nat -> ril (Z * held) :=
  at_send_command_reliable_interenal (AT cmd).

(** ** Interfaces *)

Definition MAX_NUM_OF_PDN : nat := 4.

Definition ETH_IF_NAME : list bytes := [s2b "NA"; s2b "eth1"; s2b "eth1.4"; s2b "eth1.5"].

Definition IFNAME (sessionid : Z) : bytes :=
  nth (Z.to_nat (if (0 <? sessionid) && (sessionid <? 4) then sessionid else 0)) ETH_IF_NAME [].

(** Up, with an address from DHCP, or down; -1 on an error. *)
Definition ifc_config (env : alt_env) (ifName : bytes) (up : bool) : ril Z :=
  r ← (fun s => Ret (ifc_init env (length (events s)), s));
  if r <? 0 then mret (-1)
  else
    _ ← emit (Interface ifName up);
    mret 0.
End operations.

(** ** Lemmas *)

Section laws.
Context `{AP : at_port} (t : mode) `{AL : !at_port_laws t}.

Lemma wp_ifc_config n s env name up (Q : Z -> rild -> Prop) :
  good n s -> (forall r s', good n s' -> vars s' = vars s -> r = 0 \/ r = -1 -> Q r s') -> wp t (ifc_config env name up) Q s.
Proof.
  intros H HQ. unfold ifc_config. ril_step. change (wp t (if ifc_init env (length (events s)) <? 0 then mret (-1)
    else _ ← emit (Interface name up); mret 0) Q s). case_match.
  - apply wp_ret, HQ; [done..|by right].
  - ril_step. eapply wp_event; [done|exact H|]. intros s' Hs Hv. apply wp_ret, HQ; [done..|by left].
Qed.
End laws.

Lemma run_ifc_config `{AP : at_port} {B} env name up (k : Z -> ril B) (s : rild) :
  (r ← ifc_config env name up; k r) s =
    if ifc_init env (length (events s)) <? 0 then k (-1) s
    else k 0 (mk_rild (chan s) (vars s) (events s ++ [Interface name up])).
Proof. unfold ifc_config, mbind, ril_bind. cbn. by destruct (ifc_init env (length (events s)) <? 0). Qed.

(** What becomes of an attempt: the modem answers with a success, with an error, or
    does not answer in time. *)
Inductive attempt := Accepted (r : ATResponse) | Refused | Silent (err : Z).

(** The modem answers the attempts in turn. *)
Inductive tried `{AP : at_port} (q : at_request) : port -> list attempt -> port -> Prop :=
| tried_none p : tried q p [] p
| tried_accepted p p1 p2 r l : at_send q true p = Ret (0, Some r, p1) -> success r <> 0 ->
    tried q p1 l p2 -> tried q p (Accepted r :: l) p2
| tried_refused p p1 p2 r l : at_send q true p = Ret (0, Some r, p1) -> success r = 0 ->
    tried q p1 l p2 -> tried q p (Refused :: l) p2
| tried_silent p p1 p2 err l : at_send q true p = Ret (err, None, p1) -> err < 0 -> err <> AT_ERROR_INVALID_RESPONSE ->
    tried q p1 l p2 -> tried q p (Silent err :: l) p2.

Section reliable.
Context `{AP : at_port} (q : at_request).

Lemma run_command (s : rild) err r p {B} (k : Z * option ATResponse -> ril B) :
  at_send q true (chan s) = Ret (err, r, p) -> (x ← command q; k x) s = k (err, r) (mk_rild p (vars s) (events s)).
Proof. intros E. apply run_bind. unfold command. by rewrite E. Qed.

(** A refusal leaves a freed response behind. *)
Lemma loop_refused out n err h (s : rild) r p :
  at_send q true (chan s) = Ret (0, Some r, p) -> success r = 0 ->
  reliable_loop q out (S n) err h s = reliable_loop q out n 0 Freed (mk_rild p (vars s) (events s)).
Proof.
  intros E Hr. cbn [reliable_loop]. rewrite (run_command _ _ _ _ _ E). cbn [held_store Z.leb Z.compare].
  unfold lift, mbind, ril_bind. cbn. by rewrite Hr.
Qed.

Lemma loop_accepted out n err h (s : rild) r p :
  at_send q true (chan s) = Ret (0, Some r, p) -> success r <> 0 ->
  reliable_loop q out (S n) err h s = Ret ((0, if out then Live r else Freed), mk_rild p (vars s) (events s)).
Proof.
  intros E Hr. cbn [reliable_loop]. rewrite (run_command _ _ _ _ _ E). cbn [held_store Z.leb Z.compare].
  unfold lift, mbind, ril_bind. cbn. destruct (Z.eqb_spec (success r) 0); [done|]. by destruct out.
Qed.

(** Silence keeps the pointer, and frees it again. *)
Lemma loop_silent out n err err' h (s : rild) p :
  at_send q true (chan s) = Ret (err', None, p) -> err' < 0 -> err' <> AT_ERROR_INVALID_RESPONSE ->
  reliable_loop q out (S n) err h s =
    match h with
    | Freed => Ub
    | Null => reliable_loop q out n err' Null (mk_rild p (vars s) (events s))
    | Live r => reliable_loop q out n err' Freed (mk_rild p (vars s) (events s))
    end.
Proof.
  intros E Hn Hi. cbn [reliable_loop]. rewrite (run_command _ _ _ _ _ E). unfold held_store.
  rewrite (proj2 (Z.eqb_neq _ _) Hi), (proj2 (Z.leb_gt 0 err') Hn). by destruct h.
Qed.

Lemma last_cons_default {A} (l : list A) (x d : A) : List.last (x :: l) d = List.last l x.
Proof. revert x d. induction l as [|y l IH]; intros x d; [done|]. change (List.last (y :: l) d = List.last (y :: l) x). by rewrite !IH. Qed.

(** Attempts without an answer, from the start. *)
Lemma loop_silences out errs : forall n err (s : rild) l p2,
  tried q (chan s) (map Silent errs ++ l) p2 -> exists p1, tried q p1 l p2 /\
  reliable_loop q out (length errs + n) err Null s =
    reliable_loop q out n (List.last errs err) Null (mk_rild p1 (vars s) (events s)).
Proof.
  induction errs as [|e errs IH]; intros n err s l p2 H; cbn [map app] in H.
  - exists (chan s). split; [done|]. by destruct s.
  - inversion H as [| | |? p1 ? ? ? E Hn Hi Ht]; subst.
    destruct (IH n e (mk_rild p1 (vars s) (events s)) l p2 Ht) as (p3 & Ht3 & E3).
    exists p3. split; [done|]. cbn [length Nat.add]. rewrite (loop_silent _ _ _ _ _ _ _ E Hn Hi), E3.
    by rewrite last_cons_default.
Qed.

(** Refusals. *)
Lemma loop_refusals out m : forall n err h (s : rild) l p2,
  tried q (chan s) (replicate m Refused ++ l) p2 -> exists p1, tried q p1 l p2 /\
  reliable_loop q out (m + n) err h s =
    reliable_loop q out n (if (m =? 0)%nat then err else 0) (if (m =? 0)%nat then h else Freed)
      (mk_rild p1 (vars s) (events s)).
Proof.
  induction m as [|m IH]; intros n err h s l p2 H; cbn [replicate app] in H.
  - exists (chan s). split; [done|]. by destruct s.
  - inversion H as [| |? p1 ? r ? E Hr Ht|]; subst.
    destruct (IH n 0 Freed (mk_rild p1 (vars s) (events s)) l p2 Ht) as (p3 & Ht3 & E3).
    exists p3. split; [done|]. cbn [Nat.add]. rewrite (loop_refused _ _ _ _ _ _ _ E Hr), E3. by destruct m.
Qed.

(** Silences, then refusals, then what is left of the attempts. *)
Lemma loop_failures out errs m n (s : rild) l p2 :
  tried q (chan s) (map Silent errs ++ replicate m Refused ++ l) p2 -> exists p1, tried q p1 l p2 /\
  reliable_loop q out (length errs + m + n) (-1) Null s =
    reliable_loop q out n (if (m =? 0)%nat then List.last errs (-1) else 0) (if (m =? 0)%nat then Null else Freed)
      (mk_rild p1 (vars s) (events s)).
Proof.
  intros H. apply (loop_silences out _ (m + n) (-1)) in H as (p1 & H & E1).
  apply (loop_refusals out m n (List.last errs (-1)) Null (mk_rild p1 (vars s) (events s))) in H as (p3 & H & E3).
  exists p3. split; [done|]. by rewrite <- Nat.add_assoc, E1, E3.
Qed.

(** The command accepted in time, and the command never accepted. *)
Lemma run_reliable n m errs (s : rild) r p2 :
  (length errs + m <= n)%nat -> tried q (chan s) (map Silent errs ++ replicate m Refused ++ [Accepted r]) p2 ->
  at_send_command_reliable_interenal q true n s = Ret ((0, Live r), mk_rild p2 (vars s) (events s)) /\
  at_send_command_reliable_interenal q false n s = Ub.
Proof.
  intros Hn H. unfold at_send_command_reliable_interenal.
  replace (S n) with (length errs + m + S (n - length errs - m))%nat by lia.
  destruct (loop_failures true errs m (S (n - length errs - m)) s _ _ H) as (p1 & H1 & E1).
  destruct (loop_failures false errs m (S (n - length errs - m)) s _ _ H) as (p1' & H1' & E1').
  inversion H1 as [|? p3 ? ? ? E Hr H3| |]; subst. inversion H3; subst.
  inversion H1' as [|? p3 ? ? ? E' Hr' H3'| |]; subst. inversion H3'; subst.
  split.
  - rewrite (run_bind _ _ _ _ _ (eq_trans E1 (loop_accepted true _ _ _ (mk_rild p1 (vars s) (events s)) _ _ E Hr))). reflexivity.
  - rewrite (run_bind _ _ _ _ _ (eq_trans E1' (loop_accepted false _ _ _ (mk_rild p1' (vars s) (events s)) _ _ E' Hr'))). reflexivity.
Qed.

Lemma run_reliable_failed n m errs (s : rild) p2 :
  (length errs + m = S n)%nat -> tried q (chan s) (map Silent errs ++ replicate m Refused) p2 ->
  at_send_command_reliable_interenal q true n s =
    Ret ((if (m =? 0)%nat then List.last errs (-1) else 0, if (m =? 0)%nat then Null else Freed), mk_rild p2 (vars s) (events s)).
Proof.
  intros Hn H. rewrite <- (app_nil_r (replicate m Refused)) in H.
  destruct (loop_failures true errs m 0 s _ _ H) as (p1 & H1 & E1). inversion H1; subst.
  unfold at_send_command_reliable_interenal. rewrite <- Hn, <- (Nat.add_0_r (length errs + m)).
  by rewrite (run_bind _ _ _ _ _ E1).
Qed.
End reliable.

(** ** Property *)

(** a command that is sent again until it succeeds, six times at most.  When the
    modem is silent [length errs] times, then refuses [m] times, then accepts, its
    response is returned, and nothing more is sent.  When it never answers, the last
    error is returned without a response.  But when the last attempt is refused, the
    response that is handed back has been freed, and when a silence follows a refusal
    it is freed twice.  A caller that wants no response never gets an answer: the
    pointer to it is written through all the same. *)
Theorem reliable_retries `{AP : at_port} (q : at_request) (n m : nat) (errs : list Z) (s : rild) (p2 : port) :
  let sent := mk_rild p2 (vars s) (events s) in
  (forall r, (length errs + m <= n)%nat ->
     tried q (chan s) (map Silent errs ++ replicate m Refused ++ [Accepted r]) p2 ->
     at_send_command_reliable_interenal q true n s = Ret ((0, Live r), sent) /\
     at_send_command_reliable_interenal q false n s = Ub) /\
  ((length errs + m = S n)%nat ->
     tried q (chan s) (map Silent errs ++ replicate m Refused) p2 ->
     at_send_command_reliable_interenal q true n s =
       Ret ((if (m =? 0)%nat then List.last errs (-1) else 0, if (m =? 0)%nat then Null else Freed), sent)) /\
  (forall err, (0 < m)%nat -> (length errs + m <= n)%nat ->
     tried q (chan s) (map Silent errs ++ replicate m Refused ++ [Silent err]) p2 ->
     at_send_command_reliable_interenal q true n s = Ub).
Proof.
  intros sent. split_and!.
  - intros r Hn H. by apply run_reliable with (m := m) (errs := errs).
  - intros Hn H. by apply run_reliable_failed.
  - intros err Hm Hn H. unfold at_send_command_reliable_interenal.
    replace (S n) with (length errs + m + S (n - length errs - m))%nat by lia.
    destruct (loop_failures q true errs m (S (n - length errs - m)) s _ _ H) as (p1 & H1 & E1).
    inversion H1 as [| | |? p3 ? ? ? E He Hi H3]; subst. unfold mbind, ril_bind. rewrite E1.
    destruct m; [lia|]. cbn [Nat.eqb]. by rewrite (loop_silent q true _ _ _ _ (mk_rild p1 (vars s) (events s)) _ E He Hi).
Qed.

(** A modem whose first answer is late, whose second is an error, and whose third is
    [OK]; one that only knows errors; one that answers an error and is then gone. *)
Definition refusal : ATResponse := mk_at_response 0 (Some (s2b "ERROR")) [].
Definition acceptance : ATResponse := mk_at_response 1 (Some (s2b "OK")) [].
Definition slow_modem (n : nat) (q : at_request) : Z * option ATResponse :=
  match n with O => (AT_ERROR_TIMEOUT, None) | 1%nat => (0, Some refusal) | _ => (0, Some acceptance) end.
Definition refusing_modem (n : nat) (q : at_request) : Z * option ATResponse := (0, Some refusal).
Definition failing_modem (n : nat) (q : at_request) : Z * option ATResponse :=
  match n with O => (0, Some refusal) | _ => (AT_ERROR_TIMEOUT, None) end.

Definition cfun4 : at_request := AT (s2b "AT+CFUN=4").

Lemma reliable_retries_witness :
  let run modem out := @at_send_command_reliable_interenal (modem_port modem) cfun4 out 5 (@mk_rild (modem_port modem) [] vars_init []) in
  run slow_modem true = Ret ((0, Live acceptance), @mk_rild (modem_port slow_modem) (replicate 3 cfun4) vars_init []) /\
  run slow_modem false = Ub /\
  run refusing_modem true = Ret ((0, Freed), @mk_rild (modem_port refusing_modem) (replicate 6 cfun4) vars_init []) /\
  run failing_modem true = Ub.
Proof.
  intros run.
  destruct (@reliable_retries (modem_port slow_modem) cfun4 5 1 [AT_ERROR_TIMEOUT] (@mk_rild (modem_port slow_modem) [] vars_init [])
    (replicate 3 cfun4)) as (H1 & _ & _).
  destruct (@reliable_retries (modem_port refusing_modem) cfun4 5 6 [] (@mk_rild (modem_port refusing_modem) [] vars_init [])
    (replicate 6 cfun4)) as (_ & H2 & _).
  destruct (@reliable_retries (modem_port failing_modem) cfun4 5 1 [] (@mk_rild (modem_port failing_modem) [] vars_init [])
    (replicate 2 cfun4)) as (_ & _ & H3).
  destruct (H1 acceptance) as [E1 E2]; [cbn; lia| |].
  { repeat (econstructor; try reflexivity; try done). }
  split; [exact E1|]. split; [exact E2|]. split.
  - apply H2; [done|]. repeat (econstructor; try reflexivity; try done).
  - apply (H3 AT_ERROR_TIMEOUT); [lia|cbn; lia|]. repeat (econstructor; try reflexivity; try done).
Defined.
