(* ===== verification/AltData.v ===== *)
(** * The Altair RIL's data calls

    The table of packet data networks that the modem keeps ([AT%PDNACT?]), the list of
    data calls with the address of each ([AT+CGCONTRDP]), setting a call up and ending
    one: [altair-ril.c].

    The tokenizer and [sprintf] write into the line they read: of that the second name
    server joined to the first, and the prefix written over the mask, are modelled; a
    write past the end of a string is an invalid access. *)

From S2P Require Import Prelude CString AtTok Misc AtChannel RilPort RilNetwork RilSim AltPort.

(** ** The table of networks *)

Definition MAX_APN_NAME : nat := 65.

Record PdnTableEntry := mk_pdn { sessionId : Z; pdn_active : Z; APN : bytes; pdn_cid : Z }.

(** [strcpy(APN, out)] *)
Definition apn_copy (out : option bytes) : outcome bytes :=
  s ← checked out; if (length s <? MAX_APN_NAME)%nat then Ret s else Ub.

(** A line [%PDNACT:<sessionID>,<stat>,<APN>,<cid>]; [None] is [goto error]. *)
Definition pdn_line (line : bytes) : outcome (option PdnTableEntry) :=
  match (cur ← read_start (Some line); '(sid, cur) ← read_int cur; '(act, cur) ← read_int cur;
         '(out, cur) ← read_str cur; Some (sid, act, out, cur)) with
  | None => Ret None
  | Some (sid, act, out, cur) =>
    apn ← apn_copy out;
    match read_int cur with
    | None => Ret None
    | Some (cid, _) => Ret (Some (mk_pdn sid act apn cid))
    end
  end.

(** The loop; entries after the [room]-th are ignored. *)
Fixpoint pdn_loop (room : nat) (lines : list bytes) : outcome (option (list PdnTableEntry)) :=
  match lines, room with
  | [], _ | _, O => Ret (Some [])
  | line :: lines, S room =>
    o ← pdn_line line;
    match o with
    | None => Ret None
    | Some e => os ← pdn_loop room lines; Ret (es ← os; Some (e :: es))
    end
  end.

(** [strcasecmp] is 0. *)
Definition tolower (c : Z) : Z := if (65 <=? c) && (c <=? 90) then c + 32 else c.
Definition strcasecmp_eq (a b : bytes) : bool := bool_decide (map tolower a = map tolower b).

Fixpoint find_apn (apn : option bytes) (tbl : list PdnTableEntry) : outcome (option PdnTableEntry) :=
  match tbl with
  | [] => Ret None
  | e :: tbl =>
    a ← checked apn;
    if strcasecmp_eq a (APN e) then Ret (Some e) else find_apn apn tbl
  end.

(** [ETH_IF_NAME[sessionId]] *)
Definition eth_if_name (sessionId : Z) : outcome bytes := arr_rd ETH_IF_NAME sessionId.

(** ** Addresses *)

(** The dots of an address and its mask, from a place of the text: whether the fourth
    one of all is passed - then its mask begins - and the prefix so far.  It stops at a
    part that begins with 0. *)
Fixpoint mask_loop (p : bytes) (pos : nat) (dots : Z) (mask : option nat) (prefixlen : Z) : option nat * Z :=
  match p with
  | [] => (mask, prefixlen)
  | c :: p =>
    if c =? 46 then
      let dots := dots + 1 in
      let mask := if dots =? 4 then Some (S pos) else mask in
      match mask with
      | Some m =>
        if (match p with d :: _ => d =? 48 | [] => false end) then (Some m, prefixlen)
        else mask_loop p (S pos) dots (Some m) (prefixlen + 8)
      | None => mask_loop p (S pos) dots None prefixlen
      end
    else mask_loop p (S pos) dots mask prefixlen
  end.

(** [10.170.1.1.255.255.0.0] as [10.170.1.1/16]; without a mask the prefix is written
    through NULL. *)
Definition ipv4_address (out : bytes) : outcome bytes :=
  match mask_loop out 0 0 None 0 with
  | (None, _) => Ub
  | (Some m, prefixlen) =>
    let digits := print_int prefixlen in
    if (length digits <=? length out - m)%nat then Ret (take (m - 1) out ++ [47] ++ digits) else Ub
  end.

(** [%d] of [sscanf]: the number, as an [int], and the rest. *)
Definition scan_d (s : bytes) : option (Z * bytes) :=
  let '(neg, v, n) := parse_number s 10 in
  match n with
  | O => None
  | _ => Some (s32 (if neg then Z.max (- v) (- 2 ^ 63) else Z.min v (2 ^ 63 - 1)), drop n s)
  end.

(** [n] numbers with dots between them. *)
Fixpoint scan_dotted (n : nat) (s : bytes) : option (list Z) :=
  match n with
  | O => Some []
  | S n =>
    '(v, r) ← scan_d s;
    match n, r with
    | O, _ => Some [v]
    | S _, c :: r => if c =? 46 then vs ← scan_dotted n r; Some (v :: vs) else None
    | S _, [] => None
    end
  end.

(** [%02x] *)
Definition print_02x (z : Z) : bytes := let h := print_hex z in replicate (2 - length h) 48 ++ h.

(** Pairs with colons between them. *)
Fixpoint colon_pairs (l : list Z) : bytes :=
  match l with
  | a :: b :: [] => print_02x a ++ print_02x b
  | a :: b :: l => print_02x a ++ print_02x b ++ [COLON] ++ colon_pairs l
  | _ => []
  end.

Definition IPV6_TEXT : nat := 80.

(** The caller's array has 80 bytes; a number that is not there is read uninitialised. *)
Definition convertToIpv6Addr (ipv6Addr : bytes) : outcome bytes :=
  addr ← checked (scan_dotted 16 ipv6Addr);
  let s := colon_pairs addr in
  if (length s <? IPV6_TEXT)%nat then Ret s else Ub.

(** [fscanf] fits the words into their arrays. *)
Definition inet6_fits (l : inet6_line) : bool :=
  (length (in6_addr l) <? 70)%nat && (length (in6_index l) <? 3)%nat && (length (in6_plen l) <? 3)%nat &&
  (length (in6_scope l) <? 3)%nat && (length (in6_flags l) <? 3)%nat && (length (in6_name l) <? 20)%nat.

(** Groups of four characters, of the first [4 * n]. *)
Fixpoint colon_groups (n : nat) (s : bytes) : bytes :=
  match n with
  | O => []
  | S O => take 4 s
  | S n => take 4 s ++ [COLON] ++ colon_groups n (drop 4 s)
  end.

(** The lines: the first address of the interface that is not of the link alone. *)
Fixpoint inet6_scan (lines : list inet6_line) (if_name : bytes) : outcome (option bytes) :=
  match lines with
  | [] => Ret None
  | l :: lines =>
    if negb (inet6_fits l) then Ub
    else if strcmp_eq (in6_name l) if_name then
      if starts (s2b "fe80") (in6_addr l) then inet6_scan lines if_name
      else if (length (in6_addr l) <? 32)%nat then Ub
      else Ret (Some (colon_groups 8 (in6_addr l)))
    else inet6_scan lines if_name
  end.

(** [None]: -1.  A file that cannot be opened is read all the same. *)
Definition getIpAddress (env : alt_env) (try : nat) (if_name : bytes) : outcome (option bytes) :=
  lines ← checked (if_inet6 env try);
  inet6_scan lines if_name.

(** Five tries, a second apart. *)
Fixpoint global_ipv6 (env : alt_env) (tries try : nat) (if_name : bytes) : outcome (option bytes) :=
  match tries with
  | O => Ret None
  | S tries =>
    o ← getIpAddress env try if_name;
    match o with Some a => Ret (Some a) | None => global_ipv6 env tries (S try) if_name end
  end.

(** ** A line of [+CGCONTRDP] *)

Definition set_dc_status v c := mk_data_call v (dc_cid c) (dc_active c) (dc_type c) (dc_ifname c) (dc_addresses c) (dc_dnses c) (dc_gateways c).
Definition set_dc_type v c := mk_data_call (dc_status c) (dc_cid c) (dc_active c) v (dc_ifname c) (dc_addresses c) (dc_dnses c) (dc_gateways c).
Definition set_dc_ifname v c := mk_data_call (dc_status c) (dc_cid c) (dc_active c) (dc_type c) v (dc_addresses c) (dc_dnses c) (dc_gateways c).
Definition set_dc_addresses v c := mk_data_call (dc_status c) (dc_cid c) (dc_active c) (dc_type c) (dc_ifname c) v (dc_dnses c) (dc_gateways c).
Definition set_dc_dnses v c := mk_data_call (dc_status c) (dc_cid c) (dc_active c) (dc_type c) (dc_ifname c) (dc_addresses c) v (dc_gateways c).
Definition set_dc_gateways v c := mk_data_call (dc_status c) (dc_cid c) (dc_active c) (dc_type c) (dc_ifname c) (dc_addresses c) (dc_dnses c) v.

(** [asprintf(&addr, "%s %s", text, s)] *)
Definition append_word (t : call_text) (s : bytes) : call_text :=
  match t with Text x => Text (x ++ [32] ++ s) | Dangling => Dangling end.

(** What the loop over the lines carries: the index, whether the second line of an
    entry is read, the array of responses ([None]: not initialised). *)
Record rdp_state := mk_rdp { rdp_i : nat; isIpv6Line : bool; responses : list (option RIL_Data_Call) }.

(** A line ends in [goto error], [break], or with the next one. *)
Inductive rdp_result := RdpError | RdpBreak (st : rdp_state) | RdpNext (st : rdp_state).

(** The index of the response of a context. *)
Fixpoint find_response (cid : Z) (rs : list (option RIL_Data_Call)) (i : nat) : outcome (option nat) :=
  match rs with
  | [] => Ret None
  | o :: rs => r ← checked o; if dc_cid r =? cid then Ret (Some i) else find_response cid rs (S i)
  end.

(** A blank is written before the second name server.  It joins it to the first when
    it replaces the end of that one: the comma after a name without quotes, when
    neither a blank nor a quote follows, or the closing quote when the line ends
    there. *)
Definition dns_joined (before after : option bytes) : bool :=
  match skipWhiteSpace before, after with
  | Some (c :: r), Some a =>
    if c =? QUOTE then
      bool_decide (a = []) && (match snd (split_at QUOTE r) with Some [] => true | _ => false end)
    else match a with d :: _ => negb (d =? QUOTE) && negb (c_isspace d) | [] => true end
  | _, _ => false
  end.

(** The name servers, from the cursor on. *)
Definition rdp_dns (v6 : bool) (cur : option bytes) (r : RIL_Data_Call) : outcome RIL_Data_Call :=
  match read_str cur with
  | None => Ret (set_dc_dnses (Text (s2b "8.8.8.8 8.8.4.4")) r)
  | Some (out, cur1) =>
    dns ← checked out;
    if v6 then
      a ← convertToIpv6Addr dns;
      let r := set_dc_dnses (append_word (dc_dnses r) a) r in
      match read_str cur1 with
      | None => Ret r
      | Some (out, _) =>
        dns2 ← checked out;
        if bool_decide (dns2 = []) then Ret r
        else a ← convertToIpv6Addr dns2; Ret (set_dc_dnses (append_word (dc_dnses r) a) r)
      end
    else
      match read_str cur1 with
      | None => Ret (set_dc_dnses (Text dns) r)
      | Some (out, _) =>
        dns2 ← checked out;
        Ret (set_dc_dnses (Text (if dns_joined cur cur1 then dns ++ [32] ++ dns2 else dns)) r)
      end
  end.

(** The response after its status: of the first line of an entry, or of the second. *)
Definition rdp_head (v6 : bool) (pdn : PdnTableEntry) (r : RIL_Data_Call) : outcome (option RIL_Data_Call) :=
  if v6 then Ret (Some (set_dc_type (Text (s2b "IPV4V6")) r))
  else if sessionId pdn <? Z.of_nat MAX_NUM_OF_PDN then
    name ← eth_if_name (sessionId pdn);
    Ret (Some (set_dc_ifname (Text name) (set_dc_type (Text (s2b "IP")) (set_dc_status 0 r))))
  else Ret None.

(** The fields after the context's number. *)
Definition rdp_fields (env : alt_env) (v6 : bool) (pdn : PdnTableEntry) (cur : option bytes) (r : RIL_Data_Call)
  : outcome (option RIL_Data_Call) :=
  match ('(_, cur) ← read_str cur; '(_, cur) ← read_str cur; '(out, cur) ← read_str cur; Some (out, cur)) with
  | None => Ret None
  | Some (out, cur) =>
    out ← checked out;
    r ← (if v6 then
           name ← eth_if_name (sessionId pdn);
           o ← global_ipv6 env 5 0 name;
           Ret (match o with Some a => set_dc_addresses (append_word (dc_addresses r) a) r | None => r end)
         else a ← ipv4_address out; Ret (set_dc_addresses (Text a) r));
    match read_str cur with
    | None => Ret None
    | Some (out, cur) =>
      gw ← checked out;
      r ← rdp_dns v6 cur (if v6 then r else set_dc_gateways (Text gw) r);
      Ret (Some r)
    end
  end.

Definition rdp_line (env : alt_env) (pdnList : list PdnTableEntry) (line : bytes) (st : rdp_state) : outcome rdp_result :=
  match (cur ← read_start (Some line); read_int cur) with
  | None => Ret RdpError
  | Some (cid, cur) =>
    found ← find_response cid (responses st) 0;
    match found with
    | None => Ret RdpError
    | Some i =>
      r ← arr_rd (responses st) (Z.of_nat i);
      r ← checked r;
      pdn ← arr_rd pdnList (Z.of_nat i);
      let second := negb (dc_status r =? -1) in
      if second && isIpv6Line st then Ret (RdpBreak (mk_rdp i true (responses st)))
      else
        let v6 := isIpv6Line st || second in
        o ← rdp_head second pdn r;
        match o with
        | None => Ret RdpError
        | Some r =>
          o ← rdp_fields env v6 pdn cur r;
          match o with
          | None => Ret RdpError
          | Some r => Ret (RdpNext (mk_rdp i v6 (<[i := Some r]> (responses st))))
          end
        end
    end
  end.

Fixpoint rdp_lines (env : alt_env) (pdnList : list PdnTableEntry) (lines : list bytes) (st : rdp_state) : outcome (option rdp_state) :=
  match lines with
  | [] => Ret (Some st)
  | line :: lines =>
    res ← rdp_line env pdnList line st;
    match res with
    | RdpError => Ret None
    | RdpBreak st => Ret (Some st)
    | RdpNext st => rdp_lines env pdnList lines st
    end
  end.

(** ** Handlers *)

Section handlers.
Context `{AP : at_port} (env : alt_env).

Definition pdnact : at_request := AT_multiline (s2b "AT%PDNACT?") (s2b "%PDNACT").
Definition cgcontrdp (cid : Z) : at_request := AT_multiline (s2b "AT+CGCONTRDP=" ++ print_int cid) (s2b "+CGCONTRDP:").

(** The entries; [None]: -1. *)
Definition getPdnTable : ril (option (list PdnTableEntry)) :=
  r ← ask_ne pdnact;
  match r with
  | None => mret None
  | Some r => lift (pdn_loop MAX_NUM_OF_PDN (p_intermediates r))
  end.

(** The entry of a network; [None] when the result is -1, an entry with that session
    number included. *)
Definition getPdnByApnName (apn : option bytes) : ril (option PdnTableEntry) :=
  tbl ← getPdnTable;
  match tbl with
  | None => mret None
  | Some tbl =>
    o ← lift (find_apn apn tbl);
    mret (match o with Some e => if sessionId e =? -1 then None else Some e | None => None end)
  end.

(** A pause for debugging, of seconds, and a command. *)
Definition debug_pause : ril unit := if isDelayAtChannel env then send (AT (s2b "at")) else mret tt.

Definition activateDataSessionPdn (sid : Z) : ril Z :=
  _ ← debug_pause;
  res ← command (AT (s2b "AT%PDNACT=1," ++ print_int sid));
  _ ← debug_pause;
  r ← lift (succeeded_ne res);
  match r with
  | None => mret (-1)
  | Some _ =>
    e ← ifc_config env (IFNAME sid) true;
    mret (if e <? 0 then -1 else 0)
  end.

(** A response before anything is known of its context. *)
Definition pdn_call (e : PdnTableEntry) : RIL_Data_Call :=
  mk_data_call (-1) (pdn_cid e) (pdn_active e) (Text []) (Text []) (Text []) (Text []) (Text []).

(** The loop over the table.  The loop over the lines moves its index. *)
Fixpoint pdn_rounds (fuel : nat) (pdnList : list PdnTableEntry) (i : nat) (rs : list (option RIL_Data_Call))
  : ril (option (list (option RIL_Data_Call))) :=
  match pdnList !! i with
  | None => mret (Some rs)
  | Some e =>
    match fuel with
    | O => lift NoFuel
    | S fuel =>
      let rs := <[i := Some (pdn_call e)]> rs in
      if pdn_active e =? 0 then pdn_rounds fuel pdnList (S i) rs
      else
        r ← ask_ne (cgcontrdp (pdn_cid e));
        match r with
        | None => mret None
        | Some r =>
          o ← lift (rdp_lines env pdnList (p_intermediates r) (mk_rdp i false rs));
          match o with
          | None => mret None
          | Some st => pdn_rounds fuel pdnList (S (rdp_i st)) (responses st)
          end
        end
    end
  end.

Definition answer_calls (request : bool) (o : option (list RIL_Data_Call)) : ril unit :=
  let d := match o with Some l => DDataCalls l | None => DNone end in
  if request then complete (match o with Some _ => RIL_E_SUCCESS | None => RIL_E_GENERIC_FAILURE end) d
  else unsolicited RIL_UNSOL_DATA_CALL_LIST_CHANGED d.

(** The responses that were sent have all been initialised. *)
Fixpoint initialised (rs : list (option RIL_Data_Call)) : outcome (list RIL_Data_Call) :=
  match rs with
  | [] => Ret []
  | o :: rs => r ← checked o; rs ← initialised rs; Ret (r :: rs)
  end.

(** [request]: whether there is a request to complete; [pdn]: of one network only. *)
Definition requestOrSendDataCallList (request : bool) (pdn : option PdnTableEntry) : ril unit :=
  pdnList ← match pdn with Some e => mret (Some [e]) | None => getPdnTable end;
  match pdnList with
  | None => answer_calls request None
  | Some pdnList =>
    o ← pdn_rounds (rounds env) pdnList 0 (replicate (length pdnList) None);
    match o with
    | None => answer_calls request None
    | Some rs => rs ← lift (initialised rs); answer_calls request (Some rs)
    end
  end.

Definition onDataCallListChanged : ril unit := requestOrSendDataCallList false None.
Definition requestDataCallList : ril unit := requestOrSendDataCallList true None.

(** A network that is not in the table is made the one of the first session, whatever
    the modem says to that. *)
Definition find_or_set (apn : option bytes) : ril (option PdnTableEntry) :=
  o ← getPdnByApnName apn;
  match o with
  | Some e => mret (Some e)
  | None =>
    _ ← send (AT (s2b "AT%APNN=" ++ dquote (print_str apn)));
    getPdnByApnName apn
  end.

Definition set_pdn_active (v : Z) (e : PdnTableEntry) : PdnTableEntry := mk_pdn (sessionId e) v (APN e) (pdn_cid e).

Definition requestSetupDataCall (data : ril_request_data) : ril unit :=
  l ← lift (strings data);
  apn ← lift (arr_rd l 2);
  o ← find_or_set apn;
  match o with
  | None => complete RIL_E_GENERIC_FAILURE DNone
  | Some pdn =>
    err ← activateDataSessionPdn (sessionId pdn);
    if err <? 0 then complete RIL_E_GENERIC_FAILURE DNone
    else requestOrSendDataCallList true (Some (set_pdn_active 1 pdn))
  end.

(** The loop [for (i = 0; i < numOfEntries, pdn[i].cid != cid_value; i++)]: the comma
    leaves the comparison of the numbers as the only condition, so that what follows
    the entries is read: it is not initialised. *)
Definition find_pdn_cid (cid : Z) (tbl : list PdnTableEntry) : outcome PdnTableEntry :=
  checked (List.find (fun e => pdn_cid e =? cid) tbl).

Definition requestDeactivateDataCall (data : ril_request_data) : ril unit :=
  l ← lift (strings data);
  cid ← lift (arr_rd l 0);
  cid ← lift (checked cid);
  tbl ← getPdnTable;
  match tbl with
  | None => complete RIL_E_GENERIC_FAILURE DNone
  | Some tbl =>
    e ← lift (find_pdn_cid (atoi cid) tbl);
    err ← command_null (AT (s2b "AT%PDNACT=0," ++ print_int (sessionId e)));
    if negb (err =? 0) then complete RIL_E_GENERIC_FAILURE DNone
    else
      r ← ifc_config env (IFNAME (sessionId e)) false;
      if r <? 0 then complete RIL_E_GENERIC_FAILURE DNone else complete RIL_E_SUCCESS DNone
  end.
End handlers.

(** ** Completions *)

(** With partial correctness, what the lines say does not matter. *)
Section partial.
Context `{AP : at_port} `{AL : !at_port_laws Partial} (env : alt_env).

Lemma wp_getPdnTable n s (Q : option (list PdnTableEntry) -> rild -> Prop) :
  good n s -> (forall o s', good n s' -> vars s' = vars s -> Q o s') -> wp Partial getPdnTable Q s.
Proof.
  intros H HQ. unfold getPdnTable. do 2 ril_step. destruct r as [r|]; [|by apply HQ].
  apply wp_partial. intros o _. by apply HQ.
Qed.

Lemma wp_getPdnByApnName n s apn (Q : option PdnTableEntry -> rild -> Prop) :
  good n s -> (forall o s', good n s' -> vars s' = vars s -> Q o s') -> wp Partial (getPdnByApnName apn) Q s.
Proof.
  intros H HQ. unfold getPdnByApnName. ril_step. eapply wp_getPdnTable; [exact H|]. intros [tbl|] s' H' Hv; [|by apply HQ].
  ril_step. apply wp_partial. intros o _. by apply HQ.
Qed.

Lemma pdn_rounds_keeps n fuel l : forall i rs s,
  good n s -> wp Partial (pdn_rounds env fuel l i rs) (fun _ => good n) s.
Proof.
  induction fuel as [|fuel IH]; intros i rs s H; cbn [pdn_rounds]; (destruct (l !! i) as [e|]; [|by apply wp_ret]).
  - done.
  - case_match; [by apply IH|]. do 2 ril_step. destruct r as [r|]; [|by apply wp_ret]. ril_step.
    apply wp_partial. intros [st|] _; [by apply IH|by apply wp_ret].
Qed.

Lemma answer_calls_ok n s request o :
  good n s -> wp Partial (answer_calls request o) (fun _ => good (if request : bool then S n else n)) s.
Proof. intros H. unfold answer_calls. destruct request; ril_auto. Qed.

Lemma alt_requestOrSendDataCallList_keeps n s request pdn :
  good n s -> wp Partial (requestOrSendDataCallList env request pdn) (fun _ => good (if request then S n else n)) s.
Proof.
  intros H. unfold requestOrSendDataCallList. ril_step.
  assert (forall o s1, good n s1 -> wp Partial (match o with None => answer_calls request None | Some pdnList =>
      o ← pdn_rounds env (rounds env) pdnList 0 (replicate (length pdnList) None);
      match o with None => answer_calls request None | Some rs => rs ← lift (initialised rs); answer_calls request (Some rs) end
    end) (fun _ => good (if request then S n else n)) s1) as Hk.
  { intros [l|] s1 H1; [|by apply answer_calls_ok]. ril_step. eapply wp_keep; [by apply pdn_rounds_keeps|].
    intros [rs|] s2 H2; [|by apply answer_calls_ok]. ril_step. apply wp_partial. intros; by apply answer_calls_ok. }
  destruct pdn as [e|]; [by apply wp_ret, (Hk (Some [e]))|]. eapply wp_getPdnTable; [exact H|]. intros o s1 H1 _. by apply Hk.
Qed.

Lemma wp_debug_pause n s (Q : unit -> rild -> Prop) :
  good n s -> (forall s', good n s' -> vars s' = vars s -> Q tt s') -> wp Partial (debug_pause env) Q s.
Proof. intros H HQ. unfold debug_pause. destruct (isDelayAtChannel env); [by ril_use wp_send; apply HQ|by apply wp_ret, HQ]. Qed.

Lemma activateDataSessionPdn_keeps n s sid : good n s -> wp Partial (activateDataSessionPdn env sid) (fun _ => good n) s.
Proof.
  intros H. unfold activateDataSessionPdn. ril_step. eapply wp_debug_pause; [exact H|]. intros s1 H1 _.
  ril_step. eapply wp_command; [exact _|exact H1|]. intros err r s2 H2 _ _. ril_step.
  eapply wp_debug_pause; [exact H2|]. intros s3 H3 _. ril_step. apply wp_partial. intros [o|] _; [|by apply wp_ret].
  ril_step. eapply wp_ifc_config; [exact H3|]. intros; by apply wp_ret.
Qed.

Lemma requestSetupDataCall_keeps n s data : good n s -> wp Partial (requestSetupDataCall env data) (fun _ => good (S n)) s.
Proof.
  intros H. unfold requestSetupDataCall. ril_step. apply wp_partial. intros l _. ril_step. apply wp_partial. intros apn _.
  ril_step.
  assert (forall o s1, good n s1 -> wp Partial (match o with None => complete RIL_E_GENERIC_FAILURE DNone | Some pdn =>
      err ← activateDataSessionPdn env (sessionId pdn);
      if err <? 0 then complete RIL_E_GENERIC_FAILURE DNone
      else requestOrSendDataCallList env true (Some (set_pdn_active 1 pdn)) end) (fun _ => good (S n)) s1) as Hk.
  { intros [e|] s1 H1; [|by ril_auto]. ril_step. eapply wp_keep; [by apply activateDataSessionPdn_keeps|].
    intros err s2 H2. case_match; [by ril_auto|]. exact (alt_requestOrSendDataCallList_keeps n s2 true _ H2). }
  unfold find_or_set. ril_step. eapply wp_getPdnByApnName; [exact H|]. intros [e|] s1 H1 _; [by apply wp_ret, (Hk (Some e))|].
  do 2 ril_step. eapply wp_getPdnByApnName; [eassumption|]. intros o s3 H3 _. by apply Hk.
Qed.

Lemma requestDeactivateDataCall_keeps n s data :
  good n s -> wp Partial (requestDeactivateDataCall env data) (fun _ => good (S n)) s.
Proof.
  intros H. unfold requestDeactivateDataCall. do 3 (ril_step; apply wp_partial; intros ? _). ril_step.
  eapply wp_getPdnTable; [exact H|]. intros [tbl|] s1 H1 _; [|by ril_auto]. ril_step. apply wp_partial. intros e _.
  do 2 ril_step. case_match; [by ril_auto|]. ril_step. eapply wp_ifc_config; [eassumption|]. intros r s4 H4 _ _.
  case_match; ril_auto.
Qed.
End partial.

(** ** Lemmas: lines as the modem writes them *)

(** A field in quotes, or without them. *)
Definition field (q : bool) (s : bytes) : bytes := if q then quoted s else s.
Definition field_ok (q : bool) (s : bytes) : Prop := if q then QUOTE ∉ s else plain_token s.

Lemma read_field q s r : field_ok q s -> read_str (Some (field q s ++ COMMA :: r)) = Some (Some s, Some r).
Proof.
  intros H. unfold read_str, at_tok_nextstr. destruct q; cbn [field field_ok] in *.
  - destruct (at_tok_nextstr_quoted [] s [] r) as [E _]; [done|done|by apply not_elem_of_nil|].
    unfold at_tok_nextstr in E. cbn [app] in E. by rewrite E.
  - pose proof (nextTok_plain_comma [] s r (Forall_nil_2 _) H) as E. cbn [app] in E. by rewrite E.
Qed.

Lemma read_field_last q s : field_ok q s -> read_str (Some (field q s)) = Some (Some s, if q then Some [] else None).
Proof.
  intros H. unfold read_str, at_tok_nextstr. destruct q; cbn [field field_ok] in *.
  - destruct (at_tok_nextstr_quoted [] s [] []) as [_ E]; [done|done|by apply not_elem_of_nil|].
    unfold at_tok_nextstr in E. cbn [app] in E. rewrite app_nil_r in E. by rewrite E.
  - pose proof (nextTok_plain_end [] s (Forall_nil_2 _) H) as E. cbn [app] in E. by rewrite E.
Qed.

(** A number is a field. *)
Lemma read_number z r : int_ok z -> read_str (Some (print_int z ++ COMMA :: r)) = Some (Some (print_int z), Some r).
Proof. intros H. apply (read_field false). by apply print_int_plain. Qed.

(** *** The table *)

Definition render_pdn (e : PdnTableEntry) : bytes :=
  s2b "%PDNACT:" ++ [32] ++ print_int (sessionId e) ++ COMMA :: print_int (pdn_active e) ++ COMMA :: quoted (APN e) ++
  COMMA :: print_int (pdn_cid e).

Definition pdn_ok (e : PdnTableEntry) : Prop :=
  int_ok (sessionId e) /\ int_ok (pdn_active e) /\ int_ok (pdn_cid e) /\ (QUOTE ∉ APN e) /\ (length (APN e) < MAX_APN_NAME)%nat.

Lemma pdn_line_render e : pdn_ok e -> pdn_line (render_pdn e) = Ret (Some e).
Proof.
  intros (Hs & Ha & Hc & Hq & Hl). unfold pdn_line, render_pdn.
  replace (read_start _) with (Some (Some ([32] ++ print_int (sessionId e) ++ COMMA :: print_int (pdn_active e) ++ COMMA :: quoted (APN e) ++
    COMMA :: print_int (pdn_cid e)))) by done.
  cbn [mbind option_bind]. rewrite read_int_comma by (done || by repeat constructor). cbn [mbind option_bind].
  rewrite read_comma by done. cbn [mbind option_bind]. rewrite (read_field true) by done. cbn [mbind option_bind].
  unfold apn_copy. cbn [checked mbind outcome_bind]. rewrite (proj2 (Nat.ltb_lt _ _) Hl). cbn [mbind outcome_bind].
  rewrite read_last by done. by destruct e.
Qed.

Lemma pdn_loop_render l : forall room,
  Forall pdn_ok l -> (length l <= room)%nat -> pdn_loop room (map render_pdn l) = Ret (Some l).
Proof.
  induction l as [|e l IH]; intros room H Hl; [by destruct room|]. apply Forall_cons in H as [He H].
  destruct room as [|room]; [cbn in Hl; lia|]. cbn [map pdn_loop]. rewrite pdn_line_render by done. cbn [mbind outcome_bind].
  rewrite IH by (done || cbn in Hl; lia). done.
Qed.

(** *** Addresses *)

Definition octet (z : Z) : Prop := 0 <= z < 256.

(** Numbers with dots between them. *)
Fixpoint dotted (l : list Z) : bytes :=
  match l with
  | [] => []
  | [a] => print_int a
  | a :: l => print_int a ++ [46] ++ dotted l
  end.

(** The text of an octet: digits, the first of which is 0 only for 0. *)
Definition octet_text_ok (z : Z) : bool :=
  match print_int z with
  | [] => false
  | d :: ds => forallb c_isdigit (d :: ds) && bool_decide ((d =? 48) = (z =? 0)) && (length ds <=? 2)%nat
  end.

Lemma octet_text z : octet z -> exists d ds, print_int z = d :: ds /\ Forall (fun c => c_isdigit c = true) (d :: ds) /\
  (d =? 48) = (z =? 0) /\ (length ds <= 2)%nat.
Proof.
  intros Hz. assert (octet_text_ok z = true) as H by (apply (zrange_forall 256 octet_text_ok); [by vm_compute|done]).
  unfold octet_text_ok in H. destruct (print_int z) as [|d ds]; [done|]. exists d, ds. split; [done|].
  apply andb_true_iff in H as [H H3]. apply andb_true_iff in H as [H1 H2]. apply bool_decide_eq_true in H2.
  apply Nat.leb_le in H3. split_and!; [|done|done].
  apply Forall_forall. intros x Hx. apply (proj1 (forallb_forall _ _) H1). by apply list_elem_of_In.
Qed.

(** The loop passes over digits. *)
Lemma mask_loop_digits ds : forall p pos dots mask n,
  Forall (fun c => c_isdigit c = true) ds ->
  mask_loop (ds ++ p) pos dots mask n = mask_loop p (pos + length ds) dots mask n.
Proof.
  induction ds as [|d ds IH]; intros p pos dots mask n H; cbn [app length]; [by rewrite Nat.add_0_r|].
  apply Forall_cons in H as [Hd H]. cbn [mask_loop].
  destruct (Z.eqb_spec d 46) as [->|]; [done|]. rewrite IH by done. f_equal. lia.
Qed.

(** The mask's bits, eight for each part before the first that is 0. *)
Fixpoint prefix_of (m : list Z) : Z :=
  match m with [] => 0 | a :: m => if a =? 0 then 0 else 8 + prefix_of m end.

(** Over the mask, from the dot before it. *)
Lemma mask_loop_mask m : forall pos dots mask k n,
  Forall octet m -> 3 <= dots -> (if dots + 1 =? 4 then Some (S pos) else mask) = Some k -> m <> [] ->
  mask_loop (46 :: dotted m) pos dots mask n = (Some k, n + prefix_of m).
Proof.
  induction m as [|a m IH]; intros pos dots mask k n Hm Hd Hk Hne; [done|]. apply Forall_cons in Hm as [Ha Hm].
  destruct (octet_text a Ha) as (d & ds & E & Hds & H0 & _).
  assert (exists r, dotted (a :: m) = (d :: ds) ++ r /\ (r = [] /\ m = [] \/ r = 46 :: dotted m /\ m <> [])) as (r & Er & Hr).
  { destruct m as [|b m]; cbn [dotted]; rewrite E; [exists []; rewrite app_nil_r; auto|eexists; split; [reflexivity|by right]]. }
  rewrite Er. cbn [mask_loop]. change (46 =? 46) with true. cbn match.
  rewrite Hk. cbn [app]. rewrite H0. cbn [prefix_of].
  destruct (a =? 0); [by rewrite Z.add_0_r|].
  change (d :: ds ++ r) with ((d :: ds) ++ r). rewrite mask_loop_digits by done.
  destruct Hr as [[-> ->]|[-> Hne']]; [cbn [mask_loop prefix_of]; f_equal; lia|].
  rewrite (IH _ _ _ k) by (done || lia || by rewrite (proj2 (Z.eqb_neq _ _)) by lia). f_equal. lia.
Qed.

Lemma prefix_bounds m : 0 <= prefix_of m <= 8 * Z.of_nat (length m).
Proof. induction m as [|a m IH]; cbn [prefix_of length]; [lia|]. destruct (a =? 0); lia. Qed.

(** An address with its mask. *)
Lemma ipv4_address_dotted a b c d m :
  octet a -> octet b -> octet c -> octet d -> Forall octet m -> length m = 4%nat ->
  ipv4_address (dotted [a; b; c; d] ++ 46 :: dotted m) = Ret (dotted [a; b; c; d] ++ [47] ++ print_int (prefix_of m)).
Proof.
  intros Ha Hb Hc Hd Hm Hl.
  assert (forall x, octet x -> Forall (fun c => c_isdigit c = true) (print_int x)) as Hdig.
  { intros x Hx. by destruct (octet_text x Hx) as (? & ? & -> & ? & _). }
  set (T := dotted [a; b; c; d]).
  assert (mask_loop (T ++ 46 :: dotted m) 0 0 None 0 = (Some (S (length T)), prefix_of m)) as El.
  { subst T. cbn [dotted]. rewrite <- !app_assoc. cbn [app].
    rewrite mask_loop_digits by auto. cbn [mask_loop]. rewrite <- ?app_assoc. cbn [app].
    change (46 =? 46) with true. change (0 + 1 =? 4) with false. cbn match. rewrite mask_loop_digits by auto.
    cbn [mask_loop]. change (46 =? 46) with true. change (0 + 1 + 1 =? 4) with false. cbn match.
    rewrite mask_loop_digits by auto. cbn [mask_loop]. change (46 =? 46) with true. change (0 + 1 + 1 + 1 =? 4) with false. cbn match.
    rewrite mask_loop_digits by auto. apply mask_loop_mask; [done|done| |by destruct m].
    cbn. f_equal. rewrite !length_app; cbn [length]; rewrite !length_app; cbn [length]; rewrite !length_app; cbn [length]. lia. }
  unfold ipv4_address. rewrite El.
  pose proof (prefix_bounds m) as Hp. rewrite Hl in Hp.
  assert (length (print_int (prefix_of m)) <= 2)%nat as Hd2.
  { assert (forall z, 0 <= z < 33 -> (length (print_int z) <=? 2)%nat = true) as Hz by
      (intros z Hz; apply (zrange_forall 33 (fun z => (length (print_int z) <=? 2)%nat)); [by vm_compute|done]).
    apply Nat.leb_le, Hz. lia. }
  rewrite (proj2 (Nat.leb_le _ _)).
  - cbn [Nat.sub]. rewrite Nat.sub_0_r, take_app_length. done.
  - assert (2 <= length (dotted m))%nat.
    { destruct m as [|x [|y m]]; [done|done|]. apply Forall_cons in Hm as [Hx _]. destruct (octet_text x Hx) as (? & ? & E & _).
      cbn [dotted]. rewrite E, !length_app. cbn [length]. lia. }
    rewrite length_app. cbn [length]. lia.
Qed.

(** *** The answers about one context *)

(** What the modem says of an active context over IPv4. *)
Record rdp := mk_rdp_answer {
  rdp_quotes : bool; rdp_bearer : Z; rdp_apn : bytes; rdp_ip : Z * Z * Z * Z; rdp_mask : list Z;
  rdp_gw : bytes; rdp_dns1 : bytes; rdp_dns2 : bytes }.

Definition rdp_addr (d : rdp) : bytes := let '(a, b, c, e) := rdp_ip d in dotted [a; b; c; e].

Definition render_rdp (cid : Z) (d : rdp) : bytes :=
  let f := field (rdp_quotes d) in
  s2b "+CGCONTRDP:" ++ [32] ++ print_int cid ++ COMMA :: print_int (rdp_bearer d) ++ COMMA :: quoted (rdp_apn d) ++
  COMMA :: f (rdp_addr d ++ 46 :: dotted (rdp_mask d)) ++ COMMA :: f (rdp_gw d) ++
  COMMA :: f (rdp_dns1 d) ++ COMMA :: f (rdp_dns2 d).

Definition rdp_ok (d : rdp) : Prop :=
  let '(a, b, c, e) := rdp_ip d in
  int_ok (rdp_bearer d) /\ (QUOTE ∉ rdp_apn d) /\ octet a /\ octet b /\ octet c /\ octet e /\
  Forall octet (rdp_mask d) /\ length (rdp_mask d) = 4%nat /\
  field_ok (rdp_quotes d) (rdp_gw d) /\ field_ok (rdp_quotes d) (rdp_dns1 d) /\ field_ok (rdp_quotes d) (rdp_dns2 d).

(** The call reported of it. *)
Definition rdp_call (e : PdnTableEntry) (d : rdp) : RIL_Data_Call :=
  mk_data_call 0 (pdn_cid e) (pdn_active e) (Text (s2b "IP"))
    (Text (nth (Z.to_nat (sessionId e)) ETH_IF_NAME []))
    (Text (rdp_addr d ++ [47] ++ print_int (prefix_of (rdp_mask d))))
    (Text (if rdp_quotes d then rdp_dns1 d else rdp_dns1 d ++ [32] ++ rdp_dns2 d))
    (Text (rdp_gw d)).

Lemma rdp_dns_fields q d1 d2 r :
  field_ok q d1 -> field_ok q d2 ->
  rdp_dns false (Some (field q d1 ++ COMMA :: field q d2)) r = Ret (set_dc_dnses (Text (if q then d1 else d1 ++ [32] ++ d2)) r).
Proof.
  intros H1 H2. unfold rdp_dns. rewrite read_field by done. cbn [checked mbind outcome_bind].
  rewrite read_field_last by done. cbn [checked mbind outcome_bind]. do 4 f_equal.
  unfold dns_joined. destruct q; cbn [field field_ok] in *.
  - unfold quoted. cbn [app skipWhiteSpace fmap option_fmap option_map skipWhiteSpace_s]. reflexivity.
  - destruct H1 as (_ & c & r1 & -> & Hs & Hq). destruct H2 as (_ & c2 & r2 & -> & Hs2 & Hq2).
    cbn [app skipWhiteSpace fmap option_fmap option_map]. rewrite skipWhiteSpace_nonspace by done. cbn match.
    rewrite (proj2 (Z.eqb_neq _ _) Hq), (proj2 (Z.eqb_neq _ _) Hq2), Hs2. done.
Qed.

(** An address is a field. *)
Lemma octet_chars z c : octet z -> c ∈ print_int z -> c_isdigit c = true.
Proof. intros Hz Hc. destruct (octet_text z Hz) as (d & ds & E & H & _). rewrite E in Hc. by rewrite Forall_forall in H; apply H. Qed.

Lemma dotted_chars l c : Forall octet l -> c ∈ dotted l -> c = 46 \/ c_isdigit c = true.
Proof.
  induction l as [|a l IH]; intros Hl Hc; [by apply not_elem_of_nil in Hc|]. apply Forall_cons in Hl as [Ha Hl].
  destruct l as [|b l]; [right; by eapply octet_chars|]. cbn [dotted] in Hc.
  apply elem_of_app in Hc as [Hc|Hc]; [right; by eapply octet_chars|]. apply elem_of_app in Hc as [Hc|Hc]; [|by apply IH].
  apply list_elem_of_singleton in Hc as ->. by left.
Qed.

Lemma rdp_addr_field d : rdp_ok d -> field_ok (rdp_quotes d) (rdp_addr d ++ 46 :: dotted (rdp_mask d)).
Proof.
  unfold rdp_ok, rdp_addr. destruct (rdp_ip d) as [[[a b] c] e]. intros (_ & _ & Ha & Hb & Hc & He & Hm & _).
  assert (forall x, x ∈ dotted [a; b; c; e] ++ 46 :: dotted (rdp_mask d) -> x = 46 \/ c_isdigit x = true) as Hx.
  { intros x Hx. apply elem_of_app in Hx as [Hx|Hx]; [apply (dotted_chars [a; b; c; e]); [auto using Forall_cons_2, Forall_nil_2|done]|].
    apply elem_of_cons in Hx as [->|Hx]; [by left|by eapply dotted_chars]. }
  destruct (rdp_quotes d); cbn [field_ok].
  - intros Hin. by destruct (Hx _ Hin) as [H|H].
  - split; [intros Hin; by destruct (Hx _ Hin) as [H|H]|].
    destruct (octet_text a Ha) as (x & xs & E & Hd & _). cbn [dotted]. rewrite E. eexists x, _. split; [reflexivity|].
    apply Forall_cons in Hd as [Hd _]. apply isdigit_facts in Hd as (? & ? & ? & ?). by split.
Qed.

Lemma find_response_at cid pre r post k :
  cid ∉ map dc_cid pre -> dc_cid r = cid -> find_response cid (map Some pre ++ Some r :: post) k = Ret (Some (k + length pre)%nat).
Proof.
  revert k. induction pre as [|x pre IH]; intros k Hn Hr; cbn [map app find_response checked mbind outcome_bind length].
  - by rewrite Hr, Z.eqb_refl, Nat.add_0_r.
  - cbn [map] in Hn. apply not_elem_of_cons in Hn as [Hx Hn]. destruct (Z.eqb_spec (dc_cid x) cid); [congruence|].
    rewrite IH by done. do 2 f_equal. lia.
Qed.

(** The line about a context that is not known yet. *)
Lemma rdp_line_render env l e d pre post :
  l !! length pre = Some e -> int_ok (pdn_cid e) -> 0 <= sessionId e < 4 -> rdp_ok d -> pdn_cid e ∉ map dc_cid pre ->
  rdp_line env l (render_rdp (pdn_cid e) d) (mk_rdp (length pre) false (map Some pre ++ Some (pdn_call e) :: post)) =
    Ret (RdpNext (mk_rdp (length pre) false (map Some pre ++ Some (rdp_call e d) :: post))).
Proof.
  intros Hl Hc Hs Hd Hn. pose proof (rdp_addr_field d Hd) as Ha. unfold rdp_line.
  pose proof Hd as Hd'. unfold rdp_ok in Hd'. destruct (rdp_ip d) as [[[a b] c] e4] eqn:Eip.
  destruct Hd' as (Hb & Hq & Ho1 & Ho2 & Ho3 & Ho4 & Hm & Hlm & Hg & H1 & H2).
  set (f := field (rdp_quotes d)) in *.
  replace (read_start _) with (Some (Some ([32] ++ print_int (pdn_cid e) ++ COMMA :: print_int (rdp_bearer d) ++ COMMA :: quoted (rdp_apn d) ++
    COMMA :: f (rdp_addr d ++ 46 :: dotted (rdp_mask d)) ++ COMMA :: f (rdp_gw d) ++
    COMMA :: f (rdp_dns1 d) ++ COMMA :: f (rdp_dns2 d)))) by done.
  cbn [mbind option_bind]. rewrite read_int_comma by (done || by repeat constructor). cbn [responses].
  rewrite find_response_at by done. cbn [mbind outcome_bind Nat.add].
  rewrite (arr_rd_nat (map Some pre ++ _)). rewrite list_lookup_middle by (by rewrite length_map).
  cbn [checked mbind outcome_bind]. rewrite arr_rd_nat, Hl. cbn [checked mbind outcome_bind dc_status pdn_call isIpv6Line].
  change (-1 =? -1) with true. cbn [negb andb orb]. unfold rdp_head, eth_if_name.
  change (Z.of_nat MAX_NUM_OF_PDN) with 4. rewrite (proj2 (Z.ltb_lt _ _) (proj2 Hs)).
  assert (arr_rd ETH_IF_NAME (sessionId e) = Ret (nth (Z.to_nat (sessionId e)) ETH_IF_NAME [])) as ->.
  { assert (sessionId e = 0 \/ sessionId e = 1 \/ sessionId e = 2 \/ sessionId e = 3) as H by lia.
    by repeat destruct H as [->|H]; [..|rewrite H]. }
  cbn [mbind outcome_bind]. unfold rdp_fields. rewrite read_number by done. cbn [mbind option_bind].
  rewrite (read_field true) by done. cbn [mbind option_bind]. subst f. rewrite read_field by done.
  cbn [mbind option_bind outcome_bind checked].
  unfold rdp_addr in *. rewrite Eip in *. rewrite ipv4_address_dotted by done. cbn [mbind outcome_bind].
  rewrite read_field by done. cbn [mbind outcome_bind checked]. rewrite rdp_dns_fields by done. cbn [mbind outcome_bind].
  do 3 f_equal. rewrite insert_app_r_alt by (rewrite length_map; lia). rewrite length_map, Nat.sub_diag. cbn.
  unfold rdp_call, rdp_addr. by rewrite Eip.
Qed.

(** *** The table, and each active entry *)

Section listing.
Context (modem : nat -> at_request -> Z * option ATResponse) (env : alt_env) (about : PdnTableEntry -> rdp).

(** What is reported of an entry. *)
Definition pdn_report (e : PdnTableEntry) : RIL_Data_Call :=
  if pdn_active e =? 0 then pdn_call e else rdp_call e (about e).

(** The commands for the active ones. *)
Definition pdn_queries (l : list PdnTableEntry) : list at_request :=
  map (fun e => cgcontrdp (pdn_cid e)) (filter (fun e => negb (pdn_active e =? 0) = true) l).

(** An active entry has a session of the table's, and the modem tells its addresses. *)
Definition pdn_told (e : PdnTableEntry) : Prop :=
  int_ok (pdn_cid e) /\ (pdn_active e <> 0 ->
    0 <= sessionId e < 4 /\ rdp_ok (about e) /\
    forall n, exists r, modem n (cgcontrdp (pdn_cid e)) = (0, Some r) /\ success r <> 0 /\
      p_intermediates r = [render_rdp (pdn_cid e) (about e)]).

Lemma report_cid e : dc_cid (pdn_report e) = pdn_cid e.
Proof. unfold pdn_report. by case_match. Qed.

Lemma run_ask_modem q r (s : @rild (modem_port modem)) :
  modem (length (chan s)) q = (0, Some r) -> success r <> 0 ->
  @ask_ne (modem_port modem) q s = Ret (Some r, @mk_rild (modem_port modem) (chan s ++ [q]) (vars s) (events s)).
Proof.
  intros E Hr. apply (@run_ask (modem_port modem)); [|done]. cbn [at_send modem_port chan]. unfold modem_send. by rewrite E.
Qed.

Lemma pdn_rounds_report suf : forall pre rest fuel (s : @rild (modem_port modem)),
  Forall pdn_told suf -> NoDup (map pdn_cid (pre ++ suf)) -> length rest = length suf -> (length suf <= fuel)%nat ->
  @pdn_rounds (modem_port modem) env fuel (pre ++ suf) (length pre) (map Some (map pdn_report pre) ++ rest) s =
    Ret (Some (map Some (map pdn_report (pre ++ suf))),
         @mk_rild (modem_port modem) (chan s ++ pdn_queries suf) (vars s) (events s)).
Proof.
  induction suf as [|e suf IH]; intros pre rest fuel s Ht Hn Hr Hf.
  - destruct rest; [|done]. rewrite !app_nil_r. destruct fuel; cbn [pdn_rounds];
      rewrite lookup_ge_None_2 by lia; by destruct s.
  - destruct rest as [|o rest]; [done|]. destruct fuel as [|fuel]; [cbn in Hf; lia|].
    apply Forall_cons in Ht as [[Hc He] Ht]. cbn [pdn_rounds]. rewrite list_lookup_middle by done.
    rewrite insert_app_r_alt by (rewrite !length_map; lia). rewrite !length_map, Nat.sub_diag. cbn [insert list_insert].
    assert (forall s1 : @rild (modem_port modem),
      @pdn_rounds (modem_port modem) env fuel (pre ++ e :: suf) (S (length pre)) (map Some (map pdn_report pre) ++ Some (pdn_report e) :: rest) s1 =
      Ret (Some (map Some (map pdn_report (pre ++ e :: suf))), @mk_rild (modem_port modem) (chan s1 ++ pdn_queries suf) (vars s1) (events s1))) as Hk.
    { intros s1. pose proof (IH (pre ++ [e]) rest fuel s1 Ht ltac:(by rewrite <- app_assoc) ltac:(by injection Hr)
        ltac:(cbn in Hf; lia)) as H.
      rewrite <- !app_assoc, length_app, Nat.add_1_r in H. cbn [app] in H. rewrite !map_app in H. cbn [map] in H.
      rewrite <- app_assoc in H. cbn [app] in H. rewrite !map_app. cbn [map]. exact H. }
    unfold pdn_queries. rewrite filter_cons. fold (pdn_queries suf).
    destruct (Z.eqb_spec (pdn_active e) 0) as [E0|E0]; cbn [negb].
    + rewrite decide_False by done. assert (pdn_call e = pdn_report e) as -> by (unfold pdn_report; by rewrite E0). apply Hk.
    + rewrite decide_True by done. destruct (He E0) as (Hs & Hd & Hm). destruct (Hm (length (chan s))) as (r & Em & Hsu & Hl).
      rewrite (run_bind _ _ _ _ _ (run_ask_modem _ _ _ Em Hsu)), Hl. cbn [rdp_lines].
      assert (rdp_line env (pre ++ e :: suf) (render_rdp (pdn_cid e) (about e))
        (mk_rdp (length pre) false (map Some (map pdn_report pre) ++ Some (pdn_call e) :: rest)) =
        Ret (RdpNext (mk_rdp (length pre) false (map Some (map pdn_report pre) ++ Some (pdn_report e) :: rest)))) as El.
      { replace (pdn_report e) with (rdp_call e (about e)) by (unfold pdn_report; by rewrite (proj2 (Z.eqb_neq _ _) E0)).
        replace (length pre) with (length (map pdn_report pre)) by apply length_map. apply rdp_line_render; try done.
        - rewrite length_map. by apply list_lookup_middle.
        - rewrite map_map, (map_ext _ _ report_cid). rewrite map_app in Hn. cbn [map] in Hn.
          apply NoDup_app in Hn as (_ & Hn & _). intros Hin. by apply (Hn _ Hin), elem_of_cons; left. }
      rewrite El. cbn [mbind outcome_bind]. unfold lift at 1. cbn [mbind ril_bind outcome_bind].
      change (@pdn_rounds (modem_port modem) env fuel (pre ++ e :: suf) (S (length pre)) (map Some (map pdn_report pre) ++ Some (pdn_report e) :: rest)
        (@mk_rild (modem_port modem) (chan s ++ [cgcontrdp (pdn_cid e)]) (vars s) (events s)) = 
        Ret (Some (map Some (map pdn_report (pre ++ e :: suf))), @mk_rild (modem_port modem) (chan s ++ cgcontrdp (pdn_cid e) :: pdn_queries suf) (vars s) (events s))).
      rewrite Hk. cbn [chan vars events]. by rewrite <- app_assoc.
Qed.

Lemma initialised_all l : initialised (map Some l) = Ret l.
Proof. induction l as [|r l IH]; [done|]. cbn [map initialised checked mbind outcome_bind]. by rewrite IH. Qed.
End listing.

(** ** Properties *)

(** The modem's answer to a query: success, with these lines. *)
Definition tells (modem : nat -> at_request -> Z * option ATResponse) (q : at_request) (lines : list bytes) : Prop :=
  forall n, exists r, modem n q = (0, Some r) /\ success r <> 0 /\ p_intermediates r = lines.

Lemma run_table modem tbl (s : @rild (modem_port modem)) :
  tells modem pdnact (map render_pdn tbl) -> Forall pdn_ok tbl -> (length tbl <= MAX_NUM_OF_PDN)%nat ->
  @getPdnTable (modem_port modem) s = Ret (Some tbl, @mk_rild (modem_port modem) (chan s ++ [pdnact]) (vars s) (events s)).
Proof.
  intros Ht Hok Hl. destruct (Ht (length (chan s))) as (r & Em & Hr & El). unfold getPdnTable.
  rewrite (run_bind _ _ _ _ _ (run_ask_modem modem _ _ _ Em Hr)), El. unfold lift. by rewrite pdn_loop_render.
Qed.

(** C22: the data calls of the Altair modem, asked for or announced.  The modem lists its
    networks, of different contexts, and tells the addresses of each active one on a
    line; every network is then reported once, in the modem's order: an inactive one by
    its number alone, an active one with the interface of its session, its address with
    eight bits of prefix for each part of the mask before the first 0, its gateway and
    its name servers - of which the second is lost when they are written in quotes.
    Only the active ones are asked about. *)
Theorem networks_listed (modem : nat -> at_request -> Z * option ATResponse) (env : alt_env) (about : PdnTableEntry -> rdp)
  (tbl : list PdnTableEntry) (request : bool) (s : @rild (modem_port modem)) :
  tells modem pdnact (map render_pdn tbl) -> Forall pdn_ok tbl -> (length tbl <= MAX_NUM_OF_PDN)%nat ->
  NoDup (map pdn_cid tbl) -> Forall (pdn_told modem about) tbl -> (length tbl <= rounds env)%nat ->
  @requestOrSendDataCallList (modem_port modem) env request None s =
    Ret (tt, @mk_rild (modem_port modem) (chan s ++ [pdnact] ++ pdn_queries tbl) (vars s)
      (events s ++ [if request then Complete RIL_E_SUCCESS (DDataCalls (map (pdn_report about) tbl))
                    else Unsolicited RIL_UNSOL_DATA_CALL_LIST_CHANGED (DDataCalls (map (pdn_report about) tbl))])).
Proof.
  intros Ht Hok Hl Hn Ha Hr. unfold requestOrSendDataCallList.
  rewrite (run_bind _ _ _ _ _ (run_table modem tbl s Ht Hok Hl)).
  pose proof (pdn_rounds_report modem env about tbl [] (replicate (length tbl) None) (rounds env)
    (@mk_rild (modem_port modem) (chan s ++ [pdnact]) (vars s) (events s)) Ha Hn (length_replicate _ _) Hr) as E.
  cbn [map app] in E. change (length (@nil PdnTableEntry)) with 0%nat in E. rewrite (run_bind _ _ _ _ _ E).
  match goal with |- (rs ← lift _; _) ?s1 = _ =>
    rewrite (run_bind (lift _) _ s1 (map (pdn_report about) tbl) s1) by (unfold lift; by rewrite initialised_all) end.
  cbn [chan vars events]. rewrite <- app_assoc. by destruct request.
Qed.

(** Two networks, one of them connected, on a modem without quotes. *)
Definition internet : PdnTableEntry := mk_pdn 1 1 (s2b "internet") 5.
Definition mms : PdnTableEntry := mk_pdn 2 0 (s2b "mms") 6.
Definition internet_rdp (q : bool) : rdp :=
  mk_rdp_answer q 5 (s2b "internet") (10, 170, 1, 1) [255; 255; 240; 0] (s2b "10.170.1.2") (s2b "8.8.8.8") (s2b "8.8.4.4").
Definition network_modem (q : bool) (active : Z) (n : nat) (r : at_request) : Z * option ATResponse :=
  let answer lines := (0, Some (mk_at_response 1 (Some (s2b "OK")) lines)) in
  match r with
  | AT_multiline c _ =>
    if strcmp_eq c (s2b "AT%PDNACT?") then answer (map render_pdn [set_pdn_active active internet; mms])
    else if strcmp_eq c (s2b "AT+CGCONTRDP=5") then answer [render_rdp 5 (internet_rdp q)]
    else (0, Some refusal)
  | _ => answer []
  end.
Definition lte_env : alt_env := mk_alt_env SDK_19 false (fun _ => None) (fun _ => 0) (fun _ => Some []) 4 (fun _ => true).

Lemma internet_rdp_ok q : rdp_ok (internet_rdp q).
Proof.
  unfold rdp_ok. cbn [rdp_ip internet_rdp rdp_bearer rdp_apn rdp_mask rdp_quotes rdp_gw rdp_dns1 rdp_dns2].
  unfold int_ok, INT_MIN, INT_MAX, octet. split_and!; try lia; try done; try (by apply (bool_decide_unpack (QUOTE ∉ _)));
    try (repeat first [apply Forall_nil_2|apply Forall_cons_2; [lia|]]);
    (destruct q; [by apply (bool_decide_unpack (QUOTE ∉ _))|]);
    (split; [by apply (bool_decide_unpack (COMMA ∉ _))|eexists _, _; split_and!; [reflexivity|done|done]]).
Qed.

Lemma network_told q : Forall (pdn_told (network_modem q 1) (fun _ => internet_rdp q)) [internet; mms].
Proof.
  apply Forall_cons_2; [|apply Forall_cons_2; [by split|apply Forall_nil_2]]. split; [done|]. intros _.
  split; [done|]. split; [apply internet_rdp_ok|]. intros n. eexists. split_and!; [by destruct q|done|done].
Qed.

Lemma internet_ok : Forall pdn_ok [internet; mms].
Proof.
  repeat first [apply Forall_nil_2|apply Forall_cons_2]; unfold pdn_ok; split_and!; try done;
    first [by apply (bool_decide_unpack (QUOTE ∉ _))|by vm_compute; lia].
Qed.

Lemma networks_listed_witness :
  let AP := modem_port (network_modem true 1) in
  @requestOrSendDataCallList AP lte_env true None (@mk_rild AP [] vars_init []) =
    Ret (tt, @mk_rild AP [pdnact; cgcontrdp 5] vars_init [Complete RIL_E_SUCCESS (DDataCalls
      [mk_data_call 0 5 1 (Text (s2b "IP")) (Text (s2b "eth1")) (Text (s2b "10.170.1.1/24")) (Text (s2b "8.8.8.8")) (Text (s2b "10.170.1.2"));
       pdn_call mms])]).
Proof.
  intros AP. etransitivity; [refine (networks_listed (network_modem true 1) lte_env (fun _ => internet_rdp true) [internet; mms] true
    (@mk_rild AP [] vars_init []) _ internet_ok _ _ (network_told true) _)|].
  - intros n. eexists. split_and!; [reflexivity|done|done].
  - unfold MAX_NUM_OF_PDN. cbn. lia.
  - by apply (bool_decide_unpack (NoDup [5; 6])).
  - cbn. lia.
  - reflexivity.
Defined.

(** *** Connecting a network *)

(** The [k]th command is this query, and is answered so. *)
Definition tells_at (modem : nat -> at_request -> Z * option ATResponse) (k : nat) (q : at_request) (lines : list bytes) : Prop :=
  exists r, modem k q = (0, Some r) /\ success r <> 0 /\ p_intermediates r = lines.

Definition apnn (apn : bytes) : at_request := AT (s2b "AT%APNN=" ++ dquote apn).
Definition activation (sid : Z) : at_request := AT (s2b "AT%PDNACT=1," ++ print_int sid).

Definition table_ok (tbl : list PdnTableEntry) : Prop := Forall pdn_ok tbl /\ (length tbl <= MAX_NUM_OF_PDN)%nat.
Definition named (apn : bytes) (e : PdnTableEntry) : Prop := strcasecmp_eq apn (APN e) = true.

(** The entry of a network, and the commands that lead to it from the [k]th on: it is
    the first of its name in the table, in any case of letters; or there is none, and
    it is there once the network has been made that of the first session. *)
Inductive looked_up (modem : nat -> at_request -> Z * option ATResponse) (k : nat) (apn : bytes) (e : PdnTableEntry) : list at_request -> Prop :=
| looked_up_known pre post : tells_at modem k pdnact (map render_pdn (pre ++ e :: post)) -> table_ok (pre ++ e :: post) ->
    Forall (fun x => ~ named apn x) pre -> named apn e -> sessionId e <> -1 -> looked_up modem k apn e [pdnact]
| looked_up_made tbl pre post : tells_at modem k pdnact (map render_pdn tbl) -> table_ok tbl -> Forall (fun x => ~ named apn x) tbl ->
    tells_at modem (k + 2) pdnact (map render_pdn (pre ++ e :: post)) -> table_ok (pre ++ e :: post) ->
    Forall (fun x => ~ named apn x) pre -> named apn e -> sessionId e <> -1 -> looked_up modem k apn e [pdnact; apnn apn; pdnact].

Lemma find_apn_none apn tbl : Forall (fun x => ~ named apn x) tbl -> find_apn (Some apn) tbl = Ret None.
Proof.
  induction 1 as [|x tbl Hx _ IH]; [done|]. cbn [find_apn checked mbind outcome_bind]. unfold named in Hx.
  by destruct (strcasecmp_eq apn (APN x)).
Qed.

Lemma find_apn_first apn pre e post :
  Forall (fun x => ~ named apn x) pre -> named apn e -> find_apn (Some apn) (pre ++ e :: post) = Ret (Some e).
Proof.
  induction 1 as [|x pre Hx _ IH]; intros He; cbn [app find_apn checked mbind outcome_bind]; [by rewrite He|].
  unfold named in Hx. destruct (strcasecmp_eq apn (APN x)); [done|by apply IH].
Qed.

Lemma run_lookup modem apn tbl o (s : @rild (modem_port modem)) :
  tells_at modem (length (chan s)) pdnact (map render_pdn tbl) -> table_ok tbl -> find_apn (Some apn) tbl = Ret o ->
  @getPdnByApnName (modem_port modem) (Some apn) s =
    Ret (match o with Some e => if sessionId e =? -1 then None else Some e | None => None end,
         @mk_rild (modem_port modem) (chan s ++ [pdnact]) (vars s) (events s)).
Proof.
  intros (r & Em & Hr & El) [Hok Hl] Ef. unfold getPdnByApnName.
  assert (@getPdnTable (modem_port modem) s = Ret (Some tbl, @mk_rild (modem_port modem) (chan s ++ [pdnact]) (vars s) (events s))) as E.
  { unfold getPdnTable. rewrite (run_bind _ _ _ _ _ (run_ask_modem modem _ _ _ Em Hr)), El. unfold lift. by rewrite pdn_loop_render. }
  rewrite (run_bind _ _ _ _ _ E). unfold lift, mbind, ril_bind. by rewrite Ef.
Qed.

Lemma run_find_or_set modem apn e qs (s : @rild (modem_port modem)) :
  looked_up modem (length (chan s)) apn e qs ->
  @find_or_set (modem_port modem) (Some apn) s = Ret (Some e, @mk_rild (modem_port modem) (chan s ++ qs) (vars s) (events s)).
Proof.
  intros H. unfold find_or_set. destruct H as [pre post Ht Hok Hp He Hs|tbl pre post Ht Hok Hp Ht2 Hok2 Hp2 He Hs].
  - rewrite (run_bind _ _ _ _ _ (run_lookup modem apn _ _ s Ht Hok (find_apn_first _ _ _ _ Hp He))).
    by destruct (Z.eqb_spec (sessionId e) (-1)).
  - rewrite (run_bind _ _ _ _ _ (run_lookup modem apn _ _ s Ht Hok (find_apn_none _ _ Hp))). rewrite run_send.
    cbn [chan vars events]. rewrite (run_lookup modem apn (pre ++ e :: post) (Some e)).
    + cbn [chan vars events]. rewrite <- !app_assoc. by destruct (Z.eqb_spec (sessionId e) (-1)).
    + cbn [chan]. rewrite !length_app. cbn [length]. by replace (length (chan s) + 1 + 1)%nat with (length (chan s) + 2)%nat by lia.
    + done.
    + by apply find_apn_first.
Qed.

Lemma run_activation modem env sid r (s : @rild (modem_port modem)) :
  isDelayAtChannel env = false -> modem (length (chan s)) (activation sid) = (0, Some r) ->
  let s1 := @mk_rild (modem_port modem) (chan s ++ [activation sid]) (vars s) (events s) in
  @activateDataSessionPdn (modem_port modem) env sid s =
    if success r =? 0 then Ret (-1, s1)
    else if ifc_init env (length (events s)) <? 0 then Ret (-1, s1)
    else Ret (0, @mk_rild (modem_port modem) (chan s ++ [activation sid]) (vars s) (events s ++ [Interface (IFNAME sid) true])).
Proof.
  intros Hd Em s1. unfold activateDataSessionPdn, debug_pause. rewrite Hd.
  rewrite (run_bind _ _ s tt s eq_refl).
  assert (@command (modem_port modem) (activation sid) s = Ret ((0, Some r), s1)) as Ec
    by (unfold command; cbn [at_send modem_port]; unfold modem_send; by rewrite Em).
  rewrite (run_bind _ _ _ _ _ Ec), (run_bind _ _ s1 tt s1 eq_refl).
  unfold succeeded_ne. cbn [Z.eqb negb checked mbind outcome_bind].
  destruct (success r =? 0); [reflexivity|].
  rewrite (run_bind (lift (Ret (Some r))) _ s1 (Some r) s1 eq_refl), run_ifc_config. cbn [events s1]. by destruct (ifc_init env (length (events s)) <? 0).
Qed.

(** One network is reported as one of a table of itself. *)
Lemma run_report_one modem env about e (s : @rild (modem_port modem)) :
  pdn_told modem about e -> (1 <= rounds env)%nat ->
  @requestOrSendDataCallList (modem_port modem) env true (Some e) s =
    Ret (tt, @mk_rild (modem_port modem) (chan s ++ pdn_queries [e]) (vars s)
      (events s ++ [Complete RIL_E_SUCCESS (DDataCalls [pdn_report about e])])).
Proof.
  intros He Hr. unfold requestOrSendDataCallList. rewrite (run_bind _ _ s (Some [e]) s eq_refl).
  pose proof (pdn_rounds_report modem env about [e] [] [None] (rounds env) s (Forall_cons_2 _ _ _ He (Forall_nil_2 _))
    (NoDup_singleton _) eq_refl Hr) as E.
  cbn [map app] in E. change (length (@nil PdnTableEntry)) with 0%nat in E. cbn [length replicate].
  rewrite (run_bind _ _ _ _ _ E). reflexivity.
Qed.

(** C9: a data call is set up: the network is looked up by its name - or, when the modem
    does not know it, made that of its first session and looked up again -, its session
    is activated, and its interface is brought up; the request is then completed with
    this one call, its addresses as the modem tells them.  When the modem refuses, or
    the interface cannot be configured, the request fails; with a refusal no interface
    is touched. *)
Theorem network_connected (modem : nat -> at_request -> Z * option ATResponse) (env : alt_env) (about : PdnTableEntry -> rdp)
  (a b : option bytes) (apn : bytes) (l : list (option bytes)) (e : PdnTableEntry) (qs : list at_request) (r : ATResponse)
  (s : @rild (modem_port modem)) :
  looked_up modem (length (chan s)) apn e qs -> isDelayAtChannel env = false ->
  modem (length (chan s ++ qs)) (activation (sessionId e)) = (0, Some r) ->
  let e1 := set_pdn_active 1 e in
  let setup := @requestSetupDataCall (modem_port modem) env (RStrings (a :: b :: Some apn :: l)) s in
  let sent := chan s ++ qs ++ [activation (sessionId e)] in
  let up := Interface (IFNAME (sessionId e)) true in
  (success r <> 0 -> 0 <= ifc_init env (length (events s)) -> pdn_told modem about e1 -> (1 <= rounds env)%nat ->
   setup = Ret (tt, @mk_rild (modem_port modem) (sent ++ [cgcontrdp (pdn_cid e)]) (vars s)
     (events s ++ [up; Complete RIL_E_SUCCESS (DDataCalls [rdp_call e1 (about e1)])]))) /\
  (success r = 0 \/ ifc_init env (length (events s)) < 0 ->
   setup = Ret (tt, @mk_rild (modem_port modem) sent (vars s) (events s ++ [Complete RIL_E_GENERIC_FAILURE DNone]))).
Proof.
  intros Hl Hd Em e1 setup sent up. subst setup. unfold requestSetupDataCall.
  rewrite (run_bind (lift (strings (RStrings (a :: b :: Some apn :: l)))) _ s _ s eq_refl).
  rewrite (run_bind (lift (arr_rd (a :: b :: Some apn :: l) 2)) _ s _ s eq_refl).
  rewrite (run_bind _ _ _ _ _ (run_find_or_set modem apn e qs s Hl)).
  pose proof (run_activation modem env (sessionId e) r (@mk_rild (modem_port modem) (chan s ++ qs) (vars s) (events s)) Hd Em) as Ea.
  cbn [chan vars events] in Ea. rewrite <- app_assoc in Ea. fold sent up in Ea. split.
  - intros Hr Hi Ht Hn. rewrite (proj2 (Z.eqb_neq _ _) Hr), (proj2 (Z.ltb_ge _ _) Hi) in Ea.
    rewrite (run_bind _ _ _ _ _ Ea). change (0 <? 0) with false. cbn match.
    rewrite (run_report_one modem env about) by done. cbn [chan vars events]. rewrite <- (app_assoc (events s)). reflexivity.
  - intros H. assert (@activateDataSessionPdn (modem_port modem) env (sessionId e) (@mk_rild (modem_port modem) (chan s ++ qs) (vars s) (events s)) =
      Ret (-1, @mk_rild (modem_port modem) sent (vars s) (events s))) as Ef.
    { rewrite Ea. destruct H as [->|H]; [done|]. rewrite (proj2 (Z.ltb_lt _ _) H). by destruct (success r =? 0). }
    rewrite (run_bind _ _ _ _ _ Ef). reflexivity.
Qed.

(** The network of [network_modem] is connected, under a name in other letters; and a
    modem that refuses everything it has not been asked before. *)
Definition refused_session (n : nat) (q : at_request) : Z * option ATResponse :=
  match q with AT _ => (0, Some refusal) | _ => network_modem false 0 n q end.

Lemma network_connected_witness :
  let setup modem := @requestSetupDataCall (modem_port modem) lte_env (RStrings [None; None; Some (s2b "INTERNET")])
    (@mk_rild (modem_port modem) [] vars_init []) in
  setup (network_modem false 0) = Ret (tt, @mk_rild (modem_port (network_modem false 0)) [pdnact; activation 1; cgcontrdp 5] vars_init
    [Interface (s2b "eth1") true; Complete RIL_E_SUCCESS (DDataCalls
      [mk_data_call 0 5 1 (Text (s2b "IP")) (Text (s2b "eth1")) (Text (s2b "10.170.1.1/24")) (Text (s2b "8.8.8.8 8.8.4.4")) (Text (s2b "10.170.1.2"))])]) /\
  setup refused_session = Ret (tt, @mk_rild (modem_port refused_session) [pdnact; activation 1] vars_init [Complete RIL_E_GENERIC_FAILURE DNone]).
Proof.
  intros setup.
  assert (table_ok [set_pdn_active 0 internet; mms]) as Hok.
  { split; [|by vm_compute; lia]. repeat first [apply Forall_nil_2|apply Forall_cons_2]; unfold pdn_ok; split_and!; try done;
      first [by apply (bool_decide_unpack (QUOTE ∉ _))|by vm_compute; lia]. }
  assert (forall modem, (forall n, snd (modem n pdnact) = snd (network_modem false 0 n pdnact) /\ fst (modem n pdnact) = 0) ->
    looked_up modem 0 (s2b "INTERNET") (set_pdn_active 0 internet) [pdnact]) as Hl.
  { intros modem Hm. apply (looked_up_known _ _ _ _ [] [mms]); [|done|apply Forall_nil_2|done|done].
    destruct (Hm 0%nat) as [H1 H2]. eexists. split_and!; [by rewrite (surjective_pairing (modem 0%nat pdnact)), H1, H2|done|done]. }
  split.
  - refine (proj1 (network_connected (network_modem false 0) lte_env (fun _ => internet_rdp false) None None (s2b "INTERNET") []
      (set_pdn_active 0 internet) [pdnact] (mk_at_response 1 (Some (s2b "OK")) []) (@mk_rild (modem_port (network_modem false 0)) [] vars_init [])
      (Hl _ (fun _ => conj eq_refl eq_refl)) eq_refl eq_refl) _ _ _ _); [done|done| |by vm_compute; lia].
    split; [done|]. intros _. split; [done|]. split; [apply internet_rdp_ok|]. intros n. eexists. split_and!; done.
  - refine (proj2 (network_connected refused_session lte_env (fun _ => internet_rdp false) None None (s2b "INTERNET") []
      (set_pdn_active 0 internet) [pdnact] refusal (@mk_rild (modem_port refused_session) [] vars_init [])
      (Hl refused_session (fun _ => conj eq_refl eq_refl)) eq_refl eq_refl) _). by left.
Defined.

(** *** Ending a call *)

(** the end of a data call: the session of the context is deactivated and its interface
    taken down.  A number that no entry has - one that is not a number counts as 0 -
    makes the search run past the entries. *)
Theorem network_disconnected (modem : nat -> at_request -> Z * option ATResponse) (env : alt_env) (tbl : list PdnTableEntry)
  (cid : bytes) (l : list (option bytes)) (r : ATResponse) (s : @rild (modem_port modem)) :
  tells_at modem (length (chan s)) pdnact (map render_pdn tbl) -> table_ok tbl ->
  let stop := @requestDeactivateDataCall (modem_port modem) env (RStrings (Some cid :: l)) s in
  (forall pre e post, tbl = pre ++ e :: post -> atoi cid ∉ map pdn_cid pre -> pdn_cid e = atoi cid ->
     let q := AT (s2b "AT%PDNACT=0," ++ print_int (sessionId e)) in
     fst (modem (length (chan s) + 1)%nat q) = 0 -> 0 <= ifc_init env (length (events s)) ->
     stop = Ret (tt, @mk_rild (modem_port modem) (chan s ++ [pdnact; q]) (vars s)
       (events s ++ [Interface (IFNAME (sessionId e)) false; Complete RIL_E_SUCCESS DNone]))) /\
  (atoi cid ∉ map pdn_cid tbl -> stop = Ub).
Proof.
  intros (rt & Em & Hr & El) [Hok Hl] stop. subst stop. unfold requestDeactivateDataCall.
  assert (@getPdnTable (modem_port modem) s = Ret (Some tbl, @mk_rild (modem_port modem) (chan s ++ [pdnact]) (vars s) (events s))) as E.
  { unfold getPdnTable. rewrite (run_bind _ _ _ _ _ (run_ask_modem modem _ _ _ Em Hr)), El. unfold lift. by rewrite pdn_loop_render. }
  rewrite (run_bind (lift (strings (RStrings (Some cid :: l)))) _ s _ s eq_refl).
  rewrite (run_bind (lift (arr_rd (Some cid :: l) 0)) _ s _ s eq_refl).
  rewrite (run_bind (lift (checked (Some cid))) _ s _ s eq_refl), (run_bind _ _ _ _ _ E). split.
  - intros pre e post -> Hp He Hq Hi. set (q := AT (s2b "AT%PDNACT=0," ++ print_int (sessionId e))) in *.
    assert (find_pdn_cid (atoi cid) (pre ++ e :: post) = Ret e) as Ef.
    { unfold find_pdn_cid. clear E El Hok Hl. induction pre as [|x pre IH]; cbn [app List.find]; [by rewrite He, Z.eqb_refl|].
      cbn [map] in Hp. apply not_elem_of_cons in Hp as [Hx Hp]. destruct (Z.eqb_spec (pdn_cid x) (atoi cid)); [congruence|by apply IH]. }
    match goal with |- (e ← lift _; _) ?s1 = _ => rewrite (run_bind (lift _) _ s1 e s1) by (unfold lift; by rewrite Ef) end.
    rewrite run_command_null. cbn [chan vars events]. rewrite length_app. cbn [length]. fold q. rewrite Hq.
    change (negb (0 =? 0)) with false. cbn match. rewrite run_ifc_config. cbn [events chan vars].
    rewrite (proj2 (Z.ltb_ge _ _) Hi). change (0 <? 0) with false. cbn match. unfold complete, emit. cbn [chan vars events].
    by rewrite <- !app_assoc.
  - intros Hn. assert (find_pdn_cid (atoi cid) tbl = Ub) as Ef.
    { unfold find_pdn_cid. clear E El Hok Hl. induction tbl as [|x tbl' IH]; [done|]. cbn [List.find].
      cbn [map] in Hn. apply not_elem_of_cons in Hn as [Hx Hn]. destruct (Z.eqb_spec (pdn_cid x) (atoi cid)); [congruence|by apply IH]. }
    unfold lift, mbind, ril_bind. by rewrite Ef.
Qed.

Lemma network_disconnected_witness :
  let stop cid := @requestDeactivateDataCall (modem_port (network_modem true 1)) lte_env (RStrings [Some (s2b cid); None])
    (@mk_rild (modem_port (network_modem true 1)) [] vars_init []) in
  stop "5" = Ret (tt, @mk_rild (modem_port (network_modem true 1)) [pdnact; AT (s2b "AT%PDNACT=0,1")] vars_init
    [Interface (s2b "eth1") false; Complete RIL_E_SUCCESS DNone]) /\
  stop "7" = Ub.
Proof.
  intros stop.
  assert (table_ok [internet; mms]) as Hok by (split; [exact internet_ok|by vm_compute; lia]).
  pose proof (fun cid => network_disconnected (network_modem true 1) lte_env [internet; mms] (s2b cid) [None] refusal
    (@mk_rild (modem_port (network_modem true 1)) [] vars_init [])) as H.
  split.
  - refine (proj1 (H "5" _ Hok) [] internet [mms] eq_refl _ eq_refl eq_refl _); [|by apply not_elem_of_nil|done].
    eexists. split_and!; [reflexivity|done|done].
  - refine (proj2 (H "7" _ Hok) _); [eexists; split_and!; [reflexivity|done|done]|].
    by apply (bool_decide_unpack (7 ∉ [5; 6])).
Defined.

(** *** A context shared by two entries *)

(** What the modem says of a context without name servers and without quotes. *)
Definition render_rdp_short (cid : Z) (d : rdp) : bytes :=
  s2b "+CGCONTRDP:" ++ [32] ++ print_int cid ++ COMMA :: print_int (rdp_bearer d) ++ COMMA :: quoted (rdp_apn d) ++
  COMMA :: (rdp_addr d ++ 46 :: dotted (rdp_mask d)) ++ COMMA :: rdp_gw d.

Definition short_ok (d : rdp) : Prop := rdp_ok d /\ rdp_quotes d = false.

(** The fields of such a line can be read, as the first line of an entry or as the
    second one. *)
Lemma rdp_fields_short env v6 pdn d r :
  short_ok d -> 0 <= sessionId pdn < 4 -> (exists o, global_ipv6 env 5 0 (nth (Z.to_nat (sessionId pdn)) ETH_IF_NAME []) = Ret o) ->
  exists r', rdp_fields env v6 pdn (Some (print_int (rdp_bearer d) ++ COMMA :: quoted (rdp_apn d) ++
      COMMA :: (rdp_addr d ++ 46 :: dotted (rdp_mask d)) ++ COMMA :: rdp_gw d)) r = Ret (Some r') /\
    dc_status r' = dc_status r /\ dc_cid r' = dc_cid r.
Proof.
  intros [Hd Hf] Hs [o Ho]. pose proof (rdp_addr_field d Hd) as Ha. rewrite Hf in Ha. unfold rdp_ok in Hd. rewrite Hf in Hd.
  destruct (rdp_ip d) as [[[a b] c] e4] eqn:Eip. destruct Hd as (Hb & Hq & Ho1 & Ho2 & Ho3 & Ho4 & Hm & Hlm & Hg & _).
  unfold rdp_fields. rewrite read_number by done. cbn [mbind option_bind].
  rewrite (read_field true) by done. cbn [mbind option_bind].
  pose proof (read_field false _ (rdp_gw d) Ha) as Er. cbn [field] in Er. rewrite Er. cbn [mbind option_bind checked outcome_bind].
  pose proof (read_field_last false _ Hg) as Eg. cbn [field] in Eg.
  assert (eth_if_name (sessionId pdn) = Ret (nth (Z.to_nat (sessionId pdn)) ETH_IF_NAME [])) as En.
  { assert (sessionId pdn = 0 \/ sessionId pdn = 1 \/ sessionId pdn = 2 \/ sessionId pdn = 3) as H by lia.
    unfold eth_if_name. by repeat destruct H as [->|H]; [..|rewrite H]. }
  destruct v6.
  - rewrite En. cbn [mbind outcome_bind]. rewrite Ho. cbn [mbind outcome_bind]. rewrite Eg. cbn.
    eexists. split; [reflexivity|]. by destruct o.
  - unfold rdp_addr in *. rewrite Eip in *. rewrite ipv4_address_dotted by done. cbn [mbind outcome_bind]. rewrite Eg. cbn.
    by eexists.
Qed.

Lemma start_short cid d : int_ok cid ->
  (cur ← read_start (Some (render_rdp_short cid d)); read_int cur) =
    Some (cid, Some (print_int (rdp_bearer d) ++ COMMA :: quoted (rdp_apn d) ++
      COMMA :: (rdp_addr d ++ 46 :: dotted (rdp_mask d)) ++ COMMA :: rdp_gw d)).
Proof.
  intros Hc. replace (read_start _) with (Some (Some ([32] ++ print_int cid ++ COMMA :: print_int (rdp_bearer d) ++ COMMA :: quoted (rdp_apn d) ++
    COMMA :: (rdp_addr d ++ 46 :: dotted (rdp_mask d)) ++ COMMA :: rdp_gw d))) by done.
  cbn [mbind option_bind]. by rewrite read_int_comma by (done || by repeat constructor).
Qed.

Section shared.
Context (modem : nat -> at_request -> Z * option ATResponse) (env : alt_env) (e0 e1 : PdnTableEntry) (d : rdp).
Hypothesis (Hd : short_ok d) (Hc : int_ok (pdn_cid e0)) (Hs : 0 <= sessionId e0 < 4) (Hcid : pdn_cid e1 = pdn_cid e0).
Hypothesis (Ha0 : pdn_active e0 <> 0) (Ha1 : pdn_active e1 <> 0).
Hypothesis Hip : exists o, global_ipv6 env 5 0 (nth (Z.to_nat (sessionId e0)) ETH_IF_NAME []) = Ret o.
Hypothesis Hm : tells modem (cgcontrdp (pdn_cid e0)) [render_rdp_short (pdn_cid e0) d].

(** The line is always taken for the first entry, which it leaves with a status of 0. *)
Lemma shared_line i v6 r o :
  dc_cid r = pdn_cid e0 -> (dc_status r = -1 /\ v6 = false \/ dc_status r = 0 /\ v6 = false) ->
  exists r', rdp_line env [e0; e1] (render_rdp_short (pdn_cid e0) d) (mk_rdp i v6 [Some r; o]) =
      Ret (RdpNext (mk_rdp 0 (negb (dc_status r =? -1)) [Some r'; o])) /\ dc_status r' = 0 /\ dc_cid r' = pdn_cid e0.
Proof using Hd Hc Hs Hip.
  intros Hr Hst. unfold rdp_line. rewrite start_short by done. cbn [responses find_response checked mbind outcome_bind].
  rewrite Hr, Z.eqb_refl. cbn [mbind outcome_bind]. change (Z.of_nat 0) with 0.
  assert (arr_rd [Some r; o] 0 = Ret (Some r)) as -> by (apply (arr_rd_nat [Some r; o] 0)).
  assert (arr_rd [e0; e1] 0 = Ret e0) as -> by (apply (arr_rd_nat [e0; e1] 0)). cbn [checked mbind outcome_bind isIpv6Line].
  destruct Hst as [[Est ->]|[Est ->]]; rewrite Est; cbn [Z.eqb Pos.eqb negb andb orb].
  - unfold rdp_head. change (Z.of_nat MAX_NUM_OF_PDN) with 4. rewrite (proj2 (Z.ltb_lt _ _) (proj2 Hs)).
    assert (eth_if_name (sessionId e0) = Ret (nth (Z.to_nat (sessionId e0)) ETH_IF_NAME [])) as ->.
    { assert (sessionId e0 = 0 \/ sessionId e0 = 1 \/ sessionId e0 = 2 \/ sessionId e0 = 3) as H by lia.
      unfold eth_if_name. by repeat destruct H as [->|H]; [..|rewrite H]. }
    cbn [mbind outcome_bind].
    match goal with |- context [rdp_fields env false e0 _ ?r1] => destruct (rdp_fields_short env false e0 d r1 Hd Hs Hip) as (r' & E & E1 & E2) end.
    rewrite E. cbn [mbind outcome_bind]. exists r'. split_and!; [done|by rewrite E1|by rewrite E2].
  - cbn [rdp_head mbind outcome_bind].
    match goal with |- context [rdp_fields env true e0 _ ?r1] => destruct (rdp_fields_short env true e0 d r1 Hd Hs Hip) as (r' & E & E1 & E2) end.
    rewrite E. cbn [mbind outcome_bind]. exists r'. split_and!; [done|by rewrite E1|by rewrite E2].
Qed.

(** A round with the command and its line. *)
Lemma shared_round fuel i e rs st (s : @rild (modem_port modem)) :
  [e0; e1] !! i = Some e -> pdn_active e <> 0 -> pdn_cid e = pdn_cid e0 ->
  rdp_line env [e0; e1] (render_rdp_short (pdn_cid e0) d) (mk_rdp i false (<[i := Some (pdn_call e)]> rs)) = Ret (RdpNext st) ->
  @pdn_rounds (modem_port modem) env (S fuel) [e0; e1] i rs s =
    @pdn_rounds (modem_port modem) env fuel [e0; e1] (S (rdp_i st)) (responses st)
      (@mk_rild (modem_port modem) (chan s ++ [cgcontrdp (pdn_cid e0)]) (vars s) (events s)).
Proof using Hm.
  intros Hi Ha He El. cbn [pdn_rounds]. rewrite Hi, (proj2 (Z.eqb_neq _ _) Ha), He.
  destruct (Hm (length (chan s))) as (r & Em & Hr & Er).
  rewrite (run_bind _ _ _ _ _ (run_ask_modem modem _ _ _ Em Hr)), Er. cbn [rdp_lines]. rewrite El. reflexivity.
Qed.

Lemma shared_forever fuel : forall r o (s : @rild (modem_port modem)),
  dc_cid r = pdn_cid e0 -> dc_status r = 0 -> @pdn_rounds (modem_port modem) env fuel [e0; e1] 1 [Some r; o] s = NoFuel.
Proof using Hd Hc Hs Hcid Ha1 Hip Hm.
  induction fuel as [|fuel IH]; intros r o s Hr Hst; [done|].
  destruct (shared_line 1 false r (Some (pdn_call e1)) Hr (or_intror (conj Hst eq_refl))) as (r' & E & E1 & E2).
  rewrite (shared_round fuel 1 e1 [Some r; o] _ s eq_refl Ha1 Hcid E). by apply IH.
Qed.

Lemma shared_never fuel (s : @rild (modem_port modem)) :
  @pdn_rounds (modem_port modem) env fuel [e0; e1] 0 [None; None] s = NoFuel.
Proof using Hd Hc Hs Hcid Ha0 Ha1 Hip Hm.
  destruct fuel as [|fuel]; [done|].
  destruct (shared_line 0 false (pdn_call e0) None eq_refl (or_introl (conj eq_refl eq_refl))) as (r' & E & E1 & E2).
  rewrite (shared_round fuel 0 e0 [None; None] _ s eq_refl Ha0 eq_refl E). by apply shared_forever.
Qed.
End shared.

(** the list of data calls need not be given at all.  The loop over the lines of a
    context moves the index of the loop over the entries: when two active entries have
    the same context, its line is always taken for the first one, and the second one is
    looked at again and again, a command to the modem each time - for any number of
    rounds. *)
Theorem shared_context_never_listed (modem : nat -> at_request -> Z * option ATResponse) (env : alt_env) (e0 e1 : PdnTableEntry)
  (d : rdp) (request : bool) (s : @rild (modem_port modem)) :
  tells modem pdnact (map render_pdn [e0; e1]) -> Forall pdn_ok [e0; e1] -> 0 <= sessionId e0 < 4 ->
  pdn_active e0 <> 0 -> pdn_active e1 <> 0 -> pdn_cid e1 = pdn_cid e0 -> short_ok d ->
  (exists o, global_ipv6 env 5 0 (nth (Z.to_nat (sessionId e0)) ETH_IF_NAME []) = Ret o) ->
  tells modem (cgcontrdp (pdn_cid e0)) [render_rdp_short (pdn_cid e0) d] ->
  @requestOrSendDataCallList (modem_port modem) env request None s = NoFuel.
Proof.
  intros Ht Hok Hs Ha0 Ha1 Hc Hd Hip Hm. unfold requestOrSendDataCallList.
  rewrite (run_bind _ _ _ _ _ (run_table modem [e0; e1] s Ht Hok (le_S _ _ (le_S _ _ (le_n 2))))).
  pose proof Hok as Hok'. apply Forall_cons in Hok' as [(_ & _ & Hi & _) _].
  pose proof (shared_never modem env e0 e1 d Hd Hi Hs Hc Ha0 Ha1 Hip Hm (rounds env)
    (@mk_rild (modem_port modem) (chan s ++ [pdnact]) (vars s) (events s))) as E.
  cbn [length replicate]. unfold mbind, ril_bind. by rewrite E.
Qed.

(** The networks of one context on two sessions. *)
Definition second_session : PdnTableEntry := mk_pdn 2 1 (s2b "mms") 5.
Definition shared_modem (n : nat) (r : at_request) : Z * option ATResponse :=
  let answer lines := (0, Some (mk_at_response 1 (Some (s2b "OK")) lines)) in
  match r with
  | AT_multiline c _ =>
    if strcmp_eq c (s2b "AT%PDNACT?") then answer (map render_pdn [internet; second_session])
    else answer [render_rdp_short 5 (internet_rdp false)]
  | _ => answer []
  end.

Lemma shared_context_never_listed_witness :
  @requestOrSendDataCallList (modem_port shared_modem) lte_env true None (@mk_rild (modem_port shared_modem) [] vars_init []) = NoFuel.
Proof.
  apply (shared_context_never_listed shared_modem lte_env internet second_session (internet_rdp false)); try done.
  - intros n. eexists. split_and!; [reflexivity|done|done].
  - repeat first [apply Forall_nil_2|apply Forall_cons_2]; unfold pdn_ok; split_and!; try done;
      first [by apply (bool_decide_unpack (QUOTE ∉ _))|by vm_compute; lia].
  - split; [apply internet_rdp_ok|done].
  - by eexists.
  - intros n. eexists. split_and!; [reflexivity|done|done].
Defined.
