(* ===== verification/AltNetwork.v ===== *)
(** * The Altair RIL's network requests

    Signal strength, registration, operator, the choice of a network and the modem's
    technology: [altair-ril.c].  The functions that are those of [reference-ril.c] word
    for word are taken from [RilNetwork]; their names here say so. *)

From S2P Require Import Prelude CString AtTok Misc AtChannel RilPort RilCalls RilNetwork AltPort AltData.

(** ** Signal strength *)

Inductive MEAS_Type := MEAS_RSRP | MEAS_RSRQ | MEAS_SINR | MEAS_RSSI | MEAS_RSSNR | MEAS_CQI | MEAS_CSQ.

Definition meas_request (type : MEAS_Type) : at_request :=
  let meas n prefix := AT_singleline (s2b "AT%MEAS=" ++ dquote (s2b n)) (s2b prefix) in
  match type with
  | MEAS_RSRP => meas "0" "RSRP: Reported = "
  | MEAS_RSRQ => meas "1" "RSRQ: Reported = "
  | MEAS_SINR => meas "2" "SINR: Reported = "
  | MEAS_RSSI => meas "3" "RSSI: Reported = "
  | MEAS_RSSNR => meas "13" "RS_SNR: Reported = "
  | MEAS_CQI => meas "7" "CQI: "
  | MEAS_CSQ => AT_singleline (s2b "AT+CSQ") (s2b "+CSQ: ")
  end.

(** What [sscanf] returns of one [%d]: 0, EOF, or 1 and the number. *)
Inductive scanned := NoMatch | AtEnd | Scanned (v : Z).

(** The words of a format, with white space before each, then [%d]. *)
Fixpoint scan_words (words : list bytes) (s : bytes) : scanned :=
  let s := skipWhiteSpace_s s in
  match words with
  | [] =>
    match s with [] => AtEnd | _ => match scan_d s with Some (v, _) => Scanned v | None => NoMatch end end
  | w :: words =>
    if starts w s then scan_words words (drop (length w) s)
    else if starts s w then AtEnd else NoMatch
  end.

Definition reported_words : list bytes := [s2b "Reported"; s2b "="].

(** The result and [*responseVal]: [None] when it has not been set.  At the end of the
    line [sscanf] returns -1, which passes for a match. *)
Definition meas_value (type : MEAS_Type) (cur : option bytes) : outcome (option (option Z)) :=
  match type with
  | MEAS_CQI | MEAS_CSQ => Ret (match read_int cur with Some (v, _) => Some (Some v) | None => None end)
  | _ =>
    s ← checked cur;
    let negated := match type with MEAS_RSRP | MEAS_RSRQ => true | _ => false end in
    match scan_words reported_words s with
    | NoMatch => Ret None
    | AtEnd => if negated then Ub else Ret (Some None)
    | Scanned v => Ret (Some (Some (if negated then s32 (v * -1) else v)))
    end
  end.

(** ** Registration *)

Definition REG_DATA_STATE_LEN : nat := 6.
Definition REG_VOICE_3GPP2_LEN : nat := 14.

(** The numbers of a line, into an array with one place more than the line has commas:
    a line without a cell, of one or two numbers, writes past it. *)
Definition parse_cereg (str : bytes) : outcome (option (Z * list Z)) :=
  match parse_registration str with
  | None => Ret None
  | Some (items, resp) => if items <? 3 then Ub else Ret (Some (items, resp))
  end.

(** [responseStr]: state, area, cell, technology, and the number of calls at the end. *)
Definition registration_texts (g2 voice : bool) (resp : list Z) (calls : Z) : list (option bytes) :=
  let cell i := if nth i resp 0 =? -1 then None else str_x (nth i resp 0) in
  let tail := if voice then [None; None] else [None; str_d calls] in
  if g2 then
    [str_d (nth 0 resp 0); None; None; str_d RADIO_TECH_LTE] ++ tail ++
    (if voice then replicate (REG_VOICE_3GPP2_LEN - REG_DATA_STATE_LEN) None else [])
  else [str_d (nth 0 resp 0); cell 1%nat; cell 2%nat; str_d RADIO_TECH_LTE] ++ tail.

(** ** Operator *)

(** A line of [+COPS], read as [reference-ril.c] reads one: [None] is [goto error]; the
    name may be missing. *)
Definition cops_line : bytes -> option (option bytes) := operator_line.

(** ** The networks in range *)

Definition statStr : list bytes := [s2b "unknown"; s2b "available"; s2b "current"; s2b "forbidden"].

(** One network after its opening parenthesis: what is left of the line, and the four
    texts when all of them can be read. *)
Definition network_texts (line : option bytes) : outcome (option bytes * option (list (option bytes))) :=
  match at_tok_nextint line with
  | (err, Some stat, line) =>
    if err <? 0 then Ret (line, None)
    else
      status ← arr_rd statStr stat;
      match read_str line with
      | None => Ret (None, None)
      | Some (long, line) =>
        match read_str line with
        | None => Ret (None, None)
        | Some (short, line) =>
          match read_str line with
          | None => Ret (None, None)
          | Some (numeric, line) => Ret (line, Some [long; short; numeric; Some status])
          end
        end
      end
  | (_, None, line) => Ret (line, None)
  end.

(** The loop over the opening parentheses, for [count] networks; each one passes a
    character, so the length of the line bounds the rounds.  After the last field of
    the line there is no text to search. *)
Fixpoint scan_networks (fuel : nat) (count : Z) (line : option bytes) : outcome (list (option bytes)) :=
  if 0 <? count then
    match fuel with
    | O => NoFuel
    | S fuel =>
      s ← checked line;
      match strchr s 40 with
      | None => Ret []
      | Some rest =>
        '(line, texts) ← network_texts (Some (drop 1 rest));
        match texts with
        | None => scan_networks fuel count line
        | Some t => ts ← scan_networks fuel (count - 1) line; Ret (t ++ ts)
        end
      end
    end
  else Ret [].

(** The last two parentheses are not networks; with fewer than two the array has a
    negative size. *)
Definition available_networks (line : bytes) : outcome (list (option bytes)) :=
  let count := count_char 41 line - 2 in
  if count <? 0 then Ub else scan_networks (S (length line)) count (Some line).

(** The network types and the technology for the framework, as in the reference RIL. *)
Definition net2modem : list Z := RilNetwork.net2modem.
Definition net2pmask : list Z := RilNetwork.net2pmask.
Definition networkModePossible : ModemInfo -> Z -> outcome bool := RilNetwork.networkModePossible.
Definition techFromModemType : Z -> Z := RilNetwork.techFromModemType.

(** ** Handlers *)

Section handlers.
Context `{AP : at_port} (env : alt_env).

(** The value, [None] when not set, and whether the result is 0; of an error it is -1. *)
Definition requestSignalStrength_helper (type : MEAS_Type) : ril (option Z * bool) :=
  line ← ask_line (meas_request type);
  match line with
  | None => mret (Some (-1), false)
  | Some line =>
    match read_start (Some line) with
    | None => mret (Some (-1), false)
    | Some cur =>
      o ← lift (meas_value type cur);
      mret (match o with Some v => (v, true) | None => (Some (-1), false) end)
    end
  end.

Definition requestSignalStrength : ril unit :=
  '(csq, ok) ← requestSignalStrength_helper MEAS_CSQ;
  if negb ok then complete RIL_E_GENERIC_FAILURE DNone
  else
    '(rsrp, _) ← requestSignalStrength_helper MEAS_RSRP;
    '(rsrq, _) ← requestSignalStrength_helper MEAS_RSRQ;
    '(rssnr, _) ← requestSignalStrength_helper MEAS_RSSNR;
    '(cqi, _) ← requestSignalStrength_helper MEAS_CQI;
    complete RIL_E_SUCCESS (DLteSignal csq rsrp rsrq rssnr cqi).

(** *** Technology *)

(** [TECH_BIT]: here the technology is its bit. *)
Definition TECH_BIT (m : ModemInfo) : Z := currentTech m.

Definition probeForModemMode : ril unit :=
  v ← get_vars;
  let m := sMdmInfo v in
  set_vars (set_mdm (mk_mdm MDM_LTE MDM_LTE 0 (preferredNetworkMode m) (subscription_source m))).

(** It is neither kept nor told to the modem. *)
Definition requestSetPreferredNetworkType (data : ril_request_data) : ril unit :=
  value ← lift (int_at data 0);
  _ ← lift (arr_rd net2pmask value);
  v ← get_vars;
  possible ← lift (networkModePossible (sMdmInfo v) value);
  if negb possible then complete RIL_E_MODE_NOT_SUPPORTED DNone else complete RIL_E_SUCCESS DNone.

Definition requestGetPreferredNetworkType : ril unit := complete RIL_E_SUCCESS (DInts [11]).

(** [err != 0 || p_response->p_intermediates == NULL], by either prefix. *)
Definition version_line (prefix : bytes) : ril (option bytes) :=
  '(err, r) ← command (AT_singleline (s2b "AT+CGMR") prefix);
  if negb (err =? 0) then mret None
  else r ← lift (checked r); mret (head (p_intermediates r)).

Definition requestLteBaseBandVersion : ril unit :=
  line ← version_line (s2b "LTEUSB");
  line ← match line with Some l => mret (Some l) | None => version_line (s2b "ALT") end;
  match line with
  | None => complete RIL_E_GENERIC_FAILURE DNone
  | Some line =>
    match read_str (Some line) with
    | None => complete RIL_E_GENERIC_FAILURE DNone
    | Some (responseStr, _) => s ← lift (checked responseStr); complete RIL_E_SUCCESS (DString s)
    end
  end.

(** [AT+WPRL?]; nothing calls it. *)
Definition requestCdmaPrlVersion : ril unit :=
  line ← ask_line (AT_singleline (s2b "AT+WPRL?") (s2b "+WPRL:"));
  match line with
  | None => complete RIL_E_GENERIC_FAILURE DNone
  | Some line =>
    match (cur ← read_start (Some line); read_str cur) with
    | Some (Some s, _) => complete RIL_E_SUCCESS (DString s)
    | _ => complete RIL_E_GENERIC_FAILURE DNone
    end
  end.

(** *** Registration *)

Definition parseRegistrationState (str : bytes) : ril (option (Z * list Z)) :=
  o ← lift (parse_cereg str);
  match o with
  | None => mret None
  | Some (_, resp) =>
    _ ← set_vars (set_cell (nth 1 resp 0) (nth 2 resp 0));
    v ← get_vars;
    mret (Some (techFromModemType (currentTech (sMdmInfo v)), resp))
  end.

Definition cereg : at_request := AT_singleline (s2b "AT+CEREG?") (s2b "+CEREG:").

(** Whether the command succeeded is not asked before its line is read. *)
Definition command_line (q : at_request) : ril (option bytes) :=
  '(err, r) ← command q;
  if negb (err =? 0) then mret None
  else r ← lift (checked r); line ← lift (first_line r); mret (Some line).

(** How many data calls there may be. *)
Definition registration_calls : ril Z :=
  tbl ← getPdnTable;
  mret (match tbl with
        | Some t => if (0 <? length t)%nat && (length t <? MAX_NUM_OF_PDN)%nat then Z.of_nat (length t) else 1
        | None => 1
        end).

Definition requestRegistrationState (voice : bool) : ril unit :=
  line ← command_line cereg;
  match line with
  | None => complete RIL_E_GENERIC_FAILURE DNone
  | Some line =>
    o ← parseRegistrationState line;
    match o with
    | None => complete RIL_E_GENERIC_FAILURE DNone
    | Some (type, registration) =>
      calls ← (if voice then mret 0 else registration_calls);
      complete RIL_E_SUCCESS (DStrings (registration_texts (is3gpp2 env type =? 1) voice registration calls))
    end
  end.

(** *** Operator *)

Definition cops_query : at_request := AT_singleline (s2b "AT+COPS?") (s2b "+COPS:").
Definition copsCmd : list bytes := [s2b "AT+COPS=3,0"; s2b "AT+COPS=3,1"; s2b "AT+COPS=3,2"].

Fixpoint operator_names (cmds : list bytes) : ril (option (list (option bytes))) :=
  match cmds with
  | [] => mret (Some [])
  | cmd :: cmds =>
    err ← command_null (AT cmd);
    if negb (err =? 0) then mret None
    else
      line ← command_line cops_query;
      match line with
      | None => mret None
      | Some line =>
        match cops_line line with
        | None => mret None
        | Some name =>
          names ← operator_names cmds;
          mret (ns ← names; Some (name :: ns))
        end
      end
  end.

Definition requestOperator : ril unit :=
  names ← operator_names copsCmd;
  match names with
  | None => complete RIL_E_GENERIC_FAILURE DNone
  | Some names => complete RIL_E_SUCCESS (DStrings names)
  end.

(** *** The choice of a network *)

(** A refusal is only logged. *)
Definition cmatt (on : Z) : ril Z :=
  '(err, r) ← command (AT (s2b "AT%CMATT=" ++ print_int on));
  _ ← (if err =? 0 then r ← lift (checked r); mret (success r) else mret 0);
  mret err.
Definition disconnectLTE : ril Z := cmatt 0.
Definition connectLTE : ril Z := cmatt 1.

Definition PLMN_SIZE : nat := 20.

(** [strcpy] into the caller's twenty bytes *)
Definition plmn_copy (out : option bytes) : outcome bytes :=
  s ← checked out; if (length s <? PLMN_SIZE)%nat then Ret s else Ub.

(** [*mode] and [plmnName] from the caller's [-1] and empty name; whether it failed
    is not asked. *)
Definition getConnectModeAndPlmnName : ril (Z * bytes) :=
  err ← command_null (AT (s2b "AT+COPS=3,2"));
  if negb (err =? 0) then mret (-1, [])
  else
    line ← ask_line_ne cops_query;
    match line with
    | None => mret (-1, [])
    | Some line =>
      match read_start (Some line) with
      | None => mret (-1, [])
      | Some cur =>
        let '(err, o, cur) := at_tok_nextint cur in
        let mode := match o with Some m => m | None => -1 end in
        if err <? 0 then mret (mode, [])
        else if at_tok_hasmore cur then
          match read_int cur with
          | None => mret (mode, [])
          | Some (_, cur) =>
            if at_tok_hasmore cur then
              match read_str cur with
              | None => mret (mode, [])
              | Some (name, _) => plmn ← lift (plmn_copy name); mret (mode, plmn)
              end
            else mret (mode, [])
          end
        else mret (mode, [])
      end
    end.

Definition reconnect : ril unit :=
  err ← connectLTE;
  if negb (err =? 0) then complete RIL_E_GENERIC_FAILURE DNone else complete RIL_E_SUCCESS DNone.

(** NULL is compared only when the mode is manual. *)
Definition requestSetNetworkSelectionManual (data : ril_request_data) : ril unit :=
  mccMnc ← lift (match data with RString s => Ret (Some s) | RNone => Ret None | _ => Ub end);
  '(mode, cPlmn) ← getConnectModeAndPlmnName;
  differs ← (if negb (mode =? 1) then mret true else m ← lift (checked mccMnc); mret (negb (strcmp_eq cPlmn m)));
  if differs : bool then
    err ← disconnectLTE;
    if negb (err =? 0) then complete RIL_E_GENERIC_FAILURE DNone
    else
      r ← ask (AT (s2b "AT+COPS=1,2," ++ dquote (print_str mccMnc)));
      match r with
      | None => complete RIL_E_GENERIC_FAILURE DNone
      | Some _ => reconnect
      end
  else reconnect.

Definition requestSetNetworkSelectionAutomatic : ril unit :=
  '(mode, _) ← getConnectModeAndPlmnName;
  if mode =? 0 then complete RIL_E_SUCCESS DNone
  else
    err ← disconnectLTE;
    if negb (err =? 0) then complete RIL_E_GENERIC_FAILURE DNone
    else
      err ← command_null (AT (s2b "AT+COPS=0"));
      if negb (err =? 0) then complete RIL_E_GENERIC_FAILURE DNone else reconnect.

(** The networks are listed before the modem is connected again. *)
Definition requestQueryAvailableNetworks : ril unit :=
  err ← disconnectLTE;
  if negb (err =? 0) then complete RIL_E_GENERIC_FAILURE DNone
  else
    line ← ask_line_ne (AT_singleline (s2b "AT+COPS=?") (s2b "+COPS:"));
    match line with
    | None => complete RIL_E_GENERIC_FAILURE DNone
    | Some line =>
      response ← lift (available_networks line);
      err ← connectLTE;
      if negb (err =? 0) then complete RIL_E_GENERIC_FAILURE DNone
      else complete RIL_E_SUCCESS (DStrings response)
    end.

(** *** As in [reference-ril.c] *)

Definition requestQueryNetworkSelectionMode : ril unit := RilNetwork.requestQueryNetworkSelectionMode.
Definition requestGetCellInfoList : ril unit := RilNetwork.requestGetCellInfoList.
Definition requestSetCellInfoListRate : ril_request_data -> ril unit := RilNetwork.requestSetCellInfoListRate.
Definition requestCdmaDeviceIdentity : ril unit := RilNetwork.requestCdmaDeviceIdentity.
Definition requestCdmaSubscription : ril unit := RilNetwork.requestCdmaSubscription.
Definition requestCdmaGetSubscriptionSource : ril unit := RilNetwork.requestCdmaGetSubscriptionSource.
Definition requestCdmaSetSubscriptionSource : ril_request_data -> ril unit := RilNetwork.requestCdmaSetSubscriptionSource.
Definition requestCdmaGetRoamingPreference : ril unit := RilNetwork.requestCdmaGetRoamingPreference.
Definition requestCdmaSetRoamingPreference : ril_request_data -> ril unit := RilNetwork.requestCdmaSetRoamingPreference.
Definition requestExitEmergencyMode : ril unit := RilNetwork.requestExitEmergencyMode.
Definition requestVoiceRadioTech : ril unit := RilNetwork.requestVoiceRadioTech.
End handlers.

(** ** Completions *)

Section partial.
Context `{AP : at_port} `{AL : !at_port_laws Partial} (env : alt_env).

Lemma wp_helper n s type (Q : option Z * bool -> rild -> Prop) :
  good n s -> (forall r s', good n s' -> Q r s') -> wp Partial (requestSignalStrength_helper type) Q s.
Proof.
  intros H HQ. unfold requestSignalStrength_helper. ril_step.
  eapply wp_ask_line; [exact _|by destruct type|exact H|]. intros [line|] s1 H1 _; [|by apply wp_ret, HQ].
  destruct (read_start (Some line)); [|by apply wp_ret, HQ]. ril_step. apply wp_partial. intros o' _. by apply wp_ret, HQ.
Qed.

Lemma requestSignalStrength_keeps n s : good n s -> wp Partial requestSignalStrength (fun _ => good (S n)) s.
Proof.
  intros H. unfold requestSignalStrength. ril_step. eapply wp_helper; [exact H|]. intros [csq ok] s1 H1. case_match; [by ril_auto|].
  do 4 (ril_step; eapply wp_helper; [eassumption|]; intros [? ?] ? ?). ril_auto.
Qed.

Lemma probeForModemMode_keeps n s (Q : unit -> rild -> Prop) :
  good n s -> (forall s', good n s' -> Q tt s') -> wp Partial probeForModemMode Q s.
Proof.
  intros H HQ. unfold probeForModemMode. do 2 ril_step. ril_mdm. eapply mdm_step; [exact H|..|by intros; apply HQ].
  split_and!; try done; cbn; unfold int_ok, INT_MIN, INT_MAX, MDM_LTE; lia.
Qed.

Lemma requestSetPreferredNetworkType_keeps n s data :
  good n s -> wp Partial (requestSetPreferredNetworkType data) (fun _ => good (S n)) s.
Proof.
  intros H. unfold requestSetPreferredNetworkType. do 2 (ril_step; apply wp_partial; intros ? _). do 3 ril_step.
  apply wp_partial. intros ? _. case_match; ril_auto.
Qed.

Lemma wp_version_line n s prefix (Q : option bytes -> rild -> Prop) :
  good n s -> (forall o s', good n s' -> Q o s') -> wp Partial (version_line prefix) Q s.
Proof.
  intros H HQ. unfold version_line. ril_step. eapply wp_command; [exact _|exact H|]. intros err r s1 H1 _ _.
  case_match; [by apply wp_ret, HQ|]. ril_step. apply wp_partial. intros r' _. by apply wp_ret, HQ.
Qed.

Lemma requestLteBaseBandVersion_keeps n s : good n s -> wp Partial requestLteBaseBandVersion (fun _ => good (S n)) s.
Proof.
  intros H. unfold requestLteBaseBandVersion. ril_step. eapply wp_version_line; [exact H|]. intros o s1 H1. ril_step.
  eapply (wp_keep Partial _ _ n); [destruct o; [by apply wp_ret|by eapply wp_version_line; [exact H1|]]|].
  intros [line|] s2 H2; [|by ril_auto]. destruct (read_str (Some line)) as [[r c]|]; [|by ril_auto].
  ril_step. apply wp_partial. intros; by ril_auto.
Qed.

Lemma wp_command_line n s q (Q : option bytes -> rild -> Prop) :
  good n s -> (forall o s', good n s' -> vars s' = vars s -> Q o s') -> wp Partial (command_line q) Q s.
Proof.
  intros H HQ. unfold command_line. ril_step. eapply wp_command; [exact _|exact H|]. intros err r s1 H1 E1 _.
  case_match; [by apply wp_ret, HQ|]. do 2 (ril_step; apply wp_partial; intros ? _). by apply wp_ret, HQ.
Qed.

Lemma cereg_cells str items resp :
  parse_cereg str = Ret (Some (items, resp)) -> int_ok (nth 1 resp 0) /\ int_ok (nth 2 resp 0).
Proof.
  unfold parse_cereg. destruct (parse_registration str) as [[i r]|] eqn:E; [|done]. case_match; [done|].
  intros [= <- <-]. by eapply registration_cells.
Qed.

Lemma requestRegistrationState_keeps n s voice :
  good n s -> wp Partial (requestRegistrationState env voice) (fun _ => good (S n)) s.
Proof.
  intros H. unfold requestRegistrationState. ril_step. eapply wp_command_line; [exact H|]. intros [line|] s1 H1 _; [|by ril_auto].
  ril_step. eapply (wp_keep Partial _ _ n).
  { unfold parseRegistrationState. ril_step. apply wp_partial. intros [[items resp]|] E; [|by apply wp_ret].
    destruct (cereg_cells _ _ _ E) as [? ?]. ril_step. eapply wp_set; [exact H1| |by intros; ril_auto].
    destruct (good_vars _ _ H1). by split. }
  intros [[type reg]|] s2 H2; [|by ril_auto]. ril_step.
  eapply (wp_keep Partial _ _ n); [|intros; by ril_auto]. destruct voice; [by apply wp_ret|].
  unfold registration_calls. ril_step. eapply wp_getPdnTable; [exact H2|]. intros; by apply wp_ret.
Qed.

Lemma operator_names_keeps cmds : forall n s, good n s -> wp Partial (operator_names cmds) (fun _ => good n) s.
Proof.
  induction cmds as [|cmd cmds IH]; intros n s H; cbn [operator_names]; [by apply wp_ret|]. ril_step. ril_use wp_command_null.
  case_match; [by apply wp_ret|]. ril_step. eapply wp_command_line; [eassumption|]. intros [line|] ? ? _; [|by apply wp_ret].
  destruct (cops_line line); [|by apply wp_ret]. ril_step. eapply wp_keep; [by apply IH|]. intros; by apply wp_ret.
Qed.

Lemma alt_requestOperator_keeps n s : good n s -> wp Partial requestOperator (fun _ => good (S n)) s.
Proof.
  intros H. unfold requestOperator. ril_step. eapply wp_keep; [by apply operator_names_keeps|]. intros [?|] s1 H1; ril_auto.
Qed.

Lemma wp_cmatt n s on (Q : Z -> rild -> Prop) :
  good n s -> (forall err s', good n s' -> Q err s') -> wp Partial (cmatt on) Q s.
Proof.
  intros H HQ. unfold cmatt. ril_step. eapply wp_command; [exact _|exact H|]. intros err r s1 H1 _ _. ril_step.
  case_match; [|by do 2 ril_step; apply HQ]. ril_step. apply wp_partial. intros; by do 2 ril_step; apply HQ.
Qed.

Lemma reconnect_keeps n s : good n s -> wp Partial reconnect (fun _ => good (S n)) s.
Proof. intros H. unfold reconnect, connectLTE. ril_step. eapply wp_cmatt; [exact H|]. intros; case_match; ril_auto. Qed.

Lemma wp_connect_mode n s (Q : Z * bytes -> rild -> Prop) :
  good n s -> (forall r s', good n s' -> Q r s') -> wp Partial getConnectModeAndPlmnName Q s.
Proof.
  intros H HQ. unfold getConnectModeAndPlmnName. ril_step. ril_use wp_command_null. case_match; [by apply wp_ret, HQ|].
  ril_step. ril_use_line wp_ask_line_ne. destruct line as [line|]; [|by apply wp_ret, HQ].
  destruct (read_start (Some line)) as [cur|]; [|by apply wp_ret, HQ].
  destruct (at_tok_nextint cur) as [[e o] c]. repeat (case_match; try by apply wp_ret, HQ).
  all: ril_step; apply wp_partial; intros; by apply wp_ret, HQ.
Qed.

Lemma requestSetNetworkSelectionManual_keeps n s data :
  good n s -> wp Partial (requestSetNetworkSelectionManual data) (fun _ => good (S n)) s.
Proof.
  intros H. unfold requestSetNetworkSelectionManual. ril_step. apply wp_partial. intros m _. ril_step.
  eapply wp_connect_mode; [exact H|]. intros [mode plmn] s1 H1. ril_step.
  eapply (wp_keep Partial _ _ n); [case_match; [by apply wp_ret|]; ril_step; apply wp_partial; intros; by apply wp_ret|].
  intros [] s2 H2; [|by apply reconnect_keeps]. ril_step. unfold disconnectLTE. eapply wp_cmatt; [exact H2|]. intros err s3 H3.
  case_match; [by ril_auto|]. do 2 ril_step. destruct r; [by apply reconnect_keeps|by ril_auto].
Qed.

Lemma requestSetNetworkSelectionAutomatic_keeps n s :
  good n s -> wp Partial requestSetNetworkSelectionAutomatic (fun _ => good (S n)) s.
Proof.
  intros H. unfold requestSetNetworkSelectionAutomatic. ril_step. eapply wp_connect_mode; [exact H|]. intros [mode plmn] s1 H1.
  case_match; [by ril_auto|]. ril_step. unfold disconnectLTE. eapply wp_cmatt; [exact H1|]. intros err s2 H2.
  case_match; [by ril_auto|]. do 2 ril_step. case_match; [by ril_auto|by apply reconnect_keeps].
Qed.

Lemma alt_requestQueryAvailableNetworks_keeps n s : good n s -> wp Partial requestQueryAvailableNetworks (fun _ => good (S n)) s.
Proof.
  intros H. unfold requestQueryAvailableNetworks, disconnectLTE. ril_step. eapply wp_cmatt; [exact H|]. intros err s1 H1.
  case_match; [by ril_auto|]. do 2 ril_step. destruct line as [line|]; [|by ril_auto]. ril_step. apply wp_partial. intros resp _.
  ril_step. unfold connectLTE. eapply wp_cmatt; [eassumption|]. intros err2 ? ?. case_match; ril_auto.
Qed.
End partial.

(** ** Properties *)

Lemma run_command_modem modem q {B} (k : Z * option ATResponse -> @ril (modem_port modem) B) (s : @rild (modem_port modem)) :
  (x ← command q; k x) s = k (modem (length (chan s)) q) (@mk_rild (modem_port modem) (chan s ++ [q]) (vars s) (events s)).
Proof.
  unfold command, mbind, ril_bind. cbn [at_send modem_port]. unfold modem_send.
  by destruct (modem (length (chan s)) q) as [e r].
Qed.

Lemma run_command_line modem q line lines (s : @rild (modem_port modem)) :
  tells_at modem (length (chan s)) q (line :: lines) ->
  @command_line (modem_port modem) q s = Ret (Some line, @mk_rild (modem_port modem) (chan s ++ [q]) (vars s) (events s)).
Proof. intros (r & E & Hr & El). unfold command_line. rewrite run_command_modem, E. unfold first_line, lift, mbind, ril_bind. cbn. by rewrite El. Qed.

(** A table that the modem gives as its [k]th answer. *)
Lemma run_table_at modem tbl (s : @rild (modem_port modem)) :
  tells_at modem (length (chan s)) pdnact (map render_pdn tbl) -> table_ok tbl ->
  @getPdnTable (modem_port modem) s = Ret (Some tbl, @mk_rild (modem_port modem) (chan s ++ [pdnact]) (vars s) (events s)).
Proof.
  intros (r & Em & Hr & El) [Hok Hl]. unfold getPdnTable.
  rewrite (run_bind _ _ _ _ _ (run_ask_modem modem _ _ _ Em Hr)), El. unfold lift. by rewrite pdn_loop_render.
Qed.

(** C15: The registration of the Altair modem.  A line with the cell - of three to five
    numbers - completes the request with its state, its area and cell in hexadecimal
    unless they are -1, and LTE as technology; for data, with the number of networks
    in the modem's table too, when that is one to three.  A line without the cell, that
    of a modem that is not registered, writes past its array, and an error of the modem
    is followed through a missing line. *)
Theorem lte_registration_reported (modem : nat -> at_request -> Z * option ATResponse) (env : alt_env) (voice : bool)
  (tbl : list PdnTableEntry) (prefix : bytes) (fs lines : list bytes) (items stat lac cid ty : Z) (s : @rild (modem_port modem)) :
  is3gpp2 env (techFromModemType (currentTech (sMdmInfo (vars s)))) = 0 ->
  let run := @requestRegistrationState (modem_port modem) env voice s in
  let cell z := if z =? -1 then None else str_x z in
  (tells_at modem (length (chan s)) cereg ((prefix ++ COLON :: join_commas fs) :: lines) -> COLON ∉ prefix ->
   registration_form fs items stat lac cid ty ->
   (3 <= items -> tells_at modem (length (chan s) + 1) pdnact (map render_pdn tbl) -> table_ok tbl ->
    let calls := Z.of_nat (length tbl) in
    run = Ret (tt, @mk_rild (modem_port modem) (chan s ++ cereg :: if voice then [] else [pdnact]) (set_cell lac cid (vars s))
      (events s ++ [Complete RIL_E_SUCCESS (DStrings ([str_d stat; cell lac; cell cid; str_d RADIO_TECH_LTE; None] ++
        [if voice then None else str_d (if (0 <? calls) && (calls <? 4) then calls else 1)]))]))) /\
   (items < 3 -> run = Ub)) /\
  (snd (modem (length (chan s)) cereg) = Some refusal -> fst (modem (length (chan s)) cereg) = 0 -> run = Ub).
Proof.
  intros Hg run cell. subst run. unfold requestRegistrationState. split.
  - intros Ht Hp Hf. rewrite (run_bind _ _ _ _ _ (run_command_line modem cereg _ _ s Ht)).
    pose proof (parse_registration_form prefix fs items stat lac cid ty Hp Hf) as Ep. split.
    + intros Hi Hn Hok. set (calls := Z.of_nat (length tbl)). set (s1 := @mk_rild (modem_port modem) (chan s ++ [cereg]) (vars s) (events s)).
      assert (@parseRegistrationState (modem_port modem) (prefix ++ COLON :: join_commas fs) s1 =
        Ret (Some (techFromModemType (currentTech (sMdmInfo (vars s))), [stat; lac; cid; ty; 0]),
             @mk_rild (modem_port modem) (chan s ++ [cereg]) (set_cell lac cid (vars s)) (events s))) as E.
      { unfold parseRegistrationState, parse_cereg. rewrite Ep. by rewrite (proj2 (Z.ltb_ge _ _) Hi). }
      rewrite (run_bind _ _ _ _ _ E). rewrite Hg. change (0 =? 1) with false. clear E Ep. destruct voice; [reflexivity|].
      assert (@registration_calls (modem_port modem) (@mk_rild (modem_port modem) (chan s ++ [cereg]) (set_cell lac cid (vars s)) (events s)) =
        Ret (if (0 <? calls) && (calls <? 4) then calls else 1,
          @mk_rild (modem_port modem) (chan s ++ [cereg; pdnact]) (set_cell lac cid (vars s)) (events s))) as E.
      { unfold registration_calls.
        assert (tells_at modem (length (chan s ++ [cereg])) pdnact (map render_pdn tbl)) as Hn' by (by rewrite length_app).
        rewrite (run_bind _ _ _ _ _ (run_table_at modem tbl
          (@mk_rild (modem_port modem) (chan s ++ [cereg]) (set_cell lac cid (vars s)) (events s)) Hn' Hok)). cbn [chan vars events]. rewrite <- app_assoc.
        destruct tbl as [|x [|y [|z [|u t]]]]; try reflexivity. by rewrite (proj2 (Z.ltb_ge calls 4)) by (subst calls; cbn [length]; lia). }
      by rewrite (run_bind _ _ _ _ _ E).
    + intros Hi. unfold mbind at 1, ril_bind at 1, parseRegistrationState, parse_cereg. rewrite Ep.
      by rewrite (proj2 (Z.ltb_lt _ _) Hi).
  - intros Hr He. unfold command_line, mbind, ril_bind, command. cbn [at_send modem_port]. unfold modem_send.
    destruct (modem (length (chan s)) cereg) as [e r]. cbn [fst snd] in *. subst. reflexivity.
Qed.

(** A modem that gives one answer to the registration and has one network. *)
Definition cereg_modem (line : bytes) (n : nat) (q : at_request) : Z * option ATResponse :=
  match n with
  | O => (0, Some (mk_at_response 1 (Some (s2b "OK")) [line]))
  | _ => (0, Some (mk_at_response 1 (Some (s2b "OK")) [render_pdn internet]))
  end.
Definition erring_modem (n : nat) (q : at_request) : Z * option ATResponse := (0, Some refusal).

Definition lte_vars : ril_vars := set_state RADIO_STATE_ON (set_mdm (mk_mdm MDM_LTE MDM_LTE 0 0 0) vars_init).

Lemma lte_registration_reported_witness :
  let run modem voice := @requestRegistrationState (modem_port modem) lte_env voice (@mk_rild (modem_port modem) [] lte_vars []) in
  let home := cereg_modem (s2b "+CEREG:2,1,1a2b,1c3d4e,7") in
  run home false = Ret (tt, @mk_rild (modem_port home) [cereg; pdnact] (set_cell 0x1A2B 0x1C3D4E lte_vars)
    [Complete RIL_E_SUCCESS (DStrings [str_s "1"; str_s "1a2b"; str_s "1c3d4e"; str_s "14"; None; str_s "1"])]) /\
  run (cereg_modem (s2b "+CEREG:2,0")) true = Ub /\ run erring_modem true = Ub.
Proof.
  intros run home.
  assert (forall z, 0 <= z < 2 ^ 24 -> int_ok z) as Hz by (unfold int_ok, INT_MIN, INT_MAX; lia).
  split; [|split].
  - refine (proj1 (proj1 (lte_registration_reported home lte_env false [internet] (s2b "+CEREG")
      [print_int 2; print_int 1; print_hex 0x1A2B; print_hex 0x1C3D4E; print_hex 7] [] 5 1 0x1A2B 0x1C3D4E 7 (@mk_rild (modem_port home) [] lte_vars []) eq_refl)
      _ _ _) _ _ _).
    + eexists. split_and!; [reflexivity|done|done].
    + by apply (bool_decide_unpack (COLON ∉ _)).
    + apply form_type; by apply Hz.
    + done.
    + eexists. split_and!; [reflexivity|done|done].
    + split; [|by vm_compute; lia]. pose proof internet_ok as H. apply Forall_cons in H as [H _]. by apply Forall_cons_2.
  - refine (proj2 (proj1 (lte_registration_reported (cereg_modem (s2b "+CEREG:2,0")) lte_env true [] (s2b "+CEREG")
      [print_int 2; print_int 0] [] 2 0 (-1) (-1) 0 (@mk_rild (modem_port (cereg_modem (s2b "+CEREG:2,0"))) [] lte_vars []) eq_refl)
      _ _ _) _).
    + eexists. split_and!; [reflexivity|done|done].
    + by apply (bool_decide_unpack (COLON ∉ _)).
    + apply form_n_stat; by apply Hz.
    + done.
  - exact (proj2 (lte_registration_reported erring_modem lte_env true [] [] [] [] 0 0 0 0 0 (@mk_rild (modem_port erring_modem) [] lte_vars []) eq_refl)
      eq_refl eq_refl).
Defined.

(** *** Networks in range *)

Record network := mk_network { net_stat : Z; net_long : bytes; net_short : bytes; net_numeric : bytes }.

Definition render_network (n : network) : bytes :=
  40 :: print_int (net_stat n) ++ COMMA :: quoted (net_long n) ++ COMMA :: quoted (net_short n) ++ COMMA :: quoted (net_numeric n) ++ [41].

Definition network_named (n : network) : Prop :=
  0 <= net_stat n < 4 /\ Forall (fun s => (QUOTE ∉ s) /\ 41 ∉ s) [net_long n; net_short n; net_numeric n].

Definition network_report (n : network) : list (option bytes) :=
  [Some (net_long n); Some (net_short n); Some (net_numeric n); statStr !! Z.to_nat (net_stat n)].

(** Networks with commas between them and after the last one. *)
Fixpoint render_networks (l : list network) (rest : bytes) : bytes :=
  match l with [] => rest | n :: l => render_network n ++ COMMA :: render_networks l rest end.

Lemma network_texts_render n rest :
  network_named n ->
  network_texts (Some (print_int (net_stat n) ++ COMMA :: quoted (net_long n) ++ COMMA :: quoted (net_short n) ++ COMMA ::
    quoted (net_numeric n) ++ [41] ++ COMMA :: rest)) = Ret (Some rest, Some (network_report n)).
Proof.
  intros [Hs Hn]. apply Forall_cons in Hn as [[H1 _] Hn]. apply Forall_cons in Hn as [[H2 _] Hn]. apply Forall_cons in Hn as [[H3 _] _].
  unfold network_texts. rewrite nextint_comma by (unfold int_ok, INT_MIN, INT_MAX; lia). change (0 <? 0) with false. cbn match.
  assert (exists t, arr_rd statStr (net_stat n) = Ret t /\ statStr !! Z.to_nat (net_stat n) = Some t) as (t & -> & Et).
  { assert (net_stat n = 0 \/ net_stat n = 1 \/ net_stat n = 2 \/ net_stat n = 3) as H by lia.
    repeat destruct H as [H|H]; rewrite H; by eexists. }
  cbn [mbind outcome_bind]. rewrite (read_field true) by done. rewrite (read_field true) by done. unfold read_str.
  destruct (at_tok_nextstr_quoted [] (net_numeric n) [41] rest) as [E _]; [done|done|by apply (bool_decide_unpack (COMMA ∉ _))|].
  cbn [app] in E |- *. rewrite E. cbn match. change (0 <? 0) with false. cbn match. unfold network_report. by rewrite Et.
Qed.

Lemma scan_render l : forall fuel pre rest,
  Forall network_named l -> 40 ∉ pre -> (length l <= fuel)%nat ->
  scan_networks fuel (Z.of_nat (length l)) (Some (pre ++ render_networks l rest)) = Ret (concat (map network_report l)).
Proof.
  induction l as [|n l IH]; intros fuel pre rest Hl Hp Hf; [by destruct fuel|].
  apply Forall_cons in Hl as [Hn Hl]. destruct fuel as [|fuel]; [cbn in Hf; lia|]. cbn [scan_networks].
  rewrite (proj2 (Z.ltb_lt 0 _)) by (cbn [length]; lia). cbn [checked mbind outcome_bind render_networks].
  unfold render_network at 1. rewrite <- app_comm_cons. rewrite strchr_app_notin by done. cbn [strchr]. rewrite Z.eqb_refl. cbn [drop].
  rewrite drop_0, <- !app_assoc. cbn [app]. rewrite <- !app_assoc. cbn [app]. rewrite <- !app_assoc. cbn [app]. rewrite <- !app_assoc. cbn [app].
  pose proof (network_texts_render n (render_networks l rest) Hn) as E. cbn [app] in E. rewrite E. cbn [mbind outcome_bind].
  replace (Z.of_nat (length (n :: l)) - 1) with (Z.of_nat (length l)) by (cbn [length]; lia).
  pose proof (IH fuel [] rest Hl (not_elem_of_nil _) ltac:(cbn in Hf; lia)) as IH'. cbn [app] in IH'. by rewrite IH'.
Qed.

Lemma render_networks_count l rest : Forall network_named l -> count_char 41 (render_networks l rest) = Z.of_nat (length l) + count_char 41 rest.
Proof.
  induction 1 as [|n l [Hs Hn] _ IH]; [done|]. cbn [render_networks length]. unfold render_network.
  apply Forall_cons in Hn as [[_ H1] Hn]. apply Forall_cons in Hn as [[_ H2] Hn]. apply Forall_cons in Hn as [[_ H3] _].
  assert (forall s, 41 ∉ s -> count_char 41 (quoted s) = 0) as Hq.
  { intros s H. unfold quoted. cbn [count_char]. rewrite count_char_app, count_char_notin by done. done. }
  assert (count_char 41 (print_int (net_stat n)) = 0) as Hp.
  { apply count_char_notin. intros Hin. eapply octet_chars in Hin; [done|unfold octet; lia]. }
  cbn [count_char app]. repeat (rewrite count_char_app || cbn [count_char app]). rewrite !Hq, Hp by done. cbn. rewrite IH. lia.
Qed.

Lemma render_networks_length l rest : (length l <= length (render_networks l rest))%nat.
Proof. induction l as [|n l IH]; cbn [render_networks length]; [lia|]. rewrite length_app. cbn [length]. lia. Qed.

(** the networks in range: a line with networks, followed by the two lists of modes and
    formats, is reported in full and in order, four texts for each network.  But the
    networks are counted by the closing parentheses of the line: one in a name makes
    the search go on after the end of the line - the very example that the source
    quotes. *)
Theorem networks_in_range (pre rest : bytes) (l : list network) :
  (Forall network_named l -> 40 ∉ pre -> 41 ∉ pre -> count_char 41 rest = 2 ->
   available_networks (pre ++ render_networks l rest) = Ret (concat (map network_report l))) /\
  available_networks (s2b "+COPS: " ++ render_networks [mk_network 0 (s2b "S.F.R. (UMTS)") (s2b "S.F.R. (UMTS)") (s2b "20811")]
    (s2b ",(0-4),(0-2)")) = Ub.
Proof.
  split; [|by vm_compute]. intros Hl Hp Hp2 Hr. unfold available_networks.
  rewrite count_char_app, (count_char_notin _ pre), render_networks_count, Hr by done.
  replace (0 + (Z.of_nat (length l) + 2) - 2) with (Z.of_nat (length l)) by lia.
  rewrite (proj2 (Z.ltb_ge (Z.of_nat (length l)) 0)) by lia. apply scan_render; [done|done|].
  rewrite length_app. pose proof (render_networks_length l rest). lia.
Qed.

Definition two_networks : list network :=
  [mk_network 2 (s2b "Operator A") (s2b "OpA") (s2b "26201"); mk_network 3 (s2b "Operator B") (s2b "OpB") (s2b "26202")].

Lemma networks_in_range_witness :
  available_networks (s2b "+COPS: " ++ render_networks two_networks (s2b ",(0,1,2,3,4),(0,1,2)")) =
    Ret [str_s "Operator A"; str_s "OpA"; str_s "26201"; str_s "current"; str_s "Operator B"; str_s "OpB"; str_s "26202"; str_s "forbidden"].
Proof.
  etransitivity; [refine (proj1 (networks_in_range (s2b "+COPS: ") (s2b ",(0,1,2,3,4),(0,1,2)") two_networks) _ _ _ eq_refl)|reflexivity].
  - unfold two_networks. repeat first [apply Forall_nil_2|apply Forall_cons_2]; unfold network_named; split; try done;
      repeat first [apply Forall_nil_2|apply Forall_cons_2]; split;
      first [by apply (bool_decide_unpack (QUOTE ∉ _))|by apply (bool_decide_unpack (41 ∉ _))].
  - by apply (bool_decide_unpack (40 ∉ _)).
  - by apply (bool_decide_unpack (41 ∉ _)).
Defined.

(** *** The choice of a network *)

Definition attach (on : Z) : at_request := AT (s2b "AT%CMATT=" ++ print_int on).
Definition numeric_format : at_request := AT (s2b "AT+COPS=3,2").
Definition select (mccMnc : bytes) : at_request := AT (s2b "AT+COPS=1,2," ++ dquote mccMnc).

Lemma run_cmatt modem on r (s : @rild (modem_port modem)) :
  modem (length (chan s)) (attach on) = (0, Some r) ->
  @cmatt (modem_port modem) on s = Ret (0, @mk_rild (modem_port modem) (chan s ++ [attach on]) (vars s) (events s)).
Proof. intros E. unfold cmatt. rewrite run_command_modem. fold (attach on). by rewrite E. Qed.

(** The modem tells its mode and its network. *)
Lemma run_connect_mode modem mode plmn (s : @rild (modem_port modem)) :
  fst (modem (length (chan s)) numeric_format) = 0 ->
  tells_at modem (length (chan s) + 1) cops_query [render_cops mode 2 plmn []] ->
  int_ok mode -> QUOTE ∉ plmn -> (length plmn < PLMN_SIZE)%nat ->
  @getConnectModeAndPlmnName (modem_port modem) s =
    Ret ((mode, plmn), @mk_rild (modem_port modem) (chan s ++ [numeric_format; cops_query]) (vars s) (events s)).
Proof.
  intros Hf (r & Em & Hr & El) Hm Hq Hl. unfold getConnectModeAndPlmnName. rewrite run_command_null. fold numeric_format.
  rewrite Hf. change (negb (0 =? 0)) with false. cbn match.
  set (s1 := @mk_rild (modem_port modem) (chan s ++ [numeric_format]) (vars s) (events s)).
  assert (modem (length (chan s1)) cops_query = (0, Some r)) as Em' by (cbn [chan s1]; by rewrite length_app).
  pose proof (run_ask_modem modem _ _ _ Em' Hr) as E.
  assert (@ask_line_ne (modem_port modem) cops_query s1 = Ret (Some (render_cops mode 2 plmn []),
    @mk_rild (modem_port modem) (chan s1 ++ [cops_query]) (vars s1) (events s1))) as Ea.
  { unfold ask_line_ne. rewrite (run_bind _ _ _ _ _ E). unfold with_line, first_line, lift, mbind, ril_bind. cbn. by rewrite El. }
  rewrite (run_bind _ _ _ _ _ Ea). cbn [chan vars events s1].
  assert (read_start (Some (render_cops mode 2 plmn [])) = Some (Some ([32] ++ print_int mode ++ COMMA :: print_int 2 ++ COMMA :: quoted plmn))) as ->
    by (unfold render_cops; by rewrite app_nil_r).
  rewrite at_tok_nextint_comma by (done || by repeat constructor). change (0 <? 0) with false. cbn match.
  change (at_tok_hasmore (Some (print_int 2 ++ COMMA :: quoted plmn))) with true. cbn match.
  rewrite read_comma by done. change (at_tok_hasmore (Some (quoted plmn))) with true. cbn match.
  pose proof (read_field_last true plmn Hq) as Eq. cbn [field] in Eq. rewrite Eq. unfold plmn_copy. cbn [checked mbind outcome_bind].
  rewrite (proj2 (Nat.ltb_lt _ _) Hl). unfold lift, mbind, ril_bind. cbn. by rewrite <- app_assoc.
Qed.

(** C23: a network is chosen by its number.  A modem that is on it already, by manual choice,
    is only told to attach; otherwise it is detached, told the network, and attached
    again.  When it refuses the network the request fails, and the modem is left
    detached. *)
Theorem network_chosen (modem : nat -> at_request -> Z * option ATResponse) (mode : Z) (plmn mccMnc : bytes)
  (r0 r1 r2 : ATResponse) (s : @rild (modem_port modem)) :
  let k := length (chan s) in
  fst (modem k numeric_format) = 0 -> tells_at modem (k + 1) cops_query [render_cops mode 2 plmn []] ->
  int_ok mode -> QUOTE ∉ plmn -> (length plmn < PLMN_SIZE)%nat ->
  let run := @requestSetNetworkSelectionManual (modem_port modem) (RString mccMnc) s in
  let done qs e := Ret (tt, @mk_rild (modem_port modem) (chan s ++ [numeric_format; cops_query] ++ qs) (vars s) (events s ++ [Complete e DNone])) in
  (mode = 1 -> plmn = mccMnc -> modem (k + 2)%nat (attach 1) = (0, Some r2) -> run = done [attach 1] RIL_E_SUCCESS) /\
  (mode <> 1 \/ plmn <> mccMnc -> modem (k + 2)%nat (attach 0) = (0, Some r0) -> modem (k + 3)%nat (select mccMnc) = (0, Some r1) ->
   (success r1 <> 0 -> modem (k + 4)%nat (attach 1) = (0, Some r2) -> run = done [attach 0; select mccMnc; attach 1] RIL_E_SUCCESS) /\
   (success r1 = 0 -> run = done [attach 0; select mccMnc] RIL_E_GENERIC_FAILURE)).
Proof.
  intros k Hf Ht Hm Hq Hl run done'. subst run. unfold requestSetNetworkSelectionManual.
  rewrite (run_bind (lift (Ret (Some mccMnc))) _ s _ s eq_refl), (run_bind _ _ _ _ _ (run_connect_mode modem mode plmn s Hf Ht Hm Hq Hl)).
  set (s2 := @mk_rild (modem_port modem) (chan s ++ [numeric_format; cops_query]) (vars s) (events s)).
  assert (length (chan s2) = (k + 2)%nat) as Hk by (cbn [chan s2]; by rewrite length_app).
  set (D := if negb (mode =? 1) then mret true else m ← lift (checked (Some mccMnc)); mret (negb (strcmp_eq plmn m))).
  assert (forall b : bool, (b = true <-> mode <> 1 \/ plmn <> mccMnc) -> D s2 = Ret (b, s2)) as HD.
  { intros b Hb. subst D. destruct (Z.eqb_spec mode 1) as [->|Hne]; cbn [negb].
    - unfold lift, mbind, ril_bind, strcmp_eq. cbn. do 2 f_equal. destruct (bool_decide_reflect (plmn = mccMnc)), b; cbn; try done; exfalso.
      + by destruct (proj1 Hb eq_refl).
      + by pose proof (proj2 Hb ltac:(by right)).
    - destruct b; [done|]. by pose proof (proj2 Hb ltac:(by left)). }
  split.
  - intros -> -> Ha. assert (D s2 = Ret (false, s2)) as HD' by (apply HD; split; [done|by intros [?|?]]).
    rewrite (run_bind _ _ _ _ _ HD'). unfold reconnect, connectLTE.
    pose proof (run_cmatt modem 1 r2 s2) as Ec. rewrite Hk in Ec.
    rewrite (run_bind _ _ _ _ _ (Ec Ha)). subst done' s2. cbn. by rewrite <- app_assoc.
  - intros Hne H0 H1. assert (D s2 = Ret (true, s2)) as HD' by (by apply HD).
    rewrite (run_bind _ _ _ _ _ HD'). cbn match. unfold disconnectLTE.
    pose proof (run_cmatt modem 0 r0 s2) as Ec. rewrite Hk in Ec.
    rewrite (run_bind _ _ _ _ _ (Ec H0)). change (negb (0 =? 0)) with false. cbn match.
    cbn [print_str]. fold (select mccMnc).
    set (s3 := @mk_rild (modem_port modem) (chan s2 ++ [attach 0]) (vars s2) (events s2)).
    assert (modem (length (chan s3)) (select mccMnc) = (0, Some r1)) as E1.
    { subst s3. cbn [chan]. rewrite length_app, Hk. cbn [length]. by replace (k + 2 + 1)%nat with (k + 3)%nat by lia. }
    split.
    + intros Hr H2. destruct (@run_ask (modem_port modem) (select mccMnc) s3 r1 (chan s3 ++ [select mccMnc])) as [E _];
        [cbn [at_send modem_port]; unfold modem_send; by rewrite E1|done|].
      rewrite (run_bind _ _ _ _ _ E). unfold reconnect, connectLTE.
      set (s4 := @mk_rild (modem_port modem) (chan s3 ++ [select mccMnc]) (vars s3) (events s3)).
      assert (length (chan s4) = (k + 4)%nat) as Hk4 by (subst s4 s3; cbn [chan]; rewrite !length_app, Hk; cbn [length]; lia).
      pose proof (run_cmatt modem 1 r2 s4) as Ed. rewrite Hk4 in Ed. rewrite (run_bind _ _ _ _ _ (Ed H2)).
      subst done' s4 s3 s2. cbn. by rewrite <- !app_assoc.
    + intros Hr. destruct (@run_ask_refused (modem_port modem) (select mccMnc) s3 (chan s3 ++ [select mccMnc])) as [E _].
      { exists 0, (Some r1). split; [cbn [at_send modem_port]; unfold modem_send; by rewrite E1|]. right. split; [done|by eexists]. }
      rewrite (run_bind _ _ _ _ _ E). subst done' s3 s2. cbn. by rewrite <- !app_assoc.
Qed.

(** A modem on a network of its own choice, that refuses one network. *)
Definition choosing_modem (n : nat) (q : at_request) : Z * option ATResponse :=
  match n with
  | 1%nat => (0, Some (mk_at_response 1 (Some (s2b "OK")) [render_cops 0 2 (s2b "26201") []]))
  | 3%nat => match q with
         | AT cmd => if bool_decide (cmd = s2b "AT+COPS=1,2," ++ dquote (s2b "26299")) then (0, Some refusal) else (0, Some acceptance)
         | _ => (0, Some acceptance)
         end
  | _ => (0, Some acceptance)
  end.

Lemma network_chosen_witness :
  let run m := @requestSetNetworkSelectionManual (modem_port choosing_modem) (RString (s2b m)) (@mk_rild (modem_port choosing_modem) [] lte_vars []) in
  run "26202" = Ret (tt, @mk_rild (modem_port choosing_modem) [numeric_format; cops_query; attach 0; select (s2b "26202"); attach 1] lte_vars
    [Complete RIL_E_SUCCESS DNone]) /\
  run "26299" = Ret (tt, @mk_rild (modem_port choosing_modem) [numeric_format; cops_query; attach 0; select (s2b "26299")] lte_vars
    [Complete RIL_E_GENERIC_FAILURE DNone]).
Proof.
  intros run.
  assert (tells_at choosing_modem 1 cops_query [render_cops 0 2 (s2b "26201") []]) as Ht by (eexists; split_and!; [reflexivity|done|done]).
  assert (QUOTE ∉ s2b "26201") as Hq by (by apply (bool_decide_unpack (QUOTE ∉ _))).
  assert (length (s2b "26201") < PLMN_SIZE)%nat as Hl by (unfold PLMN_SIZE; cbn; lia).
  split.
  - refine (proj1 (proj2 (network_chosen choosing_modem 0 (s2b "26201") (s2b "26202") acceptance acceptance acceptance
      (@mk_rild (modem_port choosing_modem) [] lte_vars []) eq_refl Ht ltac:(done) Hq Hl) _ eq_refl _) _ eq_refl); [by left|by vm_compute|done].
  - refine (proj2 (proj2 (network_chosen choosing_modem 0 (s2b "26201") (s2b "26299") acceptance refusal acceptance
      (@mk_rild (modem_port choosing_modem) [] lte_vars []) eq_refl Ht ltac:(done) Hq Hl) _ eq_refl _) _); [by left|by vm_compute|done].
Defined.
