(* ===== verification/AltSms.v ===== *)
(** * The Altair RIL's short messages

    Messages of the CDMA transport layer in both directions, over [Sms3gpp2], and those
    of [reference-ril.c] that [altair-ril.c] keeps.  The serializer's reports of a
    failure, and of memory that runs out, are assertions there. *)

From S2P Require Import Prelude CString AtTok Misc Sms3gpp2 AtChannel RilPort RilCalls RilNetwork RilSim RilSms AltPort.

(** ** Messages to the network *)

Definition RADIO_TECH_3GPP2 : Z := 2.
Definition RIL_CDMA_SMS_NO_ERROR : Z := 0.

(** [sms3gpp2], filled in from the request: neither length is compared with the array
    its bytes are copied to. *)
Definition cdma_transport (m : RIL_CDMA_SMS_Message) : outcome SMS3GPP2TransportLayer_t :=
  a ← copy_in (Sms3gpp2.address (destinationAddress sms_zero)) (cdma_digits m) 0 (number_of_digits m);
  d ← copy_in (bearerData sms_zero) (aBearerData m) 0 (u32 (uBearerDataLen m));
  Ret (mk_sms SMS3GPP2TransMsgType_PointToPoint (u16 (uTeleserviceID m)) (originatingAddress sms_zero)
    (mk_addr (cdma_digit_mode m) (cdma_number_mode m) (number_of_digits m) a)
    (u32 (uBearerDataLen m)) d SMS3GPP2TransOpt_BearerDataOption 0 cause_zero).

Definition HEXCHAR : nat := 800.

(** The bytes in [buffer], and their text in [hexchar].  The length that is handed to
    the serializer is not set; it is not used either. *)
Definition cdma_encode (m : RIL_CDMA_SMS_Message) : outcome (bytes * Z) :=
  sms3gpp2 ← cdma_transport m;
  '(buffer, bufferLen) ← SMS3GPP2_TransportLayer_Serialize sms3gpp2 0;
  if (length buffer <=? SMS_BUFFER)%nat && (length (hex_text buffer) <? HEXCHAR)%nat
  then Ret (hex_text buffer, bufferLen) else Ub.

Definition cmgs (length : Z) (text : bytes) : at_request := AT_sms (s2b "AT+CMGS=" ++ print_int length) text (s2b "+CMGS:").

(** The reference in the answer. *)
Definition message_ref (line : bytes) : option Z :=
  match (cur ← read_start (Some line); read_int cur) with Some (r, _) => Some r | None => None end.

(** ** Messages from the network *)

(** Two characters to a byte; how many bytes the text has is not compared with the
    buffer. *)
Fixpoint hex_fill (s : bytes) (i : Z) (buffer : bytes) : outcome bytes :=
  match s with
  | a :: b :: s => buffer ← arr_wr buffer i (u8 (fst (strtoul [a; b] 16))); hex_fill s (i + 1) buffer
  | _ => Ret buffer
  end.

(** [rcsm], filled in from the message. *)
Definition cdma_message (m : SMS3GPP2TransportLayer_t) : outcome RIL_CDMA_SMS_Message :=
  let a := originatingAddress m in
  digits ← copy_in (replicate RIL_CDMA_SMS_ADDRESS_MAX 0) (Sms3gpp2.address a) 0 (numOfFields a);
  data ← copy_in (replicate RIL_CDMA_SMS_BEARER_DATA_MAX 0) (bearerData m) 0 (bearerDataLen m);
  Ret (mk_cdma_sms (teleserviceIndetifier m) (digitMode a) (numberMode a) (numOfFields a) digits (bearerDataLen m) data).

(** Whether the announced length is not that of the message; -1 on an error. *)
Definition isGSMSmsUnsolicited (s : bytes) (sms_pdu : option bytes) : outcome Z :=
  match (p ← read_start (Some s); '(_, p) ← read_str p; read_int p) with
  | None => Ret (-1)
  | Some (msgLength, _) =>
    pdu ← checked sms_pdu;
    Ret (b2z (negb (s32 (msgLength * 2) =? s32 (Z.of_nat (length pdu)))))
  end.

Section handlers.
Context `{AP : at_port}.

Definition answer_ref (failure : RIL_Errno) (r : option ATResponse) : ril unit :=
  line ← with_line r;
  match line with
  | None => complete failure DNone
  | Some line =>
    match message_ref line with
    | None => complete failure DNone
    | Some msgRef => complete RIL_E_SUCCESS (DSmsSent msgRef [] (-1))
    end
  end.

Definition sendCdmaFormatedSMS (rcsm : RIL_CDMA_SMS_Message) : ril unit :=
  '(text, bufferLen) ← lift (cdma_encode rcsm);
  r ← ask (cmgs bufferLen text);
  answer_ref RIL_E_SMS_SEND_FAIL_RETRY r.

Definition requestSendSMS (data : ril_request_data) : ril unit :=
  l ← lift (strings data);
  smsc ← lift (arr_rd l 0);
  pdu ← lift (string_at l 1);
  r ← ask_ne (sms_command smsc pdu);
  answer_ref RIL_E_GENERIC_FAILURE r.

Definition requestCdmaSendSMS (data : ril_request_data) : ril unit :=
  match data with RCdmaMessage m => sendCdmaFormatedSMS m | _ => lift Ub end.

Definition RequestImsSendSms (data : ril_request_data) : ril unit :=
  match data with
  | RImsMessage tech m =>
    if negb (tech =? RADIO_TECH_3GPP2) then complete RIL_E_GENERIC_FAILURE DNone else sendCdmaFormatedSMS m
  | _ => lift Ub
  end.

(** The error branch frees memory of the stack. *)
Definition notifynewCdmaSMS (sms_pdu : bytes) : ril unit :=
  let smsHexLen := Z.of_nat (length sms_pdu) in
  if negb (smsHexLen mod 2 =? 0) then lift Ub
  else
    v ← get_vars;
    buffer ← lift (hex_fill sms_pdu 0 (sms_buffer v));
    _ ← set_vars (set_sms_buffer buffer);
    sms3gpp2 ← lift (SMS3GPP2_TransportLayer_Deserialize buffer (smsHexLen / 2) true);
    rcsm ← lift (cdma_message sms3gpp2);
    unsolicited RIL_UNSOL_RESPONSE_CDMA_NEW_SMS (DCdmaMessage rcsm).

(** ** Acknowledging: a success falls into the error branch *)

Definition requestSMSAcknowledge : ril_request_data -> ril unit := RilSms.requestSMSAcknowledge.

Definition requestCDMASMSAcknowledge (data : ril_request_data) : ril unit :=
  uErrorClass ← lift (match data with RCdmaAck e => Ret e | _ => Ub end);
  _ ← send (if uErrorClass =? RIL_CDMA_SMS_NO_ERROR then AT (s2b "AT+CNMA=1") else AT (s2b "AT+CNMA=2"));
  _ ← complete RIL_E_SUCCESS DNone;
  complete RIL_E_GENERIC_FAILURE DNone.

(** ** Messages on the card *)

Definition requestWriteSmsToSim : ril_request_data -> ril unit := RilSms.requestWriteSmsToSim.
Definition requestDeleteSmsOnSim : ril_request_data -> ril unit := RilSms.requestDeleteSmsOnSim.
End handlers.

(** ** Completions *)

Section laws.
Context `{AP : at_port} (t : mode) `{AL : !at_port_laws t}.

Lemma answer_ref_once q n s e r :
  needs_line q = true -> answer_ok q r -> good n s -> wp t (answer_ref e r) (fun _ => good (S n)) s.
Proof.
  intros Hn Hr H. unfold answer_ref. ril_step. eapply wp_with_line; [exact Hn|exact Hr|]. intros line. ril_auto.
Qed.

Lemma alt_requestSendSMS_once n s smsc pdu l :
  good n s -> wp t (requestSendSMS (RStrings (smsc :: Some pdu :: l))) (fun _ => good (S n)) s.
Proof.
  intros H. unfold requestSendSMS. do 3 (ril_step; eapply wp_lift_ret; [reflexivity|]). do 2 ril_step.
  by eapply (answer_ref_once (sms_command _ _)).
Qed.
End laws.

Section partial.
Context `{AP : at_port} `{AL : !at_port_laws Partial}.

Lemma sendCdmaFormatedSMS_keeps n s m : good n s -> wp Partial (sendCdmaFormatedSMS m) (fun _ => good (S n)) s.
Proof.
  intros H. unfold sendCdmaFormatedSMS. ril_step. apply wp_partial. intros [text len] _. do 2 ril_step.
  by eapply (answer_ref_once Partial (cmgs len text)).
Qed.

Lemma alt_requestSendSMS_keeps n s data : good n s -> wp Partial (requestSendSMS data) (fun _ => good (S n)) s.
Proof.
  intros H. unfold requestSendSMS. do 3 (ril_step; apply wp_partial; intros ? _). do 2 ril_step.
  by eapply (answer_ref_once Partial (sms_command _ _)).
Qed.

Lemma notifynewCdmaSMS_keeps n s pdu : good n s -> wp Partial (notifynewCdmaSMS pdu) (fun _ => good n) s.
Proof.
  intros H. unfold notifynewCdmaSMS. case_match; [done|]. do 3 ril_step. apply wp_partial. intros b _. ril_step.
  eapply wp_set; [exact H|by destruct (good_vars _ _ H)|]. intros s1 H1 _.
  do 2 (ril_step; apply wp_partial; intros ? _). ril_auto.
Qed.

Lemma requestCDMASMSAcknowledge_keeps n s data :
  good n s -> wp Partial (requestCDMASMSAcknowledge data) (fun _ => good (S (S n))) s.
Proof. intros H. unfold requestCDMASMSAcknowledge. ril_step. apply wp_partial. intros e _. ril_auto. Qed.
End partial.

(** ** Lemmas *)

Definition hex_byte_ok (b : Z) : bool := u8 (fst (strtoul [nibble (b ≫ 4); nibble (b .& 0x0f)] 16)) =? b.

Lemma hex_byte b : is_byte b -> u8 (fst (strtoul [nibble (b ≫ 4); nibble (b .& 0x0f)] 16)) = b.
Proof. intros Hb. apply Z.eqb_eq. apply (byte_forall hex_byte_ok); [vm_compute; reflexivity|done]. Qed.

(** The text of bytes is read back over what the buffer held. *)
Lemma hex_fill_text bs : forall pre old post, Forall is_byte bs -> length old = length bs ->
  hex_fill (hex_text bs) (Z.of_nat (length pre)) (pre ++ old ++ post) = Ret (pre ++ bs ++ post).
Proof.
  induction bs as [|b bs IH]; intros pre [|o old] post Hb Hl; try done.
  apply Forall_cons in Hb as [Hb Hbs]. cbn [hex_text hex_fill app]. rewrite hex_byte by done.
  rewrite arr_wr_at. cbn [mbind outcome_bind]. specialize (IH (pre ++ [b]) old post Hbs ltac:(by injection Hl)).
  rewrite length_app in IH. cbn [length] in IH. rewrite Nat2Z.inj_add in IH. rewrite <- !app_assoc in IH. exact IH.
Qed.

(** Fields followed by what an earlier message left in the buffer. *)
Lemma deserialize_stale t fs stale :
  Forall (fun p => decodes (fst p) (snd p)) fs -> (length fs <= 4)%nat ->
  SMS3GPP2_TransportLayer_Deserialize ((t :: concat (map fst fs)) ++ stale)
    (Z.of_nat (length (t :: concat (map fst fs)))) true =
  Ret (foldl (fun m p => snd p m) (set_msgType t sms_zero) fs).
Proof.
  intros Hfs Hl. unfold SMS3GPP2_TransportLayer_Deserialize.
  rewrite (proj2 (Z.ltb_lt 0 (Z.of_nat (length (t :: concat (map fst fs)))))) by (cbn [length]; lia).
  cbn [c_assert mbind outcome_bind]. change (arr_rd ((t :: concat (map fst fs)) ++ stale) 0) with (Ret t). cbn [mbind outcome_bind].
  assert (length fs <= length (concat (map fst fs)))%nat as Hn.
  { clear Hl. induction Hfs as [|p fs [Hp _] _ IH]; [done|]. cbn [map concat length]. rewrite length_app. destruct (fst p); [done|cbn; lia]. }
  rewrite Nat2Z.id.
  replace (length (t :: concat (map fst fs))) with (length fs + (length ([t] ++ concat (map fst fs)) - length fs))%nat at 1
    by (cbn [length app]; lia).
  pose proof (sms_loop_prefix fs (length ([t] ++ concat (map fst fs)) - length fs) [t] stale
    (Z.of_nat (length (t :: concat (map fst fs)))) (set_msgType t sms_zero) Hfs (sms_zero_wf t) ltac:(done)) as E.
  cbn [app] in E |- *. change (Z.of_nat (length [t])) with 1 in E. rewrite E.
  destruct (length (t :: concat (map fst fs)) - length fs)%nat; cbn [sms_loop]; by rewrite Z.ltb_irrefl.
Qed.

(** ** Lemmas: a message and its bytes *)

Record cdma_sms_ok (m : RIL_CDMA_SMS_Message) : Prop := {
  cdma_tele : 0 <= uTeleserviceID m < 2 ^ 16;
  cdma_dtmf : cdma_digit_mode m = 0 /\ 0 <= cdma_number_mode m < 2;
  cdma_short : 0 <= number_of_digits m < MAX_NUM_OF_ADDRESS_FIELDS /\ length (cdma_digits m) = RIL_CDMA_SMS_ADDRESS_MAX;
  cdma_dial : Forall digit_ok (take (Z.to_nat (number_of_digits m)) (cdma_digits m));
  cdma_data : 0 <= uBearerDataLen m <= 255 /\ length (aBearerData m) = RIL_CDMA_SMS_BEARER_DATA_MAX /\ Forall is_byte (aBearerData m) }.

(** What the request's message becomes. *)
Definition cdma_layer (m : RIL_CDMA_SMS_Message) : SMS3GPP2TransportLayer_t :=
  mk_sms 0 (uTeleserviceID m) addr_zero
    (mk_addr 0 (cdma_number_mode m) (number_of_digits m)
       (take (Z.to_nat (number_of_digits m)) (cdma_digits m) ++ drop (Z.to_nat (number_of_digits m)) (replicate 20 0)))
    (uBearerDataLen m) (take (Z.to_nat (uBearerDataLen m)) (aBearerData m) ++ drop (Z.to_nat (uBearerDataLen m)) (replicate 255 0))
    2 0 cause_zero.

Lemma cdma_transport_layer m : cdma_sms_ok m -> cdma_transport m = Ret (cdma_layer m).
Proof.
  intros [Ht [Hd Hm] [Hn Hl] _ (Hb & Hbl & _)]. unfold cdma_transport, copy_in, MAX_NUM_OF_ADDRESS_FIELDS, RIL_CDMA_SMS_ADDRESS_MAX, RIL_CDMA_SMS_BEARER_DATA_MAX in *.
  rewrite Hl, Hbl, (u32_small (uBearerDataLen m)) by lia.
  replace ((0 <=? 0) && (0 + number_of_digits m <=? Z.of_nat 36) && (number_of_digits m <=? Z.of_nat (length (Sms3gpp2.address (destinationAddress sms_zero))))) with true
    by (symmetry; cbn [sms_zero destinationAddress addr_zero Sms3gpp2.address]; rewrite length_replicate, !andb_true_iff, !Z.leb_le; lia).
  replace ((0 <=? 0) && (0 + uBearerDataLen m <=? Z.of_nat 255) && (uBearerDataLen m <=? Z.of_nat (length (bearerData sms_zero)))) with true
    by (symmetry; cbn [sms_zero bearerData]; rewrite length_replicate, !andb_true_iff, !Z.leb_le; lia).
  cbn [mbind outcome_bind]. unfold cdma_layer. rewrite Hd. unfold u16. by rewrite (Z.mod_small (uTeleserviceID m)).
Qed.

Lemma cdma_layer_ok m : cdma_sms_ok m -> sms_ok (cdma_layer m).
Proof.
  intros [Ht [Hd Hm] [Hn Hl] Hg (Hb & Hbl & Hby)]. unfold MAX_NUM_OF_ADDRESS_FIELDS, RIL_CDMA_SMS_ADDRESS_MAX, RIL_CDMA_SMS_BEARER_DATA_MAX in *.
  unfold sms_ok, addr_ok, cdma_layer, MAX_NUM_OF_ADDRESS_FIELDS. cbn [msgType teleserviceIndetifier destinationAddress bearerDataLen bearerData digitMode numberMode numOfFields Sms3gpp2.address].
  assert (length (take (Z.to_nat (number_of_digits m)) (cdma_digits m)) = Z.to_nat (number_of_digits m)) as El by (rewrite length_take; lia).
  split_and!; try done; try lia; try (rewrite length_app, length_take, length_drop, length_replicate; lia).
  by rewrite take_app_exact.
Qed.

Lemma pack_bytes ds : forall k, Forall is_byte (pack k ds).
Proof.
  induction ds as [|d|d0 d1 ds IH] using list_ind2; intros k; cbn [pack]; (apply Forall_cons; split; [apply u8_range|]);
    [constructor|constructor|apply IH].
Qed.

Lemma layer_options m : has_opt (cdma_layer m) SMS3GPP2TransOpt_BearerReplyOption = false /\
  has_opt (cdma_layer m) SMS3GPP2TransOpt_BearerDataOption = true.
Proof. done. Qed.

Lemma cdma_bytes m : cdma_sms_ok m -> Forall is_byte (sms_bytes (cdma_layer m) []).
Proof.
  intros Hm. pose proof (cdma_layer_ok m Hm) as (_ & _ & Ha & _ & _). pose proof Hm as [Ht _ _ _ (Hb & Hbl & Hby)].
  pose proof (addr_digits_length _ Ha) as Hlen. destruct Ha as (_ & _ & Hn & _).
  assert (forall x, is_byte (x .& 0xff)) as Hff.
  { intros x. change 0xff with (Z.ones 8). rewrite Z.land_ones by lia. apply Z.mod_pos_bound. lia. }
  unfold sms_bytes. destruct (layer_options m) as [O1 O2]. rewrite ?O1, ?O2. cbn match.
  apply Forall_cons; split; [done|]. repeat (apply Forall_app; split); try done.
  - unfold tele_field. repeat (apply Forall_cons; split); try done; apply Hff.
  - unfold dest_field. repeat (apply Forall_cons; split); try done; [|apply u8_range|apply pack_bytes].
    unfold addr_value. cbn [length]. rewrite pack_length, Hlen. unfold MAX_NUM_OF_ADDRESS_FIELDS in Hn.
    pose proof (Nat.Div0.div_le_upper_bound (Z.to_nat (numOfFields (destinationAddress (cdma_layer m)))) 2 20) as Hdiv. split; lia.
  - unfold bearer_field, cdma_layer. cbn [bearerDataLen bearerData]. repeat (apply Forall_cons; split); try done; [unfold is_byte; lia|].
    apply Forall_take, Forall_app. split; [by apply Forall_take|]. by apply Forall_drop, Forall_replicate.
Qed.

(** What is encoded, and what it says on its way back. *)
Definition cdma_sent (m : RIL_CDMA_SMS_Message) : bytes := sms_bytes (cdma_layer m) [].

Lemma cdma_sent_length m : cdma_sms_ok m -> (0 < length (cdma_sent m) < SMS_BUFFER)%nat.
Proof.
  intros Hm. pose proof (sms_bytes_length _ [] (cdma_layer_ok m Hm)) as H. unfold cdma_sent, SMS_BUFFER. cbn [length] in *.
  split; [|lia]. unfold sms_bytes. cbn [length]. lia.
Qed.

Lemma cdma_encode_sent m : cdma_sms_ok m -> cdma_encode m = Ret (hex_text (cdma_sent m), Z.of_nat (length (cdma_sent m))).
Proof.
  intros Hm. pose proof (cdma_sent_length m Hm) as Hl. unfold cdma_encode. rewrite cdma_transport_layer by done. cbn [mbind outcome_bind].
  rewrite (serialize_shape (cdma_layer m) 0 []); [|by apply cdma_layer_ok|cbn; lia|by eexists]. cbn [mbind outcome_bind].
  fold (cdma_sent m). rewrite hex_text_length. unfold SMS_BUFFER, HEXCHAR in *.
  rewrite (proj2 (Nat.leb_le (length (cdma_sent m)) 400)), (proj2 (Nat.ltb_lt (2 * length (cdma_sent m)) 800)) by lia. done.
Qed.

(** The message as it is handed up when it comes back: the address is that of the
    destination, which is not looked at. *)
Definition cdma_back (m : RIL_CDMA_SMS_Message) : RIL_CDMA_SMS_Message :=
  mk_cdma_sms (uTeleserviceID m) 0 0 0 (replicate RIL_CDMA_SMS_ADDRESS_MAX 0) (uBearerDataLen m)
    (take (Z.to_nat (uBearerDataLen m)) (aBearerData m) ++ drop (Z.to_nat (uBearerDataLen m)) (replicate RIL_CDMA_SMS_BEARER_DATA_MAX 0)).

Lemma cdma_sent_back m stale : cdma_sms_ok m ->
  (l ← SMS3GPP2_TransportLayer_Deserialize (cdma_sent m ++ stale) (Z.of_nat (length (cdma_sent m))) true; cdma_message l) = Ret (cdma_back m).
Proof.
  intros Hm. pose proof (cdma_layer_ok m Hm) as Hok.
  assert (cdma_sent m = 0 :: concat (map fst (sms_fields (cdma_layer m)))) as E.
  { unfold cdma_sent, sms_bytes, sms_fields. destruct (layer_options m) as [O1 O2]. rewrite ?O1, ?O2. cbn [map concat fst app msgType cdma_layer]. by rewrite !app_nil_r. }
  rewrite E, deserialize_stale; [|by apply sms_fields_decode|].
  2: { unfold sms_fields. cbn [length]. rewrite length_app. repeat case_match; simpl; lia. }
  cbn [mbind outcome_bind]. unfold sms_fields. destruct (layer_options m) as [O1 O2]. rewrite ?O1, ?O2. cbn [foldl snd app].
  destruct Hm as [_ _ _ _ (Hb & Hbl & _)]. unfold RIL_CDMA_SMS_BEARER_DATA_MAX in *.
  unfold cdma_message. cbn [originatingAddress set_bearer or_bitmap set_destination set_teleservice set_msgType sms_zero addr_zero
    numOfFields Sms3gpp2.address bearerDataLen bearerData teleserviceIndetifier digitMode numberMode cdma_layer].
  unfold copy_in. set (d := take (Z.to_nat (uBearerDataLen m)) (aBearerData m)).
  assert (length d = Z.to_nat (uBearerDataLen m)) as Hd by (unfold d; rewrite length_take; lia).
  rewrite (take_app_exact d) by done. unfold RIL_CDMA_SMS_ADDRESS_MAX, RIL_CDMA_SMS_BEARER_DATA_MAX. cbn [mbind outcome_bind Z.leb Z.compare andb].
  rewrite length_app, length_drop, length_replicate, Hd, andb_true_l.
  rewrite (proj2 (Z.leb_le (0 + uBearerDataLen m) _)), (proj2 (Z.leb_le (uBearerDataLen m) _)) by lia.
  cbn [mbind outcome_bind]. unfold cdma_back, RIL_CDMA_SMS_ADDRESS_MAX, RIL_CDMA_SMS_BEARER_DATA_MAX. fold d. do 2 f_equal.
  change (Z.to_nat 0) with O. rewrite drop_0. by rewrite take_app_exact.
Qed.

(** ** Properties *)

Definition cmgs_answer (ref : Z) : bytes := s2b "+CMGS:" ++ [32] ++ print_int ref.

Lemma message_ref_answer ref : int_ok ref -> message_ref (cmgs_answer ref) = Some ref.
Proof.
  intros H. unfold message_ref. assert (read_start (Some (cmgs_answer ref)) = Some (Some ([32] ++ print_int ref))) as -> by done.
  cbn [mbind option_bind]. by rewrite read_int_last by (done || by repeat constructor).
Qed.

(** What is kept of a message that comes back: over any earlier message in the buffer. *)
Lemma notify_sent `{AP : at_port} m (s : rild) :
  cdma_sms_ok m -> length (sms_buffer (vars s)) = SMS_BUFFER ->
  notifynewCdmaSMS (hex_text (cdma_sent m)) s =
    Ret (tt, mk_rild (chan s) (set_sms_buffer (cdma_sent m ++ drop (length (cdma_sent m)) (sms_buffer (vars s))) (vars s))
      (events s ++ [Unsolicited RIL_UNSOL_RESPONSE_CDMA_NEW_SMS (DCdmaMessage (cdma_back m))])).
Proof.
  intros Hm Hl. pose proof (cdma_sent_length m Hm) as Hs. set (b := cdma_sent m) in *.
  assert (Z.of_nat (length (hex_text b)) = Z.of_nat (length b) * 2) as Ht by (rewrite hex_text_length; lia).
  pose proof (hex_fill_text b [] (take (length b) (sms_buffer (vars s))) (drop (length b) (sms_buffer (vars s)))
    (cdma_bytes m Hm) ltac:(rewrite length_take; lia)) as Ef.
  cbn [app length] in Ef. change (Z.of_nat 0) with 0 in Ef. rewrite take_drop in Ef.
  pose proof (cdma_sent_back m (drop (length b) (sms_buffer (vars s))) Hm) as Eb. fold b in Eb.
  unfold notifynewCdmaSMS. cbn zeta. rewrite Ht, Z.mod_mul, Z.div_mul by done. cbn [Z.eqb negb]. rewrite run_get, Ef.
  rewrite (run_bind (lift (Ret _)) _ s _ s eq_refl), run_set.
  destruct (SMS3GPP2_TransportLayer_Deserialize _ _ _) as [l| | |]; try done. cbn [mbind outcome_bind] in Eb.
  rewrite (run_bind (lift (Ret l)) _ _ l _ eq_refl), Eb. by rewrite (run_bind (lift (Ret _)) _ _ _ _ eq_refl).
Qed.

(** C14: a CDMA message is sent as the hexadecimal text of its transport layer, announced with
    its number of bytes; the modem's reference is handed up, and a refusal asks the sender
    to try again.  The same text, when it arrives, is reported with the teleservice and
    the data it was sent with, whatever message the static buffer held before, but with
    no sender: the address sent is the destination.  An address of more than twenty
    digits, which the request's array of thirty-six allows, is copied past the array of
    the transport message. *)
Theorem cdma_sms_delivered `{AP : at_port} (m : RIL_CDMA_SMS_Message) (s : rild) (p : port) :
  let q := cmgs (Z.of_nat (length (cdma_sent m))) (hex_text (cdma_sent m)) in
  (cdma_sms_ok m ->
   (forall r ref lines, at_send q true (chan s) = Ret (0, Some r, p) -> success r <> 0 -> int_ok ref ->
      p_intermediates r = cmgs_answer ref :: lines ->
      requestCdmaSendSMS (RCdmaMessage m) s = Ret (tt, mk_rild p (vars s) (events s ++ [Complete RIL_E_SUCCESS (DSmsSent ref [] (-1))]))) /\
   (refused (at_send q true (chan s)) p ->
      requestCdmaSendSMS (RCdmaMessage m) s = Ret (tt, mk_rild p (vars s) (events s ++ [Complete RIL_E_SMS_SEND_FAIL_RETRY DNone]))) /\
   (length (sms_buffer (vars s)) = SMS_BUFFER -> exists buffer,
      notifynewCdmaSMS (hex_text (cdma_sent m)) s = Ret (tt, mk_rild (chan s) (set_sms_buffer buffer (vars s))
        (events s ++ [Unsolicited RIL_UNSOL_RESPONSE_CDMA_NEW_SMS (DCdmaMessage (cdma_back m))])))) /\
  (MAX_NUM_OF_ADDRESS_FIELDS < number_of_digits m -> requestCdmaSendSMS (RCdmaMessage m) s = Ub).
Proof.
  intros q. split.
  - intros Hm. pose proof (cdma_encode_sent m Hm) as Ee. unfold requestCdmaSendSMS, sendCdmaFormatedSMS. rewrite Ee. split_and!.
    + intros r ref lines Hq Hs Hr Hl. rewrite (run_bind (lift (Ret _)) _ s _ s eq_refl). fold q.
      rewrite (run_bind _ _ _ _ _ (proj1 (run_ask q s r p Hq Hs))). unfold answer_ref.
      assert (with_line (Some r) (mk_rild p (vars s) (events s)) = Ret (Some (cmgs_answer ref), mk_rild p (vars s) (events s))) as Ew
        by (unfold with_line, first_line; by rewrite Hl).
      rewrite (run_bind _ _ _ _ _ Ew). by rewrite message_ref_answer by done.
    + intros Hr. rewrite (run_bind (lift (Ret _)) _ s _ s eq_refl). fold q.
      by rewrite (run_bind _ _ _ _ _ (proj1 (run_ask_refused q s p Hr))).
    + intros Hl. eexists. by apply notify_sent.
  - intros Hn. unfold requestCdmaSendSMS, sendCdmaFormatedSMS, cdma_encode, cdma_transport, copy_in, MAX_NUM_OF_ADDRESS_FIELDS in *.
    cbn [sms_zero destinationAddress addr_zero Sms3gpp2.address]. rewrite length_replicate.
    rewrite (proj2 (Z.leb_gt (number_of_digits m) (Z.of_nat 20))) by lia. by rewrite andb_false_r.
Qed.

(** A message to 555 1234, and a modem that numbers the messages it sends. *)
Definition cdma_example : RIL_CDMA_SMS_Message :=
  mk_cdma_sms 4098 0 0 7 ([5; 5; 5; 1; 2; 3; 4] ++ replicate 29 0) 2 ([0xAB; 0xCD] ++ replicate 253 0).
Definition numbering_modem (n : nat) (q : at_request) : Z * option ATResponse :=
  (0, Some (mk_at_response 1 (Some (s2b "OK")) [cmgs_answer (Z.of_nat n)])).

Lemma cdma_example_ok : cdma_sms_ok cdma_example.
Proof.
  split; try (split_and!; done || (cbn; lia)).
  - by repeat (apply Forall_cons; split).
  - split_and!; [done|done|done|]. apply Forall_app. split; [by repeat (apply Forall_cons; split)|by apply Forall_replicate].
Qed.

Lemma cdma_sms_delivered_witness :
  let AP := modem_port numbering_modem in
  let text := s2b "0000021002040501D55448D00802ABCD" in
  @requestCdmaSendSMS AP (RCdmaMessage cdma_example) (@mk_rild AP [] vars_init []) =
    Ret (tt, @mk_rild AP [cmgs 16 text] vars_init [Complete RIL_E_SUCCESS (DSmsSent 0 [] (-1))]) /\
  exists buffer, @notifynewCdmaSMS AP text (@mk_rild AP [] vars_init []) =
    Ret (tt, @mk_rild AP [] (set_sms_buffer buffer vars_init) [Unsolicited RIL_UNSOL_RESPONSE_CDMA_NEW_SMS
      (DCdmaMessage (mk_cdma_sms 4098 0 0 0 (replicate 36 0) 2 ([0xAB; 0xCD] ++ replicate 253 0)))]).
Proof.
  intros AP text.
  destruct (@cdma_sms_delivered AP cdma_example (@mk_rild AP [] vars_init [])
    [cmgs (Z.of_nat (length (cdma_sent cdma_example))) (hex_text (cdma_sent cdma_example))]) as [H _].
  destruct (H cdma_example_ok) as (H1 & _ & H3). split.
  - exact (H1 _ 0 [] eq_refl ltac:(done) ltac:(done) eq_refl).
  - exact (H3 eq_refl).
Defined.
