(* ===== verification/AltCalls.v ===== *)
(** * The Altair RIL's calls

    Dialling and hanging up, and the handlers that a build with voice over LTE has,
    from [altair-ril.c].  A call list is read as [reference-ril.c] reads one. *)

From S2P Require Import Prelude CString AtTok Misc AtChannel RilPort RilCalls RilNetwork RilSim AltPort AltData AltNetwork.

(** [RIL_LastCallFailCause] *)
Definition CALL_FAIL_NORMAL : Z := 16.
Definition CALL_FAIL_BUSY : Z := 17.
Definition CALL_FAIL_CONGESTION : Z := 34.
Definition CALL_FAIL_ERROR_UNSPECIFIED : Z := 0xffff.

(** [strstr(s, p) != NULL] *)
Definition contains (s p : bytes) : bool := match strstr_off s p with Some _ => true | None => false end.

Definition fail_cause (s : bytes) : Z :=
  if contains s (s2b "ERROR") then CALL_FAIL_NORMAL
  else if contains s (s2b "DENIED") then CALL_FAIL_BUSY
  else if contains s (s2b "ANSWER") then CALL_FAIL_BUSY
  else if contains s (s2b "REJECTED") then CALL_FAIL_CONGESTION
  else CALL_FAIL_ERROR_UNSPECIFIED.

(** The line of [%VECEER]: when the first field has [NO] in it the second one is asked. *)
Definition veceer_line (line : bytes) : option Z :=
  match (cur ← read_start (Some line); read_str cur) with
  | Some (Some word, cur) =>
    if contains word (s2b "NO") then
      match read_str cur with Some (Some word, _) => Some (fail_cause word) | _ => None end
    else Some (fail_cause word)
  | _ => None
  end.

(** The number is stored through a pointer whose value is 0. *)
Definition clip_line (line : bytes) : outcome unit :=
  match read_start (Some line) with
  | None => Ret tt
  | Some cur => match at_tok_nextint cur with (_, Some _, _) => Ub | (_, None, _) => Ret tt end
  end.

(** The lines of the list of calls are those of the reference RIL. *)
Definition clccStateToRILState : Z -> option RIL_CallState := RilCalls.clccStateToRILState.
Definition callFromCLCCLine := RilCalls.callFromCLCCLine.

Section handlers.
Context `{AP : at_port} (env : alt_env).

Definition sendCallStateChanged : ril unit := RilCalls.sendCallStateChanged.

Definition requestGetCurrentCalls : ril unit :=
  if volte env then RilCalls.requestGetCurrentCalls else complete RIL_E_SUCCESS DNone.

Definition requestDial (data : ril_request_data) : ril unit :=
  p_dial ← lift (dial_data data);
  r ← ask (AT_singleline (s2b "AT+CDU=1,tel:" ++ RilPort.address p_dial) (s2b "+CDU:"));
  match r with
  | None => complete RIL_E_GENERIC_FAILURE DNone
  | Some _ => complete RIL_E_SUCCESS DNone
  end.

(** Which call is meant is not told. *)
Definition requestHangup (data : ril_request_data) : ril unit :=
  _ ← send (AT (s2b "AT+CHLD=1"));
  complete RIL_E_SUCCESS DNone.

(** ** Voice over LTE *)

Definition requestGetLastCallFailCause : ril unit :=
  line ← ask_line (AT_singleline (s2b "AT%VECEER") (s2b "%VECEER:"));
  match line with
  | None => complete RIL_E_GENERIC_FAILURE DNone
  | Some line =>
    match veceer_line line with
    | None => complete RIL_E_GENERIC_FAILURE DNone
    | Some response => complete RIL_E_SUCCESS (DInts [response])
    end
  end.

(** Both ask the same, and neither returns an answer. *)
Definition clip_query : ril unit :=
  line ← ask_line (AT_singleline (s2b "AT+CLIP?") (s2b "+CLIP:"));
  match line with
  | None => complete RIL_E_GENERIC_FAILURE DNone
  | Some line =>
    _ ← lift (clip_line line);
    complete RIL_E_GENERIC_FAILURE DNone
  end.

Definition requestGetClip : ril unit := clip_query.
Definition requestGetClir : ril unit := clip_query.

Definition requestSetClir (data : ril_request_data) : ril unit :=
  l ← lift (strings data);
  clir ← lift (string_at l 0);
  _ ← send (AT (s2b "AT+CLIR=" ++ print_int (atoi clir)));
  complete RIL_E_SUCCESS DNone.

Definition requestQuaryCallWaiting (data : ril_request_data) : ril unit :=
  class ← lift (int_at data 0);
  line ← ask_line (AT_singleline (s2b "AT+CCWA=1,2," ++ print_int class) (s2b "+CCWA: "));
  match line with
  | None => complete RIL_E_GENERIC_FAILURE DNone
  | Some line =>
    match (cur ← read_start (Some line); '(status, cur) ← read_int cur; '(class1, _) ← read_int cur; Some [status; class1]) with
    | None => complete RIL_E_GENERIC_FAILURE DNone
    | Some response => complete RIL_E_SUCCESS (DInts response)
    end
  end.

Definition requestSetCallWaiting (data : ril_request_data) : ril unit :=
  enable ← lift (int_at data 0);
  class ← lift (int_at data 1);
  r ← ask (AT (s2b "AT+CCWA=1," ++ print_int enable ++ [COMMA] ++ print_int class));
  match r with
  | None => complete RIL_E_GENERIC_FAILURE DNone
  | Some _ => complete RIL_E_SUCCESS DNone
  end.
End handlers.

(** ** Completions *)

Section laws.
Context `{AP : at_port} (t : mode) `{AL : !at_port_laws t} (env : alt_env).

Lemma alt_requestGetCurrentCalls_once n s : good n s -> wp t (requestGetCurrentCalls env) (fun _ => good (S n)) s.
Proof. intros H. unfold requestGetCurrentCalls. case_match; [by apply requestGetCurrentCalls_once|ril_auto]. Qed.

Lemma alt_requestDial_once n s d : good n s -> wp t (requestDial (RDial d)) (fun _ => good (S n)) s.
Proof. intros H. unfold requestDial. ril_step. eapply wp_lift_ret; [reflexivity|]. ril_auto. Qed.

Lemma alt_requestHangup_once n s data : good n s -> wp t (requestHangup data) (fun _ => good (S n)) s.
Proof. intros H. unfold requestHangup. ril_auto. Qed.

Lemma requestGetLastCallFailCause_once n s : good n s -> wp t requestGetLastCallFailCause (fun _ => good (S n)) s.
Proof. intros H. unfold requestGetLastCallFailCause. ril_auto. Qed.

Lemma requestSetClir_once n s c l : good n s -> wp t (requestSetClir (RStrings (Some c :: l))) (fun _ => good (S n)) s.
Proof. intros H. unfold requestSetClir. do 2 (ril_step; eapply wp_lift_ret; [reflexivity|]). ril_auto. Qed.

Lemma requestQuaryCallWaiting_once n s c l : good n s -> wp t (requestQuaryCallWaiting (RInts (c :: l))) (fun _ => good (S n)) s.
Proof. intros H. unfold requestQuaryCallWaiting. ril_step. apply wp_first_int. ril_auto. Qed.

Lemma requestSetCallWaiting_once n s e c l : good n s -> wp t (requestSetCallWaiting (RInts (e :: c :: l))) (fun _ => good (S n)) s.
Proof. intros H. unfold requestSetCallWaiting. do 2 (ril_step; eapply wp_lift_ret; [reflexivity|]). ril_auto. Qed.
End laws.

(** ** Properties *)

Lemma read_word q s : field_ok q s -> read_str (Some ([32] ++ field q s)) = Some (Some s, if q then Some [] else None).
Proof. intros H. rewrite <- (read_field_last q s H). by destruct q. Qed.

Definition veceer : at_request := AT_singleline (s2b "AT%VECEER") (s2b "%VECEER:").
Definition veceer_answer (q : bool) (word : bytes) : bytes := s2b "%VECEER:" ++ [32] ++ field q word.

Lemma veceer_line_word q word : field_ok q word ->
  veceer_line (veceer_answer q word) =
    if contains word (s2b "NO") then (if q then Some CALL_FAIL_ERROR_UNSPECIFIED else None) else Some (fail_cause word).
Proof.
  intros H. unfold veceer_line. assert (read_start (Some (veceer_answer q word)) = Some (Some ([32] ++ field q word))) as -> by done.
  cbn [mbind option_bind]. rewrite read_word by done. by destruct (contains word (s2b "NO")), q.
Qed.

(** what became of the last call, from the word the modem gives.  A word with [NO] in
    it makes the RIL look for another one after a comma: [NO ERROR], [NO ANSWER] and
    [UNKNOWN], three of the five the comment lists, fail the request, or when they are
    quoted give the unspecified cause, never the one the code has for them.  The other two
    give busy and congestion.  The queries of the caller's identity never succeed: where
    the modem answers with a number, it is stored through a null pointer. *)
Theorem call_fail_cause_reported `{AP : at_port} (s : rild) (r : ATResponse) (p : port) (line : bytes) (more : list bytes) :
  success r <> 0 -> p_intermediates r = line :: more ->
  (forall q word, at_send veceer true (chan s) = Ret (0, Some r, p) -> line = veceer_answer q word -> field_ok q word ->
   let ends e d := requestGetLastCallFailCause s = Ret (tt, mk_rild p (vars s) (events s ++ [Complete e d])) in
   if contains word (s2b "NO") then
     (if q then ends RIL_E_SUCCESS (DInts [CALL_FAIL_ERROR_UNSPECIFIED]) else ends RIL_E_GENERIC_FAILURE DNone)
   else ends RIL_E_SUCCESS (DInts [fail_cause word])) /\
  (forall n m, at_send (AT_singleline (s2b "AT+CLIP?") (s2b "+CLIP:")) true (chan s) = Ret (0, Some r, p) ->
   line = s2b "+CLIP:" ++ [32] ++ print_int n ++ COMMA :: m -> int_ok n ->
   requestGetClip s = Ub /\ requestGetClir s = Ub).
Proof.
  intros Hs Hl. split.
  - intros q word Hq -> Hw ends. subst ends. cbn zeta. unfold requestGetLastCallFailCause.
    pose proof (proj1 (run_ask_line _ _ _ _ _ _ Hq Hs Hl)) as Ea. rewrite (run_bind _ _ _ _ _ Ea), veceer_line_word by done.
    by destruct (contains word (s2b "NO")), q.
  - intros n m Hq -> Hn. pose proof (proj1 (run_ask_line _ _ _ _ _ _ Hq Hs Hl)) as Ea.
    assert (clip_query s = Ub) as E; [|done]. unfold clip_query. rewrite (run_bind _ _ _ _ _ Ea).
    unfold clip_line, lift, mbind, ril_bind.
    assert (read_start (Some (s2b "+CLIP:" ++ [32] ++ print_int n ++ COMMA :: m)) = Some (Some ([32] ++ print_int n ++ COMMA :: m))) as -> by done.
    by rewrite at_tok_nextint_comma by (done || by repeat constructor).
Qed.

Definition plain_word (f : bytes) : bool :=
  bool_decide (COMMA ∉ f) && match f with c :: _ => negb (c_isspace c) && negb (c =? QUOTE) | [] => false end.

Lemma plain_word_ok f : plain_word f = true -> field_ok false f.
Proof.
  unfold plain_word. intros [Hc H]%andb_true_iff. destruct f as [|c f]; [done|]. apply andb_true_iff in H as [Hs Hq].
  split; [by apply bool_decide_eq_true in Hc|]. exists c, f. split_and!; [done|by apply negb_true_iff in Hs|].
  intros ->. done.
Qed.

Definition veceer_modem (word : bytes) := answering [veceer_answer false word].

Lemma call_fail_cause_reported_witness :
  let cause word := @requestGetLastCallFailCause (modem_port (veceer_modem (s2b word))) (@mk_rild (modem_port (veceer_modem (s2b word))) [] vars_init []) in
  let ends word e d := cause word = Ret (tt, @mk_rild (modem_port (veceer_modem (s2b word))) [veceer] vars_init [Complete e d]) in
  ends "NO ERROR"%string RIL_E_GENERIC_FAILURE DNone /\ ends "DENIED"%string RIL_E_SUCCESS (DInts [17]) /\
  ends "NO ANSWER"%string RIL_E_GENERIC_FAILURE DNone /\ ends "REJECTED"%string RIL_E_SUCCESS (DInts [34]) /\
  ends "UNKNOWN"%string RIL_E_GENERIC_FAILURE DNone.
Proof.
  intros cause ends.
  assert (forall word, field_ok false (s2b word) ->
    if contains (s2b word) (s2b "NO") then ends word RIL_E_GENERIC_FAILURE DNone else ends word RIL_E_SUCCESS (DInts [fail_cause (s2b word)])) as H.
  { intros word Hw. refine (proj1 (@call_fail_cause_reported (modem_port (veceer_modem (s2b word)))
      (@mk_rild (modem_port (veceer_modem (s2b word))) [] vars_init [])
      (mk_at_response 1 (Some (s2b "OK")) [veceer_answer false (s2b word)]) _ _ [] _ eq_refl) false (s2b word) eq_refl eq_refl Hw). done. }
  split; [exact (H "NO ERROR"%string (plain_word_ok (s2b "NO ERROR") eq_refl))|].
  split; [exact (H "DENIED"%string (plain_word_ok (s2b "DENIED") eq_refl))|].
  split; [exact (H "NO ANSWER"%string (plain_word_ok (s2b "NO ANSWER") eq_refl))|].
  split; [exact (H "REJECTED"%string (plain_word_ok (s2b "REJECTED") eq_refl))|exact (H "UNKNOWN"%string (plain_word_ok (s2b "UNKNOWN") eq_refl))].
Defined.
