(* ===== verification/AltRil.v ===== *)
(** * The Altair RIL: its state, requests and events

    The radio's state, [onRequest], [onUnsolicited] and the callbacks of [altair-ril.c],
    and the steps of the RIL between them.  The mutex around the state is not modelled:
    an operation runs to its end. *)

From S2P Require Import Prelude CString AtTok Misc Sms3gpp2 AtChannel RilPort RilCalls RilNetwork RilState RilSim RilSms Ril AltPort AltData AltNetwork AltSms AltCalls.

(** The requests of [Ril], and those that only this RIL has a case for. *)
Inductive alt_request :=
| Shared (r : ril_request)
| SCREEN_STATE | GET_IMEISV | CDMA_SMS_ACKNOWLEDGE
| LAST_CALL_FAIL_CAUSE | QUERY_CLIP | GET_CLIR | SET_CLIR | QUERY_CALL_WAITING | SET_CALL_WAITING.

#[export] Instance alt_request_eq_dec : EqDecision alt_request.
Proof. solve_decision. Defined.

(** What an unsolicited line does: the rest of the function follows, or not. *)
Inductive passed := Passed | Stopped.

Section alt.
Context `{AP : at_port} (env : alt_env).

(** ** The radio's state and the card *)

(** The four answers of the card are those of [reference-ril.c]; the status of a RUIM is
    asked in the same way. *)
Definition getSIMStatus : ril Z := RilState.getSIMStatus.
Definition getRUIMStatus : ril Z := RilState.getSIMStatus.
Definition getCardStatus : ril RIL_CardStatus := RilState.getCardStatus.
Definition requestGetSimStatus : ril unit := RilState.requestGetSimStatus.
Definition isRadioOn : ril Z := RilState.isRadioOn.

Definition onSIMReady : ril unit :=
  _ ← at_send_command_singleline_reliable (s2b "AT+CSMS=1") (s2b "+CSMS:") false NUM_OF_RETRANSMIT;
  _ ← send (AT (s2b "AT+CMGF=0"));
  send (AT (s2b "AT+CNMI=1,2,2,1,1")).

Definition pollSIMState : ril unit :=
  v ← get_vars;
  if negb (bool_decide (sState v = RADIO_STATE_SIM_NOT_READY)) then mret tt
  else
    status ← getSIMStatus;
    if status =? SIM_NOT_READY then emit (Timed pollSIMState_cb SIMPOLL)
    else if status =? SIM_READY then
      _ ← onSIMReady;
      unsolicited RIL_UNSOL_RESPONSE_SIM_STATUS_CHANGED DNone
    else unsolicited RIL_UNSOL_RESPONSE_SIM_STATUS_CHANGED DNone.

Definition onRadioPowerOn : ril unit := pollSIMState.

Definition setRadioState (newState : RIL_RadioState) : ril unit :=
  v ← get_vars;
  let oldState := sState v in
  let newState := if 0 <? s_closed v then RADIO_STATE_UNAVAILABLE else newState in
  _ ← (if negb (bool_decide (sState v = newState)) || (0 <? s_closed v) then set_vars (set_state newState) else mret tt);
  v ← get_vars;
  if bool_decide (sState v = oldState) then mret tt
  else
    _ ← unsolicited RIL_UNSOL_RESPONSE_RADIO_STATE_CHANGED DNone;
    if bool_decide (sState v = RADIO_STATE_ON) then onRadioPowerOn else mret tt.

(** Every network's interface is brought down, up to the first that fails. *)
Fixpoint interfaces_down (tbl : list PdnTableEntry) : ril bool :=
  match tbl with
  | [] => mret true
  | e :: tbl =>
    r ← ifc_config env (IFNAME (sessionId e)) false;
    if r <? 0 then mret false else interfaces_down tbl
  end.

(** [err < 0 || p_response->success == 0] of a command that was sent again, and the
    [at_response_free] at the end of every branch. *)
Definition held_failed (err : Z) (h : held) : outcome bool :=
  if err <? 0 then Ret true else r ← held_get h; Ret (success r =? 0).

Definition power_answer (h : held) (e : RIL_Errno) : ril unit :=
  _ ← lift (held_free h);
  complete e DNone.

Definition power_off : ril unit :=
  tbl ← getPdnTable;
  match tbl with
  | None => complete RIL_E_GENERIC_FAILURE DNone
  | Some tbl =>
    down ← interfaces_down tbl;
    if negb down then complete RIL_E_GENERIC_FAILURE DNone
    else
      '(err, h) ← at_send_command_reliable (s2b "AT+CFUN=4") true NUM_OF_RETRANSMIT;
      failed ← lift (held_failed err h);
      if failed : bool then power_answer h RIL_E_GENERIC_FAILURE
      else
        _ ← setRadioState RADIO_STATE_OFF;
        power_answer h RIL_E_SUCCESS
  end.

Definition power_on : ril unit :=
  '(err, h) ← at_send_command_reliable (s2b "AT+CFUN=1") true NUM_OF_RETRANSMIT;
  failed ← lift (held_failed err h);
  on ← (if failed : bool then r ← isRadioOn; mret (r =? 1) else mret true);
  if on : bool then
    _ ← setRadioState RADIO_STATE_ON;
    power_answer h RIL_E_SUCCESS
  else power_answer h RIL_E_GENERIC_FAILURE.

(** [assert (datalen >= sizeof(int * ))] *)
Definition requestRadioPower (data : ril_request_data) : ril unit :=
  l ← lift (ints data);
  _ ← lift (c_assert (1 <=? length l)%nat);
  onOff ← lift (arr_rd l 0);
  v ← get_vars;
  if (onOff =? 0) && negb (bool_decide (sState v = RADIO_STATE_OFF)) then power_off
  else if (0 <? onOff) && (bool_decide (sState v = RADIO_STATE_OFF) || bool_decide (sState v = RADIO_STATE_UNAVAILABLE)) then power_on
  else complete RIL_E_SUCCESS DNone.

(** The commands of the initialization, in order. *)
Definition init_commands : list bytes :=
  [s2b "ATE0"; s2b "ATQ0"; s2b "AT+CMEE=1"; s2b "AT+CEREG=2"; s2b "AT%STATCM=1"; s2b "AT+CMGF=0";
   s2b "AT%NOTIFYEV=" ++ dquote (s2b "LTIME") ++ s2b ",1"] ++
  (if volte env then [s2b "AT+CLIP=1"; s2b "AT+CSSN=0,1"] else []) ++
  (if RIL_VERSION_4_4_AND_ABOVE (sdk env) then [s2b "AT+CIREG=1"] else []).

Fixpoint send_all (cmds : list bytes) : ril unit :=
  match cmds with [] => mret tt | c :: cmds => _ ← send (AT c); send_all cmds end.

Definition initializeCallback : ril unit :=
  _ ← setRadioState RADIO_STATE_OFF;
  _ ← handshake;
  _ ← probeForModemMode;
  _ ← debug_pause env;
  _ ← send_all init_commands;
  on ← isRadioOn;
  if 0 <? on then setRadioState RADIO_STATE_ON else mret tt.

(** Both callbacks of the channel do the same. *)
Definition onATReaderClosed : ril unit :=
  _ ← shut;
  _ ← set_vars (set_closed 1);
  setRadioState RADIO_STATE_UNAVAILABLE.

Definition onATTimeout : ril unit :=
  _ ← shut;
  _ ← set_vars (set_closed 1);
  setRadioState RADIO_STATE_UNAVAILABLE.

(** ** Requests *)

Definition requestSIM_IO (data : ril_request_data) : ril unit :=
  p_args ← lift (sim_io_data data);
  line ← ask_line (AT_singleline (crsm_command p_args) (s2b "+CRSM:"));
  match line with
  | None => complete RIL_E_GENERIC_FAILURE DNone
  | Some line =>
    match crsm_line line with
    | None => complete RIL_E_GENERIC_FAILURE DNone
    | Some (sw1, sw2, simResponse) => complete RIL_E_SUCCESS (DSimIo sw1 sw2 simResponse)
    end
  end.

(** [None]: the data has another length.  One pointer, or a second that is NULL. *)
Definition pin_command (l : list (option bytes)) : outcome (option bytes) :=
  match l with
  | [pin] => Ret (Some (s2b "AT+CPIN=" ++ dquote (print_str pin)))
  | _ =>
    second ← arr_rd l 1;
    pin ← arr_rd l 0;
    match second, l with
    | None, _ => Ret (Some (s2b "AT+CPIN=" ++ dquote (print_str pin)))
    | Some new, [_; _] => Ret (Some (s2b "AT+CPIN=" ++ dquote (print_str pin) ++ [COMMA] ++ dquote new))
    | _, _ => Ret None
    end
  end.

Definition requestEnterSimPin (data : ril_request_data) : ril unit :=
  l ← lift (strings data);
  cmd ← lift (pin_command l);
  match cmd with
  | None => complete RIL_E_PASSWORD_INCORRECT DNone
  | Some cmd =>
    r ← ask (AT_singleline cmd (s2b "+CPIN:"));
    match r with
    | None => complete RIL_E_PASSWORD_INCORRECT DNone
    | Some _ => complete RIL_E_SUCCESS DNone
    end
  end.

(** Registered, for 3GPP2, whatever the network says. *)
Definition requestImsRegistrationState : ril unit := complete RIL_E_SUCCESS (DInts [1; RADIO_TECH_3GPP2]).

Definition not_supported : ril unit := complete RIL_E_REQUEST_NOT_SUPPORTED DNone.

(** The cases of CDMA: when the technology is another, each falls into the next, and the
    last into the default. *)
Definition cdma_request (cdma : ril unit) : ril unit :=
  v ← get_vars;
  if TECH_BIT (sMdmInfo v) =? MDM_CDMA then cdma else not_supported.

Definition baseband_version : ril unit :=
  v ← get_vars;
  if TECH_BIT (sMdmInfo v) =? MDM_LTE then requestLteBaseBandVersion else cdma_request requestCdmaDeviceIdentity.

Definition when (b : bool) (m : ril unit) : ril unit := if b then m else not_supported.

(** The switch: the cases of the requests of [Ril]. *)
Definition handle_shared (request : ril_request) (data : ril_request_data) : ril unit :=
  match request with
  | GET_SIM_STATUS => requestGetSimStatus
  | GET_CURRENT_CALLS => requestGetCurrentCalls env
  | DIAL => requestDial data
  | HANGUP => requestHangup data
  | HANGUP_WAITING_OR_BACKGROUND => requestCallControl (s2b "AT+CHLD=0")
  | HANGUP_FOREGROUND_RESUME_BACKGROUND => requestCallControl (s2b "AT+CHLD=1")
  | SWITCH_WAITING_OR_HOLDING_AND_ACTIVE => requestCallControl (s2b "AT+CHLD=2")
  | ANSWER => requestCallControl (s2b "ATA")
  | CONFERENCE => requestCallControl (s2b "AT+CHLD=3")
  | UDUB => requestCallControl (s2b "ATH")
  | SEPARATE_CONNECTION => requestSeparateConnection data
  | SIGNAL_STRENGTH => requestSignalStrength
  | VOICE_REGISTRATION_STATE => requestRegistrationState env true
  | DATA_REGISTRATION_STATE => requestRegistrationState env false
  | OPERATOR => requestOperator
  | RADIO_POWER => requestRadioPower data
  | DTMF => requestDtmf data
  | SEND_SMS => requestSendSMS data
  | CDMA_SEND_SMS => requestCdmaSendSMS data
  | IMS_REGISTRATION_STATE => when (RIL_VERSION_4_4_AND_ABOVE (sdk env)) requestImsRegistrationState
  | IMS_SEND_SMS => when (RIL_VERSION_4_4_AND_ABOVE (sdk env)) (RequestImsSendSms data)
  | SETUP_DATA_CALL => requestSetupDataCall env data
  | DEACTIVATE_DATA_CALL => requestDeactivateDataCall env data
  | SMS_ACKNOWLEDGE => requestSMSAcknowledge data
  | GET_IMSI => requestNumeric (s2b "AT+CIMI")
  | GET_IMEI => requestNumeric (s2b "AT+CGSN")
  | SIM_IO => requestSIM_IO data
  | SEND_USSD => not_supported
  | CANCEL_USSD => requestNumeric (s2b "AT+CUSD=2")
  | SET_NETWORK_SELECTION_AUTOMATIC => requestSetNetworkSelectionAutomatic
  | DATA_CALL_LIST => requestDataCallList env
  | QUERY_NETWORK_SELECTION_MODE => requestQueryNetworkSelectionMode
  | OEM_HOOK_RAW | OEM_HOOK_STRINGS => complete RIL_E_SUCCESS (DEcho data)
  | WRITE_SMS_TO_SIM => requestWriteSmsToSim data
  | DELETE_SMS_ON_SIM => requestDeleteSmsOnSim data
  | SET_NETWORK_SELECTION_MANUAL => requestSetNetworkSelectionManual data
  | QUERY_AVAILABLE_NETWORKS => requestQueryAvailableNetworks
  | ENTER _ | CHANGE_SIM_PIN | CHANGE_SIM_PIN2 => requestEnterSimPin data
  | VOICE_RADIO_TECH => requestVoiceRadioTech
  | SET_PREFERRED_NETWORK_TYPE => requestSetPreferredNetworkType data
  | GET_PREFERRED_NETWORK_TYPE => requestGetPreferredNetworkType
  | GET_CELL_INFO_LIST => when (RIL_VERSION_4_3_AND_ABOVE (sdk env)) requestGetCellInfoList
  | SET_UNSOL_CELL_INFO_LIST_RATE => when (RIL_VERSION_4_3_AND_ABOVE (sdk env)) (requestSetCellInfoListRate data)
  | BASEBAND_VERSION => baseband_version
  | DEVICE_IDENTITY => cdma_request requestCdmaDeviceIdentity
  | CDMA_SUBSCRIPTION => cdma_request requestCdmaSubscription
  | CDMA_SET_SUBSCRIPTION_SOURCE => cdma_request (requestCdmaSetSubscriptionSource data)
  | CDMA_GET_SUBSCRIPTION_SOURCE => cdma_request requestCdmaGetSubscriptionSource
  | CDMA_QUERY_ROAMING_PREFERENCE => cdma_request requestCdmaGetRoamingPreference
  | CDMA_SET_ROAMING_PREFERENCE => cdma_request (requestCdmaSetRoamingPreference data)
  | EXIT_EMERGENCY_CALLBACK_MODE => cdma_request requestExitEmergencyMode
  | SET_FACILITY_LOCK | QUERY_FACILITY_LOCK | OTHER_REQUEST => not_supported
  end.

Definition handle (request : alt_request) (data : ril_request_data) : ril unit :=
  match request with
  | Shared r => handle_shared r data
  | SCREEN_STATE => complete RIL_E_SUCCESS DNone
  | CDMA_SMS_ACKNOWLEDGE => requestCDMASMSAcknowledge data
  | LAST_CALL_FAIL_CAUSE => when (volte env) requestGetLastCallFailCause
  | QUERY_CLIP => when (volte env) requestGetClip
  | GET_CLIR => when (volte env) requestGetClir
  | SET_CLIR => when (volte env) (requestSetClir data)
  | QUERY_CALL_WAITING => when (volte env) (requestQuaryCallWaiting data)
  | SET_CALL_WAITING => when (volte env) (requestSetCallWaiting data)
  | GET_IMEISV => not_supported
  end.

(** The requests that a radio which is off answers. *)
Definition answered_when_off (request : alt_request) : bool :=
  bool_decide (request ∈ [Shared RADIO_POWER; Shared GET_SIM_STATUS; Shared BASEBAND_VERSION; Shared GET_IMEI; GET_IMEISV; SCREEN_STATE]).

Definition onRequest (request : alt_request) (data : ril_request_data) : ril unit :=
  v ← get_vars;
  if bool_decide (sState v = RADIO_STATE_UNAVAILABLE) && negb (bool_decide (request = Shared GET_SIM_STATUS)) then
    complete RIL_E_RADIO_NOT_AVAILABLE DNone
  else if bool_decide (sState v = RADIO_STATE_OFF) && negb (answered_when_off request) then
    complete RIL_E_RADIO_NOT_AVAILABLE DNone
  else handle request data.

(** ** Unsolicited lines *)

(** A message of either technology; a line that cannot be read ends the function. *)
Definition sms_arrived (u : RIL_Unsol) (s : bytes) (sms_pdu : option bytes) : ril passed :=
  isGsm ← lift (isGSMSmsUnsolicited s sms_pdu);
  if isGsm <? 0 then mret Stopped
  else
    pdu ← lift (checked sms_pdu);
    _ ← (if negb (isGsm =? 0) then unsolicited u (DString pdu) else notifynewCdmaSMS pdu);
    mret Passed.

(** What one kind of line does. *)
Definition passing (m : ril unit) : ril passed := _ ← m; mret Passed.

(** [%NOTIFYEV:LTIME]: the rest of the line, of which there may be nothing. *)
Definition ltime_event (s : bytes) : ril unit :=
  match read_str (snd (at_tok_start (Some s))) with
  | None => mret tt
  | Some (_, line) => time ← lift (checked line); unsolicited RIL_UNSOL_NITZ_TIME_RECEIVED (DString time)
  end.

Definition first_int (s : bytes) : option Z :=
  match (p ← read_start (Some s); read_int p) with Some (v, _) => Some v | None => None end.

Definition unsolicited_line (s : bytes) (sms_pdu : option bytes) : ril passed :=
  let begins p := strStartsWith s (s2b p) in
  if begins "%CTZV:" then passing (nitz_event s)
  else if begins "+CRING:" || begins "RING" || begins "NO CARRIER" || begins "+CCWA" || begins "+CDUU" then
    passing (unsolicited RIL_UNSOL_RESPONSE_CALL_STATE_CHANGED DNone)
  else if begins "+CREG:" || begins "+CGREG:" || begins "+CEREG:" then
    passing (unsolicited RIL_UNSOL_RESPONSE_VOICE_NETWORK_STATE_CHANGED DNone)
  else if RIL_VERSION_4_4_AND_ABOVE (sdk env) && begins "+CIREGU:" then
    passing (unsolicited RIL_UNSOL_RESPONSE_IMS_NETWORK_STATE_CHANGED DNone)
  else if begins "%STATCM:" then
    match first_int s with
    | None => mret Stopped
    | Some eventId => passing (if eventId =? 4 then emit (Timed onDataCallListChanged_cb 0) else mret tt)
    end
  else if begins "+CMT:" then sms_arrived RIL_UNSOL_RESPONSE_NEW_SMS s sms_pdu
  else if begins "+CDS:" then sms_arrived RIL_UNSOL_RESPONSE_NEW_SMS_STATUS_REPORT s sms_pdu
  else if begins "+CGEV:" then passing (emit (Timed onDataCallListChanged_cb 0))
  else if begins "+CCSS: " then
    match first_int s with
    | None => mret Stopped
    | Some source =>
      v ← get_vars;
      let m := sMdmInfo v in
      _ ← set_vars (set_mdm (mk_mdm (supportedTechs m) (currentTech m) (isMultimode m) (preferredNetworkMode m) source));
      passing (unsolicited RIL_UNSOL_CDMA_SUBSCRIPTION_SOURCE_CHANGED (DInts [source]))
    end
  else if begins "+WSOS: " then
    match (p ← read_start (Some s); read_bool p) with
    | None => mret Stopped
    | Some (state, _) =>
      passing (unsolicited (if ctrue state then RIL_UNSOL_ENTER_EMERGENCY_CALLBACK_MODE else RIL_UNSOL_EXIT_EMERGENCY_CALLBACK_MODE) DNone)
    end
  else if begins "+WPRL: " then
    match first_int s with
    | None => mret Stopped
    | Some version => passing (unsolicited RIL_UNSOL_CDMA_PRL_CHANGED (DInts [version]))
    end
  else if begins "+CFUN: 0" then passing (setRadioState RADIO_STATE_OFF)
  else if begins "%NOTIFYEV:LTIME" then passing (ltime_event s)
  else mret Passed.

(** Then the line goes to the AT socket, when it has a client. *)
Definition onUnsolicited (s : bytes) (sms_pdu : option bytes) : ril unit :=
  v ← get_vars;
  if bool_decide (sState v = RADIO_STATE_UNAVAILABLE) then mret tt
  else
    p ← unsolicited_line s sms_pdu;
    match p with
    | Stopped => mret tt
    | Passed =>
      client ← (fun st => Ret (at_socket env (length (events st)), st));
      if client : bool then emit (ToSocket s) else mret tt
    end.
End alt.

(** ** Completions *)

(** The requests that are completed once on every answer of the modem, and without an
    invalid access, with the data [libril] passes for them. *)
Definition alt_answered_once (request : alt_request) (data : ril_request_data) : Prop :=
  match request with
  | Shared r =>
    match r with
    | DIAL => exists d, data = RDial d
    | SEPARATE_CONNECTION | DELETE_SMS_ON_SIM => exists v l, data = RInts (v :: l)
    | DTMF => exists s, data = RString s
    | SEND_SMS => exists smsc pdu l, data = RStrings (smsc :: Some pdu :: l)
    | SIM_IO => exists a, data = RSimIo a
    | WRITE_SMS_TO_SIM => exists st pdu, data = RSmsWrite st pdu
    | ENTER _ | CHANGE_SIM_PIN | CHANGE_SIM_PIN2 => exists pin l, data = RStrings (pin :: l) /\ (length l <= 1)%nat
    | SET_PREFERRED_NETWORK_TYPE => exists v l, data = RInts (v :: l) /\ network_mode_ok v
    | CDMA_SET_SUBSCRIPTION_SOURCE | CDMA_SET_ROAMING_PREFERENCE => exists v, data = RInts [v]
    | SET_UNSOL_CELL_INFO_LIST_RATE => exists r, data = RInts [r] /\ int_ok r
    | SIGNAL_STRENGTH | VOICE_REGISTRATION_STATE | DATA_REGISTRATION_STATE | OPERATOR | RADIO_POWER
    | CDMA_SEND_SMS | IMS_SEND_SMS | SETUP_DATA_CALL | DEACTIVATE_DATA_CALL | DATA_CALL_LIST | SMS_ACKNOWLEDGE
    | SET_NETWORK_SELECTION_MANUAL | SET_NETWORK_SELECTION_AUTOMATIC | QUERY_AVAILABLE_NETWORKS | BASEBAND_VERSION => False
    | _ => True
    end
  | SCREEN_STATE | GET_IMEISV | LAST_CALL_FAIL_CAUSE => True
  | SET_CLIR => exists c l, data = RStrings (Some c :: l)
  | QUERY_CALL_WAITING => exists c l, data = RInts (c :: l)
  | SET_CALL_WAITING => exists e c l, data = RInts (e :: c :: l)
  | QUERY_CLIP | GET_CLIR | CDMA_SMS_ACKNOWLEDGE => False
  end.

Create HintDb alt.

Section once.
Context `{AP : at_port} (env : alt_env) (t : mode) `{AL : !at_port_laws t} `{CP : !cpin_laws t}.

Lemma alt_requestSIM_IO_once n s a : good n s -> wp t (requestSIM_IO (RSimIo a)) (fun _ => good (S n)) s.
Proof. intros H. unfold requestSIM_IO. ril_step. eapply wp_lift_ret; [reflexivity|]. ril_auto. Qed.

Lemma alt_requestEnterSimPin_once n s pin l :
  good n s -> (length l <= 1)%nat -> wp t (requestEnterSimPin (RStrings (pin :: l))) (fun _ => good (S n)) s.
Proof.
  intros H Hl. unfold requestEnterSimPin. ril_step. eapply wp_lift_ret; [reflexivity|].
  assert (exists cmd, pin_command (pin :: l) = Ret (Some cmd)) as [cmd E].
  { destruct l as [|[b|] [|? ?]]; cbn in Hl; try lia; by eexists. }
  ril_step. eapply wp_lift_ret; [exact E|]. ril_auto.
Qed.

Lemma alt_requestSetPreferredNetworkType_once n s value l :
  good n s -> network_mode_ok value -> wp t (requestSetPreferredNetworkType (RInts (value :: l))) (fun _ => good (S n)) s.
Proof.
  intros H Hv. unfold requestSetPreferredNetworkType. ril_step. apply wp_first_int.
  destruct (table_rd net2pmask value eq_refl Hv) as [preferred Ep]. destruct (table_rd RilNetwork.net2modem value eq_refl Hv) as [bits Eb].
  ril_step. eapply wp_lift_ret; [exact Ep|]. do 3 ril_step.
  eapply wp_lift_ret; [unfold networkModePossible, RilNetwork.networkModePossible; rewrite Eb; reflexivity|]. case_match; ril_auto.
Qed.

Lemma alt_cdma_once n s cdma :
  good n s -> (forall s, good n s -> wp t cdma (fun _ => good (S n)) s) -> wp t (cdma_request cdma) (fun _ => good (S n)) s.
Proof. intros H Hc. unfold cdma_request. do 2 ril_step. case_match; [by apply Hc|]. unfold not_supported. ril_auto. Qed.

Lemma when_once n s b m : good n s -> wp t m (fun _ => good (S n)) s -> wp t (when b m) (fun _ => good (S n)) s.
Proof. intros H Hm. unfold when, not_supported. destruct b; [done|ril_auto]. Qed.

Hint Resolve requestGetSimStatus_once alt_requestGetCurrentCalls_once alt_requestDial_once alt_requestHangup_once
  requestCallControl_once requestSeparateConnection_once requestDtmf_once alt_requestSendSMS_once requestNumeric_once
  alt_requestSIM_IO_once requestQueryNetworkSelectionMode_once requestWriteSmsToSim_once requestDeleteSmsOnSim_once
  alt_requestEnterSimPin_once requestVoiceRadioTech_once alt_requestSetPreferredNetworkType_once requestGetCellInfoList_once
  requestSetCellInfoListRate_once requestCdmaDeviceIdentity_once requestCdmaSetSubscriptionSource_once
  requestCdmaGetSubscriptionSource_once requestCdmaGetRoamingPreference_once requestCdmaSetRoamingPreference_once
  requestExitEmergencyMode_once requestGetLastCallFailCause_once requestSetClir_once requestQuaryCallWaiting_once
  requestSetCallWaiting_once : alt.

Lemma alt_handle_once n s request data :
  good n s -> alt_answered_once request data -> wp t (handle env request data) (fun _ => good (S n)) s.
Proof.
  intros H Hd. destruct request as [r| | | | | | | | |]; [destruct r|..]; cbn [handle handle_shared alt_answered_once] in *;
    repeat match goal with D : exists _, _ |- _ => destruct D | D : _ /\ _ |- _ => destruct D end; subst;
    unfold requestCdmaSubscription, RilNetwork.requestCdmaSubscription, requestImsRegistrationState, requestGetPreferredNetworkType,
      requestGetSimStatus, requestQueryNetworkSelectionMode, requestWriteSmsToSim, requestDeleteSmsOnSim, requestVoiceRadioTech,
      requestGetCellInfoList, requestSetCellInfoListRate, requestCdmaDeviceIdentity, requestCdmaSetSubscriptionSource,
      requestCdmaGetSubscriptionSource, requestCdmaGetRoamingPreference, requestCdmaSetRoamingPreference, requestExitEmergencyMode;
    try done; try (apply when_once; [exact H|]); try (apply alt_cdma_once; [exact H|intros; clear H]);
    unfold not_supported; try (by ril_auto); by eauto 4 with alt.
Qed.

Lemma alt_onRequest_once n s request data :
  good n s -> alt_answered_once request data -> wp t (onRequest env request data) (fun _ => good (S n)) s.
Proof.
  intros H Hd. unfold onRequest. do 2 ril_step. case_match; [by ril_auto|]. case_match; [by ril_auto|]. by apply alt_handle_once.
Qed.
End once.

(** *** Every request, with any data, when it returns *)

(** The data of a request has the values of its type. *)
Definition typed (data : ril_request_data) : Prop := match data with RInts l => Forall int_ok l | _ => True end.

(** How often a request is completed: an accepted acknowledgement of a message twice. *)
Definition times_completed (request : alt_request) (data : ril_request_data) : nat :=
  match request with
  | CDMA_SMS_ACKNOWLEDGE => 2
  | Shared SMS_ACKNOWLEDGE => match data with RInts (v :: _) => if (v =? 0) || (v =? 1) then 2 else 1 | _ => 1 end
  | _ => 1
  end.

Ltac partial_auto := repeat first [ril_step | apply wp_partial; intros].

Section partial.
Context `{AP : at_port} `{AL : !at_port_laws Partial} (env : alt_env).

Lemma reliable_loop_keeps q out attempts : forall err h n s,
  good n s -> wp Partial (reliable_loop q out attempts err h) (fun _ => good n) s.
Proof.
  induction attempts as [|k IH]; intros err h n s H; cbn [reliable_loop]; [by apply wp_ret|].
  ril_step. eapply wp_command; [exact _|exact H|]. intros e r s1 H1 _ _. ril_step.
  eapply (wp_keep Partial _ _ n); [by partial_auto|]. intros ok s2 H2.
  destruct ok; [destruct out; by partial_auto|]. ril_step. apply wp_partial. intros; by apply IH.
Qed.

Lemma reliable_keeps q out k n s : good n s -> wp Partial (at_send_command_reliable_interenal q out k) (fun _ => good n) s.
Proof.
  intros H. unfold at_send_command_reliable_interenal. ril_step. eapply wp_keep; [by apply reliable_loop_keeps|].
  intros res s1 H1. destruct out; by partial_auto.
Qed.

Lemma alt_pollSIMState_keeps n s : good n s -> wp Partial pollSIMState (fun _ => good n) s.
Proof.
  intros H. unfold pollSIMState, onSIMReady, getSIMStatus. do 2 ril_step. case_match; [by apply wp_ret|]. ril_step.
  eapply wp_getSIMStatus; [exact _|exact _|exact H|]. intros z s1 G1 _ _. case_match; [by ril_auto|]. case_match; [|by ril_auto].
  do 2 ril_step. eapply wp_keep; [by apply reliable_keeps|]. intros ? s2 G2. ril_auto.
Qed.

Lemma alt_setRadioState_keeps n s st : good n s -> wp Partial (setRadioState st) (fun _ => good n) s.
Proof.
  intros H. pose proof (good_vars _ _ H) as Hv. unfold setRadioState. do 3 ril_step.
  set (st' := if 0 <? s_closed (vars s) then RADIO_STATE_UNAVAILABLE else st).
  eapply (wp_keep Partial _ _ n).
  - case_match; [|by apply wp_ret]. eapply wp_set; [exact H| |by intros]. destruct Hv. split; cbn; try done.
    intros E. unfold st'. by rewrite E.
  - intros ? s1 G1. do 2 ril_step. case_match; [by apply wp_ret|]. do 2 ril_step. case_match; [|by ril_auto].
    by apply alt_pollSIMState_keeps.
Qed.

Lemma interfaces_down_keeps tbl : forall n s, good n s -> wp Partial (interfaces_down env tbl) (fun _ => good n) s.
Proof.
  induction tbl as [|e tbl IH]; intros n s H; cbn [interfaces_down]; [by apply wp_ret|]. ril_step.
  eapply wp_ifc_config; [exact H|]. intros r s1 H1 _ _. case_match; [by apply wp_ret|by apply IH].
Qed.

Lemma power_answer_keeps n s h e : good n s -> wp Partial (power_answer h e) (fun _ => good (S n)) s.
Proof. intros H. unfold power_answer. by partial_auto. Qed.

Lemma alt_requestRadioPower_keeps n s data : good n s -> wp Partial (requestRadioPower env data) (fun _ => good (S n)) s.
Proof.
  intros H. unfold requestRadioPower, power_off, power_on, isRadioOn. do 3 (ril_step; apply wp_partial; intros ? _).
  do 2 ril_step. case_match; [|case_match; [|by ril_auto]].
  - ril_step. eapply wp_getPdnTable; [exact H|]. intros [tbl|] s1 G1 _; [|by ril_auto]. ril_step.
    eapply wp_keep; [by apply interfaces_down_keeps|]. intros down s2 G2. case_match; [by ril_auto|]. ril_step.
    eapply wp_keep; [by apply reliable_keeps|]. intros [err h] s3 G3. ril_step. apply wp_partial. intros failed _.
    destruct failed; [by apply power_answer_keeps|]. ril_step. eapply wp_keep; [by apply alt_setRadioState_keeps|].
    intros ? s4 G4. by apply power_answer_keeps.
  - ril_step. eapply wp_keep; [by apply reliable_keeps|]. intros [err h] s3 G3. ril_step. apply wp_partial. intros failed _.
    ril_step. eapply (wp_keep Partial _ _ n).
    { destruct failed; [|by apply wp_ret]. ril_step. eapply wp_keep; [by apply isRadioOn_ok|]. intros; by apply wp_ret. }
    intros on s4 G4. destruct on; [|by apply power_answer_keeps]. ril_step.
    eapply wp_keep; [by apply alt_setRadioState_keeps|]. intros ? s5 G5. by apply power_answer_keeps.
Qed.

Lemma send_all_keeps cmds : forall n s, good n s -> wp Partial (send_all cmds) (fun _ => good n) s.
Proof. induction cmds as [|c cmds IH]; intros n s H; cbn [send_all]; [by apply wp_ret|]. do 2 ril_step. by apply IH. Qed.

Lemma alt_initializeCallback_keeps n s : good n s -> wp Partial (initializeCallback env) (fun _ => good n) s.
Proof.
  intros H. unfold initializeCallback, isRadioOn. ril_step. eapply wp_keep; [by apply alt_setRadioState_keeps|]. intros ? s1 G1.
  do 3 ril_step. eapply probeForModemMode_keeps; [eassumption|]. intros s2 G2. ril_step.
  eapply wp_debug_pause; [exact G2|]. intros s3 G3 _. ril_step. eapply wp_keep; [by apply send_all_keeps|]. intros ? s4 G4.
  ril_step. eapply wp_keep; [by apply isRadioOn_ok|]. intros on s5 G5. case_match; [by apply alt_setRadioState_keeps|by apply wp_ret].
Qed.

Lemma alt_closed_keeps n s : good n s -> wp Partial onATReaderClosed (fun _ => good n) s.
Proof.
  intros (Hp & Hv & Hn). unfold onATReaderClosed. ril_step. apply at_shut_promise in Hp.
  set (s1 := mk_rild (at_shut (chan s)) (set_state RADIO_STATE_UNAVAILABLE (set_closed 1 (vars s))) (events s)).
  assert (good n s1) as H1 by (split_and!; [done| |done]; destruct Hv; split; try done; by right).
  assert (wp Partial (setRadioState RADIO_STATE_UNAVAILABLE) (fun _ => good n)
    (mk_rild (at_shut (chan s)) (set_closed 1 (vars s)) (events s))) as Hs; [|exact Hs].
  unfold setRadioState. do 2 ril_step. cbn [vars set_closed s_closed sState]. change (0 <? 1) with true. rewrite orb_true_r.
  cbn match. ril_step.
  assert (forall Q : unit -> rild -> Prop, Q tt s1 ->
    wp Partial (set_vars (set_state RADIO_STATE_UNAVAILABLE)) Q (mk_rild (at_shut (chan s)) (set_closed 1 (vars s)) (events s))) as Hset by done.
  apply Hset. do 2 ril_step. cbn [s1 vars set_state set_closed sState]. case_match; [by ril_auto|].
  do 2 ril_step. change (bool_decide (RADIO_STATE_UNAVAILABLE = RADIO_STATE_ON)) with false. cbn match. ril_auto.
Qed.

(** The requests of [alt_answered_once] with data of another shape. *)
Ltac unfold_handlers :=
  unfold requestDial, requestSeparateConnection, requestDtmf, requestSIM_IO, requestEnterSimPin, requestWriteSmsToSim,
    RilSms.requestWriteSmsToSim, requestDeleteSmsOnSim, RilSms.requestDeleteSmsOnSim, requestSetClir, requestQuaryCallWaiting,
    requestSetCallWaiting, cdma_request, not_supported, requestCdmaSetSubscriptionSource, RilNetwork.requestCdmaSetSubscriptionSource,
    requestCdmaSetRoamingPreference, RilNetwork.requestCdmaSetRoamingPreference.

Lemma alt_requestSetCellInfoListRate_keeps n s data :
  good n s -> typed data -> wp Partial (requestSetCellInfoListRate data) (fun _ => good (S n)) s.
Proof.
  intros H Ht. unfold requestSetCellInfoListRate, RilNetwork.requestSetCellInfoListRate. destruct data; try done.
  ril_step. apply wp_partial. intros l' E. ril_step. apply wp_partial. intros ? _. ril_step. apply wp_partial. intros r Er. ril_step.
  eapply wp_set; [exact H| |by intros; ril_auto]. destruct (good_vars _ _ H). split; try done.
  injection E as <-. unfold arr_rd in Er. cbn in Ht. destruct l as [|z l]; [done|]. injection Er as <-. by inversion Ht.
Qed.

Lemma requestSMSAcknowledge_keeps n s data :
  good n s -> wp Partial (requestSMSAcknowledge data) (fun _ => good (times_completed (Shared SMS_ACKNOWLEDGE) data + n)) s.
Proof.
  intros H. destruct data as [|[|v l]| | | | | | | | | | | |]; try done.
  eapply wp_mono; [by apply requestSMSAcknowledge_twice|]. intros ? s1 H1. cbn [times_completed]. by destruct ((v =? 0) || (v =? 1)).
Qed.

Lemma alt_handle_keeps n s request data :
  good n s -> typed data -> wp Partial (handle env request data) (fun _ => good (times_completed request data + n)) s.
Proof.
  intros H Ht. pose proof (alt_handle_once env Partial n s request data H) as Ho.
  destruct request as [r| | | | | | | | |]; [destruct r|..]; try (by apply Ho); clear Ho; cbn [handle handle_shared times_completed Nat.add];
    unfold when, requestCdmaSendSMS, RequestImsSendSms;
    try (case_match; [|by unfold not_supported; ril_auto]);
    eauto 2 using requestSignalStrength_keeps, requestRegistrationState_keeps, alt_requestOperator_keeps, alt_requestRadioPower_keeps,
      requestSetupDataCall_keeps, requestDeactivateDataCall_keeps, requestSetNetworkSelectionManual_keeps,
      requestSetNetworkSelectionAutomatic_keeps, alt_requestQueryAvailableNetworks_keeps, requestCDMASMSAcknowledge_keeps,
      alt_requestSetCellInfoListRate_keeps, alt_requestSendSMS_keeps, requestSetPreferredNetworkType_keeps, requestSMSAcknowledge_keeps;
    try (by unfold_handlers; partial_auto).
  - destruct data; try done. by apply sendCdmaFormatedSMS_keeps.
  - destruct data; try done. case_match; [by ril_auto|by apply sendCdmaFormatedSMS_keeps].
  - exact (alt_requestOrSendDataCallList_keeps env n s true None H).
  - unfold baseband_version. do 2 ril_step. case_match; [by apply requestLteBaseBandVersion_keeps|].
    apply alt_cdma_once; [done|]. intros. by apply requestCdmaDeviceIdentity_once.
  - unfold requestGetClip, clip_query. partial_auto.
  - unfold requestGetClir, clip_query. partial_auto.
Qed.

Lemma alt_onRequest_keeps n s request data :
  good n s -> typed data -> wp Partial (onRequest env request data) (fun _ s' => exists k, good k s' /\
    (sState (vars s) = RADIO_STATE_ON -> k = times_completed request data + n)%nat) s.
Proof.
  intros H Ht. unfold onRequest. do 2 ril_step. case_match eqn:E1; [|case_match eqn:E2].
  - ril_step. eexists. split; [eassumption|]. intros E. by rewrite E in E1.
  - ril_step. eexists. split; [eassumption|]. intros E. by rewrite E in E2.
  - eapply wp_keep; [by apply alt_handle_keeps|]. intros ? s1 G1. by eexists.
Qed.

Lemma passing_keeps n s (m : ril unit) : wp Partial m (fun _ => good n) s -> wp Partial (passing m) (fun _ => good n) s.
Proof. intros H. unfold passing. ril_step. eapply wp_keep; [exact H|]. intros; by apply wp_ret. Qed.

Lemma nitz_event_keeps n s line : good n s -> wp Partial (nitz_event line) (fun _ => good n) s.
Proof. intros H. unfold nitz_event. destruct (at_tok_start (Some line)). destruct (read_str _); [done|by ril_auto]. Qed.

Lemma ltime_event_keeps n s line : good n s -> wp Partial (ltime_event line) (fun _ => good n) s.
Proof. intros H. unfold ltime_event. destruct (read_str _) as [[? c]|]; by partial_auto. Qed.

Lemma sms_arrived_keeps n s u line pdu : good n s -> wp Partial (sms_arrived u line pdu) (fun _ => good n) s.
Proof.
  intros H. unfold sms_arrived. ril_step. apply wp_partial. intros z _. case_match; [by apply wp_ret|]. ril_step.
  apply wp_partial. intros p _. ril_step. case_match; [by ril_auto|].
  eapply wp_keep; [by apply notifynewCdmaSMS_keeps|]. intros; by apply wp_ret.
Qed.

Lemma first_int_ok line z : first_int line = Some z -> int_ok z.
Proof.
  unfold first_int. destruct (read_start (Some line)) as [p|]; [|done]. cbn [mbind option_bind].
  destruct (read_int p) as [[v c]|] eqn:E; [|done]. intros [= <-]. by eapply read_int_ok.
Qed.

Lemma ccss_keeps n s source :
  good n s -> int_ok source ->
  wp Partial (v ← get_vars; let m := sMdmInfo v in
      _ ← set_vars (set_mdm (mk_mdm (supportedTechs m) (currentTech m) (isMultimode m) (preferredNetworkMode m) source));
      passing (unsolicited RIL_UNSOL_CDMA_SUBSCRIPTION_SOURCE_CHANGED (DInts [source]))) (fun _ => good n) s.
Proof.
  intros H Hs. do 2 ril_step. cbn zeta. ril_mdm. ril_step. eapply mdm_step; [exact H|by split_and!|]. intros s1 G1 _.
  apply passing_keeps. ril_auto.
Qed.

Lemma unsolicited_line_keeps n s line pdu : good n s -> wp Partial (unsolicited_line env line pdu) (fun _ => good n) s.
Proof.
  intros H. unfold unsolicited_line. cbn zeta.
  repeat match goal with
  | |- wp _ (if ?b then _ else _) _ _ => destruct b
  | |- wp _ (match first_int ?l with _ => _ end) _ _ => destruct (first_int l) eqn:?
  | |- wp _ (match ?o with _ => _ end) _ _ => destruct o as [[? ?]|]
  end; try (by unfold passing; ril_auto);
    first [by apply passing_keeps, nitz_event_keeps | by apply sms_arrived_keeps | by apply passing_keeps, alt_setRadioState_keeps
          | by apply passing_keeps, ltime_event_keeps | eapply ccss_keeps; [done|by eapply first_int_ok]].
Qed.

Lemma alt_onUnsolicited_keeps n s line pdu : good n s -> wp Partial (onUnsolicited env line pdu) (fun _ => good n) s.
Proof.
  intros H. unfold onUnsolicited. do 2 ril_step. case_match; [by apply wp_ret|]. ril_step.
  eapply wp_keep; [by apply unsolicited_line_keeps|]. intros [|] s1 G1; [|by apply wp_ret]. ril_step.
  change (wp Partial (if at_socket env (length (events s1)) then emit (ToSocket line) else mret tt) (fun _ => good n) s1). ril_auto.
Qed.
End partial.
