(* ===== verification/AltSteps.v ===== *)
(** * The Altair RIL: its steps, and what its variables keep

    Requests, lines, callbacks, closings and re-openings as steps, and the states that
    are reached: the radio is off, on or not available, so that the card is never polled,
    and a radio that is available belongs to an LTE modem.  Then the theorems that need
    several of the other files: requests and their completions, flight mode, messages
    that arrive. *)

From S2P Require Import Prelude CString AtTok Misc Sms3gpp2 AtChannel RilPort RilCalls RilNetwork RilState RilSim RilSms Ril AltPort AltData AltNetwork AltSms AltCalls AltRil.

(** ** What code leaves of the variables *)

Section triples.
Context `{AP : at_port}.

(** Where it returns, from variables with [P] to variables with [Q]. *)
Definition triple {A} (P Q : ril_vars -> Prop) (m : ril A) : Prop :=
  forall s a s', m s = Ret (a, s') -> P (vars s) -> Q (vars s').

Lemma triple_bind {A B} (P R Q : ril_vars -> Prop) (m : ril A) (k : A -> ril B) :
  triple P R m -> (forall a, triple R Q (k a)) -> triple P Q (a ← m; k a).
Proof.
  intros Hm Hk s b s' E HP. unfold mbind, ril_bind in E. destruct (m s) as [[a s1]| | |] eqn:Em; try done.
  exact (Hk a s1 b s' E (Hm s a s1 Em HP)).
Qed.

Lemma triple_get {B} (P Q : ril_vars -> Prop) (k : ril_vars -> ril B) :
  (forall v, P v -> triple P Q (k v)) -> triple P Q (v ← get_vars; k v).
Proof. intros Hk s b s' E HP. exact (Hk (vars s) HP s b s' E HP). Qed.

Lemma triple_set (P Q : ril_vars -> Prop) f : (forall v, P v -> Q (f v)) -> triple P Q (set_vars f).
Proof. intros Hf s a s' [= <- <-] HP. by apply Hf. Qed.

(** Code that leaves the variables as they are. *)
Definition frames {A} (m : ril A) : Prop := forall s a s', m s = Ret (a, s') -> vars s' = vars s.

Lemma frames_triple {A} P (m : ril A) : frames m -> triple P P m.
Proof. intros H s a s' E HP. by rewrite (H _ _ _ E). Qed.

Lemma frames_bind {A B} (m : ril A) (k : A -> ril B) : frames m -> (forall a, frames (k a)) -> frames (a ← m; k a).
Proof.
  intros Hm Hk s b s' E. unfold mbind, ril_bind in E. destruct (m s) as [[a s1]| | |] eqn:Em; try done.
  rewrite <- (Hm s a s1 Em). exact (Hk a s1 b s' E).
Qed.

Lemma frames_ret {A} (a : A) : frames (mret a).
Proof. by intros s b s' [= <- <-]. Qed.

Lemma frames_get : frames get_vars.
Proof. by intros s b s' [= <- <-]. Qed.

Lemma frames_emit e : frames (emit e).
Proof. by intros s b s' [= <- <-]. Qed.

Lemma frames_read {A} (f : rild -> A) : frames (fun s => Ret (f s, s)).
Proof. by intros s b s' [= <- <-]. Qed.

Lemma frames_lift {A} (o : outcome A) : frames (lift o).
Proof. intros s b s' E. unfold lift in E. by destruct o as [a| | |]; [by injection E as <- <-|done..]. Qed.

Lemma frames_command q : frames (command q).
Proof. intros s b s' E. unfold command in E. destruct (at_send q true (chan s)) as [[[e r] p]| | |]; try done. by injection E as <- <-. Qed.

Lemma frames_command_null q : frames (command_null q).
Proof. intros s b s' E. unfold command_null in E. destruct (at_send q false (chan s)) as [[[e r] p]| | |]; try done. by injection E as <- <-. Qed.

Lemma frames_handshake : frames handshake.
Proof. intros s b s' E. unfold handshake in E. destruct (at_shake (chan s)) as [[e p]| | |]; try done. by injection E as <- <-. Qed.

Lemma frames_shut : frames shut.
Proof. by intros s b s' [= <- <-]. Qed.
End triples.

Create HintDb frames.
#[export] Hint Resolve frames_ret frames_get frames_emit frames_read frames_lift frames_command frames_command_null
  frames_handshake frames_shut : frames.

(** One step of code, towards the parts that are known. *)
Ltac frames_step :=
  match goal with
  | |- frames (_ ≫= _) => apply frames_bind; [|intros]
  | |- frames (match ?x with _ => _ end) => destruct x
  | |- frames (let '_ := ?x in _) => destruct x
  | |- frames _ => solve [auto 2 with frames]
  end.
Ltac frames_auto := repeat frames_step.
Ltac triple_step :=
  match goal with
  | |- triple _ _ (get_vars ≫= _) => apply triple_get; intros
  | |- triple _ _ (set_vars _) => apply triple_set
  | |- triple _ _ (match ?x with _ => _ end) => destruct x
  | |- triple ?P _ (_ ≫= _) => apply (triple_bind P P); [|intros]
  | |- triple ?P ?P _ => apply frames_triple; solve [frames_auto]
  end.
Ltac triple_auto := repeat triple_step.

(** ** Handlers that change no variable *)

Section frames.
Context `{AP : at_port} (env : alt_env).

Lemma frames_complete e d : frames (complete e d).
Proof. apply frames_emit. Qed.
Lemma frames_unsolicited u d : frames (unsolicited u d).
Proof. apply frames_emit. Qed.
Lemma frames_send q : frames (send q).
Proof. unfold send. frames_auto. Qed.
Lemma frames_ask q : frames (ask q).
Proof. unfold ask. frames_auto. Qed.
Lemma frames_ask_ne q : frames (ask_ne q).
Proof. unfold ask_ne. frames_auto. Qed.
Lemma frames_with_line r : frames (with_line r).
Proof. unfold with_line. frames_auto. Qed.
Hint Resolve frames_complete frames_unsolicited frames_send frames_ask frames_ask_ne frames_with_line : frames.
Lemma frames_ask_line q : frames (ask_line q).
Proof. unfold ask_line. frames_auto. Qed.
Lemma frames_ask_line_ne q : frames (ask_line_ne q).
Proof. unfold ask_line_ne. frames_auto. Qed.
Hint Resolve frames_ask_line frames_ask_line_ne : frames.

Lemma frames_ifc_config name up : frames (ifc_config env name up).
Proof. unfold ifc_config. frames_auto. Qed.
Hint Resolve frames_ifc_config : frames.

Lemma frames_reliable_loop q out k : forall err h, frames (reliable_loop q out k err h).
Proof.
  induction k as [|k IH]; intros err h; cbn [reliable_loop]; [frames_auto|]. apply frames_bind; [auto with frames|]. intros [e r].
  apply frames_bind; [frames_auto|]. intros ok. destruct ok; [frames_auto|]. apply frames_bind; [frames_auto|]. intros; apply IH.
Qed.
Hint Resolve frames_reliable_loop : frames.

Lemma frames_reliable q out n : frames (at_send_command_reliable_interenal q out n).
Proof. unfold at_send_command_reliable_interenal. frames_auto. Qed.
Hint Resolve frames_reliable : frames.

Lemma frames_getPdnTable : frames getPdnTable.
Proof. unfold getPdnTable. frames_auto. Qed.
Hint Resolve frames_getPdnTable : frames.

Lemma frames_getPdnByApnName apn : frames (getPdnByApnName apn).
Proof. unfold getPdnByApnName. frames_auto. Qed.
Lemma frames_debug_pause : frames (debug_pause env).
Proof. unfold debug_pause. frames_auto. Qed.
Hint Resolve frames_getPdnByApnName frames_debug_pause : frames.

Lemma frames_pdn_rounds fuel l : forall i rs, frames (pdn_rounds env fuel l i rs).
Proof.
  induction fuel as [|fuel IH]; intros i rs; cbn [pdn_rounds]; (destruct (l !! i) as [e|]; [|frames_auto]); [frames_auto|].
  case_match; [apply IH|]. apply frames_bind; [auto with frames|]. intros [r|]; [|frames_auto].
  apply frames_bind; [frames_auto|]. intros [st|]; [apply IH|frames_auto].
Qed.
Hint Resolve frames_pdn_rounds : frames.

Lemma frames_calls request pdn : frames (requestOrSendDataCallList env request pdn).
Proof. unfold requestOrSendDataCallList, answer_calls. frames_auto. Qed.
Hint Resolve frames_calls : frames.

Lemma frames_setup data : frames (requestSetupDataCall env data).
Proof. unfold requestSetupDataCall, find_or_set, activateDataSessionPdn. frames_auto. Qed.

Lemma frames_deactivate data : frames (requestDeactivateDataCall env data).
Proof. unfold requestDeactivateDataCall. frames_auto. Qed.

Lemma frames_signal : frames requestSignalStrength.
Proof. unfold requestSignalStrength, requestSignalStrength_helper. frames_auto. Qed.

Lemma frames_command_line q : frames (command_line q).
Proof. unfold command_line. frames_auto. Qed.
Hint Resolve frames_command_line : frames.

Lemma frames_operator_names cmds : frames (operator_names cmds).
Proof.
  induction cmds as [|c cmds IH]; cbn [operator_names]; [frames_auto|]. apply frames_bind; [auto with frames|]. intros err.
  case_match; [frames_auto|]. apply frames_bind; [auto with frames|]. intros [l|]; [|frames_auto]. destruct (cops_line l); [|frames_auto].
  apply frames_bind; [done|]. intros; frames_auto.
Qed.
Hint Resolve frames_operator_names : frames.

Lemma frames_operator : frames requestOperator.
Proof. unfold requestOperator. frames_auto. Qed.

Lemma frames_cmatt on : frames (cmatt on).
Proof. unfold cmatt. frames_auto. Qed.
Hint Resolve frames_cmatt : frames.

Lemma frames_connect_mode : frames getConnectModeAndPlmnName.
Proof. unfold getConnectModeAndPlmnName. frames_auto. Qed.
Hint Resolve frames_connect_mode : frames.

Lemma frames_manual data : frames (requestSetNetworkSelectionManual data).
Proof. unfold requestSetNetworkSelectionManual, reconnect, disconnectLTE, connectLTE. frames_auto. Qed.
Lemma frames_automatic : frames requestSetNetworkSelectionAutomatic.
Proof. unfold requestSetNetworkSelectionAutomatic, reconnect, disconnectLTE, connectLTE. frames_auto. Qed.
Lemma frames_available : frames requestQueryAvailableNetworks.
Proof. unfold requestQueryAvailableNetworks, disconnectLTE, connectLTE. frames_auto. Qed.

Lemma frames_baseband : frames requestLteBaseBandVersion.
Proof. unfold requestLteBaseBandVersion, version_line. frames_auto. Qed.

Lemma frames_getSIMStatus : frames RilState.getSIMStatus.
Proof. unfold RilState.getSIMStatus. frames_auto. Qed.
Lemma frames_isRadioOn : frames RilState.isRadioOn.
Proof. unfold RilState.isRadioOn. frames_auto. Qed.
Hint Resolve frames_getSIMStatus frames_isRadioOn : frames.

Lemma frames_pollSIMState : frames pollSIMState.
Proof. unfold pollSIMState, getSIMStatus, onSIMReady, at_send_command_singleline_reliable. frames_auto. Qed.

Lemma frames_interfaces_down tbl : frames (interfaces_down env tbl).
Proof. induction tbl as [|e tbl IH]; cbn [interfaces_down]; [frames_auto|]. apply frames_bind; [auto with frames|]. intros r. case_match; [frames_auto|done]. Qed.

Lemma frames_send_all cmds : frames (send_all cmds).
Proof. induction cmds as [|c cmds IH]; cbn [send_all]; [frames_auto|]. by apply frames_bind; [auto with frames|]. Qed.

Lemma frames_answer_ref e r : frames (answer_ref e r).
Proof. unfold answer_ref. frames_auto. Qed.
Hint Resolve frames_answer_ref : frames.

Lemma frames_sendCdma m : frames (sendCdmaFormatedSMS m).
Proof. unfold sendCdmaFormatedSMS. frames_auto. Qed.
End frames.

#[export] Hint Resolve frames_complete frames_unsolicited frames_send frames_ask frames_ask_ne frames_with_line frames_ask_line frames_ask_line_ne
  frames_ifc_config frames_reliable frames_getPdnTable frames_getPdnByApnName frames_debug_pause frames_calls frames_setup
  frames_deactivate frames_signal frames_command_line frames_operator frames_connect_mode frames_manual frames_automatic
  frames_available frames_baseband frames_getSIMStatus frames_isRadioOn frames_pollSIMState frames_interfaces_down frames_send_all
  frames_answer_ref frames_sendCdma : frames.

(** ** The radio and its modem *)

Definition radio_state (v : ril_vars) : Prop :=
  sState v = RADIO_STATE_OFF \/ sState v = RADIO_STATE_UNAVAILABLE \/ sState v = RADIO_STATE_ON.

(** The buffer of received messages keeps its size besides. *)
Definition some_radio (v : ril_vars) : Prop := radio_state v /\ length (sms_buffer v) = SMS_BUFFER.
Definition lte_radio (v : ril_vars) : Prop := some_radio v /\ currentTech (sMdmInfo v) = MDM_LTE.
Definition radio_ok (v : ril_vars) : Prop :=
  some_radio v /\ (sState v = RADIO_STATE_UNAVAILABLE \/ currentTech (sMdmInfo v) = MDM_LTE).

Lemma lte_radio_ok v : lte_radio v -> radio_ok v.
Proof. intros [H1 H2]. split; [done|by right]. Qed.

Lemma radio_ok_lte v : radio_ok v -> sState v <> RADIO_STATE_UNAVAILABLE -> lte_radio v.
Proof. by intros [H1 [H2|H2]] Hn. Qed.

Section radio.
Context `{AP : at_port} (env : alt_env).

Lemma triple_lift {A B} (P Q : ril_vars -> Prop) (o : outcome A) (k : A -> ril B) :
  (forall a, o = Ret a -> triple P Q (k a)) -> triple P Q (a ← lift o; k a).
Proof.
  intros Hk s b s' E HP. destruct o as [a| | |]; try done. exact (Hk a eq_refl s b s' E HP).
Qed.

Lemma triple_mono {A} (P P' Q Q' : ril_vars -> Prop) (m : ril A) :
  triple P' Q' m -> (forall v, P v -> P' v) -> (forall v, Q' v -> Q v) -> triple P Q m.
Proof. intros H HP HQ s a s' E Hs. eauto. Qed.

Lemma triple_setRadioState (P : ril_vars -> Prop) st :
  (forall v, P v -> P (set_state RADIO_STATE_UNAVAILABLE v) /\ P (set_state st v)) -> triple P P (setRadioState st).
Proof.
  intros HP. unfold setRadioState, onRadioPowerOn. apply triple_get. intros v Hv.
  apply (triple_bind P P).
  - destruct (0 <? s_closed v); (case_match; [apply triple_set; intros; by apply HP|apply frames_triple, frames_ret]).
  - intros. triple_auto.
Qed.

Lemma set_state_lte v st : lte_radio v -> st = RADIO_STATE_OFF \/ st = RADIO_STATE_UNAVAILABLE \/ st = RADIO_STATE_ON -> lte_radio (set_state st v).
Proof. by intros [[H1 H2] H3] Hs. Qed.

Lemma lte_setRadioState st : st = RADIO_STATE_OFF \/ st = RADIO_STATE_UNAVAILABLE \/ st = RADIO_STATE_ON ->
  triple lte_radio lte_radio (setRadioState st).
Proof. intros Hs. apply triple_setRadioState. intros v Hv. split; apply set_state_lte; auto. Qed.

(** The size of the message buffer. *)
Lemma hex_fill_size s : forall i b b', hex_fill s i b = Ret b' -> length b' = length b.
Proof.
  induction s as [|x|x y s IH] using list_ind2; intros i b b' E; cbn [hex_fill] in E; try by injection E as <-.
  unfold arr_wr in E. case_match; [|done]. cbn [mbind outcome_bind] in E. apply IH in E. by rewrite length_insert in E.
Qed.

Lemma lte_notify pdu : triple lte_radio lte_radio (notifynewCdmaSMS pdu).
Proof.
  unfold notifynewCdmaSMS. cbn zeta. case_match; [apply frames_triple, frames_lift|]. apply triple_get. intros v [[_ Hl] _].
  apply triple_lift. intros b Hb. apply hex_fill_size in Hb.
  apply (triple_bind lte_radio lte_radio); [|intros; triple_auto]. apply triple_set. intros v' [[H1 _] H2].
  split; [|done]. split; [done|]. cbn. congruence.
Qed.

Lemma lte_power data : triple lte_radio lte_radio (requestRadioPower env data).
Proof.
  pose proof (lte_setRadioState RADIO_STATE_OFF ltac:(by left)) as Hoff. pose proof (lte_setRadioState RADIO_STATE_ON ltac:(by right; right)) as Hon.
  unfold requestRadioPower, power_off, power_on, isRadioOn, at_send_command_reliable, power_answer.
  repeat first [exact Hoff | exact Hon | triple_step].
Qed.

Lemma lte_cdma cdma : triple lte_radio lte_radio (cdma_request cdma).
Proof.
  unfold cdma_request, TECH_BIT, not_supported. apply triple_get. intros v [_ ->]. change (MDM_LTE =? MDM_CDMA) with false.
  cbn match. triple_auto.
Qed.

Lemma lte_registration voice : triple lte_radio lte_radio (requestRegistrationState env voice).
Proof.
  unfold requestRegistrationState, parseRegistrationState, registration_calls. triple_auto. by intros v [[? ?] ?].
Qed.

Lemma lte_handle request data : triple lte_radio lte_radio (handle env request data).
Proof.
  assert (forall b m, triple lte_radio lte_radio m -> triple lte_radio lte_radio (when b m)) as Hw
    by (intros b m Hm; destruct b; [done|unfold when, not_supported; triple_auto]).
  destruct request as [r| | | | | | | | |]; [destruct r|..]; cbn [handle handle_shared]; try apply Hw;
    try first [apply lte_cdma | apply lte_power | apply lte_registration];
    unfold requestGetSimStatus, RilState.requestGetSimStatus, RilState.getCardStatus, AltCalls.requestGetCurrentCalls, RilCalls.requestGetCurrentCalls,
      AltCalls.requestDial, AltCalls.requestHangup, requestCallControl, requestSeparateConnection, requestDtmf, AltSms.requestSendSMS,
      AltSms.requestCdmaSendSMS, RequestImsSendSms, AltSms.requestSMSAcknowledge, RilSms.requestSMSAcknowledge, requestNumeric,
      AltRil.requestSIM_IO, requestDataCallList, AltNetwork.requestQueryNetworkSelectionMode, RilNetwork.requestQueryNetworkSelectionMode,
      AltSms.requestWriteSmsToSim, RilSms.requestWriteSmsToSim, AltSms.requestDeleteSmsOnSim, RilSms.requestDeleteSmsOnSim,
      AltRil.requestEnterSimPin, AltRil.requestImsRegistrationState, AltNetwork.requestVoiceRadioTech, RilNetwork.requestVoiceRadioTech,
      AltNetwork.requestSetPreferredNetworkType, AltNetwork.requestGetPreferredNetworkType, AltNetwork.requestGetCellInfoList,
      RilNetwork.requestGetCellInfoList, AltNetwork.requestSetCellInfoListRate, RilNetwork.requestSetCellInfoListRate,
      not_supported, requestCDMASMSAcknowledge, requestGetLastCallFailCause, requestGetClip, requestGetClir, clip_query, requestSetClir,
      requestQuaryCallWaiting, requestSetCallWaiting;
    try (by triple_auto).
  unfold baseband_version. apply triple_get. intros v [_ E]. unfold TECH_BIT. rewrite E. change (MDM_LTE =? MDM_LTE) with true. cbn match. triple_auto.
Qed.

Lemma radio_onRequest request data : triple radio_ok radio_ok (onRequest env request data).
Proof.
  unfold onRequest. intros s a s' E HP. rewrite run_get in E. destruct (bool_decide_reflect (sState (vars s) = RADIO_STATE_UNAVAILABLE)) as [Hu|Hu].
  - destruct (bool_decide_reflect (request = Shared GET_SIM_STATUS)) as [->|Hr]; cbn [andb negb] in E.
    + rewrite Hu in E. change (bool_decide (RADIO_STATE_UNAVAILABLE = RADIO_STATE_OFF)) with false in E. cbn [andb handle handle_shared] in E.
      revert E HP. apply frames_triple. unfold requestGetSimStatus, RilState.requestGetSimStatus, RilState.getCardStatus. frames_auto.
    + revert E HP. apply frames_triple, frames_complete.
  - cbn [andb] in E. apply lte_radio_ok. pose proof (radio_ok_lte _ HP Hu) as Hl. revert E Hl.
    match goal with |- ?m s = _ -> _ => assert (triple lte_radio lte_radio m) as H; [|by intros; eapply H] end.
    case_match; [triple_auto|apply lte_handle].
Qed.

Lemma lte_unsolicited_line line pdu : triple lte_radio lte_radio (unsolicited_line env line pdu).
Proof.
  pose proof (lte_setRadioState RADIO_STATE_OFF ltac:(by left)) as Hoff. pose proof lte_notify as Hn.
  unfold unsolicited_line, passing, nitz_event, sms_arrived, ltime_event. cbn zeta.
  repeat first [exact Hoff | apply Hn | triple_step].
  intros v' [Hv' _]. by match goal with H : lte_radio ?v |- lte_radio (set_mdm _ _) => destruct H as [_ ?] end.
Qed.

Lemma radio_onUnsolicited line pdu : triple radio_ok radio_ok (onUnsolicited env line pdu).
Proof.
  unfold onUnsolicited. intros s a s' E HP. rewrite run_get in E.
  destruct (bool_decide_reflect (sState (vars s) = RADIO_STATE_UNAVAILABLE)) as [Hu|Hu]; [by injection E as <- <-|].
  apply lte_radio_ok. pose proof (radio_ok_lte _ HP Hu) as Hl. revert E Hl.
  match goal with |- ?m s = _ -> _ => assert (triple lte_radio lte_radio m) as H; [|by intros; eapply H] end.
  apply (triple_bind lte_radio lte_radio); [apply lte_unsolicited_line|]. intros []; triple_auto.
Qed.

(** The initialization makes the modem an LTE modem before the radio is on. *)
Lemma radio_initialize : triple radio_ok radio_ok (initializeCallback env).
Proof.
  apply (triple_mono _ some_radio _ lte_radio); [|by intros v [? _]|apply lte_radio_ok].
  unfold initializeCallback. apply (triple_bind some_radio some_radio).
  { apply triple_setRadioState. intros v [H1 H2]. split; (split; [|done]); [by right; left|by left]. }
  intros _. apply (triple_bind some_radio some_radio); [triple_auto|]. intros _.
  apply (triple_bind some_radio lte_radio).
  { unfold probeForModemMode. apply triple_get. intros v _. apply triple_set. by intros v' Hv'. }
  intros _. pose proof (lte_setRadioState RADIO_STATE_ON ltac:(by right; right)) as Hon. unfold isRadioOn.
  repeat first [exact Hon | triple_step].
Qed.

Lemma radio_closed : triple radio_ok radio_ok onATReaderClosed.
Proof.
  unfold onATReaderClosed. apply (triple_bind radio_ok radio_ok); [triple_auto|]. intros _.
  apply (triple_bind radio_ok radio_ok); [by apply triple_set; intros v [[? ?] ?]|]. intros _.
  apply triple_setRadioState. intros v [[H1 H2] H3]. by split; (split; [split; [by right; left|done]|by left]).
Qed.
End radio.

(** ** Steps *)

(** A request, a line nobody asked for, a callback, the channel opened again, or the
    reader's own work on the channel.  What the system answers may change. *)
Inductive alt_trans `{AP : at_port} : rild -> rild -> Prop :=
| alt_trans_request env request data s s' : typed data -> onRequest env request data s = Ret (tt, s') -> alt_trans s s'
| alt_trans_unsolicited env line sms_pdu s s' : onUnsolicited env line sms_pdu s = Ret (tt, s') -> alt_trans s s'
| alt_trans_initialize env s s' : initializeCallback env s = Ret (tt, s') -> alt_trans s s'
| alt_trans_data_calls env s s' : onDataCallListChanged env s = Ret (tt, s') -> alt_trans s s'
| alt_trans_poll s s' : pollSIMState s = Ret (tt, s') -> alt_trans s s'
| alt_trans_calls s s' : sendCallStateChanged s = Ret (tt, s') -> alt_trans s s'
| alt_trans_closed s s' : onATReaderClosed s = Ret (tt, s') -> alt_trans s s'
| alt_trans_timeout s s' : onATTimeout s = Ret (tt, s') -> alt_trans s s'
| alt_trans_reopen s s' : reopen s = Ret (tt, s') -> alt_trans s s'
| alt_trans_channel p s : port_ok p -> alt_trans s (mk_rild p (vars s) (events s)).

Section steps.
Context `{AP : at_port} `{AL : !at_port_laws Partial}.

Lemma alt_trans_sound s s' : alt_trans s s' -> sound s -> sound s'.
Proof.
  intros Ht Hs. pose proof (sound_good _ Hs) as Hg. set (n := completions s) in *. clearbody n.
  destruct Ht as [env request data s s' Hd E|env line pdu s s' E|env s s' E|env s s' E|s s' E|s s' E|s s' E|s s' E|s s' E|p s Hp].
  - destruct (wp_sound _ _ _ _ _ (alt_onRequest_keeps env _ _ _ _ Hg Hd) E) as (k & Hk & _). by eapply good_sound.
  - eapply good_sound. exact (wp_sound _ _ _ _ _ (alt_onUnsolicited_keeps env _ _ _ _ Hg) E).
  - eapply good_sound. exact (wp_sound _ _ _ _ _ (alt_initializeCallback_keeps env _ _ Hg) E).
  - eapply good_sound. exact (wp_sound _ _ _ _ _ (alt_requestOrSendDataCallList_keeps env _ _ false None Hg) E).
  - eapply good_sound. exact (wp_sound _ _ _ _ _ (alt_pollSIMState_keeps _ _ Hg) E).
  - eapply (good_sound n). eapply (wp_sound sendCallStateChanged (fun _ => good n)); [|exact E]. unfold sendCallStateChanged, RilCalls.sendCallStateChanged. ril_auto.
  - eapply good_sound. exact (wp_sound _ _ _ _ _ (alt_closed_keeps _ _ Hg) E).
  - eapply good_sound. exact (wp_sound _ _ _ _ _ (alt_closed_keeps _ _ Hg) E).
  - eapply good_sound. exact (wp_sound _ _ _ _ _ (reopen_keeps _ _ Hg) E).
  - by destruct Hs.
Qed.

Lemma alt_trans_radio s s' : alt_trans s s' -> radio_ok (vars s) -> radio_ok (vars s').
Proof.
  intros [env request data s0 s1 Hd E|env line pdu s0 s1 E|env s0 s1 E|env s0 s1 E|s0 s1 E|s0 s1 E|s0 s1 E|s0 s1 E|s0 s1 E|p s0 Hp].
  - by apply (radio_onRequest env request data _ _ _ E).
  - by apply (radio_onUnsolicited env line pdu _ _ _ E).
  - by apply (radio_initialize env _ _ _ E).
  - by apply (frames_triple radio_ok _ (frames_calls env false None) _ _ _ E).
  - by apply (frames_triple radio_ok _ frames_pollSIMState _ _ _ E).
  - by apply (frames_triple radio_ok _ (frames_unsolicited _ _) _ _ _ E).
  - by apply (radio_closed _ _ _ E).
  - by apply (radio_closed _ _ _ E).
  - by injection E as <-.
  - done.
Qed.

Lemma alt_reachable s s' : rtc alt_trans s s' -> sound s /\ radio_ok (vars s) -> sound s' /\ radio_ok (vars s').
Proof. induction 1; [done|]. intros [H1 H2]. eauto using alt_trans_sound, alt_trans_radio. Qed.
End steps.

(** ** Properties *)


Lemma lte_vars_ok : vars_ok lte_vars.
Proof. split; cbn; unfold mdm_ok, int_ok, INT_MIN, INT_MAX, MDM_LTE; cbn; lia. Qed.


(** A request of CDMA; an LTE modem has none. *)
Definition cdma_only (r : ril_request) : Prop :=
  r ∈ [DEVICE_IDENTITY; CDMA_SUBSCRIPTION; CDMA_SET_SUBSCRIPTION_SOURCE; CDMA_GET_SUBSCRIPTION_SOURCE;
       CDMA_QUERY_ROAMING_PREFERENCE; CDMA_SET_ROAMING_PREFERENCE; EXIT_EMERGENCY_CALLBACK_MODE].

(** A request with the radio on is the switch's. *)
Lemma alt_onRequest_on `{AP : at_port} env request data s :
  sState (vars s) = RADIO_STATE_ON -> onRequest env request data s = handle env request data s.
Proof. intros Hs. unfold onRequest. rewrite run_get, Hs. reflexivity. Qed.

(** C8: from the initial values of the variables, every sequence of requests, lines nobody
    asked for, callbacks, closings and re-openings of the channel leaves the radio off,
    on or not available - the states of a card are never entered, so that polling the
    card does nothing -, not available when the channel is closed, the variables well
    typed and the buffer of messages at its size.  While the radio is on the modem is an
    LTE modem: the technology of voice is asked for in vain, and the requests of CDMA
    are answered as not supported. *)
Theorem sim_never_polled `{AP : at_port} `{AL : !at_port_laws Partial} (p : port) (s : rild) :
  port_ok p -> rtc alt_trans (mk_rild p vars_init []) s ->
  sState (vars s) ∈ [RADIO_STATE_OFF; RADIO_STATE_UNAVAILABLE; RADIO_STATE_ON] /\
  (s_closed (vars s) = 1 -> sState (vars s) = RADIO_STATE_UNAVAILABLE) /\
  vars_ok (vars s) /\ length (sms_buffer (vars s)) = SMS_BUFFER /\
  pollSIMState s = Ret (tt, s) /\
  (forall env data, sState (vars s) = RADIO_STATE_ON ->
     onRequest env (Shared VOICE_RADIO_TECH) data s =
       Ret (tt, mk_rild (chan s) (vars s) (events s ++ [Complete RIL_E_GENERIC_FAILURE DNone])) /\
     forall r, cdma_only r -> onRequest env (Shared r) data s =
       Ret (tt, mk_rild (chan s) (vars s) (events s ++ [Complete RIL_E_REQUEST_NOT_SUPPORTED DNone]))).
Proof.
  intros Hp Hr. destruct (alt_reachable _ _ Hr) as ((_ & Hv) & (Hs & Hl) & Hm).
  { split; [by split; [|exact vars_init_ok]|]. by split; [split; [right; left|]|left]. }
  split_and!; [|by destruct Hv|done|done| |].
  - rewrite !elem_of_cons. destruct Hs as [->|[->| ->]]; auto.
  - unfold pollSIMState. rewrite run_get. by destruct Hs as [->|[->| ->]].
  - intros env data Ho. destruct Hm as [Hm|Hm]; [congruence|]. split.
    + rewrite alt_onRequest_on by done. cbn [handle handle_shared]. unfold AltNetwork.requestVoiceRadioTech, RilNetwork.requestVoiceRadioTech.
      by rewrite run_get, Hm.
    + intros r Hc. rewrite alt_onRequest_on by done. unfold cdma_only in Hc. rewrite !elem_of_cons, elem_of_nil in Hc.
      assert (forall m, cdma_request m s = not_supported s) as Hn by (intros m; unfold cdma_request, TECH_BIT; by rewrite run_get, Hm).
      decompose [or] Hc; subst; try done; cbn [handle handle_shared]; by rewrite Hn.
Qed.

Lemma sim_never_polled_witness :
  let s := @mk_rild dead_modem [] (set_closed 1 vars_init) [] in
  rtc (@alt_trans dead_modem) (@mk_rild dead_modem [] vars_init []) s /\ sState (@vars dead_modem s) = RADIO_STATE_UNAVAILABLE /\ @pollSIMState dead_modem s = Ret (tt, s).
Proof.
  intros s.
  assert (rtc (@alt_trans dead_modem) (@mk_rild dead_modem [] vars_init []) s) as Hr by (apply rtc_once, alt_trans_closed; reflexivity).
  destruct (@sim_never_polled dead_modem dead_modem_laws [] s I Hr) as (_ & H1 & _ & _ & H2 & _).
  split; [exact Hr|]. split; [by apply H1|exact H2].
Defined.

(** *** Flight mode *)

(** The interfaces of the networks, brought down in order. *)
Definition downs (tbl : list PdnTableEntry) : list ril_event := map (fun e => Interface (IFNAME (sessionId e)) false) tbl.

Lemma run_interfaces_down `{AP : at_port} env tbl : (forall n, 0 <= ifc_init env n) -> forall s : rild,
  interfaces_down env tbl s = Ret (true, mk_rild (chan s) (vars s) (events s ++ downs tbl)).
Proof.
  intros Hi. induction tbl as [|e tbl IH]; intros s; cbn [interfaces_down].
  - cbn. rewrite app_nil_r. by destruct s.
  - rewrite run_ifc_config, (proj2 (Z.ltb_ge _ _) (Hi _)). change (0 <? 0) with false. cbn match. rewrite IH. cbn [chan vars events].
    by rewrite <- app_assoc.
Qed.

(** The last error of attempts that were silent. *)
Lemma tried_silent_last `{AP : at_port} q errs : forall p p2 d, d < 0 -> tried q p (map Silent errs) p2 -> List.last errs d < 0.
Proof.
  induction errs as [|e errs IH]; intros p p2 d Hd H; [done|]. inversion H as [| | |? ? ? ? ? ? He ? Ht]; subst.
  rewrite last_cons_default. by eapply IH.
Qed.

(** The state of a radio that is not closed. *)
Lemma run_setRadioState_off `{AP : at_port} (s : rild) {B} (k : unit -> ril B) :
  s_closed (vars s) = 0 -> sState (vars s) = RADIO_STATE_ON ->
  (x ← setRadioState RADIO_STATE_OFF; k x) s =
    k tt (mk_rild (chan s) (set_state RADIO_STATE_OFF (vars s)) (events s ++ [Unsolicited RIL_UNSOL_RESPONSE_RADIO_STATE_CHANGED DNone])).
Proof. intros Hc Hs. unfold setRadioState, mbind, ril_bind. cbn. rewrite Hc. cbn. rewrite Hs. reflexivity. Qed.

(** Up to the command that stops the radio. *)
Lemma run_power_off modem env tbl (s : @rild (modem_port modem)) data l :
  tells_at modem (length (chan s)) pdnact (map render_pdn tbl) -> table_ok tbl -> (forall n, 0 <= ifc_init env n) ->
  data = RInts (0 :: l) -> sState (vars s) = RADIO_STATE_ON ->
  @requestRadioPower (modem_port modem) env data s =
    ('(err, h) ← at_send_command_reliable (s2b "AT+CFUN=4") true NUM_OF_RETRANSMIT;
     failed ← lift (held_failed err h);
     if failed : bool then power_answer h RIL_E_GENERIC_FAILURE
     else _ ← setRadioState RADIO_STATE_OFF; power_answer h RIL_E_SUCCESS)
    (@mk_rild (modem_port modem) (chan s ++ [pdnact]) (vars s) (events s ++ downs tbl)).
Proof.
  intros Ht Hok Hi -> Ho. unfold requestRadioPower. rewrite (run_bind (lift (ints (RInts (0 :: l)))) _ s (0 :: l) s eq_refl).
  rewrite (run_bind (lift (c_assert (1 <=? length (0%Z :: l))%nat)) _ s tt s eq_refl), (run_bind (lift (arr_rd (0 :: l) 0)) _ s 0 s eq_refl), run_get, Ho.
  change ((0 =? 0) && negb (bool_decide (RADIO_STATE_ON = RADIO_STATE_OFF))) with true. cbn match. unfold power_off.
  rewrite (run_bind _ _ _ _ _ (run_table_at modem tbl s Ht Hok)). cbn match.
  by rewrite (run_bind _ _ _ _ _ (run_interfaces_down env tbl Hi (@mk_rild (modem_port modem) _ _ _))).
Qed.

Lemma run_power_answer `{AP : at_port} h e (s : rild) :
  h <> Freed -> power_answer h e s = Ret (tt, mk_rild (chan s) (vars s) (events s ++ [Complete e DNone])).
Proof. by destruct h. Qed.

(** What is accepted is a success. *)
Lemma tried_accepted_success `{AP : at_port} q p l p2 r : tried q p l p2 -> Accepted r ∈ l -> success r <> 0.
Proof. induction 1; rewrite ?elem_of_cons, ?elem_of_nil; intros Hr; try done; destruct Hr as [Hr|Hr]; auto; by injection Hr as ->. Qed.

(** C13: flight mode, from a radio that is on, for a table of networks that the modem
    gives: the interfaces of all of them are brought down, in the table's order, and the
    command that stops the radio is sent until it is accepted, six times at most.  When
    it is accepted the radio is off, and the framework is told so before the request is
    answered.  Six silences fail, and leave the radio on with its interfaces down.  When
    the last of six attempts is refused, the response is read after it was freed. *)
Theorem radio_power_off (modem : nat -> at_request -> Z * option ATResponse) (env : alt_env) (tbl : list PdnTableEntry)
  (m : nat) (errs : list Z) (l : list Z) (s : @rild (modem_port modem)) (p : @port (modem_port modem)) :
  tells_at modem (length (chan s)) pdnact (map render_pdn tbl) -> table_ok tbl -> (forall n, 0 <= ifc_init env n) ->
  sState (vars s) = RADIO_STATE_ON -> s_closed (vars s) = 0 ->
  let off := @requestRadioPower (modem_port modem) env (RInts (0 :: l)) s in
  let attempts := @tried (modem_port modem) cfun4 (chan s ++ [pdnact]) in
  (forall r, (length errs + m <= 5)%nat -> attempts (map Silent errs ++ replicate m Refused ++ [Accepted r]) p ->
     off = Ret (tt, @mk_rild (modem_port modem) p (set_state RADIO_STATE_OFF (vars s))
       (events s ++ downs tbl ++ [Unsolicited RIL_UNSOL_RESPONSE_RADIO_STATE_CHANGED DNone; Complete RIL_E_SUCCESS DNone]))) /\
  (length errs = 6%nat -> attempts (map Silent errs) p ->
     off = Ret (tt, @mk_rild (modem_port modem) p (vars s) (events s ++ downs tbl ++ [Complete RIL_E_GENERIC_FAILURE DNone]))) /\
  ((length errs + m = 6)%nat -> (0 < m)%nat -> attempts (map Silent errs ++ replicate m Refused) p -> off = Ub).
Proof.
  intros Ht Hok Hi Ho Hc off attempts. subst off attempts. rewrite (run_power_off modem env tbl s _ l) by done.
  unfold at_send_command_reliable. fold cfun4. set (s1 := @mk_rild (modem_port modem) (chan s ++ [pdnact]) _ _). split_and!.
  - intros r Hn H. destruct (run_reliable cfun4 5 m errs s1 r p Hn H) as [E _]. rewrite (run_bind _ _ _ _ _ E).
    apply tried_accepted_success with (r := r) in H; [|by apply elem_of_app; right; apply elem_of_app; right; constructor].
    unfold held_failed. cbn [Z.ltb Z.compare held_get mbind outcome_bind]. rewrite (proj2 (Z.eqb_neq _ _) H).
    rewrite (run_bind (lift (Ret _)) _ _ _ _ eq_refl), run_setRadioState_off by done. rewrite run_power_answer by done.
    unfold s1. cbn [chan vars events]. by rewrite <- !app_assoc.
  - intros Hn H. rewrite <- (app_nil_r (map _ errs)) in H.
    pose proof (run_reliable_failed cfun4 5 0 errs s1 p ltac:(lia) H) as E. rewrite (run_bind _ _ _ _ _ E).
    rewrite app_nil_r in H. pose proof (tried_silent_last cfun4 errs _ _ (-1) ltac:(lia) H) as Hl.
    change (0 =? 0)%nat with true. cbn match. unfold held_failed. rewrite (proj2 (Z.ltb_lt _ _) Hl).
    rewrite (run_bind (lift (Ret _)) _ _ _ _ eq_refl), run_power_answer by done. unfold s1. cbn [chan vars events]. by rewrite <- !app_assoc.
  - intros Hn Hm H. pose proof (run_reliable_failed cfun4 5 m errs s1 p Hn H) as E. rewrite (run_bind _ _ _ _ _ E).
    by destruct m; [lia|].
Qed.

(** A modem with the table of [network_modem] that is slow to stop its radio; one that
    says nothing more; one that refuses to. *)
Definition flight_modem (rest : nat -> at_request -> Z * option ATResponse) (n : nat) (q : at_request) : Z * option ATResponse :=
  match n with O => network_modem true 1 O pdnact | S n => rest n q end.

Lemma radio_power_off_witness :
  let run rest := @requestRadioPower (modem_port (flight_modem rest)) lte_env (RInts [0])
    (@mk_rild (modem_port (flight_modem rest)) [] lte_vars []) in
  let interfaces := [Interface (s2b "eth1") false; Interface (s2b "eth1.4") false] in
  run slow_modem = Ret (tt, @mk_rild (modem_port (flight_modem slow_modem)) (pdnact :: replicate 3 cfun4) (set_state RADIO_STATE_OFF lte_vars)
    (interfaces ++ [Unsolicited RIL_UNSOL_RESPONSE_RADIO_STATE_CHANGED DNone; Complete RIL_E_SUCCESS DNone])) /\
  run (fun _ _ => (AT_ERROR_TIMEOUT, None)) =
    Ret (tt, @mk_rild (modem_port (flight_modem (fun _ _ => (AT_ERROR_TIMEOUT, None)))) (pdnact :: replicate 6 cfun4) lte_vars
      (interfaces ++ [Complete RIL_E_GENERIC_FAILURE DNone])) /\
  run refusing_modem = Ub.
Proof.
  intros run interfaces.
  assert (table_ok [internet; mms]) as Hok by (split; [exact internet_ok|by vm_compute; lia]).
  assert (forall rest, tells_at (flight_modem rest) 0 pdnact (map render_pdn [internet; mms])) as Ht
    by (intros rest; eexists; split_and!; [reflexivity|done|done]).
  pose proof (fun rest m errs p => radio_power_off (flight_modem rest) lte_env [internet; mms] m errs []
    (@mk_rild (modem_port (flight_modem rest)) [] lte_vars []) p (Ht rest) Hok (fun _ => Z.le_refl 0) eq_refl eq_refl) as H.
  split_and!.
  - apply (proj1 (H slow_modem 1%nat [AT_ERROR_TIMEOUT] (pdnact :: replicate 3 cfun4)) acceptance); [cbn; lia|].
    repeat (econstructor; try reflexivity; try done).
  - refine (proj1 (proj2 (H _ 0%nat (replicate 6 AT_ERROR_TIMEOUT) (pdnact :: replicate 6 cfun4))) eq_refl _).
    repeat (econstructor; try reflexivity; try done).
  - apply (proj2 (proj2 (H refusing_modem 6%nat [] (pdnact :: replicate 6 cfun4)))); [done|lia|].
    repeat (econstructor; try reflexivity; try done).
Defined.

(** *** A message that arrives *)

(** The line that announces a message of [n] bytes, or a report on one. *)
Definition sms_line (report : bool) (alpha : bytes) (n : nat) : bytes :=
  s2b (if report then "+CDS:" else "+CMT:") ++ [32] ++ field true alpha ++ COMMA :: print_int (Z.of_nat n).
Definition sms_event (report : bool) : RIL_Unsol :=
  if report then RIL_UNSOL_RESPONSE_NEW_SMS_STATUS_REPORT else RIL_UNSOL_RESPONSE_NEW_SMS.

(** The lengths that are compared. *)
Lemma isGSM_sms_line report alpha n pdu :
  field_ok true alpha -> Z.of_nat n < 2 ^ 30 -> Z.of_nat (length pdu) < 2 ^ 31 ->
  isGSMSmsUnsolicited (sms_line report alpha n) (Some pdu) = Ret (b2z (negb (Z.of_nat n * 2 =? Z.of_nat (length pdu)))).
Proof.
  intros Ha Hn Hp. unfold isGSMSmsUnsolicited, sms_line.
  set (fields := [32] ++ field true alpha ++ COMMA :: print_int (Z.of_nat n)).
  assert (read_start (Some (s2b (if report then "+CDS:" else "+CMT:") ++ fields)) = Some (Some fields)) as -> by (by destruct report).
  cbn [mbind option_bind]. unfold fields.
  assert (read_str (Some ([32] ++ field true alpha ++ COMMA :: print_int (Z.of_nat n))) = Some (Some alpha, Some (print_int (Z.of_nat n)))) as ->
    by exact (read_field true alpha _ Ha).
  cbn [mbind option_bind]. rewrite read_last by (unfold int_ok, INT_MIN, INT_MAX; lia).
  cbn [checked mbind outcome_bind]. by rewrite !s32_small by (unfold INT_MIN, INT_MAX; lia).
Qed.

(** The line is the message's, and goes to the socket after it. *)
Lemma run_sms_arrived `{AP : at_port} env report alpha n pdu (s s1 : rild) :
  sState (vars s) <> RADIO_STATE_UNAVAILABLE -> field_ok true alpha -> Z.of_nat n < 2 ^ 30 -> Z.of_nat (length pdu) < 2 ^ 31 ->
  (if Z.of_nat n * 2 =? Z.of_nat (length pdu) then notifynewCdmaSMS pdu else unsolicited (sms_event report) (DString pdu)) s = Ret (tt, s1) ->
  onUnsolicited env (sms_line report alpha n) (Some pdu) s =
    Ret (tt, mk_rild (chan s1) (vars s1) (events s1 ++ if at_socket env (length (events s1)) then [ToSocket (sms_line report alpha n)] else [])).
Proof.
  intros Hs Ha Hn Hp E. unfold onUnsolicited. rewrite run_get. rewrite bool_decide_eq_false_2 by done.
  assert (unsolicited_line env (sms_line report alpha n) (Some pdu) s = Ret (Passed, s1)) as Eu.
  { assert (unsolicited_line env (sms_line report alpha n) (Some pdu) = sms_arrived (sms_event report) (sms_line report alpha n) (Some pdu)) as ->.
    { unfold unsolicited_line, sms_line. set (fields := [32] ++ _). destruct report, (sdk env); reflexivity. }
    unfold sms_arrived. rewrite (isGSM_sms_line report alpha n pdu Ha Hn Hp).
    rewrite (run_bind (lift (Ret _)) _ s _ s eq_refl). destruct (Z.of_nat n * 2 =? Z.of_nat (length pdu)); cbn [negb b2z];
      (change (_ <? 0) with false); cbn match; rewrite (run_bind (lift (checked (Some pdu))) _ s pdu s eq_refl);
      cbn [Z.eqb negb]; by rewrite (run_bind _ _ _ _ _ E). }
  rewrite (run_bind _ _ _ _ _ Eu). unfold mbind, ril_bind. cbn.
  destruct (at_socket env (length (events s1))); [done|]. rewrite app_nil_r. by destruct s1.
Qed.

Lemma ret_pair {A B} (a c : A) (b d : B) : Ret (a, b) = Ret (c, d) -> a = c /\ b = d.
Proof. by intros [= -> ->]. Qed.

(** What the framework and the client of the socket have of an announced message. *)
Definition sms_handed `{AP : at_port} (env : alt_env) (line : bytes) (v : ril_vars) (u : RIL_Unsol) (d : ril_data) (s : rild) : rild :=
  mk_rild (chan s) v
    (events s ++ [Unsolicited u d] ++ if at_socket env (S (length (events s))) then [ToSocket line] else []).

(** C24: a message that the modem announces, while the radio is available, with its length.
    The length of a GSM message does not count the address of its service centre, so
    that a message with one is told from a CDMA message and handed up as it is, as a
    message or as a report.  The text and the length that a CDMA message is sent with
    are decoded again, and handed up with its teleservice and data as a new message,
    reports included, whatever message was received before.  Either way the line goes
    to the client of the AT socket afterwards, when there is one. *)
Theorem arriving_sms_reported `{AP : at_port} (env : alt_env) (report : bool) (alpha : bytes) (s : rild) :
  sState (vars s) <> RADIO_STATE_UNAVAILABLE -> field_ok true alpha ->
  let line n := sms_line report alpha n in
  (forall smsc tpdu, (0 < length smsc)%nat -> Z.of_nat (length (smsc ++ tpdu)) < 2 ^ 30 ->
     let pdu := hex_text (smsc ++ tpdu) in
     onUnsolicited env (line (length tpdu)) (Some pdu) s =
       Ret (tt, sms_handed env (line (length tpdu)) (vars s) (sms_event report) (DString pdu) s)) /\
  (forall m pdu n, cdma_sms_ok m -> length (sms_buffer (vars s)) = SMS_BUFFER -> cdma_encode m = Ret (pdu, Z.of_nat n) ->
     exists buffer, length buffer = SMS_BUFFER /\
     onUnsolicited env (line n) (Some pdu) s =
       Ret (tt, sms_handed env (line n) (set_sms_buffer buffer (vars s)) RIL_UNSOL_RESPONSE_CDMA_NEW_SMS (DCdmaMessage (cdma_back m)) s)).
Proof.
  intros Hs Ha line. split.
  - intros smsc tpdu Hk Hn pdu. subst line. cbv beta. rewrite length_app in Hn.
    assert (Z.of_nat (length pdu) = 2 * Z.of_nat (length smsc) + 2 * Z.of_nat (length tpdu)) as Hl
      by (unfold pdu; rewrite hex_text_length, length_app; lia).
    rewrite (run_sms_arrived env report alpha (length tpdu) pdu s
      (mk_rild (chan s) (vars s) (events s ++ [Unsolicited (sms_event report) (DString pdu)]))); [|done|done|lia|lia|].
    + unfold sms_handed. cbn [chan vars events]. rewrite length_app, Nat.add_comm. by rewrite <- app_assoc.
    + rewrite (proj2 (Z.eqb_neq _ _)) by lia. done.
  - intros m pdu n Hm Hl E. subst line. cbv beta. pose proof (cdma_encode_sent m Hm) as E'.
    apply (eq_trans (eq_sym E')), ret_pair in E as [<- E]. apply Nat2Z.inj in E. subst n. clear E'.
    pose proof (cdma_sent_length m Hm) as Hn. unfold SMS_BUFFER in *.
    exists (cdma_sent m ++ drop (length (cdma_sent m)) (sms_buffer (vars s))).
    split; [rewrite length_app, length_drop; lia|].
    pose proof (notify_sent m s Hm Hl) as En.
    rewrite (run_sms_arrived env report alpha (length (cdma_sent m)) (hex_text (cdma_sent m)) s
      (mk_rild (chan s) (set_sms_buffer (cdma_sent m ++ drop (length (cdma_sent m)) (sms_buffer (vars s))) (vars s))
        (events s ++ [Unsolicited RIL_UNSOL_RESPONSE_CDMA_NEW_SMS (DCdmaMessage (cdma_back m))])) Hs Ha).
    + unfold sms_handed. cbn [chan vars events]. rewrite length_app, Nat.add_comm. by rewrite <- app_assoc.
    + lia.
    + rewrite hex_text_length. lia.
    + rewrite hex_text_length, (proj2 (Z.eqb_eq _ _)) by lia. exact En.
Qed.

(** A message of two bytes from a centre of one; the message of [cdma_example]. *)
Lemma arriving_sms_reported_witness :
  let run := @onUnsolicited dead_modem lte_env in
  let s := @mk_rild dead_modem [] (set_sms_buffer (replicate SMS_BUFFER 0) lte_vars) [] in
  run (s2b "+CMT: " ++ [34; 34] ++ s2b ",2") (Some (s2b "00AB01")) s =
    Ret (tt, @mk_rild dead_modem [] (vars s) [Unsolicited RIL_UNSOL_RESPONSE_NEW_SMS (DString (s2b "00AB01"));
      ToSocket (s2b "+CMT: " ++ [34; 34] ++ s2b ",2")]) /\
  exists buffer, run (s2b "+CDS: " ++ [34; 34] ++ s2b ",16") (Some (s2b "0000021002040501D55448D00802ABCD")) s =
    Ret (tt, @mk_rild dead_modem [] (set_sms_buffer buffer lte_vars)
      [Unsolicited RIL_UNSOL_RESPONSE_CDMA_NEW_SMS (DCdmaMessage (cdma_back cdma_example)); ToSocket (s2b "+CDS: " ++ [34; 34] ++ s2b ",16")]).
Proof.
  intros run s. assert (field_ok true []) as Ha by (by apply not_elem_of_nil).
  destruct (@arriving_sms_reported dead_modem lte_env false [] s ltac:(done) Ha) as [H1 _].
  destruct (@arriving_sms_reported dead_modem lte_env true [] s ltac:(done) Ha) as [_ H2]. split.
  - exact (H1 [0] [0xAB; 1] ltac:(cbn; lia) ltac:(cbn; lia)).
  - destruct (H2 cdma_example _ _ cdma_example_ok eq_refl (cdma_encode_sent cdma_example cdma_example_ok)) as (b & _ & E). exists b. exact E.
Defined.
